(* ===== verification/_CoqProject ===== *)
-Q . S2P
Prelude.v
Bitops.v
Bitmap.v
MemRegion.v
MemBlock.v
Stage2.v
Stage1.v
VmmArea.v
Vmm.v
Sched.v
Sync.v
Virq.v
Vgic.v
Vgicv2.v
Memory.v
Timer.v
Shmem.v
Task.v
Irq.v
Vm.v
VmPm.v
Vdev.v
Trap.v
Hypercall.v
Vmbox.v
Vtimer.v
Virtio.v
Periph.v
Vmodule.v
Vgicv3.v
Vgicv3Dev.v
Strings.v
Ramdisk.v
Virtq.v
Smp.v
Console.v
Of.v
GicChip.v
Gicv2Drv.v
Gicv3Drv.v
BlockProc.v
Blockif.v
