(* ===== verification/Prelude.v ===== *)
(** * Verification of the Minos hypervisor

    Minos is a type 1 hypervisor for 64-bit ARM.  It boots on the physical
    CPUs, keeps its own heap, tasks, timers and interrupt descriptors, and runs
    virtual machines: each VM has a stage 2 page table, an address space, vcpus
    (tasks that enter the guest), virtual interrupts and virtual devices.  A
    host VM manages the guests through hypercalls.  This library models the
    core of the hypervisor as executable definitions, one file per component,
    and proves what makes each component correct.

    ** Conventions

    A [w]-bit unsigned integer is a [Z] whose wrap-around is written out
    ([u8], [u16], [u32], [u64]); C arrays and bitmaps are lists indexed by
    position; lists linked through [list_head] are lists of the names of their
    members.  A failed ASSERT, a panic, a NULL dereference and an access outside
    of an array or to freed memory are the result [None] of the option monad;
    error codes are the negative numbers of errno.h.  A loop whose bound is not
    structural takes fuel; the theorem about it says which fuel is enough or
    that the function used by the callers, which supplies it, returns.  What
    runs outside of src/core and src/virt (the drivers, the guest, the device
    tree library) is an argument, and the calls made to it are recorded in
    order.  Locks make each operation one step; interleavings are sequences of
    operations, and where the code waits or sleeps the rest of the machine is
    an arbitrary function subject to named hypotheses.

    ** The files

    - Prelude: machine integers, error numbers, alignment, the tactics and
      generic lemmas.
    - Bitops, Bitmap: arch/aarch64/include/asm/bitops.h, core/hweight.c,
      core/find_bit.c, core/bitmap.c, arch/aarch64/lib/bitops.S.  Searches,
      ranges and population counts against their specification on bits.
    - MemRegion: core/mem_region.c, the table of physical memory.
    - MemBlock: virt/vmm.c, the allocator of 2 MB blocks for guests.
    - Stage2: arch/aarch64/virt/stage2.c, the guest page tables.  The
      abstract view of a table is the function [walk] from guest pages to
      physical pages; mapping, unmapping and translation are stated on it.
    - Stage1: arch/aarch64/core/stage1.c and core/vspace.c, the page table of
      the hypervisor itself, stated on the same kind of walk.
    - VmmArea, Vmm: virt/vmm.c, the areas of a guest address space and the
      guest memory built from areas, blocks and page tables.
    - Memory: core/memory.c, malloc and the page allocator.
    - Sched: core/sched.c and the task headers, ready lists and switching.
    - Sync: core/event.c, sem.c, mutex.c, mbox.c, queue.c, flag.c.
    - Timer: core/timer.c and the timer interrupt of arm_arch_timer.c.
    - Task: core/task.c, ids, creation and release of tasks.
    - Irq: core/irq.c, descriptors and dispatch of physical interrupts.  The
      handlers are arguments: each call gives a result and the operations of the
      interrupt core that the handler performs, in the state it is called in.
    - Virq: virt/virq.c, virtual interrupts of a VM.
    - Vgic: virt/virq_chips/vgic.c and virq_chip.c, delivery through list
      registers, against the class [ListRegisters] of what a chip promises.
    - Vgicv2: virt/virq_chips/vgicv2.c, an instance of that class, with the
      emulated distributor and the context switch of the interface.
    - Shmem: virt/shmem.c, pages shared between VMs.
    - Vm, VmPm: virt/vm.c, vm_pm.c, vm_daemon.c, vmcs.c, hypercall.c,
      creation, destruction, start, power off, reboot, suspend of VMs.
    - Vdev: virt/vdev.c, the virtual devices of a VM and the dispatch of its
      accesses to them, or to the host VM.
    - Trap: arch/aarch64/virt/trap.c, svc_service.c, virt/vfault.c, the
      exceptions of a guest; the devices are those of Vdev.
    - Hypercall: arch/aarch64/virt/smc_service.c, virt/hypercall.c, vmcs.c,
      the calls of a guest, on the VMs of Vm and VmPm, routed by the tables of the
      registered handlers; those of the debug console and of the platform are
      arguments.
    - Vmbox: virt/vmbox, message boxes between VMs.
    - Vtimer: arch/aarch64/virt/vtimer.c, core/stdlib.c, the virtual timers and
      the conversion of times.
    - Virtio: virt/virtio_mmio.c, the registers of virtio devices.
    - Periph: virt/vwdt.c, vrtc.c, the virtual watchdog and clock.
    - Vmodule: virt/vmodule.c, arch/aarch64/virt/arch_virt.c, vfp.c, the context
      of a vcpu and its switch, among any other modules that keep off its
      registers (class [Foreign], which the module of Vgicv3 satisfies).
    - Vgicv3, Vgicv3Dev: virt/virq_chips/vgicv3.c, the second instance of
      [ListRegisters], the emulated distributor and redistributors, and the
      creation of the device.
    - Strings: core/string.c, print.c, bootarg.c, numbers to text and back,
      formatted output, the log and the boot arguments.
    - Ramdisk: tools/mkrmd/mkrmd.c and core/ramdisk.c, the image of the ramdisk,
      from the tool that makes it to the code that reads it.
    - Virtq: tools/mvm/devices/virtio/virtio.c, the virtqueues of the user space
      monitor; the memory shared with the guest is a function of time, so the
      guest may change it between any two reads, and a read outside of the mapped
      memory faults.
    - Smp: core/smp.c, calls between cpus as interleaved steps of callers and
      handlers over the call slots, and the start of the cpus.  Memory is
      sequentially consistent.
    - Console: drivers/console.c, tty.c, virt/debug_console.c and the console of
      the guest driver (vmbox_console.c), from the ring of a guest to the log.
    - Of: drivers/of/of.c, of_mm.c, the device tree, against a class [Fdt] of
      what libfdt promises, with a concrete tree as its instance.
    - GicChip: the interface between core/irq.c and the drivers of interrupt
      controllers ([IrqChip] and its laws [IrqChipLaws]), the lines of an
      abstract controller, arch/aarch64/core/arch.c and cpu_feature.c.
    - Gicv2Drv, Gicv3Drv: drivers/irq-chips/gicv2.c and gicv3.c, two instances
      of that interface over the classes [Gicv2Hw] and [Gicv3Hw] of what the
      registers of the hardware promise, each with a simulated controller.
    - BlockProc, Blockif: tools/mvm/devices/block_if.c and virtio_block.c, the
      block devices of the monitor: the transfer of data over the class [Disk] of
      the system calls, and the queues, threads and callers as interleaved steps.

    ** What the theorems show

    - Isolation: the memory blocks, pages, heap blocks, shared pages and task
      structures that an allocator hands out overlap nothing that is in use
      (Vmm, MemBlock, Memory, Shmem, Task); a guest mapping changes exactly the
      pages of its range and translation gives back what was mapped (Stage2,
      Vmm).  An access of a guest to its devices changes only its own state
      (Virtio, Vmbox, Vgicv3), and a new vcpu runs on the page table of its own
      VM (Vmodule).
    - Invariants of the state under every sequence of operations: the heap and
      page lists (Memory), the VM table (VmPm), the interrupt descriptors
      (Irq), the ready lists over the exception return path (Sched), the list
      registers (Vgic), the devices (Vdev) and message boxes (Vmbox); a guest
      call keeps the VM table where the operations it is given do, and CPU_ON
      starts a vcpu of the VM of the caller (Hypercall).
    - Round trips: the context, timers and interrupt interface of a vcpu survive
      being switched out and in (Vmodule, Vtimer, Vgicv2, Vgicv3), numbers
      survive printing and parsing, boot arguments their text (Strings), and
      files the ramdisk image (Ramdisk).
    - Delivery: an interrupt reaches its handler (Irq), a virq its vcpu (Virq)
      and a list register (Vgic), a due timer its handler (Timer), a wake-up
      its task (Sched, Sync).
    - Refinement and equivalence: the message queue is a bounded double ended
      queue (Sync), the affinity check decides distinctness (Vm),
      the watchdog is an automaton of three states (Periph), the events of a
      message box are a set (Vmbox), formatting prints the directives of the
      format one by one, numbers in positional notation (Strings).
    - Input that is not trusted: a chain of descriptors read from the memory of
      a guest that changes under the monitor stays inside of its buffers
      (Virtq), and notifications are sent exactly when the guest asked.
    - Concurrency: calls between cpus run once, in the order of their caller, and
      complete when every cpu goes on handling its interrupts (Smp); requests to a
      block device are answered once, and its threads end when it is closed
      (Blockif).
    - Device trees: translating an address through the ranges of the buses is
      the composition of the ranges, the tree of nodes built at boot has the
      nodes of the blob (Of).
    - Composition: after the boot of a GICv2 or a GICv3, any sequence of
      operations of the interrupt core leaves the lines of the controller as
      the descriptors say (GicChip, Gicv2Drv, Gicv3Drv).
    - Termination and liveness: interrupt and timer loops, the affinity search,
      the release of areas, shutting guests down and rebooting return.
    - Errors: what every refusing path leaves behind.

    Where the code does not do what it means to, the theorem has the
    precondition under which it does, and a lemma of the same file shows the
    deviation on the model.

    ** Bounds and fuel

    Loops over a bitmap get the number of its words, loops over page table
    levels the number of entries of a table, the interrupt loop one more than the
    number of reported interrupts, polling loops the number of polls of the
    code; for the expiry loop of the timers, which handlers prolong, the theorem
    shows that there is enough fuel (timers that are armed in it are not due).  Retry loops of exclusive loads succeed at the first attempt.

    ** Not modelled

    Assembly, barriers, caches and TLB maintenance, which have no effect the
    model could state.  The drivers of the serial ports, of drivers/iommu and of
    the boards (irq-bcm2836.c among them, but for its numbering of interrupts),
    whose effect is that of the hardware; the operations the hypervisor calls
    them through are arguments.  libfdt is a library and is the class [Fdt] of
    Of; virt/resource.c, virt/os and the creation of the virtual GICv2, which turn
    the device tree of a VM into calls of modelled operations through it.  The
    board specific chips bcm_virq.c and vaic.c.  The shell of the debug console.
    The user space tools other than mkrmd and the virtqueues and block devices of
    mvm, and the rest of the Linux driver, which run outside of the hypervisor.
*)
From Stdlib Require Export ZArith Lia.
From stdpp Require Export base numbers list list_numbers gmap option.

Declare Scope minos_scope.
Delimit Scope minos_scope with minos.
Global Open Scope Z_scope.

(** ** Machine integers

    A [w]-bit unsigned C object is a [Z] in [0, 2^w); the wrap-around of its
    arithmetic is the remainder written out by [u8], [u16], [u32] and [u64]. *)
Definition u8 (z : Z) : Z := z mod 2 ^ 8.
Definition u16 (z : Z) : Z := z mod 2 ^ 16.
Definition u32 (z : Z) : Z := z mod 2 ^ 32.
Definition u64 (z : Z) : Z := z mod 2 ^ 64.

(** The value of a bit pattern read as a two's complement [int]. *)
Definition s32 (z : Z) : Z := (z + 2 ^ 31) mod 2 ^ 32 - 2 ^ 31.

(** [~x] on an [unsigned long]. *)
Definition not64 (z : Z) : Z := Z.ldiff (2 ^ 64 - 1) z.

(** [!!x] *)
Definition b2z (b : bool) : Z := if b then 1 else 0.

Definition BITS_PER_LONG : Z := 64.

(** ** Error numbers (include/minos/errno.h) *)
Definition EPERM : Z := 1.
Definition ENOENT : Z := 2.
Definition EAGAIN : Z := 11.
Definition ENOMEM : Z := 12.
Definition EACCES : Z := 13.
Definition EFAULT : Z := 14.
Definition EBUSY : Z := 16.
Definition EINVAL : Z := 22.
Definition ENOSPC : Z := 28.
Definition EOVERFLOW : Z := 75.
Definition ETIMEDOUT : Z := 110.

(** ** Partial executions

    A routine that reads memory through a pointer or contains an [ASSERT],
    [BUG] or [panic] returns an [option]: [None] is a run that left the
    defined behaviour (access out of bounds, failed assertion).  A theorem that
    concludes [f x = Some r] therefore also says that no such access happens. *)
Definition assert_ (b : bool) : option unit := if b then Some () else None.
Notation "'ASSERT' b ;; k" := (match assert_ b with Some _ => k | None => None end)
  (at level 100, b at level 90, right associativity) : minos_scope.

(** ** Tactics *)

(** Linear arithmetic with divisions and remainders by constants. *)
Ltac dlia := Z.div_mod_to_equations; lia.

(** Reduce the binds of a partial execution whose first part is known. *)
Ltac msimpl := cbn [mbind option_bind mret option_ret fmap option_fmap option_map assert_].

(** ** Bits of integers *)
Lemma pow_pred_ones k : 2 ^ k - 1 = Z.ones k.
Proof. rewrite Z.ones_equiv. lia. Qed.

Lemma land_pow_pred w k : 0 <= k -> Z.land w (2 ^ k - 1) = w mod 2 ^ k.
Proof. intros. rewrite pow_pred_ones. by apply Z.land_ones. Qed.

Lemma testbit_small w n i : 0 <= w < 2 ^ n -> n <= i -> Z.testbit w i = false.
Proof.
  intros Hw Hi. destruct (decide (0 <= n)) as [Hn|Hn].
  - rewrite <- (Z.mod_small w (2 ^ n)) by done. by apply Z.mod_pow2_bits_high.
  - rewrite Z.pow_neg_r in Hw by lia. lia.
Qed.

Lemma mod_pow2_testbit w k i :
  0 <= k -> Z.testbit (w mod 2 ^ k) i = (i <? k) && Z.testbit w i.
Proof.
  intros Hk. destruct (Z.ltb_spec i k).
  - destruct (decide (0 <= i)).
    + by rewrite Z.mod_pow2_bits_low by lia.
    + by rewrite !Z.testbit_neg_r by lia.
  - by rewrite Z.mod_pow2_bits_high by lia.
Qed.

Lemma nonzero_testbit w n :
  0 <= w < 2 ^ n -> w <> 0 -> exists i, 0 <= i < n /\ Z.testbit w i = true.
Proof.
  intros Hw Hz. exists (Z.log2 w). split.
  - split; [apply Z.log2_nonneg|]. apply Z.log2_lt_pow2; lia.
  - apply Z.bit_log2. lia.
Qed.

Lemma u64_small z : 0 <= z < 2 ^ 64 -> u64 z = z.
Proof. apply Z.mod_small. Qed.

Lemma u64_range z : 0 <= u64 z < 2 ^ 64.
Proof. apply Z.mod_pos_bound. lia. Qed.

Lemma u32_small z : 0 <= z < 2 ^ 32 -> u32 z = z.
Proof. apply Z.mod_small. Qed.

Lemma u32_range z : 0 <= u32 z < 2 ^ 32.
Proof. apply Z.mod_pos_bound. lia. Qed.

Lemma u64_testbit z i : Z.testbit (u64 z) i = (i <? 64) && Z.testbit z i.
Proof. by apply mod_pow2_testbit. Qed.

Lemma not64_testbit z i :
  0 <= i -> Z.testbit (not64 z) i = (i <? 64) && negb (Z.testbit z i).
Proof.
  intros Hi. unfold not64. rewrite Z.ldiff_spec, pow_pred_ones.
  destruct (Z.ltb_spec i 64); [by rewrite Z.ones_spec_low by lia|].
  by rewrite Z.ones_spec_high by lia.
Qed.

Lemma not64_range z : 0 <= not64 z < 2 ^ 64.
Proof.
  enough (not64 z = u64 (not64 z)) as -> by apply u64_range.
  apply Z.bits_inj'. intros i Hi. rewrite u64_testbit, !not64_testbit by done.
  by destruct (i <? 64).
Qed.

(** [~0UL << m] has the bits from [m] to 63. *)
Lemma high_mask_testbit m i :
  0 <= m -> 0 <= i ->
  Z.testbit (u64 (Z.shiftl (2 ^ 64 - 1) m)) i = (m <=? i) && (i <? 64).
Proof.
  intros Hm Hi. rewrite u64_testbit, Z.shiftl_spec by done.
  rewrite pow_pred_ones.
  destruct (Z.ltb_spec i 64), (Z.leb_spec m i); simpl; try done.
  - by rewrite Z.ones_spec_low by lia.
  - by rewrite Z.testbit_neg_r by lia.
Qed.

Lemma land_high_mask w m :
  0 <= w < 2 ^ 64 -> 0 <= m ->
  Z.land w (u64 (Z.shiftl (2 ^ 64 - 1) m)) = Z.shiftl (Z.shiftr w m) m.
Proof.
  intros Hw Hm. apply Z.bits_inj'. intros i Hi.
  rewrite Z.land_spec, high_mask_testbit, Z.shiftl_spec by done.
  destruct (Z.leb_spec m i); simpl.
  - rewrite Z.shiftr_spec by lia. replace (i - m + m) with i by lia.
    destruct (Z.ltb_spec i 64); [by rewrite andb_true_r|].
    by rewrite (testbit_small w 64) by lia.
  - by rewrite andb_false_r, Z.testbit_neg_r by lia.
Qed.

Lemma land_high_mask_zero w m :
  0 <= w < 2 ^ 64 -> 0 <= m ->
  (Z.land w (u64 (Z.shiftl (2 ^ 64 - 1) m)) =? 0) = (w <? 2 ^ m).
Proof.
  intros Hw Hm. rewrite land_high_mask by done.
  rewrite Z.shiftl_mul_pow2, Z.shiftr_div_pow2 by done.
  pose proof (Z.pow_pos_nonneg 2 m ltac:(lia) Hm).
  destruct (Z.ltb_spec w (2 ^ m)).
  - rewrite Z.div_small by lia. done.
  - assert (0 < w / 2 ^ m) by (apply Z.div_str_pos; lia).
    apply Z.eqb_neq. nia.
Qed.

(** A word is determined by its low 64 bits. *)
Lemma word_of_bits w : (forall i, 64 <= i -> Z.testbit w i = false) -> 0 <= w < 2 ^ 64.
Proof.
  intros H. enough (w = u64 w) as -> by apply u64_range.
  apply Z.bits_inj'. intros i Hi. rewrite u64_testbit.
  destruct (Z.ltb_spec i 64); [done|]. by apply H.
Qed.

(** ** Counting *)

(** The number of indices below [n] with [P]. *)
Fixpoint count_upto (P : Z -> bool) (n : nat) : Z :=
  match n with
  | O => 0
  | S n => b2z (P (Z.of_nat n)) + count_upto P n
  end.

Lemma count_upto_range P n : 0 <= count_upto P n <= Z.of_nat n.
Proof. induction n; simpl count_upto; [lia|]. destruct (P _); simpl b2z; lia. Qed.

Lemma count_upto_ext P Q n :
  (forall i, 0 <= i < Z.of_nat n -> P i = Q i) -> count_upto P n = count_upto Q n.
Proof.
  induction n as [|n IH]; intros H; simpl; [done|]. rewrite IH, H by (lia || (intros; apply H; lia)).
  done.
Qed.

Lemma count_upto_add P n m :
  count_upto P (n + m) = count_upto P n + count_upto (fun i => P (Z.of_nat n + i)) m.
Proof.
  induction m as [|m IH]; [rewrite Nat.add_0_r; simpl; lia|].
  rewrite Nat.add_succ_r. simpl count_upto. rewrite IH.
  replace (Z.of_nat (n + m)) with (Z.of_nat n + Z.of_nat m) by lia. lia.
Qed.

Lemma count_upto_zero P n :
  (forall i, 0 <= i < Z.of_nat n -> P i = false) -> count_upto P n = 0.
Proof.
  intros H. rewrite (count_upto_ext P (fun _ => false)) by done.
  clear H. induction n; simpl count_upto; [done|]. by rewrite IHn.
Qed.

(** Changing one index changes the count by one. *)
Lemma count_upto_update P Q n k :
  0 <= k < Z.of_nat n -> (forall i, 0 <= i < Z.of_nat n -> i <> k -> P i = Q i) ->
  count_upto P n = count_upto Q n + b2z (P k) - b2z (Q k).
Proof.
  induction n as [|n IH]; intros Hk H; [lia|]. simpl count_upto.
  destruct (decide (k = Z.of_nat n)) as [->|Hne].
  - rewrite (count_upto_ext P Q) by (intros; apply H; lia). lia.
  - rewrite IH, (H (Z.of_nat n)) by (lia || (intros; apply H; lia)). lia.
Qed.

Lemma count_upto_full P n :
  count_upto P n = Z.of_nat n -> forall i, 0 <= i < Z.of_nat n -> P i = true.
Proof.
  induction n as [|n IH]; intros Hc i Hi; [lia|]. simpl count_upto in Hc.
  pose proof (count_upto_range P n). destruct (P (Z.of_nat n)) eqn:E; simpl b2z in Hc; [|lia].
  destruct (decide (i = Z.of_nat n)) as [->|]; [done|]. apply IH; lia.
Qed.

Lemma count_upto_all P n :
  (forall i, 0 <= i < Z.of_nat n -> P i = true) -> count_upto P n = Z.of_nat n.
Proof.
  induction n as [|n IH]; intros H; [done|]. simpl count_upto.
  rewrite H, IH by (lia || (intros; apply H; lia)). simpl b2z. lia.
Qed.

(** ** Alignment *)
Lemma not64_pow2 k :
  0 <= k <= 64 -> not64 (2 ^ k - 1) = u64 (Z.shiftl (2 ^ 64 - 1) k).
Proof.
  intros Hk. apply Z.bits_inj'. intros i Hi. rewrite not64_testbit, high_mask_testbit by lia.
  rewrite pow_pred_ones, Z.testbit_ones_nonneg by lia.
  destruct (Z.ltb_spec i 64), (Z.ltb_spec i k), (Z.leb_spec k i); simpl; done || lia.
Qed.

Lemma land_not64_pow2 x k :
  0 <= x < 2 ^ 64 -> 0 <= k <= 64 -> Z.land x (not64 (2 ^ k - 1)) = 2 ^ k * (x / 2 ^ k).
Proof.
  intros Hx Hk. rewrite not64_pow2, land_high_mask by lia.
  rewrite Z.shiftl_mul_pow2, Z.shiftr_div_pow2 by lia. lia.
Qed.

(** [2^k * ((x + 2^k - 1) / 2^k)] is the first multiple of [2^k] from [x] on. *)
Lemma align_up_least x k y :
  0 <= k -> x <= y -> (2 ^ k | y) -> 2 ^ k * ((x + (2 ^ k - 1)) / 2 ^ k) <= y.
Proof.
  intros Hk Hxy [c ->]. pose proof (Z.pow_pos_nonneg 2 k ltac:(lia) Hk).
  rewrite (Z.mul_comm c). apply Z.mul_le_mono_nonneg_l; [lia|].
  enough ((x + (2 ^ k - 1)) / 2 ^ k < c + 1) by lia.
  apply Z.div_lt_upper_bound; lia.
Qed.

Lemma align_up_bounds x k :
  0 <= k -> x <= 2 ^ k * ((x + (2 ^ k - 1)) / 2 ^ k) < x + 2 ^ k.
Proof.
  intros Hk. pose proof (Z.pow_pos_nonneg 2 k ltac:(lia) Hk).
  pose proof (Z.mod_pos_bound (x + (2 ^ k - 1)) (2 ^ k) ltac:(lia)).
  pose proof (Z.div_mod (x + (2 ^ k - 1)) (2 ^ k) ltac:(lia)). lia.
Qed.

(** ** Address ranges

    [rng lo hi a] is 1 when [a] lies in [lo, hi).  The number of ranges of a
    list that hold an address is a sum of these, so that "pairwise disjoint"
    is "every sum is at most one" and the bookkeeping of splits and merges is
    linear arithmetic. *)
Definition rng (lo hi a : Z) : Z := b2z ((lo <=? a) && (a <? hi)).

Definition zsum {A} (f : A -> Z) (l : list A) : Z := foldr (fun x s => f x + s) 0 l.

Lemma rng_cases lo hi a : (rng lo hi a = 1 /\ lo <= a < hi) \/ (rng lo hi a = 0 /\ (a < lo \/ hi <= a)).
Proof. unfold rng. destruct (Z.leb_spec lo a), (Z.ltb_spec a hi); simpl; lia. Qed.

(** Cutting a range in two keeps the count of every address. *)
Lemma rng_split lo mid hi a : lo <= mid <= hi -> rng lo hi a = rng lo mid a + rng mid hi a.
Proof.
  intros H. destruct (rng_cases lo hi a), (rng_cases lo mid a), (rng_cases mid hi a); lia.
Qed.

(** Decide goals about range membership by looking at every range. *)
Ltac rng_lia :=
  repeat match goal with
  | |- context [if ?b then _ else _] => destruct b
  | |- context [rng ?lo ?hi ?a] => destruct (rng_cases lo hi a) as [[-> ?]|[-> ?]]
  end; lia.

Section zsum.
Context {A : Type} (f : A -> Z).

Lemma zsum_app l1 l2 : zsum f (l1 ++ l2) = zsum f l1 + zsum f l2.
Proof. induction l1 as [|x l1 IH]; simpl; [done|]. fold (zsum f (l1 ++ l2)). rewrite IH. unfold zsum. lia. Qed.

Lemma zsum_cons x l : zsum f (x :: l) = f x + zsum f l.
Proof. done. Qed.

Lemma zsum_nil : zsum f [] = 0.
Proof. done. Qed.

Lemma zsum_nonneg l : (forall x, x ∈ l -> 0 <= f x) -> 0 <= zsum f l.
Proof.
  induction l as [|x l IH]; intros H; [done|]. rewrite zsum_cons.
  pose proof (H x ltac:(set_solver)). enough (0 <= zsum f l) by lia. apply IH. set_solver.
Qed.

Lemma zsum_insert l k x y :
  l !! k = Some x -> zsum f (<[k := y]> l) = zsum f l - f x + f y.
Proof.
  revert k. induction l as [|z l IH]; intros [|k] Hk; simpl in *; simplify_eq.
  - unfold zsum. lia.
  - change (f z + zsum f (<[k:=y]> l) = f z + zsum f l - f x + f y). rewrite IH by done. lia.
Qed.

Lemma zsum_zero l : (forall x, x ∈ l -> f x = 0) -> zsum f l = 0.
Proof.
  induction l as [|x l IH]; intros H; [done|]. rewrite zsum_cons, H, IH by set_solver. done.
Qed.

Lemma zsum_perm l1 l2 : l1 ≡ₚ l2 -> zsum f l1 = zsum f l2.
Proof. induction 1; rewrite ?zsum_cons; unfold zsum in *; simpl in *; lia. Qed.
End zsum.

Lemma zsum_ext {A} (f g : A -> Z) l : (forall x, x ∈ l -> f x = g x) -> zsum f l = zsum g l.
Proof.
  induction l as [|x l IH]; intros H; [done|]. rewrite !zsum_cons, (H x), IH by set_solver. done.
Qed.

Create HintDb minos.
Create Rewrite HintDb zsum.
#[export] Hint Rewrite @zsum_app @zsum_cons @zsum_nil : zsum.

(** ** include/minos/types.h *)
Definition PAGE_SHIFT : Z := 12.
Definition PAGE_SIZE : Z := 0x1000.
Definition PAGE_MASK : Z := 0xfff.
Definition BLOCK_SHIFT : Z := 21.
Definition BLOCK_SIZE : Z := 0x200000.

(** [ALIGN] and [BALIGN] on an [unsigned long]. *)
Definition ALIGN (x y : Z) : Z := Z.land x (not64 (y - 1)).
Definition BALIGN (x y : Z) : Z := Z.land (u64 (x + y - 1)) (not64 (y - 1)).

Definition PAGE_ALIGN (x : Z) : Z := ALIGN x PAGE_SIZE.
Definition PAGE_BALIGN (x : Z) : Z := BALIGN x PAGE_SIZE.
Definition IS_PAGE_ALIGN (x : Z) : bool := Z.land x (PAGE_SIZE - 1) =? 0.
Definition IS_BLOCK_ALIGN (x : Z) : bool := Z.land x 0x1fffff =? 0.

Lemma ALIGN_pow2 x k :
  0 <= x < 2 ^ 64 -> 0 <= k <= 64 -> ALIGN x (2 ^ k) = 2 ^ k * (x / 2 ^ k).
Proof. intros. by apply land_not64_pow2. Qed.

Lemma BALIGN_pow2 x k :
  0 <= x -> 0 <= k < 62 -> x + 2 ^ k < 2 ^ 64 ->
  BALIGN x (2 ^ k) = 2 ^ k * ((x + (2 ^ k - 1)) / 2 ^ k).
Proof.
  intros Hx Hk Hs. pose proof (Z.pow_pos_nonneg 2 k ltac:(lia) ltac:(lia)).
  unfold BALIGN. rewrite u64_small by lia. rewrite land_not64_pow2 by lia.
  do 2 f_equal. lia.
Qed.

Lemma IS_PAGE_ALIGN_true x : IS_PAGE_ALIGN x = true <-> x mod PAGE_SIZE = 0.
Proof.
  unfold IS_PAGE_ALIGN. rewrite Z.eqb_eq.
  change (PAGE_SIZE - 1) with (2 ^ 12 - 1). by rewrite land_pow_pred by lia.
Qed.

Lemma IS_BLOCK_ALIGN_true x : IS_BLOCK_ALIGN x = true <-> x mod BLOCK_SIZE = 0.
Proof.
  unfold IS_BLOCK_ALIGN. rewrite Z.eqb_eq.
  change 0x1fffff with (2 ^ 21 - 1). by rewrite land_pow_pred by lia.
Qed.
