(* ===== verification/Bitops.v ===== *)
(** * Word-level bit operations

    arch/aarch64/include/asm/bitops.h ([__ffs], [__fls], [fls], [fls64]),
    core/hweight.c (the software population counts, built without
    CONFIG_ARCH_HAS_FAST_MULTIPLIER as in every defconfig) and the helpers of
    include/minos/bitops.h that are written with them.  Words are [Z] in
    [0, 2^64) and the shifts to the left wrap. *)
From S2P Require Import Prelude.

(** One conditional of [__ffs]: the low [k] bits of the word are empty. *)
Definition ffs_step (k : Z) (s : Z * Z) : Z * Z :=
  let '(num, word) := s in
  if Z.land word (2 ^ k - 1) =? 0 then (num + k, Z.shiftr word k) else (num, word).

Definition __ffs (word : Z) : Z :=
  let s := ffs_step 32 (0, word) in
  let s := ffs_step 16 s in
  let s := ffs_step 8 s in
  let s := ffs_step 4 s in
  let '(num, word) := ffs_step 2 s in
  if Z.land word 1 =? 0 then num + 1 else num.

(** One conditional of [__fls]: the high [k] bits of the word are empty. *)
Definition fls_step (k : Z) (s : Z * Z) : Z * Z :=
  let '(num, word) := s in
  if Z.land word (u64 (Z.shiftl (2 ^ 64 - 1) (BITS_PER_LONG - k))) =? 0
  then (num - k, u64 (Z.shiftl word k)) else (num, word).

Definition __fls (word : Z) : Z :=
  let s := fls_step 32 (BITS_PER_LONG - 1, word) in
  let s := fls_step 16 s in
  let s := fls_step 8 s in
  let s := fls_step 4 s in
  let '(num, word) := fls_step 2 s in
  if Z.land word (u64 (Z.shiftl (2 ^ 64 - 1) (BITS_PER_LONG - 1))) =? 0
  then num - 1 else num.

(** One conditional of [fls] on a 32-bit pattern [x]. *)
Definition fls32_step (mask k : Z) (s : Z * Z) : Z * Z :=
  let '(x, r) := s in
  if Z.land x mask =? 0 then (u32 (Z.shiftl x k), r - k) else (x, r).

Definition fls (x : Z) : Z :=
  if x =? 0 then 0
  else
    let s := fls32_step 0xffff0000 16 (x, 32) in
    let s := fls32_step 0xff000000 8 s in
    let s := fls32_step 0xf0000000 4 s in
    let s := fls32_step 0xc0000000 2 s in
    let '(_, r) := fls32_step 0x80000000 1 s in
    r.

Definition fls64 (x : Z) : Z := if x =? 0 then 0 else __fls x + 1.

Definition ffz (x : Z) : Z := __ffs (not64 x).

Definition get_bitmask_order (count : Z) : Z := fls count.

Definition get_count_order (count : Z) : Z :=
  let order := fls count - 1 in
  if Z.land count (u32 (count - 1)) =? 0 then order else order + 1.

(** ** Population counts *)
Definition sw_hweight32 (w : Z) : Z :=
  let res := u32 (w - Z.land (Z.shiftr w 1) 0x55555555) in
  let res := u32 (Z.land res 0x33333333 + Z.land (Z.shiftr res 2) 0x33333333) in
  let res := Z.land (u32 (res + Z.shiftr res 4)) 0x0F0F0F0F in
  let res := u32 (res + Z.shiftr res 8) in
  Z.land (u32 (res + Z.shiftr res 16)) 0xFF.

Definition sw_hweight16 (w : Z) : Z :=
  let res := u32 (w - Z.land (Z.shiftr w 1) 0x5555) in
  let res := u32 (Z.land res 0x3333 + Z.land (Z.shiftr res 2) 0x3333) in
  let res := Z.land (u32 (res + Z.shiftr res 4)) 0x0F0F in
  Z.land (u32 (res + Z.shiftr res 8)) 0xFF.

Definition sw_hweight8 (w : Z) : Z :=
  let res := u32 (w - Z.land (Z.shiftr w 1) 0x55) in
  let res := u32 (Z.land res 0x33 + Z.land (Z.shiftr res 2) 0x33) in
  Z.land (u32 (res + Z.shiftr res 4)) 0x0F.

Definition sw_hweight64 (w : Z) : Z :=
  let res := u64 (w - Z.land (Z.shiftr w 1) 0x5555555555555555) in
  let res := u64 (Z.land res 0x3333333333333333
                  + Z.land (Z.shiftr res 2) 0x3333333333333333) in
  let res := Z.land (u64 (res + Z.shiftr res 4)) 0x0F0F0F0F0F0F0F0F in
  let res := u64 (res + Z.shiftr res 8) in
  let res := u64 (res + Z.shiftr res 16) in
  Z.land (u64 (res + Z.shiftr res 32)) 0xFF.

(** [sizeof(w) == 8] on aarch64. *)
Definition hweight_long (w : Z) : Z := sw_hweight64 w.

(** ** Reference notions *)

(** [n] is the index of the lowest set bit of [w]. *)
Definition lowest_bit (w n : Z) : Prop :=
  0 <= n /\ Z.testbit w n = true /\ forall i, 0 <= i < n -> Z.testbit w i = false.

(** [n] is the index of the highest set bit of [w]. *)
Definition highest_bit (w n : Z) : Prop :=
  0 <= n /\ Z.testbit w n = true /\ forall i, n < i -> Z.testbit w i = false.

(** The number of set bits below [n]. *)
Fixpoint popcount (n : nat) (w : Z) : Z :=
  match n with
  | O => 0
  | S n => b2z (Z.testbit w (Z.of_nat n)) + popcount n w
  end.

(** ** Lemmas *)
Lemma ffs_step_spec k num w n :
  0 < k -> w mod 2 ^ (2 * k) <> 0 ->
  let '(num', w') := ffs_step k (num, w) in
  w' mod 2 ^ k <> 0 /\ (lowest_bit w' n -> lowest_bit w (num' - num + n)).
Proof.
  intros Hk Hnz. unfold ffs_step. rewrite land_pow_pred by lia.
  destruct (Z.eqb_spec (w mod 2 ^ k) 0) as [Hz|Hz].
  - split.
    + replace (2 * k) with (k + k) in Hnz by lia.
      rewrite Z.pow_add_r, Z.rem_mul_r in Hnz by lia.
      rewrite Z.shiftr_div_pow2 by lia. intros He. rewrite Hz, He in Hnz. lia.
    + intros (Hn & Hb & Hlow). replace (num + k - num + n) with (n + k) by lia.
      rewrite Z.shiftr_spec in Hb by lia.
      repeat split; [lia|done|]. intros i Hi.
      destruct (decide (i < k)) as [Hik|Hik].
      * apply (f_equal (fun x => Z.testbit x i)) in Hz.
        by rewrite Z.mod_pow2_bits_low, Z.bits_0 in Hz by lia.
      * specialize (Hlow (i - k)). rewrite Z.shiftr_spec in Hlow by lia.
        replace (i - k + k) with i in Hlow by lia. apply Hlow. lia.
  - split; [done|]. by replace (num - num + n) with n by lia.
Qed.

(** The conditionals of [__ffs] from size [2k] downwards compose. *)
Lemma ffs_chain k f num w :
  0 < k -> (forall num w, w mod 2 ^ k <> 0 -> lowest_bit w (f (num, w) - num)) ->
  w mod 2 ^ (2 * k) <> 0 ->
  lowest_bit w (f (ffs_step k (num, w)) - num).
Proof.
  intros Hk Hf Hnz.
  destruct (ffs_step k (num, w)) as [num' w'] eqn:E.
  pose proof (ffs_step_spec k num w (f (num', w') - num') Hk Hnz) as Hs.
  rewrite E in Hs. destruct Hs as [Hnz' Hlow].
  specialize (Hlow (Hf num' w' Hnz')).
  by replace (num' - num + (f (num', w') - num')) with (f (num', w') - num) in Hlow by lia.
Qed.

Lemma lowest_bit_base num w :
  w mod 2 ^ 2 <> 0 -> lowest_bit w ((if Z.land w 1 =? 0 then num + 1 else num) - num).
Proof.
  intros H3. change 1 with (2 ^ 1 - 1) at 1. rewrite land_pow_pred by lia.
  assert (H0 : Z.testbit w 0 = Z.testbit (w mod 2 ^ 2) 0)
    by (by rewrite Z.mod_pow2_bits_low by lia).
  assert (H1 : Z.testbit w 1 = Z.testbit (w mod 2 ^ 2) 1)
    by (by rewrite Z.mod_pow2_bits_low by lia).
  change (2 ^ 2) with 4 in *. change (2 ^ 1) with 2.
  assert (Hr : w mod 4 = 1 /\ w mod 2 = 1 \/ w mod 4 = 2 /\ w mod 2 = 0
               \/ w mod 4 = 3 /\ w mod 2 = 1) by dlia.
  unfold lowest_bit.
  destruct Hr as [[Hr Hm]|[[Hr Hm]|[Hr Hm]]]; rewrite Hr in *; rewrite Hm; simpl in *.
  - replace (num - num) with 0 by lia. repeat split; [lia|done|lia].
  - replace (num + 1 - num) with 1 by lia. repeat split; [lia|done|].
    intros i Hi. by replace i with 0 by lia.
  - replace (num - num) with 0 by lia. repeat split; [lia|done|lia].
Qed.

(** [__ffs] of a non-zero word is the index of its lowest set bit. *)
Lemma ffs_lowest w : 0 < w < 2 ^ 64 -> lowest_bit w (__ffs w).
Proof.
  intros Hw. rewrite <- (Z.sub_0_r (__ffs w)).
  set (last := fun s : Z * Z => let '(num, word) := s in
                 if Z.land word 1 =? 0 then num + 1 else num).
  apply (ffs_chain 32 (fun s => last (ffs_step 2 (ffs_step 4 (ffs_step 8 (ffs_step 16 s))))));
    [done| |change (2 ^ (2 * 32)) with (2 ^ 64); rewrite Z.mod_small; lia].
  intros. apply (ffs_chain 16 (fun s => last (ffs_step 2 (ffs_step 4 (ffs_step 8 s)))));
    [done| |done]. clear.
  intros. apply (ffs_chain 8 (fun s => last (ffs_step 2 (ffs_step 4 s)))); [done| |done]. clear.
  intros. apply (ffs_chain 4 (fun s => last (ffs_step 2 s))); [done| |done]. clear.
  intros. apply (ffs_chain 2 last); [done| |done]. clear.
  intros. by apply lowest_bit_base.
Qed.

Lemma fls_step_spec k num w :
  0 < k < 64 -> 2 ^ (64 - 2 * k) <= w < 2 ^ 64 -> 2 * k <= 64 ->
  let '(num', w') := fls_step k (num, w) in
  2 ^ (64 - k) <= w' < 2 ^ 64 /\ num' + Z.log2 w' = num + Z.log2 w.
Proof.
  intros Hk Hw Hk2. unfold fls_step, BITS_PER_LONG.
  pose proof (Z.pow_pos_nonneg 2 (64 - 2 * k) ltac:(lia) ltac:(lia)).
  rewrite land_high_mask_zero by lia.
  destruct (Z.ltb_spec w (2 ^ (64 - k))) as [Hlt|Hge]; [|lia].
  rewrite Z.shiftl_mul_pow2 by lia.
  assert (Hb : 2 ^ (64 - k) <= w * 2 ^ k < 2 ^ 64).
  { replace 64 with (64 - k + k) at 2 by lia.
    replace (64 - k) with (64 - 2 * k + k) at 1 by lia.
    rewrite !Z.pow_add_r by lia. pose proof (Z.pow_pos_nonneg 2 k). nia. }
  pose proof (Z.pow_pos_nonneg 2 (64 - k) ltac:(lia) ltac:(lia)).
  rewrite u64_small by lia. split; [done|].
  rewrite Z.log2_mul_pow2 by lia. lia.
Qed.

Lemma fls_base num w :
  2 ^ 62 <= w < 2 ^ 64 ->
  (if Z.land w (u64 (Z.shiftl (2 ^ 64 - 1) (BITS_PER_LONG - 1))) =? 0
   then num - 1 else num) = num + Z.log2 w - 63.
Proof.
  intros Hw. unfold BITS_PER_LONG. rewrite land_high_mask_zero by lia.
  destruct (Z.ltb_spec w (2 ^ (64 - 1))).
  - rewrite (Z.log2_unique w 62) by lia. lia.
  - rewrite (Z.log2_unique w 63) by lia. lia.
Qed.

Lemma fls_log2 w : 0 < w < 2 ^ 64 -> __fls w = Z.log2 w.
Proof.
  intros Hw. unfold __fls.
  pose proof (fls_step_spec 32 (BITS_PER_LONG - 1) w) as H1.
  destruct (fls_step 32 _) as [n1 w1]. destruct H1 as [Hw1 Hl1]; [lia..|].
  pose proof (fls_step_spec 16 n1 w1) as H2.
  destruct (fls_step 16 _) as [n2 w2]. destruct H2 as [Hw2 Hl2]; [lia..|].
  pose proof (fls_step_spec 8 n2 w2) as H3.
  destruct (fls_step 8 _) as [n3 w3]. destruct H3 as [Hw3 Hl3]; [lia..|].
  pose proof (fls_step_spec 4 n3 w3) as H4.
  destruct (fls_step 4 _) as [n4 w4]. destruct H4 as [Hw4 Hl4]; [lia..|].
  pose proof (fls_step_spec 2 n4 w4) as H5.
  destruct (fls_step 2 _) as [n5 w5]. destruct H5 as [Hw5 Hl5]; [lia..|].
  rewrite fls_base by lia. unfold BITS_PER_LONG in *. lia.
Qed.

Lemma log2_highest_bit w : 0 < w -> highest_bit w (Z.log2 w).
Proof.
  intros Hw. split; [apply Z.log2_nonneg|]. split; [by apply Z.bit_log2|].
  intros i Hi. apply Z.bits_above_log2; lia.
Qed.

(** [__fls] of a non-zero word is the index of its highest set bit. *)
Lemma fls_highest w : 0 < w < 2 ^ 64 -> highest_bit w (__fls w).
Proof. intros Hw. rewrite fls_log2 by done. apply log2_highest_bit. lia. Qed.

Lemma land_high_mask32 x m :
  0 <= x < 2 ^ 32 -> 0 <= m <= 32 ->
  (Z.land x (2 ^ 32 - 2 ^ m) =? 0) = (x <? 2 ^ m).
Proof.
  intros Hx Hm.
  assert (He : Z.land x (2 ^ 32 - 2 ^ m) = Z.shiftl (Z.shiftr x m) m).
  { replace (2 ^ 32 - 2 ^ m) with (Z.shiftl (Z.ones (32 - m)) m).
    2: { rewrite Z.shiftl_mul_pow2, Z.ones_equiv by lia.
         replace 32 with (32 - m + m) at 2 by lia. rewrite Z.pow_add_r by lia. nia. }
    apply Z.bits_inj'. intros i Hi. rewrite Z.land_spec, !Z.shiftl_spec by done.
    destruct (Z.ltb_spec i m).
    - rewrite !(Z.testbit_neg_r _ (i - m)) by lia. by rewrite andb_false_r.
    - rewrite Z.shiftr_spec by lia. replace (i - m + m) with i by lia.
      destruct (Z.ltb_spec i 32).
      + by rewrite Z.ones_spec_low, andb_true_r by lia.
      + by rewrite (testbit_small x 32) by lia. }
  rewrite He, Z.shiftl_mul_pow2, Z.shiftr_div_pow2 by lia.
  pose proof (Z.pow_pos_nonneg 2 m).
  destruct (Z.ltb_spec x (2 ^ m)); [by rewrite Z.div_small by lia|].
  assert (0 < x / 2 ^ m) by (apply Z.div_str_pos; lia). apply Z.eqb_neq. nia.
Qed.

Lemma fls32_step_spec mask k lo x r :
  0 < k <= 32 -> mask = 2 ^ 32 - 2 ^ (32 - k) -> 0 <= lo <= 32 - k ->
  2 ^ lo <= x < 2 ^ 32 ->
  let '(x', r') := fls32_step mask k (x, r) in
  2 ^ (Z.min (lo + k) (32 - k)) <= x' < 2 ^ 32 /\ r' + Z.log2 x' = r + Z.log2 x.
Proof.
  intros Hk -> Hlo Hx. unfold fls32_step.
  pose proof (Z.pow_pos_nonneg 2 lo ltac:(lia) ltac:(lia)).
  rewrite land_high_mask32 by lia.
  pose proof (Z.pow_le_mono_r 2 (Z.min (lo + k) (32 - k)) (32 - k) ltac:(lia) ltac:(lia)).
  destruct (Z.ltb_spec x (2 ^ (32 - k))) as [Hlt|Hge]; [|lia].
  rewrite Z.shiftl_mul_pow2 by lia.
  assert (2 ^ (lo + k) <= x * 2 ^ k < 2 ^ 32).
  { replace (2 ^ 32) with (2 ^ (32 - k) * 2 ^ k)
      by (rewrite <- Z.pow_add_r by lia; f_equal; lia).
    rewrite Z.pow_add_r by lia. pose proof (Z.pow_pos_nonneg 2 k). nia. }
  pose proof (Z.pow_le_mono_r 2 (Z.min (lo + k) (32 - k)) (lo + k) ltac:(lia) ltac:(lia)).
  pose proof (Z.pow_pos_nonneg 2 (lo + k) ltac:(lia) ltac:(lia)).
  rewrite u32_small by lia. split; [lia|].
  rewrite Z.log2_mul_pow2 by lia. lia.
Qed.

(** [fls] is one more than the index of the highest set bit, and 0 on 0. *)
Lemma fls32_log2 x : 0 < x < 2 ^ 32 -> fls x = Z.log2 x + 1.
Proof.
  intros Hx. unfold fls. rewrite (proj2 (Z.eqb_neq x 0)) by lia.
  pose proof (fls32_step_spec 0xffff0000 16 0 x 32) as H1.
  destruct (fls32_step _ 16 _) as [x1 r1]. destruct H1 as [Hx1 Hl1]; [lia..|].
  change (Z.min (0 + 16) (32 - 16)) with 16 in Hx1.
  pose proof (fls32_step_spec 0xff000000 8 16 x1 r1) as H2.
  destruct (fls32_step _ 8 _) as [x2 r2]. destruct H2 as [Hx2 Hl2]; [lia..|].
  change (Z.min (16 + 8) (32 - 8)) with 24 in Hx2.
  pose proof (fls32_step_spec 0xf0000000 4 24 x2 r2) as H3.
  destruct (fls32_step _ 4 _) as [x3 r3]. destruct H3 as [Hx3 Hl3]; [lia..|].
  change (Z.min (24 + 4) (32 - 4)) with 28 in Hx3.
  pose proof (fls32_step_spec 0xc0000000 2 28 x3 r3) as H4.
  destruct (fls32_step _ 2 _) as [x4 r4]. destruct H4 as [Hx4 Hl4]; [lia..|].
  change (Z.min (28 + 2) (32 - 2)) with 30 in Hx4.
  pose proof (fls32_step_spec 0x80000000 1 30 x4 r4) as H5.
  destruct (fls32_step _ 1 _) as [x5 r5]. destruct H5 as [Hx5 Hl5]; [lia..|].
  change (Z.min (30 + 1) (32 - 1)) with 31 in Hx5.
  rewrite (Z.log2_unique x5 31) in Hl5 by lia. lia.
Qed.

(** [count & (count - 1)] tests for a power of two. *)
Lemma land_pred_pow2 n :
  0 < n -> (Z.land n (n - 1) =? 0) = (n =? 2 ^ Z.log2 n).
Proof.
  intros Hn. pose proof (Z.log2_spec n Hn) as Hs.
  pose proof (Z.log2_nonneg n). rewrite Z.pow_succ_r in Hs by done.
  destruct (Z.eqb_spec n (2 ^ Z.log2 n)) as [He|He].
  - rewrite He at 1 2. rewrite land_pow_pred by done.
    rewrite Z.mod_same by lia. done.
  - apply Z.eqb_neq. intros Hz.
    apply (f_equal (fun x => Z.testbit x (Z.log2 n))) in Hz.
    rewrite Z.land_spec, Z.bits_0, Z.bit_log2 in Hz by done. simpl in Hz.
    rewrite <- (Z.log2_unique (n - 1) (Z.log2 n)) in Hz at 1 by (rewrite ?Z.pow_succ_r; lia).
    rewrite Z.bit_log2 in Hz by lia. done.
Qed.

Lemma get_count_order_log2_up count :
  0 < count < 2 ^ 32 -> get_count_order count = Z.log2_up count.
Proof.
  intros Hc. unfold get_count_order. rewrite u32_small by lia.
  rewrite fls32_log2, land_pred_pow2 by lia.
  destruct (Z.eqb_spec count (2 ^ Z.log2 count)) as [He|He].
  - rewrite He at 2. rewrite Z.log2_up_pow2 by apply Z.log2_nonneg. lia.
  - pose proof (Z.le_log2_up_succ_log2 count). pose proof (Z.le_log2_log2_up count).
    destruct (decide (Z.log2 count = Z.log2_up count)) as [E|]; [|lia].
    exfalso. apply He. apply Z.log2_log2_up_exact in E as [b Hb]; [|lia].
    rewrite Hb. rewrite Z.log2_pow2; [done|].
    destruct (decide (0 <= b)); [done|]. rewrite Z.pow_neg_r in Hb by lia. lia.
Qed.

(** ** Population counts: the word as a list of byte lanes *)

(** The word with byte lanes [l], least significant first. *)
Fixpoint join (l : list Z) : Z :=
  match l with
  | [] => 0
  | a :: l => a + 2 ^ 8 * join l
  end.

Fixpoint bytes (n : nat) (w : Z) : list Z :=
  match n with
  | O => []
  | S n => w mod 2 ^ 8 :: bytes n (w / 2 ^ 8)
  end.

(** The constant whose [n] lanes are [c]. *)
Definition lanes (n : nat) (c : Z) : Z := join (replicate n c).

(** The three lane-parallel stages of the counts, on [n] lanes. *)
Definition stage1 (n : nat) (w : Z) : Z := w - Z.land (Z.shiftr w 1) (lanes n 0x55).
Definition stage2 (n : nat) (w : Z) : Z :=
  Z.land w (lanes n 0x33) + Z.land (Z.shiftr w 2) (lanes n 0x33).
Definition stage3 (n : nat) (w : Z) : Z := Z.land (w + Z.shiftr w 4) (lanes n 0x0F).

Definition is_byte (a : Z) : Prop := 0 <= a < 2 ^ 8.
Definition is_nib4 (a : Z) : Prop := 0 <= a < 2 ^ 8 /\ a mod 16 <= 4 /\ a / 16 <= 4.

(** A boolean fact about all bytes is checked by evaluation. *)
Lemma byte_forall (P : Z -> bool) :
  forallb P (seqZ 0 256) = true -> forall a, is_byte a -> P a = true.
Proof.
  rewrite forallb_forall. intros H a Ha. apply H, list_elem_of_In, elem_of_seqZ.
  unfold is_byte in Ha. lia.
Qed.

Lemma lane_div a h : is_byte a -> (a + 2 ^ 8 * h) / 2 ^ 8 = h.
Proof. unfold is_byte. dlia. Qed.

Lemma testbit_lane a h i :
  is_byte a -> 0 <= i ->
  Z.testbit (a + 2 ^ 8 * h) i = if i <? 8 then Z.testbit a i else Z.testbit h (i - 8).
Proof.
  intros Ha Hi. destruct (Z.ltb_spec i 8).
  - rewrite <- (Z.mod_pow2_bits_low _ 8) by lia.
    by replace ((a + 2 ^ 8 * h) mod 2 ^ 8) with a by (unfold is_byte in Ha; dlia).
  - rewrite <- (lane_div a h Ha) at 2. rewrite Z.div_pow2_bits by lia. f_equal. lia.
Qed.

Lemma land_byte a m : is_byte m -> is_byte (Z.land a m).
Proof.
  unfold is_byte. intros Hm. rewrite <- (Z.mod_small m (2 ^ 8)) by done.
  rewrite <- Z.land_ones, Z.land_assoc, Z.land_ones by lia. apply Z.mod_pos_bound. lia.
Qed.

Lemma land_lane a m h M :
  is_byte a -> is_byte m ->
  Z.land (a + 2 ^ 8 * h) (m + 2 ^ 8 * M) = Z.land a m + 2 ^ 8 * Z.land h M.
Proof.
  intros Ha Hm. apply Z.bits_inj'. intros i Hi.
  rewrite Z.land_spec, !testbit_lane by auto using land_byte.
  destruct (i <? 8); by rewrite Z.land_spec.
Qed.

Lemma join_range l : Forall is_byte l -> 0 <= join l < 2 ^ (8 * Z.of_nat (length l)).
Proof.
  induction 1 as [|a l Ha Hl IH]; simpl join; [done|].
  rewrite length_cons, Nat2Z.inj_succ.
  replace (8 * Z.succ (Z.of_nat (length l))) with (8 + 8 * Z.of_nat (length l)) by lia.
  rewrite Z.pow_add_r by lia. unfold is_byte in Ha. nia.
Qed.

Lemma join_bytes n w : 0 <= w < 2 ^ (8 * Z.of_nat n) -> join (bytes n w) = w.
Proof.
  revert w. induction n as [|n IH]; intros w Hw; simpl bytes; simpl join.
  - change (2 ^ (8 * Z.of_nat 0)) with 1 in Hw. lia.
  - replace (8 * Z.of_nat (S n)) with (8 + 8 * Z.of_nat n) in Hw by lia.
    rewrite Z.pow_add_r in Hw by lia. rewrite IH; [dlia|].
    split; [apply Z.div_pos; lia|]. apply Z.div_lt_upper_bound; lia.
Qed.

Lemma bytes_are_bytes n w : Forall is_byte (bytes n w).
Proof.
  revert w. induction n as [|n IH]; intros w; simpl; constructor; [|by apply IH].
  unfold is_byte. apply Z.mod_pos_bound. lia.
Qed.

Lemma length_bytes n w : length (bytes n w) = n.
Proof. revert w. induction n; intros; simpl; auto. Qed.

(** Shifting right by [k] moves the low bits of the next lane into the top of a lane. *)
Lemma shiftr_lane a h k :
  is_byte a -> 0 <= h -> 0 <= k <= 8 ->
  Z.shiftr (a + 2 ^ 8 * h) k
  = (a / 2 ^ k + 2 ^ (8 - k) * (h mod 2 ^ k)) + 2 ^ 8 * Z.shiftr h k.
Proof.
  intros Ha Hh Hk. rewrite !Z.shiftr_div_pow2 by lia.
  assert (H8 : 2 ^ 8 = 2 ^ (8 - k) * 2 ^ k)
    by (rewrite <- Z.pow_add_r by lia; f_equal; lia).
  pose proof (Z.pow_pos_nonneg 2 k ltac:(lia) ltac:(lia)).
  rewrite H8 at 1. rewrite <- Z.mul_assoc, (Z.mul_comm (2 ^ k)), Z.mul_assoc.
  rewrite Z.div_add by lia. rewrite (Z.div_mod h (2 ^ k)) at 1 by lia.
  rewrite H8. ring.
Qed.

Lemma shift_in_byte a h k :
  is_byte a -> 0 <= k <= 8 -> is_byte (a / 2 ^ k + 2 ^ (8 - k) * (h mod 2 ^ k)).
Proof.
  unfold is_byte. intros Ha Hk.
  assert (H8 : 2 ^ 8 = 2 ^ (8 - k) * 2 ^ k)
    by (rewrite <- Z.pow_add_r by lia; f_equal; lia).
  pose proof (Z.pow_pos_nonneg 2 k ltac:(lia) ltac:(lia)).
  pose proof (Z.pow_pos_nonneg 2 (8 - k) ltac:(lia) ltac:(lia)).
  pose proof (Z.mod_pos_bound h (2 ^ k) ltac:(lia)).
  assert (0 <= a / 2 ^ k < 2 ^ (8 - k)).
  { split; [apply Z.div_pos; lia|]. apply Z.div_lt_upper_bound; lia. }
  nia.
Qed.

Lemma land_shift_in a h k m :
  is_byte a -> (k = 1 /\ m = 0x55 \/ k = 2 /\ m = 0x33) ->
  Z.land (a / 2 ^ k + 2 ^ (8 - k) * (h mod 2 ^ k)) m = Z.land (Z.shiftr a k) m.
Proof.
  intros Ha Hk. apply Z.eqb_eq.
  assert (Ht : (h mod 2 ^ k) ∈ seqZ 0 (2 ^ k)).
  { apply elem_of_seqZ. pose proof (Z.mod_pos_bound h (2 ^ k)).
    destruct Hk as [[-> _]|[-> _]]; lia. }
  revert Ht. generalize (h mod 2 ^ k). intros t Ht.
  apply list_elem_of_In in Ht. revert t Ht. apply forallb_forall. revert a Ha.
  destruct Hk as [[-> ->]|[-> ->]]; apply byte_forall; vm_compute; reflexivity.
Qed.

Ltac lane_solve :=
  first [assumption | lia | apply shift_in_byte; [assumption | lia] | unfold is_byte; dlia].

Lemma stage1_cons n a h :
  is_byte a -> 0 <= h ->
  stage1 (S n) (a + 2 ^ 8 * h) = stage1 1 a + 2 ^ 8 * stage1 n h.
Proof.
  intros Ha Hh. unfold stage1, lanes. simpl replicate. simpl join.
  rewrite shiftr_lane by lane_solve.
  rewrite land_lane by lane_solve.
  rewrite (land_shift_in a h 1 0x55) by auto.
  change (0x55 + 2 ^ 8 * 0) with 0x55. lia.
Qed.

Lemma stage2_cons n a h :
  is_byte a -> 0 <= h ->
  stage2 (S n) (a + 2 ^ 8 * h) = stage2 1 a + 2 ^ 8 * stage2 n h.
Proof.
  intros Ha Hh. unfold stage2, lanes. simpl replicate. simpl join.
  rewrite shiftr_lane by lane_solve.
  rewrite !land_lane by lane_solve.
  rewrite (land_shift_in a h 2 0x33) by auto.
  change (0x33 + 2 ^ 8 * 0) with 0x33. lia.
Qed.

Lemma stage3_cons n a h :
  is_nib4 a -> 0 <= h -> h mod 16 <= 4 ->
  stage3 (S n) (a + 2 ^ 8 * h) = stage3 1 a + 2 ^ 8 * stage3 n h.
Proof.
  intros (Ha & Hl & Hu) Hh Hm. unfold stage3, lanes. simpl replicate. simpl join.
  rewrite shiftr_lane by lane_solve. rewrite (Z.shiftr_div_pow2 a 4) by lia.
  change (2 ^ (8 - 4)) with 16. change (2 ^ 4) with 16.
  replace (a + 2 ^ 8 * h + (a / 16 + 16 * (h mod 16) + 2 ^ 8 * Z.shiftr h 4))
    with ((a + a / 16 + 16 * (h mod 16)) + 2 ^ 8 * (h + Z.shiftr h 4)) by lia.
  rewrite land_lane by lane_solve.
  change (2 ^ 8 * 0) with 0. rewrite Z.add_0_r. change 0x0F with (2 ^ 4 - 1).
  rewrite !(land_pow_pred _ 4) by lia. f_equal. change (2 ^ 4) with 16. dlia.
Qed.

(** The shape of a lane after each stage, by evaluation over all bytes. *)
Lemma stage1_byte a : is_byte a -> is_byte (stage1 1 a).
Proof.
  intros Ha. unfold is_byte.
  enough ((0 <=? stage1 1 a) && (stage1 1 a <? 2 ^ 8) = true) by lia.
  revert a Ha. apply byte_forall. vm_compute. reflexivity.
Qed.

Lemma stage2_nib a : is_byte a -> is_nib4 (stage2 1 (stage1 1 a)).
Proof.
  intros Ha. unfold is_nib4. set (f := stage2 1 (stage1 1 a)).
  enough ((0 <=? f) && (f <? 2 ^ 8) && (f mod 16 <=? 4) && (f / 16 <=? 4) = true) by lia.
  subst f. revert a Ha. apply byte_forall. vm_compute. reflexivity.
Qed.

Lemma stage3_popcount a : is_byte a -> stage3 1 (stage2 1 (stage1 1 a)) = popcount 8 a.
Proof.
  intros Ha. apply Z.eqb_eq. revert a Ha. apply byte_forall. vm_compute. reflexivity.
Qed.

Lemma popcount_range n w : 0 <= popcount n w <= Z.of_nat n.
Proof. induction n; simpl popcount; [lia|]. destruct (Z.testbit _ _); simpl b2z; lia. Qed.

Lemma stage1_join l :
  Forall is_byte l -> stage1 (length l) (join l) = join (stage1 1 <$> l).
Proof.
  induction 1 as [|a l Ha Hl IH]; simpl length; simpl fmap; simpl join; [done|].
  rewrite stage1_cons by (done || apply join_range; done). by rewrite IH.
Qed.

Lemma stage2_join l :
  Forall is_byte l -> stage2 (length l) (join l) = join (stage2 1 <$> l).
Proof.
  induction 1 as [|a l Ha Hl IH]; simpl length; simpl fmap; simpl join; [done|].
  rewrite stage2_cons by (done || apply join_range; done). by rewrite IH.
Qed.

Lemma join_mod16 l : Forall is_nib4 l -> join l mod 16 <= 4.
Proof. intros [|a l' (Ha & Hl & Hu) Hl']; simpl join; [by vm_compute|]. dlia. Qed.

Lemma stage3_join l :
  Forall is_nib4 l -> stage3 (length l) (join l) = join (stage3 1 <$> l).
Proof.
  induction 1 as [|a l Ha Hl IH]; simpl length; simpl fmap; simpl join; [done|].
  rewrite stage3_cons, IH; try done; [|by apply join_mod16].
  apply join_range. eapply list.Forall_impl; [exact Hl|]. by intros x (?&?&?).
Qed.

(** After the three stages every lane holds the number of bits of its byte. *)
Lemma stages_popcount l :
  Forall is_byte l ->
  stage3 (length l) (stage2 (length l) (stage1 (length l) (join l)))
  = join (popcount 8 <$> l).
Proof.
  intros Hl. rewrite stage1_join by done.
  rewrite <- (length_fmap (stage1 1) l) at 2. rewrite stage2_join.
  2: { apply Forall_fmap. eapply list.Forall_impl; [done|]. apply stage1_byte. }
  rewrite <- (length_fmap (stage1 1) l), <- (length_fmap (stage2 1)).
  rewrite stage3_join.
  2: { rewrite <- list_fmap_compose. apply Forall_fmap.
       eapply list.Forall_impl; [done|]. apply stage2_nib. }
  f_equal. rewrite <- !list_fmap_compose.
  apply list_fmap_ext. intros i a Hi. apply stage3_popcount.
  by eapply Forall_lookup_1.
Qed.

Lemma popcount_S n w : popcount (S n) w = b2z (Z.testbit w (Z.of_nat n)) + popcount n w.
Proof. done. Qed.

Lemma popcount_lane n a h :
  is_byte a -> popcount (8 + n) (a + 2 ^ 8 * h) = popcount 8 a + popcount n h.
Proof.
  intros Ha. rewrite Nat.add_comm. induction n as [|n IH].
  - change (popcount 0 h) with 0. rewrite Z.add_0_r. cbn [popcount Nat.add].
    by rewrite !testbit_lane by (done || lia).
  - rewrite Nat.add_succ_l, (popcount_S (n + 8)), (popcount_S n), IH, testbit_lane by (done || lia).
    destruct (Z.ltb_spec (Z.of_nat (n + 8)) 8); [lia|].
    replace (Z.of_nat (n + 8) - 8) with (Z.of_nat n) by lia. lia.
Qed.

Lemma popcount_join l :
  Forall is_byte l ->
  popcount (8 * length l) (join l) = foldr Z.add 0 (popcount 8 <$> l).
Proof.
  induction 1 as [|a l Ha Hl IH]; [done|]. simpl length.
  replace (8 * S (length l))%nat with (8 + 8 * length l)%nat by lia.
  simpl join. rewrite popcount_lane by done. simpl fmap. simpl foldr. by rewrite IH.
Qed.

Lemma stage1_bytes l : Forall is_byte l -> Forall is_byte (stage1 1 <$> l).
Proof. intros Hl. apply Forall_fmap. eapply list.Forall_impl; [exact Hl|]. apply stage1_byte. Qed.

Lemma stage2_nibs l : Forall is_byte l -> Forall is_nib4 (stage2 1 <$> (stage1 1 <$> l)).
Proof.
  intros Hl. rewrite <- list_fmap_compose. apply Forall_fmap.
  eapply list.Forall_impl; [exact Hl|]. apply stage2_nib.
Qed.

Lemma nibs_bytes l : Forall is_nib4 l -> Forall is_byte l.
Proof. intros Hl. eapply list.Forall_impl; [exact Hl|]. by intros x (?&?&?). Qed.

Lemma join_nibs_half l : Forall is_nib4 l -> 2 * join l < 2 ^ (8 * Z.of_nat (length l)).
Proof.
  induction 1 as [|a l (Ha & Hl & Hu) _ IH]; simpl join; [done|].
  rewrite length_cons, Nat2Z.inj_succ.
  replace (8 * Z.succ (Z.of_nat (length l))) with (8 + 8 * Z.of_nat (length l)) by lia.
  rewrite Z.pow_add_r by lia. dlia.
Qed.

(** No stage leaves the word, so the wrap-around of the C type never happens. *)
Lemma stages_range l W :
  Forall is_byte l -> 8 * Z.of_nat (length l) <= W ->
  let n := length l in
  0 <= stage1 n (join l) < 2 ^ W
  /\ 0 <= stage2 n (stage1 n (join l)) < 2 ^ W
  /\ 0 <= stage2 n (stage1 n (join l)) + Z.shiftr (stage2 n (stage1 n (join l))) 4 < 2 ^ W.
Proof.
  intros Hl HW n. pose proof (Z.pow_le_mono_r 2 _ _ ltac:(lia) HW) as Hp.
  pose proof (stage1_bytes l Hl) as H1. pose proof (stage2_nibs l Hl) as H2.
  pose proof (join_range _ H1) as R1. pose proof (join_range _ (nibs_bytes _ H2)) as R2.
  pose proof (join_nibs_half _ H2) as R3. rewrite !length_fmap in *.
  subst n. rewrite stage1_join by done.
  rewrite <- (length_fmap (stage1 1) l). rewrite stage2_join by done.
  rewrite Z.shiftr_div_pow2 by lia. change (2 ^ 4) with 16. dlia.
Qed.

(** Folding the lanes: [k] whole lanes are shifted out. *)
Lemma shiftr_join l k :
  Forall is_byte l -> Z.shiftr (join l) (8 * Z.of_nat k) = join (drop k l).
Proof.
  revert l. induction k as [|k IH]; intros l Hl; [by rewrite Z.shiftr_0_r|].
  replace (8 * Z.of_nat (S k)) with (8 + 8 * Z.of_nat k) by lia.
  rewrite <- Z.shiftr_shiftr by lia. destruct Hl as [|a l Ha Hl]; simpl drop; simpl join.
  - by rewrite !Z.shiftr_0_l.
  - rewrite (Z.shiftr_div_pow2 _ 8), lane_div by (done || lia). by apply IH.
Qed.

Lemma fold_lanes8 p0 p1 p2 p3 p4 p5 p6 p7 :
  Forall (fun p => 0 <= p <= 8) [p0; p1; p2; p3; p4; p5; p6; p7] ->
  let r0 := join [p0; p1; p2; p3; p4; p5; p6; p7] in
  let r1 := u64 (r0 + Z.shiftr r0 8) in
  let r2 := u64 (r1 + Z.shiftr r1 16) in
  Z.land (u64 (r2 + Z.shiftr r2 32)) 0xFF = p0 + (p1 + (p2 + (p3 + (p4 + (p5 + (p6 + (p7 + 0))))))).
Proof.
  intros Hp r0 r1 r2. do 8 (apply Forall_cons_1 in Hp as [? Hp]).
  assert (E1 : r1 = join [p0+p1; p1+p2; p2+p3; p3+p4; p4+p5; p5+p6; p6+p7; p7]).
  { unfold r1, r0. rewrite (shiftr_join _ 1) by (repeat constructor; lia).
    simpl drop. simpl join. rewrite u64_small; lia. }
  assert (E2 : r2 = join [p0+p1+p2+p3; p1+p2+p3+p4; p2+p3+p4+p5; p3+p4+p5+p6;
                          p4+p5+p6+p7; p5+p6+p7; p6+p7; p7]).
  { unfold r2. rewrite E1, (shiftr_join _ 2) by (repeat constructor; lia).
    simpl drop. simpl join. rewrite u64_small; lia. }
  rewrite E2, (shiftr_join _ 4) by (repeat constructor; lia). simpl drop.
  change 0xFF with (2 ^ 8 - 1). rewrite land_pow_pred by lia. simpl join.
  rewrite u64_small by lia. dlia.
Qed.

Lemma fold_lanes4 p0 p1 p2 p3 :
  Forall (fun p => 0 <= p <= 8) [p0; p1; p2; p3] ->
  let r0 := join [p0; p1; p2; p3] in
  let r1 := u32 (r0 + Z.shiftr r0 8) in
  Z.land (u32 (r1 + Z.shiftr r1 16)) 0xFF = p0 + (p1 + (p2 + (p3 + 0))).
Proof.
  intros Hp r0 r1. do 4 (apply Forall_cons_1 in Hp as [? Hp]).
  assert (E1 : r1 = join [p0+p1; p1+p2; p2+p3; p3]).
  { unfold r1, r0. rewrite (shiftr_join _ 1) by (repeat constructor; lia).
    simpl drop. simpl join. rewrite u32_small; lia. }
  rewrite E1, (shiftr_join _ 2) by (repeat constructor; lia). simpl drop.
  change 0xFF with (2 ^ 8 - 1). rewrite land_pow_pred by lia. simpl join.
  rewrite u32_small by lia. dlia.
Qed.

Lemma fold_lanes2 p0 p1 :
  Forall (fun p => 0 <= p <= 8) [p0; p1] ->
  let r0 := join [p0; p1] in
  Z.land (u32 (r0 + Z.shiftr r0 8)) 0xFF = p0 + (p1 + 0).
Proof.
  intros Hp r0. do 2 (apply Forall_cons_1 in Hp as [? Hp]). unfold r0.
  rewrite (shiftr_join _ 1) by (repeat constructor; lia). simpl drop.
  change 0xFF with (2 ^ 8 - 1). rewrite land_pow_pred by lia. simpl join.
  rewrite u32_small by lia. dlia.
Qed.

(** The three stages of a count over [n] lanes of a [W]-bit type, with [wrap]
    its wrap-around, leave the bit counts of the bytes in the lanes. *)
Lemma wrapped_stages wrap W n w :
  (forall z, 0 <= z < 2 ^ W -> wrap z = z) -> 8 * Z.of_nat n <= W ->
  0 <= w < 2 ^ (8 * Z.of_nat n) ->
  let r1 := wrap (w - Z.land (Z.shiftr w 1) (lanes n 0x55)) in
  let r2 := wrap (Z.land r1 (lanes n 0x33) + Z.land (Z.shiftr r1 2) (lanes n 0x33)) in
  Z.land (wrap (r2 + Z.shiftr r2 4)) (lanes n 0x0F) = join (popcount 8 <$> bytes n w)
  /\ popcount (8 * n) w = foldr Z.add 0 (popcount 8 <$> bytes n w).
Proof.
  intros Hwrap HW Hw. cbv zeta. pose proof (bytes_are_bytes n w) as Hb.
  pose proof (stages_range _ W Hb) as Hr. pose proof (stages_popcount _ Hb) as Hs.
  pose proof (popcount_join _ Hb) as Hp.
  rewrite length_bytes, join_bytes in Hr, Hs, Hp by done. destruct Hr as (R1 & R2 & R3); [done|].
  fold (stage1 n w). rewrite (Hwrap (stage1 n w)) by done. fold (stage2 n (stage1 n w)).
  rewrite (Hwrap (stage2 n (stage1 n w))), (Hwrap (stage2 n (stage1 n w) + _)) by done.
  by fold (stage3 n (stage2 n (stage1 n w))).
Qed.

Lemma sw_hweight64_popcount w : 0 <= w < 2 ^ 64 -> sw_hweight64 w = popcount 64 w.
Proof.
  intros Hw. destruct (wrapped_stages u64 64 8 w) as [Hs Hp]; [apply u64_small|lia|done|].
  change (8 * 8)%nat with 64%nat in Hp. rewrite Hp.
  unfold sw_hweight64. cbv zeta in *. change (lanes 8 0x55) with 0x5555555555555555 in Hs.
  change (lanes 8 0x33) with 0x3333333333333333 in Hs. change (lanes 8 0x0F) with 0x0F0F0F0F0F0F0F0F in Hs.
  rewrite Hs.
  apply fold_lanes8. repeat constructor; apply (popcount_range 8).
Qed.

Lemma sw_hweight32_popcount w : 0 <= w < 2 ^ 32 -> sw_hweight32 w = popcount 32 w.
Proof.
  intros Hw. destruct (wrapped_stages u32 32 4 w) as [Hs Hp]; [apply u32_small|lia|done|].
  change (8 * 4)%nat with 32%nat in Hp. rewrite Hp.
  unfold sw_hweight32. cbv zeta in *. change (lanes 4 0x55) with 0x55555555 in Hs.
  change (lanes 4 0x33) with 0x33333333 in Hs. change (lanes 4 0x0F) with 0x0F0F0F0F in Hs.
  rewrite Hs.
  apply fold_lanes4. repeat constructor; apply (popcount_range 8).
Qed.

Lemma sw_hweight16_popcount w : 0 <= w < 2 ^ 16 -> sw_hweight16 w = popcount 16 w.
Proof.
  intros Hw. destruct (wrapped_stages u32 32 2 w) as [Hs Hp]; [apply u32_small|lia|done|].
  change (8 * 2)%nat with 16%nat in Hp. rewrite Hp.
  unfold sw_hweight16. cbv zeta in *. change (lanes 2 0x55) with 0x5555 in Hs.
  change (lanes 2 0x33) with 0x3333 in Hs. change (lanes 2 0x0F) with 0x0F0F in Hs.
  rewrite Hs.
  apply fold_lanes2. repeat constructor; apply (popcount_range 8).
Qed.

Lemma sw_hweight8_popcount w : 0 <= w < 2 ^ 8 -> sw_hweight8 w = popcount 8 w.
Proof.
  intros Hw. destruct (wrapped_stages u32 32 1 w) as [Hs Hp]; [apply u32_small|lia|done|].
  unfold sw_hweight8. cbv zeta in *.
  transitivity (join (popcount 8 <$> bytes 1 w)); [exact Hs|].
  change (8 * 1)%nat with 8%nat in Hp. rewrite Hp. simpl join. simpl foldr. lia.
Qed.

(** ** Properties *)

(** On every non-zero word [__ffs] is the index of the lowest set bit and
    [__fls] the index of the highest one, and [fls64] is one more. *)
Theorem ffs_fls_correct w :
  0 < w < 2 ^ 64 ->
  lowest_bit w (__ffs w) /\ highest_bit w (__fls w) /\ fls64 w = __fls w + 1.
Proof.
  intros Hw. split_and!; [by apply ffs_lowest|by apply fls_highest|].
  unfold fls64. by rewrite (proj2 (Z.eqb_neq w 0)) by lia.
Qed.

Lemma ffs_fls_correct_witness :
  lowest_bit 40 (__ffs 40) /\ highest_bit 40 (__fls 40) /\ fls64 40 = __fls 40 + 1.
Proof. apply (ffs_fls_correct 40). lia. Defined.

(** The four software population counts return the number of set bits of
    their argument; none of their additions wraps. *)
Theorem hweight_counts_bits w :
  0 <= w < 2 ^ 64 ->
  sw_hweight64 w = popcount 64 w
  /\ (w < 2 ^ 32 -> sw_hweight32 w = popcount 32 w)
  /\ (w < 2 ^ 16 -> sw_hweight16 w = popcount 16 w)
  /\ (w < 2 ^ 8 -> sw_hweight8 w = popcount 8 w).
Proof.
  intros Hw. split_and!; intros;
    [apply sw_hweight64_popcount|apply sw_hweight32_popcount
    |apply sw_hweight16_popcount|apply sw_hweight8_popcount]; lia.
Qed.

Lemma hweight_counts_bits_witness :
  sw_hweight64 0xff00ff = 16 /\ sw_hweight64 0xff00ff = popcount 64 0xff00ff.
Proof. split; [reflexivity|]. destruct (hweight_counts_bits 0xff00ff) as [H _]; [lia|exact H]. Defined.

(** [get_count_order] is the least exponent whose power of two covers the
    count. *)
Theorem get_count_order_least count :
  0 < count < 2 ^ 32 ->
  0 <= get_count_order count
  /\ count <= 2 ^ get_count_order count
  /\ forall n, 0 <= n -> count <= 2 ^ n -> get_count_order count <= n.
Proof.
  intros Hc. rewrite get_count_order_log2_up by done.
  split; [apply Z.log2_up_nonneg|]. split.
  - destruct (decide (1 < count)) as [H|H]; [apply Z.log2_up_spec; lia|].
    replace count with 1 by lia. by vm_compute.
  - intros n Hn Hle. by apply Z.log2_up_le_pow2; [lia..|].
Qed.

Lemma get_count_order_least_witness :
  get_count_order 5 = 3 /\ 5 <= 2 ^ get_count_order 5.
Proof. split; [reflexivity|]. destruct (get_count_order_least 5) as (_ & H & _); [lia|exact H]. Defined.
