(* ===== verification/Bitmap.v ===== *)
(** * Bitmaps: arrays of 64-bit words

    core/find_bit.c, core/bitmap.c, the bitmap macros of
    include/minos/bitmap.h and the single-bit operations of
    arch/aarch64/lib/bitops.S.  A bitmap is the list of its 64-bit words; a
    read or write through an index outside of the list is an access out of
    bounds, and the run is [None].  The searches loop over the words, so their
    fuel is the number of words. *)
From S2P Require Import Prelude Bitops.

(** ** Single bits (arch/aarch64/lib/bitops.S)

    The assembly works on the 32-bit word at byte offset [(nr & ~31) / 8]: on a
    little-endian machine the half [k mod 2] of the 64-bit word [k / 2], with
    [k = nr / 32]. *)
Definition ldxr (map : list Z) (k : Z) : option Z :=
  w ← map !! Z.to_nat (k / 2);
  Some (Z.land (Z.shiftr w (32 * (k mod 2))) (2 ^ 32 - 1)).

Definition stxr (map : list Z) (k v : Z) : option (list Z) :=
  w ← map !! Z.to_nat (k / 2);
  let sh := 32 * (k mod 2) in
  Some (<[Z.to_nat (k / 2) :=
           Z.lor (Z.ldiff w (Z.shiftl (2 ^ 32 - 1) sh)) (Z.shiftl v sh)]> map).

Definition bitop (instr : Z -> Z -> Z) (nr : Z) (map : list Z) : option (list Z) :=
  let off := Z.land nr 31 in
  let k := Z.shiftr (Z.lxor nr off) 5 in
  v ← ldxr map k;
  stxr map k (instr v (Z.shiftl 1 off)).

Definition set_bit : Z -> list Z -> option (list Z) := bitop Z.lor.
Definition clear_bit : Z -> list Z -> option (list Z) := bitop Z.ldiff.
Definition change_bit : Z -> list Z -> option (list Z) := bitop Z.lxor.

Definition test_bit (nr : Z) (map : list Z) : option bool :=
  let off := Z.land nr 31 in
  v ← ldxr map (Z.shiftr (Z.lxor nr off) 5);
  Some (negb (Z.land (Z.shiftr v off) 1 =? 0)).

Definition testop (instr : Z -> Z -> Z) (nr : Z) (map : list Z) : option (bool * list Z) :=
  b ← test_bit nr map; m ← bitop instr nr map; Some (b, m).

Definition test_and_set_bit : Z -> list Z -> option (bool * list Z) := testop Z.lor.
Definition test_and_clear_bit : Z -> list Z -> option (bool * list Z) := testop Z.ldiff.

(** ** Masks (include/minos/bitmap.h) *)
Definition BITMAP_FIRST_WORD_MASK (start : Z) : Z :=
  u64 (Z.shiftl (2 ^ 64 - 1) (Z.land start (BITS_PER_LONG - 1))).

Definition BITMAP_LAST_WORD_MASK (nbits : Z) : Z :=
  Z.shiftr (2 ^ 64 - 1) (Z.land (- nbits) (BITS_PER_LONG - 1)).

Definition BIT_WORD (nr : Z) : Z := nr / BITS_PER_LONG.

Definition BITS_TO_LONGS (nr : Z) : Z := (nr + 64 - 1) / 64.

(** [round_down(x, y)] on an [unsigned long]. *)
Definition round_down (x y : Z) : Z := Z.land x (not64 (y - 1)).

(** ** Searches (core/find_bit.c) *)

(** The [while (!tmp)] loop and the final [min] of [_find_next_bit]. *)
Fixpoint find_next_loop (fuel : nat) (addr : list Z) (nbits invert start tmp : Z) : option Z :=
  if tmp =? 0 then
    match fuel with
    | O => None
    | S fuel =>
        let start := u64 (start + BITS_PER_LONG) in
        if nbits <=? start then Some nbits
        else w ← addr !! Z.to_nat (start / BITS_PER_LONG);
             find_next_loop fuel addr nbits invert start (Z.lxor w invert)
    end
  else
    let r := u64 (start + __ffs tmp) in
    Some (if r <? nbits then r else nbits).

Definition _find_next_bit (addr : list Z) (nbits start invert : Z) : option Z :=
  if (nbits =? 0) || (nbits <=? start) then Some nbits
  else
    w ← addr !! Z.to_nat (start / BITS_PER_LONG);
    let tmp := Z.land (Z.lxor w invert) (BITMAP_FIRST_WORD_MASK start) in
    find_next_loop (length addr) addr nbits invert (round_down start BITS_PER_LONG) tmp.

Definition find_next_bit (addr : list Z) (size offset : Z) : option Z :=
  _find_next_bit addr size offset 0.

Definition find_next_zero_bit (addr : list Z) (size offset : Z) : option Z :=
  _find_next_bit addr size offset (2 ^ 64 - 1).

(** The [goto loop] is taken at most once: [offset] is 0 afterwards. *)
Definition _find_next_bit_loop (addr : list Z) (size offset invert : Z) : option Z :=
  bit ← _find_next_bit addr size offset invert;
  if (size <=? bit) && negb (offset =? 0)
  then _find_next_bit addr size 0 invert
  else Some bit.

Definition find_next_bit_loop (addr : list Z) (size offset : Z) : option Z :=
  _find_next_bit_loop addr size offset 0.

Definition find_next_zero_bit_loop (addr : list Z) (size offset : Z) : option Z :=
  _find_next_bit_loop addr size offset (2 ^ 64 - 1).

Fixpoint find_first_from (fuel : nat) (addr : list Z) (size idx : Z) : option Z :=
  if u64 (idx * BITS_PER_LONG) <? size then
    match fuel with
    | O => None
    | S fuel =>
        w ← addr !! Z.to_nat idx;
        if w =? 0 then find_first_from fuel addr size (idx + 1)
        else let r := u64 (idx * BITS_PER_LONG + __ffs w) in
             Some (if r <? size then r else size)
    end
  else Some size.

Definition find_first_bit (addr : list Z) (size : Z) : option Z :=
  find_first_from (S (length addr)) addr size 0.

Fixpoint find_first_zero_from (fuel : nat) (addr : list Z) (size idx : Z) : option Z :=
  if u64 (idx * BITS_PER_LONG) <? size then
    match fuel with
    | O => None
    | S fuel =>
        w ← addr !! Z.to_nat idx;
        if w =? 2 ^ 64 - 1 then find_first_zero_from fuel addr size (idx + 1)
        else let r := u64 (idx * BITS_PER_LONG + ffz w) in
             Some (if r <? size then r else size)
    end
  else Some size.

Definition find_first_zero_bit (addr : list Z) (size : Z) : option Z :=
  find_first_zero_from (S (length addr)) addr size 0.

(** The [do ... while (idx--)] loop of [find_last_bit], from word [idx] down. *)
Fixpoint find_last_from (addr : list Z) (size : Z) (idx : nat) (val : Z) : option Z :=
  w ← addr !! idx;
  let val := Z.land val w in
  if val =? 0 then
    match idx with
    | O => Some size
    | S idx => find_last_from addr size idx (2 ^ 64 - 1)
    end
  else Some (u64 (Z.of_nat idx * BITS_PER_LONG + __fls val)).

Definition find_last_bit (addr : list Z) (size : Z) : option Z :=
  if size =? 0 then Some size
  else find_last_from addr size (Z.to_nat ((size - 1) / BITS_PER_LONG))
         (BITMAP_LAST_WORD_MASK size).

(** ** Ranges (core/bitmap.c) *)
Fixpoint weight_from (bitmap : list Z) (k : Z) (lim : nat) (w : Z) : option (Z * Z) :=
  match lim with
  | O => Some (k, w)
  | S lim => x ← bitmap !! Z.to_nat k; weight_from bitmap (k + 1) lim (w + hweight_long x)
  end.

Definition __bitmap_weight (bitmap : list Z) (bits : Z) : option Z :=
  '(k, w) ← weight_from bitmap 0 (Z.to_nat (bits / BITS_PER_LONG)) 0;
  if bits mod BITS_PER_LONG =? 0 then Some w
  else x ← bitmap !! Z.to_nat k;
       Some (w + hweight_long (Z.land x (BITMAP_LAST_WORD_MASK bits))).

(** The common shape of [bitmap_set] and [bitmap_clear]: [op] is [|=] or [&= ~]. *)
Fixpoint range_loop (fuel : nat) (op : Z -> Z -> Z) (size : Z)
    (map : list Z) (p len bits mask : Z) : option (list Z) :=
  if 0 <=? len - bits then
    match fuel with
    | O => None
    | S fuel =>
        w ← map !! Z.to_nat p;
        range_loop fuel op size (<[Z.to_nat p := op w mask]> map)
          (p + 1) (len - bits) BITS_PER_LONG (2 ^ 64 - 1)
    end
  else if len =? 0 then Some map
  else w ← map !! Z.to_nat p;
       Some (<[Z.to_nat p := op w (Z.land mask (BITMAP_LAST_WORD_MASK size))]> map).

Definition bitmap_set (map : list Z) (start len : Z) : option (list Z) :=
  range_loop (S (length map)) Z.lor (u32 (start + len)) map (BIT_WORD start) len
    (BITS_PER_LONG - start mod BITS_PER_LONG) (BITMAP_FIRST_WORD_MASK start).

Definition bitmap_clear (map : list Z) (start len : Z) : option (list Z) :=
  range_loop (S (length map)) Z.ldiff (u32 (start + len)) map (BIT_WORD start) len
    (BITS_PER_LONG - start mod BITS_PER_LONG) (BITMAP_FIRST_WORD_MASK start).

Definition __ALIGN_MASK (x mask : Z) : Z := Z.land (u64 (x + mask)) (not64 mask).

Fixpoint zero_area_off_loop (fuel : nat) (map : list Z)
    (size start nr align_mask align_offset : Z) : option Z :=
  match fuel with
  | O => None
  | S fuel =>
      index ← find_next_zero_bit map size start;
      let index := u64 (__ALIGN_MASK (u64 (index + align_offset)) align_mask - align_offset) in
      let end_ := u64 (index + nr) in
      if size <? end_ then Some end_
      else
        i ← find_next_bit map end_ index;
        if i <? end_
        then zero_area_off_loop fuel map size (u64 (i + 1)) nr align_mask align_offset
        else Some index
  end.

Definition bitmap_find_next_zero_area_off (map : list Z)
    (size start nr align_mask align_offset : Z) : option Z :=
  zero_area_off_loop (S (Z.to_nat size)) map size start nr align_mask align_offset.

Definition bitmap_find_next_zero_area (map : list Z) (size start nr align_mask : Z) : option Z :=
  bitmap_find_next_zero_area_off map size start nr align_mask 0.

Fixpoint zero_area_align_loop (fuel : nat) (map : list Z)
    (size start nr align : Z) : option Z :=
  match fuel with
  | O => None
  | S fuel =>
      index ← find_next_zero_bit map size start;
      let end_ := u64 (index + nr) in
      if size <? end_ then Some end_
      else if negb (Z.land index (u64 (align - 1)) =? 0)
      then zero_area_align_loop fuel map size (u64 (index + 1)) nr align
      else
        i ← find_next_bit map end_ index;
        if i <? end_
        then zero_area_align_loop fuel map size (u64 (i + 1)) nr align
        else Some index
  end.

Definition bitmap_find_next_zero_area_align (map : list Z)
    (size start nr align : Z) : option Z :=
  zero_area_align_loop (S (Z.to_nat size)) map size start nr align.

(** ** What a bitmap means *)

(** Bit [i] of the array. *)
Definition bit_at (map : list Z) (i : Z) : bool :=
  match map !! Z.to_nat (i / 64) with
  | Some w => Z.testbit w (i mod 64)
  | None => false
  end.

Definition is_word (w : Z) : Prop := 0 <= w < 2 ^ 64.

(** [map] is an array of words with room for [nbits] bits.  Its size in bits is
    far from the end of the address space. *)
Definition bitmap_wf (nbits : Z) (map : list Z) : Prop :=
  Forall is_word map /\ 0 <= nbits <= 64 * Z.of_nat (length map)
  /\ 64 * Z.of_nat (length map) <= 2 ^ 62.

(** [r] is the first index of [lo, hi) with [P], or [hi] if there is none. *)
Definition first_in (P : Z -> bool) (lo hi r : Z) : Prop :=
  lo <= r <= hi /\ (forall i, lo <= i < r -> P i = false) /\ (r < hi -> P r = true).

(** ** Lemmas: single bits *)
Implicit Types map : list Z.

Lemma bit_at_insert map k w i :
  (k < length map)%nat -> 0 <= i ->
  bit_at (<[k := w]> map) i
  = if i / 64 =? Z.of_nat k then Z.testbit w (i mod 64) else bit_at map i.
Proof.
  intros Hk Hi. unfold bit_at. destruct (Z.eqb_spec (i / 64) (Z.of_nat k)) as [He|He].
  - rewrite He, Nat2Z.id. by rewrite list_lookup_insert_eq.
  - rewrite list_lookup_insert_ne; [done|]. dlia.
Qed.

Lemma bit_at_outside map i : 64 * Z.of_nat (length map) <= i -> bit_at map i = false.
Proof.
  intros Hi. unfold bit_at. rewrite lookup_ge_None_2; [done|]. dlia.
Qed.

Lemma word_lookup map i :
  0 <= i < 64 * Z.of_nat (length map) -> exists w, map !! Z.to_nat (i / 64) = Some w.
Proof. intros Hi. apply lookup_lt_is_Some_2. dlia. Qed.

Section bitop.
Context (instr : Z -> Z -> Z) (f : bool -> bool -> bool).
Context (Hf : forall a b i, 0 <= i -> Z.testbit (instr a b) i = f (Z.testbit a i) (Z.testbit b i)).
Context (Hid : forall a, f a false = a).

Lemma half_index nr :
  0 <= nr ->
  Z.land nr 31 = nr mod 32 /\ Z.shiftr (Z.lxor nr (Z.land nr 31)) 5 = nr / 32
  /\ nr / 32 / 2 = nr / 64 /\ 32 * (nr / 32 mod 2) + nr mod 32 = nr mod 64.
Proof.
  intros Hn. split; [change 31 with (2 ^ 5 - 1); by rewrite land_pow_pred|].
  split; [|dlia]. change 31 with (2 ^ 5 - 1). rewrite land_pow_pred by lia.
  rewrite Z.shiftr_lxor, !Z.shiftr_div_pow2 by lia.
  rewrite (Z.div_small (nr mod 2 ^ 5)) by (apply Z.mod_pos_bound; lia).
  by rewrite Z.lxor_0_r.
Qed.

(** The word stored by the read-modify-write of one half. *)
Lemma half_update w sh off j :
  is_word w -> (sh = 0 \/ sh = 32) -> 0 <= off < 32 -> 0 <= j ->
  let v := Z.land (Z.shiftr w sh) (2 ^ 32 - 1) in
  Z.testbit (Z.lor (Z.ldiff w (Z.shiftl (2 ^ 32 - 1) sh))
                   (Z.shiftl (instr v (Z.shiftl 1 off)) sh)) j
  = if j =? sh + off then f (Z.testbit w j) true else Z.testbit w j.
Proof.
  intros Hw Hsh Hoff Hj v. subst v.
  rewrite Z.lor_spec, Z.ldiff_spec, !Z.shiftl_spec, pow_pred_ones by lia.
  rewrite Z.shiftl_1_l. destruct (Z.ltb_spec j sh) as [H|H].
  - rewrite !(Z.testbit_neg_r _ (j - sh)) by lia.
    destruct (Z.eqb_spec j (sh + off)); [lia|]. by rewrite andb_true_r, orb_false_r.
  - rewrite Hf, Z.land_spec, Z.shiftr_spec, Z.pow2_bits_eqb by lia.
    replace (j - sh + sh) with j by lia.
    destruct (Z.ltb_spec (j - sh) 32) as [Hl|Hl].
    + rewrite Z.ones_spec_low by lia. rewrite andb_false_r, andb_true_r. simpl.
      destruct (Z.eqb_spec j (sh + off)), (Z.eqb_spec off (j - sh)); try lia; [done|].
      by rewrite Hid.
    + rewrite Z.ones_spec_high by lia. rewrite andb_true_r, andb_false_r.
      destruct (Z.eqb_spec j (sh + off)), (Z.eqb_spec off (j - sh)); try lia.
      by rewrite Hid, orb_false_r.
Qed.

Lemma bitop_spec nr map :
  Forall is_word map -> 0 <= nr < 64 * Z.of_nat (length map) ->
  exists map', bitop instr nr map = Some map' /\ Forall is_word map'
    /\ length map' = length map
    /\ forall i, 0 <= i ->
         bit_at map' i = if i =? nr then f (bit_at map nr) true else bit_at map i.
Proof.
  intros Hm Hn. destruct (half_index nr) as (E1 & E2 & E3 & E4); [lia|].
  destruct (word_lookup map nr Hn) as [w Hw].
  assert (Hword : is_word w) by (by eapply Forall_lookup_1 in Hw).
  unfold bitop, ldxr, stxr. rewrite E2, E3, Hw, E1. simpl.
  set (sh := 32 * (nr / 32 mod 2)) in *.
  assert (Hsh : sh = 0 \/ sh = 32) by (unfold sh; dlia).
  assert (Hoff : 0 <= nr mod 32 < 32) by dlia.
  pose proof (fun j => half_update w sh (nr mod 32) j Hword Hsh Hoff) as Hu. simpl in Hu.
  eexists. split; [done|]. split; [|split; [by rewrite length_insert|]].
  - apply Forall_insert; [done|]. apply word_of_bits. intros i Hi.
    rewrite Hu by lia. rewrite (testbit_small w 64) by (done || lia).
    destruct (Z.eqb_spec i (sh + nr mod 32)); [dlia|done].
  - intros i Hi. rewrite bit_at_insert by (done || (apply lookup_lt_Some in Hw; lia)).
    rewrite Z2Nat.id by dlia. rewrite Hu by dlia.
    assert (Hbn : bit_at map nr = Z.testbit w (nr mod 64)) by (unfold bit_at; by rewrite Hw).
    rewrite Hbn. destruct (Z.eqb_spec (i / 64) (nr / 64)) as [Hq|Hq].
    + assert (Hbi : bit_at map i = Z.testbit w (i mod 64)) by (unfold bit_at; by rewrite Hq, Hw).
      rewrite Hbi, E4.
      destruct (Z.eqb_spec (i mod 64) (nr mod 64)), (Z.eqb_spec i nr); subst; try done; dlia.
    + destruct (Z.eqb_spec i nr); [congruence|done].
Qed.
End bitop.

Lemma set_bit_spec nr map :
  Forall is_word map -> 0 <= nr < 64 * Z.of_nat (length map) ->
  exists map', set_bit nr map = Some map' /\ Forall is_word map'
    /\ length map' = length map
    /\ forall i, 0 <= i -> bit_at map' i = (i =? nr) || bit_at map i.
Proof.
  intros Hm Hn. destruct (bitop_spec Z.lor orb) with nr map as (m & E & Hw & Hl & Hb); try done.
  - intros. apply Z.lor_spec.
  - apply orb_false_r.
  - exists m. split_and!; try done. intros i Hi. rewrite Hb by done.
    destruct (i =? nr); [by rewrite orb_true_r|done].
Qed.

Lemma clear_bit_spec nr map :
  Forall is_word map -> 0 <= nr < 64 * Z.of_nat (length map) ->
  exists map', clear_bit nr map = Some map' /\ Forall is_word map'
    /\ length map' = length map
    /\ forall i, 0 <= i -> bit_at map' i = negb (i =? nr) && bit_at map i.
Proof.
  intros Hm Hn.
  destruct (bitop_spec Z.ldiff (fun a b => a && negb b)) with nr map
    as (m & E & Hw & Hl & Hb); try done.
  - intros. apply Z.ldiff_spec.
  - apply andb_true_r.
  - exists m. split_and!; try done. intros i Hi. rewrite Hb by done.
    destruct (i =? nr); [by rewrite andb_false_r|done].
Qed.

Lemma test_bit_spec nr map :
  0 <= nr < 64 * Z.of_nat (length map) -> test_bit nr map = Some (bit_at map nr).
Proof.
  intros Hn. destruct (half_index nr) as (E1 & E2 & E3 & E4); [lia|].
  destruct (word_lookup map nr Hn) as [w Hw].
  unfold test_bit, ldxr. rewrite E2, E3, Hw, E1. simpl. f_equal.
  unfold bit_at. rewrite Hw, <- E4.
  change 1 with (2 ^ 1 - 1). rewrite land_pow_pred by lia.
  rewrite <- Z.bit0_mod, Z.shiftr_spec, Z.land_spec, Z.shiftr_spec by dlia.
  rewrite pow_pred_ones, Z.ones_spec_low by dlia. rewrite andb_true_r.
  replace (0 + nr mod 32 + 32 * (nr / 32 mod 2)) with (32 * (nr / 32 mod 2) + nr mod 32) by lia.
  by destruct (Z.testbit _ _).
Qed.

(** ** Lemmas: masks and positions *)
Lemma bit_at_word map q j w :
  map !! Z.to_nat q = Some w -> 0 <= q -> 0 <= j < 64 ->
  bit_at map (64 * q + j) = Z.testbit w j.
Proof.
  intros Hw Hq Hj. unfold bit_at.
  replace ((64 * q + j) / 64) with q by dlia.
  replace ((64 * q + j) mod 64) with j by dlia. by rewrite Hw.
Qed.

Lemma land_63 x : Z.land x (BITS_PER_LONG - 1) = x mod 64.
Proof. apply (land_pow_pred x 6). lia. Qed.

Lemma first_word_mask_testbit start j :
  0 <= j -> Z.testbit (BITMAP_FIRST_WORD_MASK start) j = (start mod 64 <=? j) && (j <? 64).
Proof.
  intros Hj. unfold BITMAP_FIRST_WORD_MASK. rewrite land_63.
  apply high_mask_testbit; [dlia|done].
Qed.

Lemma last_word_mask_testbit n j :
  0 <= j ->
  Z.testbit (BITMAP_LAST_WORD_MASK n) j = (j <? (if n mod 64 =? 0 then 64 else n mod 64)).
Proof.
  intros Hj. unfold BITMAP_LAST_WORD_MASK. rewrite land_63, pow_pred_ones.
  rewrite Z.shiftr_spec, Z.testbit_ones_nonneg by dlia.
  destruct (Z.eqb_spec (n mod 64) 0);
    match goal with |- (?a <? ?b) = (?c <? ?d) =>
      destruct (Z.ltb_spec a b), (Z.ltb_spec c d) end; dlia || done.
Qed.

Lemma round_down_64 x : 0 <= x < 2 ^ 64 -> round_down x BITS_PER_LONG = 64 * (x / 64).
Proof.
  intros Hx. unfold round_down.
  change (not64 (BITS_PER_LONG - 1)) with (u64 (Z.shiftl (2 ^ 64 - 1) 6)).
  rewrite land_high_mask, Z.shiftl_mul_pow2, Z.shiftr_div_pow2 by lia.
  change (2 ^ 6) with 64. lia.
Qed.

(** ** Lemmas: searches *)
Definition invert_word (inv : bool) : Z := if inv then 2 ^ 64 - 1 else 0.

(** What a search looks for: set bits, or clear bits when [inv]. *)
Definition wanted (map : list Z) (inv : bool) (i : Z) : bool := xorb (bit_at map i) inv.

Lemma lxor_invert_testbit w inv j :
  0 <= j < 64 -> Z.testbit (Z.lxor w (invert_word inv)) j = xorb (Z.testbit w j) inv.
Proof.
  intros Hj. rewrite Z.lxor_spec. destruct inv; simpl invert_word.
  - by rewrite pow_pred_ones, Z.ones_spec_low by lia.
  - by rewrite Z.bits_0.
Qed.

Lemma lxor_invert_word w inv : is_word w -> is_word (Z.lxor w (invert_word inv)).
Proof.
  intros Hw. apply word_of_bits. intros i Hi.
  rewrite Z.lxor_spec, (testbit_small w 64) by (done || lia).
  destruct inv; simpl invert_word; [|by rewrite Z.bits_0].
  by rewrite pow_pred_ones, Z.ones_spec_high by lia.
Qed.

Lemma first_in_unique P lo hi r1 r2 :
  first_in P lo hi r1 -> first_in P lo hi r2 -> r1 = r2.
Proof.
  intros (B1 & L1 & T1) (B2 & L2 & T2).
  destruct (Z.lt_trichotomy r1 r2) as [H|[H|H]]; [|done|].
  - rewrite L2 in T1 by lia. discriminate T1. lia.
  - rewrite L1 in T2 by lia. discriminate T2. lia.
Qed.

(** The lowest wanted bit of the word at [s] decides the search when there is one. *)
Lemma first_in_word P lo hi s tmp :
  is_word tmp -> tmp <> 0 -> 0 <= s -> lo < hi ->
  (forall i, lo <= i < s -> P i = false) ->
  (forall j, 0 <= j < 64 -> Z.testbit tmp j = (lo <=? s + j) && P (s + j)) ->
  0 <= __ffs tmp < 64
  /\ first_in P lo hi (if s + __ffs tmp <? hi then s + __ffs tmp else hi).
Proof.
  intros Ht Hnz Hs Hlo Hbefore Htmp.
  assert (Hpos : 0 < tmp < 2 ^ 64) by (unfold is_word in Ht; lia).
  destruct (ffs_lowest tmp Hpos) as (Hn & Hb & Hlow).
  set (n := __ffs tmp) in *.
  assert (Hn64 : n < 64).
  { destruct (decide (n < 64)); [done|].
    rewrite (testbit_small tmp 64) in Hb by (done || lia). done. }
  split; [lia|]. rewrite Htmp in Hb by lia.
  apply andb_true_iff in Hb as [Hlo2 HP]. apply Z.leb_le in Hlo2.
  assert (Hnone : forall i, lo <= i < s + n -> P i = false).
  { intros i Hi. destruct (decide (i < s)) as [|Hge]; [by apply Hbefore; lia|].
    specialize (Hlow (i - s)). rewrite Htmp in Hlow by lia.
    replace (s + (i - s)) with i in Hlow by lia.
    destruct (Z.leb_spec lo i); [|lia]. by apply Hlow; lia. }
  destruct (Z.ltb_spec (s + n) hi); repeat split; try lia; auto.
  intros i Hi. apply Hnone. lia.
Qed.

Lemma find_next_loop_spec fuel map nbits inv q lo tmp :
  bitmap_wf nbits map -> 0 <= q -> 64 * q < nbits -> lo < nbits -> lo < 64 * q + 64 ->
  (length map <= Z.to_nat q + fuel)%nat -> is_word tmp ->
  (forall i, lo <= i < 64 * q -> wanted map inv i = false) ->
  (forall j, 0 <= j < 64 ->
     Z.testbit tmp j = (lo <=? 64 * q + j) && wanted map inv (64 * q + j)) ->
  exists r, find_next_loop fuel map nbits (invert_word inv) (64 * q) tmp = Some r
            /\ first_in (wanted map inv) lo nbits r.
Proof.
  intros (Hm & Hnb & Hsz). revert q tmp.
  induction fuel as [|fuel IH]; intros q tmp Hq Hs Hlo Hlo64 Hfuel Htw Hbefore Htmp;
    simpl; unfold BITS_PER_LONG; destruct (Z.eqb_spec tmp 0) as [Hz|Hz].
  1: lia.
  2: {
    rewrite u64_small by lia.
    assert (Hb64 : forall i, lo <= i < 64 * q + 64 -> wanted map inv i = false).
    { intros i Hi. destruct (decide (i < 64 * q)); [by apply Hbefore; lia|].
      specialize (Htmp (i - 64 * q)). rewrite Hz, Z.bits_0 in Htmp.
      replace (64 * q + (i - 64 * q)) with i in Htmp by lia.
      destruct (Z.leb_spec lo i); [symmetry; apply Htmp; lia|lia]. }
    destruct (Z.leb_spec nbits (64 * q + 64)) as [Hle|Hgt].
    - exists nbits. split; [done|]. repeat split; [lia|lia| |lia].
      intros i Hi. apply Hb64. lia.
    - replace ((64 * q + 64) / 64) with (q + 1) by dlia.
      destruct (lookup_lt_is_Some_2 map (Z.to_nat (q + 1))) as [w Hw]; [lia|].
      rewrite Hw. simpl. replace (64 * q + 64) with (64 * (q + 1)) in * by lia.
      apply IH; try lia; [by apply lxor_invert_word; eapply Forall_lookup_1 in Hw|done|].
      intros j Hj. rewrite lxor_invert_testbit by done. unfold wanted.
      rewrite (bit_at_word _ _ _ w) by (done || lia).
      destruct (Z.leb_spec lo (64 * (q + 1) + j)); [done|lia]. }
  all: destruct (first_in_word (wanted map inv) lo nbits (64 * q) tmp) as [Hr Hf];
    try (done || lia); rewrite u64_small by lia; eauto.
Qed.

Lemma _find_next_bit_spec map nbits start inv :
  bitmap_wf nbits map -> 0 <= start < 2 ^ 64 ->
  exists r, _find_next_bit map nbits start (invert_word inv) = Some r
            /\ (nbits <= start -> r = nbits)
            /\ (start < nbits -> first_in (wanted map inv) start nbits r).
Proof.
  intros Hwf Hst. unfold _find_next_bit.
  destruct (Z.leb_spec nbits start) as [Hle|Hlt].
  - rewrite orb_true_r. exists nbits. split; [done|]. split; [done|lia].
  - destruct (Z.eqb_spec nbits 0); [lia|]. simpl orb. cbv iota.
    pose proof Hwf as (Hm & Hnb & Hsz). change (start / BITS_PER_LONG) with (start / 64).
    destruct (word_lookup map start) as [w Hw]; [lia|]. rewrite Hw. simpl.
    rewrite round_down_64 by lia.
    assert (Hww : is_word w) by (by eapply Forall_lookup_1 in Hw).
    eassert (exists r, _ = Some r /\ first_in (wanted map inv) start nbits r) as (r & E & Hf);
      [apply (find_next_loop_spec (length map) map nbits inv (start / 64) start);
        [done|dlia|dlia|lia|dlia|lia| | |]
      |exists r; split; [exact E|split; [lia|done]]].
    + apply word_of_bits. intros i Hi. rewrite Z.land_spec.
      by rewrite (testbit_small (Z.lxor _ _) 64) by (done || apply lxor_invert_word; done).
    + intros i Hi. dlia.
    + intros j Hj. rewrite Z.land_spec, lxor_invert_testbit, first_word_mask_testbit by lia.
      unfold wanted. rewrite (bit_at_word _ _ _ w) by (done || dlia).
      destruct (Z.ltb_spec j 64); [|lia]. rewrite andb_true_r, andb_comm. f_equal.
      destruct (Z.leb_spec (start mod 64) j), (Z.leb_spec start (64 * (start / 64) + j)); dlia || done.
Qed.

Lemma first_in_ext P Q lo hi r :
  (forall i, lo <= i < hi -> P i = Q i) -> first_in P lo hi r -> first_in Q lo hi r.
Proof.
  intros HPQ (Hr & Hb & Ht). split; [done|]. split.
  - intros i Hi. rewrite <- HPQ by lia. by apply Hb.
  - intros Hh. rewrite <- HPQ by lia. by apply Ht.
Qed.

Lemma first_in_refl P lo r : first_in P lo lo r -> r = lo.
Proof. intros (H & _). lia. Qed.

Lemma find_next_bit_spec map size offset :
  bitmap_wf size map -> 0 <= offset <= size ->
  exists r, find_next_bit map size offset = Some r /\ first_in (bit_at map) offset size r.
Proof.
  intros Hwf Ho. pose proof Hwf as (Hm & Hnb & Hsz).
  destruct (_find_next_bit_spec map size offset false Hwf) as (r & E & H1 & H2); [lia|].
  exists r. split; [done|]. destruct (decide (offset < size)) as [Hlt|Hge].
  - eapply first_in_ext; [|by apply H2]. intros. unfold wanted. by rewrite xorb_false_r.
  - rewrite H1 by lia. repeat split; try lia. 
Qed.

Lemma find_next_zero_bit_spec map size offset :
  bitmap_wf size map -> 0 <= offset <= size ->
  exists r, find_next_zero_bit map size offset = Some r
            /\ first_in (fun i => negb (bit_at map i)) offset size r.
Proof.
  intros Hwf Ho. pose proof Hwf as (Hm & Hnb & Hsz).
  destruct (_find_next_bit_spec map size offset true Hwf) as (r & E & H1 & H2); [lia|].
  exists r. split; [done|]. destruct (decide (offset < size)) as [Hlt|Hge].
  - eapply first_in_ext; [|by apply H2]. intros. unfold wanted. by rewrite xorb_true_r.
  - rewrite H1 by lia. repeat split; try lia. 
Qed.

(** The wrapping search: the first clear bit from [offset] on, else the first
    one of the bitmap, else [size]. *)
Lemma find_next_zero_bit_loop_spec map size offset :
  bitmap_wf size map -> 0 <= offset <= size ->
  exists r, find_next_zero_bit_loop map size offset = Some r
    /\ 0 <= r <= size
    /\ (r < size -> bit_at map r = false)
    /\ (r = size -> forall i, 0 <= i < size -> bit_at map i = true).
Proof.
  intros Hwf Ho. unfold find_next_zero_bit_loop, _find_next_bit_loop.
  destruct (find_next_zero_bit_spec map size offset Hwf Ho) as (r & E & Hr & Hb & Ht).
  unfold find_next_zero_bit in E. rewrite E. simpl.
  destruct (Z.leb_spec size r) as [Hle|Hlt]; simpl.
  - destruct (Z.eqb_spec offset 0) as [->|Hoff]; simpl.
    + exists r. split_and!; try (done || lia). intros _ i Hi.
      apply negb_false_iff, Hb. lia.
    + destruct (find_next_zero_bit_spec map size 0 Hwf) as (r2 & E2 & Hr2 & Hb2 & Ht2); [lia|].
      unfold find_next_zero_bit in E2. rewrite E2. exists r2. split_and!; try (done || lia).
      * intros H. by apply negb_true_iff, Ht2.
      * intros -> i Hi. by apply negb_false_iff, Hb2.
  - exists r. split_and!; try (done || lia). intros _. by apply negb_true_iff, Ht.
Qed.

Lemma ffz_not64 w : is_word w -> w <> 2 ^ 64 - 1 -> is_word (not64 w) /\ not64 w <> 0.
Proof.
  intros Hw Hne. split; [apply not64_range|]. intros Hz. apply Hne.
  rewrite pow_pred_ones. apply Z.bits_inj'. intros i Hi.
  apply (f_equal (fun x => Z.testbit x i)) in Hz.
  rewrite not64_testbit, Z.bits_0 in Hz by done. destruct (Z.ltb_spec i 64) as [H|H].
  - rewrite Z.ones_spec_low by lia. by apply negb_false_iff in Hz.
  - by rewrite Z.ones_spec_high, (testbit_small w 64) by (done || lia).
Qed.

Lemma find_first_from_spec fuel map size q :
  bitmap_wf size map -> 0 <= q <= Z.of_nat (length map) ->
  (length map < Z.to_nat q + fuel)%nat ->
  (forall i, 0 <= i < 64 * q -> i < size -> bit_at map i = false) ->
  exists r, find_first_from fuel map size q = Some r /\ first_in (bit_at map) 0 size r.
Proof.
  intros (Hm & Hnb & Hsz). revert q. induction fuel as [|fuel IH];
    intros q Hq Hfuel Hbefore; simpl; unfold BITS_PER_LONG; [lia|].
  rewrite u64_small by lia. destruct (Z.ltb_spec (q * 64) size) as [Hlt|Hge].
  - destruct (lookup_lt_is_Some_2 map (Z.to_nat q)) as [w Hw]; [lia|]. rewrite Hw. simpl.
    assert (Hww : is_word w) by (by eapply Forall_lookup_1 in Hw).
    destruct (Z.eqb_spec w 0) as [->|Hnz].
    + apply IH; [lia|lia|]. intros i Hi His.
      destruct (decide (i < 64 * q)); [by apply Hbefore; lia|].
      replace i with (64 * q + (i - 64 * q)) by lia.
      by rewrite (bit_at_word _ _ _ 0), Z.bits_0 by (done || lia).
    + destruct (first_in_word (bit_at map) 0 size (64 * q) w) as [Hr Hf];
        try (done || lia).
      * intros i Hi. apply Hbefore; lia.
      * intros j Hj. rewrite (bit_at_word _ _ _ w) by (done || lia).
        destruct (Z.leb_spec 0 (64 * q + j)); [done|lia].
      * rewrite u64_small, (Z.mul_comm q) by lia. eauto.
  - exists size. split; [done|]. repeat split; try lia. intros i Hi. apply Hbefore; lia.
Qed.

Lemma find_first_bit_spec map size :
  bitmap_wf size map ->
  exists r, find_first_bit map size = Some r /\ first_in (bit_at map) 0 size r.
Proof. intros Hwf. apply find_first_from_spec; [done|lia|simpl; lia|lia]. Qed.

Lemma find_first_zero_from_spec fuel map size q :
  bitmap_wf size map -> 0 <= q <= Z.of_nat (length map) ->
  (length map < Z.to_nat q + fuel)%nat ->
  (forall i, 0 <= i < 64 * q -> i < size -> bit_at map i = true) ->
  exists r, find_first_zero_from fuel map size q = Some r
            /\ first_in (fun i => negb (bit_at map i)) 0 size r.
Proof.
  intros (Hm & Hnb & Hsz). revert q. induction fuel as [|fuel IH];
    intros q Hq Hfuel Hbefore; simpl; unfold BITS_PER_LONG; [lia|].
  rewrite u64_small by lia. destruct (Z.ltb_spec (q * 64) size) as [Hlt|Hge].
  - destruct (lookup_lt_is_Some_2 map (Z.to_nat q)) as [w Hw]; [lia|]. rewrite Hw. simpl.
    assert (Hww : is_word w) by (by eapply Forall_lookup_1 in Hw).
    destruct (Z.eqb_spec w (2 ^ 64 - 1)) as [->|Hnz].
    + apply IH; [lia|lia|]. intros i Hi His.
      destruct (decide (i < 64 * q)); [by apply Hbefore; lia|].
      replace i with (64 * q + (i - 64 * q)) by lia.
      rewrite (bit_at_word _ _ _ (2 ^ 64 - 1)) by (done || lia).
      by rewrite pow_pred_ones, Z.ones_spec_low by lia.
    + destruct (ffz_not64 w Hww Hnz) as [Hnw Hn0]. unfold ffz.
      destruct (first_in_word (fun i => negb (bit_at map i)) 0 size (64 * q) (not64 w))
        as [Hr Hf]; try (done || lia).
      * intros i Hi. apply negb_false_iff, Hbefore; lia.
      * intros j Hj. rewrite (bit_at_word _ _ _ w), not64_testbit by (done || lia).
        destruct (Z.leb_spec 0 (64 * q + j)), (Z.ltb_spec j 64); done || lia.
      * rewrite u64_small, (Z.mul_comm q) by lia. eauto.
  - exists size. split; [done|]. repeat split; try lia.
    intros i Hi. apply negb_false_iff, Hbefore; lia.
Qed.

Lemma find_first_zero_bit_spec map size :
  bitmap_wf size map ->
  exists r, find_first_zero_bit map size = Some r
            /\ first_in (fun i => negb (bit_at map i)) 0 size r.
Proof. intros Hwf. apply find_first_zero_from_spec; [done|lia|simpl; lia|lia]. Qed.

(** ** Lemmas: ranges *)
Section ranges.
Context (op : Z -> Z -> Z) (b : bool).
Context (Hop : forall w m j, 0 <= j ->
  Z.testbit (op w m) j = if Z.testbit m j then b else Z.testbit w j).

(** Writing the bits [lo, hi) of one word. *)
Lemma range_word map q w mask lo hi :
  Forall is_word map -> map !! Z.to_nat q = Some w -> 0 <= q -> 0 <= lo <= hi -> hi <= 64 ->
  (forall j, 0 <= j -> Z.testbit mask j = (lo <=? j) && (j <? hi)) ->
  let map' := <[Z.to_nat q := op w mask]> map in
  Forall is_word map' /\ forall i, 0 <= i ->
    bit_at map' i = if (64 * q + lo <=? i) && (i <? 64 * q + hi) then b else bit_at map i.
Proof.
  intros Hm Hw Hq Hlo Hhi Hmask map'.
  assert (Hww : is_word w) by (by eapply Forall_lookup_1 in Hw).
  pose proof (lookup_lt_Some _ _ _ Hw) as Hlt. split.
  - apply Forall_insert; [done|]. apply word_of_bits. intros j Hj.
    rewrite Hop, Hmask, (testbit_small w 64) by (done || lia).
    destruct (Z.leb_spec lo j), (Z.ltb_spec j hi); done || lia.
  - intros i Hi. unfold map'. rewrite bit_at_insert, Z2Nat.id by done.
    destruct (Z.eqb_spec (i / 64) q) as [He|He].
    + rewrite Hop, Hmask by dlia. unfold bit_at. rewrite He, Hw.
      destruct (Z.leb_spec lo (i mod 64)), (Z.ltb_spec (i mod 64) hi),
        (Z.leb_spec (64 * q + lo) i), (Z.ltb_spec i (64 * q + hi)); simpl; done || dlia.
    + destruct (Z.leb_spec (64 * q + lo) i), (Z.ltb_spec i (64 * q + hi)); simpl; done || dlia.
Qed.

Lemma range_loop_spec fuel size map q len bits mask :
  Forall is_word map -> 0 <= q -> 0 <= len -> 1 <= bits <= 64 ->
  size = 64 * q + (64 - bits) + len -> size <= 64 * Z.of_nat (length map) ->
  (length map < Z.to_nat q + fuel)%nat ->
  (forall j, 0 <= j -> Z.testbit mask j = (64 - bits <=? j) && (j <? 64)) ->
  exists map', range_loop fuel op size map q len bits mask = Some map'
    /\ Forall is_word map' /\ length map' = length map
    /\ forall i, 0 <= i ->
         bit_at map' i = if (size - len <=? i) && (i <? size) then b else bit_at map i.
Proof.
  revert map q len bits mask.
  induction fuel as [|fuel IH]; intros map q len bits mask Hm Hq Hlen Hbits Hsize Hfit Hfuel Hmask;
    simpl; destruct (Z.leb_spec 0 (len - bits)) as [Hle|Hgt]; try lia.
  - destruct (lookup_lt_is_Some_2 map (Z.to_nat q)) as [w Hw]; [lia|]. rewrite Hw. simpl.
    destruct (range_word map q w mask (64 - bits) 64) as [Hm1 Hb1]; try (done || lia).
    destruct (IH (<[Z.to_nat q:=op w mask]> map) (q + 1) (len - bits) BITS_PER_LONG (2 ^ 64 - 1))
      as (map' & E & Hm' & Hl' & Hb'); rewrite ?length_insert; unfold BITS_PER_LONG in *;
      try (done || lia).
    { intros j Hj. rewrite pow_pred_ones, Z.testbit_ones_nonneg by lia.
      by destruct (Z.leb_spec (64 - 64) j); [|lia]. }
    exists map'. split_and!; [done..|by rewrite Hl', length_insert|].
    intros i Hi. rewrite Hb', Hb1 by done.
    destruct (Z.leb_spec (size - (len - bits)) i), (Z.ltb_spec i size),
      (Z.leb_spec (64 * q + (64 - bits)) i), (Z.ltb_spec i (64 * q + 64)),
      (Z.leb_spec (size - len) i); simpl; done || lia.
  - destruct (Z.eqb_spec len 0) as [->|Hnz].
    + exists map. split_and!; try done. intros i Hi.
      destruct (Z.leb_spec (size - 0) i), (Z.ltb_spec i size); simpl; done || lia.
    + destruct (lookup_lt_is_Some_2 map (Z.to_nat q)) as [w Hw]; [lia|]. rewrite Hw. simpl.
      destruct (range_word map q w (Z.land mask (BITMAP_LAST_WORD_MASK size))
                  (64 - bits) (size - 64 * q)) as [Hm1 Hb1]; try (done || lia).
      { intros j Hj. rewrite Z.land_spec, Hmask, last_word_mask_testbit by done.
        destruct (Z.eqb_spec (size mod 64) 0); [dlia|].
        destruct (Z.leb_spec (64 - bits) j), (Z.ltb_spec j 64), (Z.ltb_spec j (size mod 64)),
          (Z.ltb_spec j (size - 64 * q)); simpl; done || dlia. }
      eexists. split; [done|]. split_and!; [done|by rewrite length_insert|].
      intros i Hi. rewrite Hb1 by done.
      destruct (Z.leb_spec (64 * q + (64 - bits)) i), (Z.ltb_spec i (64 * q + (size - 64 * q))),
        (Z.leb_spec (size - len) i), (Z.ltb_spec i size); simpl; done || lia.
Qed.
End ranges.

Lemma bitmap_set_spec map start len :
  Forall is_word map -> 0 <= start -> 0 <= len ->
  start + len <= 64 * Z.of_nat (length map) -> start + len < 2 ^ 32 ->
  exists map', bitmap_set map start len = Some map' /\ Forall is_word map'
    /\ length map' = length map
    /\ forall i, 0 <= i ->
         bit_at map' i = ((start <=? i) && (i <? start + len)) || bit_at map i.
Proof.
  intros Hm Hs Hl Hfit H32. unfold bitmap_set. rewrite u32_small by lia.
  edestruct (range_loop_spec Z.lor true) with (q := BIT_WORD start)
    (bits := BITS_PER_LONG - start mod BITS_PER_LONG) (size := start + len) (len := len)
    as (m & E & Hw & Hlen & Hb);
    [|exact Hm| | | | | | | |rewrite E; exists m; split_and!; try done];
    unfold BIT_WORD, BITS_PER_LONG in *; try dlia.
  - intros w k j Hj. rewrite Z.lor_spec. destruct (Z.testbit k j); [apply orb_true_r|apply orb_false_r].
  - intros j Hj. rewrite first_word_mask_testbit by done. repeat f_equal. lia.
  - intros i Hi. rewrite Hb by done. replace (start + len - len) with start by lia.
    by destruct ((start <=? i) && _).
Qed.

Lemma bitmap_clear_spec map start len :
  Forall is_word map -> 0 <= start -> 0 <= len ->
  start + len <= 64 * Z.of_nat (length map) -> start + len < 2 ^ 32 ->
  exists map', bitmap_clear map start len = Some map' /\ Forall is_word map'
    /\ length map' = length map
    /\ forall i, 0 <= i ->
         bit_at map' i = negb ((start <=? i) && (i <? start + len)) && bit_at map i.
Proof.
  intros Hm Hs Hl Hfit H32. unfold bitmap_clear. rewrite u32_small by lia.
  edestruct (range_loop_spec Z.ldiff false) with (q := BIT_WORD start)
    (bits := BITS_PER_LONG - start mod BITS_PER_LONG) (size := start + len) (len := len)
    as (m & E & Hw & Hlen & Hb);
    [|exact Hm| | | | | | | |rewrite E; exists m; split_and!; try done];
    unfold BIT_WORD, BITS_PER_LONG in *; try dlia.
  - intros w k j Hj. rewrite Z.ldiff_spec. destruct (Z.testbit k j); [apply andb_false_r|apply andb_true_r].
  - intros j Hj. rewrite first_word_mask_testbit by done. repeat f_equal. lia.
  - intros i Hi. rewrite Hb by done. replace (start + len - len) with start by lia.
    by destruct ((start <=? i) && _).
Qed.

(** ** Lemmas: weight *)
Lemma popcount_count n w : popcount n w = count_upto (Z.testbit w) n.
Proof. induction n; simpl; [done|]. by rewrite IHn. Qed.

Lemma hweight_long_count w : is_word w -> hweight_long w = count_upto (Z.testbit w) 64.
Proof.
  intros Hw. unfold hweight_long. rewrite sw_hweight64_popcount by done. apply popcount_count.
Qed.

Lemma weight_from_spec map k lim :
  Forall is_word map -> (k + lim <= length map)%nat ->
  weight_from map (Z.of_nat k) lim (count_upto (bit_at map) (64 * k))
  = Some (Z.of_nat (k + lim), count_upto (bit_at map) (64 * (k + lim))).
Proof.
  intros Hm. revert k. induction lim as [|lim IH]; intros k Hk; cbn [weight_from].
  - by rewrite Nat.add_0_r.
  - rewrite Nat2Z.id. destruct (lookup_lt_is_Some_2 map k) as [w Hw]; [lia|]. rewrite Hw. msimpl.
    assert (Hww : is_word w) by (by eapply Forall_lookup_1 in Hw).
    rewrite hweight_long_count by done.
    rewrite (count_upto_ext (Z.testbit w) (fun i => bit_at map (Z.of_nat (64 * k) + i))).
    2: { intros i Hi. replace (Z.of_nat (64 * k)) with (64 * Z.of_nat k) by lia.
         by rewrite (bit_at_word _ _ _ w) by (rewrite ?Nat2Z.id; done || lia). }
    rewrite <- count_upto_add. replace (Z.of_nat k + 1) with (Z.of_nat (S k)) by lia.
    replace (64 * k + 64)%nat with (64 * S k)%nat by lia. rewrite IH by lia.
    by replace (S k + lim)%nat with (k + S lim)%nat by lia.
Qed.

(** The number of set bits among the first [bits], whatever the unused bits of
    the last word hold. *)
Lemma bitmap_weight_spec map bits :
  bitmap_wf bits map ->
  __bitmap_weight map bits = Some (count_upto (bit_at map) (Z.to_nat bits)).
Proof.
  intros (Hm & Hb & _). unfold __bitmap_weight, BITS_PER_LONG.
  set (lim := Z.to_nat (bits / 64)). pose proof (weight_from_spec map 0 lim Hm) as E.
  change (count_upto (bit_at map) (64 * 0)) with 0 in E. change (Z.of_nat 0) with 0 in E.
  rewrite Nat.add_0_l in E. rewrite E by (subst lim; dlia). msimpl. clear E.
  destruct (Z.eqb_spec (bits mod 64) 0) as [Hz|Hz].
  - do 2 f_equal. subst lim. dlia.
  - rewrite Nat2Z.id. destruct (lookup_lt_is_Some_2 map lim) as [w Hw]; [subst lim; dlia|].
    rewrite Hw. msimpl. assert (Hww : is_word w) by (by eapply Forall_lookup_1 in Hw).
    rewrite hweight_long_count.
    2: { apply word_of_bits. intros i Hi. by rewrite Z.land_spec, (testbit_small w 64) by (done || lia). }
    replace (Z.to_nat bits) with (64 * lim + Z.to_nat (bits mod 64))%nat by (subst lim; dlia).
    rewrite count_upto_add. do 2 f_equal.
    replace 64%nat with (Z.to_nat (bits mod 64) + (64 - Z.to_nat (bits mod 64)))%nat at 1 by dlia.
    rewrite count_upto_add, Z.add_comm. rewrite count_upto_zero, Z.add_0_l.
    + apply count_upto_ext. intros i Hi. rewrite Z.land_spec, last_word_mask_testbit by lia.
      replace (Z.of_nat (64 * lim)) with (64 * Z.of_nat lim) by lia.
      rewrite (bit_at_word _ _ _ w) by (rewrite ?Nat2Z.id; done || dlia).
      destruct (Z.eqb_spec (bits mod 64) 0); [done|].
      destruct (Z.ltb_spec i (bits mod 64)); [by rewrite andb_true_r|dlia].
    + intros i Hi. rewrite Z.land_spec, last_word_mask_testbit by dlia.
      destruct (Z.eqb_spec (bits mod 64) 0); [done|].
      destruct (Z.ltb_spec (Z.of_nat (Z.to_nat (bits mod 64)) + i) (bits mod 64)); [dlia|].
      by rewrite andb_false_r.
Qed.

(** ** Lemmas: aligned zero areas *)
Definition free_area (map : list Z) (nr i : Z) : Prop :=
  forall j, i <= j < i + nr -> bit_at map j = false.

(** [r] answers the search for [nr] clear bits at an index with [A]: the first
    such index from [start] on, or a value above [size] when there is none. *)
Definition area_result (A : Z -> Prop) (map : list Z) (size start nr r : Z) : Prop :=
  (start <= r /\ r + nr <= size /\ A r /\ free_area map nr r
   /\ forall i, start <= i < r -> A i -> ~ free_area map nr i)
  \/ (size < r /\ forall i, start <= i -> i + nr <= size -> A i -> ~ free_area map nr i).

Lemma area_result_later A map size start start' nr r :
  start <= start' -> (forall i, start <= i < start' -> A i -> ~ free_area map nr i) ->
  area_result A map size start' nr r -> area_result A map size start nr r.
Proof.
  intros Hle Hno [(H1 & H2 & H3 & H4 & H5)|(H1 & H2)]; [left|right].
  - split_and!; try (done || lia). intros i Hi Ai.
    destruct (decide (i < start')); [by apply Hno; auto; lia|apply H5; auto; lia].
  - split; [done|]. intros i Hi Hs Ai.
    destruct (decide (i < start')); [by apply Hno; auto; lia|apply H2; auto; lia].
Qed.

Lemma zero_area_align_loop_spec fuel map size start nr k :
  bitmap_wf size map -> 0 <= start <= size -> 0 < nr < 2 ^ 32 -> 0 <= k < 64 ->
  (Z.to_nat (size - start) < fuel)%nat ->
  exists r, zero_area_align_loop fuel map size start nr (2 ^ k) = Some r
            /\ area_result (fun i => i mod 2 ^ k = 0) map size start nr r.
Proof.
  intros Hwf Hst Hnr Hk. pose proof Hwf as (Hm & Hnb & Hsz).
  pose proof (Z.pow_pos_nonneg 2 k ltac:(lia) ltac:(lia)).
  pose proof (Z.pow_lt_mono_r 2 k 64 ltac:(lia) ltac:(lia) ltac:(lia)).
  revert start Hst. induction fuel as [|fuel IH]; intros start Hst Hfuel; [lia|]. simpl.
  destruct (find_next_zero_bit_spec map size start Hwf Hst) as (i0 & E0 & Hr0 & Hb0 & Ht0).
  rewrite E0. simpl. rewrite !u64_small by lia. clear E0.
  assert (Hskip : forall i, start <= i < i0 -> ~ free_area map nr i).
  { intros i Hi Hf. specialize (Hb0 i Hi). rewrite (Hf i) in Hb0 by lia. done. }
  destruct (Z.ltb_spec size (i0 + nr)) as [Hend|Hend].
  { exists (i0 + nr). split; [done|]. right. split; [done|]. intros i Hi Hs _.
    apply Hskip. lia. }
  rewrite land_pow_pred by lia.
  destruct (Z.eqb_spec (i0 mod 2 ^ k) 0) as [Hal|Hal]; simpl.
  2: { destruct (IH (i0 + 1)) as (r & E & Hr); [lia|lia|].
       exists r. split; [done|]. eapply area_result_later; [|  |exact Hr]; [lia|].
       intros i Hi Ai. destruct (decide (i = i0)) as [->|]; [done|]. apply Hskip. lia. }
  destruct (find_next_bit_spec map (i0 + nr) i0) as (i1 & E1 & Hr1 & Hb1 & Ht1); [by split_and!; try lia|lia|].
  rewrite E1. simpl. clear E1. destruct (Z.ltb_spec i1 (i0 + nr)) as [Hlt|Hge].
  - destruct (IH (i1 + 1)) as (r & E & Hr); [lia|lia|]. rewrite u64_small by lia.
    exists r. split; [done|]. eapply area_result_later; [| |exact Hr]; [lia|].
    intros i Hi Ai Hf. destruct (decide (i < i0)); [by apply (Hskip i); [lia|]|].
    specialize (Ht1 Hlt). rewrite (Hf i1) in Ht1 by lia. done.
  - exists i0. split; [done|]. left. split_and!; try (done || lia).
    + intros j Hj. apply Hb1. lia.
    + intros i Hi _. by apply Hskip.
Qed.

Lemma bitmap_find_next_zero_area_align_spec map size start nr k :
  bitmap_wf size map -> 0 <= start <= size -> 0 < nr < 2 ^ 32 -> 0 <= k < 64 ->
  exists r, bitmap_find_next_zero_area_align map size start nr (2 ^ k) = Some r
            /\ area_result (fun i => i mod 2 ^ k = 0) map size start nr r.
Proof. intros. apply zero_area_align_loop_spec; try done. lia. Qed.

Lemma align_mask_spec x k :
  0 <= x -> 0 <= k < 62 -> x + 2 ^ k < 2 ^ 64 ->
  __ALIGN_MASK x (2 ^ k - 1) = 2 ^ k * ((x + (2 ^ k - 1)) / 2 ^ k).
Proof.
  intros Hx Hk Hsum. pose proof (Z.pow_pos_nonneg 2 k ltac:(lia) ltac:(lia)).
  unfold __ALIGN_MASK. rewrite u64_small by lia. apply land_not64_pow2; lia.
Qed.

Lemma zero_area_off_loop_spec fuel map size start nr k off :
  bitmap_wf size map -> 0 <= start <= size -> 0 < nr < 2 ^ 32 -> 0 <= k < 62 ->
  0 <= off < 2 ^ 62 -> (Z.to_nat (size - start) < fuel)%nat ->
  exists r, zero_area_off_loop fuel map size start nr (2 ^ k - 1) off = Some r
            /\ area_result (fun i => (2 ^ k | i + off)) map size start nr r.
Proof.
  intros Hwf Hst Hnr Hk Hoff. pose proof Hwf as (Hm & Hnb & Hsz).
  pose proof (Z.pow_pos_nonneg 2 k ltac:(lia) ltac:(lia)).
  pose proof (Z.pow_lt_mono_r 2 k 62 ltac:(lia) ltac:(lia) ltac:(lia)).
  revert start Hst. induction fuel as [|fuel IH]; intros start Hst Hfuel; [lia|]. simpl.
  destruct (find_next_zero_bit_spec map size start Hwf Hst) as (i0 & E0 & Hr0 & Hb0 & Ht0).
  rewrite E0. msimpl. clear E0. rewrite (u64_small (i0 + off)), align_mask_spec by lia.
  pose proof (align_up_bounds (i0 + off) k ltac:(lia)) as Hup.
  pose proof (fun y => align_up_least (i0 + off) k (y + off) ltac:(lia)) as Hleast.
  set (up := 2 ^ k * ((i0 + off + (2 ^ k - 1)) / 2 ^ k)) in *.
  assert (Hdiv : (2 ^ k | up)) by (unfold up; apply Z.divide_factor_l).
  rewrite (u64_small (up - off)), (u64_small (up - off + nr)) by lia.
  assert (Hskip : forall i, start <= i < up - off -> (2 ^ k | i + off) -> ~ free_area map nr i).
  { intros i Hi Hd Hf. destruct (decide (i < i0)).
    - specialize (Hb0 i ltac:(lia)). rewrite (Hf i) in Hb0 by lia. done.
    - specialize (Hleast i ltac:(lia) Hd). lia. }
  destruct (Z.ltb_spec size (up - off + nr)) as [Hend|Hend].
  { eexists. split; [done|]. right. split; [done|]. intros i Hi Hs. apply Hskip. lia. }
  destruct (find_next_bit_spec map (up - off + nr) (up - off)) as (i1 & E1 & Hr1 & Hb1 & Ht1);
    [by split_and!; try lia|lia|].
  rewrite E1. msimpl. clear E1. destruct (Z.ltb_spec i1 (up - off + nr)) as [Hlt|Hge].
  - destruct (IH (i1 + 1)) as (r & E & Hr); [lia|lia|]. rewrite u64_small by lia.
    exists r. split; [done|]. eapply area_result_later; [| |exact Hr]; [lia|].
    intros i Hi Ai Hf. destruct (decide (i < up - off)); [by apply (Hskip i); [lia| |]|].
    specialize (Ht1 Hlt). rewrite (Hf i1) in Ht1 by lia. done.
  - eexists. split; [done|]. left. split_and!; try (done || lia).
    + by replace (up - off + off) with up by lia.
    + intros j Hj. apply Hb1. lia.
Qed.

(** ** Lemmas: the last set bit *)
Definition last_in (P : Z -> bool) (hi size r : Z) : Prop :=
  (0 <= r < hi /\ P r = true /\ forall i, r < i < hi -> P i = false)
  \/ (r = size /\ forall i, 0 <= i < hi -> P i = false).

Lemma last_in_word map q w val n :
  map !! Z.to_nat q = Some w -> is_word w -> 0 <= q -> 1 <= n <= 64 ->
  (forall j, 0 <= j -> Z.testbit val j = (j <? n)) ->
  let v := Z.land val w in let r := 64 * q + __fls v in
  (v = 0 -> forall i, 64 * q <= i < 64 * q + n -> bit_at map i = false)
  /\ (v <> 0 -> 64 * q <= r < 64 * q + n /\ bit_at map r = true
               /\ forall i, r < i < 64 * q + n -> bit_at map i = false).
Proof.
  intros Hw Hww Hq Hn Hval v r.
  assert (Hbit : forall j, 0 <= j < n -> bit_at map (64 * q + j) = Z.testbit v j).
  { intros j Hj. rewrite (bit_at_word _ _ _ w) by (done || lia). unfold v.
    rewrite Z.land_spec, Hval by lia. by destruct (Z.ltb_spec j n); [|lia]. }
  split.
  - intros Hz i Hi. replace i with (64 * q + (i - 64 * q)) by lia.
    by rewrite Hbit, Hz, Z.bits_0 by lia.
  - intros Hz. assert (Hv : 0 < v < 2 ^ 64).
    { assert (is_word v); [|unfold is_word in *; lia]. apply word_of_bits. intros j Hj.
      unfold v. rewrite Z.land_spec, Hval by lia. by destruct (Z.ltb_spec j n); [lia|]. }
    destruct (fls_highest v Hv) as (H0 & Hb & Hhi). fold v in r.
    assert (Hlt : __fls v < n).
    { destruct (decide (__fls v < n)); [done|]. unfold v in Hb at 1.
      rewrite Z.land_spec, Hval in Hb by lia. by destruct (Z.ltb_spec (__fls v) n); [lia|]. }
    split_and!; [unfold r; lia..|unfold r; by rewrite Hbit by lia|].
    intros i Hi. replace i with (64 * q + (i - 64 * q)) by lia.
    rewrite Hbit by (unfold r in *; lia). apply Hhi. unfold r in *. lia.
Qed.

Lemma find_last_from_spec map size idx val n :
  Forall is_word map -> (idx < length map)%nat -> 64 * Z.of_nat (length map) <= 2 ^ 62 ->
  1 <= n <= 64 -> (forall j, 0 <= j -> Z.testbit val j = (j <? n)) ->
  exists r, find_last_from map size idx val = Some r
            /\ last_in (bit_at map) (64 * Z.of_nat idx + n) size r.
Proof.
  intros Hm Hidx Hsz. revert val n Hidx.
  induction idx as [|idx IH]; intros val n Hidx Hn Hval;
    destruct (lookup_lt_is_Some_2 map _ Hidx) as [w Hw];
    assert (Hww : is_word w) by (by eapply Forall_lookup_1 in Hw);
    cbn [find_last_from]; rewrite Hw; msimpl;
    match type of Hw with _ !! ?k = _ =>
      destruct (last_in_word map (Z.of_nat k) w val n) as [Hnone Hsome];
      rewrite ?Nat2Z.id; try (done || lia) end;
    destruct (Z.eqb_spec (Z.land val w) 0) as [Hz|Hz].
  - exists size. split; [done|]. right. split; [done|]. intros i Hi. apply Hnone; [done|lia].
  - destruct (Hsome Hz) as (Hr & Hb & Ha). unfold BITS_PER_LONG. rewrite u64_small by lia.
    eexists. split; [done|]. left. rewrite (Z.mul_comm (Z.of_nat 0)). split_and!; try done; lia.
  - destruct (IH (2 ^ 64 - 1) 64) as (r & E & Hr); [lia|lia| |].
    { intros j Hj. by rewrite pow_pred_ones, Z.testbit_ones_nonneg by lia. }
    exists r. split; [done|]. destruct Hr as [(H1 & H2 & H3)|(H1 & H2)]; [left|right].
    + split_and!; [lia|lia|done|]. intros i Hi.
      destruct (decide (i < 64 * Z.of_nat idx + 64)); [apply H3; lia|apply Hnone; [done|lia]].
    + split; [done|]. intros i Hi.
      destruct (decide (i < 64 * Z.of_nat idx + 64)); [apply H2; lia|apply Hnone; [done|lia]].
  - destruct (Hsome Hz) as (Hr & Hb & Ha). unfold BITS_PER_LONG. rewrite u64_small by lia.
    eexists. split; [done|]. left. rewrite (Z.mul_comm (Z.of_nat (S idx))). split_and!; try done; lia.
Qed.

Lemma find_last_bit_spec map size :
  bitmap_wf size map ->
  exists r, find_last_bit map size = Some r /\ last_in (bit_at map) size size r.
Proof.
  intros (Hm & Hnb & Hsz). unfold find_last_bit, BITS_PER_LONG.
  destruct (Z.eqb_spec size 0) as [->|Hnz].
  - exists 0. split; [done|]. right. split; [done|lia].
  - destruct (find_last_from_spec map size (Z.to_nat ((size - 1) / 64))
      (BITMAP_LAST_WORD_MASK size) (if size mod 64 =? 0 then 64 else size mod 64))
      as (r & E & Hr); try done; [dlia|destruct (Z.eqb_spec (size mod 64) 0); dlia| |].
    + intros j Hj. by apply last_word_mask_testbit.
    + exists r. split; [done|].
      replace (64 * Z.of_nat (Z.to_nat ((size - 1) / 64))
               + (if size mod 64 =? 0 then 64 else size mod 64)) with size in Hr; [done|].
      destruct (Z.eqb_spec (size mod 64) 0); dlia.
Qed.

(** ** Properties *)

(** The forward searches read only words of the bitmap and return the first
    index with the wanted value, or the size when there is none. *)
Theorem find_bit_searches_correct map size offset :
  bitmap_wf size map -> 0 <= offset <= size ->
  (exists r, find_next_bit map size offset = Some r /\ first_in (bit_at map) offset size r)
  /\ (exists r, find_next_zero_bit map size offset = Some r
                /\ first_in (fun i => negb (bit_at map i)) offset size r)
  /\ (exists r, find_first_bit map size = Some r /\ first_in (bit_at map) 0 size r)
  /\ (exists r, find_first_zero_bit map size = Some r
                /\ first_in (fun i => negb (bit_at map i)) 0 size r)
  /\ (exists r, find_last_bit map size = Some r /\ last_in (bit_at map) size size r).
Proof.
  intros Hwf Ho. split_and!.
  - by apply find_next_bit_spec.
  - by apply find_next_zero_bit_spec.
  - by apply find_first_bit_spec.
  - by apply find_first_zero_bit_spec.
  - by apply find_last_bit_spec.
Qed.

Lemma find_bit_searches_correct_witness :
  exists r, find_next_bit [0; 12] 100 7 = Some r /\ first_in (bit_at [0; 12]) 7 100 r.
Proof.
  destruct (find_bit_searches_correct [0; 12] 100 7) as [H _]; [|lia|exact H].
  split; [repeat constructor; lia|]. simpl length. lia.
Defined.

(** [bitmap_set] and [bitmap_clear] write exactly the bits of the range and
    keep every other bit, also when the range crosses words. *)
Theorem bitmap_range_exact map start len :
  Forall is_word map -> 0 <= start -> 0 <= len ->
  start + len <= 64 * Z.of_nat (length map) -> start + len < 2 ^ 32 ->
  (exists map', bitmap_set map start len = Some map' /\ length map' = length map
     /\ forall i, 0 <= i ->
          bit_at map' i = ((start <=? i) && (i <? start + len)) || bit_at map i)
  /\ (exists map', bitmap_clear map start len = Some map' /\ length map' = length map
     /\ forall i, 0 <= i ->
          bit_at map' i = negb ((start <=? i) && (i <? start + len)) && bit_at map i).
Proof.
  intros Hm Hs Hl Hfit H32. split.
  - destruct (bitmap_set_spec map start len) as (m & E & _ & L & B); eauto.
  - destruct (bitmap_clear_spec map start len) as (m & E & _ & L & B); eauto.
Qed.

Lemma bitmap_range_exact_witness :
  exists map', bitmap_set [0; 0] 60 10 = Some map' /\ length map' = 2%nat
    /\ forall i, 0 <= i -> bit_at map' i = ((60 <=? i) && (i <? 60 + 10)) || bit_at [0; 0] i.
Proof.
  destruct (bitmap_range_exact [0; 0] 60 10) as [H _]; [|lia|lia|simpl length; lia|lia|exact H].
  repeat constructor; lia.
Defined.

(** [__bitmap_weight] counts the set bits among the first [bits] bits only. *)
Theorem bitmap_weight_counts map bits :
  bitmap_wf bits map ->
  __bitmap_weight map bits = Some (count_upto (bit_at map) (Z.to_nat bits)).
Proof. apply bitmap_weight_spec. Qed.

Lemma bitmap_weight_counts_witness :
  __bitmap_weight [0xff; 0xf0] 70 = Some 10
  /\ __bitmap_weight [0xff; 0xf0] 70 = Some (count_upto (bit_at [0xff; 0xf0]) (Z.to_nat 70)).
Proof.
  split; [reflexivity|]. apply bitmap_weight_counts. split; [repeat constructor; lia|].
  simpl length. lia.
Defined.

(** Both area searches terminate and return the first admissible area of
    [nr] clear bits from [start] on, or a value above [size] exactly when the
    bitmap has no such area. *)
Theorem zero_area_searches_correct map size start nr k off :
  bitmap_wf size map -> 0 <= start <= size -> 0 < nr < 2 ^ 32 -> 0 <= k < 62 ->
  0 <= off < 2 ^ 62 ->
  (exists r, bitmap_find_next_zero_area_align map size start nr (2 ^ k) = Some r
     /\ area_result (fun i => i mod 2 ^ k = 0) map size start nr r)
  /\ (exists r, bitmap_find_next_zero_area_off map size start nr (2 ^ k - 1) off = Some r
     /\ area_result (fun i => (2 ^ k | i + off)) map size start nr r).
Proof.
  intros Hwf Hst Hnr Hk Hoff. split.
  - apply bitmap_find_next_zero_area_align_spec; (done || lia).
  - apply zero_area_off_loop_spec; try done. lia.
Qed.

Lemma zero_area_searches_correct_witness :
  exists r, bitmap_find_next_zero_area_align [0x17; 0] 100 0 4 (2 ^ 2) = Some r
    /\ area_result (fun i => i mod 2 ^ 2 = 0) [0x17; 0] 100 0 4 r.
Proof.
  destruct (zero_area_searches_correct [0x17; 0] 100 0 4 2 0) as [H _];
    [|lia|lia|lia|lia|exact H].
  split; [repeat constructor; lia|]. simpl length. lia.
Defined.

(** ** Loops over the set bits (include/minos/bitops.h)

    The macros [for_each_set_bit] and [for_each_set_bit_from] as loops over a
    state that holds the bitmap; the body may change the bitmap, and ends the
    loop with [true].  The bit number grows with each round, so [size] rounds
    are enough. *)
Section each_bit.
Context {S : Type} (addr : S -> list Z) (size : Z) (body : Z -> S -> option (bool * S)).

Fixpoint each_bit_loop (fuel : nat) (bit : Z) (s : S) : option S :=
  if bit <? size then
    match fuel with
    | O => None
    | Datatypes.S fuel =>
        '(brk, s) ← body bit s;
        if (brk : bool) then Some s
        else bit ← find_next_bit (addr s) size (bit + 1); each_bit_loop fuel bit s
    end
  else Some s.

Definition for_each_set_bit (s : S) : option S :=
  bit ← find_first_bit (addr s) size; each_bit_loop (Z.to_nat size) bit s.

Definition for_each_set_bit_from (bit : Z) (s : S) : option S :=
  bit ← find_next_bit (addr s) size bit; each_bit_loop (Z.to_nat size) bit s.

(** The rule for these loops.  [Inv b s]: the bits below [b] are done. *)
Context (Inv : Z -> S -> Prop) (Post : S -> Prop).
Context (Hwf : forall b s, Inv b s -> bitmap_wf size (addr s)).
Context (Hskip : forall b b' s, Inv b s -> b <= b' <= size ->
  (forall i, b <= i < b' -> bit_at (addr s) i = false) -> Inv b' s).
Context (Hbody : forall bit s, Inv bit s -> 0 <= bit < size -> bit_at (addr s) bit = true ->
  exists brk s', body bit s = Some (brk, s') /\ if brk : bool then Post s' else Inv (bit + 1) s').
Context (Hend : forall s, Inv size s -> Post s).

Lemma each_bit_loop_spec fuel bit s :
  0 <= bit <= size -> (Z.to_nat (size - bit) <= fuel)%nat -> Inv bit s ->
  (bit < size -> bit_at (addr s) bit = true) -> exists s', each_bit_loop fuel bit s = Some s' /\ Post s'.
Proof.
  revert bit s. induction fuel as [|fuel IH]; intros bit s Hb Hf Hi Ht; cbn [each_bit_loop].
  - rewrite (proj2 (Z.ltb_ge _ _)) by lia. exists s. split; [done|]. apply Hend. by replace size with bit by lia.
  - destruct (Z.ltb_spec bit size) as [Hlt|Hge].
    + destruct (Hbody bit s Hi) as (brk & s' & E & H); [lia|by apply Ht|]. rewrite E. msimpl.
      destruct brk; [by exists s'|].
      destruct (find_next_bit_spec (addr s') size (bit + 1)) as (r & Er & Hr1 & Hr2 & Hr3); [by apply Hwf in H|lia|].
      rewrite Er. msimpl. apply IH; [lia|lia| |done]. by apply (Hskip (bit + 1)); [|lia|].
    + exists s. split; [done|]. apply Hend. by replace size with bit by lia.
Qed.

Lemma for_each_set_bit_from_spec bit s :
  0 <= bit <= size -> Inv bit s -> exists s', for_each_set_bit_from bit s = Some s' /\ Post s'.
Proof.
  intros Hb Hi. unfold for_each_set_bit_from.
  destruct (find_next_bit_spec (addr s) size bit) as (r & Er & Hr1 & Hr2 & Hr3); [by apply Hwf in Hi|lia|].
  rewrite Er. msimpl. apply each_bit_loop_spec; [lia|lia| |done]. by apply (Hskip bit); [|lia|].
Qed.

Lemma for_each_set_bit_spec s : 0 <= size -> Inv 0 s -> exists s', for_each_set_bit s = Some s' /\ Post s'.
Proof.
  intros Hb Hi. unfold for_each_set_bit.
  destruct (find_first_bit_spec (addr s) size) as (r & Er & Hr1 & Hr2 & Hr3); [by apply Hwf in Hi|].
  rewrite Er. msimpl. apply each_bit_loop_spec; [lia|lia| |done]. by apply (Hskip 0); [|lia|].
Qed.
End each_bit.
