(* ===== verification/MemRegion.v ===== *)
(** * The table of physical memory regions (core/mem_region.c)

    The regions are the elements of a static array of MAX_MEMORY_REGION
    entries that are handed out in order and never given back, linked into
    [mem_list].  The state is the list with the number of entries handed out;
    running out of entries is a failed [ASSERT]. *)
From S2P Require Import Prelude.

Definition MAX_MEMORY_REGION : Z := 16.

(** include/minos/memory.h *)
Definition MEMORY_REGION_TYPE_NORMAL : Z := 0.
Definition MEMORY_REGION_TYPE_DMA : Z := 1.
Definition MEMORY_REGION_TYPE_RSV : Z := 2.
Definition MEMORY_REGION_TYPE_VM : Z := 3.
Definition MEMORY_REGION_TYPE_DTB : Z := 4.
Definition MEMORY_REGION_TYPE_KERNEL : Z := 5.
Definition MEMORY_REGION_TYPE_RAMDISK : Z := 6.
Definition MEMORY_REGION_TYPE_MAX : Z := 7.

Record memory_region := mk_region {
  r_type : Z;
  r_vmid : Z;
  phy_base : Z;
  r_size : Z;
}.

Record regions := mk_regions {
  mem_list : list memory_region;
  current_region_id : Z;
}.

(** The number of array entries used after one more [alloc_memory_region]. *)
Definition alloc_memory_region (id : Z) : option Z :=
  _ ← assert_ (id <? MAX_MEMORY_REGION); Some (id + 1).

(** The test of [add_memory_region] against one region of the list. *)
Definition region_conflict (base size : Z) (region : memory_region) : bool :=
  let r_base := phy_base region in
  let r_end := u64 (r_base + r_size region - 1) in
  negb ((r_end <? base) || (u64 (base + size) <? r_base)).

Definition add_memory_region (base size type vmid : Z) (s : regions) : option (Z * regions) :=
  if (size =? 0) || (MEMORY_REGION_TYPE_MAX <=? type) then Some (- EINVAL, s)
  else if existsb (region_conflict base size) (mem_list s) then Some (- EINVAL, s)
  else
    id ← alloc_memory_region (current_region_id s);
    Some (0, mk_regions (mem_list s ++ [mk_region type vmid base size]) id).

(** The guard that makes the loop of [split_memory_region] skip a region. *)
Definition split_skip (base new_end : Z) (region : memory_region) : bool :=
  let start := phy_base region in
  let end_ := u64 (start + r_size region) in
  (end_ <? base) || (base <? start) || (end_ <? new_end).

(** The body of the loop on the region it stops at: [pre] and [post] are the
    regions before and after it in the list. *)
Definition split_region (base size type vmid : Z) (pre : list memory_region)
    (region : memory_region) (post : list memory_region) (id : Z) : option (Z * regions) :=
  let new_end := u64 (base + size) in
  let start := phy_base region in
  let end_ := u64 (start + r_size region) in
  let tmp := mk_region type vmid base size in
  if (base =? start) && (new_end =? end_) then
    let region := mk_region type (r_vmid region) (phy_base region) (r_size region) in
    Some (0, mk_regions (pre ++ region :: post) id)
  else if (base =? start) && (new_end <? end_) then
    let region := mk_region (r_type region) (r_vmid region) new_end (u64 (r_size region - size)) in
    id ← alloc_memory_region id;
    Some (0, mk_regions ((pre ++ region :: post) ++ [tmp]) id)
  else if (start <? base) && (new_end <? end_) then
    id ← alloc_memory_region id;
    let n := mk_region (r_type region) (r_vmid region) new_end (u64 (end_ - new_end)) in
    let region := mk_region (r_type region) (r_vmid region) start (u64 (base - start)) in
    id ← alloc_memory_region id;
    Some (0, mk_regions (((pre ++ region :: post) ++ [n]) ++ [tmp]) id)
  else if (start <? base) && (end_ =? new_end) then
    let region := mk_region (r_type region) (r_vmid region) start (u64 (r_size region - size)) in
    id ← alloc_memory_region id;
    Some (0, mk_regions ((pre ++ region :: post) ++ [tmp]) id)
  else Some (- EINVAL, mk_regions (pre ++ region :: post) id).

(** The walk over the list; falling off its end is the [panic]. *)
Fixpoint split_walk (base size type vmid : Z) (pre l : list memory_region) (id : Z)
    : option (Z * regions) :=
  match l with
  | [] => None
  | region :: post =>
      if split_skip base (u64 (base + size)) region
      then split_walk base size type vmid (pre ++ [region]) post id
      else split_region base size type vmid pre region post id
  end.

Definition split_memory_region (base size type vmid : Z) (s : regions) : option (Z * regions) :=
  if (size =? 0) || (MEMORY_REGION_TYPE_MAX <=? type) then Some (- EINVAL, s)
  else split_walk base size type vmid [] (mem_list s) (current_region_id s).

(** ** Specification *)

(** How many regions of the list hold address [a]. *)
Definition holds (r : memory_region) (a : Z) : Z := rng (phy_base r) (phy_base r + r_size r) a.
Definition cover (l : list memory_region) (a : Z) : Z := zsum (fun r => holds r a) l.

(** How many regions of type [t] and owner [v] hold address [a]. *)
Definition cover_as (t v : Z) (l : list memory_region) (a : Z) : Z :=
  zsum (fun r => if (r_type r =? t) && (r_vmid r =? v) then holds r a else 0) l.

Definition region_wf (r : memory_region) : Prop :=
  0 <= phy_base r /\ 0 < r_size r /\ phy_base r + r_size r < 2 ^ 64.

(** The invariant of the table: non-empty regions that do not overlap. *)
Definition regions_wf (s : regions) : Prop :=
  Forall region_wf (mem_list s) /\ forall a, cover (mem_list s) a <= 1.

(** ** Lemmas *)
Lemma holds_range r a : 0 <= holds r a <= 1.
Proof. unfold holds. destruct (rng_cases (phy_base r) (phy_base r + r_size r) a); lia. Qed.

Lemma cover_nonneg l a : 0 <= cover l a.
Proof. apply zsum_nonneg. intros r _. apply holds_range. Qed.

Lemma cover_app l1 l2 a : cover (l1 ++ l2) a = cover l1 a + cover l2 a.
Proof. apply zsum_app. Qed.

Lemma cover_cons r l a : cover (r :: l) a = holds r a + cover l a.
Proof. done. Qed.

Lemma cover_nil a : cover [] a = 0.
Proof. done. Qed.

Lemma cover_as_app t v l1 l2 a : cover_as t v (l1 ++ l2) a = cover_as t v l1 a + cover_as t v l2 a.
Proof. apply zsum_app. Qed.

Lemma cover_as_cons t v r l a :
  cover_as t v (r :: l) a
  = (if (r_type r =? t) && (r_vmid r =? v) then holds r a else 0) + cover_as t v l a.
Proof. done. Qed.

Create Rewrite HintDb cover.
#[export] Hint Rewrite cover_app cover_cons cover_nil cover_as_app cover_as_cons : cover.

Lemma conflict_disjoint base size r a :
  region_wf r -> 0 <= base -> base + size < 2 ^ 64 -> 0 < size ->
  region_conflict base size r = false -> holds r a = 0 \/ rng base (base + size) a = 0.
Proof.
  intros (H1 & H2 & H3) Hb He Hs. unfold region_conflict, holds.
  rewrite !u64_small by lia. rewrite negb_false_iff, orb_true_iff, !Z.ltb_lt. intros Hd.
  destruct (rng_cases (phy_base r) (phy_base r + r_size r) a), (rng_cases base (base + size) a); lia.
Qed.

Lemma add_memory_region_ok base size type vmid s s' :
  regions_wf s -> 0 <= base -> 0 <= size -> base + size < 2 ^ 64 ->
  add_memory_region base size type vmid s = Some (0, s') ->
  regions_wf s' /\ mem_list s' = mem_list s ++ [mk_region type vmid base size].
Proof.
  intros [Hwf Hdis] Hb Hs He. unfold add_memory_region.
  destruct (Z.eqb_spec size 0); simpl; [done|].
  destruct (MEMORY_REGION_TYPE_MAX <=? type); [done|].
  destruct (existsb _ _) eqn:Hc; [done|].
  unfold alloc_memory_region. destruct (_ <? MAX_MEMORY_REGION); [|done].
  msimpl. intros [= <-]. split; [|done]. split; simpl.
  - apply Forall_app. split; [done|]. repeat constructor; simpl; lia.
  - intros a. autorewrite with cover. unfold holds at 1. simpl.
    destruct (rng_cases base (base + size) a) as [[-> Ha]|[-> _]]; [|specialize (Hdis a); lia].
    enough (cover (mem_list s) a = 0) by lia.
    apply zsum_zero. intros r Hr. rewrite list.Forall_forall in Hwf.
    destruct (conflict_disjoint base size r a) as [Hh|Hh]; auto; try lia.
    + destruct (region_conflict base size r) eqn:E; [|done].
      rewrite <- Hc. symmetry. apply existsb_exists. exists r.
      by rewrite list_elem_of_In in Hr.
    + destruct (rng_cases base (base + size) a); lia.
Qed.

(** The region that the walk stops at contains the new one. *)
Definition contains (r : memory_region) (base size : Z) : Prop :=
  phy_base r <= base /\ base + size <= phy_base r + r_size r.

Lemma split_skip_contains r base size :
  region_wf r -> 0 <= base -> 0 < size -> base + size < 2 ^ 64 ->
  split_skip base (u64 (base + size)) r = false <-> contains r base size.
Proof.
  intros (H1 & H2 & H3) Hb Hs He. unfold split_skip, contains.
  rewrite !u64_small by lia. rewrite !orb_false_iff, !Z.ltb_ge. lia.
Qed.

(** The owner written for the range: an exact match keeps the old [vmid]. *)
Definition split_owner (r : memory_region) (base size vmid : Z) : Z :=
  if (base =? phy_base r) && (base + size =? phy_base r + r_size r) then r_vmid r else vmid.

Lemma split_region_spec base size type vmid pre r post id :
  Forall region_wf (pre ++ r :: post) -> 0 <= base -> 0 < size ->
  contains r base size -> id + 2 <= MAX_MEMORY_REGION ->
  exists s', split_region base size type vmid pre r post id = Some (0, s')
    /\ Forall region_wf (mem_list s')
    /\ (forall a, cover (mem_list s') a = cover (pre ++ r :: post) a)
    /\ (forall t v a, cover_as t v (mem_list s') a
          = cover_as t v (pre ++ r :: post) a
            - (if (r_type r =? t) && (r_vmid r =? v) then rng base (base + size) a else 0)
            + (if (type =? t) && (split_owner r base size vmid =? v)
               then rng base (base + size) a else 0)).
Proof.
  intros Hwf Hb Hs [Hc1 Hc2] Hid.
  apply Forall_app in Hwf as [Hpre Hrp]. apply Forall_cons_1 in Hrp as [Hr Hpost].
  pose proof Hr as (Hr1 & Hr2 & Hr3).
  unfold split_region, split_owner, alloc_memory_region. rewrite !u64_small by lia.
  rewrite !(proj2 (Z.ltb_lt id MAX_MEMORY_REGION)) by lia. msimpl.
  rewrite !(proj2 (Z.ltb_lt (id + 1) MAX_MEMORY_REGION)) by lia. msimpl.
  assert (Hrest : forall r1 l, region_wf r1 -> Forall region_wf l ->
            Forall region_wf ((pre ++ r1 :: post) ++ l)).
  { intros. rewrite !Forall_app. split; [|done]. split; [done|]. by constructor. }
  assert (Hone : forall r1, region_wf r1 -> Forall region_wf [r1])
    by (intros; constructor; [done|constructor]).
  destruct (Z.eqb_spec base (phy_base r)) as [Eb|Eb];
    destruct (Z.eqb_spec (base + size) (phy_base r + r_size r)) as [Ee|Ee]; simpl andb; cbv iota.
  2: rewrite (proj2 (Z.ltb_lt (base + size) _)) by lia.
  3: rewrite (proj2 (Z.ltb_lt (phy_base r) _)), (proj2 (Z.ltb_ge (base + size) _)) by lia;
     rewrite (proj2 (Z.eqb_eq (phy_base r + r_size r) _)) by lia.
  4: rewrite (proj2 (Z.ltb_lt (phy_base r) _)), (proj2 (Z.ltb_lt (base + size) _)) by lia.
  all: eexists; (split; [done|]); simpl mem_list; rewrite ?u64_small by lia; split_and!.
  all: try (intros; autorewrite with cover; unfold holds, cover_as; simpl; rng_lia).
  - rewrite <- (app_nil_r (pre ++ _)). by apply Hrest.
  - apply Hrest; [|apply Hone]; repeat split; simpl; lia.
  - apply Hrest; [|apply Hone]; repeat split; simpl; lia.
  - apply Forall_app. split; [apply Hrest; [|apply Hone]|apply Hone]; repeat split; simpl; lia.
Qed.

Lemma split_walk_spec base size type vmid pre l id :
  Forall region_wf l -> 0 <= base -> 0 < size -> base + size < 2 ^ 64 ->
  (exists r, r ∈ l /\ contains r base size) ->
  exists pre' r post, pre ++ l = pre' ++ r :: post /\ contains r base size
    /\ split_walk base size type vmid pre l id = split_region base size type vmid pre' r post id.
Proof.
  intros Hl Hb Hs He. revert pre. induction Hl as [|r l Hr Hl IH]; intros pre (q & Hq & Hc).
  { by apply not_elem_of_nil in Hq. }
  cbn [split_walk]. destruct (split_skip _ _ r) eqn:Hsk.
  - destruct (IH (pre ++ [r])) as (pre' & r' & post & E1 & E2 & E3).
    + exists q. split; [|done]. apply elem_of_cons in Hq as [->|]; [|done].
      apply split_skip_contains in Hc; [congruence|done..].
    + exists pre', r', post. by rewrite <- E1, <- app_assoc.
  - exists pre, r, l. split; [done|]. split; [|done].
    by apply split_skip_contains in Hsk.
Qed.

Lemma conflict_true base size r :
  region_wf r -> 0 <= base -> 0 < size -> base + size < 2 ^ 64 ->
  region_conflict base size r = true
  <-> base < phy_base r + r_size r /\ phy_base r <= base + size.
Proof.
  intros (H1 & H2 & H3) Hb Hs He. unfold region_conflict.
  rewrite !u64_small by lia. rewrite negb_true_iff, orb_false_iff, !Z.ltb_ge. lia.
Qed.

(** ** Properties *)

(** While the table has room, [add_memory_region] either appends the region
    and keeps the regions disjoint, or refuses it with [-EINVAL] and an
    unchanged table, and then some region of the table overlaps it or begins
    exactly where it ends. *)
Theorem add_memory_region_disjoint base size type vmid s :
  regions_wf s -> 0 <= base -> 0 < size -> base + size < 2 ^ 64 ->
  type < MEMORY_REGION_TYPE_MAX -> current_region_id s < MAX_MEMORY_REGION ->
  exists r s', add_memory_region base size type vmid s = Some (r, s') /\ regions_wf s'
    /\ ((r = 0 /\ mem_list s' = mem_list s ++ [mk_region type vmid base size])
        \/ (r = - EINVAL /\ s' = s /\ exists q, q ∈ mem_list s
              /\ base < phy_base q + r_size q /\ phy_base q <= base + size)).
Proof.
  intros Hwf Hb Hs He Ht Hid.
  pose proof (add_memory_region_ok base size type vmid s) as Hok. revert Hok.
  unfold add_memory_region, alloc_memory_region.
  rewrite (proj2 (Z.eqb_neq size 0)), (proj2 (Z.leb_gt _ type)), (proj2 (Z.ltb_lt _ _)) by lia.
  simpl orb. cbv iota. destruct (existsb _ _) eqn:Hc; msimpl; intros Hok.
  - eexists _, s. split; [done|]. split; [done|]. right. split_and!; try done.
    apply existsb_exists in Hc as (q & Hq & Hc). exists q. apply list_elem_of_In in Hq.
    split; [done|]. apply conflict_true in Hc; [done| |done..].
    destruct Hwf as [Hwf _]. rewrite list.Forall_forall in Hwf. by apply Hwf.
  - edestruct Hok as [Hw Hl]; [done|done|lia|done|done|]. eauto 10.
Qed.

Lemma add_memory_region_disjoint_witness :
  exists r s', add_memory_region 0x200000 0x100000 0 0
                 (mk_regions [mk_region 0 0 0 0x100000] 1) = Some (r, s') /\ regions_wf s'.
Proof.
  destruct (add_memory_region_disjoint 0x200000 0x100000 0 0
              (mk_regions [mk_region 0 0 0 0x100000] 1)) as (r & s' & E & W & _);
    [|lia|lia|lia|vm_compute; reflexivity|vm_compute; reflexivity|exists r, s'; split; [exact E|exact W]].
  split; simpl; [repeat constructor; simpl; lia|].
  intros a. unfold cover, holds. simpl. destruct (rng_cases 0 (0 + 0x100000) a); lia.
Defined.

(** A region that ends exactly where an existing one begins does not overlap
    it, and is refused all the same: the comparison with the base is strict. *)
Theorem add_memory_region_refuses_adjacent base size type vmid s q :
  regions_wf s -> 0 <= base -> 0 < size -> base + size < 2 ^ 64 ->
  q ∈ mem_list s -> base + size = phy_base q ->
  (forall a, holds q a = 0 \/ rng base (base + size) a = 0)
  /\ add_memory_region base size type vmid s = Some (- EINVAL, s).
Proof.
  intros [Hwf _] Hb Hs He Hq Heq. rewrite list.Forall_forall in Hwf. split.
  - intros a. unfold holds. rng_lia.
  - unfold add_memory_region. destruct (_ || _); [done|].
    replace (existsb _ _) with true; [done|]. symmetry. apply existsb_exists.
    exists q. split; [by apply list_elem_of_In|]. destruct (Hwf q Hq) as (?&?&?).
    apply conflict_true; try done; lia.
Qed.

Lemma add_memory_region_refuses_adjacent_witness :
  (forall a, holds (mk_region 0 0 0x100000 0x100000) a = 0 \/ rng 0 (0 + 0x100000) a = 0)
  /\ add_memory_region 0 0x100000 0 0 (mk_regions [mk_region 0 0 0x100000 0x100000] 1)
     = Some (- EINVAL, mk_regions [mk_region 0 0 0x100000 0x100000] 1).
Proof.
  apply (add_memory_region_refuses_adjacent 0 0x100000 0 0
           (mk_regions [mk_region 0 0 0x100000 0x100000] 1)); [|lia|lia|lia|simpl; apply list_elem_of_here|reflexivity].
  split; simpl; [repeat constructor; simpl; lia|].
  intros a. unfold cover, holds. simpl. destruct (rng_cases 0x100000 (0x100000 + 0x100000) a); lia.
Defined.

(** [split_memory_region] inside an existing region always succeeds while
    two table entries are left.  It loses and duplicates no address, keeps the
    invariant, changes type and owner of no address outside of the range, and
    gives every address of the range the new type; its new owner is [vmid]
    unless the range is the whole region, which keeps its owner. *)
Theorem split_memory_region_correct base size type vmid s :
  regions_wf s -> 0 <= base -> 0 < size -> base + size < 2 ^ 64 ->
  type < MEMORY_REGION_TYPE_MAX -> current_region_id s + 2 <= MAX_MEMORY_REGION ->
  (exists r, r ∈ mem_list s /\ contains r base size) ->
  exists r s', r ∈ mem_list s /\ contains r base size
    /\ split_memory_region base size type vmid s = Some (0, s') /\ regions_wf s'
    /\ (forall a, cover (mem_list s') a = cover (mem_list s) a)
    /\ (forall t v a, rng base (base + size) a = 0 ->
          cover_as t v (mem_list s') a = cover_as t v (mem_list s) a)
    /\ (forall a, rng base (base + size) a = 1 ->
          cover_as type (split_owner r base size vmid) (mem_list s') a = 1).
Proof.
  intros [Hwf Hdis] Hb Hs He Ht Hid Hex. unfold split_memory_region.
  rewrite (proj2 (Z.eqb_neq size 0)), (proj2 (Z.leb_gt _ type)) by lia. simpl orb. cbv iota.
  destruct (split_walk_spec base size type vmid [] _ (current_region_id s) Hwf Hb Hs He Hex)
    as (pre & r & post & El & Hc & Ew).
  simpl in El. rewrite El in *. rewrite Ew.
  destruct (split_region_spec base size type vmid pre r post (current_region_id s))
    as (s' & E & Hwf' & Hcov & Has); try done.
  exists r, s'. split; [apply list_elem_of_In, in_or_app; right; left; done|].
  split; [done|]. split; [done|]. split; [split; [done|]|split; [done|split]].
  - intros a. rewrite Hcov. apply Hdis.
  - intros t v a Ha. rewrite Has, Ha. destruct (_ && _), (_ && _); lia.
  - intros a Ha. rewrite Has, Ha, !Z.eqb_refl. simpl. specialize (Hdis a).
    set (o := split_owner r base size vmid).
    assert (Hle : cover_as type o pre a + cover_as type o post a
                  <= cover pre a + cover post a /\ 0 <= cover_as type o pre a
                  /\ 0 <= cover_as type o post a).
    { assert (G : forall l, 0 <= cover_as type o l a <= cover l a).
      { intros l. induction l as [|x l IH]; [done|]. autorewrite with cover.
        pose proof (holds_range x a). destruct (_ && _); lia. }
      pose proof (G pre). pose proof (G post). lia. }
    autorewrite with cover in *.
    assert (Hr1 : holds r a = 1).
    { destruct Hc. unfold holds. destruct (rng_cases base (base + size) a); [|lia].
      destruct (rng_cases (phy_base r) (phy_base r + r_size r) a); lia. }
    destruct (_ && _); lia.
Qed.

Lemma split_memory_region_correct_witness :
  exists r s', r ∈ [mk_region 0 0 0 0x800000] /\ contains r 0x200000 0x200000
    /\ split_memory_region 0x200000 0x200000 3 1 (mk_regions [mk_region 0 0 0 0x800000] 1)
       = Some (0, s') /\ regions_wf s'.
Proof.
  destruct (split_memory_region_correct 0x200000 0x200000 3 1
              (mk_regions [mk_region 0 0 0 0x800000] 1))
    as (r & s' & H1 & H2 & H3 & H4 & _);
    [|lia|lia|lia|vm_compute; reflexivity|vm_compute; discriminate| |
     exists r, s'; split; [exact H1|split; [exact H2|split; [exact H3|exact H4]]]].
  - split; simpl; [repeat constructor; simpl; lia|].
    intros a. unfold cover, holds. simpl. destruct (rng_cases 0 (0 + 0x800000) a); lia.
  - exists (mk_region 0 0 0 0x800000). split; [apply list_elem_of_here|]. split; simpl; lia.
Defined.
