(* ===== verification/MemBlock.v ===== *)
(** * Guest memory blocks (virt/vmm.c, lines 22-37 and 832-980)

    The free physical memory of the machine is handed to guests in blocks of
    2 MB.  Every normal memory region gives one [block_section] with a bitmap of
    its blocks; the sections are a linked list.  A block is named by its block
    frame number, a [uint32_t].  [malloc] (core/memory.c) appears as a
    parameter that says whether a request succeeds. *)
From S2P Require Import Prelude Bitops Bitmap MemRegion.

Definition MEM_BLOCK_SHIFT : Z := 21.
Definition MEM_BLOCK_SIZE : Z := 0x200000.

(** [BFN2PHY] (include/minos/memattr.h). *)
Definition BFN2PHY (bfn : Z) : Z := u64 (Z.shiftl bfn MEM_BLOCK_SHIFT).

Record block_section := mk_section {
  bs_start : Z;
  bs_size : Z;
  bs_end : Z;
  bs_free_blocks : Z;
  bs_total_blocks : Z;
  bs_current_index : Z;
  bs_bitmap : list Z;
}.

(** [bs_head] with the sections linked from it, and [free_blocks]. *)
Record vmm := mk_vmm {
  bs_head : list block_section;
  free_blocks : Z;
}.

Definition vmm_has_enough_memory (size : Z) (s : vmm) : bool :=
  Z.shiftr size MEM_BLOCK_SHIFT <=? free_blocks s.

(** The walk of [__vmm_free_memblock]; [base] is the address of the block. *)
Fixpoint free_walk (base : Z) (l : list block_section) : option (option (list block_section)) :=
  match l with
  | [] => Some None
  | bs :: l =>
      if (bs_start bs <=? base) && (base <? bs_end bs) then
        let bfn := u32 (Z.shiftr (u64 (base - bs_start bs)) MEM_BLOCK_SHIFT) in
        map ← clear_bit bfn (bs_bitmap bs);
        Some (Some (mk_section (bs_start bs) (bs_size bs) (bs_end bs)
                      (u64 (bs_free_blocks bs + 1)) (bs_total_blocks bs)
                      (bs_current_index bs) map :: l))
      else
        r ← free_walk base l;
        Some (match r with Some l => Some (bs :: l) | None => None end)
  end.

(** [bfn << MEM_BLOCK_SHIFT] is computed on a [uint32_t]. *)
Definition __vmm_free_memblock (bfn : Z) (s : vmm) : option (Z * vmm) :=
  let base := u32 (Z.shiftl bfn MEM_BLOCK_SHIFT) in
  r ← free_walk base (bs_head s);
  Some (match r with
        | Some l => (0, mk_vmm l (u64 (free_blocks s + 1)))
        | None => (- EINVAL, s)
        end).

Definition vmm_free_memblock (bfn : Z) (s : vmm) : option (Z * vmm) :=
  __vmm_free_memblock bfn s.

(** [None] inside is the [-ENOSPC] return. *)
Definition get_memblock_from_section (bs : block_section) : option (option (Z * block_section)) :=
  r ← find_next_zero_bit_loop (bs_bitmap bs) (bs_total_blocks bs) (bs_current_index bs);
  let id := u32 r in
  if bs_total_blocks bs <=? id then Some None
  else
    map ← set_bit id (bs_bitmap bs);
    Some (Some (u32 (Z.shiftr (bs_start bs) MEM_BLOCK_SHIFT + id),
                mk_section (bs_start bs) (bs_size bs) (bs_end bs)
                  (u64 (bs_free_blocks bs - 1)) (bs_total_blocks bs) (u64 (id + 1)) map)).

(** The search of [vmm_alloc_memblock] over the sections. *)
Fixpoint alloc_walk (l : list block_section) : option (option (Z * list block_section)) :=
  match l with
  | [] => Some None
  | bs :: l =>
      got ← (if bs_free_blocks bs =? 0 then Some None else get_memblock_from_section bs);
      match got with
      | Some (bfn, bs) => Some (Some (bfn, bs :: l))
      | None =>
          r ← alloc_walk l;
          Some (match r with Some (bfn, l) => Some (bfn, bs :: l) | None => None end)
      end
  end.

(** The result is the frame number of the new [mem_block], or [NULL]. *)
Definition vmm_alloc_memblock (malloc_ok : bool) (s : vmm) : option (option Z * vmm) :=
  r ← alloc_walk (bs_head s);
  match r with
  | None => Some (None, s)
  | Some (bfn, l) =>
      let s := mk_vmm l (u64 (free_blocks s - 1)) in
      if malloc_ok then Some (Some bfn, s)
      else '(_, s) ← __vmm_free_memblock bfn s; Some (None, s)
  end.

(** The body of the loop of [vmm_init] for one region. *)
Definition vmm_init_region (malloc_ok : Z -> bool) (region : memory_region) (s : vmm) : option vmm :=
  if negb (r_type region =? MEMORY_REGION_TYPE_NORMAL) then Some s
  else
    let start := BALIGN (phy_base region) BLOCK_SIZE in
    let end_ := ALIGN (u64 (phy_base region + r_size region)) BLOCK_SIZE in
    if u64 (end_ - start) <=? 0 then Some s
    else
      _ ← assert_ (malloc_ok 64);
      let size := u64 (end_ - start) in
      let total := Z.shiftr size BLOCK_SHIFT in
      let free := u64 (free_blocks s + total) in
      let bytes := s32 (BITS_TO_LONGS total * 8) in
      _ ← assert_ (malloc_ok bytes);
      Some (mk_vmm (mk_section start size end_ total total 0
                      (replicate (Z.to_nat (bytes / 8)) 0) :: bs_head s) free).

Fixpoint vmm_init_walk (malloc_ok : Z -> bool) (l : list memory_region) (s : vmm) : option vmm :=
  match l with
  | [] => Some s
  | region :: l => s ← vmm_init_region malloc_ok region s; vmm_init_walk malloc_ok l s
  end.

Definition vmm_init (malloc_ok : Z -> bool) (mem_list : list memory_region) : option vmm :=
  _ ← assert_ (negb (bool_decide (mem_list = [])));
  vmm_init_walk malloc_ok mem_list (mk_vmm [] 0).

(** ** Specification *)

(** The block [bfn] lies in the section, and is marked as used there. *)
Definition in_section (bs : block_section) (bfn : Z) : bool :=
  (bs_start bs / MEM_BLOCK_SIZE <=? bfn) && (bfn <? bs_end bs / MEM_BLOCK_SIZE).
Definition used_in (bs : block_section) (bfn : Z) : bool :=
  in_section bs bfn && bit_at (bs_bitmap bs) (bfn - bs_start bs / MEM_BLOCK_SIZE).

Definition managed (s : vmm) (bfn : Z) : bool := existsb (fun bs => in_section bs bfn) (bs_head s).
Definition used (s : vmm) (bfn : Z) : bool := existsb (fun bs => used_in bs bfn) (bs_head s).

Definition section_wf (bs : block_section) : Prop :=
  0 <= bs_start bs < bs_end bs /\ bs_end bs <= 2 ^ 48
  /\ bs_start bs mod MEM_BLOCK_SIZE = 0 /\ bs_end bs mod MEM_BLOCK_SIZE = 0
  /\ bs_total_blocks bs = (bs_end bs - bs_start bs) / MEM_BLOCK_SIZE
  /\ bitmap_wf (bs_total_blocks bs) (bs_bitmap bs)
  /\ bs_free_blocks bs
     = bs_total_blocks bs - count_upto (bit_at (bs_bitmap bs)) (Z.to_nat (bs_total_blocks bs))
  /\ 0 <= bs_current_index bs <= bs_total_blocks bs.

(** The invariant of the allocator: the sections do not overlap, every section
    counts its clear bits, and [free_blocks] is the sum of the counts. *)
Definition vmm_wf (s : vmm) : Prop :=
  Forall section_wf (bs_head s)
  /\ (forall b, zsum (fun bs => b2z (in_section bs b)) (bs_head s) <= 1)
  /\ free_blocks s = zsum bs_free_blocks (bs_head s) /\ free_blocks s < 2 ^ 64.

(** ** One section *)
Lemma section_blocks bs :
  section_wf bs ->
  bs_end bs / MEM_BLOCK_SIZE = bs_start bs / MEM_BLOCK_SIZE + bs_total_blocks bs
  /\ 0 <= bs_start bs / MEM_BLOCK_SIZE /\ 0 < bs_total_blocks bs < 2 ^ 28
  /\ bs_start bs / MEM_BLOCK_SIZE + bs_total_blocks bs < 2 ^ 28
  /\ bs_start bs = bs_start bs / MEM_BLOCK_SIZE * MEM_BLOCK_SIZE.
Proof.
  intros (H1 & H2 & H3 & H4 & H5 & _). unfold MEM_BLOCK_SIZE in *. dlia.
Qed.

Lemma shiftr_block x : Z.shiftr x MEM_BLOCK_SHIFT = x / MEM_BLOCK_SIZE.
Proof. unfold MEM_BLOCK_SHIFT. by rewrite Z.shiftr_div_pow2 by lia. Qed.

(** Marking or clearing one block changes the counts of the section by one. *)
Lemma section_wf_update bs map' idx v free' cur' :
  section_wf bs -> Forall is_word map' -> length map' = length (bs_bitmap bs) ->
  0 <= idx < bs_total_blocks bs -> bit_at (bs_bitmap bs) idx = negb v ->
  (forall i, 0 <= i -> bit_at map' i = if i =? idx then v else bit_at (bs_bitmap bs) i) ->
  free' = bs_free_blocks bs + 1 - 2 * b2z v -> 0 <= cur' <= bs_total_blocks bs ->
  let bs' := mk_section (bs_start bs) (bs_size bs) (bs_end bs) free' (bs_total_blocks bs) cur' map' in
  section_wf bs'
  /\ forall b, used_in bs' b
       = if b =? bs_start bs / MEM_BLOCK_SIZE + idx then v else used_in bs b.
Proof.
  intros Hwf Hw Hlen Hi Hold Hbits -> Hc bs'. pose proof (section_blocks _ Hwf) as Hb.
  destruct Hwf as (H1 & H2 & H3 & H4 & H5 & H6 & H7 & H8). split.
  - unfold section_wf, bs'; cbn. repeat split; try (assumption || lia).
    + rewrite Hlen. apply H6.
    + rewrite Hlen. apply H6.
    + rewrite H7. rewrite (count_upto_update (bit_at map') (bit_at (bs_bitmap bs)) _ idx).
      * rewrite Hold, Hbits, Z.eqb_refl by lia. destruct v; simpl b2z; lia.
      * lia.
      * intros i Hi' Hne. rewrite Hbits by lia. by rewrite (proj2 (Z.eqb_neq i idx)) by lia.
  - intros b. unfold used_in, in_section, bs'; cbn.
    destruct (Z.leb_spec (bs_start bs / MEM_BLOCK_SIZE) b), (Z.ltb_spec b (bs_end bs / MEM_BLOCK_SIZE));
      cbn; [|case_match; [lia|done]..].
    rewrite Hbits by lia. replace (b - bs_start bs / MEM_BLOCK_SIZE =? idx) with
      (b =? bs_start bs / MEM_BLOCK_SIZE + idx) by lia. done.
Qed.

Lemma get_memblock_spec bs :
  section_wf bs -> bs_free_blocks bs <> 0 ->
  exists bfn bs', get_memblock_from_section bs = Some (Some (bfn, bs')) /\ section_wf bs'
    /\ in_section bs bfn = true /\ used_in bs bfn = false
    /\ bs_free_blocks bs' = bs_free_blocks bs - 1
    /\ (forall b, in_section bs' b = in_section bs b)
    /\ forall b, used_in bs' b = (b =? bfn) || used_in bs b.
Proof.
  intros Hwf Hfree. pose proof (section_blocks _ Hwf) as (Hb1 & Hb2 & Hb3 & Hb4 & _).
  pose proof Hwf as (H1 & H2 & H3 & H4 & H5 & H6 & H7 & H8).
  pose proof (count_upto_range (bit_at (bs_bitmap bs)) (Z.to_nat (bs_total_blocks bs))) as Hcr.
  destruct (find_next_zero_bit_loop_spec _ _ _ H6 H8) as (r & E & Hr & Hz & Hfull).
  assert (r < bs_total_blocks bs) as Hlt.
  { destruct (decide (r = bs_total_blocks bs)) as [Hr'|]; [|lia].
    exfalso. apply Hfree. rewrite H7, count_upto_all; [lia|].
    intros i Hi. apply Hfull; [done|lia]. }
  destruct (set_bit_spec r (bs_bitmap bs)) as (m & Em & Hw & Hl & Hbit); [apply H6|destruct H6; lia|].
  unfold get_memblock_from_section. rewrite E. msimpl. rewrite (u32_small r) by lia.
  rewrite (proj2 (Z.leb_gt _ _)) by lia. rewrite Em. msimpl. do 2 eexists. split; [done|].
  rewrite shiftr_block, u32_small by lia. rewrite !u64_small by lia.
  destruct (section_wf_update bs m r true (bs_free_blocks bs - 1) (r + 1)) as [Hwf' Hu];
    [done|done|done|lia|by rewrite Hz| |cbn; lia|lia|].
  { intros i Hi. rewrite Hbit by done. by destruct (i =? r). }
  split; [done|]. split; [unfold in_section; lia|]. split.
  { unfold used_in.
    replace (bs_start bs / MEM_BLOCK_SIZE + r - bs_start bs / MEM_BLOCK_SIZE) with r by lia.
    rewrite Hz by done. apply andb_false_r. }
  repeat split; done.
Qed.

(** ** The walks over the sections *)
Definition sections_at (l : list block_section) (b : Z) : Z :=
  zsum (fun bs => b2z (in_section bs b)) l.

(** [l'] has the same sections as [l]; the count of free blocks changed by [d]. *)
Definition same_sections (l l' : list block_section) (d : Z) : Prop :=
  Forall section_wf l' /\ zsum bs_free_blocks l' = zsum bs_free_blocks l + d
  /\ forall b, sections_at l' b = sections_at l b.

Lemma same_sections_head bs bs' l d :
  section_wf bs' -> Forall section_wf l -> bs_free_blocks bs' = bs_free_blocks bs + d ->
  (forall b, in_section bs' b = in_section bs b) -> same_sections (bs :: l) (bs' :: l) d.
Proof.
  intros Hw Hl Hf Hin. split; [by constructor|]. unfold sections_at. rewrite !zsum_cons.
  split; [lia|]. intros b. by rewrite !zsum_cons, Hin.
Qed.

Lemma same_sections_cons bs l l' d :
  section_wf bs -> same_sections l l' d -> same_sections (bs :: l) (bs :: l') d.
Proof.
  intros Hw (H1 & H2 & H3). split; [by constructor|]. unfold sections_at in *. rewrite !zsum_cons.
  split; [lia|]. intros b. by rewrite !zsum_cons, H3.
Qed.
#[export] Hint Resolve same_sections_head same_sections_cons : minos.

Lemma free_blocks_nonneg l : Forall section_wf l -> 0 <= zsum bs_free_blocks l.
Proof.
  intros H. apply zsum_nonneg. intros bs Hbs. rewrite list.Forall_forall in H.
  destruct (H _ Hbs) as (_ & _ & _ & _ & _ & Hm & -> & _).
  pose proof (count_upto_range (bit_at (bs_bitmap bs)) (Z.to_nat (bs_total_blocks bs))).
  destruct Hm; lia.
Qed.

Lemma section_free_nonneg bs : section_wf bs -> 0 <= bs_free_blocks bs <= bs_total_blocks bs.
Proof.
  intros (_ & _ & _ & _ & _ & Hm & -> & _).
  pose proof (count_upto_range (bit_at (bs_bitmap bs)) (Z.to_nat (bs_total_blocks bs))).
  destruct Hm; lia.
Qed.

Lemma sections_at_nonneg l b : 0 <= sections_at l b.
Proof. apply zsum_nonneg. intros bs _. by destruct (in_section bs b). Qed.

Lemma used_in_section bs b : used_in bs b = true -> in_section bs b = true.
Proof. unfold used_in. by destruct (in_section bs b). Qed.

Lemma used_sections_at l b : existsb (fun bs => used_in bs b) l = true -> 1 <= sections_at l b.
Proof.
  induction l as [|bs l IH]; [done|]. unfold sections_at. rewrite zsum_cons.
  fold (sections_at l b). pose proof (sections_at_nonneg l b). cbn.
  destruct (used_in bs b) eqn:E; cbn.
  - apply used_in_section in E. rewrite E. simpl b2z. lia.
  - intros H'. specialize (IH H'). destruct (in_section bs b); simpl b2z; lia.
Qed.

Lemma alloc_walk_full l : Forall section_wf l -> zsum bs_free_blocks l = 0 -> alloc_walk l = Some None.
Proof.
  induction 1 as [|bs l Hbs Hl IH]; [done|]. rewrite zsum_cons. intros Hz.
  pose proof (free_blocks_nonneg l Hl). pose proof (section_free_nonneg bs Hbs). cbn.
  rewrite (proj2 (Z.eqb_eq _ _)) by lia. msimpl. rewrite IH by lia. done.
Qed.

Lemma alloc_walk_spec l :
  Forall section_wf l -> zsum bs_free_blocks l <> 0 ->
  exists bfn l', alloc_walk l = Some (Some (bfn, l')) /\ same_sections l l' (-1)
    /\ 1 <= sections_at l bfn
    /\ (sections_at l bfn <= 1 -> existsb (fun bs => used_in bs bfn) l = false)
    /\ forall b, existsb (fun bs => used_in bs b) l'
                 = (b =? bfn) || existsb (fun bs => used_in bs b) l.
Proof.
  induction 1 as [|bs l Hbs Hl IH]; [done|]. unfold sections_at. rewrite zsum_cons. intros Hz.
  setoid_rewrite zsum_cons. cbn.
  destruct (Z.eqb_spec (bs_free_blocks bs) 0) as [Hf|Hf]; msimpl.
  - destruct IH as (bfn & l' & E & Hs & Hin & Hnew & Hu); [lia|]. rewrite E. msimpl.
    do 2 eexists. split; [done|]. split; [eauto with minos|].
    fold (sections_at l bfn) in *.
    assert (0 <= b2z (in_section bs bfn)) by (by destruct in_section). split; [lia|]. split.
    + intros Hle. destruct (used_in bs bfn) eqn:Eu; [|apply Hnew; lia].
      apply used_in_section in Eu. rewrite Eu in Hle. simpl b2z in Hle. lia.
    + intros b. cbn. rewrite Hu. by destruct (used_in bs b), (b =? bfn).
  - destruct (get_memblock_spec bs Hbs Hf) as (bfn & bs' & E & Hwf & Hin & Hnu & Hfr & Hsame & Hu).
    rewrite E. msimpl. do 2 eexists. split; [done|].
    split; [apply same_sections_head; try done; lia|].
    fold (sections_at l bfn). pose proof (sections_at_nonneg l bfn). rewrite Hin, Hnu. simpl b2z.
    split; [lia|]. split.
    + intros Hle. destruct (existsb _ l) eqn:Eu; [|done]. apply used_sections_at in Eu. lia.
    + intros b. cbn. rewrite Hu. by destruct (b =? bfn), (used_in bs b).
Qed.

(** A base is inside a section when its frame is one of the section's. *)
Lemma base_in_section bs bfn :
  section_wf bs ->
  (bs_start bs <=? bfn * MEM_BLOCK_SIZE) && (bfn * MEM_BLOCK_SIZE <? bs_end bs) = in_section bs bfn.
Proof.
  intros Hwf. pose proof (section_blocks _ Hwf) as (Hb1 & _ & _ & _ & Hs).
  destruct Hwf as (_ & _ & _ & He & _). unfold in_section, MEM_BLOCK_SIZE in *.
  f_equal; [destruct (Z.leb_spec (bs_start bs) (bfn * 2097152)), (Z.leb_spec (bs_start bs / 2097152) bfn)
           |destruct (Z.ltb_spec (bfn * 2097152) (bs_end bs)), (Z.ltb_spec bfn (bs_end bs / 2097152))];
    (done || (exfalso; dlia)).
Qed.

Lemma free_walk_none bfn l :
  Forall section_wf l -> sections_at l bfn = 0 -> free_walk (bfn * MEM_BLOCK_SIZE) l = Some None.
Proof.
  induction 1 as [|bs l Hbs Hl IH]; [done|]. unfold sections_at. rewrite zsum_cons.
  fold (sections_at l bfn). pose proof (sections_at_nonneg l bfn). intros Hz.
  cbn. rewrite base_in_section by done. destruct (in_section bs bfn); simpl b2z in Hz; [lia|].
  rewrite IH by lia. done.
Qed.

Lemma free_walk_spec bfn l :
  Forall section_wf l -> sections_at l bfn <= 1 -> existsb (fun bs => used_in bs bfn) l = true ->
  exists l', free_walk (bfn * MEM_BLOCK_SIZE) l = Some (Some l') /\ same_sections l l' 1
    /\ forall b, existsb (fun bs => used_in bs b) l'
                 = negb (b =? bfn) && existsb (fun bs => used_in bs b) l.
Proof.
  induction 1 as [|bs l Hbs Hl IH]; [done|]. unfold sections_at. rewrite zsum_cons.
  fold (sections_at l bfn). pose proof (sections_at_nonneg l bfn). intros Hone Hu.
  cbn in *. rewrite base_in_section by done.
  destruct (in_section bs bfn) eqn:Ein; simpl b2z in Hone.
  - assert (existsb (fun bs => used_in bs bfn) l = false) as Hno.
    { destruct (existsb _ l) eqn:Eu; [|done]. apply used_sections_at in Eu. lia. }
    rewrite Hno, orb_false_r in Hu. pose proof Hu as Hbit. unfold used_in in Hbit.
    rewrite Ein in Hbit. cbn in Hbit.
    pose proof (section_blocks _ Hbs) as (Hb1 & Hb2 & Hb3 & Hb4 & Hb5).
    pose proof (section_free_nonneg _ Hbs). pose proof Hbs as (_ & _ & _ & _ & _ & (Hw & Hlen & _) & _ & Hc).
    unfold in_section in Ein. set (idx := bfn - bs_start bs / MEM_BLOCK_SIZE) in *.
    assert (u32 (Z.shiftr (u64 (bfn * MEM_BLOCK_SIZE - bs_start bs)) MEM_BLOCK_SHIFT) = idx) as ->.
    { rewrite shiftr_block, Hb5.
      replace (bfn * MEM_BLOCK_SIZE - bs_start bs / MEM_BLOCK_SIZE * MEM_BLOCK_SIZE)
        with (idx * MEM_BLOCK_SIZE) by (unfold idx; lia).
      rewrite u64_small by (unfold MEM_BLOCK_SIZE; lia). rewrite Z.div_mul by done.
      apply u32_small. lia. }
    destruct (clear_bit_spec idx (bs_bitmap bs)) as (m & -> & Hmw & Hml & Hmb); [done|lia|]. msimpl.
    rewrite u64_small by lia. eexists. split; [done|].
    destruct (section_wf_update bs m idx false (bs_free_blocks bs + 1) (bs_current_index bs)) as [Hwf' Hu'];
      [done|done|done|lia|done| |cbn; lia|done|].
    { intros i Hi. rewrite Hmb by done. by destruct (i =? idx). }
    split; [by apply same_sections_head|]. intros b. cbn. rewrite Hu'.
    replace (bs_start bs / MEM_BLOCK_SIZE + idx) with bfn by (unfold idx; lia).
    destruct (Z.eqb_spec b bfn) as [->|]; [by rewrite Hno|done].
  - assert (used_in bs bfn = false) as Hno by (unfold used_in; by rewrite Ein). rewrite Hno in Hu.
    destruct IH as (l' & -> & Hs & Hu'); [lia|done|]. msimpl. eexists. split; [done|].
    split; [by apply same_sections_cons|]. intros b. cbn. rewrite Hu'.
    destruct (Z.eqb_spec b bfn) as [->|]; [by rewrite Hno|done].
Qed.

(** ** The allocator *)
Lemma managed_sections_at s b : managed s b = (1 <=? sections_at (bs_head s) b).
Proof.
  unfold managed, sections_at. induction (bs_head s) as [|bs l IH]; [done|]. rewrite zsum_cons. cbn.
  rewrite IH. pose proof (sections_at_nonneg l b). fold (sections_at l b) in *.
  destruct (in_section bs b); simpl b2z; cbn; lia.
Qed.

(** What an operation that marks or clears blocks promises. *)
Lemma vmm_wf_same s l d :
  vmm_wf s -> same_sections (bs_head s) l d -> 0 <= free_blocks s + d < 2 ^ 64 ->
  let s' := mk_vmm l (u64 (free_blocks s + d)) in
  vmm_wf s' /\ free_blocks s' = free_blocks s + d /\ forall b, managed s' b = managed s b.
Proof.
  intros (_ & Hone & Hsum & _) (Hw & Hf & Hat) Hd s'. unfold s'. rewrite u64_small by done.
  split; [|split; [done|]].
  - split; [done|]. split; [|unfold bs_head, free_blocks in *; lia].
    intros b. change (sections_at l b <= 1). rewrite Hat. apply Hone.
  - intros b. rewrite !managed_sections_at, <- Hat. done.
Qed.

Lemma base_32 bfn : 0 <= bfn < 2048 -> u32 (Z.shiftl bfn MEM_BLOCK_SHIFT) = bfn * MEM_BLOCK_SIZE.
Proof.
  intros H. unfold MEM_BLOCK_SHIFT. rewrite Z.shiftl_mul_pow2 by lia. unfold MEM_BLOCK_SIZE.
  rewrite u32_small; lia.
Qed.

Lemma vmm_free_spec bfn s :
  vmm_wf s -> 0 <= bfn < 2048 -> used s bfn = true -> free_blocks s < 2 ^ 63 ->
  exists s', __vmm_free_memblock bfn s = Some (0, s') /\ vmm_wf s'
    /\ free_blocks s' = free_blocks s + 1
    /\ (forall b, managed s' b = managed s b)
    /\ forall b, used s' b = negb (b =? bfn) && used s b.
Proof.
  intros Hwf Hb Hu Hlt. unfold __vmm_free_memblock. rewrite base_32 by done.
  pose proof Hwf as (Hsec & Hone & Hsum & _).
  destruct (free_walk_spec bfn (bs_head s)) as (l & -> & Hs & Hu'); [done|apply Hone|done|]. msimpl.
  pose proof (free_blocks_nonneg _ Hsec).
  destruct (vmm_wf_same s l 1) as (H1 & H2 & H3); [done|done|lia|].
  eexists. split; [done|]. repeat split; try done; apply H1.
Qed.

Lemma vmm_alloc_spec s :
  vmm_wf s ->
  (free_blocks s = 0 -> forall ok, vmm_alloc_memblock ok s = Some (None, s))
  /\ (free_blocks s <> 0 ->
      exists bfn s', vmm_alloc_memblock true s = Some (Some bfn, s') /\ vmm_wf s'
        /\ managed s bfn = true /\ used s bfn = false
        /\ free_blocks s' = free_blocks s - 1
        /\ (forall b, managed s' b = managed s b)
        /\ forall b, used s' b = (b =? bfn) || used s b).
Proof.
  intros Hwf. pose proof Hwf as (Hsec & Hone & Hsum & Hlt). unfold vmm_alloc_memblock.
  pose proof (free_blocks_nonneg _ Hsec). split; intros Hz.
  - intros ok. by rewrite alloc_walk_full by (done || lia).
  - destruct (alloc_walk_spec (bs_head s)) as (bfn & l & -> & Hs & Hin & Hnew & Hu); [done|lia|].
    msimpl. destruct (vmm_wf_same s l (-1)) as (H1 & H2 & H3); [done|done|lia|].
    do 2 eexists. split; [done|]. split; [done|]. rewrite managed_sections_at. split; [lia|].
    split; [apply Hnew, Hone|]. done.
Qed.

(** [vmm_alloc_memblock] returns [NULL] and changes nothing exactly when no
    block is free; otherwise it returns a block of a section that was not in
    use, marks that block and no other, and counts one free block less. *)
Theorem vmm_alloc_memblock_correct s :
  vmm_wf s ->
  (free_blocks s = 0 -> forall ok, vmm_alloc_memblock ok s = Some (None, s))
  /\ (free_blocks s <> 0 ->
      exists bfn s', vmm_alloc_memblock true s = Some (Some bfn, s') /\ vmm_wf s'
        /\ managed s bfn = true /\ used s bfn = false
        /\ free_blocks s' = free_blocks s - 1
        /\ (forall b, managed s' b = managed s b)
        /\ forall b, used s' b = (b =? bfn) || used s b).
Proof. apply vmm_alloc_spec. Qed.

(** When the bookkeeping of a new block cannot be allocated, the block is
    given back: below 4 GB the set of used blocks and the counts are as before. *)
Theorem vmm_alloc_memblock_no_leak s :
  vmm_wf s -> free_blocks s < 2 ^ 63 -> Forall (fun bs => bs_end bs <= 2 ^ 32) (bs_head s) ->
  exists s', vmm_alloc_memblock false s = Some (None, s') /\ vmm_wf s'
    /\ free_blocks s' = free_blocks s
    /\ (forall b, managed s' b = managed s b) /\ forall b, used s' b = used s b.
Proof.
  intros Hwf Hlt Hlow. pose proof Hwf as (Hsec & Hone & Hsum & _). unfold vmm_alloc_memblock.
  pose proof (free_blocks_nonneg _ Hsec). destruct (decide (free_blocks s = 0)).
  - rewrite alloc_walk_full by (done || lia). by eexists.
  - destruct (alloc_walk_spec (bs_head s)) as (bfn & l & -> & Hs & Hin & Hnew & Hu); [done|lia|].
    msimpl. destruct (vmm_wf_same s l (-1)) as (H1 & H2 & H3); [done|done|lia|].
    assert (0 <= bfn < 2048) as Hb.
    { assert (managed s bfn = true) as Hm by (rewrite managed_sections_at; lia).
      apply existsb_exists in Hm as (bs & Hbs & Hi). apply list_elem_of_In in Hbs.
      rewrite list.Forall_forall in Hsec, Hlow. specialize (Hsec _ Hbs). specialize (Hlow _ Hbs).
      pose proof (section_blocks _ Hsec). unfold in_section, MEM_BLOCK_SIZE in *. cbn in Hlow. dlia. }
    destruct (vmm_free_spec bfn (mk_vmm l (u64 (free_blocks s + -1)))) as (s' & E & Hw & Hf & Hm & Hu');
      [done|done| |cbn in *; lia|].
    { unfold used; cbn. rewrite Hu. by rewrite Z.eqb_refl. }
    replace (free_blocks s - 1) with (free_blocks s + -1) by lia. rewrite E. msimpl.
    eexists. split; [done|]. split; [done|]. split; [cbn in *; lia|]. split; [congruence|].
    intros b. rewrite Hu'. unfold used; cbn. rewrite Hu.
    destruct (Z.eqb_spec b bfn) as [->|]; [|done]. cbn. symmetry. apply Hnew, Hone.
Qed.

(** Freeing a used block below 4 GB succeeds, clears that block and no
    other and counts one free block more. *)
Theorem vmm_free_memblock_correct bfn s :
  vmm_wf s -> 0 <= bfn < 2048 -> used s bfn = true -> free_blocks s < 2 ^ 63 ->
  exists s', vmm_free_memblock bfn s = Some (0, s') /\ vmm_wf s'
    /\ free_blocks s' = free_blocks s + 1
    /\ (forall b, managed s' b = managed s b)
    /\ forall b, used s' b = negb (b =? bfn) && used s b.
Proof. apply vmm_free_spec. Qed.

(** The address of a block to free is computed in 32 bits, so that no
    block can be given back when the guest memory lies above 4 GB: the call
    fails with [-EINVAL] and the block stays in use. *)
Theorem vmm_free_memblock_above_4g bfn s :
  vmm_wf s -> Forall (fun bs => 2 ^ 32 <= bs_start bs) (bs_head s) ->
  vmm_free_memblock bfn s = Some (- EINVAL, s).
Proof.
  intros (Hsec & _) Hhigh. unfold vmm_free_memblock, __vmm_free_memblock.
  set (base := u32 _). assert (free_walk base (bs_head s) = Some None) as ->; [|done].
  pose proof (u32_range (Z.shiftl bfn MEM_BLOCK_SHIFT)) as Hr. fold base in Hr. clearbody base.
  induction (bs_head s) as [|bs l IH]; [done|]. inversion Hhigh; inversion Hsec; simplify_eq. cbn.
  rewrite (proj2 (Z.leb_gt _ _)) by lia. cbn. by rewrite IH.
Qed.

(** ** Initialisation *)
Definition block_range (r : memory_region) (b : Z) : bool :=
  (r_type r =? MEMORY_REGION_TYPE_NORMAL)
  && (phy_base r <=? b * BLOCK_SIZE) && ((b + 1) * BLOCK_SIZE <=? phy_base r + r_size r).

Definition init_region_ok (r : memory_region) : Prop :=
  0 <= phy_base r /\ BLOCK_SIZE <= r_size r /\ phy_base r + r_size r <= 2 ^ 48.

Lemma region_block_bounds r :
  init_region_ok r ->
  let B := BLOCK_SIZE in
  BALIGN (phy_base r) B = B * ((phy_base r + (B - 1)) / B)
  /\ ALIGN (u64 (phy_base r + r_size r)) B = B * ((phy_base r + r_size r) / B)
  /\ (phy_base r + (B - 1)) / B <= (phy_base r + r_size r) / B.
Proof.
  intros (H1 & H2 & H3) B. unfold B, BLOCK_SIZE in *. rewrite u64_small by lia.
  split; [apply (BALIGN_pow2 _ 21); lia|]. split; [apply (ALIGN_pow2 _ 21); lia|]. dlia.
Qed.

Lemma bitmap_zero total :
  0 <= total < 2 ^ 28 ->
  let bytes := s32 (BITS_TO_LONGS total * 8) in
  bitmap_wf total (replicate (Z.to_nat (bytes / 8)) 0)
  /\ forall i, bit_at (replicate (Z.to_nat (bytes / 8)) 0) i = false.
Proof.
  intros Ht bytes. assert (bytes / 8 = BITS_TO_LONGS total) as ->.
  { unfold bytes, s32, BITS_TO_LONGS in *. dlia. }
  unfold bitmap_wf. rewrite length_replicate. unfold BITS_TO_LONGS. split.
  - split; [apply Forall_replicate; done|dlia].
  - intros i. unfold bit_at. destruct (_ !! _) eqn:E; [|done].
    apply lookup_replicate in E as [-> _]. apply Z.testbit_0_l.
Qed.

Lemma vmm_init_section start_b end_b :
  0 <= start_b < end_b -> end_b * BLOCK_SIZE <= 2 ^ 48 ->
  let B := BLOCK_SIZE in
  let total := end_b - start_b in
  let bs := mk_section (B * start_b) (B * end_b - B * start_b) (B * end_b) total total 0
              (replicate (Z.to_nat (s32 (BITS_TO_LONGS total * 8) / 8)) 0) in
  section_wf bs /\ (forall b, used_in bs b = false)
  /\ forall b, in_section bs b = (start_b <=? b) && (b <? end_b).
Proof.
  intros Hb He B total bs. destruct (bitmap_zero total) as [Hm Hz].
  { unfold total, BLOCK_SIZE in *. lia. }
  assert (B * start_b / MEM_BLOCK_SIZE = start_b /\ B * end_b / MEM_BLOCK_SIZE = end_b) as [E1 E2].
  { unfold B, BLOCK_SIZE, MEM_BLOCK_SIZE. dlia. }
  split; [|split].
  - unfold section_wf, bs; cbn [bs_start bs_end bs_total_blocks bs_bitmap bs_free_blocks bs_current_index].
    split_and!; try done; try (unfold B, MEM_BLOCK_SIZE, BLOCK_SIZE, total in *; dlia).
    rewrite count_upto_zero; [lia|]. intros i _. apply Hz.
  - intros b. unfold used_in. cbn [bs_bitmap bs]. rewrite Hz. apply andb_false_r.
  - intros b. unfold in_section, bs; cbn [bs_start bs_end]. by rewrite E1, E2.
Qed.

Definition blocks_of (l : list memory_region) (b : Z) : Z := zsum (fun r => b2z (block_range r b)) l.

(** The state of the initialisation before the regions of [l]. *)
Definition init_inv (l : list memory_region) (s : vmm) : Prop :=
  vmm_wf s /\ (forall b, used s b = false)
  /\ (forall b, 0 <= b -> sections_at (bs_head s) b + blocks_of l b <= 1)
  /\ free_blocks s + Z.of_nat (length l) * 2 ^ 28 < 2 ^ 64.

Lemma section_neg_block bs b : section_wf bs -> b < 0 -> in_section bs b = false.
Proof. intros Hw Hb. pose proof (section_blocks _ Hw). unfold in_section. lia. Qed.

Lemma sections_at_neg l b : Forall section_wf l -> b < 0 -> sections_at l b = 0.
Proof.
  intros Hl Hb. apply zsum_zero. intros bs Hbs. rewrite list.Forall_forall in Hl.
  by rewrite section_neg_block by eauto.
Qed.

Lemma block_range_bounds r b :
  init_region_ok r ->
  let B := BLOCK_SIZE in
  block_range r b = (r_type r =? MEMORY_REGION_TYPE_NORMAL)
    && ((phy_base r + (B - 1)) / B <=? b) && (b <? (phy_base r + r_size r) / B).
Proof.
  intros (H1 & H2 & H3) B. unfold block_range, B, BLOCK_SIZE in *. rewrite <- !andb_assoc.
  f_equal. f_equal; [destruct (Z.leb_spec (phy_base r) (b * 2097152)),
      (Z.leb_spec ((phy_base r + (2097152 - 1)) / 2097152) b)
    |destruct (Z.leb_spec ((b + 1) * 2097152) (phy_base r + r_size r)),
      (Z.ltb_spec b ((phy_base r + r_size r) / 2097152))]; (done || (exfalso; dlia)).
Qed.

Lemma vmm_init_region_spec ok r l s :
  (forall n, ok n = true) -> init_region_ok r -> init_inv (r :: l) s ->
  exists s', vmm_init_region ok r s = Some s' /\ init_inv l s'
    /\ forall b, 0 <= b -> sections_at (bs_head s') b = sections_at (bs_head s) b + b2z (block_range r b).
Proof.
  intros Hok Hr (Hwf & Hu & Hone & Hsz).
  destruct (region_block_bounds r Hr) as (E1 & E2 & Hle).
  pose proof (fun b => block_range_bounds r b Hr) as Hbr. cbn zeta in *.
  set (sb := (phy_base r + (BLOCK_SIZE - 1)) / BLOCK_SIZE) in *.
  set (eb := (phy_base r + r_size r) / BLOCK_SIZE) in *.
  assert (0 <= sb /\ eb * BLOCK_SIZE <= 2 ^ 48) as [Hs0 He0].
  { destruct Hr. unfold sb, eb, BLOCK_SIZE in *. dlia. }
  cbn [length] in Hsz. pose proof Hwf as (Hsec & Hone' & Hsum & Hlt).
  assert (forall s', s' = s -> (forall b, block_range r b = false) ->
    exists s'', Some s' = Some s'' /\ init_inv l s''
    /\ forall b, 0 <= b -> sections_at (bs_head s'') b = sections_at (bs_head s) b + b2z (block_range r b)) as Hskip.
  { intros s' -> Hno. eexists. split; [done|]. split.
    - repeat split; try done; try apply Hwf; [|lia]. intros b Hb. specialize (Hone b Hb).
      unfold blocks_of in *. rewrite zsum_cons, Hno in Hone. simpl b2z in Hone. lia.
    - intros b _. rewrite Hno. simpl b2z. lia. }
  unfold vmm_init_region. destruct (Z.eqb_spec (r_type r) MEMORY_REGION_TYPE_NORMAL) as [Ht|Ht];
    cbn [negb]; [|apply Hskip; [done|]; intros b; rewrite Hbr; done].
  rewrite E1, E2. fold BLOCK_SIZE. assert (u64 (BLOCK_SIZE * eb - BLOCK_SIZE * sb) = BLOCK_SIZE * eb - BLOCK_SIZE * sb) as ->.
  { apply u64_small. unfold BLOCK_SIZE in *. lia. }
  destruct (Z.leb_spec (BLOCK_SIZE * eb - BLOCK_SIZE * sb) 0) as [Hz|Hz].
  { apply Hskip; [done|]. intros b. rewrite Hbr. unfold BLOCK_SIZE in *. cbn. lia. }
  rewrite !Hok. msimpl.
  assert (Z.shiftr (BLOCK_SIZE * eb - BLOCK_SIZE * sb) BLOCK_SHIFT = eb - sb) as ->.
  { unfold BLOCK_SHIFT. rewrite Z.shiftr_div_pow2 by lia. unfold BLOCK_SIZE. dlia. }
  destruct (vmm_init_section sb eb) as (Hsw & Hsu & Hsi);
    [unfold BLOCK_SIZE in *; lia|unfold BLOCK_SIZE in *; lia|]. cbn zeta in *.
  eexists. split; [done|]. set (bs := mk_section _ _ _ _ _ _ _) in *.
  assert (forall b, 0 <= b -> sections_at (bs :: bs_head s) b
    = sections_at (bs_head s) b + b2z (block_range r b)) as Hat.
  { intros b Hb. unfold sections_at. rewrite zsum_cons, Hsi, Hbr. cbn. lia. }
  assert (0 <= eb - sb < 2 ^ 28) as Hn by (unfold BLOCK_SIZE in *; lia).
  pose proof (free_blocks_nonneg _ Hsec). rewrite (u64_small (free_blocks s + (eb - sb))) by lia.
  split; [|by intros b Hb; apply Hat]. split; [split; [by constructor|split; [|split]]|split; [|split]].
  - intros b. change (sections_at (bs :: bs_head s) b <= 1). destruct (decide (0 <= b)).
    + rewrite Hat by done. specialize (Hone b ltac:(done)). unfold blocks_of in Hone.
      rewrite zsum_cons in Hone. assert (0 <= zsum (fun r => b2z (block_range r b)) l); [|lia].
      apply zsum_nonneg. intros x _. by destruct (block_range x b).
    + rewrite sections_at_neg by (by constructor || lia). done.
  - cbn [bs_head free_blocks]. rewrite zsum_cons. cbn [bs_free_blocks bs]. lia.
  - cbn [free_blocks]. lia.
  - intros b. unfold used in *. cbn [bs_head existsb]. by rewrite Hsu, Hu.
  - intros b Hb. cbn [bs_head]. rewrite Hat by done. specialize (Hone b Hb). unfold blocks_of in *.
    rewrite zsum_cons in Hone. lia.
  - cbn [free_blocks]. lia.
Qed.

Lemma vmm_init_walk_spec ok l s :
  (forall n, ok n = true) -> Forall init_region_ok l -> init_inv l s ->
  exists s', vmm_init_walk ok l s = Some s' /\ init_inv [] s'
    /\ forall b, 0 <= b -> sections_at (bs_head s') b = sections_at (bs_head s) b + blocks_of l b.
Proof.
  intros Hok Hl. revert s. induction Hl as [|r l Hr Hl IH]; intros s Hinv.
  - eexists. split; [done|]. split; [done|]. intros b _. unfold blocks_of. rewrite zsum_nil. lia.
  - destruct (vmm_init_region_spec ok r l s Hok Hr Hinv) as (s1 & E & Hinv1 & H1).
    destruct (IH s1 Hinv1) as (s2 & E2 & Hinv2 & H2). cbn [vmm_init_walk]. rewrite E. msimpl.
    exists s2. split; [done|]. split; [done|]. intros b Hb. rewrite H2, H1 by done.
    unfold blocks_of. rewrite zsum_cons. lia.
Qed.

(** A block inside a region covers its first address with that region. *)
Lemma blocks_of_cover l b :
  Forall init_region_ok l -> 0 <= b -> 0 <= blocks_of l b <= cover l (b * BLOCK_SIZE).
Proof.
  intros Hl Hb. unfold blocks_of, cover. induction Hl as [|r l Hr Hl IH]; [rewrite !zsum_nil; lia|].
  rewrite !zsum_cons. enough (0 <= b2z (block_range r b) <= holds r (b * BLOCK_SIZE)) by lia.
  unfold block_range, holds.
  destruct (rng_cases (phy_base r) (phy_base r + r_size r) (b * BLOCK_SIZE)) as [[-> ?]|[-> ?]];
    destruct (r_type r =? _), (Z.leb_spec (phy_base r) (b * BLOCK_SIZE)),
      (Z.leb_spec ((b + 1) * BLOCK_SIZE) (phy_base r + r_size r)); cbn [andb b2z];
    unfold BLOCK_SIZE in *; lia.
Qed.

Lemma zsum_exists {A} (P : A -> bool) l : 1 <= zsum (fun x => b2z (P x)) l <-> existsb P l = true.
Proof.
  induction l as [|x l IH]; [rewrite zsum_nil; cbn; lia|]. rewrite zsum_cons. cbn.
  assert (0 <= zsum (fun x => b2z (P x)) l) by (apply zsum_nonneg; intros y _; by destruct (P y)).
  destruct (P x); cbn; [|rewrite <- IH]; simpl b2z; intuition lia.
Qed.

(** On non-overlapping regions of at least one block, [vmm_init] builds an
    allocator that satisfies its invariant, whose blocks are exactly the 2 MB
    blocks that lie wholly inside a normal region, all of them free. *)
Theorem vmm_init_correct ok l :
  (forall n, ok n = true) -> l <> [] -> Forall init_region_ok l -> (forall a, cover l a <= 1) ->
  Z.of_nat (length l) <= 2 ^ 16 ->
  exists s, vmm_init ok l = Some s /\ vmm_wf s
    /\ (forall b, used s b = false)
    /\ forall b, 0 <= b -> managed s b = existsb (fun r => block_range r b) l.
Proof.
  intros Hok Hne Hl Hone Hlen. unfold vmm_init. rewrite bool_decide_eq_false_2 by done. cbn [negb]. msimpl.
  destruct (vmm_init_walk_spec ok l (mk_vmm [] 0)) as (s & E & (Hw & Hu & _) & Hat); [done..| |].
  { split; [|split; [done|split]].
    - split; [constructor|]. done.
    - intros b Hb. cbn [bs_head]. unfold sections_at. rewrite zsum_nil.
      pose proof (blocks_of_cover l b Hl Hb). pose proof (Hone (b * BLOCK_SIZE)). lia.
    - cbn. lia. }
  exists s. split; [done|]. split; [done|]. split; [done|]. intros b Hb.
  rewrite managed_sections_at, Hat by done. cbn [bs_head]. unfold sections_at. rewrite zsum_nil.
  apply eq_true_iff_eq. rewrite <- zsum_exists. unfold blocks_of. lia.
Qed.

(** The guard [end - start <= 0] of [vmm_init] is evaluated on unsigned
    values: a normal region that lies strictly inside one block is not dropped
    but becomes a section of 2^43 - 1 blocks with an empty bitmap. *)
Theorem vmm_init_small_region r :
  r_type r = MEMORY_REGION_TYPE_NORMAL -> 0 <= phy_base r < 2 ^ 48 -> 0 < r_size r ->
  0 < phy_base r mod BLOCK_SIZE -> phy_base r mod BLOCK_SIZE + r_size r < BLOCK_SIZE ->
  exists bs, vmm_init (fun _ => true) [r] = Some (mk_vmm [bs] (2 ^ 43 - 1))
    /\ bs_end bs < bs_start bs /\ bs_bitmap bs = [].
Proof.
  intros Ht Hb Hs Hm1 Hm2. unfold vmm_init. rewrite bool_decide_eq_false_2 by done.
  cbn [negb vmm_init_walk]. msimpl.
  unfold vmm_init_region. rewrite Ht. change (negb _) with false. cbn iota.
  set (q := phy_base r / BLOCK_SIZE).
  assert (BALIGN (phy_base r) BLOCK_SIZE = BLOCK_SIZE * (q + 1)) as ->.
  { unfold BLOCK_SIZE in *. rewrite (BALIGN_pow2 _ 21) by lia. unfold q. dlia. }
  assert (ALIGN (u64 (phy_base r + r_size r)) BLOCK_SIZE = BLOCK_SIZE * q) as ->.
  { unfold BLOCK_SIZE in *. rewrite u64_small, (ALIGN_pow2 _ 21) by lia. unfold q. dlia. }
  replace (u64 (BLOCK_SIZE * q - BLOCK_SIZE * (q + 1))) with (2 ^ 64 - BLOCK_SIZE).
  2:{ unfold u64, BLOCK_SIZE. replace (2097152 * q - 2097152 * (q + 1)) with (-2097152) by lia. done. }
  msimpl. eexists. split; [done|]. cbn. split; [unfold BLOCK_SIZE; lia|done].
Qed.

(** ** Witnesses *)
Definition demo_section (base free map : Z) : block_section :=
  mk_section (base * MEM_BLOCK_SIZE) (2 * MEM_BLOCK_SIZE) ((base + 2) * MEM_BLOCK_SIZE) free 2 0 [map].

Lemma single_section_wf bs f : section_wf bs -> f = bs_free_blocks bs -> vmm_wf (mk_vmm [bs] f).
Proof.
  intros Hw ->. pose proof (section_free_nonneg _ Hw). pose proof (section_blocks _ Hw).
  split; [by constructor|]. cbn. split; [|lia]. intros b. destruct (in_section bs b); cbn; lia.
Qed.

Ltac demo_wf :=
  apply single_section_wf; [|reflexivity];
  unfold section_wf, bitmap_wf, is_word, demo_section, MEM_BLOCK_SIZE; cbn;
  repeat first [apply List.Forall_cons | apply List.Forall_nil | lia | reflexivity
               | match goal with |- _ /\ _ => split end].

Lemma vmm_alloc_memblock_correct_witness :
  exists bfn s', vmm_alloc_memblock true (mk_vmm [demo_section 512 2 0] 2) = Some (Some bfn, s')
    /\ free_blocks s' = 1.
Proof.
  destruct (vmm_alloc_memblock_correct (mk_vmm [demo_section 512 2 0] 2)) as [_ H]; [demo_wf|].
  destruct (H ltac:(done)) as (bfn & s' & E & _ & _ & _ & Hf & _). exists bfn, s'. exact (conj E Hf).
Defined.

Lemma vmm_alloc_memblock_no_leak_witness :
  exists s', vmm_alloc_memblock false (mk_vmm [demo_section 512 2 0] 2) = Some (None, s')
    /\ free_blocks s' = 2.
Proof.
  destruct (vmm_alloc_memblock_no_leak (mk_vmm [demo_section 512 2 0] 2)) as (s' & E & _ & Hf & _);
    [demo_wf|done|by apply List.Forall_cons|]. exists s'. exact (conj E Hf).
Defined.

Lemma vmm_free_memblock_correct_witness :
  exists s', vmm_free_memblock 513 (mk_vmm [demo_section 512 1 2] 1) = Some (0, s')
    /\ free_blocks s' = 2.
Proof.
  destruct (vmm_free_memblock_correct 513 (mk_vmm [demo_section 512 1 2] 1)) as (s' & E & _ & Hf & _);
    [demo_wf|done|reflexivity|done|]. exists s'. exact (conj E Hf).
Defined.

Lemma vmm_free_memblock_above_4g_witness :
  used (mk_vmm [demo_section 2048 1 1] 1) 2048 = true
  /\ vmm_free_memblock 2048 (mk_vmm [demo_section 2048 1 1] 1)
     = Some (- EINVAL, mk_vmm [demo_section 2048 1 1] 1).
Proof.
  split; [reflexivity|]. apply vmm_free_memblock_above_4g; [demo_wf|by apply List.Forall_cons].
Defined.

Lemma vmm_init_correct_witness :
  exists s, vmm_init (fun _ => true) [mk_region 0 0 0x40000000 0x800000; mk_region 3 1 0x40800000 0x200000] = Some s
    /\ vmm_wf s /\ managed s 512 = true.
Proof.
  destruct (vmm_init_correct (fun _ => true)
    [mk_region 0 0 0x40000000 0x800000; mk_region 3 1 0x40800000 0x200000]) as (s & E & Hw & _ & Hm);
    [done|done| | |cbn; lia|].
  - unfold init_region_ok, BLOCK_SIZE. repeat (apply List.Forall_cons; [cbn; lia|]). apply List.Forall_nil.
  - intros a. unfold cover, holds. cbn. rng_lia.
  - exists s. split; [done|]. split; [done|]. rewrite Hm by done. reflexivity.
Defined.

Lemma vmm_init_small_region_witness :
  exists bs, vmm_init (fun _ => true) [mk_region 0 0 0x40100000 0x1000] = Some (mk_vmm [bs] (2 ^ 43 - 1)).
Proof.
  destruct (vmm_init_small_region (mk_region 0 0 0x40100000 0x1000)) as (bs & E & _);
    [done|cbn; lia|cbn; lia|reflexivity|reflexivity|]. exists bs. exact E.
Defined.
