(* ===== verification/Stage2.v ===== *)
(** * Stage 2 page tables (arch/aarch64/virt/stage2.c, stage2.h)

    A guest has a three level page table: a first level table of 1024 entries
    (two concatenated pages, called pud here), second level tables of 512
    entries (pmd) and third level tables of 512 entries (pte).  The memory that
    holds the tables is a map from the address of a table to its entries; a
    read or write outside of a live table is [None].  [vtop] and [ptov] are the
    identity (CONFIG_ARM_ADDRESS_TAGGING is off).  The pages that
    [get_free_page] will return are the list [s2_pool]; [free_pages] puts a
    page back there and makes its old contents inaccessible.  Barriers and TLB
    maintenance have no effect on the contents of the tables. *)
From S2P Require Import Prelude.

(** include/minos/memattr.h *)
Definition __VM_IO : Z := 0x00000001.
Definition __VM_NORMAL : Z := 0x00000002.
Definition __VM_NORMAL_NC : Z := 0x00000004.
Definition __VM_WT : Z := 0x00000008.
Definition __VM_PFNMAP : Z := 0x00000100.
Definition __VM_HUGE_2M : Z := 0x00000200.
Definition __VM_HUGE_1G : Z := 0x00000400.
Definition __VM_DEVMAP : Z := 0x00000800.
Definition __VM_SHARED : Z := 0x00001000.
Definition __VM_HOST : Z := 0x00002000.
Definition __VM_GUEST : Z := 0x00004000.
Definition __VM_SHMEM : Z := 0x00008000.
Definition __VM_READ : Z := 0x00100000.
Definition __VM_WRITE : Z := 0x00200000.
Definition __VM_EXEC : Z := 0x00400000.
Definition __VM_RO : Z := __VM_READ.
Definition __VM_WO : Z := __VM_WRITE.
Definition __VM_RW : Z := Z.lor __VM_READ __VM_WRITE.
Definition VM_TYPE_MASK : Z := Z.lor (Z.lor (Z.lor __VM_IO __VM_NORMAL) __VM_NORMAL_NC) __VM_WT.
Definition VM_RW_MASK : Z := Z.lor __VM_READ __VM_WRITE.
Definition VM_HOST : Z := __VM_HOST.
Definition VM_HUGE : Z := __VM_HUGE_2M.
Definition VM_RW : Z := Z.lor __VM_READ __VM_WRITE.
Definition VM_IO : Z := Z.lor (Z.lor __VM_IO __VM_DEVMAP) __VM_PFNMAP.

(** stage2.h *)
Definition S2_DES_BLOCK : Z := 1.
Definition S2_DES_TABLE : Z := 3.
Definition S2_DES_PAGE : Z := 3.
Definition S2_XN : Z := 2 ^ 54.
Definition S2_AF : Z := 2 ^ 10.
Definition S2_PFNMAP : Z := 2 ^ 55.
Definition S2_DEVMAP : Z := 2 ^ 56.
Definition S2_SHARED : Z := 2 ^ 57.
Definition S2_SH_OUTER : Z := 0x200.
Definition S2_SH_INNER : Z := 0x300.
Definition S2_AP_NON : Z := 0.
Definition S2_AP_RO : Z := 0x40.
Definition S2_AP_WO : Z := 0x80.
Definition S2_AP_RW : Z := 0xc0.
Definition S2_MEMATTR_DEV_nGnRE : Z := 0x04.
Definition S2_MEMATTR_NORMAL_WB : Z := 0x3c.
Definition S2_MEMATTR_NORMAL_NC : Z := 0x14.
Definition S2_MEMATTR_NORMAL_WT : Z := 0x28.

Definition S2_PAGE_NORMAL : Z :=
  Z.lor (Z.lor (Z.lor S2_DES_PAGE S2_AF) S2_SH_INNER) S2_MEMATTR_NORMAL_WB.
Definition S2_PAGE_NORMAL_NC : Z :=
  Z.lor (Z.lor (Z.lor S2_DES_PAGE S2_AF) S2_SH_INNER) S2_MEMATTR_NORMAL_NC.
Definition S2_PAGE_WT : Z :=
  Z.lor (Z.lor (Z.lor S2_DES_PAGE S2_AF) S2_SH_INNER) S2_MEMATTR_NORMAL_WT.
Definition S2_PAGE_DEVICE : Z :=
  Z.lor (Z.lor (Z.lor (Z.lor S2_DES_PAGE S2_AF) S2_SH_OUTER) S2_MEMATTR_DEV_nGnRE) S2_XN.
Definition S2_BLOCK_NORMAL : Z :=
  Z.lor (Z.lor (Z.lor S2_DES_BLOCK S2_AF) S2_SH_INNER) S2_MEMATTR_NORMAL_WB.
Definition S2_BLOCK_NORMAL_NC : Z :=
  Z.lor (Z.lor (Z.lor S2_DES_BLOCK S2_AF) S2_SH_INNER) S2_MEMATTR_NORMAL_NC.
Definition S2_BLOCK_DEVICE : Z :=
  Z.lor (Z.lor (Z.lor (Z.lor S2_DES_BLOCK S2_AF) S2_SH_OUTER) S2_MEMATTR_DEV_nGnRE) S2_XN.
Definition S2_BLOCK_WT : Z :=
  Z.lor (Z.lor (Z.lor S2_DES_BLOCK S2_AF) S2_SH_OUTER) S2_MEMATTR_NORMAL_WT.

Definition S2_PHYSICAL_MASK : Z := 0x0000fffffffff000.
Definition S2_PHYSICAL_MAX : Z := 2 ^ 40.
Definition VMM_VIRT_MAX : Z := 2 ^ 40.
Definition S2_PUD_SHIFT : Z := 30.
Definition S2_PUD_SIZE : Z := 2 ^ 30.
Definition S2_PUD_MASK : Z := not64 (S2_PUD_SIZE - 1).
Definition S2_PMD_SHIFT : Z := 21.
Definition S2_PMD_SIZE : Z := 2 ^ 21.
Definition S2_PMD_MASK : Z := not64 (S2_PMD_SIZE - 1).
Definition S2_PTE_SHIFT : Z := 12.
Definition S2_PTE_MASK : Z := not64 (2 ^ 12 - 1).
Definition PTRS_PER_S2_PUD : Z := 1024.
Definition PTRS_PER_S2_PMD : Z := 512.
Definition PTRS_PER_S2_PTE : Z := 512.

Definition IS_PUD_ALIGN (addr : Z) : bool := Z.land addr (S2_PUD_SIZE - 1) =? 0.
Definition stage2_pud_index (addr : Z) : Z :=
  Z.land (Z.shiftr addr S2_PUD_SHIFT) (PTRS_PER_S2_PUD - 1).
Definition stage2_pmd_index (addr : Z) : Z :=
  Z.land (Z.shiftr addr S2_PMD_SHIFT) (PTRS_PER_S2_PMD - 1).
Definition stage2_pte_index (addr : Z) : Z :=
  Z.land (Z.shiftr addr S2_PTE_SHIFT) (PTRS_PER_S2_PTE - 1).
Definition stage2_huge (e : Z) : bool := negb (e =? 0) && (Z.land e 0x03 =? S2_DES_BLOCK).
Definition stage2_table_addr (e : Z) : Z := Z.land e S2_PHYSICAL_MASK.
Definition stage2_none (e : Z) : bool := e =? 0.

(** ** Memory *)
Abbreviation table_mem := (gmap Z (list Z)).

Record s2 := mk_s2 {
  s2_mem : table_mem;
  s2_pool : list Z;
}.

Definition tread (m : table_mem) (a i : Z) : option Z := l ← m !! a; l !! Z.to_nat i.

Definition twrite (a i v : Z) (s : s2) : option s2 :=
  l ← s2_mem s !! a;
  if (0 <=? i) && (i <? Z.of_nat (length l))
  then Some (mk_s2 (<[a := <[Z.to_nat i := v]> l]> (s2_mem s)) (s2_pool s)) else None.

(** A page of the pool, cleared: [get_free_page] and the [memset] after it. *)
Definition get_zeroed_page (s : s2) : option (Z * s2) :=
  match s2_pool s with
  | [] => None
  | p :: pool => Some (p, mk_s2 (<[p := replicate 512 0]> (s2_mem s)) pool)
  end.

Definition free_pages (p : Z) (s : s2) : s2 := mk_s2 (delete p (s2_mem s)) (p :: s2_pool s).

(** ** stage2.c *)

(** [page] is the result of [__get_free_pages(2, 2)]. *)
Definition arch_alloc_guest_pgd (page : option Z) (s : s2) : option Z * s2 :=
  match page with
  | Some p => (Some p, mk_s2 (<[p := replicate 1024 0]> (s2_mem s)) (s2_pool s))
  | None => (None, s)
  end.

Definition stage2_xxx_addr_end (start end_ map_size : Z) : Z :=
  let boundary := Z.land (u64 (start + map_size)) (not64 (map_size - 1)) in
  if u64 (boundary - 1) <? u64 (end_ - 1) then boundary else end_.

Definition stage2_populate (p i addr : Z) (s : s2) : option s2 :=
  twrite p i (Z.lor addr S2_DES_TABLE) s.

Definition stage2_access_attr (flags attr : Z) : Z :=
  let rw := Z.land flags VM_RW_MASK in
  let attr := Z.lor attr (if rw =? __VM_RO then S2_AP_RO else if rw =? __VM_RW then S2_AP_RW
                          else if rw =? __VM_WO then S2_AP_WO else S2_AP_NON) in
  let attr := if Z.land flags __VM_EXEC =? 0 then Z.lor attr S2_XN else attr in
  let attr := if negb (Z.land flags __VM_PFNMAP =? 0) then Z.lor attr S2_PFNMAP else attr in
  let attr := if negb (Z.land flags __VM_DEVMAP =? 0) then Z.lor attr S2_DEVMAP else attr in
  if negb (Z.land flags __VM_SHARED =? 0) then Z.lor attr S2_SHARED else attr.

Definition stage2_block_attr (flags : Z) : Z :=
  let t := Z.land flags VM_TYPE_MASK in
  stage2_access_attr flags
    (if t =? __VM_NORMAL_NC then S2_BLOCK_NORMAL_NC else if t =? __VM_IO then S2_BLOCK_DEVICE
     else if t =? __VM_WT then S2_BLOCK_WT else S2_BLOCK_NORMAL).

Definition stage2_page_attr (flags : Z) : Z :=
  let t := Z.land flags VM_TYPE_MASK in
  stage2_access_attr flags
    (if t =? __VM_NORMAL_NC then S2_PAGE_NORMAL_NC else if t =? __VM_IO then S2_PAGE_DEVICE
     else if t =? __VM_WT then S2_PAGE_WT else S2_PAGE_NORMAL).

Definition is_pmd_range (start end_ : Z) : bool :=
  (Z.land start (S2_PMD_SIZE - 1) =? 0) && (u64 (end_ - start) =? S2_PMD_SIZE).
Definition is_pud_range (start end_ : Z) : bool :=
  (Z.land start (S2_PUD_SIZE - 1) =? 0) && (u64 (end_ - start) =? S2_PUD_SIZE).

(** The loops stop at the latest when their index leaves the table, so that
    one step more than the table has entries is always enough fuel. *)
Fixpoint map_pte_loop (fuel : nat) (p i start end_ physical attr : Z) (s : s2) : option s2 :=
  match fuel with
  | O => None
  | S fuel =>
      _ ← tread (s2_mem s) p i;
      s ← twrite p i (Z.lor attr physical) s;
      let start := u64 (start + PAGE_SIZE) in
      if start =? end_ then Some s
      else map_pte_loop fuel p (i + 1) start end_ (u64 (physical + PAGE_SIZE)) attr s
  end.

Definition stage2_map_pte_range (ptep start end_ physical flags : Z) (s : s2) : option (Z * s2) :=
  s ← map_pte_loop 513 ptep (stage2_pte_index start) start end_ physical (stage2_page_attr flags) s;
  Some (0, s).

Definition stage2_pmd_huge_page (old_pmd start phy size flags : Z) : bool :=
  if (Z.land flags (Z.lor __VM_HUGE_2M __VM_HUGE_1G) =? 0) || negb (old_pmd =? 0) then false
  else negb (negb (IS_BLOCK_ALIGN start) || negb (IS_BLOCK_ALIGN phy) || negb (IS_BLOCK_ALIGN size)).

(** The body of the loop of [stage2_map_pmd_range] for the entry [i]. *)
Definition map_pmd_entry (p i start next physical flags : Z) (s : s2) : option (Z * s2) :=
  let size := u64 (next - start) in
  old_pmd ← tread (s2_mem s) p i;
  if stage2_pmd_huge_page old_pmd start physical size flags then
    s ← twrite p i (Z.lor (stage2_block_attr flags) (Z.land physical S2_PMD_MASK)) s;
    Some (0, s)
  else if negb (old_pmd =? 0) && stage2_huge old_pmd then Some (- EINVAL, s)
  else if stage2_none old_pmd then
    match get_zeroed_page s with
    | None => Some (- ENOMEM, s)
    | Some (ptep, s) =>
        s ← stage2_populate p i ptep s;
        stage2_map_pte_range ptep start next physical flags s
    end
  else stage2_map_pte_range (stage2_table_addr old_pmd) start next physical flags s.

Fixpoint map_pmd_loop (fuel : nat) (p i start end_ physical flags : Z) (s : s2) : option (Z * s2) :=
  match fuel with
  | O => None
  | S fuel =>
      let next := stage2_xxx_addr_end start end_ S2_PMD_SIZE in
      '(ret, s) ← map_pmd_entry p i start next physical flags s;
      if negb (ret =? 0) then Some (ret, s)
      else if next =? end_ then Some (0, s)
      else map_pmd_loop fuel p (i + 1) next end_ (u64 (physical + u64 (next - start))) flags s
  end.

Definition stage2_map_pmd_range (pmdp start end_ physical flags : Z) (s : s2) : option (Z * s2) :=
  map_pmd_loop 513 pmdp (stage2_pmd_index start) start end_ physical flags s.

Definition stage2_pud_huge_page (old_pud start phy size flags : Z) : bool :=
  if (Z.land flags __VM_HUGE_1G =? 0) || negb (old_pud =? 0) then false
  else negb (negb (IS_PUD_ALIGN start) || negb (IS_PUD_ALIGN phy) || negb (IS_PUD_ALIGN size)).

(** The body of the loop of [stage2_map_pud_range] for the entry [i]. *)
Definition map_pud_entry (pgdp i start next physical flags : Z) (s : s2) : option (Z * s2) :=
  let size := u64 (next - start) in
  old_pud ← tread (s2_mem s) pgdp i;
  if stage2_pud_huge_page old_pud start physical size flags then
    s ← twrite pgdp i (Z.lor (stage2_block_attr flags) (Z.land physical S2_PUD_MASK)) s;
    Some (0, s)
  else if negb (old_pud =? 0) && stage2_huge old_pud then Some (- EINVAL, s)
  else if stage2_none old_pud then
    match get_zeroed_page s with
    | None => Some (- ENOMEM, s)
    | Some (pmdp, s) =>
        s ← stage2_populate pgdp i pmdp s;
        stage2_map_pmd_range pmdp start next physical flags s
    end
  else stage2_map_pmd_range (stage2_table_addr old_pud) start next physical flags s.

Fixpoint map_pud_loop (fuel : nat) (pgdp i start end_ physical flags : Z) (s : s2) : option (Z * s2) :=
  match fuel with
  | O => None
  | S fuel =>
      let next := stage2_xxx_addr_end start end_ S2_PUD_SIZE in
      '(ret, s) ← map_pud_entry pgdp i start next physical flags s;
      if negb (ret =? 0) then Some (ret, s)
      else if next =? end_ then Some (0, s)
      else map_pud_loop fuel pgdp (i + 1) next end_ (u64 (physical + u64 (next - start))) flags s
  end.

Definition stage2_map_pud_range (pgdp start end_ physical flags : Z) (s : s2) : option (Z * s2) :=
  map_pud_loop 1025 pgdp (stage2_pud_index start) start end_ physical flags s.

Fixpoint unmap_pte_loop (fuel : nat) (p i addr end_ : Z) (s : s2) : option s2 :=
  match fuel with
  | O => None
  | S fuel =>
      pte ← tread (s2_mem s) p i;
      s ← (if negb (stage2_none pte) then twrite p i 0 s else Some s);
      let addr := u64 (addr + PAGE_SIZE) in
      if addr =? end_ then Some s else unmap_pte_loop fuel p (i + 1) addr end_ s
  end.

Definition stage2_unmap_pte_range (ptep addr end_ : Z) (s : s2) : option s2 :=
  unmap_pte_loop 513 ptep (stage2_pte_index addr) addr end_ s.

(** The body of the loop of [stage2_unmap_pmd_range] for the entry [i]. *)
Definition unmap_pmd_entry (p i addr next : Z) (s : s2) : option s2 :=
  pmd ← tread (s2_mem s) p i;
  if stage2_none pmd then Some s
  else if stage2_huge pmd then twrite p i 0 s
  else
    let ptep := stage2_table_addr pmd in
    s ← stage2_unmap_pte_range ptep addr next s;
    if is_pmd_range addr next then s ← twrite p i 0 s; Some (free_pages ptep s)
    else Some s.

Fixpoint unmap_pmd_loop (fuel : nat) (p i addr end_ : Z) (s : s2) : option s2 :=
  match fuel with
  | O => None
  | S fuel =>
      let next := stage2_xxx_addr_end addr end_ S2_PMD_SIZE in
      s ← unmap_pmd_entry p i addr next s;
      if next =? end_ then Some s else unmap_pmd_loop fuel p (i + 1) next end_ s
  end.

Definition stage2_unmap_pmd_range (pmdp addr end_ : Z) (s : s2) : option s2 :=
  unmap_pmd_loop 513 pmdp (stage2_pmd_index addr) addr end_ s.

(** The body of the loop of [stage2_unmap_pud_range] for the entry [i]. *)
Definition unmap_pud_entry (pgdp i addr next : Z) (s : s2) : option s2 :=
  pud ← tread (s2_mem s) pgdp i;
  if stage2_none pud then Some s
  else
    let pmdp := stage2_table_addr pud in
    s ← stage2_unmap_pmd_range pmdp addr next s;
    if is_pud_range addr next then s ← twrite pgdp i 0 s; Some (free_pages pmdp s)
    else Some s.

Fixpoint unmap_pud_loop (fuel : nat) (pgdp i addr end_ : Z) (s : s2) : option s2 :=
  match fuel with
  | O => None
  | S fuel =>
      let next := stage2_xxx_addr_end addr end_ S2_PUD_SIZE in
      s ← unmap_pud_entry pgdp i addr next s;
      if next =? end_ then Some s else unmap_pud_loop fuel pgdp (i + 1) next end_ s
  end.

(** The first entry visited is that of [end]. *)
Definition stage2_unmap_pud_range (pgdp addr end_ : Z) (s : s2) : option (Z * s2) :=
  s ← unmap_pud_loop 1025 pgdp (stage2_pud_index end_) addr end_ s;
  Some (0, s).

(** The error code with the address stored through [pa]. *)
Definition stage2_ipa_to_pa (pgdp va : Z) (m : table_mem) : option (Z * option Z) :=
  let pte_offset := Z.land va (not64 S2_PTE_MASK) in
  let pmd_offset := Z.land va (not64 S2_PMD_MASK) in
  pud ← tread m pgdp (stage2_pud_index va);
  if stage2_none pud then Some (- EFAULT, None)
  else
    pmd ← tread m (stage2_table_addr pud) (stage2_pmd_index va);
    if stage2_none pmd then Some (- EFAULT, None)
    else if stage2_huge pmd then
      Some (0, Some (u64 (Z.land pmd S2_PHYSICAL_MASK + pmd_offset)))
    else
      pte ← tread m (stage2_table_addr pmd) (stage2_pte_index va);
      let phy := Z.land pte S2_PHYSICAL_MASK in
      if phy =? 0 then Some (- EFAULT, None) else Some (0, Some (u64 (phy + pte_offset))).

Definition arch_translate_guest_ipa (pgdp va : Z) (m : table_mem) : option (Z * option Z) :=
  stage2_ipa_to_pa pgdp va m.

Definition arch_guest_map (pgdp start end_ physical flags : Z) (s : s2) : option (Z * s2) :=
  if end_ =? start then Some (- EINVAL, s)
  else
    _ ← assert_ ((start <? VMM_VIRT_MAX) && (end_ <=? VMM_VIRT_MAX));
    _ ← assert_ (physical <? S2_PHYSICAL_MAX);
    _ ← assert_ (IS_PAGE_ALIGN start && IS_PAGE_ALIGN end_ && IS_PAGE_ALIGN physical);
    stage2_map_pud_range pgdp start end_ physical flags s.

Definition arch_guest_unmap (pgdp start end_ : Z) (s : s2) : option (Z * s2) :=
  if end_ =? start then Some (- EINVAL, s)
  else
    _ ← assert_ ((start <? VMM_VIRT_MAX) && (end_ <=? VMM_VIRT_MAX));
    stage2_unmap_pud_range pgdp start end_ s.

(** ** Specification

    The guest physical space has 2^28 pages.  [walk] is the walk of the
    hardware for page [pg], where a page is [i * 2^18 + j * 512 + k] for the
    indices of the three levels. *)
Inductive leaf :=
  | Fault
  | Page (d : Z)
  | Block (d : Z)
  | PudBlock (d : Z).

Definition walk3 (m : table_mem) (pgdp i j k : Z) : option leaf :=
  pud ← tread m pgdp i;
  if pud =? 0 then Some Fault
  else if stage2_huge pud then Some (PudBlock pud)
  else
    pmd ← tread m (stage2_table_addr pud) j;
    if pmd =? 0 then Some Fault
    else if stage2_huge pmd then Some (Block pmd)
    else
      pte ← tread m (stage2_table_addr pmd) k;
      Some (if pte =? 0 then Fault else Page pte).

Definition NR_PAGES : Z := 2 ^ 28.
Definition walk (m : table_mem) (pgdp pg : Z) : option leaf :=
  walk3 m pgdp (pg / 2 ^ 18) (pg / 512 mod 512) (pg mod 512).

(** The leaf maps page [pg] to the physical page at [pa] with the attributes of
    [flags]; a block is only used where both have the same offset in it. *)
Definition mapped_as (lf : option leaf) (flags pg pa : Z) : Prop :=
  lf = Some (Page (Z.lor (stage2_page_attr flags) pa))
  \/ (Z.land flags (Z.lor __VM_HUGE_2M __VM_HUGE_1G) <> 0 /\ (pa - PAGE_SIZE * pg) mod S2_PMD_SIZE = 0
      /\ lf = Some (Block (Z.lor (stage2_block_attr flags) (S2_PMD_SIZE * (pa / S2_PMD_SIZE)))))
  \/ (Z.land flags __VM_HUGE_1G <> 0 /\ (pa - PAGE_SIZE * pg) mod S2_PUD_SIZE = 0
      /\ lf = Some (PudBlock (Z.lor (stage2_block_attr flags) (S2_PUD_SIZE * (pa / S2_PUD_SIZE))))).

(** What a table is: the root, the second level table of one entry of the root,
    or the third level table of one entry of a second level table. *)
Inductive kind :=
  | KRoot
  | KPmd (i : Z)
  | KPte (i j : Z).

#[export] Instance kind_eq_dec : EqDecision kind.
Proof. solve_decision. Defined.

(** The number of entries of a root, which is not the same for the guests and the
    host. *)
Class RootPtrs := root_ptrs : Z.
#[export] Instance stage2_root_ptrs : RootPtrs := PTRS_PER_S2_PUD.

Section trees.
Context `{R : RootPtrs}.

Definition ptrs (k : kind) : Z := match k with KRoot => root_ptrs | _ => 512 end.

Definition is_table_addr (a : Z) : Prop := 0 < a < 2 ^ 48 /\ a mod PAGE_SIZE = 0.

(** An entry of a table of kind [k] is empty, a block, or the address of a table
    whose kind is given by its place. *)
Definition entry_ok (own : gmap Z kind) (kd : kind) (e : Z) : Prop :=
  e = 0 \/ stage2_huge e = true
  \/ (stage2_huge e = false /\ exists a, is_table_addr a /\ e = Z.lor a S2_DES_TABLE /\ own !! a = Some kd).

(** The tables reachable from [pgdp] form a tree. *)
Record pt_wf (own : gmap Z kind) (m : table_mem) (pgdp : Z) : Prop := {
  wf_root : own !! pgdp = Some KRoot;
  wf_tables a kd : own !! a = Some kd -> exists l, m !! a = Some l /\ Z.of_nat (length l) = ptrs kd;
  wf_pud i e : 0 <= i -> tread m pgdp i = Some e -> entry_ok own (KPmd i) e;
  wf_pmd a i j e : own !! a = Some (KPmd i) -> 0 <= j -> tread m a j = Some e ->
    entry_ok own (KPte i j) e;
}.

(** The pages of the pool are distinct and not part of the page table. *)
Definition pool_ok (own : gmap Z kind) (pool : list Z) : Prop :=
  NoDup pool /\ Forall (fun p => is_table_addr p /\ own !! p = None) pool.

Definition s2_wf (own : gmap Z kind) (pgdp : Z) (s : s2) : Prop :=
  pt_wf own (s2_mem s) pgdp /\ pool_ok own (s2_pool s).

(** ** Descriptors *)
Lemma land_physical_mask x : Z.land x S2_PHYSICAL_MASK = PAGE_SIZE * (x / PAGE_SIZE mod 2 ^ 36).
Proof.
  change PAGE_SIZE with (2 ^ 12). rewrite Z.mul_comm, <- Z.shiftl_mul_pow2, <- Z.shiftr_div_pow2 by lia.
  rewrite <- Z.land_ones by lia. change S2_PHYSICAL_MASK with (Z.shiftl (Z.ones 36) 12).
  apply Z.bits_inj'. intros n Hn. rewrite Z.land_spec, !Z.shiftl_spec, Z.land_spec by lia.
  destruct (decide (12 <= n)).
  - rewrite Z.shiftr_spec by lia. by replace (n - 12 + 12) with n by lia.
  - by rewrite (Z.testbit_neg_r (Z.ones 36)), !andb_false_r by lia.
Qed.

Lemma land_aligned x k c : 0 <= k -> x mod 2 ^ k = 0 -> 0 <= c < 2 ^ k -> Z.land x c = 0.
Proof.
  intros Hk Hx Hc. rewrite <- (Z.mod_small c (2 ^ k)) by done. rewrite <- Z.land_ones by done.
  rewrite (Z.land_comm c), Z.land_assoc, Z.land_ones, Hx by done. apply Z.land_0_l.
Qed.

Lemma land_phys_aligned a : 0 <= a < 2 ^ 48 -> a mod PAGE_SIZE = 0 -> Z.land a S2_PHYSICAL_MASK = a.
Proof. intros Ha Hm. rewrite land_physical_mask. unfold PAGE_SIZE in *. dlia. Qed.

(** A descriptor made of attribute bits and an aligned address. *)
Lemma desc_fields attr pa :
  Z.land attr S2_PHYSICAL_MASK = 0 -> 0 <= pa < 2 ^ 48 -> pa mod PAGE_SIZE = 0 ->
  Z.land (Z.lor attr pa) S2_PHYSICAL_MASK = pa /\ Z.land (Z.lor attr pa) 3 = Z.land attr 3.
Proof.
  intros Ha Hp Hm. rewrite !Z.land_lor_distr_l, Ha, land_phys_aligned by done.
  split; [apply Z.lor_0_l|]. rewrite (land_aligned pa 12 3) by (done || lia). apply Z.lor_0_r.
Qed.

Lemma table_entry a :
  is_table_addr a ->
  stage2_table_addr (Z.lor a S2_DES_TABLE) = a /\ (Z.lor a S2_DES_TABLE =? 0) = false
  /\ stage2_huge (Z.lor a S2_DES_TABLE) = false.
Proof.
  intros [Hr Hm]. rewrite Z.lor_comm.
  destruct (desc_fields S2_DES_TABLE a) as [H1 H2]; [done|lia|done|].
  split; [exact H1|]. unfold stage2_huge. rewrite H2. split; [|by rewrite andb_false_r].
  apply Z.eqb_neq. intros E. rewrite E in H2. discriminate.
Qed.

Lemma access_attr_fields flags attr :
  Z.land (stage2_access_attr flags attr) S2_PHYSICAL_MASK = Z.land attr S2_PHYSICAL_MASK
  /\ Z.land (stage2_access_attr flags attr) 3 = Z.land attr 3.
Proof.
  unfold stage2_access_attr. cbn zeta.
  repeat case_match; rewrite !Z.land_lor_distr_l; cbn -[Z.lor Z.land];
    repeat match goal with |- context [Z.land ?c ?m] =>
      lazymatch c with attr => fail | _ => change (Z.land c m) with 0 end end;
    by rewrite !Z.lor_0_r.
Qed.

Lemma page_attr_fields flags :
  Z.land (stage2_page_attr flags) S2_PHYSICAL_MASK = 0 /\ Z.land (stage2_page_attr flags) 3 = 3.
Proof.
  unfold stage2_page_attr. cbn zeta. destruct (access_attr_fields flags
    (if Z.land flags VM_TYPE_MASK =? __VM_NORMAL_NC then S2_PAGE_NORMAL_NC
     else if Z.land flags VM_TYPE_MASK =? __VM_IO then S2_PAGE_DEVICE
     else if Z.land flags VM_TYPE_MASK =? __VM_WT then S2_PAGE_WT else S2_PAGE_NORMAL)) as [-> ->].
  by repeat case_match.
Qed.

Lemma block_attr_fields flags :
  Z.land (stage2_block_attr flags) S2_PHYSICAL_MASK = 0 /\ Z.land (stage2_block_attr flags) 3 = 1.
Proof.
  unfold stage2_block_attr. cbn zeta. destruct (access_attr_fields flags
    (if Z.land flags VM_TYPE_MASK =? __VM_NORMAL_NC then S2_BLOCK_NORMAL_NC
     else if Z.land flags VM_TYPE_MASK =? __VM_IO then S2_BLOCK_DEVICE
     else if Z.land flags VM_TYPE_MASK =? __VM_WT then S2_BLOCK_WT else S2_BLOCK_NORMAL)) as [-> ->].
  by repeat case_match.
Qed.

(** ** Tables in memory *)

(** [m'] is [m] with entry [x] of table [a] set to [v]. *)
Definition updated (m m' : table_mem) (a x v : Z) : Prop :=
  (forall b, b <> a -> m' !! b = m !! b)
  /\ (forall l, m !! a = Some l -> exists l', m' !! a = Some l' /\ length l' = length l)
  /\ forall b y, 0 <= y -> tread m' b y = if (b =? a) && (y =? x) then Some v else tread m b y.

Lemma twrite_spec own pgdp s a kd x v :
  pt_wf own (s2_mem s) pgdp -> own !! a = Some kd -> 0 <= x < ptrs kd ->
  exists s', twrite a x v s = Some s' /\ s2_pool s' = s2_pool s
    /\ updated (s2_mem s) (s2_mem s') a x v.
Proof.
  intros Hwf Ho Hx. destruct (wf_tables _ _ _ Hwf _ _ Ho) as (l & E & Hl).
  unfold twrite. rewrite E. msimpl. rewrite Hl.
  rewrite (proj2 (Z.leb_le 0 x)), (proj2 (Z.ltb_lt x (ptrs kd))) by lia. cbn [andb].
  eexists. split; [done|]. split; [done|]. cbn [s2_mem]. split; [|split].
  - intros b Hb. by rewrite lookup_insert_ne.
  - intros l0 E0. exists (<[Z.to_nat x := v]> l). rewrite E in E0. simplify_eq.
    by rewrite lookup_insert_eq, length_insert.
  - intros b y Hy. unfold tread. destruct (Z.eqb_spec b a) as [->|Hb]; cbn [andb].
    + rewrite lookup_insert_eq, E. msimpl. destruct (Z.eqb_spec y x) as [->|Hyx].
      * apply list_lookup_insert_eq. lia.
      * apply list_lookup_insert_ne. lia.
    + by rewrite lookup_insert_ne.
Qed.

Lemma tread_some own m pgdp a kd x :
  pt_wf own m pgdp -> own !! a = Some kd -> 0 <= x < ptrs kd -> exists e, tread m a x = Some e.
Proof.
  intros Hwf Ho Hx. destruct (wf_tables _ _ _ Hwf _ _ Ho) as (l & E & Hl).
  unfold tread. rewrite E. msimpl. apply lookup_lt_is_Some. lia.
Qed.

(** An entry that may be written at index [x] of a table of kind [kd]. *)
Definition writable (own : gmap Z kind) (kd : kind) (x v : Z) : Prop :=
  match kd with
  | KRoot => entry_ok own (KPmd x) v
  | KPmd i => entry_ok own (KPte i x) v
  | KPte _ _ => True
  end.

Lemma pt_wf_updated own m m' pgdp a kd x v :
  pt_wf own m pgdp -> own !! a = Some kd -> updated m m' a x v -> writable own kd x v ->
  pt_wf own m' pgdp.
Proof.
  intros Hwf Ho (H1 & H2 & H3) Hv. pose proof (wf_root _ _ _ Hwf). split; [done| | |].
  - intros b kb Hb. destruct (wf_tables _ _ _ Hwf _ _ Hb) as (l & E & Hl).
    destruct (decide (b = a)) as [->|Hne]; [|exists l; by rewrite H1].
    destruct (H2 l E) as (l' & E' & Hl'). exists l'. by rewrite Hl'.
  - intros i e Hi. rewrite H3 by done. destruct (Z.eqb_spec pgdp a) as [Ea|]; cbn [andb];
      [|by apply (wf_pud _ _ _ Hwf)].
    destruct (Z.eqb_spec i x) as [->|]; [|by apply (wf_pud _ _ _ Hwf)].
    intros [= <-]. subst a. rewrite H in Ho. by simplify_eq.
  - intros b i j e Hb Hj. rewrite H3 by done. destruct (Z.eqb_spec b a) as [Ea|]; cbn [andb];
      [|by apply (wf_pmd _ _ _ Hwf)].
    destruct (Z.eqb_spec j x) as [->|]; [|by apply (wf_pmd _ _ _ Hwf)].
    intros [= <-]. subst b. rewrite Hb in Ho. by simplify_eq.
Qed.

(** Where a table is in the walk. *)
Definition pmd_at (m : table_mem) (pgdp i a : Z) : Prop :=
  exists e, tread m pgdp i = Some e /\ (e =? 0) = false /\ stage2_huge e = false
    /\ stage2_table_addr e = a.
Definition pte_at (m : table_mem) (pgdp i j b : Z) : Prop :=
  exists a e, pmd_at m pgdp i a /\ tread m a j = Some e /\ (e =? 0) = false
    /\ stage2_huge e = false /\ stage2_table_addr e = b.

Lemma entry_table own kd e :
  entry_ok own kd e -> (e =? 0) = false -> stage2_huge e = false ->
  own !! stage2_table_addr e = Some kd.
Proof.
  intros [->|[Hh|(_ & a & Ha & -> & Ho)]] Hz Hn; [done|congruence|].
  by rewrite (proj1 (table_entry a Ha)).
Qed.

Lemma pmd_at_own own m pgdp i a : pt_wf own m pgdp -> 0 <= i -> pmd_at m pgdp i a -> own !! a = Some (KPmd i).
Proof.
  intros Hwf Hi (e & E & Hz & Hn & <-). apply entry_table; try done. by apply (wf_pud _ _ _ Hwf).
Qed.

Lemma pte_at_own own m pgdp i j b :
  pt_wf own m pgdp -> 0 <= i -> 0 <= j -> pte_at m pgdp i j b -> own !! b = Some (KPte i j).
Proof.
  intros Hwf Hi Hj (a & e & Ha & E & Hz & Hn & <-). apply entry_table; try done.
  eapply (wf_pmd _ _ _ Hwf); [|done..]. by eapply pmd_at_own.
Qed.

(** ** The walk after an update *)

(** The pages whose walk can pass through entry [x] of a table of kind [kd]. *)
Definition passes (kd : kind) (x i j k : Z) : bool :=
  match kd with
  | KRoot => i =? x
  | KPmd i' => (i =? i') && (j =? x)
  | KPte i' j' => (i =? i') && (j =? j') && (k =? x)
  end.

Ltac walk_entry Hok :=
  lazymatch goal with
  | |- context [(?e =? 0)] => destruct (e =? 0) eqn:?; [done|]
  end;
  lazymatch goal with
  | |- context [stage2_huge ?e] => destruct (stage2_huge e) eqn:?; [done|]
  end;
  pose proof (entry_table _ _ _ Hok ltac:(eassumption) ltac:(eassumption)).

(** Two memories that agree on the tables of the walk give the same walk. *)
Lemma walk3_agree own m m' pgdp i j k :
  pt_wf own m pgdp -> 0 <= i -> 0 <= j -> 0 <= k ->
  tread m' pgdp i = tread m pgdp i ->
  (forall a, own !! a = Some (KPmd i) -> tread m' a j = tread m a j) ->
  (forall a, own !! a = Some (KPte i j) -> tread m' a k = tread m a k) ->
  walk3 m' pgdp i j k = walk3 m pgdp i j k.
Proof.
  intros Hwf Hi Hj Hk H1 H2 H3. unfold walk3. rewrite H1.
  destruct (tread m pgdp i) as [e|] eqn:E; [|done]. msimpl.
  pose proof (wf_pud _ _ _ Hwf i e Hi E) as Hok. walk_entry Hok. rewrite H2 by done.
  destruct (tread m (stage2_table_addr e) j) as [e'|] eqn:E'; [|done]. msimpl.
  pose proof (wf_pmd _ _ _ Hwf _ i j e' H Hj E') as Hok'. walk_entry Hok'. by rewrite H3.
Qed.

Lemma walk3_updated own m m' pgdp a kd x v i j k :
  pt_wf own m pgdp -> own !! a = Some kd -> updated m m' a x v ->
  (kd = KRoot -> a = pgdp) ->
  0 <= i -> 0 <= j -> 0 <= k -> passes kd x i j k = false ->
  walk3 m' pgdp i j k = walk3 m pgdp i j k.
Proof.
  intros Hwf Ho (_ & _ & H3) Hroot Hi Hj Hk Hp. pose proof (wf_root _ _ _ Hwf) as Hr.
  apply (walk3_agree own); try done.
  - rewrite H3 by done. destruct (Z.eqb_spec pgdp a) as [<-|]; [|done]. cbn.
    rewrite Hr in Ho. simplify_eq. cbn in Hp. by rewrite Hp.
  - intros b Hb. rewrite H3 by done. destruct (Z.eqb_spec b a) as [->|]; [|done]. cbn.
    rewrite Hb in Ho. simplify_eq. cbn in Hp. rewrite Z.eqb_refl in Hp. cbn in Hp. by rewrite Hp.
  - intros b Hb. rewrite H3 by done. destruct (Z.eqb_spec b a) as [->|]; [|done]. cbn.
    rewrite Hb in Ho. simplify_eq. cbn in Hp. rewrite !Z.eqb_refl in Hp. cbn in Hp. by rewrite Hp.
Qed.

(** The walk through a table that is known to be on the path. *)
Lemma walk3_pte m pgdp i j b k :
  pte_at m pgdp i j b ->
  walk3 m pgdp i j k = pte ← tread m b k; Some (if pte =? 0 then Fault else Page pte).
Proof.
  intros (a & e & (e0 & E0 & Hz0 & Hn0 & <-) & E & Hz & Hn & <-).
  unfold walk3. rewrite E0. msimpl. rewrite Hz0, Hn0, E. msimpl. by rewrite Hz, Hn.
Qed.

Lemma walk3_pmd m pgdp i a j k e :
  pmd_at m pgdp i a -> tread m a j = Some e -> (e =? 0) || stage2_huge e = true ->
  walk3 m pgdp i j k = Some (if e =? 0 then Fault else Block e).
Proof.
  intros (e0 & E0 & Hz0 & Hn0 & <-) E Hb. unfold walk3. rewrite E0. msimpl. rewrite Hz0, Hn0, E. msimpl.
  destruct (e =? 0); [done|]. cbn in Hb. by rewrite Hb.
Qed.

Lemma walk3_pud m pgdp i j k e :
  tread m pgdp i = Some e -> (e =? 0) || stage2_huge e = true ->
  walk3 m pgdp i j k = Some (if e =? 0 then Fault else PudBlock e).
Proof.
  intros E Hb. unfold walk3. rewrite E. msimpl. destruct (e =? 0); [done|]. cbn in Hb. by rewrite Hb.
Qed.

(** The tables on the path of a write stay where they are. *)
Lemma pmd_at_updated own m m' pgdp i a b kd x v :
  pt_wf own m pgdp -> own !! b = Some kd -> kd <> KRoot -> updated m m' b x v -> 0 <= i ->
  pmd_at m pgdp i a -> pmd_at m' pgdp i a.
Proof.
  intros Hwf Ho Hk (_ & _ & H3) Hi (e & E & He). exists e. split; [|done]. rewrite H3 by done.
  destruct (Z.eqb_spec pgdp b) as [<-|]; [|done]. rewrite (wf_root _ _ _ Hwf) in Ho. congruence.
Qed.

Lemma pte_at_updated own m m' pgdp i j a i' j' b x v :
  pt_wf own m pgdp -> own !! b = Some (KPte i' j') -> updated m m' b x v -> 0 <= i -> 0 <= j ->
  pte_at m pgdp i j a -> pte_at m' pgdp i j a.
Proof.
  intros Hwf Ho Hu Hi Hj (c & e & Hc & E & He). exists c, e. split; [by eapply pmd_at_updated|].
  split; [|done]. destruct Hu as (_ & _ & H3). rewrite H3 by done.
  pose proof (pmd_at_own _ _ _ _ _ Hwf Hi Hc). destruct (Z.eqb_spec c b) as [->|]; [congruence|done].
Qed.

(** ** A new table *)
Lemma entry_ok_mono own own' kd e : own ⊆ own' -> entry_ok own kd e -> entry_ok own' kd e.
Proof.
  intros Hs [H|[H|(Hh & a & Ha & He & Ho)]]; [by left|by right; left|].
  right; right. split; [done|]. exists a. split; [done|]. split; [done|]. by eapply lookup_weaken.
Qed.

Lemma tread_zero p m x : 0 <= x < 512 -> tread (<[p := replicate 512 0]> m) p x = Some 0.
Proof.
  intros Hx. unfold tread. rewrite lookup_insert_eq. msimpl. apply lookup_replicate. split; [done|lia].
Qed.

Lemma tread_zero_inv p m x e : tread (<[p := replicate 512 0]> m) p x = Some e -> e = 0.
Proof. unfold tread. rewrite lookup_insert_eq. msimpl. intros H. by apply lookup_replicate in H as [-> _]. Qed.

Lemma tread_new_ne p (l : list Z) m a x : a <> p -> tread (<[p := l]> m) a x = tread m a x.
Proof. intros H. unfold tread. by rewrite lookup_insert_ne. Qed.

Lemma pt_wf_new own m pgdp p kd :
  pt_wf own m pgdp -> own !! p = None -> kd <> KRoot ->
  pt_wf (<[p := kd]> own) (<[p := replicate 512 0]> m) pgdp.
Proof.
  intros Hwf Hp Hk. pose proof (wf_root _ _ _ Hwf) as Hr.
  assert (own ⊆ <[p := kd]> own) as Hs by by apply insert_subseteq.
  assert (pgdp <> p) by congruence. split.
  - by rewrite lookup_insert_ne.
  - intros a k. destruct (decide (a = p)) as [->|].
    + rewrite lookup_insert_eq. intros [= <-]. eexists. rewrite lookup_insert_eq. split; [done|].
      rewrite length_replicate. by destruct kd.
    + rewrite !lookup_insert_ne by done. apply (wf_tables _ _ _ Hwf).
  - intros i e Hi. rewrite tread_new_ne by done. intros E.
    eapply entry_ok_mono; [done|]. by apply (wf_pud _ _ _ Hwf).
  - intros a i j e. destruct (decide (a = p)) as [->|].
    + intros _ _ E. left. by eapply tread_zero_inv.
    + rewrite lookup_insert_ne, tread_new_ne by done. intros Ha Hj E.
      eapply entry_ok_mono; [done|]. by eapply (wf_pmd _ _ _ Hwf).
Qed.

Lemma walk3_new own m pgdp p kd i j k :
  pt_wf own m pgdp -> own !! p = None -> 0 <= i -> 0 <= j -> 0 <= k ->
  walk3 (<[p := kd]> m) pgdp i j k = walk3 m pgdp i j k.
Proof.
  intros Hwf Hp Hi Hj Hk. apply (walk3_agree own); try done.
  - apply tread_new_ne. intros ->. pose proof (wf_root _ _ _ Hwf). congruence.
  - intros a Ha. apply tread_new_ne. congruence.
  - intros a Ha. apply tread_new_ne. congruence.
Qed.

Definition child (kd : kind) (x : Z) : kind :=
  match kd with KRoot => KPmd x | KPmd i => KPte i x | KPte i j => KPte i j end.

(** Adding an empty table below entry [x] of table [a]. *)
Lemma populate_spec own pgdp s p pool a kd x :
  s2_wf own pgdp s -> s2_pool s = p :: pool -> own !! a = Some kd -> 0 <= x < ptrs kd ->
  exists s1 s2, get_zeroed_page s = Some (p, s1) /\ stage2_populate a x p s1 = Some s2
    /\ own ⊆ <[p := child kd x]> own /\ s2_wf (<[p := child kd x]> own) pgdp s2
    /\ s2_pool s2 = pool /\ is_table_addr p /\ own !! p = None
    /\ updated (<[p := replicate 512 0]> (s2_mem s)) (s2_mem s2) a x (Z.lor p S2_DES_TABLE).
Proof.
  intros [Hwf [Hnd Hpool]] Hp Ho Hx. unfold get_zeroed_page. rewrite Hp in *.
  apply Forall_cons_1 in Hpool as [[Hta Hnone] Hpool]. apply list.NoDup_cons in Hnd as [Hnin Hnd].
  assert (own ⊆ <[p := child kd x]> own) as Hs by by apply insert_subseteq.
  assert (pt_wf (<[p := child kd x]> own) (<[p := replicate 512 0]> (s2_mem s)) pgdp) as Hwf1.
  { apply pt_wf_new; [done..|]. by destruct kd. }
  set (s1 := mk_s2 (<[p := replicate 512 0]> (s2_mem s)) pool).
  destruct (twrite_spec _ pgdp s1 a kd x (Z.lor p S2_DES_TABLE) Hwf1) as (s2 & E2 & Hp2 & Hu);
    [by eapply lookup_weaken|done|].
  exists s1, s2. split; [done|]. split; [done|]. split; [done|]. split; [split|].
  - eapply pt_wf_updated; [exact Hwf1|by eapply lookup_weaken|done|].
    destruct (table_entry p Hta) as (_ & _ & Hh).
    destruct kd; cbn; [| |done]; right; right; (split; [done|]); exists p;
      (split; [done|]); (split; [done|]); apply lookup_insert_eq.
  - rewrite Hp2. split; [done|]. apply list.Forall_forall. intros q Hq.
    rewrite list.Forall_forall in Hpool. destruct (Hpool q Hq) as [Hq1 Hq2]. split; [done|].
    rewrite lookup_insert_ne; [done|]. by intros ->.
  - by rewrite Hp2.
Qed.

Lemma populate_pmd_walk own pgdp m m2 p i a x :
  pt_wf own m pgdp -> own !! p = None -> is_table_addr p -> 0 <= i -> 0 <= x ->
  pmd_at m pgdp i a -> tread m a x = Some 0 ->
  updated (<[p := replicate 512 0]> m) m2 a x (Z.lor p S2_DES_TABLE) ->
  pmd_at m2 pgdp i a /\ pte_at m2 pgdp i x p
  /\ forall i' j k, 0 <= i' -> 0 <= j -> 0 <= k < 512 -> walk3 m2 pgdp i' j k = walk3 m pgdp i' j k.
Proof.
  intros Hwf Hp Hta Hi Hx Hat E Hu. pose proof (pmd_at_own _ _ _ _ _ Hwf Hi Hat) as Ho.
  pose proof (wf_root _ _ _ Hwf) as Hr. destruct (table_entry p Hta) as (T1 & T2 & T3).
  assert (pt_wf (<[p := KPte i x]> own) (<[p := replicate 512 0]> m) pgdp) as Hwf1
    by by apply pt_wf_new.
  assert ((<[p := KPte i x]> own) !! a = Some (KPmd i)) as Ho1 by (rewrite lookup_insert_ne; congruence).
  assert (pmd_at (<[p := replicate 512 0]> m) pgdp i a) as Hat1.
  { destruct Hat as (e & He & Hrest). exists e. split; [|done]. rewrite tread_new_ne; [done|congruence]. }
  assert (pmd_at m2 pgdp i a) as Hat2 by by eapply pmd_at_updated.
  assert (pte_at m2 pgdp i x p) as Hpte.
  { exists a, (Z.lor p S2_DES_TABLE). split; [done|]. destruct Hu as (_ & _ & H3).
    rewrite H3, !Z.eqb_refl by done. done. }
  split; [done|]. split; [done|]. intros i' j k Hi' Hj Hk.
  destruct (passes (KPmd i) x i' j k) eqn:Hpass.
  - cbn in Hpass. assert (i' = i) as -> by lia. assert (j = x) as -> by lia.
    rewrite (walk3_pte _ _ _ _ _ _ Hpte), (walk3_pmd _ _ _ _ _ _ _ Hat E) by done.
    destruct Hu as (H1 & _). unfold tread. rewrite H1 by congruence.
    fold (tread (<[p := replicate 512 0]> m) p k). by rewrite tread_zero.
  - rewrite (walk3_updated _ _ _ _ _ _ _ _ _ _ _ Hwf1 Ho1 Hu) by (done || lia).
    by rewrite (walk3_new own) by (done || lia).
Qed.

Lemma populate_pud_walk own pgdp m m2 p x :
  pt_wf own m pgdp -> own !! p = None -> is_table_addr p -> 0 <= x ->
  tread m pgdp x = Some 0 ->
  updated (<[p := replicate 512 0]> m) m2 pgdp x (Z.lor p S2_DES_TABLE) ->
  pmd_at m2 pgdp x p
  /\ forall i j k, 0 <= i -> 0 <= j < 512 -> 0 <= k -> walk3 m2 pgdp i j k = walk3 m pgdp i j k.
Proof.
  intros Hwf Hp Hta Hx E Hu. pose proof (wf_root _ _ _ Hwf) as Hr.
  destruct (table_entry p Hta) as (T1 & T2 & T3).
  assert (pt_wf (<[p := KPmd x]> own) (<[p := replicate 512 0]> m) pgdp) as Hwf1
    by by apply pt_wf_new.
  assert ((<[p := KPmd x]> own) !! pgdp = Some KRoot) as Ho1 by (rewrite lookup_insert_ne; congruence).
  assert (pmd_at m2 pgdp x p) as Hat.
  { exists (Z.lor p S2_DES_TABLE). destruct Hu as (_ & _ & H3). rewrite H3, !Z.eqb_refl by done. done. }
  split; [done|]. intros i j k Hi Hj Hk. destruct (passes KRoot x i j k) eqn:Hpass.
  - cbn in Hpass. assert (i = x) as -> by lia. rewrite (walk3_pud m _ _ _ _ 0 E) by done.
    rewrite (walk3_pmd m2 pgdp x p j k 0); [done|done| |done].
    destruct Hu as (H1 & _). unfold tread. rewrite H1 by congruence.
    fold (tread (<[p := replicate 512 0]> m) p j). by rewrite tread_zero.
  - rewrite (walk3_updated _ _ _ _ _ _ _ _ _ _ _ Hwf1 Ho1 Hu) by (done || lia).
    by rewrite (walk3_new own) by (done || lia).
Qed.

(** ** Ranges of pages *)
Lemma addr_end_pages st e k :
  12 <= k <= 30 -> 0 <= st < e -> e <= NR_PAGES ->
  let n := 2 ^ (k - 12) in
  stage2_xxx_addr_end (PAGE_SIZE * st) (PAGE_SIZE * e) (2 ^ k)
  = PAGE_SIZE * Z.min (n * (st / n + 1)) e.
Proof.
  intros Hk Hs He n. unfold stage2_xxx_addr_end, NR_PAGES in *. change PAGE_SIZE with (2 ^ 12).
  assert (2 ^ k = 2 ^ 12 * n) as E.
  { unfold n. rewrite <- Z.pow_add_r by lia. f_equal. lia. }
  assert (0 < n <= 2 ^ 18) as Hn.
  { unfold n. split; [apply Z.pow_pos_nonneg; lia|apply Z.pow_le_mono_r; lia]. }
  rewrite (u64_small (2 ^ 12 * st + 2 ^ k)), land_not64_pow2 by lia. rewrite E.
  replace ((2 ^ 12 * st + 2 ^ 12 * n) / (2 ^ 12 * n)) with (st / n + 1).
  2:{ rewrite <- Z.mul_add_distr_l, Z.div_mul_cancel_l by lia.
      replace (st + n) with (st + 1 * n) by lia. by rewrite Z.div_add by lia. }
  set (q := st / n). assert (n * q <= st < n * q + n) as Hq by (unfold q; dlia).
  rewrite !u64_small by lia.
  destruct (Z.ltb_spec (2 ^ 12 * n * (q + 1) - 1) (2 ^ 12 * e - 1)); lia.
Qed.

Lemma pmd_addr_end st e :
  0 <= st < e -> e <= NR_PAGES ->
  stage2_xxx_addr_end (PAGE_SIZE * st) (PAGE_SIZE * e) S2_PMD_SIZE
  = PAGE_SIZE * Z.min (512 * (st / 512 + 1)) e.
Proof. intros. by apply (addr_end_pages st e 21). Qed.

Lemma pud_addr_end st e :
  0 <= st < e -> e <= NR_PAGES ->
  stage2_xxx_addr_end (PAGE_SIZE * st) (PAGE_SIZE * e) S2_PUD_SIZE
  = PAGE_SIZE * Z.min (2 ^ 18 * (st / 2 ^ 18 + 1)) e.
Proof. intros. by apply (addr_end_pages st e 30). Qed.

Lemma page_indices st :
  0 <= st < NR_PAGES ->
  stage2_pud_index (PAGE_SIZE * st) = st / 2 ^ 18
  /\ stage2_pmd_index (PAGE_SIZE * st) = st / 512 mod 512
  /\ stage2_pte_index (PAGE_SIZE * st) = st mod 512.
Proof.
  intros Hs. unfold stage2_pud_index, stage2_pmd_index, stage2_pte_index, NR_PAGES, PAGE_SIZE in *.
  unfold S2_PUD_SHIFT, S2_PMD_SHIFT, S2_PTE_SHIFT. rewrite !Z.shiftr_div_pow2 by lia.
  change (PTRS_PER_S2_PUD - 1) with (2 ^ 10 - 1). change (PTRS_PER_S2_PMD - 1) with (2 ^ 9 - 1).
  change (PTRS_PER_S2_PTE - 1) with (2 ^ 9 - 1). rewrite !land_pow_pred by lia. dlia.
Qed.

(** The pages [st, x) of [m'] have a leaf that is right, by [ok], for the physical
    memory from [phys] on; all other pages are as in [m]. *)
Definition mapped_by (ok : Z -> Z -> option leaf -> Prop) (m m' : table_mem) (pgdp st x phys : Z) : Prop :=
  forall pg, 0 <= pg < NR_PAGES ->
    if (st <=? pg) && (pg <? x) then ok pg (phys + PAGE_SIZE * (pg - st)) (walk m' pgdp pg)
    else walk m' pgdp pg = walk m pgdp pg.

Lemma mapped_by_nil ok m m' pgdp st phys :
  (forall pg, 0 <= pg < NR_PAGES -> walk m' pgdp pg = walk m pgdp pg) -> mapped_by ok m m' pgdp st st phys.
Proof. intros H pg Hpg. destruct (Z.leb_spec st pg), (Z.ltb_spec pg st); cbn; [lia|by apply H..]. Qed.

Lemma mapped_by_trans ok m m1 m2 pgdp st mid x phys :
  st <= mid <= x ->
  mapped_by ok m m1 pgdp st mid phys ->
  mapped_by ok m1 m2 pgdp mid x (phys + PAGE_SIZE * (mid - st)) ->
  mapped_by ok m m2 pgdp st x phys.
Proof.
  intros Hm H1 H2 pg Hpg. specialize (H1 pg Hpg). specialize (H2 pg Hpg). revert H1 H2.
  destruct (Z.leb_spec st pg), (Z.ltb_spec pg x), (Z.ltb_spec pg mid), (Z.leb_spec mid pg);
    cbn; intros H1' H2'; try lia; try congruence.
  by replace (phys + PAGE_SIZE * (pg - st))
      with (phys + PAGE_SIZE * (mid - st) + PAGE_SIZE * (pg - mid)) by lia.
Qed.

(** The same range of pages seen from a memory with the same walks. *)
Lemma mapped_by_same ok m m0 m' pgdp st x phys :
  (forall pg, 0 <= pg < NR_PAGES -> walk m0 pgdp pg = walk m pgdp pg) ->
  mapped_by ok m0 m' pgdp st x phys -> mapped_by ok m m' pgdp st x phys.
Proof.
  intros H H1 pg Hpg. specialize (H1 pg Hpg). destruct (_ && _); [done|]. by rewrite H1, H.
Qed.

Lemma mapped_by_mono (ok ok' : Z -> Z -> option leaf -> Prop) m m' pgdp st x phys :
  (forall pg pa lf, ok pg pa lf -> ok' pg pa lf) -> mapped_by ok m m' pgdp st x phys -> mapped_by ok' m m' pgdp st x phys.
Proof. intros H H1 pg Hpg. specialize (H1 pg Hpg). destruct (_ && _); [by apply H|done]. Qed.

(** Mapped with the attributes of [flags]. *)
Definition mapped_range (m m' : table_mem) (pgdp st x phys flags : Z) : Prop :=
  mapped_by (fun pg pa lf => mapped_as lf flags pg pa) m m' pgdp st x phys.

Lemma walk_same m m' pgdp :
  (forall i j k, 0 <= i -> 0 <= j < 512 -> 0 <= k < 512 -> walk3 m' pgdp i j k = walk3 m pgdp i j k) ->
  forall pg, 0 <= pg < NR_PAGES -> walk m' pgdp pg = walk m pgdp pg.
Proof. intros H pg Hpg. unfold walk, NR_PAGES in *. apply H; dlia. Qed.

(** Attributes of a page descriptor, and the leaf they make. *)
Definition page_attr (attr : Z) : Prop := Z.land attr S2_PHYSICAL_MASK = 0 /\ Z.land attr 3 = 3.
Definition page_leaf (attr pg pa : Z) (lf : option leaf) : Prop := lf = Some (Page (Z.lor attr pa)).

Lemma page_desc_gen attr pa : page_attr attr -> 0 <= pa < 2 ^ 48 -> pa mod PAGE_SIZE = 0 -> (Z.lor attr pa =? 0) = false.
Proof.
  intros [H1 H2] Hp Hm. destruct (desc_fields _ pa H1 Hp Hm) as [H3 H4].
  apply Z.eqb_neq. intros E. rewrite E, H2 in H4. discriminate.
Qed.

(** Writing one third level entry maps one page. *)
Lemma pte_write_walk own pgdp s s' b st attr phys :
  s2_wf own pgdp s -> 0 <= st < NR_PAGES ->
  pte_at (s2_mem s) pgdp (st / 2 ^ 18) (st / 512 mod 512) b ->
  page_attr attr -> 0 <= phys < 2 ^ 48 -> phys mod PAGE_SIZE = 0 ->
  s2_pool s' = s2_pool s -> updated (s2_mem s) (s2_mem s') b (st mod 512) (Z.lor attr phys) ->
  s2_wf own pgdp s' /\ pte_at (s2_mem s') pgdp (st / 2 ^ 18) (st / 512 mod 512) b
  /\ mapped_by (page_leaf attr) (s2_mem s) (s2_mem s') pgdp st (st + 1) phys.
Proof.
  intros [Hwf Hpool] Hs Hat Hattr Hp Hpm Hps Hu. unfold NR_PAGES in *.
  assert (own !! b = Some (KPte (st / 2 ^ 18) (st / 512 mod 512))) as Ho by (eapply pte_at_own; [done|dlia|dlia|done]).
  assert (pte_at (s2_mem s') pgdp (st / 2 ^ 18) (st / 512 mod 512) b) as Hat' by (eapply pte_at_updated; try done; dlia).
  split; [split; [|by rewrite Hps]; by eapply pt_wf_updated|]. split; [done|].
  intros pg Hpg. unfold NR_PAGES in *.
  replace ((st <=? pg) && (pg <? st + 1)) with (pg =? st) by lia.
  destruct (Z.eqb_spec pg st) as [->|Hne].
  - unfold page_leaf, walk. rewrite (walk3_pte _ _ _ _ _ _ Hat'). destruct Hu as (_ & _ & H3).
    rewrite H3, !Z.eqb_refl by dlia. cbn [andb]. msimpl. rewrite page_desc_gen by done. do 3 f_equal. lia.
  - unfold walk. eapply walk3_updated; [exact Hwf|exact Ho|exact Hu|done|dlia|dlia|dlia|].
    cbn. dlia.
Qed.

(** ** The mapping loops *)
Lemma map_pte_loop_spec own pgdp b attr i j fuel : page_attr attr -> forall st nx phys s,
  s2_wf own pgdp s -> pte_at (s2_mem s) pgdp i j b ->
  0 <= st < nx -> nx <= NR_PAGES -> i = st / 2 ^ 18 -> j = st / 512 mod 512 ->
  nx <= 512 * (st / 512 + 1) -> nx - st <= Z.of_nat fuel ->
  0 <= phys -> phys mod PAGE_SIZE = 0 -> phys + PAGE_SIZE * (nx - st) <= 2 ^ 48 ->
  exists s', map_pte_loop fuel b (st mod 512) (PAGE_SIZE * st) (PAGE_SIZE * nx) phys
               attr s = Some s'
    /\ s2_wf own pgdp s' /\ s2_pool s' = s2_pool s
    /\ (forall a, a <> b -> s2_mem s' !! a = s2_mem s !! a)
    /\ mapped_by (page_leaf attr) (s2_mem s) (s2_mem s') pgdp st nx phys.
Proof.
  intros Hattr. induction fuel as [|fuel IH]; intros st nx phys s Hwf Hat Hst Hnx Hi Hj Hend Hfuel Hp Hpm Hpe; [lia|].
  unfold NR_PAGES in *.
  assert (own !! b = Some (KPte i j)) as Ho by (subst; eapply pte_at_own; [apply Hwf|dlia|dlia|done]).
  assert (0 <= st mod 512 < ptrs (KPte i j)) as Hk by (cbn; dlia).
  destruct (tread_some _ _ _ _ _ _ (proj1 Hwf) Ho Hk) as (old & Eold).
  destruct (twrite_spec _ _ s b _ (st mod 512) (Z.lor attr phys) (proj1 Hwf) Ho Hk)
    as (s1 & E1 & Hp1 & Hu).
  destruct (pte_write_walk own pgdp s s1 b st attr phys Hwf) as (Hwf1 & Hat1 & Hm1);
    [unfold NR_PAGES; lia|by subst|done|unfold PAGE_SIZE in *; lia|done|done|done|].
  cbn [map_pte_loop]. rewrite Eold. msimpl. rewrite E1. msimpl.
  assert (u64 (PAGE_SIZE * st + PAGE_SIZE) = PAGE_SIZE * (st + 1)) as ->.
  { rewrite u64_small; unfold PAGE_SIZE; lia. }
  destruct (Z.eqb_spec (PAGE_SIZE * (st + 1)) (PAGE_SIZE * nx)) as [E|E].
  - assert (nx = st + 1) as -> by (unfold PAGE_SIZE in *; lia). exists s1. split; [done|]. split; [done|].
    split; [done|]. split; [|done]. apply Hu.
  - assert (st + 1 < nx) by (unfold PAGE_SIZE in *; lia).
    assert (st mod 512 + 1 = (st + 1) mod 512) as -> by dlia.
    rewrite u64_small by (unfold PAGE_SIZE in *; lia).
    destruct (IH (st + 1) nx (phys + PAGE_SIZE) s1) as (s2 & E2 & Hwf2 & Hp2 & Hf2 & Hm2);
      [done|by subst|lia|lia|dlia|dlia|dlia|lia|unfold PAGE_SIZE; lia| |unfold PAGE_SIZE in *; lia|].
    { unfold PAGE_SIZE in *. dlia. }
    exists s2. split; [done|]. split; [done|]. split; [congruence|]. split.
    + intros a Ha. rewrite Hf2 by done. by apply Hu.
    + eapply (mapped_by_trans _ _ _ _ _ st (st + 1)); [lia|exact Hm1|].
      replace (phys + PAGE_SIZE * (st + 1 - st)) with (phys + PAGE_SIZE) by lia. done.
Qed.

(** Attributes of a block descriptor, and the leaf they make; a block is only used
    where both sides have the same offset in it. *)
Definition block_attr (attr : Z) : Prop := Z.land attr S2_PHYSICAL_MASK = 0 /\ Z.land attr 3 = 1.
Definition block_leaf (attr pg pa : Z) (lf : option leaf) : Prop :=
  (pa - PAGE_SIZE * pg) mod S2_PMD_SIZE = 0 /\ lf = Some (Block (Z.lor attr (S2_PMD_SIZE * (pa / S2_PMD_SIZE)))).

Lemma block_desc_gen attr pa :
  block_attr attr -> 0 <= pa < 2 ^ 48 -> pa mod PAGE_SIZE = 0 -> stage2_huge (Z.lor attr pa) = true /\ (Z.lor attr pa =? 0) = false.
Proof.
  intros [H1 H2] Hp Hm. destruct (desc_fields _ pa H1 Hp Hm) as [H3 H4].
  assert ((Z.lor attr pa =? 0) = false) as E by (apply Z.eqb_neq; intros E; rewrite E, H2 in H4; discriminate).
  split; [|done]. unfold stage2_huge. by rewrite E, H4, H2.
Qed.

Lemma block_write_walk own pgdp s s' a st attr phys :
  s2_wf own pgdp s -> 0 <= st -> st + 512 <= NR_PAGES -> st mod 512 = 0 ->
  pmd_at (s2_mem s) pgdp (st / 2 ^ 18) a ->
  0 <= phys < 2 ^ 47 -> phys mod S2_PMD_SIZE = 0 ->
  block_attr attr ->
  s2_pool s' = s2_pool s ->
  updated (s2_mem s) (s2_mem s') a (st / 512 mod 512) (Z.lor attr phys) ->
  s2_wf own pgdp s' /\ mapped_by (block_leaf attr) (s2_mem s) (s2_mem s') pgdp st (st + 512) phys.
Proof.
  intros [Hwf Hpool] Hs He Hal Hat Hp Hpm Hfl Hps Hu. unfold NR_PAGES, S2_PMD_SIZE in *.
  assert (0 <= st / 2 ^ 18) as Hi by dlia. pose proof (pmd_at_own _ _ _ _ _ Hwf Hi Hat) as Ho.
  destruct (block_desc_gen attr phys) as [Hh Hz]; [done|lia|unfold PAGE_SIZE; dlia|].
  assert (pmd_at (s2_mem s') pgdp (st / 2 ^ 18) a) as Hat' by (eapply pmd_at_updated; try done; dlia).
  split.
  { split; [|by rewrite Hps]. eapply pt_wf_updated; try done. cbn. right; left. done. }
  intros pg Hpg. unfold NR_PAGES in *. destruct ((st <=? pg) && (pg <? st + 512)) eqn:E.
  - split; [unfold PAGE_SIZE, S2_PMD_SIZE; dlia|]. unfold walk. assert (pg / 2 ^ 18 = st / 2 ^ 18) as -> by dlia.
    assert (pg / 512 mod 512 = st / 512 mod 512) as -> by dlia.
    erewrite walk3_pmd; [|exact Hat'| |].
    2:{ destruct Hu as (_ & _ & H3). rewrite H3, !Z.eqb_refl by dlia. reflexivity. }
    2:{ by rewrite Hh, orb_true_r. }
    rewrite Hz. do 3 f_equal. unfold PAGE_SIZE, S2_PMD_SIZE. dlia.
  - unfold walk. eapply walk3_updated; [exact Hwf|exact Ho|exact Hu|done|dlia|dlia|dlia|]. cbn. dlia.
Qed.

End trees.

Lemma map_pte_range_spec own pgdp b flags st nx phys s :
  s2_wf own pgdp s -> pte_at (s2_mem s) pgdp (st / 2 ^ 18) (st / 512 mod 512) b ->
  0 <= st < nx -> nx <= NR_PAGES -> nx <= 512 * (st / 512 + 1) ->
  0 <= phys -> phys mod PAGE_SIZE = 0 -> phys + PAGE_SIZE * (nx - st) <= 2 ^ 48 ->
  exists s', stage2_map_pte_range b (PAGE_SIZE * st) (PAGE_SIZE * nx) phys flags s = Some (0, s')
    /\ s2_wf own pgdp s' /\ s2_pool s' = s2_pool s
    /\ (forall a, a <> b -> s2_mem s' !! a = s2_mem s !! a)
    /\ mapped_range (s2_mem s) (s2_mem s') pgdp st nx phys flags.
Proof.
  intros Hwf Hat Hst Hnx Hend Hp Hpm Hpe. unfold stage2_map_pte_range.
  destruct (page_indices st) as (_ & _ & ->); [lia|].
  destruct (map_pte_loop_spec own pgdp b (stage2_page_attr flags) _ _ 513 (page_attr_fields flags) st nx phys s Hwf Hat)
    as (s' & -> & H1 & H2 & H3 & H4); [done|done|done|done|done|dlia|done..|]. msimpl. exists s'. do 4 (split; [done|]).
  revert H4. apply mapped_by_mono. intros pg pa lf H. by left.
Qed.

(** What a mapping step or loop for the pages [st, e) returns: it stops at page
    [x], which is [e] on success; on failure [x] is already part of a block, or
    there was no page for a table. *)
Definition map_result (own : gmap Z kind) (pgdp : Z) (s : s2) (st e phys flags : Z)
    (res : option (Z * s2)) : Prop :=
  exists r s' own' x, res = Some (r, s') /\ own ⊆ own' /\ s2_wf own' pgdp s'
    /\ st <= x <= e
    /\ mapped_range (s2_mem s) (s2_mem s') pgdp st x phys flags
    /\ ((r = 0 /\ x = e)
        \/ (x < e /\ r = - EINVAL
            /\ exists d, walk (s2_mem s') pgdp x = Some (Block d) \/ walk (s2_mem s') pgdp x = Some (PudBlock d))
        \/ (x < e /\ r = - ENOMEM /\ s2_pool s' = [])).

(** A mapping below one first level entry leaves the first level alone. *)
Definition map_below (own : gmap Z kind) (pgdp : Z) (s : s2) (st e phys flags : Z)
    (res : option (Z * s2)) : Prop :=
  map_result own pgdp s st e phys flags res
  /\ forall r s', res = Some (r, s') -> s2_mem s' !! pgdp = s2_mem s !! pgdp.

Lemma pmd_huge_page_true old st nx phys flags :
  0 <= st < nx -> nx <= NR_PAGES -> nx <= 512 * (st / 512 + 1) ->
  stage2_pmd_huge_page old (PAGE_SIZE * st) phys (u64 (PAGE_SIZE * nx - PAGE_SIZE * st)) flags = true ->
  old = 0 /\ nx = st + 512 /\ st mod 512 = 0 /\ phys mod S2_PMD_SIZE = 0
  /\ Z.land flags (Z.lor __VM_HUGE_2M __VM_HUGE_1G) <> 0.
Proof.
  intros Hst Hnx Hend. unfold stage2_pmd_huge_page.
  destruct (_ || negb (old =? 0)) eqn:E; [done|]. intros H.
  assert (Hf : (Z.land flags (Z.lor __VM_HUGE_2M __VM_HUGE_1G) =? 0) = false) by (by destruct (Z.land flags (Z.lor __VM_HUGE_2M __VM_HUGE_1G) =? 0)).
  apply Z.eqb_neq in Hf.
  assert (old = 0) as -> by (destruct (Z.eqb_spec old 0); [done|]; by rewrite orb_true_r in E).
  rewrite !negb_orb, !negb_involutive in H. apply andb_true_iff in H as [H H3].
  apply andb_true_iff in H as [H1 H2]. rewrite IS_BLOCK_ALIGN_true in H1, H2, H3.
  unfold NR_PAGES in *. rewrite u64_small in H3 by (unfold PAGE_SIZE; lia).
  unfold PAGE_SIZE, BLOCK_SIZE, S2_PMD_SIZE in *. split; [done|]. dlia.
Qed.

Lemma map_below_stop own pgdp s st e phys flags r :
  s2_wf own pgdp s -> st < e ->
  (r = - EINVAL /\ (exists d, walk (s2_mem s) pgdp st = Some (Block d))
   \/ r = - ENOMEM /\ s2_pool s = []) ->
  map_below own pgdp s st e phys flags (Some (r, s)).
Proof.
  intros Hwf Hst Hr. split; [|by intros ? ? [= <- <-]].
  exists r, s, own, st. split; [done|]. split; [done|]. split; [done|]. split; [lia|].
  split; [by apply mapped_by_nil|]. right.
  destruct Hr as [[-> [d Hd]]|[-> Hp]]; [left; eauto|by right].
Qed.

Lemma map_below_pte own own' pgdp s s1 b flags st nx phys :
  own ⊆ own' -> s2_wf own' pgdp s1 -> s2_mem s1 !! pgdp = s2_mem s !! pgdp ->
  (forall pg, 0 <= pg < NR_PAGES -> walk (s2_mem s1) pgdp pg = walk (s2_mem s) pgdp pg) ->
  pte_at (s2_mem s1) pgdp (st / 2 ^ 18) (st / 512 mod 512) b ->
  0 <= st < nx -> nx <= NR_PAGES -> nx <= 512 * (st / 512 + 1) ->
  0 <= phys -> phys mod PAGE_SIZE = 0 -> phys + PAGE_SIZE * (nx - st) <= 2 ^ 47 ->
  map_below own pgdp s st nx phys flags
    (stage2_map_pte_range b (PAGE_SIZE * st) (PAGE_SIZE * nx) phys flags s1).
Proof.
  intros Hs Hwf1 Hroot Hsame Hat Hst Hnx Hend Hp Hpm Hpe. unfold NR_PAGES in *.
  destruct (map_pte_range_spec own' pgdp b flags st nx phys s1 Hwf1 Hat) as (s2 & -> & Hwf2 & Hp2 & Hf & Hm);
    [done..|lia|].
  assert (own' !! b = Some (KPte (st / 2 ^ 18) (st / 512 mod 512))) as Hob
    by (eapply pte_at_own; [apply Hwf1|dlia|dlia|done]).
  split.
  - exists 0, s2, own', nx. split; [done|]. split; [done|]. split; [done|]. split; [lia|].
    split; [by eapply mapped_by_same|]. by left.
  - intros r s' [= <- <-]. rewrite Hf; [done|]. intros ->.
    rewrite (wf_root _ _ _ (proj1 Hwf1)) in Hob. congruence.
Qed.

Lemma map_pmd_entry_spec own pgdp a flags st nx phys s :
  s2_wf own pgdp s -> pmd_at (s2_mem s) pgdp (st / 2 ^ 18) a ->
  0 <= st < nx -> nx <= NR_PAGES -> nx <= 512 * (st / 512 + 1) ->
  0 <= phys -> phys mod PAGE_SIZE = 0 -> phys + PAGE_SIZE * (nx - st) <= 2 ^ 47 ->
  map_below own pgdp s st nx phys flags
    (map_pmd_entry a (st / 512 mod 512) (PAGE_SIZE * st) (PAGE_SIZE * nx) phys flags s).
Proof.
  intros Hwf Hat Hst Hnx Hend Hp Hpm Hpe. unfold map_pmd_entry.
  assert (0 <= st / 2 ^ 18) as Hi by dlia. assert (0 <= st / 512 mod 512 < 512) as Hj by dlia.
  pose proof (pmd_at_own _ _ _ _ _ (proj1 Hwf) Hi Hat) as Ho.
  pose proof (wf_root _ _ _ (proj1 Hwf)) as Hr.
  destruct (tread_some _ _ _ _ _ (st / 512 mod 512) (proj1 Hwf) Ho Hj) as (old & Eold).
  rewrite Eold. msimpl. destruct (stage2_pmd_huge_page _ _ _ _ _) eqn:Ehuge.
  - destruct (pmd_huge_page_true _ _ _ _ _ Hst Hnx Hend Ehuge) as (-> & -> & Hal & Hpa & Hfl).
    unfold S2_PMD_SIZE, PAGE_SIZE in *.
    assert (Z.land phys S2_PMD_MASK = phys) as ->.
    { unfold S2_PMD_MASK, S2_PMD_SIZE. rewrite land_not64_pow2 by lia. dlia. }
    destruct (twrite_spec _ _ s a _ (st / 512 mod 512) (Z.lor (stage2_block_attr flags) phys) (proj1 Hwf) Ho Hj)
      as (s1 & -> & Hp1 & Hu). msimpl.
    destruct (block_write_walk own pgdp s s1 a st (stage2_block_attr flags) phys) as [Hwf1 Hm]; try (done || lia || apply block_attr_fields).
    split; [|intros r s' [= <- <-]; apply Hu; congruence].
    exists 0, s1, own, (st + 512). split; [done|]. split; [done|]. split; [done|]. split; [lia|].
    split; [|by left]. revert Hm. apply mapped_by_mono. intros pg pa lf [H1 H2]. by right; left.
  - destruct (Z.eqb_spec old 0) as [->|Hold]; cbn [negb andb].
    + change (stage2_none 0) with true. cbn iota.
      destruct (s2_pool s) as [|p pool] eqn:Epool.
      { unfold get_zeroed_page. rewrite Epool. apply map_below_stop; [done|lia|by right]. }
      destruct (populate_spec own pgdp s p pool a _ _ Hwf Epool Ho Hj)
        as (s1 & s2 & -> & E2 & Hsub & Hwf2 & Hp2 & Hta & Hnone & Hu).
      rewrite E2. msimpl.
      destruct (populate_pmd_walk own pgdp (s2_mem s) (s2_mem s2) p _ a _ (proj1 Hwf) Hnone Hta Hi
        (proj1 Hj) Hat Eold Hu) as (_ & Hpte & Hw).
      eapply map_below_pte; [exact Hsub|done| | |done..].
      * destruct Hu as [Hu _]. rewrite Hu by congruence. apply lookup_insert_ne. congruence.
      * apply walk_same. intros. apply Hw; lia.
    + destruct (stage2_huge old) eqn:Eh.
      * apply map_below_stop; [done|lia|]. left. split; [done|]. exists old.
        unfold walk. rewrite (walk3_pmd _ _ _ _ _ _ _ Hat Eold) by (by rewrite Eh, orb_true_r).
        by rewrite (proj2 (Z.eqb_neq old 0) Hold).
      * unfold stage2_none. rewrite (proj2 (Z.eqb_neq old 0) Hold).
        apply (map_below_pte own own); try done.
        exists a, old. by rewrite (proj2 (Z.eqb_neq old 0) Hold).
Qed.

(** One turn of a loop followed by the rest of it. *)
Lemma map_result_seq own pgdp s st nx e phys flags res k :
  map_result own pgdp s st nx phys flags res -> st <= nx <= e ->
  (forall s1 own1, res = Some (0, s1) -> own ⊆ own1 -> s2_wf own1 pgdp s1 -> nx < e ->
     map_result own1 pgdp s1 nx e (phys + PAGE_SIZE * (nx - st)) flags (k s1)) ->
  map_result own pgdp s st e phys flags
    ('(ret, s) ← res; if negb (ret =? 0) then Some (ret, s)
                      else if PAGE_SIZE * nx =? PAGE_SIZE * e then Some (0, s) else k s).
Proof.
  intros (r & s1 & own1 & x & -> & Hs & Hwf & Hx & Hm & Hr) Hnx Hk. msimpl.
  destruct (Z.eqb_spec r 0) as [->|Hr0]; cbn [negb].
  - destruct Hr as [[_ ->]|[(_ & [=] & _)|(_ & [=] & _)]].
    destruct (Z.eqb_spec (PAGE_SIZE * nx) (PAGE_SIZE * e)) as [E|E].
    + assert (nx = e) as -> by (unfold PAGE_SIZE in *; lia).
      exists 0, s1, own1, e. split; [done|]. split; [done|]. split; [done|]. split; [lia|].
      split; [done|]. by left.
    + destruct (Hk s1 own1) as (r & s2 & own2 & y & -> & Hs2 & Hwf2 & Hy & Hm2 & Hr2);
        [done|done|done|unfold PAGE_SIZE in *; lia|].
      exists r, s2, own2, y. split; [done|]. split; [by etrans|]. split; [done|]. split; [lia|].
      split; [|done]. eapply mapped_by_trans; [|exact Hm|exact Hm2]. lia.
  - exists r, s1, own1, x. split; [done|]. split; [done|]. split; [done|]. split; [lia|].
    split; [done|]. right. destruct Hr as [[? _]|[(? & H)|(? & H)]]; [done|left|right]; (split; [lia|exact H]).
Qed.

Lemma pmd_at_root m m' pgdp i a : m' !! pgdp = m !! pgdp -> pmd_at m pgdp i a -> pmd_at m' pgdp i a.
Proof. intros E (e & H). exists e. unfold tread in *. by rewrite E. Qed.

Lemma map_pmd_loop_spec pgdp a flags i fuel : forall own st e phys s,
  s2_wf own pgdp s -> pmd_at (s2_mem s) pgdp i a -> i = st / 2 ^ 18 ->
  0 <= st < e -> e <= NR_PAGES -> e <= 2 ^ 18 * (st / 2 ^ 18 + 1) ->
  (e + 511) / 512 - st / 512 <= Z.of_nat fuel ->
  0 <= phys -> phys mod PAGE_SIZE = 0 -> phys + PAGE_SIZE * (e - st) <= 2 ^ 47 ->
  map_below own pgdp s st e phys flags
    (map_pmd_loop fuel a (st / 512 mod 512) (PAGE_SIZE * st) (PAGE_SIZE * e) phys flags s).
Proof.
  induction fuel as [|fuel IH]; intros own st e phys s Hwf Hat Hi Hst He Hend Hf Hp Hpm Hpe;
    [dlia|]. cbn [map_pmd_loop]. rewrite pmd_addr_end by done.
  set (nx := Z.min (512 * (st / 512 + 1)) e).
  assert (st < nx <= e) as Hnx by (unfold nx; dlia). unfold NR_PAGES in *.
  destruct (map_pmd_entry_spec own pgdp a flags st nx phys s) as [Hres Hroot];
    [done|by subst|lia|unfold NR_PAGES; lia|unfold nx; lia|done|done|unfold PAGE_SIZE in *; lia|].
  assert (u64 (phys + u64 (PAGE_SIZE * nx - PAGE_SIZE * st)) = phys + PAGE_SIZE * (nx - st)) as ->.
  { rewrite (u64_small (_ - _)) by (unfold PAGE_SIZE; lia). rewrite u64_small; unfold PAGE_SIZE in *; lia. }
  assert (forall s1 own1, map_pmd_entry a (st / 512 mod 512) (PAGE_SIZE * st) (PAGE_SIZE * nx) phys flags s
      = Some (0, s1) -> s2_wf own1 pgdp s1 -> nx < e ->
    map_below own1 pgdp s1 nx e (phys + PAGE_SIZE * (nx - st)) flags
      (map_pmd_loop fuel a (st / 512 mod 512 + 1) (PAGE_SIZE * nx) (PAGE_SIZE * e)
         (phys + PAGE_SIZE * (nx - st)) flags s1)) as Hrest.
  { intros s1 own1 E1 Hwf1 Hlt. assert (nx = 512 * (st / 512 + 1)) as Enx by (unfold nx in *; lia).
    clearbody nx. assert (st / 512 mod 512 + 1 = nx / 512 mod 512) as -> by dlia.
    apply IH; try done; try (unfold NR_PAGES, PAGE_SIZE in *; lia).
    - eapply pmd_at_root; [by eapply Hroot|done].
    - dlia.
    - dlia.
    - dlia.
    - unfold PAGE_SIZE in *. dlia. }
  split.
  - apply map_result_seq with (k := fun s1 => map_pmd_loop fuel a (st / 512 mod 512 + 1) (PAGE_SIZE * nx)
      (PAGE_SIZE * e) (phys + PAGE_SIZE * (nx - st)) flags s1); [done|lia|].
    intros s1 own1 E1 _ Hwf1 Hlt. by apply Hrest.
  - intros r s'. destruct Hres as (r1 & s1 & own1 & x & E1 & _ & Hwf1 & _). rewrite E1 in *. msimpl.
    specialize (Hroot r1 s1 eq_refl). destruct (Z.eqb_spec r1 0) as [->|]; cbn [negb]; [|congruence].
    destruct (Z.eqb_spec (PAGE_SIZE * nx) (PAGE_SIZE * e)); [congruence|]. intros E.
    destruct (Hrest s1 own1) as [_ Hr2]; [done|done|unfold PAGE_SIZE in *; lia|].
    rewrite <- Hroot. by apply (Hr2 r).
Qed.

Lemma pud_block_write_walk own pgdp s s' st phys flags :
  s2_wf own pgdp s -> 0 <= st -> st + 2 ^ 18 <= NR_PAGES -> st mod 2 ^ 18 = 0 ->
  0 <= phys < 2 ^ 47 -> phys mod S2_PUD_SIZE = 0 ->
  Z.land flags __VM_HUGE_1G <> 0 ->
  s2_pool s' = s2_pool s ->
  updated (s2_mem s) (s2_mem s') pgdp (st / 2 ^ 18) (Z.lor (stage2_block_attr flags) phys) ->
  s2_wf own pgdp s' /\ mapped_range (s2_mem s) (s2_mem s') pgdp st (st + 2 ^ 18) phys flags.
Proof.
  intros [Hwf Hpool] Hs He Hal Hp Hpm Hfl Hps Hu. unfold NR_PAGES, S2_PUD_SIZE in *.
  pose proof (wf_root _ _ _ Hwf) as Ho.
  destruct (block_desc_gen _ phys (block_attr_fields flags)) as [Hh Hz]; [lia|unfold PAGE_SIZE; dlia|].
  split.
  { split; [|by rewrite Hps]. eapply pt_wf_updated; try done. cbn. right; left. done. }
  intros pg Hpg. unfold NR_PAGES in *. destruct ((st <=? pg) && (pg <? st + 2 ^ 18)) eqn:E.
  - right; right. split; [done|].
    split; [unfold PAGE_SIZE, S2_PUD_SIZE; dlia|]. unfold walk. assert (pg / 2 ^ 18 = st / 2 ^ 18) as -> by dlia.
    erewrite walk3_pud.
    2:{ destruct Hu as (_ & _ & H3). rewrite H3, !Z.eqb_refl by dlia. reflexivity. }
    2:{ by rewrite Hh, orb_true_r. }
    rewrite Hz. do 3 f_equal. unfold PAGE_SIZE, S2_PUD_SIZE. dlia.
  - unfold walk. eapply walk3_updated; [exact Hwf|exact Ho|exact Hu|done|dlia|dlia|dlia|]. cbn. dlia.
Qed.

Lemma pud_huge_page_true old st nx phys flags :
  0 <= st < nx -> nx <= NR_PAGES -> nx <= 2 ^ 18 * (st / 2 ^ 18 + 1) ->
  stage2_pud_huge_page old (PAGE_SIZE * st) phys (u64 (PAGE_SIZE * nx - PAGE_SIZE * st)) flags = true ->
  old = 0 /\ nx = st + 2 ^ 18 /\ st mod 2 ^ 18 = 0 /\ phys mod S2_PUD_SIZE = 0
  /\ Z.land flags __VM_HUGE_1G <> 0.
Proof.
  intros Hst Hnx Hend. unfold stage2_pud_huge_page.
  destruct (_ || negb (old =? 0)) eqn:E; [done|]. intros H.
  assert (Hf : (Z.land flags __VM_HUGE_1G =? 0) = false) by (by destruct (Z.land flags __VM_HUGE_1G =? 0)).
  apply Z.eqb_neq in Hf.
  assert (old = 0) as -> by (destruct (Z.eqb_spec old 0); [done|]; by rewrite orb_true_r in E).
  rewrite !negb_orb, !negb_involutive in H. apply andb_true_iff in H as [H H3].
  apply andb_true_iff in H as [H1 H2]. unfold IS_PUD_ALIGN, S2_PUD_SIZE in *.
  rewrite Z.eqb_eq, land_pow_pred in H1, H2, H3 by lia.
  unfold NR_PAGES in *. rewrite u64_small in H3 by (unfold PAGE_SIZE; lia).
  unfold PAGE_SIZE in *. split; [done|]. dlia.
Qed.

Lemma map_pmd_range_spec own own' pgdp s s1 a flags st nx phys :
  own ⊆ own' -> s2_wf own' pgdp s1 ->
  (forall pg, 0 <= pg < NR_PAGES -> walk (s2_mem s1) pgdp pg = walk (s2_mem s) pgdp pg) ->
  pmd_at (s2_mem s1) pgdp (st / 2 ^ 18) a ->
  0 <= st < nx -> nx <= NR_PAGES -> nx <= 2 ^ 18 * (st / 2 ^ 18 + 1) ->
  0 <= phys -> phys mod PAGE_SIZE = 0 -> phys + PAGE_SIZE * (nx - st) <= 2 ^ 47 ->
  map_result own pgdp s st nx phys flags
    (stage2_map_pmd_range a (PAGE_SIZE * st) (PAGE_SIZE * nx) phys flags s1).
Proof.
  intros Hsub Hwf Hsame Hat Hst Hnx Hend Hp Hpm Hpe. unfold stage2_map_pmd_range.
  destruct (page_indices st) as (_ & -> & _); [lia|].
  destruct (map_pmd_loop_spec pgdp a flags _ 513 own' st nx phys s1 Hwf Hat) as [Hres _];
    [done|done|done|done|dlia|done..|].
  destruct Hres as (r & s2 & own2 & x & E & Hs & Hwf2 & Hx & Hm & Hr).
  exists r, s2, own2, x. split; [done|]. split; [by etrans|]. split; [done|]. split; [done|].
  split; [by eapply mapped_by_same|done].
Qed.

Lemma map_pud_entry_spec own pgdp flags st nx phys s :
  s2_wf own pgdp s ->
  0 <= st < nx -> nx <= NR_PAGES -> nx <= 2 ^ 18 * (st / 2 ^ 18 + 1) ->
  0 <= phys -> phys mod PAGE_SIZE = 0 -> phys + PAGE_SIZE * (nx - st) <= 2 ^ 47 ->
  map_result own pgdp s st nx phys flags
    (map_pud_entry pgdp (st / 2 ^ 18) (PAGE_SIZE * st) (PAGE_SIZE * nx) phys flags s).
Proof.
  intros Hwf Hst Hnx Hend Hp Hpm Hpe. unfold map_pud_entry.
  assert (0 <= st / 2 ^ 18 < 1024) as Hi by (unfold NR_PAGES in *; dlia).
  pose proof (wf_root _ _ _ (proj1 Hwf)) as Ho.
  destruct (tread_some _ _ _ _ _ (st / 2 ^ 18) (proj1 Hwf) Ho Hi) as (old & Eold).
  rewrite Eold. msimpl. destruct (stage2_pud_huge_page _ _ _ _ _) eqn:Ehuge.
  - destruct (pud_huge_page_true _ _ _ _ _ Hst Hnx Hend Ehuge) as (-> & -> & Hal & Hpa & Hfl).
    unfold S2_PUD_SIZE, PAGE_SIZE in *.
    assert (Z.land phys S2_PUD_MASK = phys) as ->.
    { unfold S2_PUD_MASK, S2_PUD_SIZE. rewrite land_not64_pow2 by lia. dlia. }
    destruct (twrite_spec _ _ s pgdp _ (st / 2 ^ 18) (Z.lor (stage2_block_attr flags) phys) (proj1 Hwf) Ho Hi)
      as (s1 & -> & Hp1 & Hu). msimpl.
    destruct (pud_block_write_walk own pgdp s s1 st phys flags) as [Hwf1 Hm]; try (done || lia).
    exists 0, s1, own, (st + 2 ^ 18). split; [done|]. split; [done|]. split; [done|]. split; [lia|].
    split; [done|]. by left.
  - destruct (Z.eqb_spec old 0) as [->|Hold]; cbn [negb andb].
    + change (stage2_none 0) with true. cbn iota.
      destruct (s2_pool s) as [|p pool] eqn:Epool.
      { unfold get_zeroed_page. rewrite Epool. apply map_below_stop; [done|lia|by right]. }
      destruct (populate_spec own pgdp s p pool pgdp _ _ Hwf Epool Ho Hi)
        as (s1 & s2 & -> & E2 & Hsub & Hwf2 & Hp2 & Hta & Hnone & Hu).
      rewrite E2. msimpl.
      destruct (populate_pud_walk own pgdp (s2_mem s) (s2_mem s2) p _ (proj1 Hwf) Hnone Hta
        (proj1 Hi) Eold Hu) as (Hat & Hw).
      eapply map_pmd_range_spec; [exact Hsub|done| |done..].
      apply walk_same. intros. apply Hw; lia.
    + assert ((old =? 0) = false) as Hz by by apply Z.eqb_neq.
      destruct (stage2_huge old) eqn:Eh.
      * exists (- EINVAL), s, own, st. split; [done|]. split; [done|]. split; [done|]. split; [lia|].
        split; [by apply mapped_by_nil|]. right; left. split; [lia|]. split; [done|]. exists old. right.
        unfold walk. rewrite (walk3_pud _ _ _ _ _ _ Eold) by (by rewrite Eh, orb_true_r). by rewrite Hz.
      * unfold stage2_none. rewrite Hz. apply (map_pmd_range_spec own own); try done. by exists old.
Qed.

Lemma map_pud_loop_spec pgdp flags fuel : forall own st e phys s,
  s2_wf own pgdp s -> 0 <= st < e -> e <= NR_PAGES ->
  (e + (2 ^ 18 - 1)) / 2 ^ 18 - st / 2 ^ 18 <= Z.of_nat fuel ->
  0 <= phys -> phys mod PAGE_SIZE = 0 -> phys + PAGE_SIZE * (e - st) <= 2 ^ 47 ->
  map_result own pgdp s st e phys flags
    (map_pud_loop fuel pgdp (st / 2 ^ 18) (PAGE_SIZE * st) (PAGE_SIZE * e) phys flags s).
Proof.
  induction fuel as [|fuel IH]; intros own st e phys s Hwf Hst He Hf Hp Hpm Hpe;
    [dlia|]. cbn [map_pud_loop]. rewrite pud_addr_end by done.
  set (nx := Z.min (2 ^ 18 * (st / 2 ^ 18 + 1)) e).
  assert (st < nx <= e) as Hnx by (unfold nx; dlia). unfold NR_PAGES in *.
  assert (u64 (phys + u64 (PAGE_SIZE * nx - PAGE_SIZE * st)) = phys + PAGE_SIZE * (nx - st)) as ->.
  { rewrite (u64_small (_ - _)) by (unfold PAGE_SIZE; lia). rewrite u64_small; unfold PAGE_SIZE in *; lia. }
  apply map_result_seq with (k := fun s1 => map_pud_loop fuel pgdp (st / 2 ^ 18 + 1) (PAGE_SIZE * nx)
      (PAGE_SIZE * e) (phys + PAGE_SIZE * (nx - st)) flags s1); [|lia|].
  - apply map_pud_entry_spec; try done; try (unfold NR_PAGES, PAGE_SIZE in *; lia).
  - intros s1 own1 _ _ Hwf1 Hlt. assert (nx = 2 ^ 18 * (st / 2 ^ 18 + 1)) as Enx by (unfold nx in *; lia).
    clearbody nx. assert (st / 2 ^ 18 + 1 = nx / 2 ^ 18) as -> by dlia.
    apply IH; try done; try (unfold NR_PAGES, PAGE_SIZE in *; lia); [dlia|].
    unfold PAGE_SIZE in *. dlia.
Qed.

(** ** Translation *)
Lemma not64_masks : not64 S2_PTE_MASK = 2 ^ 12 - 1 /\ not64 S2_PMD_MASK = 2 ^ 21 - 1.
Proof. split; reflexivity. Qed.

Lemma ipa_to_pa_walk pgdp va m lf :
  0 <= va < VMM_VIRT_MAX -> walk m pgdp (va / PAGE_SIZE) = Some lf ->
  (forall d, lf <> PudBlock d) ->
  stage2_ipa_to_pa pgdp va m
  = Some (match lf with
          | Page d => if Z.land d S2_PHYSICAL_MASK =? 0 then (- EFAULT, None)
                      else (0, Some (u64 (Z.land d S2_PHYSICAL_MASK + va mod PAGE_SIZE)))
          | Block d => (0, Some (u64 (Z.land d S2_PHYSICAL_MASK + va mod S2_PMD_SIZE)))
          | _ => (- EFAULT, None)
          end).
Proof.
  intros Hva Hw Hnp. unfold VMM_VIRT_MAX, walk, walk3, stage2_ipa_to_pa in *.
  destruct not64_masks as [-> ->]. rewrite !land_pow_pred by lia.
  set (pg := va / PAGE_SIZE) in *.
  assert (stage2_pud_index va = pg / 2 ^ 18 /\ stage2_pmd_index va = pg / 512 mod 512
          /\ stage2_pte_index va = pg mod 512) as (-> & -> & ->).
  { unfold stage2_pud_index, stage2_pmd_index, stage2_pte_index, S2_PUD_SHIFT, S2_PMD_SHIFT, S2_PTE_SHIFT.
    rewrite !Z.shiftr_div_pow2 by lia. change (PTRS_PER_S2_PUD - 1) with (2 ^ 10 - 1).
    change (PTRS_PER_S2_PMD - 1) with (2 ^ 9 - 1). change (PTRS_PER_S2_PTE - 1) with (2 ^ 9 - 1).
    rewrite !land_pow_pred by lia. unfold pg, PAGE_SIZE. dlia. }
  destruct (tread m pgdp (pg / 2 ^ 18)) as [e|]; [|done]. revert Hw. msimpl. unfold stage2_none.
  destruct (e =? 0); [by intros [= <-]|]. destruct (stage2_huge e); [intros [= <-]; by destruct (Hnp e)|].
  destruct (tread m (stage2_table_addr e) _) as [e'|]; [|done]. msimpl.
  destruct (e' =? 0); [by intros [= <-]|]. destruct (stage2_huge e'); [by intros [= <-]|].
  destruct (tread m (stage2_table_addr e') _) as [e''|]; [|done]. msimpl.
  destruct (Z.eqb_spec e'' 0) as [->|]; intros [= <-]; [done|]. by destruct (_ =? 0).
Qed.

(** A mapped page translates to its place in the physical range. *)
Lemma mapped_translate pgdp va m flags st phys :
  0 <= va < VMM_VIRT_MAX -> 0 < phys -> phys mod PAGE_SIZE = 0 ->
  st <= va / PAGE_SIZE -> phys + (va - PAGE_SIZE * st) < 2 ^ 47 ->
  Z.land flags __VM_HUGE_1G = 0 ->
  mapped_as (walk m pgdp (va / PAGE_SIZE)) flags (va / PAGE_SIZE) (phys + PAGE_SIZE * (va / PAGE_SIZE - st)) ->
  stage2_ipa_to_pa pgdp va m = Some (0, Some (phys + (va - PAGE_SIZE * st))).
Proof.
  intros Hva Hp Hpm Hst Hpe H1g Hm. unfold VMM_VIRT_MAX in *.
  destruct Hm as [Hw|[(Hf & Hal & Hw)|[Hf _]]]; [| |done].
  - rewrite (ipa_to_pa_walk _ _ _ _ Hva Hw) by done.
    destruct (desc_fields (stage2_page_attr flags) (phys + PAGE_SIZE * (va / PAGE_SIZE - st))) as [-> _];
      [apply page_attr_fields|unfold PAGE_SIZE in *; dlia|unfold PAGE_SIZE in *; dlia|].
    rewrite (proj2 (Z.eqb_neq _ _)) by (unfold PAGE_SIZE in *; lia).
    do 3 f_equal. unfold PAGE_SIZE in *. rewrite u64_small; dlia.
  - rewrite (ipa_to_pa_walk _ _ _ _ Hva Hw) by done.
    match goal with |- context [Z.lor _ ?pa] => set (ba := pa) end.
    destruct (desc_fields (stage2_block_attr flags) ba) as [-> _];
      [apply block_attr_fields|unfold ba, S2_PMD_SIZE, PAGE_SIZE in *; dlia
      |unfold ba, S2_PMD_SIZE, PAGE_SIZE in *; dlia|].
    do 3 f_equal. unfold ba, S2_PMD_SIZE, PAGE_SIZE in *. rewrite u64_small; dlia.
Qed.

(** ** The guest mapping operations *)

Lemma arch_guest_map_spec own pgdp s st e phys flags :
  s2_wf own pgdp s -> 0 <= st < e -> e <= NR_PAGES ->
  0 <= phys < S2_PHYSICAL_MAX -> phys mod PAGE_SIZE = 0 ->
  map_result own pgdp s st e phys flags
    (arch_guest_map pgdp (PAGE_SIZE * st) (PAGE_SIZE * e) phys flags s).
Proof.
  intros Hwf Hst He Hp Hpm. unfold arch_guest_map, NR_PAGES, S2_PHYSICAL_MAX, VMM_VIRT_MAX in *.
  rewrite (proj2 (Z.eqb_neq _ _)) by (unfold PAGE_SIZE; lia).
  rewrite (proj2 (Z.ltb_lt (PAGE_SIZE * st) _)), (proj2 (Z.leb_le (PAGE_SIZE * e) _)),
    (proj2 (Z.ltb_lt phys _)) by (unfold PAGE_SIZE; lia). msimpl. cbn [andb].
  assert (forall x, IS_PAGE_ALIGN (PAGE_SIZE * x) = true) as Hal.
  { intros x. apply IS_PAGE_ALIGN_true. unfold PAGE_SIZE. dlia. }
  rewrite !Hal, (proj2 (IS_PAGE_ALIGN_true phys) Hpm). cbn [andb]. msimpl.
  unfold stage2_map_pud_range. destruct (page_indices st) as (-> & _ & _); [unfold NR_PAGES; lia|].
  apply map_pud_loop_spec; try done; try (unfold NR_PAGES, PAGE_SIZE in *; lia). dlia.
Qed.

(** C2: [arch_guest_map] keeps the page table a tree and, whatever was mapped
    before, returns after mapping a prefix of the range: every page of the prefix
    leads to its place in the physical range with the attributes of [flags], as
    a page or as a block, and the walk of every other page is unchanged.  The
    prefix is the whole range when the result is 0; otherwise the result is
    [-EINVAL] at a page that is already part of a block or [-ENOMEM] with no
    page left for a table. *)
Theorem arch_guest_map_correct own pgdp s st e phys flags :
  s2_wf own pgdp s -> 0 <= st < e -> e <= NR_PAGES ->
  0 <= phys < S2_PHYSICAL_MAX -> phys mod PAGE_SIZE = 0 ->
  map_result own pgdp s st e phys flags
    (arch_guest_map pgdp (PAGE_SIZE * st) (PAGE_SIZE * e) phys flags s).
Proof. apply arch_guest_map_spec. Qed.

(** C6: after [arch_guest_map] has mapped a page-aligned range to physical memory
    that does not start at address 0, without 1 GB blocks, and returned 0, the
    software walk of every address of the range gives the corresponding
    physical address.  (The walk does not know 1 GB blocks, and takes a page
    mapped to address 0 for an unmapped one.) *)
Theorem guest_map_then_translate own pgdp s s' st e phys flags va :
  s2_wf own pgdp s -> 0 <= st < e -> e <= NR_PAGES ->
  0 < phys < S2_PHYSICAL_MAX -> phys mod PAGE_SIZE = 0 -> Z.land flags __VM_HUGE_1G = 0 ->
  arch_guest_map pgdp (PAGE_SIZE * st) (PAGE_SIZE * e) phys flags s = Some (0, s') ->
  PAGE_SIZE * st <= va < PAGE_SIZE * e ->
  arch_translate_guest_ipa pgdp va (s2_mem s') = Some (0, Some (phys + (va - PAGE_SIZE * st))).
Proof.
  intros Hwf Hst He Hp Hpm Hfl Hmap Hva.
  destruct (arch_guest_map_spec own pgdp s st e phys flags) as (r & s1 & own' & x & E & _ & _ & _ & Hm & Hr);
    [done|done|done|lia|done|].
  rewrite Hmap in E. injection E as <- <-. destruct Hr as [[_ ->]|[(_ & [=] & _)|(_ & [=] & _)]].
  unfold NR_PAGES, S2_PHYSICAL_MAX in *. unfold arch_translate_guest_ipa.
  apply (mapped_translate pgdp va (s2_mem s') flags st phys); try done;
    try (unfold VMM_VIRT_MAX, PAGE_SIZE in *; dlia).
  specialize (Hm (va / PAGE_SIZE)). revert Hm.
  rewrite (proj2 (Z.leb_le st _)), (proj2 (Z.ltb_lt _ e)) by (unfold PAGE_SIZE in *; dlia). cbn [andb].
  intros Hm. apply Hm. unfold NR_PAGES, PAGE_SIZE in *. dlia.
Qed.

(** ** The unmapping loops *)

(** The pages [st, x) are unmapped; other pages are as before, or belonged to a
    block that reaches into the range and are unmapped with it. *)
Definition unmapped_range (m m' : table_mem) (pgdp st x : Z) : Prop :=
  forall pg, 0 <= pg < NR_PAGES ->
    if (st <=? pg) && (pg <? x) then walk m' pgdp pg = Some Fault
    else walk m' pgdp pg = walk m pgdp pg
         \/ (walk m' pgdp pg = Some Fault /\ (exists d, walk m pgdp pg = Some (Block d))
             /\ st / 512 <= pg / 512 <= (x - 1) / 512).

Lemma unmapped_range_trans m m1 m2 pgdp st mid x :
  st < mid < x -> unmapped_range m m1 pgdp st mid -> unmapped_range m1 m2 pgdp mid x ->
  unmapped_range m m2 pgdp st x.
Proof.
  intros Hm H1 H2 pg Hpg. specialize (H1 pg Hpg). specialize (H2 pg Hpg). revert H1 H2.
  assert (st / 512 <= mid / 512 /\ (mid - 1) / 512 <= (x - 1) / 512) as [Hd1 Hd2] by dlia.
  destruct (Z.leb_spec st pg), (Z.ltb_spec pg x), (Z.ltb_spec pg mid), (Z.leb_spec mid pg);
    cbn; intros H1' H2'; try lia; try done.
  - destruct H2' as [->|(-> & _)]; done.
  - destruct H1' as [H1'|(H1' & Hb & Hr)], H2' as [H2'|(H2' & Hb2 & Hr2)].
    + left. congruence.
    + right. rewrite <- H1'. split; [done|]. split; [done|]. lia.
    + right. split; [congruence|]. split; [done|]. lia.
    + right. split; [done|]. split; [done|]. lia.
  - destruct H1' as [H1'|(H1' & Hb & Hr)], H2' as [H2'|(H2' & Hb2 & Hr2)].
    + left. congruence.
    + right. rewrite <- H1'. split; [done|]. split; [done|]. lia.
    + right. split; [congruence|]. split; [done|]. lia.
    + right. split; [done|]. split; [done|]. lia.
Qed.

Lemma unmapped_range_exact m m' pgdp st x :
  (forall pg, 0 <= pg < NR_PAGES ->
     walk m' pgdp pg = if (st <=? pg) && (pg <? x) then Some Fault else walk m pgdp pg) ->
  unmapped_range m m' pgdp st x.
Proof. intros H pg Hpg. rewrite H by done. destruct (_ && _); [done|by left]. Qed.

Section unmap_trees.
Context `{R : RootPtrs}.

Lemma pte_clear_walk own pgdp s s' b st :
  s2_wf own pgdp s -> 0 <= st < NR_PAGES ->
  pte_at (s2_mem s) pgdp (st / 2 ^ 18) (st / 512 mod 512) b ->
  s2_pool s' = s2_pool s -> updated (s2_mem s) (s2_mem s') b (st mod 512) 0 ->
  s2_wf own pgdp s' /\ pte_at (s2_mem s') pgdp (st / 2 ^ 18) (st / 512 mod 512) b
  /\ forall pg, 0 <= pg < NR_PAGES ->
       walk (s2_mem s') pgdp pg = if pg =? st then Some Fault else walk (s2_mem s) pgdp pg.
Proof.
  intros [Hwf Hpool] Hs Hat Hps Hu. unfold NR_PAGES in *.
  assert (own !! b = Some (KPte (st / 2 ^ 18) (st / 512 mod 512))) as Ho by (eapply pte_at_own; [done|dlia|dlia|done]).
  assert (pte_at (s2_mem s') pgdp (st / 2 ^ 18) (st / 512 mod 512) b) as Hat' by (eapply pte_at_updated; try done; dlia).
  split; [split; [|by rewrite Hps]; by eapply pt_wf_updated|]. split; [done|].
  intros pg Hpg. destruct (Z.eqb_spec pg st) as [->|Hne].
  - unfold walk. rewrite (walk3_pte _ _ _ _ _ _ Hat'). destruct Hu as (_ & _ & H3).
    rewrite H3, !Z.eqb_refl by dlia. done.
  - unfold walk. eapply walk3_updated; [exact Hwf|exact Ho|exact Hu|done|dlia|dlia|dlia|].
    cbn. dlia.
Qed.

Lemma unmap_pte_loop_spec own pgdp b i j fuel : forall st nx s,
  s2_wf own pgdp s -> pte_at (s2_mem s) pgdp i j b ->
  0 <= st < nx -> nx <= NR_PAGES -> i = st / 2 ^ 18 -> j = st / 512 mod 512 ->
  nx <= 512 * (st / 512 + 1) -> nx - st <= Z.of_nat fuel ->
  exists s', unmap_pte_loop fuel b (st mod 512) (PAGE_SIZE * st) (PAGE_SIZE * nx) s = Some s'
    /\ s2_wf own pgdp s' /\ pte_at (s2_mem s') pgdp i j b /\ s2_pool s' = s2_pool s
    /\ (forall a, a <> b -> s2_mem s' !! a = s2_mem s !! a)
    /\ forall pg, 0 <= pg < NR_PAGES ->
         walk (s2_mem s') pgdp pg
         = if (st <=? pg) && (pg <? nx) then Some Fault else walk (s2_mem s) pgdp pg.
Proof.
  induction fuel as [|fuel IH]; intros st nx s Hwf Hat Hst Hnx Hi Hj Hend Hfuel; [lia|].
  unfold NR_PAGES in *.
  assert (own !! b = Some (KPte i j)) as Ho by (subst; eapply pte_at_own; [apply Hwf|dlia|dlia|done]).
  assert (0 <= st mod 512 < ptrs (KPte i j)) as Hk by (cbn; dlia).
  destruct (tread_some _ _ _ _ _ _ (proj1 Hwf) Ho Hk) as (old & Eold).
  cbn [unmap_pte_loop]. rewrite Eold. msimpl.
  assert (exists s1, (if negb (stage2_none old) then twrite b (st mod 512) 0 s else Some s) = Some s1
    /\ s2_wf own pgdp s1 /\ pte_at (s2_mem s1) pgdp i j b /\ s2_pool s1 = s2_pool s
    /\ (forall a, a <> b -> s2_mem s1 !! a = s2_mem s !! a)
    /\ forall pg, 0 <= pg < NR_PAGES ->
         walk (s2_mem s1) pgdp pg = if pg =? st then Some Fault else walk (s2_mem s) pgdp pg)
    as (s1 & -> & Hwf1 & Hat1 & Hp1 & Hf1 & Hw1).
  { unfold stage2_none. destruct (Z.eqb_spec old 0) as [->|Hold]; cbn [negb].
    - exists s. do 5 (split; [done|]). intros pg Hpg. destruct (Z.eqb_spec pg st) as [->|]; [|done].
      unfold walk. rewrite <- Hi, <- Hj, (walk3_pte _ _ _ _ _ _ Hat), Eold. done.
    - destruct (twrite_spec _ _ s b _ (st mod 512) 0 (proj1 Hwf) Ho Hk) as (s1 & -> & Hp1 & Hu).
      destruct (pte_clear_walk own pgdp s s1 b st Hwf) as (Hwf1 & Hat1 & Hw1);
        [unfold NR_PAGES; lia|by subst|done|done|].
      exists s1. split; [done|]. split; [done|]. split; [by subst|]. split; [done|]. split; [apply Hu|done]. }
  msimpl. assert (u64 (PAGE_SIZE * st + PAGE_SIZE) = PAGE_SIZE * (st + 1)) as ->.
  { rewrite u64_small; unfold PAGE_SIZE; lia. }
  destruct (Z.eqb_spec (PAGE_SIZE * (st + 1)) (PAGE_SIZE * nx)) as [E|E].
  - assert (nx = st + 1) as -> by (unfold PAGE_SIZE in *; lia). exists s1. do 5 (split; [done|]).
    intros pg Hpg. rewrite Hw1 by done. by replace ((st <=? pg) && (pg <? st + 1)) with (pg =? st) by lia.
  - assert (st + 1 < nx) by (unfold PAGE_SIZE in *; lia).
    assert (st mod 512 + 1 = (st + 1) mod 512) as -> by dlia.
    destruct (IH (st + 1) nx s1) as (s2 & E2 & Hwf2 & Hat2 & Hp2 & Hf2 & Hw2);
      [done|done|lia|lia|dlia|dlia|dlia|lia|].
    exists s2. split; [done|]. split; [done|]. split; [done|]. split; [congruence|]. split.
    + intros a Ha. by rewrite Hf2, Hf1.
    + intros pg Hpg. rewrite Hw2, Hw1 by done.
      destruct (Z.eqb_spec pg st), (Z.leb_spec (st + 1) pg), (Z.leb_spec st pg), (Z.ltb_spec pg nx);
        cbn; (done || lia).
Qed.

(** Clearing a second level entry that is on the walk. *)
Lemma pmd_clear_walk own pgdp s s' a st :
  s2_wf own pgdp s -> 0 <= st < NR_PAGES ->
  pmd_at (s2_mem s) pgdp (st / 2 ^ 18) a ->
  s2_pool s' = s2_pool s -> updated (s2_mem s) (s2_mem s') a (st / 512 mod 512) 0 ->
  s2_wf own pgdp s' /\ pmd_at (s2_mem s') pgdp (st / 2 ^ 18) a
  /\ s2_mem s' !! pgdp = s2_mem s !! pgdp
  /\ forall pg, 0 <= pg < NR_PAGES ->
       walk (s2_mem s') pgdp pg = if pg / 512 =? st / 512 then Some Fault else walk (s2_mem s) pgdp pg.
Proof.
  intros [Hwf Hpool] Hs Hat Hps Hu. unfold NR_PAGES in *. pose proof (wf_root _ _ _ Hwf) as Hr.
  assert (own !! a = Some (KPmd (st / 2 ^ 18))) as Ho by (eapply pmd_at_own; [done|dlia|done]).
  assert (pmd_at (s2_mem s') pgdp (st / 2 ^ 18) a) as Hat' by (eapply pmd_at_updated; try done; dlia).
  split; [split; [|by rewrite Hps]; eapply pt_wf_updated; try done; by left|]. split; [done|].
  split; [apply Hu; congruence|]. intros pg Hpg. destruct (Z.eqb_spec (pg / 512) (st / 512)) as [E|Hne].
  - unfold walk. assert (pg / 2 ^ 18 = st / 2 ^ 18) as -> by dlia. rewrite E.
    rewrite (walk3_pmd _ _ _ _ _ _ 0 Hat'); [done| |done].
    destruct Hu as (_ & _ & H3). rewrite H3, !Z.eqb_refl by dlia. done.
  - unfold walk. eapply walk3_updated; [exact Hwf|exact Ho|exact Hu|done|dlia|dlia|dlia|].
    cbn. dlia.
Qed.

End unmap_trees.

(** Giving back a table that no entry refers to. *)
Lemma pt_wf_delete own m pgdp b :
  pt_wf own m pgdp -> own !! b = None ->
  pt_wf own (delete b m) pgdp
  /\ forall i j k, 0 <= i -> 0 <= j -> 0 <= k -> walk3 (delete b m) pgdp i j k = walk3 m pgdp i j k.
Proof.
  intros Hwf Hb. pose proof (wf_root _ _ _ Hwf) as Hr.
  assert (forall a x, a <> b -> tread (delete b m) a x = tread m a x) as Ht.
  { intros a x Ha. unfold tread. by rewrite lookup_delete_ne. }
  assert (forall a kd, own !! a = Some kd -> a <> b) as Hne by congruence.
  split; [split; [done| | |]|].
  - intros a kd Ha. rewrite lookup_delete_ne; [by apply (wf_tables _ _ _ Hwf)|]. apply not_eq_sym. by eapply Hne.
  - intros i e Hi. rewrite Ht by (by eapply Hne). by apply (wf_pud _ _ _ Hwf).
  - intros a i j e Ha Hj. rewrite Ht by (by eapply Hne). by apply (wf_pmd _ _ _ Hwf).
  - intros i j k Hi Hj Hk. apply (walk3_agree own); try done.
    + apply Ht. by eapply Hne.
    + intros a Ha. apply Ht. by eapply Hne.
    + intros a Ha. apply Ht. by eapply Hne.
Qed.

(** The tables without the third level table [b] of entry [j] of [a], and
    without other tables of the same kind as [a]. *)
Definition drop_pte (own : gmap Z kind) (i a b : Z) : gmap Z kind :=
  filter (fun '(c, kd) => c <> b /\ (kd = KPmd i -> c = a)) own.

Lemma lookup_drop_pte own i a b c kd :
  drop_pte own i a b !! c = Some kd <-> own !! c = Some kd /\ c <> b /\ (kd = KPmd i -> c = a).
Proof. unfold drop_pte. by rewrite map_lookup_filter_Some. Qed.

Lemma pt_wf_drop_pte own m pgdp i j a b :
  pt_wf own m pgdp -> 0 <= i -> 0 <= j -> pmd_at m pgdp i a -> tread m a j = Some 0 ->
  own !! b = Some (KPte i j) -> pt_wf (drop_pte own i a b) m pgdp.
Proof.
  intros Hwf Hi Hj Hat E Hb. pose proof (wf_root _ _ _ Hwf) as Hr. split.
  - apply lookup_drop_pte. split; [done|]. split; [congruence|done].
  - intros c kd Hc. apply lookup_drop_pte in Hc as [Hc _]. by apply (wf_tables _ _ _ Hwf).
  - intros x e Hx Ee. destruct (wf_pud _ _ _ Hwf x e Hx Ee) as [H|[H|(Hh & c & Hc & He & Hoc)]];
      [by left|by right; left|right; right]. split; [done|]. exists c. split; [done|]. split; [done|].
    apply lookup_drop_pte. split; [done|]. split; [congruence|]. intros [= ->].
    destruct Hat as (e0 & E0 & _ & _ & <-). rewrite Ee in E0. injection E0 as <-. subst e.
    by rewrite (proj1 (table_entry c Hc)).
  - intros c x y e Hc Hy Ee. apply lookup_drop_pte in Hc as (Hc & Hcb & Hca).
    destruct (wf_pmd _ _ _ Hwf c x y e Hc Hy Ee) as [H|[H|(Hh & d & Hd & He & Hod)]];
      [by left|by right; left|right; right]. split; [done|]. exists d. split; [done|]. split; [done|].
    apply lookup_drop_pte. split; [done|]. split; [|done]. intros ->. rewrite Hb in Hod.
    injection Hod as <- <-. rewrite (Hca eq_refl), E in Ee. injection Ee as <-.
    destruct (table_entry b Hd) as (_ & Hz & _). rewrite <- He in Hz. done.
Qed.

Lemma pool_ok_free own own' b pool :
  pool_ok own pool -> own' ⊆ own -> own !! b <> None -> own' !! b = None -> is_table_addr b ->
  pool_ok own' (b :: pool).
Proof.
  intros [Hnd Hall] Hs Hb Hb' Hta. rewrite list.Forall_forall in Hall. split.
  - apply list.NoDup_cons. split; [|done]. intros Hin. by destruct (Hall b Hin).
  - apply List.Forall_cons; [done|]. apply list.Forall_forall. intros p Hp.
    destruct (Hall p Hp) as [H1 H2]. split; [done|].
    destruct (own' !! p) eqn:E; [|done]. pose proof (lookup_weaken _ _ _ _ E Hs). congruence.
Qed.

Lemma entry_table_addr own kd e :
  entry_ok own kd e -> (e =? 0) = false -> stage2_huge e = false -> is_table_addr (stage2_table_addr e).
Proof.
  intros [->|[Hh|(_ & a & Ha & -> & Ho)]] Hz Hn; [done|congruence|].
  by rewrite (proj1 (table_entry a Ha)).
Qed.

(** *** The tables that are given back

    The third level table at entry [j] of first level entry [i], and the second
    level table at [i], lie inside the pages from [st] to [e], or outside. *)
Definition pte_in (st e i j : Z) : Prop := 0 <= i /\ 0 <= j < 512 /\ st <= 2 ^ 18 * i + 512 * j /\ 2 ^ 18 * i + 512 * j + 512 <= e.
Definition pte_out (st e i j : Z) : Prop := 0 <= i /\ 0 <= j < 512 /\ (2 ^ 18 * i + 512 * j + 512 <= st \/ e <= 2 ^ 18 * i + 512 * j).
Definition pmd_in (st e i : Z) : Prop := 0 <= i /\ st <= 2 ^ 18 * i /\ 2 ^ 18 * (i + 1) <= e.
Definition pmd_out (st e i : Z) : Prop := 0 <= i /\ (2 ^ 18 * (i + 1) <= st \/ e <= 2 ^ 18 * i).

(** Exactly the third level tables inside the range went to the pool, and the
    ones outside are where they were. *)
Definition ptes_freed (pgdp st e : Z) (s s' : s2) : Prop :=
  (exists l, s2_pool s' = l ++ s2_pool s /\ forall b, b ∈ l <-> exists i j, pte_in st e i j /\ pte_at (s2_mem s) pgdp i j b)
  /\ forall i j b, pte_out st e i j -> pte_at (s2_mem s') pgdp i j b <-> pte_at (s2_mem s) pgdp i j b.

(** The same for both levels. *)
Definition tables_freed (pgdp st e : Z) (s s' : s2) : Prop :=
  (exists l, s2_pool s' = l ++ s2_pool s /\ forall b, b ∈ l <->
     (exists i j, pte_in st e i j /\ pte_at (s2_mem s) pgdp i j b) \/ (exists i, pmd_in st e i /\ pmd_at (s2_mem s) pgdp i b))
  /\ (forall i j b, pte_out st e i j -> pte_at (s2_mem s') pgdp i j b <-> pte_at (s2_mem s) pgdp i j b)
  /\ forall i b, pmd_out st e i -> pmd_at (s2_mem s') pgdp i b <-> pmd_at (s2_mem s) pgdp i b.

Lemma pmd_at_agree m m' pgdp i a : tread m' pgdp i = tread m pgdp i -> pmd_at m' pgdp i a <-> pmd_at m pgdp i a.
Proof. intros E. unfold pmd_at. by rewrite E. Qed.

Lemma pmd_at_fun m pgdp i a b : pmd_at m pgdp i a -> pmd_at m pgdp i b -> a = b.
Proof. intros (e & E & _ & _ & <-) (e' & E' & _ & _ & <-). congruence. Qed.

Lemma pte_at_agree m m' pgdp i j b : tread m' pgdp i = tread m pgdp i -> (forall a, pmd_at m pgdp i a -> tread m' a j = tread m a j) ->
  pte_at m' pgdp i j b <-> pte_at m pgdp i j b.
Proof.
  intros E1 E2. unfold pte_at. split; intros (a & e & Ha & He & H).
  - apply (pmd_at_agree m m') in Ha; [|done]. exists a, e. rewrite <- E2 by done. done.
  - exists a, e. rewrite (pmd_at_agree m m'), E2 by done. done.
Qed.

Lemma pte_at_fun m pgdp i j a b : pte_at m pgdp i j a -> pte_at m pgdp i j b -> a = b.
Proof. intros (c & e & Hc & E & _ & _ & <-) (c' & e' & Hc' & E' & _ & _ & <-). pose proof (pmd_at_fun _ _ _ _ _ Hc Hc') as ->. congruence. Qed.

Lemma ptes_freed_trans pgdp st nx e s s1 s2 : st <= nx <= e -> nx mod 512 = 0 ->
  ptes_freed pgdp st nx s s1 -> ptes_freed pgdp nx e s1 s2 -> ptes_freed pgdp st e s s2.
Proof.
  intros Hr Hm [(l1 & P1 & F1) K1] [(l2 & P2 & F2) K2]. split.
  - exists (l2 ++ l1). rewrite P2, P1, app_assoc. split; [done|]. intros b. rewrite elem_of_app, F1, F2. split.
    + intros [(i & j & H & Ha)|(i & j & H & Ha)]; unfold pte_in, pte_out in *; exists i, j; (split; [lia|]); [|done]. apply K1; [unfold pte_out; lia|done].
    + intros (i & j & H & Ha). unfold pte_in, pte_out in *. destruct (decide (2 ^ 18 * i + 512 * j + 512 <= nx)).
      * right. exists i, j. split; [lia|done].
      * left. exists i, j. split; [dlia|]. apply K1; [unfold pte_out; dlia|done].
  - intros i j b H. unfold pte_out in *. rewrite K2 by (unfold pte_out; lia). apply K1. unfold pte_out. lia.
Qed.

Lemma tables_freed_trans pgdp st nx e s s1 s2 : st <= nx <= e -> nx mod 2 ^ 18 = 0 ->
  tables_freed pgdp st nx s s1 -> tables_freed pgdp nx e s1 s2 -> tables_freed pgdp st e s s2.
Proof.
  intros Hr Hm [(l1 & P1 & F1) [K1 L1]] [(l2 & P2 & F2) [K2 L2]]. split; [|split].
  - exists (l2 ++ l1). rewrite P2, P1, app_assoc. split; [done|]. intros b. rewrite elem_of_app, F1, F2. split.
    + intros [[(i & j & H & Ha)|(i & H & Ha)]|[(i & j & H & Ha)|(i & H & Ha)]].
      * left. exists i, j. split; [unfold pte_in in *; lia|]. apply K1; [unfold pte_in, pte_out in *; lia|done].
      * right. exists i. split; [unfold pmd_in in *; lia|]. apply L1; [unfold pmd_in, pmd_out in *; lia|done].
      * left. exists i, j. split; [unfold pte_in in *; lia|done].
      * right. exists i. split; [unfold pmd_in in *; lia|done].
    + intros [(i & j & H & Ha)|(i & H & Ha)].
      * destruct (decide (2 ^ 18 * i + 512 * j + 512 <= nx)); [right; left|left; left]; exists i, j.
        -- split; [unfold pte_in in *; lia|done].
        -- split; [unfold pte_in in *; dlia|]. apply K1; [unfold pte_in, pte_out in *; dlia|done].
      * destruct (decide (2 ^ 18 * (i + 1) <= nx)); [right|left]; right; exists i.
        -- split; [unfold pmd_in in *; lia|done].
        -- split; [unfold pmd_in in *; dlia|]. apply L1; [unfold pmd_in, pmd_out in *; dlia|done].
  - intros i j b H. rewrite K2 by (unfold pte_out in *; lia). apply K1. unfold pte_out in *. lia.
  - intros i b H. rewrite L2 by (unfold pmd_out in *; lia). apply L1. unfold pmd_out in *. lia.
Qed.

(** A change inside second level entry [j0] of [a] and below. *)
Lemma ptes_kept own pgdp st nx s s' a : s2_wf own pgdp s -> pmd_at (s2_mem s) pgdp (st / 2 ^ 18) a -> 0 <= st < nx -> nx <= 512 * (st / 512 + 1) ->
  s2_mem s' !! pgdp = s2_mem s !! pgdp ->
  (forall c i x, own !! c = Some (KPmd i) -> 0 <= x -> ~ (c = a /\ x = st / 512 mod 512) -> tread (s2_mem s') c x = tread (s2_mem s) c x) ->
  forall i j b, ~ (i = st / 2 ^ 18 /\ j = st / 512 mod 512) -> 0 <= i -> 0 <= j < 512 -> pte_at (s2_mem s') pgdp i j b <-> pte_at (s2_mem s) pgdp i j b.
Proof.
  intros Hwf Hat Hst Hnx Hroot Hk i j b Hne Hi Hj. apply pte_at_agree; [unfold tread; by rewrite Hroot|]. intros c Hc.
  pose proof (pmd_at_own _ _ _ _ _ (proj1 Hwf) Hi Hc) as Hoc. apply (Hk c i); [done|lia|]. intros [-> ->]. apply Hne. split; [|done].
  assert (0 <= st / 2 ^ 18) as Hi0 by dlia. pose proof (pmd_at_own _ _ _ _ _ (proj1 Hwf) Hi0 Hat) as Hoa. congruence.
Qed.

Lemma pte_in_one st nx i j : 0 <= st < nx -> nx <= 512 * (st / 512 + 1) -> pte_in st nx i j -> i = st / 2 ^ 18 /\ j = st / 512 mod 512 /\ st mod 512 = 0 /\ nx = st + 512.
Proof.
  intros Hst Hnx (H1 & H2 & H3 & H4). assert (512 * i + j = st / 512) as E1 by dlia. assert (st = 2 ^ 18 * i + 512 * j) as E2 by dlia.
  assert (nx = st + 512) as -> by lia. clear E1 Hnx Hst H3 H4. rewrite E2. split; [dlia|]. split; [dlia|]. split; [dlia|done].
Qed.

Lemma pte_out_other st nx i j : 0 <= st < nx -> pte_out st nx i j -> ~ (i = st / 2 ^ 18 /\ j = st / 512 mod 512).
Proof. intros Hst H [-> ->]. unfold pte_out in H. dlia. Qed.

(** What unmapping the pages [st, e) below one first level entry promises. *)
Definition unmap_below (own : gmap Z kind) (pgdp : Z) (s : s2) (st e : Z) (res : option s2) : Prop :=
  exists s' own', res = Some s' /\ own' ⊆ own /\ s2_wf own' pgdp s'
    /\ s2_mem s' !! pgdp = s2_mem s !! pgdp
    /\ unmapped_range (s2_mem s) (s2_mem s') pgdp st e /\ ptes_freed pgdp st e s s'.

Lemma is_pmd_range_true st nx :
  0 <= st < nx -> nx <= NR_PAGES -> is_pmd_range (PAGE_SIZE * st) (PAGE_SIZE * nx) = true ->
  st mod 512 = 0 /\ nx = st + 512.
Proof.
  intros Hs Hn H. unfold is_pmd_range, NR_PAGES, S2_PMD_SIZE in *. apply andb_true_iff in H as [H1 H2].
  rewrite Z.eqb_eq in H1, H2. rewrite land_pow_pred in H1 by lia.
  unfold PAGE_SIZE in *. rewrite u64_small in H2 by lia. dlia.
Qed.

Lemma is_pud_range_true st nx :
  0 <= st < nx -> nx <= NR_PAGES -> is_pud_range (PAGE_SIZE * st) (PAGE_SIZE * nx) = true ->
  st mod 2 ^ 18 = 0 /\ nx = st + 2 ^ 18.
Proof.
  intros Hs Hn H. unfold is_pud_range, NR_PAGES, S2_PUD_SIZE in *. apply andb_true_iff in H as [H1 H2].
  rewrite Z.eqb_eq in H1, H2. rewrite land_pow_pred in H1 by lia.
  unfold PAGE_SIZE in *. rewrite u64_small in H2 by lia. dlia.
Qed.

Lemma is_pmd_range_false st nx : 0 <= st -> st mod 512 = 0 -> nx = st + 512 -> nx <= NR_PAGES -> is_pmd_range (PAGE_SIZE * st) (PAGE_SIZE * nx) = true.
Proof.
  intros Hs Hm -> Hn. unfold is_pmd_range, NR_PAGES, S2_PMD_SIZE in *. rewrite land_pow_pred by lia. unfold PAGE_SIZE. rewrite u64_small by lia. apply andb_true_iff. rewrite !Z.eqb_eq. dlia.
Qed.

Lemma is_pud_range_false st nx : 0 <= st -> st mod 2 ^ 18 = 0 -> nx = st + 2 ^ 18 -> nx <= NR_PAGES -> is_pud_range (PAGE_SIZE * st) (PAGE_SIZE * nx) = true.
Proof.
  intros Hs Hm -> Hn. unfold is_pud_range, NR_PAGES, S2_PUD_SIZE in *. rewrite land_pow_pred by lia. unfold PAGE_SIZE. rewrite u64_small by lia. apply andb_true_iff. rewrite !Z.eqb_eq. dlia.
Qed.

(** Clearing the entry of a third level table and giving the table back. *)
Lemma free_pte_table own pgdp s s' a b st :
  s2_wf own pgdp s -> 0 <= st < NR_PAGES ->
  pmd_at (s2_mem s) pgdp (st / 2 ^ 18) a ->
  own !! b = Some (KPte (st / 2 ^ 18) (st / 512 mod 512)) -> is_table_addr b ->
  s2_pool s' = s2_pool s -> updated (s2_mem s) (s2_mem s') a (st / 512 mod 512) 0 ->
  exists own', own' ⊆ own /\ s2_wf own' pgdp (free_pages b s')
    /\ s2_mem (free_pages b s') !! pgdp = s2_mem s !! pgdp
    /\ forall pg, 0 <= pg < NR_PAGES ->
         walk (s2_mem (free_pages b s')) pgdp pg
         = if pg / 512 =? st / 512 then Some Fault else walk (s2_mem s) pgdp pg.
Proof.
  intros Hwf Hs Hat Hb Hta Hps Hu.
  destruct (pmd_clear_walk own pgdp s s' a st Hwf Hs Hat Hps Hu) as (Hwf1 & Hat1 & Hr1 & Hw1).
  unfold NR_PAGES in *. pose proof (wf_root _ _ _ (proj1 Hwf)) as Hr.
  assert (tread (s2_mem s') a (st / 512 mod 512) = Some 0) as E.
  { destruct Hu as (_ & _ & H3). rewrite H3, !Z.eqb_refl by dlia. done. }
  assert (0 <= st / 2 ^ 18 /\ 0 <= st / 512 mod 512) as [Hi Hj] by dlia.
  pose proof (pt_wf_drop_pte own (s2_mem s') pgdp _ _ a b (proj1 Hwf1) Hi Hj Hat1 E Hb) as Hwf2.
  set (own' := drop_pte own (st / 2 ^ 18) a b) in *.
  assert (own' !! b = None) as Hnone.
  { destruct (own' !! b) eqn:Eb; [|done]. apply lookup_drop_pte in Eb as (_ & ? & _). done. }
  assert (own' ⊆ own) as Hsub by apply map_filter_subseteq.
  destruct (pt_wf_delete own' (s2_mem s') pgdp b Hwf2 Hnone) as [Hwf3 Hw3].
  exists own'. split; [done|]. split; [split; [done|]|split].
  - cbn. eapply pool_ok_free; [apply Hwf1|done| |done|done]. by rewrite Hb.
  - cbn. rewrite lookup_delete_ne by congruence. done.
  - intros pg Hpg. rewrite <- Hw1 by done. unfold walk. cbn. apply Hw3; dlia.
Qed.

(** Nothing is given back where the entry holds no table. *)
Lemma none_freed pgdp st nx s s' : 0 <= st < nx -> nx <= 512 * (st / 512 + 1) -> s2_pool s' = s2_pool s ->
  (forall i j b, pte_out st nx i j -> pte_at (s2_mem s') pgdp i j b <-> pte_at (s2_mem s) pgdp i j b) ->
  (forall b, ~ pte_at (s2_mem s) pgdp (st / 2 ^ 18) (st / 512 mod 512) b) -> ptes_freed pgdp st nx s s'.
Proof.
  intros Hst Hnx Hp Hk Hn. split; [|done]. exists []. split; [done|]. intros b. split; [by intros ?%elem_of_nil|]. intros (i & j & H & Hb).
  destruct (pte_in_one st nx i j) as (-> & -> & _); [done..|]. by destruct (Hn b).
Qed.

Lemma unmap_pmd_entry_spec own pgdp a st nx s :
  s2_wf own pgdp s -> pmd_at (s2_mem s) pgdp (st / 2 ^ 18) a ->
  0 <= st < nx -> nx <= NR_PAGES -> nx <= 512 * (st / 512 + 1) ->
  unmap_below own pgdp s st nx
    (unmap_pmd_entry a (st / 512 mod 512) (PAGE_SIZE * st) (PAGE_SIZE * nx) s).
Proof.
  intros Hwf Hat Hst Hnx Hend. unfold unmap_pmd_entry.
  assert (0 <= st / 2 ^ 18) as Hi by dlia. assert (0 <= st / 512 mod 512 < 512) as Hj by dlia.
  assert (0 <= st < NR_PAGES) as Hs by lia.
  pose proof (pmd_at_own _ _ _ _ _ (proj1 Hwf) Hi Hat) as Ho.
  pose proof (wf_root _ _ _ (proj1 Hwf)) as Hr.
  destruct (tread_some _ _ _ _ _ (st / 512 mod 512) (proj1 Hwf) Ho Hj) as (old & Eold).
  pose proof (wf_pmd _ _ _ (proj1 Hwf) _ _ _ _ Ho (proj1 Hj) Eold) as Hok.
  assert (forall pg, st <= pg < nx -> pg / 2 ^ 18 = st / 2 ^ 18 /\ pg / 512 = st / 512) as Hsame
    by (intros; dlia).
  rewrite Eold. msimpl. unfold stage2_none. destruct (old =? 0) eqn:Hz.
  { exists s, own. do 4 (split; [done|]). split; [apply unmapped_range_exact; intros pg Hpg|].
    - destruct (Z.leb_spec st pg), (Z.ltb_spec pg nx); cbn [andb]; try done.
      destruct (Hsame pg) as [E1 E2]; [lia|]. unfold walk. rewrite E1, E2.
      rewrite (walk3_pmd _ _ _ _ _ _ _ Hat Eold); by rewrite Hz.
    - apply none_freed; [done..|]. intros b (a' & e' & Ha' & Ee' & Hz' & _). pose proof (pmd_at_fun _ _ _ _ _ Hat Ha') as <-. congruence. }
  destruct (stage2_huge old) eqn:Hh.
  - destruct (twrite_spec _ _ s a _ (st / 512 mod 512) 0 (proj1 Hwf) Ho Hj) as (s1 & -> & Hp1 & Hu).
    destruct (pmd_clear_walk own pgdp s s1 a st Hwf Hs Hat Hp1 Hu) as (Hwf1 & Hat1 & Hr1 & Hw1).
    exists s1, own. do 4 (split; [done|]). split.
    2: { apply none_freed; [done..| |].
      - intros i j b H. apply (ptes_kept own pgdp st nx s s1 a); [done..| |exact (pte_out_other st nx i j Hst H)|by destruct H|by destruct H as (_ & ? & _)].
        intros c i' x Hc Hx Hne. destruct Hu as (_ & _ & ->); [|done]. destruct (Z.eqb_spec c a), (Z.eqb_spec x (st / 512 mod 512)); cbn [andb]; tauto.
      - intros b (a' & e' & Ha' & Ee' & Hz' & Hh' & _). pose proof (pmd_at_fun _ _ _ _ _ Hat Ha') as <-. congruence. }
    intros pg Hpg. rewrite Hw1 by done.
    destruct (Z.eqb_spec (pg / 512) (st / 512)) as [E|E].
    + destruct (_ && _); [done|]. right. split; [done|]. split; [|dlia].
      exists old. unfold walk. assert (pg / 2 ^ 18 = st / 2 ^ 18) as -> by dlia. rewrite E.
      rewrite (walk3_pmd _ _ _ _ _ _ _ Hat Eold); [by rewrite Hz|by rewrite Hh, orb_true_r].
    + destruct (Z.leb_spec st pg), (Z.ltb_spec pg nx); cbn [andb]; try (by left).
      destruct (Hsame pg); lia.
  - set (b := stage2_table_addr old).
    assert (pte_at (s2_mem s) pgdp (st / 2 ^ 18) (st / 512 mod 512) b) as Hpte by by exists a, old.
    pose proof (pte_at_own _ _ _ _ _ _ (proj1 Hwf) Hi (proj1 Hj) Hpte) as Hob.
    unfold stage2_unmap_pte_range. destruct (page_indices st Hs) as (_ & _ & ->).
    destruct (unmap_pte_loop_spec own pgdp b _ _ 513 st nx s Hwf Hpte)
      as (s1 & -> & Hwf1 & Hpte1 & Hp1 & Hf1 & Hw1); [done|done|done|done|done|dlia|]. msimpl.
    assert (s2_mem s1 !! pgdp = s2_mem s !! pgdp) as Hroot1 by (apply Hf1; congruence).
    destruct (is_pmd_range _ _) eqn:Erange.
    + destruct (is_pmd_range_true st nx) as [Hal ->]; [done..|].
      destruct (twrite_spec _ _ s1 a _ (st / 512 mod 512) 0 (proj1 Hwf1) Ho Hj) as (s2 & -> & Hp2 & Hu).
      msimpl. destruct (free_pte_table own pgdp s1 s2 a b st) as (own' & Hsub & Hwf2 & Hr2 & Hw2);
        [done|done|by eapply pmd_at_root|done|by eapply entry_table_addr|done|done|].
      exists (free_pages b s2), own'. split; [done|]. split; [done|]. split; [done|]. split; [congruence|]. split.
      * apply unmapped_range_exact. intros pg Hpg. rewrite Hw2, Hw1 by done.
        destruct (Z.eqb_spec (pg / 512) (st / 512)), (Z.leb_spec st pg), (Z.ltb_spec pg (st + 512));
          cbn [andb]; try done; exfalso; dlia.
      * split; [exists [b]; cbn; rewrite Hp2, Hp1; split; [done|]; intros b'; rewrite list_elem_of_singleton; split|].
        -- intros ->. exists (st / 2 ^ 18), (st / 512 mod 512). split; [unfold pte_in; dlia|done].
        -- intros (i & j & H & Hb'). destruct (pte_in_one st (st + 512) i j) as (-> & -> & _); [lia|dlia|done|]. by eapply pte_at_fun.
        -- intros i j b' H. apply (ptes_kept own pgdp st (st + 512) s _ a); [done|done|lia|dlia|congruence| |exact (pte_out_other st (st + 512) i j ltac:(lia) H)|by destruct H|by destruct H as (_ & ? & _)].
           intros c i' x Hc Hx Hne. assert (c <> b) as Hcb by congruence. unfold tread. cbn. rewrite lookup_delete_ne by done. fold (tread (s2_mem s2) c x).
           destruct Hu as (_ & _ & ->); [|done]. assert ((c =? a) && (x =? st / 512 mod 512) = false) as -> by (destruct (Z.eqb_spec c a), (Z.eqb_spec x (st / 512 mod 512)); cbn [andb]; tauto).
           unfold tread. by rewrite Hf1.
    + exists s1, own. do 4 (split; [done|]). split; [by apply unmapped_range_exact|]. split.
      * exists []. split; [done|]. intros b'. split; [by intros ?%elem_of_nil|]. intros (i & j & H & _). exfalso. destruct (pte_in_one st nx i j) as (_ & _ & Hm & Hn); [done..|].
        rewrite (is_pmd_range_false st nx (proj1 Hst) Hm Hn Hnx) in Erange. done.
      * intros i j b' H. apply (ptes_kept own pgdp st nx s s1 a); [done..| |exact (pte_out_other st nx i j Hst H)|by destruct H|by destruct H as (_ & ? & _)].
        intros c i' x Hc Hx Hne. unfold tread. rewrite Hf1 by congruence. done.
Qed.

Lemma unmap_pmd_loop_spec pgdp a i fuel : forall own st e s,
  s2_wf own pgdp s -> pmd_at (s2_mem s) pgdp i a -> i = st / 2 ^ 18 ->
  0 <= st < e -> e <= NR_PAGES -> e <= 2 ^ 18 * (st / 2 ^ 18 + 1) ->
  (e + 511) / 512 - st / 512 <= Z.of_nat fuel ->
  unmap_below own pgdp s st e
    (unmap_pmd_loop fuel a (st / 512 mod 512) (PAGE_SIZE * st) (PAGE_SIZE * e) s).
Proof.
  induction fuel as [|fuel IH]; intros own st e s Hwf Hat Hi Hst He Hend Hf; [dlia|].
  cbn [unmap_pmd_loop]. rewrite pmd_addr_end by done. set (nx := Z.min (512 * (st / 512 + 1)) e).
  assert (st < nx <= e) as Hnx by (unfold nx; dlia). unfold NR_PAGES in *.
  destruct (unmap_pmd_entry_spec own pgdp a st nx s) as (s1 & own1 & -> & Hs1 & Hwf1 & Hr1 & Hu1 & Hg1);
    [done|by subst|lia|unfold NR_PAGES; lia|unfold nx; lia|]. msimpl.
  destruct (Z.eqb_spec (PAGE_SIZE * nx) (PAGE_SIZE * e)) as [E|E].
  { assert (nx = e) as E' by (unfold PAGE_SIZE in *; lia). rewrite E' in Hu1, Hg1. by exists s1, own1. }
  assert (nx = 512 * (st / 512 + 1)) as Enx by (unfold nx, PAGE_SIZE in *; lia). clearbody nx.
  assert (st / 512 mod 512 + 1 = nx / 512 mod 512) as -> by (unfold PAGE_SIZE in *; dlia).
  destruct (IH own1 nx e s1) as (s2 & own2 & -> & Hs2 & Hwf2 & Hr2 & Hu2 & Hg2);
    [done|by eapply pmd_at_root|unfold PAGE_SIZE in *; dlia|unfold PAGE_SIZE in *; lia|lia
    |unfold PAGE_SIZE in *; dlia|dlia|].
  exists s2, own2. split; [done|]. split; [by etrans|]. split; [done|]. split; [congruence|]. split.
  - eapply unmapped_range_trans; [|done..]. unfold PAGE_SIZE in *; lia.
  - apply (ptes_freed_trans pgdp st nx e s s1 s2); [unfold PAGE_SIZE in *; lia|dlia|done|done].
Qed.

(** No first level entry is a block: nothing was mapped with [__VM_HUGE_1G]. *)
Definition no_pud_block (m : table_mem) (pgdp : Z) : Prop :=
  forall i e, 0 <= i -> tread m pgdp i = Some e -> stage2_huge e = false.

Definition unmap_result (own : gmap Z kind) (pgdp : Z) (s : s2) (st e : Z) (res : option s2) : Prop :=
  exists s' own', res = Some s' /\ own' ⊆ own /\ s2_wf own' pgdp s'
    /\ no_pud_block (s2_mem s') pgdp
    /\ unmapped_range (s2_mem s) (s2_mem s') pgdp st e /\ tables_freed pgdp st e s s'.

Lemma pmd_in_one st nx i : 0 <= st < nx -> nx <= 2 ^ 18 * (st / 2 ^ 18 + 1) -> pmd_in st nx i -> i = st / 2 ^ 18 /\ st mod 2 ^ 18 = 0 /\ nx = st + 2 ^ 18.
Proof. intros Hst Hnx H. unfold pmd_in in H. dlia. Qed.

(** When the second level table stays, so do all of them. *)
Lemma ptes_tables_freed pgdp st nx s s' : 0 <= st < nx -> nx <= 2 ^ 18 * (st / 2 ^ 18 + 1) -> s2_mem s' !! pgdp = s2_mem s !! pgdp ->
  (forall b, pmd_in st nx (st / 2 ^ 18) -> ~ pmd_at (s2_mem s) pgdp (st / 2 ^ 18) b) -> ptes_freed pgdp st nx s s' -> tables_freed pgdp st nx s s'.
Proof.
  intros Hst Hnx Hr Hn [(l & Hl & Hf) Hk]. split; [|split; [done|]].
  - exists l. split; [done|]. intros b. rewrite Hf. split; [by left|]. intros [H|(i & H & Hb)]; [done|]. destruct (pmd_in_one st nx i) as (-> & _); [done..|]. by destruct (Hn b).
  - intros i b _. apply pmd_at_agree. unfold tread. by rewrite Hr.
Qed.

Lemma pt_wf_drop_pmd own m pgdp i a :
  pt_wf own m pgdp -> 0 <= i -> tread m pgdp i = Some 0 -> own !! a = Some (KPmd i) ->
  pt_wf (delete a own) m pgdp.
Proof.
  intros Hwf Hi E Ha. pose proof (wf_root _ _ _ Hwf) as Hr. split.
  - rewrite lookup_delete_ne; congruence.
  - intros c kd Hc. apply lookup_delete_Some in Hc as [_ Hc]. by apply (wf_tables _ _ _ Hwf).
  - intros x e Hx Ee. destruct (wf_pud _ _ _ Hwf x e Hx Ee) as [H|[H|(Hh & c & Hc & He & Hoc)]];
      [by left|by right; left|right; right]. split; [done|]. exists c. split; [done|]. split; [done|].
    rewrite lookup_delete_ne; [done|]. intros ->. rewrite Ha in Hoc. injection Hoc as <-.
    rewrite E in Ee. injection Ee as <-. destruct (table_entry c Hc) as (_ & Hz & _). by rewrite <- He in Hz.
  - intros c x y e Hc Hy Ee. apply lookup_delete_Some in Hc as [_ Hc].
    destruct (wf_pmd _ _ _ Hwf c x y e Hc Hy Ee) as [H|[H|(Hh & d & Hd & He & Hod)]];
      [by left|by right; left|right; right]. split; [done|]. exists d. split; [done|]. split; [done|].
    rewrite lookup_delete_ne; [done|]. congruence.
Qed.

(** Clearing a first level entry and giving its table back. *)
Lemma free_pmd_table own pgdp s s' a st :
  s2_wf own pgdp s -> no_pud_block (s2_mem s) pgdp -> 0 <= st < NR_PAGES ->
  own !! a = Some (KPmd (st / 2 ^ 18)) -> is_table_addr a ->
  s2_pool s' = s2_pool s -> updated (s2_mem s) (s2_mem s') pgdp (st / 2 ^ 18) 0 ->
  s2_wf (delete a own) pgdp (free_pages a s') /\ no_pud_block (s2_mem (free_pages a s')) pgdp
  /\ forall pg, 0 <= pg < NR_PAGES ->
       walk (s2_mem (free_pages a s')) pgdp pg
       = if pg / 2 ^ 18 =? st / 2 ^ 18 then Some Fault else walk (s2_mem s) pgdp pg.
Proof.
  intros [Hwf Hpool] Hnb Hs Ha Hta Hps Hu. unfold NR_PAGES in *. pose proof (wf_root _ _ _ Hwf) as Hr.
  assert (tread (s2_mem s') pgdp (st / 2 ^ 18) = Some 0) as E.
  { destruct Hu as (_ & _ & H3). rewrite H3, !Z.eqb_refl by dlia. done. }
  assert (pt_wf own (s2_mem s') pgdp) as Hwf1 by (eapply pt_wf_updated; try done; by left).
  assert (pt_wf (delete a own) (s2_mem s') pgdp) as Hwf2 by (apply (pt_wf_drop_pmd own _ pgdp (st / 2 ^ 18)); try done; dlia).
  destruct (pt_wf_delete _ _ pgdp a Hwf2) as [Hwf3 Hw3]; [apply lookup_delete_eq|].
  split; [split; [done|]|split].
  - cbn. rewrite Hps. eapply pool_ok_free; [done|apply delete_subseteq|by rewrite Ha|apply lookup_delete_eq|done].
  - intros i e Hi. cbn. unfold tread. rewrite lookup_delete_ne by congruence. fold (tread (s2_mem s') pgdp i).
    destruct Hu as (_ & _ & H3). rewrite H3 by done. destruct (_ && _); [by intros [= <-]|by apply Hnb].
  - intros pg Hpg. unfold walk at 1. cbn. rewrite Hw3 by dlia.
    destruct (Z.eqb_spec (pg / 2 ^ 18) (st / 2 ^ 18)) as [E1|E1].
    + rewrite E1. by rewrite (walk3_pud _ _ _ _ _ _ E).
    + unfold walk. eapply walk3_updated; [exact Hwf|exact Hr|exact Hu|done|dlia|dlia|dlia|]. cbn. lia.
Qed.

(** The second level table of a whole first level entry is given back too. *)
Lemma pmd_freed own pgdp st s s1 s2 a : s2_wf own pgdp s1 -> 0 <= st -> st mod 2 ^ 18 = 0 -> own !! a = Some (KPmd (st / 2 ^ 18)) -> own !! pgdp = Some KRoot ->
  s2_mem s1 !! pgdp = s2_mem s !! pgdp -> pmd_at (s2_mem s) pgdp (st / 2 ^ 18) a -> s2_pool s2 = s2_pool s1 -> updated (s2_mem s1) (s2_mem s2) pgdp (st / 2 ^ 18) 0 ->
  ptes_freed pgdp st (st + 2 ^ 18) s s1 -> tables_freed pgdp st (st + 2 ^ 18) s (free_pages a s2).
Proof.
  intros Hwf Hst Hal Ho Hroot Hr1 Hat Hp2 Hu2 [(l & Hl & Hf) Hk].
  assert (forall c x, c <> a -> 0 <= x -> ~ (c = pgdp /\ x = st / 2 ^ 18) -> tread (s2_mem (free_pages a s2)) c x = tread (s2_mem s1) c x) as Ht.
  { intros c x Hc Hx Hne. unfold tread. cbn. rewrite lookup_delete_ne by done. fold (tread (s2_mem s2) c x). destruct Hu2 as (_ & _ & ->); [|done].
    by assert ((c =? pgdp) && (x =? st / 2 ^ 18) = false) as -> by (destruct (Z.eqb_spec c pgdp), (Z.eqb_spec x (st / 2 ^ 18)); cbn [andb]; tauto). }
  assert (pgdp <> a) as Hpa by congruence. split; [|split].
  - exists (a :: l). cbn. rewrite Hp2, Hl. split; [done|]. intros b. rewrite elem_of_cons, Hf. split.
    + intros [->|H]; [right|by left]. exists (st / 2 ^ 18). split; [unfold pmd_in; dlia|done].
    + intros [H|(i & H & Hb)]; [by right|left]. destruct (pmd_in_one st (st + 2 ^ 18) i) as (-> & _); [lia|dlia|done|]. by eapply pmd_at_fun.
  - intros i j b H. assert (i <> st / 2 ^ 18) as Hi by (unfold pte_out in H; dlia). destruct H as (H1 & H2 & H3). rewrite <- Hk by done.
    apply pte_at_agree; [apply Ht; [done|done|tauto]|]. intros c Hc. apply Ht; [|lia|].
    + intros ->. pose proof (pmd_at_own _ _ _ _ _ (proj1 Hwf) H1 Hc). congruence.
    + intros [-> _]. pose proof (pmd_at_own _ _ _ _ _ (proj1 Hwf) H1 Hc). congruence.
  - intros i b H. assert (i <> st / 2 ^ 18) as Hi by (unfold pmd_out in H; dlia). transitivity (pmd_at (s2_mem s1) pgdp i b); apply pmd_at_agree.
    + apply Ht; [done|by destruct H|tauto].
    + unfold tread. by rewrite Hr1.
Qed.

Lemma unmap_pud_entry_spec own pgdp st nx s :
  s2_wf own pgdp s -> no_pud_block (s2_mem s) pgdp ->
  0 <= st < nx -> nx <= NR_PAGES -> nx <= 2 ^ 18 * (st / 2 ^ 18 + 1) ->
  unmap_result own pgdp s st nx
    (unmap_pud_entry pgdp (st / 2 ^ 18) (PAGE_SIZE * st) (PAGE_SIZE * nx) s).
Proof.
  intros Hwf Hnb Hst Hnx Hend. unfold unmap_pud_entry.
  assert (0 <= st < NR_PAGES) as Hs by lia.
  assert (0 <= st / 2 ^ 18 < 1024) as Hi by (unfold NR_PAGES in *; dlia).
  pose proof (wf_root _ _ _ (proj1 Hwf)) as Hr.
  destruct (tread_some _ _ _ _ _ (st / 2 ^ 18) (proj1 Hwf) Hr Hi) as (old & Eold).
  pose proof (wf_pud _ _ _ (proj1 Hwf) _ _ (proj1 Hi) Eold) as Hok.
  rewrite Eold. msimpl. unfold stage2_none. destruct (old =? 0) eqn:Hz.
  { assert (forall b, ~ pmd_at (s2_mem s) pgdp (st / 2 ^ 18) b) as Hno by (intros b (e' & Ee' & Hz' & _); congruence).
    exists s, own. do 4 (split; [done|]). split; [apply unmapped_range_exact; intros pg Hpg|].
    - destruct (Z.leb_spec st pg), (Z.ltb_spec pg nx); cbn [andb]; try done.
      unfold walk. assert (pg / 2 ^ 18 = st / 2 ^ 18) as -> by dlia.
      rewrite (walk3_pud _ _ _ _ _ _ Eold); by rewrite Hz.
    - apply ptes_tables_freed; [done|done|done|intros b _; apply Hno|]. split; [|done]. exists []. split; [done|]. intros b. split; [by intros ?%elem_of_nil|].
      intros (i & j & H & a & e' & Ha & _). unfold pte_in in H. assert (i = st / 2 ^ 18) as -> by dlia. by destruct (Hno a). }
  pose proof (Hnb _ _ (proj1 Hi) Eold) as Hh. set (a := stage2_table_addr old).
  assert (pmd_at (s2_mem s) pgdp (st / 2 ^ 18) a) as Hat by by exists old.
  unfold stage2_unmap_pmd_range. destruct (page_indices st Hs) as (_ & -> & _).
  destruct (unmap_pmd_loop_spec pgdp a _ 513 own st nx s Hwf Hat) as (s1 & own1 & -> & Hs1 & Hwf1 & Hr1 & Hu1 & Hg1);
    [done|done|done|done|dlia|]. msimpl.
  assert (no_pud_block (s2_mem s1) pgdp) as Hnb1.
  { intros x e Hx. unfold tread. rewrite Hr1. by apply Hnb. }
  destruct (is_pud_range _ _) eqn:Erange.
  2: { exists s1, own1. do 5 (split; [done|]). apply ptes_tables_freed; [done|done|done| |done]. intros b H. exfalso.
    destruct (pmd_in_one st nx _ Hst Hend H) as (_ & Hm & Hn). rewrite (is_pud_range_false st nx (proj1 Hst) Hm Hn Hnx) in Erange. done. }
  destruct (is_pud_range_true st nx) as [Hal Enx]; [lia|lia|done|]. subst nx.
  pose proof (wf_root _ _ _ (proj1 Hwf1)) as Hroot1.
  destruct (twrite_spec _ _ s1 pgdp _ (st / 2 ^ 18) 0 (proj1 Hwf1) Hroot1 Hi) as (s2 & -> & Hp2 & Hu2).
  msimpl. assert (pmd_at (s2_mem s1) pgdp (st / 2 ^ 18) a) as Hat1 by by eapply pmd_at_root.
  pose proof (pmd_at_own _ _ _ _ _ (proj1 Hwf1) (proj1 Hi) Hat1) as Ho1.
  destruct (free_pmd_table own1 pgdp s1 s2 a st) as (Hwf2 & Hnb2 & Hw2); try done.
  { by eapply entry_table_addr. }
  exists (free_pages a s2), (delete a own1). split; [done|]. split; [etrans; [apply delete_subseteq|done]|].
  split; [done|]. split; [done|]. split; [|apply (pmd_freed own1 pgdp st s s1 s2 a); (done || lia)].
  intros pg Hpg. rewrite Hw2 by done. specialize (Hu1 pg Hpg). revert Hu1.
  destruct (Z.eqb_spec (pg / 2 ^ 18) (st / 2 ^ 18)), (Z.leb_spec st pg), (Z.ltb_spec pg (st + 2 ^ 18));
    cbn [andb]; try done; exfalso; dlia.
Qed.

Lemma unmap_pud_loop_spec pgdp fuel : forall own st e s,
  s2_wf own pgdp s -> no_pud_block (s2_mem s) pgdp -> 0 <= st < e -> e <= NR_PAGES ->
  (e + (2 ^ 18 - 1)) / 2 ^ 18 - st / 2 ^ 18 <= Z.of_nat fuel ->
  unmap_result own pgdp s st e
    (unmap_pud_loop fuel pgdp (st / 2 ^ 18) (PAGE_SIZE * st) (PAGE_SIZE * e) s).
Proof.
  induction fuel as [|fuel IH]; intros own st e s Hwf Hnb Hst He Hf; [dlia|].
  cbn [unmap_pud_loop]. rewrite pud_addr_end by done. set (nx := Z.min (2 ^ 18 * (st / 2 ^ 18 + 1)) e).
  assert (st < nx <= e) as Hnx by (unfold nx; dlia). unfold NR_PAGES in *.
  destruct (unmap_pud_entry_spec own pgdp st nx s) as (s1 & own1 & -> & Hs1 & Hwf1 & Hnb1 & Hu1 & Hg1);
    [done|done|lia|unfold NR_PAGES; lia|unfold nx; lia|]. msimpl.
  destruct (Z.eqb_spec (PAGE_SIZE * nx) (PAGE_SIZE * e)) as [E|E].
  { assert (nx = e) as E' by (unfold PAGE_SIZE in *; lia). rewrite E' in Hu1, Hg1. by exists s1, own1. }
  assert (nx = 2 ^ 18 * (st / 2 ^ 18 + 1)) as Enx by (unfold nx, PAGE_SIZE in *; lia). clearbody nx.
  assert (st / 2 ^ 18 + 1 = nx / 2 ^ 18) as -> by (unfold PAGE_SIZE in *; dlia).
  destruct (IH own1 nx e s1) as (s2 & own2 & -> & Hs2 & Hwf2 & Hnb2 & Hu2 & Hg2);
    [done|done|unfold PAGE_SIZE in *; lia|lia|dlia|].
  exists s2, own2. split; [done|]. split; [by etrans|]. split; [done|]. split; [done|]. split.
  - eapply unmapped_range_trans; [|done..]. unfold PAGE_SIZE in *; lia.
  - apply (tables_freed_trans pgdp st nx e s s1 s2); [unfold PAGE_SIZE in *; lia|dlia|done|done].
Qed.

(** [arch_guest_unmap] starts at the first level entry of [end]; it works on the
    range when that is also the entry of [start]. *)
Lemma arch_guest_unmap_spec own pgdp s st e :
  s2_wf own pgdp s -> no_pud_block (s2_mem s) pgdp -> 0 <= st < e -> e <= NR_PAGES ->
  (e / 2 ^ 18) mod 1024 = st / 2 ^ 18 ->
  exists s' own', arch_guest_unmap pgdp (PAGE_SIZE * st) (PAGE_SIZE * e) s = Some (0, s')
    /\ own' ⊆ own /\ s2_wf own' pgdp s' /\ no_pud_block (s2_mem s') pgdp
    /\ unmapped_range (s2_mem s) (s2_mem s') pgdp st e /\ tables_freed pgdp st e s s'.
Proof.
  intros Hwf Hnb Hst He Hidx. unfold arch_guest_unmap, NR_PAGES, VMM_VIRT_MAX in *.
  rewrite (proj2 (Z.eqb_neq _ _)) by (unfold PAGE_SIZE; lia).
  rewrite (proj2 (Z.ltb_lt (PAGE_SIZE * st) _)), (proj2 (Z.leb_le (PAGE_SIZE * e) _))
    by (unfold PAGE_SIZE; lia). msimpl. unfold stage2_unmap_pud_range.
  assert (stage2_pud_index (PAGE_SIZE * e) = st / 2 ^ 18) as ->.
  { rewrite <- Hidx. unfold stage2_pud_index, S2_PUD_SHIFT, PAGE_SIZE. rewrite Z.shiftr_div_pow2 by lia.
    change (PTRS_PER_S2_PUD - 1) with (2 ^ 10 - 1). rewrite land_pow_pred by lia. dlia. }
  destruct (unmap_pud_loop_spec pgdp 1025 own st e s Hwf Hnb) as (s' & own' & -> & H);
    [done|unfold NR_PAGES; lia|dlia|]. msimpl. by exists s', own'.
Qed.

(** C35: on a range that starts and ends in one first level entry, and on the
    whole guest space, [arch_guest_unmap] succeeds when nothing is mapped by
    blocks of 1 GB: every page of the range is unmapped, other pages are
    unchanged unless they share a block of 2 MB with the range, the page table
    stays a tree, and exactly the tables of fully covered second and first
    level entries go to the pool. *)
Theorem arch_guest_unmap_correct own pgdp s st e :
  s2_wf own pgdp s -> no_pud_block (s2_mem s) pgdp -> 0 <= st < e -> e <= NR_PAGES ->
  e / 2 ^ 18 = st / 2 ^ 18 \/ (st = 0 /\ e = NR_PAGES) ->
  exists s' own', arch_guest_unmap pgdp (PAGE_SIZE * st) (PAGE_SIZE * e) s = Some (0, s')
    /\ own' ⊆ own /\ s2_wf own' pgdp s' /\ no_pud_block (s2_mem s') pgdp
    /\ unmapped_range (s2_mem s) (s2_mem s') pgdp st e /\ tables_freed pgdp st e s s'.
Proof.
  intros Hwf Hnb Hst He Hidx. apply arch_guest_unmap_spec; try done.
  destruct Hidx as [H|[-> ->]]; [|done]. rewrite H. unfold NR_PAGES in *. dlia.
Qed.

(** A range that ends where its first level entry ends is not unmapped:
    the walk of [arch_guest_unmap] starts one entry too far, and when nothing is
    mapped there the call reports success and changes nothing. *)
Theorem arch_guest_unmap_end_of_entry own pgdp s st e :
  s2_wf own pgdp s -> 0 <= st < e -> e < NR_PAGES -> e = 2 ^ 18 * (st / 2 ^ 18 + 1) ->
  tread (s2_mem s) pgdp (e / 2 ^ 18) = Some 0 ->
  arch_guest_unmap pgdp (PAGE_SIZE * st) (PAGE_SIZE * e) s = Some (0, s).
Proof.
  intros Hwf Hst He Hend E. unfold arch_guest_unmap, NR_PAGES, VMM_VIRT_MAX in *.
  rewrite (proj2 (Z.eqb_neq _ _)) by (unfold PAGE_SIZE; lia).
  rewrite (proj2 (Z.ltb_lt (PAGE_SIZE * st) _)), (proj2 (Z.leb_le (PAGE_SIZE * e) _))
    by (unfold PAGE_SIZE; lia). msimpl. unfold stage2_unmap_pud_range.
  destruct (page_indices e) as (-> & _); [unfold NR_PAGES; lia|].
  assert (forall f, unmap_pud_loop (S f) pgdp (e / 2 ^ 18) (PAGE_SIZE * st) (PAGE_SIZE * e) s = Some s) as Hl.
  { intros f. cbn [unmap_pud_loop]. rewrite pud_addr_end by (unfold NR_PAGES; lia).
    rewrite Z.min_r by lia. unfold unmap_pud_entry. rewrite E. msimpl. by rewrite Z.eqb_refl. }
  by rewrite (Hl 1024%nat).
Qed.

(** ** A new page table *)
Lemma new_pgd_wf own m pool p :
  pool_ok own pool -> p ∉ pool -> own = ∅ ->
  s2_wf {[p := KRoot]} p (mk_s2 (<[p := replicate 1024 0]> m) pool).
Proof.
  intros [Hnd Hall] Hp ->. split; [split|split; [done|]]; cbn [s2_mem s2_pool].
  - apply lookup_singleton_eq.
  - intros a kd Ha. apply lookup_singleton_Some in Ha as [<- <-]. exists (replicate 1024 0).
    split; [apply lookup_insert_eq|]. by rewrite length_replicate.
  - intros i e _. unfold tread. rewrite lookup_insert_eq. msimpl. intros H.
    apply lookup_replicate in H as [-> _]. by left.
  - intros a i j e Ha. apply lookup_singleton_Some in Ha as [_ [=]].
  - rewrite list.Forall_forall in *. intros q Hq. split; [by apply Hall|].
    rewrite lookup_singleton_ne; [done|]. by intros ->.
Qed.

(** The table of a new guest is well formed and maps no page. *)
Theorem arch_alloc_guest_pgd_empty m pool p pg :
  pool_ok ∅ pool -> p ∉ pool -> 0 <= pg < NR_PAGES ->
  let '(r, s) := arch_alloc_guest_pgd (Some p) (mk_s2 m pool) in
  r = Some p /\ s2_wf {[p := KRoot]} p s /\ walk (s2_mem s) p pg = Some Fault.
Proof.
  intros Hpool Hp Hpg. cbn [arch_alloc_guest_pgd s2_mem s2_pool]. split; [done|]. split; [by apply (new_pgd_wf ∅)|].
  unfold walk, NR_PAGES in *. rewrite (walk3_pud _ _ _ _ _ 0); [done| |done].
  unfold tread. rewrite lookup_insert_eq. msimpl. apply lookup_replicate. split; [done|dlia].
Qed.

(** ** Witnesses *)
Definition demo_root : Z := 0x2000.
Definition demo_s2 : s2 := mk_s2 {[demo_root := replicate 1024 0]} [0x5000; 0x6000; 0x7000].
Definition demo_flags : Z := Z.lor (Z.lor __VM_NORMAL VM_RW_MASK) __VM_HUGE_2M.

Lemma demo_wf : s2_wf {[demo_root := KRoot]} demo_root demo_s2.
Proof.
  apply (new_pgd_wf ∅ ∅); [|set_solver|done]. split.
  - repeat (apply list.NoDup_cons; split; [set_solver|]). constructor.
  - repeat (apply List.Forall_cons; [split; [|done]; split; [lia|reflexivity]|]). constructor.
Qed.

(** 2 MB + 2 pages at 1 GB: one block and two pages. *)
Definition demo_mapped : s2 :=
  match arch_guest_map demo_root (PAGE_SIZE * 2 ^ 18) (PAGE_SIZE * (2 ^ 18 + 514)) 0x80000000 demo_flags demo_s2 with
  | Some (_, s) => s
  | None => demo_s2
  end.

Lemma demo_map :
  arch_guest_map demo_root (PAGE_SIZE * 2 ^ 18) (PAGE_SIZE * (2 ^ 18 + 514)) 0x80000000 demo_flags demo_s2
  = Some (0, demo_mapped).
Proof. vm_compute. reflexivity. Qed.

Lemma arch_guest_map_correct_witness :
  map_result {[demo_root := KRoot]} demo_root demo_s2 (2 ^ 18) (2 ^ 18 + 514) 0x80000000 demo_flags
    (Some (0, demo_mapped)).
Proof.
  rewrite <- demo_map. apply (arch_guest_map_correct {[demo_root := KRoot]} demo_root demo_s2 (2 ^ 18) (2 ^ 18 + 514));
    [exact demo_wf|lia|unfold NR_PAGES; lia|unfold S2_PHYSICAL_MAX; lia|reflexivity].
Defined.

Lemma guest_map_then_translate_witness :
  arch_translate_guest_ipa demo_root 0x40012345 (s2_mem demo_mapped) = Some (0, Some 0x80012345)
  /\ arch_translate_guest_ipa demo_root 0x40200678 (s2_mem demo_mapped) = Some (0, Some 0x80200678).
Proof.
  split; (erewrite (guest_map_then_translate {[demo_root := KRoot]} demo_root demo_s2 demo_mapped
    (2 ^ 18) (2 ^ 18 + 514) 0x80000000 demo_flags);
    [reflexivity|exact demo_wf|lia|unfold NR_PAGES; lia|unfold S2_PHYSICAL_MAX; lia|reflexivity|reflexivity
    |exact demo_map|unfold PAGE_SIZE; lia]).
Defined.

Lemma demo_mapped_wf : exists own, s2_wf own demo_root demo_mapped.
Proof.
  destruct (arch_guest_map_spec {[demo_root := KRoot]} demo_root demo_s2 (2 ^ 18) (2 ^ 18 + 514) 0x80000000 demo_flags) as (r & s' & own' & x & E & _ & Hwf & _);
    [exact demo_wf|lia|unfold NR_PAGES; lia|unfold S2_PHYSICAL_MAX; lia|reflexivity|].
  rewrite demo_map in E. injection E as _ <-. by exists own'.
Qed.

Lemma demo_no_pud_block : no_pud_block (s2_mem demo_mapped) demo_root.
Proof.
  assert (forallb (fun e => negb (stage2_huge e)) (default [] (s2_mem demo_mapped !! demo_root)) = true) as H by (vm_compute; reflexivity).
  intros i e _. unfold tread. destruct (s2_mem demo_mapped !! demo_root) as [l|]; [|done]. cbn [default mbind option_bind] in *. intros Hl.
  rewrite forallb_forall in H. specialize (H e). apply negb_true_iff, H, list_elem_of_In. by eapply list_elem_of_lookup_2.
Qed.

(** The two pages at the end of [demo_mapped] are taken away with their table:
    the block before them stays, and the table is back in the pool. *)
Lemma arch_guest_unmap_correct_witness :
  exists s', arch_guest_unmap demo_root (PAGE_SIZE * (2 ^ 18 + 512)) (PAGE_SIZE * (2 ^ 18 + 1024)) demo_mapped = Some (0, s')
    /\ walk (s2_mem s') demo_root (2 ^ 18 + 513) = Some Fault /\ walk (s2_mem s') demo_root (2 ^ 18 + 511) = walk (s2_mem demo_mapped) demo_root (2 ^ 18 + 511)
    /\ s2_pool demo_mapped = [0x7000] /\ s2_pool s' = [0x6000; 0x7000] /\ exists l, s2_pool s' = l ++ [0x7000].
Proof.
  destruct demo_mapped_wf as [own Hwf].
  destruct (arch_guest_unmap_correct own demo_root demo_mapped (2 ^ 18 + 512) (2 ^ 18 + 1024))
    as (s' & own' & E & _ & _ & _ & Hu & (l & Hl & _) & _);
    [exact Hwf|exact demo_no_pud_block|lia|unfold NR_PAGES; lia|left; reflexivity|].
  assert (s2_pool demo_mapped = [0x7000]) as Ep by (vm_compute; reflexivity).
  assert (s2_pool <$> (snd <$> arch_guest_unmap demo_root (PAGE_SIZE * (2 ^ 18 + 512)) (PAGE_SIZE * (2 ^ 18 + 1024)) demo_mapped) = Some [0x6000; 0x7000]) as Hx by (vm_compute; reflexivity).
  rewrite E in Hx. cbn [fmap option_fmap option_map snd] in Hx. injection Hx as Hx. rewrite Ep in Hl.
  pose proof (Hu (2 ^ 18 + 513) ltac:(unfold NR_PAGES; lia)) as H1. pose proof (Hu (2 ^ 18 + 511) ltac:(unfold NR_PAGES; lia)) as H2.
  rewrite (proj2 (andb_true_iff _ _)) in H1 by (split; reflexivity). rewrite (proj2 (andb_false_iff _ _)) in H2 by (left; reflexivity).
  exists s'. split; [exact E|]. split; [exact H1|]. split; [|exact (conj Ep (conj Hx (ex_intro _ l Hl)))].
  destruct H2 as [H2|(_ & _ & [H2 _])]; [exact H2|]. exfalso. revert H2. clear. intros H2. vm_compute in H2. apply H2. reflexivity.
Defined.

Lemma arch_guest_unmap_end_of_entry_witness :
  arch_guest_unmap demo_root (PAGE_SIZE * 5) (PAGE_SIZE * 2 ^ 18) demo_s2 = Some (0, demo_s2).
Proof.
  apply (arch_guest_unmap_end_of_entry {[demo_root := KRoot]} demo_root demo_s2 5 (2 ^ 18));
    [exact demo_wf|lia|unfold NR_PAGES; lia|reflexivity|vm_compute; reflexivity].
Defined.

Lemma arch_alloc_guest_pgd_empty_witness :
  walk (s2_mem (arch_alloc_guest_pgd (Some 0x2000) (mk_s2 ∅ [])).2) 0x2000 77 = Some Fault.
Proof.
  destruct (arch_alloc_guest_pgd_empty ∅ [] 0x2000 77) as (_ & _ & H);
    [split; [constructor|constructor]|set_solver|unfold NR_PAGES; lia|exact H].
Defined.
