(* ===== verification/Stage1.v ===== *)
(** * The page table of the hypervisor (arch/aarch64/core/stage1.c, stage1.h,
      core/vspace.c)

    The hypervisor has one page table of three levels for itself, with a root of
    512 entries.  The tables live in the same kind of memory as those of the
    guests ([s2]), and the walk and the tree of tables are those of Stage2; a
    block that is taken for a table leads to memory that is no table, which is
    [None].  [vtop], [ptov] and [__va] are the identity (CONFIG_ARM_ADDRESS_TAGGING
    is off).  The loops over the entries of a last level table are the ones of the
    guest tables, [map_pte_loop] and [unmap_pte_loop], which stage1.c has in the
    same form.  The lock of the host space makes each operation one step. *)
From S2P Require Import Prelude Stage2.

Definition S1_DES_BLOCK : Z := 1.
Definition S1_DES_TABLE : Z := 3.
Definition S1_DES_PAGE : Z := 3.
Definition S1_PXN : Z := 2 ^ 53.
Definition S1_XN : Z := 2 ^ 54.
Definition S1_PFNMAP : Z := 2 ^ 55.
Definition S1_DEVMAP : Z := 2 ^ 56.
Definition S1_SHARED : Z := 2 ^ 57.
Definition S1_NS : Z := 0x20.
Definition S1_AP_RW : Z := 0.
Definition S1_AP_RO : Z := 0x80.
Definition S1_SH_INNER : Z := 0x300.
Definition S1_AF : Z := 0x400.
Definition S1_ATTR_IDX (n : Z) : Z := Z.shiftl (Z.land n 0xf) 2.
Definition MT_DEVICE_nGnRE : Z := 1.
Definition MT_NORMAL_NC : Z := 3.
Definition MT_NORMAL : Z := 4.
Definition MT_NORMAL_WT : Z := 5.

Definition s1_memory (des mt : Z) : Z := Z.lor (Z.lor (Z.lor (Z.lor des S1_AF) S1_NS) S1_SH_INNER) (S1_ATTR_IDX mt).
Definition S1_PAGE_NORMAL : Z := s1_memory S1_DES_PAGE MT_NORMAL.
Definition S1_PAGE_NORMAL_NC : Z := s1_memory S1_DES_PAGE MT_NORMAL_NC.
Definition S1_PAGE_DEVICE : Z := s1_memory S1_DES_PAGE MT_DEVICE_nGnRE.
Definition S1_PAGE_WT : Z := s1_memory S1_DES_PAGE MT_NORMAL_WT.
Definition S1_BLOCK_NORMAL : Z := s1_memory S1_DES_BLOCK MT_NORMAL.
Definition S1_BLOCK_NORMAL_NC : Z := s1_memory S1_DES_BLOCK MT_NORMAL_NC.
Definition S1_BLOCK_DEVICE : Z := s1_memory S1_DES_BLOCK MT_DEVICE_nGnRE.
Definition S1_BLOCK_WT : Z := s1_memory S1_DES_BLOCK MT_NORMAL_WT.

Definition S1_PUD_SHIFT : Z := 30.
Definition S1_PUD_SIZE : Z := 2 ^ 30.
Definition S1_PMD_SHIFT : Z := 21.
Definition S1_PMD_SIZE : Z := 2 ^ 21.
Definition S1_PMD_MASK : Z := not64 (S1_PMD_SIZE - 1).
Definition S1_PTE_SHIFT : Z := 12.
Definition S1_PTE_MASK : Z := not64 (2 ^ 12 - 1).
Definition S1_PHYSICAL_MASK : Z := 0x0000fffffffff000.
Definition S1_PHYSICAL_MAX : Z := 2 ^ 40.
Definition S1_VIRT_MAX : Z := 2 ^ 39.
Definition PTRS_PER_S1_PUD : Z := 512.
Definition PTRS_PER_S1_PMD : Z := 512.
Definition PTRS_PER_S1_PTE : Z := 512.

Definition stage1_pud_index (addr : Z) : Z := Z.land (Z.shiftr (Z.land addr S1_PHYSICAL_MASK) S1_PUD_SHIFT) (PTRS_PER_S1_PUD - 1).
Definition stage1_pmd_index (addr : Z) : Z := Z.land (Z.shiftr (Z.land addr S1_PHYSICAL_MASK) S1_PMD_SHIFT) (PTRS_PER_S1_PMD - 1).
Definition stage1_pte_index (addr : Z) : Z := Z.land (Z.shiftr (Z.land addr S1_PHYSICAL_MASK) S1_PTE_SHIFT) (PTRS_PER_S1_PTE - 1).
Definition stage1_pmd_huge (pmd : Z) : bool := negb (pmd =? 0) && (Z.land pmd 0x03 =? S1_DES_BLOCK).
Definition stage1_table_addr (e : Z) : Z := Z.land e S1_PHYSICAL_MASK.
Definition stage1_none (e : Z) : bool := e =? 0.

Definition stage1_xxx_addr_end (start end_ map_size : Z) : Z :=
  let boundary := Z.land (u64 (start + map_size)) (not64 (map_size - 1)) in
  if u64 (boundary - 1) <? u64 (end_ - 1) then boundary else end_.

Definition stage1_populate (p i addr : Z) (s : s2) : option s2 := twrite p i (Z.lor addr S1_DES_TABLE) s.

(** What both kinds of descriptors get behind their memory type. *)
Definition stage1_access_attr (flags attr : Z) : Z :=
  let attr := Z.lor attr (if Z.land flags VM_RW_MASK =? __VM_RO then S1_AP_RO else S1_AP_RW) in
  let attr := if Z.land flags __VM_EXEC =? 0 then Z.lor attr (Z.lor S1_XN S1_PXN) else attr in
  let attr := if negb (Z.land flags __VM_PFNMAP =? 0) then Z.lor attr S1_PFNMAP else attr in
  let attr := if negb (Z.land flags __VM_DEVMAP =? 0) then Z.lor attr S1_DEVMAP else attr in
  if negb (Z.land flags __VM_SHARED =? 0) then Z.lor attr S1_SHARED else attr.

Definition stage1_pmd_attr (phy flags : Z) : Z :=
  let t := Z.land flags VM_TYPE_MASK in
  stage1_access_attr flags
    (Z.lor (Z.land phy S1_PMD_MASK)
      (if t =? __VM_NORMAL_NC then S1_BLOCK_NORMAL_NC else if t =? __VM_IO then S1_BLOCK_DEVICE
       else if t =? __VM_WT then S1_BLOCK_WT else S1_BLOCK_NORMAL)).

Definition stage1_pte_attr (phy flags : Z) : Z :=
  let t := Z.land flags VM_TYPE_MASK in
  stage1_access_attr flags
    (Z.lor (Z.land phy S1_PTE_MASK)
      (if t =? __VM_NORMAL_NC then S1_PAGE_NORMAL_NC else if t =? __VM_IO then S1_PAGE_DEVICE
       else if t =? __VM_WT then S1_PAGE_WT else S1_PAGE_NORMAL)).

(** ** Unmapping *)
Definition stage1_unmap_pte_range (ptep addr end_ : Z) (s : s2) : option s2 :=
  unmap_pte_loop 513 ptep (stage1_pte_index addr) addr end_ s.

Definition s1_unmap_pmd_entry (p i addr next : Z) (s : s2) : option s2 :=
  pmd ← tread (s2_mem s) p i;
  if stage1_none pmd then Some s
  else if stage1_pmd_huge pmd then twrite p i 0 s
  else stage1_unmap_pte_range (stage1_table_addr pmd) addr next s.

Fixpoint s1_unmap_pmd_loop (fuel : nat) (p i addr end_ : Z) (s : s2) : option s2 :=
  match fuel with
  | O => None
  | S fuel =>
      let next := stage1_xxx_addr_end addr end_ S1_PMD_SIZE in
      s ← s1_unmap_pmd_entry p i addr next s;
      if next =? end_ then Some s else s1_unmap_pmd_loop fuel p (i + 1) next end_ s
  end.

Definition stage1_unmap_pmd_range (pmdp addr end_ : Z) (s : s2) : option s2 :=
  s1_unmap_pmd_loop 513 pmdp (stage1_pmd_index addr) addr end_ s.

Definition s1_unmap_pud_entry (pgdp i addr next : Z) (s : s2) : option s2 :=
  pud ← tread (s2_mem s) pgdp i;
  if stage1_none pud then Some s else stage1_unmap_pmd_range (stage1_table_addr pud) addr next s.

Fixpoint s1_unmap_pud_loop (fuel : nat) (pgdp i addr end_ : Z) (s : s2) : option s2 :=
  match fuel with
  | O => None
  | S fuel =>
      let next := stage1_xxx_addr_end addr end_ S1_PUD_SIZE in
      s ← s1_unmap_pud_entry pgdp i addr next s;
      if next =? end_ then Some s else s1_unmap_pud_loop fuel pgdp (i + 1) next end_ s
  end.

(** The first entry visited is that of [end]. *)
Definition stage1_unmap_pud_range (pgdp addr end_ : Z) (s : s2) : option (Z * s2) :=
  s ← s1_unmap_pud_loop 513 pgdp (stage1_pud_index end_) addr end_ s;
  Some (0, s).

(** ** Mapping *)
Definition stage1_map_pte_range (ptep start end_ physical flags : Z) (s : s2) : option (Z * s2) :=
  s ← map_pte_loop 513 ptep (stage1_pte_index start) start end_ physical (stage1_pte_attr 0 flags) s;
  Some (0, s).

Definition stage1_pmd_huge_page (old_pmd start phy size flags : Z) : bool :=
  if (Z.land flags __VM_HUGE_2M =? 0) || negb (old_pmd =? 0) then false
  else if negb (IS_BLOCK_ALIGN start) || negb (IS_BLOCK_ALIGN phy) || negb (IS_BLOCK_ALIGN size) then false
  else true.

(** The entry [i] of a second level table; a block that is there already is taken
    for a table. *)
Definition s1_map_pmd_entry (p i start next physical flags : Z) (s : s2) : option (Z * s2) :=
  let size := u64 (next - start) in
  old_pmd ← tread (s2_mem s) p i;
  if stage1_pmd_huge_page old_pmd start physical size flags then
    s ← twrite p i (stage1_pmd_attr physical flags) s;
    Some (0, s)
  else if stage1_none old_pmd then
    match get_zeroed_page s with
    | None => Some (- ENOMEM, s)
    | Some (ptep, s) =>
        s ← stage1_populate p i ptep s;
        stage1_map_pte_range ptep start next physical flags s
    end
  else stage1_map_pte_range (stage1_table_addr old_pmd) start next physical flags s.

Fixpoint s1_map_pmd_loop (fuel : nat) (p i start end_ physical flags : Z) (s : s2) : option (Z * s2) :=
  match fuel with
  | O => None
  | S fuel =>
      let next := stage1_xxx_addr_end start end_ S1_PMD_SIZE in
      '(ret, s) ← s1_map_pmd_entry p i start next physical flags s;
      if negb (ret =? 0) then Some (ret, s)
      else if next =? end_ then Some (0, s)
      else s1_map_pmd_loop fuel p (i + 1) next end_ (u64 (physical + u64 (next - start))) flags s
  end.

Definition stage1_map_pmd_range (pmdp start end_ physical flags : Z) (s : s2) : option (Z * s2) :=
  s1_map_pmd_loop 513 pmdp (stage1_pmd_index start) start end_ physical flags s.

Definition s1_map_pud_entry (pgdp i start next physical flags : Z) (s : s2) : option (Z * s2) :=
  pud ← tread (s2_mem s) pgdp i;
  if stage1_none pud then
    match get_zeroed_page s with
    | None => Some (- ENOMEM, s)
    | Some (pmdp, s) =>
        s ← stage1_populate pgdp i pmdp s;
        stage1_map_pmd_range pmdp start next physical flags s
    end
  else stage1_map_pmd_range (stage1_table_addr pud) start next physical flags s.

Fixpoint s1_map_pud_loop (fuel : nat) (pgdp i start end_ physical flags : Z) (s : s2) : option (Z * s2) :=
  match fuel with
  | O => None
  | S fuel =>
      let next := stage1_xxx_addr_end start end_ S1_PUD_SIZE in
      '(ret, s) ← s1_map_pud_entry pgdp i start next physical flags s;
      if negb (ret =? 0) then Some (ret, s)
      else if next =? end_ then Some (0, s)
      else s1_map_pud_loop fuel pgdp (i + 1) next end_ (u64 (physical + u64 (next - start))) flags s
  end.

Definition stage1_map_pud_range (pgdp start end_ physical flags : Z) (s : s2) : option (Z * s2) :=
  s1_map_pud_loop 513 pgdp (stage1_pud_index start) start end_ physical flags s.

(** ** Single addresses *)

(** The entry that [va] leads to, as the table and the index: of a block ([inl]) or
    of a page ([inr]), or the error. *)
Definition stage1_get_leaf_entry (pgdp va : Z) (m : table_mem) : option (Z + (Z * Z + Z * Z)) :=
  pud ← tread m pgdp (stage1_pud_index va);
  if stage1_none pud then Some (inl (- ENOMEM))
  else
    let pmdp := stage1_table_addr pud in
    pmd ← tread m pmdp (stage1_pmd_index va);
    if stage1_none pmd then Some (inl (- ENOMEM))
    else if stage1_pmd_huge pmd then Some (inr (inl (pmdp, stage1_pmd_index va)))
    else Some (inr (inr (stage1_table_addr pmd, stage1_pte_index va))).

Definition arch_host_change_map (pgdp vir phy flags : Z) (s : s2) : option (Z * s2) :=
  leaf ← stage1_get_leaf_entry pgdp vir (s2_mem s);
  match leaf with
  | inl ret => Some (ret, s)
  | inr (inl (p, i)) =>
      s ← twrite p i 0 s;
      s ← twrite p i (stage1_pmd_attr phy flags) s;
      Some (0, s)
  | inr (inr (p, i)) =>
      s ← twrite p i 0 s;
      s ← twrite p i (stage1_pte_attr phy flags) s;
      Some (0, s)
  end.

(** The address of a block is computed and not returned. *)
Definition stage1_va_to_pa (pgdp va : Z) (m : table_mem) : option Z :=
  let pte_offset := Z.land va (not64 S1_PTE_MASK) in
  pud ← tread m pgdp (stage1_pud_index va);
  if stage1_none pud then Some 0
  else
    pmd ← tread m (stage1_table_addr pud) (stage1_pmd_index va);
    if stage1_none pmd then Some 0
    else if stage1_pmd_huge pmd then Some 0
    else
      pte ← tread m (stage1_table_addr pmd) (stage1_pte_index va);
      let phy := Z.land pte S1_PHYSICAL_MASK in
      if phy =? 0 then Some 0 else Some (u64 (phy + pte_offset)).

Definition arch_translate_va_to_pa (pgdp va : Z) (m : table_mem) : option Z := stage1_va_to_pa pgdp va m.

Definition arch_host_map (pgdp start end_ physical flags : Z) (s : s2) : option (Z * s2) :=
  if end_ =? start then Some (- EINVAL, s)
  else
    _ ← assert_ ((start <? S1_VIRT_MAX) && (end_ <=? S1_VIRT_MAX));
    _ ← assert_ (physical <? S1_PHYSICAL_MAX);
    _ ← assert_ (IS_PAGE_ALIGN start && IS_PAGE_ALIGN end_ && IS_PAGE_ALIGN physical);
    stage1_map_pud_range pgdp start end_ physical flags s.

Definition arch_host_unmap (pgdp start end_ : Z) (s : s2) : option (Z * s2) :=
  _ ← assert_ ((start <? S1_VIRT_MAX) && (end_ <=? S1_VIRT_MAX));
  stage1_unmap_pud_range pgdp start end_ s.

(** ** vspace.c *)
Definition create_host_mapping (pgdp vir phy size flags : Z) (s : s2) : option (Z * s2) :=
  if negb (IS_PAGE_ALIGN vir) || negb (IS_PAGE_ALIGN phy) || negb (IS_PAGE_ALIGN size) then Some (- EINVAL, s)
  else arch_host_map pgdp vir (u64 (vir + size)) phy (Z.lor (Z.lor flags VM_HOST) VM_HUGE) s.

Definition destroy_host_mapping (pgdp vir size : Z) (s : s2) : option (Z * s2) :=
  if negb (IS_PAGE_ALIGN vir) || negb (IS_PAGE_ALIGN size) then Some (- EINVAL, s)
  else arch_host_unmap pgdp vir (u64 (vir + size)) s.

Definition change_host_mapping (pgdp vir phy new_flags : Z) (s : s2) : option (Z * s2) :=
  arch_host_change_map pgdp vir phy (Z.lor new_flags VM_HOST) s.

Definition translate_va_to_pa (pgdp va : Z) (s : s2) : option Z := arch_translate_va_to_pa pgdp va (s2_mem s).

(** [None] for the address is NULL. *)
Definition io_remap (pgdp vir size : Z) (s : s2) : option (option Z * s2) :=
  let end_ := PAGE_BALIGN (u64 (vir + size)) in
  let start := PAGE_ALIGN vir in
  let new_size := u64 (end_ - vir) in
  '(ret, s) ← create_host_mapping pgdp start vir new_size (Z.lor VM_IO VM_RW) s;
  Some (if ret =? 0 then Some vir else None, s).

Definition io_unmap (pgdp vir size : Z) (s : s2) : option (Z * s2) :=
  arch_host_unmap pgdp (PAGE_ALIGN vir) (PAGE_BALIGN (u64 (vir + size))) s.

(** ** Descriptors *)
#[local] Instance stage1_root_ptrs : RootPtrs := PTRS_PER_S1_PUD.

Lemma access_attr_lor flags x : stage1_access_attr flags x = Z.lor x (stage1_access_attr flags 0).
Proof. unfold stage1_access_attr. cbn zeta. repeat case_match; by rewrite ?Z.lor_0_l, <- ?Z.lor_assoc. Qed.

Lemma s1_access_fields flags : Z.land (stage1_access_attr flags 0) S2_PHYSICAL_MASK = 0 /\ Z.land (stage1_access_attr flags 0) 3 = 0.
Proof. unfold stage1_access_attr. cbn zeta. repeat case_match; split; reflexivity. Qed.

Lemma pte_attr_ok flags : page_attr (stage1_pte_attr 0 flags).
Proof.
  unfold page_attr, stage1_pte_attr. cbn zeta. rewrite access_attr_lor, Z.land_0_l, Z.lor_0_l, !Z.land_lor_distr_l.
  destruct (s1_access_fields flags) as [-> ->]. by repeat case_match.
Qed.

Lemma pmd_attr_ok flags : block_attr (stage1_pmd_attr 0 flags).
Proof.
  unfold block_attr, stage1_pmd_attr. cbn zeta. rewrite access_attr_lor, Z.land_0_l, Z.lor_0_l, !Z.land_lor_distr_l.
  destruct (s1_access_fields flags) as [-> ->]. by repeat case_match.
Qed.

Lemma attr_lor flags x c : stage1_access_attr flags (Z.lor x c) = Z.lor (stage1_access_attr flags c) x.
Proof. by rewrite access_attr_lor, (access_attr_lor flags c), <- Z.lor_assoc, Z.lor_comm. Qed.

Lemma pmd_attr_split phy flags : 0 <= phy < 2 ^ 64 -> phy mod S1_PMD_SIZE = 0 -> stage1_pmd_attr phy flags = Z.lor (stage1_pmd_attr 0 flags) phy.
Proof.
  intros Hp Hm. unfold stage1_pmd_attr. cbn zeta. rewrite attr_lor, Z.land_0_l, Z.lor_0_l. f_equal.
  unfold S1_PMD_MASK, S1_PMD_SIZE in *. rewrite land_not64_pow2 by lia. dlia.
Qed.

Lemma pte_attr_split phy flags : 0 <= phy < 2 ^ 64 -> phy mod PAGE_SIZE = 0 -> stage1_pte_attr phy flags = Z.lor (stage1_pte_attr 0 flags) phy.
Proof.
  intros Hp Hm. unfold stage1_pte_attr. cbn zeta. rewrite attr_lor, Z.land_0_l, Z.lor_0_l. f_equal.
  unfold S1_PTE_MASK, PAGE_SIZE in *. rewrite land_not64_pow2 by lia. dlia.
Qed.

(** ** Indices *)
Definition S1_PAGES : Z := 2 ^ 27.

Lemma s1_indices va : 0 <= va < S1_VIRT_MAX ->
  stage1_pud_index va = va / PAGE_SIZE / 2 ^ 18 /\ stage1_pmd_index va = va / PAGE_SIZE / 512 mod 512 /\ stage1_pte_index va = va / PAGE_SIZE mod 512.
Proof.
  intros Hv. unfold stage1_pud_index, stage1_pmd_index, stage1_pte_index, S1_VIRT_MAX in *.
  change S1_PHYSICAL_MASK with S2_PHYSICAL_MASK. rewrite land_physical_mask. unfold S1_PUD_SHIFT, S1_PMD_SHIFT, S1_PTE_SHIFT, PAGE_SIZE.
  change (PTRS_PER_S1_PUD - 1) with (2 ^ 9 - 1). change (PTRS_PER_S1_PMD - 1) with (2 ^ 9 - 1). change (PTRS_PER_S1_PTE - 1) with (2 ^ 9 - 1).
  rewrite !Z.shiftr_div_pow2, !land_pow_pred by lia. dlia.
Qed.

Lemma s1_page_indices st : 0 <= st < S1_PAGES ->
  stage1_pud_index (PAGE_SIZE * st) = st / 2 ^ 18 /\ stage1_pmd_index (PAGE_SIZE * st) = st / 512 mod 512 /\ stage1_pte_index (PAGE_SIZE * st) = st mod 512.
Proof.
  intros Hs. unfold S1_PAGES in *. assert (PAGE_SIZE * st / PAGE_SIZE = st) as E by (unfold PAGE_SIZE; dlia).
  destruct (s1_indices (PAGE_SIZE * st)) as (-> & -> & ->); [unfold S1_VIRT_MAX, PAGE_SIZE; lia|]. by rewrite E.
Qed.

(** ** Mapping *)

(** The leaf of a page of the host. *)
Definition host_leaf (flags pg pa : Z) (lf : option leaf) : Prop :=
  page_leaf (stage1_pte_attr 0 flags) pg pa lf
  \/ (Z.land flags __VM_HUGE_2M <> 0 /\ block_leaf (stage1_pmd_attr 0 flags) pg pa lf).

(** No page of the range is part of a block. *)
Definition no_block (m : table_mem) (pgdp st e : Z) : Prop :=
  forall pg d, st <= pg < e -> walk m pgdp pg <> Some (Block d) /\ walk m pgdp pg <> Some (PudBlock d).

(** What a mapping step or loop for the pages [st, e) returns: it stops at page
    [x], which is [e] on success; otherwise there was no page for a table. *)
Definition map1_result (own : gmap Z kind) (pgdp : Z) (s : s2) (st e phys flags : Z) (res : option (Z * s2)) : Prop :=
  exists r s' own' x, res = Some (r, s') /\ own ⊆ own' /\ s2_wf own' pgdp s' /\ st <= x <= e
    /\ mapped_by (host_leaf flags) (s2_mem s) (s2_mem s') pgdp st x phys
    /\ ((r = 0 /\ x = e) \/ (x < e /\ r = - ENOMEM /\ s2_pool s' = [])).

Definition map1_below (own : gmap Z kind) (pgdp : Z) (s : s2) (st e phys flags : Z) (res : option (Z * s2)) : Prop :=
  map1_result own pgdp s st e phys flags res /\ forall r s', res = Some (r, s') -> s2_mem s' !! pgdp = s2_mem s !! pgdp.

Lemma map1_stop own pgdp s st e phys flags : s2_wf own pgdp s -> st < e -> s2_pool s = [] -> map1_below own pgdp s st e phys flags (Some (- ENOMEM, s)).
Proof.
  intros Hwf Hst Hp. split; [|by intros ? ? [= <- <-]]. exists (- ENOMEM), s, own, st. do 3 (split; [done|]). split; [lia|].
  split; [by apply mapped_by_nil|]. by right.
Qed.

Lemma map1_pte own own' pgdp s s1 b flags st nx phys :
  own ⊆ own' -> s2_wf own' pgdp s1 -> s2_mem s1 !! pgdp = s2_mem s !! pgdp ->
  (forall pg, 0 <= pg < NR_PAGES -> walk (s2_mem s1) pgdp pg = walk (s2_mem s) pgdp pg) ->
  pte_at (s2_mem s1) pgdp (st / 2 ^ 18) (st / 512 mod 512) b ->
  0 <= st < nx -> nx <= S1_PAGES -> nx <= 512 * (st / 512 + 1) ->
  0 <= phys -> phys mod PAGE_SIZE = 0 -> phys + PAGE_SIZE * (nx - st) <= 2 ^ 47 ->
  map1_below own pgdp s st nx phys flags (stage1_map_pte_range b (PAGE_SIZE * st) (PAGE_SIZE * nx) phys flags s1).
Proof.
  intros Hs Hwf1 Hroot Hsame Hat Hst Hnx Hend Hp Hpm Hpe. unfold S1_PAGES in *. unfold stage1_map_pte_range.
  destruct (s1_page_indices st) as (_ & _ & ->); [unfold S1_PAGES; lia|].
  destruct (map_pte_loop_spec own' pgdp b (stage1_pte_attr 0 flags) _ _ 513 (pte_attr_ok flags) st nx phys s1 Hwf1 Hat)
    as (s2 & -> & Hwf2 & _ & Hf & Hm); [done|unfold NR_PAGES; lia|done|done|done|dlia|done|done|lia|]. msimpl.
  assert (own' !! b = Some (KPte (st / 2 ^ 18) (st / 512 mod 512))) as Hob by (eapply pte_at_own; [apply Hwf1|dlia|dlia|done]).
  split.
  - exists 0, s2, own', nx. do 3 (split; [done|]). split; [lia|]. split; [|by left].
    eapply mapped_by_same; [done|]. revert Hm. apply mapped_by_mono. intros pg pa lf H. by left.
  - intros r s' [= <- <-]. rewrite Hf; [done|]. intros ->. rewrite (wf_root _ _ _ (proj1 Hwf1)) in Hob. congruence.
Qed.

Lemma s1_huge_page_true old st nx phys flags :
  0 <= st < nx -> nx <= S1_PAGES -> nx <= 512 * (st / 512 + 1) ->
  stage1_pmd_huge_page old (PAGE_SIZE * st) phys (u64 (PAGE_SIZE * nx - PAGE_SIZE * st)) flags = true ->
  old = 0 /\ nx = st + 512 /\ st mod 512 = 0 /\ phys mod S2_PMD_SIZE = 0 /\ Z.land flags __VM_HUGE_2M <> 0.
Proof.
  intros Hst Hnx Hend H. assert (Z.land flags __VM_HUGE_2M <> 0) as Hf.
  { intros E. unfold stage1_pmd_huge_page in H. by rewrite E in H. }
  destruct (pmd_huge_page_true old st nx phys __VM_HUGE_2M) as (-> & H1 & H2 & H3 & _); [done|unfold NR_PAGES, S1_PAGES in *; lia|done| |done].
  unfold stage1_pmd_huge_page in H. unfold stage2_pmd_huge_page. change (Z.land __VM_HUGE_2M _ =? 0) with false. cbn [orb].
  destruct (Z.land flags __VM_HUGE_2M =? 0); [done|]. cbn [orb] in H. destruct (negb (old =? 0)); [done|]. destruct (_ || _); done.
Qed.

Lemma s1_map_pmd_entry_spec own pgdp a flags st nx phys s :
  s2_wf own pgdp s -> pmd_at (s2_mem s) pgdp (st / 2 ^ 18) a -> no_block (s2_mem s) pgdp st nx ->
  0 <= st < nx -> nx <= S1_PAGES -> nx <= 512 * (st / 512 + 1) ->
  0 <= phys -> phys mod PAGE_SIZE = 0 -> phys + PAGE_SIZE * (nx - st) <= 2 ^ 47 ->
  map1_below own pgdp s st nx phys flags (s1_map_pmd_entry a (st / 512 mod 512) (PAGE_SIZE * st) (PAGE_SIZE * nx) phys flags s).
Proof.
  intros Hwf Hat Hnb Hst Hnx Hend Hp Hpm Hpe. unfold s1_map_pmd_entry, S1_PAGES in *.
  assert (0 <= st / 2 ^ 18) as Hi by dlia. assert (0 <= st / 512 mod 512 < 512) as Hj by dlia.
  pose proof (pmd_at_own _ _ _ _ _ (proj1 Hwf) Hi Hat) as Ho. pose proof (wf_root _ _ _ (proj1 Hwf)) as Hr.
  destruct (tread_some _ _ _ _ _ (st / 512 mod 512) (proj1 Hwf) Ho Hj) as (old & Eold).
  rewrite Eold. msimpl. destruct (stage1_pmd_huge_page _ _ _ _ _) eqn:Ehuge.
  - destruct (s1_huge_page_true _ _ _ _ _ Hst Hnx Hend Ehuge) as (-> & -> & Hal & Hpa & Hfl).
    unfold PAGE_SIZE in Hpe. rewrite pmd_attr_split by (unfold S2_PMD_SIZE in *; (lia || done)).
    destruct (twrite_spec _ _ s a _ (st / 512 mod 512) (Z.lor (stage1_pmd_attr 0 flags) phys) (proj1 Hwf) Ho Hj) as (s1 & -> & Hp1 & Hu). msimpl.
    destruct (block_write_walk own pgdp s s1 a st (stage1_pmd_attr 0 flags) phys) as [Hwf1 Hm]; try (done || lia || apply pmd_attr_ok); [unfold NR_PAGES; lia|].
    split; [|intros r s' [= <- <-]; apply Hu; congruence].
    exists 0, s1, own, (st + 512). do 3 (split; [done|]). split; [lia|]. split; [|by left].
    revert Hm. apply mapped_by_mono. intros pg pa lf H. by right.
  - unfold stage1_none. destruct (Z.eqb_spec old 0) as [->|Hold].
    + destruct (s2_pool s) as [|p pool] eqn:Epool.
      { unfold get_zeroed_page. rewrite Epool. apply map1_stop; [done|lia|done]. }
      destruct (populate_spec own pgdp s p pool a _ _ Hwf Epool Ho Hj) as (s1 & s2 & -> & E2 & Hsub & Hwf2 & Hp2 & Hta & Hnone & Hu).
      change stage1_populate with stage2_populate. rewrite E2. msimpl.
      destruct (populate_pmd_walk own pgdp (s2_mem s) (s2_mem s2) p _ a _ (proj1 Hwf) Hnone Hta Hi (proj1 Hj) Hat Eold Hu) as (_ & Hpte & Hw).
      eapply map1_pte; [exact Hsub|done| | |done..].
      * destruct Hu as [Hu _]. rewrite Hu by congruence. apply lookup_insert_ne. congruence.
      * apply walk_same. intros. apply Hw; lia.
    + assert ((old =? 0) = false) as Hz by by apply Z.eqb_neq. destruct (stage2_huge old) eqn:Eh.
      * exfalso. destruct (Hnb st old) as [Hb _]; [lia|]. apply Hb. unfold walk. rewrite (walk3_pmd _ _ _ _ _ _ _ Hat Eold) by (by rewrite Eh, orb_true_r). by rewrite Hz.
      * apply (map1_pte own own); try done. by exists a, old.
Qed.

(** One turn of a loop followed by the rest of it. *)
Lemma map1_seq own pgdp s st nx e phys flags res k :
  map1_result own pgdp s st nx phys flags res -> no_block (s2_mem s) pgdp st e -> 0 <= st <= nx -> nx <= e <= NR_PAGES ->
  (forall s1 own1, res = Some (0, s1) -> own ⊆ own1 -> s2_wf own1 pgdp s1 -> nx < e -> no_block (s2_mem s1) pgdp nx e ->
     map1_result own1 pgdp s1 nx e (phys + PAGE_SIZE * (nx - st)) flags (k s1)) ->
  map1_result own pgdp s st e phys flags
    ('(ret, s) ← res; if negb (ret =? 0) then Some (ret, s)
                      else if PAGE_SIZE * nx =? PAGE_SIZE * e then Some (0, s) else k s).
Proof.
  intros (r & s1 & own1 & x & -> & Hs & Hwf & Hx & Hm & Hr) Hnb Hst Hnx Hk. msimpl. destruct (Z.eqb_spec r 0) as [->|Hr0]; cbn [negb].
  - destruct Hr as [[_ ->]|(_ & [=] & _)]. destruct (Z.eqb_spec (PAGE_SIZE * nx) (PAGE_SIZE * e)) as [E|E].
    + assert (nx = e) as -> by (unfold PAGE_SIZE in *; lia). exists 0, s1, own1, e. do 3 (split; [done|]). split; [lia|]. split; [done|]. by left.
    + assert (no_block (s2_mem s1) pgdp nx e) as Hnb1.
      { intros pg d Hpg. specialize (Hm pg ltac:(lia)). rewrite (proj2 (Z.ltb_ge pg nx)), andb_false_r in Hm by lia. rewrite Hm. apply Hnb. lia. }
      destruct (Hk s1 own1) as (r & s2 & own2 & y & -> & Hs2 & Hwf2 & Hy & Hm2 & Hr2); [done|done|done|unfold PAGE_SIZE in *; lia|done|].
      exists r, s2, own2, y. split; [done|]. split; [by etrans|]. split; [done|]. split; [lia|]. split; [|done].
      eapply mapped_by_trans; [|exact Hm|exact Hm2]. lia.
  - exists r, s1, own1, x. do 3 (split; [done|]). split; [lia|]. split; [done|]. right. destruct Hr as [[? _]|(? & H)]; [done|]. split; [lia|exact H].
Qed.

Lemma no_block_sub m pgdp st e st' e' : no_block m pgdp st e -> st <= st' -> e' <= e -> no_block m pgdp st' e'.
Proof. intros H H1 H2 pg d Hpg. apply H. lia. Qed.

Lemma s1_map_pmd_loop_spec pgdp a flags i fuel : forall own st e phys s,
  s2_wf own pgdp s -> pmd_at (s2_mem s) pgdp i a -> i = st / 2 ^ 18 -> no_block (s2_mem s) pgdp st e ->
  0 <= st < e -> e <= S1_PAGES -> e <= 2 ^ 18 * (st / 2 ^ 18 + 1) -> (e + 511) / 512 - st / 512 <= Z.of_nat fuel ->
  0 <= phys -> phys mod PAGE_SIZE = 0 -> phys + PAGE_SIZE * (e - st) <= 2 ^ 47 ->
  map1_result own pgdp s st e phys flags (s1_map_pmd_loop fuel a (st / 512 mod 512) (PAGE_SIZE * st) (PAGE_SIZE * e) phys flags s).
Proof.
  induction fuel as [|fuel IH]; intros own st e phys s Hwf Hat Hi Hnb Hst He Hend Hf Hp Hpm Hpe; [dlia|]. unfold S1_PAGES in *. cbn [s1_map_pmd_loop].
  change stage1_xxx_addr_end with stage2_xxx_addr_end. change S1_PMD_SIZE with S2_PMD_SIZE. rewrite pmd_addr_end by (done || unfold NR_PAGES; lia).
  set (nx := Z.min (512 * (st / 512 + 1)) e). assert (st < nx <= e) as Hnx by (unfold nx; dlia).
  destruct (s1_map_pmd_entry_spec own pgdp a flags st nx phys s) as [Hres Hroot];
    [done|by subst|eapply no_block_sub; [done|lia|lia]|lia|unfold S1_PAGES; lia|unfold nx; lia|done|done|unfold PAGE_SIZE in *; lia|].
  assert (u64 (phys + u64 (PAGE_SIZE * nx - PAGE_SIZE * st)) = phys + PAGE_SIZE * (nx - st)) as ->.
  { rewrite (u64_small (_ - _)) by (unfold PAGE_SIZE; lia). rewrite u64_small; unfold PAGE_SIZE in *; lia. }
  apply map1_seq with (k := fun s1 => s1_map_pmd_loop fuel a (st / 512 mod 512 + 1) (PAGE_SIZE * nx) (PAGE_SIZE * e) (phys + PAGE_SIZE * (nx - st)) flags s1);
    [done|done|lia|unfold NR_PAGES; lia|].
  intros s1 own1 E1 _ Hwf1 Hlt Hnb1. assert (nx = 512 * (st / 512 + 1)) as Enx by (unfold nx in *; lia). clearbody nx.
  assert (st / 512 mod 512 + 1 = nx / 512 mod 512) as -> by dlia.
  apply IH; try done; try (unfold S1_PAGES, PAGE_SIZE in *; lia); try dlia.
  - eapply pmd_at_root; [by eapply Hroot|done].
  - unfold PAGE_SIZE in *. dlia.
Qed.

Lemma s1_map_pmd_range_spec own own' pgdp s s1 a flags st nx phys :
  own ⊆ own' -> s2_wf own' pgdp s1 -> (forall pg, 0 <= pg < NR_PAGES -> walk (s2_mem s1) pgdp pg = walk (s2_mem s) pgdp pg) ->
  pmd_at (s2_mem s1) pgdp (st / 2 ^ 18) a -> no_block (s2_mem s) pgdp st nx ->
  0 <= st < nx -> nx <= S1_PAGES -> nx <= 2 ^ 18 * (st / 2 ^ 18 + 1) ->
  0 <= phys -> phys mod PAGE_SIZE = 0 -> phys + PAGE_SIZE * (nx - st) <= 2 ^ 47 ->
  map1_result own pgdp s st nx phys flags (stage1_map_pmd_range a (PAGE_SIZE * st) (PAGE_SIZE * nx) phys flags s1).
Proof.
  intros Hsub Hwf Hsame Hat Hnb Hst Hnx Hend Hp Hpm Hpe. unfold stage1_map_pmd_range.
  destruct (s1_page_indices st) as (_ & -> & _); [lia|].
  assert (no_block (s2_mem s1) pgdp st nx) as Hnb1 by (intros pg d Hpg; rewrite Hsame by (unfold NR_PAGES, S1_PAGES in *; lia); by apply Hnb).
  destruct (s1_map_pmd_loop_spec pgdp a flags _ 513 own' st nx phys s1 Hwf Hat) as (r & s2 & own2 & x & E & Hs & Hwf2 & Hx & Hm & Hr); [done|done|done|done|done|dlia|done..|].
  exists r, s2, own2, x. split; [done|]. split; [by etrans|]. split; [done|]. split; [done|]. split; [by eapply mapped_by_same|done].
Qed.

Lemma s1_map_pud_entry_spec own pgdp flags st nx phys s :
  s2_wf own pgdp s -> no_block (s2_mem s) pgdp st nx ->
  0 <= st < nx -> nx <= S1_PAGES -> nx <= 2 ^ 18 * (st / 2 ^ 18 + 1) ->
  0 <= phys -> phys mod PAGE_SIZE = 0 -> phys + PAGE_SIZE * (nx - st) <= 2 ^ 47 ->
  map1_result own pgdp s st nx phys flags (s1_map_pud_entry pgdp (st / 2 ^ 18) (PAGE_SIZE * st) (PAGE_SIZE * nx) phys flags s).
Proof.
  intros Hwf Hnb Hst Hnx Hend Hp Hpm Hpe. unfold s1_map_pud_entry.
  assert (0 <= st / 2 ^ 18 < 512) as Hi by (unfold S1_PAGES in *; dlia). pose proof (wf_root _ _ _ (proj1 Hwf)) as Ho.
  destruct (tread_some _ _ _ _ _ (st / 2 ^ 18) (proj1 Hwf) Ho Hi) as (old & Eold). rewrite Eold. msimpl.
  unfold stage1_none. destruct (Z.eqb_spec old 0) as [->|Hold].
  - destruct (s2_pool s) as [|p pool] eqn:Epool.
    { unfold get_zeroed_page. rewrite Epool. apply map1_stop; [done|lia|done]. }
    destruct (populate_spec own pgdp s p pool pgdp _ _ Hwf Epool Ho Hi) as (s1 & s2 & -> & E2 & Hsub & Hwf2 & Hp2 & Hta & Hnone & Hu).
    change stage1_populate with stage2_populate. rewrite E2. msimpl.
    destruct (populate_pud_walk own pgdp (s2_mem s) (s2_mem s2) p _ (proj1 Hwf) Hnone Hta (proj1 Hi) Eold Hu) as (Hat & Hw).
    eapply s1_map_pmd_range_spec; [exact Hsub|done| |done..]. apply walk_same. intros. apply Hw; lia.
  - assert ((old =? 0) = false) as Hz by by apply Z.eqb_neq. destruct (stage2_huge old) eqn:Eh.
    + exfalso. destruct (Hnb st old) as [_ Hb]; [lia|]. apply Hb. unfold walk. rewrite (walk3_pud _ _ _ _ _ _ Eold) by (by rewrite Eh, orb_true_r). by rewrite Hz.
    + apply (s1_map_pmd_range_spec own own); try done. by exists old.
Qed.

Lemma s1_map_pud_loop_spec pgdp flags fuel : forall own st e phys s,
  s2_wf own pgdp s -> no_block (s2_mem s) pgdp st e -> 0 <= st < e -> e <= S1_PAGES ->
  (e + (2 ^ 18 - 1)) / 2 ^ 18 - st / 2 ^ 18 <= Z.of_nat fuel ->
  0 <= phys -> phys mod PAGE_SIZE = 0 -> phys + PAGE_SIZE * (e - st) <= 2 ^ 47 ->
  map1_result own pgdp s st e phys flags (s1_map_pud_loop fuel pgdp (st / 2 ^ 18) (PAGE_SIZE * st) (PAGE_SIZE * e) phys flags s).
Proof.
  induction fuel as [|fuel IH]; intros own st e phys s Hwf Hnb Hst He Hf Hp Hpm Hpe; [dlia|]. unfold S1_PAGES in *. cbn [s1_map_pud_loop].
  change stage1_xxx_addr_end with stage2_xxx_addr_end. change S1_PUD_SIZE with S2_PUD_SIZE. rewrite pud_addr_end by (done || unfold NR_PAGES; lia).
  set (nx := Z.min (2 ^ 18 * (st / 2 ^ 18 + 1)) e). assert (st < nx <= e) as Hnx by (unfold nx; dlia).
  assert (u64 (phys + u64 (PAGE_SIZE * nx - PAGE_SIZE * st)) = phys + PAGE_SIZE * (nx - st)) as ->.
  { rewrite (u64_small (_ - _)) by (unfold PAGE_SIZE; lia). rewrite u64_small; unfold PAGE_SIZE in *; lia. }
  apply map1_seq with (k := fun s1 => s1_map_pud_loop fuel pgdp (st / 2 ^ 18 + 1) (PAGE_SIZE * nx) (PAGE_SIZE * e) (phys + PAGE_SIZE * (nx - st)) flags s1);
    [|done|lia|unfold NR_PAGES; lia|].
  - apply s1_map_pud_entry_spec; try done; try (unfold S1_PAGES, PAGE_SIZE in *; lia). eapply no_block_sub; [done|lia|lia].
  - intros s1 own1 _ _ Hwf1 Hlt Hnb1. assert (nx = 2 ^ 18 * (st / 2 ^ 18 + 1)) as Enx by (unfold nx in *; lia). clearbody nx.
    assert (st / 2 ^ 18 + 1 = nx / 2 ^ 18) as -> by dlia. apply IH; try done; try (unfold S1_PAGES, PAGE_SIZE in *; lia); [dlia|]. unfold PAGE_SIZE in *. dlia.
Qed.

Lemma host_map_spec own pgdp s st e phys flags :
  s2_wf own pgdp s -> no_block (s2_mem s) pgdp st e -> 0 <= st < e -> e <= S1_PAGES -> 0 <= phys < S1_PHYSICAL_MAX -> phys mod PAGE_SIZE = 0 ->
  map1_result own pgdp s st e phys flags (arch_host_map pgdp (PAGE_SIZE * st) (PAGE_SIZE * e) phys flags s).
Proof.
  intros Hwf Hnb Hst He Hp Hpm. unfold arch_host_map, S1_PAGES, S1_PHYSICAL_MAX, S1_VIRT_MAX in *.
  rewrite (proj2 (Z.eqb_neq _ _)) by (unfold PAGE_SIZE; lia).
  rewrite (proj2 (Z.ltb_lt (PAGE_SIZE * st) _)), (proj2 (Z.leb_le (PAGE_SIZE * e) _)), (proj2 (Z.ltb_lt phys _)) by (unfold PAGE_SIZE; lia). msimpl. cbn [andb].
  assert (forall x, IS_PAGE_ALIGN (PAGE_SIZE * x) = true) as Hal by (intros x; apply IS_PAGE_ALIGN_true; unfold PAGE_SIZE; dlia).
  rewrite !Hal, (proj2 (IS_PAGE_ALIGN_true phys) Hpm). cbn [andb]. msimpl.
  unfold stage1_map_pud_range. destruct (s1_page_indices st) as (-> & _ & _); [unfold S1_PAGES; lia|].
  apply s1_map_pud_loop_spec; try done; try (unfold S1_PAGES, PAGE_SIZE in *; lia). dlia.
Qed.

(** ** Unmapping *)
Definition unmap1_result (own : gmap Z kind) (pgdp : Z) (s : s2) (st e : Z) (res : option s2) : Prop :=
  exists s', res = Some s' /\ s2_wf own pgdp s' /\ s2_mem s' !! pgdp = s2_mem s !! pgdp /\ s2_pool s' = s2_pool s
    /\ unmapped_range (s2_mem s) (s2_mem s') pgdp st e.

Lemma s1_unmap_pmd_entry_spec own pgdp a st nx s :
  s2_wf own pgdp s -> pmd_at (s2_mem s) pgdp (st / 2 ^ 18) a ->
  0 <= st < nx -> nx <= S1_PAGES -> nx <= 512 * (st / 512 + 1) ->
  unmap1_result own pgdp s st nx (s1_unmap_pmd_entry a (st / 512 mod 512) (PAGE_SIZE * st) (PAGE_SIZE * nx) s).
Proof.
  intros Hwf Hat Hst Hnx Hend. unfold s1_unmap_pmd_entry, S1_PAGES in *.
  assert (0 <= st / 2 ^ 18) as Hi by dlia. assert (0 <= st / 512 mod 512 < 512) as Hj by dlia. assert (0 <= st < NR_PAGES) as Hs by (unfold NR_PAGES; lia).
  pose proof (pmd_at_own _ _ _ _ _ (proj1 Hwf) Hi Hat) as Ho. pose proof (wf_root _ _ _ (proj1 Hwf)) as Hr.
  destruct (tread_some _ _ _ _ _ (st / 512 mod 512) (proj1 Hwf) Ho Hj) as (old & Eold).
  assert (forall pg, st <= pg < nx -> pg / 2 ^ 18 = st / 2 ^ 18 /\ pg / 512 = st / 512) as Hsame by (intros; dlia).
  rewrite Eold. msimpl. unfold stage1_none. destruct (old =? 0) eqn:Hz.
  { exists s. do 4 (split; [done|]). apply unmapped_range_exact. intros pg Hpg.
    destruct (Z.leb_spec st pg), (Z.ltb_spec pg nx); cbn [andb]; try done.
    destruct (Hsame pg) as [E1 E2]; [lia|]. unfold walk. rewrite E1, E2. rewrite (walk3_pmd _ _ _ _ _ _ _ Hat Eold); by rewrite Hz. }
  change (stage1_pmd_huge old) with (stage2_huge old). destruct (stage2_huge old) eqn:Hh.
  - destruct (twrite_spec _ _ s a _ (st / 512 mod 512) 0 (proj1 Hwf) Ho Hj) as (s1 & -> & Hp1 & Hu).
    destruct (pmd_clear_walk own pgdp s s1 a st Hwf Hs Hat Hp1 Hu) as (Hwf1 & Hat1 & Hr1 & Hw1).
    exists s1. do 4 (split; [done|]). intros pg Hpg. rewrite Hw1 by done. destruct (Z.eqb_spec (pg / 512) (st / 512)) as [E|E].
    + destruct (_ && _); [done|]. right. split; [done|]. split; [|dlia].
      exists old. unfold walk. assert (pg / 2 ^ 18 = st / 2 ^ 18) as -> by dlia. rewrite E.
      rewrite (walk3_pmd _ _ _ _ _ _ _ Hat Eold); [by rewrite Hz|by rewrite Hh, orb_true_r].
    + destruct (Z.leb_spec st pg), (Z.ltb_spec pg nx); cbn [andb]; try (by left). destruct (Hsame pg); lia.
  - assert (pte_at (s2_mem s) pgdp (st / 2 ^ 18) (st / 512 mod 512) (stage2_table_addr old)) as Hpte by by exists a, old.
    pose proof (pte_at_own _ _ _ _ _ _ (proj1 Hwf) Hi (proj1 Hj) Hpte) as Hob.
    change (stage1_table_addr old) with (stage2_table_addr old). unfold stage1_unmap_pte_range. destruct (s1_page_indices st) as (_ & _ & ->); [unfold S1_PAGES; lia|].
    destruct (unmap_pte_loop_spec own pgdp (stage2_table_addr old) _ _ 513 st nx s Hwf Hpte) as (s1 & -> & Hwf1 & Hpte1 & Hp1 & Hf1 & Hw1);
      [done|unfold NR_PAGES; lia|done|done|done|dlia|].
    exists s1. split; [done|]. split; [done|]. split; [apply Hf1; congruence|]. split; [done|]. by apply unmapped_range_exact.
Qed.

(** One turn of a loop followed by the rest of it. *)
Lemma unmap1_seq own pgdp s st nx e res k :
  unmap1_result own pgdp s st nx res -> st < nx <= e ->
  (forall s1, s2_wf own pgdp s1 -> s2_mem s1 !! pgdp = s2_mem s !! pgdp -> nx < e -> unmap1_result own pgdp s1 nx e (k s1)) ->
  unmap1_result own pgdp s st e (s ← res; if PAGE_SIZE * nx =? PAGE_SIZE * e then Some s else k s).
Proof.
  intros (s1 & -> & Hwf1 & Hr1 & Hp1 & Hu1) Hnx Hk. msimpl. destruct (Z.eqb_spec (PAGE_SIZE * nx) (PAGE_SIZE * e)) as [E|E].
  { assert (nx = e) as <- by (unfold PAGE_SIZE in *; lia). by exists s1. }
  assert (nx < e) as Hlt by (unfold PAGE_SIZE in *; lia). destruct (Hk s1 Hwf1 Hr1 Hlt) as (s2 & -> & Hwf2 & Hr2 & Hp2 & Hu2).
  exists s2. split; [done|]. split; [done|]. split; [congruence|]. split; [congruence|]. eapply unmapped_range_trans; [|done..]. lia.
Qed.

Lemma s1_unmap_pmd_loop_spec own pgdp a i fuel : forall st e s,
  s2_wf own pgdp s -> pmd_at (s2_mem s) pgdp i a -> i = st / 2 ^ 18 ->
  0 <= st < e -> e <= S1_PAGES -> e <= 2 ^ 18 * (st / 2 ^ 18 + 1) -> (e + 511) / 512 - st / 512 <= Z.of_nat fuel ->
  unmap1_result own pgdp s st e (s1_unmap_pmd_loop fuel a (st / 512 mod 512) (PAGE_SIZE * st) (PAGE_SIZE * e) s).
Proof.
  induction fuel as [|fuel IH]; intros st e s Hwf Hat Hi Hst He Hend Hf; [dlia|]. unfold S1_PAGES in *. cbn [s1_unmap_pmd_loop].
  change stage1_xxx_addr_end with stage2_xxx_addr_end. change S1_PMD_SIZE with S2_PMD_SIZE. rewrite pmd_addr_end by (done || unfold NR_PAGES; lia).
  set (nx := Z.min (512 * (st / 512 + 1)) e). assert (st < nx <= e) as Hnx by (unfold nx; dlia).
  apply unmap1_seq with (k := fun s1 => s1_unmap_pmd_loop fuel a (st / 512 mod 512 + 1) (PAGE_SIZE * nx) (PAGE_SIZE * e) s1); [|done|].
  - apply s1_unmap_pmd_entry_spec; [done|by subst|lia|unfold S1_PAGES; lia|unfold nx; lia].
  - intros s1 Hwf1 Hr1 Hlt. assert (nx = 512 * (st / 512 + 1)) as Enx by (unfold nx in *; lia). clearbody nx.
    assert (st / 512 mod 512 + 1 = nx / 512 mod 512) as -> by dlia.
    apply IH; [done|by eapply pmd_at_root|dlia|lia|unfold S1_PAGES; lia|dlia|dlia].
Qed.

Lemma s1_unmap_pud_entry_spec own pgdp st nx s :
  s2_wf own pgdp s -> no_pud_block (s2_mem s) pgdp -> 0 <= st < nx -> nx <= S1_PAGES -> nx <= 2 ^ 18 * (st / 2 ^ 18 + 1) ->
  unmap1_result own pgdp s st nx (s1_unmap_pud_entry pgdp (st / 2 ^ 18) (PAGE_SIZE * st) (PAGE_SIZE * nx) s).
Proof.
  intros Hwf Hnb Hst Hnx Hend. unfold s1_unmap_pud_entry, S1_PAGES in *.
  assert (0 <= st / 2 ^ 18 < 512) as Hi by dlia. pose proof (wf_root _ _ _ (proj1 Hwf)) as Hr.
  destruct (tread_some _ _ _ _ _ (st / 2 ^ 18) (proj1 Hwf) Hr Hi) as (old & Eold). rewrite Eold. msimpl. unfold stage1_none. destruct (old =? 0) eqn:Hz.
  { exists s. do 4 (split; [done|]). apply unmapped_range_exact. intros pg Hpg. destruct (Z.leb_spec st pg), (Z.ltb_spec pg nx); cbn [andb]; try done.
    unfold walk. assert (pg / 2 ^ 18 = st / 2 ^ 18) as -> by dlia. rewrite (walk3_pud _ _ _ _ _ _ Eold); by rewrite Hz. }
  pose proof (Hnb _ _ (proj1 Hi) Eold) as Hh. assert (pmd_at (s2_mem s) pgdp (st / 2 ^ 18) (stage2_table_addr old)) as Hat by by exists old.
  unfold stage1_unmap_pmd_range. destruct (s1_page_indices st) as (_ & -> & _); [unfold S1_PAGES; lia|].
  apply (s1_unmap_pmd_loop_spec own pgdp _ (st / 2 ^ 18)); [done|done|done|done|unfold S1_PAGES; lia|done|dlia].
Qed.

Lemma no_pud_block_root m m' pgdp : m' !! pgdp = m !! pgdp -> no_pud_block m pgdp -> no_pud_block m' pgdp.
Proof. intros E H i e Hi. unfold tread. rewrite E. by apply H. Qed.

Lemma s1_unmap_pud_loop_spec own pgdp fuel : forall st e s,
  s2_wf own pgdp s -> no_pud_block (s2_mem s) pgdp -> 0 <= st < e -> e <= S1_PAGES -> (e + (2 ^ 18 - 1)) / 2 ^ 18 - st / 2 ^ 18 <= Z.of_nat fuel ->
  unmap1_result own pgdp s st e (s1_unmap_pud_loop fuel pgdp (st / 2 ^ 18) (PAGE_SIZE * st) (PAGE_SIZE * e) s).
Proof.
  induction fuel as [|fuel IH]; intros st e s Hwf Hnb Hst He Hf; [dlia|]. unfold S1_PAGES in *. cbn [s1_unmap_pud_loop].
  change stage1_xxx_addr_end with stage2_xxx_addr_end. change S1_PUD_SIZE with S2_PUD_SIZE. rewrite pud_addr_end by (done || unfold NR_PAGES; lia).
  set (nx := Z.min (2 ^ 18 * (st / 2 ^ 18 + 1)) e). assert (st < nx <= e) as Hnx by (unfold nx; dlia).
  apply unmap1_seq with (k := fun s1 => s1_unmap_pud_loop fuel pgdp (st / 2 ^ 18 + 1) (PAGE_SIZE * nx) (PAGE_SIZE * e) s1); [|done|].
  - apply s1_unmap_pud_entry_spec; [done|done|lia|unfold S1_PAGES; lia|unfold nx; lia].
  - intros s1 Hwf1 Hr1 Hlt. assert (nx = 2 ^ 18 * (st / 2 ^ 18 + 1)) as Enx by (unfold nx in *; lia). clearbody nx.
    assert (st / 2 ^ 18 + 1 = nx / 2 ^ 18) as -> by dlia. apply IH; [done|by eapply no_pud_block_root|lia|unfold S1_PAGES; lia|dlia].
Qed.

Lemma host_unmap_spec own pgdp s st e :
  s2_wf own pgdp s -> no_pud_block (s2_mem s) pgdp -> 0 <= st < e -> e <= S1_PAGES -> (e / 2 ^ 18) mod 512 = st / 2 ^ 18 ->
  exists s', arch_host_unmap pgdp (PAGE_SIZE * st) (PAGE_SIZE * e) s = Some (0, s') /\ s2_wf own pgdp s' /\ no_pud_block (s2_mem s') pgdp
    /\ s2_pool s' = s2_pool s /\ unmapped_range (s2_mem s) (s2_mem s') pgdp st e.
Proof.
  intros Hwf Hnb Hst He Hidx. unfold arch_host_unmap, S1_PAGES, S1_VIRT_MAX in *.
  rewrite (proj2 (Z.ltb_lt (PAGE_SIZE * st) _)), (proj2 (Z.leb_le (PAGE_SIZE * e) _)) by (unfold PAGE_SIZE; lia). msimpl. unfold stage1_unmap_pud_range.
  assert (stage1_pud_index (PAGE_SIZE * e) = st / 2 ^ 18) as ->.
  { rewrite <- Hidx. unfold stage1_pud_index, S1_PUD_SHIFT. change S1_PHYSICAL_MASK with S2_PHYSICAL_MASK. rewrite land_physical_mask.
    change (PTRS_PER_S1_PUD - 1) with (2 ^ 9 - 1). unfold PAGE_SIZE. rewrite Z.shiftr_div_pow2, land_pow_pred by lia. dlia. }
  destruct (s1_unmap_pud_loop_spec own pgdp 513 st e s Hwf Hnb) as (s' & -> & Hwf' & Hr & Hp & Hu); [done|unfold S1_PAGES; lia|dlia|]. msimpl.
  exists s'. split; [done|]. split; [done|]. split; [by eapply no_pud_block_root|]. done.
Qed.

(** ** Single addresses *)
Lemma va_to_pa_walk pgdp va m lf : 0 <= va < S1_VIRT_MAX -> walk m pgdp (va / PAGE_SIZE) = Some lf -> (forall d, lf <> PudBlock d) ->
  stage1_va_to_pa pgdp va m
  = Some (match lf with
          | Page d => if Z.land d S1_PHYSICAL_MASK =? 0 then 0 else u64 (Z.land d S1_PHYSICAL_MASK + va mod PAGE_SIZE)
          | _ => 0
          end).
Proof.
  intros Hva Hw Hnp. unfold stage1_va_to_pa. destruct (s1_indices va Hva) as (-> & -> & ->). unfold S1_VIRT_MAX, walk, walk3 in *.
  change (not64 S1_PTE_MASK) with (2 ^ 12 - 1). rewrite !land_pow_pred by lia.
  destruct (tread m pgdp _) as [e|]; [|done]. revert Hw. msimpl. unfold stage1_none.
  destruct (e =? 0); [by intros [= <-]|]. destruct (stage2_huge e); [intros [= <-]; by destruct (Hnp e)|].
  change (stage1_table_addr e) with (stage2_table_addr e). destruct (tread m (stage2_table_addr e) _) as [e'|]; [|done]. msimpl.
  destruct (e' =? 0); [by intros [= <-]|]. change (stage1_pmd_huge e') with (stage2_huge e'). destruct (stage2_huge e'); [by intros [= <-]|].
  change (stage1_table_addr e') with (stage2_table_addr e'). destruct (tread m (stage2_table_addr e') _) as [e''|]; [|done]. msimpl.
  destruct (Z.eqb_spec e'' 0) as [->|]; intros [= <-]; [done|]. by destruct (_ =? 0).
Qed.

Lemma updated_trans m m1 m2 a x v w : updated m m1 a x v -> updated m1 m2 a x w -> updated m m2 a x w.
Proof.
  intros (A1 & A2 & A3) (B1 & B2 & B3). split; [|split].
  - intros b Hb. by rewrite B1, A1.
  - intros l E. destruct (A2 l E) as (l1 & E1 & L1). destruct (B2 l1 E1) as (l2 & E2 & L2). exists l2. split; [done|]. congruence.
  - intros b y Hy. rewrite B3, A3 by done. by destruct (_ && _).
Qed.

(** An entry that is cleared and then written. *)
Lemma rewrite_entry own pgdp s a kd x v : s2_wf own pgdp s -> own !! a = Some kd -> 0 <= x < ptrs kd -> writable own kd x 0 ->
  exists s1 s2, twrite a x 0 s = Some s1 /\ twrite a x v s1 = Some s2 /\ s2_pool s2 = s2_pool s /\ updated (s2_mem s) (s2_mem s2) a x v.
Proof.
  intros [Hwf Hpool] Ho Hx Hw. destruct (twrite_spec _ _ s a kd x 0 Hwf Ho Hx) as (s1 & E1 & P1 & U1).
  destruct (twrite_spec own pgdp s1 a kd x v) as (s2 & E2 & P2 & U2); [by eapply pt_wf_updated|done|done|].
  exists s1, s2. split; [done|]. split; [done|]. split; [congruence|]. by eapply updated_trans.
Qed.

(** What changing the mapping of the page of [vir] does: nothing when no table leads
    to it; otherwise the block or the page of [vir] gets the new address and
    attributes. *)
Definition change_result (own : gmap Z kind) (pgdp : Z) (s : s2) (vir phy flags : Z) (res : option (Z * s2)) : Prop :=
  let pg := vir / PAGE_SIZE in
  (res = Some (- ENOMEM, s) /\ walk (s2_mem s) pgdp pg = Some Fault)
  \/ exists s', res = Some (0, s') /\ s2_wf own pgdp s' /\ s2_pool s' = s2_pool s
       /\ if match walk (s2_mem s) pgdp pg with Some (Block _) => true | _ => false end
          then mapped_by (block_leaf (stage1_pmd_attr 0 flags)) (s2_mem s) (s2_mem s') pgdp (512 * (pg / 512)) (512 * (pg / 512) + 512) (S1_PMD_SIZE * (phy / S1_PMD_SIZE))
          else mapped_by (page_leaf (stage1_pte_attr 0 flags)) (s2_mem s) (s2_mem s') pgdp pg (pg + 1) phy.

Lemma change_block own pgdp s a e vir phy flags :
  s2_wf own pgdp s -> 0 <= vir < S1_VIRT_MAX -> 0 <= phy < S1_PHYSICAL_MAX ->
  pmd_at (s2_mem s) pgdp (vir / PAGE_SIZE / 2 ^ 18) a -> tread (s2_mem s) a (vir / PAGE_SIZE / 512 mod 512) = Some e -> (e =? 0) = false -> stage2_huge e = true ->
  change_result own pgdp s vir phy flags
    (s ← twrite a (vir / PAGE_SIZE / 512 mod 512) 0 s; s ← twrite a (vir / PAGE_SIZE / 512 mod 512) (stage1_pmd_attr phy flags) s; Some (0, s)).
Proof.
  intros Hwf Hv Hp Hat E Hz Hh. unfold S1_VIRT_MAX, S1_PHYSICAL_MAX in *. set (pg := vir / PAGE_SIZE) in *.
  assert (0 <= pg < 2 ^ 27) as Hpg by (unfold pg, PAGE_SIZE; dlia). assert (0 <= pg / 512 mod 512 < 512) as Hj by dlia.
  assert (own !! a = Some (KPmd (pg / 2 ^ 18))) as Ho by (eapply pmd_at_own; [apply Hwf|dlia|done]).
  destruct (rewrite_entry own pgdp s a _ (pg / 512 mod 512) (stage1_pmd_attr phy flags) Hwf Ho Hj) as (s1 & s2 & -> & E2 & P2 & U2); [by left|].
  msimpl. rewrite E2. msimpl. set (q := S1_PMD_SIZE * (phy / S1_PMD_SIZE)).
  assert (stage1_pmd_attr phy flags = Z.lor (stage1_pmd_attr 0 flags) q) as Ea.
  { unfold stage1_pmd_attr. cbn zeta. rewrite attr_lor, Z.land_0_l, Z.lor_0_l. f_equal. unfold q, S1_PMD_MASK, S1_PMD_SIZE. rewrite land_not64_pow2 by lia. lia. }
  rewrite Ea in U2. set (st := 512 * (pg / 512)). assert (st / 2 ^ 18 = pg / 2 ^ 18 /\ st / 512 mod 512 = pg / 512 mod 512) as [I1 I2] by (unfold st; dlia).
  destruct (block_write_walk own pgdp s s2 a st (stage1_pmd_attr 0 flags) q) as [Hwf2 Hm];
    [done|unfold st; dlia|unfold st, NR_PAGES; dlia|unfold st; dlia|by rewrite I1|unfold q, S1_PMD_SIZE; dlia|unfold q, S1_PMD_SIZE, S2_PMD_SIZE; dlia|apply pmd_attr_ok|done|by rewrite I2|].
  right. exists s2. split; [done|]. split; [done|]. split; [done|]. fold pg.
  unfold walk at 1. rewrite (walk3_pmd _ _ _ _ _ _ _ Hat E), Hz by (by rewrite Hh, orb_true_r). done.
Qed.

Lemma change_page own pgdp s b vir phy flags :
  s2_wf own pgdp s -> 0 <= vir < S1_VIRT_MAX -> 0 <= phy < S1_PHYSICAL_MAX -> phy mod PAGE_SIZE = 0 ->
  pte_at (s2_mem s) pgdp (vir / PAGE_SIZE / 2 ^ 18) (vir / PAGE_SIZE / 512 mod 512) b ->
  change_result own pgdp s vir phy flags
    (s ← twrite b (vir / PAGE_SIZE mod 512) 0 s; s ← twrite b (vir / PAGE_SIZE mod 512) (stage1_pte_attr phy flags) s; Some (0, s)).
Proof.
  intros Hwf Hv Hp Hpm Hat. unfold S1_VIRT_MAX, S1_PHYSICAL_MAX in *. set (pg := vir / PAGE_SIZE) in *.
  assert (0 <= pg < 2 ^ 27) as Hpg by (unfold pg, PAGE_SIZE; dlia). assert (0 <= pg mod 512 < 512) as Hk by dlia.
  assert (own !! b = Some (KPte (pg / 2 ^ 18) (pg / 512 mod 512))) as Ho by (eapply pte_at_own; [apply Hwf|dlia|dlia|done]).
  destruct (rewrite_entry own pgdp s b _ (pg mod 512) (stage1_pte_attr phy flags) Hwf Ho Hk) as (s1 & s2 & -> & E2 & P2 & U2); [done|].
  msimpl. rewrite E2. msimpl. rewrite pte_attr_split in U2 by (done || lia).
  destruct (pte_write_walk own pgdp s s2 b pg (stage1_pte_attr 0 flags) phy Hwf) as (Hwf2 & _ & Hm); [unfold NR_PAGES; lia|done|apply pte_attr_ok|lia|done|done|done|].
  right. exists s2. split; [done|]. split; [done|]. split; [done|]. fold pg. unfold walk at 1. rewrite (walk3_pte _ _ _ _ _ _ Hat).
  destruct (tread (s2_mem s) b (pg mod 512)) as [pte|]; msimpl; [destruct (pte =? 0)|]; done.
Qed.

Lemma host_change_spec own pgdp s vir phy flags :
  s2_wf own pgdp s -> no_pud_block (s2_mem s) pgdp -> 0 <= vir < S1_VIRT_MAX -> 0 <= phy < S1_PHYSICAL_MAX -> phy mod PAGE_SIZE = 0 ->
  change_result own pgdp s vir phy flags (arch_host_change_map pgdp vir phy flags s).
Proof.
  intros Hwf Hnb Hv Hp Hpm. unfold arch_host_change_map, stage1_get_leaf_entry. destruct (s1_indices vir Hv) as (-> & -> & ->).
  assert (0 <= vir / PAGE_SIZE / 2 ^ 18 < 512) as Hi by (unfold S1_VIRT_MAX, PAGE_SIZE in *; dlia). assert (0 <= vir / PAGE_SIZE / 512 mod 512 < 512) as Hj by dlia.
  destruct (tread_some _ _ _ _ _ _ (proj1 Hwf) (wf_root _ _ _ (proj1 Hwf)) Hi) as (e & E). rewrite E. msimpl. unfold stage1_none. destruct (e =? 0) eqn:Hz; msimpl.
  { left. split; [done|]. unfold walk. by rewrite (walk3_pud _ _ _ _ _ _ E), Hz by (by rewrite Hz). }
  pose proof (Hnb _ _ (proj1 Hi) E) as Hh. assert (pmd_at (s2_mem s) pgdp (vir / PAGE_SIZE / 2 ^ 18) (stage2_table_addr e)) as Hat by by exists e.
  change (stage1_table_addr e) with (stage2_table_addr e). pose proof (pmd_at_own _ _ _ _ _ (proj1 Hwf) (proj1 Hi) Hat) as Ho.
  destruct (tread_some _ _ _ _ _ _ (proj1 Hwf) Ho Hj) as (e' & E'). rewrite E'. msimpl. destruct (e' =? 0) eqn:Hz'; msimpl.
  { left. split; [done|]. unfold walk. by rewrite (walk3_pmd _ _ _ _ _ _ _ Hat E'), Hz' by (by rewrite Hz'). }
  change (stage1_pmd_huge e') with (stage2_huge e'). destruct (stage2_huge e') eqn:Hh'; msimpl.
  - by apply (change_block own pgdp s (stage2_table_addr e) e').
  - apply (change_page own pgdp s); [done..|]. by exists (stage2_table_addr e), e'.
Qed.

(** ** Walks and blocks *)
Lemma root_index own m pgdp i e : pt_wf own m pgdp -> 0 <= i -> tread m pgdp i = Some e -> i < 512.
Proof.
  intros Hwf Hi. destruct (wf_tables _ _ _ Hwf _ _ (wf_root _ _ _ Hwf)) as (l & El & Hl). unfold tread. rewrite El. msimpl. intros E%lookup_lt_Some.
  change (ptrs KRoot) with 512 in Hl. lia.
Qed.

Lemma no_pud_block_walk own m pgdp : pt_wf own m pgdp -> (forall pg d, 0 <= pg < NR_PAGES -> walk m pgdp pg <> Some (PudBlock d)) -> no_pud_block m pgdp.
Proof.
  intros Hwf H i e Hi E. destruct (stage2_huge e) eqn:Hh; [|done]. exfalso. pose proof (root_index _ _ _ _ _ Hwf Hi E) as Hl. apply (H (2 ^ 18 * i) e); [unfold NR_PAGES; lia|].
  unfold walk. replace (2 ^ 18 * i / 2 ^ 18) with i by dlia. rewrite (walk3_pud _ _ _ _ _ _ E) by (by rewrite Hh, orb_true_r).
  unfold stage2_huge in Hh. destruct (e =? 0); [done|done].
Qed.

Lemma walk_no_pud_block m pgdp pg d : 0 <= pg -> no_pud_block m pgdp -> walk m pgdp pg <> Some (PudBlock d).
Proof.
  intros Hp H. assert (0 <= pg / 2 ^ 18) as Hi by dlia. unfold walk, walk3. destruct (tread m pgdp (pg / 2 ^ 18)) as [e|] eqn:E; [|done]. msimpl. rewrite (H _ _ Hi E).
  destruct (e =? 0); [done|]. destruct (tread m _ (pg / 512 mod 512)) as [e'|]; [|done]. msimpl. destruct (e' =? 0); [done|]. destruct (stage2_huge e'); [done|].
  destruct (tread m _ (pg mod 512)) as [e''|]; msimpl; [destruct (e'' =? 0)|]; done.
Qed.

(** All pages of a block are part of it. *)
Lemma block_group m pgdp pg q d : pg / 512 = q / 512 -> walk m pgdp pg = Some (Block d) -> walk m pgdp q = Some (Block d).
Proof.
  intros E. unfold walk, walk3. replace (q / 2 ^ 18) with (pg / 2 ^ 18) by dlia. rewrite <- E. destruct (tread m pgdp _) as [e|]; [|done]. msimpl.
  destruct (e =? 0); [done|]. destruct (stage2_huge e); [done|]. destruct (tread m _ (pg / 512 mod 512)) as [e'|]; [|done]. msimpl.
  destruct (e' =? 0); [done|]. destruct (stage2_huge e'); [done|]. destruct (tread m _ (pg mod 512)) as [e''|]; [msimpl; by destruct (e'' =? 0)|done].
Qed.

Lemma mapped_no_pud_block own own' pgdp s s' st e phys flags : s2_wf own pgdp s -> s2_wf own' pgdp s' -> no_pud_block (s2_mem s) pgdp ->
  mapped_by (host_leaf flags) (s2_mem s) (s2_mem s') pgdp st e phys -> no_pud_block (s2_mem s') pgdp.
Proof.
  intros Hwf Hwf' Hnb Hm. apply (no_pud_block_walk own'); [apply Hwf'|]. intros pg d Hpg. specialize (Hm pg Hpg). destruct (_ && _).
  - unfold host_leaf, page_leaf, block_leaf in Hm. destruct Hm as [Hm|(_ & _ & Hm)]; congruence.
  - rewrite Hm. apply walk_no_pud_block; [lia|done].
Qed.

(** ** The operations of the hypervisor *)
Lemma align_pages x : IS_PAGE_ALIGN (PAGE_SIZE * x) = true.
Proof. apply IS_PAGE_ALIGN_true. unfold PAGE_SIZE. dlia. Qed.

Lemma create_spec own pgdp s st e phys flags :
  s2_wf own pgdp s -> no_block (s2_mem s) pgdp st e -> 0 <= st < e -> e <= S1_PAGES -> 0 <= phys < S1_PHYSICAL_MAX -> phys mod PAGE_SIZE = 0 ->
  map1_result own pgdp s st e phys (Z.lor (Z.lor flags VM_HOST) VM_HUGE) (create_host_mapping pgdp (PAGE_SIZE * st) phys (PAGE_SIZE * (e - st)) flags s).
Proof.
  intros Hwf Hnb Hst He Hp Hpm. unfold create_host_mapping. rewrite !align_pages, (proj2 (IS_PAGE_ALIGN_true phys) Hpm). cbn [negb orb].
  replace (u64 (PAGE_SIZE * st + PAGE_SIZE * (e - st))) with (PAGE_SIZE * e) by (unfold S1_PAGES, PAGE_SIZE in *; rewrite u64_small; lia). by apply host_map_spec.
Qed.

(** C9: mapping memory for the hypervisor keeps its page table a tree and, as long as no
    page of the range is part of a block yet, returns after mapping a prefix of the
    range: every page of it leads to its place in the physical range with the
    attributes of the flags, as a page or as part of a block, and the walk of every
    other page is unchanged.  The prefix is the whole range when the result is 0;
    otherwise the result is [-ENOMEM] and no page is left for a table. *)
Theorem create_host_mapping_correct own pgdp s st e phys flags :
  s2_wf own pgdp s -> no_block (s2_mem s) pgdp st e -> 0 <= st < e -> e <= S1_PAGES -> 0 <= phys < S1_PHYSICAL_MAX -> phys mod PAGE_SIZE = 0 ->
  map1_result own pgdp s st e phys (Z.lor (Z.lor flags VM_HOST) VM_HUGE) (create_host_mapping pgdp (PAGE_SIZE * st) phys (PAGE_SIZE * (e - st)) flags s).
Proof. apply create_spec. Qed.

(** Mapping a range inside one first level entry and unmapping it again leaves every
    page of the range unmapped and every other page as it was, whatever sizes of
    descriptors were used. *)
Theorem host_mapping_roundtrip own pgdp s st e phys flags s1 :
  s2_wf own pgdp s -> no_pud_block (s2_mem s) pgdp -> no_block (s2_mem s) pgdp st e -> 0 <= st < e -> e <= S1_PAGES -> 0 <= phys < S1_PHYSICAL_MAX -> phys mod PAGE_SIZE = 0 ->
  (e / 2 ^ 18) mod 512 = st / 2 ^ 18 ->
  create_host_mapping pgdp (PAGE_SIZE * st) phys (PAGE_SIZE * (e - st)) flags s = Some (0, s1) ->
  exists s2 own', destroy_host_mapping pgdp (PAGE_SIZE * st) (PAGE_SIZE * (e - st)) s1 = Some (0, s2) /\ own ⊆ own' /\ s2_wf own' pgdp s2
    /\ forall pg, 0 <= pg < NR_PAGES -> walk (s2_mem s2) pgdp pg = if (st <=? pg) && (pg <? e) then Some Fault else walk (s2_mem s) pgdp pg.
Proof.
  intros Hwf Hnp Hnb Hst He Hp Hpm Hidx Hc. destruct (create_spec own pgdp s st e phys flags) as (r & s1' & own' & x & E & Hsub & Hwf1 & Hx & Hm & Hr); [done..|].
  rewrite Hc in E. injection E as <- <-. destruct Hr as [[_ ->]|(_ & [=] & _)].
  assert (no_pud_block (s2_mem s1) pgdp) as Hnp1 by by eapply (mapped_no_pud_block own own').
  destruct (host_unmap_spec own' pgdp s1 st e Hwf1 Hnp1 Hst He Hidx) as (s2 & E2 & Hwf2 & _ & _ & Hu). exists s2, own'.
  unfold destroy_host_mapping. rewrite !align_pages. cbn [negb orb].
  replace (u64 (PAGE_SIZE * st + PAGE_SIZE * (e - st))) with (PAGE_SIZE * e) by (unfold S1_PAGES, PAGE_SIZE in *; rewrite u64_small; lia).
  split; [done|]. split; [done|]. split; [done|]. intros pg Hpg. specialize (Hm pg Hpg). specialize (Hu pg Hpg).
  destruct ((st <=? pg) && (pg <? e)) eqn:Ein; [done|]. destruct Hu as [Hu|(_ & [d Hd] & Hg)]; [congruence|]. exfalso. rewrite Hm in Hd.
  destruct (decide (pg < st)).
  - destruct (Hnb st d) as [Hb _]; [lia|]. apply Hb. apply (block_group _ _ pg); [dlia|done].
  - destruct (Hnb (e - 1) d) as [Hb _]; [lia|]. apply Hb. apply (block_group _ _ pg); [dlia|done].
Qed.

(** Changing the mapping of one address changes exactly the page or the block that
    holds it; an address without a last level table or block is refused. *)
Theorem change_host_mapping_correct own pgdp s vir phy flags :
  s2_wf own pgdp s -> no_pud_block (s2_mem s) pgdp -> 0 <= vir < S1_VIRT_MAX -> 0 <= phy < S1_PHYSICAL_MAX -> phy mod PAGE_SIZE = 0 ->
  change_result own pgdp s vir phy (Z.lor flags VM_HOST) (change_host_mapping pgdp vir phy flags s).
Proof. intros. by apply host_change_spec. Qed.

(** After a range was mapped with pages, every address of it translates to the
    corresponding physical address. *)
Theorem host_map_then_translate own pgdp s s' st e phys flags va :
  s2_wf own pgdp s -> no_block (s2_mem s) pgdp st e -> 0 <= st < e -> e <= S1_PAGES -> 0 < phys < S1_PHYSICAL_MAX -> phys mod PAGE_SIZE = 0 ->
  Z.land flags __VM_HUGE_2M = 0 -> arch_host_map pgdp (PAGE_SIZE * st) (PAGE_SIZE * e) phys flags s = Some (0, s') -> PAGE_SIZE * st <= va < PAGE_SIZE * e ->
  translate_va_to_pa pgdp va s' = Some (phys + (va - PAGE_SIZE * st)).
Proof.
  intros Hwf Hnb Hst He Hp Hpm Hfl Hmap Hva. destruct (host_map_spec own pgdp s st e phys flags) as (r & s1 & own' & x & E & _ & _ & _ & Hm & Hr); [done|done|done|done|lia|done|].
  rewrite Hmap in E. injection E as <- <-. destruct Hr as [[_ ->]|(_ & [=] & _)]. unfold S1_PAGES, S1_PHYSICAL_MAX in *.
  assert (st <= va / PAGE_SIZE < e) as Hpg by (unfold PAGE_SIZE in *; dlia). specialize (Hm (va / PAGE_SIZE) ltac:(unfold NR_PAGES; lia)).
  rewrite (proj2 (Z.leb_le _ _)), (proj2 (Z.ltb_lt _ _)) in Hm by lia. cbn [andb] in Hm. destruct Hm as [Hm|[? _]]; [|done].
  assert (0 <= va < S1_VIRT_MAX) as Hv by (unfold S1_VIRT_MAX, PAGE_SIZE in *; lia).
  unfold translate_va_to_pa, arch_translate_va_to_pa. rewrite (va_to_pa_walk _ _ _ _ Hv Hm) by done.
  change S1_PHYSICAL_MASK with S2_PHYSICAL_MASK. destruct (desc_fields (stage1_pte_attr 0 flags) (phys + PAGE_SIZE * (va / PAGE_SIZE - st))) as [-> _];
    [apply pte_attr_ok|unfold PAGE_SIZE in *; dlia|unfold PAGE_SIZE in *; dlia|].
  rewrite (proj2 (Z.eqb_neq _ _)) by (unfold PAGE_SIZE in *; lia). f_equal. unfold PAGE_SIZE in *. rewrite u64_small; dlia.
Qed.

(** ** Witnesses and deviations *)
Definition demo_host : s2 := mk_s2 {[demo_root := replicate 512 0]} [0x5000; 0x6000; 0x7000].
Definition demo_own : gmap Z kind := {[demo_root := KRoot]}.

Lemma demo_host_wf : s2_wf demo_own demo_root demo_host.
Proof.
  unfold demo_own. split; [split|split].
  - apply lookup_singleton_eq.
  - intros a kd [<- <-]%lookup_singleton_Some. exists (replicate 512 0). split; [apply lookup_singleton_eq|done].
  - intros i e _. unfold tread. cbn [s2_mem demo_host]. rewrite lookup_singleton_eq. msimpl. intros [-> _]%lookup_replicate. by left.
  - intros a i j e [_ H]%lookup_singleton_Some. done.
  - repeat (apply list.NoDup_cons; split; [set_solver|]). constructor.
  - repeat (apply List.Forall_cons; [split; [|done]; split; [lia|reflexivity]|]). constructor.
Qed.

Lemma demo_host_empty pg : 0 <= pg < S1_PAGES -> walk (s2_mem demo_host) demo_root pg = Some Fault.
Proof.
  intros Hp. unfold walk. rewrite (walk3_pud _ _ _ _ _ 0); [done| |done]. unfold tread. cbn [s2_mem demo_host]. rewrite lookup_singleton_eq. msimpl.
  apply lookup_replicate. split; [done|]. unfold S1_PAGES in *. dlia.
Qed.

Lemma demo_host_no_block st e : 0 <= st -> e <= S1_PAGES -> no_block (s2_mem demo_host) demo_root st e.
Proof. intros H1 H2 pg d Hpg. rewrite demo_host_empty by lia. done. Qed.

Lemma demo_host_no_pud : no_pud_block (s2_mem demo_host) demo_root.
Proof. intros i e _. unfold tread. cbn [s2_mem demo_host]. rewrite lookup_singleton_eq. msimpl. by intros [-> _]%lookup_replicate. Qed.

(** 2 MB and two pages. *)
Definition demo_created : s2 := match create_host_mapping demo_root 0x40000000 0x80000000 0x202000 (Z.lor __VM_NORMAL VM_RW) demo_host with Some (_, s) => s | None => demo_host end.

Lemma demo_create : create_host_mapping demo_root (PAGE_SIZE * 2 ^ 18) 0x80000000 (PAGE_SIZE * (2 ^ 18 + 514 - 2 ^ 18)) (Z.lor __VM_NORMAL VM_RW) demo_host = Some (0, demo_created).
Proof. vm_compute. reflexivity. Qed.

Lemma create_host_mapping_correct_witness :
  map1_result demo_own demo_root demo_host (2 ^ 18) (2 ^ 18 + 514) 0x80000000 (Z.lor (Z.lor (Z.lor __VM_NORMAL VM_RW) VM_HOST) VM_HUGE) (Some (0, demo_created)).
Proof.
  rewrite <- demo_create. apply (create_host_mapping_correct demo_own demo_root demo_host (2 ^ 18) (2 ^ 18 + 514));
    [exact demo_host_wf|apply demo_host_no_block; unfold S1_PAGES; lia|lia|unfold S1_PAGES; lia|unfold S1_PHYSICAL_MAX; lia|reflexivity].
Defined.

Lemma host_mapping_roundtrip_witness : exists s2, destroy_host_mapping demo_root (PAGE_SIZE * 2 ^ 18) (PAGE_SIZE * (2 ^ 18 + 514 - 2 ^ 18)) demo_created = Some (0, s2)
  /\ walk (s2_mem s2) demo_root (2 ^ 18 + 513) = Some Fault.
Proof.
  destruct (host_mapping_roundtrip demo_own demo_root demo_host (2 ^ 18) (2 ^ 18 + 514) 0x80000000 (Z.lor __VM_NORMAL VM_RW) demo_created) as (s2 & own' & E & _ & _ & H);
    [exact demo_host_wf|exact demo_host_no_pud|apply demo_host_no_block; unfold S1_PAGES; lia|lia|unfold S1_PAGES; lia|unfold S1_PHYSICAL_MAX; lia|reflexivity|reflexivity|exact demo_create|].
  exists s2. split; [exact E|]. rewrite H by (unfold NR_PAGES; lia). reflexivity.
Defined.

Lemma change_host_mapping_correct_witness : exists own', s2_wf own' demo_root demo_created
  /\ change_result own' demo_root demo_created 0x40201000 0x90000000 (Z.lor VM_RW VM_HOST) (change_host_mapping demo_root 0x40201000 0x90000000 VM_RW demo_created).
Proof.
  destruct (create_spec demo_own demo_root demo_host (2 ^ 18) (2 ^ 18 + 514) 0x80000000 (Z.lor __VM_NORMAL VM_RW)) as (r & s1 & own' & x & E & _ & Hwf & _ & Hm & _);
    [exact demo_host_wf|apply demo_host_no_block; unfold S1_PAGES; lia|lia|unfold S1_PAGES; lia|unfold S1_PHYSICAL_MAX; lia|reflexivity|].
  rewrite demo_create in E. injection E as <- <-. exists own'. split; [exact Hwf|].
  apply (change_host_mapping_correct own' demo_root demo_created 0x40201000 0x90000000 VM_RW);
    [exact Hwf|exact (mapped_no_pud_block _ _ _ _ _ _ _ _ _ demo_host_wf Hwf demo_host_no_pud Hm)|unfold S1_VIRT_MAX; lia|unfold S1_PHYSICAL_MAX; lia|reflexivity].
Defined.

Lemma host_map_then_translate_witness : exists s', arch_host_map demo_root (PAGE_SIZE * 5) (PAGE_SIZE * 7) 0x80000000 VM_RW demo_host = Some (0, s') /\ translate_va_to_pa demo_root 0x6123 s' = Some 0x80001123.
Proof.
  eexists. split; [vm_compute; reflexivity|]. rewrite (host_map_then_translate demo_own demo_root demo_host _ 5 7 0x80000000 VM_RW);
    [reflexivity|exact demo_host_wf|apply demo_host_no_block; unfold S1_PAGES; lia|lia|unfold S1_PAGES; lia|unfold S1_PHYSICAL_MAX; lia|reflexivity|reflexivity|vm_compute; reflexivity|unfold PAGE_SIZE; lia].
Defined.

(** A block that is mapped again is taken for a table: the entries are written to the
    memory that the block maps. *)
Lemma host_remap_block : create_host_mapping demo_root 0x40000000 0x80000000 0x200000 VM_RW demo_created = None.
Proof. vm_compute. reflexivity. Qed.

(** The address of a block translates to 0. *)
Lemma host_block_translates_to_zero : translate_va_to_pa demo_root 0x40001000 demo_created = Some 0 /\ translate_va_to_pa demo_root 0x40201234 demo_created = Some 0x80201234.
Proof. vm_compute. done. Qed.

(** Unmapping up to the end of a first level entry looks at the next entry. *)
Lemma host_unmap_end_of_entry : destroy_host_mapping demo_root 0x40000000 0x40000000 demo_created = Some (0, demo_created).
Proof. vm_compute. reflexivity. Qed.

(** Unmapping nothing runs to the end of the table and over it. *)
Lemma host_unmap_nothing : destroy_host_mapping demo_root 0x40200000 0 demo_created = None.
Proof. vm_compute. reflexivity. Qed.

(** Registers that do not start at a page cannot be mapped. *)
Lemma io_remap_unaligned pgdp vir size s : vir mod PAGE_SIZE <> 0 -> io_remap pgdp vir size s = Some (None, s).
Proof.
  intros Hv. assert (IS_PAGE_ALIGN vir = false) as E by (destruct (IS_PAGE_ALIGN vir) eqn:E; [by apply IS_PAGE_ALIGN_true in E|done]).
  unfold io_remap, create_host_mapping. rewrite E. cbn [negb]. by rewrite orb_true_r.
Qed.
