(* ===== verification/VmmArea.v ===== *)
(** * The address space of a guest (virt/vmm.c, lines 106-163 and 262-398)

    A guest address space is a list of free areas and a list of used areas.
    [split_vmm_area] takes a given range out of the free space,
    [alloc_free_vmm_area] an aligned range of a given size, and
    [release_vmm_area] gives an area back and merges it with its neighbours.
    An area on a list is named by its position.  [zalloc] (core/memory.c) can
    fail: [oks] is the list of the outcomes of the calls to come, an empty list
    meaning failure from then on. *)
From S2P Require Import Prelude Stage2.

Definition BAD_ADDRESS : Z := 2 ^ 64 - 1.
Definition BLOCK_MASK : Z := 0x1fffff.
Definition VM_NORMAL : Z := __VM_NORMAL.

Record vmm_area := mk_area {
  va_start : Z;
  va_end : Z;
  va_pstart : Z;
  va_flags : Z;
  va_vmid : Z;
  va_b_head : list Z;
}.

(** The areas of an [mm_struct]. *)
Record areas := mk_areas {
  vmm_area_free : list vmm_area;
  vmm_area_used : list vmm_area;
}.

Definition zalloc (oks : list bool) : bool * list bool :=
  match oks with
  | [] => (false, [])
  | ok :: oks => (ok, oks)
  end.

Definition __alloc_vmm_area_entry (base size : Z) (oks : list bool) : option vmm_area * list bool :=
  let '(ok, oks) := zalloc oks in
  (if ok then Some (mk_area base (u64 (base + size)) BAD_ADDRESS 0 0 []) else None, oks).

(** One pass of [__add_free_vmm_area] over the free list: either [va] was merged
    with an area, which left the list, and the pass starts again, or [va] was
    put on the list. *)
Fixpoint add_free_pass (size : Z) (va : vmm_area) (pre l : list vmm_area)
    : (vmm_area * list vmm_area) + list vmm_area :=
  match l with
  | [] => inr (pre ++ [va])
  | tmp :: post =>
      if va_start va =? va_end tmp then
        inl (mk_area (va_start tmp) (va_end va) (va_pstart va) (va_flags va) (va_vmid va) (va_b_head va), pre ++ post)
      else if va_end va =? va_start tmp then
        inl (mk_area (va_start va) (va_end tmp) (va_pstart va) (va_flags va) (va_vmid va) (va_b_head va), pre ++ post)
      else if size <=? u64 (va_end tmp - va_start tmp) then inr (pre ++ va :: tmp :: post)
      else add_free_pass size va (pre ++ [tmp]) post
  end.

(** Every merge shortens the list, so that its length bounds the passes. *)
Fixpoint add_free_loop (fuel : nat) (size : Z) (va : vmm_area) (free : list vmm_area) : option (list vmm_area) :=
  match fuel with
  | O => None
  | S fuel =>
      match add_free_pass size va [] free with
      | inl (va, free) => add_free_loop fuel size va free
      | inr free => Some free
      end
  end.

Definition __add_free_vmm_area (area : vmm_area) (free : list vmm_area) : option (list vmm_area) :=
  let size := u64 (va_end area - va_start area) in
  add_free_loop (S (length free)) size
    (mk_area (va_start area) (va_end area) 0 0 0 (va_b_head area)) free.

(** [vma] is the free area at position [k]. *)
Definition __split_vmm_area (k : nat) (vma : vmm_area) (base end_ flags : Z) (oks : list bool) (s : areas)
    : option vmm_area * list bool * areas :=
  let left_size := u64 (base - va_start vma) in
  let right_size := u64 (va_end vma - end_) in
  let '(lok, larea, oks) :=
    if 0 <? left_size then
      let '(r, oks) := __alloc_vmm_area_entry (va_start vma) left_size oks in
      (match r with Some _ => true | None => false end, r, oks)
    else (true, None, oks) in
  if negb lok then (None, oks, s)
  else
    let '(rok, rarea, oks) :=
      if 0 <? right_size then
        let '(r, oks) := __alloc_vmm_area_entry end_ right_size oks in
        (match r with Some _ => true | None => false end, r, oks)
      else (true, None, oks) in
    if negb rok then (None, oks, s)
    else
      let vma' := mk_area base end_ (va_pstart vma) flags (va_vmid vma) (va_b_head vma) in
      let rest := take k (vmm_area_free s) ++ drop (S k) (vmm_area_free s) in
      (Some vma', oks,
       mk_areas (option_list rarea ++ option_list larea ++ rest) (vmm_area_used s ++ [vma'])).

Definition __alloc_free_vmm_area (k : nat) (vma : vmm_area) (size mask flags : Z) (oks : list bool) (s : areas)
    : option vmm_area * list bool * areas :=
  let base := Z.land (u64 (va_start vma + mask)) (not64 mask) in
  let end_ := u64 (base + size) in
  if negb ((va_start vma <=? base) && (end_ <=? va_end vma)) then (None, oks, s)
  else __split_vmm_area k vma base end_ flags oks s.

(** The search of [alloc_free_vmm_area]; [l] is the part of the free list from
    position [k] on. *)
Fixpoint alloc_free_walk (k : nat) (l : list vmm_area) (size mask flags : Z) (oks : list bool) (s : areas)
    : option vmm_area * list bool * areas :=
  match l with
  | [] => (None, oks, s)
  | va :: l =>
      if u64 (va_end va - va_start va) <? size then alloc_free_walk (S k) l size mask flags oks s
      else
        let '(new, oks, s) := __alloc_free_vmm_area k va size mask flags oks s in
        match new with
        | Some _ => (new, oks, s)
        | None => alloc_free_walk (S k) l size mask flags oks s
        end
  end.

Definition alloc_free_vmm_area (size mask flags : Z) (oks : list bool) (s : areas)
    : option vmm_area * list bool * areas :=
  let mask := if mask =? BLOCK_MASK then BLOCK_MASK else PAGE_MASK in
  let size := BALIGN size PAGE_SIZE in
  alloc_free_walk 0 (vmm_area_free s) size mask flags oks s.

(** The first free area that holds the range, with its position. *)
Fixpoint find_area (k : nat) (base end_ : Z) (l : list vmm_area) : option (nat * vmm_area) :=
  match l with
  | [] => None
  | va :: l =>
      if (va_start va <=? base) && (end_ <=? va_end va) then Some (k, va)
      else find_area (S k) base end_ l
  end.

Definition split_vmm_area (base size flags : Z) (oks : list bool) (s : areas)
    : option vmm_area * list bool * areas :=
  let end_ := u64 (base + size) in
  if negb (Z.land flags VM_NORMAL =? 0) && (negb (IS_PAGE_ALIGN base) || negb (IS_PAGE_ALIGN size))
  then (None, oks, s)
  else
    match find_area 0 base end_ (vmm_area_free s) with
    | None => (None, oks, s)
    | Some (k, va) => __split_vmm_area k va base end_ flags oks s
    end.

(** [va->pstart = pbase] on the area that is now last on the used list. *)
Definition request_vmm_area (base pbase size flags : Z) (oks : list bool) (s : areas)
    : option vmm_area * list bool * areas :=
  let '(r, oks, s) := split_vmm_area base size flags oks s in
  match r with
  | None => (None, oks, s)
  | Some va =>
      let va := mk_area (va_start va) (va_end va) pbase (va_flags va) (va_vmid va) (va_b_head va) in
      (Some va, oks, mk_areas (vmm_area_free s) (removelast (vmm_area_used s) ++ [va]))
  end.

(** The list part of [release_vmm_area] for the used area at position [k]. *)
Definition release_area (k : nat) (va : vmm_area) (s : areas) : option areas :=
  free ← __add_free_vmm_area va (vmm_area_free s);
  Some (mk_areas free (take k (vmm_area_used s) ++ drop (S k) (vmm_area_used s))).

Definition vmm_area_init (bit64 : bool) (oks : list bool) (s : areas) : list bool * areas :=
  let '(r, oks) := __alloc_vmm_area_entry 0 (if bit64 then 2 ^ 40 else 0x100000000) oks in
  (oks, mk_areas (vmm_area_free s ++ option_list r) (vmm_area_used s)).

(** 0 when the address lies in a used area. *)
Definition check_vm_address (addr : Z) (s : areas) : Z :=
  b2z (negb (existsb (fun va => (va_start va <=? addr) && (addr <? va_end va)) (vmm_area_used s))).

(** The loop over the free areas at the end of [vm_mm_init]. *)
Definition trim_free_area (va : vmm_area) : option vmm_area :=
  let base := BALIGN (va_start va) PAGE_SIZE in
  let end_ := ALIGN (va_end va) PAGE_SIZE in
  let size := u64 (end_ - base) in
  if size <? PAGE_SIZE then None
  else if negb (size =? u64 (va_end va - va_start va)) then
    Some (mk_area base end_ (va_pstart va) (va_flags va) (va_vmid va) (va_b_head va))
  else Some va.

Definition trim_free_areas (s : areas) : areas :=
  mk_areas (omap trim_free_area (vmm_area_free s)) (vmm_area_used s).

(** ** Specification

    [cov l a] is the number of areas of [l] that hold address [a]. *)
Definition cov (l : list vmm_area) (a : Z) : Z := zsum (fun va => rng (va_start va) (va_end va) a) l.

Definition area_wf (va : vmm_area) : Prop := 0 <= va_start va < va_end va /\ va_end va <= 2 ^ 62.

(** The areas are not empty and do not overlap. *)
Definition areas_wf (s : areas) : Prop :=
  Forall area_wf (vmm_area_free s) /\ Forall area_wf (vmm_area_used s)
  /\ forall a, cov (vmm_area_free s) a + cov (vmm_area_used s) a <= 1.

(** The range moved from the free to the used space, and nothing else. *)
Definition moved (s s' : areas) (lo hi : Z) : Prop :=
  forall a, cov (vmm_area_free s') a = cov (vmm_area_free s) a - rng lo hi a
         /\ cov (vmm_area_used s') a = cov (vmm_area_used s) a + rng lo hi a.

(** ** Lemmas *)
Lemma cov_cons va l a : cov (va :: l) a = rng (va_start va) (va_end va) a + cov l a.
Proof. unfold cov. by rewrite zsum_cons. Qed.
Lemma cov_app l1 l2 a : cov (l1 ++ l2) a = cov l1 a + cov l2 a.
Proof. unfold cov. by rewrite zsum_app. Qed.
Lemma cov_nil a : cov [] a = 0.
Proof. done. Qed.
Create Rewrite HintDb cov.
#[export] Hint Rewrite cov_cons cov_app cov_nil : cov.

Lemma cov_nonneg l a : 0 <= cov l a.
Proof. apply zsum_nonneg. intros va _. unfold rng. by destruct (_ && _). Qed.

(** Taking the element at position [k] out of a list. *)
Lemma cov_remove k va l a :
  l !! k = Some va ->
  cov l a = rng (va_start va) (va_end va) a + cov (take k l ++ drop (S k) l) a.
Proof.
  intros H. rewrite <- (take_drop_middle l k va H) at 1. autorewrite with cov. lia.
Qed.

Lemma Forall_remove {A} (P : A -> Prop) k l : Forall P l -> Forall P (take k l ++ drop (S k) l).
Proof. intros H. apply Forall_app. split; [by apply Forall_take|by apply Forall_drop]. Qed.

Lemma add_free_pass_spec size va pre l :
  area_wf va -> Forall area_wf l -> Forall area_wf pre ->
  match add_free_pass size va pre l with
  | inl (va', l') =>
      area_wf va' /\ Forall area_wf l' /\ (length l' < length (pre ++ l))%nat
      /\ forall a, rng (va_start va') (va_end va') a + cov l' a
                   = rng (va_start va) (va_end va) a + cov (pre ++ l) a
  | inr l' =>
      Forall area_wf l'
      /\ forall a, cov l' a = rng (va_start va) (va_end va) a + cov (pre ++ l) a
  end.
Proof.
  intros Hva Hl. revert pre. induction Hl as [|tmp post Ht Hpost IH]; intros pre Hpre; cbn.
  - split; [apply Forall_app; split; [done|by apply Forall_singleton]|].
    intros a. autorewrite with cov. lia.
  - assert (Forall area_wf (pre ++ post)) as Hpp by by apply Forall_app.
    destruct Hva as [Hva1 Hva2], Ht as [Ht1 Ht2].
    destruct (Z.eqb_spec (va_start va) (va_end tmp)) as [E|_]; [|destruct (Z.eqb_spec (va_end va) (va_start tmp)) as [E|_]].
    + split; [split; cbn; lia|]. split; [done|]. rewrite !length_app. cbn. split; [lia|].
      intros a. autorewrite with cov. rewrite (rng_split (va_start tmp) (va_end tmp) (va_end va)) by lia. rewrite E. lia.
    + split; [split; cbn; lia|]. split; [done|]. rewrite !length_app. cbn. split; [lia|].
      intros a. autorewrite with cov. rewrite (rng_split (va_start va) (va_end va) (va_end tmp)) by lia. rewrite E. lia.
    + destruct (_ <=? _).
      * split; [apply Forall_app; split; [done|]; constructor; [by split|constructor; [by split|done]]|].
        intros a. autorewrite with cov. lia.
      * specialize (IH (pre ++ [tmp])). rewrite <- app_assoc in IH. apply IH.
        apply Forall_app. split; [done|]. apply Forall_singleton. by split.
Qed.

Lemma add_free_loop_spec fuel : forall size va free,
  area_wf va -> Forall area_wf free -> (length free < fuel)%nat ->
  exists free', add_free_loop fuel size va free = Some free' /\ Forall area_wf free'
    /\ forall a, cov free' a = rng (va_start va) (va_end va) a + cov free a.
Proof.
  induction fuel as [|fuel IH]; intros size va free Hva Hf Hlen; [lia|]. cbn.
  pose proof (add_free_pass_spec size va [] free Hva Hf (List.Forall_nil _)) as H.
  destruct (add_free_pass size va [] free) as [[va' l']|l'].
  - destruct H as (H1 & H2 & H3 & H4). cbn in H3.
    destruct (IH size va' l' H1 H2) as (f' & E & Hf' & Hc); [lia|].
    exists f'. split; [done|]. split; [done|]. intros a. rewrite Hc, H4. done.
  - destruct H as [H1 H2]. by exists l'.
Qed.

Lemma add_free_spec va free :
  area_wf va -> Forall area_wf free ->
  exists free', __add_free_vmm_area va free = Some free' /\ Forall area_wf free'
    /\ forall a, cov free' a = rng (va_start va) (va_end va) a + cov free a.
Proof.
  intros Hva Hf. unfold __add_free_vmm_area.
  apply (add_free_loop_spec (S (length free)) _ (mk_area (va_start va) (va_end va) 0 0 0 (va_b_head va)) free); [|done|lia].
  done.
Qed.

(** ** Splitting *)
Definition two_ok (oks : list bool) : Prop := exists rest, oks = true :: true :: rest.

(** What taking the range [base, end_) out of the free space promises. *)
Definition taken (s s' : areas) (va : vmm_area) (base end_ flags : Z) : Prop :=
  areas_wf s' /\ moved s s' base end_
  /\ va_start va = base /\ va_end va = end_ /\ va_flags va = flags
  /\ vmm_area_used s' = vmm_area_used s ++ [va].

Lemma split_commit s k vma base end_ flags larea rarea :
  areas_wf s -> vmm_area_free s !! k = Some vma ->
  va_start vma <= base < end_ -> end_ <= va_end vma ->
  Forall area_wf (option_list larea) -> Forall area_wf (option_list rarea) ->
  (forall a, cov (option_list larea) a = rng (va_start vma) base a) ->
  (forall a, cov (option_list rarea) a = rng end_ (va_end vma) a) ->
  let vma' := mk_area base end_ (va_pstart vma) flags (va_vmid vma) (va_b_head vma) in
  taken s (mk_areas (option_list rarea ++ option_list larea
                       ++ take k (vmm_area_free s) ++ drop (S k) (vmm_area_free s))
             (vmm_area_used s ++ [vma'])) vma' base end_ flags.
Proof.
  intros (Hf & Hu & Hc) Hk Hb He Hl Hr Hcl Hcr vma'.
  pose proof (Forall_lookup_1 _ _ _ _ Hf Hk) as [Hv1 Hv2].
  assert (forall a, cov (vmm_area_free s) a = rng (va_start vma) base a + rng base end_ a
    + rng end_ (va_end vma) a + cov (take k (vmm_area_free s) ++ drop (S k) (vmm_area_free s)) a) as Hfree.
  { intros a. rewrite (cov_remove k vma) by done. rewrite (rng_split _ base (va_end vma)) by lia.
    rewrite (rng_split base end_ (va_end vma)) by lia. lia. }
  assert (moved s (mk_areas (option_list rarea ++ option_list larea
                       ++ take k (vmm_area_free s) ++ drop (S k) (vmm_area_free s))
             (vmm_area_used s ++ [vma'])) base end_) as Hm.
  { intros a. cbn [vmm_area_free vmm_area_used]. rewrite Hfree, !cov_app, cov_cons, cov_nil, Hcl, Hcr, <- !cov_app.
    cbn. lia. }
  split; [split; [|split]|].
  - cbn. rewrite !Forall_app. split; [done|]. split; [done|]. apply Forall_app. by apply Forall_remove.
  - cbn. apply Forall_app. split; [done|]. apply Forall_singleton. split; cbn; lia.
  - intros a. destruct (Hm a) as [-> ->]. specialize (Hc a). lia.
  - done.
Qed.

(** The entry for one of the two sides of a split. *)
Lemma side_entry lo hi oks :
  0 <= lo <= hi -> hi <= 2 ^ 62 ->
  let size := u64 (hi - lo) in
  let '(ok, area, oks') :=
    if 0 <? size then
      let '(r, oks) := __alloc_vmm_area_entry lo size oks in
      (match r with Some _ => true | None => false end, r, oks)
    else (true, None, oks) in
  (ok = true -> Forall area_wf (option_list area)
                /\ forall a, cov (option_list area) a = rng lo hi a)
  /\ (ok = false -> forall rest, oks <> true :: rest)
  /\ (forall rest, oks = true :: rest -> oks' = rest \/ oks' = oks).
Proof.
  intros Hlo Hhi size. assert (size = hi - lo) as Es by (unfold size; apply u64_small; lia).
  clearbody size. subst size. destruct (Z.ltb_spec 0 (hi - lo)).
  - unfold __alloc_vmm_area_entry, zalloc. destruct oks as [|[] oks]; cbn [option_list].
    + split; [done|]. split; [by intros|by intros].
    + rewrite u64_small by lia. replace (lo + (hi - lo)) with hi by lia.
      split; [|split; [done|by intros rest [= ->]; left]]. intros _. split.
      * apply Forall_singleton. split; cbn; lia.
      * intros a. autorewrite with cov. cbn. lia.
    + split; [done|]. split; [by intros|by intros].
  - cbn [option_list]. split; [|split; [done|by right]]. intros _. split; [done|].
    intros a. rewrite cov_nil. destruct (rng_cases lo hi a) as [[-> ?]|[-> _]]; lia.
Qed.

Lemma split_spec k vma base end_ flags oks s :
  areas_wf s -> vmm_area_free s !! k = Some vma ->
  va_start vma <= base < end_ -> end_ <= va_end vma ->
  match __split_vmm_area k vma base end_ flags oks s with
  | (Some va, _, s') => taken s s' va base end_ flags
  | (None, _, s') => s' = s /\ ~ two_ok oks
  end.
Proof.
  intros Hwf Hk Hb He. pose proof (Forall_lookup_1 _ _ _ _ (proj1 Hwf) Hk) as [Hv1 Hv2].
  unfold __split_vmm_area.
  pose proof (side_entry (va_start vma) base oks ltac:(lia) ltac:(lia)) as HL. cbn zeta in HL.
  destruct (if 0 <? u64 (base - va_start vma) then _ else _) as [[lok larea] oks1].
  destruct HL as (HL1 & HL2 & HL3). destruct lok; cbn [negb].
  2:{ split; [done|]. intros [rest ->]. by eapply HL2. }
  pose proof (side_entry end_ (va_end vma) oks1 ltac:(lia) ltac:(lia)) as HR. cbn zeta in HR.
  destruct (if 0 <? u64 (va_end vma - end_) then _ else _) as [[rok rarea] oks2].
  destruct HR as (HR1 & HR2 & _). destruct rok; cbn [negb].
  2:{ split; [done|]. intros [rest ->]. destruct (HL3 (true :: rest) eq_refl) as [->| ->]; by eapply HR2. }
  destruct (HL1 eq_refl), (HR1 eq_refl). by apply split_commit.
Qed.

Lemma find_area_spec base end_ l : forall k,
  match find_area k base end_ l with
  | Some (k', va) => exists n, k' = (k + n)%nat /\ l !! n = Some va /\ va_start va <= base /\ end_ <= va_end va
  | None => forall va, va ∈ l -> ~ (va_start va <= base /\ end_ <= va_end va)
  end.
Proof.
  induction l as [|va l IH]; intros k; cbn; [set_solver|].
  destruct (Z.leb_spec (va_start va) base), (Z.leb_spec end_ (va_end va)); cbn;
    [exists 0%nat; split; [lia|]; by split| | |];
    (specialize (IH (S k)); destruct (find_area (S k) base end_ l) as [[k' va']|];
      [destruct IH as (n & -> & Hn & Hr); exists (S n); split; [lia|done]
      |intros va' [->|Hin]%elem_of_cons; [lia|by apply IH]]).
Qed.

(** ** Allocation *)

(** The free area can hold [size] bytes at a multiple of [2 ^ n]. *)
Definition fits (n size : Z) (va : vmm_area) : Prop :=
  exists b, va_start va <= b /\ b mod 2 ^ n = 0 /\ b + size <= va_end va.

Lemma align_up_mod x n : 0 <= n -> 2 ^ n * ((x + (2 ^ n - 1)) / 2 ^ n) mod 2 ^ n = 0.
Proof. intros. rewrite Z.mul_comm. apply Z.mod_mul. pose proof (Z.pow_pos_nonneg 2 n). lia. Qed.

Lemma alloc_one_spec k vma n size mask flags oks s :
  areas_wf s -> vmm_area_free s !! k = Some vma -> 0 <= n <= 21 -> mask = 2 ^ n - 1 ->
  0 < size <= va_end vma - va_start vma ->
  match __alloc_free_vmm_area k vma size mask flags oks s with
  | (Some va, _, s') => exists base, base mod 2 ^ n = 0 /\ taken s s' va base (base + size) flags
  | (None, oks', s') => s' = s /\ (two_ok oks -> oks' = oks /\ ~ fits n size vma)
  end.
Proof.
  intros Hwf Hk Hn -> Hsz. pose proof (Forall_lookup_1 _ _ _ _ (proj1 Hwf) Hk) as [Hv1 Hv2].
  unfold __alloc_free_vmm_area.
  assert (0 < 2 ^ n <= 2 ^ 21) as Hp.
  { split; [apply Z.pow_pos_nonneg; lia|apply Z.pow_le_mono_r; lia]. }
  rewrite u64_small, land_not64_pow2 by lia.
  pose proof (align_up_bounds (va_start vma) n ltac:(lia)) as Hb.
  pose proof (align_up_mod (va_start vma) n ltac:(lia)) as Hbm.
  set (base := 2 ^ n * ((va_start vma + (2 ^ n - 1)) / 2 ^ n)) in *.
  rewrite u64_small by lia. rewrite (proj2 (Z.leb_le _ _)) by lia. cbn [andb].
  destruct (Z.leb_spec (base + size) (va_end vma)) as [Hfit|Hfit]; cbn [negb].
  - pose proof (split_spec k vma base (base + size) flags oks s Hwf Hk ltac:(lia) Hfit) as H.
    destruct (__split_vmm_area k vma base (base + size) flags oks s) as [[[va|] oks'] s'].
    + by exists base.
    + destruct H as [-> H]. split; [done|]. by intros.
  - split; [done|]. intros _. split; [done|]. intros (b & Hb1 & Hb2 & Hb3).
    assert (base <= b); [|lia]. apply align_up_least; [lia|done|].
    apply Z.mod_divide; [lia|done].
Qed.

Lemma alloc_walk_areas_spec n size mask flags l : forall k oks s,
  areas_wf s -> (forall i va, l !! i = Some va -> vmm_area_free s !! (k + i)%nat = Some va) ->
  0 <= n <= 21 -> mask = 2 ^ n - 1 -> 0 < size ->
  match alloc_free_walk k l size mask flags oks s with
  | (Some va, _, s') => exists base, base mod 2 ^ n = 0 /\ taken s s' va base (base + size) flags
  | (None, oks', s') => s' = s /\ (two_ok oks -> forall va, va ∈ l -> ~ fits n size va)
  end.
Proof.
  induction l as [|vma l IH]; intros k oks s Hwf Hl Hn Hm Hsz; cbn; [set_solver|].
  assert (vmm_area_free s !! k = Some vma) as Hk.
  { specialize (Hl 0%nat vma eq_refl). by rewrite Nat.add_0_r in Hl. }
  assert (forall i va, l !! i = Some va -> vmm_area_free s !! (S k + i)%nat = Some va) as Hl'.
  { intros i va Hi. specialize (Hl (S i) va Hi). by rewrite <- Nat.add_succ_comm in Hl. }
  pose proof (Forall_lookup_1 _ _ _ _ (proj1 Hwf) Hk) as [Hv1 Hv2].
  rewrite u64_small by lia. destruct (Z.ltb_spec (va_end vma - va_start vma) size).
  - specialize (IH (S k) oks s Hwf Hl' Hn Hm Hsz).
    destruct (alloc_free_walk (S k) l size mask flags oks s) as [[[va|] oks'] s']; [done|].
    destruct IH as [-> IH]. split; [done|]. intros Hok va [->|Hin]%elem_of_cons; [|by apply IH].
    intros (b & ? & ? & ?). lia.
  - pose proof (alloc_one_spec k vma n size mask flags oks s Hwf Hk Hn Hm ltac:(lia)) as H1.
    destruct (__alloc_free_vmm_area k vma size mask flags oks s) as [[[va|] oks1] s1]; [done|].
    destruct H1 as [-> H1]. specialize (IH (S k) oks1 s Hwf Hl' Hn Hm Hsz).
    destruct (alloc_free_walk (S k) l size mask flags oks1 s) as [[[va|] oks'] s']; [done|].
    destruct IH as [-> IH]. split; [done|]. intros Hok va [->|Hin]%elem_of_cons.
    + by apply H1.
    + destruct (H1 Hok) as [-> _]. by apply IH.
Qed.

Lemma alloc_free_vmm_area_spec size mask flags oks s :
  areas_wf s -> 0 < size < 2 ^ 62 ->
  let n := if mask =? BLOCK_MASK then 21 else 12 in
  let rsize := PAGE_SIZE * ((size + (PAGE_SIZE - 1)) / PAGE_SIZE) in
  match alloc_free_vmm_area size mask flags oks s with
  | (Some va, _, s') => exists base, base mod 2 ^ n = 0 /\ taken s s' va base (base + rsize) flags
  | (None, _, s') => s' = s /\ (two_ok oks -> forall va, va ∈ vmm_area_free s -> ~ fits n rsize va)
  end.
Proof.
  intros Hwf Hs n rsize. unfold alloc_free_vmm_area.
  assert (BALIGN size PAGE_SIZE = rsize) as -> by (apply (BALIGN_pow2 size 12); lia).
  apply alloc_walk_areas_spec; try done.
  - unfold n. destruct (mask =? BLOCK_MASK); lia.
  - unfold n. by destruct (mask =? BLOCK_MASK).
  - unfold rsize, PAGE_SIZE. dlia.
Qed.

(** [alloc_free_vmm_area] returns an area of the requested size rounded up
    to pages, aligned to a block when asked for and to a page otherwise, whose
    addresses were all free and move to the used space while every other address
    stays where it was; it returns [NULL] with nothing changed, and when memory
    for the bookkeeping is available only if no free area can hold such a range. *)
Theorem alloc_free_vmm_area_correct size mask flags oks s :
  areas_wf s -> 0 < size < 2 ^ 62 ->
  let n := if mask =? BLOCK_MASK then 21 else 12 in
  let rsize := PAGE_SIZE * ((size + (PAGE_SIZE - 1)) / PAGE_SIZE) in
  match alloc_free_vmm_area size mask flags oks s with
  | (Some va, _, s') => exists base, base mod 2 ^ n = 0 /\ taken s s' va base (base + rsize) flags
  | (None, _, s') => s' = s /\ (two_ok oks -> forall va, va ∈ vmm_area_free s -> ~ fits n rsize va)
  end.
Proof. apply alloc_free_vmm_area_spec. Qed.

(** [split_vmm_area] takes exactly the requested range out of the free
    space; it fails with nothing changed on an unaligned range of normal memory,
    and, when memory for the bookkeeping is available, only if no free area
    holds the whole range. *)
Theorem split_vmm_area_correct base size flags oks s :
  areas_wf s -> 0 <= base -> 0 < size -> base + size < 2 ^ 64 ->
  match split_vmm_area base size flags oks s with
  | (Some va, _, s') =>
      taken s s' va base (base + size) flags
      /\ (Z.land flags VM_NORMAL <> 0 -> base mod PAGE_SIZE = 0 /\ size mod PAGE_SIZE = 0)
  | (None, _, s') =>
      s' = s
      /\ (two_ok oks -> (Z.land flags VM_NORMAL <> 0 -> base mod PAGE_SIZE = 0 /\ size mod PAGE_SIZE = 0) ->
          forall va, va ∈ vmm_area_free s -> ~ (va_start va <= base /\ base + size <= va_end va))
  end.
Proof.
  intros Hwf Hb Hs He. unfold split_vmm_area. rewrite u64_small by lia.
  destruct (negb (Z.land flags VM_NORMAL =? 0) && _) eqn:Eal.
  - split; [done|]. intros _ Hal. apply andb_true_iff in Eal as [E1 E2].
    destruct Hal as [H1 H2]; [by apply Z.eqb_neq, negb_true_iff|].
    rewrite (proj2 (IS_PAGE_ALIGN_true base) H1), (proj2 (IS_PAGE_ALIGN_true size) H2) in E2. done.
  - assert (Z.land flags VM_NORMAL <> 0 -> base mod PAGE_SIZE = 0 /\ size mod PAGE_SIZE = 0) as Hal.
    { intros Hf. rewrite (proj2 (Z.eqb_neq _ _) Hf) in Eal. cbn in Eal. apply orb_false_iff in Eal as [E1 E2].
      rewrite <- IS_PAGE_ALIGN_true, <- IS_PAGE_ALIGN_true. by rewrite negb_false_iff in E1, E2. }
    pose proof (find_area_spec base (base + size) (vmm_area_free s) 0) as H.
    destruct (find_area 0 base (base + size) (vmm_area_free s)) as [[k va]|]; [|done].
    destruct H as (n & -> & Hn & H1 & H2). cbn.
    pose proof (split_spec n va base (base + size) flags oks s Hwf Hn ltac:(lia) H2) as Hsp.
    destruct (__split_vmm_area n va base (base + size) flags oks s) as [[[va'|] oks'] s']; [done|].
    destruct Hsp as [-> Hsp]. split; [done|]. by intros.
Qed.

(** Giving a used area back returns, merges it into the free list without
    gaining or losing an address, and keeps the areas disjoint. *)
Theorem release_area_correct k va s :
  areas_wf s -> vmm_area_used s !! k = Some va ->
  exists s', release_area k va s = Some s' /\ areas_wf s' /\ moved s' s (va_start va) (va_end va).
Proof.
  intros (Hf & Hu & Hc) Hk. pose proof (Forall_lookup_1 _ _ _ _ Hu Hk) as Hva.
  destruct (add_free_spec va (vmm_area_free s) Hva Hf) as (free & E & Hf' & Hcf).
  unfold release_area. rewrite E. msimpl. eexists. split; [done|].
  assert (moved (mk_areas free (take k (vmm_area_used s) ++ drop (S k) (vmm_area_used s))) s
            (va_start va) (va_end va)) as Hm.
  { intros a. cbn [vmm_area_free vmm_area_used]. rewrite Hcf, (cov_remove k va (vmm_area_used s)) by done. lia. }
  split; [|done]. split; [done|]. split; [by apply Forall_remove|].
  intros a. destruct (Hm a) as [H1 H2]. specialize (Hc a). lia.
Qed.

(** ** Trimming the free areas to pages *)
Lemma page_bounds va :
  area_wf va ->
  BALIGN (va_start va) PAGE_SIZE = PAGE_SIZE * ((va_start va + (PAGE_SIZE - 1)) / PAGE_SIZE)
  /\ ALIGN (va_end va) PAGE_SIZE = PAGE_SIZE * (va_end va / PAGE_SIZE).
Proof.
  intros [H1 H2]. split; [apply (BALIGN_pow2 _ 12); lia|apply (ALIGN_pow2 _ 12); lia].
Qed.

(** For a free area that reaches a page boundary, the trimming at the end
    of [vm_mm_init] keeps exactly the whole pages of the area, and drops the area
    when it has none. *)
Theorem trim_free_area_correct va :
  area_wf va -> va_start va mod PAGE_SIZE = 0 \/ PAGE_SIZE <= va_start va mod PAGE_SIZE + (va_end va - va_start va) ->
  let lo := PAGE_SIZE * ((va_start va + (PAGE_SIZE - 1)) / PAGE_SIZE) in
  let hi := PAGE_SIZE * (va_end va / PAGE_SIZE) in
  va_start va <= lo <= hi /\ hi <= va_end va
  /\ match trim_free_area va with
     | Some va' => va_start va' = lo /\ va_end va' = hi /\ area_wf va'
     | None => lo = hi
     end.
Proof.
  intros Hwf Hb lo hi. destruct (page_bounds va Hwf) as [E1 E2]. destruct Hwf as [Hw1 Hw2].
  unfold trim_free_area. rewrite E1, E2. fold lo hi.
  assert (va_start va <= lo <= hi /\ hi <= va_end va) as Hr.
  { unfold lo, hi, PAGE_SIZE in *. dlia. }
  split; [lia|]. split; [lia|]. rewrite !u64_small by lia.
  destruct (Z.ltb_spec (hi - lo) PAGE_SIZE) as [Hlt|Hge]; [unfold lo, hi, PAGE_SIZE in *; lia|].
  destruct (Z.eqb_spec (hi - lo) (va_end va - va_start va)); cbn [negb].
  - split; [lia|]. split; [lia|]. split; lia.
  - unfold area_wf. cbn. unfold PAGE_SIZE in *. lia.
Qed.

(** A free area strictly inside a page is neither dropped nor kept: its
    size is computed as a huge unsigned number and it becomes an area whose end
    is one page below its start. *)
Theorem trim_free_area_inverts va :
  area_wf va -> 0 < va_start va mod PAGE_SIZE -> va_start va mod PAGE_SIZE + (va_end va - va_start va) < PAGE_SIZE ->
  exists va', trim_free_area va = Some va' /\ va_end va' = va_start va' - PAGE_SIZE.
Proof.
  intros Hwf Hm Hs. destruct (page_bounds va Hwf) as [E1 E2]. destruct Hwf as [Hw1 Hw2].
  unfold trim_free_area. rewrite E1, E2. set (q := va_start va / PAGE_SIZE).
  assert ((va_start va + (PAGE_SIZE - 1)) / PAGE_SIZE = q + 1) as -> by (unfold q, PAGE_SIZE in *; dlia).
  assert (va_end va / PAGE_SIZE = q) as -> by (unfold q, PAGE_SIZE in *; dlia).
  replace (u64 (PAGE_SIZE * q - PAGE_SIZE * (q + 1))) with (2 ^ 64 - PAGE_SIZE).
  2:{ unfold u64, PAGE_SIZE. replace (4096 * q - 4096 * (q + 1)) with (-4096) by lia. done. }
  rewrite u64_small by lia. cbn [Z.ltb]. rewrite (proj2 (Z.ltb_ge _ _)) by (unfold PAGE_SIZE; lia).
  rewrite (proj2 (Z.eqb_neq _ _)) by (unfold PAGE_SIZE in *; lia). cbn [negb].
  eexists. split; [done|]. cbn. lia.
Qed.

(** ** Witnesses *)
Definition demo_areas : areas :=
  mk_areas [mk_area 0x1000 0x9000 0 0 0 []; mk_area 0x40000000 0x80000000 0 0 0 []]
           [mk_area 0x9000 0xa000 0 0 0 []].

Lemma demo_areas_wf : areas_wf demo_areas.
Proof.
  split; [|split].
  - repeat (apply List.Forall_cons; [split; cbn; lia|]). apply List.Forall_nil.
  - repeat (apply List.Forall_cons; [split; cbn; lia|]). apply List.Forall_nil.
  - intros a. unfold demo_areas. cbn [vmm_area_free vmm_area_used]. autorewrite with cov. cbn [va_start va_end].
    rng_lia.
Qed.

Lemma alloc_free_vmm_area_correct_witness :
  exists va oks s' base, alloc_free_vmm_area 0x123 BLOCK_MASK 0 [true; true] demo_areas = (Some va, oks, s')
    /\ base mod 2 ^ 21 = 0 /\ taken demo_areas s' va base (base + 0x1000) 0.
Proof.
  pose proof (alloc_free_vmm_area_correct 0x123 BLOCK_MASK 0 [true; true] demo_areas demo_areas_wf
    ltac:(lia)) as H.
  destruct (alloc_free_vmm_area 0x123 BLOCK_MASK 0 [true; true] demo_areas) as [[[va|] oks] s'] eqn:E.
  - destruct H as (base & H1 & H2). exists va, oks, s', base. exact (conj eq_refl (conj H1 H2)).
  - exfalso. assert ((alloc_free_vmm_area 0x123 BLOCK_MASK 0 [true; true] demo_areas).1.1 <> None)
      as Hn by (vm_compute; discriminate). rewrite E in Hn. exact (Hn eq_refl).
Defined.

Lemma split_vmm_area_correct_witness :
  exists va oks s', split_vmm_area 0x2000 0x1000 VM_NORMAL [true; true] demo_areas = (Some va, oks, s')
    /\ taken demo_areas s' va 0x2000 0x3000 VM_NORMAL.
Proof.
  pose proof (split_vmm_area_correct 0x2000 0x1000 VM_NORMAL [true; true] demo_areas demo_areas_wf
    ltac:(lia) ltac:(lia) ltac:(lia)) as H.
  destruct (split_vmm_area 0x2000 0x1000 VM_NORMAL [true; true] demo_areas) as [[[va|] oks] s'] eqn:E.
  - exists va, oks, s'. exact (conj eq_refl (proj1 H)).
  - exfalso. assert ((split_vmm_area 0x2000 0x1000 VM_NORMAL [true; true] demo_areas).1.1 <> None)
      as Hn by (vm_compute; discriminate). rewrite E in Hn. exact (Hn eq_refl).
Defined.

Lemma release_area_correct_witness :
  exists s', release_area 0 (mk_area 0x9000 0xa000 0 0 0 []) demo_areas = Some s'
    /\ areas_wf s' /\ moved s' demo_areas 0x9000 0xa000.
Proof.
  destruct (release_area_correct 0 (mk_area 0x9000 0xa000 0 0 0 []) demo_areas demo_areas_wf eq_refl)
    as (s' & E & H). exists s'. exact (conj E H).
Defined.

Lemma trim_free_area_correct_witness :
  trim_free_area (mk_area 0x1234 0x5678 0 0 0 []) = Some (mk_area 0x2000 0x5000 0 0 0 []).
Proof.
  pose proof (trim_free_area_correct (mk_area 0x1234 0x5678 0 0 0 [])) as H.
  destruct H as (_ & _ & _); [split; cbn; lia|right; vm_compute; discriminate|]. reflexivity.
Defined.

Lemma trim_free_area_inverts_witness :
  exists va', trim_free_area (mk_area 0x1100 0x1200 0 0 0 []) = Some va' /\ va_end va' = va_start va' - PAGE_SIZE.
Proof.
  apply (trim_free_area_inverts (mk_area 0x1100 0x1200 0 0 0 [])); [split; cbn; lia|reflexivity|reflexivity].
Defined.
