(* ===== verification/Vmm.v ===== *)
(** * Guest memory (virt/vmm.c)

    The memory of a guest: its page table (Stage2.v), its areas (VmmArea.v) and
    the memory blocks that back them (MemBlock.v).  The part of the machine
    these operations change is the record [world]: the memory of the page
    tables, the block allocator, and the log of the pages given to
    [free_pages] and [free_shmem], whose allocators are elsewhere.  [iotlb] is
    the result of [iommu_iotlb_flush_all], which calls the IOMMU driver.  The
    spin locks are taken by one caller at a time. *)
From S2P Require Import Prelude Bitops Bitmap MemRegion MemBlock Stage2 VmmArea.

Definition VM_IPA_SIZE : Z := 2 ^ 40.
Definition VM_GUEST : Z := __VM_GUEST.
Definition VM_SHARED : Z := __VM_SHARED.
Definition VM_RWX : Z := Z.lor VM_RW __VM_EXEC.
Definition VM_MAP_BK : Z := 0x01000000.
Definition VM_MAP_PT : Z := 0x02000000.
Definition VM_MAP_TYPE_MASK : Z := 0x0f000000.
Definition VM_GUEST_NORMAL : Z := Z.lor (Z.lor (Z.lor VM_NORMAL VM_RWX) VM_MAP_BK) VM_GUEST.
Definition VM_GUEST_SHMEM : Z := Z.lor (Z.lor __VM_NORMAL_NC __VM_SHMEM) VM_GUEST.
Definition VM_NATIVE_NORMAL : Z :=
  Z.lor (Z.lor (Z.lor (Z.lor VM_NORMAL VM_RWX) __VM_PFNMAP) VM_HUGE) VM_GUEST.

Definition VMA_SIZE (va : vmm_area) : Z := u64 (va_end va - va_start va).

Inductive freed :=
  | FreedPages (p : Z)
  | FreedShmem (p : Z).

Record world := mk_world {
  w_s2 : s2;
  w_blk : vmm;
  w_freed : list freed;
}.

Definition set_s2 (s : s2) (w : world) : world := mk_world s (w_blk w) (w_freed w).
Definition set_blk (v : vmm) (w : world) : world := mk_world (w_s2 w) v (w_freed w).
Definition log_freed (f : freed) (w : world) : world := mk_world (w_s2 w) (w_blk w) (w_freed w ++ [f]).

Record mm_struct := mk_mm {
  mm_pgdp : Z;
  mm_areas : areas;
}.

Definition set_areas (a : areas) (mm : mm_struct) : mm_struct := mk_mm (mm_pgdp mm) a.

(** ** Mappings *)
Definition __create_guest_mapping (iotlb pgdp vir phy size flags : Z) (s : s2) : option (Z * s2) :=
  let tmp := BALIGN (u64 (vir + size)) PAGE_SIZE in
  let vir := ALIGN vir PAGE_SIZE in
  let phy := ALIGN phy PAGE_SIZE in
  let size := u64 (tmp - vir) in
  '(ret, s) ← arch_guest_map pgdp vir (u64 (vir + size)) phy flags s;
  Some (if ret =? 0 then iotlb else ret, s).

Definition create_guest_mapping (iotlb pgdp vir phy size flags : Z) (s : s2) : option (Z * s2) :=
  __create_guest_mapping iotlb pgdp vir phy size flags s.

Definition __destroy_guest_mapping (iotlb pgdp vir size : Z) (s : s2) : option (Z * s2) :=
  let '(vir, size) :=
    if negb (IS_PAGE_ALIGN vir) || negb (IS_PAGE_ALIGN size) then
      let end_ := PAGE_BALIGN (u64 (vir + size)) in
      let vir := PAGE_ALIGN vir in
      (vir, u64 (end_ - vir))
    else (vir, size) in
  '(ret, s) ← arch_guest_unmap pgdp vir (u64 (vir + size)) s;
  Some (if ret =? 0 then iotlb else ret, s).

Definition destroy_guest_mapping (iotlb pgdp vir size : Z) (s : s2) : option (Z * s2) :=
  __destroy_guest_mapping iotlb pgdp vir size s.

Definition unmap_vmm_area (iotlb pgdp : Z) (va : vmm_area) (s : s2) : option (Z * s2) :=
  __destroy_guest_mapping iotlb pgdp (va_start va) (VMA_SIZE va) s.

Definition translate_guest_ipa (pgdp offset : Z) (s : s2) : option (Z * option Z) :=
  arch_translate_guest_ipa pgdp offset (s2_mem s).

(** ** Releasing the memory of an area *)
Fixpoint release_blocks (l : list Z) (v : vmm) : option vmm :=
  match l with
  | [] => Some v
  | bfn :: l => '(_, v) ← vmm_free_memblock bfn v; release_blocks l v
  end.

Definition set_b_head (l : list Z) (va : vmm_area) : vmm_area :=
  mk_area (va_start va) (va_end va) (va_pstart va) (va_flags va) (va_vmid va) l.
Definition set_pstart (p : Z) (va : vmm_area) : vmm_area :=
  mk_area (va_start va) (va_end va) p (va_flags va) (va_vmid va) (va_b_head va).
Definition set_flags (f : Z) (va : vmm_area) : vmm_area :=
  mk_area (va_start va) (va_end va) (va_pstart va) f (va_vmid va) (va_b_head va).
Definition set_vmid (i : Z) (va : vmm_area) : vmm_area :=
  mk_area (va_start va) (va_end va) (va_pstart va) (va_flags va) i (va_b_head va).

Definition release_vmm_area_bk (va : vmm_area) (v : vmm) : option (vmm_area * vmm) :=
  v ← release_blocks (va_b_head va) v;
  Some (set_b_head [] va, v).

Definition release_vmm_area_memory (va : vmm_area) (w : world) : option (vmm_area * world) :=
  if negb (Z.land (va_flags va) __VM_SHARED =? 0) then Some (va, w)
  else
    let type := Z.land (va_flags va) VM_MAP_TYPE_MASK in
    if type =? VM_MAP_PT then Some (va, w)
    else if type =? VM_MAP_BK then
      '(va, v) ← release_vmm_area_bk va (w_blk w);
      Some (va, set_blk v w)
    else if negb (va_pstart va =? BAD_ADDRESS) then
      let f := if negb (Z.land (va_flags va) __VM_SHMEM =? 0)
               then FreedShmem (va_pstart va) else FreedPages (va_pstart va) in
      Some (set_pstart BAD_ADDRESS va, log_freed f w)
    else Some (va, w).

(** The used area at position [k]. *)
Definition release_vmm_area (k : nat) (mm : mm_struct) (w : world) : option (Z * mm_struct * world) :=
  va ← vmm_area_used (mm_areas mm) !! k;
  '(va, w) ← release_vmm_area_memory va w;
  a ← release_area k va (mm_areas mm);
  Some (0, set_areas a mm, w).

(** ** Mapping an area *)
Definition vmm_area_map_ln (iotlb pgdp : Z) (va : vmm_area) (s : s2) : option (Z * s2) :=
  __create_guest_mapping iotlb pgdp (va_start va) (va_pstart va) (VMA_SIZE va) (va_flags va) s.

Fixpoint map_blocks (iotlb pgdp base size flags : Z) (l : list Z) (s : s2) : option (Z * s2) :=
  match l with
  | [] => _ ← assert_ (size =? 0); Some (0, s)
  | bfn :: l =>
      '(ret, s) ← __create_guest_mapping iotlb pgdp base (BFN2PHY bfn) MEM_BLOCK_SIZE
                    (Z.lor (Z.lor flags VM_HUGE) VM_GUEST) s;
      if negb (ret =? 0) then Some (ret, s)
      else map_blocks iotlb pgdp (u64 (base + MEM_BLOCK_SIZE)) (u64 (size - MEM_BLOCK_SIZE)) flags l s
  end.

Definition vmm_area_map_bk (iotlb pgdp : Z) (va : vmm_area) (s : s2) : option (Z * s2) :=
  map_blocks iotlb pgdp (va_start va) (VMA_SIZE va) (va_flags va) (va_b_head va) s.

Definition map_vmm_area (iotlb pgdp : Z) (va : vmm_area) (pbase : Z) (s : s2) : option (Z * vmm_area * s2) :=
  let type := Z.land (va_flags va) VM_MAP_TYPE_MASK in
  if type =? VM_MAP_PT then
    let va := set_pstart (va_start va) va in
    '(ret, s) ← vmm_area_map_ln iotlb pgdp va s; Some (ret, va, s)
  else if type =? VM_MAP_BK then
    '(ret, s) ← vmm_area_map_bk iotlb pgdp va s; Some (ret, va, s)
  else
    let va := set_pstart pbase va in
    '(ret, s) ← vmm_area_map_ln iotlb pgdp va s; Some (ret, va, s).

(** ** Memory for a guest *)

(** The loop of [__alloc_vm_memory]: [count] blocks are pushed on [b_head];
    [malloc_ok] is the outcome of the [malloc] of each block. *)
Fixpoint alloc_blocks (malloc_ok : nat -> bool) (count : nat) (b_head : list Z) (v : vmm) : option (Z * list Z * vmm) :=
  match count with
  | O => Some (0, b_head, v)
  | S count =>
      '(block, v) ← vmm_alloc_memblock (malloc_ok count) v;
      match block with
      | None => Some (- ENOMEM, b_head, v)
      | Some bfn => alloc_blocks malloc_ok count (bfn :: b_head) v
      end
  end.

Definition __alloc_vm_memory (malloc_ok : nat -> bool) (va : vmm_area) (v : vmm) : option (Z * vmm_area * vmm) :=
  let base := ALIGN (va_start va) MEM_BLOCK_SIZE in
  if negb (base =? va_start va) then Some (- EINVAL, va, v)
  else
    let va := set_flags (Z.lor (va_flags va) VM_MAP_BK) (set_b_head [] va) in
    let count := s32 (Z.shiftr (VMA_SIZE va) MEM_BLOCK_SHIFT) in
    '(ret, b, v) ← alloc_blocks malloc_ok (Z.to_nat count) [] v;
    Some (ret, set_b_head b va, v).

(** The used areas of [vm0] that were made for the guest [vmid] are unmapped and
    go back to the free list; [done] are the areas already looked at. *)
Fixpoint release_in_vm0 (iotlb vmid pgdp : Z) (l done : list vmm_area) (free : list vmm_area) (w : world)
    : option (areas * world) :=
  match l with
  | [] => Some (mk_areas free done, w)
  | va :: l =>
      if negb (va_vmid va =? vmid) then release_in_vm0 iotlb vmid pgdp l (done ++ [va]) free w
      else
        '(_, s) ← __destroy_guest_mapping iotlb pgdp (va_start va) (VMA_SIZE va) (w_s2 w);
        let w := set_s2 s w in
        let w := if Z.land (va_flags va) VM_SHARED =? 0 then log_freed (FreedPages (va_pstart va)) w else w in
        free ← __add_free_vmm_area va free;
        release_in_vm0 iotlb vmid pgdp l done free w
  end.

Definition release_vmm_area_in_vm0 (iotlb vmid : Z) (mm0 : mm_struct) (w : world) : option (mm_struct * world) :=
  '(a, w) ← release_in_vm0 iotlb vmid (mm_pgdp mm0) (vmm_area_used (mm_areas mm0)) []
              (vmm_area_free (mm_areas mm0)) w;
  Some (set_areas a mm0, w).

Fixpoint release_used (l : list vmm_area) (w : world) : option world :=
  match l with
  | [] => Some w
  | va :: l => '(_, w) ← release_vmm_area_memory va w; release_used l w
  end.

(** The guest [vmid] with memory [mm]; [mm0] is the memory of [vm0]. *)
Definition release_vm_memory (iotlb vmid : Z) (mm mm0 : mm_struct) (w : world)
    : option (mm_struct * mm_struct * world) :=
  '(_, s) ← destroy_guest_mapping iotlb (mm_pgdp mm) 0 VM_IPA_SIZE (w_s2 w);
  w ← release_used (vmm_area_used (mm_areas mm)) (set_s2 s w);
  '(mm0, w) ← release_vmm_area_in_vm0 iotlb vmid mm0 w;
  Some (set_areas (mk_areas [] []) mm, mm0, log_freed (FreedPages (mm_pgdp mm)) w).

(** The loop of [alloc_vm_memory]; [done] are the areas already mapped. *)
Fixpoint alloc_areas (iotlb pgdp : Z) (malloc_ok : nat -> bool) (l done : list vmm_area) (w : world)
    : option (bool * list vmm_area * world) :=
  match l with
  | [] => Some (true, done, w)
  | va :: l =>
      if Z.land (va_flags va) VM_NORMAL =? 0 then alloc_areas iotlb pgdp malloc_ok l (done ++ [va]) w
      else
        '(ret, va, v) ← __alloc_vm_memory malloc_ok va (w_blk w);
        let w := set_blk v w in
        if negb (ret =? 0) then Some (false, done ++ va :: l, w)
        else
          '(ret, va, s) ← map_vmm_area iotlb pgdp va 0 (w_s2 w);
          let w := set_s2 s w in
          if negb (ret =? 0) then Some (false, done ++ va :: l, w)
          else alloc_areas iotlb pgdp malloc_ok l (done ++ [va]) w
  end.

Definition alloc_vm_memory (iotlb vmid : Z) (malloc_ok : nat -> bool) (mm mm0 : mm_struct) (w : world)
    : option (Z * mm_struct * mm_struct * world) :=
  '(ok, used, w) ← alloc_areas iotlb (mm_pgdp mm) malloc_ok (vmm_area_used (mm_areas mm)) [] w;
  let mm := set_areas (mk_areas (vmm_area_free (mm_areas mm)) used) mm in
  if (ok : bool) then Some (0, mm, mm0, w)
  else
    '(mm, mm0, w) ← release_vm_memory iotlb vmid mm mm0 w;
    Some (- ENOMEM, mm, mm0, w).

(** ** Sharing memory with [vm0] *)

(** The new area is the last one on the used list. *)
Definition set_last_used (va : vmm_area) (mm : mm_struct) : mm_struct :=
  set_areas (mk_areas (vmm_area_free (mm_areas mm)) (removelast (vmm_area_used (mm_areas mm)) ++ [va])) mm.

(** [uint32_t size] *)
Definition create_hvm_shmem_map (iotlb vmid phy size : Z) (oks : list bool) (mm0 : mm_struct) (w : world)
    : option (Z * list bool * mm_struct * world) :=
  let '(r, oks, a) := alloc_free_vmm_area size PAGE_MASK
                        (Z.lor (Z.lor VM_GUEST_SHMEM VM_SHARED) VM_RW) oks (mm_areas mm0) in
  let mm0 := set_areas a mm0 in
  match r with
  | None => Some (BAD_ADDRESS, oks, mm0, w)
  | Some va =>
      let va := set_vmid vmid va in
      '(_, va, s) ← map_vmm_area iotlb (mm_pgdp mm0) va phy (w_s2 w);
      Some (va_start va, oks, set_last_used va mm0, set_s2 s w)
  end.

Fixpoint mmap_loop (fuel : nat) (iotlb pgdp pgdp0 hvm_mmap_base offset size : Z) (s : s2) : option (Z * s2) :=
  match fuel with
  | O => None
  | S fuel =>
      if size =? 0 then Some (0, s)
      else
        '(ret, pa) ← translate_guest_ipa pgdp offset s;
        if negb (ret =? 0) then Some (- EPERM, s)
        else
            pa ← pa;
            '(ret, s) ← create_guest_mapping iotlb pgdp0 hvm_mmap_base pa MEM_BLOCK_SIZE (Z.lor VM_NORMAL VM_RW) s;
            if negb (ret =? 0) then Some (ret, s)
            else mmap_loop fuel iotlb pgdp pgdp0 (u64 (hvm_mmap_base + MEM_BLOCK_SIZE))
                   (u64 (offset + MEM_BLOCK_SIZE)) (u64 (size - MEM_BLOCK_SIZE)) s
  end.

(** The size is a multiple of the step, which bounds the loop. *)
Definition do_vm_mmap (iotlb pgdp pgdp0 hvm_mmap_base offset size : Z) (s : s2) : option (Z * s2) :=
  if negb (IS_BLOCK_ALIGN offset) || negb (IS_BLOCK_ALIGN hvm_mmap_base) || negb (IS_BLOCK_ALIGN size)
  then Some (- EINVAL, s)
  else mmap_loop (S (Z.to_nat (size / MEM_BLOCK_SIZE))) iotlb pgdp pgdp0 hvm_mmap_base offset size s.

Definition vm_mmap (iotlb vmid pgdp offset size : Z) (oks : list bool) (mm0 : mm_struct) (w : world)
    : option (option vmm_area * list bool * mm_struct * world) :=
  let '(r, oks, a) := alloc_free_vmm_area size BLOCK_MASK
                        (Z.lor (Z.lor VM_GUEST_NORMAL VM_SHARED) VM_RW) oks (mm_areas mm0) in
  let mm0 := set_areas a mm0 in
  match r with
  | None => Some (None, oks, mm0, w)
  | Some va =>
      '(ret, s) ← do_vm_mmap iotlb pgdp (mm_pgdp mm0) (va_start va) offset size (w_s2 w);
      let w := set_s2 s w in
      if negb (ret =? 0) then
        '(_, mm0, w) ← release_vmm_area (length (vmm_area_used (mm_areas mm0)) - 1) mm0 w;
        Some (None, oks, mm0, w)
      else
        let va := set_vmid vmid va in
        Some (Some va, oks, set_last_used va mm0, w)
  end.

(** ** Setting up the memory of a guest *)

(** The fields of [struct vm] these functions read. *)
Record vm_info := mk_vm_info {
  vi_vmid : Z;
  vi_native : bool;
  vi_32bit : bool;
  vi_load_address : Z;
  vi_entry_point : Z;
  vi_setup_data : Z;
}.

Fixpoint claim_regions (vmid : Z) (l : list memory_region) (oks : list bool) (a : areas) : bool * list bool * areas :=
  match l with
  | [] => (true, oks, a)
  | region :: l =>
      if negb (r_vmid region =? vmid) then claim_regions vmid l oks a
      else
        let '(va, oks, a) := split_vmm_area (phy_base region) (r_size region) VM_NATIVE_NORMAL oks a in
        match va with
        | None => (false, oks, a)
        | Some _ => claim_regions vmid l oks a
        end
  end.

Definition vm_memory_init (vm : vm_info) (mem_list : list memory_region) (oks : list bool) (a : areas)
    : Z * list bool * areas :=
  if negb (vi_native vm) then (0, oks, a)
  else
    let '(ok, oks, a) := claim_regions (vi_vmid vm) mem_list oks a in
    if negb ok then (- EINVAL, oks, a)
    else (check_vm_address (vi_load_address vm) a + check_vm_address (vi_entry_point vm) a
          + check_vm_address (vi_setup_data vm) a, oks, a).

(** [page] is the result of [__get_free_pages] for the page table. *)
Definition vm_mm_struct_init (vm : vm_info) (mem_list : list memory_region) (page : option Z) (oks : list bool)
    (s : s2) : Z * mm_struct * list bool * s2 :=
  let '(pgdp, s) := arch_alloc_guest_pgd page s in
  match pgdp with
  | None => (- ENOMEM, mk_mm 0 (mk_areas [] []), oks, s)
  | Some pgdp =>
      let '(oks, a) := vmm_area_init (negb (vi_32bit vm)) oks (mk_areas [] []) in
      let '(ret, oks, a) := vm_memory_init vm mem_list oks a in
      (ret, mk_mm pgdp a, oks, s)
  end.

Fixpoint map_native (iotlb pgdp : Z) (l done : list vmm_area) (s : s2) : option (Z * list vmm_area * s2) :=
  match l with
  | [] => Some (0, done, s)
  | va :: l =>
      if Z.land (va_flags va) __VM_NORMAL =? 0 then map_native iotlb pgdp l (done ++ [va]) s
      else
        '(ret, va, s) ← map_vmm_area iotlb pgdp va (va_start va) s;
        if negb (ret =? 0) then Some (ret, done ++ va :: l, s)
        else map_native iotlb pgdp l (done ++ [va]) s
  end.

(** [skip] is the old value of VM_FLAGS_BIT_SKIP_MM_INIT, which is set here. *)
Definition vm_mm_init (iotlb : Z) (skip : bool) (mm : mm_struct) (s : s2) : option (Z * mm_struct * s2) :=
  if skip then Some (0, mm, s)
  else
    '(ret, used, s) ← map_native iotlb (mm_pgdp mm) (vmm_area_used (mm_areas mm)) [] s;
    let mm := set_areas (mk_areas (vmm_area_free (mm_areas mm)) used) mm in
    if negb (ret =? 0) then Some (ret, mm, s)
    else Some (0, set_areas (trim_free_areas (mm_areas mm)) mm, s).

(** ** Mapping theorems *)

(** The pages of [vir, vir + size). *)
Definition first_page (vir : Z) : Z := vir / PAGE_SIZE.
Definition end_page (vir size : Z) : Z := (vir + size + (PAGE_SIZE - 1)) / PAGE_SIZE.

Lemma create_guest_mapping_spec own iotlb pgdp vir phy size flags s :
  s2_wf own pgdp s -> 0 <= vir -> 0 < size -> vir + size <= VMM_VIRT_MAX -> 0 <= phy < S2_PHYSICAL_MAX ->
  exists r s', __create_guest_mapping iotlb pgdp vir phy size flags s = Some (if r =? 0 then iotlb else r, s')
    /\ map_result own pgdp s (first_page vir) (end_page vir size) (PAGE_SIZE * (phy / PAGE_SIZE)) flags (Some (r, s')).
Proof.
  intros Hwf Hv Hs He Hp. unfold __create_guest_mapping, VMM_VIRT_MAX, S2_PHYSICAL_MAX in *.
  rewrite (u64_small (vir + size)) by lia.
  assert (BALIGN (vir + size) PAGE_SIZE = PAGE_SIZE * end_page vir size) as -> by (apply (BALIGN_pow2 _ 12); lia).
  assert (ALIGN vir PAGE_SIZE = PAGE_SIZE * first_page vir) as -> by (apply (ALIGN_pow2 _ 12); lia).
  assert (ALIGN phy PAGE_SIZE = PAGE_SIZE * (phy / PAGE_SIZE)) as -> by (apply (ALIGN_pow2 _ 12); lia).
  assert (0 <= first_page vir < end_page vir size /\ end_page vir size <= NR_PAGES) as [Hr1 Hr2].
  { unfold first_page, end_page, NR_PAGES, PAGE_SIZE. dlia. }
  assert (u64 (PAGE_SIZE * first_page vir + u64 (PAGE_SIZE * end_page vir size - PAGE_SIZE * first_page vir))
    = PAGE_SIZE * end_page vir size) as ->.
  { unfold NR_PAGES, PAGE_SIZE in *. rewrite (u64_small (_ - _)) by lia. rewrite u64_small; lia. }
  destruct (arch_guest_map_spec own pgdp s (first_page vir) (end_page vir size) (PAGE_SIZE * (phy / PAGE_SIZE)) flags)
    as (r & s' & own' & x & E & H); [done|done|done|unfold S2_PHYSICAL_MAX, PAGE_SIZE; dlia|unfold PAGE_SIZE; dlia|].
  rewrite E. msimpl. exists r, s'. split; [done|]. by exists r, s', own', x.
Qed.

(** [create_guest_mapping] rounds the range out to pages; when it returns 0
    every address of the requested range translates to the physical address at
    the same distance from [phy]. *)
Theorem create_guest_mapping_translates own pgdp vir phy size flags s s' va :
  s2_wf own pgdp s -> 0 <= vir -> 0 < size -> vir + size <= VMM_VIRT_MAX ->
  PAGE_SIZE <= phy < S2_PHYSICAL_MAX -> phy mod PAGE_SIZE = vir mod PAGE_SIZE ->
  Z.land flags __VM_HUGE_1G = 0 ->
  create_guest_mapping 0 pgdp vir phy size flags s = Some (0, s') ->
  vir <= va < vir + size ->
  translate_guest_ipa pgdp va s' = Some (0, Some (phy + (va - vir))).
Proof.
  intros Hwf Hv Hs He Hp Hoff Hfl Hc Hva. unfold VMM_VIRT_MAX, S2_PHYSICAL_MAX in *.
  destruct (create_guest_mapping_spec own 0 pgdp vir phy size flags s)
    as (r & s1 & E & r' & s2 & own' & x & E2 & _ & _ & _ & Hm & Hr); try done;
    [unfold S2_PHYSICAL_MAX, PAGE_SIZE in *; lia|].
  unfold create_guest_mapping in Hc. rewrite Hc in E. injection E as Er <-. injection E2 as <- <-.
  assert (r = 0) as -> by (destruct (Z.eqb_spec r 0); lia).
  destruct Hr as [[_ ->]|[(_ & [=] & _)|(_ & [=] & _)]].
  unfold translate_guest_ipa, arch_translate_guest_ipa.
  rewrite (mapped_translate pgdp va (s2_mem s') flags (first_page vir) (PAGE_SIZE * (phy / PAGE_SIZE))).
  - do 3 f_equal. unfold first_page, PAGE_SIZE in *. dlia.
  - unfold VMM_VIRT_MAX. lia.
  - unfold PAGE_SIZE in *. dlia.
  - unfold PAGE_SIZE. dlia.
  - unfold first_page, PAGE_SIZE. dlia.
  - unfold first_page, PAGE_SIZE in *. dlia.
  - done.
  - specialize (Hm (va / PAGE_SIZE)). revert Hm.
    rewrite (proj2 (Z.leb_le _ _)), (proj2 (Z.ltb_lt _ _)) by (unfold first_page, end_page, PAGE_SIZE in *; dlia).
    cbn [andb]. intros Hm. apply Hm. unfold NR_PAGES, PAGE_SIZE in *. dlia.
Qed.

(** Page [j] of the block at position [n] of [l] is mapped from page [sp] on. *)
Definition blocks_mapped (m : table_mem) (pgdp sp flags : Z) (l : list Z) : Prop :=
  forall n bfn j, l !! n = Some bfn -> 0 <= j < 512 ->
    let pg := sp + 512 * Z.of_nat n + j in
    mapped_as (walk m pgdp pg) flags pg (bfn * MEM_BLOCK_SIZE + PAGE_SIZE * j).

Lemma BFN2PHY_small bfn : 0 <= bfn < 2 ^ 27 -> BFN2PHY bfn = bfn * MEM_BLOCK_SIZE.
Proof.
  intros H. unfold BFN2PHY, MEM_BLOCK_SHIFT, MEM_BLOCK_SIZE. rewrite Z.shiftl_mul_pow2 by lia.
  rewrite u64_small; lia.
Qed.

Lemma map_blocks_spec pgdp flags l : forall own sp s,
  let fl := Z.lor (Z.lor flags VM_HUGE) VM_GUEST in
  let np := 512 * Z.of_nat (length l) in
  s2_wf own pgdp s -> 0 <= sp -> sp + np <= NR_PAGES ->
  Forall (fun bfn => 0 <= bfn < 2 ^ 19) l ->
  exists r s' own', map_blocks 0 pgdp (PAGE_SIZE * sp) (PAGE_SIZE * np) flags l s = Some (r, s')
    /\ own ⊆ own' /\ s2_wf own' pgdp s'
    /\ (forall pg, 0 <= pg < NR_PAGES -> pg < sp \/ sp + np <= pg ->
          walk (s2_mem s') pgdp pg = walk (s2_mem s) pgdp pg)
    /\ (r = 0 -> blocks_mapped (s2_mem s') pgdp sp fl l).
Proof.
  induction l as [|bfn l IH]; intros own sp s fl np Hwf Hsp Hnp Hb; cbn [map_blocks].
  - exists 0, s, own. split; [done|]. split; [done|]. split; [done|]. split; [done|].
    intros _ n b j Hn. done.
  - apply Forall_cons_1 in Hb as [Hb Hl]. unfold NR_PAGES, np in *. cbn [length] in *.
    rewrite BFN2PHY_small by lia.
    destruct (create_guest_mapping_spec own 0 pgdp (PAGE_SIZE * sp) (bfn * MEM_BLOCK_SIZE) MEM_BLOCK_SIZE fl s)
      as (r & s1 & E & r' & s1' & own1 & x & E1 & Hs1 & Hwf1 & Hx & Hm & Hr);
      [done|unfold PAGE_SIZE; lia|done|unfold VMM_VIRT_MAX, PAGE_SIZE, MEM_BLOCK_SIZE; lia
      |unfold S2_PHYSICAL_MAX, MEM_BLOCK_SIZE; lia|].
    injection E1 as <- <-. unfold fl in *. rewrite E. msimpl.
    assert (first_page (PAGE_SIZE * sp) = sp) as Efp by (unfold first_page, PAGE_SIZE; dlia).
    assert (end_page (PAGE_SIZE * sp) MEM_BLOCK_SIZE = sp + 512) as Eep
      by (unfold end_page, PAGE_SIZE, MEM_BLOCK_SIZE; dlia).
    assert (PAGE_SIZE * (bfn * MEM_BLOCK_SIZE / PAGE_SIZE) = bfn * MEM_BLOCK_SIZE) as Eph
      by (unfold PAGE_SIZE, MEM_BLOCK_SIZE; dlia).
    rewrite Efp, Eep, Eph in *.
    assert (forall pg, 0 <= pg < 2 ^ 28 -> pg < sp \/ sp + 512 <= pg ->
      walk (s2_mem s1) pgdp pg = walk (s2_mem s) pgdp pg) as Hout1.
    { intros pg Hpg Ho. specialize (Hm pg Hpg). destruct (Z.leb_spec sp pg), (Z.ltb_spec pg x); try done; lia. }
    destruct (Z.eqb_spec r 0) as [->|Hr0]; cbn [negb Z.eqb].
    + destruct Hr as [[_ ->]|[(_ & [=] & _)|(_ & [=] & _)]].
      assert (u64 (PAGE_SIZE * sp + MEM_BLOCK_SIZE) = PAGE_SIZE * (sp + 512)) as ->
        by (rewrite u64_small; unfold PAGE_SIZE, MEM_BLOCK_SIZE; lia).
      assert (u64 (PAGE_SIZE * (512 * Z.of_nat (S (length l))) - MEM_BLOCK_SIZE)
        = PAGE_SIZE * (512 * Z.of_nat (length l))) as ->
        by (rewrite u64_small; unfold PAGE_SIZE, MEM_BLOCK_SIZE; lia).
      destruct (IH own1 (sp + 512) s1) as (r & s2 & own2 & E2 & Hs2 & Hwf2 & Hout2 & Hb2); [done|lia|unfold NR_PAGES; lia|done|].
      exists r, s2, own2. split; [done|]. split; [by etrans|]. split; [done|]. split.
      * intros pg Hpg Ho. rewrite Hout2 by (unfold NR_PAGES; lia). apply Hout1; lia.
      * intros Hrz. specialize (Hb2 Hrz). intros [|n] b j Hn Hj.
        -- injection Hn as <-. cbn zeta. replace (sp + 512 * Z.of_nat 0 + j) with (sp + j) by lia.
           rewrite Hout2 by (unfold NR_PAGES; lia). specialize (Hm (sp + j) ltac:(unfold NR_PAGES; lia)).
           rewrite (proj2 (Z.leb_le _ _)), (proj2 (Z.ltb_lt _ _)) in Hm by lia. cbn [andb] in Hm.
           by replace (sp + j - sp) with j in Hm by lia.
        -- cbn zeta. replace (sp + 512 * Z.of_nat (S n) + j) with (sp + 512 + 512 * Z.of_nat n + j) by lia.
           by apply Hb2.
    + rewrite (proj2 (Z.eqb_neq r 0) Hr0). cbn [negb]. exists r, s1, own1. split; [done|]. split; [done|]. split; [done|].
      split; [|done]. intros pg Hpg Ho. apply Hout1; lia.
Qed.

(** Mapping an area that is backed by memory blocks never fails its
    assertion; when it returns 0, every address of the area translates to the
    same offset of the memory block that backs it, and no page outside the area
    changes. *)
Theorem vmm_area_map_bk_correct own pgdp va s :
  let nblk := Z.of_nat (length (va_b_head va)) in
  s2_wf own pgdp s -> 0 <= va_start va -> va_start va mod PAGE_SIZE = 0 ->
  va_end va = va_start va + MEM_BLOCK_SIZE * nblk -> va_end va <= VMM_VIRT_MAX ->
  Forall (fun bfn => 0 < bfn < 2 ^ 19) (va_b_head va) -> Z.land (va_flags va) __VM_HUGE_1G = 0 ->
  exists r s' own', vmm_area_map_bk 0 pgdp va s = Some (r, s') /\ s2_wf own' pgdp s'
    /\ (forall pg, 0 <= pg < NR_PAGES -> PAGE_SIZE * pg < va_start va \/ va_end va <= PAGE_SIZE * pg ->
          walk (s2_mem s') pgdp pg = walk (s2_mem s) pgdp pg)
    /\ (r = 0 -> forall n bfn off, va_b_head va !! n = Some bfn -> 0 <= off < MEM_BLOCK_SIZE ->
          translate_guest_ipa pgdp (va_start va + MEM_BLOCK_SIZE * Z.of_nat n + off) s'
          = Some (0, Some (bfn * MEM_BLOCK_SIZE + off))).
Proof.
  intros nblk Hwf Hs Hal He Hmax Hb Hfl. unfold vmm_area_map_bk, VMA_SIZE, VMM_VIRT_MAX in *.
  set (sp := va_start va / PAGE_SIZE). assert (va_start va = PAGE_SIZE * sp) as Es by (unfold sp, PAGE_SIZE in *; dlia).
  assert (u64 (va_end va - va_start va) = PAGE_SIZE * (512 * nblk)) as ->.
  { rewrite He, u64_small; unfold PAGE_SIZE, MEM_BLOCK_SIZE in *; lia. }
  destruct (map_blocks_spec pgdp (va_flags va) (va_b_head va) own sp s) as (r & s' & own' & E & _ & Hwf' & Hout & Hm);
    [done|unfold sp, PAGE_SIZE; dlia|unfold NR_PAGES, PAGE_SIZE, MEM_BLOCK_SIZE in *; lia| |].
  { eapply list.Forall_impl; [exact Hb|]. cbn. lia. }
  rewrite Es. exists r, s', own'. split; [done|]. split; [done|]. split.
  - intros pg Hpg Ho. apply Hout; [done|]. unfold PAGE_SIZE, MEM_BLOCK_SIZE in *. lia.
  - intros Hr n bfn off Hn Ho. specialize (Hm Hr n bfn (off / PAGE_SIZE) Hn).
    pose proof (lookup_lt_Some _ _ _ Hn) as Hlt. pose proof (Forall_lookup_1 _ _ _ _ Hb Hn) as Hbfn. cbn in Hbfn.
    assert (0 <= off / PAGE_SIZE < 512) as Hj by (unfold PAGE_SIZE, MEM_BLOCK_SIZE in *; dlia).
    specialize (Hm Hj). cbn zeta in Hm. set (va0 := PAGE_SIZE * sp + MEM_BLOCK_SIZE * Z.of_nat n + off).
    assert (va0 / PAGE_SIZE = sp + 512 * Z.of_nat n + off / PAGE_SIZE) as Ev
      by (unfold va0, PAGE_SIZE, MEM_BLOCK_SIZE in *; dlia).
    unfold translate_guest_ipa, arch_translate_guest_ipa.
    rewrite (mapped_translate pgdp va0 (s2_mem s') (Z.lor (Z.lor (va_flags va) VM_HUGE) VM_GUEST)
      (sp + 512 * Z.of_nat n) (bfn * MEM_BLOCK_SIZE)).
    + do 3 f_equal. unfold va0, PAGE_SIZE, MEM_BLOCK_SIZE. lia.
    + unfold VMM_VIRT_MAX, va0, PAGE_SIZE, MEM_BLOCK_SIZE in *. lia.
    + unfold MEM_BLOCK_SIZE. lia.
    + unfold MEM_BLOCK_SIZE, PAGE_SIZE. dlia.
    + rewrite Ev. lia.
    + unfold va0, PAGE_SIZE, MEM_BLOCK_SIZE in *. lia.
    + rewrite !Z.land_lor_distr_l, Hfl. done.
    + rewrite Ev. by replace (sp + 512 * Z.of_nat n + off / PAGE_SIZE - (sp + 512 * Z.of_nat n)) with (off / PAGE_SIZE) by lia.
Qed.

(** ** Memory blocks of a guest *)
Definition mem (b : Z) (l : list Z) : bool := existsb (Z.eqb b) l.

Lemma mem_true b l : mem b l = true <-> b ∈ l.
Proof.
  unfold mem. rewrite existsb_exists. split.
  - intros (x & Hx & E). apply Z.eqb_eq in E as ->. by apply list_elem_of_In.
  - intros H. exists b. split; [by apply list_elem_of_In|apply Z.eqb_refl].
Qed.

(** The blocks of [l] were free blocks of the allocator before and are the only
    ones that became used. *)
Definition blocks_taken (v v' : vmm) (l : list Z) : Prop :=
  vmm_wf v' /\ NoDup l
  /\ (forall b, b ∈ l -> managed v b = true /\ used v b = false)
  /\ (forall b, managed v' b = managed v b)
  /\ (forall b, used v' b = mem b l || used v b)
  /\ free_blocks v' = free_blocks v - Z.of_nat (length l).

Lemma alloc_blocks_spec count : forall b0 v,
  vmm_wf v ->
  exists r l v', alloc_blocks (fun _ => true) count b0 v = Some (r, l ++ b0, v') /\ blocks_taken v v' l
    /\ ((r = 0 /\ length l = count) \/ (r = - ENOMEM /\ free_blocks v' = 0 /\ (length l < count)%nat)).
Proof.
  induction count as [|count IH]; intros b0 v Hwf; cbn [alloc_blocks].
  { exists 0, [], v. split; [done|]. split; [|by left]. split; [done|]. split; [constructor|].
    split; [set_solver|]. split; [done|]. split; [done|]. cbn. lia. }
  destruct (vmm_alloc_spec v Hwf) as [Hnone Hsome].
  destruct (decide (free_blocks v = 0)) as [Hz|Hnz].
  - rewrite (Hnone Hz true). msimpl. exists (- ENOMEM), [], v. split; [done|]. split; [|right; cbn; split; [done|split; [done|lia]]].
    split; [done|]. split; [constructor|]. split; [set_solver|]. split; [done|]. split; [done|]. cbn. lia.
  - destruct (Hsome Hnz) as (bfn & v1 & -> & Hwf1 & Hm & Hu & Hf & Hman & Hus). msimpl.
    destruct (IH (bfn :: b0) v1 Hwf1) as (r & l & v2 & E & (Hwf2 & Hnd & Hl & Hman2 & Hus2 & Hf2) & Hr).
    exists r, (l ++ [bfn]), v2. rewrite <- app_assoc. split; [done|]. split.
    + split; [done|]. split; [|split; [|split; [|split]]].
      * apply list.NoDup_app. split; [done|]. split; [|apply NoDup_singleton].
        intros b Hb ->%list_elem_of_singleton. destruct (Hl bfn Hb) as [_ H]. rewrite Hus, Z.eqb_refl in H. done.
      * intros b [Hb| ->%list_elem_of_singleton]%elem_of_app; [|done].
        destruct (Hl b Hb) as [H1 H2]. rewrite Hman in H1. rewrite Hus in H2. apply orb_false_iff in H2 as [_ H2]. done.
      * intros b. by rewrite Hman2, Hman.
      * intros b. rewrite Hus2, Hus. unfold mem. rewrite existsb_app. cbn. rewrite orb_false_r.
        by rewrite orb_assoc.
      * rewrite Hf2, Hf, length_app. cbn. lia.
    + rewrite length_app. cbn. destruct Hr as [[-> Hr]|(-> & Hz & Hr)]; [left; split; [done|lia]|].
      right. split; [done|]. split; [done|]. lia.
Qed.

Lemma release_blocks_spec l : forall v,
  vmm_wf v -> free_blocks v + Z.of_nat (length l) < 2 ^ 63 -> NoDup l ->
  (forall b, b ∈ l -> used v b = true /\ 0 <= b < 2048) ->
  exists v', release_blocks l v = Some v' /\ vmm_wf v'
    /\ (forall b, managed v' b = managed v b)
    /\ (forall b, used v' b = negb (mem b l) && used v b)
    /\ free_blocks v' = free_blocks v + Z.of_nat (length l).
Proof.
  induction l as [|bfn l IH]; intros v Hwf Hlt Hnd Hl; cbn [release_blocks length] in *.
  { exists v. split; [done|]. split; [done|]. split; [done|]. split; [done|]. cbn. lia. }
  apply list.NoDup_cons in Hnd as [Hnin Hnd].
  destruct (Hl bfn) as [Hu Hb]; [by apply list_elem_of_here|].
  destruct (vmm_free_spec bfn v) as (v1 & E & Hwf1 & Hf1 & Hm1 & Hu1); [done|done|done|lia|].
  unfold vmm_free_memblock. rewrite E. msimpl.
  destruct (IH v1) as (v2 & E2 & Hwf2 & Hm2 & Hu2 & Hf2); [done|lia|done| |].
  { intros b Hin. destruct (Hl b) as [H1 H2]; [by apply list_elem_of_further|]. split; [|done].
    rewrite Hu1, H1, andb_true_r. apply negb_true_iff, Z.eqb_neq. by intros ->. }
  exists v2. split; [done|]. split; [done|]. split; [intros; by rewrite Hm2|]. split; [|lia].
  intros b. rewrite Hu2, Hu1. change (mem b (bfn :: l)) with ((b =? bfn) || mem b l).
  by destruct (b =? bfn), (mem b l).
Qed.

(** C36: the memory of a guest is exclusively its own: [__alloc_vm_memory] backs
    an aligned area with one distinct block per 2 MB, none of which was in use,
    marks exactly these and, when blocks run out, returns [-ENOMEM] with the
    blocks taken so far recorded in the area.  There is memory for the list of
    blocks. *)
Theorem alloc_vm_memory_exclusive va v :
  vmm_wf v -> 0 <= va_start va < va_end va -> va_end va <= 2 ^ 40 ->
  va_start va mod MEM_BLOCK_SIZE = 0 ->
  let count := Z.to_nat ((va_end va - va_start va) / MEM_BLOCK_SIZE) in
  exists r va' v', __alloc_vm_memory (fun _ => true) va v = Some (r, va', v')
    /\ blocks_taken v v' (va_b_head va')
    /\ va_flags va' = Z.lor (va_flags va) VM_MAP_BK
    /\ ((r = 0 /\ length (va_b_head va') = count)
        \/ (r = - ENOMEM /\ free_blocks v' = 0 /\ (length (va_b_head va') < count)%nat)).
Proof.
  intros Hwf Hs He Hal count. unfold __alloc_vm_memory.
  assert (ALIGN (va_start va) MEM_BLOCK_SIZE = va_start va) as ->.
  { change MEM_BLOCK_SIZE with (2 ^ 21). rewrite ALIGN_pow2 by lia. change (2 ^ 21) with MEM_BLOCK_SIZE.
    unfold MEM_BLOCK_SIZE in *. dlia. }
  rewrite Z.eqb_refl. cbn [negb].
  assert (Z.to_nat (s32 (Z.shiftr (VMA_SIZE (set_flags (Z.lor (va_flags va) VM_MAP_BK) (set_b_head [] va))) MEM_BLOCK_SHIFT))
    = count) as ->.
  { unfold VMA_SIZE; cbn [va_start va_end set_flags set_b_head]. rewrite u64_small by lia. rewrite shiftr_block.
    unfold s32, count, MEM_BLOCK_SIZE. f_equal. dlia. }
  destruct (alloc_blocks_spec count [] v Hwf) as (r & l & v' & E & Ht & Hr). rewrite app_nil_r in E.
  rewrite E. msimpl. do 3 eexists. split; [done|]. cbn. done.
Qed.

(** Below 4 GB, releasing the blocks of an area undoes their allocation:
    the same blocks are free as before [__alloc_vm_memory]. *)
Theorem alloc_release_blocks_roundtrip va v v1 l :
  vmm_wf v -> free_blocks v < 2 ^ 62 -> va_b_head va = l -> blocks_taken v v1 l ->
  (forall b, b ∈ l -> 0 <= b < 2048) ->
  exists va' v', release_vmm_area_bk va v1 = Some (va', v') /\ vmm_wf v' /\ va_b_head va' = []
    /\ free_blocks v' = free_blocks v /\ forall b, used v' b = used v b.
Proof.
  intros Hwf Hlt <- (Hwf1 & Hnd & Hl & Hm & Hu & Hf) Hlow. unfold release_vmm_area_bk.
  destruct (release_blocks_spec (va_b_head va) v1) as (v' & E & Hwf' & _ & Hu' & Hf'); [done|lia|done| |].
  { intros b Hb. split; [|by apply Hlow]. rewrite Hu. apply orb_true_iff. left. by apply mem_true. }
  rewrite E. msimpl. do 2 eexists. split; [done|]. split; [done|]. split; [done|]. split; [lia|].
  intros b. rewrite Hu', Hu. destruct (mem b (va_b_head va)) eqn:Eb; [|done].
  apply mem_true in Eb. cbn. symmetry. by apply Hl.
Qed.

(** ** Witnesses *)
Lemma create_guest_mapping_translates_witness :
  exists s', create_guest_mapping 0 demo_root 0x1234 0x40000234 0x10 VM_NORMAL demo_s2 = Some (0, s')
    /\ translate_guest_ipa demo_root 0x1238 s' = Some (0, Some 0x40000238).
Proof.
  set (s' := match create_guest_mapping 0 demo_root 0x1234 0x40000234 0x10 VM_NORMAL demo_s2 with
             | Some (_, s) => s | None => demo_s2 end).
  assert (create_guest_mapping 0 demo_root 0x1234 0x40000234 0x10 VM_NORMAL demo_s2 = Some (0, s')) as E
    by (vm_compute; reflexivity).
  exists s'. split; [exact E|].
  exact (create_guest_mapping_translates {[demo_root := KRoot]} demo_root 0x1234 0x40000234 0x10 VM_NORMAL
    demo_s2 s' 0x1238 demo_wf ltac:(lia) ltac:(lia) ltac:(unfold VMM_VIRT_MAX; lia)
    ltac:(unfold PAGE_SIZE, S2_PHYSICAL_MAX; lia) eq_refl eq_refl E ltac:(lia)).
Defined.

Definition demo_bk_area : vmm_area := mk_area 0x80000000 0x80400000 0 VM_GUEST_NORMAL 0 [512; 600].

Lemma vmm_area_map_bk_correct_witness :
  exists r s' own', vmm_area_map_bk 0 demo_root demo_bk_area demo_s2 = Some (r, s') /\ s2_wf own' demo_root s'.
Proof.
  destruct (vmm_area_map_bk_correct {[demo_root := KRoot]} demo_root demo_bk_area demo_s2)
    as (r & s' & own' & E & H & _);
    [exact demo_wf|cbn; lia|reflexivity|reflexivity|unfold VMM_VIRT_MAX; cbn; lia| |reflexivity|].
  - repeat (apply List.Forall_cons; [lia|]). apply List.Forall_nil.
  - exists r, s', own'. exact (conj E H).
Defined.

Lemma demo_vmm_wf : vmm_wf (mk_vmm [demo_section 512 2 0] 2).
Proof. demo_wf. Qed.

Lemma alloc_vm_memory_exclusive_witness :
  exists r va' v', __alloc_vm_memory (fun _ => true) (mk_area 0x80000000 0x80400000 0 VM_NORMAL 0 [])
                     (mk_vmm [demo_section 512 2 0] 2) = Some (r, va', v')
    /\ blocks_taken (mk_vmm [demo_section 512 2 0] 2) v' (va_b_head va').
Proof.
  destruct (alloc_vm_memory_exclusive (mk_area 0x80000000 0x80400000 0 VM_NORMAL 0 [])
    (mk_vmm [demo_section 512 2 0] 2)) as (r & va' & v' & E & H & _);
    [exact demo_vmm_wf|cbn; lia|cbn; lia|reflexivity|]. exists r, va', v'. exact (conj E H).
Defined.

Lemma alloc_release_blocks_roundtrip_witness :
  exists l v1 va' v', blocks_taken (mk_vmm [demo_section 512 2 0] 2) v1 l /\ length l = 2%nat
    /\ release_vmm_area_bk (mk_area 0 0x400000 0 VM_GUEST_NORMAL 0 l) v1 = Some (va', v')
    /\ free_blocks v' = 2.
Proof.
  destruct (alloc_blocks_spec 2 [] (mk_vmm [demo_section 512 2 0] 2) demo_vmm_wf)
    as (r & l & v1 & _ & Ht & Hr).
  destruct (alloc_release_blocks_roundtrip (mk_area 0 0x400000 0 VM_GUEST_NORMAL 0 l)
    (mk_vmm [demo_section 512 2 0] 2) v1 l) as (va' & v' & E & _ & _ & Hf & _);
    [exact demo_vmm_wf|cbn; lia|reflexivity|exact Ht| |].
  - intros b Hb. destruct Ht as (_ & _ & Hl & _). destruct (Hl b Hb) as [Hm _].
    unfold managed in Hm. cbn [bs_head existsb] in Hm. rewrite orb_false_r in Hm. unfold in_section in Hm.
    change (bs_start (demo_section 512 2 0) / MEM_BLOCK_SIZE) with 512 in Hm.
    change (bs_end (demo_section 512 2 0) / MEM_BLOCK_SIZE) with 514 in Hm. lia.
  - exists l, v1, va', v'. split; [exact Ht|]. split; [|exact (conj E Hf)].
    destruct Hr as [[_ H]|(_ & Hz & H)]; [exact H|].
    destruct Ht as (_ & _ & _ & _ & _ & Hf1). cbn in Hf1. lia.
Defined.
