(* ===== verification/Sched.v ===== *)
(** * Tasks and ready lists (core/sched.c, include/minos/{task,task_info,percpu}.h)

    Each physical CPU has eight lists of ready tasks, one per priority (0 is the
    highest), a bit mask of the lists that are not empty and the number of tasks
    on each list.  The running task stays on its list.  Other CPUs hand over a
    task through [new_list] and an interrupt.

    The state is the table of tasks, by task id, the CPUs, and the CPU that
    executes.  A [list_head] field of a task is represented by whether it is
    linked ([next] not NULL); the lists hold task ids.  A timer is represented
    by whether it is armed.  The interrupts of one CPU are masked and the locks
    are held while these functions work, so that each is one step; [None] is a
    failed ASSERT, an unlinked list node, or a wait for another CPU. *)
From S2P Require Import Prelude Bitops.

Definition OS_PRIO_MAX : Z := 8.
Definition NR_CPUS : Z := 4.

Definition TASK_STATE_RUNNING : Z := 0x00.
Definition TASK_STATE_READY : Z := 0x01.
Definition TASK_STATE_WAIT_EVENT : Z := 0x02.
Definition TASK_STATE_WAKING : Z := 0x04.
Definition TASK_STATE_SUSPEND : Z := 0x08.
Definition TASK_STATE_STOP : Z := 0x10.
Definition TASK_STATE_PEND_OK : Z := 0.
Definition TASK_STATE_PEND_TO : Z := 1.
Definition TASK_STATE_PEND_ABORT : Z := 2.

Definition TIF_NEED_RESCHED : Z := 0.
Definition __TIF_NEED_RESCHED : Z := Z.shiftl 1 0.
Definition __TIF_DONOT_PREEMPT : Z := Z.shiftl 1 2.
Definition __TIF_TICK_EXHAUST : Z := Z.shiftl 1 3.
Definition __TIF_WAIT_INTERRUPTED : Z := Z.shiftl 1 12.

Definition OS_EVENT_TYPE_MBOX : Z := 1.
Definition OS_EVENT_TYPE_QUEUE : Z := 2.
Definition OS_EVENT_TYPE_SEM : Z := 3.
Definition OS_EVENT_TYPE_MUTEX : Z := 4.
Definition OS_EVENT_TYPE_FLAG : Z := 5.
Definition OS_EVENT_TYPE_NORMAL : Z := 6.
Definition OS_EVENT_TYPE_TIMER : Z := 7.

Record task := mk_task {
  t_prio : Z;
  t_state : Z;
  t_pend_state : Z;
  t_delay : Z;
  t_delay_timer : bool;
  t_wait_type : Z;
  t_msg : Z;
  t_flags_rdy : Z;
  t_cpu : Z;
  t_last_cpu : Z;
  t_affinity : Z;
  t_ti_flags : Z;
  t_preempt_count : Z;
  t_idle : bool;
  t_linked : bool;
  t_ev_linked : bool;
}.

Definition set_t_state (v : Z) (t : task) : task := mk_task (t_prio t) v (t_pend_state t) (t_delay t) (t_delay_timer t) (t_wait_type t) (t_msg t) (t_flags_rdy t) (t_cpu t) (t_last_cpu t) (t_affinity t) (t_ti_flags t) (t_preempt_count t) (t_idle t) (t_linked t) (t_ev_linked t).
Definition set_t_pend_state (v : Z) (t : task) : task := mk_task (t_prio t) (t_state t) v (t_delay t) (t_delay_timer t) (t_wait_type t) (t_msg t) (t_flags_rdy t) (t_cpu t) (t_last_cpu t) (t_affinity t) (t_ti_flags t) (t_preempt_count t) (t_idle t) (t_linked t) (t_ev_linked t).
Definition set_t_delay (v : Z) (t : task) : task := mk_task (t_prio t) (t_state t) (t_pend_state t) v (t_delay_timer t) (t_wait_type t) (t_msg t) (t_flags_rdy t) (t_cpu t) (t_last_cpu t) (t_affinity t) (t_ti_flags t) (t_preempt_count t) (t_idle t) (t_linked t) (t_ev_linked t).
Definition set_t_delay_timer (v : bool) (t : task) : task := mk_task (t_prio t) (t_state t) (t_pend_state t) (t_delay t) v (t_wait_type t) (t_msg t) (t_flags_rdy t) (t_cpu t) (t_last_cpu t) (t_affinity t) (t_ti_flags t) (t_preempt_count t) (t_idle t) (t_linked t) (t_ev_linked t).
Definition set_t_wait_type (v : Z) (t : task) : task := mk_task (t_prio t) (t_state t) (t_pend_state t) (t_delay t) (t_delay_timer t) v (t_msg t) (t_flags_rdy t) (t_cpu t) (t_last_cpu t) (t_affinity t) (t_ti_flags t) (t_preempt_count t) (t_idle t) (t_linked t) (t_ev_linked t).
Definition set_t_msg (v : Z) (t : task) : task := mk_task (t_prio t) (t_state t) (t_pend_state t) (t_delay t) (t_delay_timer t) (t_wait_type t) v (t_flags_rdy t) (t_cpu t) (t_last_cpu t) (t_affinity t) (t_ti_flags t) (t_preempt_count t) (t_idle t) (t_linked t) (t_ev_linked t).
Definition set_t_flags_rdy (v : Z) (t : task) : task := mk_task (t_prio t) (t_state t) (t_pend_state t) (t_delay t) (t_delay_timer t) (t_wait_type t) (t_msg t) v (t_cpu t) (t_last_cpu t) (t_affinity t) (t_ti_flags t) (t_preempt_count t) (t_idle t) (t_linked t) (t_ev_linked t).
Definition set_t_cpu (v : Z) (t : task) : task := mk_task (t_prio t) (t_state t) (t_pend_state t) (t_delay t) (t_delay_timer t) (t_wait_type t) (t_msg t) (t_flags_rdy t) v (t_last_cpu t) (t_affinity t) (t_ti_flags t) (t_preempt_count t) (t_idle t) (t_linked t) (t_ev_linked t).
Definition set_t_last_cpu (v : Z) (t : task) : task := mk_task (t_prio t) (t_state t) (t_pend_state t) (t_delay t) (t_delay_timer t) (t_wait_type t) (t_msg t) (t_flags_rdy t) (t_cpu t) v (t_affinity t) (t_ti_flags t) (t_preempt_count t) (t_idle t) (t_linked t) (t_ev_linked t).
Definition set_t_ti_flags (v : Z) (t : task) : task := mk_task (t_prio t) (t_state t) (t_pend_state t) (t_delay t) (t_delay_timer t) (t_wait_type t) (t_msg t) (t_flags_rdy t) (t_cpu t) (t_last_cpu t) (t_affinity t) v (t_preempt_count t) (t_idle t) (t_linked t) (t_ev_linked t).
Definition set_t_preempt_count (v : Z) (t : task) : task := mk_task (t_prio t) (t_state t) (t_pend_state t) (t_delay t) (t_delay_timer t) (t_wait_type t) (t_msg t) (t_flags_rdy t) (t_cpu t) (t_last_cpu t) (t_affinity t) (t_ti_flags t) v (t_idle t) (t_linked t) (t_ev_linked t).
Definition set_t_linked (v : bool) (t : task) : task := mk_task (t_prio t) (t_state t) (t_pend_state t) (t_delay t) (t_delay_timer t) (t_wait_type t) (t_msg t) (t_flags_rdy t) (t_cpu t) (t_last_cpu t) (t_affinity t) (t_ti_flags t) (t_preempt_count t) (t_idle t) v (t_ev_linked t).
Definition set_t_ev_linked (v : bool) (t : task) : task := mk_task (t_prio t) (t_state t) (t_pend_state t) (t_delay t) (t_delay_timer t) (t_wait_type t) (t_msg t) (t_flags_rdy t) (t_cpu t) (t_last_cpu t) (t_affinity t) (t_ti_flags t) (t_preempt_count t) (t_idle t) (t_linked t) v.

Record pcpu := mk_pcpu {
  ready_list : list (list Z);
  local_rdy_grp : Z;
  tasks_in_prio : list Z;
  new_list : list Z;
  stop_list : list Z;
  running_task : Z;
  sched_timer : bool;
}.

Definition set_ready_list (v : list (list Z)) (p : pcpu) : pcpu := mk_pcpu v (local_rdy_grp p) (tasks_in_prio p) (new_list p) (stop_list p) (running_task p) (sched_timer p).
Definition set_local_rdy_grp (v : Z) (p : pcpu) : pcpu := mk_pcpu (ready_list p) v (tasks_in_prio p) (new_list p) (stop_list p) (running_task p) (sched_timer p).
Definition set_tasks_in_prio (v : list Z) (p : pcpu) : pcpu := mk_pcpu (ready_list p) (local_rdy_grp p) v (new_list p) (stop_list p) (running_task p) (sched_timer p).
Definition set_new_list (v : list Z) (p : pcpu) : pcpu := mk_pcpu (ready_list p) (local_rdy_grp p) (tasks_in_prio p) v (stop_list p) (running_task p) (sched_timer p).
Definition set_stop_list (v : list Z) (p : pcpu) : pcpu := mk_pcpu (ready_list p) (local_rdy_grp p) (tasks_in_prio p) (new_list p) v (running_task p) (sched_timer p).
Definition set_running_task (v : Z) (p : pcpu) : pcpu := mk_pcpu (ready_list p) (local_rdy_grp p) (tasks_in_prio p) (new_list p) (stop_list p) v (sched_timer p).
Definition set_sched_timer (v : bool) (p : pcpu) : pcpu := mk_pcpu (ready_list p) (local_rdy_grp p) (tasks_in_prio p) (new_list p) (stop_list p) (running_task p) v.

Record sys := mk_sys {
  tasks : gmap Z task;
  pcpus : list pcpu;
  this_cpu : Z;
}.

Definition set_tasks (t : gmap Z task) (s : sys) : sys := mk_sys t (pcpus s) (this_cpu s).
Definition get_cpu (c : Z) (s : sys) : option pcpu := if 0 <=? c then pcpus s !! Z.to_nat c else None.
Definition set_cpu (c : Z) (p : pcpu) (s : sys) : sys :=
  mk_sys (tasks s) (<[Z.to_nat c := p]> (pcpus s)) (this_cpu s).
Definition get_pcpu (s : sys) : option pcpu := get_cpu (this_cpu s) s.
Definition current (s : sys) : option Z := p ← get_pcpu s; Some (running_task p).
Definition task_at (tid : Z) (s : sys) : option task := tasks s !! tid.
Definition upd_task (tid : Z) (f : task -> task) (s : sys) : option sys :=
  t ← tasks s !! tid; Some (set_tasks (<[tid := f t]> (tasks s)) s).
Definition current_task (s : sys) : option task := c ← current s; task_at c s.

(** ** Task flags *)
Definition or_ti (f : Z) (t : task) : task := set_t_ti_flags (Z.lor (t_ti_flags t) f) t.
Definition clear_ti (f : Z) (t : task) : task := set_t_ti_flags (Z.ldiff (t_ti_flags t) f) t.

Definition on_current (f : task -> task) (s : sys) : option sys := c ← current s; upd_task c f s.
Definition set_need_resched : sys -> option sys := on_current (or_ti __TIF_NEED_RESCHED).
Definition do_not_preempt : sys -> option sys := on_current (or_ti __TIF_DONOT_PREEMPT).
Definition clear_do_not_preempt : sys -> option sys := on_current (clear_ti __TIF_DONOT_PREEMPT).

(** These three use the bit number TIF_NEED_RESCHED, which is 0, as a mask. *)
Definition task_set_resched (t : task) : task := or_ti TIF_NEED_RESCHED t.
Definition task_clear_resched (t : task) : task := clear_ti TIF_NEED_RESCHED t.
Definition task_need_resched (t : task) : Z := Z.land (t_ti_flags t) TIF_NEED_RESCHED.

Definition task_is_running (t : task) : bool := t_state t =? TASK_STATE_RUNNING.

(** ** Ready lists *)
Definition prio_list (p : pcpu) (prio : Z) : option (list Z) :=
  if 0 <=? prio then ready_list p !! Z.to_nat prio else None.
Definition prio_count (p : pcpu) (prio : Z) : option Z :=
  if 0 <=? prio then tasks_in_prio p !! Z.to_nat prio else None.

Definition set_prio_list (prio : Z) (l : list Z) (p : pcpu) : pcpu :=
  set_ready_list (<[Z.to_nat prio := l]> (ready_list p)) p.
Definition set_prio_count (prio n : Z) (p : pcpu) : pcpu :=
  set_tasks_in_prio (<[Z.to_nat prio := n]> (tasks_in_prio p)) p.

(** [list_insert_before] at the node of [cur]; [list_del] of the node of [tid]. *)
Fixpoint insert_before (cur new : Z) (l : list Z) : option (list Z) :=
  match l with
  | [] => None
  | x :: l => if x =? cur then Some (new :: x :: l) else l' ← insert_before cur new l; Some (x :: l')
  end.
Fixpoint remove_node (tid : Z) (l : list Z) : option (list Z) :=
  match l with
  | [] => None
  | x :: l => if x =? tid then Some l else l' ← remove_node tid l; Some (x :: l')
  end.

Definition sched_update_sched_timer (s : sys) : option sys :=
  p ← get_pcpu s;
  t ← current_task s;
  n ← prio_count p (t_prio t);
  Some (set_cpu (this_cpu s) (set_sched_timer (1 <? n) p) s).

(** Linking the task: before the running task on a list they share, at the tail
    of its list otherwise. [n] is the new number of tasks on the list [l] of [p]. *)
Definition enqueue_task (cur tid prio : Z) (same : bool) (n : Z) (l : list Z) (p : pcpu) (s : sys) : option sys :=
  if same then
    l ← insert_before cur tid l;
    let s := set_cpu (this_cpu s) (set_prio_list prio l p) s in
    if n =? 2 then sched_update_sched_timer s else Some s
  else Some (set_cpu (this_cpu s) (set_prio_list prio (l ++ [tid]) p) s).

Definition add_task_to_ready_list (tid : Z) (preempt : bool) (s : sys) : option sys :=
  t ← task_at tid s;
  cur ← current s;
  ct ← current_task s;
  _ ← assert_ (negb (t_linked t));
  p ← get_pcpu s;
  n ← prio_count p (t_prio t);
  let p := set_prio_count (t_prio t) (n + 1) p in
  l ← prio_list p (t_prio t);
  s ← upd_task tid (set_t_linked true) s;
  s ← enqueue_task cur tid (t_prio t) (t_prio ct =? t_prio t) (n + 1) l p s;
  p ← get_pcpu s;
  let s := set_cpu (this_cpu s)
             (set_local_rdy_grp (u8 (Z.lor (local_rdy_grp p) (Z.shiftl 1 (t_prio t)))) p) s in
  if preempt || (t_prio t <? t_prio ct) then set_need_resched s else Some s.

Definition remove_task_from_ready_list (tid : Z) (s : sys) : option sys :=
  t ← task_at tid s;
  ct ← current_task s;
  _ ← assert_ (t_linked t);
  p ← get_pcpu s;
  l ← prio_list p (t_prio t);
  l ← remove_node tid l;
  s ← upd_task tid (set_t_linked false) s;
  let p := set_prio_list (t_prio t) l p in
  let p := if bool_decide (l = [])
           then set_local_rdy_grp (Z.ldiff (local_rdy_grp p) (Z.shiftl 1 (t_prio t))) p else p in
  n ← prio_count p (t_prio t);
  let s := set_cpu (this_cpu s) (set_prio_count (t_prio t) (n - 1) p) s in
  if (t_prio ct =? t_prio t) && (n - 1 =? 1) then sched_update_sched_timer s else Some s.

(** ** Making a task ready *)
Definition select_task_run_cpu : Z := NR_CPUS - 1.

Definition percpu_task_ready (tid : Z) (preempt : bool) (s : sys) : option sys :=
  add_task_to_ready_list tid preempt s.

(** The interrupt to the other CPU has no effect on this state. *)
Definition smp_percpu_task_ready (c tid : Z) (preempt : bool) (s : sys) : option sys :=
  s ← (if preempt then upd_task tid task_set_resched s else Some s);
  t ← task_at tid s;
  _ ← assert_ (negb (t_linked t));
  p ← get_cpu c s;
  s ← upd_task tid (set_t_linked true) s;
  Some (set_cpu c (set_new_list (new_list p ++ [tid]) p) s).

Definition task_ready (tid : Z) (preempt : bool) (s : sys) : option (Z * sys) :=
  t ← task_at tid s;
  let cpu := if t_affinity t =? -1 then select_task_run_cpu else t_affinity t in
  s ← upd_task tid (set_t_cpu cpu) s;
  s ← (if negb (this_cpu s =? cpu) then smp_percpu_task_ready cpu tid preempt s
       else percpu_task_ready tid preempt s);
  Some (0, s).

(** ** Waking up *)
Definition deliver (event data pend_state state : Z) (t : task) : task :=
  let t := set_t_pend_state pend_state (set_t_state state (set_t_delay 0 t)) in
  if event =? OS_EVENT_TYPE_FLAG then set_t_flags_rdy data (set_t_msg 0 t)
  else set_t_msg data (set_t_flags_rdy 0 t).

(** [locked] is whether another CPU holds [s_lock], [irq_off] whether interrupts
    are masked; a [panic] is [None]. *)
Definition wake_up_interrupted (irq_off locked : bool) (tid pend_state event data : Z) (s : sys) : option (Z * sys) :=
  _ ← assert_ (negb (pend_state =? TASK_STATE_PEND_TO));
  t ← task_at tid s;
  if negb (t_state t =? TASK_STATE_WAIT_EVENT) then Some (- EACCES, s)
  else
    _ ← assert_ irq_off;
    if (locked : bool) then Some (- EBUSY, s)
    else
      s ← upd_task tid (fun t => deliver event data pend_state TASK_STATE_RUNNING
                                   (clear_ti __TIF_DONOT_PREEMPT (or_ti __TIF_WAIT_INTERRUPTED t))) s;
      Some (0, s).

Definition wake_up_common (tid pend_state event data : Z) (s : sys) : option (Z * sys) :=
  t ← task_at tid s;
  if negb (t_state t =? TASK_STATE_WAIT_EVENT) then Some (- EPERM, s)
  else
    _ ← assert_ (t_cpu t =? -1);
    let timeout := t_delay t in
    s ← upd_task tid (deliver event data pend_state TASK_STATE_WAKING) s;
    s ← (if negb (timeout =? 0) && negb (pend_state =? TASK_STATE_PEND_TO)
         then upd_task tid (set_t_delay_timer false) s else Some s);
    '(_, s) ← task_ready tid true s;
    Some (0, s).

Definition __wake_up (irq_off locked : bool) (tid pend_state event data : Z) (s : sys) : option (Z * sys) :=
  cur ← current s;
  if tid =? cur then wake_up_interrupted irq_off locked tid pend_state event data s
  else wake_up_common tid pend_state event data s.

(** ** Choosing the next task *)
Definition ffs_one_table : list Z :=
  [-1; 0; 1; 0; 2; 0; 1; 0; 3; 0; 1; 0; 2; 0; 1; 0;
   4; 0; 1; 0; 2; 0; 1; 0; 3; 0; 1; 0; 2; 0; 1; 0;
   5; 0; 1; 0; 2; 0; 1; 0; 3; 0; 1; 0; 2; 0; 1; 0;
   4; 0; 1; 0; 2; 0; 1; 0; 3; 0; 1; 0; 2; 0; 1; 0;
   6; 0; 1; 0; 2; 0; 1; 0; 3; 0; 1; 0; 2; 0; 1; 0;
   4; 0; 1; 0; 2; 0; 1; 0; 3; 0; 1; 0; 2; 0; 1; 0;
   5; 0; 1; 0; 2; 0; 1; 0; 3; 0; 1; 0; 2; 0; 1; 0;
   4; 0; 1; 0; 2; 0; 1; 0; 3; 0; 1; 0; 2; 0; 1; 0;
   7; 0; 1; 0; 2; 0; 1; 0; 3; 0; 1; 0; 2; 0; 1; 0;
   4; 0; 1; 0; 2; 0; 1; 0; 3; 0; 1; 0; 2; 0; 1; 0;
   5; 0; 1; 0; 2; 0; 1; 0; 3; 0; 1; 0; 2; 0; 1; 0;
   4; 0; 1; 0; 2; 0; 1; 0; 3; 0; 1; 0; 2; 0; 1; 0;
   6; 0; 1; 0; 2; 0; 1; 0; 3; 0; 1; 0; 2; 0; 1; 0;
   4; 0; 1; 0; 2; 0; 1; 0; 3; 0; 1; 0; 2; 0; 1; 0;
   5; 0; 1; 0; 2; 0; 1; 0; 3; 0; 1; 0; 2; 0; 1; 0;
   4; 0; 1; 0; 2; 0; 1; 0; 3; 0; 1; 0; 2; 0; 1; 0].

Definition CONFIG_TASK_RUN_TIME : Z := 100.

Section pick.
(** [flag_set(&pcpu->kworker_flag, KWORKER_TASK_RECYCLE)] (core/flag.c). *)
Context (wake_kworker : sys -> option sys).

Definition pick_next_task (s : sys) : option (Z * sys) :=
  cur ← current s;
  t ← task_at cur s;
  _ ← assert_ (negb (t_state t =? TASK_STATE_READY));
  s ← (if negb (task_is_running t) then
         s ← remove_task_from_ready_list cur s;
         if t_state t =? TASK_STATE_STOP then
           p ← get_pcpu s;
           s ← upd_task cur (set_t_linked true) (set_cpu (this_cpu s) (set_stop_list (stop_list p ++ [cur]) p) s);
           wake_kworker s
         else Some s
       else Some s);
  p ← get_pcpu s;
  prio ← ffs_one_table !! Z.to_nat (local_rdy_grp p);
  _ ← assert_ (negb (prio =? -1));
  l ← prio_list p prio;
  match l with
  | [] => None
  | next :: l => Some (next, set_cpu (this_cpu s) (set_prio_list prio (l ++ [next]) p) s)
  end.

(** The context switch itself and the hooks are not part of this state. *)
Definition switch_to_task (cur next : Z) (s : sys) : option sys :=
  ct ← task_at cur s;
  let ct' := if (t_state ct =? TASK_STATE_WAIT_EVENT) && (0 <? t_delay ct) then set_t_delay_timer true ct
             else if t_state ct =? TASK_STATE_RUNNING then set_t_state TASK_STATE_READY ct else ct in
  let ct' := set_t_cpu (-1) (set_t_last_cpu (t_cpu ct') ct') in
  let s := set_tasks (<[cur := ct']> (tasks s)) s in
  s ← upd_task next (fun t => set_t_cpu (this_cpu s) (clear_ti __TIF_TICK_EXHAUST (set_t_state TASK_STATE_RUNNING t))) s;
  p ← get_pcpu s;
  Some (set_cpu (this_cpu s) (set_running_task next p) s).

(** The code at the label [task_run_again]. *)
Definition task_run_again (cur : Z) (s : sys) : option (Z * sys) :=
  t ← task_at cur s;
  if negb (Z.land (t_ti_flags t) __TIF_TICK_EXHAUST =? 0)
  then s ← upd_task cur (clear_ti __TIF_TICK_EXHAUST) s; Some (- EAGAIN, s)
  else Some (- EACCES, s).

Definition __exception_return_handler (s : sys) : option (Z * sys) :=
  cur ← current s;
  t ← task_at cur s;
  if (Z.land (t_ti_flags t) __TIF_NEED_RESCHED =? 0) || (0 <? t_preempt_count t)
     || negb (Z.land (t_ti_flags t) __TIF_DONOT_PREEMPT =? 0)
  then task_run_again cur s
  else
    s ← upd_task cur (clear_ti __TIF_NEED_RESCHED) s;
    '(next, s) ← pick_next_task s;
    if next =? cur then task_run_again cur s
    else s ← switch_to_task cur next s; Some (0, s).

Definition exception_return_handler (s : sys) : option sys :=
  '(ret, s) ← __exception_return_handler s;
  if (ret =? 0) || (ret =? - EAGAIN) then sched_update_sched_timer s else Some s.
End pick.

Definition sched_tick_handler (s : sys) : option sys :=
  s ← on_current (or_ti __TIF_TICK_EXHAUST) s; set_need_resched s.

(** One turn of the loop of [irqwork_handler]. *)
Definition irqwork_task (tid : Z) (preempt : Z) (s : sys) : option (Z * sys) :=
  s ← upd_task tid (set_t_linked false) s;
  t ← task_at tid s;
  if t_state t =? TASK_STATE_RUNNING then Some (preempt, s)
  else
    let need_preempt := task_need_resched t in
    s ← upd_task tid task_clear_resched s;
    s ← add_task_to_ready_list tid (negb (need_preempt =? 0)) s;
    s ← upd_task tid (set_t_state TASK_STATE_READY) s;
    s ← (if negb (t_delay t =? 0)
         then upd_task tid (fun t => set_t_delay 0 (set_t_delay_timer false t)) s else Some s);
    Some (preempt + need_preempt, s).

Fixpoint irqwork_loop (l : list Z) (preempt : Z) (s : sys) : option (Z * sys) :=
  match l with
  | [] => Some (preempt, s)
  | tid :: l => '(preempt, s) ← irqwork_task tid preempt s; irqwork_loop l preempt s
  end.

Definition irqwork_handler (s : sys) : option (Z * sys) :=
  p ← get_pcpu s;
  let l := new_list p in
  let s := set_cpu (this_cpu s) (set_new_list [] p) s in
  '(preempt, s) ← irqwork_loop l 0 s;
  ct ← current_task s;
  s ← (if negb (preempt =? 0) || t_idle ct then set_need_resched s else Some s);
  Some (0, s).

(** The part of [task_sleep] and [task_suspend] before the call of [sched]. *)
Definition task_sleep (delay : Z) (s : sys) : option sys :=
  s ← do_not_preempt s;
  on_current (fun t => set_t_wait_type OS_EVENT_TYPE_TIMER (set_t_state TASK_STATE_WAIT_EVENT (set_t_delay delay t))) s.

Definition task_suspend (s : sys) : option sys :=
  s ← do_not_preempt s;
  on_current (fun t => set_t_wait_type 0 (set_t_state TASK_STATE_SUSPEND (set_t_delay 0 t))) s.

Definition task_exit (s : sys) : option sys :=
  on_current (fun t => set_t_delay 0 (set_t_state TASK_STATE_STOP t)) s.

Definition pcpu_sched_init (p : pcpu) : pcpu :=
  set_new_list [] (set_stop_list [] (set_ready_list (replicate 8 []) p)).

(** ** Invariant *)
Record cpu_wf (ts : gmap Z task) (p : pcpu) : Prop := {
  cw_lists : length (ready_list p) = 8%nat;
  cw_counts : length (tasks_in_prio p) = 8%nat;
  cw_grp : 0 <= local_rdy_grp p < 256;
  cw_prio q l : ready_list p !! q = Some l ->
    tasks_in_prio p !! q = Some (Z.of_nat (length l))
    /\ Z.testbit (local_rdy_grp p) (Z.of_nat q) = negb (bool_decide (l = []))
    /\ NoDup l
    /\ forall tid, tid ∈ l -> exists t, ts !! tid = Some t /\ t_prio t = Z.of_nat q /\ t_linked t = true;
}.

(** The tasks on the ready lists. *)
Definition is_ready (p : pcpu) (tid : Z) : Prop := exists q l, ready_list p !! q = Some l /\ tid ∈ l.

(** The ready lists of the executing CPU are consistent, and its running task
    is on its list. *)
Definition sys_wf (s : sys) : Prop :=
  exists p, get_pcpu s = Some p /\ cpu_wf (tasks s) p
    /\ exists ct, tasks s !! running_task p = Some ct /\ 0 <= t_prio ct < 8 /\ is_ready p (running_task p).

(** ** Lemmas on the state *)
Lemma get_cpu_set c p s p0 : get_cpu c s = Some p0 -> get_cpu c (set_cpu c p s) = Some p.
Proof.
  unfold get_cpu, set_cpu; cbn. destruct (0 <=? c); [|done]. intros H.
  apply list_lookup_insert_eq. by eapply lookup_lt_Some.
Qed.

Lemma get_pcpu_set p s p0 : get_pcpu s = Some p0 -> get_pcpu (set_cpu (this_cpu s) p s) = Some p.
Proof. apply get_cpu_set. Qed.

Lemma upd_task_some tid f s t :
  tasks s !! tid = Some t -> upd_task tid f s = Some (set_tasks (<[tid := f t]> (tasks s)) s).
Proof. intros H. unfold upd_task. by rewrite H. Qed.

(** The tasks of a list, as the table sees them. *)
Definition on_prio (ts : gmap Z task) (q : nat) (tid : Z) : Prop :=
  exists t, ts !! tid = Some t /\ t_prio t = Z.of_nat q /\ t_linked t = true.

(** Replacing the list of one priority. *)
Lemma cpu_wf_set_prio ts ts' p q l' g' :
  cpu_wf ts p -> (q < 8)%nat -> NoDup l' -> (forall tid, tid ∈ l' -> on_prio ts' q tid) ->
  (forall q' tid l, q' <> q -> ready_list p !! q' = Some l -> tid ∈ l -> on_prio ts' q' tid) ->
  0 <= g' < 256 -> Z.testbit g' (Z.of_nat q) = negb (bool_decide (l' = [])) ->
  (forall q', (q' < 8)%nat -> q' <> q -> Z.testbit g' (Z.of_nat q') = Z.testbit (local_rdy_grp p) (Z.of_nat q')) ->
  forall p', ready_list p' = <[q := l']> (ready_list p) ->
  tasks_in_prio p' = <[q := Z.of_nat (length l')]> (tasks_in_prio p) -> local_rdy_grp p' = g' ->
  cpu_wf ts' p'.
Proof.
  intros [H1 H2 H3 H4] Hq Hnd Hl' Hother Hg Hgb Hgo p' E1 E2 E3. split.
  - by rewrite E1, length_insert.
  - by rewrite E2, length_insert.
  - by rewrite E3.
  - intros q' l E. rewrite E1 in E. rewrite E2, E3. destruct (decide (q' = q)) as [->|Hne].
    + rewrite list_lookup_insert_eq in E by (by rewrite H1). injection E as <-.
      rewrite list_lookup_insert_eq by (by rewrite H2). done.
    + rewrite list_lookup_insert_ne in E by done. rewrite list_lookup_insert_ne by done.
      destruct (H4 q' l E) as (A1 & A2 & A3 & A4).
      split; [done|]. split.
      * rewrite Hgo; [done| |done]. apply lookup_lt_Some in E. lia.
      * split; [done|]. intros tid Hin. by eapply Hother.
Qed.

(** Changes of other fields of a task. *)
Lemma cpu_wf_upd ts p tid t t' :
  cpu_wf ts p -> ts !! tid = Some t -> t_prio t' = t_prio t -> t_linked t' = t_linked t ->
  cpu_wf (<[tid := t']> ts) p.
Proof.
  intros [H1 H2 H3 H4] E Ep El. split; [done..|]. intros q l Eq.
  destruct (H4 q l Eq) as (A1 & A2 & A3 & A4). do 3 (split; [done|]).
  intros x Hx. destruct (A4 x Hx) as (tx & B1 & B2 & B3). destruct (decide (x = tid)) as [->|Hne].
  - rewrite lookup_insert_eq. simplify_eq. exists t'. split; [done|]. by rewrite Ep, El.
  - exists tx. by rewrite lookup_insert_ne.
Qed.

Lemma cpu_wf_fields ts p p' :
  cpu_wf ts p -> ready_list p' = ready_list p -> tasks_in_prio p' = tasks_in_prio p ->
  local_rdy_grp p' = local_rdy_grp p -> cpu_wf ts p'.
Proof. intros [H1 H2 H3 H4] E1 E2 E3. split; rewrite ?E1, ?E2, ?E3; try done. Qed.

Lemma prio_lookup ts p prio :
  cpu_wf ts p -> 0 <= prio < 8 ->
  exists l, prio_list p prio = Some l /\ ready_list p !! Z.to_nat prio = Some l
    /\ prio_count p prio = Some (Z.of_nat (length l)).
Proof.
  intros Hwf Hp. destruct (lookup_lt_is_Some_2 (ready_list p) (Z.to_nat prio)) as [l E].
  { rewrite (cw_lists _ _ Hwf). lia. }
  exists l. unfold prio_list, prio_count. rewrite (proj2 (Z.leb_le 0 prio)) by lia.
  split; [done|]. split; [done|]. apply (cw_prio _ _ Hwf _ _ E).
Qed.

Lemma shiftl1_bit prio i : 0 <= prio -> 0 <= i -> Z.testbit (Z.shiftl 1 prio) i = (i =? prio).
Proof.
  intros Hp Hi. rewrite Z.shiftl_1_l. destruct (Z.eqb_spec i prio) as [->|].
  - by apply Z.pow2_bits_true.
  - apply Z.pow2_bits_false. lia.
Qed.

Lemma grp_or g prio i :
  0 <= g < 256 -> 0 <= prio < 8 -> 0 <= i < 8 ->
  Z.testbit (u8 (Z.lor g (Z.shiftl 1 prio))) i = (i =? prio) || Z.testbit g i.
Proof.
  intros Hg Hp Hi. unfold u8. rewrite mod_pow2_testbit, Z.lor_spec, shiftl1_bit by lia.
  rewrite (proj2 (Z.ltb_lt i 8)) by lia. apply orb_comm.
Qed.

Lemma grp_clear g prio i :
  0 <= prio < 8 -> 0 <= i < 8 ->
  Z.testbit (Z.ldiff g (Z.shiftl 1 prio)) i = negb (i =? prio) && Z.testbit g i.
Proof. intros Hp Hi. rewrite Z.ldiff_spec, shiftl1_bit by lia. apply andb_comm. Qed.

Lemma grp_clear_range g prio : 0 <= g < 256 -> 0 <= Z.ldiff g (Z.shiftl 1 prio) < 256.
Proof.
  intros Hg. assert (Z.ldiff g (Z.shiftl 1 prio) = Z.ldiff g (Z.shiftl 1 prio) mod 2 ^ 8) as ->.
  { apply Z.bits_inj'. intros i Hi. rewrite mod_pow2_testbit by lia. destruct (Z.ltb_spec i 8); [done|].
    rewrite Z.ldiff_spec, (testbit_small g 8) by lia. done. }
  apply Z.mod_pos_bound. lia.
Qed.

Lemma insert_before_spec cur new l :
  cur ∈ l -> exists l', insert_before cur new l = Some l' /\ l' ≡ₚ new :: l
    /\ (exists l1 l2, l' = l1 ++ new :: cur :: l2 /\ l = l1 ++ cur :: l2).
Proof.
  induction l as [|x l IH]; intros Hin; [set_solver|]. cbn. destruct (Z.eqb_spec x cur) as [->|Hne].
  - eexists. split; [done|]. split; [done|]. by exists [], l.
  - destruct IH as (l' & -> & Hp & l1 & l2 & -> & ->); [set_solver|]. msimpl. eexists. split; [done|].
    split; [by rewrite Hp; constructor|]. by exists (x :: l1), l2.
Qed.

Lemma remove_node_spec tid l :
  tid ∈ l -> exists l', remove_node tid l = Some l' /\ l ≡ₚ tid :: l'.
Proof.
  induction l as [|x l IH]; intros Hin; [set_solver|]. cbn. destruct (Z.eqb_spec x tid) as [->|Hne].
  - by eexists.
  - destruct IH as (l' & -> & Hp); [set_solver|]. msimpl. eexists. split; [done|].
    rewrite Hp. constructor.
Qed.

Lemma timer_spec s p ct n :
  get_pcpu s = Some p -> tasks s !! running_task p = Some ct -> prio_count p (t_prio ct) = Some n ->
  sched_update_sched_timer s = Some (set_cpu (this_cpu s) (set_sched_timer (1 <? n) p) s).
Proof.
  intros Hp Hc Hn. unfold sched_update_sched_timer, current_task, current, task_at.
  rewrite Hp. msimpl. rewrite Hc. msimpl. rewrite Hn. done.
Qed.

Lemma set_need_resched_spec s p ct :
  get_pcpu s = Some p -> tasks s !! running_task p = Some ct ->
  set_need_resched s = Some (set_tasks (<[running_task p := or_ti __TIF_NEED_RESCHED ct]> (tasks s)) s).
Proof.
  intros Hp Hc. unfold set_need_resched, on_current, current. rewrite Hp. msimpl. by apply upd_task_some.
Qed.

Lemma ready_linked ts p tid : cpu_wf ts p -> is_ready p tid -> exists t, ts !! tid = Some t /\ t_linked t = true.
Proof.
  intros Hwf (q & l & E & Hin). destruct (cw_prio _ _ Hwf q l E) as (_ & _ & _ & H).
  destruct (H tid Hin) as (t & Ht & _ & Hl). by exists t.
Qed.

(** The list of the running task holds it. *)
Lemma current_in_list ts p ct l :
  cpu_wf ts p -> ts !! running_task p = Some ct -> 0 <= t_prio ct < 8 -> is_ready p (running_task p) ->
  ready_list p !! Z.to_nat (t_prio ct) = Some l -> running_task p ∈ l.
Proof.
  intros Hwf Hc Hp (q & l' & E & Hin) El. destruct (cw_prio _ _ Hwf q l' E) as (_ & _ & _ & H).
  destruct (H _ Hin) as (t & Ht & Hq & _). rewrite Hc in Ht. injection Ht as <-.
  rewrite Hq, Nat2Z.id in El. by simplify_eq.
Qed.

(** What adding a task to a ready list promises. *)
Definition added (tid prio : Z) (s s' : sys) : Prop :=
  exists p p' l l', get_pcpu s = Some p /\ get_pcpu s' = Some p' /\ this_cpu s' = this_cpu s
    /\ running_task p' = running_task p
    /\ ready_list p !! Z.to_nat prio = Some l
    /\ ready_list p' = <[Z.to_nat prio := l']> (ready_list p) /\ l' ≡ₚ tid :: l
    /\ (forall x, x <> tid -> x <> running_task p -> tasks s' !! x = tasks s !! x)
    /\ (forall t, tasks s !! tid = Some t -> tasks s' !! tid = Some (set_t_linked true t)).

(** The state after the lists were changed, with the final flag updates to come. *)
Lemma add_commit ts p tid t ct l l' tm :
  cpu_wf ts p -> ts !! running_task p = Some ct -> 0 <= t_prio ct < 8 -> is_ready p (running_task p) ->
  ts !! tid = Some t -> t_linked t = false -> 0 <= t_prio t < 8 ->
  ready_list p !! Z.to_nat (t_prio t) = Some l -> l' ≡ₚ tid :: l ->
  let ts' := <[tid := set_t_linked true t]> ts in
  let p' := set_local_rdy_grp (u8 (Z.lor (local_rdy_grp p) (Z.shiftl 1 (t_prio t))))
              (set_sched_timer tm (set_prio_list (t_prio t) l'
                (set_prio_count (t_prio t) (Z.of_nat (length l) + 1) p))) in
  cpu_wf ts' p' /\ ts' !! running_task p' = Some ct /\ is_ready p' (running_task p').
Proof.
  intros Hwf Hc Hcp Hcr Ht Hl Hp El Hperm ts' p'.
  pose proof (cw_prio _ _ Hwf _ _ El) as (A1 & A2 & A3 & A4).
  assert (forall q l0 x, ready_list p !! q = Some l0 -> x ∈ l0 -> x <> tid) as Hne.
  { intros q l0 x E Hx ->. destruct (cw_prio _ _ Hwf q l0 E) as (_ & _ & _ & H).
    destruct (H tid Hx) as (t0 & B1 & _ & B3). congruence. }
  assert (running_task p <> tid) as Hcne by (destruct Hcr as (q & l0 & E & Hin); exact (Hne _ _ _ E Hin)).
  assert (forall q l0 x, ready_list p !! q = Some l0 -> x ∈ l0 -> on_prio ts' q x) as Hkeep.
  { intros q l0 x E Hx. destruct (cw_prio _ _ Hwf q l0 E) as (_ & _ & _ & H).
    destruct (H x Hx) as (t0 & B). exists t0. unfold ts'. rewrite lookup_insert_ne; [done|].
    exact (not_eq_sym (Hne _ _ _ E Hx)). }
  split; [|split].
  - eapply (cpu_wf_set_prio ts ts' p (Z.to_nat (t_prio t)) l'
      (u8 (Z.lor (local_rdy_grp p) (Z.shiftl 1 (t_prio t)))) Hwf).
    + lia.
    + rewrite Hperm. apply list.NoDup_cons. split; [|done]. intros Hin. exact (Hne _ _ _ El Hin eq_refl).
    + intros x Hx. rewrite Hperm in Hx. apply elem_of_cons in Hx as [->|Hx]; [|by eapply Hkeep].
      exists (set_t_linked true t). unfold ts'. rewrite lookup_insert_eq. cbn. rewrite Z2Nat.id by lia. done.
    + intros q' x l0 _ E Hx. by eapply Hkeep.
    + apply Z.mod_pos_bound. lia.
    + rewrite Z2Nat.id, grp_or, Z.eqb_refl by (lia || apply Hwf). cbn.
      rewrite bool_decide_eq_false_2; [done|]. intros ->. by apply Permutation_nil_cons in Hperm.
    + intros q' Hq Hneq. rewrite grp_or by (lia || apply Hwf).
      by rewrite (proj2 (Z.eqb_neq _ _)) by lia.
    + done.
    + cbn. rewrite Hperm. cbn [length]. do 2 f_equal. lia.
    + done.
  - cbn. unfold ts'. by rewrite lookup_insert_ne.
  - destruct Hcr as (q & l0 & E & Hin). unfold is_ready; cbn. destruct (decide (q = Z.to_nat (t_prio t))) as [->|Hneq].
    + exists (Z.to_nat (t_prio t)), l'. rewrite list_lookup_insert_eq by (rewrite (cw_lists _ _ Hwf); lia).
      split; [done|]. rewrite Hperm. simplify_eq. by apply list_elem_of_further.
    + exists q, l0. by rewrite list_lookup_insert_ne.
Qed.

Lemma sys_wf_current s p :
  sys_wf s -> get_pcpu s = Some p ->
  cpu_wf (tasks s) p /\ exists ct, tasks s !! running_task p = Some ct /\ 0 <= t_prio ct < 8
    /\ is_ready p (running_task p) /\ current s = Some (running_task p) /\ current_task s = Some ct.
Proof.
  intros (p' & Hp & Hwf & ct & Hc & Hpr & Hr) E. rewrite E in Hp. injection Hp as <-.
  split; [done|]. exists ct. do 3 (split; [done|]). unfold current_task, current. rewrite E. msimpl. done.
Qed.

(** The end of [add_task_to_ready_list]: the flag of the running task. *)
Lemma add_finish tid prio s s1 p p1 ct l l' (b : bool) :
  get_pcpu s = Some p -> get_pcpu s1 = Some p1 -> this_cpu s1 = this_cpu s ->
  running_task p1 = running_task p ->
  ready_list p !! Z.to_nat prio = Some l ->
  ready_list p1 = <[Z.to_nat prio := l']> (ready_list p) -> l' ≡ₚ tid :: l ->
  (forall x, x <> tid -> tasks s1 !! x = tasks s !! x) -> tid <> running_task p ->
  (forall t, tasks s !! tid = Some t -> tasks s1 !! tid = Some (set_t_linked true t)) ->
  cpu_wf (tasks s1) p1 -> tasks s1 !! running_task p1 = Some ct -> 0 <= t_prio ct < 8 ->
  is_ready p1 (running_task p1) ->
  exists s', (if b then set_need_resched s1 else Some s1) = Some s' /\ sys_wf s' /\ added tid prio s s'
    /\ (b = true -> exists ct', current_task s' = Some ct' /\ Z.testbit (t_ti_flags ct') 0 = true).
Proof.
  intros Hp Hp1 Hcpu Hrun El El' Hperm Hother Hne Htid Hwf Hc Hcp Hr. destruct b.
  - rewrite (set_need_resched_spec s1 p1 ct Hp1 Hc). eexists. split; [done|].
    set (s' := set_tasks _ s1). assert (get_pcpu s' = Some p1) as Hp' by done.
    assert (tasks s' !! running_task p1 = Some (or_ti __TIF_NEED_RESCHED ct)) as Hc' by apply lookup_insert_eq.
    split; [|split].
    + exists p1. split; [done|]. split; [by eapply cpu_wf_upd|]. by exists (or_ti __TIF_NEED_RESCHED ct).
    + exists p, p1, l, l'. do 7 (split; [done|]). split.
      * intros x Hx Hxr. cbn. rewrite lookup_insert_ne by congruence. by apply Hother.
      * intros t Ht. cbn. rewrite lookup_insert_ne by congruence. by apply Htid.
    + intros _. exists (or_ti __TIF_NEED_RESCHED ct). split.
      * unfold current_task, current. rewrite Hp'. msimpl. done.
      * change (Z.testbit (Z.lor (t_ti_flags ct) __TIF_NEED_RESCHED) 0 = true). rewrite Z.lor_spec. apply orb_true_r.
  - exists s1. split; [done|]. split; [|split; [|done]].
    + exists p1. split; [done|]. split; [done|]. by exists ct.
    + exists p, p1, l, l'. do 7 (split; [done|]). split; [|done]. intros x Hx _. by apply Hother.
Qed.

Lemma enqueue_spec ts p0 cur tid ct t l p s :
  cpu_wf ts p0 -> ts !! cur = Some ct -> 0 <= t_prio ct < 8 -> is_ready p0 cur -> running_task p0 = cur ->
  ready_list p0 !! Z.to_nat (t_prio t) = Some l -> 0 <= t_prio t < 8 ->
  get_pcpu s = Some p0 -> tasks s !! cur = Some ct ->
  p = set_prio_count (t_prio t) (Z.of_nat (length l) + 1) p0 ->
  exists l' tm s', enqueue_task cur tid (t_prio t) (t_prio ct =? t_prio t) (Z.of_nat (length l) + 1) l p s = Some s'
    /\ l' ≡ₚ tid :: l /\ get_pcpu s' = Some (set_sched_timer tm (set_prio_list (t_prio t) l' p))
    /\ tasks s' = tasks s /\ this_cpu s' = this_cpu s.
Proof.
  intros Hwf Hc Hcp Hcr Hrun El Hp Ep Hcs ->. unfold enqueue_task.
  destruct (Z.eqb_spec (t_prio ct) (t_prio t)) as [E|E].
  - destruct (insert_before_spec cur tid l) as (l' & -> & Hperm & _).
    { subst cur. apply (current_in_list ts p0 ct); try done. by rewrite E. }
    msimpl. set (s1 := set_cpu _ _ s).
    assert (get_pcpu s1 = Some (set_prio_list (t_prio t) l' (set_prio_count (t_prio t) (Z.of_nat (length l) + 1) p0)))
      as Ep1 by (by eapply get_pcpu_set).
    destruct (_ =? 2).
    + rewrite (timer_spec s1 _ ct (Z.of_nat (length l) + 1) Ep1).
      * exists l', (1 <? Z.of_nat (length l) + 1). eexists. split; [done|]. split; [done|].
        split; [by eapply get_pcpu_set|]. done.
      * cbn. by rewrite Hrun.
      * unfold prio_count; cbn. rewrite (proj2 (Z.leb_le 0 (t_prio ct))) by lia. rewrite E.
        apply list_lookup_insert_eq. rewrite (cw_counts _ _ Hwf). lia.
    + exists l', (sched_timer p0), s1. done.
  - exists (l ++ [tid]), (sched_timer p0). eexists. split; [done|].
    split; [by rewrite Permutation_app_comm|]. split; [by eapply get_pcpu_set|]. done.
Qed.

Lemma add_task_spec tid t preempt s :
  sys_wf s -> tasks s !! tid = Some t -> t_linked t = false -> 0 <= t_prio t < 8 ->
  exists s', add_task_to_ready_list tid preempt s = Some s' /\ sys_wf s' /\ added tid (t_prio t) s s'
    /\ (preempt = true \/ (exists ct, current_task s = Some ct /\ t_prio t < t_prio ct) ->
        exists ct', current_task s' = Some ct' /\ Z.testbit (t_ti_flags ct') 0 = true).
Proof.
  intros Hs Ht Hl Hp. pose proof Hs as (p & Ep & _).
  destruct (sys_wf_current s p Hs Ep) as (Hwf & ct & Hc & Hcp & Hcr & Ecur & Ect).
  destruct (prio_lookup _ _ _ Hwf Hp) as (l & El1 & El & En).
  unfold add_task_to_ready_list, task_at. rewrite Ht, Ecur, Ect. msimpl. rewrite Hl. cbn [negb]. msimpl.
  rewrite Ep. msimpl. rewrite En. msimpl.
  assert (prio_list (set_prio_count (t_prio t) (Z.of_nat (length l) + 1) p) (t_prio t) = Some l) as -> by done.
  msimpl. rewrite (upd_task_some _ _ _ _ Ht). msimpl.
  set (s0 := set_tasks _ s). assert (get_pcpu s0 = Some p) as Ep0 by done.
  assert (running_task p <> tid) as Hne.
  { intros E. destruct (ready_linked _ _ _ Hwf Hcr) as (t0 & Ht0 & Hl0). rewrite E in Ht0. congruence. }
  assert (tasks s0 !! running_task p = Some ct) as Hc0 by (cbn; by rewrite lookup_insert_ne).
  destruct (enqueue_spec (tasks s) p (running_task p) tid ct t l _ s0 Hwf Hc Hcp Hcr eq_refl El Hp Ep0 Hc0 eq_refl)
    as (l' & tm & s1 & E1 & Hperm & Ep1 & Ets1 & Ecpu1).
  rewrite E1. msimpl. rewrite Ep1. msimpl.
  destruct (add_commit (tasks s) p tid t ct l l' tm Hwf Hc Hcp Hcr Ht Hl Hp El Hperm) as (Hwf2 & Hc2 & Hr2).
  set (p2 := set_local_rdy_grp _ _) in *. set (s2 := set_cpu (this_cpu s1) _ s1).
  assert (get_pcpu s2 = Some p2) as Ep2 by (by eapply get_pcpu_set).
  assert (tasks s2 = <[tid := set_t_linked true t]> (tasks s)) as Ets2 by (cbn; by rewrite Ets1).
  destruct (add_finish tid (t_prio t) s s2 p p2 ct l l' (preempt || (t_prio t <? t_prio ct)))
    as (s' & E' & Hwf' & Had & Hres); try done.
  - intros x Hx. rewrite Ets2. by rewrite lookup_insert_ne.
  - intros t' Ht'. rewrite Ets2, lookup_insert_eq. congruence.
  - by rewrite Ets2.
  - by rewrite Ets2.
  - exists s'. split; [done|]. split; [done|]. split; [done|]. intros Hb. apply Hres.
    destruct Hb as [->|(ct0 & [= <-] & Hlt)]; [done|]. apply orb_true_iff. right. lia.
Qed.

(** Removing the running task from its ready list. *)
Lemma remove_current_spec s p ct :
  sys_wf s -> get_pcpu s = Some p -> tasks s !! running_task p = Some ct ->
  exists s' p' l l', remove_task_from_ready_list (running_task p) s = Some s'
    /\ get_pcpu s' = Some p' /\ this_cpu s' = this_cpu s /\ running_task p' = running_task p
    /\ ready_list p !! Z.to_nat (t_prio ct) = Some l
    /\ ready_list p' = <[Z.to_nat (t_prio ct) := l']> (ready_list p) /\ l ≡ₚ running_task p :: l'
    /\ tasks s' = <[running_task p := set_t_linked false ct]> (tasks s)
    /\ cpu_wf (tasks s') p'.
Proof.
  intros Hs Ep Hc. destruct (sys_wf_current s p Hs Ep) as (Hwf & ct' & Hc' & Hcp & Hcr & Ecur & Ect).
  rewrite Hc in Hc'. injection Hc' as <-.
  destruct (prio_lookup _ _ _ Hwf Hcp) as (l & El1 & El & En).
  destruct (ready_linked _ _ _ Hwf Hcr) as (t0 & Ht0 & Hlk). rewrite Hc in Ht0. injection Ht0 as <-.
  pose proof (current_in_list _ _ _ _ Hwf Hc Hcp Hcr El) as Hin.
  destruct (remove_node_spec _ _ Hin) as (l' & Erm & Hperm).
  pose proof (cw_prio _ _ Hwf _ _ El) as (A1 & A2 & A3 & A4).
  rewrite Hperm in A3. apply list.NoDup_cons in A3 as [Hnin Hnd].
  unfold remove_task_from_ready_list, task_at. rewrite Hc, Ect. msimpl. rewrite Hlk. msimpl.
  rewrite Ep. msimpl. rewrite El1. msimpl. rewrite Erm. msimpl. rewrite (upd_task_some _ _ _ _ Hc). msimpl.
  set (p1 := if bool_decide (l' = []) then _ else _).
  assert (prio_count p1 (t_prio ct) = Some (Z.of_nat (length l))) as -> by (unfold p1; destruct (bool_decide (l' = [])); exact En).
  msimpl. set (p2 := set_prio_count (t_prio ct) (Z.of_nat (length l) - 1) p1).
  set (ts' := <[running_task p := set_t_linked false ct]> (tasks s)).
  assert (cpu_wf ts' p2) as Hwf2.
  { assert (forall q l0 x, ready_list p !! q = Some l0 -> x ∈ l0 -> x <> running_task p -> on_prio ts' q x) as Hkeep.
    { intros q l0 x E Hx Hne. destruct (cw_prio _ _ Hwf q l0 E) as (_ & _ & _ & H).
      destruct (H x Hx) as (t0 & B). exists t0. unfold ts'. by rewrite lookup_insert_ne. }
    eapply (cpu_wf_set_prio (tasks s) ts' p (Z.to_nat (t_prio ct)) l' (local_rdy_grp p1) Hwf).
    - lia.
    - done.
    - intros x Hx. apply (Hkeep _ l); [done| |by intros ->]. rewrite Hperm. by apply list_elem_of_further.
    - intros q' x l0 Hq E Hx. apply (Hkeep _ l0); [done|done|]. intros ->.
      destruct (cw_prio _ _ Hwf q' l0 E) as (_ & _ & _ & H). destruct (H _ Hx) as (t0 & B1 & B2 & _).
      rewrite Hc in B1. injection B1 as <-. apply Hq. rewrite B2. by rewrite Nat2Z.id.
    - unfold p1. destruct (bool_decide (l' = [])); cbn; [apply grp_clear_range|]; apply Hwf.
    - rewrite Z2Nat.id by lia. unfold p1. destruct (bool_decide_reflect (l' = [])) as [E|E]; cbn.
      + rewrite grp_clear, Z.eqb_refl by lia. done.
      + rewrite Z2Nat.id in A2 by lia. rewrite A2, bool_decide_eq_false_2; [done|].
        intros ->. by apply Permutation_nil_cons in Hperm.
    - intros q' Hq Hne. unfold p1. destruct (bool_decide (l' = [])); cbn; [|done].
      rewrite grp_clear by lia. by rewrite (proj2 (Z.eqb_neq _ _)) by lia.
    - unfold p2, p1. by destruct (bool_decide (l' = [])).
    - unfold p2, p1. destruct (bool_decide (l' = [])); cbn; rewrite Hperm; cbn [length]; do 2 f_equal; lia.
    - done. }
  set (s1 := set_cpu _ p2 _). assert (get_pcpu s1 = Some p2) as Ep1 by (by eapply (get_pcpu_set p2 (set_tasks ts' s))).
  assert (running_task p2 = running_task p) as Hrun by (unfold p2, p1; by destruct (bool_decide (l' = []))).
  assert (ready_list p2 = <[Z.to_nat (t_prio ct) := l']> (ready_list p)) as Erl by (unfold p2, p1; by destruct (bool_decide (l' = []))).
  destruct ((t_prio ct =? t_prio ct) && _).
  - rewrite (timer_spec s1 p2 (set_t_linked false ct) (Z.of_nat (length l) - 1) Ep1).
    + eexists _, _, l, l'. split; [done|]. split; [by eapply (get_pcpu_set _ s1)|]. do 6 (split; [done|]).
      by eapply cpu_wf_fields.
    + rewrite Hrun. apply lookup_insert_eq.
    + unfold prio_count. cbn [t_prio set_t_linked]. rewrite (proj2 (Z.leb_le 0 (t_prio ct))) by lia.
      unfold p2. cbn. apply list_lookup_insert_eq. unfold p1. destruct (bool_decide (l' = [])); cbn; rewrite (cw_counts _ _ Hwf); lia.
  - exists s1, p2, l, l'. done.
Qed.

(** ** Picking the next task *)
Definition table_entry_ok (g : nat) : bool :=
  match ffs_one_table !! g with
  | Some p => (0 <=? p) && (p <? 8) && Z.testbit (Z.of_nat g) p
              && forallb (fun q => (p <=? q) || negb (Z.testbit (Z.of_nat g) q)) [0; 1; 2; 3; 4; 5; 6; 7]
  | None => false
  end.

Lemma table_all_ok : forallb table_entry_ok (seq 1 255) = true.
Proof. vm_compute. reflexivity. Qed.

Lemma ffs_one_table_spec g :
  0 < g < 256 ->
  exists p, ffs_one_table !! Z.to_nat g = Some p /\ 0 <= p < 8 /\ Z.testbit g p = true
    /\ forall q, 0 <= q < p -> Z.testbit g q = false.
Proof.
  intros Hg. pose proof table_all_ok as H. rewrite forallb_forall in H.
  specialize (H (Z.to_nat g)). rewrite in_seq in H. specialize (H ltac:(lia)).
  unfold table_entry_ok in H. destruct (ffs_one_table !! Z.to_nat g) as [p|]; [|done].
  rewrite Z2Nat.id in H by lia. exists p. split; [done|].
  apply andb_true_iff in H as [H H4]. apply andb_true_iff in H as [H H3].
  apply andb_true_iff in H as [H1 H2]. split; [lia|]. split; [done|]. intros q Hq.
  rewrite forallb_forall in H4. specialize (H4 q).
  assert (List.In q [0; 1; 2; 3; 4; 5; 6; 7]) as Hin by (cbn; lia). specialize (H4 Hin).
  rewrite (proj2 (Z.leb_gt p q)) in H4 by lia. cbn in H4. by apply negb_true_iff.
Qed.

(** The list the table points at is the first one that is not empty. *)
Lemma first_ready ts p :
  cpu_wf ts p -> (exists tid, is_ready p tid) ->
  exists prio next l, ffs_one_table !! Z.to_nat (local_rdy_grp p) = Some prio /\ 0 <= prio < 8
    /\ ready_list p !! Z.to_nat prio = Some (next :: l)
    /\ forall tid t, is_ready p tid -> ts !! tid = Some t -> prio <= t_prio t.
Proof.
  intros Hwf (tid0 & q0 & l0 & E0 & Hin0).
  assert (forall q l, ready_list p !! q = Some l -> l <> [] -> Z.testbit (local_rdy_grp p) (Z.of_nat q) = true) as Hbit.
  { intros q l E Hl. destruct (cw_prio _ _ Hwf q l E) as (_ & -> & _). by rewrite bool_decide_eq_false_2. }
  assert (0 < local_rdy_grp p < 256) as Hg.
  { pose proof (cw_grp _ _ Hwf). enough (local_rdy_grp p <> 0) by lia. intros E.
    assert (l0 <> []) as Hl0 by (intros ->; set_solver). specialize (Hbit q0 l0 E0 Hl0).
    rewrite E, Z.testbit_0_l in Hbit. done. }
  destruct (ffs_one_table_spec _ Hg) as (prio & Et & Hp & Hset & Hlow).
  destruct (prio_lookup _ _ _ Hwf Hp) as (l & _ & El & _).
  destruct (cw_prio _ _ Hwf _ _ El) as (_ & Hb & _ & _). rewrite Z2Nat.id, Hset in Hb by lia.
  destruct l as [|next l]; [done|]. exists prio, next, l. do 3 (split; [done|]).
  intros tid t (q & l1 & E1 & Hin) Ht. destruct (cw_prio _ _ Hwf q l1 E1) as (_ & _ & _ & H).
  destruct (H tid Hin) as (t' & Ht' & Hq & _). rewrite Ht in Ht'. injection Ht' as <-. rewrite Hq.
  destruct (decide (Z.of_nat q < prio)); [|lia]. exfalso.
  assert (l1 <> []) as Hl1 by (intros ->; set_solver). pose proof (Hbit q l1 E1 Hl1).
  rewrite Hlow in H0 by lia. done.
Qed.

Lemma rotate_wf ts p prio next l :
  cpu_wf ts p -> 0 <= prio < 8 -> ready_list p !! Z.to_nat prio = Some (next :: l) ->
  cpu_wf ts (set_prio_list prio (l ++ [next]) p)
  /\ forall tid, is_ready (set_prio_list prio (l ++ [next]) p) tid <-> is_ready p tid.
Proof.
  intros Hwf Hp El. pose proof (cw_prio _ _ Hwf _ _ El) as (A1 & A2 & A3 & A4).
  assert (l ++ [next] ≡ₚ next :: l) as Hperm by by rewrite Permutation_app_comm.
  split.
  - eapply (cpu_wf_set_prio ts ts p (Z.to_nat prio) (l ++ [next]) (local_rdy_grp p) Hwf);
      [lia| | | |apply Hwf| |done|done| |done].
    + by rewrite Hperm.
    + intros x Hx. rewrite Hperm in Hx. by apply A4.
    + intros q x l0 _ E Hx. destruct (cw_prio _ _ Hwf q l0 E) as (_ & _ & _ & H). by apply H.
    + rewrite A2. rewrite !bool_decide_eq_false_2; [done|by destruct l|done].
    + cbn. symmetry. apply list_insert_id. rewrite A1. by rewrite Hperm.
  - intros tid. unfold is_ready; cbn. split; intros (q & l0 & E & Hin).
    + destruct (decide (q = Z.to_nat prio)) as [->|Hne].
      * rewrite list_lookup_insert_eq in E by (rewrite (cw_lists _ _ Hwf); lia). injection E as <-.
        exists (Z.to_nat prio), (next :: l). split; [done|]. by rewrite <- Hperm.
      * rewrite list_lookup_insert_ne in E by done. by exists q, l0.
    + destruct (decide (q = Z.to_nat prio)) as [->|Hne].
      * exists (Z.to_nat prio), (l ++ [next]). rewrite list_lookup_insert_eq by (rewrite (cw_lists _ _ Hwf); lia).
        split; [done|]. rewrite Hperm. by simplify_eq.
      * exists q, l0. by rewrite list_lookup_insert_ne.
Qed.

(** The second half of [pick_next_task]. *)
Lemma pick_head s p :
  get_pcpu s = Some p -> cpu_wf (tasks s) p -> (exists tid, is_ready p tid) ->
  exists next s' p' nt prio l,
    (prio ← ffs_one_table !! Z.to_nat (local_rdy_grp p);
     _ ← assert_ (negb (prio =? -1));
     l ← prio_list p prio;
     match l with
     | [] => None
     | next :: l => Some (next, set_cpu (this_cpu s) (set_prio_list prio (l ++ [next]) p) s)
     end) = Some (next, s')
    /\ get_pcpu s' = Some p' /\ tasks s' = tasks s /\ this_cpu s' = this_cpu s /\ running_task p' = running_task p
    /\ cpu_wf (tasks s) p' /\ (forall tid, is_ready p' tid <-> is_ready p tid)
    /\ tasks s !! next = Some nt /\ is_ready p next /\ t_prio nt = prio
    /\ ready_list p' !! Z.to_nat prio = Some (l ++ [next])
    /\ (forall tid t, is_ready p tid -> tasks s !! tid = Some t -> t_prio nt <= t_prio t).
Proof.
  intros Ep Hwf Hex. destruct (first_ready _ _ Hwf Hex) as (prio & next & l & Et & Hp & El & Hmin).
  destruct (cw_prio _ _ Hwf _ _ El) as (_ & _ & _ & A4). destruct (A4 next) as (nt & Hnt & Hq & _); [by apply list_elem_of_here|].
  rewrite Z2Nat.id in Hq by lia. destruct (rotate_wf _ _ _ _ _ Hwf Hp El) as [Hwf' Hrd].
  eexists next, _, _, nt, prio, l. rewrite Et. msimpl. rewrite (proj2 (Z.eqb_neq prio (-1))) by lia. cbn [negb]. msimpl.
  unfold prio_list. rewrite (proj2 (Z.leb_le 0 prio)) by lia. rewrite El. msimpl.
  split; [done|]. split; [by eapply get_pcpu_set|]. do 3 (split; [done|]). split; [done|]. split; [done|].
  split; [done|]. split; [by exists (Z.to_nat prio), (next :: l); split; [|apply list_elem_of_here]|].
  split; [done|]. split; [|by rewrite Hq].
  cbn. apply list_lookup_insert_eq. rewrite (cw_lists _ _ Hwf). lia.
Qed.

Lemma pick_next_spec wk s p ct :
  sys_wf s -> get_pcpu s = Some p -> tasks s !! running_task p = Some ct ->
  t_state ct <> TASK_STATE_READY -> t_state ct <> TASK_STATE_STOP ->
  (t_state ct <> TASK_STATE_RUNNING -> exists tid, tid <> running_task p /\ is_ready p tid) ->
  exists next s' p' nt l, pick_next_task wk s = Some (next, s') /\ get_pcpu s' = Some p'
    /\ cpu_wf (tasks s') p' /\ tasks s' !! next = Some nt
    /\ (forall tid, is_ready p' tid <->
          is_ready p tid /\ (t_state ct = TASK_STATE_RUNNING \/ tid <> running_task p))
    /\ is_ready p' next
    /\ (forall tid t, is_ready p' tid -> tasks s' !! tid = Some t -> t_prio nt <= t_prio t)
    /\ ready_list p' !! Z.to_nat (t_prio nt) = Some (l ++ [next])
    /\ this_cpu s' = this_cpu s /\ running_task p' = running_task p
    /\ exists ct', tasks s' !! running_task p = Some ct' /\ t_ti_flags ct' = t_ti_flags ct.
Proof.
  intros Hs Ep Hc Hnr Hns Hex.
  destruct (sys_wf_current s p Hs Ep) as (Hwf & ct' & Hc' & Hcp & Hcr & Ecur & Ect).
  rewrite Hc in Hc'. injection Hc' as <-. unfold pick_next_task, task_at. rewrite Ecur. msimpl. rewrite Hc. msimpl.
  rewrite (proj2 (Z.eqb_neq _ _) Hnr). cbn [negb]. msimpl. unfold task_is_running.
  destruct (Z.eqb_spec (t_state ct) TASK_STATE_RUNNING) as [Hrun|Hrun]; cbn [negb].
  - msimpl. rewrite Ep. msimpl.
    destruct (pick_head s p Ep Hwf) as (next & s' & p' & nt & prio & l & E & Ep' & Ets & Ecpu' & Hrun' & Hwf' & Hrd & Hnt & Hrn & Epr & Hl & Hmin);
      [by exists (running_task p)|].
    exists next, s', p', nt, l. split; [done|]. split; [done|]. rewrite Ets. split; [done|]. split; [done|].
    split; [intros tid; rewrite Hrd; tauto|]. split; [by apply Hrd|].
    split; [intros tid t Ht; apply Hmin; by apply Hrd|]. split; [by rewrite Epr|].
    split; [done|]. split; [done|]. by exists ct.
  - destruct (remove_current_spec s p ct Hs Ep Hc)
      as (s1 & p1 & l0 & l1 & -> & Ep1 & Ecpu1 & Hrun1 & El0 & Erl1 & Hperm & Ets1 & Hwf1).
    msimpl. rewrite (proj2 (Z.eqb_neq _ _) Hns). msimpl. rewrite Ep1. msimpl.
    assert (forall tid, is_ready p1 tid <-> is_ready p tid /\ tid <> running_task p) as Hrd1.
    { pose proof (cw_prio _ _ Hwf _ _ El0) as (_ & _ & A3 & _). rewrite Hperm in A3.
      apply list.NoDup_cons in A3 as [Hnin _]. intros tid. unfold is_ready. rewrite Erl1. split.
      - intros (q & l & E & Hin). destruct (decide (q = Z.to_nat (t_prio ct))) as [->|Hne].
        + rewrite list_lookup_insert_eq in E by (rewrite (cw_lists _ _ Hwf); lia). injection E as <-.
          split; [|by intros ->]. exists (Z.to_nat (t_prio ct)), l0. split; [done|].
          rewrite Hperm. by apply list_elem_of_further.
        + rewrite list_lookup_insert_ne in E by done. split; [by exists q, l|]. intros ->.
          destruct (cw_prio _ _ Hwf q l E) as (_ & _ & _ & H). destruct (H _ Hin) as (t0 & B1 & B2 & _).
          rewrite Hc in B1. injection B1 as <-. apply Hne. rewrite B2. by rewrite Nat2Z.id.
      - intros [(q & l & E & Hin) Hne']. destruct (decide (q = Z.to_nat (t_prio ct))) as [->|Hne].
        + exists (Z.to_nat (t_prio ct)), l1. rewrite list_lookup_insert_eq by (rewrite (cw_lists _ _ Hwf); lia).
          split; [done|]. rewrite El0 in E. injection E as <-. rewrite Hperm in Hin.
          by apply elem_of_cons in Hin as [->|?].
        + exists q, l. by rewrite list_lookup_insert_ne. }
    destruct (pick_head s1 p1 Ep1 Hwf1) as (next & s' & p' & nt & prio & l & E & Ep' & Ets & Ecpu' & Hrun' & Hwf' & Hrd & Hnt & Hrn & Epr & Hl & Hmin).
    { destruct (Hex Hrun) as (tid & Hne & Hr). exists tid. by apply Hrd1. }
    exists next, s', p', nt, l. split; [done|]. split; [done|]. rewrite Ets. split; [done|]. split; [done|].
    split; [intros tid; rewrite Hrd, Hrd1; tauto|]. split; [by apply Hrd|].
    split; [intros tid t Ht; apply Hmin; by apply Hrd|]. split; [by rewrite Epr|].
    split; [congruence|]. split; [congruence|]. exists (set_t_linked false ct).
    rewrite Ets1, lookup_insert_eq. done.
Qed.

(** C32: [pick_next_task] takes the running task off its list when it is no
    longer running, leaves every other ready task on its list, and returns a
    ready task of the highest priority, which moves to the tail of its list;
    the lists, the counts and the bit mask stay consistent.  The running task is
    not exiting (that wakes a worker first), and if it stopped running another one is ready. *)
Theorem pick_next_task_highest wk s p ct :
  sys_wf s -> get_pcpu s = Some p -> tasks s !! running_task p = Some ct ->
  t_state ct <> TASK_STATE_READY -> t_state ct <> TASK_STATE_STOP ->
  (t_state ct <> TASK_STATE_RUNNING -> exists tid, tid <> running_task p /\ is_ready p tid) ->
  exists next s' p' nt l, pick_next_task wk s = Some (next, s') /\ get_pcpu s' = Some p'
    /\ cpu_wf (tasks s') p' /\ tasks s' !! next = Some nt
    /\ (forall tid, is_ready p' tid <->
          is_ready p tid /\ (t_state ct = TASK_STATE_RUNNING \/ tid <> running_task p))
    /\ is_ready p' next
    /\ (forall tid t, is_ready p' tid -> tasks s' !! tid = Some t -> t_prio nt <= t_prio t)
    /\ ready_list p' !! Z.to_nat (t_prio nt) = Some (l ++ [next]).
Proof.
  intros Hs Ep Hc Hnr Hns Hex.
  destruct (pick_next_spec wk s p ct Hs Ep Hc Hnr Hns Hex)
    as (next & s' & p' & nt & l & H1 & H2 & H3 & H4 & H5 & H6 & H7 & H8 & _).
  by exists next, s', p', nt, l.
Qed.

(** Adding a task that is on no list to the ready lists keeps the lists,
    the counts and the bit mask consistent, adds exactly that task to the list
    of its priority, and asks for a reschedule when the task preempts or has a
    higher priority than the running task. *)
Theorem add_task_to_ready_list_correct tid t preempt s :
  sys_wf s -> tasks s !! tid = Some t -> t_linked t = false -> 0 <= t_prio t < 8 ->
  exists s', add_task_to_ready_list tid preempt s = Some s' /\ sys_wf s' /\ added tid (t_prio t) s s'
    /\ (preempt = true \/ (exists ct, current_task s = Some ct /\ t_prio t < t_prio ct) ->
        exists ct', current_task s' = Some ct' /\ Z.testbit (t_ti_flags ct') 0 = true).
Proof. apply add_task_spec. Qed.

Lemma sys_wf_upd s tid t t' :
  sys_wf s -> tasks s !! tid = Some t -> t_prio t' = t_prio t -> t_linked t' = t_linked t ->
  sys_wf (set_tasks (<[tid := t']> (tasks s)) s).
Proof.
  intros (p & Ep & Hwf & ct & Hc & Hcp & Hcr) Ht E1 E2. exists p. split; [done|].
  split; [by eapply cpu_wf_upd|]. cbn. destruct (decide (running_task p = tid)) as [E|E].
  - exists t'. rewrite E, lookup_insert_eq. rewrite E in Hc, Hcr. simplify_eq. rewrite E1. done.
  - exists ct. by rewrite lookup_insert_ne.
Qed.

(** A task that waits and can be woken by the executing CPU. *)
Definition waiting_here (s : sys) (tid : Z) (t : task) : Prop :=
  tasks s !! tid = Some t /\ t_state t = TASK_STATE_WAIT_EVENT /\ t_linked t = false /\ 0 <= t_prio t < 8
  /\ t_cpu t = -1 /\ t_affinity t = this_cpu s /\ t_affinity t <> -1 /\ current s <> Some tid.

Lemma wake_up_spec tid t pend_state event data s :
  sys_wf s -> waiting_here s tid t -> event <> OS_EVENT_TYPE_FLAG ->
  exists s' t', __wake_up true false tid pend_state event data s = Some (0, s') /\ sys_wf s'
    /\ tasks s' !! tid = Some t' /\ t_pend_state t' = pend_state /\ t_msg t' = data /\ t_delay t' = 0
    /\ t_linked t' = true
    /\ exists p', get_pcpu s' = Some p' /\ is_ready p' tid.
Proof.
  intros Hs (Ht & Hst & Hl & Hp & Hcpu & Haff & Haff1 & Hcur) Hev. pose proof Hs as (p & Ep & _).
  destruct (sys_wf_current s p Hs Ep) as (Hwf & ct & Hc & Hcp & Hcr & Ecur & Ect).
  assert (tid <> running_task p) as Hne by congruence.
  unfold __wake_up, wake_up_common, task_at. rewrite Ecur. msimpl. rewrite (proj2 (Z.eqb_neq _ _) Hne), Ht. msimpl.
  rewrite Hst. cbn [negb Z.eqb]. change (negb (TASK_STATE_WAIT_EVENT =? TASK_STATE_WAIT_EVENT)) with false. cbn iota.
  rewrite Hcpu. change (-1 =? -1) with true. msimpl. rewrite (upd_task_some _ _ _ _ Ht). msimpl.
  set (t1 := deliver event data pend_state TASK_STATE_WAKING t).
  assert (t_prio t1 = t_prio t /\ t_linked t1 = t_linked t /\ t_affinity t1 = t_affinity t
    /\ t_pend_state t1 = pend_state /\ t_msg t1 = data /\ t_delay t1 = 0) as (D1 & D2 & D3 & D4 & D5 & D6).
  { unfold t1, deliver. rewrite (proj2 (Z.eqb_neq _ _) Hev). done. }
  assert (forall (b : bool), exists t2 s2, (if b then upd_task tid (set_t_delay_timer false) (set_tasks (<[tid := t1]> (tasks s)) s)
      else Some (set_tasks (<[tid := t1]> (tasks s)) s)) = Some s2
    /\ sys_wf s2 /\ tasks s2 !! tid = Some t2 /\ this_cpu s2 = this_cpu s /\ get_pcpu s2 = Some p
    /\ t_prio t2 = t_prio t /\ t_linked t2 = false /\ t_affinity t2 = t_affinity t
    /\ t_pend_state t2 = pend_state /\ t_msg t2 = data /\ t_delay t2 = 0) as Hstep.
  { assert (sys_wf (set_tasks (<[tid := t1]> (tasks s)) s)) as Hs1 by (by eapply sys_wf_upd).
    assert (tasks (set_tasks (<[tid := t1]> (tasks s)) s) !! tid = Some t1) as Ht1 by apply lookup_insert_eq.
    intros []; [|exists t1; eexists; rewrite D2, Hl; done].
    rewrite (upd_task_some _ _ _ _ Ht1). exists (set_t_delay_timer false t1). eexists. split; [done|].
    split; [by eapply sys_wf_upd|]. split; [apply lookup_insert_eq|]. cbn. rewrite D2, Hl. done. }
  destruct (Hstep (negb (t_delay t =? 0) && negb (pend_state =? TASK_STATE_PEND_TO)))
    as (t2 & s2 & -> & Hs2 & Ht2 & Ecpu2 & Ep2 & F1 & F2 & F3 & F4 & F5 & F6). msimpl.
  unfold task_ready, task_at. rewrite Ht2. msimpl. rewrite F3, (proj2 (Z.eqb_neq _ _) Haff1).
  rewrite (upd_task_some _ _ _ _ Ht2). msimpl. set (s3 := set_tasks _ s2).
  change (this_cpu s3) with (this_cpu s2). rewrite Ecpu2, Haff, Z.eqb_refl. cbn [negb]. unfold percpu_task_ready.
  destruct (add_task_spec tid (set_t_cpu (t_affinity t) t2) true s3) as (s' & E' & Hs' & Had & _).
  { by eapply sys_wf_upd. }
  { apply lookup_insert_eq. }
  { done. }
  { cbn. by rewrite F1. }
  rewrite E'. msimpl. exists s'.
  destruct Had as (q & q' & l & l' & Eq & Eq' & _ & Hrun & El & Erl & Hperm & _ & Htid). cbn in El, Erl.
  specialize (Htid (set_t_cpu (t_affinity t) t2) ltac:(apply lookup_insert_eq)).
  pose proof Hs' as (p'' & Ep'' & Hwf' & _). rewrite Eq' in Ep''. injection Ep'' as <-.
  assert (is_ready q' tid) as Hrdy.
  { exists (Z.to_nat (t_prio t2)), l'. rewrite Erl. split; [|rewrite Hperm; apply list_elem_of_here].
    apply list_lookup_insert_eq. by eapply lookup_lt_Some. }
  exists (set_t_linked true (set_t_cpu (t_affinity t) t2)). split; [done|]. split; [done|]. split; [done|].
  cbn. do 4 (split; [done|]). by exists q'.
Qed.

(** Waking a waiting task on its own CPU hands over the result of the wait,
    stops its timer and makes it ready, keeping the ready lists consistent; a task
    that does not wait is refused with [-EPERM] and nothing changes. *)
Theorem wake_up_local tid t pend_state event data s :
  sys_wf s -> tasks s !! tid = Some t -> t_linked t = false -> 0 <= t_prio t < 8 -> t_cpu t = -1 ->
  t_affinity t = this_cpu s -> t_affinity t <> -1 -> current s <> Some tid -> event <> OS_EVENT_TYPE_FLAG ->
  (t_state t <> TASK_STATE_WAIT_EVENT -> __wake_up true false tid pend_state event data s = Some (- EPERM, s))
  /\ (t_state t = TASK_STATE_WAIT_EVENT ->
      exists s' t', __wake_up true false tid pend_state event data s = Some (0, s') /\ sys_wf s'
        /\ tasks s' !! tid = Some t' /\ t_pend_state t' = pend_state /\ t_msg t' = data /\ t_delay t' = 0
        /\ t_linked t' = true
        /\ exists p', get_pcpu s' = Some p' /\ is_ready p' tid).
Proof.
  intros Hs Ht Hl Hp Hcpu Haff Haff1 Hcur Hev. split; intros Hst; [|by eapply wake_up_spec].
  pose proof Hs as (p & Ep & _). destruct (sys_wf_current s p Hs Ep) as (_ & ct & _ & _ & _ & Ecur & _).
  unfold __wake_up, wake_up_common, task_at. rewrite Ecur. msimpl.
  rewrite (proj2 (Z.eqb_neq tid _)) by congruence. rewrite Ht. msimpl. by rewrite (proj2 (Z.eqb_neq _ _) Hst).
Qed.

(** The handler that runs on the way out of an exception keeps the ready
    lists consistent and the running task on its list, whether it switches tasks
    or not. *)
Theorem exception_return_handler_wf wk s p ct :
  sys_wf s -> get_pcpu s = Some p -> tasks s !! running_task p = Some ct ->
  t_state ct <> TASK_STATE_READY -> t_state ct <> TASK_STATE_STOP ->
  (t_state ct <> TASK_STATE_RUNNING -> exists tid, tid <> running_task p /\ is_ready p tid) ->
  exists s', exception_return_handler wk s = Some s' /\ sys_wf s'.
Proof.
  intros Hs Ep Hc Hnr Hns Hex.
  destruct (sys_wf_current s p Hs Ep) as (Hwf & ct' & Hc' & Hcp & Hcr & Ecur & Ect).
  rewrite Hc in Hc'. injection Hc' as <-.
  assert (forall s, sys_wf s -> exists s', sched_update_sched_timer s = Some s' /\ sys_wf s') as Htimer.
  { intros s0 Hs0. pose proof Hs0 as (q & Eq & Hq & c0 & Hc0 & Hcp0 & Hcr0).
    destruct (prio_lookup _ _ _ Hq Hcp0) as (l & _ & _ & En). rewrite (timer_spec s0 q c0 _ Eq Hc0 En).
    eexists. split; [done|]. exists (set_sched_timer (1 <? Z.of_nat (length l)) q).
    split; [by eapply get_pcpu_set|]. split; [by eapply cpu_wf_fields|]. by exists c0. }
  assert (forall s0 c0, sys_wf s0 -> tasks s0 !! running_task p = Some c0 ->
    exists r s', task_run_again (running_task p) s0 = Some (r, s') /\ sys_wf s') as Hagain.
  { intros s0 c0 Hs0 Hc0. unfold task_run_again, task_at. rewrite Hc0. msimpl. destruct (negb _); [|by eexists _, _].
    rewrite (upd_task_some _ _ _ _ Hc0). msimpl. eexists _, _. split; [done|]. by eapply sys_wf_upd. }
  assert (exists r s', __exception_return_handler wk s = Some (r, s') /\ sys_wf s') as (r & s1 & E & Hs1).
  { unfold __exception_return_handler, task_at. rewrite Ecur. msimpl. rewrite Hc. msimpl.
    destruct (_ || _); [by eapply Hagain|]. rewrite (upd_task_some _ _ _ _ Hc). msimpl.
    set (s0 := set_tasks _ s). assert (sys_wf s0) as Hs0 by by eapply sys_wf_upd.
    assert (tasks s0 !! running_task p = Some (clear_ti __TIF_NEED_RESCHED ct)) as Hc0 by apply lookup_insert_eq.
    destruct (pick_next_spec wk s0 p (clear_ti __TIF_NEED_RESCHED ct) Hs0 Ep Hc0 Hnr Hns Hex)
      as (next & s1 & p1 & nt & l & -> & Ep1 & Hwf1 & Hnt & Hrd & Hrn & _ & _ & Ecpu & Hrun & c1 & Hc1 & Hf1).
    msimpl. assert (exists q, t_prio nt = Z.of_nat q /\ (q < 8)%nat) as (q & Eq & Hq).
    { destruct Hrn as (q & l0 & El & Hin). destruct (cw_prio _ _ Hwf1 q l0 El) as (_ & _ & _ & H).
      destruct (H _ Hin) as (t0 & B1 & B2 & _). rewrite Hnt in B1. injection B1 as <-. exists q. split; [done|].
      apply lookup_lt_Some in El. rewrite (cw_lists _ _ Hwf1) in El. lia. }
    destruct (Z.eqb_spec next (running_task p)) as [En|Hne].
    - apply (Hagain s1 c1); [|done]. exists p1. split; [done|]. split; [done|]. rewrite Hrun, <- En.
      exists nt. split; [done|]. split; [lia|done].
    - unfold switch_to_task, task_at. rewrite Hc1. msimpl.
      set (c2 := set_t_cpu _ _). assert (t_prio c2 = t_prio c1 /\ t_linked c2 = t_linked c1) as [F1 F2].
      { unfold c2. by repeat case_match. }
      erewrite upd_task_some; [|cbn; rewrite lookup_insert_ne by congruence; exact Hnt].
      msimpl. set (s2 := set_tasks _ _). assert (get_pcpu s2 = Some p1) as -> by done. msimpl.
      eexists _, _. split; [done|]. exists (set_running_task next p1).
      split; [by eapply (get_pcpu_set _ s2)|]. split.
      + apply (cpu_wf_fields _ p1); [|done..]. cbn. eapply cpu_wf_upd; [|rewrite lookup_insert_ne by congruence; exact Hnt|done|done].
        exact (cpu_wf_upd _ _ _ _ _ Hwf1 Hc1 F1 F2).
      + eexists. cbn. rewrite lookup_insert_eq. split; [done|]. cbn. split; [lia|]. done. }
  unfold exception_return_handler. rewrite E. msimpl. destruct (_ || _); [by apply Htimer|by eexists].
Qed.

(** A request to preempt never reaches another CPU: [task_set_resched] ors
    the bit number 0 into the flags, so that [irqwork_handler] counts no task as
    preempting. *)
Theorem irqwork_never_preempts tid preempt r s s' :
  irqwork_task tid preempt s = Some (r, s') -> r = preempt.
Proof.
  unfold irqwork_task, task_need_resched, TIF_NEED_RESCHED. intros H.
  destruct (upd_task tid (set_t_linked false) s) as [s1|]; [|done]. revert H. msimpl.
  destruct (task_at tid s1) as [t|]; [|done]. msimpl. destruct (_ =? TASK_STATE_RUNNING); [by intros [= <- _]|].
  rewrite Z.land_0_r. destruct (upd_task tid task_clear_resched s1) as [s2|]; [|done]. msimpl.
  destruct (add_task_to_ready_list _ _ s2) as [s3|]; [|done]. msimpl.
  destruct (upd_task tid (set_t_state TASK_STATE_READY) s3) as [s4|]; [|done]. msimpl.
  destruct (if negb _ then _ else _) as [s5|]; [|done]. msimpl. intros [= <- _]. lia.
Qed.

(** ** Witnesses: an idle task runs, a task of priority 5 waits. *)
Definition demo_task (prio state cpu : Z) (linked : bool) : task :=
  mk_task prio state 0 0 false 0 0 0 cpu 0 0 0 0 false linked false.
Definition demo_pcpu : pcpu :=
  mk_pcpu [[]; []; []; []; []; []; []; [7]] 128 [0; 0; 0; 0; 0; 0; 0; 1] [] [] 7 false.
Definition demo_sys : sys :=
  mk_sys (<[7 := demo_task 7 TASK_STATE_RUNNING 0 true]> {[5 := demo_task 5 TASK_STATE_WAIT_EVENT (-1) false]})
    [demo_pcpu] 0.

Lemma demo_cpu_wf : cpu_wf (tasks demo_sys) demo_pcpu.
Proof.
  split; [reflexivity|reflexivity|cbn; lia|]. intros q l E.
  do 8 (destruct q as [|q]; [cbn in E; injection E as <-; cbn;
    split; [reflexivity|]; split; [reflexivity|]; split; [repeat constructor; set_solver|];
    intros tid Hin; first [by inversion Hin | apply list_elem_of_singleton in Hin as ->; by eexists]|]).
  discriminate.
Qed.

Lemma demo_ready : is_ready demo_pcpu 7.
Proof. exists 7%nat, [7]. split; [reflexivity|apply list_elem_of_here]. Qed.

Lemma demo_sys_wf : sys_wf demo_sys.
Proof.
  exists demo_pcpu. split; [reflexivity|]. split; [exact demo_cpu_wf|]. eexists. split; [reflexivity|].
  split; [cbn; lia|exact demo_ready].
Qed.

Lemma pick_next_task_highest_witness :
  exists next s', pick_next_task Some demo_sys = Some (next, s').
Proof.
  destruct (pick_next_task_highest Some demo_sys demo_pcpu (demo_task 7 TASK_STATE_RUNNING 0 true))
    as (next & s' & _ & _ & _ & E & _);
    [exact demo_sys_wf|reflexivity|reflexivity|discriminate|discriminate|by intros []|].
  exists next, s'. exact E.
Defined.

Lemma add_task_to_ready_list_correct_witness :
  exists s', add_task_to_ready_list 5 true demo_sys = Some s' /\ sys_wf s'.
Proof.
  destruct (add_task_to_ready_list_correct 5 (demo_task 5 TASK_STATE_WAIT_EVENT (-1) false) true demo_sys)
    as (s' & E & H & _); [exact demo_sys_wf|reflexivity|reflexivity|cbn; lia|].
  exists s'. exact (conj E H).
Defined.

Lemma wake_up_local_witness :
  exists s' t', __wake_up true false 5 TASK_STATE_PEND_OK OS_EVENT_TYPE_MBOX 0x1234 demo_sys = Some (0, s')
    /\ tasks s' !! 5 = Some t' /\ t_msg t' = 0x1234.
Proof.
  destruct (wake_up_local 5 (demo_task 5 TASK_STATE_WAIT_EVENT (-1) false) TASK_STATE_PEND_OK OS_EVENT_TYPE_MBOX
    0x1234 demo_sys) as [_ H];
    [exact demo_sys_wf|reflexivity|reflexivity|cbn; lia|reflexivity|reflexivity|discriminate|discriminate|discriminate|].
  destruct (H eq_refl) as (s' & t' & E & _ & Ht & _ & Hm & _). exists s', t'. exact (conj E (conj Ht Hm)).
Defined.

Lemma exception_return_handler_wf_witness :
  exists s', exception_return_handler Some demo_sys = Some s' /\ sys_wf s'.
Proof.
  apply (exception_return_handler_wf Some demo_sys demo_pcpu (demo_task 7 TASK_STATE_RUNNING 0 true));
    [exact demo_sys_wf|reflexivity|reflexivity|discriminate|discriminate|by intros []].
Defined.

Lemma irqwork_never_preempts_witness :
  exists s', irqwork_task 5 0 demo_sys = Some (0, s').
Proof.
  destruct (irqwork_task 5 0 demo_sys) as [[r s']|] eqn:E.
  - exists s'. by rewrite (irqwork_never_preempts 5 0 r demo_sys s' E).
  - exfalso. assert (irqwork_task 5 0 demo_sys <> None) as H by (vm_compute; discriminate). exact (H E).
Defined.
