(* ===== verification/Sync.v ===== *)
(** * Events and the primitives built on them
      (core/{event,sem,mutex,mbox,queue,flag}.c, include/minos/{event,sem,mutex,queue,flag}.h)

    An event has a list of the tasks that wait for it.  A function that can
    block is two definitions: the part up to the call of [sched], which either
    returns or leaves the caller waiting, and the part after it, which looks at
    how the wait ended.  A pointer to a message is a number, NULL is 0.  The
    locks are held and interrupts masked while these functions work. *)
From S2P Require Import Prelude Bitops Sched.

Definition EABORT : Z := 134.
Definition INT_MAX : Z := 2147483647.
Definition OS_EVENT_OPT_NONE : Z := 0x0.
Definition OS_EVENT_OPT_BROADCAST : Z := 0x1.

Record event := mk_event {
  ev_type : Z;
  ev_owner : Z;
  ev_cnt : Z;
  ev_data : Z;
  wait_list : list Z;
}.

Definition set_wait_list (l : list Z) (e : event) : event :=
  mk_event (ev_type e) (ev_owner e) (ev_cnt e) (ev_data e) l.
Definition set_cnt (n : Z) (e : event) : event :=
  mk_event (ev_type e) (ev_owner e) n (ev_data e) (wait_list e).
Definition set_data (d : Z) (e : event) : event :=
  mk_event (ev_type e) (ev_owner e) (ev_cnt e) d (wait_list e).
Definition set_owner (tid cnt data : Z) (e : event) : event :=
  mk_event (ev_type e) tid cnt data (wait_list e).

(** ** event.c *)

(** A task is represented by its id also as a pointer. *)
Definition event_init (type pdata : Z) (e : event) (s : sys) : option event :=
  cur ← current s;
  Some (if type =? OS_EVENT_TYPE_NORMAL
        then mk_event type cur 0 (if pdata =? 0 then cur else pdata) []
        else mk_event type (ev_owner e) (ev_cnt e) pdata []).

(** The state a task enters when it starts to wait. *)
Definition start_wait (mode to : Z) (t : task) : task :=
  set_t_delay (if to =? 2 ^ 32 - 1 then 0 else to)
    (set_t_wait_type mode (set_t_pend_state TASK_STATE_PEND_OK (set_t_state TASK_STATE_WAIT_EVENT t))).

(** [__wait_event] for the events other than flags. *)
Definition __wait_event (e : event) (mode to : Z) (s : sys) : option (event * sys) :=
  cur ← current s;
  s ← upd_task cur (set_t_ev_linked true) s;
  s ← do_not_preempt s;
  s ← on_current (start_wait mode to) s;
  Some (set_wait_list (wait_list e ++ [cur]) e, s).

Definition remove_event_waiter (tid : Z) (e : event) (s : sys) : option (Z * event * sys) :=
  t ← task_at tid s;
  if negb (t_ev_linked t) then Some (- ENOENT, e, s)
  else
    l ← remove_node tid (wait_list e);
    s ← upd_task tid (set_t_ev_linked false) s;
    Some (0, set_wait_list l e, s).

(** The loop of [__wake_up_event_waiter] on the waiting tasks [l]; [num] is 0 to
    wake all of them. *)
Fixpoint wake_waiters (l : list Z) (type msg pend_state num cnt : Z) (s : sys) : option (Z * list Z * sys) :=
  match l with
  | [] => Some (cnt, [], s)
  | tid :: l =>
      s ← upd_task tid (set_t_ev_linked false) s;
      '(ret, s) ← __wake_up true false tid pend_state type msg s;
      if negb (ret =? 0) then wake_waiters l type msg pend_state num cnt s
      else if cnt + 1 =? num then Some (cnt + 1, l, s)
      else wake_waiters l type msg pend_state num (cnt + 1) s
  end.

Definition __wake_up_event_waiter (msg pend_state opt : Z) (e : event) (s : sys) : option (Z * event * sys) :=
  let num := if negb (Z.land opt OS_EVENT_OPT_BROADCAST =? 0) then 0 else 1 in
  '(cnt, l, s) ← wake_waiters (wait_list e) (ev_type e) msg pend_state num 0 s;
  Some (cnt, set_wait_list l e, s).

Definition event_pend_down (s : sys) : option sys :=
  on_current (fun t => set_t_msg 0 (set_t_wait_type 0 (set_t_pend_state TASK_STATE_PEND_OK t))) s.

Definition wake (e : event) (s : sys) : option (Z * sys) :=
  if negb (ev_type e =? OS_EVENT_TYPE_NORMAL) then Some (- EPERM, s)
  else __wake_up true false (ev_data e) TASK_STATE_PEND_OK OS_EVENT_TYPE_NORMAL 0 s.

(** ** sem.c *)
Definition sem_init (cnt : Z) (e : event) (s : sys) : option event :=
  e ← event_init OS_EVENT_TYPE_SEM 0 e s; Some (set_cnt cnt e).

Definition sem_accept (e : event) : Z * event :=
  (ev_cnt e, if 0 <? ev_cnt e then set_cnt (ev_cnt e - 1) e else e).

(** [Some ret] when the call returns at once, [None] when the caller now waits. *)
Definition sem_pend (timeout : Z) (e : event) (s : sys) : option (option Z * event * sys) :=
  if 0 <? ev_cnt e then Some (Some 0, set_cnt (ev_cnt e - 1) e, s)
  else '(e, s) ← __wait_event e OS_EVENT_TYPE_SEM timeout s; Some (None, e, s).

(** The return code of a wait: a [pend_state] that is none of the three leaves
    the code of the C function undefined. *)
Definition pend_code (pend_state : Z) : option Z :=
  if pend_state =? TASK_STATE_PEND_OK then Some 0
  else if pend_state =? TASK_STATE_PEND_ABORT then Some (- EABORT)
  else if pend_state =? TASK_STATE_PEND_TO then Some (- ETIMEDOUT)
  else None.

(** The end of [sem_pend] and of [mutex_pend], after [sched]. *)
Definition pend_finish (e : event) (s : sys) : option (Z * event * sys) :=
  cur ← current s;
  t ← task_at cur s;
  ret ← pend_code (t_pend_state t);
  '(e, s) ← (if (t_pend_state t =? TASK_STATE_PEND_OK) || (t_pend_state t =? TASK_STATE_PEND_ABORT)
             then Some (e, s)
             else '(_, e, s) ← remove_event_waiter cur e s; Some (e, s));
  s ← event_pend_down s;
  Some (ret, e, s).

Definition sem_post_opt (pend_state opt : Z) (e : event) (s : sys) : option (Z * event * sys) :=
  '(ret, e, s) ← __wake_up_event_waiter 0 pend_state opt e s;
  if negb (pend_state =? TASK_STATE_PEND_ABORT) then
    if (ret =? 0) && (ev_cnt e <? INT_MAX) then Some (ret, set_cnt (ev_cnt e + 1) e, s)
    else Some (- EOVERFLOW, e, s)
  else Some (ret, e, s).

Definition sem_pend_abort (e : event) (s : sys) : option (Z * event * sys) :=
  sem_post_opt TASK_STATE_PEND_ABORT OS_EVENT_OPT_BROADCAST e s.
Definition sem_post (e : event) (s : sys) : option (Z * event * sys) :=
  sem_post_opt TASK_STATE_PEND_OK OS_EVENT_OPT_NONE e s.

(** ** mutex.c *)
Definition OS_MUTEX_AVAILABLE : Z := 2 ^ 32 - 1.

Definition mutex_init (e : event) (s : sys) : option event :=
  e ← event_init OS_EVENT_TYPE_MUTEX 0 e s; Some (set_cnt OS_MUTEX_AVAILABLE e).

Definition mutex_accept (e : event) (s : sys) : option (Z * event) :=
  tid ← current s;
  Some (if ev_cnt e =? OS_MUTEX_AVAILABLE then (0, set_owner tid tid tid e) else (- EBUSY, e)).

Definition mutex_pend (timeout : Z) (e : event) (s : sys) : option (option Z * event * sys) :=
  tid ← current s;
  if ev_cnt e =? OS_MUTEX_AVAILABLE then Some (Some 0, set_owner tid tid tid e, s)
  else '(e, s) ← __wait_event e OS_EVENT_TYPE_MUTEX timeout s; Some (None, e, s).

(** The test [if (task)] looks at the current task, which is never NULL; the
    code behind it is not reached. *)
Definition mutex_post (e : event) (s : sys) : option (Z * event * sys) :=
  tid ← current s;
  _ ← assert_ (ev_owner e =? tid);
  '(ret, e, s) ← __wake_up_event_waiter 0 TASK_STATE_PEND_OK 0 e s;
  Some (0, set_owner tid tid tid e, s).

(** ** mbox.c *)
Definition mbox_accept (e : event) : Z := ev_data e.
Definition mbox_is_pending (e : event) : Z := b2z (negb (ev_data e =? 0)).

Definition mbox_pend (timeout : Z) (e : event) (s : sys) : option (option Z * event * sys) :=
  if negb (ev_data e =? 0) then Some (Some (ev_data e), set_data 0 e, s)
  else '(e, s) ← __wait_event e OS_EVENT_TYPE_MBOX timeout s; Some (None, e, s).

(** The end of [mbox_pend] and of [queue_pend], after [sched]. *)
Definition msg_finish (e : event) (s : sys) : option (Z * event * sys) :=
  cur ← current s;
  t ← task_at cur s;
  '(pmsg, e, s) ←
    (if t_pend_state t =? TASK_STATE_PEND_OK then Some (t_msg t, e, s)
     else if t_pend_state t =? TASK_STATE_PEND_ABORT then Some (0, e, s)
     else '(_, e, s) ← remove_event_waiter cur e s; Some (0, e, s));
  s ← event_pend_down s;
  Some (pmsg, e, s).

Definition __mbox_post_opt (pmsg pend_state opt : Z) (e : event) (s : sys) : option (Z * event * sys) :=
  if pmsg =? 0 then Some (- EINVAL, e, s)
  else
    '(ret, e, s) ← __wake_up_event_waiter pmsg pend_state opt e s;
    if ret =? 0 then
      if negb (ev_data e =? 0) then Some (- ENOSPC, e, s) else Some (0, set_data pmsg e, s)
    else Some (ret, e, s).

Definition mobox_post_abort (e : event) (s : sys) : option (Z * event * sys) :=
  __mbox_post_opt 0 TASK_STATE_PEND_ABORT OS_EVENT_OPT_BROADCAST e s.
Definition mbox_post (pmsg : Z) (e : event) (s : sys) : option (Z * event * sys) :=
  __mbox_post_opt pmsg TASK_STATE_PEND_OK OS_EVENT_OPT_NONE e s.

(** ** queue.c: the pointers into the buffer are indices. *)
Record queue := mk_queue {
  q_buf : list Z;
  q_in : Z;
  q_out : Z;
  q_size : Z;
  q_cnt : Z;
}.

(** [zalloc_ok] are the outcomes of the two allocations. *)
Definition queue_init (zalloc_ok1 zalloc_ok2 : bool) (size : Z) : Z * option queue :=
  if negb zalloc_ok1 || negb zalloc_ok2 then (- ENOMEM, None)
  else (0, Some (mk_queue (replicate (Z.to_nat size) 0) 0 0 size 0)).

Definition queue_pop (q : queue) : option (Z * queue) :=
  pmsg ← q_buf q !! Z.to_nat (q_out q);
  let out := q_out q + 1 in
  let out := if out =? Z.of_nat (length (q_buf q)) then 0 else out in
  Some (pmsg, mk_queue (q_buf q) (q_in q) out (q_size q) (q_cnt q - 1)).

Definition queue_push (pmsg : Z) (q : queue) : option queue :=
  _ ← q_buf q !! Z.to_nat (q_in q);
  let inn := q_in q + 1 in
  let inn := if inn =? Z.of_nat (length (q_buf q)) then 0 else inn in
  Some (mk_queue (<[Z.to_nat (q_in q) := pmsg]> (q_buf q)) inn (q_out q) (q_size q) (q_cnt q + 1)).

Definition queue_push_front (pmsg : Z) (q : queue) : option queue :=
  let out := (if q_out q =? 0 then Z.of_nat (length (q_buf q)) else q_out q) - 1 in
  _ ← q_buf q !! Z.to_nat out;
  Some (mk_queue (<[Z.to_nat out := pmsg]> (q_buf q)) (q_in q) out (q_size q) (q_cnt q + 1)).

Definition queue_accept (q : queue) : option (Z * queue) :=
  if 0 <? q_cnt q then queue_pop q else Some (0, q).

Definition queue_flush (q : queue) : Z * queue := (0, mk_queue (q_buf q) 0 0 (q_size q) 0).

Definition queue_pend (timeout : Z) (e : event) (q : queue) (s : sys) : option (option Z * event * queue * sys) :=
  if 0 <? q_cnt q then '(pmsg, q) ← queue_pop q; Some (Some pmsg, e, q, s)
  else '(e, s) ← __wait_event e OS_EVENT_TYPE_QUEUE timeout s; Some (None, e, q, s).

Definition __queue_post (pmsg : Z) (front : bool) (e : event) (q : queue) (s : sys) : option (Z * event * queue * sys) :=
  '(ret, e, s) ← __wake_up_event_waiter pmsg TASK_STATE_PEND_OK 0 e s;
  if negb (ret =? 0) then Some (0, e, q, s)
  else if q_size q <=? q_cnt q then Some (- ENOSPC, e, q, s)
  else
    q ← (if front then queue_push_front pmsg q else queue_push pmsg q);
    Some (ret, e, q, s).

Definition queue_post (pmsg : Z) := __queue_post pmsg false.
Definition queue_post_front (pmsg : Z) := __queue_post pmsg true.

(** ** flag.c *)
Definition FLAG_WAIT_CLR_ALL : Z := 0.
Definition FLAG_WAIT_CLR_ANY : Z := 1.
Definition FLAG_WAIT_SET_ALL : Z := 2.
Definition FLAG_WAIT_SET_ANY : Z := 3.
Definition FLAG_CONSUME : Z := 0x80.
Definition FLAG_CLR : Z := 0.
Definition FLAG_SET : Z := 1.

(** [~x] on a [flag_t]. *)
Definition not32 (z : Z) : Z := Z.ldiff (2 ^ 32 - 1) z.

Record flag_node := mk_node {
  n_task : Z;
  n_flags : Z;
  n_wait_type : Z;
}.

Record flag_grp := mk_grp {
  g_flags : Z;
  g_wait_list : list flag_node;
}.

Definition set_g_flags (f : Z) (g : flag_grp) : flag_grp := mk_grp f (g_wait_list g).

Definition flag_wait_set_all (flags : Z) (consume : bool) (g : flag_grp) : Z * flag_grp :=
  let rdy := Z.land (g_flags g) flags in
  if rdy =? flags then (rdy, if consume then set_g_flags (Z.land (g_flags g) (not32 rdy)) g else g)
  else (0, g).
Definition flag_wait_set_any (flags : Z) (consume : bool) (g : flag_grp) : Z * flag_grp :=
  let rdy := Z.land (g_flags g) flags in
  (rdy, if negb (rdy =? 0) && consume then set_g_flags (Z.land (g_flags g) (not32 rdy)) g else g).
Definition flag_wait_clr_all (flags : Z) (consume : bool) (g : flag_grp) : Z * flag_grp :=
  let rdy := Z.land (not32 (g_flags g)) flags in
  if rdy =? flags then (rdy, if consume then set_g_flags (Z.lor (g_flags g) rdy) g else g)
  else (0, g).
Definition flag_wait_clr_any (flags : Z) (consume : bool) (g : flag_grp) : Z * flag_grp :=
  let rdy := Z.land (not32 (g_flags g)) flags in
  (rdy, if negb (rdy =? 0) && consume then set_g_flags (Z.lor (g_flags g) rdy) g else g).

Definition flag_accept (flags wait_type : Z) (g : flag_grp) : Z * flag_grp :=
  let consume := negb (Z.land wait_type FLAG_CONSUME =? 0) in
  let wait_type := if consume then Z.ldiff wait_type FLAG_CONSUME else wait_type in
  if wait_type =? FLAG_WAIT_SET_ALL then flag_wait_set_all flags consume g
  else if wait_type =? FLAG_WAIT_SET_ANY then flag_wait_set_any flags consume g
  else if wait_type =? FLAG_WAIT_CLR_ALL then flag_wait_clr_all flags consume g
  else if wait_type =? FLAG_WAIT_CLR_ANY then flag_wait_clr_any flags consume g
  else (0, g).

Definition flag_block (flags wait_type timeout : Z) (g : flag_grp) (s : sys) : option (flag_grp * sys) :=
  cur ← current s;
  s ← do_not_preempt s;
  s ← on_current (start_wait OS_EVENT_TYPE_FLAG timeout) s;
  Some (mk_grp (g_flags g) (g_wait_list g ++ [mk_node cur flags wait_type]), s).

(** [Some flags] when the call returns at once, [None] when the caller waits. *)
Definition flag_pend (flags wait_type timeout : Z) (g : flag_grp) (s : sys) : option (option Z * flag_grp * sys) :=
  let '(rdy, g) := flag_accept flags wait_type g in
  if negb (rdy =? 0) then Some (Some rdy, g, s)
  else
    let consume := negb (Z.land wait_type FLAG_CONSUME =? 0) in
    let wait_type := if consume then Z.ldiff wait_type FLAG_CONSUME else wait_type in
    '(g, s) ← flag_block flags wait_type timeout g s;
    Some (None, g, s).

(** [list_del] of the caller's node, which is the node of its task. *)
Fixpoint remove_flag_node (tid : Z) (l : list flag_node) : option (list flag_node) :=
  match l with
  | [] => None
  | n :: l => if n_task n =? tid then Some l else l' ← remove_flag_node tid l; Some (n :: l')
  end.

(** The part of [flag_pend] after [sched]. *)
Definition flag_finish (wait_type : Z) (g : flag_grp) (s : sys) : option (Z * flag_grp * sys) :=
  let consume := negb (Z.land wait_type FLAG_CONSUME =? 0) in
  let wait_type := if consume then Z.ldiff wait_type FLAG_CONSUME else wait_type in
  cur ← current s;
  t ← task_at cur s;
  if negb (t_pend_state t =? TASK_STATE_PEND_OK) then
    s ← upd_task cur (set_t_pend_state TASK_STATE_PEND_OK) s;
    l ← remove_flag_node cur (g_wait_list g);
    Some (0, mk_grp (g_flags g) l, s)
  else
    let rdy := u32 (t_flags_rdy t) in
    Some (if (consume : bool) then
            if (wait_type =? FLAG_WAIT_SET_ALL) || (wait_type =? FLAG_WAIT_SET_ANY)
            then (rdy, set_g_flags (Z.land (g_flags g) (not32 rdy)) g, s)
            else if (wait_type =? FLAG_WAIT_CLR_ALL) || (wait_type =? FLAG_WAIT_CLR_ANY)
            then (rdy, set_g_flags (Z.lor (g_flags g) rdy) g, s)
            else (0, g, s)
          else (rdy, g, s)).

Definition flag_task_ready (n : flag_node) (flags : Z) (s : sys) : option sys :=
  '(_, s) ← __wake_up true false (n_task n) TASK_STATE_PEND_OK OS_EVENT_TYPE_FLAG flags s; Some s.

(** The loop of [flag_post] over the waiting nodes.  The case of
    FLAG_WAIT_CLR_ANY has no [break]: like an unknown wait type it leaves the
    function with 0.  [None] inside is the end of the list. *)
Fixpoint flag_post_loop (gflags : Z) (l : list flag_node) (s : sys) : option (option Z * sys) :=
  match l with
  | [] => Some (None, s)
  | n :: l =>
      let set_rdy := Z.land gflags (n_flags n) in
      let clr_rdy := Z.land (not32 gflags) (n_flags n) in
      if n_wait_type n =? FLAG_WAIT_SET_ALL then
        s ← (if set_rdy =? n_flags n then flag_task_ready n set_rdy s else Some s);
        flag_post_loop gflags l s
      else if n_wait_type n =? FLAG_WAIT_SET_ANY then
        s ← (if negb (set_rdy =? 0) then flag_task_ready n set_rdy s else Some s);
        flag_post_loop gflags l s
      else if n_wait_type n =? FLAG_WAIT_CLR_ALL then
        s ← (if clr_rdy =? n_flags n then flag_task_ready n clr_rdy s else Some s);
        flag_post_loop gflags l s
      else if n_wait_type n =? FLAG_WAIT_CLR_ANY then
        s ← (if negb (clr_rdy =? 0) then flag_task_ready n clr_rdy s else Some s);
        Some (Some 0, s)
      else Some (Some 0, s)
  end.

(** The [flag_t] returned for an invalid [opt] is [-EINVAL] as an unsigned number. *)
Definition flag_post (flags opt : Z) (g : flag_grp) (s : sys) : option (Z * flag_grp * sys) :=
  if FLAG_SET <? opt then Some (u32 (- EINVAL), g, s)
  else
    let g := if opt =? FLAG_CLR then set_g_flags (Z.land (g_flags g) (not32 flags)) g
             else if opt =? FLAG_SET then set_g_flags (Z.lor (g_flags g) flags) g else g in
    '(r, s) ← flag_post_loop (g_flags g) (g_wait_list g) s;
    Some (match r with Some v => v | None => g_flags g end, g, s).

(** ** The message queue is a double ended queue *)
Definition queue_wf (q : queue) : Prop :=
  0 < q_size q /\ Z.of_nat (length (q_buf q)) = q_size q
  /\ 0 <= q_in q < q_size q /\ 0 <= q_out q < q_size q /\ 0 <= q_cnt q <= q_size q
  /\ q_in q = (q_out q + q_cnt q) mod q_size q.

(** The message at distance [i] from the front, and the messages in order. *)
Definition slot (q : queue) (i : nat) : Z := q_buf q !!! Z.to_nat ((q_out q + Z.of_nat i) mod q_size q).
Definition contents (q : queue) : list Z := map (slot q) (seq 0 (Z.to_nat (q_cnt q))).

Lemma mod_wrap x n : 0 < n -> 0 <= x < 2 * n -> x mod n = if x <? n then x else x - n.
Proof.
  intros Hn Hx. destruct (Z.ltb_spec x n); [apply Z.mod_small; lia|].
  replace x with (x - n + 1 * n) at 1 by lia. rewrite Z.mod_add by lia. apply Z.mod_small. lia.
Qed.

Lemma lookup_buf q k : 0 <= k < Z.of_nat (length (q_buf q)) ->
  q_buf q !! Z.to_nat k = Some (q_buf q !!! Z.to_nat k).
Proof.
  intros Hk. destruct (lookup_lt_is_Some_2 (q_buf q) (Z.to_nat k)) as [x Hx]; [lia|].
  by rewrite Hx, (list_lookup_total_correct _ _ _ Hx).
Qed.

Lemma queue_pop_spec q :
  queue_wf q -> 0 < q_cnt q ->
  exists m q', queue_pop q = Some (m, q') /\ queue_wf q' /\ q_size q' = q_size q /\ contents q = m :: contents q'.
Proof.
  intros (H1 & H2 & H3 & H4 & H5 & H6) Hc. unfold queue_pop. rewrite lookup_buf by lia. msimpl.
  rewrite H2. eexists _, _. split; [done|].
  assert ((if q_out q + 1 =? q_size q then 0 else q_out q + 1) = (q_out q + 1) mod q_size q) as ->.
  { rewrite mod_wrap by lia. destruct (Z.eqb_spec (q_out q + 1) (q_size q)), (Z.ltb_spec (q_out q + 1) (q_size q)); lia. }
  pose proof (Z.mod_pos_bound (q_out q + 1) (q_size q) H1) as Hb. split; [|split; [done|]].
  - unfold queue_wf; cbn. split_and!; try lia.
    rewrite Zplus_mod_idemp_l. rewrite H6. f_equal. lia.
  - unfold contents; cbn. replace (Z.to_nat (q_cnt q)) with (S (Z.to_nat (q_cnt q - 1))) by lia. cbn [seq map].
    f_equal.
    + unfold slot. rewrite Z.add_0_r, Z.mod_small by lia. done.
    + rewrite <- seq_shift, map_map. apply map_ext. intros i. unfold slot; cbn.
      rewrite Zplus_mod_idemp_l. do 3 f_equal. lia.
Qed.

Lemma queue_push_spec q m :
  queue_wf q -> q_cnt q < q_size q ->
  exists q', queue_push m q = Some q' /\ queue_wf q' /\ q_size q' = q_size q /\ contents q' = contents q ++ [m].
Proof.
  intros (H1 & H2 & H3 & H4 & H5 & H6) Hc. unfold queue_push. rewrite lookup_buf by lia. msimpl.
  rewrite H2. eexists. split; [done|].
  assert ((if q_in q + 1 =? q_size q then 0 else q_in q + 1) = (q_in q + 1) mod q_size q) as ->.
  { rewrite mod_wrap by lia. destruct (Z.eqb_spec (q_in q + 1) (q_size q)), (Z.ltb_spec (q_in q + 1) (q_size q)); lia. }
  pose proof (Z.mod_pos_bound (q_in q + 1) (q_size q) H1) as Hb. split; [|split; [done|]].
  - unfold queue_wf; cbn. rewrite length_insert. split_and!; try lia.
    rewrite H6, Zplus_mod_idemp_l. f_equal. lia.
  - unfold contents; cbn. replace (Z.to_nat (q_cnt q + 1)) with (Z.to_nat (q_cnt q) + 1)%nat by lia.
    rewrite seq_app, map_app. cbn [seq map]. f_equal.
    + apply map_ext_in. intros i Hi%in_seq. unfold slot; cbn. apply list_lookup_total_insert_ne.
      rewrite H6. intros E. apply Z2Nat.inj in E; [|apply Z.mod_pos_bound; lia..]. revert E.
      rewrite !mod_wrap by lia. destruct (Z.ltb_spec (q_out q + q_cnt q) (q_size q)),
        (Z.ltb_spec (q_out q + Z.of_nat i) (q_size q)); lia.
    + f_equal. unfold slot; cbn. rewrite Z2Nat.id by lia. rewrite <- H6.
      apply list_lookup_total_insert_eq. lia.
Qed.

Lemma queue_push_front_spec q m :
  queue_wf q -> q_cnt q < q_size q ->
  exists q', queue_push_front m q = Some q' /\ queue_wf q' /\ q_size q' = q_size q /\ contents q' = m :: contents q.
Proof.
  intros (H1 & H2 & H3 & H4 & H5 & H6) Hc. unfold queue_push_front. rewrite H2.
  set (out := (if q_out q =? 0 then q_size q else q_out q) - 1).
  assert (0 <= out < q_size q /\ (out + 1) mod q_size q = q_out q) as [Ho Hom].
  { unfold out. destruct (Z.eqb_spec (q_out q) 0) as [E|E]; split; try lia.
    - replace (q_size q - 1 + 1) with (0 + 1 * q_size q) by lia. rewrite Z.mod_add, Z.mod_0_l; lia.
    - replace (q_out q - 1 + 1) with (q_out q) by lia. apply Z.mod_small. lia. }
  rewrite lookup_buf by lia. msimpl. eexists. split; [done|]. split; [|split; [done|]].
  - unfold queue_wf; cbn. rewrite length_insert. split_and!; try lia.
    rewrite H6, <- Hom, Zplus_mod_idemp_l. f_equal. lia.
  - unfold contents; cbn. replace (Z.to_nat (q_cnt q + 1)) with (S (Z.to_nat (q_cnt q))) by lia. cbn [seq map].
    f_equal.
    + unfold slot; cbn. rewrite Z.add_0_r, Z.mod_small by lia. apply list_lookup_total_insert_eq. lia.
    + rewrite <- seq_shift, map_map. apply map_ext_in. intros i Hi%in_seq. unfold slot; cbn.
      assert ((q_out q + Z.of_nat i) mod q_size q = (out + Z.of_nat (S i)) mod q_size q) as E.
      { rewrite <- Hom, Zplus_mod_idemp_l. f_equal. lia. }
      rewrite E. apply list_lookup_total_insert_ne. intros E2.
      apply Z2Nat.inj in E2; [|lia|apply Z.mod_pos_bound; lia]. revert E2.
      rewrite mod_wrap by lia. destruct (Z.ltb_spec (out + Z.of_nat (S i)) (q_size q)); lia.
Qed.

(** C38: the message queue refines a double ended queue of at most [q_size]
    messages: a post appends (or puts in front), a pend takes the first message,
    and the indices into the ring buffer stay consistent. *)
Theorem queue_refines_deque q m :
  queue_wf q ->
  (q_cnt q < q_size q ->
     (exists q', queue_push m q = Some q' /\ queue_wf q' /\ contents q' = contents q ++ [m])
     /\ (exists q', queue_push_front m q = Some q' /\ queue_wf q' /\ contents q' = m :: contents q))
  /\ (contents q = [] -> queue_accept q = Some (0, q))
  /\ (forall x l, contents q = x :: l ->
        exists q', queue_accept q = Some (x, q') /\ queue_wf q' /\ contents q' = l)
  /\ queue_wf (queue_flush q).2 /\ contents (queue_flush q).2 = [].
Proof.
  intros Hwf. assert (length (contents q) = Z.to_nat (q_cnt q)) as Hlen.
  { unfold contents. by rewrite length_map, length_seq. }
  split; [|split; [|split]].
  - intros Hc. destruct (queue_push_spec q m Hwf Hc) as (q1 & E1 & W1 & _ & C1).
    destruct (queue_push_front_spec q m Hwf Hc) as (q2 & E2 & W2 & _ & C2). split; [by exists q1|by exists q2].
  - intros E. rewrite E in Hlen. cbn in Hlen. unfold queue_accept. by rewrite (proj2 (Z.ltb_ge _ _)) by lia.
  - intros x l E. rewrite E in Hlen. cbn in Hlen. unfold queue_accept. rewrite (proj2 (Z.ltb_lt _ _)) by lia.
    destruct (queue_pop_spec q Hwf) as (y & q' & E' & W & _ & C); [lia|]. rewrite E in C. injection C as -> ->. by exists q'.
  - split; [|done]. destruct Hwf as (H1 & H2 & H3 & H4 & H5 & H6). unfold queue_wf; cbn.
    split_and!; try lia. by rewrite Z.mod_0_l by lia.
Qed.

(** ** Waking the tasks that wait for an event *)
Lemma waiting_ev_linked s tid t b :
  waiting_here s tid t -> waiting_here (set_tasks (<[tid := set_t_ev_linked b t]> (tasks s)) s) tid (set_t_ev_linked b t).
Proof. intros (H1 & H). split; [apply lookup_insert_eq|done]. Qed.

(** The first waiter is made ready with the result of its wait. *)
Definition handed (tid pend_state msg : Z) (s' : sys) : Prop :=
  sys_wf s' /\ exists t', tasks s' !! tid = Some t' /\ t_pend_state t' = pend_state /\ t_msg t' = msg
    /\ exists p', get_pcpu s' = Some p' /\ is_ready p' tid.

Lemma wake_first e tid l t msg pend_state s :
  sys_wf s -> wait_list e = tid :: l -> waiting_here s tid t -> ev_type e <> OS_EVENT_TYPE_FLAG ->
  exists s', __wake_up_event_waiter msg pend_state 0 e s = Some (1, set_wait_list l e, s')
    /\ handed tid pend_state msg s'.
Proof.
  intros Hs El Hw Ht. unfold __wake_up_event_waiter. rewrite El. cbn [wake_waiters].
  rewrite (upd_task_some _ _ _ _ (proj1 Hw)). msimpl.
  set (s0 := set_tasks _ s). assert (sys_wf s0) as Hs0 by (eapply sys_wf_upd; [done|apply Hw|done|done]).
  destruct (wake_up_spec tid _ pend_state (ev_type e) msg s0 Hs0 (waiting_ev_linked _ _ _ false Hw) Ht)
    as (s' & t' & E & Hs' & Ht' & Hp & Hm & _ & _ & Hr). rewrite E. msimpl. cbn.
  exists s'. split; [done|]. split; [done|]. by exists t'.
Qed.

Lemma wake_none e msg pend_state opt s :
  wait_list e = [] -> __wake_up_event_waiter msg pend_state opt e s = Some (0, e, s).
Proof. intros El. unfold __wake_up_event_waiter. rewrite El. cbn. destruct e. cbn in El. by subst. Qed.

(** A semaphore post gives its unit to exactly one place: to the first
    waiting task, which becomes ready with the wait successful while the count
    stays, or to the count when nobody waits. *)
Theorem sem_post_correct e s :
  sys_wf s -> ev_type e = OS_EVENT_TYPE_SEM -> 0 <= ev_cnt e < INT_MAX ->
  (wait_list e = [] -> sem_post e s = Some (0, set_cnt (ev_cnt e + 1) e, s))
  /\ (forall tid l t, wait_list e = tid :: l -> waiting_here s tid t ->
        exists r s', sem_post e s = Some (r, set_wait_list l e, s') /\ handed tid TASK_STATE_PEND_OK 0 s').
Proof.
  intros Hs Hty Hc. unfold sem_post, sem_post_opt. split.
  - intros El. rewrite wake_none by done. msimpl. cbn. by rewrite (proj2 (Z.ltb_lt _ _)) by lia.
  - intros tid l t El Hw.
    destruct (wake_first e tid l t 0 TASK_STATE_PEND_OK s Hs El Hw) as (s' & E & H); [by rewrite Hty|].
    unfold OS_EVENT_OPT_NONE. rewrite E. msimpl. eexists _, s'. split; [done|done].
Qed.

(** A post that wakes a waiting task reports [-EOVERFLOW] although it
    succeeded. *)
Theorem sem_post_reports_overflow e s tid l t :
  sys_wf s -> ev_type e = OS_EVENT_TYPE_SEM -> wait_list e = tid :: l -> waiting_here s tid t ->
  exists s', sem_post e s = Some (- EOVERFLOW, set_wait_list l e, s') /\ handed tid TASK_STATE_PEND_OK 0 s'.
Proof.
  intros Hs Hty El Hw. unfold sem_post, sem_post_opt, OS_EVENT_OPT_NONE.
  destruct (wake_first e tid l t 0 TASK_STATE_PEND_OK s Hs El Hw) as (s' & E & H); [by rewrite Hty|].
  rewrite E. msimpl. cbn. by exists s'.
Qed.

(** A mutex is given to one task: [mutex_accept] takes it only when it is
    available and records the caller, after which it is refused to every task. *)
Theorem mutex_accept_exclusive e s s2 tid :
  current s = Some tid -> 0 <= tid < OS_MUTEX_AVAILABLE -> current s2 <> None ->
  (ev_cnt e = OS_MUTEX_AVAILABLE ->
     exists e', mutex_accept e s = Some (0, e') /\ ev_owner e' = tid
       /\ wait_list e' = wait_list e /\ mutex_accept e' s2 = Some (- EBUSY, e'))
  /\ (ev_cnt e <> OS_MUTEX_AVAILABLE -> mutex_accept e s = Some (- EBUSY, e)).
Proof.
  intros Hc Ht Hc2. unfold mutex_accept. rewrite Hc. msimpl. destruct (current s2) as [tid2|]; [|done]. msimpl. split.
  - intros ->. rewrite Z.eqb_refl. eexists. split; [done|]. cbn. split; [done|]. split; [done|].
    by rewrite (proj2 (Z.eqb_neq _ _)) by lia.
  - intros Hn. by rewrite (proj2 (Z.eqb_neq _ _) Hn).
Qed.

(** [mutex_post] does not release the mutex: after the post by its owner,
    with nobody waiting, the mutex still belongs to the poster and is refused
    to every task. *)
Theorem mutex_post_keeps_mutex e s s2 tid :
  current s = Some tid -> 0 <= tid < OS_MUTEX_AVAILABLE -> current s2 <> None ->
  ev_owner e = tid -> wait_list e = [] ->
  exists e', mutex_post e s = Some (0, e', s) /\ ev_owner e' = tid /\ mutex_accept e' s2 = Some (- EBUSY, e').
Proof.
  intros Hc Ht Hc2 Ho El. unfold mutex_post. rewrite Hc. msimpl. rewrite Ho, Z.eqb_refl. msimpl.
  rewrite wake_none by done. msimpl. eexists. split; [done|]. cbn. split; [done|].
  unfold mutex_accept. destruct (current s2); [|done]. msimpl. cbn. by rewrite (proj2 (Z.eqb_neq _ _)) by lia.
Qed.

(** A message posted to an empty mailbox is the next one received; a full
    mailbox refuses a message and keeps the old one; a waiting task gets the
    message directly. *)
Theorem mbox_post_correct e s m timeout :
  sys_wf s -> ev_type e = OS_EVENT_TYPE_MBOX -> m <> 0 ->
  (wait_list e = [] -> ev_data e = 0 ->
     exists e', mbox_post m e s = Some (0, e', s) /\ mbox_pend timeout e' s = Some (Some m, e, s))
  /\ (wait_list e = [] -> ev_data e <> 0 -> mbox_post m e s = Some (- ENOSPC, e, s))
  /\ (forall tid l t, wait_list e = tid :: l -> waiting_here s tid t ->
        exists s', mbox_post m e s = Some (1, set_wait_list l e, s') /\ handed tid TASK_STATE_PEND_OK m s').
Proof.
  intros Hs Hty Hm. unfold mbox_post, __mbox_post_opt. rewrite (proj2 (Z.eqb_neq _ _) Hm). split; [|split].
  - intros El Hd. rewrite wake_none by done. msimpl. cbn [Z.eqb]. rewrite Hd. cbn. eexists. split; [done|].
    unfold mbox_pend; cbn. rewrite (proj2 (Z.eqb_neq _ _) Hm). cbn. destruct e; cbn in *. by subst.
  - intros El Hd. rewrite wake_none by done. msimpl. cbn. by rewrite (proj2 (Z.eqb_neq _ _) Hd).
  - intros tid l t El Hw. unfold OS_EVENT_OPT_NONE.
    destruct (wake_first e tid l t m TASK_STATE_PEND_OK s Hs El Hw) as (s' & E & H); [by rewrite Hty|].
    rewrite E. msimpl. cbn. by exists s'.
Qed.

(** [mobox_post_abort] posts the message NULL, which is refused before any
    waiting task is looked at: it never aborts a wait. *)
Theorem mbox_post_abort_refused e s : mobox_post_abort e s = Some (- EINVAL, e, s).
Proof. done. Qed.

(** A message posted to a queue goes to the first waiting task and leaves
    the queue alone, or is appended; a full queue refuses it. *)
Theorem queue_post_correct e q s m :
  sys_wf s -> ev_type e = OS_EVENT_TYPE_QUEUE -> queue_wf q ->
  (wait_list e = [] -> q_cnt q < q_size q ->
     exists q', queue_post m e q s = Some (0, e, q', s) /\ queue_wf q' /\ contents q' = contents q ++ [m])
  /\ (wait_list e = [] -> q_cnt q = q_size q -> queue_post m e q s = Some (- ENOSPC, e, q, s))
  /\ (forall tid l t, wait_list e = tid :: l -> waiting_here s tid t ->
        exists s', queue_post m e q s = Some (0, set_wait_list l e, q, s') /\ handed tid TASK_STATE_PEND_OK m s').
Proof.
  intros Hs Hty Hq. unfold queue_post, __queue_post. split; [|split].
  - intros El Hc. rewrite wake_none by done. msimpl. cbn. rewrite (proj2 (Z.leb_gt _ _)) by lia.
    destruct (queue_push_spec q m Hq Hc) as (q' & -> & W & _ & C). msimpl. by exists q'.
  - intros El Hc. rewrite wake_none by done. msimpl. cbn. by rewrite (proj2 (Z.leb_le _ _)) by lia.
  - intros tid l t El Hw.
    destruct (wake_first e tid l t m TASK_STATE_PEND_OK s Hs El Hw) as (s' & E & H); [by rewrite Hty|].
    rewrite E. msimpl. cbn. by exists s'.
Qed.

(** ** Event flags *)

(** What a waiter of each type asks of the group's flags. *)
Definition flag_cond (wait_type flags gflags : Z) : Prop :=
  if wait_type =? FLAG_WAIT_SET_ALL then forall i, 0 <= i < 32 -> Z.testbit flags i = true -> Z.testbit gflags i = true
  else if wait_type =? FLAG_WAIT_SET_ANY then exists i, 0 <= i < 32 /\ Z.testbit flags i = true /\ Z.testbit gflags i = true
  else if wait_type =? FLAG_WAIT_CLR_ALL then forall i, 0 <= i < 32 -> Z.testbit flags i = true -> Z.testbit gflags i = false
  else exists i, 0 <= i < 32 /\ Z.testbit flags i = true /\ Z.testbit gflags i = false.

Lemma testbit_high32 z i : 0 <= z < 2 ^ 32 -> 32 <= i -> Z.testbit z i = false.
Proof. intros Hz Hi. destruct (decide (z = 0)) as [->|]; [apply Z.bits_0|].
  apply Z.bits_above_log2; [lia|]. assert (Z.log2 z < 32); [apply Z.log2_lt_pow2; lia|lia]. Qed.

Lemma testbit_not32 z i : 0 <= i < 32 -> Z.testbit (not32 z) i = negb (Z.testbit z i).
Proof.
  intros Hi. unfold not32. rewrite Z.ldiff_spec. change (2 ^ 32 - 1) with (Z.ones 32).
  by rewrite Z.ones_spec_low by lia.
Qed.

(** A mask of 32 bits is zero when no bit of it is set, and equal to its meet
    with [a] when all its bits are set in [a]. *)
Lemma land_nonzero a f : 0 <= f < 2 ^ 32 ->
  Z.land a f <> 0 <-> exists i, 0 <= i < 32 /\ Z.testbit f i = true /\ Z.testbit a i = true.
Proof.
  intros Hf. split.
  - intros Hn. assert (0 <= Z.land a f) as Hp by (apply Z.land_nonneg; lia).
    pose proof (Z.bit_log2 (Z.land a f) ltac:(lia)) as Hb. set (i := Z.log2 (Z.land a f)) in *.
    rewrite Z.land_spec, andb_true_iff in Hb. destruct Hb as [Ha Hb]. exists i. split; [|done].
    split; [apply Z.log2_nonneg|]. destruct (Z.lt_ge_cases i 32); [done|]. by rewrite testbit_high32 in Hb by lia.
  - intros (i & Hi & H1 & H2) H0. assert (Z.testbit (Z.land a f) i = true) as Hb by (by rewrite Z.land_spec, H1, H2).
    by rewrite H0, Z.bits_0 in Hb.
Qed.

Lemma land_full a f : 0 <= f < 2 ^ 32 ->
  Z.land a f = f <-> forall i, 0 <= i < 32 -> Z.testbit f i = true -> Z.testbit a i = true.
Proof.
  intros Hf. split.
  - intros E i _ Hb. rewrite <- E, Z.land_spec in Hb. by apply andb_true_iff in Hb as [? _].
  - intros H. apply Z.bits_inj'. intros i Hi. rewrite Z.land_spec. destruct (decide (i < 32)).
    + destruct (Z.testbit f i) eqn:E; [rewrite (H i) by (done || lia); done|apply andb_false_r].
    + rewrite (testbit_high32 f) by lia. apply andb_false_r.
Qed.

(** Taking the bits [rdy] away from the group, or adding them to it, flips the
    bits that were ready. *)
Lemma testbit_consume_set g f i : 0 <= i < 32 ->
  Z.testbit (Z.land g (not32 (Z.land g f))) i = if Z.testbit (Z.land g f) i then negb (Z.testbit g i) else Z.testbit g i.
Proof. intros Hi. rewrite !Z.land_spec, testbit_not32, Z.land_spec by done. by destruct (Z.testbit g i), (Z.testbit f i). Qed.

Lemma testbit_consume_clr g f i : 0 <= i < 32 ->
  Z.testbit (Z.lor g (Z.land (not32 g) f)) i
  = if Z.testbit (Z.land (not32 g) f) i then negb (Z.testbit g i) else Z.testbit g i.
Proof. intros Hi. rewrite Z.lor_spec, !Z.land_spec, testbit_not32 by done. by destruct (Z.testbit g i), (Z.testbit f i). Qed.

Lemma land_full_clr g f : 0 <= f < 2 ^ 32 ->
  Z.land (not32 g) f = f <-> forall i, 0 <= i < 32 -> Z.testbit f i = true -> Z.testbit g i = false.
Proof.
  intros Hf. rewrite land_full by done. split; intros H i Hi Hb; specialize (H i Hi Hb); revert H;
    rewrite testbit_not32 by done; destruct (Z.testbit g i); done.
Qed.

Lemma land_nonzero_clr g f : 0 <= f < 2 ^ 32 ->
  Z.land (not32 g) f <> 0 <-> exists i, 0 <= i < 32 /\ Z.testbit f i = true /\ Z.testbit g i = false.
Proof.
  intros Hf. rewrite land_nonzero by done. split; intros (i & Hi & Hb & H); exists i; (split; [done|]); split; try done; revert H;
    rewrite testbit_not32 by done; destruct (Z.testbit g i); done.
Qed.

(** What a check of the flags returns and leaves behind. *)
Definition flag_result (cond : Prop) (flags : Z) (consume : bool) (g : flag_grp) (r : Z * flag_grp) : Prop :=
  (r.1 <> 0 <-> cond) /\ Z.land r.1 flags = r.1 /\ g_wait_list r.2 = g_wait_list g
  /\ forall i, 0 <= i < 32 -> Z.testbit (g_flags r.2) i
       = if consume && Z.testbit r.1 i then negb (Z.testbit (g_flags g) i) else Z.testbit (g_flags g) i.

Lemma flag_result_none cond flags consume g : ~ cond -> flag_result cond flags consume g (0, g).
Proof. intros H. split_and!; try done. intros i _. cbn [fst snd]. by rewrite Z.bits_0, andb_false_r. Qed.

Lemma land_idem_r a f : Z.land (Z.land a f) f = Z.land a f.
Proof. by rewrite <- Z.land_assoc, Z.land_diag. Qed.

Lemma flag_wait_set_all_spec flags c g : 0 < flags < 2 ^ 32 ->
  flag_result (flag_cond FLAG_WAIT_SET_ALL flags (g_flags g)) flags c g (flag_wait_set_all flags c g).
Proof.
  intros Hf. unfold flag_wait_set_all. destruct (Z.eqb_spec (Z.land (g_flags g) flags) flags) as [E|E].
  - split; [|split; [|split]]; cbn [fst snd].
    + split; [intros _|intros _; rewrite E; lia]. exact (proj1 (land_full (g_flags g) flags ltac:(lia)) E).
    + apply land_idem_r.
    + by destruct c.
    + intros i Hi. destruct c; [|done]. cbn [g_flags set_g_flags andb]. by apply testbit_consume_set.
  - apply flag_result_none. intros H. apply E. exact (proj2 (land_full (g_flags g) flags ltac:(lia)) H).
Qed.

Lemma flag_wait_clr_all_spec flags c g : 0 < flags < 2 ^ 32 ->
  flag_result (flag_cond FLAG_WAIT_CLR_ALL flags (g_flags g)) flags c g (flag_wait_clr_all flags c g).
Proof.
  intros Hf. unfold flag_wait_clr_all. destruct (Z.eqb_spec (Z.land (not32 (g_flags g)) flags) flags) as [E|E].
  - split; [|split; [|split]]; cbn [fst snd].
    + split; [intros _|intros _; rewrite E; lia]. exact (proj1 (land_full_clr (g_flags g) flags ltac:(lia)) E).
    + apply land_idem_r.
    + by destruct c.
    + intros i Hi. destruct c; [|done]. cbn [g_flags set_g_flags andb]. by apply testbit_consume_clr.
  - apply flag_result_none. intros H. apply E. exact (proj2 (land_full_clr (g_flags g) flags ltac:(lia)) H).
Qed.

Lemma flag_wait_any_spec flags c g : 0 < flags < 2 ^ 32 ->
  flag_result (flag_cond FLAG_WAIT_SET_ANY flags (g_flags g)) flags c g (flag_wait_set_any flags c g)
  /\ flag_result (flag_cond FLAG_WAIT_CLR_ANY flags (g_flags g)) flags c g (flag_wait_clr_any flags c g).
Proof.
  intros Hf. unfold flag_wait_set_any, flag_wait_clr_any. split.
  - split; [|split; [|split]]; cbn [fst snd].
    + exact (land_nonzero (g_flags g) flags ltac:(lia)).
    + apply land_idem_r.
    + by destruct (_ && c).
    + intros i Hi. destruct (Z.eqb_spec (Z.land (g_flags g) flags) 0) as [E|E]; cbn [negb andb].
      * by rewrite E, Z.bits_0, andb_false_r.
      * destruct c; [|done]. cbn [g_flags set_g_flags andb]. by apply testbit_consume_set.
  - split; [|split; [|split]]; cbn [fst snd].
    + exact (land_nonzero_clr (g_flags g) flags ltac:(lia)).
    + apply land_idem_r.
    + by destruct (_ && c).
    + intros i Hi. destruct (Z.eqb_spec (Z.land (not32 (g_flags g)) flags) 0) as [E|E]; cbn [negb andb].
      * by rewrite E, Z.bits_0, andb_false_r.
      * destruct c; [|done]. cbn [g_flags set_g_flags andb]. by apply testbit_consume_clr.
Qed.

(** [flag_accept] succeeds exactly when the group satisfies the wait (all or
    any of the requested flags set, or cleared), returns a subset of the
    requested flags, and with FLAG_CONSUME flips exactly the flags it returned. *)
Theorem flag_accept_correct wait_type flags consume g :
  0 <= wait_type <= 3 -> 0 < flags < 2 ^ 32 ->
  flag_result (flag_cond wait_type flags (g_flags g)) flags consume g
    (flag_accept flags (if consume then Z.lor wait_type FLAG_CONSUME else wait_type) g).
Proof.
  intros Ht Hf. pose proof (flag_wait_any_spec flags consume g Hf) as [Hs Hc].
  pose proof (flag_wait_set_all_spec flags consume g Hf). pose proof (flag_wait_clr_all_spec flags consume g Hf).
  assert (wait_type = 0 \/ wait_type = 1 \/ wait_type = 2 \/ wait_type = 3) as [-> | [-> | [-> | ->]]] by lia;
    by destruct consume.
Qed.

(** [flag_post] looks at no waiter behind one that waits for any flag to be
    cleared: it returns 0 there, whatever the rest of the list is. *)
Theorem flag_post_stops_at_clr_any n l1 l2 gflags s :
  n_wait_type n = FLAG_WAIT_CLR_ANY ->
  flag_post_loop gflags (n :: l1) s = flag_post_loop gflags (n :: l2) s.
Proof. intros H. cbn [flag_post_loop]. by rewrite H. Qed.

(** [flag_post] never takes a node off the wait list: the node of a task
    that was made ready, on that task's stack, stays linked. *)
Theorem flag_post_keeps_nodes flags opt g s r g' s' :
  flag_post flags opt g s = Some (r, g', s') -> g_wait_list g' = g_wait_list g.
Proof.
  unfold flag_post. destruct (FLAG_SET <? opt); [by intros [= _ <- _]|].
  destruct (flag_post_loop _ _ s) as [[v s1]|]; [|done]. msimpl. intros [= _ <- _]. by destruct (opt =? FLAG_CLR), (opt =? FLAG_SET).
Qed.

(** ** The theorems at concrete states: task 5 waits, task 7 runs *)
Definition demo_event (type : Z) (l : list Z) : event := mk_event type 0 0 0 l.

Lemma demo_waiting : waiting_here demo_sys 5 (demo_task 5 TASK_STATE_WAIT_EVENT (-1) false).
Proof. split; [reflexivity|]. cbn. split_and!; try done; lia. Qed.

Lemma queue_refines_deque_witness :
  exists q', queue_push 9 (mk_queue [3; 0; 1; 2] 1 2 4 3) = Some q' /\ contents q' = [1; 2; 3; 9].
Proof.
  destruct (queue_refines_deque (mk_queue [3; 0; 1; 2] 1 2 4 3) 9) as [H _].
  - unfold queue_wf; cbn. split_and!; first [lia|reflexivity].
  - destruct H as [(q' & E & _ & C) _]; [cbn; lia|]. exists q'. exact (conj E C).
Defined.

Lemma sem_post_correct_witness :
  exists r e' s', sem_post (demo_event OS_EVENT_TYPE_SEM [5]) demo_sys = Some (r, e', s')
    /\ handed 5 TASK_STATE_PEND_OK 0 s'.
Proof.
  destruct (sem_post_correct (demo_event OS_EVENT_TYPE_SEM [5]) demo_sys) as [_ H];
    [exact demo_sys_wf|reflexivity|cbn; unfold INT_MAX; lia|].
  destruct (H 5 [] _ eq_refl demo_waiting) as (r & s' & E & Hh). exists r, (demo_event OS_EVENT_TYPE_SEM []), s'. exact (conj E Hh).
Defined.

Lemma mutex_accept_exclusive_witness :
  exists e', mutex_accept (set_cnt OS_MUTEX_AVAILABLE (demo_event OS_EVENT_TYPE_MUTEX [])) demo_sys = Some (0, e')
    /\ mutex_accept e' demo_sys = Some (- EBUSY, e').
Proof.
  destruct (mutex_accept_exclusive (set_cnt OS_MUTEX_AVAILABLE (demo_event OS_EVENT_TYPE_MUTEX [])) demo_sys demo_sys 7)
    as [H _]; [reflexivity|unfold OS_MUTEX_AVAILABLE; lia|discriminate|].
  destruct (H eq_refl) as (e' & E & _ & _ & E2). exists e'. exact (conj E E2).
Defined.

Lemma mbox_post_correct_witness :
  exists e' s', mbox_post 0x1000 (demo_event OS_EVENT_TYPE_MBOX [5]) demo_sys = Some (1, e', s')
    /\ handed 5 TASK_STATE_PEND_OK 0x1000 s'.
Proof.
  destruct (mbox_post_correct (demo_event OS_EVENT_TYPE_MBOX [5]) demo_sys 0x1000 0) as [_ [_ H]];
    [exact demo_sys_wf|reflexivity|lia|].
  destruct (H 5 [] _ eq_refl demo_waiting) as (s' & E & Hh). exists (demo_event OS_EVENT_TYPE_MBOX []), s'. exact (conj E Hh).
Defined.

Lemma queue_post_correct_witness :
  exists q', queue_post 9 (demo_event OS_EVENT_TYPE_QUEUE []) (mk_queue [3; 0; 1; 2] 1 2 4 3) demo_sys
    = Some (0, demo_event OS_EVENT_TYPE_QUEUE [], q', demo_sys) /\ contents q' = [1; 2; 3; 9].
Proof.
  destruct (queue_post_correct (demo_event OS_EVENT_TYPE_QUEUE []) (mk_queue [3; 0; 1; 2] 1 2 4 3) demo_sys 9) as [H _];
    [exact demo_sys_wf|reflexivity|unfold queue_wf; cbn; split_and!; first [lia|reflexivity]|].
  destruct (H eq_refl) as (q' & E & _ & C); [cbn; lia|]. exists q'. exact (conj E C).
Defined.

Lemma flag_accept_correct_witness :
  flag_accept 6 (Z.lor FLAG_WAIT_SET_ANY FLAG_CONSUME) (mk_grp 5 []) = (4, mk_grp 1 [])
  /\ flag_result (flag_cond FLAG_WAIT_SET_ANY 6 5) 6 true (mk_grp 5 []) (4, mk_grp 1 []).
Proof.
  split; [reflexivity|]. exact (flag_accept_correct FLAG_WAIT_SET_ANY 6 true (mk_grp 5 []) ltac:(unfold FLAG_WAIT_SET_ANY; lia) ltac:(lia)).
Defined.
