(* ===== verification/Virq.v ===== *)
(** * Virtual interrupts of a VM (virt/virq.c, include/virt/virq.h)

    A VM has descriptors for its shared interrupts (SPI) and each vcpu has
    descriptors for its own ones (SGI and PPI), a bitmap of the pending virqs and
    one of those that are delivered.  A pointer to a descriptor is a [dref]; the
    calls into the interrupt core (core/irq.c) and of [kick_vcpu] are recorded in
    order in [calls].  The VM's interrupt lock is held where the code takes it. *)
From S2P Require Import Prelude Bitops Bitmap.

Definition VIRQ_STATE_INACTIVE : Z := 0x0.
Definition VIRQ_STATE_PENDING : Z := 0x1.
Definition VIRQ_STATE_ACTIVE : Z := 0x2.
Definition VIRQ_INVALID_ID : Z := 0xff.
Definition VIRQ_ACTION_REMOVE : Z := 0x0.
Definition VIRQ_ACTION_CLEAR : Z := 0x2.
Definition VIRQ_AFFINITY_VM_ANY : Z := 0xff.
Definition VIRQ_AFFINITY_VCPU_ANY : Z := 0xff.
Definition VM_SGI_VIRQ_NR : Z := 16.
Definition VM_PPI_VIRQ_NR : Z := 16.
Definition VM_LOCAL_VIRQ_NR : Z := VM_SGI_VIRQ_NR + VM_PPI_VIRQ_NR.
Definition HVM_SPI_VIRQ_NR : Z := 384.
Definition GVM_SPI_VIRQ_NR : Z := 64.
Definition VIRQ_SPI_OFFSET (virq : Z) : Z := virq - VM_LOCAL_VIRQ_NR.
Definition VIRQ_SPI_NR (count : Z) : Z := if VM_LOCAL_VIRQ_NR <? count then VIRQ_SPI_OFFSET count else 0.
Definition VM_VIRQ_NR (nr : Z) : Z := nr + VM_LOCAL_VIRQ_NR.
Definition MAX_HVM_VIRQ : Z := HVM_SPI_VIRQ_NR + VM_LOCAL_VIRQ_NR.
Definition MAX_GVM_VIRQ : Z := GVM_SPI_VIRQ_NR + VM_LOCAL_VIRQ_NR.
Definition VIRQS_REQUESTED_BIT : Z := 6.
Definition VIRQS_NEED_EXPORT : Z := Z.shiftl 1 0.
Definition VIRQS_ENABLED : Z := Z.shiftl 1 1.
Definition VIRQS_HW : Z := Z.shiftl 1 3.
Definition VIRQS_CAN_WAKEUP : Z := Z.shiftl 1 4.
Definition VIRQS_REQUESTED : Z := Z.shiftl 1 VIRQS_REQUESTED_BIT.
Definition VIRQS_FIQ : Z := Z.shiftl 1 7.
Definition VM_STATE_OFFLINE : Z := 0.
Definition VM_STATE_ONLINE : Z := 2.
Definition VM_STATE_SUSPEND : Z := 3.
Definition VCPU_KICK_REASON_HIRQ : Z := 0x1.
Definition VCPU_KICK_REASON_VIRQ : Z := 0x2.
Definition IRQ_FLAGS_EDGE_RISING : Z := 0x1.
Definition IRQ_FLAGS_LEVEL_HIGH : Z := 0x4.
Definition BAD_IRQ : Z := 1023.

(** The calls out of this component. *)
Inductive call :=
| irq_mask (hno : Z)
| irq_unmask (hno : Z)
| irq_set_type (hno type : Z)
| irq_set_affinity (hno cpu : Z)
| request_irq (hno : Z)
| kick_vcpu (vcpu_id reason : Z).

Record virq_desc := mk_desc {
  d_flags : Z;
  d_vno : Z;
  d_hno : Z;
  d_id : Z;
  d_state : Z;
  d_pr : Z;
  d_src : Z;
  d_type : Z;
  d_vcpu_id : Z;
  d_vmid : Z;
}.

Definition set_d_flags (v : Z) (d : virq_desc) : virq_desc := mk_desc v (d_vno d) (d_hno d) (d_id d) (d_state d) (d_pr d) (d_src d) (d_type d) (d_vcpu_id d) (d_vmid d).
Definition set_d_vno (v : Z) (d : virq_desc) : virq_desc := mk_desc (d_flags d) v (d_hno d) (d_id d) (d_state d) (d_pr d) (d_src d) (d_type d) (d_vcpu_id d) (d_vmid d).
Definition set_d_hno (v : Z) (d : virq_desc) : virq_desc := mk_desc (d_flags d) (d_vno d) v (d_id d) (d_state d) (d_pr d) (d_src d) (d_type d) (d_vcpu_id d) (d_vmid d).
Definition set_d_id (v : Z) (d : virq_desc) : virq_desc := mk_desc (d_flags d) (d_vno d) (d_hno d) v (d_state d) (d_pr d) (d_src d) (d_type d) (d_vcpu_id d) (d_vmid d).
Definition set_d_state (v : Z) (d : virq_desc) : virq_desc := mk_desc (d_flags d) (d_vno d) (d_hno d) (d_id d) v (d_pr d) (d_src d) (d_type d) (d_vcpu_id d) (d_vmid d).
Definition set_d_pr (v : Z) (d : virq_desc) : virq_desc := mk_desc (d_flags d) (d_vno d) (d_hno d) (d_id d) (d_state d) v (d_src d) (d_type d) (d_vcpu_id d) (d_vmid d).
Definition set_d_src (v : Z) (d : virq_desc) : virq_desc := mk_desc (d_flags d) (d_vno d) (d_hno d) (d_id d) (d_state d) (d_pr d) v (d_type d) (d_vcpu_id d) (d_vmid d).
Definition set_d_type (v : Z) (d : virq_desc) : virq_desc := mk_desc (d_flags d) (d_vno d) (d_hno d) (d_id d) (d_state d) (d_pr d) (d_src d) v (d_vcpu_id d) (d_vmid d).
Definition set_d_vcpu_id (v : Z) (d : virq_desc) : virq_desc := mk_desc (d_flags d) (d_vno d) (d_hno d) (d_id d) (d_state d) (d_pr d) (d_src d) (d_type d) v (d_vmid d).
Definition set_d_vmid (v : Z) (d : virq_desc) : virq_desc := mk_desc (d_flags d) (d_vno d) (d_hno d) (d_id d) (d_state d) (d_pr d) (d_src d) (d_type d) (d_vcpu_id d) v.

Record virq_struct := mk_vs {
  nr_lrs : Z;
  last_fail_virq : Z;
  pending_virq : Z;
  active_virq : Z;
  local_desc : list virq_desc;
  pending_bitmap : list Z;
  active_bitmap : list Z;
  lrs_bitmap : list Z;
}.

Definition set_nr_lrs (v : Z) (vs : virq_struct) : virq_struct := mk_vs v (last_fail_virq vs) (pending_virq vs) (active_virq vs) (local_desc vs) (pending_bitmap vs) (active_bitmap vs) (lrs_bitmap vs).
Definition set_last_fail_virq (v : Z) (vs : virq_struct) : virq_struct := mk_vs (nr_lrs vs) v (pending_virq vs) (active_virq vs) (local_desc vs) (pending_bitmap vs) (active_bitmap vs) (lrs_bitmap vs).
Definition set_pending_virq (v : Z) (vs : virq_struct) : virq_struct := mk_vs (nr_lrs vs) (last_fail_virq vs) v (active_virq vs) (local_desc vs) (pending_bitmap vs) (active_bitmap vs) (lrs_bitmap vs).
Definition set_active_virq (v : Z) (vs : virq_struct) : virq_struct := mk_vs (nr_lrs vs) (last_fail_virq vs) (pending_virq vs) v (local_desc vs) (pending_bitmap vs) (active_bitmap vs) (lrs_bitmap vs).
Definition set_local_desc (v : list virq_desc) (vs : virq_struct) : virq_struct := mk_vs (nr_lrs vs) (last_fail_virq vs) (pending_virq vs) (active_virq vs) v (pending_bitmap vs) (active_bitmap vs) (lrs_bitmap vs).
Definition set_pending_bitmap (v : list Z) (vs : virq_struct) : virq_struct := mk_vs (nr_lrs vs) (last_fail_virq vs) (pending_virq vs) (active_virq vs) (local_desc vs) v (active_bitmap vs) (lrs_bitmap vs).
Definition set_active_bitmap (v : list Z) (vs : virq_struct) : virq_struct := mk_vs (nr_lrs vs) (last_fail_virq vs) (pending_virq vs) (active_virq vs) (local_desc vs) (pending_bitmap vs) v (lrs_bitmap vs).
Definition set_lrs_bitmap (v : list Z) (vs : virq_struct) : virq_struct := mk_vs (nr_lrs vs) (last_fail_virq vs) (pending_virq vs) (active_virq vs) (local_desc vs) (pending_bitmap vs) (active_bitmap vs) v.

Record vcpu := mk_vcpu {
  vcpu_id : Z;
  vcpu_affinity : Z;
  vcpu_vs : virq_struct;
}.

Definition set_vcpu_vs (v : virq_struct) (c : vcpu) : vcpu := mk_vcpu (vcpu_id c) (vcpu_affinity c) v.

Record vm := mk_vm {
  vmid : Z;
  vm_host : bool;
  vm_state : Z;
  vcpus : list vcpu;
  vspi_nr : Z;
  vspi_desc : list virq_desc;
  vspi_map : list Z;
  calls : list call;
}.

Definition set_vcpus (v : list vcpu) (m : vm) : vm := mk_vm (vmid m) (vm_host m) (vm_state m) v (vspi_nr m) (vspi_desc m) (vspi_map m) (calls m).
Definition set_vspi_nr (v : Z) (m : vm) : vm := mk_vm (vmid m) (vm_host m) (vm_state m) (vcpus m) v (vspi_desc m) (vspi_map m) (calls m).
Definition set_vspi_desc (v : list virq_desc) (m : vm) : vm := mk_vm (vmid m) (vm_host m) (vm_state m) (vcpus m) (vspi_nr m) v (vspi_map m) (calls m).
Definition set_vspi_map (v : list Z) (m : vm) : vm := mk_vm (vmid m) (vm_host m) (vm_state m) (vcpus m) (vspi_nr m) (vspi_desc m) v (calls m).
Definition set_calls (v : list call) (m : vm) : vm := mk_vm (vmid m) (vm_host m) (vm_state m) (vcpus m) (vspi_nr m) (vspi_desc m) (vspi_map m) v.


Definition vm_irq_count (m : vm) : Z := vspi_nr m + VM_LOCAL_VIRQ_NR.
Definition vcpu_nr (m : vm) : Z := Z.of_nat (length (vcpus m)).
Definition emit (c : call) (m : vm) : vm := set_calls (calls m ++ [c]) m.

(** ** Flags of a descriptor; the [int32_t] is kept as its bit pattern. *)
Definition has (f : Z) (d : virq_desc) : bool := negb (Z.land (d_flags d) f =? 0).
Definition virq_set_enable (d : virq_desc) : virq_desc := set_d_flags (Z.lor (d_flags d) VIRQS_ENABLED) d.
Definition virq_clear_enable (d : virq_desc) : virq_desc := set_d_flags (Z.ldiff (d_flags d) VIRQS_ENABLED) d.
Definition virq_set_hw (d : virq_desc) : virq_desc := set_d_flags (Z.lor (d_flags d) VIRQS_HW) d.
Definition virq_clear_hw (d : virq_desc) : virq_desc := set_d_flags (Z.ldiff (d_flags d) VIRQS_HW) d.
Definition __virq_set_fiq (d : virq_desc) : virq_desc := set_d_flags (Z.lor (d_flags d) VIRQS_FIQ) d.
Definition virq_is_enabled : virq_desc -> bool := has VIRQS_ENABLED.
Definition virq_can_wakeup : virq_desc -> bool := has VIRQS_CAN_WAKEUP.
Definition virq_is_hw : virq_desc -> bool := has VIRQS_HW.
Definition virq_is_requested : virq_desc -> bool := has VIRQS_REQUESTED.

(** ** Pointers to descriptors *)
Inductive dref := Local (v : nat) (i : Z) | Spi (i : Z).

Definition get_vcpu (v : nat) (m : vm) : option vcpu := vcpus m !! v.
Definition upd_vs (v : nat) (f : virq_struct -> virq_struct) (m : vm) : option vm :=
  c ← get_vcpu v m; Some (set_vcpus (<[v := set_vcpu_vs (f (vcpu_vs c)) c]> (vcpus m)) m).

Definition rd (d : dref) (m : vm) : option virq_desc :=
  match d with
  | Local v i => c ← get_vcpu v m; local_desc (vcpu_vs c) !! Z.to_nat i
  | Spi i => vspi_desc m !! Z.to_nat i
  end.

Definition wr (d : dref) (x : virq_desc) (m : vm) : option vm :=
  _ ← rd d m;
  match d with
  | Local v i => upd_vs v (fun vs => set_local_desc (<[Z.to_nat i := x]> (local_desc vs)) vs) m
  | Spi i => Some (set_vspi_desc (<[Z.to_nat i := x]> (vspi_desc m)) m)
  end.

Definition upd (d : dref) (f : virq_desc -> virq_desc) (m : vm) : option vm :=
  x ← rd d m; wr d (f x) m.

Definition get_virq_desc (m : vm) (v : nat) (virq : Z) : option dref :=
  if virq <? VM_LOCAL_VIRQ_NR then Some (Local v virq)
  else if VM_VIRQ_NR (vspi_nr m) <=? virq then None
  else Some (Spi (VIRQ_SPI_OFFSET virq)).

(** [get_vcpu_in_vm] of virt/vm.c; the pointer is the index. *)
Definition get_vcpu_in_vm (m : vm) (id : Z) : option nat :=
  if vcpu_nr m <=? id then None else Some (Z.to_nat id).

(** ** Sending *)
Definition virq_kick_vcpu (v : nat) (d : dref) (m : vm) : option vm :=
  c ← get_vcpu v m;
  desc ← rd d m;
  Some (emit (kick_vcpu (vcpu_id c) (if virq_is_hw desc then VCPU_KICK_REASON_HIRQ else VCPU_KICK_REASON_VIRQ)) m).

(** [cur] is the id of the vcpu that runs the code. *)
Definition __send_virq (cur : Z) (v : nat) (d : dref) (m : vm) : option (Z * vm) :=
  c ← get_vcpu v m;
  desc ← rd d m;
  '(was, bm) ← test_and_set_bit (d_vno desc) (pending_bitmap (vcpu_vs c));
  if (was : bool) then m ← upd_vs v (set_pending_bitmap bm) m; Some (0, m)
  else
    m ← upd_vs v (fun vs => set_pending_virq (pending_virq vs + 1) (set_pending_bitmap bm vs)) m;
    m ← (if d_vno desc <? VM_SGI_VIRQ_NR then upd d (set_d_src (u8 cur)) m else Some m);
    Some (0, m).

(** The vcpu is dereferenced before the test for NULL. *)
Definition send_virq (cur : Z) (vcpu : option nat) (d : option dref) (m : vm) : option (Z * vm) :=
  v ← vcpu;
  match d with
  | None => Some (- EINVAL, m)
  | Some d =>
      desc ← rd d m;
      if negb (vm_state m =? VM_STATE_ONLINE) && negb (vm_state m =? VM_STATE_SUSPEND) then Some (- EPERM, m)
      else if (vm_state m =? VM_STATE_SUSPEND) && negb (virq_can_wakeup desc) then Some (- EAGAIN, m)
      else
        '(ret, m) ← __send_virq cur v d m;
        if negb (ret =? 0) then Some (ret, m)
        else m ← virq_kick_vcpu v d m; Some (0, m)
  end.

(** The vcpu [run] runs on this cpu.  A descriptor that names a VM names the one
    that owns it. *)
Definition guest_irq_handler (cur : Z) (run : option nat) (d : option dref) (m : vm) : option (Z * vm) :=
  d ← d;
  desc ← rd d m;
  if negb (virq_is_hw desc) then Some (- EINVAL, m)
  else
    vcpu ← (if (d_vmid desc =? VIRQ_AFFINITY_VM_ANY) && (d_vcpu_id desc =? VIRQ_AFFINITY_VCPU_ANY) then Some run
            else _ ← assert_ (d_vmid desc =? u8 (vmid m)); Some (get_vcpu_in_vm m (d_vcpu_id desc)));
    send_virq cur vcpu (Some d) m.

Definition send_virq_to_vcpu (cur : Z) (v : nat) (virq : Z) (m : vm) : option (Z * vm) :=
  send_virq cur (Some v) (get_virq_desc m v virq) m.

Definition send_virq_to_vm (cur : Z) (virq : Z) (m : vm) : option (Z * vm) :=
  if virq <? VM_LOCAL_VIRQ_NR then Some (- EINVAL, m)
  else
    match get_virq_desc m 0 virq with
    | None => Some (- ENOENT, m)
    | Some d =>
        desc ← rd d m;
        if negb (virq_is_enabled desc) then Some (- EAGAIN, m)
        else if virq_is_hw desc then Some (- EPERM, m)
        else send_virq cur (get_vcpu_in_vm m (d_vcpu_id desc)) (Some d) m
    end.

(** [cpumask] is an array of words, over which the loop runs. *)
Definition send_vsgi (cur : Z) (sgi : Z) (cpumask : list Z) (m : vm) : option vm :=
  for_each_set_bit (fun _ => cpumask) (vcpu_nr m)
    (fun cpu m => '(_, m) ← send_virq cur (Some (Z.to_nat cpu)) (get_virq_desc m (Z.to_nat cpu) sgi) m; Some (false, m)) m.

(** ** Attributes of a virq *)
Section getters.
Context (get : virq_desc -> Z) (m : vm) (v : nat) (virq : Z).
Definition virq_get : option Z :=
  match get_virq_desc m v virq with
  | None => Some 0
  | Some d => desc ← rd d m; Some (get desc)
  end.
End getters.

Definition virq_get_type := virq_get d_type.
Definition virq_get_state := virq_get (fun d => b2z (virq_is_enabled d)).
Definition virq_get_affinity := virq_get d_vcpu_id.
Definition virq_get_pr := virq_get d_pr.
Definition virq_can_request := virq_get (fun d => b2z (negb (virq_is_requested d))).
Definition virq_need_export := virq_get (fun d => if has VIRQS_NEED_EXPORT d then 1 else b2z (negb (virq_is_requested d))).

Definition virq_set_type (v : nat) (virq value : Z) (m : vm) : option (Z * vm) :=
  match get_virq_desc m v virq with
  | None => Some (- ENOENT, m)
  | Some d =>
      desc ← rd d m;
      if negb (d_type desc =? value) then
        m ← upd d (set_d_type (u8 value)) m;
        if virq_is_hw desc then
          let value := if negb (value =? 0) then IRQ_FLAGS_EDGE_RISING else IRQ_FLAGS_LEVEL_HIGH in
          Some (0, emit (irq_set_type (d_hno desc) value) m)
        else Some (0, m)
      else Some (0, m)
  end.

Definition virq_set_priority (v : nat) (virq pr : Z) (m : vm) : option (Z * vm) :=
  match get_virq_desc m v virq with
  | None => Some (- ENOENT, m)
  | Some d => m ← upd d (set_d_pr (u8 pr)) m; Some (0, m)
  end.

Definition virq_enable (v : nat) (virq : Z) (m : vm) : option (Z * vm) :=
  match get_virq_desc m v virq with
  | None => Some (- ENOENT, m)
  | Some d =>
      m ← upd d virq_set_enable m;
      desc ← rd d m;
      Some (0, if (VM_LOCAL_VIRQ_NR <? virq) && virq_is_hw desc then emit (irq_unmask (d_hno desc)) m else m)
  end.

Definition virq_set_fiq (v : nat) (virq : Z) (m : vm) : option (Z * vm) :=
  match get_virq_desc m v virq with
  | None => Some (- ENOENT, m)
  | Some d => m ← upd d __virq_set_fiq m; Some (0, m)
  end.

Definition virq_disable (v : nat) (virq : Z) (m : vm) : option (Z * vm) :=
  match get_virq_desc m v virq with
  | None => Some (- ENOENT, m)
  | Some d =>
      m ← upd d virq_clear_enable m;
      desc ← rd d m;
      Some (0, if (VM_LOCAL_VIRQ_NR <? virq) || virq_is_hw desc then emit (irq_mask (d_hno desc)) m else m)
  end.

(** ** The interrupts of a vcpu *)
Definition pending_of (v : nat) (m : vm) : list Z :=
  match get_vcpu v m with Some c => pending_bitmap (vcpu_vs c) | None => [] end.
Definition active_of (v : nat) (m : vm) : list Z :=
  match get_vcpu v m with Some c => active_bitmap (vcpu_vs c) | None => [] end.

(** The body of the loop of [get_pending_virq]: [return bit] ends the loop. *)
Definition take_pending (v : nat) (bit : Z) (s : vm * Z) : option (bool * (vm * Z)) :=
  let m := s.1 in
  act ← test_bit bit (active_of v m);
  if (act : bool) then Some (false, s)
  else
    d ← get_virq_desc m v bit;
    m ← upd d (set_d_state VIRQ_STATE_ACTIVE) m;
    pend ← clear_bit bit (pending_of v m);
    acts ← set_bit bit (active_of v m);
    m ← upd_vs v (fun vs => set_active_virq (u32 (active_virq vs + 1)) (set_active_bitmap acts
                           (set_pending_bitmap pend (set_pending_virq (pending_virq vs - 1) vs)))) m;
    Some (true, (m, bit)).

Definition get_pending_virq (v : nat) (m : vm) : option (Z * vm) :=
  '(m, r) ← for_each_set_bit (fun s => pending_of v s.1) (vm_irq_count m) (take_pending v) (m, BAD_IRQ);
  Some (r, m).

Definition vcpu_has_irq (v : nat) (m : vm) : option bool :=
  pend ← find_first_bit (pending_of v m) (vm_irq_count m);
  active ← find_first_bit (active_of v m) (vm_irq_count m);
  Some ((pend <? vm_irq_count m) || (active <? vm_irq_count m)).

(** ** Set up of a vcpu *)
Definition zero_desc : virq_desc := mk_desc 0 0 0 0 0 0 0 0 0 0.

(** One round of the loop of [vcpu_virq_struct_init], after the [memset]. *)
Definition init_local (i : Z) (d : virq_desc) : virq_desc :=
  let d := virq_set_enable (virq_clear_hw d) in
  set_d_state VIRQ_STATE_INACTIVE (set_d_id VIRQ_INVALID_ID (set_d_hno 0 (set_d_vno i
    (set_d_vmid VIRQ_AFFINITY_VM_ANY (set_d_vcpu_id VIRQ_AFFINITY_VCPU_ANY d))))).

Definition vcpu_virq_struct_init (v : nat) (m : vm) : option vm :=
  upd_vs v (fun vs => set_local_desc (map (fun i => init_local (Z.of_nat i) zero_desc) (seq 0 (Z.to_nat VM_LOCAL_VIRQ_NR)))
                        (set_pending_virq 0 (set_active_virq 0 vs))) m.

(** [memset(bitmap, 0, BITMAP_SIZE(nr))] *)
Definition clear_words (nr : Z) (bm : list Z) : option (list Z) :=
  let n := Z.to_nat (BITS_TO_LONGS nr) in
  _ ← assert_ (Nat.leb n (length bm));
  Some (replicate n 0 ++ drop n bm).

Definition vcpu_virq_struct_reset (v : nat) (m : vm) : option vm :=
  c ← get_vcpu v m;
  let vs := vcpu_vs c in
  pend ← clear_words (vspi_nr m) (pending_bitmap vs);
  act ← clear_words (vspi_nr m) (active_bitmap vs);
  lrs ← clear_words (nr_lrs vs) (lrs_bitmap vs);
  m ← upd_vs v (fun vs => set_lrs_bitmap lrs (set_active_bitmap act (set_pending_bitmap pend vs))) m;
  vcpu_virq_struct_init v m.

(** ** Requesting *)
Definition update_virq_cap (d : dref) (flags : Z) (m : vm) : option vm :=
  m ← upd d (fun x => set_d_flags (u32 (Z.lor (d_flags x) flags)) x) m;
  desc ← rd d m;
  let m := if negb (Z.land flags VIRQS_ENABLED =? 0) && virq_is_hw desc then emit (irq_unmask (d_hno desc)) m else m in
  if negb (Z.land flags VIRQS_FIQ =? 0) then upd d __virq_set_fiq m else Some m.

(** The fields [__request_virq] sets before it looks at [hwirq]. *)
Definition claim_desc (c : vcpu) (m : vm) (virq hwirq : Z) (x : virq_desc) : virq_desc :=
  mk_desc (Z.lor (d_flags x) VIRQS_REQUESTED) (u16 virq) (u16 hwirq) VIRQ_INVALID_ID VIRQ_STATE_INACTIVE 0xa0
    (d_src x) (d_type x) (u8 (vcpu_id c)) (u8 (vmid m)).

Definition __request_virq (v : nat) (d : dref) (virq hwirq flags : Z) (m : vm) : option (Z * vm) :=
  c ← get_vcpu v m;
  desc ← rd d m;
  if virq_is_requested desc then Some (- EBUSY, m)
  else
    m ← upd d (claim_desc c m virq hwirq) m;
    m ← (if VM_LOCAL_VIRQ_NR <=? virq then
           bm ← set_bit (VIRQ_SPI_OFFSET virq) (vspi_map m); Some (set_vspi_map bm m)
         else Some m);
    m ← (if negb (hwirq =? 0) then
           let m := emit (irq_set_affinity hwirq (vcpu_affinity c)) m in
           m ← upd d virq_set_hw m;
           Some (emit (irq_mask (u16 hwirq)) (emit (request_irq hwirq) m))
         else upd d virq_clear_hw m);
    m ← update_virq_cap d flags m;
    Some (0, m).

Definition request_virq_affinity (virq hwirq affinity flags : Z) (m : vm) : option (Z * vm) :=
  match get_vcpu_in_vm m affinity with
  | None => Some (- EINVAL, m)
  | Some v =>
      match get_virq_desc m v virq with
      | None => Some (- ENOENT, m)
      | Some d => __request_virq v d virq hwirq flags m
      end
  end.

Definition vm_max_virq_line (m : vm) : Z := if vm_host m then MAX_HVM_VIRQ else MAX_GVM_VIRQ.

Definition request_hw_virq (virq hwirq flags : Z) (m : vm) : option (Z * vm) :=
  if vm_max_virq_line m <=? virq then Some (- EINVAL, m)
  else request_virq_affinity virq hwirq 0 flags m.

Definition request_virq (virq flags : Z) (m : vm) : option (Z * vm) := request_hw_virq virq 0 flags m.

(** The loop over the vcpus from [v] on. *)
Fixpoint pervcpu_loop (n : nat) (v : nat) (virq flags : Z) (m : vm) : option vm :=
  match n with
  | O => Some m
  | S n =>
      match get_virq_desc m v virq with
      | None => pervcpu_loop n (S v) virq flags m
      | Some d =>
          '(_, m) ← __request_virq v d virq 0 flags m;
          m ← upd d (fun x => set_d_vmid VIRQ_AFFINITY_VM_ANY (set_d_vcpu_id VIRQ_AFFINITY_VCPU_ANY x)) m;
          pervcpu_loop n (S v) virq flags m
      end
  end.

Definition request_virq_pervcpu (virq flags : Z) (m : vm) : option (Z * vm) :=
  if VM_LOCAL_VIRQ_NR <=? virq then Some (- EINVAL, m)
  else m ← pervcpu_loop (length (vcpus m)) 0 virq flags m; Some (0, m).

(** The return code of [request_virq] is not looked at. *)
Definition alloc_vm_virq (m : vm) : option (Z * vm) :=
  virq ← find_next_zero_bit_loop (vspi_map m) (vspi_nr m) 0;
  if virq <? vspi_nr m then
    '(_, m) ← request_virq (virq + VM_LOCAL_VIRQ_NR) VIRQS_NEED_EXPORT m;
    Some (virq + VM_LOCAL_VIRQ_NR, m)
  else Some (-1, m).

Definition release_vm_virq (virq : Z) (m : vm) : option vm :=
  let virq := VIRQ_SPI_OFFSET virq in
  if vspi_nr m <=? u32 virq then Some m
  else
    m ← wr (Spi virq) zero_desc m;
    bm ← clear_bit virq (vspi_map m);
    Some (set_vspi_map bm m).

(** ** Hooks for the creation and the end of a VM; [ok] is the outcome of
    [get_free_pages]. *)
Definition create_vs (m : vm) (c : vcpu) : vcpu :=
  let zero := replicate (Z.to_nat (BITS_TO_LONGS (vspi_nr m + VM_LOCAL_VIRQ_NR))) 0 in
  set_vcpu_vs (set_active_bitmap zero (set_pending_bitmap zero (vcpu_vs c))) c.

Definition virq_create_vm (ok : bool) (m : vm) : Z * vm :=
  let m := set_vspi_nr (vm_max_virq_line m) m in
  if negb ok then (- ENOMEM, m)
  else
    let m := set_vspi_map (replicate (Z.to_nat (BITS_TO_LONGS (vspi_nr m))) 0)
               (set_vspi_desc (replicate (Z.to_nat (vspi_nr m)) zero_desc) m) in
    (0, set_vcpus (map (create_vs m) (vcpus m)) m).

Definition reset_desc (d : virq_desc) : virq_desc :=
  set_d_state VIRQ_STATE_INACTIVE (set_d_id VIRQ_INVALID_ID (set_d_type 0 (set_d_pr 0xa0 (virq_clear_enable d)))).

Fixpoint reset_loop (n : nat) (i : Z) (m : vm) : option vm :=
  match n with
  | O => Some m
  | S n =>
      m ← upd (Spi i) reset_desc m;
      desc ← rd (Spi i) m;
      reset_loop n (i + 1) (if virq_is_hw desc then emit (irq_mask (d_hno desc)) m else m)
  end.

Definition vm_virq_reset (m : vm) : option vm := reset_loop (Z.to_nat (vspi_nr m)) 0 m.

Fixpoint destroy_loop (n : nat) (i : Z) (m : vm) : option vm :=
  match n with
  | O => Some m
  | S n =>
      desc ← rd (Spi i) m;
      destroy_loop n (i + 1)
        (if virq_is_enabled desc && virq_is_hw desc && (VM_LOCAL_VIRQ_NR <? d_hno desc)
         then emit (irq_mask (d_hno desc)) m else m)
  end.

(** A VM without descriptors has a NULL pointer to them.  At the end the
    descriptors' memory is freed. *)
Definition virq_destroy_vm (m : vm) : option (Z * vm) :=
  match vspi_desc m with
  | [] => Some (0, m)
  | _ => m ← destroy_loop (Z.to_nat (VIRQ_SPI_NR (vspi_nr m))) 0 m; Some (0, m)
  end.

(** ** Well-formed VMs *)
Definition weight (n : Z) (bm : list Z) : Z := count_upto (bit_at bm) (Z.to_nat n).

(** The state of a vcpu with [n] virqs: [pending_virq] counts the pending ones,
    and a local descriptor carries its own number. *)
Definition vs_ok (n : Z) (vs : virq_struct) : Prop :=
  bitmap_wf n (pending_bitmap vs) /\ bitmap_wf n (active_bitmap vs)
  /\ length (local_desc vs) = Z.to_nat VM_LOCAL_VIRQ_NR
  /\ pending_virq vs = weight n (pending_bitmap vs)
  /\ forall i x, local_desc vs !! i = Some x -> d_vno x = Z.of_nat i.

(** A shared descriptor: the map has a bit for it when it is requested, and then
    it carries its own number. *)
Definition spi_ok (bm : list Z) (i : nat) (x : virq_desc) : Prop :=
  bit_at bm (Z.of_nat i) = virq_is_requested x
  /\ (virq_is_requested x = true -> d_vno x = Z.of_nat i + VM_LOCAL_VIRQ_NR).

Record vm_ok (m : vm) : Prop := mk_vm_ok {
  ok_nr : 0 <= vspi_nr m <= 1024;
  ok_len : length (vspi_desc m) = Z.to_nat (vspi_nr m);
  ok_map : bitmap_wf (vspi_nr m) (vspi_map m);
  ok_vcpu : forall v c, get_vcpu v m = Some c -> vs_ok (vm_irq_count m) (vcpu_vs c);
  ok_spi : forall i x, vspi_desc m !! i = Some x -> spi_ok (vspi_map m) i x;
}.

(** Every pointer [get_virq_desc] returns can be read. *)
Lemma get_virq_desc_ok m v c virq :
  vm_ok m -> get_vcpu v m = Some c -> 0 <= virq < vm_irq_count m ->
  exists d x, get_virq_desc m v virq = Some d /\ rd d m = Some x
    /\ (d = Local v virq /\ virq < VM_LOCAL_VIRQ_NR \/ d = Spi (virq - VM_LOCAL_VIRQ_NR) /\ VM_LOCAL_VIRQ_NR <= virq).
Proof.
  intros Hm Hc Hv. unfold get_virq_desc, VM_VIRQ_NR, VIRQ_SPI_OFFSET. unfold vm_irq_count in Hv.
  destruct (Z.ltb_spec virq VM_LOCAL_VIRQ_NR).
  - destruct (ok_vcpu m Hm v c Hc) as (_ & _ & Hl & _).
    destruct (lookup_lt_is_Some_2 (local_desc (vcpu_vs c)) (Z.to_nat virq)) as [x Hx]; [lia|].
    exists (Local v virq), x. split; [done|]. cbn [rd]. rewrite Hc. msimpl. split; [done|]. by left.
  - rewrite (proj2 (Z.leb_gt _ _)) by lia.
    destruct (lookup_lt_is_Some_2 (vspi_desc m) (Z.to_nat (virq - VM_LOCAL_VIRQ_NR))) as [x Hx].
    { rewrite (ok_len m Hm). lia. }
    exists (Spi (virq - VM_LOCAL_VIRQ_NR)), x. split; [done|]. split; [done|]. by right.
Qed.

(** ** Frames: what an update of a part leaves alone *)
Lemma upd_vs_some v c f m :
  get_vcpu v m = Some c -> upd_vs v f m = Some (set_vcpus (<[v := set_vcpu_vs (f (vcpu_vs c)) c]> (vcpus m)) m).
Proof. intros E. unfold upd_vs. rewrite E. done. Qed.

Lemma get_vcpu_insert v c v' m l : get_vcpu v m = Some c ->
  get_vcpu v' (set_vcpus (<[v := l]> (vcpus m)) m) = if decide (v = v') then Some l else get_vcpu v' m.
Proof.
  intros E. unfold get_vcpu in *; cbn. destruct (decide (v = v')) as [<-|Hn].
  - apply list_lookup_insert_eq. by eapply lookup_lt_Some.
  - by apply list_lookup_insert_ne.
Qed.

(** Changing a vcpu's own state, descriptors apart, keeps the VM well formed. *)
Lemma vm_ok_upd_vs v c f m :
  vm_ok m -> get_vcpu v m = Some c -> vs_ok (vm_irq_count m) (f (vcpu_vs c)) ->
  vm_ok (set_vcpus (<[v := set_vcpu_vs (f (vcpu_vs c)) c]> (vcpus m)) m).
Proof.
  intros Hm Hc Hf. destruct Hm as [H1 H2 H3 H4 H5]. split; try done.
  intros v' c'. rewrite (get_vcpu_insert v c) by done. destruct (decide (v = v')); [intros [= <-]; done|apply H4].
Qed.

Lemma rd_upd_vs v c f m d :
  get_vcpu v m = Some c -> local_desc (f (vcpu_vs c)) = local_desc (vcpu_vs c) ->
  rd d (set_vcpus (<[v := set_vcpu_vs (f (vcpu_vs c)) c]> (vcpus m)) m) = rd d m.
Proof.
  intros Hc Hf. destruct d as [v' i|i]; [|done]. cbn [rd]. rewrite (get_vcpu_insert v c) by done.
  destruct (decide (v = v')) as [<-|]; [|done]. rewrite Hc. msimpl. cbn. by rewrite Hf.
Qed.

(** The VM without its descriptors. *)
Definition strip (c : vcpu) : vcpu := set_vcpu_vs (set_local_desc [] (vcpu_vs c)) c.
Definition rest (m : vm) : vm := set_vspi_desc [] (set_vcpus (map strip (vcpus m)) m).

Definition dref_ok (d : dref) : Prop := match d with Local _ i | Spi i => 0 <= i end.

#[export] Instance dref_eq_dec : EqDecision dref.
Proof. solve_decision. Defined.

Lemma get_vcpu_rest v m : get_vcpu v (rest m) = strip <$> get_vcpu v m.
Proof. unfold get_vcpu, rest; cbn. apply list_lookup_fmap. Qed.

Lemma rest_bitmaps v m m' : rest m' = rest m ->
  pending_of v m' = pending_of v m /\ active_of v m' = active_of v m.
Proof.
  intros E. assert (get_vcpu v (rest m') = get_vcpu v (rest m)) as H by (by rewrite E). rewrite !get_vcpu_rest in H.
  unfold pending_of, active_of. destruct (get_vcpu v m'), (get_vcpu v m); try done. cbn in H.
  injection H as H1 H2 H3. split; congruence.
Qed.

Lemma rest_fields m m' : rest m' = rest m ->
  vspi_nr m' = vspi_nr m /\ vspi_map m' = vspi_map m /\ calls m' = calls m /\ vm_state m' = vm_state m
  /\ vmid m' = vmid m /\ vm_host m' = vm_host m /\ length (vcpus m') = length (vcpus m).
Proof.
  intros E. split_and!; try by apply (f_equal vspi_nr) in E.
  - by apply (f_equal vspi_map) in E.
  - by apply (f_equal calls) in E.
  - by apply (f_equal vm_state) in E.
  - by apply (f_equal vmid) in E.
  - by apply (f_equal vm_host) in E.
  - apply (f_equal (fun m => length (vcpus m))) in E. cbn in E. by rewrite !length_map in E.
Qed.

(** An assignment through a pointer to a descriptor changes descriptors only. *)
Lemma upd_rest d f m m' : upd d f m = Some m' -> rest m' = rest m.
Proof.
  unfold upd, wr. destruct (rd d m) as [x|] eqn:Hx; [|done]. msimpl. rewrite ?Hx. msimpl. destruct d as [v i|i]; [|by intros [= <-]].
  cbn [rd] in Hx. destruct (get_vcpu v m) as [c|] eqn:Hc; [|done]. rewrite (upd_vs_some _ _ _ _ Hc). intros [= <-].
  assert (<[v := strip c]> (strip <$> vcpus m) = strip <$> vcpus m) as Hins.
  { apply list_insert_id. unfold get_vcpu in Hc. by rewrite list_lookup_fmap, Hc. }
  unfold rest. cbn [vcpus set_vcpus]. rewrite list_fmap_insert. unfold set_vspi_desc, set_vcpus; cbn.
  change (strip (set_vcpu_vs _ c)) with (strip c). by rewrite Hins.
Qed.

(** The effect of an assignment through a pointer to a descriptor. *)
Lemma upd_spec d x f m :
  dref_ok d -> rd d m = Some x ->
  exists m', upd d f m = Some m' /\ rest m' = rest m /\ rd d m' = Some (f x)
    /\ (forall d', dref_ok d' -> d' <> d -> rd d' m' = rd d' m).
Proof.
  intros Hd Hx. assert (exists m', upd d f m = Some m') as [m' E].
  { unfold upd, wr. rewrite Hx. msimpl. destruct d as [v i|i]; [|by eexists]. cbn [rd] in Hx. unfold upd_vs.
    destruct (get_vcpu v m); [by eexists|done]. }
  exists m'. split; [done|]. split; [by eapply upd_rest|]. revert E. unfold upd, wr. rewrite Hx. msimpl. destruct d as [v i|i].
  - cbn [rd] in Hx. destruct (get_vcpu v m) as [c|] eqn:Hc; [|done]. msimpl. cbn in Hx.
    rewrite (upd_vs_some _ _ _ _ Hc). intros [= <-]. split.
    + cbn [rd]. rewrite (get_vcpu_insert _ _ _ _ _ Hc), decide_True by done. msimpl. cbn.
      apply list_lookup_insert_eq. by eapply lookup_lt_Some.
    + intros [v' i'|i'] Hd' Hn; [|done]. cbn [rd]. rewrite (get_vcpu_insert _ _ _ _ _ Hc).
      destruct (decide (v = v')) as [<-|]; [|done]. rewrite Hc. msimpl. cbn.
      apply list_lookup_insert_ne. cbn in Hd, Hd'. intros E. apply Hn. f_equal. lia.
  - intros [= <-]. cbn [rd] in *. split.
    + apply list_lookup_insert_eq. by eapply lookup_lt_Some.
    + intros [v' i'|i'] Hd' Hn; [done|]. apply list_lookup_insert_ne. cbn in Hd, Hd'. intros E. apply Hn. f_equal. lia.
Qed.

Lemma rd_local_ok v i c m : get_vcpu v m = Some c -> rd (Local v (Z.of_nat i)) m = local_desc (vcpu_vs c) !! i.
Proof. intros Hc. cbn [rd]. rewrite Hc. msimpl. by rewrite Nat2Z.id. Qed.

Lemma rd_spi_ok i m : rd (Spi (Z.of_nat i)) m = vspi_desc m !! i.
Proof. cbn [rd]. by rewrite Nat2Z.id. Qed.

(** An assignment that keeps the number and the requested flag keeps the VM
    well formed. *)
Definition keeps (f : virq_desc -> virq_desc) (x : virq_desc) : Prop :=
  d_vno (f x) = d_vno x /\ virq_is_requested (f x) = virq_is_requested x.

Lemma upd_length d f m m' : upd d f m = Some m' ->
  length (vspi_desc m') = length (vspi_desc m)
  /\ (forall v c', get_vcpu v m' = Some c' -> exists c, get_vcpu v m = Some c
        /\ length (local_desc (vcpu_vs c')) = length (local_desc (vcpu_vs c))).
Proof.
  unfold upd, wr. destruct (rd d m) as [x|] eqn:Hx; [|done]. msimpl. rewrite ?Hx. msimpl. destruct d as [v i|i].
  - cbn [rd] in Hx. destruct (get_vcpu v m) as [c|] eqn:Hc; [|done]. rewrite (upd_vs_some _ _ _ _ Hc).
    intros [= <-]. split; [done|]. intros v' c'. rewrite (get_vcpu_insert _ _ _ _ _ Hc).
    destruct (decide (v = v')) as [<-|]; [|by exists c']. intros [= <-]. exists c. split; [done|]. cbn. apply length_insert.
  - intros [= <-]. split; [cbn; apply length_insert|]. intros v' c' H. by exists c'.
Qed.

Lemma upd_keeps d x f m :
  vm_ok m -> dref_ok d -> rd d m = Some x -> keeps f x ->
  exists m', upd d f m = Some m' /\ vm_ok m' /\ rest m' = rest m /\ rd d m' = Some (f x)
    /\ (forall d', dref_ok d' -> d' <> d -> rd d' m' = rd d' m).
Proof.
  intros Hm Hd Hx [Hk1 Hk2]. destruct (upd_spec d x f m Hd Hx) as (m' & E & Hr & Hx' & Ho). exists m'.
  split; [done|]. split; [|done]. destruct (upd_length _ _ _ _ E) as [Hl1 Hl2].
  destruct (rest_fields m m' Hr) as (En & Em & _). destruct Hm as [H1 H2 H3 H4 H5].
  assert (forall d', dref_ok d' -> forall y, rd d' m' = Some y -> exists z, rd d' m = Some z
            /\ d_vno y = d_vno z /\ virq_is_requested y = virq_is_requested z) as Hrd.
  { intros d' Hd' y Hy. destruct (decide (d' = d)) as [->|Hn].
    - rewrite Hx' in Hy. injection Hy as <-. by exists x.
    - rewrite (Ho d' Hd' Hn) in Hy. by exists y. }
  split.
  - by rewrite En.
  - by rewrite Hl1, En.
  - by rewrite En, Em.
  - intros v c' Hc'. destruct (Hl2 v c' Hc') as (c & Hc & Hll). destruct (H4 v c Hc) as (B1 & B2 & B3 & B4 & B5).
    assert (strip c' = strip c) as Hs.
    { assert (get_vcpu v (rest m') = get_vcpu v (rest m)) as Hv by (by rewrite Hr).
      rewrite !get_vcpu_rest, Hc, Hc' in Hv. by apply (inj Some) in Hv. }
    injection Hs as S1 S2 S3 S4 S5 S6 S7 S8 S9. unfold vm_irq_count in *. rewrite En.
    split; [by rewrite S7|]. split; [by rewrite S8|]. split; [congruence|]. split; [by rewrite S5, S7|].
    intros i y Hy. rewrite <- (rd_local_ok _ _ _ _ Hc') in Hy. destruct (Hrd (Local v (Z.of_nat i)) (Nat2Z.is_nonneg _) y Hy)
      as (z & Hz & Ez & _). rewrite (rd_local_ok _ _ _ _ Hc) in Hz. rewrite Ez. by apply B5.
  - intros i y Hy. rewrite <- rd_spi_ok in Hy. destruct (Hrd (Spi (Z.of_nat i)) (Nat2Z.is_nonneg _) y Hy) as (z & Hz & Ez & Er).
    rewrite rd_spi_ok in Hz. unfold spi_ok. rewrite Em, Ez, Er. by apply H5.
Qed.

(** ** Bits of the status bitmaps *)
Definition bit_set (n i : Z) (bm bm' : list Z) : Prop :=
  bitmap_wf n bm' /\ forall j, 0 <= j -> bit_at bm' j = (j =? i) || bit_at bm j.
Definition bit_cleared (n i : Z) (bm bm' : list Z) : Prop :=
  bitmap_wf n bm' /\ forall j, 0 <= j -> bit_at bm' j = negb (j =? i) && bit_at bm j.

Lemma set_bit_ok n bm i : bitmap_wf n bm -> 0 <= i < n -> exists bm', set_bit i bm = Some bm' /\ bit_set n i bm bm'.
Proof.
  intros (H1 & H2 & H3) Hi. destruct (set_bit_spec i bm H1) as (bm' & E & W & L & B); [lia|].
  exists bm'. split; [done|]. split; [|done]. split; [done|]. rewrite L. lia.
Qed.

Lemma clear_bit_ok n bm i : bitmap_wf n bm -> 0 <= i < n -> exists bm', clear_bit i bm = Some bm' /\ bit_cleared n i bm bm'.
Proof.
  intros (H1 & H2 & H3) Hi. destruct (clear_bit_spec i bm H1) as (bm' & E & W & L & B); [lia|].
  exists bm'. split; [done|]. split; [|done]. split; [done|]. rewrite L. lia.
Qed.

Lemma test_bit_ok n bm i : bitmap_wf n bm -> 0 <= i < n -> test_bit i bm = Some (bit_at bm i).
Proof. intros (H1 & H2 & H3) Hi. apply test_bit_spec. lia. Qed.

Lemma test_and_set_bit_ok n bm i : bitmap_wf n bm -> 0 <= i < n ->
  exists bm', test_and_set_bit i bm = Some (bit_at bm i, bm') /\ bit_set n i bm bm'.
Proof.
  intros H Hi. unfold test_and_set_bit, testop. rewrite (test_bit_ok n) by done. msimpl.
  destruct (set_bit_ok n bm i H Hi) as (bm' & E & B). unfold set_bit in E. rewrite E. msimpl. by exists bm'.
Qed.

Lemma weight_set n i bm bm' : 0 <= i < n -> bit_set n i bm bm' ->
  weight n bm' = weight n bm + b2z (negb (bit_at bm i)).
Proof.
  intros Hi [_ B]. unfold weight.
  rewrite (count_upto_update (bit_at bm') (bit_at bm) (Z.to_nat n) i), (B i) by
    (lia || (intros j Hj Hn; rewrite B by lia; by rewrite (proj2 (Z.eqb_neq _ _)))).
  rewrite Z.eqb_refl. cbn. destruct (bit_at bm i); cbn; lia.
Qed.

Lemma weight_cleared n i bm bm' : 0 <= i < n -> bit_cleared n i bm bm' ->
  weight n bm' = weight n bm - b2z (bit_at bm i).
Proof.
  intros Hi [_ B]. unfold weight.
  rewrite (count_upto_update (bit_at bm') (bit_at bm) (Z.to_nat n) i), (B i) by
    (lia || (intros j Hj Hn; rewrite B by lia; by rewrite (proj2 (Z.eqb_neq _ _)))).
  rewrite Z.eqb_refl. cbn. destruct (bit_at bm i); cbn; lia.
Qed.

(** ** Sending a virq *)

(** [m'] is [m] with the virq [i] pending for the vcpu [v], and nothing else
    pending or delivered than before. *)
Definition posted (v : nat) (i : Z) (m m' : vm) : Prop :=
  (forall v' j, 0 <= j -> bit_at (pending_of v' m') j = bit_at (pending_of v' m) j || bool_decide (v' = v) && (j =? i))
  /\ (forall v', active_of v' m' = active_of v' m)
  /\ vspi_nr m' = vspi_nr m /\ vm_state m' = vm_state m /\ vspi_map m' = vspi_map m.

Lemma pending_bit_set v c bm k i n m :
  get_vcpu v m = Some c -> bit_set n i (pending_bitmap (vcpu_vs c)) bm ->
  posted v i m (set_vcpus (<[v := set_vcpu_vs (set_pending_virq k (set_pending_bitmap bm (vcpu_vs c))) c]> (vcpus m)) m).
Proof.
  intros Hc [_ B]. split; [|split; [|done]]; intros v'; unfold pending_of, active_of; rewrite (get_vcpu_insert _ _ _ _ _ Hc).
  - intros j Hj. destruct (decide (v = v')) as [<-|Hn].
    + rewrite Hc. cbn. rewrite B by done. rewrite bool_decide_eq_true_2 by done. cbn. apply orb_comm.
    + rewrite (bool_decide_eq_false_2 (v' = v)) by congruence. cbn. by rewrite orb_false_r.
  - destruct (decide (v = v')) as [<-|Hn]; [by rewrite Hc|done].
Qed.

Lemma set_pending_virq_id vs bm : set_pending_virq (pending_virq (set_pending_bitmap bm vs)) (set_pending_bitmap bm vs) = set_pending_bitmap bm vs.
Proof. by destruct vs. Qed.

Lemma __send_virq_spec cur v c d x m :
  vm_ok m -> get_vcpu v m = Some c -> dref_ok d -> rd d m = Some x -> 0 <= d_vno x < vm_irq_count m ->
  exists m' x', __send_virq cur v d m = Some (0, m') /\ vm_ok m' /\ posted v (d_vno x) m m' /\ calls m' = calls m
    /\ rd d m' = Some x' /\ d_flags x' = d_flags x /\ vcpu_id <$> get_vcpu v m' = Some (vcpu_id c).
Proof.
  intros Hm Hc Hd Hx Hv. unfold __send_virq. rewrite Hc, Hx. msimpl. pose proof (ok_vcpu m Hm v c Hc) as (B1 & B2 & B3 & B4 & B5).
  destruct (test_and_set_bit_ok (vm_irq_count m) (pending_bitmap (vcpu_vs c)) (d_vno x)) as (bm & E & B); [done|lia|].
  pose proof (weight_set _ _ _ _ Hv B) as Hw. rewrite E. msimpl.
  destruct (bit_at (pending_bitmap (vcpu_vs c)) (d_vno x)) eqn:Eb; cbn [negb b2z] in Hw.
  - rewrite (upd_vs_some _ _ _ _ Hc). msimpl. rewrite <- set_pending_virq_id. eexists _, x. split; [done|]. split; [|split].
    + apply (vm_ok_upd_vs v c (fun vs => set_pending_virq _ (set_pending_bitmap bm vs))); [done|done|].
      split; [apply B|]. split; [done|]. split; [done|]. split; [|done]. cbn. lia.
    + by eapply pending_bit_set.
    + split; [done|]. rewrite (rd_upd_vs v c (fun vs => set_pending_virq _ (set_pending_bitmap bm vs))) by done.
      split; [done|]. split; [done|]. by rewrite (get_vcpu_insert _ _ _ _ _ Hc), decide_True by done.
  - rewrite (upd_vs_some _ _ _ _ Hc). msimpl.
    set (m1 := set_vcpus _ m). assert (vm_ok m1) as Hm1.
    { apply (vm_ok_upd_vs v c (fun vs => set_pending_virq _ (set_pending_bitmap bm vs))); [done|done|].
      split; [apply B|]. split; [done|]. split; [done|]. split; [|done]. cbn. lia. }
    assert (posted v (d_vno x) m m1) as Hp by (by eapply pending_bit_set).
    assert (rd d m1 = Some x) as Hx1.
    { unfold m1. by rewrite (rd_upd_vs v c (fun vs => set_pending_virq (pending_virq vs + 1) (set_pending_bitmap bm vs))). }
    assert (vcpu_id <$> get_vcpu v m1 = Some (vcpu_id c)) as Hid.
    { unfold m1. by rewrite (get_vcpu_insert _ _ _ _ _ Hc), decide_True by done. }
    destruct (Z.ltb_spec (d_vno x) VM_SGI_VIRQ_NR); msimpl; [|by exists m1, x].
    destruct (upd_keeps d x (set_d_src (u8 cur)) m1) as (m2 & E2 & Hm2 & Hr & Hx2 & _); [done..|]. rewrite E2. msimpl.
    destruct (rest_fields _ _ Hr) as (F1 & F2 & F3 & F4 & _). exists m2, (set_d_src (u8 cur) x).
    split; [done|]. split; [done|]. split; [|split; [by rewrite F3|split; [done|split; [done|]]]].
    + destruct Hp as (P1 & P2 & P3 & P4 & P5). split_and!; try congruence.
      * intros v' j Hj. rewrite (proj1 (rest_bitmaps v' _ _ Hr)). by apply P1.
      * intros v'. by rewrite (proj2 (rest_bitmaps v' _ _ Hr)).
    + assert (get_vcpu v (rest m2) = get_vcpu v (rest m1)) as Hv2 by (by rewrite Hr). rewrite !get_vcpu_rest in Hv2.
      destruct (get_vcpu v m2), (get_vcpu v m1); cbn in *; try done. injection Hv2 as -> _ _. by injection Hid as ->.
Qed.

(** A running VM takes every virq, a suspended one those that can wake it up. *)
Definition accepts (m : vm) (x : virq_desc) : bool :=
  (vm_state m =? VM_STATE_ONLINE) || (vm_state m =? VM_STATE_SUSPEND) && virq_can_wakeup x.

Definition kick_reason (x : virq_desc) : Z := if virq_is_hw x then VCPU_KICK_REASON_HIRQ else VCPU_KICK_REASON_VIRQ.

(** The result of sending the virq [x] to the vcpu [v], or to nobody. *)
Definition sent (v : nat) (c : vcpu) (x : virq_desc) (m : vm) (r : Z) (m' : vm) : Prop :=
  vm_ok m' /\ (r = 0 <-> accepts m x = true) /\ (r <> 0 -> m' = m)
  /\ (r = 0 -> posted v (d_vno x) m m' /\ calls m' = calls m ++ [kick_vcpu (vcpu_id c) (kick_reason x)]).

Lemma send_virq_spec cur v c d x m :
  vm_ok m -> get_vcpu v m = Some c -> dref_ok d -> rd d m = Some x -> 0 <= d_vno x < vm_irq_count m ->
  exists r m', send_virq cur (Some v) (Some d) m = Some (r, m') /\ sent v c x m r m'.
Proof.
  intros Hm Hc Hd Hx Hv. unfold send_virq. msimpl. rewrite Hx. msimpl. unfold sent, accepts.
  destruct (__send_virq_spec cur v c d x m Hm Hc Hd Hx Hv) as (m' & x' & E & Hm' & Hp & Hcl & Hx' & Hf & Hid).
  assert (virq_kick_vcpu v d m' = Some (emit (kick_vcpu (vcpu_id c) (kick_reason x)) m')) as Ek.
  { unfold virq_kick_vcpu. rewrite Hx'. destruct (get_vcpu v m') as [c'|]; [|done]. msimpl. cbn in Hid. injection Hid as ->.
    unfold kick_reason, virq_is_hw, has. by rewrite Hf. }
  assert (vm_ok (emit (kick_vcpu (vcpu_id c) (kick_reason x)) m')) as Hm2 by (by destruct Hm').
  assert (exists r, ('(ret, m0) ← __send_virq cur v d m;
            (if negb (ret =? 0) then Some (ret, m0) else m1 ← virq_kick_vcpu v d m0; Some (0, m1))) = Some (r, emit (kick_vcpu (vcpu_id c) (kick_reason x)) m')
            /\ r = 0) as (r & Er & ->).
  { exists 0. rewrite E. msimpl. cbn [negb Z.eqb]. rewrite Ek. done. }
  destruct (Z.eqb_spec (vm_state m) VM_STATE_ONLINE) as [Eo|Eo]; cbn [negb andb orb].
  - rewrite Eo. cbn [Z.eqb andb VM_STATE_ONLINE VM_STATE_SUSPEND Pos.eqb]. eexists 0, _. split; [exact Er|].
    split; [done|]. split; [done|]. split; [done|]. intros _. split; [done|]. cbn. by rewrite Hcl.
  - destruct (Z.eqb_spec (vm_state m) VM_STATE_SUSPEND) as [Es|Es]; cbn [negb andb].
    + destruct (virq_can_wakeup x); cbn [negb].
      * eexists 0, _. split; [exact Er|]. split; [done|]. split; [done|]. split; [done|].
        intros _. split; [done|]. cbn. by rewrite Hcl.
      * eexists _, m. split; [done|]. split; [done|]. by split.
    + eexists _, m. split; [done|]. split; [done|]. by split.
Qed.

(** A SPI that the guest enabled was requested, and it is routed to a vcpu of
    the VM.  (A guest can enable one that nobody requested.) *)
Definition routed (m : vm) (x : virq_desc) : Prop :=
  0 <= d_vcpu_id x < vcpu_nr m /\ (virq_is_enabled x = true -> virq_is_requested x = true).

(** C37: a number sent to a VM that is no SPI of it is refused.  A SPI of it
    reaches exactly the vcpu it is routed to: when it is enabled, not backed by
    the hardware, and the VM runs or is suspended and the virq can wake it up,
    it becomes pending there, the vcpu is kicked, and no other virq of any vcpu
    changes; in every other case there is an error and nothing changes.  The
    SPI is routed to a vcpu of the VM and, if it is enabled, was requested. *)
Theorem send_virq_to_vm_correct cur virq m :
  vm_ok m -> 0 <= virq -> (forall x, rd (Spi (virq - VM_LOCAL_VIRQ_NR)) m = Some x -> routed m x) ->
  if virq <? VM_LOCAL_VIRQ_NR then send_virq_to_vm cur virq m = Some (- EINVAL, m)
  else if vm_irq_count m <=? virq then send_virq_to_vm cur virq m = Some (- ENOENT, m)
  else exists x c r m', rd (Spi (virq - VM_LOCAL_VIRQ_NR)) m = Some x /\ get_vcpu (Z.to_nat (d_vcpu_id x)) m = Some c /\ send_virq_to_vm cur virq m = Some (r, m')
    /\ (if virq_is_enabled x && negb (virq_is_hw x)
        then sent (Z.to_nat (d_vcpu_id x)) c x m r m' /\ d_vno x = virq
        else r = (if virq_is_enabled x then - EPERM else - EAGAIN) /\ m' = m).
Proof.
  intros Hm Hv0 Hrt. unfold send_virq_to_vm, get_virq_desc, VIRQ_SPI_OFFSET, VM_VIRQ_NR. fold (vm_irq_count m).
  destruct (Z.ltb_spec virq VM_LOCAL_VIRQ_NR) as [|Hlo]; [done|]. destruct (Z.leb_spec (vm_irq_count m) virq) as [|Hhi]; [done|].
  assert (exists x, rd (Spi (virq - VM_LOCAL_VIRQ_NR)) m = Some x) as [x Hx].
  { cbn [rd]. apply lookup_lt_is_Some_2. rewrite (ok_len m Hm). unfold vm_irq_count in Hhi. lia. }
  destruct (Hrt x Hx) as [Hid Hr]. unfold vcpu_nr in Hid. destruct (lookup_lt_is_Some_2 (vcpus m) (Z.to_nat (d_vcpu_id x))) as [c Hc]; [lia|]. exists x, c. rewrite Hx. msimpl.
  destruct (virq_is_enabled x); cbn [negb andb]; [|by eexists _, m].
  destruct (virq_is_hw x) eqn:Eh; cbn [negb]; [by eexists _, m|].
  assert (d_vno x = virq) as Hno.
  { cbn [rd] in Hx. destruct (ok_spi m Hm _ _ Hx) as [_ H]. rewrite (H (Hr eq_refl)). rewrite Z2Nat.id by lia. lia. }
  unfold get_vcpu_in_vm, vcpu_nr. rewrite (proj2 (Z.leb_gt _ _)) by lia.
  destruct (send_virq_spec cur _ c (Spi (virq - VM_LOCAL_VIRQ_NR)) x m Hm Hc ltac:(cbn; lia) Hx) as (r & m' & E & H); [lia|].
  by exists r, m'.
Qed.

(** ** Requesting a virq *)
Lemma has_testbit k x : 0 <= k -> has (Z.shiftl 1 k) x = Z.testbit (d_flags x) k.
Proof.
  intros Hk. unfold has. rewrite Z.shiftl_mul_pow2, Z.mul_1_l by done. destruct (Z.testbit (d_flags x) k) eqn:E.
  - apply negb_true_iff, Z.eqb_neq. intros H. assert (Z.testbit (Z.land (d_flags x) (2 ^ k)) k = true) as Hb
      by (by rewrite Z.land_spec, E, Z.pow2_bits_true by done). by rewrite H, Z.bits_0 in Hb.
  - apply negb_false_iff, Z.eqb_eq, Z.bits_inj_0. intros i. rewrite Z.land_spec.
    destruct (decide (i = k)) as [->|]; [by rewrite E|]. rewrite Z.pow2_bits_false by congruence. apply andb_false_r.
Qed.

Lemma upd_spi i x f m : vspi_desc m !! Z.to_nat i = Some x ->
  upd (Spi i) f m = Some (set_vspi_desc (<[Z.to_nat i := f x]> (vspi_desc m)) m).
Proof. intros H. unfold upd, wr. cbn [rd]. by rewrite H. Qed.

(** The descriptor after a request without a hardware interrupt. *)
Definition claimed (c : vcpu) (m : vm) (virq flags : Z) (x : virq_desc) : virq_desc :=
  let y := virq_clear_hw (claim_desc c m virq 0 x) in set_d_flags (u32 (Z.lor (d_flags y) flags)) y.

Lemma claimed_requested c m virq flags x : virq_is_requested (claimed c m virq flags x) = true.
Proof.
  unfold virq_is_requested, VIRQS_REQUESTED, VIRQS_REQUESTED_BIT. rewrite has_testbit by lia.
  unfold claimed; cbn [d_flags set_d_flags]. unfold u32. rewrite mod_pow2_testbit by lia.
  cbn [d_flags virq_clear_hw set_d_flags claim_desc]. by rewrite Z.lor_spec, Z.ldiff_spec, Z.lor_spec, !orb_true_r.
Qed.

(** A request of a SPI that is free, with flags that neither enable it nor make
    it a FIQ. *)
Lemma request_spi_spec i x c flags m :
  vm_ok m -> get_vcpu 0 m = Some c -> 0 <= i < vspi_nr m -> vspi_desc m !! Z.to_nat i = Some x ->
  virq_is_requested x = false -> Z.land flags VIRQS_ENABLED = 0 -> Z.land flags VIRQS_FIQ = 0 ->
  exists bm, bit_set (vspi_nr m) i (vspi_map m) bm
    /\ let m' := set_vspi_map bm (set_vspi_desc (<[Z.to_nat i := claimed c m (i + VM_LOCAL_VIRQ_NR) flags x]> (vspi_desc m)) m) in
       __request_virq 0 (Spi i) (i + VM_LOCAL_VIRQ_NR) 0 flags m = Some (0, m') /\ vm_ok m'.
Proof.
  intros Hm Hc Hi Hx Hr Hf1 Hf2. pose proof (ok_nr m Hm) as Hnr.
  destruct (set_bit_ok (vspi_nr m) (vspi_map m) i) as (bm & E & B); [apply Hm|done|]. exists bm. split; [done|].
  assert (Z.to_nat i < length (vspi_desc m))%nat as Hlt by (by eapply lookup_lt_Some).
  cbn zeta. split.
  - unfold __request_virq. rewrite Hc. cbn [rd]. msimpl. rewrite Hx. msimpl. rewrite Hr, (upd_spi _ x) by done. msimpl.
    rewrite (proj2 (Z.leb_le _ _)) by (unfold VM_LOCAL_VIRQ_NR, VM_SGI_VIRQ_NR, VM_PPI_VIRQ_NR; lia).
    unfold VIRQ_SPI_OFFSET. replace (i + VM_LOCAL_VIRQ_NR - VM_LOCAL_VIRQ_NR) with i by lia. cbn [vspi_map set_vspi_desc].
    rewrite E. msimpl. cbn [negb Z.eqb].
    rewrite (upd_spi _ (claim_desc c m (i + VM_LOCAL_VIRQ_NR) 0 x)) by (cbn; by apply list_lookup_insert_eq). msimpl.
    unfold update_virq_cap. erewrite upd_spi by (cbn; apply list_lookup_insert_eq; by rewrite length_insert). msimpl.
    cbn [rd vspi_desc set_vspi_desc set_vspi_map]. rewrite list_lookup_insert_eq by (by rewrite !length_insert). msimpl.
    rewrite Hf1, Hf2. cbn [negb Z.eqb andb]. msimpl. do 2 f_equal. unfold set_vspi_desc, set_vspi_map; cbn. f_equal.
    by rewrite !list_insert_insert_eq.
  - destruct Hm as [H1 H2 H3 H4 H5]. destruct B as [Bw B]. split; try done.
    + cbn. by rewrite length_insert.
    + intros j y. cbn. destruct (decide (j = Z.to_nat i)) as [->|Hn].
      * rewrite list_lookup_insert_eq by done. intros [= <-]. unfold spi_ok. rewrite claimed_requested, B by lia.
        rewrite Z2Nat.id, Z.eqb_refl by lia. split; [done|]. intros _. cbn. unfold u16. apply Z.mod_small.
        unfold VM_LOCAL_VIRQ_NR, VM_SGI_VIRQ_NR, VM_PPI_VIRQ_NR. lia.
      * rewrite list_lookup_insert_ne by done. intros Hy. specialize (H5 j y Hy). unfold spi_ok in *.
        rewrite B by lia. by rewrite (proj2 (Z.eqb_neq _ _)) by lia.
Qed.

Lemma next_zero_loop_0 bm n : find_next_zero_bit_loop bm n 0 = find_next_zero_bit bm n 0.
Proof.
  unfold find_next_zero_bit_loop, _find_next_bit_loop, find_next_zero_bit. destruct (_find_next_bit _ _ _ _) as [b|]; [|done].
  msimpl. by rewrite andb_false_r.
Qed.

(** The number of SPIs that can be requested. *)
Definition spi_limit (m : vm) : Z := VIRQ_SPI_OFFSET (vm_max_virq_line m).

Lemma spi_limit_nr m : vspi_nr m = vm_max_virq_line m -> 0 <= spi_limit m /\ spi_limit m + VM_LOCAL_VIRQ_NR = vspi_nr m.
Proof. intros ->. unfold spi_limit, VIRQ_SPI_OFFSET, vm_max_virq_line. by destruct (vm_host m). Qed.

(** [i] is the first free SPI: the outcome of [alloc_vm_virq]. *)
Lemma alloc_vm_virq_spec i c m :
  vm_ok m -> get_vcpu 0 m = Some c -> vspi_nr m = vm_max_virq_line m ->
  first_in (fun j => negb (bit_at (vspi_map m) j)) 0 (vspi_nr m) i ->
  exists m', alloc_vm_virq m = Some (if i <? vspi_nr m then i + VM_LOCAL_VIRQ_NR else -1, m') /\ vm_ok m'
    /\ (i < spi_limit m -> bit_set (vspi_nr m) i (vspi_map m) (vspi_map m')
          /\ (forall j, j <> Z.to_nat i -> vspi_desc m' !! j = vspi_desc m !! j)
          /\ exists x, rd (Spi i) m' = Some x /\ virq_is_requested x = true /\ d_vno x = i + VM_LOCAL_VIRQ_NR)
    /\ (spi_limit m <= i -> m' = m).
Proof.
  intros Hm Hc Hn Hf. unfold alloc_vm_virq. rewrite next_zero_loop_0.
  destruct (find_next_zero_bit_spec (vspi_map m) (vspi_nr m) 0) as (r & E & Hr); [exact (ok_map m Hm)|pose proof (ok_nr m Hm); lia|].
  rewrite E. msimpl. assert (r = i) as -> by (by eapply first_in_unique). destruct Hf as (Hi & Hlow & Hfree).
  destruct (spi_limit_nr m Hn) as [Hl0 Hl].
  destruct (Z.ltb_spec i (vspi_nr m)) as [Hlt|Hge]; [|exists m; split_and!; try done; unfold VM_LOCAL_VIRQ_NR, VM_SGI_VIRQ_NR, VM_PPI_VIRQ_NR in Hl; lia].
  unfold request_virq, request_hw_virq. rewrite <- Hn.
  destruct (Z.leb_spec (vspi_nr m) (i + VM_LOCAL_VIRQ_NR)) as [Hhi|Hlo]; [exists m; split_and!; try done; lia|].
  unfold request_virq_affinity, get_vcpu_in_vm, vcpu_nr. assert (0 < length (vcpus m))%nat by (by eapply lookup_lt_Some).
  rewrite (proj2 (Z.leb_gt _ _)) by lia. unfold get_virq_desc, VM_VIRQ_NR, VIRQ_SPI_OFFSET.
  rewrite (proj2 (Z.ltb_ge _ _)), (proj2 (Z.leb_gt _ _)) by lia.
  replace (i + VM_LOCAL_VIRQ_NR - VM_LOCAL_VIRQ_NR) with i by lia. change (Z.to_nat 0) with O.
  destruct (lookup_lt_is_Some_2 (vspi_desc m) (Z.to_nat i)) as [x Hx]; [rewrite (ok_len m Hm); lia|].
  assert (virq_is_requested x = false) as Hrq.
  { destruct (ok_spi m Hm _ _ Hx) as [<- _]. rewrite Z2Nat.id by lia. by apply negb_true_iff, Hfree. }
  destruct (request_spi_spec i x c VIRQS_NEED_EXPORT m) as (bm & B & E2 & Hm'); [done|done|lia|done|done|done|done|].
  rewrite E2. msimpl. eexists. split; [done|]. split; [done|]. split; [|lia]. intros _. split; [done|]. split.
  - intros j Hj. cbn. by rewrite list_lookup_insert_ne by done.
  - eexists. cbn [rd]. cbn [vspi_desc set_vspi_map set_vspi_desc]. rewrite list_lookup_insert_eq by (by eapply lookup_lt_Some).
    split; [done|]. split; [apply claimed_requested|]. cbn. unfold u16. apply Z.mod_small. destruct (ok_nr m Hm).
    unfold VM_LOCAL_VIRQ_NR, VM_SGI_VIRQ_NR, VM_PPI_VIRQ_NR in *. lia.
Qed.

(** While a SPI is free below the limit of the VM, [alloc_vm_virq] returns a
    virq that was not in use, marks it as requested and leaves every other one
    alone; with every SPI in use it returns -1 and changes nothing. *)
Theorem alloc_vm_virq_correct m :
  vm_ok m -> vcpus m <> [] -> vspi_nr m = vm_max_virq_line m ->
  ((exists j, 0 <= j < spi_limit m /\ bit_at (vspi_map m) j = false) ->
     exists i m', alloc_vm_virq m = Some (i + VM_LOCAL_VIRQ_NR, m') /\ vm_ok m' /\ 0 <= i < spi_limit m
       /\ bit_at (vspi_map m) i = false /\ bit_set (vspi_nr m) i (vspi_map m) (vspi_map m')
       /\ (forall j, j <> Z.to_nat i -> vspi_desc m' !! j = vspi_desc m !! j))
  /\ ((forall j, 0 <= j < vspi_nr m -> bit_at (vspi_map m) j = true) -> alloc_vm_virq m = Some (-1, m)).
Proof.
  intros Hm Hv Hn. destruct (get_vcpu 0 m) as [c|] eqn:Hc; [|unfold get_vcpu in Hc; by destruct (vcpus m)].
  destruct (find_next_zero_bit_spec (vspi_map m) (vspi_nr m) 0) as (i & _ & Hf); [exact (ok_map m Hm)|pose proof (ok_nr m Hm); lia|].
  destruct (alloc_vm_virq_spec i c m Hm Hc Hn Hf) as (m' & E & Hm' & Hlo & Hhi). destruct (spi_limit_nr m Hn) as [Hl0 Hl].
  destruct Hf as (Hi & Hlow & Hfree). split.
  - intros (j & Hj & Hb). assert (i <= j) as Hij.
    { destruct (Z.lt_ge_cases j i) as [H|]; [|done]. specialize (Hlow j ltac:(lia)). by rewrite Hb in Hlow. }
    unfold VM_LOCAL_VIRQ_NR, VM_SGI_VIRQ_NR, VM_PPI_VIRQ_NR in Hl.
    destruct (Hlo ltac:(lia)) as (B & Ho & _). exists i, m'. rewrite (proj2 (Z.ltb_lt _ _)) in E by lia. split_and!; try done; try lia.
    apply negb_true_iff, Hfree. lia.
  - intros Hall. destruct (Z.ltb_spec i (vspi_nr m)) as [Hlt|Hge].
    + specialize (Hfree Hlt). by rewrite Hall in Hfree by lia.
    + rewrite E. unfold VM_LOCAL_VIRQ_NR, VM_SGI_VIRQ_NR, VM_PPI_VIRQ_NR in Hl. by rewrite Hhi by lia.
Qed.

(** With the SPIs below the limit in use, [alloc_vm_virq] hands out a number
    above the limit, which is not requested: it changes nothing, so every
    further call returns the same number. *)
Theorem alloc_vm_virq_repeats m :
  vm_ok m -> vcpus m <> [] -> vspi_nr m = vm_max_virq_line m ->
  (forall j, 0 <= j < spi_limit m -> bit_at (vspi_map m) j = true) -> bit_at (vspi_map m) (spi_limit m) = false ->
  alloc_vm_virq m = Some (vm_max_virq_line m, m).
Proof.
  intros Hm Hv Hn Hall Hb. destruct (get_vcpu 0 m) as [c|] eqn:Hc; [|unfold get_vcpu in Hc; by destruct (vcpus m)].
  destruct (spi_limit_nr m Hn) as [Hl0 Hl]. pose proof Hl as Hl'. unfold VM_LOCAL_VIRQ_NR, VM_SGI_VIRQ_NR, VM_PPI_VIRQ_NR in Hl'.
  destruct (alloc_vm_virq_spec (spi_limit m) c m Hm Hc Hn) as (m' & E & _ & _ & Hhi).
  - split; [lia|]. split; [intros j Hj; by rewrite Hall|]. intros _. by rewrite Hb.
  - rewrite (proj2 (Z.ltb_lt _ _)) in E by lia. rewrite E, Hhi by lia. do 2 f_equal. congruence.
Qed.

(** Releasing a virq makes it free again: the descriptor is cleared, its bit
    in the map is clear and the other virqs stay as they are, so an allocated
    virq that is released can be allocated again. *)
Theorem release_vm_virq_correct i m :
  vm_ok m -> 0 <= i < vspi_nr m ->
  exists m', release_vm_virq (i + VM_LOCAL_VIRQ_NR) m = Some m' /\ vm_ok m'
    /\ bit_cleared (vspi_nr m) i (vspi_map m) (vspi_map m')
    /\ rd (Spi i) m' = Some zero_desc /\ (forall j, j <> Z.to_nat i -> vspi_desc m' !! j = vspi_desc m !! j).
Proof.
  intros Hm Hi. pose proof (ok_nr m Hm) as Hnr. unfold release_vm_virq, VIRQ_SPI_OFFSET.
  replace (i + VM_LOCAL_VIRQ_NR - VM_LOCAL_VIRQ_NR) with i by lia. rewrite u32_small, (proj2 (Z.leb_gt _ _)) by lia.
  destruct (lookup_lt_is_Some_2 (vspi_desc m) (Z.to_nat i)) as [x Hx]; [rewrite (ok_len m Hm); lia|].
  assert (Z.to_nat i < length (vspi_desc m))%nat as Hlt by (by eapply lookup_lt_Some).
  destruct (clear_bit_ok (vspi_nr m) (vspi_map m) i) as (bm & E & Bw & B); [apply Hm|done|].
  unfold wr. cbn [rd]. rewrite Hx. msimpl. cbn [vspi_map set_vspi_desc]. rewrite E. msimpl. eexists. split; [done|].
  split; [|split; [done|split]].
  - destruct Hm as [H1 H2 H3 H4 H5]. split; try done; [cbn; by rewrite length_insert|].
    intros j y. cbn. destruct (decide (j = Z.to_nat i)) as [->|Hn].
    + rewrite list_lookup_insert_eq by done. intros [= <-]. split; [|done]. rewrite B by lia. by rewrite Z2Nat.id, Z.eqb_refl by lia.
    + rewrite list_lookup_insert_ne by done. intros Hy. specialize (H5 j y Hy). unfold spi_ok in *.
      rewrite B by lia. by rewrite (proj2 (Z.eqb_neq _ _)) by lia.
  - cbn [rd vspi_desc set_vspi_map set_vspi_desc]. by apply list_lookup_insert_eq.
  - intros j Hj. cbn. by apply list_lookup_insert_ne.
Qed.

(** ** A new VM *)
Lemma zero_bitmap_wf n : 0 <= n <= 2 ^ 32 -> bitmap_wf n (replicate (Z.to_nat (BITS_TO_LONGS n)) 0).
Proof.
  intros Hn. unfold BITS_TO_LONGS. split; [apply Forall_replicate; unfold is_word; lia|]. rewrite length_replicate. dlia.
Qed.

Lemma zero_bitmap_bit k i : bit_at (replicate k 0) i = false.
Proof.
  unfold bit_at. destruct (replicate k 0 !! Z.to_nat (i / 64)) eqn:E; [|done]. apply lookup_replicate in E as [-> _]. apply Z.bits_0.
Qed.

Lemma virq_create_vm_spec m :
  (forall v c, get_vcpu v m = Some c -> pending_virq (vcpu_vs c) = 0
     /\ length (local_desc (vcpu_vs c)) = Z.to_nat VM_LOCAL_VIRQ_NR
     /\ forall i x, local_desc (vcpu_vs c) !! i = Some x -> d_vno x = Z.of_nat i) ->
  exists m', virq_create_vm true m = (0, m') /\ vm_ok m' /\ vspi_nr m' = vm_max_virq_line m'
    /\ (forall i, bit_at (vspi_map m') i = false) /\ (forall v i, bit_at (pending_of v m') i = false).
Proof.
  intros Hv. eexists. split; [done|]. set (n := vm_max_virq_line m). assert (n = 416 \/ n = 96) as Hn.
  { unfold n, vm_max_virq_line. destruct (vm_host m); [by left|by right]. }
  assert (forall v, get_vcpu v (virq_create_vm true m).2 = create_vs (set_vspi_nr n m) <$> get_vcpu v m) as Hg.
  { intros v. unfold get_vcpu, virq_create_vm; cbn. apply list_lookup_fmap. }
  split; [split|split; [done|split]].
  - cbn. fold n. lia.
  - cbn. fold n. by rewrite length_replicate.
  - cbn. fold n. apply zero_bitmap_wf. lia.
  - intros v c'. change (get_vcpu v _) with (get_vcpu v (virq_create_vm true m).2). rewrite Hg.
    destruct (get_vcpu v m) as [c|] eqn:Hc; cbn [fmap option_fmap option_map]; [|done]. intros [= <-].
    destruct (Hv v c Hc) as (Hp & Hl & Hno).
    assert (bitmap_wf (n + VM_LOCAL_VIRQ_NR) (replicate (Z.to_nat (BITS_TO_LONGS (n + VM_LOCAL_VIRQ_NR))) 0)) as Hw
      by (apply zero_bitmap_wf; unfold VM_LOCAL_VIRQ_NR, VM_SGI_VIRQ_NR, VM_PPI_VIRQ_NR; lia).
    split; [exact Hw|]. split; [exact Hw|]. split; [done|]. split; [|done].
    cbn [pending_virq create_vs vcpu_vs set_vcpu_vs set_active_bitmap set_pending_bitmap]. rewrite Hp. unfold weight.
    rewrite count_upto_zero; [done|]. intros i _. apply zero_bitmap_bit.
  - intros i x. cbn. fold n. rewrite lookup_replicate. intros [-> Hi]. split; [|done]. by rewrite zero_bitmap_bit.
  - intros i. apply zero_bitmap_bit.
  - intros v i. unfold pending_of. change (get_vcpu v _) with (get_vcpu v (virq_create_vm true m).2). rewrite Hg.
    by destruct (get_vcpu v m); [apply zero_bitmap_bit|].
Qed.

(** ** Taking the next virq (software emulation of the cpu interface) *)

(** [m'] is [m] with the virq [i] of the vcpu [v] delivered. *)
Definition delivered (v : nat) (i : Z) (m m' : vm) : Prop :=
  bit_cleared (vm_irq_count m) i (pending_of v m) (pending_of v m')
  /\ bit_set (vm_irq_count m) i (active_of v m) (active_of v m')
  /\ (forall v', v' <> v -> get_vcpu v' m' = get_vcpu v' m) /\ vspi_map m' = vspi_map m /\ calls m' = calls m.

Lemma pending_of_get v c m : get_vcpu v m = Some c -> pending_of v m = pending_bitmap (vcpu_vs c).
Proof. intros H. unfold pending_of. by rewrite H. Qed.
Lemma active_of_get v c m : get_vcpu v m = Some c -> active_of v m = active_bitmap (vcpu_vs c).
Proof. intros H. unfold active_of. by rewrite H. Qed.

Lemma upd_other_vcpu d f m m' v : (forall v' i, d = Local v' i -> v' <> v) -> upd d f m = Some m' -> get_vcpu v m' = get_vcpu v m.
Proof.
  intros Hd. unfold upd, wr. destruct (rd d m) as [x|] eqn:Hx; [|done]. msimpl. rewrite ?Hx. msimpl. destruct d as [v' i|i]; [|by intros [= <-]].
  cbn [rd] in Hx. destruct (get_vcpu v' m) as [c|] eqn:Hc; [|done]. rewrite (upd_vs_some _ _ _ _ Hc). intros [= <-].
  rewrite (get_vcpu_insert _ _ _ _ _ Hc). by rewrite decide_False by (by apply (Hd v' i)).
Qed.

Lemma upd_same_vcpu d f m m' v c : get_vcpu v m = Some c -> upd d f m = Some m' -> exists c', get_vcpu v m' = Some c' /\ strip c' = strip c.
Proof.
  intros Hc Hr%upd_rest.
  assert (get_vcpu v (rest m') = get_vcpu v (rest m)) as H by (by rewrite Hr). rewrite !get_vcpu_rest, Hc in H.
  destruct (get_vcpu v m') as [c'|]; [|done]. exists c'. split; [done|]. by apply (inj Some) in H.
Qed.

Lemma take_pending_spec v c bit r m :
  vm_ok m -> get_vcpu v m = Some c -> 0 <= bit < vm_irq_count m ->
  bit_at (pending_of v m) bit = true -> bit_at (active_of v m) bit = false ->
  exists m', take_pending v bit (m, r) = Some (true, (m', bit)) /\ vm_ok m' /\ delivered v bit m m'.
Proof.
  intros Hm Hc Hb Hp Ha. unfold take_pending; cbn [fst].
  destruct (ok_vcpu m Hm v c Hc) as (B1 & B2 & B3 & B4 & B5).
  rewrite (active_of_get _ _ _ Hc) in *. rewrite (pending_of_get _ _ _ Hc) in *.
  rewrite (test_bit_ok (vm_irq_count m)), Ha by done. msimpl.
  destruct (get_virq_desc_ok m v c bit Hm Hc Hb) as (d & x & -> & Hx & Hd). msimpl.
  assert (dref_ok d) as Hok by (destruct Hd as [[-> ?]|[-> ?]]; cbn; lia).
  destruct (upd_keeps d x (set_d_state VIRQ_STATE_ACTIVE) m Hm Hok Hx) as (m1 & E1 & Hm1 & Hr & _); [done|].
  rewrite E1. msimpl. destruct (upd_same_vcpu _ _ _ _ _ _ Hc E1) as (c1 & Hc1 & Hs).
  destruct (rest_fields _ _ Hr) as (F1 & F2 & F3 & _). destruct (rest_bitmaps v _ _ Hr) as [R1 R2].
  rewrite (pending_of_get _ _ _ Hc1), (pending_of_get _ _ _ Hc) in R1.
  rewrite (active_of_get _ _ _ Hc1), (active_of_get _ _ _ Hc) in R2.
  rewrite (pending_of_get _ _ _ Hc1), (active_of_get _ _ _ Hc1), R1, R2.
  destruct (clear_bit_ok _ _ bit B1 Hb) as (bp & Ep & Cp). destruct (set_bit_ok _ _ bit B2 Hb) as (ba & Ea & Ca).
  rewrite Ep. msimpl. rewrite Ea. msimpl. rewrite (upd_vs_some _ _ _ _ Hc1). msimpl. eexists. split; [done|].
  assert (vm_irq_count m1 = vm_irq_count m) as Fn by (unfold vm_irq_count; by rewrite F1). split.
  - apply (vm_ok_upd_vs v c1 (fun vs => set_active_virq (u32 (active_virq vs + 1)) (set_active_bitmap ba
      (set_pending_bitmap bp (set_pending_virq (pending_virq vs - 1) vs))))); [done|done|].
    destruct (ok_vcpu m1 Hm1 v c1 Hc1) as (_ & _ & G3 & G4 & G5). rewrite Fn in *.
    split; [apply Cp|]. split; [apply Ca|]. split; [done|]. split; [|done]. cbn.
    rewrite (weight_cleared _ _ _ _ Hb Cp), Hp, G4, R1. cbn. lia.
  - unfold delivered, pending_of, active_of. rewrite !(get_vcpu_insert _ _ _ _ _ Hc1), !decide_True, Hc by done. cbn.
    split; [done|]. split; [done|]. split; [|done]. intros v' Hv'. rewrite (get_vcpu_insert _ _ _ _ _ Hc1), decide_False by done.
    eapply upd_other_vcpu; [|exact E1]. intros v'' i ->. destruct Hd as [[[= -> _] _]|[? _]]; [congruence|done].
Qed.

(** Reading the interrupt acknowledge register takes the lowest pending virq
    that is not being handled already and marks it as delivered; without one it
    returns the spurious interrupt number and changes nothing. *)
Theorem get_pending_virq_lowest v c m :
  vm_ok m -> get_vcpu v m = Some c ->
  exists r m', get_pending_virq v m = Some (r, m') /\ vm_ok m'
    /\ ((r = BAD_IRQ /\ m' = m /\ forall i, 0 <= i < vm_irq_count m -> bit_at (pending_of v m) i = true -> bit_at (active_of v m) i = true)
        \/ (0 <= r < vm_irq_count m /\ bit_at (pending_of v m) r = true /\ bit_at (active_of v m) r = false
            /\ (forall i, 0 <= i < r -> bit_at (pending_of v m) i = true -> bit_at (active_of v m) i = true)
            /\ delivered v r m m')).
Proof.
  intros Hm Hc. destruct (ok_vcpu m Hm v c Hc) as (B1 & B2 & _).
  assert (0 <= vm_irq_count m) by (destruct B1; lia). unfold get_pending_virq.
  set (below := fun b => forall i, 0 <= i < b -> bit_at (pending_of v m) i = true -> bit_at (active_of v m) i = true).
  edestruct (for_each_set_bit_spec (fun s : vm * Z => pending_of v s.1) (vm_irq_count m) (take_pending v)
    (fun b s => s = (m, BAD_IRQ) /\ below b)
    (fun s => vm_ok s.1 /\ ((s = (m, BAD_IRQ) /\ below (vm_irq_count m))
       \/ (0 <= s.2 < vm_irq_count m /\ bit_at (pending_of v m) s.2 = true /\ bit_at (active_of v m) s.2 = false
           /\ below s.2 /\ delivered v s.2 m s.1)))) with (s := (m, BAD_IRQ)) as ((m' & r) & E & Hm' & Hcase).
  - intros b s [-> _]. cbn [fst]. by rewrite (pending_of_get _ _ _ Hc).
  - intros b b' s [-> Hb] Hbb Hz. split; [done|]. intros i Hi Hp. destruct (Z.lt_ge_cases i b); [apply Hb; [lia|done]|].
    cbn [fst] in Hz. by rewrite Hz in Hp by lia.
  - intros bit s [-> Hb] Hbit Hp. cbn [fst] in Hp. destruct (bit_at (active_of v m) bit) eqn:Ea.
    + exists false, (m, BAD_IRQ). split; [|split; [done|]].
      * unfold take_pending; cbn [fst]. rewrite (test_bit_ok (vm_irq_count m)), Ea by (by rewrite ?(active_of_get _ _ _ Hc)). done.
      * intros i Hi Hpi. destruct (decide (i = bit)) as [->|]; [done|]. apply Hb; [lia|done].
    + destruct (take_pending_spec v c bit BAD_IRQ m Hm Hc Hbit Hp Ea) as (m' & E & Hm' & Hd).
      exists true, (m', bit). split; [done|]. cbn [fst snd]. split; [done|]. by right.
  - intros s [-> Hb]. split; [done|]. by left.
  - done.
  - split; [done|]. intros i Hi. lia.
  - rewrite E. msimpl. exists r, m'. split; [done|]. split; [done|]. destruct Hcase as [[[= -> ->] Hb]|Hcase]; [by left|by right].
Qed.

(** Creating the virqs of a VM gives a well-formed state in which no SPI is
    requested and nothing is pending, for vcpus whose own descriptors are
    initialised. *)
Theorem virq_create_vm_ok m :
  (forall v c, get_vcpu v m = Some c -> pending_virq (vcpu_vs c) = 0
     /\ length (local_desc (vcpu_vs c)) = Z.to_nat VM_LOCAL_VIRQ_NR
     /\ forall i x, local_desc (vcpu_vs c) !! i = Some x -> d_vno x = Z.of_nat i) ->
  exists m', virq_create_vm true m = (0, m') /\ vm_ok m' /\ vspi_nr m' = vm_max_virq_line m'
    /\ (forall i, bit_at (vspi_map m') i = false) /\ (forall v i, bit_at (pending_of v m') i = false).
Proof. apply virq_create_vm_spec. Qed.

(** ** The theorems at concrete VMs: a guest with two vcpus *)
Definition demo_vcpu (i : Z) : vcpu :=
  mk_vcpu i i (mk_vs 4 0 0 0 (map (fun i => init_local (Z.of_nat i) zero_desc) (seq 0 32)) [] [] [0; 0]).
Definition demo_vm0 : vm := mk_vm 1 false VM_STATE_ONLINE [demo_vcpu 0; demo_vcpu 1] 0 [] [] [].
Definition demo_vm : vm := (virq_create_vm true demo_vm0).2.

(** The guest with one SPI requested. *)
Definition demo_vm2 : vm := match alloc_vm_virq demo_vm with Some (_, m) => m | None => demo_vm end.

Lemma demo_vm0_init v c : get_vcpu v demo_vm0 = Some c -> pending_virq (vcpu_vs c) = 0
  /\ length (local_desc (vcpu_vs c)) = Z.to_nat VM_LOCAL_VIRQ_NR
  /\ forall i x, local_desc (vcpu_vs c) !! i = Some x -> d_vno x = Z.of_nat i.
Proof.
  intros Hc. assert (c = demo_vcpu 0 \/ c = demo_vcpu 1) as H.
  { destruct v as [|[|v]]; cbn in Hc; [injection Hc as <-; by left|injection Hc as <-; by right|done]. }
  assert (forall k i x, local_desc (vcpu_vs (demo_vcpu k)) !! i = Some x -> d_vno x = Z.of_nat i) as Hl.
  { intros k i x Hx. cbn [demo_vcpu vcpu_vs local_desc] in Hx. rewrite list_lookup_fmap in Hx.
    destruct (seq 0 32 !! i) as [j|] eqn:Ej; [|done]. apply lookup_seq in Ej as [-> _]. by injection Hx as <-. }
  destruct H as [-> | ->]; (split; [done|]; split; [done|]; apply Hl).
Qed.

Lemma demo_vm_ok : vm_ok demo_vm /\ forall i, bit_at (vspi_map demo_vm) i = false.
Proof. destruct (virq_create_vm_spec demo_vm0 demo_vm0_init) as (m' & E & H & _ & H2 & _). unfold demo_vm. rewrite E. by split. Qed.

Lemma demo_vm2_ok : vm_ok demo_vm2.
Proof.
  destruct (alloc_vm_virq_spec 0 (create_vs demo_vm (demo_vcpu 0)) demo_vm (proj1 demo_vm_ok)) as (m' & E & H & _).
  - reflexivity.
  - reflexivity.
  - split; [vm_compute; split; discriminate|]. split; [intros i Hi; lia|]. intros _. by rewrite (proj2 demo_vm_ok).
  - unfold demo_vm2. by rewrite E.
Qed.

Lemma virq_create_vm_ok_witness : exists m', virq_create_vm true demo_vm0 = (0, m') /\ vm_ok m'.
Proof. destruct (virq_create_vm_ok demo_vm0 demo_vm0_init) as (m' & E & H & _). exists m'. exact (conj E H). Defined.

(** The guest enables the SPI, and it is sent. *)
Definition demo_vm3 : vm := match virq_enable 0 32 demo_vm2 with Some (_, m) => m | None => demo_vm2 end.

Lemma demo_vm3_ok : vm_ok demo_vm3.
Proof.
  destruct (rd (Spi 0) demo_vm2) as [x|] eqn:Hx; [|vm_compute in Hx; discriminate Hx].
  destruct (upd_keeps (Spi 0) x virq_set_enable demo_vm2) as (m' & E & H & _ & Hx' & _); [apply demo_vm2_ok|done|done| |].
  - split; [done|]. unfold virq_is_requested, VIRQS_REQUESTED, VIRQS_REQUESTED_BIT. rewrite !has_testbit by lia. cbn [virq_set_enable d_flags set_d_flags]. rewrite Z.lor_spec. apply orb_false_r.
  - unfold demo_vm3, virq_enable. change (get_virq_desc demo_vm2 0 32) with (Some (Spi 0)). cbv iota. rewrite E. cbn [mbind option_bind]. rewrite Hx'. exact H.
Qed.

(** What the descriptor of SPI 32 says. *)
Lemma demo_spi32 x : rd (Spi 0) demo_vm3 = Some x -> virq_is_enabled x = true /\ virq_is_requested x = true /\ virq_is_hw x = false /\ d_vcpu_id x = 0.
Proof.
  intros Hx. assert ((fun x => (virq_is_enabled x, virq_is_requested x, virq_is_hw x, d_vcpu_id x)) <$> rd (Spi 0) demo_vm3 = Some (true, true, false, 0)) as H by (vm_compute; reflexivity).
  rewrite Hx in H. cbn [fmap option_fmap option_map] in H. injection H as H1 H2 H3 H4. exact (conj H1 (conj H2 (conj H3 H4))).
Qed.

(** SPI 32 of the guest is sent to its first vcpu; 200 is no SPI of it. *)
Lemma send_virq_to_vm_correct_witness : exists x c r m', send_virq_to_vm 0 32 demo_vm3 = Some (r, m') /\ sent 0 c x demo_vm3 r m' /\ accepts demo_vm3 x = true /\ d_vno x = 32
  /\ send_virq_to_vm 0 200 demo_vm3 = Some (- ENOENT, demo_vm3).
Proof.
  pose proof (send_virq_to_vm_correct 0 32 demo_vm3 demo_vm3_ok ltac:(lia)) as H. pose proof (send_virq_to_vm_correct 0 200 demo_vm3 demo_vm3_ok ltac:(lia)) as H2.
  assert (vm_irq_count demo_vm3 = 128 /\ vcpu_nr demo_vm3 = 2 /\ vm_state demo_vm3 = VM_STATE_ONLINE) as (En & Ev & Es) by (split; [vm_compute; reflexivity|split; vm_compute; reflexivity]).
  rewrite En in H, H2. change (32 - VM_LOCAL_VIRQ_NR) with 0 in H. destruct H as (x & c & r & m' & Hx & _ & E & H).
  - intros x Hx. destruct (demo_spi32 x Hx) as (_ & Hr & _ & Hi). split; [rewrite Hi, Ev; lia|intros _; exact Hr].
  - destruct (demo_spi32 x Hx) as (He & _ & Hh & Hi). rewrite He, Hh, Hi in H. cbn [negb andb] in H. destruct H as [H Hno].
    exists x, c, r, m'. split; [exact E|]. split; [exact H|]. split; [unfold accepts; rewrite Es; reflexivity|]. split; [exact Hno|]. apply H2.
    intros y Hy. exfalso. assert (rd (Spi (200 - VM_LOCAL_VIRQ_NR)) demo_vm3 = None) as Hn by (vm_compute; reflexivity). rewrite Hn in Hy. discriminate Hy.
Defined.

(** A guest enables SPI 33, which nobody requested: what is sent for it then is
    the number of the empty descriptor, virq 0. *)
Lemma unrequested_spi_posts_zero : exists m1 m2 c, virq_enable 0 33 demo_vm2 = Some (0, m1) /\ send_virq_to_vm 0 33 m1 = Some (0, m2) /\ get_vcpu 0 m2 = Some c
  /\ bit_at (pending_bitmap (vcpu_vs c)) 0 = true /\ bit_at (pending_bitmap (vcpu_vs c)) 33 = false.
Proof.
  destruct (virq_enable 0 33 demo_vm2) as [[r1 m1]|] eqn:E1; [|vm_compute in E1; discriminate E1].
  assert ((fun o => (fst o, (fun p => (fst p, (fun c => (bit_at (pending_bitmap (vcpu_vs c)) 0, bit_at (pending_bitmap (vcpu_vs c)) 33)) <$> get_vcpu 0 (snd p))) <$> send_virq_to_vm 0 33 (snd o))) <$> virq_enable 0 33 demo_vm2
    = Some (0, Some (0, Some (true, false)))) as H by (vm_compute; reflexivity).
  rewrite E1 in H. cbn [fmap option_fmap option_map fst snd] in H. injection H as -> H. destruct (send_virq_to_vm 0 33 m1) as [[r2 m2]|] eqn:E2; [|discriminate H].
  cbn [fmap option_fmap option_map fst snd] in H. injection H as -> H. destruct (get_vcpu 0 m2) as [c|] eqn:Ec; [|discriminate H]. injection H as H1 H2.
  exists m1, m2, c. split; [reflexivity|]. split; [exact E2|]. split; [exact Ec|]. split; [exact H1|exact H2].
Qed.

Lemma alloc_vm_virq_correct_witness : exists i m', alloc_vm_virq demo_vm = Some (i + VM_LOCAL_VIRQ_NR, m') /\ vm_ok m'.
Proof.
  destruct (alloc_vm_virq_correct demo_vm (proj1 demo_vm_ok)) as [H _]; [discriminate|reflexivity|].
  destruct H as (i & m' & E & Hm & _).
  - exists 0. split; [vm_compute; split; [discriminate|reflexivity]|apply (proj2 demo_vm_ok)].
  - exists i, m'. exact (conj E Hm).
Defined.

Lemma release_vm_virq_correct_witness : exists m', release_vm_virq (0 + VM_LOCAL_VIRQ_NR) demo_vm2 = Some m' /\ vm_ok m'.
Proof.
  destruct (release_vm_virq_correct 0 demo_vm2 demo_vm2_ok) as (m' & E & H & _); [vm_compute; split; [discriminate|reflexivity]|].
  exists m'. exact (conj E H).
Defined.

Lemma get_pending_virq_lowest_witness : exists r m', get_pending_virq 0 demo_vm = Some (r, m') /\ vm_ok m'.
Proof.
  destruct (get_pending_virq_lowest 0 (create_vs demo_vm (demo_vcpu 0)) demo_vm (proj1 demo_vm_ok) eq_refl) as (r & m' & E & H & _).
  exists r, m'. exact (conj E H).
Defined.
