(* ===== verification/Vgic.v ===== *)
(** * Delivery of virqs through list registers (virt/virq_chips/{vgic,virq_chip}.c)

    Before a vcpu enters the guest, its pending virqs are moved into free list
    registers of the interrupt chip; after the exit the registers whose virq
    the guest has finished are freed.  The chip is an interface: a record of
    functions on its register state [H], which may be NULL ([None]), as the
    structure [virq_chip] has it, with what this file needs of them as the
    laws of the class [ListRegisters]. *)
From S2P Require Import Prelude Bitops Bitmap Virq.

(** ** The chip (include/virt/virq_chip.h, virq_chip.c) *)

(** The hooks a chip has around the guest: none, or those of vgic.c. *)
Inductive guest_hook := hook_null | hook_vgic.

Record virq_chip (H : Type) := mk_chip {
  send_virq_op : option (virq_desc -> H -> Z * H);
  get_virq_state_op : option (virq_desc -> H -> Z);
  update_virq_op : option (virq_desc -> Z -> H -> Z * H);
  enter_to_guest_op : guest_hook;
  exit_from_guest_op : guest_hook;
  chip_flags : Z;
}.
Arguments mk_chip {H}.
Arguments send_virq_op {H}.
Arguments get_virq_state_op {H}.
Arguments update_virq_op {H}.
Arguments enter_to_guest_op {H}.
Arguments exit_from_guest_op {H}.
Arguments chip_flags {H}.

Definition VIRQCHIP_F_HW_VIRT : Z := Z.shiftl 1 0.
Definition FIQ_HAS_INJECT : Z := Z.shiftl 1 31.

Section chip.
Context {H : Type} (vc : virq_chip H).

Definition virqchip_update_virq (virq : virq_desc) (action : Z) (h : H) : H :=
  match update_virq_op vc with Some f => (f virq action h).2 | None => h end.
Definition virqchip_send_virq (virq : virq_desc) (h : H) : H :=
  match send_virq_op vc with Some f => (f virq h).2 | None => h end.
Definition virqchip_get_virq_state (virq : virq_desc) (h : H) : Z :=
  match get_virq_state_op vc with Some f => f virq h | None => 0 end.

(** ** vgic.c *)

(** The VM, the chip's registers and the flags of [vgic_irq_enter_to_guest], an
    [int] kept as its bit pattern. *)
Record vgic := mk_vgic {
  g_vm : vm;
  g_hw : H;
  g_flags : Z;
}.

Definition lrs_of (v : nat) (m : vm) : list Z :=
  match get_vcpu v m with Some c => lrs_bitmap (vcpu_vs c) | None => [] end.

(** The body of the loop; [true] is the [break]. *)
Definition enter_virq (v : nat) (bit : Z) (s : vgic) : option (bool * vgic) :=
  let m := g_vm s in
  c ← get_vcpu v m;
  let vs := vcpu_vs c in
  match get_virq_desc m v bit with
  | None =>
      pend ← clear_bit bit (pending_bitmap vs);
      m ← upd_vs v (set_pending_bitmap pend) m;
      Some (false, mk_vgic m (g_hw s) (g_flags s))
  | Some d =>
      act ← test_bit bit (active_bitmap vs);
      if (act : bool) then Some (false, s)
      else
        id ← find_first_zero_bit (lrs_bitmap vs) (nr_lrs vs);
        if nr_lrs vs <=? id then
          m ← upd_vs v (set_last_fail_virq bit) m;
          Some (true, mk_vgic m (g_hw s) (g_flags s))
        else
          desc ← rd d m;
          let flags := if has VIRQS_FIQ desc then Z.lor (g_flags s) FIQ_HAS_INJECT else g_flags s in
          let flags := u32 (flags + 1) in
          m ← upd d (set_d_id (u8 id)) m;
          lrs ← set_bit id (lrs_bitmap vs);
          m ← upd_vs v (set_lrs_bitmap lrs) m;
          desc ← rd d m;
          let h := virqchip_send_virq desc (g_hw s) in
          m ← upd d (set_d_state VIRQ_STATE_PENDING) m;
          acts ← set_bit bit (active_bitmap vs);
          pend ← clear_bit bit (pending_bitmap vs);
          m ← upd_vs v (fun vs => set_pending_bitmap pend (set_pending_virq (pending_virq vs - 1)
                                 (set_active_virq (u32 (active_virq vs + 1)) (set_active_bitmap acts vs)))) m;
          Some (false, mk_vgic m h flags)
  end.

Definition enter_pass (v : nat) (bit size : Z) : vgic -> option vgic :=
  for_each_set_bit_from (fun s => pending_of v (g_vm s)) size (enter_virq v) bit.

(** [goto repeat] is taken at most once, as [old] is 0 then. *)
Definition vgic_irq_enter_to_guest (v : nat) (m : vm) (h : H) : option (Z * vm * H) :=
  c ← get_vcpu v m;
  let bit := last_fail_virq (vcpu_vs c) in
  let size := vm_irq_count m - bit in
  let old := last_fail_virq (vcpu_vs c) in
  m ← upd_vs v (set_last_fail_virq 0) m;
  s ← enter_pass v bit size (mk_vgic m h 0);
  c ← get_vcpu v (g_vm s);
  s ← (if negb (old =? 0) && (last_fail_virq (vcpu_vs c) =? 0) then enter_pass v 0 old s else Some s);
  Some (g_flags s, g_vm s, g_hw s).

Definition exit_virq (v : nat) (bit : Z) (s : vm * H) : option (bool * (vm * H)) :=
  let '(m, h) := s in
  c ← get_vcpu v m;
  let vs := vcpu_vs c in
  match get_virq_desc m v bit with
  | None =>
      act ← clear_bit bit (active_bitmap vs);
      m ← upd_vs v (set_active_bitmap act) m;
      Some (false, (m, h))
  | Some d =>
      desc ← rd d m;
      let state := virqchip_get_virq_state desc h in
      m ← upd d (set_d_state (u8 state)) m;
      desc ← rd d m;
      if d_state desc =? VIRQ_STATE_INACTIVE then
        let h := virqchip_update_virq desc VIRQ_ACTION_CLEAR h in
        lrs ← clear_bit (d_id desc) (lrs_bitmap vs);
        m ← upd d (set_d_id VIRQ_INVALID_ID) m;
        act ← clear_bit bit (active_bitmap vs);
        m ← upd_vs v (fun vs => set_active_bitmap act (set_active_virq (u32 (active_virq vs - 1)) (set_lrs_bitmap lrs vs))) m;
        Some (false, (m, h))
      else Some (false, (m, h))
  end.

Definition vgic_irq_exit_from_guest (v : nat) (m : vm) (h : H) : option (Z * vm * H) :=
  '(m, h) ← for_each_set_bit (fun s => active_of v s.1) (vm_irq_count m) (exit_virq v) (m, h);
  Some (0, m, h).

(** [clear_pending_virq] of virq.c: the end of an interrupt under software
    emulation. *)
Definition clear_pending_virq (v : nat) (irq : Z) (m : vm) (h : H) : option (vm * H) :=
  match get_virq_desc m v irq with
  | None => Some (m, h)
  | Some d =>
      desc ← rd d m;
      if negb (d_state desc =? VIRQ_STATE_ACTIVE) then Some (m, h)
      else
        act ← clear_bit irq (active_of v m);
        m ← upd_vs v (set_active_bitmap act) m;
        m ← upd d (set_d_state VIRQ_STATE_INACTIVE) m;
        desc ← rd d m;
        Some (m, virqchip_update_virq desc VIRQ_ACTION_CLEAR h)
  end.

(** ** virq_chip.c: the hooks around the guest.  A call through a NULL pointer
    is a fault.  The virtual interrupt lines of
    the cpu are raised by software when the chip has no support for it. *)
Inductive vline := line_none | line_irq | line_fiq | line_hw.

Definition virqchip_enter_to_guest (v : nat) (m : vm) (h : H) : option (Z * vm * H * vline) :=
  '(flags, m, h) ← (match enter_to_guest_op vc with hook_vgic => vgic_irq_enter_to_guest v m h | hook_null => None end);
  let line :=
    if negb (Z.land (chip_flags vc) VIRQCHIP_F_HW_VIRT =? 0) then line_hw
    else if flags =? 0 then line_none
    else if negb (Z.land flags FIQ_HAS_INJECT =? 0) then line_fiq else line_irq in
  Some (0, m, h, line).

Definition virqchip_exit_from_guest (v : nat) (m : vm) (h : H) : option (Z * vm * H) :=
  match exit_from_guest_op vc with hook_vgic => vgic_irq_exit_from_guest v m h | hook_null => Some (0, m, h) end.
End chip.

(** A [uint32_t] in the byte order of a device tree. *)
Definition cpu_to_fdt32 (x : Z) : Z :=
  Z.lor (Z.shiftl (Z.land x 0xff) 24) (Z.lor (Z.shiftl (Z.land (Z.shiftr x 8) 0xff) 16)
    (Z.lor (Z.shiftl (Z.land (Z.shiftr x 16) 0xff) 8) (Z.land (Z.shiftr x 24) 0xff))).

Definition vgic_generate_virq (virq : Z) : list Z := [cpu_to_fdt32 0x0; cpu_to_fdt32 (u32 (virq - 32)); cpu_to_fdt32 0x4].

(** ** What the delivery relies on *)

(** A chip with [nr] list registers: each has a state and the number of the virq
    in it.  [send_virq] fills the register of the virq, [get_virq_state] reads
    its state and a clear empties it. *)
Class ListRegisters {H : Type} (vc : virq_chip H) (nr : Z) := {
  lr_state : H -> Z -> Z;
  lr_vid : H -> Z -> Z;
  lr_count : 0 < nr <= 128;
  lr_state_byte : forall h k, 0 <= lr_state h k < 256;
  send_lr : forall x h k, 0 <= d_id x < nr -> 0 <= k < nr -> 0 <= d_vno x < 1024 ->
    lr_state (virqchip_send_virq vc x h) k = (if k =? d_id x then VIRQ_STATE_PENDING else lr_state h k)
    /\ lr_vid (virqchip_send_virq vc x h) k = (if k =? d_id x then d_vno x else lr_vid h k);
  get_lr : forall x h, 0 <= d_id x < nr -> virqchip_get_virq_state vc x h = lr_state h (d_id x);
  clear_lr : forall x h k, 0 <= d_id x < nr -> 0 <= k < nr -> k <> d_id x ->
    lr_state (virqchip_update_virq vc x VIRQ_ACTION_CLEAR h) k = lr_state h k
    /\ lr_vid (virqchip_update_virq vc x VIRQ_ACTION_CLEAR h) k = lr_vid h k;
}.

(** The descriptor of the virq [i] of the vcpu [v]. *)
Definition desc (v : nat) (m : vm) (i : Z) : option virq_desc := d ← get_virq_desc m v i; rd d m.

Lemma get_virq_desc_inj m v i j d :
  get_virq_desc m v i = Some d -> get_virq_desc m v j = Some d -> i = j.
Proof.
  unfold get_virq_desc, VIRQ_SPI_OFFSET. destruct (i <? VM_LOCAL_VIRQ_NR), (VM_VIRQ_NR (vspi_nr m) <=? i),
    (j <? VM_LOCAL_VIRQ_NR), (VM_VIRQ_NR (vspi_nr m) <=? j); intros [= <-] [=]; lia.
Qed.

Lemma get_virq_desc_dref m v i d : 0 <= i -> get_virq_desc m v i = Some d -> dref_ok d.
Proof.
  unfold get_virq_desc, VIRQ_SPI_OFFSET. destruct (Z.ltb_spec i VM_LOCAL_VIRQ_NR), (VM_VIRQ_NR (vspi_nr m) <=? i); intros Hi [= <-]; cbn; lia.
Qed.

Lemma get_virq_desc_frame m m' v i : vspi_nr m' = vspi_nr m -> get_virq_desc m' v i = get_virq_desc m v i.
Proof. intros E. unfold get_virq_desc. by rewrite E. Qed.

(** Assigning through the pointer to the descriptor of [i]. *)
Lemma upd_desc v i d x f m :
  vm_ok m -> 0 <= i -> get_virq_desc m v i = Some d -> rd d m = Some x -> keeps f x ->
  exists m', upd d f m = Some m' /\ vm_ok m' /\ rest m' = rest m /\ rd d m' = Some (f x) /\ get_virq_desc m' v i = Some d
    /\ (forall j, 0 <= j -> desc v m' j = if j =? i then Some (f x) else desc v m j).
Proof.
  intros Hm Hi Hd Hx Hk. pose proof (get_virq_desc_dref _ _ _ _ Hi Hd) as Hok.
  destruct (upd_keeps d x f m Hm Hok Hx Hk) as (m' & E & Hm' & Hr & Hx' & Ho). exists m'.
  pose proof (proj1 (rest_fields _ _ Hr)) as En. split_and!; try done; [by rewrite (get_virq_desc_frame _ _ _ _ En)|].
  intros j Hj. unfold desc. rewrite (get_virq_desc_frame _ _ _ _ En). destruct (Z.eqb_spec j i) as [->|Hn].
  - rewrite Hd. msimpl. done.
  - destruct (get_virq_desc m v j) as [d'|] eqn:Ej; [|done]. msimpl. apply Ho; [by eapply get_virq_desc_dref|].
    intros ->. apply Hn. by eapply get_virq_desc_inj.
Qed.

(** Changing the vcpu's bitmaps and counters leaves its descriptors alone. *)
Lemma upd_vs_desc v c f m j :
  get_vcpu v m = Some c -> local_desc (f (vcpu_vs c)) = local_desc (vcpu_vs c) ->
  desc v (set_vcpus (<[v := set_vcpu_vs (f (vcpu_vs c)) c]> (vcpus m)) m) j = desc v m j.
Proof.
  intros Hc Hf. unfold desc. rewrite (get_virq_desc_frame m _) by done.
  destruct (get_virq_desc m v j) as [d|]; [|done]. msimpl. by apply rd_upd_vs.
Qed.

Lemma strip_fields c' c : strip c' = strip c ->
  nr_lrs (vcpu_vs c') = nr_lrs (vcpu_vs c) /\ last_fail_virq (vcpu_vs c') = last_fail_virq (vcpu_vs c)
  /\ pending_virq (vcpu_vs c') = pending_virq (vcpu_vs c) /\ active_virq (vcpu_vs c') = active_virq (vcpu_vs c)
  /\ pending_bitmap (vcpu_vs c') = pending_bitmap (vcpu_vs c) /\ active_bitmap (vcpu_vs c') = active_bitmap (vcpu_vs c)
  /\ lrs_bitmap (vcpu_vs c') = lrs_bitmap (vcpu_vs c).
Proof. intros [= _ _ -> -> -> -> -> -> ->]. done. Qed.

Lemma weight_range n bm : 0 <= n -> 0 <= weight n bm <= n.
Proof. intros Hn. unfold weight. pose proof (count_upto_range (bit_at bm) (Z.to_nat n)). lia. Qed.

Lemma irq_count_bound m : vm_ok m -> 0 <= vm_irq_count m <= 1056.
Proof. intros Hm. destruct (ok_nr m Hm). unfold vm_irq_count, VM_LOCAL_VIRQ_NR, VM_SGI_VIRQ_NR, VM_PPI_VIRQ_NR. lia. Qed.

(** ** The invariant of a vcpu's list registers *)
Section delivery.
Context {H : Type} (vc : virq_chip H) (nr : Z) `{LR : ListRegisters H vc nr}.

(** A virq that is delivered has a list register of its own, which holds its
    number, and every register in use belongs to a delivered virq. *)
Record vgic_ok (v : nat) (c : vcpu) (m : vm) (h : H) : Prop := mk_vgic_ok {
  go_vm : vm_ok m;
  go_c : get_vcpu v m = Some c;
  go_nr : 0 < nr_lrs (vcpu_vs c) <= nr;
  go_lrs : bitmap_wf (nr_lrs (vcpu_vs c)) (lrs_bitmap (vcpu_vs c));
  go_act : active_virq (vcpu_vs c) = weight (vm_irq_count m) (active_bitmap (vcpu_vs c));
  go_no : forall i x, 0 <= i < vm_irq_count m ->
    bit_at (pending_bitmap (vcpu_vs c)) i || bit_at (active_bitmap (vcpu_vs c)) i = true ->
    desc v m i = Some x -> d_vno x = i /\ i < 1024;
  go_lr : forall i x, 0 <= i < vm_irq_count m -> bit_at (active_bitmap (vcpu_vs c)) i = true -> desc v m i = Some x ->
    0 <= d_id x < nr_lrs (vcpu_vs c) /\ bit_at (lrs_bitmap (vcpu_vs c)) (d_id x) = true /\ lr_vid h (d_id x) = i;
  go_own : forall k, 0 <= k < nr_lrs (vcpu_vs c) -> bit_at (lrs_bitmap (vcpu_vs c)) k = true ->
    exists i x, 0 <= i < vm_irq_count m /\ bit_at (active_bitmap (vcpu_vs c)) i = true /\ desc v m i = Some x /\ d_id x = k;
}.

(** Two delivered virqs are never in the same register. *)
Lemma vgic_ok_exclusive v c m h i j x y :
  vgic_ok v c m h -> 0 <= i < vm_irq_count m -> 0 <= j < vm_irq_count m ->
  bit_at (active_bitmap (vcpu_vs c)) i = true -> bit_at (active_bitmap (vcpu_vs c)) j = true ->
  desc v m i = Some x -> desc v m j = Some y -> d_id x = d_id y -> i = j.
Proof.
  intros Ho Hi Hj Ai Aj Hx Hy E. destruct (go_lr _ _ _ _ Ho i x Hi Ai Hx) as (_ & _ & <-).
  destruct (go_lr _ _ _ _ Ho j y Hj Aj Hy) as (_ & _ & <-). by rewrite E.
Qed.

Lemma desc_some v c m h i : vgic_ok v c m h -> 0 <= i < vm_irq_count m ->
  exists d x, get_virq_desc m v i = Some d /\ rd d m = Some x /\ desc v m i = Some x.
Proof.
  intros Ho Hi. destruct (get_virq_desc_ok m v c i (go_vm _ _ _ _ Ho) (go_c _ _ _ _ Ho) Hi) as (d & x & Ed & Ex & _).
  exists d, x. split; [done|]. split; [done|]. unfold desc. by rewrite Ed.
Qed.

(** What the delivery of the virq [bit] makes of the state of the vcpu. *)
Definition moved (n bit : Z) (c c' : vcpu) : Prop :=
  nr_lrs (vcpu_vs c') = nr_lrs (vcpu_vs c) /\ last_fail_virq (vcpu_vs c') = last_fail_virq (vcpu_vs c)
  /\ bit_cleared n bit (pending_bitmap (vcpu_vs c)) (pending_bitmap (vcpu_vs c'))
  /\ bit_set n bit (active_bitmap (vcpu_vs c)) (active_bitmap (vcpu_vs c')).

(** The states after the assignments of one delivery, before the invariant. *)
Lemma enter_virq_steps v c m h fl bit id :
  vgic_ok v c m h -> 0 <= bit < vm_irq_count m ->
  bit_at (active_bitmap (vcpu_vs c)) bit = false ->
  find_first_zero_bit (lrs_bitmap (vcpu_vs c)) (nr_lrs (vcpu_vs c)) = Some id -> 0 <= id < nr_lrs (vcpu_vs c) ->
  bit_at (pending_bitmap (vcpu_vs c)) bit = true ->
  exists m' c' x fl', desc v m bit = Some x
    /\ enter_virq vc v bit (mk_vgic m h fl) = Some (false, mk_vgic m' (virqchip_send_virq vc (set_d_id id x) h) fl')
    /\ vm_ok m' /\ get_vcpu v m' = Some c' /\ vm_irq_count m' = vm_irq_count m
    /\ moved (vm_irq_count m) bit c c'
    /\ active_virq (vcpu_vs c') = u32 (active_virq (vcpu_vs c) + 1)
    /\ bit_set (nr_lrs (vcpu_vs c)) id (lrs_bitmap (vcpu_vs c)) (lrs_bitmap (vcpu_vs c'))
    /\ (forall j, 0 <= j -> desc v m' j = if j =? bit then Some (set_d_state VIRQ_STATE_PENDING (set_d_id id x)) else desc v m j).
Proof.
  intros Ho Hb Ha Hid Hidr Hp. destruct (desc_some v c m h bit Ho Hb) as (d & x & Ed & Ex & Hdx).
  pose proof (lr_count (ListRegisters := LR)) as Hnr. pose proof (go_nr _ _ _ _ Ho) as Hn. pose proof (go_c _ _ _ _ Ho) as Hc.
  pose proof (go_vm _ _ _ _ Ho) as Hm. destruct (ok_vcpu m Hm v c Hc) as (B1 & B2 & B3 & B4 & B5).
  unfold enter_virq. cbn [g_vm g_hw g_flags]. rewrite Hc. msimpl. rewrite Ed, (test_bit_ok _ _ _ B2 Hb), Ha. msimpl.
  rewrite Hid. msimpl. rewrite (proj2 (Z.leb_gt _ _)) by lia. rewrite Ex. msimpl.
  assert (u8 id = id) as Eid by (unfold u8; apply Z.mod_small; lia). rewrite Eid.
  destruct (upd_desc v bit d x (set_d_id id) m) as (m1 & E1 & Hm1 & Hr1 & Hx1 & Ed1 & Hd1); [done|lia|done|done|done|].
  rewrite E1. msimpl. destruct (upd_same_vcpu _ _ _ _ _ _ Hc E1) as (c1 & Hc1 & S1).
  destruct (set_bit_ok _ _ id (go_lrs _ _ _ _ Ho) Hidr) as (lrs & El & Bl). rewrite El. msimpl.
  rewrite (upd_vs_some _ _ _ _ Hc1). msimpl. set (m2 := set_vcpus _ m1).
  assert (vm_ok m2) as Hm2.
  { apply (vm_ok_upd_vs v c1 (set_lrs_bitmap lrs)); [done|done|]. exact (ok_vcpu m1 Hm1 v c1 Hc1). }
  assert (rd d m2 = Some (set_d_id id x)) as Hx2 by (by rewrite <- Hx1; apply (rd_upd_vs v c1 (set_lrs_bitmap lrs))).
  assert (get_virq_desc m2 v bit = Some d) as Ed2 by done.
  set (c2 := set_vcpu_vs (set_lrs_bitmap lrs (vcpu_vs c1)) c1).
  assert (get_vcpu v m2 = Some c2) as Hc2 by (unfold m2; by rewrite (get_vcpu_insert _ _ _ _ _ Hc1), decide_True).
  rewrite Hx2. msimpl.
  destruct (upd_desc v bit d (set_d_id id x) (set_d_state VIRQ_STATE_PENDING) m2) as (m3 & E3 & Hm3 & Hr3 & Hx3 & Ed3 & Hd3);
    [done|lia|done|done|done|].
  rewrite E3. msimpl. destruct (upd_same_vcpu _ _ _ _ _ _ Hc2 E3) as (c3 & Hc3 & S3).
  destruct (set_bit_ok _ _ bit B2 Hb) as (acts & Ea & Ba). destruct (clear_bit_ok _ _ bit B1 Hb) as (pend & Ep & Bp).
  rewrite Ea. msimpl. rewrite Ep. msimpl. rewrite (upd_vs_some _ _ _ _ Hc3). msimpl.
  set (f := fun vs => set_pending_bitmap pend (set_pending_virq (pending_virq vs - 1)
       (set_active_virq (u32 (active_virq vs + 1)) (set_active_bitmap acts vs)))).
  eexists _, (set_vcpu_vs (f (vcpu_vs c3)) c3), x, _. split; [done|]. split; [done|].
  destruct (strip_fields _ _ S1) as (N1 & L1 & P1 & A1 & PB1 & AB1 & LB1).
  destruct (strip_fields _ _ S3) as (N3 & L3 & P3 & A3 & PB3 & AB3 & LB3). cbn in N3, L3, P3, A3, PB3, AB3, LB3.
  assert (vm_irq_count m3 = vm_irq_count m) as En.
  { unfold vm_irq_count. rewrite (proj1 (rest_fields _ _ Hr3)). unfold m2; cbn. by rewrite (proj1 (rest_fields _ _ Hr1)). }
  destruct (ok_vcpu m3 Hm3 v c3 Hc3) as (_ & _ & G3 & G4 & G5). rewrite En, PB3, PB1 in G4.
  split; [|split; [|split; [done|split; [|split; [|split]]]]].
  - apply (vm_ok_upd_vs v c3 f); [done|done|]. rewrite En. split; [apply Bp|]. split; [apply Ba|]. split; [done|]. split; [|done].
    cbn. rewrite (weight_cleared _ _ _ _ Hb Bp), Hp, G4. done.
  - by rewrite (get_vcpu_insert _ _ _ _ _ Hc3), decide_True.
  - split; [cbn; congruence|]. split; [cbn; congruence|]. by split.
  - cbn. by rewrite A3, A1.
  - cbn. by rewrite LB3.
  - intros j Hj. rewrite (upd_vs_desc v c3 f) by done. rewrite Hd3 by done. destruct (j =? bit) eqn:Ej; [done|].
    unfold m2. rewrite (upd_vs_desc v c1 (set_lrs_bitmap lrs)) by done. rewrite Hd1 by done. by rewrite Ej.
Qed.

(** One delivery keeps the invariant. *)
Lemma enter_virq_send v c m h fl bit id :
  vgic_ok v c m h -> 0 <= bit < vm_irq_count m ->
  bit_at (active_bitmap (vcpu_vs c)) bit = false ->
  find_first_zero_bit (lrs_bitmap (vcpu_vs c)) (nr_lrs (vcpu_vs c)) = Some id -> 0 <= id < nr_lrs (vcpu_vs c) ->
  bit_at (lrs_bitmap (vcpu_vs c)) id = false -> bit_at (pending_bitmap (vcpu_vs c)) bit = true ->
  exists m' h' c' fl', enter_virq vc v bit (mk_vgic m h fl) = Some (false, mk_vgic m' h' fl')
    /\ vgic_ok v c' m' h' /\ vm_irq_count m' = vm_irq_count m /\ moved (vm_irq_count m) bit c c'.
Proof.
  intros Ho Hb Ha Hid Hidr Hfree Hp.
  destruct (enter_virq_steps v c m h fl bit id Ho Hb Ha Hid Hidr Hp)
    as (m' & c' & x & fl' & Hx & E & Hm' & Hc' & En & Hmv & Hact & [Wl Bl] & Hd).
  exists m', (virqchip_send_virq vc (set_d_id id x) h), c', fl'. split; [done|]. split; [|done].
  destruct Hmv as (Nr & _ & [Wp Bp] & [Wa Ba]). destruct (irq_count_bound m (go_vm _ _ _ _ Ho)) as [Hc0 Hc1].
  pose proof (go_nr _ _ _ _ Ho) as Hn. assert (d_vno x = bit /\ bit < 1024) as [Hno Hlim].
  { apply (go_no _ _ _ _ Ho bit x Hb); [by rewrite Hp|done]. }
  assert (forall k, 0 <= k < nr -> lr_vid (virqchip_send_virq vc (set_d_id id x) h) k = if k =? id then bit else lr_vid h k) as Hvid.
  { intros k Hk. destruct (send_lr (set_d_id id x) h k) as [_ Hs]; cbn in *; [lia|done|lia|]. by rewrite Hs, Hno. }
  split; try done.
  - by rewrite Nr.
  - by rewrite Nr.
  - rewrite Hact, (go_act _ _ _ _ Ho), En, (weight_set _ _ _ _ Hb (conj Wa Ba)), Ha. cbn.
    unfold u32. apply Z.mod_small. pose proof (weight_range (vm_irq_count m) (active_bitmap (vcpu_vs c)) Hc0). lia.
  - intros i y Hi Hor Hy. rewrite En in Hi. rewrite Bp, Ba in Hor by lia. rewrite Hd in Hy by lia.
    destruct (Z.eqb_spec i bit) as [->|Hne]; [by injection Hy as <-|]. by apply (go_no _ _ _ _ Ho).
  - intros i y Hi Hai Hy. rewrite En in Hi. rewrite Ba in Hai by lia. rewrite Hd in Hy by lia. rewrite Nr.
    destruct (Z.eqb_spec i bit) as [->|Hne].
    + injection Hy as <-. cbn. split; [done|]. rewrite Bl, Hvid by lia. by rewrite Z.eqb_refl.
    + destruct (go_lr _ _ _ _ Ho i y Hi Hai Hy) as (K1 & K2 & K3). split; [done|]. rewrite Bl, K2, Hvid by lia.
      split; [apply orb_true_r|]. destruct (Z.eqb_spec (d_id y) id) as [Ek|]; [|done]. rewrite Ek in K2. congruence.
  - intros k Hk Hbk. rewrite Nr in Hk. rewrite Bl in Hbk by lia. rewrite En. destruct (Z.eqb_spec k id) as [->|Hne].
    + exists bit, (set_d_state VIRQ_STATE_PENDING (set_d_id id x)). rewrite Ba, Hd, Z.eqb_refl by lia. done.
    + destruct (go_own _ _ _ _ Ho k Hk Hbk) as (i & y & Hi & Hai & Hy & Hk'). exists i, y. rewrite Ba, Hd, Hai by lia.
      split; [done|]. split; [apply orb_true_r|]. destruct (Z.eqb_spec i bit) as [->|]; [congruence|done].
Qed.

(** ** The loop over the pending virqs *)

(** Between [c] and [c'] virqs were delivered, nothing else happened. *)
Definition progress (n : Z) (c c' : vcpu) : Prop :=
  nr_lrs (vcpu_vs c') = nr_lrs (vcpu_vs c)
  /\ (forall i, 0 <= i -> bit_at (pending_bitmap (vcpu_vs c')) i = true -> bit_at (pending_bitmap (vcpu_vs c)) i = true)
  /\ (forall i, 0 <= i -> bit_at (active_bitmap (vcpu_vs c)) i = true -> bit_at (active_bitmap (vcpu_vs c')) i = true)
  /\ (forall i, 0 <= i -> bit_at (active_bitmap (vcpu_vs c')) i = true ->
        bit_at (active_bitmap (vcpu_vs c)) i = true
        \/ bit_at (pending_bitmap (vcpu_vs c)) i = true /\ bit_at (pending_bitmap (vcpu_vs c')) i = false)
  /\ (forall i, 0 <= i -> bit_at (pending_bitmap (vcpu_vs c)) i = true ->
        bit_at (pending_bitmap (vcpu_vs c')) i = true \/ bit_at (active_bitmap (vcpu_vs c')) i = true).

Lemma progress_refl n c : progress n c c.
Proof. split_and!; auto. Qed.

Lemma progress_trans n c1 c2 c3 : progress n c1 c2 -> progress n c2 c3 -> progress n c1 c3.
Proof.
  intros (A1 & A2 & A3 & A4 & A5) (B1 & B2 & B3 & B4 & B5). split; [congruence|]. split; [auto|]. split; [auto|]. split.
  - intros i Hi Hc. destruct (B4 i Hi Hc) as [H2|[H2 H3]].
    + destruct (A4 i Hi H2) as [|[? H4]]; [by left|]. right. split; [done|].
      destruct (bit_at (pending_bitmap (vcpu_vs c3)) i) eqn:E; [|done]. apply B2 in E; [congruence|done].
    + right. split; [by apply A2|done].
  - intros i Hi Hc. destruct (A5 i Hi Hc) as [H2|H2]; [by apply B5|right; by apply B3].
Qed.

Lemma moved_progress n bit c c' : 0 <= bit -> bit_at (pending_bitmap (vcpu_vs c)) bit = true -> moved n bit c c' -> progress n c c'.
Proof.
  intros Hb Hp (N & _ & [_ Bp] & [_ Ba]). split; [done|]. split_and!; intros i Hi; rewrite ?Bp, ?Ba by done.
  - by intros [_ ?]%andb_true_iff.
  - intros ->. apply orb_true_r.
  - destruct (Z.eqb_spec i bit) as [->|]; [by right|by left].
  - intros ->. destruct (Z.eqb_spec i bit) as [->|]; [by right|by left].
Qed.

Definition all_lrs_busy (c : vcpu) : Prop :=
  forall k, 0 <= k < nr_lrs (vcpu_vs c) -> bit_at (lrs_bitmap (vcpu_vs c)) k = true.

(** Recording the virq that found no register keeps the invariant. *)
Lemma last_fail_ok v c m h k : vgic_ok v c m h ->
  exists m', upd_vs v (set_last_fail_virq k) m = Some m' /\ vm_irq_count m' = vm_irq_count m
    /\ vgic_ok v (set_vcpu_vs (set_last_fail_virq k (vcpu_vs c)) c) m' h.
Proof.
  intros Ho. pose proof (go_c _ _ _ _ Ho) as Hc. rewrite (upd_vs_some _ _ _ _ Hc). eexists. split; [done|]. split; [done|].
  assert (forall j, desc v (set_vcpus (<[v := set_vcpu_vs (set_last_fail_virq k (vcpu_vs c)) c]> (vcpus m)) m) j = desc v m j) as Hd
    by (intros j; by apply (upd_vs_desc v c (set_last_fail_virq k))).
  destruct Ho as [H1 H2 H3 H4 H5 H6 H7 H8]. split; try done.
  - apply (vm_ok_upd_vs v c (set_last_fail_virq k)); [done|done|]. exact (ok_vcpu m H1 v c H2).
  - by rewrite (get_vcpu_insert _ _ _ _ _ Hc), decide_True.
  - intros i x. rewrite Hd. apply H6.
  - intros i x. rewrite Hd. apply H7.
  - intros j Hj Hb. destruct (H8 j Hj Hb) as (i & x & G). exists i, x. by rewrite Hd.
Qed.

(** One round of the loop. *)
Lemma enter_virq_ok v c m h fl bit :
  vgic_ok v c m h -> 0 <= bit < vm_irq_count m -> bit_at (pending_bitmap (vcpu_vs c)) bit = true ->
  exists brk m' h' c' fl', enter_virq vc v bit (mk_vgic m h fl) = Some (brk, mk_vgic m' h' fl')
    /\ vgic_ok v c' m' h' /\ vm_irq_count m' = vm_irq_count m /\ progress (vm_irq_count m) c c'
    /\ (if brk : bool then all_lrs_busy c' /\ last_fail_virq (vcpu_vs c') = bit
        else bit_at (active_bitmap (vcpu_vs c')) bit = true /\ last_fail_virq (vcpu_vs c') = last_fail_virq (vcpu_vs c)).
Proof.
  intros Ho Hb Hp. pose proof (go_c _ _ _ _ Ho) as Hc. pose proof (go_vm _ _ _ _ Ho) as Hm.
  destruct (ok_vcpu m Hm v c Hc) as (B1 & B2 & _). destruct (desc_some v c m h bit Ho Hb) as (d & x & Ed & _ & _).
  destruct (find_first_zero_bit_spec _ _ (go_lrs _ _ _ _ Ho)) as (id & Hid & Hr & Hlow & Hf).
  destruct (bit_at (active_bitmap (vcpu_vs c)) bit) eqn:Ea.
  - exists false, m, h, c, fl. split; [|split; [done|split; [done|split; [apply progress_refl|done]]]].
    unfold enter_virq. cbn [g_vm]. rewrite Hc. msimpl. by rewrite Ed, (test_bit_ok _ _ _ B2 Hb), Ea.
  - destruct (Z.lt_ge_cases id (nr_lrs (vcpu_vs c))) as [Hlt|Hge].
    + destruct (enter_virq_send v c m h fl bit id) as (m' & h' & c' & fl' & E & Ho' & En & Hmv); try done; try lia.
      { apply negb_true_iff, Hf. lia. }
      exists false, m', h', c', fl'. split; [done|]. split; [done|]. split; [done|].
      split; [apply (moved_progress _ bit); [lia|done|done]|]. destruct Hmv as (_ & Hl & _ & [_ Ba]). rewrite Ba by lia.
      by rewrite Z.eqb_refl.
    + destruct (last_fail_ok v c m h bit Ho) as (m' & E & En & Ho').
      exists true, m', h, (set_vcpu_vs (set_last_fail_virq bit (vcpu_vs c)) c), fl. split.
      * unfold enter_virq. cbn [g_vm g_hw g_flags]. rewrite Hc. msimpl. rewrite Ed, (test_bit_ok _ _ _ B2 Hb), Ea. msimpl.
        rewrite Hid. msimpl. by rewrite (proj2 (Z.leb_le _ _)), E by lia.
      * split; [done|]. split; [done|]. split; [by split_and!; auto|]. split; [|done].
        intros k Hk. cbn in *. apply negb_false_iff, Hlow. lia.
Qed.

(** The outcome of a pass over the virqs from [bit] to [size]: they are all
    delivered, or the registers are exhausted. *)
Definition pass_result (v : nat) (c : vcpu) (n bit size : Z) (s : vgic) : Prop :=
  exists c', vgic_ok v c' (g_vm s) (g_hw s) /\ vm_irq_count (g_vm s) = n /\ progress n c c'
    /\ (last_fail_virq (vcpu_vs c') = last_fail_virq (vcpu_vs c)
         /\ (forall i, bit <= i < size -> bit_at (pending_bitmap (vcpu_vs c)) i = true -> bit_at (active_bitmap (vcpu_vs c')) i = true)
        \/ all_lrs_busy c' /\ bit <= last_fail_virq (vcpu_vs c') < size).

Lemma enter_pass_spec v c m h fl bit size :
  vgic_ok v c m h -> 0 <= bit -> 0 <= size <= vm_irq_count m ->
  exists s', enter_pass vc v bit size (mk_vgic m h fl) = Some s' /\ pass_result v c (vm_irq_count m) bit size s'.
Proof.
  intros Ho Hb Hs. destruct (Z.lt_ge_cases size bit) as [Hlt|Hge].
  { exists (mk_vgic m h fl). split.
    - unfold enter_pass, for_each_set_bit_from, find_next_bit, _find_next_bit. rewrite (proj2 (Z.leb_le size bit)), orb_true_r by lia.
      msimpl. destruct (Z.to_nat size); cbn [each_bit_loop]; by rewrite Z.ltb_irrefl.
    - exists c. split; [done|]. split; [done|]. split; [apply progress_refl|]. left. split; [done|]. intros; lia. }
  set (n := vm_irq_count m).
  apply (for_each_set_bit_from_spec (fun s => pending_of v (g_vm s)) size (enter_virq vc v)
    (fun b s => exists c', vgic_ok v c' (g_vm s) (g_hw s) /\ vm_irq_count (g_vm s) = n /\ progress n c c' /\ bit <= b
       /\ last_fail_virq (vcpu_vs c') = last_fail_virq (vcpu_vs c)
       /\ forall i, bit <= i < b -> bit_at (pending_bitmap (vcpu_vs c)) i = true -> bit_at (active_bitmap (vcpu_vs c')) i = true)
    (pass_result v c n bit size)).
  - intros b s (c' & Ho' & En & _). rewrite (pending_of_get _ _ _ (go_c _ _ _ _ Ho')).
    destruct (ok_vcpu _ (go_vm _ _ _ _ Ho') v c' (go_c _ _ _ _ Ho')) as ((W1 & W2 & W3) & _). rewrite En in W2.
    split; [done|]. unfold n in W2. lia.
  - intros b b' s (c' & Ho' & En & Hp & Hbb & Hl & Ha) Hle Hz. exists c'. split_and!; try done; [lia|].
    intros i Hi Hpi. destruct (Z.lt_ge_cases i b); [apply Ha; [lia|done]|].
    destruct Hp as (_ & _ & _ & _ & P5). destruct (P5 i ltac:(lia) Hpi) as [Hp'|]; [|done].
    rewrite (pending_of_get _ _ _ (go_c _ _ _ _ Ho')) in Hz. by rewrite Hz in Hp' by lia.
  - intros i [m1 h1 fl1] (c' & Ho' & En & Hp & Hbb & Hl & Ha) Hi Hbit. cbn [g_vm g_hw] in *.
    rewrite (pending_of_get _ _ _ (go_c _ _ _ _ Ho')) in Hbit.
    destruct (enter_virq_ok v c' m1 h1 fl1 i Ho') as (brk & m2 & h2 & c2 & fl2 & E & Ho2 & En2 & Hp2 & Hb2); [rewrite En; unfold n; lia|done|].
    exists brk, (mk_vgic m2 h2 fl2). split; [done|]. rewrite En in *. pose proof (progress_trans _ _ _ _ Hp Hp2) as Hp3. destruct brk.
    + exists c2. split; [done|]. split; [done|]. split; [done|]. right. destruct Hb2 as [? ->]. split; [done|]. lia.
    + exists c2. split_and!; try done; [lia|by rewrite (proj2 Hb2)|]. intros j Hj Hpj.
      destruct (decide (j = i)) as [->|]; [apply Hb2|]. destruct Hp2 as (_ & _ & P3 & _). apply P3; [lia|]. apply Ha; [lia|done].
  - intros s (c' & Ho' & En & Hp & _ & Hl & Ha). exists c'. split; [done|]. split; [done|]. split; [done|]. by left.
  - lia.
  - exists c. cbn [g_vm g_hw]. split_and!; try done; [apply progress_refl|intros; lia].
Qed.

(** C29: entering the guest keeps the invariant that every delivered virq has a
    list register of its own and only moves pending virqs to delivered ones.
    With [k] the virq where the last entry ran out of registers ([0] if it did
    not), the virqs below [k] and from [k] to [n - k] that are pending are
    delivered unless all list registers are in use: all of the [n] virqs when
    [k] is 0.  The virqs from [n - k] on are not looked at this time. *)
Theorem vgic_enter_to_guest_correct v c m h :
  vgic_ok v c m h -> 0 <= last_fail_virq (vcpu_vs c) < vm_irq_count m ->
  exists flags m' h' c', vgic_irq_enter_to_guest vc v m h = Some (flags, m', h') /\ vgic_ok v c' m' h'
    /\ vm_irq_count m' = vm_irq_count m /\ progress (vm_irq_count m) c c'
    /\ 0 <= last_fail_virq (vcpu_vs c') < vm_irq_count m
    /\ (all_lrs_busy c' \/ forall i, 0 <= i < last_fail_virq (vcpu_vs c) \/ last_fail_virq (vcpu_vs c) <= i < vm_irq_count m - last_fail_virq (vcpu_vs c) ->
        bit_at (pending_bitmap (vcpu_vs c)) i = true -> bit_at (active_bitmap (vcpu_vs c')) i = true).
Proof.
  intros Ho Hl. set (n := vm_irq_count m) in *. set (k := last_fail_virq (vcpu_vs c)) in *.
  unfold vgic_irq_enter_to_guest. rewrite (go_c _ _ _ _ Ho). msimpl. fold k n.
  destruct (last_fail_ok v c m h 0 Ho) as (m0 & E0 & En0 & Ho0). rewrite E0. msimpl.
  set (c0 := set_vcpu_vs (set_last_fail_virq 0 (vcpu_vs c)) c) in *.
  assert (progress n c c0) as Hp0 by (by split_and!; auto).
  destruct (enter_pass_spec v c0 m0 h 0 k (n - k) Ho0) as (s1 & E1 & c1 & Ho1 & En1 & Hp1 & Hr1); [lia|rewrite En0; lia|].
  rewrite E1. msimpl. rewrite (go_c _ _ _ _ Ho1). msimpl. rewrite En0 in En1. rewrite En0 in Hp1. fold n in En1, Hp1.
  pose proof (progress_trans _ _ _ _ Hp0 Hp1) as Hp01. change (last_fail_virq (vcpu_vs c0)) with 0 in Hr1.
  change (pending_bitmap (vcpu_vs c0)) with (pending_bitmap (vcpu_vs c)) in Hr1.
  assert (0 <= last_fail_virq (vcpu_vs c1) < n) as Hl1 by (destruct Hr1 as [[-> _]|[_ ?]]; lia).
  destruct (Z.eqb_spec k 0) as [Ek|Ek]; cbn [negb andb]; msimpl.
  - eexists _, _, _, c1. split; [done|]. split; [done|]. split; [done|]. split; [done|]. split; [done|].
    destruct Hr1 as [[_ Ha]|[Hbusy _]]; [right|by left]. intros i Hi Hpi. apply Ha; [lia|done].
  - destruct (Z.eqb_spec (last_fail_virq (vcpu_vs c1)) 0) as [El|El]; msimpl.
    + destruct s1 as [m1 h1 fl1]. cbn [g_vm g_hw g_flags] in *.
      destruct (enter_pass_spec v c1 m1 h1 fl1 0 k Ho1) as (s2 & E2 & c2 & Ho2 & En2 & Hp2 & Hr2); [lia|rewrite En1; lia|].
      rewrite E2. msimpl. rewrite En1 in *. eexists _, _, _, c2. split; [done|].
      split; [done|]. split; [done|]. split; [by eapply progress_trans|]. split; [destruct Hr2 as [[-> _]|[_ ?]]; lia|].
      destruct Hr1 as [[_ Ha1]|[_ ?]]; [|lia]. destruct Hr2 as [[_ Ha2]|[Hbusy _]]; [right|by left]. intros i Hi Hpi.
      destruct Hp2 as (_ & _ & P3 & _). destruct Hi as [Hi|Hi]; [|apply P3; [lia|by apply Ha1]].
      destruct Hp1 as (_ & _ & _ & _ & P5). destruct (P5 i ltac:(lia) Hpi) as [Hp'|Ha']; [by apply Ha2|apply P3; [lia|done]].
    + eexists _, _, _, c1. split; [done|]. split; [done|]. split; [done|]. split; [done|]. split; [done|]. left. by destruct Hr1 as [[? _]|[? _]].
Qed.

(** ** After the guest *)
Lemma u8_byte z : 0 <= z < 256 -> u8 z = z.
Proof. intros Hz. unfold u8. apply Z.mod_small. lia. Qed.

(** Changing the state field of a descriptor keeps the invariant. *)
Lemma vgic_ok_state v c c1 m m1 h d x k bit :
  vgic_ok v c m h -> get_virq_desc m v bit = Some d -> rd d m = Some x -> 0 <= bit ->
  upd d (set_d_state k) m = Some m1 -> vm_ok m1 -> rest m1 = rest m -> get_vcpu v m1 = Some c1 -> strip c1 = strip c ->
  (forall j, 0 <= j -> desc v m1 j = if j =? bit then Some (set_d_state k x) else desc v m j) ->
  vgic_ok v c1 m1 h.
Proof.
  intros Ho Ed Ex Hb E Hm1 Hr Hc1 S1 Hd. destruct (strip_fields _ _ S1) as (N1 & L1 & P1 & A1 & PB1 & AB1 & LB1).
  assert (vm_irq_count m1 = vm_irq_count m) as En by (unfold vm_irq_count; by rewrite (proj1 (rest_fields _ _ Hr))).
  assert (forall j y, 0 <= j -> desc v m1 j = Some y -> exists z, desc v m j = Some z /\ d_vno y = d_vno z /\ d_id y = d_id z) as Hy.
  { intros j y Hj. rewrite Hd by done. destruct (Z.eqb_spec j bit) as [->|]; [|by exists y]. intros [= <-]. exists x.
    split; [unfold desc; rewrite Ed; done|done]. }
  destruct Ho as [H1 H2 H3 H4 H5 H6 H7 H8].
  split; rewrite ?N1, ?A1, ?PB1, ?AB1, ?LB1, ?En; try done.
  - intros i y Hi Hor Hyy. destruct (Hy i y ltac:(lia) Hyy) as (z & Hz & -> & _). by apply H6.
  - intros i y Hi Ha Hyy. destruct (Hy i y ltac:(lia) Hyy) as (z & Hz & _ & ->). by apply H7.
  - intros j Hj Hbj. destruct (H8 j Hj Hbj) as (i & z & Hi & Ha & Hz & Hk). destruct (Z.eqb_spec i bit) as [->|Hne].
    + exists bit, (set_d_state k x). rewrite Hd, Z.eqb_refl by lia. unfold desc in Hz. rewrite Ed in Hz. cbn in Hz.
      rewrite Ex in Hz. by injection Hz as <-.
    + exists i, z. rewrite Hd, (proj2 (Z.eqb_neq _ _) Hne) by lia. done.
Qed.

(** The rest of a round when the guest is done with the virq. *)
Definition retire (v : nat) (bit : Z) (d : dref) (x : virq_desc) (c : vcpu) (m : vm) : option vm :=
  lrs ← clear_bit (d_id x) (lrs_bitmap (vcpu_vs c));
  m ← upd d (set_d_id VIRQ_INVALID_ID) m;
  act ← clear_bit bit (active_bitmap (vcpu_vs c));
  upd_vs v (fun vs => set_active_bitmap act (set_active_virq (u32 (active_virq vs - 1)) (set_lrs_bitmap lrs vs))) m.

Lemma retire_ok v c m h d x bit :
  vgic_ok v c m h -> get_virq_desc m v bit = Some d -> rd d m = Some x -> 0 <= bit < vm_irq_count m ->
  bit_at (active_bitmap (vcpu_vs c)) bit = true ->
  exists m' c', retire v bit d x c m = Some m' /\ vgic_ok v c' m' (virqchip_update_virq vc x VIRQ_ACTION_CLEAR h)
    /\ vm_irq_count m' = vm_irq_count m /\ pending_bitmap (vcpu_vs c') = pending_bitmap (vcpu_vs c)
    /\ last_fail_virq (vcpu_vs c') = last_fail_virq (vcpu_vs c) /\ nr_lrs (vcpu_vs c') = nr_lrs (vcpu_vs c)
    /\ bit_cleared (vm_irq_count m) bit (active_bitmap (vcpu_vs c)) (active_bitmap (vcpu_vs c'))
    /\ (forall j, 0 <= j -> j <> bit -> desc v m' j = desc v m j).
Proof.
  intros Ho Ed Ex Hb Ha. assert (desc v m bit = Some x) as Hx by (unfold desc; by rewrite Ed).
  pose proof (go_vm _ _ _ _ Ho) as Hm. pose proof (go_c _ _ _ _ Ho) as Hc. pose proof (go_nr _ _ _ _ Ho) as Hn.
  destruct (ok_vcpu m Hm v c Hc) as (B1 & B2 & B3 & B4 & B5). destruct (irq_count_bound m Hm) as [Hc0 Hcm].
  destruct (go_lr _ _ _ _ Ho bit x Hb Ha Hx) as (Hid & Hlb & Hvid). unfold retire.
  destruct (clear_bit_ok _ _ (d_id x) (go_lrs _ _ _ _ Ho) Hid) as (lrs & El & [Wl Bl]). rewrite El. msimpl.
  destruct (upd_desc v bit d x (set_d_id VIRQ_INVALID_ID) m) as (m1 & E1 & Hm1 & Hr1 & Hx1 & Ed1 & Hd1); [done|lia|done|done|done|].
  rewrite E1. msimpl. destruct (upd_same_vcpu _ _ _ _ _ _ Hc E1) as (c1 & Hc1 & S1).
  destruct (strip_fields _ _ S1) as (N1 & L1 & P1 & A1 & PB1 & AB1 & LB1).
  assert (vm_irq_count m1 = vm_irq_count m) as En by (unfold vm_irq_count; by rewrite (proj1 (rest_fields _ _ Hr1))).
  destruct (clear_bit_ok _ _ bit B2 Hb) as (act & Ea & [Wa Ba]). rewrite Ea. msimpl. rewrite (upd_vs_some _ _ _ _ Hc1).
  set (f := fun vs => set_active_bitmap act (set_active_virq (u32 (active_virq vs - 1)) (set_lrs_bitmap lrs vs))).
  eexists _, (set_vcpu_vs (f (vcpu_vs c1)) c1). split; [done|].
  assert (forall j, 0 <= j -> j <> bit -> desc v (set_vcpus (<[v := set_vcpu_vs (f (vcpu_vs c1)) c1]> (vcpus m1)) m1) j = desc v m j) as Hd.
  { intros j Hj Hne. rewrite (upd_vs_desc v c1 f) by done. by rewrite Hd1, (proj2 (Z.eqb_neq _ _) Hne). }
  split; [|done].
  assert (forall i y, 0 <= i < vm_irq_count m -> bit_at act i = true -> desc v m i = Some y ->
            i <> bit /\ bit_at (active_bitmap (vcpu_vs c)) i = true /\ d_id y <> d_id x) as Hother.
  { intros i y Hi Hai Hy. rewrite Ba in Hai by lia. apply andb_true_iff in Hai as [Hne Hai]. apply negb_true_iff, Z.eqb_neq in Hne.
    split; [done|]. split; [done|]. intros E. apply Hne. by eapply (vgic_ok_exclusive v c m h i bit y x). }
  split.
  - apply (vm_ok_upd_vs v c1 f); [done|done|]. destruct (ok_vcpu m1 Hm1 v c1 Hc1) as (G1 & G2 & G3 & G4 & G5). rewrite En in *. by split_and!.
  - by rewrite (get_vcpu_insert _ _ _ _ _ Hc1), decide_True.
  - cbn. by rewrite N1.
  - cbn. by rewrite N1.
  - change (vm_irq_count (set_vcpus _ m1)) with (vm_irq_count m1). rewrite En. cbn. rewrite A1, (go_act _ _ _ _ Ho).
    rewrite (weight_cleared _ _ _ _ Hb (conj Wa Ba)), Ha. cbn. unfold u32. apply Z.mod_small.
    pose proof (weight_range (vm_irq_count m) act Hc0) as Hw. rewrite (weight_cleared _ _ _ _ Hb (conj Wa Ba)), Ha in Hw.
    cbn in Hw. lia.
  - cbn. intros i y Hi Hor Hy. change (vm_irq_count (set_vcpus _ m1)) with (vm_irq_count m1) in Hi. rewrite En in Hi.
    rewrite PB1 in Hor. destruct (decide (i = bit)) as [->|Hne].
    + rewrite (upd_vs_desc v c1 f), Hd1, Z.eqb_refl in Hy by (done || lia). injection Hy as <-.
      by apply (go_no _ _ _ _ Ho bit x Hb); [rewrite Ha, orb_true_r|].
    + rewrite Hd in Hy by (done || lia). apply (go_no _ _ _ _ Ho i y Hi); [|done]. apply orb_true_iff.
      apply orb_true_iff in Hor as [|Hai]; [by left|right]. rewrite Ba in Hai by lia. by apply andb_true_iff in Hai as [_ ?].
  - cbn. intros i y Hi Hai Hy. change (vm_irq_count (set_vcpus _ m1)) with (vm_irq_count m1) in Hi. rewrite En in Hi.
    assert (i <> bit) as Hne by (intros ->; rewrite Ba, Z.eqb_refl in Hai by lia; done).
    rewrite Hd in Hy by (done || lia). destruct (Hother i y Hi Hai Hy) as (_ & Hai' & Hids).
    destruct (go_lr _ _ _ _ Ho i y Hi Hai' Hy) as (K1 & K2 & K3). rewrite N1. split; [done|]. rewrite Bl, K2 by lia.
    rewrite (proj2 (Z.eqb_neq _ _) Hids). split; [done|].
    destruct (clear_lr x h (d_id y)) as [_ Hv]; [lia|lia|done|]. by rewrite Hv.
  - cbn. intros k Hk Hbk. rewrite N1 in Hk. rewrite Bl in Hbk by lia. apply andb_true_iff in Hbk as [Hne Hbk].
    apply negb_true_iff, Z.eqb_neq in Hne. destruct (go_own _ _ _ _ Ho k Hk Hbk) as (i & y & Hi & Hai & Hy & Hyk).
    assert (i <> bit) as Hib by (intros ->; congruence).
    exists i, y. change (vm_irq_count (set_vcpus _ m1)) with (vm_irq_count m1). rewrite En. split; [done|].
    rewrite Ba, Hai, (proj2 (Z.eqb_neq _ _) Hib) by lia. split; [done|]. by rewrite Hd by (done || lia).
Qed.

Lemma exit_virq_ok v c m h x bit :
  vgic_ok v c m h -> 0 <= bit < vm_irq_count m -> bit_at (active_bitmap (vcpu_vs c)) bit = true -> desc v m bit = Some x ->
  exists m' h' c', exit_virq vc v bit (m, h) = Some (false, (m', h')) /\ vgic_ok v c' m' h' /\ vm_irq_count m' = vm_irq_count m
    /\ pending_bitmap (vcpu_vs c') = pending_bitmap (vcpu_vs c)
    /\ (forall j, 0 <= j -> bit_at (active_bitmap (vcpu_vs c')) j
          = if j =? bit then negb (lr_state h (d_id x) =? VIRQ_STATE_INACTIVE) else bit_at (active_bitmap (vcpu_vs c)) j)
    /\ (forall j, 0 <= j -> j <> bit -> desc v m' j = desc v m j)
    /\ (forall k, 0 <= k < nr -> k <> d_id x -> lr_state h' k = lr_state h k).
Proof.
  intros Ho Hb Ha Hx. destruct (desc_some v c m h bit Ho Hb) as (d & x' & Ed & Ex & Hx'). rewrite Hx in Hx'. injection Hx' as <-.
  pose proof (go_vm _ _ _ _ Ho) as Hm. pose proof (go_c _ _ _ _ Ho) as Hc. pose proof (go_nr _ _ _ _ Ho) as Hn.
  destruct (go_lr _ _ _ _ Ho bit x Hb Ha Hx) as (Hid & _ & _).
  assert (virqchip_get_virq_state vc x h = lr_state h (d_id x)) as Hst by (apply get_lr; lia).
  unfold exit_virq. rewrite Hc. msimpl. rewrite Ed, Ex. msimpl. rewrite Hst, u8_byte by apply lr_state_byte.
  set (k := lr_state h (d_id x)).
  destruct (upd_desc v bit d x (set_d_state k) m) as (m1 & E1 & Hm1 & Hr1 & Hx1 & Ed1 & Hd1); [done|lia|done|done|done|].
  rewrite E1. msimpl. rewrite Hx1. msimpl. change (d_state (set_d_state k x)) with k. change (d_id (set_d_state k x)) with (d_id x).
  destruct (upd_same_vcpu _ _ _ _ _ _ Hc E1) as (c1 & Hc1 & S1).
  destruct (strip_fields _ _ S1) as (N1 & L1 & P1 & A1 & PB1 & AB1 & LB1).
  pose proof (vgic_ok_state v c c1 m m1 h d x k bit Ho Ed Ex ltac:(lia) E1 Hm1 Hr1 Hc1 S1 Hd1) as Ho1.
  assert (vm_irq_count m1 = vm_irq_count m) as En by (unfold vm_irq_count; by rewrite (proj1 (rest_fields _ _ Hr1))).
  assert (forall j, 0 <= j -> j <> bit -> desc v m1 j = desc v m j) as Hdj.
  { intros j Hj Hne. by rewrite Hd1, (proj2 (Z.eqb_neq _ _) Hne). }
  destruct (Z.eqb_spec k VIRQ_STATE_INACTIVE) as [Ek|Ek].
  - destruct (retire_ok v c1 m1 h d (set_d_state k x) bit Ho1 Ed1 Hx1) as (m2 & c2 & E2 & Ho2 & En2 & PB2 & L2 & N2 & [_ Ba] & Hd2);
      [by rewrite En|by rewrite AB1|].
    unfold retire in E2. rewrite AB1, LB1 in E2. change (d_id (set_d_state k x)) with (d_id x) in E2.
    destruct (clear_bit (d_id x) (lrs_bitmap (vcpu_vs c))) as [lrs|]; [|done]. revert E2. msimpl.
    destruct (upd d (set_d_id VIRQ_INVALID_ID) m1) as [m1'|]; [|done]. msimpl.
    destruct (clear_bit bit (active_bitmap (vcpu_vs c))) as [act|]; [|done]. msimpl. intros E2. rewrite E2. msimpl.
    eexists m2, _, c2. split; [done|]. split; [done|]. split; [congruence|]. split; [congruence|]. split; [|split].
    + intros j Hj. rewrite Ba, AB1 by done. by destruct (j =? bit).
    + intros j Hj Hne. rewrite Hd2 by done. by apply Hdj.
    + intros q Hq Hne. destruct (clear_lr (set_d_state k x) h q) as [Hs _]; cbn; [lia|lia|done|done].
  - exists m1, h, c1. split; [done|]. split; [done|]. split; [done|]. split; [done|]. split; [|done].
    intros j Hj. rewrite AB1. destruct (Z.eqb_spec j bit) as [->|]; [|done]. done.
Qed.

(** After the guest ran, exactly the virqs that the guest has finished, as
    their list register says, are no longer delivered, their registers are free
    again, and the others and the pending ones stay. *)
Theorem vgic_exit_from_guest_correct v c m h :
  vgic_ok v c m h ->
  exists m' h' c', vgic_irq_exit_from_guest vc v m h = Some (0, m', h') /\ vgic_ok v c' m' h'
    /\ pending_bitmap (vcpu_vs c') = pending_bitmap (vcpu_vs c)
    /\ (forall i, 0 <= i < vm_irq_count m -> bit_at (active_bitmap (vcpu_vs c')) i = true -> bit_at (active_bitmap (vcpu_vs c)) i = true)
    /\ (forall i x, 0 <= i < vm_irq_count m -> bit_at (active_bitmap (vcpu_vs c)) i = true -> desc v m i = Some x ->
          bit_at (active_bitmap (vcpu_vs c')) i = negb (lr_state h (d_id x) =? VIRQ_STATE_INACTIVE)).
Proof.
  intros Ho. set (n := vm_irq_count m). unfold vgic_irq_exit_from_guest. fold n.
  assert (0 <= n) as Hn0 by (destruct (irq_count_bound m (go_vm _ _ _ _ Ho)); lia).
  edestruct (for_each_set_bit_spec (fun s : vm * H => active_of v s.1) n (exit_virq vc v)
    (fun b s => exists c', vgic_ok v c' s.1 s.2 /\ vm_irq_count s.1 = n
       /\ pending_bitmap (vcpu_vs c') = pending_bitmap (vcpu_vs c)
       /\ (forall i, 0 <= i < n -> bit_at (active_bitmap (vcpu_vs c')) i = true -> bit_at (active_bitmap (vcpu_vs c)) i = true)
       /\ (forall i x, 0 <= i < n -> bit_at (active_bitmap (vcpu_vs c)) i = true -> desc v m i = Some x ->
             if i <? b then bit_at (active_bitmap (vcpu_vs c')) i = negb (lr_state h (d_id x) =? VIRQ_STATE_INACTIVE)
             else bit_at (active_bitmap (vcpu_vs c')) i = true /\ desc v s.1 i = Some x /\ lr_state s.2 (d_id x) = lr_state h (d_id x)))
    (fun s => exists c', vgic_ok v c' s.1 s.2 /\ pending_bitmap (vcpu_vs c') = pending_bitmap (vcpu_vs c)
       /\ (forall i, 0 <= i < n -> bit_at (active_bitmap (vcpu_vs c')) i = true -> bit_at (active_bitmap (vcpu_vs c)) i = true)
       /\ (forall i x, 0 <= i < n -> bit_at (active_bitmap (vcpu_vs c)) i = true -> desc v m i = Some x ->
             bit_at (active_bitmap (vcpu_vs c')) i = negb (lr_state h (d_id x) =? VIRQ_STATE_INACTIVE))))
    with (s := (m, h)) as ((m' & h') & E & c' & Ho' & Hrest).
  - intros b [m1 h1] (c' & Ho' & En & _). cbn [fst snd] in *. rewrite (active_of_get _ _ _ (go_c _ _ _ _ Ho')).
    destruct (ok_vcpu _ (go_vm _ _ _ _ Ho') v c' (go_c _ _ _ _ Ho')) as (_ & W & _). by rewrite En in W.
  - intros b b' [m1 h1] (c' & Ho' & En & Hp & Hsub & Hall) Hle Hz. cbn [fst snd] in *. exists c'. split_and!; try done.
    intros i x Hi Hai Hx. specialize (Hall i x Hi Hai Hx). destruct (Z.ltb_spec i b).
    + by rewrite (proj2 (Z.ltb_lt _ _)) by lia.
    + destruct (Z.ltb_spec i b'); [|done]. rewrite (active_of_get _ _ _ (go_c _ _ _ _ Ho')) in Hz.
      destruct Hall as [Hall _]. by rewrite Hz in Hall by lia.
  - intros bit [m1 h1] (c' & Ho' & En & Hp & Hsub & Hall) Hbit Hset. cbn [fst snd] in *.
    rewrite (active_of_get _ _ _ (go_c _ _ _ _ Ho')) in Hset. destruct (desc_some v c m h bit Ho Hbit) as (d & x & _ & _ & Hx).
    pose proof (Hall bit x Hbit (Hsub bit Hbit Hset) Hx) as Hb. rewrite Z.ltb_irrefl in Hb. destruct Hb as (_ & Hx1 & Hst).
    destruct (exit_virq_ok v c' m1 h1 x bit Ho') as (m2 & h2 & c2 & E2 & Ho2 & En2 & Hp2 & Ha2 & Hd2 & Hl2); [by rewrite En|done|done|].
    exists false, (m2, h2). split; [done|]. cbn [fst snd]. exists c2. split; [done|]. split; [congruence|]. split; [congruence|]. split.
    + intros i Hi Hai. apply Hsub; [done|]. rewrite Ha2 in Hai by lia. destruct (Z.eqb_spec i bit) as [->|]; done.
    + intros i y Hi Hai Hy. specialize (Hall i y Hi Hai Hy). rewrite Ha2 by lia. destruct (Z.eqb_spec i bit) as [->|Hne].
      * rewrite Hx in Hy. injection Hy as <-. rewrite (proj2 (Z.ltb_lt _ _)) by lia. by rewrite Hst.
      * destruct (Z.ltb_spec i bit); [by rewrite (proj2 (Z.ltb_lt _ _)) by lia|]. rewrite (proj2 (Z.ltb_ge _ _)) by lia.
        destruct Hall as (Hac & Hdy & Hsy). split; [done|]. split; [by rewrite Hd2 by (done || lia)|].
        destruct (go_lr _ _ _ _ Ho' i y) as (K1 & _); [by rewrite En|done|done|]. pose proof (go_nr _ _ _ _ Ho').
        rewrite Hl2; [done|lia|]. intros Eid. apply Hne. rewrite <- En in Hi, Hbit. by eapply (vgic_ok_exclusive v c' m1 h1 i bit y x).
  - intros [m1 h1] (c' & Ho' & En & Hp & Hsub & Hall). exists c'. split_and!; try done.
    intros i x Hi Hai Hx. specialize (Hall i x Hi Hai Hx). by rewrite (proj2 (Z.ltb_lt _ _)) in Hall by lia.
  - done.
  - exists c. cbn [fst snd]. split_and!; try done. intros i x Hi Hai Hx. by rewrite (proj2 (Z.ltb_ge _ _)) by lia.
  - rewrite E. msimpl. cbn [fst snd] in *. by exists m', h', c'.
Qed.
End delivery.
