(* ===== verification/Vgicv2.v ===== *)
(** * The GICv2 of a guest (virt/virq_chips/vgicv2.c, include/device/gicv2.h)

    The list registers of the hypervisor interface GICH, the save and restore
    of a vcpu's interface, the emulated distributor and the emulated cpu
    interface.  The registers of GICH are a function from their offset to
    their value; what the guest and the hardware do to them between two
    accesses is outside of this file, the theorems hold for every value. *)
From S2P Require Import Prelude Bitops Bitmap Virq Vgic.

Definition GICH_HCR : Z := 0x00.
Definition GICH_VMCR : Z := 0x08.
Definition GICH_APR : Z := 0xF0.
Definition GICH_LR : Z := 0x100.
Definition CONFIG_NR_CPUS : Z := 4.

(** ** The hypervisor interface *)
Record gich := mk_gich {
  gich_reg : Z -> Z;
  irq_clear_pending : list Z;
}.

Definition readl_gich (off : Z) (h : gich) : Z := gich_reg h off.
Definition writel_gich (val off : Z) (h : gich) : gich :=
  mk_gich (fun o => if o =? off then val else gich_reg h o) (irq_clear_pending h).

(** The bit field [struct gich_lr]; a value is cut to the width of its field. *)
Definition gich_lr (vid pid resv pr state grp1 hw : Z) : Z :=
  vid mod 2 ^ 10 + 2 ^ 10 * (pid mod 2 ^ 10) + 2 ^ 20 * (resv mod 2 ^ 3) + 2 ^ 23 * (pr mod 2 ^ 5)
  + 2 ^ 28 * (state mod 2 ^ 2) + 2 ^ 30 * (grp1 mod 2) + 2 ^ 31 * (hw mod 2).

Section gicv2.
(** [gicv2_nr_lrs] is set from GICH_VTR.  [resv] stands for the bits of the local
    variable [val] that [gicv2_send_virq] does not assign. *)
Context (gicv2_nr_lrs resv : Z).

Definition gicv2_get_virq_state (virq : virq_desc) (h : gich) : Z :=
  if gicv2_nr_lrs <=? d_id virq then 0
  else Z.land (Z.shiftr (readl_gich (GICH_LR + d_id virq * 4) h) 28) 0x3.

Definition gicv2_send_virq (virq : virq_desc) (h : gich) : Z * gich :=
  if gicv2_nr_lrs <=? d_id virq then (- EINVAL, h)
  else
    let pid := if virq_is_hw virq then d_hno virq else if d_vno virq <? 16 then d_src virq else 0 in
    let val := gich_lr (d_vno virq) pid resv (d_pr virq) 1 0 (b2z (virq_is_hw virq)) in
    (0, writel_gich val (GICH_LR + d_id virq * 4) h).

(** VIRQ_ACTION_REMOVE falls through to VIRQ_ACTION_CLEAR. *)
Definition gicv2_update_virq (desc : virq_desc) (action : Z) (h : gich) : Z * gich :=
  if gicv2_nr_lrs <=? d_id desc then (- EINVAL, h)
  else if action =? VIRQ_ACTION_REMOVE then
    let h := if virq_is_hw desc then mk_gich (gich_reg h) (irq_clear_pending h ++ [d_hno desc]) else h in
    (0, writel_gich 0 (GICH_LR + d_id desc * 4) h)
  else if action =? VIRQ_ACTION_CLEAR then (0, writel_gich 0 (GICH_LR + d_id desc * 4) h)
  else (0, h).

(** The functions of the chip, for a platform with or without the hardware. *)
Definition vgicv2_init_virqchip (flags : Z) : virq_chip gich :=
  if negb (Z.land flags VIRQCHIP_F_HW_VIRT =? 0)
  then mk_chip (Some gicv2_send_virq) (Some gicv2_get_virq_state) (Some gicv2_update_virq) hook_vgic hook_vgic flags
  else mk_chip None None None hook_null hook_null flags.

Definition vgicv2_vcpu_init (v : nat) (flags : Z) (m : vm) : option vm :=
  if Z.land flags VIRQCHIP_F_HW_VIRT =? 0 then Some m else upd_vs v (set_nr_lrs gicv2_nr_lrs) m.

(** ** The context of a vcpu *)
Record gicv2_context := mk_ctx {
  ctx_hcr : Z;
  ctx_vmcr : Z;
  ctx_apr : Z;
  ctx_lr : list Z;
}.

Definition gicv2_state_init : gicv2_context := mk_ctx 1 0 0 (replicate 64 0).
Definition gicv2_state_resume : gicv2_context := gicv2_state_init.

(** The loops over the list registers from [i] on; the array has 64 entries. *)
Fixpoint save_lrs (n : nat) (i : nat) (lr : list Z) (h : gich) : option (list Z) :=
  match n with
  | O => Some lr
  | S n => _ ← lr !! i; save_lrs n (S i) (<[i := readl_gich (GICH_LR + Z.of_nat i * 4) h]> lr) h
  end.

Definition gicv2_state_save (c : gicv2_context) (h : gich) : option (gicv2_context * gich) :=
  lr ← save_lrs (Z.to_nat gicv2_nr_lrs) 0 (ctx_lr c) h;
  let c := mk_ctx (readl_gich GICH_HCR h) (readl_gich GICH_VMCR h) (readl_gich GICH_APR h) lr in
  Some (c, writel_gich 0 GICH_HCR h).

Fixpoint restore_lrs (n : nat) (i : nat) (lr : list Z) (h : gich) : option gich :=
  match n with
  | O => Some h
  | S n => x ← lr !! i; restore_lrs n (S i) lr (writel_gich x (GICH_LR + Z.of_nat i * 4) h)
  end.

Definition gicv2_state_restore (c : gicv2_context) (h : gich) : option gich :=
  h ← restore_lrs (Z.to_nat gicv2_nr_lrs) 0 (ctx_lr c) h;
  Some (writel_gich (ctx_hcr c) GICH_HCR (writel_gich (ctx_vmcr c) GICH_VMCR (writel_gich (ctx_apr c) GICH_APR h))).
End gicv2.

(** ** The distributor *)
Definition GICD_CTLR : Z := 0x000.
Definition GICD_TYPER : Z := 0x004.
Definition GICD_IGROUPR : Z := 0x080.
Definition GICD_IGROUPRN : Z := 0x0FC.
Definition GICD_ISENABLER : Z := 0x100.
Definition GICD_ISENABLERN : Z := 0x17C.
Definition GICD_ICENABLER : Z := 0x180.
Definition GICD_ICENABLERN : Z := 0x1fC.
Definition GICD_ISPENDR : Z := 0x200.
Definition GICD_ICACTIVERN : Z := 0x3FC.
Definition GICD_IPRIORITYR : Z := 0x400.
Definition GICD_IPRIORITYRN : Z := 0x7F8.
Definition GICD_ITARGETSR : Z := 0x800.
Definition GICD_ITARGETSR7 : Z := 0x81C.
Definition GICD_ITARGETSR8 : Z := 0x820.
Definition GICD_ITARGETSRN : Z := 0xBF8.
Definition GICD_ICFGR : Z := 0xC00.
Definition GICD_ICFGRN : Z := 0xCFC.
Definition GICD_SGIR : Z := 0xF00.
Definition GICD_ICPIDR2 : Z := 0xFE8.

Record vgicv2_dev := mk_gicd {
  gicd_ctlr : Z;
  gicd_typer : Z;
}.

(** The loops that collect a field of [n] consecutive virqs into a register,
    [w] bits each. *)
Fixpoint collect (get : Z -> option Z) (n : nat) (i w irq value : Z) : option Z :=
  match n with
  | O => Some value
  | S n => t ← get irq; collect get n (i + 1) w (irq + 1) (Z.lor value (u32 (Z.shiftl t (w * i))))
  end.

Section distributor.
Context (v : nat).

Definition vgicv2_get_virq_type (offset : Z) (m : vm) : option Z :=
  collect (virq_get_type m v) 16 0 2 (16 * ((offset - GICD_ICFGR) / 4)) 0.

Fixpoint set_types (n : nat) (irq value : Z) (m : vm) : option vm :=
  match n with
  | O => Some m
  | S n => '(_, m) ← virq_set_type v irq (Z.land value 0x3) m; set_types n (irq + 1) (Z.shiftr value 2) m
  end.

Definition vgicv2_set_virq_type (offset value : Z) (m : vm) : option vm :=
  set_types 16 (16 * ((offset - GICD_ICFGR) / 4)) value m.

(** A shift of [1] by 32 or more is undefined. *)
Definition vgicv2_get_virq_affinity (offset : Z) (m : vm) : option Z :=
  collect (fun irq => t ← virq_get_affinity m v irq; _ ← assert_ (t <? 32); Some (Z.shiftl 1 t)) 4 0 8
    (4 * ((offset - GICD_ITARGETSR) / 4)) 0.

Definition vgicv2_get_virq_pr (offset : Z) (m : vm) : option Z :=
  collect (virq_get_pr m v) 4 0 8 (((offset - GICD_IPRIORITYR) / 4) * 4) 0.

Definition vgicv2_get_virq_state (offset reg : Z) (m : vm) : option Z :=
  collect (virq_get_state m v) 32 0 1 (((offset - reg) / 4) * 32) 0.

Definition vgicv2_get_virq_mask (offset : Z) := vgicv2_get_virq_state offset GICD_ICENABLER.
Definition vgicv2_get_virq_unmask (offset : Z) := vgicv2_get_virq_state offset GICD_ISENABLER.

Definition between (lo hi x : Z) : bool := (lo <=? x) && (x <=? hi).

(** The value in the low 32 bits of [*v]; [None] inside leaves [*v] alone. *)
Definition vgicv2_read (gic : vgicv2_dev) (id offset : Z) (m : vm) : option (option Z) :=
  if offset =? GICD_CTLR then Some (Some (b2z (negb (gicd_ctlr gic =? 0))))
  else if offset =? GICD_TYPER then Some (Some (gicd_typer gic))
  else if between GICD_IGROUPR GICD_IGROUPRN offset then Some (Some 0xffffffff)
  else if between GICD_ISENABLER GICD_ISENABLERN offset then x ← vgicv2_get_virq_unmask offset m; Some (Some x)
  else if between GICD_ICENABLER GICD_ICENABLERN offset then x ← vgicv2_get_virq_mask offset m; Some (Some x)
  else if between GICD_ISPENDR 0x27C offset || between 0x280 0x2FC offset
       || between 0x300 0x37C offset || between 0x380 GICD_ICACTIVERN offset then Some (Some 0)
  else if between GICD_IPRIORITYR GICD_IPRIORITYRN offset then x ← vgicv2_get_virq_pr offset m; Some (Some x)
  else if between GICD_ITARGETSR GICD_ITARGETSR7 offset then
    let tmp := u32 (Z.shiftl 1 id) in
    Some (Some (Z.lor (Z.lor (Z.lor tmp (u32 (Z.shiftl tmp 8))) (u32 (Z.shiftl tmp 16))) (u32 (Z.shiftl tmp 24))))
  else if between GICD_ITARGETSR8 GICD_ITARGETSRN offset then x ← vgicv2_get_virq_affinity offset m; Some (Some x)
  else if between GICD_ICFGR GICD_ICFGRN offset then x ← vgicv2_get_virq_type offset m; Some (Some x)
  else if offset =? GICD_ICPIDR2 then Some (Some (Z.shiftl 0x2 4))
  else Some None.

(** The bits of the cpus from [bit] to [nr], the caller's own one left out. *)
Fixpoint mask_others (n : nat) (bit id : Z) (mask : list Z) : option (list Z) :=
  match n with
  | O => Some mask
  | S n =>
      if bit =? id then mask_others n (bit + 1) id mask
      else mask ← set_bit bit mask; mask_others n (bit + 1) id mask
  end.

(** [id] is the vcpu's number.  A target that is not a vcpu of the VM is a panic. *)
Definition vgicv2_send_sgi (id sgi_value : Z) (m : vm) : option vm :=
  let list := Z.land (Z.shiftr sgi_value 16) 0xff in
  let sgi := Z.land sgi_value 0xf in
  let mode := Z.land (Z.shiftr sgi_value 24) 0x3 in
  if mode =? 3 then Some m
  else
    mask ← (if mode =? 0 then for_each_set_bit (fun _ => [list]) 8 (fun bit mask => mask ← set_bit bit mask; Some (false, mask)) [0]
            else if mode =? 1 then mask_others (length (vcpus m)) 0 id [0]
            else set_bit id [0]);
    for_each_set_bit (fun _ => mask) CONFIG_NR_CPUS
      (fun bit m => target ← get_vcpu_in_vm m bit; '(_, m) ← send_virq_to_vcpu id target sgi m; Some (false, m)) m.

(** The loops over the set bits of the written value. *)
Definition enable_bits (y v_ : Z) : vm -> option vm :=
  for_each_set_bit (fun _ => [v_]) 32 (fun bit m => '(_, m) ← virq_enable v (u32 (y + bit)) m; Some (false, m)).
Definition disable_bits (y v_ : Z) : vm -> option vm :=
  for_each_set_bit (fun _ => [v_]) 32 (fun bit m => '(_, m) ← virq_disable v (u32 (y + bit)) m; Some (false, m)).

(** [v_] is [*v], of which [value] is the low half. *)
Definition vgicv2_write (gic : vgicv2_dev) (id offset v_ : Z) (m : vm) : option (vgicv2_dev * vm) :=
  let value := u32 v_ in
  if offset =? GICD_CTLR then Some (mk_gicd value (gicd_typer gic), m)
  else if between GICD_ISENABLER GICD_ISENABLERN offset then
    m ← enable_bits ((offset - GICD_ISENABLER) / 4 * 32) v_ m; Some (gic, m)
  else if between GICD_ICENABLER GICD_ICENABLERN offset then
    m ← disable_bits ((offset - GICD_ICENABLER) / 4 * 32) v_ m; Some (gic, m)
  else if between GICD_IPRIORITYR GICD_IPRIORITYRN offset then
    let y := u32 ((offset - GICD_IPRIORITYR) / 4 * 4 - 1) in
    '(_, m) ← virq_set_priority v (u32 (y + 1)) (Z.land value 0xff) m;
    '(_, m) ← virq_set_priority v (u32 (y + 2)) (Z.shiftr (Z.land value 0xff00) 8) m;
    '(_, m) ← virq_set_priority v (u32 (y + 3)) (Z.shiftr (Z.land value 0xff0000) 16) m;
    '(_, m) ← virq_set_priority v (u32 (y + 4)) (Z.shiftr (Z.land value 0xff000000) 24) m;
    Some (gic, m)
  else if between GICD_ICFGR GICD_ICFGRN offset then m ← vgicv2_set_virq_type offset value m; Some (gic, m)
  else if offset =? GICD_SGIR then m ← vgicv2_send_sgi id value m; Some (gic, m)
  else Some (gic, m).

(** ** The cpu interface under software emulation *)
Record vgicc := mk_vgicc {
  gicc_ctlr : Z;
  gicc_pmr : Z;
  gicc_bpr : Z;
}.

Definition vgicc_read (c : vgicc) (offset : Z) (m : vm) : option (option Z * vm) :=
  if offset =? 0x0000 then Some (Some (gicc_ctlr c), m)
  else if offset =? 0x0004 then Some (Some (gicc_pmr c), m)
  else if offset =? 0x0008 then Some (Some (gicc_bpr c), m)
  else if offset =? 0x000C then '(irq, m) ← get_pending_virq v m; Some (Some irq, m)
  else if (offset =? 0x0014) || (offset =? 0x0018) then Some (Some 0xa0, m)
  else if offset =? 0x00FC then Some (Some (Z.lor 0x43b (Z.shiftl 0x2 16)), m)
  else Some (None, m).

Definition vgicc_write {H : Type} (vc : virq_chip H) (c : vgicc) (offset value : Z) (m : vm) (h : H) : option (vgicc * vm * H) :=
  if offset =? 0x0000 then Some (mk_vgicc (u32 value) (gicc_pmr c) (gicc_bpr c), m, h)
  else if offset =? 0x0004 then Some (mk_vgicc (gicc_ctlr c) (u32 value) (gicc_bpr c), m, h)
  else if offset =? 0x0008 then Some (mk_vgicc (gicc_ctlr c) (gicc_pmr c) (u32 value), m, h)
  else if offset =? 0x0010 then '(m, h) ← clear_pending_virq vc v (u32 value) m h; Some (c, m, h)
  else Some (c, m, h).
End distributor.

(** ** The list registers of the GICv2 implement the interface of vgic.c *)
Definition gicv2_chip (nr resv : Z) : virq_chip gich := vgicv2_init_virqchip nr resv VIRQCHIP_F_HW_VIRT.

Definition lr_of (h : gich) (k : Z) : Z := readl_gich (GICH_LR + k * 4) h.

Lemma lr_write h k j x : lr_of (writel_gich x (GICH_LR + j * 4) h) k = if k =? j then x else lr_of h k.
Proof.
  unfold lr_of, readl_gich, writel_gich; cbn. destruct (Z.eqb_spec (GICH_LR + k * 4) (GICH_LR + j * 4)), (Z.eqb_spec k j); try done; lia.
Qed.

Lemma shiftr_land_3 x : Z.land (Z.shiftr x 28) 3 = (x / 2 ^ 28) mod 4.
Proof. change 3 with (2 ^ 2 - 1). by rewrite land_pow_pred, Z.shiftr_div_pow2. Qed.

(** The fields of a list register. *)
Lemma gich_lr_fields vid pid resv pr state grp1 hw :
  let x := gich_lr vid pid resv pr state grp1 hw in
  x mod 2 ^ 10 = vid mod 2 ^ 10 /\ (x / 2 ^ 10) mod 2 ^ 10 = pid mod 2 ^ 10 /\ (x / 2 ^ 23) mod 2 ^ 5 = pr mod 2 ^ 5
  /\ (x / 2 ^ 28) mod 4 = state mod 4 /\ (x / 2 ^ 31) mod 2 = hw mod 2 /\ 0 <= x < 2 ^ 32.
Proof.
  unfold gich_lr. pose proof (Z.mod_pos_bound vid (2 ^ 10) ltac:(lia)). pose proof (Z.mod_pos_bound pid (2 ^ 10) ltac:(lia)).
  pose proof (Z.mod_pos_bound resv (2 ^ 3) ltac:(lia)). pose proof (Z.mod_pos_bound pr (2 ^ 5) ltac:(lia)).
  pose proof (Z.mod_pos_bound state (2 ^ 2) ltac:(lia)). pose proof (Z.mod_pos_bound grp1 2 ltac:(lia)).
  pose proof (Z.mod_pos_bound hw 2 ltac:(lia)). change 4 with (2 ^ 2).
  generalize dependent (vid mod 2 ^ 10). generalize dependent (pid mod 2 ^ 10). generalize dependent (resv mod 2 ^ 3).
  generalize dependent (pr mod 2 ^ 5). generalize dependent (state mod 2 ^ 2). generalize dependent (grp1 mod 2).
  generalize dependent (hw mod 2). intros. cbn zeta. split_and!; dlia.
Qed.

#[export] Instance gicv2_list_registers nr resv (Hnr : 0 < nr <= 64) : ListRegisters (gicv2_chip nr resv) nr.
Proof.
  refine {| lr_state := fun h k => Z.land (Z.shiftr (lr_of h k) 28) 3; lr_vid := fun h k => lr_of h k mod 2 ^ 10 |}.
  - lia.
  - intros h k. rewrite shiftr_land_3. pose proof (Z.mod_pos_bound (lr_of h k / 2 ^ 28) 4 ltac:(lia)). lia.
  - intros x h k Hid Hk Hno. unfold virqchip_send_virq.
    change (send_virq_op (gicv2_chip nr resv)) with (Some (gicv2_send_virq nr resv)). unfold gicv2_send_virq. rewrite (proj2 (Z.leb_gt _ _)) by lia. cbn [snd].
    rewrite !lr_write. destruct (k =? d_id x); [|done].
    destruct (gich_lr_fields (d_vno x) (if virq_is_hw x then d_hno x else if d_vno x <? 16 then d_src x else 0) resv (d_pr x) 1 0
      (b2z (virq_is_hw x))) as (F1 & _ & _ & F4 & _). rewrite shiftr_land_3, F4, F1, (Z.mod_small (d_vno x)) by lia. done.
  - intros x h Hid. unfold virqchip_get_virq_state.
    change (get_virq_state_op (gicv2_chip nr resv)) with (Some (gicv2_get_virq_state nr)). unfold gicv2_get_virq_state.
    by rewrite (proj2 (Z.leb_gt _ _)) by lia.
  - intros x h k Hid Hk Hne. unfold virqchip_update_virq.
    change (update_virq_op (gicv2_chip nr resv)) with (Some (gicv2_update_virq nr)). unfold gicv2_update_virq.
    rewrite (proj2 (Z.leb_gt _ _)) by lia.
    change (VIRQ_ACTION_CLEAR =? VIRQ_ACTION_REMOVE) with false. rewrite Z.eqb_refl. cbn [snd]. rewrite !lr_write. by rewrite (proj2 (Z.eqb_neq _ _) Hne).
Defined.

(** A list register carries the virq: its number, the pending state, the
    hardware bit, and the physical interrupt or the sender of an SGI. *)
Theorem gicv2_send_virq_encodes nr resv x h :
  0 <= d_id x < nr -> 0 <= d_vno x < 1024 -> 0 <= d_hno x < 1024 -> 0 <= d_src x < 256 ->
  exists h', gicv2_send_virq nr resv x h = (0, h') /\ gicv2_get_virq_state nr x h' = VIRQ_STATE_PENDING
    /\ (let lr := lr_of h' (d_id x) in
        0 <= lr < 2 ^ 32 /\ lr mod 2 ^ 10 = d_vno x /\ (lr / 2 ^ 31) mod 2 = b2z (virq_is_hw x)
        /\ (lr / 2 ^ 10) mod 2 ^ 10 = (if virq_is_hw x then d_hno x else if d_vno x <? 16 then d_src x else 0))
    /\ (forall k, k <> d_id x -> lr_of h' k = lr_of h k).
Proof.
  intros Hid Hno Hh Hs. unfold gicv2_send_virq, gicv2_get_virq_state. rewrite (proj2 (Z.leb_gt _ _)) by lia. eexists. split; [done|].
  set (pid := if virq_is_hw x then _ else _). assert (0 <= pid < 1024) as Hp by (unfold pid; destruct (virq_is_hw x), (d_vno x <? 16); lia).
  destruct (gich_lr_fields (d_vno x) pid resv (d_pr x) 1 0 (b2z (virq_is_hw x))) as (F1 & F2 & _ & F4 & F5 & F6).
  split; [|split].
  - change (readl_gich (GICH_LR + d_id x * 4)) with (fun h => lr_of h (d_id x)). cbn beta. by rewrite lr_write, Z.eqb_refl, shiftr_land_3, F4.
  - cbn zeta. rewrite lr_write, Z.eqb_refl, F1, F2, F5, !Z.mod_small by (lia || by destruct (virq_is_hw x)). done.
  - intros k Hk. by rewrite lr_write, (proj2 (Z.eqb_neq _ _) Hk).
Qed.

(** The priority field gets the low five bits of the 8-bit priority, so that the
    priority 0xa0 every virq starts with becomes 0, the highest one. *)
Theorem gicv2_priority_truncated nr resv x h :
  0 <= d_id x < nr -> d_pr x = 0xa0 ->
  (lr_of (gicv2_send_virq nr resv x h).2 (d_id x) / 2 ^ 23) mod 2 ^ 5 = 0.
Proof.
  intros Hid Hpr. unfold gicv2_send_virq. rewrite (proj2 (Z.leb_gt _ _)) by lia. cbn [snd]. rewrite lr_write, Z.eqb_refl.
  set (pid := if virq_is_hw x then _ else _).
  destruct (gich_lr_fields (d_vno x) pid resv (d_pr x) 1 0 (b2z (virq_is_hw x))) as (_ & _ & F3 & _). by rewrite F3, Hpr.
Qed.

(** ** Switching between vcpus *)
Lemma save_lrs_spec n i lr h :
  (i + n <= length lr)%nat ->
  exists lr', save_lrs n i lr h = Some lr' /\ length lr' = length lr
    /\ forall k, (k < length lr)%nat -> lr' !! k = if decide (i <= k < i + n)%nat then Some (lr_of h (Z.of_nat k)) else lr !! k.
Proof.
  revert i lr. induction n as [|n IH]; intros i lr Hl; cbn [save_lrs].
  - exists lr. split; [done|]. split; [done|]. intros k Hk. by rewrite decide_False by lia.
  - destruct (lookup_lt_is_Some_2 lr i) as [x ->]; [lia|]. msimpl.
    destruct (IH (S i) (<[i := readl_gich (GICH_LR + Z.of_nat i * 4) h]> lr)) as (lr' & E & L & Hlr); [rewrite length_insert; lia|].
    rewrite length_insert in *. exists lr'. split; [done|]. split; [done|]. intros k Hk. rewrite Hlr by done.
    destruct (decide (k = i)) as [->|Hne].
    + rewrite decide_False, decide_True by lia. by rewrite list_lookup_insert_eq by lia.
    + rewrite list_lookup_insert_ne by done. destruct (decide (S i <= k < S i + n)%nat), (decide (i <= k < i + S n)%nat); done || lia.
Qed.

Lemma restore_lrs_spec n i lr h :
  (i + n <= length lr)%nat ->
  exists h', restore_lrs n i lr h = Some h'
    /\ (forall k x, lr !! k = Some x -> (i <= k < i + n)%nat -> lr_of h' (Z.of_nat k) = x)
    /\ (forall k, (k < i)%nat -> lr_of h' (Z.of_nat k) = lr_of h (Z.of_nat k)).
Proof.
  revert i h. induction n as [|n IH]; intros i h Hl; cbn [restore_lrs].
  - exists h. split; [done|]. split; [intros; lia|done].
  - destruct (lookup_lt_is_Some_2 lr i) as [y Hy]; [lia|]. rewrite Hy. msimpl.
    destruct (IH (S i) (writel_gich y (GICH_LR + Z.of_nat i * 4) h)) as (h' & E & H1 & H2); [lia|].
    exists h'. split; [done|]. split.
    + intros k x Hx Hk. destruct (decide (k = i)) as [->|Hne].
      * rewrite H2 by lia. rewrite lr_write, Z.eqb_refl. congruence.
      * apply H1; [done|lia].
    + intros k Hk. rewrite H2 by lia. by rewrite lr_write, (proj2 (Z.eqb_neq _ _)) by lia.
Qed.

(** A vcpu's interface survives other vcpus: whatever the registers hold
    when its context is restored, the list registers and the three control
    registers then have the values they had when it was saved, and between the
    two the interface is disabled. *)
Theorem gicv2_state_roundtrip nr c h h2 :
  0 < nr <= 64 -> length (ctx_lr c) = 64%nat ->
  exists c' h1 h3, gicv2_state_save nr c h = Some (c', h1) /\ readl_gich GICH_HCR h1 = 0
    /\ gicv2_state_restore nr c' h2 = Some h3
    /\ (forall k, 0 <= k < nr -> lr_of h3 k = lr_of h k)
    /\ readl_gich GICH_HCR h3 = readl_gich GICH_HCR h /\ readl_gich GICH_VMCR h3 = readl_gich GICH_VMCR h
    /\ readl_gich GICH_APR h3 = readl_gich GICH_APR h.
Proof.
  intros Hnr Hlen. unfold gicv2_state_save, gicv2_state_restore.
  destruct (save_lrs_spec (Z.to_nat nr) 0 (ctx_lr c) h) as (lr & E & L & Hlr); [lia|]. rewrite E. msimpl.
  eexists _, _. destruct (restore_lrs_spec (Z.to_nat nr) 0 lr h2) as (h3 & E3 & H3 & _); [lia|].
  eexists. split; [done|]. split; [done|]. cbn [ctx_lr ctx_hcr ctx_vmcr ctx_apr]. rewrite E3. msimpl. split; [done|]. split; [|done].
  intros k Hk. unfold lr_of at 1. unfold readl_gich, writel_gich; cbn [gich_reg].
  rewrite !(proj2 (Z.eqb_neq _ _)) by (unfold GICH_LR, GICH_HCR, GICH_VMCR, GICH_APR; lia).
  change (gich_reg h3 (GICH_LR + k * 4)) with (lr_of h3 k). specialize (Hlr (Z.to_nat k) ltac:(lia)).
  rewrite decide_True in Hlr by lia. replace k with (Z.of_nat (Z.to_nat k)) at 1 by lia. apply (H3 (Z.to_nat k)); [|lia].
  rewrite Hlr. by rewrite Z2Nat.id by lia.
Qed.

(** ** The enable registers *)
Definition enabled (v : nat) (m : vm) (i : Z) : bool :=
  match desc v m i with Some x => virq_is_enabled x | None => false end.

Lemma testbit_field b i j : 0 <= i < 32 -> 0 <= j -> Z.testbit (u32 (Z.shiftl (b2z b) (1 * i))) j = (j =? i) && b.
Proof.
  intros Hi Hj. unfold u32. rewrite mod_pow2_testbit, Z.mul_1_l, Z.shiftl_spec by lia. destruct (Z.eqb_spec j i) as [->|Hne].
  - rewrite Z.sub_diag, (proj2 (Z.ltb_lt _ _)) by lia. by destruct b.
  - destruct b; cbn [b2z andb]; [|by rewrite Z.bits_0, andb_false_r]. apply andb_false_iff. right.
    destruct (Z.lt_ge_cases j i); [by rewrite Z.testbit_neg_r by lia|]. apply (testbit_small 1 1); lia.
Qed.

Lemma collect_bits get f n i irq value :
  0 <= i -> i + Z.of_nat n <= 32 -> (forall k, i <= k < i + Z.of_nat n -> get (irq + (k - i)) = Some (b2z (f k))) ->
  exists r, collect get n i 1 irq value = Some r
    /\ forall j, 0 <= j -> Z.testbit r j = Z.testbit value j || ((i <=? j) && (j <? i + Z.of_nat n) && f j).
Proof.
  revert i irq value. induction n as [|n IH]; intros i irq value Hi Hn Hget; cbn [collect].
  - exists value. split; [done|]. intros j Hj. destruct (Z.leb_spec i j), (Z.ltb_spec j (i + Z.of_nat 0)); cbn; try lia; by rewrite ?orb_false_r.
  - pose proof (Hget i ltac:(lia)) as H0. rewrite Z.sub_diag, Z.add_0_r in H0. rewrite H0. msimpl.
    destruct (IH (i + 1) (irq + 1) (Z.lor value (u32 (Z.shiftl (b2z (f i)) (1 * i))))) as (r & E & Hr); [lia|lia| |].
    { intros k Hk. rewrite <- (Hget k) by lia. f_equal. lia. }
    exists r. split; [done|]. intros j Hj. rewrite Hr, Z.lor_spec, testbit_field by lia. rewrite <- orb_assoc. f_equal.
    destruct (Z.eqb_spec j i) as [->|Hne].
    + rewrite (proj2 (Z.leb_gt (i + 1) i)), (proj2 (Z.leb_le i i)), (proj2 (Z.ltb_lt i (i + Z.of_nat (S n)))) by lia.
      cbn [andb]. apply orb_false_r.
    + cbn [andb orb]. destruct (Z.leb_spec (i + 1) j), (Z.leb_spec i j), (Z.ltb_spec j (i + 1 + Z.of_nat n)),
        (Z.ltb_spec j (i + Z.of_nat (S n))); cbn; try lia; done.
Qed.

Section enable.
Context (v : nat) (m : vm) (c : vcpu) (Hm : vm_ok m) (Hc : get_vcpu v m = Some c).

Lemma get_state_spec i : 0 <= i < vm_irq_count m -> virq_get_state m v i = Some (b2z (enabled v m i)).
Proof.
  intros Hi. destruct (get_virq_desc_ok m v c i Hm Hc Hi) as (d & x & Ed & Ex & _).
  unfold virq_get_state, virq_get, enabled, desc. rewrite Ed. msimpl. rewrite Ex. done.
Qed.

Lemma enabled_bit x : virq_is_enabled x = Z.testbit (d_flags x) 1.
Proof. unfold virq_is_enabled, VIRQS_ENABLED. by rewrite has_testbit. Qed.
Lemma requested_bit x : virq_is_requested x = Z.testbit (d_flags x) 6.
Proof. unfold virq_is_requested, VIRQS_REQUESTED, VIRQS_REQUESTED_BIT. by rewrite has_testbit. Qed.

Lemma set_enable_spec x : virq_is_enabled (virq_set_enable x) = true /\ keeps virq_set_enable x.
Proof. unfold keeps. rewrite !enabled_bit, !requested_bit. cbn [d_flags virq_set_enable set_d_flags]. rewrite !Z.lor_spec. cbn.
  by rewrite orb_true_r, orb_false_r. Qed.
Lemma clear_enable_spec x : virq_is_enabled (virq_clear_enable x) = false /\ keeps virq_clear_enable x.
Proof. unfold keeps. rewrite !enabled_bit, !requested_bit. cbn [d_flags virq_clear_enable set_d_flags]. rewrite !Z.ldiff_spec. cbn.
  by rewrite andb_false_r, andb_true_r. Qed.

(** The effect of enabling or disabling one virq on the others: none. *)
Lemma toggle_spec f b i m1 : (forall x, virq_is_enabled (f x) = b /\ keeps f x) -> 0 <= i < vm_irq_count m ->
  (exists d, get_virq_desc m v i = Some d /\ upd d f m = Some m1) ->
  vm_ok m1 /\ vm_irq_count m1 = vm_irq_count m /\ (exists c1, get_vcpu v m1 = Some c1)
  /\ forall j, 0 <= j -> enabled v m1 j = if j =? i then b else enabled v m j.
Proof.
  intros Hf Hi (d & Ed & E1). destruct (get_virq_desc_ok m v c i Hm Hc Hi) as (d' & x & Ed' & Ex & _).
  rewrite Ed in Ed'. injection Ed' as <-. destruct (Hf x) as [Hb Hk].
  destruct (upd_desc v i d x f m) as (m' & E & Hm' & Hr & _ & _ & Hd); [done|lia|done|done|done|].
  rewrite E1 in E. injection E as <-. split; [done|]. split; [unfold vm_irq_count; by rewrite (proj1 (rest_fields _ _ Hr))|].
  split; [destruct (upd_same_vcpu _ _ _ _ _ _ Hc E1) as (c1 & Hc1 & _); by exists c1|].
  intros j Hj. unfold enabled. rewrite Hd by done. destruct (j =? i); [done|done].
Qed.
End enable.

(** The state after the virqs [y + bit] of the bits below [b] were switched to [on]. *)
Definition toggled (v : nat) (y value : Z) (on : bool) (m : vm) (b : Z) (m' : vm) : Prop :=
  vm_ok m' /\ vm_irq_count m' = vm_irq_count m /\ (exists c', get_vcpu v m' = Some c')
  /\ forall j, 0 <= j -> enabled v m' j = if (y <=? j) && (j <? y + b) && Z.testbit value (j - y) then on else enabled v m j.

Lemma toggled_step v y value on m bit m1 m2 :
  0 <= y -> 0 <= bit < 32 -> Z.testbit value bit = true -> toggled v y value on m bit m1 ->
  vm_ok m2 -> vm_irq_count m2 = vm_irq_count m1 -> (exists c', get_vcpu v m2 = Some c') ->
  (forall j, 0 <= j -> enabled v m2 j = if j =? y + bit then on else enabled v m1 j) -> toggled v y value on m (bit + 1) m2.
Proof.
  intros Hy Hb Hv (_ & En & _ & Ht) Hm2 En2 Hc2 He. split; [done|]. split; [congruence|]. split; [done|]. intros j Hj. rewrite He, Ht by done.
  destruct (Z.eqb_spec j (y + bit)) as [->|Hne].
  - replace (y + bit - y) with bit by lia. rewrite (proj2 (Z.leb_le _ _)), (proj2 (Z.ltb_lt _ _)), Hv by lia. done.
  - destruct (Z.leb_spec y j); cbn [andb]; [|done]. destruct (Z.ltb_spec j (y + bit)), (Z.ltb_spec j (y + (bit + 1))); try done; lia.
Qed.

Lemma toggled_skip v y value on m b b' m' :
  toggled v y value on m b m' -> b <= b' -> (forall i, b <= i < b' -> Z.testbit value i = false) -> toggled v y value on m b' m'.
Proof.
  intros (H1 & H2 & H3 & H4) Hb Hz. split_and!; try done. intros j Hj. rewrite H4 by done.
  destruct (Z.leb_spec y j); cbn [andb]; [|done]. destruct (Z.ltb_spec j (y + b)), (Z.ltb_spec j (y + b')); cbn [andb]; try done; try lia.
  by rewrite (Hz (j - y)) by lia.
Qed.

Lemma one_word_bits x i : 0 <= i < 64 -> bit_at [x] i = Z.testbit x i.
Proof. intros Hi. unfold bit_at. rewrite Z.div_small, Z.mod_small by lia. done. Qed.

Lemma one_word_wf n x : 0 <= x < 2 ^ 64 -> 0 <= n <= 64 -> bitmap_wf n [x].
Proof. intros Hx Hn. split; [by apply Forall_singleton|]. cbn. lia. Qed.

Lemma toggle_bits_spec v c m y value on (op : Z -> vm -> option (Z * vm)) :
  vm_ok m -> get_vcpu v m = Some c -> 0 <= y -> y + 32 <= vm_irq_count m -> 0 <= value < 2 ^ 64 ->
  (forall m1 c1 i, vm_ok m1 -> get_vcpu v m1 = Some c1 -> 0 <= i < vm_irq_count m1 ->
     exists m2, op i m1 = Some (0, m2) /\ vm_ok m2 /\ vm_irq_count m2 = vm_irq_count m1 /\ (exists c', get_vcpu v m2 = Some c')
       /\ forall j, 0 <= j -> enabled v m2 j = if j =? i then on else enabled v m1 j) ->
  exists m', for_each_set_bit (fun _ => [value]) 32 (fun bit m => '(_, m) ← op (u32 (y + bit)) m; Some (false, m)) m = Some m'
    /\ toggled v y value on m 32 m'.
Proof.
  intros Hm Hc Hy Hn Hv Hop. pose proof (irq_count_bound m Hm).
  apply (for_each_set_bit_spec (fun _ => [value]) 32 _ (toggled v y value on m) (toggled v y value on m 32)).
  - intros b s _. apply one_word_wf; lia.
  - intros b b' s Ht Hb Hz. eapply toggled_skip; [done|lia|]. intros i Hi. destruct (Z.lt_ge_cases i 0); [by apply Z.testbit_neg_r|].
    rewrite <- one_word_bits by lia. by apply Hz.
  - intros bit m1 Ht Hb Hbit. rewrite one_word_bits in Hbit by lia. destruct Ht as (H1 & H2 & [c1 Hc1] & H4).
    destruct (Hop m1 c1 (y + bit)) as (m2 & E & Hm2 & En2 & Hc2 & He); [done|done|rewrite H2; lia|].
    exists false, m2. rewrite u32_small, E by lia. split; [done|].
    apply (toggled_step v y value on m bit m1); try done. split_and!; try done. by exists c1.
  - done.
  - lia.
  - split; [done|]. split; [done|]. split; [by exists c|]. intros j Hj. destruct (Z.leb_spec y j), (Z.ltb_spec j (y + 0)); cbn; try done; lia.
Qed.

Lemma enable_op v m1 c1 i : vm_ok m1 -> get_vcpu v m1 = Some c1 -> 0 <= i < vm_irq_count m1 ->
  exists m2, virq_enable v i m1 = Some (0, m2) /\ vm_ok m2 /\ vm_irq_count m2 = vm_irq_count m1 /\ (exists c', get_vcpu v m2 = Some c')
    /\ forall j, 0 <= j -> enabled v m2 j = if j =? i then true else enabled v m1 j.
Proof.
  intros Hm Hc Hi. destruct (get_virq_desc_ok m1 v c1 i Hm Hc Hi) as (d & x & Ed & Ex & _).
  unfold virq_enable. rewrite Ed. pose proof (set_enable_spec x) as [_ Hk].
  destruct (upd_desc v i d x virq_set_enable m1) as (m2 & E & _ & _ & Hx2 & _); [done|lia|done|done|done|]. rewrite E. msimpl. rewrite Hx2. msimpl.
  destruct (toggle_spec v m1 c1 Hm Hc virq_set_enable true i m2) as (H1 & H2 & H3 & H4); [apply set_enable_spec|done|by exists d|].
  destruct (_ && _); eexists; (split; [done|]); split_and!; try done; by destruct H1.
Qed.

Lemma disable_op v m1 c1 i : vm_ok m1 -> get_vcpu v m1 = Some c1 -> 0 <= i < vm_irq_count m1 ->
  exists m2, virq_disable v i m1 = Some (0, m2) /\ vm_ok m2 /\ vm_irq_count m2 = vm_irq_count m1 /\ (exists c', get_vcpu v m2 = Some c')
    /\ forall j, 0 <= j -> enabled v m2 j = if j =? i then false else enabled v m1 j.
Proof.
  intros Hm Hc Hi. destruct (get_virq_desc_ok m1 v c1 i Hm Hc Hi) as (d & x & Ed & Ex & _).
  unfold virq_disable. rewrite Ed. pose proof (clear_enable_spec x) as [_ Hk].
  destruct (upd_desc v i d x virq_clear_enable m1) as (m2 & E & _ & _ & Hx2 & _); [done|lia|done|done|done|]. rewrite E. msimpl. rewrite Hx2. msimpl.
  destruct (toggle_spec v m1 c1 Hm Hc virq_clear_enable false i m2) as (H1 & H2 & H3 & H4); [apply clear_enable_spec|done|by exists d|].
  destruct (_ || _); eexists; (split; [done|]); split_and!; try done; by destruct H1.
Qed.

(** Reading an enable register. *)
Lemma read_state_spec v c m reg k : vm_ok m -> get_vcpu v m = Some c -> 0 <= k -> 32 * k + 32 <= vm_irq_count m ->
  exists r, vgicv2_get_virq_state v (reg + 4 * k) reg m = Some r
    /\ forall i, 0 <= i < 32 -> Z.testbit r i = enabled v m (32 * k + i).
Proof.
  intros Hm Hc Hk Hn. unfold vgicv2_get_virq_state. replace ((reg + 4 * k - reg) / 4 * 32) with (32 * k) by dlia.
  destruct (collect_bits (virq_get_state m v) (fun j => enabled v m (32 * k + j)) 32 0 (32 * k) 0) as (r & E & Hr); [lia|done| |].
  - intros j Hj. rewrite (get_state_spec v m c Hm Hc) by lia. by rewrite Z.sub_0_r.
  - exists r. split; [done|]. intros i Hi. rewrite Hr, Z.bits_0 by lia.
    rewrite (proj2 (Z.leb_le _ _)), (proj2 (Z.ltb_lt _ _)) by lia. done.
Qed.

Lemma toggled_read v y value on m m' i : toggled v y value on m 32 m' -> 0 <= y -> 0 <= i < 32 ->
  enabled v m' (y + i) = if Z.testbit value i then on else enabled v m (y + i).
Proof.
  intros (_ & _ & _ & H) Hy Hi. rewrite H by lia. rewrite (proj2 (Z.leb_le _ _)), (proj2 (Z.ltb_lt _ _)) by lia.
  by replace (y + i - y) with i by lia.
Qed.

Lemma isenabler_spec v c gic id k value m :
  vm_ok m -> get_vcpu v m = Some c -> 0 <= k <= 31 -> 32 * k + 32 <= vm_irq_count m -> 0 <= value < 2 ^ 64 ->
  exists m' r, vgicv2_write v gic id (GICD_ISENABLER + 4 * k) value m = Some (gic, m')
    /\ toggled v (32 * k) value true m 32 m'
    /\ vgicv2_read v gic id (GICD_ISENABLER + 4 * k) m' = Some (Some r)
    /\ forall i, 0 <= i < 32 -> Z.testbit r i = Z.testbit value i || enabled v m (32 * k + i).
Proof.
  intros Hm Hc Hk Hn Hv.
  destruct (toggle_bits_spec v c m (32 * k) value true (virq_enable v)) as (m' & E & Ht); try done; [lia|intros; by eapply enable_op|].
  pose proof Ht as (H1 & H2 & [c' Hc'] & _).
  destruct (read_state_spec v c' m' GICD_ISENABLER k) as (r & Er & Hr); [done|done|lia|by rewrite H2|].
  exists m', r. split; [|split; [done|split]].
  + unfold vgicv2_write, between. rewrite (proj2 (Z.eqb_neq _ _)) by (unfold GICD_ISENABLER, GICD_CTLR; lia).
    rewrite (proj2 (Z.leb_le _ _)), (proj2 (Z.leb_le (GICD_ISENABLER + 4 * k) _)) by (unfold GICD_ISENABLER, GICD_ISENABLERN; lia).
    cbn [andb]. unfold enable_bits. replace ((GICD_ISENABLER + 4 * k - GICD_ISENABLER) / 4 * 32) with (32 * k) by dlia. by rewrite E.
  + unfold vgicv2_read, between. rewrite !(proj2 (Z.eqb_neq _ _)) by (unfold GICD_ISENABLER, GICD_CTLR, GICD_TYPER; lia).
    rewrite (proj2 (Z.leb_gt (GICD_ISENABLER + 4 * k) GICD_IGROUPRN)), andb_false_r by (unfold GICD_ISENABLER, GICD_IGROUPRN; lia).
    rewrite (proj2 (Z.leb_le GICD_ISENABLER _)), (proj2 (Z.leb_le (GICD_ISENABLER + 4 * k) _)) by (unfold GICD_ISENABLER, GICD_ISENABLERN; lia).
    cbn [andb]. unfold vgicv2_get_virq_unmask. by rewrite Er.
  + intros i Hi. rewrite Hr, (toggled_read _ _ _ _ _ _ _ Ht) by lia. by destruct (Z.testbit value i).
Qed.

Lemma icenabler_spec v c gic id k value m :
  vm_ok m -> get_vcpu v m = Some c -> 0 <= k <= 31 -> 32 * k + 32 <= vm_irq_count m -> 0 <= value < 2 ^ 64 ->
  exists m' r, vgicv2_write v gic id (GICD_ICENABLER + 4 * k) value m = Some (gic, m')
    /\ toggled v (32 * k) value false m 32 m'
    /\ vgicv2_read v gic id (GICD_ICENABLER + 4 * k) m' = Some (Some r)
    /\ forall i, 0 <= i < 32 -> Z.testbit r i = negb (Z.testbit value i) && enabled v m (32 * k + i).
Proof.
  intros Hm Hc Hk Hn Hv.
  destruct (toggle_bits_spec v c m (32 * k) value false (virq_disable v)) as (m' & E & Ht); try done; [lia|intros; by eapply disable_op|].
  pose proof Ht as (H1 & H2 & [c' Hc'] & _).
  destruct (read_state_spec v c' m' GICD_ICENABLER k) as (r & Er & Hr); [done|done|lia|by rewrite H2|].
  exists m', r. split; [|split; [done|split]].
  + unfold vgicv2_write, between. rewrite (proj2 (Z.eqb_neq _ _)) by (unfold GICD_ICENABLER, GICD_CTLR; lia).
    rewrite (proj2 (Z.leb_gt (GICD_ICENABLER + 4 * k) GICD_ISENABLERN)), andb_false_r by (unfold GICD_ICENABLER, GICD_ISENABLERN; lia).
    rewrite (proj2 (Z.leb_le GICD_ICENABLER _)), (proj2 (Z.leb_le (GICD_ICENABLER + 4 * k) _)) by (unfold GICD_ICENABLER, GICD_ICENABLERN; lia).
    cbn [andb]. unfold disable_bits. replace ((GICD_ICENABLER + 4 * k - GICD_ICENABLER) / 4 * 32) with (32 * k) by dlia. by rewrite E.
  + unfold vgicv2_read, between. rewrite !(proj2 (Z.eqb_neq _ _)) by (unfold GICD_ICENABLER, GICD_CTLR, GICD_TYPER; lia).
    rewrite (proj2 (Z.leb_gt (GICD_ICENABLER + 4 * k) GICD_IGROUPRN)), andb_false_r by (unfold GICD_ICENABLER, GICD_IGROUPRN; lia).
    rewrite (proj2 (Z.leb_gt (GICD_ICENABLER + 4 * k) GICD_ISENABLERN)), andb_false_r by (unfold GICD_ICENABLER, GICD_ISENABLERN; lia).
    rewrite (proj2 (Z.leb_le GICD_ICENABLER _)), (proj2 (Z.leb_le (GICD_ICENABLER + 4 * k) _)) by (unfold GICD_ICENABLER, GICD_ICENABLERN; lia).
    cbn [andb]. unfold vgicv2_get_virq_mask. by rewrite Er.
  + intros i Hi. rewrite Hr, (toggled_read _ _ _ _ _ _ _ Ht) by lia. by destruct (Z.testbit value i).
Qed.

(** The set-enable and clear-enable registers of the distributor do what the
    architecture says: a write enables, or disables, exactly the virqs whose bit
    is set, leaves every other virq alone, and the register then reads back the
    enabled virqs. *)
Theorem gicd_enable_registers v c gic id k value m :
  vm_ok m -> get_vcpu v m = Some c -> 0 <= k <= 31 -> 32 * k + 32 <= vm_irq_count m -> 0 <= value < 2 ^ 64 ->
  (exists m' r, vgicv2_write v gic id (GICD_ISENABLER + 4 * k) value m = Some (gic, m')
     /\ toggled v (32 * k) value true m 32 m'
     /\ vgicv2_read v gic id (GICD_ISENABLER + 4 * k) m' = Some (Some r)
     /\ forall i, 0 <= i < 32 -> Z.testbit r i = Z.testbit value i || enabled v m (32 * k + i))
  /\ (exists m' r, vgicv2_write v gic id (GICD_ICENABLER + 4 * k) value m = Some (gic, m')
     /\ toggled v (32 * k) value false m 32 m'
     /\ vgicv2_read v gic id (GICD_ICENABLER + 4 * k) m' = Some (Some r)
     /\ forall i, 0 <= i < 32 -> Z.testbit r i = negb (Z.testbit value i) && enabled v m (32 * k + i)).
Proof. intros Hm Hc Hk Hn Hv. split; [by eapply isenabler_spec|by eapply icenabler_spec]. Qed.

Lemma for_each_set_bit_fault {S : Type} (addr : S -> list Z) size body s b :
  find_first_bit (addr s) size = Some b -> 0 <= b < size -> body b s = None -> for_each_set_bit addr size body s = None.
Proof.
  intros Hf Hb Hn. unfold for_each_set_bit. rewrite Hf. msimpl. destruct (Z.to_nat size) as [|n] eqn:E; [lia|].
  cbn [each_bit_loop]. by rewrite (proj2 (Z.ltb_lt _ _)), Hn by lia.
Qed.

(** A guest with two vcpus that writes a target list with the cpu 3 to GICD_SGIR
    panics the hypervisor. *)
Theorem gicd_sgir_panics m id :
  length (vcpus m) = 2%nat -> vgicv2_send_sgi id 0x00080000 m = None.
Proof.
  intros Hl. unfold vgicv2_send_sgi.
  set (mask := if _ =? 0 then _ else _). assert (mask = Some [8]) as -> by reflexivity. cbn [Z.eqb]. msimpl.
  change (Z.land (Z.shiftr 0x00080000 24) 0x3 =? 3) with false. cbv iota.
  apply (for_each_set_bit_fault _ _ _ _ 3); [reflexivity|by vm_compute|]. unfold get_vcpu_in_vm, vcpu_nr. by rewrite Hl.
Qed.

(** Without hardware support the chip has no function to enter the guest, and
    the hook calls it all the same. *)
Theorem virqchip_enter_without_hw nr resv v m h :
  virqchip_enter_to_guest (vgicv2_init_virqchip nr resv 0) v m h = None.
Proof. reflexivity. Qed.

(** ** The theorems at concrete states: the SGI 3 is pending for vcpu 0 *)
Definition demo_pending : vm := match __send_virq 0 0 (Local 0 3) demo_vm with Some (_, m) => m | None => demo_vm end.
Definition demo_gich : gich := mk_gich (fun _ => 0) [].

Lemma demo_chip_nr : 0 < 4 <= 64. Proof. lia. Qed.

Lemma demo_pending_ok : exists c, get_vcpu 0 demo_pending = Some c /\ vm_ok demo_pending
  /\ (forall j, 0 <= j -> bit_at (pending_bitmap (vcpu_vs c)) j = true -> j = 3).
Proof.
  destruct (__send_virq_spec 0 0 (create_vs demo_vm (demo_vcpu 0)) (Local 0 3) (init_local 3 zero_desc) demo_vm)
    as (m' & x' & E & Hm & (P & _) & _); [apply demo_vm_ok|reflexivity|cbn; lia|reflexivity|vm_compute; split; [discriminate|reflexivity]|].
  assert (demo_pending = m') as -> by (unfold demo_pending; by rewrite E).
  destruct (get_vcpu 0 m') as [c|] eqn:Hc; [|vm_compute in E; injection E as <-; done].
  exists c. split; [done|]. split; [done|]. intros j Hj. rewrite <- (pending_of_get _ _ _ Hc), P by done.
  change (pending_of 0 demo_vm) with (replicate 2 0). rewrite zero_bitmap_bit. cbn [orb].
  rewrite bool_decide_eq_true_2 by done. by intros ?%Z.eqb_eq.
Qed.

Lemma demo_vgic_ok : exists c, vgic_ok (LR := gicv2_list_registers 4 0 demo_chip_nr) (gicv2_chip 4 0) 4 0 c demo_pending demo_gich
  /\ 0 <= last_fail_virq (vcpu_vs c) < vm_irq_count demo_pending.
Proof.
  destruct demo_pending_ok as (c & Hc & Hm & Hp). exists c.
  assert (active_bitmap (vcpu_vs c) = replicate 2 0 /\ lrs_bitmap (vcpu_vs c) = [0; 0] /\ nr_lrs (vcpu_vs c) = 4
    /\ active_virq (vcpu_vs c) = 0 /\ last_fail_virq (vcpu_vs c) = 0 /\ vm_irq_count demo_pending = 128) as (Ea & El & En & Ev & Ef & Et).
  { vm_compute in Hc. injection Hc as <-. vm_compute. done. }
  split; [|rewrite Ef, Et; lia]. split; rewrite ?Ea, ?El, ?En, ?Ev; try done.
  - split; [by repeat constructor|]. cbn. lia.
  - intros i x Hi Hor Hx. rewrite zero_bitmap_bit, orb_false_r in Hor. apply Hp in Hor as ->; [|lia]. split; [|lia].
    vm_compute in Hx. by injection Hx as <-.
  - intros i x _. by rewrite zero_bitmap_bit.
  - intros k _. by rewrite (zero_bitmap_bit 2).
Qed.

(** The SGI is delivered: it is active and has the first list register. *)
Lemma vgic_enter_to_guest_correct_witness :
  exists flags m' h' c', vgic_irq_enter_to_guest (gicv2_chip 4 0) 0 demo_pending demo_gich = Some (flags, m', h') /\ get_vcpu 0 m' = Some c'
    /\ bit_at (active_bitmap (vcpu_vs c')) 3 = true /\ lrs_bitmap (vcpu_vs c') = [1; 0].
Proof.
  destruct demo_vgic_ok as (c & Ho & Hl).
  destruct (vgic_enter_to_guest_correct (LR := gicv2_list_registers 4 0 demo_chip_nr) (gicv2_chip 4 0) 4 0 c demo_pending demo_gich Ho Hl)
    as (flags & m' & h' & c' & E & Ho' & _ & _ & _ & Hd).
  exists flags, m', h', c'. pose proof (go_c _ _ _ _ _ _ Ho) as Hc. pose proof (go_c _ _ _ _ _ _ Ho') as Hc'.
  assert (lrs_bitmap (vcpu_vs c') = [1; 0]) as El.
  { assert ((fun x => lrs_bitmap <$> (vcpu_vs <$> get_vcpu 0 (snd (fst x)))) <$> vgic_irq_enter_to_guest (gicv2_chip 4 0) 0 demo_pending demo_gich = Some (Some [1; 0])) as Hx by (vm_compute; reflexivity).
    rewrite E in Hx. cbn [fmap option_fmap option_map fst snd] in Hx. rewrite Hc' in Hx. by injection Hx. }
  split; [exact E|]. split; [exact Hc'|]. split; [|exact El].
  assert (pending_bitmap (vcpu_vs c) = [8; 0] /\ last_fail_virq (vcpu_vs c) = 0) as [Ep Ef].
  { assert ((fun x => (pending_bitmap (vcpu_vs x), last_fail_virq (vcpu_vs x))) <$> get_vcpu 0 demo_pending = Some ([8; 0], 0)) as Hx by (vm_compute; reflexivity).
    rewrite Hc in Hx. injection Hx as H1 H2. exact (conj H1 H2). }
  assert (nr_lrs (vcpu_vs c') = 4) as En.
  { assert ((fun x => nr_lrs <$> (vcpu_vs <$> get_vcpu 0 (snd (fst x)))) <$> vgic_irq_enter_to_guest (gicv2_chip 4 0) 0 demo_pending demo_gich = Some (Some 4)) as Hx by (vm_compute; reflexivity).
    rewrite E in Hx. cbn [fmap option_fmap option_map fst snd] in Hx. rewrite Hc' in Hx. by injection Hx. }
  destruct Hd as [Hb|Hd]; [specialize (Hb 1); rewrite En, El in Hb; discriminate (Hb ltac:(lia))|].
  apply Hd; [rewrite Ef; vm_compute; right; split; [discriminate|reflexivity]|by rewrite Ep].
Defined.

Lemma vgic_exit_from_guest_correct_witness :
  exists m' h', vgic_irq_exit_from_guest (gicv2_chip 4 0) 0 demo_pending demo_gich = Some (0, m', h').
Proof.
  destruct demo_vgic_ok as (c & Ho & Hl).
  destruct (vgic_exit_from_guest_correct (LR := gicv2_list_registers 4 0 demo_chip_nr) (gicv2_chip 4 0) 4 0 c demo_pending demo_gich Ho)
    as (m' & h' & c' & E & _).
  exists m', h'. exact E.
Defined.

Lemma gicv2_send_virq_encodes_witness :
  exists h', gicv2_send_virq 4 0 (set_d_id 2 (init_local 3 zero_desc)) demo_gich = (0, h')
    /\ gicv2_get_virq_state 4 (set_d_id 2 (init_local 3 zero_desc)) h' = VIRQ_STATE_PENDING.
Proof.
  destruct (gicv2_send_virq_encodes 4 0 (set_d_id 2 (init_local 3 zero_desc)) demo_gich) as (h' & E & H & _); [cbn; lia..|].
  exists h'. exact (conj E H).
Defined.

Lemma gicv2_state_roundtrip_witness :
  exists c' h1 h3, gicv2_state_save 4 gicv2_state_init demo_gich = Some (c', h1)
    /\ gicv2_state_restore 4 c' (mk_gich (fun o => o) []) = Some h3 /\ lr_of h3 2 = 0.
Proof.
  destruct (gicv2_state_roundtrip 4 gicv2_state_init demo_gich (mk_gich (fun o => o) [])) as (c' & h1 & h3 & E1 & _ & E2 & H & _);
    [lia|reflexivity|].
  exists c', h1, h3. exact (conj E1 (conj E2 (H 2 ltac:(lia)))).
Defined.

Lemma gicd_enable_registers_witness :
  exists m' r, vgicv2_write 0 (mk_gicd 0 0) 0 (GICD_ISENABLER + 4 * 1) 5 demo_vm = Some (mk_gicd 0 0, m')
    /\ vgicv2_read 0 (mk_gicd 0 0) 0 (GICD_ISENABLER + 4 * 1) m' = Some (Some r) /\ Z.testbit r 2 = true.
Proof.
  destruct (gicd_enable_registers 0 (create_vs demo_vm (demo_vcpu 0)) (mk_gicd 0 0) 0 1 5 demo_vm) as [H _];
    [apply demo_vm_ok|reflexivity|lia|vm_compute; discriminate|lia|].
  destruct H as (m' & r & E & _ & Er & Hr). exists m', r. split; [exact E|]. split; [exact Er|]. exact (Hr 2 ltac:(lia)).
Defined.

(** With [last_fail_virq] at 100, the first pass of [vgic_irq_enter_to_guest] runs
    from 100 to 128 - 100 and the second from 0 to 100: the virq 110 stays
    pending although every list register is free. *)
Definition skipped_vm : vm :=
  set_vcpus (map (fun c => set_vcpu_vs (set_last_fail_virq 100 (set_pending_bitmap [0; Z.shiftl 1 46] (set_pending_virq 1 (vcpu_vs c)))) c)
    (vcpus demo_vm)) demo_vm.

Theorem vgic_enter_skips :
  exists m' h', vgic_irq_enter_to_guest (gicv2_chip 4 0) 0 skipped_vm demo_gich = Some (0, m', h')
    /\ bit_at (pending_of 0 m') 110 = true /\ lrs_of 0 m' = [0; 0].
Proof. eexists _, _. split; [vm_compute; reflexivity|]. split; reflexivity. Qed.
