(* ===== verification/Memory.v ===== *)
(** * The allocator of the hypervisor's own memory (core/memory.c, include/minos/mm.h)

    One range of memory is used from both ends: the slab heap grows up from
    [slab_base], pages are taken down from [page_base].  A slab block has a
    header with its size and a word that is SLAB_MAGIC while the block is in
    use and the pointer to the next free block of its size otherwise.  The
    free blocks of one size hang on a [slab_type], which is found through a
    hash table.  A pointer is its address, NULL is 0; [ptov] is the identity.
    The lock is held while these functions work. *)
From S2P Require Import Prelude MemRegion.

Definition HASH_TABLE_SIZE : Z := 8.
Definition SLAB_MIN_DATA_SIZE : Z := 16.
Definition SLAB_MIN_DATA_SIZE_SHIFT : Z := 4.
Definition SLAB_HEADER_SIZE : Z := 16.
Definition SLAB_MAGIC : Z := 0xdeadbeef.

(** [sizeof(struct slab_type)] and [sizeof(struct page)], which is packed. *)
Definition SLAB_TYPE_SIZE : Z := 32.
Definition PAGE_STRUCT_SIZE : Z := 16.

Record slab_header := mk_hdr {
  h_size : Z;
  h_word : Z;
}.

Record slab_type := mk_st {
  st_size : Z;
  st_head : Z;
}.

(** [pg_obj] is the address of the structure itself. *)
Record page := mk_page {
  pg_pfn : Z;
  pg_flags : Z;
  pg_align : Z;
  pg_cnt : Z;
  pg_obj : Z;
}.

Record mm := mk_mm {
  slab_base : Z;
  page_base : Z;
  hdrs : gmap Z slab_header;
  slab_hash_table : list (list slab_type);
  free_page_head : list page;
  used_page_head : list page;
}.

Definition set_slab_base (v : Z) (m : mm) : mm :=
  mk_mm v (page_base m) (hdrs m) (slab_hash_table m) (free_page_head m) (used_page_head m).
Definition set_page_base (v : Z) (m : mm) : mm :=
  mk_mm (slab_base m) v (hdrs m) (slab_hash_table m) (free_page_head m) (used_page_head m).
Definition set_hdrs (v : gmap Z slab_header) (m : mm) : mm :=
  mk_mm (slab_base m) (page_base m) v (slab_hash_table m) (free_page_head m) (used_page_head m).
Definition set_table (v : list (list slab_type)) (m : mm) : mm :=
  mk_mm (slab_base m) (page_base m) (hdrs m) v (free_page_head m) (used_page_head m).
Definition set_free_page_head (v : list page) (m : mm) : mm :=
  mk_mm (slab_base m) (page_base m) (hdrs m) (slab_hash_table m) v (used_page_head m).
Definition set_used_page_head (v : list page) (m : mm) : mm :=
  mk_mm (slab_base m) (page_base m) (hdrs m) (slab_hash_table m) (free_page_head m) v.

(** ** The slab heap *)
Definition hash_id (size : Z) : Z := Z.shiftr size SLAB_MIN_DATA_SIZE_SHIFT mod HASH_TABLE_SIZE.
Definition get_slab_alloc_size (size : Z) : Z := BALIGN size SLAB_MIN_DATA_SIZE.

(** The position of the first [slab_type] of a list with this size. *)
Fixpoint find_st (size : Z) (l : list slab_type) : option nat :=
  match l with
  | [] => None
  | st :: l => if st_size st =? size then Some O else S <$> find_st size l
  end.

Definition malloc_from_hash_table (size : Z) (m : mm) : option (Z * mm) :=
  let id := Z.to_nat (hash_id size) in
  l ← slab_hash_table m !! id;
  match find_st size l with
  | None => Some (0, m)
  | Some k =>
      st ← l !! k;
      if st_head st =? 0 then Some (0, m)
      else
        sh ← hdrs m !! st_head st;
        let l := <[k := mk_st (st_size st) (h_word sh)]> l in
        Some (st_head st + SLAB_HEADER_SIZE,
              set_table (<[id := l]> (slab_hash_table m))
                (set_hdrs (<[st_head st := mk_hdr (h_size sh) SLAB_MAGIC]> (hdrs m)) m))
  end.

Definition malloc_from_slab_heap (size : Z) (m : mm) : Z * mm :=
  if page_base m <=? slab_base m then (0, m)
  else
    let slab_size := page_base m - slab_base m in
    let size := u64 (size + SLAB_HEADER_SIZE) in
    if slab_size <? size then (0, m)
    else
      (slab_base m + SLAB_HEADER_SIZE,
       set_slab_base (slab_base m + size)
         (set_hdrs (<[slab_base m := mk_hdr (size - SLAB_HEADER_SIZE) SLAB_MAGIC]> (hdrs m)) m)).

(** [header->next = st->head; st->head = header] for the type at [id], [k]. *)
Definition push_free (id k : nat) (hd : Z) (m : mm) : option mm :=
  l ← slab_hash_table m !! id;
  st ← l !! k;
  h ← hdrs m !! hd;
  Some (set_table (<[id := <[k := mk_st (st_size st) hd]> l]> (slab_hash_table m))
          (set_hdrs (<[hd := mk_hdr (h_size h) (st_head st)]> (hdrs m)) m)).

Definition free_slab (addr : Z) (m : mm) : option mm :=
  _ ← assert_ (addr <? slab_base m);
  let hd := addr - SLAB_HEADER_SIZE in
  h ← hdrs m !! hd;
  _ ← assert_ (h_word h =? SLAB_MAGIC);
  let id := Z.to_nat (hash_id (h_size h)) in
  l ← slab_hash_table m !! id;
  match find_st (h_size h) l with
  | Some k => push_free id k hd m
  | None =>
      let '(st, m) := malloc_from_slab_heap SLAB_TYPE_SIZE m in
      if st =? 0 then Some m
      else push_free id (length l) hd (set_table (<[id := l ++ [mk_st (u32 (h_size h)) 0]]> (slab_hash_table m)) m)
  end.

Definition __malloc (size : Z) (m : mm) : option (Z * mm) :=
  '(mem, m) ← malloc_from_hash_table size m;
  if negb (mem =? 0) then Some (mem, m) else Some (malloc_from_slab_heap size m).

Definition malloc (size : Z) (m : mm) : option (Z * mm) :=
  _ ← assert_ (negb (size =? 0));
  __malloc (get_slab_alloc_size size) m.

(** The contents of a block are outside of the model: [zalloc] clears them. *)
Definition zalloc (size : Z) (m : mm) : option (Z * mm) := malloc size m.

Definition free (addr : Z) (m : mm) : option mm :=
  _ ← assert_ (negb (addr =? 0)); free_slab addr m.

(** ** Pages *)
Definition add_used_page (pg : option page) (m : mm) : option mm :=
  pg ← pg; Some (set_used_page_head (pg :: used_page_head m) m).

Fixpoint remove_pfn (pfn : Z) (l : list page) : option (page * list page) :=
  match l with
  | [] => None
  | pg :: l =>
      if pg_pfn pg =? pfn then Some (pg, l)
      else '(r, l') ← remove_pfn pfn l; Some (r, pg :: l')
  end.

Definition find_used_page (addr : Z) (m : mm) : option (page * mm) :=
  '(pg, l) ← remove_pfn (Z.shiftr addr PAGE_SHIFT) (used_page_head m); Some (pg, set_used_page_head l m).

Definition __free_page (pg : page) (m : mm) : mm := set_free_page_head (pg :: free_page_head m) m.

Definition free_pages (addr : Z) (m : mm) : option mm :=
  _ ← assert_ (IS_PAGE_ALIGN addr || negb (addr =? 0));
  Some (match find_used_page addr m with
        | Some (pg, m) => __free_page pg m
        | None => m
        end).

(** [pages * PAGE_SIZE] is a product of two [int]. *)
Definition bytes_of (pages : Z) : Z := s32 (pages * PAGE_SIZE).

Definition alloc_new_pages (pages align : Z) (m : mm) : option (option page * mm) :=
  let tmp := page_base m in
  let base := ALIGN (u64 (tmp - bytes_of pages)) align in
  if base <? slab_base m then Some (None, m)
  else
    let rbase := u64 (base + bytes_of pages) in
    '(recycle, m) ←
      (if negb (rbase =? tmp) then
         '(obj, m) ← __malloc PAGE_STRUCT_SIZE m;
         if obj =? 0 then Some (None, m)
         else
           let pg := mk_page (u32 (Z.shiftr rbase PAGE_SHIFT)) 0 1 (u16 (Z.shiftr (u64 (tmp - rbase)) PAGE_SHIFT)) obj in
           Some (Some (Some obj), __free_page pg m)
       else Some (Some None, m));
    match recycle with
    | None => Some (None, m)
    | Some recycle =>
        '(obj, m) ← __malloc PAGE_STRUCT_SIZE m;
        if obj =? 0 then
          m ← (match recycle with Some r => free_slab r m | None => Some m end);
          Some (None, m)
        else
          Some (Some (mk_page (u32 (Z.shiftr base PAGE_SHIFT)) 0 (u8 (Z.shiftr align PAGE_SHIFT)) (u16 pages) obj),
                set_page_base base m)
    end.

(** The page of the free list with this size and alignment, with the pages
    before and behind it. *)
Fixpoint find_free (pages align : Z) (l : list page) : option (list page * page * list page) :=
  match l with
  | [] => None
  | pg :: l =>
      if (pg_cnt pg =? pages) && (pg_align pg =? align) then Some ([], pg, l)
      else '(before, r, after) ← find_free pages align l; Some (pg :: before, r, after)
  end.

(** When the first page of the free list fits, the list becomes empty. *)
Definition __alloc_pages (pages align : Z) (m : mm) : option (option page * mm) :=
  if negb ((align =? 1) || (align =? 2) || (align =? 4) || (align =? 8)) then Some (None, m)
  else
    '(pg, m) ←
      (match find_free pages align (free_page_head m) with
       | None => alloc_new_pages pages (PAGE_SIZE * align) m
       | Some (before, pg, after) =>
           Some (Some pg, set_free_page_head (match before with [] => [] | _ => before ++ after end) m)
       end);
    m ← add_used_page pg m;
    Some (pg, m).

Definition __get_free_pages (pages align : Z) (m : mm) : option (Z * mm) :=
  '(pg, m) ← __alloc_pages pages align m;
  Some (match pg with Some pg => Z.shiftl (pg_pfn pg) PAGE_SHIFT | None => 0 end, m).

Definition get_free_page (m : mm) : option (Z * mm) := __get_free_pages 1 1 m.
Definition get_free_pages (pages : Z) (m : mm) : option (Z * mm) := __get_free_pages pages 1 m.

(** ** Initialisation, for the image that ends at [minos_end]. *)
Definition slab_init (m : mm) : mm := set_table (replicate (Z.to_nat HASH_TABLE_SIZE) []) m.

Definition memory_init (minos_start minos_end ram_size : Z) : option mm :=
  let slab := BALIGN minos_end 16 in
  let top := minos_start + ram_size in
  _ ← assert_ (slab <? top);
  Some (mk_mm slab top ∅ [] [] []).

(** The regions of [mem_list] in order: a kernel region inside of the memory of
    the hypervisor is a [BUG], a ramdisk region sets the address of the ramdisk. *)
Fixpoint memory_region_init (minos_start ram_size : Z) (l : list memory_region) (ramdisk : option (Z * Z)) : option (option (Z * Z)) :=
  match l with
  | [] => Some ramdisk
  | re :: l =>
      let end_ := u64 (minos_start + ram_size) in
      _ ← assert_ (negb ((r_type re =? MEMORY_REGION_TYPE_KERNEL) && (minos_start <=? phy_base re) && (u64 (phy_base re + r_size re) <? end_)));
      memory_region_init minos_start ram_size l
        (if r_type re =? MEMORY_REGION_TYPE_RAMDISK then Some (phy_base re, u64 (phy_base re + r_size re)) else ramdisk)
  end.

(** [regions] is what [of_mm_init] put into [mem_list]. *)
Definition mm_init (minos_start minos_end ram_size : Z) (regions : list memory_region) : option (mm * option (Z * Z)) :=
  m ← memory_init minos_start minos_end ram_size;
  r ← memory_region_init minos_start ram_size regions None;
  Some (slab_init m, r).

(** ** The invariant of the slab heap *)

(** The blocks in [l] hang on each other through their headers, from [head] to
    NULL, and have the size [sz]. *)
Fixpoint linked (hs : gmap Z slab_header) (sz head : Z) (l : list Z) : Prop :=
  match l with
  | [] => head = 0
  | a :: l => head = a /\ a <> 0 /\ exists next, hs !! a = Some (mk_hdr sz next) /\ linked hs sz next l
  end.

(** A header and its data: whole units of 16 bytes inside of the heap. *)
Definition block_ok (lo hi a : Z) (h : slab_header) : Prop :=
  lo <= a /\ a mod 16 = 0 /\ 0 < h_size h /\ h_size h mod 16 = 0 /\ a + SLAB_HEADER_SIZE + h_size h <= hi.

Definition block_end (a : Z) (h : slab_header) : Z := a + SLAB_HEADER_SIZE + h_size h.

(** [ch sz] are the free blocks of the size [sz]. *)
Record slab_ok (lo : Z) (m : mm) (ch : Z -> list Z) : Prop := mk_slab_ok {
  so_lo : 0 < lo <= slab_base m;
  so_hi : slab_base m < lo + 2 ^ 32 /\ page_base m < lo + 2 ^ 32 /\ lo < 2 ^ 61;
  so_align : slab_base m mod 16 = 0;
  so_block : forall a h, hdrs m !! a = Some h -> block_ok lo (slab_base m) a h;
  so_disj : forall a b ha hb, hdrs m !! a = Some ha -> hdrs m !! b = Some hb -> a < b -> block_end a ha <= b;
  so_table : length (slab_hash_table m) = Z.to_nat HASH_TABLE_SIZE;
  so_st : forall k l st, slab_hash_table m !! k = Some l -> st ∈ l ->
    Z.to_nat (hash_id (st_size st)) = k /\ linked (hdrs m) (st_size st) (st_head st) (ch (st_size st));
  so_nodup : forall k l, slab_hash_table m !! k = Some l -> NoDup (st_size <$> l);
  so_nost : forall sz, (forall l, slab_hash_table m !! Z.to_nat (hash_id sz) = Some l -> find_st sz l = None) -> ch sz = [];
  so_chain : forall sz, NoDup (ch sz);
  so_live : forall a h, hdrs m !! a = Some h -> a ∈ ch (h_size h) \/ h_word h = SLAB_MAGIC;
}.

(** A block that is in use: its data begins at [p]. *)
Definition live (m : mm) (p size : Z) : Prop := hdrs m !! (p - SLAB_HEADER_SIZE) = Some (mk_hdr size SLAB_MAGIC).

Lemma hash_id_range size : 0 <= hash_id size < HASH_TABLE_SIZE.
Proof. unfold hash_id, HASH_TABLE_SIZE. apply Z.mod_pos_bound. lia. Qed.

Lemma find_st_some size l k : find_st size l = Some k -> exists st, l !! k = Some st /\ st_size st = size.
Proof.
  revert k. induction l as [|st l IH]; intros k; cbn [find_st]; [done|]. destruct (Z.eqb_spec (st_size st) size) as [E|E].
  - intros [= <-]. by exists st.
  - destruct (find_st size l) as [j|]; [|done]. intros [= <-]. by destruct (IH j eq_refl) as (st' & H1 & H2); exists st'.
Qed.

Lemma find_st_none size l st : find_st size l = None -> st ∈ l -> st_size st <> size.
Proof.
  induction l as [|x l IH]; cbn [find_st]; [by intros _ ?%elem_of_nil|].
  destruct (Z.eqb_spec (st_size x) size) as [E|E]; [done|]. destruct (find_st size l); [done|].
  intros _ [->|H]%elem_of_cons; [done|by apply IH].
Qed.

Lemma find_st_insert size l k st : find_st size l = find_st size (<[k := st]> l) \/ (exists st0, l !! k = Some st0 /\ st_size st0 <> st_size st).
Proof.
  revert k. induction l as [|x l IH]; intros [|k]; cbn; try by left.
  - destruct (decide (st_size x = st_size st)) as [->|]; [by left|right; by exists x].
  - destruct (IH k) as [->|H]; [by left|by right].
Qed.

(** Reading the chain through a header map that agrees on its blocks. *)
Lemma linked_frame hs hs' sz head l :
  (forall a, a ∈ l -> hs' !! a = hs !! a) -> linked hs sz head l -> linked hs' sz head l.
Proof.
  revert head. induction l as [|a l IH]; intros head Hf; cbn [linked]; [done|].
  intros (-> & Ha & next & E & H). split; [done|]. split; [done|]. exists next. split; [rewrite Hf by set_solver; done|].
  apply IH; [set_solver|done].
Qed.

Lemma linked_member hs sz head l a : linked hs sz head l -> a ∈ l -> exists next, hs !! a = Some (mk_hdr sz next).
Proof.
  revert head. induction l as [|b l IH]; intros head; cbn [linked]; [by intros _ ?%elem_of_nil|].
  intros (-> & _ & next & E & H) [->|Hin]%elem_of_cons; [by exists next|by eapply IH].
Qed.

(** A block of a chain has the size of the chain. *)
Lemma chain_size lo m ch a sz : slab_ok lo m ch -> a ∈ ch sz -> exists next, hdrs m !! a = Some (mk_hdr sz next).
Proof.
  intros Ho Ha. destruct (slab_hash_table m !! Z.to_nat (hash_id sz)) as [l|] eqn:El.
  - destruct (find_st sz l) as [k|] eqn:Ek.
    + destruct (find_st_some _ _ _ Ek) as (st & Hst & Hsz).
      destruct (so_st _ _ _ Ho _ _ st El (list_elem_of_lookup_2 _ _ _ Hst)) as [_ Hl]. rewrite Hsz in Hl. by eapply linked_member.
    + rewrite (so_nost _ _ _ Ho sz) in Ha; [by apply elem_of_nil in Ha|]. intros l' El'. rewrite El in El'. by injection El' as <-.
  - rewrite (so_nost _ _ _ Ho sz) in Ha; [by apply elem_of_nil in Ha|]. intros l' El'. by rewrite El in El'.
Qed.

Lemma bucket_of lo m ch sz : slab_ok lo m ch -> exists l, slab_hash_table m !! Z.to_nat (hash_id sz) = Some l.
Proof.
  intros Ho. destruct (lookup_lt_is_Some_2 (slab_hash_table m) (Z.to_nat (hash_id sz))) as [l Hl]; [|by exists l].
  rewrite (so_table _ _ _ Ho). pose proof (hash_id_range sz). lia.
Qed.

(** ** Taking memory from the heap *)
Definition room (m : mm) (size : Z) : bool := (slab_base m <? page_base m) && (size + SLAB_HEADER_SIZE <=? page_base m - slab_base m).

Lemma heap_spec lo m ch size :
  slab_ok lo m ch -> 0 < size < 2 ^ 62 -> size mod 16 = 0 ->
  if room m size then
    exists m', malloc_from_slab_heap size m = (slab_base m + SLAB_HEADER_SIZE, m') /\ slab_ok lo m' ch
      /\ slab_base m' = slab_base m + SLAB_HEADER_SIZE + size /\ page_base m' = page_base m
      /\ hdrs m' = <[slab_base m := mk_hdr size SLAB_MAGIC]> (hdrs m) /\ slab_hash_table m' = slab_hash_table m
      /\ hdrs m !! slab_base m = None /\ free_page_head m' = free_page_head m /\ used_page_head m' = used_page_head m
  else malloc_from_slab_heap size m = (0, m).
Proof.
  intros Ho Hs Hs16. unfold room, malloc_from_slab_heap, SLAB_HEADER_SIZE. rewrite u64_small by lia.
  pose proof (so_lo _ _ _ Ho) as Hlo. destruct (so_hi _ _ _ Ho) as (Hh1 & Hh2 & Hh3).
  destruct (Z.ltb_spec (slab_base m) (page_base m)), (Z.leb_spec (page_base m) (slab_base m)); cbn [andb]; try lia; [|done].
  destruct (Z.leb_spec (size + 16) (page_base m - slab_base m)), (Z.ltb_spec (page_base m - slab_base m) (size + 16)); try lia; [|done].
  assert (hdrs m !! slab_base m = None) as Hfresh.
  { destruct (hdrs m !! slab_base m) as [h|] eqn:E; [|done]. pose proof (so_block _ _ _ Ho _ _ E) as (B1 & B2 & B3 & B4 & B5).
    unfold SLAB_HEADER_SIZE in B5. lia. }
  eexists. split; [done|]. cbn. replace (size + 16 - 16) with size by lia. split; [|split_and!; try done; lia].
  assert (forall a, a ∈ dom (hdrs m) -> a <> slab_base m) as Hne.
  { intros a Ha ->. apply elem_of_dom in Ha as [h Hh]. congruence. }
  assert (forall sz a, a ∈ ch sz -> (<[slab_base m := mk_hdr size SLAB_MAGIC]> (hdrs m)) !! a = hdrs m !! a) as Hch.
  { intros sz a Ha. destruct (chain_size _ _ _ _ _ Ho Ha) as [next E]. apply lookup_insert_ne. intros <-. congruence. }
  split; cbn; try (by destruct Ho); try lia.
  - pose proof (so_align _ _ _ Ho). dlia.
  - intros a h. destruct (decide (a = slab_base m)) as [->|Hna].
    + rewrite lookup_insert_eq. intros [= <-]. split; [lia|]. split; [apply Ho|]. cbn. unfold SLAB_HEADER_SIZE. split_and!; lia.
    + rewrite lookup_insert_ne by done. intros E. destruct (so_block _ _ _ Ho _ _ E) as (B1 & B2 & B3 & B4 & B5). split_and!; try done; lia.
  - intros a b ha hb Ha Hb Hab. unfold block_end, SLAB_HEADER_SIZE.
    destruct (decide (a = slab_base m)) as [->|Hna].
    + rewrite lookup_insert_ne in Hb by lia. destruct (so_block _ _ _ Ho _ _ Hb) as (B1 & B2 & B3 & B4 & B5). unfold SLAB_HEADER_SIZE in B5. lia.
    + rewrite lookup_insert_ne in Ha by done. destruct (decide (b = slab_base m)) as [->|Hnb].
      * destruct (so_block _ _ _ Ho _ _ Ha) as (B1 & B2 & B3 & B4 & B5). unfold SLAB_HEADER_SIZE in B5. lia.
      * rewrite lookup_insert_ne in Hb by done. exact (so_disj _ _ _ Ho _ _ _ _ Ha Hb Hab).
  - intros k l st Hl Hst. destruct (so_st _ _ _ Ho _ _ _ Hl Hst) as [H1' H2']. split; [done|].
    eapply linked_frame; [|done]. apply Hch.
  - intros a h. destruct (decide (a = slab_base m)) as [->|Hna].
    + rewrite lookup_insert_eq. intros [= <-]. by right.
    + rewrite lookup_insert_ne by done. apply (so_live _ _ _ Ho).
Qed.

(** ** The free blocks of one size *)
Definition upd_chain (ch : Z -> list Z) (size : Z) (cl : list Z) (sz : Z) : list Z := if sz =? size then cl else ch sz.

(** The free blocks of the size [st_size st] become [cl] and the block at [a]
    gets the word [w']. *)
Definition relink (id k : nat) (l : list slab_type) (st : slab_type) (hd a w' : Z) (m : mm) : mm :=
  set_table (<[id := <[k := mk_st (st_size st) hd]> l]> (slab_hash_table m))
    (set_hdrs (<[a := mk_hdr (st_size st) w']> (hdrs m)) m).

Lemma st_unique lo m ch id l k k' st st' :
  slab_ok lo m ch -> slab_hash_table m !! id = Some l -> l !! k = Some st -> l !! k' = Some st' ->
  st_size st' = st_size st -> k' = k.
Proof.
  intros Ho Hl Hk Hk' E. apply (NoDup_lookup _ _ _ (st_size st) (so_nodup _ _ _ Ho _ _ Hl)); rewrite list_lookup_fmap.
  - by rewrite Hk', <- E.
  - by rewrite Hk.
Qed.

Lemma relink_fst_sizes (l : list slab_type) (k : nat) st hd : l !! k = Some st -> st_size <$> <[k := mk_st (st_size st) hd]> l = st_size <$> l.
Proof. intros Hk. rewrite list_fmap_insert. cbn. apply list_insert_id. by rewrite list_lookup_fmap, Hk. Qed.

Lemma relink_ok lo m ch id k l st hd a w w' cl :
  slab_ok lo m ch -> slab_hash_table m !! id = Some l -> l !! k = Some st -> hdrs m !! a = Some (mk_hdr (st_size st) w) ->
  linked (<[a := mk_hdr (st_size st) w']> (hdrs m)) (st_size st) hd cl -> NoDup cl ->
  (a ∈ cl \/ w' = SLAB_MAGIC) -> (forall b, b <> a -> b ∈ ch (st_size st) -> b ∈ cl) ->
  slab_ok lo (relink id k l st hd a w' m) (upd_chain ch (st_size st) cl).
Proof.
  intros Ho Hl Hk Ha Hlk Hnd Haw Hsub. unfold upd_chain.
  assert (forall b h, (<[a := mk_hdr (st_size st) w']> (hdrs m)) !! b = Some h -> exists h0, hdrs m !! b = Some h0 /\ h_size h0 = h_size h) as Hsz.
  { intros b h. destruct (decide (b = a)) as [->|Hb].
    - rewrite lookup_insert_eq. intros [= <-]. by exists (mk_hdr (st_size st) w).
    - rewrite lookup_insert_ne by done. intros E. by exists h. }
  split; cbn; try (by destruct Ho).
  - intros b h E. destruct (Hsz _ _ E) as (h0 & E0 & S0). pose proof (so_block _ _ _ Ho _ _ E0) as B.
    unfold block_ok in *. by rewrite S0 in B.
  - intros b c hb hc Hb Hc Hbc. destruct (Hsz _ _ Hb) as (hb0 & Eb & Sb), (Hsz _ _ Hc) as (hc0 & Ec & Sc).
    pose proof (so_disj _ _ _ Ho _ _ _ _ Eb Ec Hbc) as D. unfold block_end in *. by rewrite Sb in D.
  - rewrite length_insert. apply Ho.
  - intros j l' st' Hj Hst'. apply list_lookup_insert_Some in Hj as [(-> & <- & _)|[Hne Hj]].
    + apply list_elem_of_lookup in Hst' as [k' Hk']. apply list_lookup_insert_Some in Hk' as [(-> & <- & _)|[Hne Hk']]; cbn.
      * split; [by apply (so_st _ _ _ Ho _ _ st Hl (list_elem_of_lookup_2 _ _ _ Hk))|]. by rewrite Z.eqb_refl.
      * destruct (so_st _ _ _ Ho _ _ st' Hl (list_elem_of_lookup_2 _ _ _ Hk')) as [H1 H2]. split; [done|].
        destruct (Z.eqb_spec (st_size st') (st_size st)) as [E|E]; [by pose proof (st_unique _ _ _ _ _ _ _ _ _ Ho Hl Hk Hk' E)|].
        eapply linked_frame; [|done]. intros b Hb. destruct (chain_size _ _ _ _ _ Ho Hb) as [nx Eb]. apply lookup_insert_ne. intros <-. congruence.
    + destruct (so_st _ _ _ Ho _ _ st' Hj Hst') as [H1 H2]. split; [done|].
      destruct (so_st _ _ _ Ho _ _ st Hl (list_elem_of_lookup_2 _ _ _ Hk)) as [H3 _].
      destruct (Z.eqb_spec (st_size st') (st_size st)) as [E|E]; [congruence|].
      eapply linked_frame; [|done]. intros b Hb. destruct (chain_size _ _ _ _ _ Ho Hb) as [nx Eb]. apply lookup_insert_ne. intros <-. congruence.
  - intros j l' Hj. apply list_lookup_insert_Some in Hj as [(-> & <- & _)|[Hne Hj]]; [|by eapply Ho].
    rewrite relink_fst_sizes by done. by eapply Ho.
  - intros sz Hno. destruct (so_st _ _ _ Ho _ _ st Hl (list_elem_of_lookup_2 _ _ _ Hk)) as [H3 _].
    destruct (Z.eqb_spec sz (st_size st)) as [->|E].
    + exfalso. specialize (Hno (<[k := mk_st (st_size st) hd]> l)). rewrite H3, list_lookup_insert_eq in Hno by (by eapply lookup_lt_Some).
      apply (find_st_none _ _ (mk_st (st_size st) hd) (Hno eq_refl)); [|done].
      apply (list_elem_of_lookup_2 _ k). apply list_lookup_insert_eq. by eapply lookup_lt_Some.
    + apply (so_nost _ _ _ Ho). intros l' Hl'. destruct (decide (Z.to_nat (hash_id sz) = id)) as [Eid|Nid].
      * rewrite Eid in Hl'. rewrite Hl in Hl'. injection Hl' as <-.
        destruct (find_st_insert sz l k (mk_st (st_size st) hd)) as [->|(st0 & H0 & H1)]; [|cbn in H1; congruence].
        apply Hno. rewrite Eid. apply list_lookup_insert_eq. by eapply lookup_lt_Some.
      * apply Hno. by rewrite list_lookup_insert_ne.
  - intros sz. destruct (Z.eqb_spec sz (st_size st)); [done|apply Ho].
  - intros b h E. destruct (decide (b = a)) as [->|Hb].
    + rewrite lookup_insert_eq in E. injection E as <-. cbn. rewrite Z.eqb_refl. tauto.
    + rewrite lookup_insert_ne in E by done. destruct (so_live _ _ _ Ho _ _ E) as [Hin|]; [left|by right].
      destruct (Z.eqb_spec (h_size h) (st_size st)) as [Es|]; [|done]. apply Hsub; [done|]. by rewrite <- Es.
Qed.

Lemma chain_block lo m ch a size : slab_ok lo m ch -> a ∈ ch size -> 0 < a /\ a mod 16 = 0.
Proof.
  intros Ho Ha. destruct (chain_size _ _ _ _ _ Ho Ha) as [nx E]. destruct (so_block _ _ _ Ho _ _ E) as (B1 & B2 & _).
  pose proof (so_lo _ _ _ Ho). lia.
Qed.

(** The type of a size and the chain behind it. *)
Lemma st_of_chain lo m ch size l k :
  slab_ok lo m ch -> slab_hash_table m !! Z.to_nat (hash_id size) = Some l -> find_st size l = Some k ->
  exists hd, l !! k = Some (mk_st size hd) /\ linked (hdrs m) size hd (ch size).
Proof.
  intros Ho El Ek. destruct (find_st_some _ _ _ Ek) as ([sz hd] & Hst & Hsz). cbn in Hsz. subst sz. exists hd. split; [done|].
  by destruct (so_st _ _ _ Ho _ _ (mk_st size hd) El (list_elem_of_lookup_2 _ _ _ Hst)).
Qed.

(** Only the headers, the table and the end of the heap differ. *)
Definition same_pages (m m' : mm) : Prop :=
  page_base m' = page_base m /\ free_page_head m' = free_page_head m /\ used_page_head m' = used_page_head m.

Lemma pop_spec lo m ch size :
  slab_ok lo m ch ->
  match ch size with
  | [] => malloc_from_hash_table size m = Some (0, m)
  | a :: cl =>
      exists m', malloc_from_hash_table size m = Some (a + SLAB_HEADER_SIZE, m') /\ slab_ok lo m' (upd_chain ch size cl)
        /\ hdrs m' = <[a := mk_hdr size SLAB_MAGIC]> (hdrs m) /\ slab_base m' = slab_base m /\ same_pages m m'
  end.
Proof.
  intros Ho. destruct (bucket_of _ _ _ size Ho) as [l El]. unfold malloc_from_hash_table. rewrite El. cbn [mbind option_bind].
  destruct (find_st size l) as [k|] eqn:Ek.
  - destruct (st_of_chain _ _ _ _ _ _ Ho El Ek) as (hd & Hst & Hlk). rewrite Hst. cbn [mbind option_bind st_head st_size].
    pose proof (so_chain _ _ _ Ho size) as Hnd. destruct (ch size) as [|a cl] eqn:Ech; cbn [linked] in Hlk; [by rewrite Hlk|].
    destruct Hlk as (-> & Ha & next & Eh & Hlk). rewrite (proj2 (Z.eqb_neq _ _) Ha), Eh. cbn [mbind option_bind h_word h_size].
    apply list.NoDup_cons in Hnd as [Hna Hnd].
    eexists. split; [done|]. split; [|done].
    apply (relink_ok _ _ _ _ _ _ (mk_st size a) _ _ next _ cl Ho El Hst Eh); [|done|by right|].
    + eapply linked_frame; [|exact Hlk]. intros b Hb. apply lookup_insert_ne. by intros ->.
    + cbn. rewrite Ech. intros b Hb. set_solver.
  - rewrite (so_nost _ _ _ Ho size); [done|]. intros l' El'. rewrite El in El'. by injection El' as <-.
Qed.

(** A new type without blocks at the end of a bucket. *)
Lemma find_st_snoc size l st : st_size st <> size -> find_st size (l ++ [st]) = find_st size l.
Proof.
  intros H. induction l as [|x l IH]; cbn [app find_st]; [by rewrite (proj2 (Z.eqb_neq _ _) H)|].
  by rewrite IH.
Qed.

Lemma new_st_ok lo m ch size l :
  slab_ok lo m ch -> slab_hash_table m !! Z.to_nat (hash_id size) = Some l -> find_st size l = None ->
  slab_ok lo (set_table (<[Z.to_nat (hash_id size) := l ++ [mk_st size 0]]> (slab_hash_table m)) m) ch.
Proof.
  intros Ho El Ef. pose proof (lookup_lt_Some _ _ _ El) as Hlt.
  assert (ch size = []) as Hch. { apply (so_nost _ _ _ Ho). intros l' El'. rewrite El in El'. by injection El' as <-. }
  split; cbn; try (by destruct Ho).
  - rewrite length_insert. apply Ho.
  - intros j l' st Hj Hst. apply list_lookup_insert_Some in Hj as [(<- & <- & _)|[Hne Hj]]; [|by apply (so_st _ _ _ Ho _ l')].
    apply elem_of_app in Hst as [Hst|Hst%list_elem_of_singleton]; [by apply (so_st _ _ _ Ho _ l)|]. subst st. cbn. by rewrite Hch.
  - intros j l' Hj. apply list_lookup_insert_Some in Hj as [(<- & <- & _)|[Hne Hj]]; [|by eapply Ho].
    rewrite fmap_app. apply list.NoDup_app. split; [by eapply Ho|]. split; [|by apply NoDup_singleton].
    intros s (st & -> & Hst)%list_elem_of_fmap. cbn. rewrite list_elem_of_singleton. intros E. by apply (find_st_none _ _ _ Ef Hst).
  - intros sz Hno. destruct (decide (sz = size)) as [->|Hne]; [done|]. apply (so_nost _ _ _ Ho). intros l' Hl'.
    destruct (decide (hash_id sz = hash_id size)) as [E|E].
    + rewrite E, El in Hl'. injection Hl' as <-. rewrite <- (find_st_snoc sz l (mk_st size 0)) by (cbn; congruence).
      apply Hno. rewrite E. by apply list_lookup_insert_eq.
    + apply Hno. rewrite list_lookup_insert_ne; [done|]. pose proof (hash_id_range sz). pose proof (hash_id_range size). lia.
Qed.

(** A block that carries the magic is on no chain: no address of a block is
    SLAB_MAGIC, which is odd. *)
Lemma live_not_free lo m ch a size : slab_ok lo m ch -> hdrs m !! a = Some (mk_hdr size SLAB_MAGIC) -> a ∉ ch size.
Proof.
  intros Ho Ha Hin. destruct (bucket_of _ _ _ size Ho) as [l El]. destruct (find_st size l) as [k|] eqn:Ek.
  - destruct (st_of_chain _ _ _ _ _ _ Ho El Ek) as (hd & _ & Hlk).
    assert (forall b, b ∈ ch size -> b mod 16 = 0) as Hal by (intros b Hb; by destruct (chain_block _ _ _ _ _ Ho Hb)).
    revert hd Hlk Hin Hal. generalize (ch size) as c. clear - Ha. induction c as [|b c IH]; intros hd; cbn [linked]; [by intros _ ?%elem_of_nil|].
    intros (-> & _ & nx & Eb & Hl) Hin Hal. destruct (decide (a = b)) as [->|Hab].
    + rewrite Ha in Eb. injection Eb as <-. destruct c as [|c0 c]; cbn [linked] in Hl; [done|]. destruct Hl as (E & _).
      specialize (Hal c0 ltac:(set_solver)). by rewrite <- E in Hal.
    + eapply IH; [exact Hl|set_solver|]. intros; apply Hal; set_solver.
  - rewrite (so_nost _ _ _ Ho size) in Hin; [by apply elem_of_nil in Hin|]. intros l' El'. rewrite El in El'. by injection El' as <-.
Qed.

(** A live block is put in front of the free blocks of its size. *)
Lemma push_spec lo m ch a size l k hd :
  slab_ok lo m ch -> slab_hash_table m !! Z.to_nat (hash_id size) = Some l -> l !! k = Some (mk_st size hd) ->
  hdrs m !! a = Some (mk_hdr size SLAB_MAGIC) ->
  exists m', push_free (Z.to_nat (hash_id size)) k a m = Some m' /\ slab_ok lo m' (upd_chain ch size (a :: ch size))
    /\ hdrs m' = <[a := mk_hdr size hd]> (hdrs m) /\ (hd = 0 \/ hd mod 16 = 0) /\ slab_base m' = slab_base m /\ same_pages m m'.
Proof.
  intros Ho El Hst Ha. destruct (so_st _ _ _ Ho _ _ (mk_st size hd) El (list_elem_of_lookup_2 _ _ _ Hst)) as [_ Hlk]. cbn in Hlk.
  assert (hd = 0 \/ hd mod 16 = 0) as Hhd.
  { destruct (ch size) as [|b cl] eqn:Ec; cbn in Hlk; [by left|]. destruct Hlk as (-> & _). right. eapply (chain_block _ _ ch b size); [done|]. rewrite Ec. set_solver. }
  pose proof (live_not_free _ _ _ _ _ Ho Ha) as Hna.
  unfold push_free. rewrite El. cbn [mbind option_bind]. rewrite Hst. cbn [mbind option_bind]. rewrite Ha. cbn [mbind option_bind h_size st_head st_size].
  eexists. split; [done|]. split; [|done].
  apply (relink_ok _ _ _ _ _ _ (mk_st size hd) a a SLAB_MAGIC hd (a :: ch size) Ho El Hst Ha).
  - cbn [linked st_size]. split; [done|]. pose proof (so_block _ _ _ Ho _ _ Ha) as (B1 & _). pose proof (so_lo _ _ _ Ho).
    split; [lia|]. exists hd. rewrite lookup_insert_eq. split; [done|]. eapply linked_frame; [|exact Hlk].
    intros b Hb. apply lookup_insert_ne. by intros ->.
  - apply list.NoDup_cons. split; [done|apply Ho].
  - set_solver.
  - cbn. set_solver.
Qed.

(** ** malloc and free *)

(** What an allocation of [size] bytes did: the block at [a] was fresh or free
    and is in use now. *)
Definition took (m m' : mm) (size a : Z) : Prop :=
  hdrs m' = <[a := mk_hdr size SLAB_MAGIC]> (hdrs m) /\ 0 < a /\ (forall s, hdrs m !! a <> Some (mk_hdr s SLAB_MAGIC)).

Lemma __malloc_spec lo m ch size :
  slab_ok lo m ch -> 0 < size < 2 ^ 62 -> size mod 16 = 0 ->
  exists p m' ch', __malloc size m = Some (p, m') /\ slab_ok lo m' ch' /\ same_pages m m'
    /\ slab_base m <= slab_base m' <= slab_base m + SLAB_HEADER_SIZE + size /\ slab_base m' <= Z.max (slab_base m) (page_base m)
    /\ (p = 0 /\ m' = m /\ ch size = [] /\ room m size = false \/ exists a, p = a + SLAB_HEADER_SIZE /\ took m m' size a).
Proof.
  intros Ho Hs Hs16. unfold __malloc. pose proof (pop_spec _ _ _ size Ho) as Hp. pose proof (so_lo _ _ _ Ho) as Hlo.
  destruct (ch size) as [|a cl] eqn:Ech.
  - rewrite Hp. cbn [mbind option_bind negb Z.eqb]. pose proof (heap_spec _ _ _ size Ho Hs Hs16) as Hh. destruct (room m size) eqn:Er.
    + unfold room in Er. destruct Hh as (m' & -> & Ho' & Hb & Hpb & Hhd & _ & Hfresh & Hf & Hu). exists (slab_base m + SLAB_HEADER_SIZE), m', ch.
      unfold same_pages, SLAB_HEADER_SIZE in *. split_and!; try done; try lia.
      right. exists (slab_base m). split; [done|].
      split; [done|]. split; [lia|]. intros s. by rewrite Hfresh.
    + rewrite Hh. exists 0, m, ch. unfold same_pages, SLAB_HEADER_SIZE. split_and!; try done; try lia. by left.
  - destruct Hp as (m' & -> & Ho' & Hhd & Hb & Hpg). assert (a ∈ ch size) as Ha by (rewrite Ech; set_solver).
    destruct (chain_block _ _ _ _ _ Ho Ha) as [Hpos _]. cbn [mbind option_bind]. unfold SLAB_HEADER_SIZE.
    rewrite (proj2 (Z.eqb_neq (a + 16) 0)) by lia. cbn [negb]. exists (a + 16), m', (upd_chain ch size cl). split_and!; try done; try lia.
    right. exists a. split; [done|]. split; [done|]. split; [done|]. intros s E. destruct (chain_size _ _ _ _ _ Ho Ha) as [nx E'].
    rewrite E in E'. injection E' as -> <-. by apply (live_not_free _ _ _ _ _ Ho E).
Qed.

(** Two blocks with different headers have disjoint extents. *)
Definition apart (p s q t : Z) : Prop := p + s <= q - SLAB_HEADER_SIZE \/ q + t <= p - SLAB_HEADER_SIZE.

Lemma took_live lo m m' ch' size a :
  slab_ok lo m' ch' -> took m m' size a ->
  live m' (a + SLAB_HEADER_SIZE) size /\ (forall q s, live m q s -> live m' q s /\ apart (a + SLAB_HEADER_SIZE) size q s).
Proof.
  intros Ho (Hh & Hpos & Hnl). unfold live, apart. replace (a + SLAB_HEADER_SIZE - SLAB_HEADER_SIZE) with a by lia.
  assert (hdrs m' !! a = Some (mk_hdr size SLAB_MAGIC)) as Ha by (rewrite Hh; apply lookup_insert_eq).
  split; [done|]. intros q s Hq. assert (a <> q - SLAB_HEADER_SIZE) as Hne by (intros ->; by apply (Hnl s)).
  assert (hdrs m' !! (q - SLAB_HEADER_SIZE) = Some (mk_hdr s SLAB_MAGIC)) as Hq' by (rewrite Hh, lookup_insert_ne; done).
  split; [done|]. destruct (Z.lt_total a (q - SLAB_HEADER_SIZE)) as [H|[H|H]]; [|done|].
  - pose proof (so_disj _ _ _ Ho _ _ _ _ Ha Hq' H) as D. unfold block_end in D. cbn in D. lia.
  - pose proof (so_disj _ _ _ Ho _ _ _ _ Hq' Ha H) as D. unfold block_end in D. cbn in D. lia.
Qed.

Lemma get_slab_alloc_size_eq size :
  0 < size < 2 ^ 61 -> let n := get_slab_alloc_size size in size <= n < size + 16 /\ n mod 16 = 0 /\ 0 < n < 2 ^ 62.
Proof.
  intros Hs. cbv zeta. assert (get_slab_alloc_size size = 16 * ((size + 15) / 16)) as ->.
  { unfold get_slab_alloc_size. change SLAB_MIN_DATA_SIZE with (2 ^ 4). by rewrite BALIGN_pow2 by lia. }
  split_and!; dlia.
Qed.

(** What free did to the block of [size] bytes at [p]. *)
Lemma free_spec lo m ch p size :
  slab_ok lo m ch -> live m p size ->
  exists m' ch', free p m = Some m' /\ slab_ok lo m' ch' /\ same_pages m m' /\ slab_base m' <= Z.max (slab_base m) (page_base m)
    /\ (m' = m /\ room m SLAB_TYPE_SIZE = false
        \/ exists hd, (forall q s, q <> p -> live m q s -> live m' q s) /\ hdrs m' !! (p - SLAB_HEADER_SIZE) = Some (mk_hdr size hd)
             /\ hd mod 16 = 0 /\ ch' size = (p - SLAB_HEADER_SIZE) :: ch size).
Proof.
  intros Ho Hlive. unfold live in Hlive. destruct (so_block _ _ _ Ho _ _ Hlive) as (B1 & B2 & B3 & B4 & B5). cbn in *.
  pose proof (so_lo _ _ _ Ho) as Hlo. destruct (so_hi _ _ _ Ho) as (Hh1 & Hh2 & Hh3). unfold free, free_slab. unfold SLAB_HEADER_SIZE in *.
  rewrite (proj2 (Z.eqb_neq p 0)), (proj2 (Z.ltb_lt p (slab_base m))) by lia. msimpl. rewrite Hlive. cbn [mbind option_bind h_word h_size].
  rewrite Z.eqb_refl. msimpl. destruct (bucket_of _ _ _ size Ho) as [l El]. rewrite El. cbn [mbind option_bind].
  destruct (find_st size l) as [k|] eqn:Ek.
  - destruct (st_of_chain _ _ _ _ _ _ Ho El Ek) as (hd & Hst & _).
    destruct (push_spec _ _ _ (p - 16) size l k hd Ho El Hst Hlive) as (m' & -> & Ho' & Hhd & Hal & Hsb & Hpg).
    exists m', (upd_chain ch size ((p - 16) :: ch size)). split_and!; try done; [lia|]. right. exists hd. rewrite Hhd.
    split; [|split; [apply lookup_insert_eq|split; [by destruct Hal as [->|]|unfold upd_chain; by rewrite Z.eqb_refl]]].
    intros q s Hq Hl. unfold live. rewrite Hhd, lookup_insert_ne; [done|]. unfold SLAB_HEADER_SIZE. lia.
  - pose proof (heap_spec _ _ _ SLAB_TYPE_SIZE Ho ltac:(unfold SLAB_TYPE_SIZE; lia) eq_refl) as Hh. destruct (room m SLAB_TYPE_SIZE) eqn:Er.
    + destruct Hh as (m1 & -> & Ho1 & Hb1 & Hp1 & Hhd1 & Ht1 & Hfr & Hf1 & Hu1). unfold SLAB_HEADER_SIZE.
      rewrite (proj2 (Z.eqb_neq (slab_base m + 16) 0)) by lia. rewrite (u32_small size) by lia.
      assert (p - 16 <> slab_base m) as Hne by (intros E; rewrite E in Hlive; congruence).
      assert (slab_hash_table m1 !! Z.to_nat (hash_id size) = Some l) as El1 by (by rewrite Ht1).
      pose proof (new_st_ok _ _ _ size l Ho1 El1 Ek) as Ho2.
      set (m2 := set_table _ m1) in *.
      assert (slab_hash_table m2 !! Z.to_nat (hash_id size) = Some (l ++ [mk_st size 0])) as El2
        by (apply list_lookup_insert_eq; by eapply lookup_lt_Some).
      assert ((l ++ [mk_st size 0]) !! length l = Some (mk_st size 0)) as Hst2 by (by apply list_lookup_middle).
      assert (hdrs m2 !! (p - 16) = Some (mk_hdr size SLAB_MAGIC)) as Hl2.
      { change (hdrs m2) with (hdrs m1). by rewrite Hhd1, lookup_insert_ne. }
      destruct (push_spec _ _ _ (p - 16) size _ _ 0 Ho2 El2 Hst2 Hl2) as (m' & -> & Ho' & Hhd & Hal & Hsb & Hpg).
      exists m', (upd_chain ch size ((p - 16) :: ch size)). split; [done|]. split; [done|].
      split; [unfold same_pages in *; cbn in Hpg; by rewrite Hp1, Hf1, Hu1 in Hpg|].
      split; [unfold room in Er; change (slab_base m2) with (slab_base m1) in Hsb; unfold SLAB_HEADER_SIZE, SLAB_TYPE_SIZE in *; lia|]. right. exists 0. rewrite Hhd.
      split; [|split; [apply lookup_insert_eq|split; [done|unfold upd_chain; by rewrite Z.eqb_refl]]].
      intros q s Hq Hl. unfold live in *. rewrite Hhd, lookup_insert_ne by (unfold SLAB_HEADER_SIZE; lia).
      change (hdrs m2) with (hdrs m1). rewrite Hhd1, lookup_insert_ne; [done|]. intros E. rewrite <- E in Hl. congruence.
    + rewrite Hh. cbn. exists m, ch. split_and!; try done; [lia|]. by left.
Qed.

(** ** The invariant of the pages *)

(** The pages behind a [page] structure that hold the address [a], 0 or 1. *)
Definition pg_base (pg : page) : Z := pg_pfn pg * PAGE_SIZE.
Definition pg_end (pg : page) : Z := (pg_pfn pg + pg_cnt pg) * PAGE_SIZE.
Definition pg_span (a : Z) (pg : page) : Z := rng (pg_base pg) (pg_end pg) a.
Definition align_ok (align : Z) : Prop := align = 1 \/ align = 2 \/ align = 4 \/ align = 8.

Record page_ok (lo top : Z) (pg : page) : Prop := mk_page_ok {
  pk_cnt : 0 < pg_cnt pg < 2 ^ 16;
  pk_lo : lo <= pg_base pg;
  pk_hi : pg_end pg <= top;
  pk_align : align_ok (pg_align pg);
  pk_pfn : pg_pfn pg mod pg_align pg = 0;
}.

Definition all_pages (m : mm) : list page := used_page_head m ++ free_page_head m.

(** The slab heap is below the pages, and no address is in two of them. *)
Record pages_ok (top : Z) (m : mm) : Prop := mk_pages_ok {
  po_sep : 0 < slab_base m <= page_base m /\ page_base m <= top;
  po_top : top < 2 ^ 44;
  po_align : page_base m mod PAGE_SIZE = 0;
  po_pg : forall pg, pg ∈ all_pages m -> page_ok (page_base m) top pg;
  po_count : forall a, zsum (pg_span a) (all_pages m) <= 1;
}.

Definition mm_ok (lo top : Z) (m : mm) : Prop := (exists ch, slab_ok lo m ch) /\ pages_ok top m.

(** The [n] pages at [p] are handed out. *)
Definition page_in_use (m : mm) (p n : Z) : Prop := exists pg, pg ∈ used_page_head m /\ p = pg_base pg /\ n = pg_cnt pg.

Lemma pg_span_nonneg a pg : 0 <= pg_span a pg.
Proof. unfold pg_span. destruct (rng_cases (pg_base pg) (pg_end pg) a); lia. Qed.

Lemma span_sum_nonneg a l : 0 <= zsum (pg_span a) l.
Proof. apply zsum_nonneg. intros. apply pg_span_nonneg. Qed.

Lemma page_ok_mono lo lo' top pg : lo' <= lo -> page_ok lo top pg -> page_ok lo' top pg.
Proof. intros H [? ? ? ? ?]. split; try done; lia. Qed.

(** Operations of the heap keep the pages. *)
Lemma same_pages_ok top m m' :
  same_pages m m' -> slab_base m' <= Z.max (slab_base m) (page_base m) -> 0 < slab_base m' -> pages_ok top m -> pages_ok top m'.
Proof.
  intros (E1 & E2 & E3) Hs H0 [Q1 Q2 Q3 Q4 Q5]. unfold all_pages in *. split; unfold all_pages; rewrite ?E1, ?E2, ?E3; try done. lia.
Qed.

(** Two members of the list with an address in common are one member. *)
Lemma span_unique top m l1 pg l2 a :
  pages_ok top m -> all_pages m ≡ₚ l1 ++ pg :: l2 -> pg_base pg <= a < pg_end pg -> forall q, q ∈ l1 ++ l2 -> a < pg_base q \/ pg_end q <= a.
Proof.
  intros Ho Hp Ha q Hq. pose proof (po_count _ _ Ho a) as Hc. rewrite (zsum_perm _ _ _ Hp) in Hc. autorewrite with zsum in Hc.
  assert (pg_span a q <= zsum (pg_span a) (l1 ++ l2)) as Hle.
  { apply list_elem_of_split in Hq as (k1 & k2 & ->). autorewrite with zsum. pose proof (span_sum_nonneg a k1). pose proof (span_sum_nonneg a k2). lia. }
  autorewrite with zsum in Hle. unfold pg_span in *. destruct (rng_cases (pg_base pg) (pg_end pg) a), (rng_cases (pg_base q) (pg_end q) a); lia.
Qed.

(** Rearranging the lists of pages. *)
Lemma all_pages_perm_ok top m l u :
  pages_ok top m -> (exists lost, all_pages m ≡ₚ (u ++ l) ++ lost) ->
  pages_ok top (set_free_page_head l (set_used_page_head u m)).
Proof.
  intros [Q1 Q2 Q3 Q4 Q5] [lost Hp]. split; try done.
  - intros pg Hpg. apply Q4. rewrite Hp. unfold all_pages in Hpg. cbn in Hpg. set_solver.
  - intros a. specialize (Q5 a). rewrite (zsum_perm _ _ _ Hp) in Q5. rewrite zsum_app in Q5. pose proof (span_sum_nonneg a lost).
    change (zsum (pg_span a) (u ++ l) <= 1). lia.
Qed.

Lemma remove_pfn_some pfn l pg l' : remove_pfn pfn l = Some (pg, l') -> l ≡ₚ pg :: l' /\ pg_pfn pg = pfn.
Proof.
  revert l'. induction l as [|x l IH]; intros l'; cbn [remove_pfn]; [done|]. destruct (Z.eqb_spec (pg_pfn x) pfn) as [E|E].
  - by intros [= <- <-].
  - destruct (remove_pfn pfn l) as [[r l1]|]; [|done]. cbn. intros [= <- <-]. destruct (IH l1 eq_refl) as [Hp He].
    split; [|done]. rewrite Hp. apply Permutation_swap.
Qed.

Lemma remove_pfn_none pfn l pg : remove_pfn pfn l = None -> pg ∈ l -> pg_pfn pg <> pfn.
Proof.
  induction l as [|x l IH]; cbn [remove_pfn]; [by intros _ ?%elem_of_nil|]. destruct (Z.eqb_spec (pg_pfn x) pfn) as [E|E]; [done|].
  destruct (remove_pfn pfn l) as [[r l1]|]; [done|]. intros _ [->|H]%elem_of_cons; [done|by apply IH].
Qed.

Lemma find_free_some pages align l b pg a :
  find_free pages align l = Some (b, pg, a) -> l = b ++ pg :: a /\ pg_cnt pg = pages /\ pg_align pg = align.
Proof.
  revert b. induction l as [|x l IH]; intros b; cbn [find_free]; [done|].
  destruct (Z.eqb_spec (pg_cnt x) pages) as [E1|E1]; [destruct (Z.eqb_spec (pg_align x) align) as [E2|E2]|]; cbn [andb].
  - by intros [= <- <- <-].
  - destruct (find_free pages align l) as [[[b' r] a']|]; [|done]. cbn. intros [= <- <- <-]. by destruct (IH b' eq_refl) as (-> & ? & ?).
  - destruct (find_free pages align l) as [[[b' r] a']|]; [|done]. cbn. intros [= <- <- <-]. by destruct (IH b' eq_refl) as (-> & ? & ?).
Qed.

(** ** New pages *)
Definition newbase (m : mm) (pages align : Z) : Z := PAGE_SIZE * align * ((page_base m - pages * PAGE_SIZE) / (PAGE_SIZE * align)).

Definition keeps_live (m m' : mm) : Prop := forall q s, live m q s -> live m' q s.

(** The memory of a [struct page]. *)
Lemma page_struct_spec lo m ch :
  slab_ok lo m ch -> slab_base m + 32 <= page_base m ->
  exists obj m' ch', __malloc PAGE_STRUCT_SIZE m = Some (obj, m') /\ obj <> 0 /\ slab_ok lo m' ch' /\ same_pages m m'
    /\ slab_base m <= slab_base m' <= slab_base m + 32 /\ keeps_live m m'.
Proof.
  intros Ho Hr. destruct (__malloc_spec _ _ _ PAGE_STRUCT_SIZE Ho ltac:(unfold PAGE_STRUCT_SIZE; lia) eq_refl)
    as (p & m' & ch' & E & Ho' & Hp & Hb & _ & Hc). unfold SLAB_HEADER_SIZE, PAGE_STRUCT_SIZE in *.
  destruct Hc as [(_ & _ & _ & Hn)|(a & -> & Ht)].
  - unfold room, SLAB_HEADER_SIZE in Hn. lia.
  - exists (a + 16), m', ch'. split_and!; try done; try lia; [destruct Ht as (_ & ? & _); lia|].
    intros q s Hq. by apply (took_live _ _ _ _ _ _ Ho' Ht).
Qed.

Lemma newbase_bounds m pages align :
  align_ok align -> 0 < newbase m pages align ->
  let n := newbase m pages align in
  page_base m - pages * PAGE_SIZE - PAGE_SIZE * align < n <= page_base m - pages * PAGE_SIZE /\ n mod PAGE_SIZE = 0 /\ n / PAGE_SIZE mod align = 0.
Proof. intros Ha. unfold newbase, PAGE_SIZE, align_ok in *. intros Hn. destruct Ha as [->|[->|[->| ->]]]; cbn in *; split_and!; dlia. Qed.

Lemma ALIGN_newbase m pages align :
  align_ok align -> 0 < pages < 2 ^ 16 -> page_base m < 2 ^ 44 -> 0 < newbase m pages align ->
  ALIGN (u64 (page_base m - bytes_of pages)) (PAGE_SIZE * align) = newbase m pages align.
Proof.
  intros Ha Hp Ht Hn. pose proof (newbase_bounds m pages align Ha Hn) as ((B1 & B2) & _). unfold bytes_of, s32.
  replace ((pages * PAGE_SIZE + 2 ^ 31) mod 2 ^ 32 - 2 ^ 31) with (pages * PAGE_SIZE) by (unfold PAGE_SIZE; rewrite Z.mod_small; lia).
  unfold PAGE_SIZE in *. rewrite u64_small by lia. unfold newbase, PAGE_SIZE.
  destruct Ha as [->|[->|[->| ->]]].
  - apply (ALIGN_pow2 _ 12); lia.
  - apply (ALIGN_pow2 _ 13); lia.
  - apply (ALIGN_pow2 _ 14); lia.
  - apply (ALIGN_pow2 _ 15); lia.
Qed.

(** Adding pages below the ones that exist. *)
Lemma add_pages_ok top m b new l u :
  pages_ok top m -> 0 < slab_base m <= b -> b <= page_base m -> b mod PAGE_SIZE = 0 ->
  (forall pg, pg ∈ new -> page_ok b (page_base m) pg) -> (forall a, zsum (pg_span a) new <= 1) ->
  u ++ l ≡ₚ new ++ all_pages m ->
  pages_ok top (set_free_page_head l (set_used_page_head u (set_page_base b m))).
Proof.
  intros [Q1 Q2 Q3 Q4 Q5] Hsb Hb Hal Hnew Hcnt Hp. split; try done; cbn; try lia.
  - intros pg. unfold all_pages. cbn. rewrite Hp. intros [Hi|Hi]%elem_of_app.
    + destruct (Hnew _ Hi) as [? ? ? ? ?]. split; try done; lia.
    + by eapply page_ok_mono, Q4.
  - intros a. change (zsum (pg_span a) (u ++ l) <= 1). rewrite (zsum_perm _ _ _ Hp), zsum_app. destruct (decide (a < page_base m)) as [Hlt|Hge].
    + rewrite (zsum_zero _ (all_pages m)); [specialize (Hcnt a); lia|]. intros pg Hpg. unfold pg_span.
      destruct (Q4 _ Hpg) as [? Hlo ? ? ?]. destruct (rng_cases (pg_base pg) (pg_end pg) a); lia.
    + rewrite (zsum_zero _ new); [specialize (Q5 a); lia|]. intros pg Hpg. unfold pg_span.
      destruct (Hnew _ Hpg) as [? ? Hhi ? ?]. destruct (rng_cases (pg_base pg) (pg_end pg) a); lia.
Qed.

Lemma slab_ok_pages lo m m' ch :
  hdrs m' = hdrs m -> slab_hash_table m' = slab_hash_table m -> slab_base m' = slab_base m -> page_base m' < lo + 2 ^ 32 ->
  slab_ok lo m ch -> slab_ok lo m' ch.
Proof. intros E1 E2 E3 Hp [Q1 Q2 Q3 Q4 Q5 Q6 Q7 Q8 Q9 Q10 Q11]. split; rewrite ?E1, ?E2, ?E3; try done. lia. Qed.

(** The structures that alloc_new_pages writes. *)
Lemma new_page_ok b pages align obj :
  align_ok align -> 0 < pages < 2 ^ 16 -> 0 <= b -> b mod PAGE_SIZE = 0 -> b / PAGE_SIZE mod align = 0 ->
  let pg := mk_page (b / PAGE_SIZE) 0 align pages obj in
  page_ok b (b + pages * PAGE_SIZE) pg /\ pg_base pg = b /\ pg_end pg = b + pages * PAGE_SIZE.
Proof.
  intros Ha Hp Hb H1 H2. unfold pg_base, pg_end, PAGE_SIZE in *. cbn. split; [|split; dlia].
  split; unfold pg_base, pg_end; cbn; unfold PAGE_SIZE; try done; dlia.
Qed.

Lemma u32_pfn x : 0 <= x < 2 ^ 44 -> u32 (Z.shiftr x PAGE_SHIFT) = x / PAGE_SIZE.
Proof.
  intros Hx. unfold PAGE_SHIFT, PAGE_SIZE. rewrite Z.shiftr_div_pow2 by lia. apply u32_small. change (2 ^ 12) with 4096. dlia.
Qed.

Lemma recycle_cnt t r : r < t -> t - r < 2 ^ 16 -> t mod PAGE_SIZE = 0 -> r mod PAGE_SIZE = 0 ->
  u16 (Z.shiftr (u64 (t - r)) PAGE_SHIFT) = (t - r) / PAGE_SIZE /\ 0 < (t - r) / PAGE_SIZE < 2 ^ 16 /\ r + (t - r) / PAGE_SIZE * PAGE_SIZE = t.
Proof.
  intros H1 H2 H3 H4. rewrite u64_small by lia. unfold PAGE_SHIFT, PAGE_SIZE in *. rewrite Z.shiftr_div_pow2 by lia. change (2 ^ 12) with 4096.
  split_and!; try dlia. apply Z.mod_small. dlia.
Qed.

Lemma alloc_new_pages_spec lo top m ch pages align :
  slab_ok lo m ch -> pages_ok top m -> 0 < pages < 2 ^ 16 -> align_ok align -> slab_base m + 64 <= newbase m pages align ->
  exists pg m' ch', alloc_new_pages pages (PAGE_SIZE * align) m = Some (Some pg, m') /\ slab_ok lo m' ch'
    /\ pages_ok top (set_used_page_head (pg :: used_page_head m') m') /\ used_page_head m' = used_page_head m
    /\ pg_base pg = newbase m pages align /\ pg_cnt pg = pages /\ pg_align pg = align /\ keeps_live m m'.
Proof.
  intros Ho Hpo Hpg Ha Hroom. destruct (po_sep _ _ Hpo) as [[Hs0 Hsep] Htop]. pose proof (po_top _ _ Hpo) as Ht. pose proof (po_align _ _ Hpo) as Hpal.
  destruct (newbase_bounds m pages align Ha ltac:(lia)) as ((B1 & B2) & B3 & B4).
  pose proof (ALIGN_newbase m pages align Ha Hpg ltac:(lia) ltac:(lia)) as EA.
  assert (bytes_of pages = pages * PAGE_SIZE) as Ebo by (unfold bytes_of, s32, PAGE_SIZE; rewrite Z.mod_small; lia).
  assert (0 <= pages * PAGE_SIZE < 2 ^ 28) as Hpb by (unfold PAGE_SIZE; lia).
  unfold alloc_new_pages. rewrite EA, Ebo. set (b := newbase m pages align) in *.
  rewrite (proj2 (Z.ltb_ge b (slab_base m))) by lia. rewrite (u64_small (b + _)) by lia. rewrite !u32_pfn by lia.
  assert (u8 (Z.shiftr (PAGE_SIZE * align) PAGE_SHIFT) = align) as -> by (destruct Ha as [->|[->|[->| ->]]]; reflexivity).
  assert (u16 pages = pages) as -> by (apply Z.mod_small; lia). destruct (so_hi _ _ _ Ho) as (_ & Hhi & _).
  destruct (page_struct_spec _ _ _ Ho ltac:(lia)) as (obj & m1 & ch1 & E1 & Hobj & Ho1 & (G1 & G2 & G3) & Hb1 & Hk1).
  assert (pages_ok top m1) as Hpo1 by (apply (same_pages_ok top m); try done; lia).
  destruct (Z.eqb_spec (b + pages * PAGE_SIZE) (page_base m)) as [Eq|Nq]; cbn [negb].
  - cbn [mbind option_bind]. rewrite E1. cbn [mbind option_bind]. rewrite (proj2 (Z.eqb_neq _ _) Hobj).
    destruct (new_page_ok b pages align obj Ha Hpg ltac:(lia) B3 B4) as (Hok & Hbase & _).
    eexists _, (set_page_base b m1), ch1. split; [done|]. split; [by apply (slab_ok_pages lo m1); [..|cbn; lia|]|]. split; [|done].
    set (pg := mk_page _ 0 align pages obj) in *.
    refine (add_pages_ok top m1 b [pg] (free_page_head m1) (pg :: used_page_head m1) Hpo1 _ _ _ _ _ _); try lia.
    + intros p ->%list_elem_of_singleton. by rewrite G1, <- Eq.
    + intros a. rewrite zsum_cons, zsum_nil. unfold pg_span. rng_lia.
    + done.
  - rewrite E1. cbn [mbind option_bind]. rewrite (proj2 (Z.eqb_neq _ _) Hobj). cbn [mbind option_bind].
    assert ((b + pages * PAGE_SIZE) mod PAGE_SIZE = 0) as Hr0 by (unfold PAGE_SIZE in *; dlia).
    destruct (recycle_cnt (page_base m) (b + pages * PAGE_SIZE)) as (-> & Hc & Hce); try done; try lia.
    { unfold PAGE_SIZE, align_ok in *. lia. }
    set (c := _ / PAGE_SIZE) in Hc, Hce |- *. set (rp := mk_page _ 0 1 _ obj).
    destruct (new_page_ok (b + pages * PAGE_SIZE) c 1 obj ltac:(by left) Hc ltac:(lia) Hr0 ltac:(by rewrite Z.mod_1_r)) as (Rok & Rb & Re).
    fold rp in Rok, Rb, Re. rewrite Hce in Rok, Re.
    destruct (page_struct_spec lo (__free_page rp m1) ch1) as (obj2 & m2 & ch2 & E2 & Hobj2 & Ho2 & (K1 & K2 & K3) & Hb2 & Hk2).
    { apply (slab_ok_pages lo m1); try done. cbn. lia. } { cbn. lia. }
    rewrite E2. cbn [mbind option_bind]. rewrite (proj2 (Z.eqb_neq _ _) Hobj2). cbn [__free_page set_free_page_head slab_base page_base free_page_head used_page_head] in *.
    destruct (new_page_ok b pages align obj2 Ha Hpg ltac:(lia) B3 B4) as (Hok & Hbase & Hend).
    eexists _, (set_page_base b m2), ch2. split; [done|]. split; [by apply (slab_ok_pages lo m2); [..|cbn; lia|]|].
    split; [|split; [by rewrite <- G3, <- K3|split_and!; try done; intros q s Hq; by apply Hk2, Hk1]].
    assert (pages_ok top (set_free_page_head (free_page_head m1) m2)) as Hpo2.
    { apply (same_pages_ok top m1); try done; cbn; lia. }
    set (pg := mk_page _ 0 align pages obj2) in *.
    refine (add_pages_ok top _ b [pg; rp] (free_page_head m2) (pg :: used_page_head m2) Hpo2 _ _ _ _ _ _); cbn [set_free_page_head slab_base page_base]; try lia.
    + intros p [-> | ->%list_elem_of_singleton]%elem_of_cons.
      * destruct Hok as [? ? ? ? ?]. split; try done; lia.
      * destruct Rok as [? ? ? ? ?]. split; try done; lia.
    + intros a. rewrite !zsum_cons, zsum_nil. unfold pg_span. rewrite Rb, Re, Hbase, Hend. rng_lia.
    + rewrite K2. cbn. unfold all_pages. cbn. by rewrite <- Permutation_middle.
Qed.

(** ** Theorems *)


(** Free of a block in use ends its use and leaves the others; the block is
    the one the next malloc of its size returns, and a second free of it fails
    the check of the magic.  Only when no memory for a new [slab_type] is left
    nothing changes: the block is lost. *)
Theorem free_malloc_roundtrip lo top m p size :
  mm_ok lo top m -> live m p size ->
  exists m', free p m = Some m' /\ mm_ok lo top m' /\
    (m' = m /\ room m SLAB_TYPE_SIZE = false
     \/ (forall s, ~ live m' p s) /\ (forall q s, q <> p -> live m q s -> live m' q s) /\ free p m' = None
        /\ exists m'', malloc size m' = Some (p, m'') /\ live m'' p size /\ mm_ok lo top m'').
Proof.
  intros [[ch Ho] Hpo] Hl. destruct (free_spec _ _ _ _ _ Ho Hl) as (m' & ch' & E & Ho' & Hsp & Hmax & Hc). exists m'. split; [done|].
  pose proof (so_lo _ _ _ Ho') as Hlo'. assert (pages_ok top m') as Hpo' by (apply (same_pages_ok top m); try done; lia).
  split; [split; [by exists ch'|done]|]. destruct Hc as [Hc|(hd & Hk & Ehd & Hhd & Hch)]; [by left|right].
  assert (forall s, ~ live m' p s) as Hnl. { intros s Hs. unfold live in Hs. rewrite Ehd in Hs. injection Hs as _ ->. done. }
  split; [done|]. split; [done|]. destruct (so_block _ _ _ Ho _ _ Hl) as (B1 & B2 & B3 & B4 & B5). cbn in B3, B4, B5.
  destruct (so_hi _ _ _ Ho) as (Hh1 & _ & Hh3). pose proof (so_lo _ _ _ Ho). unfold SLAB_HEADER_SIZE in *. split.
  - unfold free, free_slab. rewrite (proj2 (Z.eqb_neq p 0)) by lia. msimpl. destruct (p <? slab_base m'); [|done]. msimpl. unfold SLAB_HEADER_SIZE.
    rewrite Ehd. cbn [mbind option_bind h_word]. destruct (Z.eqb_spec hd SLAB_MAGIC) as [->|]; [done|]. done.
  - destruct (get_slab_alloc_size_eq size ltac:(lia)) as (Hn & Hn16 & _). assert (get_slab_alloc_size size = size) as En by dlia.
    pose proof (pop_spec _ _ _ size Ho') as Hp. rewrite Hch in Hp. destruct Hp as (m2 & E2 & Ho2 & Hh2 & Hb2 & Hsp2).
    unfold SLAB_HEADER_SIZE in E2. replace (p - 16 + 16) with p in E2 by lia.
    exists m2. unfold malloc, __malloc. rewrite (proj2 (Z.eqb_neq size 0)), En by lia. cbn [negb]. msimpl. rewrite E2. cbn [mbind option_bind].
    rewrite (proj2 (Z.eqb_neq p 0)) by lia. split; [done|]. split; [unfold live, SLAB_HEADER_SIZE; rewrite Hh2; apply lookup_insert_eq|].
    split; [by eexists|]. apply (same_pages_ok top m'); try done; lia.
Qed.

(** The space check of alloc_new_pages, with the room for two structures that
    the code takes afterwards. *)
Definition pages_available (pages align : Z) (m : mm) : Prop :=
  (exists pg, pg ∈ free_page_head m /\ pg_cnt pg = pages /\ pg_align pg = align) \/ slab_base m + 64 <= newbase m pages align.

Lemma find_free_in pages align l pg :
  pg ∈ l -> pg_cnt pg = pages -> pg_align pg = align -> find_free pages align l <> None.
Proof.
  intros Hin <- <-. induction l as [|x l IH]; [by apply elem_of_nil in Hin|]. cbn [find_free].
  destruct ((pg_cnt x =? pg_cnt pg) && (pg_align x =? pg_align pg)) eqn:E; [done|].
  apply elem_of_cons in Hin as [<-|Hin]; [by rewrite !Z.eqb_refl in E|].
  destruct (find_free _ _ l) as [[[b r] a]|]; [done|]. by exfalso; apply IH.
Qed.

Lemma align_guard align : align_ok align -> negb ((align =? 1) || (align =? 2) || (align =? 4) || (align =? 8)) = false.
Proof. by intros [->|[->|[->| ->]]]. Qed.

(** What __alloc_pages did, for both sources of a page. *)
Lemma __alloc_pages_spec lo top m ch pages align :
  slab_ok lo m ch -> pages_ok top m -> 0 < pages < 2 ^ 16 -> align_ok align -> pages_available pages align m ->
  exists pg m' ch', __alloc_pages pages align m = Some (Some pg, m') /\ slab_ok lo m' ch' /\ pages_ok top m'
    /\ used_page_head m' = pg :: used_page_head m /\ pg_cnt pg = pages /\ pg_align pg = align /\ keeps_live m m'.
Proof.
  intros Ho Hpo Hpg Ha Hav. unfold __alloc_pages. rewrite align_guard by done.
  destruct (find_free pages align (free_page_head m)) as [[[b pg] a]|] eqn:Ef.
  - apply find_free_some in Ef as (El & Hc & Hal). cbn [mbind option_bind add_used_page].
    eexists _, _, ch. split; [done|]. split; [apply (slab_ok_pages lo m); try done; apply (so_hi _ _ _ Ho)|]. split; [|by split_and!; [..|intros q s]].
    apply (all_pages_perm_ok top m _ (pg :: used_page_head m) Hpo). unfold all_pages. rewrite El. destruct b as [|x b].
    + exists a. rewrite app_nil_r. cbn [app]. symmetry. apply Permutation_middle.
    + exists []. rewrite app_nil_r. cbn [app set_free_page_head free_page_head]. rewrite <- !Permutation_middle. apply Permutation_swap.
  - destruct Hav as [(pg & Hin & Hc & Hal)|Hroom]; [by apply (find_free_in pages align) in Hin|].
    destruct (alloc_new_pages_spec _ _ _ _ _ _ Ho Hpo Hpg Ha Hroom) as (pg & m' & ch' & -> & Ho' & Hpo' & Hu & Hb & Hc & Hal & Hk).
    cbn [mbind option_bind add_used_page]. eexists _, _, ch'. split; [done|].
    split; [apply (slab_ok_pages lo m'); try done; apply (so_hi _ _ _ Ho')|]. split; [done|]. cbn. by rewrite Hu.
Qed.

Definition pages_apart (p n q k : Z) : Prop := p + n * PAGE_SIZE <= q \/ q + k * PAGE_SIZE <= p.

Lemma pg_end_eq pg : pg_end pg = pg_base pg + pg_cnt pg * PAGE_SIZE.
Proof. unfold pg_end, pg_base. lia. Qed.

(** Non-empty ranges of which neither holds the first address of the other are apart. *)
Lemma two_pages_apart top m l1 pg l2 q :
  pages_ok top m -> all_pages m ≡ₚ l1 ++ pg :: l2 -> q ∈ l1 ++ l2 -> pages_apart (pg_base pg) (pg_cnt pg) (pg_base q) (pg_cnt q).
Proof.
  intros Ho Hp Hq. assert (pg ∈ all_pages m) as Hin by (rewrite Hp; set_solver). assert (q ∈ all_pages m) as Hqin by (rewrite Hp; set_solver).
  destruct (po_pg _ _ Ho _ Hin) as [C1 _ _ _ _], (po_pg _ _ Ho _ Hqin) as [C2 _ _ _ _].
  pose proof (span_unique _ _ _ _ _ (pg_base pg) Ho Hp) as S1. pose proof (span_unique _ _ _ _ _ (pg_base q) Ho Hp) as S2.
  unfold pages_apart. rewrite <- !pg_end_eq. pose proof (pg_end_eq pg) as E1. pose proof (pg_end_eq q) as E2. unfold PAGE_SIZE in *.
  destruct (decide (pg_base q < pg_base pg)).
  - destruct (S1 ltac:(lia) _ Hq); lia.
  - destruct (decide (pg_base q < pg_end pg)); [|lia]. destruct (S2 ltac:(lia) _ Hq); lia.
Qed.

(** __get_free_pages, when a free page range of this kind or room for a new
    one (with its two structures) exists, returns the address of [pages] pages
    that is aligned to [align] pages, above the heap and apart from every page
    in use; pages and heap blocks in use stay so. *)
Theorem get_free_pages_correct lo top m pages align :
  mm_ok lo top m -> 0 < pages < 2 ^ 16 -> align_ok align -> pages_available pages align m ->
  exists p m', __get_free_pages pages align m = Some (p, m') /\ mm_ok lo top m'
    /\ p mod (align * PAGE_SIZE) = 0 /\ slab_base m' <= p /\ p + pages * PAGE_SIZE <= top /\ page_in_use m' p pages
    /\ (forall q k, page_in_use m q k -> page_in_use m' q k /\ pages_apart p pages q k)
    /\ (forall q s, live m q s -> live m' q s).
Proof.
  intros [[ch Ho] Hpo] Hpg Ha Hav. destruct (__alloc_pages_spec _ _ _ _ _ _ Ho Hpo Hpg Ha Hav) as (pg & m' & ch' & E & Ho' & Hpo' & Hu & Hc & Hal & Hk).
  unfold __get_free_pages. rewrite E. cbn [mbind option_bind]. exists (pg_base pg), m'.
  assert (pg ∈ all_pages m') as Hin by (unfold all_pages; rewrite Hu; set_solver).
  destruct (po_pg _ _ Hpo' _ Hin) as [C1 C2 C3 C4 C5]. rewrite pg_end_eq in C3. rewrite Hc in C3. rewrite Hal in C5.
  split; [unfold pg_base, PAGE_SIZE, PAGE_SHIFT; by rewrite Z.shiftl_mul_pow2 by lia|]. split; [split; [by exists ch'|done]|].
  split; [unfold pg_base; rewrite Z.mul_mod_distr_r by (unfold PAGE_SIZE, align_ok in *; lia); by rewrite C5|].
  destruct (po_sep _ _ Hpo') as [Hsep _]. split; [lia|]. split; [done|].
  split; [exists pg; rewrite Hu; split; [set_solver|done]|]. split; [|done].
  intros q k (r & Hr & -> & ->). split; [exists r; rewrite Hu; split; [set_solver|done]|]. rewrite <- Hc.
  apply (two_pages_apart _ _ [] _ (used_page_head m ++ free_page_head m') _ Hpo'); [unfold all_pages; by rewrite Hu|set_solver].
Qed.

Lemma free_pages_spec lo top m p n :
  mm_ok lo top m -> page_in_use m p n ->
  exists m', free_pages p m = Some m' /\ mm_ok lo top m' /\ hdrs m' = hdrs m /\ slab_base m' = slab_base m
    /\ (forall k, ~ page_in_use m' p k) /\ (forall q k, q <> p -> page_in_use m q k -> page_in_use m' q k).
Proof.
  intros [[ch Ho] Hpo] (pg & Hin & -> & ->).
  assert (Z.shiftr (pg_base pg) PAGE_SHIFT = pg_pfn pg) as Epfn by (unfold pg_base, PAGE_SHIFT, PAGE_SIZE; rewrite Z.shiftr_div_pow2 by lia; apply Z.div_mul; lia).
  unfold free_pages, find_used_page. rewrite (proj2 (IS_PAGE_ALIGN_true _)) by (apply Z.mod_mul; done). cbn [orb]. msimpl. rewrite Epfn.
  destruct (remove_pfn _ (used_page_head m)) as [[pg' l]|] eqn:Er; cbn [mbind option_bind]; [|by destruct (remove_pfn_none _ _ pg Er Hin)].
  apply remove_pfn_some in Er as [Hperm Hpfn]. eexists. split; [done|].
  assert (forall r, r ∈ l -> pg_base r <> pg_base pg') as Hne.
  { intros r Hr E. pose proof (two_pages_apart top m [] pg' (l ++ free_page_head m) r Hpo) as Hd. unfold all_pages in Hd. rewrite Hperm in Hd.
    specialize (Hd (reflexivity _) ltac:(set_solver)). unfold pages_apart, PAGE_SIZE in Hd.
    destruct (po_pg _ _ Hpo pg') as [C1 _ _ _ _]; [unfold all_pages; rewrite Hperm; set_solver|].
    destruct (po_pg _ _ Hpo r) as [C2 _ _ _ _]; [unfold all_pages; rewrite Hperm; set_solver|]. lia. }
  assert (pg_base pg' = pg_base pg) as Eb by (unfold pg_base; by rewrite Hpfn).
  split; [split; [exists ch; apply (slab_ok_pages lo m); try done; apply (so_hi _ _ _ Ho)|]|].
  { apply (all_pages_perm_ok top m _ l Hpo). exists []. unfold all_pages. rewrite app_nil_r, Hperm. by rewrite <- Permutation_middle. }
  split; [done|]. split; [done|]. split.
  - intros k (r & Hr & E & _). cbn in Hr. apply (Hne r Hr). congruence.
  - intros q k Hq (r & Hr & -> & ->). exists r. cbn. rewrite Hperm in Hr. apply elem_of_cons in Hr as [->|Hr]; [by rewrite Eb in Hq|done].
Qed.

(** Free_pages of pages in use ends their use and no other; the next
    request of the same number and alignment gets them back.  A page-aligned
    address that is not in use changes nothing. *)
Theorem free_pages_roundtrip lo top m p :
  mm_ok lo top m -> p mod PAGE_SIZE = 0 ->
  (exists pg m', pg ∈ used_page_head m /\ pg_base pg = p /\ free_pages p m = Some m' /\ mm_ok lo top m'
     /\ used_page_head m ≡ₚ pg :: used_page_head m' /\ (forall k, ~ page_in_use m' p k)
     /\ exists m'', __get_free_pages (pg_cnt pg) (pg_align pg) m' = Some (p, m'') /\ page_in_use m'' p (pg_cnt pg))
  \/ (forall k, ~ page_in_use m p k) /\ free_pages p m = Some m.
Proof.
  intros [[ch Ho] Hpo] Hp. unfold free_pages, find_used_page. rewrite (proj2 (IS_PAGE_ALIGN_true p) Hp). cbn [orb]. msimpl.
  assert (Z.shiftr p PAGE_SHIFT * PAGE_SIZE = p) as Epfn by (unfold PAGE_SHIFT, PAGE_SIZE in *; rewrite Z.shiftr_div_pow2 by lia; change (2 ^ 12) with 4096; dlia).
  destruct (remove_pfn _ (used_page_head m)) as [[pg l]|] eqn:Er; cbn [mbind option_bind].
  - left. apply remove_pfn_some in Er as [Hperm Hpfn]. assert (pg_base pg = p) as Hb by (unfold pg_base; by rewrite Hpfn).
    assert (pg ∈ used_page_head m) as Hin by (rewrite Hperm; set_solver).
    eexists pg, _. split; [done|]. split; [done|]. split; [done|]. cbn [set_used_page_head used_page_head].
    assert (pages_ok top (set_free_page_head (pg :: free_page_head m) (set_used_page_head l m))) as Hpo'.
    { apply (all_pages_perm_ok top m _ _ Hpo). exists []. unfold all_pages. rewrite app_nil_r, Hperm. by rewrite <- Permutation_middle. }
    split; [split; [exists ch; apply (slab_ok_pages lo m); try done; apply (so_hi _ _ _ Ho)|done]|].
    split; [done|]. split.
    + intros k (r & Hr & E & _). cbn in Hr.
      pose proof (two_pages_apart top m [] pg (l ++ free_page_head m) r Hpo) as Hd. unfold all_pages in Hd. rewrite Hperm in Hd.
      specialize (Hd (reflexivity _) ltac:(set_solver)). unfold pages_apart, PAGE_SIZE in Hd.
      destruct (po_pg _ _ Hpo pg) as [C1 _ _ _ _]; [unfold all_pages; set_solver|].
      destruct (po_pg _ _ Hpo r) as [C2 _ _ _ _]; [unfold all_pages; rewrite Hperm; set_solver|]. lia.
    + unfold __get_free_pages, __alloc_pages. destruct (po_pg _ _ Hpo pg) as [C1 _ _ C4 _]; [unfold all_pages; set_solver|].
      rewrite align_guard by done. cbn [__free_page set_free_page_head set_used_page_head free_page_head find_free]. rewrite !Z.eqb_refl. cbn [andb mbind option_bind add_used_page].
      eexists. rewrite Hpfn. split; [f_equal; f_equal; unfold PAGE_SHIFT, PAGE_SIZE in *; by rewrite Z.shiftl_mul_pow2 by lia|].
      exists pg. split; [set_solver|done].
  - right. split; [|done]. intros k (r & Hr & E & _). apply (remove_pfn_none _ _ r Er Hr). unfold pg_base in E. rewrite <- Epfn in E. unfold PAGE_SIZE in E. lia.
Qed.

(** ** Every sequence of calls *)

(** A request for pages that is not caught between the heap and the pages:
    there is a free range of this kind, or room for a new one and its two
    structures, or no room for it at all (the code follows a null pointer
    then).  What is left out is the last 64 bytes above the heap, where the
    check for room is passed and the structures are put into the pages. *)
Definition pages_clear (pages align : Z) (m : mm) : Prop :=
  pages_available pages align m \/ 0 < newbase m pages align < slab_base m.

Lemma pages_clear_room lo top m ch pages align r : slab_ok lo m ch -> pages_ok top m -> 0 < pages < 2 ^ 16 -> align_ok align ->
  pages_clear pages align m -> __get_free_pages pages align m = Some r -> pages_available pages align m.
Proof.
  intros Ho Hpo Hpg Ha [Hav|[Hn Hlt]] E; [done|]. unfold __get_free_pages, __alloc_pages in E. rewrite align_guard in E by done.
  destruct (find_free pages align (free_page_head m)) as [[[b pg] a]|] eqn:Ef.
  - apply find_free_some in Ef as (El & Hc & Hal). left. exists pg. split; [rewrite El; set_solver|done].
  - exfalso. revert E. unfold alloc_new_pages. destruct (po_sep _ _ Hpo) as (_ & Ht). pose proof (po_top _ _ Hpo).
    rewrite ALIGN_newbase by (done || lia). rewrite (proj2 (Z.ltb_lt _ _)) by done. cbn [mbind option_bind add_used_page]. done.
Qed.

Inductive mm_step : mm -> mm -> Prop :=
| step_malloc m size p m' : 0 < size < 2 ^ 61 -> malloc size m = Some (p, m') -> mm_step m m'
| step_free m p size m' : live m p size -> free p m = Some m' -> mm_step m m'
| step_get_pages m pages align p m' :
    0 < pages < 2 ^ 16 -> align_ok align -> pages_clear pages align m -> __get_free_pages pages align m = Some (p, m') -> mm_step m m'
| step_free_pages m p m' : p mod PAGE_SIZE = 0 -> free_pages p m = Some m' -> mm_step m m'.

Lemma free_pages_ok lo top m p m' : mm_ok lo top m -> free_pages p m = Some m' -> mm_ok lo top m'.
Proof.
  intros [[ch Ho] Hpo]. unfold free_pages, find_used_page. destruct (IS_PAGE_ALIGN p || _); [|done]. msimpl. intros [= <-].
  destruct (remove_pfn _ (used_page_head m)) as [[pg l]|] eqn:Er; cbn [mbind option_bind]; [|split; [by exists ch|done]].
  apply remove_pfn_some in Er as [Hperm _].
  split; [exists ch; apply (slab_ok_pages lo m); try done; apply (so_hi _ _ _ Ho)|].
  apply (all_pages_perm_ok top m _ l Hpo). exists []. unfold all_pages. rewrite app_nil_r, Hperm. by rewrite <- Permutation_middle.
Qed.

Lemma mm_step_ok lo top m m' : mm_step m m' -> mm_ok lo top m -> mm_ok lo top m'.
Proof.
  intros Hs [[ch Ho] Hpo]. pose proof (so_lo _ _ _ Ho) as Hlo. destruct Hs as [m size p m' Hsz E|m p size m' Hl E|m pages align p m' Hpg Ha Hav E|m p m' Hp E].
  - unfold malloc in E. rewrite (proj2 (Z.eqb_neq size 0)) in E by lia. cbn [negb] in E. revert E. msimpl.
    destruct (get_slab_alloc_size_eq size Hsz) as (_ & Hn16 & Hnr).
    destruct (__malloc_spec _ _ _ _ Ho Hnr Hn16) as (p' & m1 & ch' & -> & Ho' & Hsp & Hb & Hmax & _). intros [= <- <-].
    split; [by exists ch'|]. apply (same_pages_ok top m); try done; lia.
  - destruct (free_spec _ _ _ _ _ Ho Hl) as (m1 & ch' & E1 & Ho' & Hsp & Hmax & _). rewrite E1 in E. injection E as <-.
    split; [by exists ch'|]. apply (same_pages_ok top m); try done. pose proof (so_lo _ _ _ Ho'). lia.
  - pose proof (pages_clear_room _ _ _ _ _ _ _ Ho Hpo Hpg Ha Hav E) as Hav'.
    destruct (__alloc_pages_spec _ _ _ _ _ _ Ho Hpo Hpg Ha Hav') as (pg & m1 & ch' & E1 & Ho' & Hpo' & _).
    unfold __get_free_pages in E. rewrite E1 in E. cbn in E. injection E as _ <-. split; [by exists ch'|done].
  - eapply free_pages_ok; [|done]. split; [by exists ch|done].
Qed.

(** The empty heap. *)
Lemma init_slab_ok lo pb :
  0 < lo < 2 ^ 61 -> lo mod 16 = 0 -> pb < lo + 2 ^ 32 -> slab_ok lo (slab_init (mk_mm lo pb ∅ [] [] [])) (fun _ => []).
Proof.
  intros H1 H2 H3. split; cbn; try done; try lia.
  - intros k l st Hk Hin. apply (lookup_replicate_1 (Z.to_nat HASH_TABLE_SIZE)) in Hk as [-> _]. by apply elem_of_nil in Hin.
  - intros k l Hk. apply (lookup_replicate_1 (Z.to_nat HASH_TABLE_SIZE)) in Hk as [-> _]. constructor.
  - intros sz. constructor.
Qed.


(** ** Deviations *)

(** When the first entry of the free list fits, the entries behind it are lost. *)
Theorem alloc_pages_drops_free_list m pg rest :
  free_page_head m = pg :: rest -> align_ok (pg_align pg) ->
  exists m', __alloc_pages (pg_cnt pg) (pg_align pg) m = Some (Some pg, m') /\ free_page_head m' = [].
Proof.
  intros E Ha. unfold __alloc_pages. rewrite align_guard, E by done. cbn [find_free]. rewrite !Z.eqb_refl. cbn [andb mbind option_bind add_used_page].
  by eexists.
Qed.

(** Without room for new pages the code writes through a NULL pointer. *)
Theorem get_free_pages_exhausted m pages align :
  align_ok align -> 0 < pages < 2 ^ 16 -> page_base m < 2 ^ 44 -> find_free pages align (free_page_head m) = None ->
  0 < newbase m pages align < slab_base m -> __get_free_pages pages align m = None.
Proof.
  intros Ha Hp Hpb Hf Hn. unfold __get_free_pages, __alloc_pages. rewrite align_guard, Hf by done. unfold alloc_new_pages.
  rewrite ALIGN_newbase by (done || lia). by rewrite (proj2 (Z.ltb_lt _ _)) by lia.
Qed.

(** ** A concrete memory of 31 MB. *)
Definition demo0 : mm := slab_init (mk_mm 0x40100000 0x42000000 ∅ [] [] []).
Definition demo1 : mm := (malloc_from_slab_heap 32 demo0).2.
Definition demo2 : mm := default demo0 (snd <$> __get_free_pages 2 4 demo0).

Lemma demo0_slab : slab_ok 0x40100000 demo0 (fun _ => []).
Proof. apply init_slab_ok; done. Qed.

Lemma demo0_pages : pages_ok 0x42000000 demo0.
Proof. split; cbn; try done. intros pg Hpg. by apply elem_of_nil in Hpg. Qed.

Lemma demo1_ok : mm_ok 0x40100000 0x42000000 demo1.
Proof.
  apply (mm_step_ok _ _ demo0).
  - apply (step_malloc _ 20 0x40100010); [lia|]. reflexivity.
  - split; [eexists; apply demo0_slab|apply demo0_pages].
Qed.

Lemma demo0_available : pages_available 2 4 demo0.
Proof. right. vm_compute. done. Qed.

Lemma demo2_ok : mm_ok 0x40100000 0x42000000 demo2.
Proof.
  apply (mm_step_ok _ _ demo0).
  - eapply (step_get_pages _ 2 4); [lia|right; right; by left|left; apply demo0_available|]. vm_compute. reflexivity.
  - split; [eexists; apply demo0_slab|apply demo0_pages].
Qed.

(** One page fits exactly below [page_base], but the structure for it is taken
    from the heap afterwards and lies inside of it. *)
Theorem get_free_pages_overlaps_struct :
  exists p m', get_free_page (slab_init (mk_mm 0x40001000 0x40002000 ∅ [] [] [])) = Some (p, m')
    /\ p = 0x40001000 /\ live m' (p + SLAB_HEADER_SIZE) PAGE_STRUCT_SIZE /\ page_base m' < slab_base m'.
Proof. eexists _, _. split; [reflexivity|]. by vm_compute. Qed.


Lemma free_malloc_roundtrip_witness :
  exists m', free 0x40100010 demo1 = Some m' /\ free 0x40100010 m' = None.
Proof.
  destruct (free_malloc_roundtrip 0x40100000 0x42000000 demo1 0x40100010 32 demo1_ok ltac:(reflexivity)) as (m' & E & _ & H).
  exists m'. split; [exact E|]. destruct H as [(_ & H)|(_ & _ & H & _)]; [|exact H]. exfalso. vm_compute in H. discriminate H.
Defined.

Lemma get_free_pages_correct_witness :
  exists p m', __get_free_pages 2 4 demo0 = Some (p, m') /\ page_in_use m' p 2.
Proof.
  destruct (get_free_pages_correct 0x40100000 0x42000000 demo0 2 4) as (p & m' & E & _ & _ & _ & _ & H & _).
  - split; [eexists; apply demo0_slab|apply demo0_pages].
  - lia.
  - right; right; left; reflexivity.
  - apply demo0_available.
  - exists p, m'. split; [exact E|exact H].
Defined.

Lemma free_pages_roundtrip_witness :
  (exists m', free_pages 0x41ffc000 demo2 = Some m').
Proof.
  destruct (free_pages_roundtrip 0x40100000 0x42000000 demo2 0x41ffc000 demo2_ok ltac:(reflexivity)) as [(pg & m' & _ & _ & E & _)|[_ E]].
  - exists m'. exact E.
  - exists demo2. exact E.
Defined.

(** A block and two pages are taken, both are given back, and the pages are
    taken again. *)
Definition demo3 : mm := default demo1 (snd <$> __get_free_pages 2 4 demo1).
Definition demo4 : mm := default demo3 (free 0x40100010 demo3).
Definition demo5 : mm := default demo4 (free_pages 0x41ffc000 demo4).
Definition demo6 : mm := default demo5 (snd <$> __get_free_pages 2 4 demo5).

