(* ===== verification/Timer.v ===== *)
(** * Software timers (core/timer.c, include/minos/timer.h)

    Each CPU has a [raw_timer]: the list of armed timers, the timer the
    hardware comparator is set for and the timer whose handler runs.  A timer
    object is named by a number; [t_entry] says that its list entry is linked.
    The list [tmp_head] is the local list of [soft_timer_interrupt]: handlers
    run between its steps and may unlink timers from it.  [hw] is the
    comparator as [arch_enable_timer] sets it, [None] when it is disabled.
    The clock is an argument of the functions that read it.  The spin lock of a
    [raw_timer] makes each function one step. *)
From S2P Require Import Prelude.

Definition TIMER_PRECISION : Z := 1000000.
Definition DEFAULT_TIMER_MARGIN : Z := TIMER_PRECISION / 2.

Record timer := mk_timer {
  t_cpu : Z;
  t_stop : Z;
  t_expires : Z;
  t_timeout : Z;
  t_function : Z;
  t_data : Z;
  t_entry : bool;
  t_raw : option nat;
}.

Record raw_timer := mk_raw {
  active : list Z;
  tmp_head : list Z;
  next_timer : option Z;
  running_timer : option Z;
  hw : option Z;
}.

(** What a handler may do with the timers. *)
Inductive timer_op :=
| op_mod (t cval : Z)
| op_setup (t tval : Z)
| op_start (t : Z)
| op_stop (t : Z).

Definition op_target (op : timer_op) : Z :=
  match op with op_mod t _ => t | op_setup t _ => t | op_start t => t | op_stop t => t end.

(** [hist] records the handlers that were called and what they did. *)
Inductive event :=
| ev_fired (t : Z)
| ev_op (op : timer_op).

Record tstate := mk_ts {
  timers : list raw_timer;
  tobjs : gmap Z timer;
  hist : list event;
}.

Definition set_obj (t : Z) (o : timer) (s : tstate) : tstate := mk_ts (timers s) (<[t := o]> (tobjs s)) (hist s).
Definition set_raw (c : nat) (r : raw_timer) (s : tstate) : tstate := mk_ts (<[c := r]> (timers s)) (tobjs s) (hist s).
Definition set_timers (l : list raw_timer) (s : tstate) : tstate := mk_ts l (tobjs s) (hist s).
Definition log (e : event) (s : tstate) : tstate := mk_ts (timers s) (tobjs s) (e :: hist s).

Definition set_expires (v : Z) (o : timer) : timer :=
  mk_timer (t_cpu o) (t_stop o) v (t_timeout o) (t_function o) (t_data o) (t_entry o) (t_raw o).
Definition set_timeout (v : Z) (o : timer) : timer :=
  mk_timer (t_cpu o) (t_stop o) (t_expires o) v (t_function o) (t_data o) (t_entry o) (t_raw o).
Definition set_entry (v : bool) (o : timer) : timer :=
  mk_timer (t_cpu o) (t_stop o) (t_expires o) (t_timeout o) (t_function o) (t_data o) v (t_raw o).

Definition set_lists (a tmp : list Z) (r : raw_timer) : raw_timer := mk_raw a tmp (next_timer r) (running_timer r) (hw r).
Definition set_running (v : option Z) (r : raw_timer) : raw_timer := mk_raw (active r) (tmp_head r) (next_timer r) v (hw r).
Definition set_next (v : option Z) (r : raw_timer) : raw_timer := mk_raw (active r) (tmp_head r) v (running_timer r) (hw r).
Definition set_hw (v : option Z) (r : raw_timer) : raw_timer := mk_raw (active r) (tmp_head r) (next_timer r) (running_timer r) v.

(** [enable_timer]: the time 0 disables the comparator. *)
Definition enable_timer (e : Z) (r : raw_timer) : raw_timer := set_hw (if e =? 0 then None else Some e) r.

(** [list_del]: the entry leaves the list it is on. *)
Definition unlink (t : Z) (r : raw_timer) : raw_timer :=
  set_lists (filter (fun u => u <> t) (active r)) (filter (fun u => u <> t) (tmp_head r)) r.

Definition timer_pending (o : timer) : bool := t_entry o.

Definition detach_timer (t : Z) (s : tstate) : option tstate :=
  o ← tobjs s !! t;
  Some (if timer_pending o then set_obj t (set_entry false o) (set_timers (unlink t <$> timers s) s) else s).

Definition __mod_timer (cpu : nat) (t : Z) (s : tstate) : option tstate :=
  o ← tobjs s !! t;
  _ ← assert_ (negb (negb (t_cpu o =? -1) && negb (t_cpu o =? Z.of_nat cpu)));
  s ← detach_timer t s;
  let o := mk_timer (Z.of_nat cpu) 0 (t_expires o) (t_timeout o) (t_function o) (t_data o) true (Some cpu) in
  let s := set_obj t o s in
  r ← timers s !! cpu;
  let r := set_lists (active r ++ [t]) (tmp_head r) r in
  rearm ← (match next_timer r with
           | None => Some true
           | Some n => n ← tobjs s !! n; Some (u64 (t_expires o + DEFAULT_TIMER_MARGIN) <? t_expires n)
           end);
  Some (set_raw cpu (if (rearm : bool) then enable_timer (t_expires o) (set_next (Some t) r) else r) s).

Definition mod_timer (cpu : nat) (now t cval : Z) (s : tstate) : option tstate :=
  o ← tobjs s !! t;
  let e := if cval <? u64 (now + TIMER_PRECISION) then u64 (now + TIMER_PRECISION) else cval in
  __mod_timer cpu t (set_obj t (set_expires e o) s).

Definition __start_delay_timer (cpu : nat) (now t : Z) (s : tstate) : option tstate :=
  o ← tobjs s !! t;
  let o := if t_timeout o <? TIMER_PRECISION then set_timeout TIMER_PRECISION o else o in
  __mod_timer cpu t (set_obj t (set_expires (u64 (now + t_timeout o)) o) s).

Definition start_timer := __start_delay_timer.

Definition init_timer (t fn data : Z) (s : tstate) : option tstate :=
  o ← tobjs s !! t;
  Some (set_obj t (mk_timer (-1) (t_stop o) 0 0 fn data false None) s).

Definition setup_timer (t tval : Z) (s : tstate) : option tstate :=
  o ← tobjs s !! t; Some (set_obj t (set_timeout tval o) s).

Definition setup_and_start_timer (cpu : nat) (now t tval : Z) (s : tstate) : option tstate :=
  s ← setup_timer t tval s; start_timer cpu now t s.

(** The wait for a handler that runs never ends on the CPU of the handler. *)
Definition stop_timer (t : Z) (s : tstate) : option tstate :=
  o ← tobjs s !! t;
  if t_cpu o =? -1 then Some s
  else
    c ← t_raw o;
    r ← timers s !! c;
    _ ← assert_ (negb (bool_decide (running_timer r = Some t)));
    s ← detach_timer t (set_obj t (mk_timer (t_cpu o) 1 (t_expires o) (t_timeout o) (t_function o) (t_data o) (t_entry o) (t_raw o)) s);
    o ← tobjs s !! t;
    Some (set_obj t (mk_timer (-1) (t_stop o) 0 (t_timeout o) (t_function o) (t_data o) (t_entry o) (t_raw o)) s).

Definition run_op (cpu : nat) (now : Z) (op : timer_op) (s : tstate) : option tstate :=
  log (ev_op op) <$>
  match op with
  | op_mod t cval => mod_timer cpu now t cval s
  | op_setup t tval => setup_timer t tval s
  | op_start t => start_timer cpu now t s
  | op_stop t => stop_timer t s
  end.

Fixpoint run_ops (cpu : nat) (ops : list (Z * timer_op)) (s : tstate) : option tstate :=
  match ops with
  | [] => Some s
  | (now, op) :: ops => s ← run_op cpu now op s; run_ops cpu ops s
  end.

(** The handlers: what [fn(data)] does when it is called in a state. *)
Definition handlers := Z -> Z -> tstate -> list (Z * timer_op).

(** One round of the loop for the first timer [t] of the active list: its
    handler, or its move to the local list. *)
Definition run_handler (cpu : nat) (cb : handlers) (t : Z) (o : timer) (rest : list Z) (r : raw_timer) (s : tstate) : option tstate :=
  let s := set_obj t (set_entry false o) (set_raw cpu (set_running (Some t) (set_lists rest (tmp_head r) r)) s) in
  s ← (if t_stop o =? 0 then run_ops cpu (cb (t_function o) (t_data o) s) (log (ev_fired t) s) else Some s);
  r ← timers s !! cpu;
  Some (set_raw cpu (set_running None r) s).

Definition keep_timer (cpu : nat) (t : Z) (rest : list Z) (r : raw_timer) (s : tstate) : tstate :=
  set_raw cpu (set_lists rest (tmp_head r ++ [t]) r) s.

Definition earlier (t : Z) (o : timer) (next : option Z) (s : tstate) : option (option Z) :=
  match next with
  | None => Some (Some t)
  | Some n => on ← tobjs s !! n; Some (if t_expires o <? t_expires on then Some t else Some n)
  end.

Fixpoint expire_loop (fuel : nat) (cpu : nat) (now : Z) (cb : handlers) (next : option Z) (s : tstate) : option (option Z * tstate) :=
  match fuel with
  | O => None
  | S fuel =>
      r ← timers s !! cpu;
      match active r with
      | [] => Some (next, s)
      | t :: rest =>
          o ← tobjs s !! t;
          if t_expires o <=? u64 (now + DEFAULT_TIMER_MARGIN) then
            s ← run_handler cpu cb t o rest r s;
            expire_loop fuel cpu now cb next s
          else
            next ← earlier t o next s;
            expire_loop fuel cpu now cb next (keep_timer cpu t rest r s)
      end
  end.

Definition soft_timer_interrupt (fuel : nat) (cpu : nat) (now : Z) (cb : handlers) (s : tstate) : option tstate :=
  r ← timers s !! cpu;
  '(next, s) ← expire_loop fuel cpu now cb None (set_raw cpu (set_lists (active r) [] r) s);
  r ← timers s !! cpu;
  let r := set_next next (set_lists (tmp_head r) [] r) in
  match next with
  | None => Some (set_raw cpu r s)
  | Some n => o ← tobjs s !! n; Some (set_raw cpu (enable_timer (t_expires o) r) s)
  end.

(** arch/aarch64/core/arm_arch_timer.c: the interrupt is masked first. *)
Definition timer_interrupt_handler (fuel : nat) (cpu : nat) (now : Z) (cb : handlers) (s : tstate) : option tstate :=
  r ← timers s !! cpu;
  soft_timer_interrupt fuel cpu now cb (set_raw cpu (set_hw None r) s).

Definition init_raw_timers (ncpu : nat) (objs : gmap Z timer) : tstate := mk_ts (replicate ncpu (mk_raw [] [] None None None)) objs [].

(** ** The invariant *)
Definition linked_on (r : raw_timer) : list Z := active r ++ tmp_head r.

(** A linked timer is armed for its CPU. *)
Record armed (c : nat) (o : timer) : Prop := mk_armed {
  ar_entry : t_entry o = true;
  ar_raw : t_raw o = Some c;
  ar_cpu : t_cpu o = Z.of_nat c;
  ar_stop : t_stop o = 0;
  ar_expires : 0 < t_expires o < 2 ^ 63;
}.

Definition obj_ok (ncpu : nat) (o : timer) : Prop :=
  0 <= t_timeout o < 2 ^ 62 /\ (t_cpu o = -1 \/ exists c, t_raw o = Some c /\ t_cpu o = Z.of_nat c /\ (c < ncpu)%nat).

Record timers_ok (s : tstate) : Prop := mk_timers_ok {
  tk_link : forall c r t, timers s !! c = Some r -> t ∈ linked_on r -> exists o, tobjs s !! t = Some o /\ armed c o;
  tk_nodup : forall c r, timers s !! c = Some r -> NoDup (linked_on r);
  tk_entry : forall t o, tobjs s !! t = Some o -> t_entry o = true -> exists c r, timers s !! c = Some r /\ t ∈ linked_on r;
  tk_obj : forall t o, tobjs s !! t = Some o -> obj_ok (length (timers s)) o;
  tk_next : forall c r n, timers s !! c = Some r -> next_timer r = Some n -> is_Some (tobjs s !! n);
}.

Definition unlinked (t : Z) (l : list raw_timer) : Prop := forall c r, l !! c = Some r -> t ∉ linked_on r.

Lemma not_linked s t o : timers_ok s -> tobjs s !! t = Some o -> t_entry o = false -> unlinked t (timers s).
Proof. intros Hk Ho He c r Hr Hin. destruct (tk_link _ Hk _ _ _ Hr Hin) as (o' & Ho' & [A _ _ _ _]). congruence. Qed.

Lemma filter_ne_id (t : Z) (l : list Z) : t ∉ l -> filter (fun u => u <> t) l = l.
Proof.
  induction l as [|x l IH]; [done|]. intros H. rewrite filter_cons_True by set_solver. by rewrite IH by set_solver.
Qed.

Lemma linked_on_unlink t r : linked_on (unlink t r) = filter (fun u => u <> t) (linked_on r).
Proof. unfold linked_on. cbn. by rewrite list.filter_app. Qed.

Lemma unlink_id t r : t ∉ linked_on r -> unlink t r = r.
Proof.
  unfold linked_on. rewrite elem_of_app. intros H. destruct r as [a tm n ru h]. unfold unlink, set_lists. cbn in *. by rewrite !filter_ne_id by tauto.
Qed.

Lemma unlinked_fmap t l : unlinked t l -> unlink t <$> l = l.
Proof.
  intros H. apply list_eq. intros c. rewrite list_lookup_fmap. destruct (l !! c) as [r|] eqn:E; [|done]. cbn. by rewrite (unlink_id t r (H _ _ E)).
Qed.

Lemma unlink_unlinked t l : unlinked t (unlink t <$> l).
Proof.
  intros c r Hr. rewrite list_lookup_fmap in Hr. destruct (l !! c); [|done]. injection Hr as <-. rewrite linked_on_unlink. rewrite list_elem_of_filter. tauto.
Qed.

(** Detaching in one form for linked and other timers. *)
Lemma detach_spec s t o :
  tobjs s !! t = Some o -> (t_entry o = false -> unlinked t (timers s)) ->
  detach_timer t s = Some (mk_ts (unlink t <$> timers s) (<[t := set_entry false o]> (tobjs s)) (hist s)).
Proof.
  intros Ho Hu. unfold detach_timer, timer_pending. rewrite Ho. cbn [mbind option_bind]. destruct (t_entry o) eqn:E; [done|].
  rewrite unlinked_fmap by auto. f_equal. destruct s as [l objs h]. cbn in *. f_equal. symmetry. apply insert_id. rewrite Ho. f_equal. destruct o. cbn in *. by rewrite E.
Qed.

Lemma unlink_ok s t o o' h :
  timers_ok s -> tobjs s !! t = Some o -> t_entry o' = false -> obj_ok (length (timers s)) o' ->
  timers_ok (mk_ts (unlink t <$> timers s) (<[t := o']> (tobjs s)) h).
Proof.
  intros Hk Ho He Hobj. split; cbn [timers tobjs].
  - intros c r u Hr Hu. assert (u <> t) as Hne. { intros ->. by apply (unlink_unlinked t (timers s) c r). }
    rewrite lookup_insert_ne by done. rewrite list_lookup_fmap in Hr. destruct (timers s !! c) as [r0|] eqn:E; [|done]. injection Hr as <-.
    rewrite linked_on_unlink, list_elem_of_filter in Hu. destruct Hu as [_ Hu]. by apply (tk_link _ Hk _ _ _ E).
  - intros c r Hr. rewrite list_lookup_fmap in Hr. destruct (timers s !! c) as [r0|] eqn:E; [|done]. injection Hr as <-.
    rewrite linked_on_unlink. apply list.NoDup_filter. by apply (tk_nodup _ Hk _ _ E).
  - intros u ou. destruct (decide (u = t)) as [->|Hne]; [rewrite lookup_insert_eq; intros [= <-]; congruence|].
    rewrite lookup_insert_ne by done. intros Hu Hue. destruct (tk_entry _ Hk _ _ Hu Hue) as (c & r & Hr & Hin).
    exists c, (unlink t r). rewrite list_lookup_fmap, Hr. split; [done|]. by rewrite linked_on_unlink, list_elem_of_filter.
  - intros u ou. rewrite length_fmap. destruct (decide (u = t)) as [->|Hne]; [rewrite lookup_insert_eq; by intros [= <-]|].
    rewrite lookup_insert_ne by done. apply (tk_obj _ Hk).
  - intros c r n Hr Hn. rewrite list_lookup_fmap in Hr. destruct (timers s !! c) as [r0|] eqn:E; [|done]. injection Hr as <-.
    destruct (decide (n = t)) as [->|Hne]; [rewrite lookup_insert_eq; by eexists|]. rewrite lookup_insert_ne by done. by apply (tk_next _ Hk _ _ _ E).
Qed.

(** A change of an object that keeps its links. *)
Lemma set_obj_ok s t o o' :
  timers_ok s -> tobjs s !! t = Some o -> t_entry o' = t_entry o -> obj_ok (length (timers s)) o' ->
  (forall c, armed c o -> armed c o') -> timers_ok (set_obj t o' s).
Proof.
  intros Hk Ho He Hobj Har. split; cbn [timers tobjs set_obj].
  - intros c r u Hr Hu. destruct (tk_link _ Hk _ _ _ Hr Hu) as (ou & Eu & Hau). destruct (decide (u = t)) as [->|Hne].
    + exists o'. rewrite lookup_insert_eq. split; [done|]. apply Har. congruence.
    + exists ou. by rewrite lookup_insert_ne.
  - apply (tk_nodup _ Hk).
  - intros u ou. destruct (decide (u = t)) as [->|Hne].
    + rewrite lookup_insert_eq. intros [= <-]. rewrite He. by apply (tk_entry _ Hk).
    + rewrite lookup_insert_ne by done. apply (tk_entry _ Hk).
  - intros u ou. destruct (decide (u = t)) as [->|Hne]; [rewrite lookup_insert_eq; by intros [= <-]|].
    rewrite lookup_insert_ne by done. apply (tk_obj _ Hk).
  - intros c r n Hr Hn. destruct (decide (n = t)) as [->|Hne]; [rewrite lookup_insert_eq; by eexists|].
    rewrite lookup_insert_ne by done. by apply (tk_next _ Hk _ _ _ Hr).
Qed.

(** Linking a timer at the end of the active list. *)
Lemma link_ok s t o cpu r r' :
  timers_ok s -> unlinked t (timers s) -> is_Some (tobjs s !! t) -> timers s !! cpu = Some r -> armed cpu o -> 0 <= t_timeout o < 2 ^ 62 ->
  active r' = active r ++ [t] -> tmp_head r' = tmp_head r -> (next_timer r' = next_timer r \/ next_timer r' = Some t) ->
  timers_ok (set_raw cpu r' (set_obj t o s)).
Proof.
  intros Hk Hu [o0 Ho] Hr Har Hto Ea Et Hn. pose proof (lookup_lt_Some _ _ _ Hr) as Hlt.
  assert (forall c x, <[cpu:=r']> (timers s) !! c = Some x -> exists x0, timers s !! c = Some x0 /\ (c = cpu /\ x = r' /\ x0 = r \/ x = x0)) as Hcase.
  { intros c x Hx. apply list_lookup_insert_Some in Hx as [(-> & <- & _)|[Hne Hx]]; [exists r; split; [done|by left]|exists x; split; [done|by right]]. }
  assert (linked_on r' ≡ₚ t :: linked_on r) as Hp. { unfold linked_on. rewrite Ea, Et, <- app_assoc. symmetry. apply Permutation_middle. }
  split; cbn [timers tobjs set_obj set_raw].
  - intros c x u Hx Hin. destruct (decide (u = t)) as [->|Hne].
    + exists o. rewrite lookup_insert_eq. split; [done|]. destruct (Hcase _ _ Hx) as (x0 & E0 & [(-> & _)| ->]); [done|]. by destruct (Hu _ _ E0).
    + rewrite lookup_insert_ne by done. destruct (Hcase _ _ Hx) as (x0 & E0 & [(-> & -> & ->)| ->]); [|by apply (tk_link _ Hk _ _ _ E0)].
      rewrite Hp in Hin. apply (tk_link _ Hk _ _ _ E0). set_solver.
  - intros c x Hx. destruct (Hcase _ _ Hx) as (x0 & E0 & [(-> & -> & ->)| ->]); [|by apply (tk_nodup _ Hk _ _ E0)].
    rewrite Hp. apply list.NoDup_cons. split; [by apply (Hu _ _ E0)|by apply (tk_nodup _ Hk _ _ E0)].
  - intros u ou. destruct (decide (u = t)) as [->|Hne].
    + intros _ _. exists cpu, r'. rewrite list_lookup_insert_eq by done. rewrite Hp. set_solver.
    + rewrite lookup_insert_ne by done. intros Eu He. destruct (tk_entry _ Hk _ _ Eu He) as (c & x & Hx & Hin).
      destruct (decide (c = cpu)) as [->|Hc].
      * exists cpu, r'. rewrite list_lookup_insert_eq by done. rewrite Hr in Hx. injection Hx as <-. rewrite Hp. set_solver.
      * exists c, x. by rewrite list_lookup_insert_ne.
  - intros u ou. rewrite length_insert. destruct (decide (u = t)) as [->|Hne]; [|rewrite lookup_insert_ne by done; apply (tk_obj _ Hk)].
    rewrite lookup_insert_eq. intros [= <-]. split; [done|]. right. exists cpu. by destruct Har.
  - intros c x n Hx Hnx. destruct (decide (n = t)) as [->|Hne]; [rewrite lookup_insert_eq; by eexists|]. rewrite lookup_insert_ne by done.
    destruct (Hcase _ _ Hx) as (x0 & E0 & [(-> & -> & ->)| ->]); [|by apply (tk_next _ Hk _ _ _ E0)].
    apply (tk_next _ Hk _ _ _ E0). destruct Hn; congruence.
Qed.

(** ** What an operation on the timer [t] does *)

(** The lists of one CPU: unchanged, without [t], or with [t] armed again at
    the end, to expire after [lim]. *)
Inductive relisted (lim : Z) (s s' : tstate) (t : Z) (r r' : raw_timer) : Prop :=
| rl_same :
    active r' = active r -> tmp_head r' = tmp_head r -> t_expires <$> tobjs s' !! t = t_expires <$> tobjs s !! t -> relisted lim s s' t r r'
| rl_removed :
    active r' = filter (fun u => u <> t) (active r) -> tmp_head r' = filter (fun u => u <> t) (tmp_head r) -> relisted lim s s' t r r'
| rl_armed o :
    active r' = filter (fun u => u <> t) (active r) ++ [t] -> tmp_head r' = filter (fun u => u <> t) (tmp_head r) ->
    tobjs s' !! t = Some o -> lim < t_expires o -> relisted lim s s' t r r'.

Record effect (lim : Z) (t : Z) (s s' : tstate) : Prop := mk_effect {
  ef_ok : timers_ok s';
  ef_len : length (timers s') = length (timers s);
  ef_objs : forall u, u <> t -> tobjs s' !! u = tobjs s !! u;
  ef_obj : is_Some (tobjs s' !! t);
  ef_raw : forall c r, timers s !! c = Some r -> exists r', timers s' !! c = Some r' /\ running_timer r' = running_timer r /\ relisted lim s s' t r r';
}.

Lemma armed_expires c o e : 0 < e < 2 ^ 63 -> armed c o -> armed c (set_expires e o).
Proof. intros He [A1 A2 A3 A4 A5]. by split. Qed.

(** __mod_timer on a timer whose time was just set to [e]. *)
Lemma __mod_timer_spec cpu t s o s' :
  timers_ok s -> tobjs s !! t = Some o -> 0 < t_expires o < 2 ^ 63 ->
  __mod_timer cpu t s = Some s' ->
  timers_ok s' /\ length (timers s') = length (timers s) /\ (forall u, u <> t -> tobjs s' !! u = tobjs s !! u)
  /\ tobjs s' !! t = Some (mk_timer (Z.of_nat cpu) 0 (t_expires o) (t_timeout o) (t_function o) (t_data o) true (Some cpu))
  /\ hist s' = hist s
  /\ (forall c r, timers s !! c = Some r -> exists r', timers s' !! c = Some r' /\ running_timer r' = running_timer r
        /\ active r' = filter (fun u => u <> t) (active r) ++ (if decide (c = cpu) then [t] else [])
        /\ tmp_head r' = filter (fun u => u <> t) (tmp_head r)).
Proof.
  intros Hk Ho He H. unfold __mod_timer in H. rewrite Ho in H. cbn [mbind option_bind] in H.
  destruct (negb _) eqn:Hcpu in H; [|done]. revert H. msimpl. rewrite (detach_spec s t o Ho) by (by apply not_linked). cbn [mbind option_bind].
  set (o1 := mk_timer (Z.of_nat cpu) 0 _ _ _ _ true (Some cpu)). set (s1 := mk_ts _ _ _). cbn [set_obj timers].
  destruct (timers s1 !! cpu) as [r|] eqn:Er; [|done]. cbn [mbind option_bind].
  assert (timers_ok s1) as Hk1. { eapply unlink_ok; [done|done|done|apply (tk_obj _ Hk _ _ Ho)]. }
  assert (armed cpu o1) as Ha1 by (split; cbn; done || lia).
  destruct (match next_timer _ with None => Some true | Some n => _ end) as [rearm|] eqn:Erearm; [|done]. cbn [mbind option_bind]. intros [= <-].
  set (r' := if rearm then _ else _).
  assert (active r' = active r ++ [t] /\ tmp_head r' = tmp_head r /\ running_timer r' = running_timer r /\ (next_timer r' = next_timer r \/ next_timer r' = Some t)) as (F1 & F2 & F3 & F4).
  { unfold r', enable_timer. destruct rearm; cbn; split_and!; try done; [by right|by left]. }
  split_and!; try done.
  - apply (link_ok s1 t o1 cpu r r'); try done; [apply unlink_unlinked|cbn; rewrite lookup_insert_eq; by eexists|apply (tk_obj _ Hk _ _ Ho)].
  - cbn. by rewrite length_insert, length_fmap.
  - intros u Hu. cbn. by rewrite !lookup_insert_ne.
  - cbn. by rewrite lookup_insert_eq.
  - intros c x Hx. destruct (decide (c = cpu)) as [->|Hc].
    + cbn in Er. rewrite list_lookup_fmap, Hx in Er. injection Er as <-. exists r'. cbn. rewrite list_lookup_insert_eq.
      * split_and!; done.
      * rewrite length_fmap. by eapply lookup_lt_Some.
    + exists (unlink t x). cbn. rewrite list_lookup_insert_ne, list_lookup_fmap, Hx by done. by rewrite app_nil_r.
Qed.

Definition op_ok (op : timer_op) : Prop :=
  match op with op_mod _ cval => 0 <= cval < 2 ^ 63 | op_setup _ tval => 0 <= tval < 2 ^ 62 | _ => True end.

Lemma log_ok e s : timers_ok s -> timers_ok (log e s).
Proof. by intros [? ? ? ? ?]. Qed.

Lemma log_effect lim t s s' e : effect lim t s s' -> effect lim t s (log e s').
Proof.
  intros [E1 E2 E3 E4 E5]. split; try done; [by apply log_ok|]. intros c r Hr. destruct (E5 c r Hr) as (r' & Hr' & Hrun & Hl). exists r'. split; [done|]. split; [done|].
  destruct Hl; [by apply rl_same|by apply rl_removed|by eapply rl_armed].
Qed.

(** Arming at the time [e]. *)
Lemma arm_effect lim cpu t s o e s' :
  timers_ok s -> tobjs s !! t = Some o -> 0 <= lim < t_expires e -> t_expires e < 2 ^ 63 -> 0 <= t_timeout e < 2 ^ 62 ->
  t_entry e = t_entry o -> t_raw e = t_raw o -> t_cpu e = t_cpu o -> t_stop e = t_stop o ->
  __mod_timer cpu t (set_obj t e s) = Some s' -> effect lim t s s' /\ hist s' = hist s.
Proof.
  intros Hk Ho Hl He Ht E1 E2 E3 E4 H. assert (timers_ok (set_obj t e s)) as Hk1.
  { apply (set_obj_ok s t o e Hk Ho E1).
    - destruct (tk_obj _ Hk _ _ Ho) as [_ Hc]. split; [done|]. by rewrite E2, E3.
    - intros c [A1 A2 A3 A4 A5]. split; try congruence. lia. }
  destruct (__mod_timer_spec cpu t _ e s' Hk1) as (G1 & G2 & G3 & G4 & G5 & G6); [apply lookup_insert_eq|lia|done|]. split; [|done].
  split; try done.
  - intros u Hu. rewrite G3 by done. cbn. by rewrite lookup_insert_ne.
  - intros c r Hr. destruct (G6 c r Hr) as (r' & Hr' & Hrun & Ha & Htm). exists r'. split; [done|]. split; [done|].
    destruct (decide (c = cpu)); [eapply rl_armed; [done|done|exact G4|cbn; lia]|]. rewrite app_nil_r in Ha. by apply rl_removed.
Qed.

Lemma setup_effect lim t tval s o : timers_ok s -> tobjs s !! t = Some o -> 0 <= tval < 2 ^ 62 -> effect lim t s (set_obj t (set_timeout tval o) s).
Proof.
  intros Hk Ho Ht. split; try done.
  - apply (set_obj_ok s t o _ Hk Ho); [done| |].
    + destruct (tk_obj _ Hk _ _ Ho) as [_ Hc]. by split.
    + by intros c [? ? ? ? ?].
  - intros u Hu. cbn. by rewrite lookup_insert_ne.
  - cbn. rewrite lookup_insert_eq. by eexists.
  - intros c r Hr. exists r. split; [done|]. split; [done|]. apply rl_same; [done|done|]. cbn. by rewrite lookup_insert_eq, Ho.
Qed.

Lemma same_effect lim t s : timers_ok s -> is_Some (tobjs s !! t) -> effect lim t s s.
Proof. intros Hk Ho. split; try done. intros c r Hr. exists r. split; [done|]. split; [done|]. by apply rl_same. Qed.

Lemma stop_timer_effect lim t s s' : timers_ok s -> stop_timer t s = Some s' -> effect lim t s s' /\ hist s' = hist s.
Proof.
  intros Hk H. unfold stop_timer in H. destruct (tobjs s !! t) as [o|] eqn:Ho; [|done]. cbn [mbind option_bind] in H.
  destruct (t_cpu o =? -1) eqn:Ec; [injection H as <-; split; [by apply same_effect; [|eexists]|done]|].
  destruct (t_raw o) as [c0|]; [|done]. cbn [mbind option_bind] in H. destruct (timers s !! c0) as [r0|]; [|done]. cbn [mbind option_bind] in H.
  destruct (negb _) in H; [|done]. revert H. msimpl. set (o1 := mk_timer _ 1 _ _ _ _ _ _). rewrite (detach_spec _ t o1).
  - cbn [mbind option_bind tobjs hist timers set_obj]. rewrite lookup_insert_eq. cbn [mbind option_bind]. intros [= <-]. split; [|done].
    unfold set_obj. cbn [timers tobjs hist]. rewrite !insert_insert_eq. split; cbn [timers tobjs].
    + eapply unlink_ok; [done|done|done|]. destruct (tk_obj _ Hk _ _ Ho) as [Ht _]. split; [done|]. by left.
    + by rewrite length_fmap.
    + intros u Hu. by rewrite lookup_insert_ne.
    + rewrite lookup_insert_eq. by eexists.
    + intros c r Hr. exists (unlink t r). rewrite list_lookup_fmap, Hr. split; [done|]. split; [done|]. by apply rl_removed.
  - cbn. apply lookup_insert_eq.
  - cbn. intros He. by eapply not_linked.
Qed.

Lemma run_op_effect cpu now0 now op s s' :
  timers_ok s -> op_ok op -> 0 <= now0 <= now -> now < 2 ^ 61 -> run_op cpu now op s = Some s' ->
  effect (now0 + DEFAULT_TIMER_MARGIN) (op_target op) s s' /\ hist s' = ev_op op :: hist s.
Proof.
  intros Hk Hop Hn Hm H. unfold run_op in H. destruct (match op with op_mod _ _ => _ | _ => _ end) as [s1|] eqn:E; [|done].
  injection H as <-.
  enough (effect (now0 + DEFAULT_TIMER_MARGIN) (op_target op) s s1 /\ hist s1 = hist s) as [? ?] by (split; [by apply log_effect|cbn; by f_equal]).
  unfold DEFAULT_TIMER_MARGIN, TIMER_PRECISION in *. change (1000000 / 2) with 500000.
  destruct op as [t cval|t tval|t|t]; cbn [op_target op_ok] in *.
  - unfold mod_timer, TIMER_PRECISION in E. destruct (tobjs s !! t) as [o|] eqn:Ho; [|done]. cbn [mbind option_bind] in E. rewrite (u64_small (now + _)) in E by lia.
    destruct (tk_obj _ Hk _ _ Ho) as [Ht _]. destruct (Z.ltb_spec cval (now + 1000000));
      (refine (arm_effect _ cpu t s o _ s1 Hk Ho _ _ _ _ _ _ _ E); cbn; done || lia).
  - unfold setup_timer in E. destruct (tobjs s !! t) as [o|] eqn:Ho; [|done]. injection E as <-. split; [by apply setup_effect|done].
  - unfold start_timer, __start_delay_timer, TIMER_PRECISION in E. destruct (tobjs s !! t) as [o|] eqn:Ho; [|done]. cbn [mbind option_bind] in E.
    destruct (tk_obj _ Hk _ _ Ho) as [Ht _]. destruct (Z.ltb_spec (t_timeout o) 1000000); cbn [set_timeout t_timeout] in E; rewrite u64_small in E by lia;
      (refine (arm_effect _ cpu t s o _ s1 Hk Ho _ _ _ _ _ _ _ E); cbn; done || lia).
  - by apply (stop_timer_effect _ t s s1).
Qed.

(** ** Sequences of operations

    [lim] is the time up to which timers are due. *)
Definition due (lim : Z) (s : tstate) (t : Z) : Prop :=
  match tobjs s !! t with Some o => t_expires o <= lim | None => False end.

#[export] Instance due_dec lim s t : Decision (due lim s t).
Proof. unfold due. destruct (tobjs s !! t); apply _. Defined.

Definition ndue (lim : Z) (s : tstate) (r : raw_timer) : nat := length (filter (due lim s) (active r)).

Definition touched (evs : list event) (t : Z) : Prop := exists op, ev_op op ∈ evs /\ op_target op = t.

(** The timer was armed again or stopped. *)
Definition moves (op : timer_op) : bool := match op with op_setup _ _ => false | _ => true end.
Definition moved (evs : list event) (t : Z) : Prop := exists op, ev_op op ∈ evs /\ op_target op = t /\ moves op = true.

(** The timers whose handlers were called. *)
Definition fired (evs : list event) : list Z := omap (fun e => match e with ev_fired t => Some t | ev_op _ => None end) evs.

Record evolves (lim : Z) (evs : list event) (s s' : tstate) : Prop := mk_evolves {
  ev_hist : hist s' = evs ++ hist s;
  ev_inv : timers_ok s';
  ev_dom : forall u, is_Some (tobjs s !! u) -> is_Some (tobjs s' !! u);
  ev_raw : forall c r, timers s !! c = Some r -> exists r',
    timers s' !! c = Some r' /\ running_timer r' = running_timer r /\ (ndue lim s' r' <= ndue lim s r)%nat
    /\ (forall u, u ∈ tmp_head r' -> u ∈ tmp_head r /\ (~ due lim s u -> ~ due lim s' u))
    /\ (forall u, u ∈ active r -> due lim s u -> (u ∈ active r' /\ due lim s' u) \/ moved evs u)
    /\ (forall u, u ∈ active r' -> due lim s' u -> u ∈ active r /\ due lim s u)
    /\ ((forall u, u ∈ tmp_head r -> ~ touched evs u) -> tmp_head r' = tmp_head r /\ (forall u, u ∈ tmp_head r -> tobjs s' !! u = tobjs s !! u));
}.

Lemma filter_due_ext lim s s' (l : list Z) : (forall u, u ∈ l -> due lim s' u <-> due lim s u) -> filter (due lim s') l = filter (due lim s) l.
Proof.
  induction l as [|x l IH]; intros H; [done|]. rewrite !filter_cons. rewrite IH by set_solver. pose proof (H x ltac:(set_solver)).
  destruct (decide (due lim s' x)), (decide (due lim s x)); tauto || done.
Qed.

Lemma due_other lim s s' u : tobjs s' !! u = tobjs s !! u -> due lim s' u <-> due lim s u.
Proof. unfold due. by intros ->. Qed.

Lemma filter_filter_length (P Q : Z -> Prop) `{forall x, Decision (P x), forall x, Decision (Q x)} (l : list Z) :
  (length (filter P (filter Q l)) <= length (filter P l))%nat.
Proof.
  induction l as [|x l IH]; [done|]. rewrite (filter_cons Q). destruct (decide (Q x)); rewrite ?filter_cons; destruct (decide (P x)); cbn; lia.
Qed.

(** The filtered list does not hold [t], so its members kept their objects. *)
Lemma ndue_filter lim s s' t (l : list Z) :
  (forall u, u <> t -> tobjs s' !! u = tobjs s !! u) ->
  (length (filter (due lim s') (filter (fun u => u <> t) l)) <= length (filter (due lim s) l))%nat.
Proof.
  intros H. rewrite (filter_due_ext lim s s') by (intros u [Hu _]%list_elem_of_filter; by apply due_other, H). apply filter_filter_length.
Qed.

Lemma ndue_relisted lim s s' t r r' :
  (forall u, u <> t -> tobjs s' !! u = tobjs s !! u) -> relisted lim s s' t r r' -> (ndue lim s' r' <= ndue lim s r)%nat.
Proof.
  intros Hu Hl. unfold ndue. destruct Hl as [Ea Et Ee|Ea Et|o Ea Et Eo Hlt]; rewrite Ea.
  - rewrite (filter_due_ext lim s s'); [done|]. intros x _. destruct (decide (x = t)) as [->|]; [|by apply due_other, Hu].
    unfold due. destruct (tobjs s' !! t), (tobjs s !! t); cbn in Ee; try done. by injection Ee as ->.
  - by apply ndue_filter.
  - rewrite list.filter_app, filter_cons_False, filter_nil, app_nil_r; [by apply ndue_filter|]. unfold due. rewrite Eo. lia.
Qed.

Lemma effect_evolves lim op s s' :
  effect lim (op_target op) s s' -> hist s' = ev_op op :: hist s ->
  (moves op = false -> timers s' = timers s /\ t_expires <$> tobjs s' !! op_target op = t_expires <$> tobjs s !! op_target op) -> evolves lim [ev_op op] s s'.
Proof.
  intros [E1 E2 E3 E4 E5] Hh Hmv. set (t := op_target op) in *. split; try done.
  - intros u Hu. destruct (decide (u = t)) as [->|]; [done|]. by rewrite E3.
  - intros c r Hr. destruct (E5 c r Hr) as (r' & Hr' & Hrun & Hl). exists r'. split; [done|]. split; [done|].
    assert (touched [ev_op op] t) as Htt by (exists op; split; [set_solver|done]).
    assert (forall u, u <> t -> due lim s' u <-> due lim s u) as Hd by (intros u Hu; unfold due; by rewrite E3).
    assert (tobjs s' !! t <> None) as Hn by (destruct E4 as [? ->]; done).
    split; [by apply (ndue_relisted lim s s' t)|]. split_and!.
    + intros u Hu. destruct Hl as [Ea Et Ee|Ea Et|o Ea Et Eo Hlt]; rewrite Et in Hu.
      * split; [done|]. destruct (decide (u = t)) as [->|Hne]; [|by rewrite Hd]. unfold due.
        destruct (tobjs s' !! t), (tobjs s !! t); cbn in Ee; try done. by injection Ee as ->.
      * apply list_elem_of_filter in Hu as [Hne Hu]. by rewrite Hd.
      * apply list_elem_of_filter in Hu as [Hne Hu]. by rewrite Hd.
    + intros u Hu Hdu. destruct (decide (u = t)) as [->|Hne].
      * destruct (moves op) eqn:Em; [right; exists op; split; [set_solver|done]|left]. destruct (Hmv eq_refl) as [Et Ee]. rewrite Et, Hr in Hr'. injection Hr' as <-.
        split; [done|]. unfold due in *. destruct (tobjs s' !! t), (tobjs s !! t); cbn in Ee; try done. by injection Ee as ->.
      * left. rewrite Hd by done. split; [|done]. destruct Hl as [Ea Et Ee|Ea Et|o Ea Et Eo Hlt]; rewrite Ea; [done| |]; rewrite ?elem_of_app, list_elem_of_filter; tauto.
    + intros u Hu Hdu. destruct Hl as [Ea Et Ee|Ea Et|o Ea Et Eo Hlt]; rewrite Ea in Hu.
      * split; [done|]. destruct (decide (u = t)) as [->|]; [|by rewrite <- Hd]. unfold due in *. destruct (tobjs s' !! t), (tobjs s !! t); cbn in Ee; try done. by injection Ee as <-.
      * apply list_elem_of_filter in Hu as [Hne Hu]. by rewrite <- Hd.
      * apply elem_of_app in Hu as [[Hne Hu]%list_elem_of_filter|Hu%list_elem_of_singleton]; [by rewrite <- Hd|]. subst u. unfold due in Hdu. rewrite Eo in Hdu. lia.
    + intros Hq. assert (t ∉ tmp_head r) as Hnt by (intros Hin; by apply (Hq t)).
      split; [destruct Hl as [Ea Et Ee|Ea Et|o Ea Et Eo Hlt]; rewrite Et; [done|by apply filter_ne_id|by apply filter_ne_id]|].
      intros u Hu. apply E3. by intros ->.
Qed.

Lemma evolves_refl lim s : timers_ok s -> evolves lim [] s s.
Proof. intros Hk. split; try done. intros c r Hr. exists r. split_and!; try done. intros u Hu Hdu. by left. Qed.

Lemma moved_app e1 e2 u : moved (e1 ++ e2) u <-> moved e1 u \/ moved e2 u.
Proof. unfold moved. setoid_rewrite elem_of_app. naive_solver. Qed.

Lemma fired_app e1 e2 : fired (e1 ++ e2) = fired e1 ++ fired e2.
Proof. apply omap_app. Qed.

Lemma touched_app e1 e2 u : touched (e1 ++ e2) u <-> touched e1 u \/ touched e2 u.
Proof. unfold touched. setoid_rewrite elem_of_app. naive_solver. Qed.

Lemma evolves_trans lim e1 e2 s1 s2 s3 : evolves lim e1 s1 s2 -> evolves lim e2 s2 s3 -> evolves lim (e2 ++ e1) s1 s3.
Proof.
  intros [H1 H2 H3 H4] [K1 K2 K3 K4]. split; try done.
  - by rewrite K1, H1, app_assoc.
  - intros u Hu. auto.
  - intros c r Hr. destruct (H4 c r Hr) as (r2 & Hr2 & A1 & A2 & A3 & A4 & A6 & A5). destruct (K4 c r2 Hr2) as (r3 & Hr3 & B1 & B2 & B3 & B4 & B6 & B5).
    exists r3. setoid_rewrite touched_app. setoid_rewrite moved_app. split; [done|]. split; [congruence|]. split; [lia|]. split_and!.
    + intros u Hu. destruct (B3 u Hu) as [Hu2 Hd2]. destruct (A3 u Hu2) as [Hu1 Hd1]. tauto.
    + intros u Hu Hd. destruct (A4 u Hu Hd) as [[Hu2 Hd2]|]; [|tauto]. destruct (B4 u Hu2 Hd2); tauto.
    + intros u Hu Hd. destruct (B6 u Hu Hd). by apply A6.
    + intros Hq. destruct A5 as [T1 O1]; [intros u Hu Ht; by apply (Hq u Hu); right|].
      destruct B5 as [T2 O2]; [rewrite T1; intros u Hu Ht; by apply (Hq u Hu); left|]. split; [congruence|].
      intros u Hu. rewrite O2 by (by rewrite T1). by apply O1.
Qed.

(** The operations of a handler, at times from [now0] on. *)
Definition ops_ok (now0 : Z) (ops : list (Z * timer_op)) : Prop := Forall (fun '(now, op) => now0 <= now < 2 ^ 61 /\ op_ok op) ops.

Lemma run_op_setup cpu now op s s' : moves op = false -> run_op cpu now op s = Some s' ->
  timers s' = timers s /\ t_expires <$> tobjs s' !! op_target op = t_expires <$> tobjs s !! op_target op.
Proof.
  intros Hm. destruct op as [t cval|t tval|t|t]; [done| |done..]. unfold run_op, setup_timer. destruct (tobjs s !! t) as [o|] eqn:Ho; [|done]. intros [= <-].
  split; [done|]. cbn. by rewrite lookup_insert_eq, Ho.
Qed.

Lemma run_ops_evolves cpu now0 ops s s' :
  timers_ok s -> 0 <= now0 -> ops_ok now0 ops -> run_ops cpu ops s = Some s' ->
  exists evs, evolves (now0 + DEFAULT_TIMER_MARGIN) evs s s' /\ (forall u, touched evs u -> exists nop, nop ∈ ops /\ op_target nop.2 = u) /\ fired evs = [].
Proof.
  revert s. induction ops as [|[now op] ops IH]; intros s Hk H0 Hop; cbn [run_ops].
  - intros [= <-]. exists []. split; [by apply evolves_refl|]. split; [|done]. by intros u (x & ?%elem_of_nil & _).
  - apply Forall_cons_1 in Hop as [[Hn Ho] Hop]. destruct (run_op cpu now op s) as [s1|] eqn:E; [|done]. cbn [mbind option_bind]. intros Hr.
    destruct (run_op_effect cpu now0 now op s s1) as [He Hh]; try done; try lia.
    destruct (IH _ (ef_ok _ _ _ _ He) H0 Hop Hr) as (evs & Hev & Ht & Hf).
    exists (evs ++ [ev_op op]). split_and!.
    + eapply evolves_trans; [|done]. apply effect_evolves; [done|done|]. intros Hm. by eapply run_op_setup.
    + intros u [Hu|(x & Hx & <-)]%touched_app; [destruct (Ht u Hu) as (nop & ? & ?); exists nop; set_solver|].
      apply list_elem_of_singleton in Hx. injection Hx as ->. exists (now, op). set_solver.
    + by rewrite fired_app, Hf.
Qed.

Lemma __mod_timer_total cpu t s o :
  timers_ok s -> tobjs s !! t = Some o -> (t_cpu o = -1 \/ t_cpu o = Z.of_nat cpu) -> (cpu < length (timers s))%nat ->
  is_Some (__mod_timer cpu t s).
Proof.
  intros Hk Ho Hc Hlt. unfold __mod_timer. rewrite Ho. cbn [mbind option_bind].
  assert (negb (negb (t_cpu o =? -1) && negb (t_cpu o =? Z.of_nat cpu)) = true) as -> by (destruct Hc as [-> | ->]; rewrite ?Z.eqb_refl, ?andb_false_r; done).
  msimpl. rewrite (detach_spec s t o Ho) by (by apply not_linked). cbn [mbind option_bind set_obj timers tobjs].
  destruct (lookup_lt_is_Some_2 _ _ Hlt) as [r Hr]. rewrite list_lookup_fmap, Hr. cbn [fmap option_fmap option_map mbind option_bind].
  cbn [next_timer set_lists unlink]. destruct (next_timer r) as [n|] eqn:En; [|by eexists].
  destruct (tk_next _ Hk _ _ _ Hr En) as [on Hon]. destruct (decide (n = t)) as [->|Hne]; [rewrite lookup_insert_eq; by eexists|].
  rewrite !lookup_insert_ne by done. rewrite Hon. by eexists.
Qed.

(** stop_timer ends when the handler of the timer does not run. *)
Lemma stop_timer_total t s o :
  timers_ok s -> tobjs s !! t = Some o -> (forall c r, timers s !! c = Some r -> running_timer r <> Some t) ->
  exists s', stop_timer t s = Some s' /\ effect 0 t s s' /\ ((exists o', tobjs s' !! t = Some o' /\ t_cpu o' = -1)) /\ unlinked t (timers s').
Proof.
  intros Hk Ho Hr. assert (exists s', stop_timer t s = Some s' /\ exists o', tobjs s' !! t = Some o' /\ t_cpu o' = -1) as (s' & E & o' & Ho' & Ec).
  { unfold stop_timer. rewrite Ho. cbn [mbind option_bind]. destruct (t_cpu o =? -1) eqn:Ec; [exists s; split; [done|]; exists o; split; [done|lia]|].
    destruct (tk_obj _ Hk _ _ Ho) as [_ [E|(c & Er & _ & Hlt)]]; [lia|]. rewrite Er. cbn [mbind option_bind].
    destruct (lookup_lt_is_Some_2 _ _ Hlt) as [r Hrr]. rewrite Hrr. cbn [mbind option_bind]. rewrite bool_decide_false by (by eapply Hr). cbn [negb]. msimpl.
    set (o1 := mk_timer _ 1 _ _ _ _ _ _). rewrite (detach_spec _ t o1); [|apply lookup_insert_eq|intros He; exact (not_linked _ _ _ Hk Ho He)].
    cbn [mbind option_bind tobjs set_obj]. rewrite lookup_insert_eq. cbn [mbind option_bind]. eexists. split; [done|]. eexists. split; [apply lookup_insert_eq|done]. }
  destruct (stop_timer_effect 0 t s s' Hk E) as [He _]. exists s'. split; [done|]. split; [done|]. split; [by exists o'|].
  intros c r Hc Hin. destruct (tk_link _ (ef_ok _ _ _ _ He) _ _ _ Hc Hin) as (o2 & Ho2 & [_ _ A _ _]). rewrite Ho' in Ho2. injection Ho2 as <-. lia.
Qed.

(** What an operation of a handler on CPU [cpu] needs: the timer exists; one
    that is armed is new or of this CPU; one that is stopped is not the timer
    whose handler runs, on any CPU. *)
Definition may_run (cpu : nat) (op : timer_op) (s : tstate) : Prop :=
  exists o, tobjs s !! op_target op = Some o /\
    match op with
    | op_setup _ _ => True
    | op_stop t => forall c r, timers s !! c = Some r -> running_timer r <> Some t
    | op_mod _ _ | op_start _ => t_cpu o = -1 \/ t_cpu o = Z.of_nat cpu
    end.

(** The CPU of a timer that an operation leaves. *)
Definition cpu_after (cpu : nat) (o o' : timer) : Prop := t_cpu o' = t_cpu o \/ t_cpu o' = -1 \/ t_cpu o' = Z.of_nat cpu.

Lemma __mod_timer_runs cpu t s o e : timers_ok s -> (cpu < length (timers s))%nat -> tobjs s !! t = Some o -> (t_cpu o = -1 \/ t_cpu o = Z.of_nat cpu) ->
  0 < t_expires e < 2 ^ 63 -> 0 <= t_timeout e < 2 ^ 62 -> t_entry e = t_entry o -> t_raw e = t_raw o -> t_cpu e = t_cpu o -> t_stop e = t_stop o ->
  exists s', __mod_timer cpu t (set_obj t e s) = Some s' /\ exists o', tobjs s' !! t = Some o' /\ t_cpu o' = Z.of_nat cpu.
Proof.
  intros Hk Hl Ho Hc He Ht E1 E2 E3 E4. assert (timers_ok (set_obj t e s)) as Hk1.
  { apply (set_obj_ok s t o e Hk Ho E1).
    - destruct (tk_obj _ Hk _ _ Ho) as [_ Hx]. split; [done|]. by rewrite E2, E3.
    - intros c [A1 A2 A3 A4 A5]. split; try congruence. }
  destruct (__mod_timer_total cpu t (set_obj t e s) e Hk1) as [s' Es]; [apply lookup_insert_eq|congruence|done|].
  exists s'. split; [done|]. destruct (__mod_timer_spec cpu t _ e s' Hk1 ltac:(apply lookup_insert_eq) He Es) as (_ & _ & _ & G & _). by eexists.
Qed.

Lemma run_op_runs cpu now op s : timers_ok s -> (cpu < length (timers s))%nat -> op_ok op -> 0 <= now < 2 ^ 61 -> may_run cpu op s ->
  exists s' o o', run_op cpu now op s = Some s' /\ tobjs s !! op_target op = Some o /\ tobjs s' !! op_target op = Some o' /\ cpu_after cpu o o'.
Proof.
  intros Hk Hl Hop Hn (o & Ho & Hm). pose proof (tk_obj _ Hk _ _ Ho) as [Ht _]. unfold run_op, cpu_after, TIMER_PRECISION. destruct op as [t cval|t tval|t|t]; cbn [op_target op_ok] in *.
  - unfold mod_timer, TIMER_PRECISION. rewrite Ho. cbn [mbind option_bind]. rewrite (u64_small (now + _)) by lia.
    destruct (__mod_timer_runs cpu t s o (set_expires (if cval <? now + 1000000 then now + 1000000 else cval) o) Hk Hl Ho Hm) as (s' & -> & o' & Ho' & Ec);
      [cbn; destruct (Z.ltb_spec cval (now + 1000000)); lia|done..|]. eexists _, o, o'. split; [done|]. split; [done|]. split; [done|by right; right].
  - unfold setup_timer. rewrite Ho. eexists _, o, _. split; [done|]. split; [done|]. split; [apply lookup_insert_eq|by left].
  - unfold start_timer, __start_delay_timer, TIMER_PRECISION. rewrite Ho. cbn [mbind option_bind].
    set (o1 := if _ <? _ then _ else _). assert (0 <= t_timeout o1 < 2 ^ 62 /\ t_entry o1 = t_entry o /\ t_raw o1 = t_raw o /\ t_cpu o1 = t_cpu o /\ t_stop o1 = t_stop o /\ 1000000 <= t_timeout o1) as (F1 & F2 & F3 & F4 & F5 & F6)
      by (unfold o1; destruct (Z.ltb_spec (t_timeout o) 1000000); cbn; split_and!; done || lia).
    rewrite u64_small by lia. destruct (__mod_timer_runs cpu t s o (set_expires (now + t_timeout o1) o1) Hk Hl Ho Hm) as (s' & -> & o' & Ho' & Ec); [cbn; lia|cbn; done || lia..|].
    eexists _, o, o'. split; [done|]. split; [done|]. split; [done|by right; right].
  - destruct (stop_timer_total t s o Hk Ho Hm) as (s' & -> & _ & (o' & Ho' & Ec) & _). eexists _, o, o'. split; [done|]. split; [done|]. split; [done|by right; left].
Qed.

(** A handler whose operations may run returns. *)
Lemma run_ops_run cpu now0 ops s : timers_ok s -> (cpu < length (timers s))%nat -> 0 <= now0 -> ops_ok now0 ops -> (forall nop, nop ∈ ops -> may_run cpu nop.2 s) ->
  is_Some (run_ops cpu ops s).
Proof.
  revert s. induction ops as [|[now op] ops IH]; intros s Hk Hl H0 Hop Hm; cbn [run_ops]; [by eexists|].
  apply Forall_cons_1 in Hop as [[Hn Ho] Hop]. destruct (run_op_runs cpu now op s Hk Hl Ho ltac:(lia) (Hm (now, op) ltac:(set_solver))) as (s1 & o & o1 & E & Eo & Eo1 & Hc).
  rewrite E. cbn [mbind option_bind]. destruct (run_op_effect cpu now0 now op s s1) as [[F1 F2 F3 F4 F5] _]; [done|done|lia|lia|done|].
  apply IH; [done|by rewrite F2|done|done|]. intros nop Hin. destruct (Hm nop ltac:(set_solver)) as (o2 & Ho2 & Hx).
  assert (exists o3, tobjs s1 !! op_target nop.2 = Some o3 /\ cpu_after cpu o2 o3) as (o3 & Ho3 & Hc3).
  { destruct (decide (op_target nop.2 = op_target op)) as [Et|Hne]; [|exists o2; rewrite F3 by done; split; [done|by left]].
    rewrite Et in *. exists o1. split; [done|]. by replace o2 with o by congruence. }
  exists o3. split; [done|]. unfold cpu_after in Hc3. destruct nop as [? [t ?|t ?|t|t]]; cbn in *; try done; [destruct Hx, Hc3 as [?|[?|?]]; lia..|].
  intros c r Hr. pose proof (lookup_lt_Some _ _ _ Hr) as Hlt. rewrite F2 in Hlt. destruct (lookup_lt_is_Some_2 _ _ Hlt) as [r0 Hr0].
  destruct (F5 c r0 Hr0) as (r' & Hr' & Hrun & _). assert (r' = r) as -> by congruence. rewrite Hrun. by apply (Hx c).
Qed.

(** ** The interrupt *)

(** The invariant only depends on what is linked, up to order. *)
Lemma timers_ok_ext s s' :
  timers_ok s -> tobjs s' = tobjs s -> length (timers s') = length (timers s) ->
  (forall c r, timers s !! c = Some r -> exists r', timers s' !! c = Some r' /\ linked_on r' ≡ₚ linked_on r /\ (forall n, next_timer r' = Some n -> is_Some (tobjs s !! n))) ->
  timers_ok s'.
Proof.
  intros [K1 K2 K3 K4 K5] Eo El Hr.
  assert (forall c r', timers s' !! c = Some r' -> exists r, timers s !! c = Some r /\ linked_on r' ≡ₚ linked_on r /\ (forall n, next_timer r' = Some n -> is_Some (tobjs s !! n))) as Hb.
  { intros c r' Hr'. pose proof (lookup_lt_Some _ _ _ Hr') as Hlt. rewrite El in Hlt. destruct (lookup_lt_is_Some_2 _ _ Hlt) as [r E].
    destruct (Hr c r E) as (r2 & E2 & Hp). rewrite Hr' in E2. injection E2 as <-. by exists r. }
  split; rewrite ?Eo, ?El; try done.
  - intros c r' t Hr' Hin. destruct (Hb c r' Hr') as (r & E & Hp & _). rewrite Hp in Hin. by apply (K1 c r).
  - intros c r' Hr'. destruct (Hb c r' Hr') as (r & E & Hp & _). rewrite Hp. by apply (K2 c r).
  - intros t o Ho He. destruct (K3 t o Ho He) as (c & r & E & Hin). destruct (Hr c r E) as (r' & E' & Hp & _). exists c, r'. by rewrite Hp.
  - intros c r' n Hr' Hn. destruct (Hb c r' Hr') as (r & E & _ & Hx). by apply Hx.
Qed.

Lemma set_raw_ok s c r r' :
  timers_ok s -> timers s !! c = Some r -> linked_on r' ≡ₚ linked_on r -> (forall n, next_timer r' = Some n -> is_Some (tobjs s !! n)) ->
  timers_ok (set_raw c r' s).
Proof.
  intros Hk Hr Hp Hn. apply (timers_ok_ext s); [done|done|cbn; by rewrite length_insert|]. intros c' x Hx. cbn. destruct (decide (c' = c)) as [->|Hc].
  - exists r'. rewrite list_lookup_insert_eq by (by eapply lookup_lt_Some). rewrite Hr in Hx. by injection Hx as <-.
  - exists x. rewrite list_lookup_insert_ne by done. split_and!; try done. intros n Hnx. by apply (tk_next _ Hk _ _ _ Hx).
Qed.

(** Taking the first timer from the active list. *)
Lemma take_first_ok s cpu r t o rest :
  timers_ok s -> timers s !! cpu = Some r -> active r = t :: rest -> tobjs s !! t = Some o ->
  timers_ok (set_obj t (set_entry false o) (set_raw cpu (set_running (Some t) (set_lists rest (tmp_head r) r)) s)).
Proof.
  intros Hk Hr Ha Ho. pose proof (tk_nodup _ Hk _ _ Hr) as Hnd. unfold linked_on in Hnd. rewrite Ha in Hnd.
  apply list.NoDup_cons in Hnd as [Hnin Hnd]. rewrite elem_of_app in Hnin.
  destruct (tk_link _ Hk _ _ t Hr) as (o' & Ho' & Har); [unfold linked_on; rewrite Ha; set_solver|].
  rewrite Ho in Ho'. injection Ho' as <-.
  pose proof (unlink_ok s t o (set_entry false o) (hist s) Hk Ho eq_refl (tk_obj _ Hk _ _ Ho)) as Hk1.
  eapply timers_ok_ext; [exact Hk1|done|cbn; by rewrite length_fmap, length_insert|]. cbn. intros c x Hx. rewrite list_lookup_fmap in Hx.
  destruct (timers s !! c) as [y|] eqn:Ey; [|done]. injection Hx as <-. destruct (decide (c = cpu)) as [->|Hc].
  - rewrite Hr in Ey. injection Ey as <-. eexists. rewrite list_lookup_insert_eq by (by eapply lookup_lt_Some). split; [done|].
    rewrite linked_on_unlink. unfold linked_on. cbn. rewrite Ha. cbn [app]. rewrite filter_cons_False by (intros H; by apply H).
    split; [by rewrite filter_ne_id by (rewrite elem_of_app; tauto)|]. intros n Hn. destruct (tk_next _ Hk _ _ _ Hr Hn) as [x Hx].
    destruct (decide (n = t)) as [->|]; [rewrite lookup_insert_eq; by eexists|]. rewrite lookup_insert_ne by done. by eexists.
  - exists y. rewrite list_lookup_insert_ne by done. split; [done|]. rewrite unlink_id.
    + split; [done|]. intros n Hn. apply (tk_next _ Hk1 c (unlink t y) n); [cbn; by rewrite list_lookup_fmap, Ey|done].
    + intros Hin. destruct (tk_link _ Hk _ _ t Ey Hin) as (o2 & Ho2 & Har2). rewrite Ho in Ho2. injection Ho2 as <-.
      destruct Har as [_ R1 _ _ _], Har2 as [_ R2 _ _ _]. congruence.
Qed.

Section interrupt.
Context (cpu : nat) (now : Z) (cb : handlers).

(** Handlers use the clock forward, times and timeouts are in range, and they
    touch only timers that exist: they arm new ones and the ones of their CPU,
    and stop any but those whose handlers run. *)
Record handlers_ok : Prop := mk_handlers_ok {
  ho_now : 0 <= now < 2 ^ 61;
  ho_time : forall fn d s, ops_ok now (cb fn d s);
  ho_ops : forall fn d s r t nop, timers_ok s -> timers s !! cpu = Some r -> running_timer r = Some t -> nop ∈ cb fn d s -> may_run cpu nop.2 s;
}.

(** Handlers leave the timers alone that the interrupt has put aside. *)
Definition handlers_quiet : Prop := forall fn d s r nop, timers_ok s -> timers s !! cpu = Some r -> nop ∈ cb fn d s -> op_target nop.2 ∉ tmp_head r.

Definition is_min (s : tstate) (next : option Z) (l : list Z) : Prop :=
  match next with
  | None => l = []
  | Some n => n ∈ l /\ exists on, tobjs s !! n = Some on /\ forall u ou, u ∈ l -> tobjs s !! u = Some ou -> t_expires on <= t_expires ou
  end.

Let lim := now + DEFAULT_TIMER_MARGIN.

Record loop_inv (next : option Z) (s : tstate) (r : raw_timer) : Prop := mk_loop_inv {
  li_ok : timers_ok s;
  li_raw : timers s !! cpu = Some r;
  li_run : running_timer r = None;
  li_tmp : forall u, u ∈ tmp_head r -> ~ due lim s u;
  li_next : forall n, next = Some n -> is_Some (tobjs s !! n);
}.

(** What one round did to the rest of the timers. *)
Record round (evs : list event) (s s' : tstate) (r r' : raw_timer) : Prop := mk_round {
  ro_hist : hist s' = evs ++ hist s;
  ro_live : forall u, u ∈ active r -> due lim s u -> (u ∈ active r' /\ due lim s' u) \/ u ∈ fired evs \/ moved evs u;
  ro_from : forall u, u ∈ active r' -> due lim s' u -> u ∈ active r /\ due lim s u /\ u ∉ fired evs;
  ro_fired : NoDup (fired evs) /\ forall u, u ∈ fired evs -> u ∈ active r /\ due lim s u;
}.

Lemma ndue_head s r t rest : active r = t :: rest -> due lim s t -> ndue lim s r = S (ndue lim s (set_lists rest (tmp_head r) r)).
Proof. intros Ha Hd. unfold ndue. cbn. rewrite Ha, filter_cons_True by done. done. Qed.

Lemma run_handler_spec next s r t o rest :
  handlers_ok -> loop_inv next s r -> active r = t :: rest -> tobjs s !! t = Some o -> t_expires o <= lim ->
  exists evs s' r', run_handler cpu cb t o rest r s = Some s' /\ loop_inv next s' r' /\ round evs s s' r r' /\ (ndue lim s' r' < ndue lim s r)%nat
    /\ (handlers_quiet -> tmp_head r' = tmp_head r /\ forall u, u ∈ tmp_head r -> tobjs s' !! u = tobjs s !! u).
Proof.
  intros [H0 Ht Hrun] [L1 L2 L3 L4 L5] Ha Ho Hdue. pose proof (take_first_ok s cpu r t o rest L1 L2 Ha Ho) as Hk1.
  destruct (tk_link _ L1 _ _ t L2) as (o' & Ho' & Har); [unfold linked_on; rewrite Ha; set_solver|]. rewrite Ho in Ho'. injection Ho' as <-.
  assert (due lim s t) as Hdt by (unfold due; by rewrite Ho).
  pose proof (tk_nodup _ L1 _ _ L2) as Hnd. unfold linked_on in Hnd. rewrite Ha in Hnd. apply list.NoDup_cons in Hnd as [Hnin _].
  unfold run_handler. set (s1 := set_obj t _ _) in *. rewrite (ar_stop _ _ Har). cbn [Z.eqb].
  set (r1 := set_running (Some t) (set_lists rest (tmp_head r) r)).
  assert (timers s1 !! cpu = Some r1) as Hr1 by (cbn; apply list_lookup_insert_eq; by eapply lookup_lt_Some).
  destruct (run_ops_run cpu now (cb (t_function o) (t_data o) s1) (log (ev_fired t) s1) (log_ok (ev_fired t) _ Hk1) ltac:(by eapply lookup_lt_Some) ltac:(lia) (Ht _ _ _)) as [s2 E2];
    [intros nop Hin; exact (Hrun _ _ s1 r1 t nop Hk1 Hr1 eq_refl Hin)|]. rewrite E2. cbn [mbind option_bind].
  destruct (run_ops_evolves cpu now _ _ s2 (log_ok (ev_fired t) _ Hk1) ltac:(lia) (Ht _ _ _) E2) as (evs & [V1 V2 V3 V4] & Htc & Hfe).
  destruct (V4 cpu r1 Hr1) as (r2 & Hr2 & A1 & A2 & A3 & A4 & A6 & A5). rewrite Hr2. cbn [mbind option_bind]. fold lim in A2, A3, A4, A6.
  assert (forall u, due lim (log (ev_fired t) s1) u <-> due lim s u) as Hd.
  { intros u. unfold due, s1. cbn. destruct (decide (u = t)) as [->|]; [by rewrite lookup_insert_eq, Ho|by rewrite lookup_insert_ne]. }
  assert (ndue lim (log (ev_fired t) s1) r1 = ndue lim s (set_lists rest (tmp_head r) r)) as En.
  { unfold ndue. cbn. by rewrite (filter_due_ext lim s (log (ev_fired t) s1)). }
  exists (evs ++ [ev_fired t]), (set_raw cpu (set_running None r2) s2), (set_running None r2). split; [done|]. split_and!.
  - split.
    + apply (set_raw_ok s2 cpu r2); [done|done|done|]. intros n. apply (tk_next _ V2 cpu r2 n Hr2).
    + cbn. apply list_lookup_insert_eq. by eapply lookup_lt_Some.
    + done.
    + intros u Hu. destruct (A3 u Hu) as [Hu1 Hu2]. apply Hu2. rewrite Hd. by apply L4.
    + intros n Hn. apply V3. cbn. destruct (L5 n Hn) as [x Hx].
      destruct (decide (n = t)) as [->|]; [rewrite lookup_insert_eq; by eexists|]. rewrite lookup_insert_ne by done. by eexists.
  - split; rewrite ?fired_app, ?Hfe; cbn [fired omap list_omap app].
    + cbn. rewrite V1. by rewrite <- app_assoc.
    + intros u Hu Hdu. rewrite moved_app. destruct (decide (u = t)) as [->|Hne]; [set_solver|].
      assert (u ∈ rest) as Hur by (rewrite Ha in Hu; apply elem_of_cons in Hu; tauto).
      destruct (A4 u Hur) as [[Hu2 Hd2]|]; [by rewrite Hd|by left|tauto].
    + intros u Hu Hdu. destruct (A6 u Hu Hdu) as [Hu1 Hd1]. rewrite Hd in Hd1. cbn in Hu1. rewrite Ha. split; [set_solver|]. split; [done|]. intros ->%list_elem_of_singleton. apply Hnin. set_solver.
    + split; [apply NoDup_singleton|]. intros u ->%list_elem_of_singleton. rewrite Ha. split; [set_solver|done].
  - rewrite (ndue_head s r t rest Ha Hdt), <- En. change (ndue lim (set_raw cpu (set_running None r2) s2) (set_running None r2)) with (ndue lim s2 r2). lia.
  - intros Hq. destruct A5 as [T1 T2].
    { intros u Hu Htu. destruct (Htc u Htu) as (nop & Hin & <-). by apply (Hq _ _ s1 r1 nop Hk1 Hr1 Hin). }
    split; [done|]. intros u Hu. cbn. rewrite T2 by done. cbn. rewrite lookup_insert_ne; [done|]. intros <-. apply Hnin. set_solver.
Qed.

Lemma keep_timer_spec next s r t o rest :
  loop_inv next s r -> active r = t :: rest -> tobjs s !! t = Some o -> lim < t_expires o ->
  exists next', earlier t o next s = Some next' /\ loop_inv next' (keep_timer cpu t rest r s) (set_lists rest (tmp_head r ++ [t]) r)
    /\ (is_min s next (tmp_head r) -> is_min (keep_timer cpu t rest r s) next' (tmp_head r ++ [t])).
Proof.
  intros [L1 L2 L3 L4 L5] Ha Ho Hlt.
  assert (forall n, n = Some t \/ n = next -> loop_inv n (keep_timer cpu t rest r s) (set_lists rest (tmp_head r ++ [t]) r)) as Hinv.
  { intros n Hn. split.
    - apply (set_raw_ok s cpu r); [done|done| |].
      + unfold linked_on. cbn. rewrite Ha. cbn [app]. rewrite app_assoc. by rewrite <- Permutation_cons_append.
      + intros m. apply (tk_next _ L1 cpu r m L2).
    - cbn. apply list_lookup_insert_eq. by eapply lookup_lt_Some.
    - done.
    - intros u [Hu|Hu%list_elem_of_singleton]%elem_of_app; [by apply L4|]. subst u. unfold due. cbn. rewrite Ho. lia.
    - intros m ->. cbn. destruct Hn as [[= <-]|Hn]; [by eexists|by apply L5]. }
  unfold earlier. destruct next as [n|].
  - destruct (L5 n eq_refl) as [on Hon]. rewrite Hon. cbn [mbind option_bind]. eexists. split; [done|].
    destruct (Z.ltb_spec (t_expires o) (t_expires on)) as [Hl|Hl]; (split; [apply Hinv; tauto|]); intros (Hn & on' & Hon' & Hmin); rewrite Hon in Hon'; injection Hon' as <-.
    + split; [set_solver|]. exists o. split; [done|]. intros u ou [Hu|Hu%list_elem_of_singleton]%elem_of_app Eu; [specialize (Hmin u ou Hu Eu); lia|].
      subst u. cbn in Eu. rewrite Ho in Eu. injection Eu as <-. lia.
    + split; [set_solver|]. exists on. split; [done|]. intros u ou [Hu|Hu%list_elem_of_singleton]%elem_of_app Eu; [by apply (Hmin u ou)|].
      subst u. cbn in Eu. rewrite Ho in Eu. injection Eu as <-. lia.
  - eexists. split; [done|]. split; [apply Hinv; tauto|]. cbn. intros ->. split; [set_solver|]. exists o. split; [done|].
    intros u ou Hu%list_elem_of_singleton Eu. subst u. rewrite Ho in Eu. injection Eu as <-. lia.
Qed.

Lemma expire_loop_spec next s r :
  handlers_ok -> loop_inv next s r ->
  exists fuel evs next' s' r', expire_loop fuel cpu now cb next s = Some (next', s') /\ loop_inv next' s' r' /\ active r' = [] /\ hist s' = evs ++ hist s
    /\ (forall u, u ∈ active r -> due lim s u -> u ∈ fired evs \/ moved evs u)
    /\ (NoDup (fired evs) /\ forall u, u ∈ fired evs -> u ∈ active r /\ due lim s u)
    /\ (handlers_quiet -> is_min s next (tmp_head r) -> is_min s' next' (tmp_head r')).
Proof.
  intros Hh. remember (ndue lim s r) as d eqn:Ed. revert next s r Ed. induction (lt_wf d) as [d _ IHd]. intros next s r Ed.
  remember (length (active r)) as k eqn:Ek. revert next s r Ed Ek. induction (lt_wf k) as [k _ IHk]. intros next s r Ed Ek Hi.
  destruct (ho_now Hh) as [Hn0 Hn1]. pose proof (li_raw _ _ _ Hi) as Hraw.
  assert (u64 (now + DEFAULT_TIMER_MARGIN) = lim) as El by (unfold lim; apply u64_small; unfold DEFAULT_TIMER_MARGIN, TIMER_PRECISION; change (1000000 / 2) with 500000; lia).
  destruct (active r) as [|t rest] eqn:Ea.
  - exists 1%nat, [], next, s, r. cbn [expire_loop]. rewrite Hraw. cbn [mbind option_bind]. rewrite Ea. split_and!; try done; [by intros u ?%elem_of_nil|constructor|by intros u ?%elem_of_nil].
  - destruct (tk_link _ (li_ok _ _ _ Hi) _ _ t Hraw) as (o & Ho & _); [unfold linked_on; rewrite Ea; set_solver|].
    destruct (Z.leb_spec (t_expires o) lim) as [Hle|Hgt].
    + destruct (run_handler_spec next s r t o rest Hh Hi Ea Ho Hle) as (evs & s1 & r1 & E1 & Hi1 & [Hh1 Hlv Hfrom Hfd] & Hd & Hq).
      destruct (IHd (ndue lim s1 r1) ltac:(lia) next s1 r1 eq_refl Hi1) as (fuel & evs2 & next' & s' & r' & E2 & Hi' & Ha' & Hh2 & Hlv2 & [Hnd2 Hfd2] & Hm).
      exists (S fuel), (evs2 ++ evs), next', s', r'. cbn [expire_loop]. rewrite Hraw. cbn [mbind option_bind]. rewrite Ea, Ho. cbn [mbind option_bind].
      rewrite El, (proj2 (Z.leb_le _ _) Hle), E1. cbn [mbind option_bind]. split; [done|]. split; [done|]. split; [done|]. split; [by rewrite Hh2, Hh1, app_assoc|].
      rewrite fired_app. split_and!.
      * intros u Hu Hdu. rewrite moved_app, elem_of_app. rewrite <- Ea in Hu. destruct (Hlv u Hu Hdu) as [[Hu1 Hd1]|Hc]; [|tauto]. destruct (Hlv2 u Hu1 Hd1); tauto.
      * apply list.NoDup_app. split; [done|]. split; [|apply Hfd]. intros u Hu Hu1. destruct (Hfd2 u Hu) as [Hua Hud]. by destruct (Hfrom u Hua Hud) as (_ & _ & ?).
      * intros u [Hu|Hu]%elem_of_app; rewrite <- Ea; [|by apply Hfd]. destruct (Hfd2 u Hu) as [Hua Hud]. by destruct (Hfrom u Hua Hud) as (? & ? & _).
      * intros Hqt Hmin. destruct (Hq Hqt) as [T1 T2]. apply Hm; [done|]. rewrite T1. destruct next as [n|]; [|done].
        destruct Hmin as (Hn & on & Hon & Hmin). split; [done|]. exists on. rewrite T2 by done. split; [done|].
        intros u ou Hu Eu. rewrite T2 in Eu by done. by apply (Hmin u ou).
    + destruct (keep_timer_spec next s r t o rest Hi Ea Ho Hgt) as (next1 & E1 & Hi1 & Hm1).
      set (s1 := keep_timer cpu t rest r s) in *. set (r1 := set_lists rest (tmp_head r ++ [t]) r) in *.
      assert (ndue lim s1 r1 = d) as Hd1.
      { rewrite Ed. unfold ndue. rewrite Ea, filter_cons_False; [done|]. unfold due. rewrite Ho. lia. }
      destruct (IHk (length (active r1)) ltac:(cbn in *; lia) next1 s1 r1 (eq_sym Hd1) eq_refl Hi1) as (fuel & evs & next' & s' & r' & E2 & Hi' & Ha' & Hh2 & Hlv2 & [Hnd2 Hfd2] & Hm).
      exists (S fuel), evs, next', s', r'. cbn [expire_loop]. rewrite Hraw. cbn [mbind option_bind]. rewrite Ea, Ho. cbn [mbind option_bind].
      rewrite El, (proj2 (Z.leb_gt _ _) Hgt), E1. cbn [mbind option_bind]. split; [done|]. split; [done|]. split; [done|]. split; [done|].
      split; [|split; [split; [done|]|intros Hqt Hmin; by apply Hm; [|apply Hm1]]].
      * intros u [->|Hu]%elem_of_cons Hdu; [unfold due in Hdu; rewrite Ho in Hdu; lia|]. by apply Hlv2.
      * intros u Hu. destruct (Hfd2 u Hu) as [Hua Hud]. cbn in Hua. split; [set_solver|done].
Qed.
End interrupt.

(** The state in which the interrupt starts and ends. *)
Definition idle (r : raw_timer) : Prop := tmp_head r = [] /\ running_timer r = None.

Lemma interrupt_spec cpu now cb s r :
  handlers_ok cpu now cb -> timers_ok s -> timers s !! cpu = Some r -> idle r ->
  exists fuel evs s' r', timer_interrupt_handler fuel cpu now cb s = Some s' /\ timers_ok s' /\ timers s' !! cpu = Some r' /\ idle r' /\ hist s' = evs ++ hist s
    /\ (forall u, u ∈ active r -> due (now + DEFAULT_TIMER_MARGIN) s u -> u ∈ fired evs \/ moved evs u)
    /\ (NoDup (fired evs) /\ forall u, u ∈ fired evs -> u ∈ active r /\ due (now + DEFAULT_TIMER_MARGIN) s u)
    /\ (forall u, u ∈ active r' -> ~ due (now + DEFAULT_TIMER_MARGIN) s' u)
    /\ (handlers_quiet cpu cb -> is_min s' (next_timer r') (active r') /\ forall n, next_timer r' = Some n -> hw r' = t_expires <$> tobjs s' !! n).
Proof.
  intros Hh Hk Hr [Ht Hru]. pose proof (lookup_lt_Some _ _ _ Hr) as Hlt.
  set (r0 := set_lists (active r) [] (set_hw None r)). set (s0 := set_raw cpu r0 (set_raw cpu (set_hw None r) s)).
  assert (timers s0 !! cpu = Some r0) as Hr0 by (cbn; apply list_lookup_insert_eq; by rewrite length_insert).
  assert (loop_inv cpu now None s0 r0) as Hi.
  { split; try done; [|by intros u ?%elem_of_nil]. unfold s0, set_raw. cbn. rewrite list_insert_insert_eq. apply (set_raw_ok s cpu r r0 Hk Hr).
    - unfold linked_on. cbn. by rewrite Ht.
    - intros n. apply (tk_next _ Hk cpu r n Hr). }
  destruct (expire_loop_spec cpu now cb None s0 r0 Hh Hi) as (fuel & evs & next & s1 & r1 & E & [K1 K2 K3 K4 K5] & Ha & Hhist & Hlv & Hfd & Hm).
  unfold timer_interrupt_handler, soft_timer_interrupt. exists fuel, evs. rewrite Hr. cbn [mbind option_bind].
  assert (timers (set_raw cpu (set_hw None r) s) !! cpu = Some (set_hw None r)) as Hl by (cbn; by apply list_lookup_insert_eq).
  rewrite Hl. cbn [mbind option_bind]. change (set_raw cpu (set_lists _ [] _) _) with s0.
  rewrite E. cbn [mbind option_bind]. rewrite K2. cbn [mbind option_bind]. pose proof (lookup_lt_Some _ _ _ K2) as Hlt1.
  assert (forall h, timers_ok (set_raw cpu (set_hw h (set_next next (set_lists (tmp_head r1) [] r1))) s1)) as Hfin.
  { intros h. apply (set_raw_ok s1 cpu r1 _ K1 K2).
    - unfold linked_on. cbn. by rewrite Ha, app_nil_r.
    - intros n Hn. by apply K5. }
  destruct next as [n|].
  - destruct (K5 n eq_refl) as [on Hon]. rewrite Hon. cbn [mbind option_bind]. eexists _, _. split; [done|]. split; [apply Hfin|].
    split; [cbn; by apply list_lookup_insert_eq|]. split; [done|]. split; [done|]. split; [exact Hlv|]. split; [exact Hfd|]. split; [exact K4|].
    intros Hq. specialize (Hm Hq eq_refl). split; [exact Hm|]. destruct Hm as (Hn & on' & Hon' & _). cbn. intros m [= <-]. rewrite Hon. cbn.
    destruct (tk_link _ K1 _ _ n K2) as (o2 & Ho2 & Har); [unfold linked_on; set_solver|]. rewrite Hon in Ho2. injection Ho2 as <-.
    pose proof (ar_expires _ _ Har). by rewrite (proj2 (Z.eqb_neq _ _)) by lia.
  - eexists _, _. split; [done|]. split; [apply (Hfin (hw r1))|]. split; [cbn; by apply list_lookup_insert_eq|]. split; [done|]. split; [done|]. split; [exact Hlv|]. split; [exact Hfd|].
    split; [exact K4|]. intros Hq. specialize (Hm Hq eq_refl). split; [exact Hm|]. done.
Qed.

(** When __mod_timer sets the comparator. *)
Lemma __mod_timer_next cpu t s o s' r r' :
  timers_ok s -> tobjs s !! t = Some o -> __mod_timer cpu t s = Some s' -> timers s !! cpu = Some r -> timers s' !! cpu = Some r' ->
  let rearmed := next_timer r' = Some t /\ hw r' = if t_expires o =? 0 then None else Some (t_expires o) in
  match next_timer r with
  | None => rearmed
  | Some n => exists on, t_expires <$> tobjs s !! n = Some on /\
      if u64 (t_expires o + DEFAULT_TIMER_MARGIN) <? on then rearmed else next_timer r' = Some n /\ hw r' = hw r
  end.
Proof.
  intros Hk Ho E Hr Hr'. cbv zeta. unfold __mod_timer in E. rewrite Ho in E. cbn [mbind option_bind] in E. destruct (negb _) eqn:Hcpu in E; [|done]. revert E. msimpl.
  rewrite (detach_spec _ t o Ho) by (by apply not_linked). cbn [mbind option_bind set_obj timers tobjs]. rewrite list_lookup_fmap, Hr.
  cbn [fmap option_fmap option_map mbind option_bind next_timer set_lists unlink t_expires]. pose proof (lookup_lt_Some _ _ _ Hr) as Hlt.
  assert (forall x y, timers (set_raw cpu x y) = <[cpu := x]> (timers y)) as Hset by done.
  destruct (next_timer r) as [n|] eqn:En.
  - destruct (tk_next _ Hk _ _ _ Hr En) as [on Hon]. intros E. exists (t_expires on). rewrite Hon. split; [done|]. revert E.
    assert (exists on', <[t := mk_timer (Z.of_nat cpu) 0 (t_expires o) (t_timeout o) (t_function o) (t_data o) true (Some cpu)]> (<[t := set_entry false o]> (tobjs s)) !! n = Some on' /\ t_expires on' = t_expires on) as (on' & -> & Eon').
    { destruct (decide (n = t)) as [->|]; [rewrite lookup_insert_eq; eexists; split; [done|]; cbn; congruence|]. rewrite !lookup_insert_ne by done. by exists on. }
    cbn [mbind option_bind]. rewrite Eon'. intros [= <-]. rewrite Hset in Hr'. rewrite list_lookup_insert_eq in Hr' by (cbn; by rewrite length_fmap). injection Hr' as <-.
    destruct (_ <? _); [done|]. cbn. by rewrite En.
  - cbn [mbind option_bind]. intros [= <-]. rewrite Hset in Hr'. rewrite list_lookup_insert_eq in Hr' by (cbn; by rewrite length_fmap). by injection Hr' as <-.
Qed.

(** mod_timer on the CPU of the timer, or for the first time, arms it. *)
Lemma mod_timer_arms cpu now t cval s o :
  timers_ok s -> tobjs s !! t = Some o -> (t_cpu o = -1 \/ t_cpu o = Z.of_nat cpu) -> (cpu < length (timers s))%nat ->
  0 <= now < 2 ^ 61 -> 0 <= cval < 2 ^ 63 ->
  exists s' o', mod_timer cpu now t cval s = Some s' /\ timers_ok s' /\ tobjs s' !! t = Some o'
    /\ t_expires o' = Z.max cval (now + TIMER_PRECISION) /\ armed cpu o' /\ (forall u, u <> t -> tobjs s' !! u = tobjs s !! u)
    /\ length (timers s') = length (timers s)
    /\ (forall c r', timers s' !! c = Some r' -> exists r, timers s !! c = Some r /\ running_timer r' = running_timer r).
Proof.
  intros Hk Ho Hc Hl Hn Hcv. unfold mod_timer. rewrite Ho. cbn [mbind option_bind]. unfold TIMER_PRECISION. rewrite (u64_small (now + _)) by lia.
  replace (if cval <? now + 1000000 then now + 1000000 else cval) with (Z.max cval (now + 1000000)) by (destruct (Z.ltb_spec cval (now + 1000000)); lia).
  set (e := Z.max _ _). set (o1 := set_expires e o). assert (0 < e < 2 ^ 63) as Hev by lia.
  assert (timers_ok (set_obj t o1 s)) as Hk1.
  { apply (set_obj_ok s t o o1 Hk Ho eq_refl); [apply (tk_obj _ Hk _ _ Ho)|]. intros c. by apply armed_expires. }
  assert (tobjs (set_obj t o1 s) !! t = Some o1) as Ho1 by apply lookup_insert_eq.
  destruct (__mod_timer_total cpu t _ o1 Hk1 Ho1 Hc Hl) as [s' E].
  destruct (__mod_timer_spec cpu t _ o1 s' Hk1 Ho1 Hev E) as (G1 & G2 & G3 & G4 & G5 & G6). eexists s', _. split; [done|]. split; [done|].
  split; [exact G4|]. split; [done|]. split; [by split|]. split; [intros u Hu; rewrite G3 by done; cbn; by rewrite lookup_insert_ne|]. split; [done|].
  intros c r' Hr'. pose proof (lookup_lt_Some _ _ _ Hr') as Hlt. rewrite G2 in Hlt. destruct (lookup_lt_is_Some_2 _ _ Hlt) as [r Hr].
  destruct (G6 c r Hr) as (r'' & Hr'' & Hru & _). exists r. split; [exact Hr|]. congruence.
Qed.

(** ** Theorems *)

(** C31: the timer interrupt returns.  It calls the handler of every timer of
    the CPU that is due, unless a handler stopped that timer or armed it again
    before; it calls none twice and none of a timer that is not due; every
    timer left on the list expires later, and the lists stay well formed.  The
    handlers use the timers through mod_timer, setup_timer, start_timer and
    stop_timer, on timers that exist; they arm timers that are new or belong to
    this CPU and stop any but the ones whose handlers run ([handlers_ok]): to
    stop the running timer waits for ever. *)
Theorem timer_interrupt_fires_due cpu now cb s r :
  handlers_ok cpu now cb -> timers_ok s -> timers s !! cpu = Some r -> idle r ->
  exists fuel evs s' r', timer_interrupt_handler fuel cpu now cb s = Some s' /\ timers_ok s' /\ timers s' !! cpu = Some r' /\ idle r' /\ hist s' = evs ++ hist s
    /\ (forall t, t ∈ active r -> due (now + DEFAULT_TIMER_MARGIN) s t -> t ∈ fired evs \/ moved evs t)
    /\ (NoDup (fired evs) /\ forall t, t ∈ fired evs -> t ∈ active r /\ due (now + DEFAULT_TIMER_MARGIN) s t)
    /\ (forall t, t ∈ active r' -> ~ due (now + DEFAULT_TIMER_MARGIN) s' t).
Proof.
  intros Hh Hk Hr Hi. destruct (interrupt_spec cpu now cb s r Hh Hk Hr Hi) as (fuel & evs & s' & r' & H1 & H2 & H3 & H4 & H5 & H6 & H7 & H8 & _).
  by exists fuel, evs, s', r'.
Qed.

(** When the handlers leave the timers alone that are not due, the
    interrupt leaves the comparator set to the earliest of the timers on the
    list, and [next_timer] names that timer. *)
Theorem timer_interrupt_programs_earliest cpu now cb s r :
  handlers_ok cpu now cb -> handlers_quiet cpu cb -> timers_ok s -> timers s !! cpu = Some r -> idle r ->
  exists fuel s' r', timer_interrupt_handler fuel cpu now cb s = Some s' /\ timers s' !! cpu = Some r' /\
    match next_timer r' with
    | None => active r' = []
    | Some n => n ∈ active r' /\ exists o, tobjs s' !! n = Some o /\ hw r' = Some (t_expires o)
        /\ forall t ot, t ∈ active r' -> tobjs s' !! t = Some ot -> t_expires o <= t_expires ot
    end.
Proof.
  intros Hh Hq Hk Hr Hi. destruct (interrupt_spec cpu now cb s r Hh Hk Hr Hi) as (fuel & evs & s' & r' & H1 & _ & H3 & _ & _ & _ & _ & _ & H8).
  exists fuel, s', r'. split; [done|]. split; [done|]. destruct (H8 Hq) as [Hm Hw]. destruct (next_timer r') as [n|]; [|done].
  destruct Hm as (Hn & o & Ho & Hmin). split; [done|]. exists o. specialize (Hw n eq_refl). by rewrite Ho in Hw.
Qed.

(** The comparator is set to [next_timer], at most the margin after the
    expiry of every timer of the list. *)
Definition timely (s : tstate) (r : raw_timer) : Prop :=
  match next_timer r with
  | None => active r = []
  | Some n => exists o, tobjs s !! n = Some o /\ hw r = Some (t_expires o) /\ 0 < t_expires o < 2 ^ 63
      /\ forall t ot, t ∈ active r -> tobjs s !! t = Some ot -> t_expires o <= t_expires ot + DEFAULT_TIMER_MARGIN
  end.

(** Mod_timer of a timer that is not armed, on its CPU or for the first
    time, arms it for the time asked for, or for the precision of the timer
    from now on, whichever is later; a comparator that was set in time for
    every timer of the list is so afterwards, for the new timer too. *)
Theorem mod_timer_timely cpu now t cval s o r :
  timers_ok s -> timers s !! cpu = Some r -> timely s r -> tobjs s !! t = Some o -> t_entry o = false -> next_timer r <> Some t ->
  (t_cpu o = -1 \/ t_cpu o = Z.of_nat cpu) -> 0 <= now < 2 ^ 61 -> 0 <= cval < 2 ^ 63 ->
  exists s' r' o', mod_timer cpu now t cval s = Some s' /\ timers_ok s' /\ timers s' !! cpu = Some r' /\ active r' = active r ++ [t]
    /\ tobjs s' !! t = Some o' /\ t_expires o' = Z.max cval (now + TIMER_PRECISION) /\ armed cpu o' /\ timely s' r'.
Proof.
  intros Hk Hr Htm Ho He Hnt Hc Hn Hcv. unfold mod_timer. rewrite Ho. cbn [mbind option_bind]. unfold TIMER_PRECISION. rewrite (u64_small (now + _)) by lia.
  replace (if cval <? now + 1000000 then now + 1000000 else cval) with (Z.max cval (now + 1000000)) by (destruct (Z.ltb_spec cval (now + 1000000)); lia).
  set (e := Z.max _ _). set (o1 := set_expires e o). assert (0 < e < 2 ^ 63) as Hev by lia.
  assert (timers_ok (set_obj t o1 s)) as Hk1.
  { apply (set_obj_ok s t o o1 Hk Ho eq_refl); [apply (tk_obj _ Hk _ _ Ho)|]. intros c. by apply armed_expires. }
  assert (tobjs (set_obj t o1 s) !! t = Some o1) as Ho1 by apply lookup_insert_eq.
  destruct (__mod_timer_total cpu t _ o1 Hk1 Ho1 Hc ltac:(by eapply lookup_lt_Some)) as [s' E].
  destruct (__mod_timer_spec cpu t _ o1 s' Hk1 Ho1 Hev E) as (G1 & G2 & G3 & G4 & G5 & G6).
  destruct (G6 cpu r Hr) as (r' & Hr' & Hru & Ha & Ht). destruct (decide (cpu = cpu)) as [_|]; [|done].
  pose proof (not_linked _ _ _ Hk Ho He _ _ Hr) as Hnl. unfold linked_on in Hnl. rewrite elem_of_app in Hnl.
  rewrite filter_ne_id in Ha by tauto. eexists s', r', _. split; [done|]. split; [done|]. split; [done|]. split; [done|]. split; [exact G4|].
  split; [done|]. split; [by split|].
  unfold timely in *.
  assert (forall u ou, u ∈ active r' -> tobjs s' !! u = Some ou -> u = t /\ t_expires ou = e \/ u ∈ active r /\ tobjs s !! u = Some ou) as Hmem.
  { intros u ou Hu Eu. destruct (decide (u = t)) as [->|Hne]; [left; split; [done|]; rewrite G4 in Eu; by injection Eu as <-|right].
    rewrite Ha in Hu. split; [set_solver|]. rewrite G3 in Eu by done. cbn in Eu. by rewrite lookup_insert_ne in Eu. }
  pose proof (__mod_timer_next cpu t _ o1 s' r r' Hk1 Ho1 E Hr Hr') as Hnx. cbn [t_expires o1 set_expires] in Hnx.
  rewrite (proj2 (Z.eqb_neq e 0)) in Hnx by lia. unfold DEFAULT_TIMER_MARGIN, TIMER_PRECISION in *. change (1000000 / 2) with 500000 in *.
  rewrite u64_small in Hnx by lia. destruct (next_timer r) as [n|] eqn:En.
  - destruct Hnx as (on & Eon & Hnx). destruct Htm as (on' & Hon' & Hhw & Hrg & Hmin). assert (n <> t) as Hne by congruence.
    cbn in Eon. rewrite lookup_insert_ne, Hon' in Eon by done. cbn in Eon. injection Eon as <-.
    destruct (Z.ltb_spec (e + 500000) (t_expires on')) as [Hlt|Hge]; destruct Hnx as [-> ->].
    + eexists. split; [exact G4|]. split_and!; try done; [cbn; lia|cbn; lia|]. intros u ou Hu Eu.
      destruct (Hmem u ou Hu Eu) as [[_ ->]|[Hu2 Eu2]]; cbn; [lia|]. specialize (Hmin u ou Hu2 Eu2). lia.
    + exists on'. rewrite G3 by done. cbn. rewrite lookup_insert_ne by done. split_and!; try done; try lia. intros u ou Hu Eu.
      destruct (Hmem u ou Hu Eu) as [[_ ->]|[Hu2 Eu2]]; [lia|]. by apply (Hmin u ou).
  - destruct Hnx as [-> ->]. eexists. split; [exact G4|]. split_and!; try done; [cbn; lia|cbn; lia|]. intros u ou Hu Eu.
    destruct (Hmem u ou Hu Eu) as [[_ ->]|[Hu2 Eu2]]; cbn; [lia|]. rewrite Htm in Hu2. by apply elem_of_nil in Hu2.
Qed.

(** ** Initialisation and a concrete machine *)
Lemma init_raw_timers_ok ncpu objs :
  (forall t o, objs !! t = Some o -> t_entry o = false /\ obj_ok ncpu o) -> timers_ok (init_raw_timers ncpu objs).
Proof.
  intros H. assert (forall c r, timers (init_raw_timers ncpu objs) !! c = Some r -> r = mk_raw [] [] None None None) as Hr.
  { intros c r Hr. by apply lookup_replicate_1 in Hr as [-> _]. }
  split.
  - intros c r t E Hin. rewrite (Hr c r E) in Hin. by apply elem_of_nil in Hin.
  - intros c r E. rewrite (Hr c r E). constructor.
  - intros t o Ho He. destruct (H t o Ho). congruence.
  - intros t o Ho. cbn. rewrite length_replicate. by apply (H t o).
  - intros c r n E Hn. by rewrite (Hr c r E) in Hn.
Qed.

(** A handler that arms its own timer again. *)
Definition periodic (cpu : nat) (now : Z) : handlers := fun fn d s =>
  match timers s !! cpu with
  | Some r =>
      match running_timer r with
      | Some t =>
          match tobjs s !! t with
          | Some o => if negb (t_entry o) && (t_cpu o =? Z.of_nat cpu) then [(now, op_start t)] else []
          | None => []
          end
      | None => []
      end
  | None => []
  end.

Lemma periodic_ops cpu now fn d s nop :
  nop ∈ periodic cpu now fn d s -> exists t o, nop = (now, op_start t) /\ tobjs s !! t = Some o /\ t_entry o = false /\ t_cpu o = Z.of_nat cpu.
Proof.
  unfold periodic. destruct (timers s !! cpu) as [r|]; [|by intros ?%elem_of_nil]. destruct (running_timer r) as [t|]; [|by intros ?%elem_of_nil].
  destruct (tobjs s !! t) as [o|] eqn:Ho; [|by intros ?%elem_of_nil]. destruct (t_entry o) eqn:He; cbn [negb andb]; [by intros ?%elem_of_nil|].
  destruct (Z.eqb_spec (t_cpu o) (Z.of_nat cpu)); [|by intros ?%elem_of_nil]. intros ->%list_elem_of_singleton. by exists t, o.
Qed.

Lemma periodic_ok cpu now : 0 <= now < 2 ^ 61 -> handlers_ok cpu now (periodic cpu now) /\ handlers_quiet cpu (periodic cpu now).
Proof.
  intros Hn. split; [split; [done| |]|].
  - intros fn d s. apply list.Forall_forall. intros nop Hin. destruct (periodic_ops _ _ _ _ _ _ Hin) as (t & o & -> & _). split; [lia|done].
  - intros fn d s r t nop Hk Hr Hrun Hin. destruct (periodic_ops _ _ _ _ _ _ Hin) as (u & o & -> & Ho & He & Hc). exists o. split; [done|by right].
  - intros fn d s r nop Hk Hr Hin. destruct (periodic_ops _ _ _ _ _ _ Hin) as (t & o & -> & Ho & He & _). cbn.
    pose proof (not_linked _ _ _ Hk Ho He _ _ Hr) as Hl. unfold linked_on in Hl. set_solver.
Qed.

Definition demo_objs : gmap Z timer :=
  {[ 1 := mk_timer (-1) 0 0 0 10 0 false None; 2 := mk_timer (-1) 0 0 0 11 0 false None; 3 := mk_timer (-1) 0 0 0 12 0 false None ]}.

(** Timer 1 is armed for 5 ms and timer 2 for 9 ms; timer 3 is not armed. *)
Definition demo_ts : tstate := default (init_raw_timers 1 demo_objs) (run_ops 0 [(0, op_mod 1 5000000); (0, op_mod 2 9000000)] (init_raw_timers 1 demo_objs)).
Definition demo_raw : raw_timer := mk_raw [1; 2] [] (Some 1) None (Some 5000000).

Lemma demo_objs_ok : timers_ok (init_raw_timers 1 demo_objs).
Proof.
  apply init_raw_timers_ok. intros t o Ho. unfold demo_objs in Ho.
  repeat (apply lookup_insert_Some in Ho as [[_ <-]|[_ Ho]]; [split; [done|split; [cbn; lia|by left]]|]).
  apply lookup_singleton_Some in Ho as [_ <-]. split; [done|split; [cbn; lia|by left]].
Qed.

Lemma demo_ts_ok : timers_ok demo_ts.
Proof.
  destruct (run_ops_evolves 0 0 [(0, op_mod 1 5000000); (0, op_mod 2 9000000)] (init_raw_timers 1 demo_objs) demo_ts) as (evs & He & _).
  - apply demo_objs_ok.
  - lia.
  - repeat apply Forall_cons_2; [split; [lia|cbn; lia]..|apply Forall_nil_2].
  - vm_compute. reflexivity.
  - apply (ev_inv _ _ _ _ He).
Qed.

(** ** Deviations *)

(** stop_timer of the timer the comparator is set for leaves [next_timer] at
    it: a timer that is armed later, for an earlier time, is not programmed. *)
Theorem stop_timer_stale_next :
  exists s' r', run_ops 0 [(0, op_stop 1); (0, op_mod 3 2000000)] demo_ts = Some s' /\ timers s' !! 0%nat = Some r'
    /\ active r' = [2; 3] /\ t_expires <$> tobjs s' !! 3 = Some 2000000 /\ hw r' = Some 5000000.
Proof. eexists _, _. split; [vm_compute; reflexivity|]. split; [reflexivity|]. by vm_compute. Qed.

(** mod_timer of that timer to an earlier time leaves the comparator as it was. *)
Theorem mod_timer_earlier_not_programmed :
  exists s' r', run_ops 0 [(0, op_mod 1 2000000)] demo_ts = Some s' /\ timers s' !! 0%nat = Some r'
    /\ t_expires <$> tobjs s' !! 1 = Some 2000000 /\ hw r' = Some 5000000.
Proof. eexists _, _. split; [vm_compute; reflexivity|]. split; [reflexivity|]. by vm_compute. Qed.

(** A handler that stops the earliest timer that is not due leaves the
    comparator disabled, with timers on the list; a timer armed afterwards does
    not enable it. *)
Theorem handler_stop_disables_hw :
  exists s1 r1 s2 r2, run_ops 0 [(0, op_mod 3 7000000); (0, op_mod 1 5000000); (0, op_mod 2 9000000)] (init_raw_timers 1 demo_objs) = Some s1
    /\ timer_interrupt_handler 9 0 5000000 (fun fn _ _ => if fn =? 10 then [(5000000, op_stop 3)] else []) s1 = Some s2
    /\ timers s2 !! 0%nat = Some r1 /\ active r1 = [2] /\ hw r1 = None
    /\ exists s3, run_ops 0 [(6000000, op_mod 1 8000000)] s2 = Some s3 /\ timers s3 !! 0%nat = Some r2 /\ active r2 = [2; 1] /\ hw r2 = None.
Proof.
  eexists _, _, _, _. split; [vm_compute; reflexivity|]. split; [vm_compute; reflexivity|]. split; [reflexivity|]. split; [reflexivity|]. split; [reflexivity|].
  eexists. split; [vm_compute; reflexivity|]. split; [reflexivity|]. by vm_compute.
Qed.

(** stop_timer in the handler of the timer itself waits for ever. *)
Theorem stop_timer_in_own_handler s t o c r :
  tobjs s !! t = Some o -> t_cpu o <> -1 -> t_raw o = Some c -> timers s !! c = Some r -> running_timer r = Some t -> stop_timer t s = None.
Proof.
  intros Ho Hc Hraw Hr Hrun. unfold stop_timer. rewrite Ho. cbn [mbind option_bind]. rewrite (proj2 (Z.eqb_neq _ _) Hc), Hraw. cbn [mbind option_bind].
  rewrite Hr. cbn [mbind option_bind]. by rewrite bool_decide_true by done.
Qed.

(** ** Witnesses *)
(** Timer 1 fires at 5 ms and is armed again; timer 2 does not fire. *)
Lemma timer_interrupt_fires_due_witness :
  exists fuel evs s', timer_interrupt_handler fuel 0 5000000 (periodic 0 5000000) demo_ts = Some s' /\ timers_ok s' /\ hist s' = evs ++ hist demo_ts /\ ~ (2 ∈ fired evs) /\ (1 ∈ fired evs \/ moved evs 1).
Proof.
  destruct (timer_interrupt_fires_due 0 5000000 (periodic 0 5000000) demo_ts demo_raw (proj1 (periodic_ok 0 5000000 ltac:(lia))) demo_ts_ok ltac:(vm_compute; reflexivity) ltac:(split; reflexivity))
    as (fuel & evs & s' & r' & H1 & H2 & _ & _ & H3 & H4 & [_ H5] & _).
  exists fuel, evs, s'. split; [exact H1|]. split; [exact H2|]. split; [exact H3|]. split.
  - intros [_ Hd]%H5. unfold due in Hd. replace (tobjs demo_ts !! 2) with (Some (mk_timer 0 0 9000000 0 11 0 true (Some 0%nat))) in Hd by (vm_compute; reflexivity).
    cbn in Hd. unfold DEFAULT_TIMER_MARGIN, TIMER_PRECISION in Hd. change (1000000 / 2) with 500000 in Hd. lia.
  - apply H4; [left|]. unfold due. replace (tobjs demo_ts !! 1) with (Some (mk_timer 0 0 5000000 0 10 0 true (Some 0%nat))) by (vm_compute; reflexivity).
    cbn. unfold DEFAULT_TIMER_MARGIN, TIMER_PRECISION. change (1000000 / 2) with 500000. lia.
Defined.

Lemma timer_interrupt_programs_earliest_witness :
  exists fuel s' r', timer_interrupt_handler fuel 0 5000000 (periodic 0 5000000) demo_ts = Some s' /\ timers s' !! 0%nat = Some r'.
Proof.
  destruct (timer_interrupt_programs_earliest 0 5000000 (periodic 0 5000000) demo_ts demo_raw (proj1 (periodic_ok 0 5000000 ltac:(lia)))
    (proj2 (periodic_ok 0 5000000 ltac:(lia))) demo_ts_ok ltac:(vm_compute; reflexivity) ltac:(split; reflexivity)) as (fuel & s' & r' & H1 & H2 & _).
  exists fuel, s', r'. split; [exact H1|exact H2].
Defined.

Lemma demo_timely : timely demo_ts demo_raw.
Proof.
  exists (mk_timer 0 0 5000000 0 10 0 true (Some 0%nat)). split; [vm_compute; reflexivity|]. split; [done|]. split; [cbn; lia|].
  intros t ot [-> | ->%list_elem_of_singleton]%elem_of_cons E; vm_compute in E; injection E as <-; by vm_compute.
Qed.

Lemma mod_timer_timely_witness :
  exists s' r' o', mod_timer 0 1000 3 2000000 demo_ts = Some s' /\ timers s' !! 0%nat = Some r' /\ tobjs s' !! 3 = Some o' /\ timely s' r'.
Proof.
  destruct (mod_timer_timely 0 1000 3 2000000 demo_ts (mk_timer (-1) 0 0 0 12 0 false None) demo_raw demo_ts_ok ltac:(vm_compute; reflexivity) demo_timely
    ltac:(vm_compute; reflexivity) eq_refl ltac:(discriminate) ltac:(left; reflexivity) ltac:(lia) ltac:(lia)) as (s' & r' & o' & H1 & _ & H2 & _ & H3 & _ & _ & H4).
  exists s', r', o'. repeat split; assumption.
Defined.
