(* ===== verification/Shmem.v ===== *)
(** * Shared memory (virt/shmem.c)

    Shared memory is cut out of 2 MB blocks that are taken from the block
    allocator and mapped into the hypervisor once.  A block has a bitmap of its
    512 pages; the ranges that are handed out are the nodes of [shmem_head].
    The array [shmem_blocks] with its length [sbid] is a list.  The results of
    [malloc], [zalloc] and [create_host_mapping] are arguments: [env] holds
    them for the new block, [malloc_ok] for the node in each block.  [ptov] is
    the identity. *)
From S2P Require Import Prelude Bitmap MemBlock.

Definition PAGES_IN_BLOCK : Z := 512.
Definition MAX_SHMEM_ID : Z := 32.

Record shmem_block := mk_sb {
  sb_bfn : Z;
  sb_phy_base : Z;
  sb_id : Z;
  sb_free_pages : Z;
  sb_bitmap : list Z;
}.

Record shmem := mk_shmem {
  sh_pages : Z;
  sh_flags : Z;
  sh_id : Z;
  sh_pfn : Z;
}.

Record shm := mk_shm {
  shmem_head : list shmem;
  shmem_blocks : list shmem_block;
  shm_vmm : vmm;
}.

Definition sbid (s : shm) : Z := Z.of_nat (length (shmem_blocks s)).

Record env := mk_env {
  zalloc_ok : bool;
  block_ok : bool;
  host_mapping : Z;
}.

(** [NULL] is [None].  The mapping that fails gives the block back. *)
Definition alloc_shmem_block (e : env) (s : shm) : option (option shmem_block * shm) :=
  if negb (zalloc_ok e) then Some (None, s)
  else
    '(mb, v) ← vmm_alloc_memblock (block_ok e) (shm_vmm s);
    match mb with
    | None => Some (None, mk_shm (shmem_head s) (shmem_blocks s) v)
    | Some bfn =>
        if negb (host_mapping e =? 0) then
          '(_, v) ← vmm_free_memblock bfn v;
          Some (None, mk_shm (shmem_head s) (shmem_blocks s) v)
        else
          let sb := mk_sb bfn (BFN2PHY bfn) (u16 (sbid s)) PAGES_IN_BLOCK (replicate 8 0) in
          Some (Some sb, mk_shm (shmem_head s) (shmem_blocks s ++ [sb]) v)
    end.

(** The block with the id [k]; the address 0 is [NULL]. *)
Definition __alloc_shmem (malloc_ok : Z -> bool) (k : nat) (sb : shmem_block) (pages flags : Z) (s : shm) : option (Z * shm) :=
  r ← bitmap_find_next_zero_area_align (sb_bitmap sb) PAGES_IN_BLOCK 0 (u32 pages) 1;
  let bits := s32 r in
  if PAGES_IN_BLOCK <=? bits then Some (0, s)
  else if negb (malloc_ok (Z.of_nat k)) then Some (0, s)
  else
    let addr := u64 (sb_phy_base sb + Z.shiftl bits PAGE_SHIFT) in
    let sh := mk_shmem pages flags (sb_id sb) (u32 (Z.shiftr addr PAGE_SHIFT)) in
    map ← bitmap_set (sb_bitmap sb) bits pages;
    Some (addr, mk_shm (sh :: shmem_head s)
                  (<[k := mk_sb (sb_bfn sb) (sb_phy_base sb) (sb_id sb) (sb_free_pages sb) map]> (shmem_blocks s)) (shm_vmm s)).

(** The loop over the blocks from the [k]-th on, [n] of them. *)
Fixpoint alloc_loop (malloc_ok : Z -> bool) (pages : Z) (n k : nat) (s : shm) : option (Z * shm) :=
  match n with
  | O => Some (0, s)
  | S n =>
      sb ← shmem_blocks s !! k;
      '(addr, s) ← (if pages <=? sb_free_pages sb then __alloc_shmem malloc_ok k sb pages 0 s else Some (0, s));
      if negb (addr =? 0) then Some (addr, s) else alloc_loop malloc_ok pages n (S k) s
  end.

Definition alloc_shmem (malloc_ok : Z -> bool) (e : env) (pages : Z) (s : shm) : option (Z * shm) :=
  if PAGES_IN_BLOCK <? pages then Some (0, s)
  else
    '(addr, s) ← alloc_loop malloc_ok pages (length (shmem_blocks s)) 0 s;
    if negb (addr =? 0) then Some (addr, s)
    else if MAX_SHMEM_ID <=? sbid s then Some (0, s)
    else
      let k := length (shmem_blocks s) in
      '(sb, s) ← alloc_shmem_block e s;
      match sb with
      | None => Some (0, s)
      | Some sb => __alloc_shmem malloc_ok k sb pages 0 s
      end.

Definition free_shmem_in_block (sh : shmem) (s : shm) : option shm :=
  _ ← assert_ (sh_id sh <? MAX_SHMEM_ID);
  sb ← shmem_blocks s !! Z.to_nat (sh_id sh);
  let pfn := u32 (Z.shiftr (u64 (Z.shiftl (sh_pfn sh) PAGE_SHIFT - sb_phy_base sb)) PAGE_SHIFT) in
  map ← bitmap_clear (sb_bitmap sb) pfn (sh_pages sh);
  Some (mk_shm (shmem_head s)
          (<[Z.to_nat (sh_id sh) := mk_sb (sb_bfn sb) (sb_phy_base sb) (sb_id sb) (u16 (sb_free_pages sb + sh_pages sh)) map]> (shmem_blocks s)) (shm_vmm s)).

(** The first node with this frame, and the list without it. *)
Fixpoint take_shmem (pfn : Z) (l : list shmem) : option (shmem * list shmem) :=
  match l with
  | [] => None
  | sh :: l =>
      if sh_pfn sh =? pfn then Some (sh, l)
      else '(r, l') ← take_shmem pfn l; Some (r, sh :: l')
  end.

Definition free_shmem (addr : Z) (s : shm) : option shm :=
  _ ← assert_ (IS_PAGE_ALIGN addr);
  match take_shmem (Z.shiftr addr PAGE_SHIFT) (shmem_head s) with
  | None => Some s
  | Some (sh, l) => s ← free_shmem_in_block sh s; Some (mk_shm l (shmem_blocks s) (shm_vmm s))
  end.

(** ** The invariant *)

(** The page of its block at which a range starts. *)
Definition first_page (sb : shmem_block) (sh : shmem) : Z := sh_pfn sh - sb_phy_base sb / PAGE_SIZE.

(** 1 when the page [i] of the block [k] belongs to the range. *)
Definition covers (sb : shmem_block) (i : Z) (sh : shmem) : Z :=
  if sh_id sh =? sb_id sb then rng (first_page sb sh) (first_page sb sh + sh_pages sh) i else 0.

Record sb_wf (k : nat) (sb : shmem_block) : Prop := mk_sb_wf {
  sw_id : sb_id sb = Z.of_nat k;
  sw_words : Forall is_word (sb_bitmap sb);
  sw_len : length (sb_bitmap sb) = 8%nat;
  sw_bfn : 0 < sb_bfn sb < 2 ^ 23;
  sw_phy : sb_phy_base sb = sb_bfn sb * MEM_BLOCK_SIZE;
}.

Record sh_wf (sb : shmem_block) (sh : shmem) : Prop := mk_sh_wf {
  hw_pages : 0 < sh_pages sh;
  hw_first : 0 <= first_page sb sh;
  hw_last : first_page sb sh + sh_pages sh <= PAGES_IN_BLOCK;
}.

(** A bit is set exactly when one range holds the page; the blocks are
    different blocks in use. *)
Record shm_ok (s : shm) : Prop := mk_shm_ok {
  so_len : sbid s <= MAX_SHMEM_ID;
  so_sb : forall k sb, shmem_blocks s !! k = Some sb -> sb_wf k sb;
  so_sh : forall sh, sh ∈ shmem_head s -> exists sb, shmem_blocks s !! Z.to_nat (sh_id sh) = Some sb /\ 0 <= sh_id sh /\ sh_wf sb sh;
  so_bits : forall k sb i, shmem_blocks s !! k = Some sb -> 0 <= i < PAGES_IN_BLOCK ->
    b2z (bit_at (sb_bitmap sb) i) = zsum (covers sb i) (shmem_head s);
  so_distinct : forall k j sb sb', shmem_blocks s !! k = Some sb -> shmem_blocks s !! j = Some sb' -> sb_bfn sb = sb_bfn sb' -> k = j;
  so_vmm : vmm_wf (shm_vmm s);
  so_used : forall k sb, shmem_blocks s !! k = Some sb -> used (shm_vmm s) (sb_bfn sb) = true;
  so_managed : forall b, managed (shm_vmm s) b = true -> 0 < b < 2 ^ 23;
}.

Definition sh_addr (sh : shmem) : Z := sh_pfn sh * PAGE_SIZE.
Definition sh_apart (a b : shmem) : Prop :=
  sh_addr a + sh_pages a * PAGE_SIZE <= sh_addr b \/ sh_addr b + sh_pages b * PAGE_SIZE <= sh_addr a.

Lemma covers_nonneg sb i sh : 0 <= covers sb i sh.
Proof. unfold covers. destruct (_ =? _); [|lia]. destruct (rng_cases (first_page sb sh) (first_page sb sh + sh_pages sh) i); lia. Qed.

Lemma covers_sum_nonneg sb i l : 0 <= zsum (covers sb i) l.
Proof. apply zsum_nonneg. intros. apply covers_nonneg. Qed.

(** Two nodes with a page in common are one node. *)
Lemma covers_unique s k sb i a o l1 l2 :
  shm_ok s -> shmem_blocks s !! k = Some sb -> 0 <= i < PAGES_IN_BLOCK -> shmem_head s ≡ₚ l1 ++ a :: l2 -> o ∈ l1 ++ l2 ->
  covers sb i a = 1 -> covers sb i o = 0.
Proof.
  intros Ho Hk Hi Hp Hin Ha. pose proof (so_bits _ Ho k sb i Hk Hi) as Hb. rewrite (zsum_perm _ _ _ Hp) in Hb. autorewrite with zsum in Hb.
  assert (covers sb i o <= zsum (covers sb i) (l1 ++ l2)) as Hle.
  { apply list_elem_of_split in Hin as (m1 & m2 & ->). autorewrite with zsum. pose proof (covers_sum_nonneg sb i m1). pose proof (covers_sum_nonneg sb i m2). lia. }
  autorewrite with zsum in Hle. pose proof (covers_nonneg sb i o). destruct (bit_at _ i); cbn in Hb; lia.
Qed.

Lemma first_page_addr k sb sh : sb_wf k sb -> sh_addr sh = sb_phy_base sb + first_page sb sh * PAGE_SIZE.
Proof. intros [_ _ _ _ Hp]. unfold sh_addr, first_page. rewrite Hp. unfold MEM_BLOCK_SIZE, PAGE_SIZE. dlia. Qed.

Lemma nodes_apart s a o l1 l2 :
  shm_ok s -> shmem_head s ≡ₚ l1 ++ a :: l2 -> o ∈ l1 ++ l2 -> sh_apart a o.
Proof.
  intros Ho Hp Hin. assert (a ∈ shmem_head s) as Ha by (rewrite Hp; set_solver). assert (o ∈ shmem_head s) as Hoo by (rewrite Hp; set_solver).
  destruct (so_sh _ Ho a Ha) as (sa & Hsa & Hida & [A1 A2 A3]), (so_sh _ Ho o Hoo) as (so & Hso & Hido & [B1 B2 B3]).
  pose proof (so_sb _ Ho _ _ Hsa) as Wa. pose proof (so_sb _ Ho _ _ Hso) as Wo.
  unfold sh_apart. rewrite (first_page_addr _ _ a Wa), (first_page_addr _ _ o Wo).
  pose proof (sw_phy _ _ Wa) as Pa. pose proof (sw_phy _ _ Wo) as Po. pose proof (sw_id _ _ Wa) as Ia.
  unfold PAGES_IN_BLOCK, MEM_BLOCK_SIZE, PAGE_SIZE in *. destruct (decide (sh_id a = sh_id o)) as [Eid|Nid].
  - rewrite Eid, Hso in Hsa. injection Hsa as <-. assert (sh_id a = sb_id so) as E1 by lia. assert (sh_id o = sb_id so) as E2 by lia.
    assert (forall i, 0 <= i < 512 -> covers so i a = 1 -> covers so i o = 0) as Hu by (intros i Hi; by apply (covers_unique s _ so i a o l1 l2 Ho Hso)).
    unfold covers in Hu. rewrite E1, E2, Z.eqb_refl in Hu.
    destruct (decide (first_page so o < first_page so a)).
    + specialize (Hu (first_page so a) ltac:(lia)). destruct (rng_cases (first_page so a) (first_page so a + sh_pages a) (first_page so a)), (rng_cases (first_page so o) (first_page so o + sh_pages o) (first_page so a)); lia.
    + specialize (Hu (first_page so o) ltac:(lia)). destruct (rng_cases (first_page so a) (first_page so a + sh_pages a) (first_page so o)), (rng_cases (first_page so o) (first_page so o + sh_pages o) (first_page so o)); lia.
  - assert (sb_bfn sa <> sb_bfn so) as Hb by (intros E; pose proof (so_distinct _ Ho _ _ _ _ Hsa Hso E); lia). nia.
Qed.

Lemma area_align_loop_bound fuel map size start nr r :
  bitmap_wf size map -> 0 <= start <= size -> 0 < nr < 2 ^ 32 -> zero_area_align_loop fuel map size start nr 1 = Some r -> r <= size + nr.
Proof.
  intros Hwf Hst Hnr. pose proof Hwf as (_ & Hnb & Hsz). revert start Hst. induction fuel as [|fuel IH]; intros start Hst; [done|]. cbn [zero_area_align_loop].
  destruct (find_next_zero_bit_spec map size start Hwf Hst) as (i0 & -> & Hr0 & _). cbn [mbind option_bind]. rewrite (u64_small (i0 + nr)) by lia.
  destruct (Z.ltb_spec size (i0 + nr)); [intros [= <-]; lia|]. change (u64 (1 - 1)) with 0. rewrite Z.land_0_r. cbn [Z.eqb negb].
  destruct (find_next_bit map (i0 + nr) i0) as [i|] eqn:Ei; [|done]. cbn [mbind option_bind]. destruct (Z.ltb_spec i (i0 + nr)); [|intros [= <-]; lia].
  destruct (find_next_bit_spec map (i0 + nr) i0) as (i' & Ei' & Hi' & _); [|lia|]. { destruct Hwf as (? & ? & ?). split_and!; try done; lia. }
  rewrite Ei in Ei'. injection Ei' as <-. rewrite u64_small by lia. apply IH. lia.
Qed.

(** The search in one block. *)
Lemma find_pages_spec k sb pages :
  sb_wf k sb -> 0 < pages <= PAGES_IN_BLOCK ->
  exists r, bitmap_find_next_zero_area_align (sb_bitmap sb) PAGES_IN_BLOCK 0 (u32 pages) 1 = Some r /\ s32 r = r
    /\ (PAGES_IN_BLOCK < r /\ (forall i, 0 <= i -> i + pages <= PAGES_IN_BLOCK -> ~ free_area (sb_bitmap sb) pages i)
        \/ 0 <= r /\ r + pages <= PAGES_IN_BLOCK /\ free_area (sb_bitmap sb) pages r).
Proof.
  intros [W1 W2 W3 W4 W5] Hp. unfold PAGES_IN_BLOCK in *. rewrite u32_small by lia.
  assert (bitmap_wf 512 (sb_bitmap sb)) as Hwf by (split_and!; [done|lia|lia|lia]).
  destruct (bitmap_find_next_zero_area_align_spec (sb_bitmap sb) 512 0 pages 0 Hwf ltac:(lia) ltac:(lia) ltac:(lia)) as (r & E & Hr).
  change (2 ^ 0) with 1 in *. exists r. split; [exact E|]. assert (r <= 512 + pages) as Hle by (eapply area_align_loop_bound; [exact Hwf| | |exact E]; lia).
  split; [|].
  - unfold s32. rewrite Z.mod_small; [lia|]. destruct Hr as [(H1 & H2 & _)|(H1 & _)]; lia.
  - destruct Hr as [(H1 & H2 & _ & H4 & _)|(H1 & H2)]; [right; by split_and!|left; split; [done|]]. intros i Hi1 Hi2. apply H2; [lia|lia|apply Z.mod_1_r].
Qed.

(** Changing the bitmap of one block together with the nodes of the block. *)
Lemma update_block_ok s k sb sb' heads :
  shm_ok s -> shmem_blocks s !! k = Some sb -> sb_bfn sb' = sb_bfn sb -> sb_phy_base sb' = sb_phy_base sb -> sb_id sb' = sb_id sb ->
  Forall is_word (sb_bitmap sb') -> length (sb_bitmap sb') = 8%nat ->
  (forall sh, sh ∈ heads -> sh ∈ shmem_head s \/ sh_id sh = Z.of_nat k /\ sh_wf sb sh) ->
  (forall i, 0 <= i < PAGES_IN_BLOCK -> b2z (bit_at (sb_bitmap sb') i) = zsum (covers sb i) heads) ->
  (forall j sj i, shmem_blocks s !! j = Some sj -> j <> k -> zsum (covers sj i) heads = zsum (covers sj i) (shmem_head s)) ->
  shm_ok (mk_shm heads (<[k := sb']> (shmem_blocks s)) (shm_vmm s)).
Proof.
  intros Ho Hk Eb Ep Ei Hw Hl Hsh Hbits Hoth. pose proof (lookup_lt_Some _ _ _ Hk) as Hlt. pose proof (so_sb _ Ho _ _ Hk) as Wk.
  assert (forall j x, <[k := sb']> (shmem_blocks s) !! j = Some x -> exists y, shmem_blocks s !! j = Some y /\ sb_bfn x = sb_bfn y /\ sb_phy_base x = sb_phy_base y /\ sb_id x = sb_id y) as Hx.
  { intros j x Hj. apply list_lookup_insert_Some in Hj as [(-> & <- & _)|[Hne Hj]]; [by exists sb|by exists x]. }
  assert (forall i sh, covers sb' i sh = covers sb i sh) as Hcov by (intros i sh; unfold covers, first_page; by rewrite Ep, Ei).
  split; cbn [shmem_head shmem_blocks shm_vmm].
  - unfold sbid. cbn. rewrite length_insert. apply (so_len _ Ho).
  - intros j x Hj. apply list_lookup_insert_Some in Hj as [(-> & <- & _)|[Hne Hj]]; [|by apply (so_sb _ Ho)].
    destruct Wk as [W1 _ _ W4 W5]. split; try done; congruence.
  - intros sh Hin. destruct (Hsh sh Hin) as [Hold|[Hid Hwf]].
    + destruct (so_sh _ Ho sh Hold) as (sj & Hj & H0 & Wj). destruct (decide (Z.to_nat (sh_id sh) = k)) as [E|E].
      * exists sb'. rewrite E in *. rewrite list_lookup_insert_eq by done. rewrite Hk in Hj. injection Hj as <-. split; [done|]. split; [done|].
        destruct Wj as [X1 X2 X3]. by split; unfold first_page in *; rewrite ?Ep.
      * exists sj. by rewrite list_lookup_insert_ne.
    + exists sb'. rewrite Hid, Nat2Z.id, list_lookup_insert_eq by done. split; [done|]. split; [lia|]. destruct Hwf as [X1 X2 X3].
      by split; unfold first_page in *; rewrite ?Ep.
  - intros j x i Hj Hi. apply list_lookup_insert_Some in Hj as [(-> & <- & _)|[Hne Hj]].
    + rewrite Hbits by done. symmetry. apply zsum_ext. intros sh _. apply Hcov.
    + rewrite (so_bits _ Ho j x i Hj Hi). symmetry. by apply (Hoth j).
  - intros j j' x x' Hj Hj' E. destruct (Hx _ _ Hj) as (y & Hy & Ey & _), (Hx _ _ Hj') as (y' & Hy' & Ey' & _). apply (so_distinct _ Ho _ _ _ _ Hy Hy'). congruence.
  - apply (so_vmm _ Ho).
  - intros j x Hj. destruct (Hx _ _ Hj) as (y & Hy & Ey & _). rewrite Ey. by apply (so_used _ Ho j).
  - apply (so_managed _ Ho).
Qed.

Lemma covers_other s j sj k i sh : shm_ok s -> shmem_blocks s !! j = Some sj -> j <> k -> sh_id sh = Z.of_nat k -> covers sj i sh = 0.
Proof. intros Ho Hj Hne Hid. unfold covers. rewrite Hid, (sw_id _ _ (so_sb _ Ho _ _ Hj)), (proj2 (Z.eqb_neq _ _)); [done|lia]. Qed.

(** What a successful allocation of [pages] pages did. *)
Definition allocated (s s' : shm) (pages addr : Z) : Prop :=
  exists sh, shmem_head s' = sh :: shmem_head s /\ sh_addr sh = addr /\ sh_pages sh = pages /\ 0 < addr.

Definition no_room (malloc_ok : Z -> bool) (k : nat) (sb : shmem_block) (pages : Z) : Prop :=
  malloc_ok (Z.of_nat k) = false \/ forall i, 0 <= i -> i + pages <= PAGES_IN_BLOCK -> ~ free_area (sb_bitmap sb) pages i.

Lemma __alloc_shmem_spec malloc_ok k sb pages s :
  shm_ok s -> shmem_blocks s !! k = Some sb -> 0 < pages <= PAGES_IN_BLOCK ->
  exists addr s', __alloc_shmem malloc_ok k sb pages 0 s = Some (addr, s') /\ shm_ok s' /\ sbid s' = sbid s
    /\ (addr = 0 /\ s' = s /\ no_room malloc_ok k sb pages \/ allocated s s' pages addr).
Proof.
  intros Ho Hk Hp. pose proof (so_sb _ Ho _ _ Hk) as W. destruct (find_pages_spec k sb pages W Hp) as (r & E & Es & Hr). unfold __alloc_shmem. rewrite E. cbn [mbind option_bind].
  rewrite Es. destruct Hr as [(Hr1 & Hr2)|(Hr1 & Hr2 & Hr3)].
  - rewrite (proj2 (Z.leb_le _ _)) by lia. exists 0, s. split_and!; try done. left. split_and!; try done. by right.
  - rewrite (proj2 (Z.leb_gt _ _)) by lia. destruct (malloc_ok (Z.of_nat k)) eqn:Em; cbn [negb].
    2: { exists 0, s. split_and!; try done. left. split_and!; try done. by left. }
    destruct W as [W1 W2 W3 W4 W5]. unfold PAGES_IN_BLOCK in *.
    destruct (bitmap_set_spec (sb_bitmap sb) r pages W2) as (map & -> & Hw & Hlen & Hbits); [lia..|]. cbn [mbind option_bind].
    assert (u64 (sb_phy_base sb + Z.shiftl r PAGE_SHIFT) = (sb_phy_base sb / PAGE_SIZE + r) * PAGE_SIZE) as ->.
    { unfold PAGE_SHIFT, PAGE_SIZE. rewrite Z.shiftl_mul_pow2 by lia. change (2 ^ 12) with 4096. rewrite W5. unfold MEM_BLOCK_SIZE. rewrite u64_small by lia. dlia. }
    assert (u32 (Z.shiftr ((sb_phy_base sb / PAGE_SIZE + r) * PAGE_SIZE) PAGE_SHIFT) = sb_phy_base sb / PAGE_SIZE + r) as ->.
    { unfold PAGE_SHIFT, PAGE_SIZE. rewrite Z.shiftr_div_pow2 by lia. change (2 ^ 12) with 4096. rewrite Z.div_mul by lia. apply u32_small. rewrite W5. unfold MEM_BLOCK_SIZE. dlia. }
    set (sh := mk_shmem pages 0 (sb_id sb) _). assert (first_page sb sh = r) as Hf by (unfold first_page; cbn; lia).
    eexists _, _. split; [done|]. split; [|split; [unfold sbid; cbn; by rewrite length_insert|right; exists sh; split_and!; try done; cbn; rewrite W5; unfold MEM_BLOCK_SIZE, PAGE_SIZE; dlia]].
    apply (update_block_ok s k sb); try done.
    + cbn. congruence.
    + intros x [->|Hx]%elem_of_cons; [right; split; [done|]|by left]. split; rewrite ?Hf; cbn; unfold PAGES_IN_BLOCK; lia.
    + intros i Hi. cbn [sb_bitmap]. rewrite Hbits by lia. rewrite zsum_cons, <- (so_bits _ Ho k sb i Hk Hi). unfold covers. cbn [sh_id]. rewrite Z.eqb_refl, Hf. cbn [sh_pages].
      change (sh_pages sh) with pages. unfold rng. destruct ((r <=? i) && (i <? r + pages)) eqn:Ein; cbn [orb b2z]; [|lia]. by rewrite (Hr3 i) by lia.
    + intros j sj i Hj Hne. rewrite zsum_cons, (covers_other s j sj k) by done. lia.
Qed.

(** A new block: the nodes do not touch it. *)
Lemma new_block_ok s bfn v :
  shm_ok s -> sbid s < MAX_SHMEM_ID -> vmm_wf v -> used (shm_vmm s) bfn = false -> used v bfn = true -> 0 < bfn < 2 ^ 23 ->
  (forall b, used (shm_vmm s) b = true -> used v b = true) -> (forall b, managed v b = managed (shm_vmm s) b) ->
  shm_ok (mk_shm (shmem_head s) (shmem_blocks s ++ [mk_sb bfn (BFN2PHY bfn) (u16 (sbid s)) PAGES_IN_BLOCK (replicate 8 0)]) v).
Proof.
  intros Ho Hlt Hv Hnew Hu Hb Hmono Hman. set (n := length (shmem_blocks s)). unfold sbid, MAX_SHMEM_ID in *. fold n in Hlt |- *.
  assert (u16 (Z.of_nat n) = Z.of_nat n) as En by (apply Z.mod_small; lia).
  assert (BFN2PHY bfn = bfn * MEM_BLOCK_SIZE) as Eb.
  { unfold BFN2PHY, MEM_BLOCK_SHIFT, MEM_BLOCK_SIZE. rewrite Z.shiftl_mul_pow2 by lia. change (2 ^ 21) with 0x200000. apply u64_small. lia. }
  set (sb := mk_sb _ _ _ _ _).
  assert (forall k x, (shmem_blocks s ++ [sb]) !! k = Some x -> shmem_blocks s !! k = Some x \/ k = n /\ x = sb) as Hc.
  { intros k x Hx. apply lookup_app_Some in Hx as [Hx|[Hge Hx]]; [by left|right]. fold n in Hge, Hx. destruct (k - n)%nat eqn:E; [|done]. cbn in Hx. injection Hx as <-. split; [lia|done]. }
  split; cbn [shmem_head shmem_blocks shm_vmm].
  - unfold sbid. cbn. rewrite length_app. cbn. fold n. unfold MAX_SHMEM_ID. lia.
  - intros k x Hx. destruct (Hc k x Hx) as [Hx'|[-> ->]]; [by apply (so_sb _ Ho)|]. split; cbn; try done.
    by repeat constructor.
  - intros sh Hin. destruct (so_sh _ Ho sh Hin) as (sj & Hj & H0 & Wj). exists sj. split; [|done]. apply lookup_app_Some. by left.
  - intros k x i Hx Hi. destruct (Hc k x Hx) as [Hx'|[-> ->]]; [by apply (so_bits _ Ho k)|].
    rewrite zsum_zero.
    + cbn [sb_bitmap sb]. unfold bit_at. destruct (replicate 8 0 !! Z.to_nat (i / 64)) as [w|] eqn:Ew; [|done].
      apply lookup_replicate_1 in Ew as [-> _]. by rewrite Z.bits_0.
    + intros sh Hin. destruct (so_sh _ Ho sh Hin) as (sj & Hj & H0 & Wj). unfold covers. cbn. apply lookup_lt_Some in Hj. fold n in Hj.
      rewrite En, (proj2 (Z.eqb_neq _ _)); [done|lia].
  - intros k j x y Hx Hy E. destruct (Hc k x Hx) as [Hx'|[-> ->]], (Hc j y Hy) as [Hy'|[-> ->]]; [by apply (so_distinct _ Ho k j x y)| | |done].
    + pose proof (so_used _ Ho k x Hx') as Hux. cbn in E. congruence.
    + pose proof (so_used _ Ho j y Hy') as Huy. cbn in E. congruence.
  - done.
  - intros k x Hx. destruct (Hc k x Hx) as [Hx'|[-> ->]]; [|done]. apply Hmono. by apply (so_used _ Ho k).
  - intros b. rewrite Hman. apply (so_managed _ Ho).
Qed.

Lemma alloc_loop_spec malloc_ok pages n k s :
  shm_ok s -> 0 < pages <= PAGES_IN_BLOCK -> (k + n = length (shmem_blocks s))%nat ->
  exists addr s', alloc_loop malloc_ok pages n k s = Some (addr, s') /\ shm_ok s' /\ sbid s' = sbid s
    /\ (addr = 0 /\ s' = s /\ (forall j sb, (k <= j)%nat -> shmem_blocks s !! j = Some sb -> sb_free_pages sb < pages \/ no_room malloc_ok j sb pages)
        \/ allocated s s' pages addr).
Proof.
  intros Ho Hp. revert k. induction n as [|n IH]; intros k Hlen; cbn [alloc_loop].
  - exists 0, s. split_and!; try done. left. split_and!; try done. intros j sb Hj Hsb. apply lookup_lt_Some in Hsb. lia.
  - destruct (lookup_lt_is_Some_2 (shmem_blocks s) k ltac:(lia)) as [sb Hsb]. rewrite Hsb. cbn [mbind option_bind].
    assert (forall j sb', (k <= j)%nat -> shmem_blocks s !! j = Some sb' -> j = k /\ sb' = sb \/ (S k <= j)%nat) as Hj.
    { intros j sb' Hj Hsb'. destruct (decide (j = k)) as [->|]; [left; split; [done|]; congruence|right; lia]. }
    destruct (IH (S k) ltac:(lia)) as (addr & s' & E & Ho' & Hid & Hc).
    destruct (Z.leb_spec pages (sb_free_pages sb)) as [Hle|Hgt].
    + destruct (__alloc_shmem_spec malloc_ok k sb pages s Ho Hsb Hp) as (a & s1 & -> & Ho1 & Hid1 & Hc1). cbn [mbind option_bind].
      destruct Hc1 as [(-> & -> & Hno)|Ha].
      * cbn [Z.eqb negb]. rewrite E. exists addr, s'. split_and!; try done. destruct Hc as [(-> & -> & Hn)|Hc]; [left|by right].
        split_and!; try done. intros j sb' Hkj Hsb'. destruct (Hj j sb' Hkj Hsb') as [[-> ->]|]; [by right|by apply Hn].
      * pose proof Ha as (sh & _ & _ & _ & Hpos). rewrite (proj2 (Z.eqb_neq a 0)) by lia. cbn [negb]. exists a, s1. split_and!; try done. by right.
    + cbn [mbind option_bind Z.eqb negb]. rewrite E. exists addr, s'. split_and!; try done. destruct Hc as [(-> & -> & Hn)|Hc]; [left|by right].
      split_and!; try done. intros j sb' Hkj Hsb'. destruct (Hj j sb' Hkj Hsb') as [[-> ->]|]; [by left|by apply Hn].
Qed.

(** ** Theorems *)

(** Alloc_shmem, when memory for the new structures is available, hands
    out a page range inside one shared block that has no page in common with a
    range handed out before, which all stay; it returns NULL only when the
    blocks it may use have no room (or no node) and no further block can be
    had; the bitmaps keep describing the ranges exactly. *)
Theorem alloc_shmem_correct malloc_ok pages s :
  shm_ok s -> 0 < pages <= PAGES_IN_BLOCK ->
  exists addr s', alloc_shmem malloc_ok (mk_env true true 0) pages s = Some (addr, s') /\ shm_ok s' /\
    (addr = 0 /\ shmem_head s' = shmem_head s /\ (sbid s = MAX_SHMEM_ID \/ free_blocks (shm_vmm s) = 0 \/ malloc_ok (sbid s) = false)
     \/ exists sh, shmem_head s' = sh :: shmem_head s /\ sh_addr sh = addr /\ addr mod PAGE_SIZE = 0 /\ sh_pages sh = pages
          /\ forall o, o ∈ shmem_head s -> sh_apart sh o).
Proof.
  intros Ho Hp. unfold alloc_shmem. rewrite (proj2 (Z.ltb_ge _ _)) by lia.
  assert (forall s2 addr, shm_ok s2 -> allocated s s2 pages addr -> exists sh, shmem_head s2 = sh :: shmem_head s /\ sh_addr sh = addr /\ addr mod PAGE_SIZE = 0 /\ sh_pages sh = pages
            /\ forall o, o ∈ shmem_head s -> sh_apart sh o) as Hfin.
  { intros s2 addr Ho2 (sh & Hh & Ha & Hpg & _). exists sh. split_and!; try done.
    - rewrite <- Ha. unfold sh_addr. apply Z.mod_mul. done.
    - intros o Hin. apply (nodes_apart s2 sh o [] (shmem_head s)); [done|by rewrite Hh|done]. }
  destruct (alloc_loop_spec malloc_ok pages (length (shmem_blocks s)) 0 s Ho Hp eq_refl) as (a & s1 & -> & Ho1 & Hid & Hc). cbn [mbind option_bind].
  destruct Hc as [(-> & -> & Hn)|Ha].
  2: { pose proof Ha as (sh & _ & _ & _ & Hpos). rewrite (proj2 (Z.eqb_neq a 0)) by lia. cbn [negb]. exists a, s1. split_and!; try done. right. by apply Hfin. }
  cbn [Z.eqb negb]. destruct (Z.leb_spec MAX_SHMEM_ID (sbid s)) as [Hge|Hlt].
  { exists 0, s. split_and!; try done. left. split_and!; try done. left. pose proof (so_len _ Ho). lia. }
  unfold alloc_shmem_block. cbn [zalloc_ok block_ok host_mapping negb Z.eqb]. destruct (vmm_alloc_spec (shm_vmm s) (so_vmm _ Ho)) as [Hfull Hgot].
  destruct (decide (free_blocks (shm_vmm s) = 0)) as [Hz|Hz].
  { rewrite (Hfull Hz true). cbn [mbind option_bind]. eexists _, _. split; [done|]. destruct s. split; [done|]. left. split_and!; try done. by right; left. }
  destruct (Hgot Hz) as (bfn & v & -> & Hv & Hm & Hnew & _ & Hman & Hused). cbn [mbind option_bind].
  set (sb := mk_sb _ _ _ _ _). set (s2 := mk_shm _ _ v).
  assert (shm_ok s2) as Ho2.
  { apply new_block_ok; try done; [by rewrite Hused, Z.eqb_refl|by apply (so_managed _ Ho)|]. intros b Hb. by rewrite Hused, Hb, orb_true_r. }
  assert (shmem_blocks s2 !! length (shmem_blocks s) = Some sb) as Hsb by (by apply list_lookup_middle).
  destruct (__alloc_shmem_spec malloc_ok _ sb pages s2 Ho2 Hsb Hp) as (a & s3 & -> & Ho3 & _ & Hc). exists a, s3. split; [done|]. split; [done|].
  destruct Hc as [(-> & -> & [Hno|Hno])|Ha]; [left; split_and!; try done; by right; right| |right; by apply Hfin].
  exfalso. apply (Hno 0); [lia|unfold PAGES_IN_BLOCK in *; lia|]. intros j Hj. cbn [sb_bitmap sb]. unfold bit_at.
  destruct (replicate 8 0 !! Z.to_nat (j / 64)) as [w|] eqn:Ew; [|done]. apply lookup_replicate_1 in Ew as [-> _]. by rewrite Z.bits_0.
Qed.

Lemma take_shmem_some pfn l sh l' : take_shmem pfn l = Some (sh, l') -> l ≡ₚ sh :: l' /\ sh_pfn sh = pfn.
Proof.
  revert l'. induction l as [|x l IH]; intros l'; cbn [take_shmem]; [done|]. destruct (Z.eqb_spec (sh_pfn x) pfn) as [E|E].
  - by intros [= <- <-].
  - destruct (take_shmem pfn l) as [[r l1]|]; [|done]. cbn. intros [= <- <-]. destruct (IH l1 eq_refl) as [Hp He]. split; [|done]. rewrite Hp. apply Permutation_swap.
Qed.

Lemma take_shmem_none pfn l sh : take_shmem pfn l = None -> sh ∈ l -> sh_pfn sh <> pfn.
Proof.
  induction l as [|x l IH]; cbn [take_shmem]; [by intros _ ?%elem_of_nil|]. destruct (Z.eqb_spec (sh_pfn x) pfn) as [E|E]; [done|].
  destruct (take_shmem pfn l) as [[r l1]|]; [done|]. intros _ [->|H]%elem_of_cons; [done|by apply IH].
Qed.

(** Clearing the range of a node. *)
Lemma free_in_block_spec s sh l :
  shm_ok s -> shmem_head s ≡ₚ sh :: l -> exists s1, free_shmem_in_block sh s = Some s1 /\ shm_ok (mk_shm l (shmem_blocks s1) (shm_vmm s1)).
Proof.
  intros Ho Hp. assert (sh ∈ shmem_head s) as Hin by (rewrite Hp; set_solver). destruct (so_sh _ Ho sh Hin) as (sb & Hsb & H0 & [X1 X2 X3]).
  pose proof (so_sb _ Ho _ _ Hsb) as W. pose proof W as [W1 W2 W3 W4 W5]. pose proof (lookup_lt_Some _ _ _ Hsb) as Hlt. pose proof (so_len _ Ho) as Hlen. unfold sbid, MAX_SHMEM_ID, PAGES_IN_BLOCK in *.
  assert (sh_id sh = sb_id sb) as Eid by lia.
  unfold free_shmem_in_block, MAX_SHMEM_ID. rewrite (proj2 (Z.ltb_lt (sh_id sh) 32)) by lia. msimpl. rewrite Hsb. cbn [mbind option_bind].
  assert (u32 (Z.shiftr (u64 (Z.shiftl (sh_pfn sh) PAGE_SHIFT - sb_phy_base sb)) PAGE_SHIFT) = first_page sb sh) as ->.
  { unfold first_page in *. unfold PAGE_SHIFT, PAGE_SIZE in *. rewrite Z.shiftl_mul_pow2, Z.shiftr_div_pow2 by lia. change (2 ^ 12) with 4096. rewrite W5 in *. unfold MEM_BLOCK_SIZE in *.
    assert (sb_bfn sb * 0x200000 / 4096 = sb_bfn sb * 512) as E by dlia. rewrite E in *. rewrite u64_small by lia. rewrite u32_small; dlia. }
  destruct (bitmap_clear_spec (sb_bitmap sb) (first_page sb sh) (sh_pages sh) W2) as (map & -> & Hw & Hml & Hbits); [lia..|]. cbn [mbind option_bind].
  eexists. split; [done|]. cbn [shmem_blocks shm_vmm]. apply (update_block_ok s _ sb); try done.
  - cbn. congruence.
  - intros x Hx. left. rewrite Hp. set_solver.
  - intros i Hi. cbn [sb_bitmap]. rewrite Hbits by lia. pose proof (so_bits _ Ho _ _ i Hsb Hi) as Hb. rewrite (zsum_perm _ _ _ Hp), zsum_cons in Hb.
    pose proof (covers_sum_nonneg sb i l) as Hnn. unfold covers at 1 in Hb. rewrite Eid, Z.eqb_refl in Hb.
    assert (b2z (negb ((first_page sb sh <=? i) && (i <? first_page sb sh + sh_pages sh)) && bit_at (sb_bitmap sb) i)
            = b2z (bit_at (sb_bitmap sb) i) - rng (first_page sb sh) (first_page sb sh + sh_pages sh) i) as ->; [|lia].
    unfold rng in *. destruct ((first_page sb sh <=? i) && _), (bit_at (sb_bitmap sb) i); cbn in *; lia.
  - intros j sj i Hj Hne. rewrite (zsum_perm _ _ _ Hp), zsum_cons, (covers_other s j sj (Z.to_nat (sh_id sh))); [lia|done|done|done|lia].
Qed.

(** Free_shmem of the address of a range that was handed out takes exactly
    that range back; any other page address changes nothing. *)
Theorem free_shmem_correct s addr :
  shm_ok s -> addr mod PAGE_SIZE = 0 ->
  (exists sh s', sh ∈ shmem_head s /\ sh_addr sh = addr /\ free_shmem addr s = Some s' /\ shm_ok s' /\ shmem_head s ≡ₚ sh :: shmem_head s'
     /\ forall o, o ∈ shmem_head s' -> sh_addr o <> addr)
  \/ (forall sh, sh ∈ shmem_head s -> sh_addr sh <> addr) /\ free_shmem addr s = Some s.
Proof.
  intros Ho Ha. unfold free_shmem. rewrite (proj2 (IS_PAGE_ALIGN_true addr) Ha). msimpl.
  assert (Z.shiftr addr PAGE_SHIFT * PAGE_SIZE = addr) as Epfn by (unfold PAGE_SHIFT, PAGE_SIZE in *; rewrite Z.shiftr_div_pow2 by lia; change (2 ^ 12) with 4096; dlia).
  destruct (take_shmem _ (shmem_head s)) as [[sh l]|] eqn:Et.
  - left. apply take_shmem_some in Et as [Hp Hpfn]. destruct (free_in_block_spec s sh l Ho Hp) as (s1 & -> & Ho1). cbn [mbind option_bind].
    assert (sh_addr sh = addr) as Esh by (unfold sh_addr; by rewrite Hpfn).
    eexists sh, _. split; [rewrite Hp; set_solver|]. split; [done|]. split; [done|]. split; [done|]. split; [done|].
    cbn. intros o Hin E. pose proof (nodes_apart s sh o [] l Ho Hp Hin) as Hd. unfold sh_apart in Hd. rewrite E, Esh in Hd.
    destruct (so_sh _ Ho sh) as (? & _ & _ & [P1 _ _]); [rewrite Hp; set_solver|]. destruct (so_sh _ Ho o) as (? & _ & _ & [P2 _ _]); [rewrite Hp; set_solver|].
    unfold PAGE_SIZE in *. lia.
  - right. split; [|done]. intros sh Hin E. apply (take_shmem_none _ _ sh Et Hin). unfold sh_addr in E. unfold PAGE_SIZE in *. lia.
Qed.

(** ** Deviations *)

(** [free_pages] is never counted down and is 16 bits wide: after 127 ranges of
    a whole block were given back the count is 0, and the empty block is not
    used any more. *)
Theorem free_shmem_count_wraps s sh sb s' :
  shm_ok s -> shmem_head s = [sh] -> sh_pages sh = 512 -> shmem_blocks s = [sb] -> sb_free_pages sb = 65024 ->
  free_shmem (sh_addr sh) s = Some s' -> forall malloc_ok, alloc_loop malloc_ok 1 1 0 s' = Some (0, s').
Proof.
  intros Ho Hh Hp Hb Hf E malloc_ok. destruct (so_sh _ Ho sh) as (sb' & Hsb & H0 & _); [rewrite Hh; set_solver|].
  destruct (free_in_block_spec s sh [] Ho) as (s1 & E1 & _); [by rewrite Hh|].
  unfold free_shmem in E. rewrite (proj2 (IS_PAGE_ALIGN_true _)) in E by (by apply Z.mod_mul). revert E. msimpl. rewrite Hh. cbn [take_shmem].
  assert ((sh_pfn sh =? Z.shiftr (sh_addr sh) PAGE_SHIFT) = true) as ->.
  { apply Z.eqb_eq. unfold sh_addr, PAGE_SIZE, PAGE_SHIFT. rewrite Z.shiftr_div_pow2 by lia. change (2 ^ 12) with 0x1000. by rewrite Z.div_mul. }
  rewrite E1. cbn [mbind option_bind]. intros [= <-]. unfold free_shmem_in_block in E1. destruct (sh_id sh <? MAX_SHMEM_ID); [|done]. revert E1. msimpl.
  rewrite Hb in *. pose proof (lookup_lt_Some _ _ _ Hsb) as Hlt. cbn in Hlt. destruct (Z.to_nat (sh_id sh)); [|lia]. cbn [lookup list_lookup mbind option_bind].
  destruct (bitmap_clear _ _ _) as [map|]; [|done]. cbn [mbind option_bind]. intros [= <-]. cbn [alloc_loop shmem_blocks insert list_insert lookup list_lookup mbind option_bind sb_free_pages].
  rewrite Hf, Hp. reflexivity.
Qed.

(** ** A concrete machine *)
Definition demo_shm : shm := mk_shm [] [] (mk_vmm [mk_section 0x40000000 0x400000 0x40400000 2 2 0 [0]] 2).

Lemma demo_shm_ok : shm_ok demo_shm.
Proof.
  assert (vmm_wf (shm_vmm demo_shm)) as Hv.
  { split_and!; try done.
    - constructor; [|done]. repeat split; try done. by repeat constructor.
    - intros b. unfold zsum. cbn. destruct (in_section _ b); cbn; lia. }
  split; try done; try (by intros ? ? ? H).
  - by intros sh ?%elem_of_nil.
  - intros b. cbn [managed existsb bs_head shm_vmm demo_shm]. unfold in_section. cbn [bs_start bs_end]. change (0x40000000 / MEM_BLOCK_SIZE) with 512. change (0x40400000 / MEM_BLOCK_SIZE) with 514. lia.
Qed.

Lemma alloc_shmem_correct_witness :
  exists addr s', alloc_shmem (fun _ => true) (mk_env true true 0) 3 demo_shm = Some (addr, s') /\ shm_ok s'.
Proof.
  destruct (alloc_shmem_correct (fun _ => true) 3 demo_shm demo_shm_ok ltac:(unfold PAGES_IN_BLOCK; lia)) as (addr & s' & E & Ho & _).
  exists addr, s'. split; [exact E|exact Ho].
Defined.

Definition demo_shm2 : shm := default demo_shm (snd <$> alloc_shmem (fun _ => true) (mk_env true true 0) 3 demo_shm).

Lemma demo_shm2_ok : shm_ok demo_shm2.
Proof.
  set (s0 := mk_shm [] [mk_sb 512 0x40000000 0 512 (replicate 8 0)] (mk_vmm [mk_section 0x40000000 0x400000 0x40400000 1 2 1 [1]] 1)).
  assert (shm_ok s0) as H0.
  { destruct (vmm_alloc_spec (shm_vmm demo_shm) (so_vmm _ demo_shm_ok)) as [_ Hg]. destruct (Hg ltac:(done)) as (bfn & v & E & Hv & Hm & Hn & _ & Hman & Hus).
    vm_compute in E. injection E as <- <-.
    apply (new_block_ok demo_shm 512); [apply demo_shm_ok|done|done|done|done|lia| |done]. intros b Hb. by rewrite Hus, Hb, orb_true_r. }
  destruct (__alloc_shmem_spec (fun _ => true) 0 (mk_sb 512 0x40000000 0 512 (replicate 8 0)) 3 s0 H0 eq_refl ltac:(unfold PAGES_IN_BLOCK; lia)) as (a & s1 & E & Ho & _).
  vm_compute in E. injection E as _ <-. exact Ho.
Qed.

Lemma free_shmem_correct_witness : exists s', free_shmem 0x40000000 demo_shm2 = Some s' /\ shmem_head s' = [].
Proof.
  destruct (free_shmem_correct demo_shm2 0x40000000 demo_shm2_ok eq_refl) as [(sh & s' & _ & _ & E & _)|[H _]].
  - exists s'. split; [exact E|]. vm_compute in E. injection E as <-. reflexivity.
  - exfalso. apply (H (mk_shmem 3 0 0 0x40000)); [apply list_elem_of_here|reflexivity].
Defined.
