(* ===== verification/Task.v ===== *)
(** * Task ids and the creation of tasks (core/task.c, include/minos/task_def.h)

    A task is a structure from the slab heap and a kernel stack from the page
    allocator, under a task id of [tid_map]; [os_task_table] finds the
    structure by id.  The scheduler's view of the task is the entry of its id
    in the table of Sched.v, what only this file uses is a [kobj].  The state
    puts the allocators of Memory.v and the scheduler of Sched.v together.
    Hooks and the contents of the stack are outside of the state.  [NULL] is
    [None] inside of the result. *)
From S2P Require Import Prelude Bitmap MemRegion Memory Sched.

Definition OS_PRIO_SYSTEM : Z := 3.
Definition OS_PRIO_VCPU : Z := 4.
Definition OS_PRIO_DEFAULT : Z := 5.
Definition OS_PRIO_DEFAULT_6 : Z := 6.
Definition OS_PRIO_IDLE : Z := 7.
Definition TASK_AFF_ANY : Z := -1.

Definition TASK_FLAGS_VCPU : Z := 1.
Definition TASK_FLAGS_IDLE : Z := 4.
Definition TASK_FLAGS_NO_AUTO_START : Z := 8.
Definition TASK_FLAGS_PERCPU : Z := 32.
Definition VCPU_TASK_FLAG : Z := Z.lor TASK_FLAGS_VCPU TASK_FLAGS_NO_AUTO_START.

Definition __TIF_NEED_STOP : Z := Z.shiftl 1 10.
Definition __TIF_NEED_FREEZE : Z := Z.shiftl 1 11.

(** [TASK_STACK_SIZE] without a configured value. *)
Definition TASK_STACK_SIZE : Z := 2 * PAGE_SIZE.

Definition PAGE_NR (size : Z) : Z := Z.shiftr (PAGE_BALIGN size) PAGE_SHIFT.

Record kobj := mk_kobj {
  k_addr : Z;
  k_stack_bottom : Z;
  k_stack_top : Z;
  k_flags : Z;
  k_pdata : Z;
}.

Record kt := mk_kt {
  tid_map : list Z;
  os_task_table : list (option Z);
  k_objs : gmap Z kobj;
  k_mm : mm;
  k_sys : sys;
}.

Definition set_tid_map (v : list Z) (s : kt) : kt := mk_kt v (os_task_table s) (k_objs s) (k_mm s) (k_sys s).
Definition set_mm (v : mm) (s : kt) : kt := mk_kt (tid_map s) (os_task_table s) (k_objs s) v (k_sys s).
Definition set_sys (v : sys) (s : kt) : kt := mk_kt (tid_map s) (os_task_table s) (k_objs s) (k_mm s) v.

Section task.
(** [CONFIG_NR_TASKS] and [sizeof(struct task)]. *)
Context (OS_NR_TASKS TASK_SIZE : Z).

Definition alloc_tid (s : kt) : option (Z * kt) :=
  r ← find_next_zero_bit (tid_map s) OS_NR_TASKS 1;
  let tid := s32 r in
  if OS_NR_TASKS <=? tid then Some (-1, s)
  else map ← set_bit tid (tid_map s); Some (tid, set_tid_map map s).

Definition request_tid (tid : Z) (s : kt) : option (bool * kt) :=
  _ ← assert_ (negb ((tid <=? 0) || (OS_NR_TASKS <=? tid)));
  '(old, map) ← test_and_set_bit tid (tid_map s);
  Some (negb old, set_tid_map map s).

Definition release_tid (tid : Z) (s : kt) : option kt :=
  _ ← assert_ ((tid <? OS_NR_TASKS) && (0 <? tid));
  map ← clear_bit tid (tid_map s);
  Some (mk_kt map (<[Z.to_nat tid := None]> (os_task_table s)) (k_objs s) (k_mm s) (k_sys s)).

Definition tid_early_init (s : kt) : option kt := map ← set_bit 0 (tid_map s); Some (set_tid_map map s).

(** [ti] and [pc] are the thread flags and the preempt count, which are kept
    for an idle task; the rest of the structure is zero. *)
Definition task_init (addr stack stk_size prio tid aff opt arg : Z) (ti pc : Z) (s : kt) : kt :=
  let idle := negb (Z.land opt TASK_FLAGS_IDLE =? 0) in
  let t := mk_task prio TASK_STATE_SUSPEND 0 0 false 0 0 0 (-1) 0 aff
             (if idle then ti else 0) (if idle then pc else 0) idle false false in
  mk_kt (tid_map s) (<[Z.to_nat tid := Some addr]> (os_task_table s))
    (<[tid := mk_kobj addr stack (stack + stk_size) opt arg]> (k_objs s)) (k_mm s)
    (set_tasks (<[tid := t]> (tasks (k_sys s))) (k_sys s)).

Definition do_create_task (ssize prio tid aff opt arg : Z) (s : kt) : option (bool * kt) :=
  let stk_size := PAGE_BALIGN ssize in
  '(addr, m) ← zalloc TASK_SIZE (k_mm s);
  if addr =? 0 then Some (false, set_mm m s)
  else
    '(stack, m) ← get_free_pages (PAGE_NR stk_size) m;
    if stack =? 0 then m ← free addr m; Some (false, set_mm m s)
    else Some (true, task_init addr stack stk_size prio tid aff opt arg 0 0 (set_mm m s)).

(** The result is the task id.  The call of [sched] at the end lets other tasks
    run and is not part of this step. *)
Definition __create_task (stk_size prio aff opt arg : Z) (s : kt) : option (option Z * kt) :=
  let aff := if (NR_CPUS <=? aff) && negb (aff =? TASK_AFF_ANY) then TASK_AFF_ANY else aff in
  let prio := if (OS_PRIO_IDLE <=? prio) || (prio <? 0) then OS_PRIO_DEFAULT_6 else prio in
  '(tid, s) ← alloc_tid s;
  if tid <? 0 then Some (None, s)
  else
    '(ok, s) ← do_create_task (u32 stk_size) prio tid aff opt arg s;
    if negb ok then s ← release_tid tid s; Some (None, s)
    else
      s ← (if Z.land opt TASK_FLAGS_NO_AUTO_START =? 0
           then '(_, y) ← task_ready tid false (k_sys s); Some (set_sys y s) else Some s);
      Some (Some tid, s).

Definition create_task (stk_size prio aff opt arg : Z) (s : kt) : option (option Z * kt) :=
  let prio := if prio <? 0 then (if negb (Z.land opt OS_PRIO_VCPU =? 0) then OS_PRIO_VCPU else OS_PRIO_DEFAULT) else prio in
  __create_task stk_size prio aff opt arg s.

Definition create_vcpu_task (aff flags vcpu : Z) (s : kt) : option (option Z * kt) :=
  create_task TASK_STACK_SIZE OS_PRIO_VCPU aff (Z.lor flags VCPU_TASK_FLAG) vcpu s.

(** The CPUs [cpus] that are online, in order. *)
Fixpoint create_percpu_tasks (cpus : list Z) (prio flags pdata : Z) (s : kt) : option kt :=
  match cpus with
  | [] => Some s
  | cpu :: cpus =>
      '(_, s) ← create_task TASK_STACK_SIZE prio cpu (Z.lor flags TASK_FLAGS_PERCPU) pdata s;
      create_percpu_tasks cpus prio flags pdata s
  end.

(** The static idle task of the CPU, at the address [addr], on the boot stack
    that ends at [stack_top]; [ti] and [pc] are its thread flags and count. *)
Definition create_idle_task (addr minos_stack_top stack_shift stack_size ti pc : Z) (s : kt) : option kt :=
  let aff := this_cpu (k_sys s) in
  let tid := OS_NR_TASKS - 1 - aff in
  '(ok, s) ← request_tid tid s;
  _ ← assert_ ok;
  let s := task_init addr 0 0 OS_PRIO_IDLE tid aff TASK_FLAGS_IDLE 0 ti pc s in
  let top := minos_stack_top - Z.shiftl aff stack_shift in
  y ← upd_task tid (fun t => set_t_cpu aff (set_t_linked true (set_t_state TASK_STATE_RUNNING t))) (k_sys s);
  p ← get_pcpu y;
  l ← prio_list p OS_PRIO_IDLE;
  let p := set_local_rdy_grp (u8 (Z.lor (local_rdy_grp p) (Z.shiftl 1 OS_PRIO_IDLE)))
             (set_prio_list OS_PRIO_IDLE (l ++ [tid]) (set_running_task tid p)) in
  Some (mk_kt (tid_map s) (os_task_table s) (<[tid := mk_kobj addr (top - stack_size) top TASK_FLAGS_IDLE 0]> (k_objs s)) (k_mm s)
          (set_cpu (this_cpu y) p y)).

Definition do_release_task (tid : Z) (s : kt) : option kt :=
  o ← k_objs s !! tid;
  m ← free_pages (k_stack_bottom o) (k_mm s);
  m ← free (k_addr o) m;
  release_tid tid (set_mm m s).

(** [true] when the task leaves the CPU instead of returning to the guest. *)
Definition task_return_to_user (s : kt) : option (bool * kt) :=
  cur ← current (k_sys s);
  o ← k_objs s !! cur;
  t ← task_at cur (k_sys s);
  let flags := t_ti_flags t in
  _ ← assert_ (negb (Z.land (k_flags o) TASK_FLAGS_VCPU =? 0));
  let t := set_t_ti_flags (Z.ldiff (t_ti_flags t) (Z.lor flags (Z.lor __TIF_NEED_STOP __TIF_NEED_FREEZE))) t in
  let t := if negb (Z.land flags __TIF_NEED_STOP =? 0) then set_t_state TASK_STATE_STOP t
           else if negb (Z.land flags __TIF_NEED_FREEZE =? 0) then set_t_state TASK_STATE_SUSPEND t else t in
  y ← upd_task cur (fun _ => t) (k_sys s);
  Some (negb (t_state t =? TASK_STATE_RUNNING), set_sys y s).

(** The tasks that [os_for_all_task] calls its argument for. *)
Definition os_for_all_task (s : kt) : option (list Z) :=
  for_each_set_bit (fun _ => tid_map s) OS_NR_TASKS
    (fun idx l => o ← os_task_table s !! Z.to_nat idx; Some (false, match o with Some a => l ++ [a] | None => l end)) [].
End task.

(** ** The invariant *)
Lemma cpu_wf_other ts p tid t : cpu_wf ts p -> ~ is_ready p tid -> cpu_wf (<[tid := t]> ts) p.
Proof.
  intros [H1 H2 H3 H4] Hn. split; [done..|]. intros q l Eq. destruct (H4 q l Eq) as (A1 & A2 & A3 & A4). do 3 (split; [done|]).
  intros x Hx. destruct (A4 x Hx) as (tx & B). exists tx. rewrite lookup_insert_ne; [done|]. intros ->. apply Hn. by exists q, l.
Qed.

Lemma sys_wf_other s tid t : sys_wf s -> (forall p, get_pcpu s = Some p -> ~ is_ready p tid) -> sys_wf (set_tasks (<[tid := t]> (tasks s)) s).
Proof.
  intros (p & Ep & Hwf & ct & Hc & Hcp & Hcr) Hn. exists p. split; [done|]. specialize (Hn p Ep). split; [by apply cpu_wf_other|].
  exists ct. cbn. rewrite lookup_insert_ne; [done|]. by intros ->.
Qed.

Section task_ok.
Context (OS_NR_TASKS TASK_SIZE lo top : Z).

Definition heap_task (o : kobj) : Prop := Z.land (k_flags o) TASK_FLAGS_IDLE = 0.
Definition k_pages (o : kobj) : Z := (k_stack_top o - k_stack_bottom o) / PAGE_SIZE.

(** The task [tid] exists, with the object [o]. *)
Definition registered (s : kt) (tid : Z) (o : kobj) : Prop :=
  0 <= tid /\ os_task_table s !! Z.to_nat tid = Some (Some (k_addr o)) /\ k_objs s !! tid = Some o.

(** The memory of a task is allocated. *)
Definition has_memory (m : mm) (o : kobj) : Prop :=
  live m (k_addr o) (get_slab_alloc_size TASK_SIZE) /\ page_in_use m (k_stack_bottom o) (k_pages o).

Record kt_ok (s : kt) : Prop := mk_kt_ok {
  ko_map : bitmap_wf OS_NR_TASKS (tid_map s);
  ko_nr : 1 <= OS_NR_TASKS < 2 ^ 31;
  ko_len : Z.of_nat (length (os_task_table s)) = OS_NR_TASKS;
  ko_zero : bit_at (tid_map s) 0 = true;
  ko_first : os_task_table s !! 0%nat = Some None;
  ko_bit : forall tid a, os_task_table s !! tid = Some (Some a) -> bit_at (tid_map s) (Z.of_nat tid) = true /\ exists o, k_objs s !! Z.of_nat tid = Some o /\ k_addr o = a;
  ko_mem : forall tid o, registered s tid o -> heap_task o -> has_memory (k_mm s) o;
  ko_distinct : forall t1 t2 o1 o2, registered s t1 o1 -> registered s t2 o2 -> heap_task o1 -> heap_task o2 -> t1 <> t2 ->
    k_addr o1 <> k_addr o2 /\ k_stack_bottom o1 <> k_stack_bottom o2;
  ko_mm : mm_ok lo top (k_mm s);
  ko_sys : sys_wf (k_sys s);
  ko_ready : forall p tid, get_pcpu (k_sys s) = Some p -> is_ready p tid -> 0 <= tid /\ bit_at (tid_map s) tid = true;
}.

Lemma registered_bit s tid o : kt_ok s -> registered s tid o -> bit_at (tid_map s) tid = true /\ 0 < tid < OS_NR_TASKS.
Proof.
  intros Ho (H0 & Ht & _). destruct (ko_bit _ Ho _ _ Ht) as [Hb _]. rewrite Z2Nat.id in Hb by lia. split; [done|].
  pose proof (ko_first _ Ho) as Hf. destruct (decide (tid = 0)) as [->|]; [change (Z.to_nat 0) with 0%nat in Ht; congruence|].
  apply lookup_lt_Some in Ht. pose proof (ko_len _ Ho). lia.
Qed.

Lemma alloc_tid_spec s :
  kt_ok s ->
  (alloc_tid OS_NR_TASKS s = Some (-1, s) /\ forall i, 1 <= i < OS_NR_TASKS -> bit_at (tid_map s) i = true)
  \/ exists tid map, alloc_tid OS_NR_TASKS s = Some (tid, set_tid_map map s) /\ 1 <= tid < OS_NR_TASKS /\ bit_at (tid_map s) tid = false
       /\ bitmap_wf OS_NR_TASKS map /\ forall i, 0 <= i -> bit_at map i = (i =? tid) || bit_at (tid_map s) i.
Proof.
  intros Ho. pose proof (ko_map _ Ho) as Hwf. pose proof Hwf as (Hw & Hn & Hsz). pose proof (ko_nr _ Ho) as Hnr. unfold alloc_tid.
  destruct (find_next_zero_bit_spec (tid_map s) OS_NR_TASKS 1 Hwf ltac:(lia)) as (r & -> & Hr & Hb & Ht). cbn [mbind option_bind].
  assert (s32 r = r) as -> by (unfold s32; rewrite Z.mod_small; lia).
  destruct (Z.leb_spec OS_NR_TASKS r) as [Hge|Hlt].
  - left. split; [done|]. intros i Hi. specialize (Hb i ltac:(lia)). by destruct (bit_at (tid_map s) i).
  - right. destruct (set_bit_spec r (tid_map s) Hw ltac:(lia)) as (map & -> & Hw' & Hl' & Hb'). cbn [mbind option_bind].
    exists r, map. specialize (Ht Hlt). split; [done|]. split; [lia|]. split; [by destruct (bit_at (tid_map s) r)|]. split; [|done].
    split; [done|]. rewrite Hl'. done.
Qed.

Hypothesis Hsize : 0 < TASK_SIZE < 2 ^ 30.

(** The structure of a task. *)
Lemma task_struct_spec m :
  mm_ok lo top m -> slab_base m + SLAB_HEADER_SIZE + get_slab_alloc_size TASK_SIZE <= page_base m ->
  exists addr m', zalloc TASK_SIZE m = Some (addr, m') /\ 0 < addr /\ mm_ok lo top m' /\ same_pages m m'
    /\ slab_base m' <= slab_base m + SLAB_HEADER_SIZE + get_slab_alloc_size TASK_SIZE
    /\ live m' addr (get_slab_alloc_size TASK_SIZE) /\ (forall q z, live m q z -> q <> addr /\ live m' q z).
Proof.
  intros [[ch Ho] Hpo] Hroom. destruct (get_slab_alloc_size_eq TASK_SIZE ltac:(lia)) as (_ & Hn16 & Hnr).
  unfold zalloc, malloc. rewrite (proj2 (Z.eqb_neq TASK_SIZE 0)) by lia. cbn [negb]. msimpl.
  destruct (__malloc_spec _ _ _ _ Ho Hnr Hn16) as (p & m' & ch' & -> & Ho' & Hsp & Hb & Hmax & Hc). exists p, m'.
  pose proof (so_lo _ _ _ Ho) as Hlo. destruct Hc as [(_ & _ & _ & Hno)|(a & -> & Htk)].
  { unfold room in Hno. unfold SLAB_HEADER_SIZE in *. destruct (po_sep _ _ Hpo). lia. }
  destruct (took_live _ _ _ _ _ _ Ho' Htk) as [Hl Hd]. destruct Htk as (Hh & Hpos & Hnl). unfold SLAB_HEADER_SIZE in *.
  split; [done|]. split; [lia|]. split; [split; [by exists ch'|]; apply (same_pages_ok top m); try done; lia|].
  split; [done|]. split; [lia|]. split; [done|]. intros q z Hq. destruct (Hd q z Hq) as [Hq' Hap]. split; [|done].
  intros ->. apply (Hnl z). unfold live, SLAB_HEADER_SIZE in Hq. by replace (a + 16 - 16) with a in Hq by lia.
Qed.

(** The stack: [n] pages, apart from all pages in use. *)
Lemma stack_spec m n :
  mm_ok lo top m -> 0 < n < 2 ^ 16 -> slab_base m + 64 <= newbase m n 1 ->
  exists p m', get_free_pages n m = Some (p, m') /\ 0 < p /\ mm_ok lo top m' /\ page_in_use m' p n
    /\ (forall q k, page_in_use m q k -> page_in_use m' q k /\ pages_apart p n q k) /\ keeps_live m m'.
Proof.
  intros [[ch Ho] Hpo] Hn Hroom.
  destruct (__alloc_pages_spec _ _ _ _ n 1 Ho Hpo Hn ltac:(by left) ltac:(by right)) as (pg & m' & ch' & E & Ho' & Hpo' & Hu & Hc & Hal & Hk).
  unfold get_free_pages, __get_free_pages. rewrite E. cbn [mbind option_bind]. exists (pg_base pg), m'.
  assert (pg ∈ all_pages m') as Hin by (unfold all_pages; rewrite Hu; set_solver). destruct (po_pg _ _ Hpo' _ Hin) as [C1 C2 C3 C4 C5].
  destruct (po_sep _ _ Hpo') as [Hsep _].
  split; [unfold pg_base, PAGE_SIZE, PAGE_SHIFT; by rewrite Z.shiftl_mul_pow2 by lia|]. split; [lia|]. split; [split; [by exists ch'|done]|].
  split; [exists pg; rewrite Hu; split; [set_solver|done]|]. split; [|done].
  intros q k (r & Hr & -> & ->). split; [exists r; rewrite Hu; split; [set_solver|done]|]. rewrite <- Hc.
  apply (two_pages_apart _ _ [] _ (used_page_head m ++ free_page_head m') _ Hpo'); [unfold all_pages; by rewrite Hu|set_solver].
Qed.

(** Entering a new task into the tables. *)
Lemma register_ok s map m tid o t :
  kt_ok s -> 1 <= tid < OS_NR_TASKS -> bit_at (tid_map s) tid = false -> bitmap_wf OS_NR_TASKS map ->
  (forall i, 0 <= i -> bit_at map i = (i =? tid) || bit_at (tid_map s) i) -> mm_ok lo top m -> has_memory m o ->
  (forall x, has_memory (k_mm s) x -> has_memory m x /\ k_addr x <> k_addr o /\ k_stack_bottom x <> k_stack_bottom o) ->
  kt_ok (mk_kt map (<[Z.to_nat tid := Some (k_addr o)]> (os_task_table s)) (<[tid := o]> (k_objs s)) m
           (set_tasks (<[tid := t]> (tasks (k_sys s))) (k_sys s))).
Proof.
  intros Ho Ht Hb Hwf Hbits Hm Hmem Hoth. pose proof (ko_len _ Ho) as Hlen.
  set (s' := mk_kt _ _ _ _ _).
  assert (forall u x, registered s' u x -> u = tid /\ x = o \/ u <> tid /\ registered s u x) as Hreg.
  { intros u x (Hu0 & Hu1 & Hu2). cbn in Hu1, Hu2. destruct (decide (u = tid)) as [->|Hne].
    - left. rewrite lookup_insert_eq in Hu2. by injection Hu2 as <-.
    - right. split; [done|]. rewrite lookup_insert_ne in Hu2 by done. rewrite list_lookup_insert_ne in Hu1 by lia. by split. }
  split; cbn [tid_map os_task_table k_objs k_mm k_sys s'].
  - done.
  - apply (ko_nr _ Ho).
  - by rewrite length_insert.
  - rewrite Hbits, (ko_zero _ Ho) by lia. apply orb_true_r.
  - rewrite list_lookup_insert_ne by lia. apply (ko_first _ Ho).
  - intros u a Hu. destruct (decide (u = Z.to_nat tid)) as [->|Hne].
    + rewrite list_lookup_insert_eq in Hu by lia. injection Hu as <-. rewrite Z2Nat.id by lia. rewrite Hbits, Z.eqb_refl by lia. split; [done|].
      exists o. by rewrite lookup_insert_eq.
    + rewrite list_lookup_insert_ne in Hu by done. destruct (ko_bit _ Ho _ _ Hu) as [Hbu Hou]. rewrite Hbits, Hbu by lia. split; [apply orb_true_r|].
      rewrite lookup_insert_ne by lia. done.
  - intros u x Hr Hh. destruct (Hreg u x Hr) as [[-> ->]|[_ Hr']]; [done|]. by apply Hoth, (ko_mem _ Ho u).
  - intros t1 t2 o1 o2 R1 R2 H1 H2 Hne. destruct (Hreg t1 o1 R1) as [[-> ->]|[N1 R1']], (Hreg t2 o2 R2) as [[-> ->]|[N2 R2']]; [done| | |].
    + destruct (Hoth o2 (ko_mem _ Ho _ _ R2' H2)) as (_ & A & B). split; congruence.
    + destruct (Hoth o1 (ko_mem _ Ho _ _ R1' H1)) as (_ & A & B). split; congruence.
    + by apply (ko_distinct _ Ho t1 t2).
  - done.
  - apply sys_wf_other; [apply (ko_sys _ Ho)|]. intros p Hp Hr. destruct (ko_ready _ Ho p tid Hp Hr). congruence.
  - intros p u Hp Hr. destruct (ko_ready _ Ho p u Hp Hr) as [H0 Hbu]. rewrite Hbits, Hbu by done. split; [done|apply orb_true_r].
Qed.

(** The space that a new task with [n] stack pages needs. *)
Definition task_room (m : mm) (n : Z) : Prop :=
  slab_base m + SLAB_HEADER_SIZE + get_slab_alloc_size TASK_SIZE + 64 <= newbase m n 1.

Lemma do_create_task_spec s ssize prio tid aff opt arg map :
  kt_ok s -> 0 < ssize < 2 ^ 27 -> Z.land opt TASK_FLAGS_IDLE = 0 -> task_room (k_mm s) (PAGE_NR ssize) ->
  1 <= tid < OS_NR_TASKS -> bit_at (tid_map s) tid = false -> bitmap_wf OS_NR_TASKS map ->
  (forall i, 0 <= i -> bit_at map i = (i =? tid) || bit_at (tid_map s) i) ->
  exists s' o, do_create_task TASK_SIZE ssize prio tid aff opt arg (set_tid_map map s) = Some (true, s') /\ kt_ok s' /\ tid_map s' = map
    /\ registered s' tid o /\ k_flags o = opt /\ k_stack_top o = k_stack_bottom o + PAGE_NR ssize * PAGE_SIZE
    /\ tasks (k_sys s') !! tid = Some (mk_task prio TASK_STATE_SUSPEND 0 0 false 0 0 0 (-1) 0 aff 0 0 false false false)
    /\ (forall u x, u <> tid -> registered s u x -> registered s' u x /\ (heap_task x -> pages_apart (k_stack_bottom o) (PAGE_NR ssize) (k_stack_bottom x) (k_pages x)))
    /\ k_sys s' = set_tasks (tasks (k_sys s')) (k_sys s).
Proof.
  intros Ho Hss Hopt Hroom Ht Hb Hwf Hbits. pose proof (ko_mm _ Ho) as Hm. unfold task_room, SLAB_HEADER_SIZE in *.
  destruct (get_slab_alloc_size_eq TASK_SIZE ltac:(lia)) as (_ & _ & Hnr).
  assert (PAGE_BALIGN ssize = PAGE_NR ssize * PAGE_SIZE /\ 0 < PAGE_NR ssize < 2 ^ 16 /\ PAGE_NR (PAGE_BALIGN ssize) = PAGE_NR ssize) as (Ebal & Hn & Enr).
  { assert (forall z, 0 < z < 2 ^ 28 -> PAGE_BALIGN z = 4096 * ((z + 4095) / 4096) /\ PAGE_NR z = (z + 4095) / 4096) as Hbal.
    { intros z Hz. assert (PAGE_BALIGN z = 4096 * ((z + 4095) / 4096)) as E by (unfold PAGE_BALIGN; change PAGE_SIZE with (2 ^ 12); by rewrite BALIGN_pow2 by lia).
      split; [done|]. unfold PAGE_NR, PAGE_SHIFT. rewrite E, Z.shiftr_div_pow2 by lia. change (2 ^ 12) with 4096. rewrite Z.mul_comm. by rewrite Z.div_mul by lia. }
    destruct (Hbal ssize ltac:(lia)) as [-> ->]. rewrite (proj2 (Hbal (4096 * ((ssize + 4095) / 4096)) ltac:(dlia))). unfold PAGE_SIZE. split_and!; dlia. }
  destruct (newbase_bounds (k_mm s) (PAGE_NR ssize) 1 ltac:(by left)) as ((_ & Hnb) & _). { destruct Hm as [[ch Hso] _]. pose proof (so_lo _ _ _ Hso). lia. }
  assert (0 <= PAGE_NR ssize * PAGE_SIZE) as Hpos by (unfold PAGE_SIZE; lia).
  unfold do_create_task. cbn [set_tid_map k_mm].
  destruct (task_struct_spec (k_mm s) Hm ltac:(unfold SLAB_HEADER_SIZE; lia)) as (addr & m1 & -> & Ha & Hm1 & (G1 & G2 & G3) & Hsb & Hlive & Hk1).
  cbn [mbind option_bind]. rewrite (proj2 (Z.eqb_neq addr 0)) by lia. rewrite Enr.
  destruct (stack_spec m1 (PAGE_NR ssize) Hm1 Hn) as (stack & m2 & -> & Hst & Hm2 & Huse & Hk2 & Hl2).
  { unfold newbase in *. rewrite G1. unfold SLAB_HEADER_SIZE in *. lia. }
  cbn [mbind option_bind]. rewrite (proj2 (Z.eqb_neq stack 0)) by lia. rewrite Ebal.
  set (o := mk_kobj addr stack (stack + PAGE_NR ssize * PAGE_SIZE) opt arg).
  assert (k_pages o = PAGE_NR ssize) as Ekp by (unfold k_pages, o, PAGE_SIZE; cbn; rewrite Z.add_simpl_l; apply Z.div_mul; lia).
  assert (forall x, page_in_use (k_mm s) (k_stack_bottom x) (k_pages x) -> page_in_use m2 (k_stack_bottom x) (k_pages x) /\ pages_apart stack (PAGE_NR ssize) (k_stack_bottom x) (k_pages x)) as Hpu.
  { intros x Hx. apply Hk2. unfold page_in_use in *. by rewrite G3. }
  eexists _, o. split; [done|]. unfold task_init. rewrite Hopt. cbn [Z.eqb negb].
  split.
  { apply (register_ok s map m2 tid o); try done.
    - split; [by apply Hl2|]. by rewrite Ekp.
    - intros x [X1 X2]. destruct (Hk1 _ _ X1) as [Hne X1']. destruct (Hpu x X2) as [X2' Hap]. split; [by split; [apply Hl2|]|]. split; [done|].
      intros E. unfold pages_apart in Hap. destruct X2 as (pg & Hpin & _ & Epc). destruct Hm as [_ Hpo]. cbn in E.
      destruct (po_pg _ _ Hpo pg) as [C1 _ _ _ _]; [unfold all_pages; set_solver|]. unfold PAGE_SIZE in *. lia. }
  split; [done|]. split; [|split; [done|split; [done|split; [cbn; apply lookup_insert_eq|split; [|done]]]]].
  - split; [lia|]. cbn. rewrite lookup_insert_eq, list_lookup_insert_eq; [done|]. pose proof (ko_len _ Ho). lia.
  - intros u x Hu (R0 & R1 & R2). split.
    + split; [done|]. cbn. rewrite list_lookup_insert_ne, lookup_insert_ne by lia. done.
    + intros Hh. destruct (ko_mem _ Ho u x (conj R0 (conj R1 R2)) Hh) as [_ X2]. by apply Hpu.
Qed.

(** Taking a task out of the tables. *)
Lemma unregister_ok s tid o map m :
  kt_ok s -> registered s tid o -> bitmap_wf OS_NR_TASKS map -> (forall i, 0 <= i -> bit_at map i = negb (i =? tid) && bit_at (tid_map s) i) ->
  mm_ok lo top m -> (forall p, get_pcpu (k_sys s) = Some p -> ~ is_ready p tid) ->
  (forall u x, u <> tid -> registered s u x -> heap_task x -> has_memory m x) ->
  kt_ok (mk_kt map (<[Z.to_nat tid := None]> (os_task_table s)) (k_objs s) m (k_sys s)).
Proof.
  intros Ho Hreg Hwf Hbits Hm Hnr Hmem. destruct (registered_bit _ _ _ Ho Hreg) as [_ Ht]. set (s' := mk_kt _ _ _ _ _).
  assert (forall u x, registered s' u x -> u <> tid /\ registered s u x) as Hback.
  { intros u x (Hu0 & Hu1 & Hu2). cbn in Hu1, Hu2. destruct (decide (u = tid)) as [->|Hne].
    - rewrite list_lookup_insert_eq in Hu1; [done|]. destruct Hreg as (_ & Hr & _). by eapply lookup_lt_Some.
    - split; [done|]. rewrite list_lookup_insert_ne in Hu1 by lia. by split. }
  split; cbn [tid_map os_task_table k_objs k_mm k_sys s'].
  - done.
  - apply (ko_nr _ Ho).
  - rewrite length_insert. apply (ko_len _ Ho).
  - rewrite Hbits, (ko_zero _ Ho), (proj2 (Z.eqb_neq 0 tid)) by lia. done.
  - rewrite list_lookup_insert_ne by lia. apply (ko_first _ Ho).
  - intros u a Hu. destruct (decide (u = Z.to_nat tid)) as [->|Hne].
    + rewrite list_lookup_insert_eq in Hu; [done|]. destruct Hreg as (_ & Hr & _). by eapply lookup_lt_Some.
    + rewrite list_lookup_insert_ne in Hu by done. destruct (ko_bit _ Ho _ _ Hu) as [Hbu Hou].
      rewrite Hbits, Hbu, (proj2 (Z.eqb_neq (Z.of_nat u) tid)) by lia. done.
  - intros u x Hr Hh. destruct (Hback u x Hr) as [Hne Hr']. by apply (Hmem u).
  - intros t1 t2 o1 o2 R1 R2. apply (ko_distinct _ Ho); [by apply Hback|by apply Hback].
  - done.
  - apply (ko_sys _ Ho).
  - intros p u Hp Hr. destruct (ko_ready _ Ho p u Hp Hr) as [H0 Hb]. split; [done|]. rewrite Hbits, Hb by done.
    destruct (Z.eqb_spec u tid) as [->|]; [by destruct (Hnr p Hp)|done].
Qed.

(** Creating a task for a vcpu takes a task id that no task has, a structure
    and stack pages apart from those of every other task, and leaves the task
    suspended with its priority and CPU; the other tasks keep everything they
    own.  With all ids in use it returns NULL and changes nothing. *)
Theorem create_vcpu_task_correct s aff vcpu :
  kt_ok s -> aff = TASK_AFF_ANY \/ 0 <= aff < NR_CPUS -> task_room (k_mm s) (PAGE_NR TASK_STACK_SIZE) ->
  ((forall i, 1 <= i < OS_NR_TASKS -> bit_at (tid_map s) i = true) /\ create_vcpu_task OS_NR_TASKS TASK_SIZE aff 0 vcpu s = Some (None, s))
  \/ exists tid s' o t, create_vcpu_task OS_NR_TASKS TASK_SIZE aff 0 vcpu s = Some (Some tid, s') /\ kt_ok s'
       /\ 1 <= tid < OS_NR_TASKS /\ bit_at (tid_map s) tid = false /\ registered s' tid o
       /\ tasks (k_sys s') !! tid = Some t /\ t_state t = TASK_STATE_SUSPEND /\ t_prio t = OS_PRIO_VCPU /\ t_affinity t = aff
       /\ k_stack_top o = k_stack_bottom o + TASK_STACK_SIZE
       /\ (forall u x, registered s u x -> heap_task x -> registered s' u x /\ k_addr x <> k_addr o
            /\ pages_apart (k_stack_bottom o) (PAGE_NR TASK_STACK_SIZE) (k_stack_bottom x) (k_pages x)).
Proof.
  intros Ho Haff Hroom. assert (PAGE_NR TASK_STACK_SIZE = 2) as Enr by reflexivity. unfold create_vcpu_task, create_task, __create_task.
  change (OS_PRIO_VCPU <? 0) with false. change (OS_PRIO_IDLE <=? OS_PRIO_VCPU) with false. cbv beta iota zeta delta [orb].
  assert ((if (NR_CPUS <=? aff) && negb (aff =? TASK_AFF_ANY) then TASK_AFF_ANY else aff) = aff) as ->.
  { unfold NR_CPUS, TASK_AFF_ANY in *. destruct (Z.leb_spec 4 aff); [lia|done]. }
  destruct (alloc_tid_spec s Ho) as [(-> & Hall)|(tid & map & -> & Ht & Hb & Hwf & Hbits)]; [by left|right]. cbn [mbind option_bind].
  rewrite (proj2 (Z.ltb_ge tid 0)) by lia. change (Z.lor 0 VCPU_TASK_FLAG) with 9. change (u32 TASK_STACK_SIZE) with TASK_STACK_SIZE.
  change (do_create_task TASK_SIZE TASK_STACK_SIZE _ tid aff 9 vcpu (set_tid_map map s))
    with (do_create_task TASK_SIZE TASK_STACK_SIZE OS_PRIO_VCPU tid aff 9 vcpu (set_tid_map map s)).
  destruct (do_create_task_spec s TASK_STACK_SIZE OS_PRIO_VCPU tid aff 9 vcpu map Ho ltac:(unfold TASK_STACK_SIZE, PAGE_SIZE; lia) eq_refl Hroom Ht Hb Hwf Hbits)
    as (s' & o & -> & Ho' & Em & Hreg & Hfl & Htop & Htk & Hoth & _).
  cbn [mbind option_bind negb]. change (Z.land 9 TASK_FLAGS_NO_AUTO_START =? 0) with false. cbn [mbind option_bind].
  eexists tid, s', o, _. split; [done|]. split; [done|]. split; [done|]. split; [done|]. split; [done|]. split; [exact Htk|]. do 3 (split; [done|]).
  split; [rewrite Htop, Enr; reflexivity|]. intros u x Hu Hh.
  assert (u <> tid) as Hne by (intros ->; destruct (registered_bit _ _ _ Ho Hu); congruence).
  destruct (Hoth u x Hne Hu) as [Hu' Hap]. split; [done|]. split; [|by apply Hap].
  apply (ko_distinct _ Ho' u tid x o); try done. unfold heap_task. by rewrite Hfl.
Qed.

(** Releasing a task that is not on a ready list gives its id, its structure
    and its stack back, so that the id is free again; the other tasks keep
    everything they own. *)
Theorem do_release_task_correct s tid o :
  kt_ok s -> registered s tid o -> heap_task o -> (forall p, get_pcpu (k_sys s) = Some p -> ~ is_ready p tid) ->
  exists s', do_release_task OS_NR_TASKS tid s = Some s' /\ kt_ok s' /\ (forall x, ~ registered s' tid x)
    /\ (forall i, 0 <= i -> bit_at (tid_map s') i = negb (i =? tid) && bit_at (tid_map s) i)
    /\ (forall k, ~ page_in_use (k_mm s') (k_stack_bottom o) k)
    /\ (forall u x, u <> tid -> registered s u x -> registered s' u x).
Proof.
  intros Ho Hreg Hh Hnr. destruct (ko_mem _ Ho _ _ Hreg Hh) as [Hl Hpg]. destruct (registered_bit _ _ _ Ho Hreg) as [_ Ht].
  pose proof Hreg as (_ & Htab & Hobj). unfold do_release_task. rewrite Hobj. cbn [mbind option_bind].
  destruct (free_pages_spec _ _ _ _ _ (ko_mm _ Ho) Hpg) as (m1 & -> & Hm1 & Hh1 & Hsb1 & Hgone & Hkeep). cbn [mbind option_bind].
  assert (live m1 (k_addr o) (get_slab_alloc_size TASK_SIZE)) as Hl1 by (unfold live; by rewrite Hh1).
  pose proof Hm1 as [[ch Hso] Hpo]. destruct (free_spec _ _ _ _ _ Hso Hl1) as (m2 & ch' & -> & Hso2 & (G1 & G2 & G3) & Hmax & Hc). cbn [mbind option_bind].
  assert (mm_ok lo top m2) as Hm2. { split; [by exists ch'|]. apply (same_pages_ok top m1); try done. pose proof (so_lo _ _ _ Hso2). lia. }
  unfold release_tid. rewrite (proj2 (Z.ltb_lt tid OS_NR_TASKS)), (proj2 (Z.ltb_lt 0 tid)) by lia. cbn [andb]. msimpl.
  pose proof (ko_map _ Ho) as (Hw & Hn & Hsz). destruct (clear_bit_spec tid (tid_map s) Hw ltac:(lia)) as (map & E & Hw' & Hlen & Hbits).
  cbn [set_mm tid_map]. rewrite E. cbn [mbind option_bind]. eexists. split; [done|]. cbn [os_task_table k_objs k_sys set_mm k_mm tid_map].
  split; [|split; [|split; [done|split]]].
  - apply (unregister_ok s tid o); try done.
    + split; [done|]. by rewrite Hlen.
    + intros u x Hne Hu Hhx. destruct (ko_mem _ Ho _ _ Hu Hhx) as [X1 X2]. destruct (ko_distinct _ Ho _ _ _ _ Hu Hreg Hhx Hh Hne) as [D1 D2]. split.
      * destruct Hc as [[-> _]|(hd & Hk & _)]; [unfold live; by rewrite Hh1|]. apply Hk; [done|]. unfold live. by rewrite Hh1.
      * destruct (Hkeep _ _ D2 X2) as (pg & Hin & Hx). exists pg. rewrite G3. done.
  - intros x (_ & Hx & _). cbn in Hx. rewrite list_lookup_insert_eq in Hx; [done|]. by eapply lookup_lt_Some.
  - intros k (pg & Hin & Hx). rewrite G3 in Hin. apply (Hgone k). by exists pg.
  - intros u x Hne (R0 & R1 & R2). split; [done|]. cbn. rewrite list_lookup_insert_ne by lia. done.
Qed.

End task_ok.

(** ** Deviations *)

(** task_return_to_user clears every thread flag of the task, a pending request
    to reschedule included, instead of the two it handles. *)
Theorem return_to_user_clears_flags s left s' cur t t' :
  task_return_to_user s = Some (left, s') -> current (k_sys s) = Some cur -> tasks (k_sys s) !! cur = Some t -> tasks (k_sys s') !! cur = Some t' ->
  t_ti_flags t' = 0.
Proof.
  intros E Hc Ht Ht'. unfold task_return_to_user, task_at in E. rewrite Hc in E. cbn [mbind option_bind] in E. destruct (k_objs s !! cur) as [o|]; [|done].
  cbn [mbind option_bind] in E. rewrite Ht in E. cbn [mbind option_bind] in E. destruct (negb (Z.land (k_flags o) TASK_FLAGS_VCPU =? 0)) in E; [|done]. revert E. msimpl.
  rewrite (upd_task_some _ _ _ _ Ht). cbn [mbind option_bind]. intros [= _ <-]. cbn in Ht'. rewrite lookup_insert_eq in Ht'. injection Ht' as <-.
  assert (forall x y, Z.ldiff x (Z.lor x y) = 0) as Hz.
  { intros x y. apply Z.bits_inj'. intros i Hi. rewrite Z.ldiff_spec, Z.lor_spec, Z.bits_0. by destruct (Z.testbit x i), (Z.testbit y i). }
  destruct (negb _); [cbn; apply Hz|]. destruct (negb _); cbn; apply Hz.
Qed.

(** ** Witnesses: a system of 64 task ids, of which 0, 5 and 7 are taken. *)
Definition demo_kt : kt := mk_kt [161] (replicate 64 None) ∅ demo0 demo_sys.
Abbreviation demo_ok := (kt_ok 64 512 0x40100000 0x42000000).

Lemma demo_kt_ok : demo_ok demo_kt.
Proof.
  assert (forall tid o, ~ registered demo_kt tid o) as Hnone.
  { intros tid o (_ & Ht & _). apply lookup_replicate_1 in Ht as [Ht _]. done. }
  split; try done.
  - split_and!; try done. by repeat constructor.
  - intros tid a Ht. by apply (lookup_replicate_1 64) in Ht as [Ht _].
  - intros tid o H. by destruct (Hnone tid o).
  - intros t1 t2 o1 o2 H. by destruct (Hnone t1 o1).
  - split; [eexists; apply demo0_slab|apply demo0_pages].
  - apply demo_sys_wf.
  - intros p tid [= <-] (q & l & E & Hin). do 8 (destruct q as [|q]; [cbn in E; injection E as <-;
      first [by inversion Hin | apply list_elem_of_singleton in Hin as ->; done]|]). discriminate E.
Qed.

Lemma create_vcpu_task_correct_witness :
  exists tid s', create_vcpu_task 64 512 1 0 0x1000 demo_kt = Some (Some tid, s') /\ demo_ok s'.
Proof.
  destruct (create_vcpu_task_correct 64 512 0x40100000 0x42000000 ltac:(lia) demo_kt 1 0x1000 demo_kt_ok) as [[H _]|(tid & s' & o & t & E & Ho & _)].
  - right. unfold NR_CPUS. lia.
  - vm_compute. intros H. discriminate H.
  - exfalso. specialize (H 1 ltac:(lia)). vm_compute in H. discriminate H.
  - exists tid, s'. split; [exact E|exact Ho].
Defined.

Definition demo_kt2 : kt := default demo_kt (snd <$> do_create_task 512 TASK_STACK_SIZE OS_PRIO_VCPU 1 1 VCPU_TASK_FLAG 0x1000 (set_tid_map [163] demo_kt)).

Lemma demo_kt2_ok : demo_ok demo_kt2 /\ registered demo_kt2 1 (mk_kobj 0x40100010 0x41ffe000 0x42000000 VCPU_TASK_FLAG 0x1000).
Proof.
  destruct (do_create_task_spec 64 512 0x40100000 0x42000000 ltac:(lia) demo_kt TASK_STACK_SIZE OS_PRIO_VCPU 1 1 VCPU_TASK_FLAG 0x1000 [163] demo_kt_ok)
    as (s' & o & E & Ho & _ & Hr & _).
  - by vm_compute.
  - reflexivity.
  - vm_compute. intros H. discriminate H.
  - lia.
  - reflexivity.
  - split_and!; try done. by repeat constructor.
  - intros i Hi. unfold bit_at. cbn [demo_kt tid_map]. destruct (Z.to_nat (i / 64)) as [|n] eqn:En; cbn [lookup list_lookup].
    + assert (0 <= i < 64) as Hr by (split; [done|]; pose proof (Z.div_mod i 64 ltac:(lia)); pose proof (Z.mod_pos_bound i 64 ltac:(lia)); lia).
      rewrite Z.mod_small by lia. change 163 with (Z.lor (2 ^ 1) 161). rewrite Z.lor_spec. f_equal.
      destruct (Z.eqb_spec i 1) as [->|]; [reflexivity|]. by apply Z.pow2_bits_false.
    + destruct (Z.eqb_spec i 1) as [->|]; done.
  - assert (demo_kt2 = s') as <- by (unfold demo_kt2; by rewrite E). split; [done|].
    split; [lia|]. split; vm_compute; reflexivity.
Qed.

Lemma do_release_task_correct_witness :
  exists s', do_release_task 64 1 demo_kt2 = Some s' /\ demo_ok s'.
Proof.
  destruct (do_release_task_correct 64 512 0x40100000 0x42000000 demo_kt2 1 _ (proj1 demo_kt2_ok) (proj2 demo_kt2_ok)) as (s' & E & Ho & _).
  - reflexivity.
  - intros p Hp (q & l & El & Hin). vm_compute in Hp. injection Hp as <-. do 8 (destruct q as [|q]; [cbn in El; injection El as <-;
      first [by inversion Hin | apply list_elem_of_singleton in Hin; done]|]). discriminate El.
  - exists s'. split; [exact E|exact Ho].
Defined.
