(* ===== verification/Irq.v ===== *)
(** * Physical interrupts (core/irq.c, include/minos/irq.h)

    Every interrupt has a descriptor: the 32 private ones one per CPU, the
    shared ones one for the system.  The interrupt controller is a driver
    outside of this file: it appears as the list of interrupts that
    [get_pending_irq] will return and the record of the calls made to it, in
    order.  A handler is a number; [run_handler] gives for its interrupt and data what
    it returns and the operations of this file that it performs, which may depend
    on the state and on all that was done before.  A pointer that is tested
    against NULL is an [option]. *)
From S2P Require Import Prelude.

Definition NR_PERCPU_IRQS : Z := 32.
Definition SPI_IRQ_BASE : Z := NR_PERCPU_IRQS.
Definition BAD_IRQ : Z := 1023.

Definition IRQ_FLAGS_TYPE_MASK : Z := 0xff.
Definition IRQ_FLAGS_MASKED : Z := 0x100.
Definition IRQ_FLAGS_VCPU : Z := 0x400.

Definition DEFAULT_IRQ_HANDLER : Z := 0.

Record irq_desc := mk_desc {
  i_handler : Z;
  i_hno : Z;
  i_affinity : Z;
  i_flags : Z;
  i_pdata : Z;
}.

Definition set_flags (f : Z) (d : irq_desc) : irq_desc := mk_desc (i_handler d) (i_hno d) (i_affinity d) f (i_pdata d).
Definition set_affinity (c : Z) (d : irq_desc) : irq_desc := mk_desc (i_handler d) (i_hno d) c (i_flags d) (i_pdata d).

Inductive chip_call :=
| call_handler (h hno pdata : Z)
| irq_eoi (irq : Z)
| irq_dir (irq : Z)
| irq_mask (irq : Z)
| irq_unmask (irq : Z)
| irq_unmask_cpu (irq cpu : Z)
| chip_set_affinity (irq cpu : Z)
| chip_set_type (irq type : Z)
| chip_clear_pending (irq : Z)
| chip_send_sgi (sgi cpu : Z).

(** Which of the optional functions the chip has. *)
Record irq_chip := mk_chip {
  has_clear_pending : bool;
  has_set_affinity : bool;
  has_set_type : bool;
}.

Record irqs := mk_irqs {
  percpu_irq_descs : list irq_desc;
  spi_irq_descs : list irq_desc;
  pending : list Z;
  calls : list chip_call;
}.

(** The operations of the interrupt core that other code calls. *)
Inductive irq_op :=
| op_request (irq : Z) (h : option Z) (flags data : Z)
| op_request_percpu (irq : Z) (h : option Z) (flags data : Z)
| op_enable (irq : Z) (enable : bool)
| op_affinity (irq cpu : Z)
| op_type (irq type : Z)
| op_clear (irq : Z)
| op_dir (irq : Z)
| op_sgi (sgi cpu : Z).

Definition call (c : chip_call) (s : irqs) : irqs := mk_irqs (percpu_irq_descs s) (spi_irq_descs s) (pending s) (calls s ++ [c]).

Section irq.
Context (NR_CPUS CONFIG_NR_SPI_IRQS : Z) (chip : irq_chip) (run_handler : Z -> Z -> Z -> irqs -> Z * list irq_op).

Definition MAX_IRQ_COUNT : Z := CONFIG_NR_SPI_IRQS + NR_PERCPU_IRQS.

Definition send_sgi (sgi cpu : Z) (s : irqs) : irqs :=
  if (cpu <? 0) || (NR_CPUS <=? cpu) then s
  else if 16 <=? sgi then s
  else call (chip_send_sgi sgi cpu) s.

(** Reading and writing the descriptor that [get_irq_desc_cpu] points to; the
    outer [option] is an access out of the array, the inner one NULL. *)
Definition get_irq_desc_cpu (cpuid irq : Z) (s : irqs) : option (option irq_desc) :=
  if MAX_IRQ_COUNT <=? irq then Some None
  else if irq <? SPI_IRQ_BASE then Some <$> percpu_irq_descs s !! Z.to_nat (cpuid * NR_PERCPU_IRQS + irq)
  else Some <$> spi_irq_descs s !! Z.to_nat (irq - SPI_IRQ_BASE).

Definition put_irq_desc_cpu (cpuid irq : Z) (d : irq_desc) (s : irqs) : irqs :=
  if irq <? SPI_IRQ_BASE
  then mk_irqs (<[Z.to_nat (cpuid * NR_PERCPU_IRQS + irq) := d]> (percpu_irq_descs s)) (spi_irq_descs s) (pending s) (calls s)
  else mk_irqs (percpu_irq_descs s) (<[Z.to_nat (irq - SPI_IRQ_BASE) := d]> (spi_irq_descs s)) (pending s) (calls s).

Definition __irq_enable (cpu irq : Z) (enable : bool) (s : irqs) : option irqs :=
  d ← get_irq_desc_cpu cpu irq s;
  Some (match d with
        | None => s
        | Some d =>
            if enable then put_irq_desc_cpu cpu irq (set_flags (Z.ldiff (i_flags d) IRQ_FLAGS_MASKED) d) (call (irq_unmask irq) s)
            else put_irq_desc_cpu cpu irq (set_flags (Z.lor (i_flags d) IRQ_FLAGS_MASKED) d) (call (irq_mask irq) s)
        end).

Definition irq_clear_pending (irq : Z) (s : irqs) : irqs := if has_clear_pending chip then call (chip_clear_pending irq) s else s.

(** [this_cpu] is [smp_processor_id()]; the descriptor field is 16 bits wide. *)
Definition irq_set_affinity (this_cpu irq cpu : Z) (s : irqs) : option irqs :=
  if NR_CPUS <=? cpu then Some s
  else
    d ← get_irq_desc_cpu this_cpu irq s;
    Some (match d with
          | None => s
          | Some d =>
              let s := put_irq_desc_cpu this_cpu irq (set_affinity (u16 cpu) d) s in
              if has_set_affinity chip then call (chip_set_affinity irq cpu) s else s
          end).

Definition irq_set_type (this_cpu irq type : Z) (s : irqs) : option irqs :=
  d ← get_irq_desc_cpu this_cpu irq s;
  Some (match d with
        | None => s
        | Some d =>
            if type =? Z.land (i_flags d) IRQ_FLAGS_TYPE_MASK then s
            else
              let s := if has_set_type chip then call (chip_set_type irq type) s else s in
              put_irq_desc_cpu this_cpu irq (set_flags (Z.lor (Z.ldiff (i_flags d) IRQ_FLAGS_TYPE_MASK) type) d) s
        end).

(** The loop over the CPUs [i], [i + 1], ... *)
Fixpoint request_percpu_loop (n : nat) (i irq handler flags data : Z) (s : irqs) : option irqs :=
  match n with
  | O => Some s
  | S n =>
      d ← get_irq_desc_cpu i irq s;
      let s := match d with
               | None => s
               | Some d =>
                   put_irq_desc_cpu i irq (mk_desc handler irq i (Z.ldiff (Z.lor (i_flags d) flags) IRQ_FLAGS_MASKED) data) (call (irq_unmask_cpu irq i) s)
               end in
      request_percpu_loop n (i + 1) irq handler flags data s
  end.

Definition request_irq_percpu (irq : Z) (handler : option Z) (flags data : Z) (s : irqs) : option (Z * irqs) :=
  match handler with
  | None => Some (- EINVAL, s)
  | Some h =>
      if NR_PERCPU_IRQS <=? irq then Some (- EINVAL, s)
      else s ← request_percpu_loop (Z.to_nat NR_CPUS) 0 irq h flags data s; Some (0, s)
  end.

Definition request_irq (this_cpu irq : Z) (handler : option Z) (flags data : Z) (s : irqs) : option (Z * irqs) :=
  match handler with
  | None => Some (- EINVAL, s)
  | Some h =>
      d ← get_irq_desc_cpu this_cpu irq s;
      match d with
      | None => Some (- ENOENT, s)
      | Some d =>
          let type := Z.land flags IRQ_FLAGS_TYPE_MASK in
          let flags := Z.ldiff flags IRQ_FLAGS_TYPE_MASK in
          let d := mk_desc h (u16 irq) (if irq <? SPI_IRQ_BASE then this_cpu else i_affinity d)
                     (Z.ldiff (Z.lor (i_flags d) flags) IRQ_FLAGS_MASKED) data in
          let s := put_irq_desc_cpu this_cpu irq d (call (irq_unmask irq) s) in
          s ← (if negb (type =? 0) then irq_set_type this_cpu irq type s else Some s);
          Some (0, s)
      end
  end.

(** An operation on the cpu [cpu]; its result is dropped. *)
Definition core_op (cpu : Z) (o : irq_op) (s : irqs) : option irqs :=
  match o with
  | op_request irq h flags data => snd <$> request_irq cpu irq h flags data s
  | op_request_percpu irq h flags data => snd <$> request_irq_percpu irq h flags data s
  | op_enable irq e => __irq_enable cpu irq e s
  | op_affinity irq c => irq_set_affinity cpu irq c s
  | op_type irq t => irq_set_type cpu irq t s
  | op_clear irq => Some (irq_clear_pending irq s)
  | op_dir irq => Some (call (irq_dir irq) s)
  | op_sgi sgi c => Some (send_sgi sgi c s)
  end.

Fixpoint core_ops (cpu : Z) (l : list irq_op) (s : irqs) : option irqs :=
  match l with
  | [] => Some s
  | o :: l => s ← core_op cpu o s; core_ops cpu l s
  end.

(** [irq_desc] points to the descriptor of [irq], which is read again after the
    handler has run. *)
Definition do_handle_host_irq (cpuid irq : Z) (s : irqs) : option (Z * irqs) :=
  d ← mjoin (get_irq_desc_cpu cpuid irq s);
  '(r, s) ←
    (if negb (cpuid =? i_affinity d) then Some (- EINVAL, s)
     else
       let s := call (call_handler (i_handler d) (i_hno d) (i_pdata d)) s in
       let '(r, ops) := run_handler (i_handler d) (i_hno d) (i_pdata d) s in
       s ← core_ops cpuid ops s;
       d ← mjoin (get_irq_desc_cpu cpuid irq s);
       Some (r, call (irq_eoi (i_hno d)) s));
  d ← mjoin (get_irq_desc_cpu cpuid irq s);
  Some (r, if negb (r =? 0) || (Z.land (i_flags d) IRQ_FLAGS_VCPU =? 0) then call (irq_dir (i_hno d)) s else s).

(** [get_pending_irq] takes the next interrupt, or says that there is none. *)
Definition get_pending_irq (s : irqs) : Z * irqs :=
  match pending s with
  | [] => (BAD_IRQ, s)
  | irq :: l => (irq, mk_irqs (percpu_irq_descs s) (spi_irq_descs s) l (calls s))
  end.

Fixpoint do_irq_handler (fuel : nat) (cpuid : Z) (s : irqs) : option irqs :=
  match fuel with
  | O => None
  | S fuel =>
      let '(irq, s) := get_pending_irq s in
      if BAD_IRQ <=? irq then Some s
      else
        d ← get_irq_desc_cpu cpuid irq s;
        match d with
        | None => do_irq_handler fuel cpuid (call (irq_dir irq) (call (irq_eoi irq) s))
        | Some _ => '(_, s) ← do_handle_host_irq cpuid irq s; do_irq_handler fuel cpuid s
        end
  end.

(** The descriptors as they are defined statically. *)
Definition init_irqs (l : list Z) : irqs :=
  mk_irqs (replicate (Z.to_nat (NR_PERCPU_IRQS * NR_CPUS)) (mk_desc DEFAULT_IRQ_HANDLER 0 0 0 0))
    (replicate (Z.to_nat CONFIG_NR_SPI_IRQS) (mk_desc DEFAULT_IRQ_HANDLER 0 0 0 0)) l [].

(** ** The arrays *)
Record irqs_ok (s : irqs) : Prop := mk_irqs_ok {
  io_cpus : 0 < NR_CPUS;
  io_spi : 0 <= CONFIG_NR_SPI_IRQS /\ MAX_IRQ_COUNT <= BAD_IRQ;
  io_percpu : length (percpu_irq_descs s) = Z.to_nat (NR_PERCPU_IRQS * NR_CPUS);
  io_spis : length (spi_irq_descs s) = Z.to_nat CONFIG_NR_SPI_IRQS;
}.

Definition desc_at (cpu irq : Z) (s : irqs) : option irq_desc := mjoin (get_irq_desc_cpu cpu irq s).

Lemma get_desc_some s cpu irq :
  irqs_ok s -> 0 <= cpu < NR_CPUS -> 0 <= irq < MAX_IRQ_COUNT -> exists d, get_irq_desc_cpu cpu irq s = Some (Some d).
Proof.
  intros [H1 H2 H3 H4] Hc Hi. unfold get_irq_desc_cpu, SPI_IRQ_BASE, MAX_IRQ_COUNT, NR_PERCPU_IRQS in *.
  rewrite (proj2 (Z.leb_gt _ _)) by lia. destruct (Z.ltb_spec irq 32).
  - destruct (lookup_lt_is_Some_2 (percpu_irq_descs s) (Z.to_nat (cpu * 32 + irq))) as [d ->]; [nia|by exists d].
  - destruct (lookup_lt_is_Some_2 (spi_irq_descs s) (Z.to_nat (irq - 32))) as [d ->]; [lia|by exists d].
Qed.

Lemma put_desc_ok s cpu irq d : irqs_ok s -> irqs_ok (put_irq_desc_cpu cpu irq d s).
Proof. intros [H1 H2 H3 H4]. unfold put_irq_desc_cpu. destruct (_ <? _); split; cbn; rewrite ?length_insert; done. Qed.

Lemma call_ok s c : irqs_ok s -> irqs_ok (call c s).
Proof. by intros [H1 H2 H3 H4]. Qed.

(** Two interrupts of two CPUs share a descriptor only when they are the same
    shared interrupt, or the same one of the same CPU. *)
Definition same_desc (cpu irq cpu' irq' : Z) : bool := (irq =? irq') && ((SPI_IRQ_BASE <=? irq) || (cpu =? cpu')).

Lemma get_put_desc s cpu irq cpu' irq' d :
  irqs_ok s -> 0 <= cpu < NR_CPUS -> 0 <= cpu' < NR_CPUS -> 0 <= irq < MAX_IRQ_COUNT -> 0 <= irq' ->
  get_irq_desc_cpu cpu' irq' (put_irq_desc_cpu cpu irq d s) =
    if same_desc cpu irq cpu' irq' then Some (Some d) else get_irq_desc_cpu cpu' irq' s.
Proof.
  intros [H1 H2 H3 H4] Hc Hc' Hi Hi'. unfold get_irq_desc_cpu, put_irq_desc_cpu, same_desc, SPI_IRQ_BASE, MAX_IRQ_COUNT, NR_PERCPU_IRQS in *.
  destruct (Z.eqb_spec irq irq') as [->|Hne]; cbn [andb].
  - rewrite (proj2 (Z.leb_gt _ _)) by lia. destruct (Z.ltb_spec irq' 32), (Z.leb_spec 32 irq'); try lia; cbn [orb].
    + destruct (Z.eqb_spec cpu cpu') as [->|Hne]; cbn.
      * rewrite list_lookup_insert_eq; [done|]. nia.
      * rewrite list_lookup_insert_ne by nia. done.
    + cbn [spi_irq_descs]. rewrite list_lookup_insert_eq; [done|]. lia.
  - destruct (_ <=? irq'); [done|]. destruct (Z.ltb_spec irq 32), (Z.ltb_spec irq' 32); cbn; try done.
    + rewrite list_lookup_insert_ne by nia. done.
    + rewrite list_lookup_insert_ne by lia. done.
Qed.
(** ** Registration *)
Definition with_calls (s : irqs) (l : list Z) (cs : list chip_call) : irqs :=
  mk_irqs (percpu_irq_descs s) (spi_irq_descs s) l (calls s ++ cs).

Lemma with_calls_ok s l cs : irqs_ok s -> irqs_ok (with_calls s l cs).
Proof. by intros [H1 H2 H3 H4]. Qed.

Lemma put_desc_calls s cpu irq d c : put_irq_desc_cpu cpu irq d (call c s) = call c (put_irq_desc_cpu cpu irq d s).
Proof. unfold put_irq_desc_cpu. by destruct (_ <? _). Qed.

Lemma get_desc_call s cpu irq c : get_irq_desc_cpu cpu irq (call c s) = get_irq_desc_cpu cpu irq s.
Proof. done. Qed.

Lemma put_put_desc s cpu irq d d' : put_irq_desc_cpu cpu irq d (put_irq_desc_cpu cpu irq d' s) = put_irq_desc_cpu cpu irq d s.
Proof. unfold put_irq_desc_cpu. by destruct (_ <? _); cbn; rewrite list_insert_insert_eq. Qed.

Lemma same_desc_refl cpu irq : same_desc cpu irq cpu irq = true.
Proof. unfold same_desc. by rewrite !Z.eqb_refl, orb_true_r. Qed.

(** The descriptor an interrupt has after [request_irq]. *)
Definition requested (this_cpu irq h flags data : Z) (d : irq_desc) : irq_desc :=
  let type := Z.land flags IRQ_FLAGS_TYPE_MASK in
  let f := Z.ldiff (Z.lor (i_flags d) (Z.ldiff flags IRQ_FLAGS_TYPE_MASK)) IRQ_FLAGS_MASKED in
  mk_desc h irq (if irq <? SPI_IRQ_BASE then this_cpu else i_affinity d)
    (if (type =? 0) || (type =? Z.land f IRQ_FLAGS_TYPE_MASK) then f else Z.lor (Z.ldiff f IRQ_FLAGS_TYPE_MASK) type) data.

Lemma request_irq_spec s this_cpu irq h flags data d :
  irqs_ok s -> 0 <= this_cpu < NR_CPUS -> 0 <= irq < MAX_IRQ_COUNT -> get_irq_desc_cpu this_cpu irq s = Some (Some d) ->
  exists cs, request_irq this_cpu irq (Some h) flags data s =
    Some (0, put_irq_desc_cpu this_cpu irq (requested this_cpu irq h flags data d) (with_calls s (pending s) (irq_unmask irq :: cs)))
    /\ Forall (fun c => c = chip_set_type irq (Z.land flags IRQ_FLAGS_TYPE_MASK)) cs.
Proof.
  intros Ho Hc Hi Hd. unfold request_irq, requested. rewrite Hd. msimpl.
  assert (u16 irq = irq) as Hu.
  { destruct Ho as [_ [_ H2] _ _]. unfold BAD_IRQ in H2. unfold u16. rewrite Z.mod_small by lia. done. }
  rewrite Hu. destruct (Z.eqb_spec (Z.land flags IRQ_FLAGS_TYPE_MASK) 0) as [E|E]; cbn [negb orb].
  - exists []. split; [|constructor]. done.
  - unfold irq_set_type. rewrite get_put_desc by (try apply call_ok; done || lia). rewrite same_desc_refl. msimpl. cbn [i_flags i_handler i_hno i_affinity i_pdata].
    destruct (_ =? Z.land _ _).
    + exists []. split; [done|constructor].
    + rewrite <- !put_desc_calls. destruct (has_set_type chip).
      * exists [chip_set_type irq (Z.land flags IRQ_FLAGS_TYPE_MASK)]. split; [|by repeat constructor].
        f_equal. f_equal. unfold set_flags; cbn [i_handler i_hno i_affinity i_pdata]. rewrite <- ?put_desc_calls, put_put_desc.
        f_equal. unfold call, with_calls; cbn. by rewrite <- app_assoc.
      * exists []. split; [|constructor]. rewrite put_put_desc. done.
Qed.

Lemma percpu_loop_spec n i irq h flags data s :
  irqs_ok s -> 0 <= i -> i + Z.of_nat n <= NR_CPUS -> 0 <= irq < NR_PERCPU_IRQS ->
  exists s', request_percpu_loop n i irq h flags data s = Some s' /\ irqs_ok s' /\
    (forall cpu' irq', 0 <= cpu' < NR_CPUS -> 0 <= irq' ->
       get_irq_desc_cpu cpu' irq' s' =
         if (irq' =? irq) && (i <=? cpu') && (cpu' <? i + Z.of_nat n)
         then option_map (option_map (fun d => mk_desc h irq cpu' (Z.ldiff (Z.lor (i_flags d) flags) IRQ_FLAGS_MASKED) data)) (get_irq_desc_cpu cpu' irq s)
         else get_irq_desc_cpu cpu' irq' s) /\
    calls s' = calls s ++ map (irq_unmask_cpu irq) (seqZ i (Z.of_nat n)).
Proof.
  revert i s. induction n as [|n IH]; intros i s Ho Hi Hn Hirq.
  { exists s. split_and!; [done..| |cbn; by rewrite app_nil_r].
    intros cpu' irq' Hc' Hi'. destruct (Z.leb_spec i cpu'), (Z.ltb_spec cpu' (i + Z.of_nat 0)); rewrite ?andb_false_r; try done; lia. }
  assert (0 <= irq < MAX_IRQ_COUNT) as Hm by (destruct Ho as [_ [H2 _] _ _]; unfold MAX_IRQ_COUNT; lia).
  destruct (get_desc_some s i irq Ho ltac:(lia) Hm) as [d Hd]. cbn [request_percpu_loop]. rewrite Hd. msimpl.
  set (d1 := mk_desc h irq i (Z.ldiff (Z.lor (i_flags d) flags) IRQ_FLAGS_MASKED) data).
  set (s1 := call (irq_unmask_cpu irq i) s). assert (irqs_ok s1) as Ho1 by by apply call_ok.
  destruct (IH (i + 1) (put_irq_desc_cpu i irq d1 s1)) as (s' & -> & Ho' & Hg & Hcs); [by apply put_desc_ok|lia..|].
  exists s'. split_and!; [done|done| |].
  - intros cpu' irq' Hc' Hi'. rewrite Hg by done. rewrite !get_put_desc by (done || lia).
    unfold same_desc, SPI_IRQ_BASE. rewrite (proj2 (Z.leb_gt NR_PERCPU_IRQS irq)) by lia. rewrite Z.eqb_refl. cbn [andb orb].
    rewrite (Z.eqb_sym irq irq'). destruct (Z.eqb_spec irq' irq) as [->|Hne]; cbn [andb]; [|done].
    destruct (Z.eqb_spec i cpu') as [<-|Hne].
    + rewrite (proj2 (Z.leb_gt (i + 1) i)) by lia. rewrite Z.leb_refl, (proj2 (Z.ltb_lt i (i + Z.of_nat (S n)))) by lia. cbn [andb]. rewrite Hd. done.
    + destruct (Z.leb_spec (i + 1) cpu'), (Z.leb_spec i cpu'), (Z.ltb_spec cpu' (i + 1 + Z.of_nat n)), (Z.ltb_spec cpu' (i + Z.of_nat (S n))); try lia; done.
  - rewrite Hcs. assert (calls (put_irq_desc_cpu i irq d1 s1) = calls s ++ [irq_unmask_cpu irq i]) as ->.
    { unfold put_irq_desc_cpu. by destruct (_ <? _). }
    rewrite <- app_assoc. f_equal. cbn [app]. rewrite (seqZ_cons i (Z.of_nat (S n))) by lia. cbn [map]. repeat f_equal; lia.
Qed.

(** [request_irq_percpu] registers a private interrupt on every CPU and
    nothing else: it unmasks the interrupt once on each CPU in order; on every
    CPU the descriptor then has the handler, the interrupt's own number and data
    and that CPU, and the descriptors of the other interrupts keep their contents; a number that is not private, or a missing
    handler, is refused with [-EINVAL] and changes nothing. *)
Theorem request_irq_percpu_correct s irq handler flags data :
  irqs_ok s -> 0 <= irq ->
  exists r s', request_irq_percpu irq handler flags data s = Some (r, s') /\ irqs_ok s' /\
    match handler with
    | Some h =>
        if irq <? NR_PERCPU_IRQS then
          r = 0 /\
          calls s' = calls s ++ map (irq_unmask_cpu irq) (seqZ 0 NR_CPUS) /\
          (forall cpu, 0 <= cpu < NR_CPUS -> exists d, desc_at cpu irq s' = Some d /\
             i_handler d = h /\ i_hno d = irq /\ i_affinity d = cpu /\ i_pdata d = data /\ Z.land (i_flags d) IRQ_FLAGS_MASKED = 0) /\
          (forall cpu irq', 0 <= cpu < NR_CPUS -> 0 <= irq' -> irq' <> irq -> get_irq_desc_cpu cpu irq' s' = get_irq_desc_cpu cpu irq' s)
        else r = - EINVAL /\ s' = s
    | None => r = - EINVAL /\ s' = s
    end.
Proof.
  intros Ho Hi. unfold request_irq_percpu. destruct handler as [h|]; [|by exists (- EINVAL), s].
  destruct (Z.ltb_spec irq NR_PERCPU_IRQS) as [Hl|Hl]; [rewrite (proj2 (Z.leb_gt _ _) Hl)|rewrite (proj2 (Z.leb_le _ _) Hl); by exists (- EINVAL), s].
  pose proof (io_cpus s Ho) as Hcpus.
  destruct (percpu_loop_spec (Z.to_nat NR_CPUS) 0 irq h flags data s Ho ltac:(lia) ltac:(lia) ltac:(lia)) as (s' & -> & Ho' & Hg & Hcs). msimpl.
  exists 0, s'. split_and!; [done|done|done| | |].
  - rewrite Hcs. by rewrite Z2Nat.id by lia.
  - intros cpu Hc. assert (0 <= irq < MAX_IRQ_COUNT) as Hm by (destruct Ho as [_ [H2 _] _ _]; unfold MAX_IRQ_COUNT; lia).
    destruct (get_desc_some s cpu irq Ho Hc Hm) as [d Hd].
    unfold desc_at. rewrite Hg by lia. rewrite Z.eqb_refl, (proj2 (Z.leb_le 0 cpu)), (proj2 (Z.ltb_lt cpu _)) by lia. cbn [andb].
    rewrite Hd. eexists. split; [done|]. do 4 (split; [done|]). cbn [i_flags]. apply Z.land_ldiff.
  - intros cpu irq' Hc Hi' Hne. rewrite Hg by done. rewrite (proj2 (Z.eqb_neq _ _) Hne). done.
Qed.

(** ** The operations in any order *)

(** A descriptor that is still the static one, or one that carries the number
    of its interrupt. *)
Definition desc_sane (irq : Z) (d : irq_desc) : Prop := (i_handler d = DEFAULT_IRQ_HANDLER /\ i_hno d = 0) \/ i_hno d = irq.

Record irqs_inv (s : irqs) : Prop := mk_irqs_inv {
  ii_ok : irqs_ok s;
  ii_pending : Forall (fun i => 0 <= i) (pending s);
  ii_sane : forall cpu irq d, 0 <= cpu < NR_CPUS -> 0 <= irq -> get_irq_desc_cpu cpu irq s = Some (Some d) -> desc_sane irq d;
}.

Lemma get_desc_max s cpu irq d : get_irq_desc_cpu cpu irq s = Some (Some d) -> irq < MAX_IRQ_COUNT.
Proof. unfold get_irq_desc_cpu. destruct (Z.leb_spec MAX_IRQ_COUNT irq); [done|lia]. Qed.

Lemma put_desc_inv s cpu irq d :
  irqs_inv s -> 0 <= cpu < NR_CPUS -> 0 <= irq < MAX_IRQ_COUNT -> desc_sane irq d -> irqs_inv (put_irq_desc_cpu cpu irq d s).
Proof.
  intros [Ho Hp Hs] Hc Hi Hd. split; [by apply put_desc_ok|unfold put_irq_desc_cpu; by destruct (_ <? _)|].
  intros cpu' irq' d' Hc' Hi'. rewrite get_put_desc by (done || lia). destruct (same_desc cpu irq cpu' irq') eqn:E; [|by apply Hs].
  intros [= <-]. unfold same_desc in E. apply andb_prop in E as [E _]. by apply Z.eqb_eq in E as <-.
Qed.

Lemma with_calls_inv s l cs : irqs_inv s -> Forall (fun i => 0 <= i) l -> irqs_inv (with_calls s l cs).
Proof. intros [Ho Hp Hs] Hl. split; [by apply with_calls_ok|done|exact Hs]. Qed.

Lemma call_inv s c : irqs_inv s -> irqs_inv (call c s).
Proof. intros [Ho Hp Hs]. split; [by apply call_ok|done|exact Hs]. Qed.

Lemma desc_sane_of s cpu irq d : irqs_inv s -> 0 <= cpu < NR_CPUS -> 0 <= irq -> get_irq_desc_cpu cpu irq s = Some (Some d) -> desc_sane irq d /\ 0 <= irq < MAX_IRQ_COUNT.
Proof. intros Hv Hc Hi Hd. split; [by eapply ii_sane|]. pose proof (get_desc_max _ _ _ _ Hd). lia. Qed.

(** What every operation keeps: the interrupts to come, the calls so far, and the
    numbers of the descriptors that carry theirs. *)
Definition owned (cpu irq : Z) (s : irqs) : Prop := exists d, get_irq_desc_cpu cpu irq s = Some (Some d) /\ i_hno d = irq.

Record kept (s s' : irqs) : Prop := mk_kept {
  kp_pending : pending s' = pending s;
  kp_calls : exists cs, calls s' = calls s ++ cs;
  kp_owned : forall cpu irq, 0 <= cpu < NR_CPUS -> 0 <= irq -> owned cpu irq s -> owned cpu irq s';
}.

Lemma kept_refl s : kept s s.
Proof. split; [done|exists []; by rewrite app_nil_r|done]. Qed.

Lemma kept_trans s1 s2 s3 : kept s1 s2 -> kept s2 s3 -> kept s1 s3.
Proof.
  intros [P1 [c1 C1] O1] [P2 [c2 C2] O2]. split; [congruence|exists (c1 ++ c2); by rewrite C2, C1, app_assoc|]. intros cpu irq Hc Hi H. by apply O2, O1.
Qed.

Lemma kept_call s c : kept s (call c s).
Proof. split; [done|by exists [c]|done]. Qed.

Lemma kept_put s cpu irq x d : irqs_ok s -> 0 <= cpu < NR_CPUS -> 0 <= irq < MAX_IRQ_COUNT -> get_irq_desc_cpu cpu irq s = Some (Some x) ->
  (i_hno x = irq -> i_hno d = irq) -> kept s (put_irq_desc_cpu cpu irq d s).
Proof.
  intros Ho Hc Hi Hx Hh. split; [unfold put_irq_desc_cpu; by destruct (_ <? _)|exists []; rewrite app_nil_r; unfold put_irq_desc_cpu; by destruct (_ <? _)|].
  intros cpu' irq' Hc' Hi' (y & Hy & E). unfold owned. rewrite get_put_desc by (done || lia). destruct (same_desc cpu irq cpu' irq') eqn:Es; [|by exists y].
  exists d. split; [done|]. unfold same_desc in Es. apply andb_prop in Es as [Es1 Es2]. apply Z.eqb_eq in Es1 as <-. apply Hh. assert (Some (Some x) = Some (Some y)) as [= ->]; [|done].
  rewrite <- Hx, <- Hy. unfold get_irq_desc_cpu. unfold SPI_IRQ_BASE in *. destruct (MAX_IRQ_COUNT <=? irq); [done|]. destruct (Z.ltb_spec irq NR_PERCPU_IRQS); [|done].
  rewrite (proj2 (Z.leb_gt _ _)) in Es2 by lia. cbn in Es2. by apply Z.eqb_eq in Es2 as ->.
Qed.

(** An operation that calls the controller and changes one descriptor. *)
Lemma change_spec s cpu irq x d cs : irqs_inv s -> 0 <= cpu < NR_CPUS -> 0 <= irq < MAX_IRQ_COUNT -> get_irq_desc_cpu cpu irq s = Some (Some x) ->
  desc_sane irq d -> (i_hno x = irq -> i_hno d = irq) ->
  let s' := put_irq_desc_cpu cpu irq d (with_calls s (pending s) cs) in irqs_inv s' /\ kept s s'.
Proof.
  intros Hv Hc Hi Hx Hd Hh. split; [apply put_desc_inv; [apply with_calls_inv; [done|apply Hv]|done..]|].
  apply (kept_trans _ (with_calls s (pending s) cs)); [split; [done|by exists cs|done]|]. apply (kept_put _ cpu irq x); try done. apply with_calls_ok, Hv.
Qed.

Lemma desc_cases s cpu irq : irqs_inv s -> 0 <= cpu < NR_CPUS -> 0 <= irq ->
  get_irq_desc_cpu cpu irq s = Some None \/ exists d, get_irq_desc_cpu cpu irq s = Some (Some d) /\ desc_sane irq d /\ 0 <= irq < MAX_IRQ_COUNT.
Proof.
  intros Hv Hc Hi. destruct (decide (irq < MAX_IRQ_COUNT)) as [Hm|Hm].
  - right. destruct (get_desc_some s cpu irq (ii_ok s Hv) Hc) as [d Hd]; [lia|]. exists d. split; [done|]. by apply (desc_sane_of s cpu).
  - left. unfold get_irq_desc_cpu. by rewrite (proj2 (Z.leb_le MAX_IRQ_COUNT irq)) by lia.
Qed.

Lemma with_no_calls s : with_calls s (pending s) [] = s.
Proof. unfold with_calls. rewrite app_nil_r. by destruct s. Qed.

Lemma percpu_loop_kept n i irq h flags data s : irqs_inv s -> 0 <= i -> i + Z.of_nat n <= NR_CPUS -> 0 <= irq ->
  exists s', request_percpu_loop n i irq h flags data s = Some s' /\ irqs_inv s' /\ kept s s'.
Proof.
  revert i s. induction n as [|n IH]; intros i s Hv Hi Hn Hirq; [exists s; split; [done|]; split; [done|apply kept_refl]|]. cbn [request_percpu_loop].
  destruct (desc_cases s i irq Hv) as [->|(d & Hd & Hs & Hm)]; [lia|done| |rewrite Hd]; msimpl; [apply IH; [done|lia..]|].
  destruct (change_spec s i irq d (mk_desc h irq i (Z.ldiff (Z.lor (i_flags d) flags) IRQ_FLAGS_MASKED) data) [irq_unmask_cpu irq i]) as [Hv1 Hk1]; [done|lia|done|done|by right|done|].
  edestruct IH as (s' & E & Hv' & Hk'); [exact Hv1|..|exists s'; split; [exact E|]; split; [done|by eapply kept_trans]]; lia.
Qed.

(** The arguments are unsigned. *)
Definition op_ok (o : irq_op) : Prop :=
  match o with
  | op_request irq _ _ _ | op_request_percpu irq _ _ _ | op_enable irq _ | op_affinity irq _ | op_type irq _ => 0 <= irq
  | _ => True
  end.

Lemma core_op_spec cpu o s : irqs_inv s -> 0 <= cpu < NR_CPUS -> op_ok o -> exists s', core_op cpu o s = Some s' /\ irqs_inv s' /\ kept s s'.
Proof.
  intros Hv Hc Hop. assert (exists s', Some s = Some s' /\ irqs_inv s' /\ kept s s') as Hsame by (exists s; split; [done|]; split; [done|apply kept_refl]).
  assert (forall c, exists s', Some (call c s) = Some s' /\ irqs_inv s' /\ kept s s') as Hcall by (intros c; eexists; split; [done|]; split; [by apply call_inv|apply kept_call]).
  destruct o as [irq h flags data|irq h flags data|irq e|irq c|irq ty|irq|irq|sgi c]; cbn [core_op op_ok] in *.
  - destruct h as [h|]; [|done]. destruct (desc_cases s cpu irq Hv Hc Hop) as [Hd|(d & Hd & Hs & Hm)]; [unfold request_irq; rewrite Hd; done|].
    destruct (request_irq_spec s cpu irq h flags data d (ii_ok s Hv) Hc Hm Hd) as (cs & -> & _). eexists. split; [done|].
    apply (change_spec s cpu irq d); try done. by right.
  - destruct h as [h|]; [|done]. unfold request_irq_percpu. destruct (Z.leb_spec NR_PERCPU_IRQS irq); [done|]. pose proof (io_cpus s (ii_ok s Hv)).
    destruct (percpu_loop_kept (Z.to_nat NR_CPUS) 0 irq h flags data s Hv) as (s' & -> & H1 & H2); [lia..|]. by exists s'.
  - unfold __irq_enable. destruct (desc_cases s cpu irq Hv Hc Hop) as [Hd|(d & Hd & Hs & Hm)]; rewrite Hd; [done|]. msimpl.
    destruct e; eexists; (split; [done|]); [apply (change_spec s cpu irq d _ [irq_unmask irq])|apply (change_spec s cpu irq d _ [irq_mask irq])]; done.
  - unfold irq_set_affinity. destruct (_ <=? c); [done|]. destruct (desc_cases s cpu irq Hv Hc Hop) as [Hd|(d & Hd & Hs & Hm)]; rewrite Hd; [done|]. msimpl.
    assert (irqs_inv (put_irq_desc_cpu cpu irq (set_affinity (u16 c) d) s) /\ kept s (put_irq_desc_cpu cpu irq (set_affinity (u16 c) d) s)) as [H1 H2].
    { rewrite <- (with_no_calls s) at 1 3. by apply (change_spec s cpu irq d). }
    eexists. split; [done|]. destruct (has_set_affinity chip); [|done]. split; [by apply call_inv|by eapply kept_trans, kept_call].
  - unfold irq_set_type. destruct (desc_cases s cpu irq Hv Hc Hop) as [Hd|(d & Hd & Hs & Hm)]; rewrite Hd; [done|]. msimpl. destruct (ty =? _); [done|].
    eexists. split; [done|]. destruct (has_set_type chip); [apply (change_spec s cpu irq d _ [chip_set_type irq ty]); done|]. rewrite <- (with_no_calls s) at 1 3. by apply (change_spec s cpu irq d).
  - unfold irq_clear_pending. by destruct (has_clear_pending chip).
  - done.
  - unfold send_sgi. destruct (_ || _); [done|]. by destruct (16 <=? sgi).
Qed.
Lemma init_irqs_inv l :
  0 < NR_CPUS -> 0 <= CONFIG_NR_SPI_IRQS -> MAX_IRQ_COUNT <= BAD_IRQ -> Forall (fun i => 0 <= i) l -> irqs_inv (init_irqs l).
Proof.
  intros Hn Hs Hm Hl. split; [split; cbn; rewrite ?length_replicate; done|done|].
  intros cpu irq d Hc Hi. unfold get_irq_desc_cpu, init_irqs; cbn [percpu_irq_descs spi_irq_descs].
  destruct (_ <=? irq); [done|]. destruct (_ <? _); intros Hd;
    (destruct (_ !! _) as [d'|] eqn:E; [|done]; apply lookup_replicate_1 in E as [-> _]; injection Hd as <-; by left).
Qed.

(** ** Dispatch *)

(** Handlers pass unsigned arguments. *)
Hypothesis handlers_ok : forall h hno pdata s, 0 <= hno -> Forall op_ok (run_handler h hno pdata s).2.

Lemma core_ops_spec cpu l s : irqs_inv s -> 0 <= cpu < NR_CPUS -> Forall op_ok l -> exists s', core_ops cpu l s = Some s' /\ irqs_inv s' /\ kept s s'.
Proof using.
  intros Hv Hc Hl. revert s Hv. induction Hl as [|o l Ho Hl IH]; intros s Hv; cbn [core_ops]; [exists s; split; [done|]; split; [done|apply kept_refl]|].
  destruct (core_op_spec cpu o s Hv Hc Ho) as (s1 & -> & Hv1 & Hk1). cbn [mbind option_bind]. destruct (IH s1 Hv1) as (s' & -> & Hv' & Hk').
  exists s'. split; [done|]. split; [done|]. by eapply kept_trans.
Qed.

(** What the handler of an interrupt does, from the state in which it is called. *)
Definition handled (cpu : Z) (d : irq_desc) (s : irqs) : option (Z * irqs) :=
  let s := call (call_handler (i_handler d) (i_hno d) (i_pdata d)) s in
  let '(r, ops) := run_handler (i_handler d) (i_hno d) (i_pdata d) s in
  s ← core_ops cpu ops s; Some (r, s).

Lemma handled_spec cpu d s : irqs_inv s -> 0 <= cpu < NR_CPUS -> 0 <= i_hno d -> exists r s', handled cpu d s = Some (r, s') /\ irqs_inv s' /\ kept s s'.
Proof using handlers_ok.
  intros Hv Hc Hh. unfold handled. set (s1 := call _ s). pose proof (handlers_ok (i_handler d) (i_hno d) (i_pdata d) s1 Hh) as Hl. destruct (run_handler _ _ _ s1) as [r ops].
  destruct (core_ops_spec cpu ops s1) as (s' & -> & Hv' & Hk'); [by apply call_inv|done|done|]. cbn [mbind option_bind]. exists r, s'. split; [done|]. split; [done|].
  by eapply kept_trans; [apply kept_call|].
Qed.

(** The descriptor of an interrupt below the limit is there in every state. *)
Lemma desc_there s cpu irq x s' : irqs_inv s' -> 0 <= cpu < NR_CPUS -> 0 <= irq -> get_irq_desc_cpu cpu irq s = Some (Some x) -> exists d, get_irq_desc_cpu cpu irq s' = Some (Some d).
Proof. intros Hv Hc Hi Hx. apply get_desc_some; [apply Hv|done|]. split; [done|]. by eapply get_desc_max. Qed.

Lemma do_handle_spec cpu irq s d : irqs_inv s -> 0 <= cpu < NR_CPUS -> 0 <= irq -> get_irq_desc_cpu cpu irq s = Some (Some d) ->
  exists r s', do_handle_host_irq cpu irq s = Some (r, s') /\ irqs_inv s' /\ kept s s' /\
    if cpu =? i_affinity d then
      exists s1 d1, handled cpu d s = Some (r, s1) /\ kept s s1 /\ get_irq_desc_cpu cpu irq s1 = Some (Some d1) /\
        s' = with_calls s1 (pending s1) (irq_eoi (i_hno d1) :: if negb (r =? 0) || (Z.land (i_flags d1) IRQ_FLAGS_VCPU =? 0) then [irq_dir (i_hno d1)] else [])
    else r = - EINVAL /\ s' = call (irq_dir (i_hno d)) s.
Proof using handlers_ok.
  intros Hv Hc Hi Hd. unfold do_handle_host_irq. rewrite Hd. cbn [mjoin option_join mbind option_bind].
  destruct (Z.eqb_spec cpu (i_affinity d)) as [Ha|Ha]; cbn [negb].
  2:{ cbn [mbind option_bind]. rewrite Hd. cbn [mjoin option_join mbind option_bind]. change (negb (- EINVAL =? 0)) with true. cbn [orb].
      eexists _, _. split; [done|]. split; [by apply call_inv|]. split; [apply kept_call|]. by split. }
  assert (0 <= i_hno d) as Hno by (destruct (ii_sane s Hv cpu irq d Hc Hi Hd) as [[_ ->]| ->]; lia).
  destruct (handled_spec cpu d s Hv Hc Hno) as (r & s1 & E & Hv1 & Hk1). unfold handled in E |- *. destruct (run_handler _ _ _ _) as [r' ops].
  destruct (core_ops cpu ops _) as [s1'|] eqn:E1; [|done]. cbn [mbind option_bind] in E |- *. injection E as -> ->.
  destruct (desc_there s cpu irq d s1 Hv1 Hc Hi Hd) as [d1 Hd1]. rewrite Hd1. cbn [mjoin option_join mbind option_bind]. rewrite get_desc_call, Hd1. cbn [mjoin option_join mbind option_bind].
  eexists _, _. split; [done|]. set (b := negb _ || _).
  assert ((if b then call (irq_dir (i_hno d1)) (call (irq_eoi (i_hno d1)) s1) else call (irq_eoi (i_hno d1)) s1) = with_calls s1 (pending s1) (irq_eoi (i_hno d1) :: if b then [irq_dir (i_hno d1)] else [])) as ->.
  { destruct b; unfold with_calls, call; cbn; by rewrite <- ?app_assoc. }
  split; [apply with_calls_inv; [done|apply Hv1]|]. split; [eapply kept_trans; [exact Hk1|]; split; [done|by eexists|done]|]. by exists s1, d1.
Qed.

(** [get_pending_irq] has taken the first of the interrupts to come. *)
Definition take_pending (s : irqs) (l : list Z) : irqs := mk_irqs (percpu_irq_descs s) (spi_irq_descs s) l (calls s).

Lemma take_pending_inv s l : irqs_inv s -> Forall (fun i => 0 <= i) l -> irqs_inv (take_pending s l).
Proof. intros [Ho Hp Hs] Hl. split; [by destruct Ho|done|exact Hs]. Qed.

Lemma do_irq_handler_returns n cpu s : irqs_inv s -> 0 <= cpu < NR_CPUS -> (length (pending s) < n)%nat -> exists s', do_irq_handler n cpu s = Some s' /\ irqs_inv s'.
Proof using handlers_ok.
  revert s. induction n as [|n IH]; intros s Hv Hc Hn; [lia|]. cbn [do_irq_handler]. unfold get_pending_irq. destruct (pending s) as [|irq l] eqn:Ep; [by exists s|].
  pose proof (ii_pending s Hv) as Hp. rewrite Ep in Hp. apply list.Forall_cons in Hp as [Hi Hl]. fold (take_pending s l). assert (irqs_inv (take_pending s l)) as Hv1 by by apply take_pending_inv.
  destruct (BAD_IRQ <=? irq); [by eexists|]. cbn [length] in Hn. destruct (desc_cases _ cpu irq Hv1 Hc Hi) as [Hd|(d & Hd & _)]; rewrite Hd; cbn [mbind option_bind].
  - apply IH; [by apply call_inv, call_inv|done|cbn; lia].
  - destruct (do_handle_spec cpu irq _ d Hv1 Hc Hi Hd) as (r & s2 & -> & Hv2 & Hk2 & _). cbn [mbind option_bind]. apply IH; [done|done|]. rewrite (kp_pending _ _ Hk2). cbn. lia.
Qed.

(** Whatever runs on the machine: an operation on a cpu, an interrupt that arrives,
    the dispatch loop of a cpu. *)
Inductive irq_step : irqs -> irqs -> Prop :=
| st_op s s' cpu o : 0 <= cpu < NR_CPUS -> op_ok o -> core_op cpu o s = Some s' -> irq_step s s'
| st_raise s irq : 0 <= irq -> irq_step s (take_pending s (pending s ++ [irq]))
| st_handle s s' cpu : 0 <= cpu < NR_CPUS -> do_irq_handler (S (length (pending s))) cpu s = Some s' -> irq_step s s'.

Lemma irq_step_inv s s' : irq_step s s' -> irqs_inv s -> irqs_inv s'.
Proof using handlers_ok.
  intros [s1 s2 cpu o Hc Ho E|s1 irq Hi|s1 s2 cpu Hc E] Hv.
  - destruct (core_op_spec cpu o s1 Hv Hc Ho) as (s3 & E3 & Hv3 & _). rewrite E in E3. by injection E3 as <-.
  - apply take_pending_inv; [done|]. apply list.Forall_app. split; [apply Hv|by repeat constructor].
  - destruct (do_irq_handler_returns (S (length (pending s1))) cpu s1 Hv Hc) as (s3 & E3 & Hv3); [lia|]. rewrite E in E3. by injection E3 as <-.
Qed.

Lemma irq_reachable_inv l s : 0 < NR_CPUS -> 0 <= CONFIG_NR_SPI_IRQS -> MAX_IRQ_COUNT <= BAD_IRQ -> Forall (fun i => 0 <= i) l -> rtc irq_step (init_irqs l) s -> irqs_inv s.
Proof using handlers_ok.
  intros Hn Hs Hm Hl Hr. assert (irqs_inv (init_irqs l)) as H0 by by apply init_irqs_inv. clear -Hr H0 handlers_ok. induction Hr as [|s1 s2 s3 H12 _ IH]; [done|]. by apply IH, (irq_step_inv s1 s2).
Qed.

(** C34: a registered interrupt reaches its handler, whatever ran before: any
    operations of the interrupt core on any cpus, arriving interrupts and runs of the
    dispatch loop, in which handlers themselves perform such operations.
    [request_irq] of a shared interrupt that belongs to this cpu, or of a private one,
    succeeds and changes no other descriptor; when the controller then reports the
    interrupt on this cpu, the dispatch loop returns after running exactly this
    handler, with the number and the data of the interrupt, and after all that the
    handler does the interrupt is ended under its own number, and then deactivated
    under it unless the handler has passed it on to a vcpu. *)
Theorem request_irq_delivers l s cpu irq h flags data :
  0 < NR_CPUS -> 0 <= CONFIG_NR_SPI_IRQS -> MAX_IRQ_COUNT <= BAD_IRQ -> Forall (fun i => 0 <= i) l -> rtc irq_step (init_irqs l) s -> pending s = [] ->
  0 <= cpu < NR_CPUS -> 0 <= irq < MAX_IRQ_COUNT -> (SPI_IRQ_BASE <= irq -> i_affinity <$> desc_at cpu irq s = Some cpu) ->
  exists s1, request_irq cpu irq (Some h) flags data s = Some (0, s1) /\
    (forall cpu' irq', 0 <= cpu' < NR_CPUS -> 0 <= irq' -> same_desc cpu irq cpu' irq' = false -> get_irq_desc_cpu cpu' irq' s1 = get_irq_desc_cpu cpu' irq' s) /\
    exists ops s2 s3 d, let r := (run_handler h irq data (call (call_handler h irq data) s1)).1 in
      (run_handler h irq data (call (call_handler h irq data) s1)).2 = ops /\
      core_ops cpu ops (call (call_handler h irq data) s1) = Some s2 /\ get_irq_desc_cpu cpu irq s2 = Some (Some d) /\
      do_irq_handler 2 cpu (take_pending s1 [irq]) = Some s3 /\
      calls s3 = calls s2 ++ irq_eoi irq :: (if negb (r =? 0) || (Z.land (i_flags d) IRQ_FLAGS_VCPU =? 0) then [irq_dir irq] else []) /\
      percpu_irq_descs s3 = percpu_irq_descs s2 /\ spi_irq_descs s3 = spi_irq_descs s2.
Proof using handlers_ok.
  intros Hn Hs Hm Hl Hr Hp Hc Hi Ha. pose proof (irq_reachable_inv l s Hn Hs Hm Hl Hr) as Hv. destruct (get_desc_some s cpu irq (ii_ok s Hv) Hc Hi) as [d0 Hd0].
  destruct (request_irq_spec s cpu irq h flags data d0 (ii_ok s Hv) Hc Hi Hd0) as (cs & -> & _). eexists. split; [done|]. rewrite Hp. set (s1 := put_irq_desc_cpu _ _ _ _).
  assert (irqs_ok (with_calls s [] (irq_unmask irq :: cs))) as Ho1 by (apply with_calls_ok, Hv).
  split; [intros cpu' irq' Hc' Hi' Hsd; unfold s1; rewrite get_put_desc by (done || lia); by rewrite Hsd|].
  assert (irqs_inv s1) as Hv1 by (apply put_desc_inv; [by apply with_calls_inv|done|done|by right]).
  assert (take_pending s1 [] = s1) as Et by (unfold s1, put_irq_desc_cpu; by destruct (_ <? _)).
  assert (get_irq_desc_cpu cpu irq s1 = Some (Some (requested cpu irq h flags data d0))) as Hd1 by (unfold s1; rewrite get_put_desc by (done || lia); by rewrite same_desc_refl).
  destruct (do_handle_spec cpu irq s1 _ Hv1 Hc (proj1 Hi) Hd1) as (r & s' & E & Hv' & Hk' & Hx).
  assert (cpu = i_affinity (requested cpu irq h flags data d0)) as Haff.
  { cbn. destruct (Z.ltb_spec irq SPI_IRQ_BASE) as [|Hsp]; [done|]. specialize (Ha Hsp). unfold desc_at in Ha. rewrite Hd0 in Ha. cbn in Ha. congruence. }
  rewrite <- Haff, Z.eqb_refl in Hx. destruct Hx as (s2 & d & Hh & Hk2 & Hd2 & ->). unfold handled in Hh. cbn [requested i_handler i_hno i_pdata] in Hh.
  destruct (run_handler h irq data _) as [r' ops] eqn:Er. destruct (core_ops cpu ops _) as [s2'|] eqn:E2; [|done]. cbn [mbind option_bind] in Hh. injection Hh as -> ->.
  assert (i_hno d = irq) as Hno.
  { destruct (kp_owned _ _ Hk2 cpu irq Hc (proj1 Hi)) as (d' & Hd' & Hno); [by eexists|]. rewrite Hd2 in Hd'. by injection Hd' as ->. }
  assert (do_irq_handler 2 cpu (take_pending s1 [irq]) = Some (with_calls s2 (pending s2) (irq_eoi (i_hno d) :: if negb (r =? 0) || (Z.land (i_flags d) IRQ_FLAGS_VCPU =? 0) then [irq_dir (i_hno d)] else []))) as Ed.
  { cbn [do_irq_handler]. unfold get_pending_irq at 1. cbn [take_pending pending percpu_irq_descs spi_irq_descs calls]. fold (take_pending s1 []). rewrite Et.
    rewrite (proj2 (Z.leb_gt BAD_IRQ irq)) by lia. rewrite Hd1. cbn [mbind option_bind]. rewrite E. cbn [mbind option_bind]. unfold get_pending_irq. cbn [pending with_calls].
    rewrite (kp_pending _ _ Hk2). replace (pending s1) with (@nil Z) by (by rewrite <- Et). done. }
  rewrite Hno in Ed. eexists ops, s2, _, d. split; [done|]. split; [done|]. split; [done|]. split; [exact Ed|]. by rewrite <- Hno.
Qed.

(** Whatever sequence of operations, arriving interrupts and runs of the dispatch
    loop follows the static tables, the dispatch loop returns on every cpu, and the
    tables keep their size and every descriptor that has a handler the number of
    its interrupt. *)
Theorem irq_reachable_returns l s cpu :
  0 < NR_CPUS -> 0 <= CONFIG_NR_SPI_IRQS -> MAX_IRQ_COUNT <= BAD_IRQ -> Forall (fun i => 0 <= i) l -> rtc irq_step (init_irqs l) s -> 0 <= cpu < NR_CPUS ->
  irqs_inv s /\ exists s', do_irq_handler (S (length (pending s))) cpu s = Some s' /\ irqs_inv s'.
Proof using handlers_ok.
  intros Hn Hs Hm Hl Hr Hc. pose proof (irq_reachable_inv l s Hn Hs Hm Hl Hr) as Hv. split; [done|]. by apply do_irq_handler_returns; [..|lia].
Qed.

(** An interrupt that belongs to another CPU is deactivated without the end of
    interrupt that its acknowledgement calls for. *)
Lemma wrong_cpu_without_eoi cpu irq d s :
  get_irq_desc_cpu cpu irq s = Some (Some d) -> cpu <> i_affinity d -> do_handle_host_irq cpu irq s = Some (- EINVAL, call (irq_dir (i_hno d)) s).
Proof using.
  intros Hd Ha. unfold do_handle_host_irq. rewrite Hd. cbn [mjoin option_join mbind option_bind]. rewrite (proj2 (Z.eqb_neq _ _) Ha). cbn [negb mbind option_bind]. rewrite Hd. done.
Qed.

(** An interrupt that nobody registered is acknowledged under the number 0: the
    default handler prints a line and does nothing else. *)
Lemma unregistered_acks_zero cpu irq s :
  (forall hno pdata s, run_handler DEFAULT_IRQ_HANDLER hno pdata s = (0, [])) ->
  get_irq_desc_cpu cpu irq s = Some (Some (mk_desc DEFAULT_IRQ_HANDLER 0 cpu 0 0)) ->
  do_handle_host_irq cpu irq s = Some (0, with_calls s (pending s) [call_handler DEFAULT_IRQ_HANDLER 0 0; irq_eoi 0; irq_dir 0]).
Proof using.
  intros Hh Hd. unfold do_handle_host_irq. rewrite Hd. cbn [mjoin option_join mbind option_bind i_affinity i_handler i_hno i_pdata]. rewrite Z.eqb_refl, Hh. cbn [negb core_ops mbind option_bind].
  rewrite get_desc_call, Hd. cbn [mjoin option_join mbind option_bind]. rewrite !get_desc_call, Hd. cbn. unfold with_calls, call. cbn. by rewrite <- !app_assoc.
Qed.
End irq.

(** ** A system of two CPUs with eight shared interrupts *)

(** Handler 7 masks its interrupt and sends an interrupt to the other cpu. *)
Definition demo_handler (h hno pdata : Z) (s : irqs) : Z * list irq_op := if h =? 7 then (0, [op_enable hno false; op_sgi 1 1]) else (0, []).
Definition demo_chip : irq_chip := mk_chip true true true.
Definition demo_irqs : irqs := init_irqs 2 8 [].

Lemma demo_handlers_ok : forall h hno pdata s, 0 <= hno -> Forall op_ok (demo_handler h hno pdata s).2.
Proof. intros. unfold demo_handler. destruct (h =? 7); repeat constructor; done. Qed.

Lemma demo_irqs_inv : irqs_inv 2 8 demo_irqs.
Proof. by apply init_irqs_inv. Qed.

Lemma request_irq_delivers_witness :
  exists s1 s3, request_irq 8 demo_chip 1 30 (Some 7) 4 99 demo_irqs = Some (0, s1) /\ do_irq_handler 2 8 demo_chip demo_handler 2 1 (take_pending s1 [30]) = Some s3 /\
    calls s3 = [irq_unmask 30; chip_set_type 30 4; call_handler 7 30 99; irq_mask 30; chip_send_sgi 1 1; irq_eoi 30; irq_dir 30].
Proof.
  destruct (request_irq_delivers 2 8 demo_chip demo_handler demo_handlers_ok [] demo_irqs 1 30 7 4 99) as (s1 & E1 & _ & ops & s2 & s3 & d & Eo & E2 & Hd & E3 & Hc & _);
    [lia|lia|by vm_compute|constructor|constructor|done|lia|by vm_compute|unfold SPI_IRQ_BASE, NR_PERCPU_IRQS; lia|].
  exists s1, s3. split; [exact E1|]. split; [exact E3|]. rewrite Hc. vm_compute in E1. injection E1 as <-. vm_compute in Eo. subst ops. vm_compute in E2. injection E2 as <-.
  vm_compute in Hd. injection Hd as <-. reflexivity.
Defined.

Lemma request_irq_percpu_correct_witness :
  exists s', request_irq_percpu 2 8 27 (Some 3) 0 1 demo_irqs = Some (0, s') /\ calls s' = [irq_unmask_cpu 27 0; irq_unmask_cpu 27 1].
Proof.
  destruct (request_irq_percpu_correct 2 8 demo_irqs 27 (Some 3) 0 1) as (r & s' & H1 & _ & H2 & H3 & _); [apply demo_irqs_inv|lia|].
  exists s'. rewrite H1, H2, H3. done.
Defined.

Lemma irq_reachable_returns_witness : exists s', do_irq_handler 2 8 demo_chip demo_handler 3 0 (take_pending demo_irqs [30; 33]) = Some s' /\ irqs_inv 2 8 s'.
Proof.
  apply (irq_reachable_returns 2 8 demo_chip demo_handler demo_handlers_ok [30; 33] (take_pending demo_irqs [30; 33]) 0); [lia|lia|done|repeat constructor; lia|constructor|lia].
Defined.
