(* ===== verification/Vm.v ===== *)
(** * Virtual machines: the table, creation, destruction
      (virt/vm.c, include/virt/vm.h, generic/include/generic/hypervisor.h)

    A [struct vm] and a [struct vcpu] are objects of two heaps, by address: the
    table [vms], the list [vm_list] and [host_vm] hold addresses, so a dangling
    pointer can be told from a good one.  The array [vm->vcpus] comes from
    [malloc] and is not cleared: a slot that was never written is [Undef].
    [None] is a panic, a failed assertion, or an access to memory that was
    never written, has been freed, or lies outside of its array.

    The calls into the other components are recorded in order in [trace].  The
    results they may give (an allocation that fails, a hook that refuses) come
    from a record [env], over which the theorems quantify. *)
From S2P Require Import Prelude Bitops Bitmap Sched.

Definition VM_FLAGS_32BIT : Z := Z.shiftl 1 0.
Definition VM_FLAGS_NATIVE : Z := Z.shiftl 1 1.
Definition VM_FLAGS_DYNAMIC_AFF : Z := Z.shiftl 1 2.
Definition VM_FLAGS_NATIVE_WFI : Z := Z.shiftl 1 6.
Definition VM_FLAGS_CAN_RESET : Z := Z.shiftl 1 8.
Definition VM_FLAGS_HOST : Z := Z.shiftl 1 9.

Definition VM_STATE_OFFLINE : Z := 0.
Definition VM_STATE_FREEZEING : Z := 1.
Definition VM_STATE_ONLINE : Z := 2.
Definition VM_STATE_SUSPEND : Z := 3.

Definition VCPU_STATE_STOP : Z := TASK_STATE_STOP.
Definition VCPU_STATE_SUSPEND : Z := TASK_STATE_SUSPEND.

Definition IN_GUEST_MODE : Z := 0.
Definition OUTSIDE_GUEST_MODE : Z := 1.
Definition IN_ROOT_MODE : Z := 2.
Definition OUTSIDE_ROOT_MODE : Z := 3.

Definition OS_HOOK_EXIT_FROM_GUEST : Z := 4.
Definition OS_HOOK_ENTER_TO_GUEST : Z := 5.
Definition OS_HOOK_CREATE_VM : Z := 6.
Definition OS_HOOK_DESTROY_VM : Z := 7.
Definition OS_HOOK_SUSPEND_VM : Z := 8.
Definition OS_HOOK_RESUME_VM : Z := 9.
Definition OS_HOOK_SETUP_VM : Z := 10.
Definition OS_HOOK_VCPU_INIT : Z := 11.

Definition GVM_NORMAL_MEM_START : Z := 0x80000000.

(** ** Data *)

(** The control block shared with the host VM. *)
Record vmcs := mk_vmcs {
  trap_type : Z;
  trap_reason : Z;
  trap_ret : Z;
  trap_data : Z;
  trap_result : Z;
  host_index : Z;
  guest_index : Z;
}.

(** A vcpu with the fields of its task that this code reads and writes:
    [task->state], whether the task is on a ready list, the freeze flag of
    [task->ti.flags], [task->affinity]. *)
Record vcpu := mk_vcpu {
  vcpu_id : Z;
  vc_vm : Z;
  vc_next : option Z;
  vc_mode : Z;
  vc_state : Z;
  vc_queued : bool;
  vc_freeze : bool;
  vc_affinity : Z;
  vc_vmcs : option vmcs;
  vmcs_irq : Z;
  vc_context : bool;
  vc_32bit : bool;
}.

Inductive slot := Undef | Ptr (p : option Z).

Record vm := mk_vm {
  vmid : Z;
  vcpu_nr : Z;
  vm_state : Z;
  flags : Z;
  vcpu_affinity : list Z;
  entry_point : Z;
  setup_data : Z;
  load_address : Z;
  vcpus : list slot;
  vdev_list : list Z;
  files : bool * bool * bool;
}.

Record vmtag := mk_vmtag {
  t_vmid : Z;
  t_nr_vcpu : Z;
  t_mem_base : Z;
  t_mem_size : Z;
  t_entry : Z;
  t_setup_data : Z;
  t_flags : Z;
  t_vcpu_affinity : list Z;
  t_load_address : Z;
  t_kernel_file : bool;
  t_dtb_file : bool;
  t_initrd_file : bool;
}.

Inductive ev :=
| ev_mm_init (p : Z)
| ev_iommu_init (p : Z)
| ev_hook (h p : Z)
| ev_vdev_deinit (d : Z)
| ev_vdev_reset (d : Z)
| ev_stop_vmodule (v : Z)
| ev_reset_vmodule (v : Z)
| ev_suspend_vmodule (v : Z)
| ev_resume_vmodule (v : Z)
| ev_vmodules_init (v : Z)
| ev_release_task (v : Z)
| ev_drop_task (i : Z)
| ev_release_hvm_virq (n : Z)
| ev_virq_struct_init (v : Z)
| ev_virq_struct_reset (v : Z)
| ev_free_virq_struct (v : Z)
| ev_vm_virq_reset (p : Z)
| ev_release_memory (p : Z)
| ev_split_area (p base size : Z)
| ev_alloc_memory (p : Z)
| ev_power_on (v entry : Z)
| ev_flush_tlb (p : Z)
| ev_task_ready (v : Z)
| ev_os_vm_init (p : Z)
| ev_setup_native (p : Z)
| ev_os_setup_vm (p : Z)
| ev_load_image (p : Z)
| ev_vm_mm_init (p : Z)
| ev_resched (cpu : Z)
| ev_smp_call (cpu v : Z)
| ev_wake (v : Z)
| ev_send_virq (p irq : Z).

Record hv := mk_hv {
  vm_heap : gmap Z vm;
  vcpu_heap : gmap Z vcpu;
  brk : Z;
  vms : list (option Z);
  vm_list : list Z;
  total_vms : Z;
  vmid_bitmap : list Z;
  host_vm : option Z;
  aff_current : Z;
  native_vcpus : Z;
  vcpu_aff_bitmap : list Z;
  vm_requests : list (Z * Z);
  trace : list ev;
}.

Definition set_vc_next (x : option Z) (v : vcpu) : vcpu := mk_vcpu (vcpu_id v) (vc_vm v) x (vc_mode v) (vc_state v) (vc_queued v) (vc_freeze v) (vc_affinity v) (vc_vmcs v) (vmcs_irq v) (vc_context v) (vc_32bit v).
Definition set_vc_mode (x : Z) (v : vcpu) : vcpu := mk_vcpu (vcpu_id v) (vc_vm v) (vc_next v) x (vc_state v) (vc_queued v) (vc_freeze v) (vc_affinity v) (vc_vmcs v) (vmcs_irq v) (vc_context v) (vc_32bit v).
Definition set_vc_state (x : Z) (v : vcpu) : vcpu := mk_vcpu (vcpu_id v) (vc_vm v) (vc_next v) (vc_mode v) x (vc_queued v) (vc_freeze v) (vc_affinity v) (vc_vmcs v) (vmcs_irq v) (vc_context v) (vc_32bit v).
Definition set_vc_queued (x : bool) (v : vcpu) : vcpu := mk_vcpu (vcpu_id v) (vc_vm v) (vc_next v) (vc_mode v) (vc_state v) x (vc_freeze v) (vc_affinity v) (vc_vmcs v) (vmcs_irq v) (vc_context v) (vc_32bit v).
Definition set_vc_freeze (x : bool) (v : vcpu) : vcpu := mk_vcpu (vcpu_id v) (vc_vm v) (vc_next v) (vc_mode v) (vc_state v) (vc_queued v) x (vc_affinity v) (vc_vmcs v) (vmcs_irq v) (vc_context v) (vc_32bit v).
Definition set_vc_vmcs (x : option vmcs) (v : vcpu) : vcpu := mk_vcpu (vcpu_id v) (vc_vm v) (vc_next v) (vc_mode v) (vc_state v) (vc_queued v) (vc_freeze v) (vc_affinity v) x (vmcs_irq v) (vc_context v) (vc_32bit v).
Definition set_vmcs_irq (x : Z) (v : vcpu) : vcpu := mk_vcpu (vcpu_id v) (vc_vm v) (vc_next v) (vc_mode v) (vc_state v) (vc_queued v) (vc_freeze v) (vc_affinity v) (vc_vmcs v) x (vc_context v) (vc_32bit v).
Definition set_vc_context (x : bool) (v : vcpu) : vcpu := mk_vcpu (vcpu_id v) (vc_vm v) (vc_next v) (vc_mode v) (vc_state v) (vc_queued v) (vc_freeze v) (vc_affinity v) (vc_vmcs v) (vmcs_irq v) x (vc_32bit v).
Definition set_vm_state (x : Z) (m : vm) : vm := mk_vm (vmid m) (vcpu_nr m) x (flags m) (vcpu_affinity m) (entry_point m) (setup_data m) (load_address m) (vcpus m) (vdev_list m) (files m).
Definition set_flags (x : Z) (m : vm) : vm := mk_vm (vmid m) (vcpu_nr m) (vm_state m) x (vcpu_affinity m) (entry_point m) (setup_data m) (load_address m) (vcpus m) (vdev_list m) (files m).
Definition set_vcpus (x : list slot) (m : vm) : vm := mk_vm (vmid m) (vcpu_nr m) (vm_state m) (flags m) (vcpu_affinity m) (entry_point m) (setup_data m) (load_address m) x (vdev_list m) (files m).
Definition set_vdev_list (x : list Z) (m : vm) : vm := mk_vm (vmid m) (vcpu_nr m) (vm_state m) (flags m) (vcpu_affinity m) (entry_point m) (setup_data m) (load_address m) (vcpus m) x (files m).
Definition set_vm_heap (x : gmap Z vm) (s : hv) : hv := mk_hv x (vcpu_heap s) (brk s) (vms s) (vm_list s) (total_vms s) (vmid_bitmap s) (host_vm s) (aff_current s) (native_vcpus s) (vcpu_aff_bitmap s) (vm_requests s) (trace s).
Definition set_vcpu_heap (x : gmap Z vcpu) (s : hv) : hv := mk_hv (vm_heap s) x (brk s) (vms s) (vm_list s) (total_vms s) (vmid_bitmap s) (host_vm s) (aff_current s) (native_vcpus s) (vcpu_aff_bitmap s) (vm_requests s) (trace s).
Definition set_brk (x : Z) (s : hv) : hv := mk_hv (vm_heap s) (vcpu_heap s) x (vms s) (vm_list s) (total_vms s) (vmid_bitmap s) (host_vm s) (aff_current s) (native_vcpus s) (vcpu_aff_bitmap s) (vm_requests s) (trace s).
Definition set_vms (x : list (option Z)) (s : hv) : hv := mk_hv (vm_heap s) (vcpu_heap s) (brk s) x (vm_list s) (total_vms s) (vmid_bitmap s) (host_vm s) (aff_current s) (native_vcpus s) (vcpu_aff_bitmap s) (vm_requests s) (trace s).
Definition set_vm_list (x : list Z) (s : hv) : hv := mk_hv (vm_heap s) (vcpu_heap s) (brk s) (vms s) x (total_vms s) (vmid_bitmap s) (host_vm s) (aff_current s) (native_vcpus s) (vcpu_aff_bitmap s) (vm_requests s) (trace s).
Definition set_total_vms (x : Z) (s : hv) : hv := mk_hv (vm_heap s) (vcpu_heap s) (brk s) (vms s) (vm_list s) x (vmid_bitmap s) (host_vm s) (aff_current s) (native_vcpus s) (vcpu_aff_bitmap s) (vm_requests s) (trace s).
Definition set_vmid_bitmap (x : list Z) (s : hv) : hv := mk_hv (vm_heap s) (vcpu_heap s) (brk s) (vms s) (vm_list s) (total_vms s) x (host_vm s) (aff_current s) (native_vcpus s) (vcpu_aff_bitmap s) (vm_requests s) (trace s).
Definition set_host_vm (x : option Z) (s : hv) : hv := mk_hv (vm_heap s) (vcpu_heap s) (brk s) (vms s) (vm_list s) (total_vms s) (vmid_bitmap s) x (aff_current s) (native_vcpus s) (vcpu_aff_bitmap s) (vm_requests s) (trace s).
Definition set_aff_current (x : Z) (s : hv) : hv := mk_hv (vm_heap s) (vcpu_heap s) (brk s) (vms s) (vm_list s) (total_vms s) (vmid_bitmap s) (host_vm s) x (native_vcpus s) (vcpu_aff_bitmap s) (vm_requests s) (trace s).
Definition set_native_vcpus (x : Z) (s : hv) : hv := mk_hv (vm_heap s) (vcpu_heap s) (brk s) (vms s) (vm_list s) (total_vms s) (vmid_bitmap s) (host_vm s) (aff_current s) x (vcpu_aff_bitmap s) (vm_requests s) (trace s).
Definition set_vcpu_aff_bitmap (x : list Z) (s : hv) : hv := mk_hv (vm_heap s) (vcpu_heap s) (brk s) (vms s) (vm_list s) (total_vms s) (vmid_bitmap s) (host_vm s) (aff_current s) (native_vcpus s) x (vm_requests s) (trace s).
Definition set_vm_requests (x : list (Z * Z)) (s : hv) : hv := mk_hv (vm_heap s) (vcpu_heap s) (brk s) (vms s) (vm_list s) (total_vms s) (vmid_bitmap s) (host_vm s) (aff_current s) (native_vcpus s) (vcpu_aff_bitmap s) x (trace s).
Definition set_trace (x : list ev) (s : hv) : hv := mk_hv (vm_heap s) (vcpu_heap s) (brk s) (vms s) (vm_list s) (total_vms s) (vmid_bitmap s) (host_vm s) (aff_current s) (native_vcpus s) (vcpu_aff_bitmap s) (vm_requests s) x.

Definition emit (e : ev) (s : hv) : hv := set_trace (trace s ++ [e]) s.
Definition put_vm (p : Z) (m : vm) (s : hv) : hv := set_vm_heap (<[p := m]> (vm_heap s)) s.
Definition put_vcpu (v : Z) (c : vcpu) (s : hv) : hv := set_vcpu_heap (<[v := c]> (vcpu_heap s)) s.
Definition upd_vm (p : Z) (f : vm -> vm) (s : hv) : option hv := m ← vm_heap s !! p; Some (put_vm p (f m) s).
Definition upd_vcpu (v : Z) (f : vcpu -> vcpu) (s : hv) : option hv := c ← vcpu_heap s !! v; Some (put_vcpu v (f c) s).

(** A new object at an address that was never used. *)
Definition fresh (s : hv) : Z * hv := (brk s, set_brk (brk s + 1) s).

(** What the calls into the other components answer. *)
Record env := mk_env {
  e_vm : bool;
  e_vcpus : bool;
  e_files : bool;
  e_mm : Z;
  e_task : Z -> bool;
  e_vcpu : Z -> bool;
  e_virq_struct : Z -> bool;
  e_hook : Z;
  e_memory : bool;
  e_copy : bool;
  e_split : bool;
  e_alloc : bool;
}.

Definition vm_is_host_vm (m : vm) : bool := negb (Z.land (flags m) VM_FLAGS_HOST =? 0).
Definition vm_is_native (m : vm) : bool := negb (Z.land (flags m) VM_FLAGS_NATIVE =? 0).

Section vm.
Context (NR_CPUS CONFIG_MAX_VM : Z) (e : env).

Definition VM_MAX_VCPU : Z := NR_CPUS.

(** The outer [option] is an access out of the table, the inner one NULL. *)
Definition get_vm_by_id (id : Z) (s : hv) : option (option Z) :=
  if (CONFIG_MAX_VM <=? id) || (id =? 0) then Some None else vms s !! Z.to_nat id.

Definition get_host_vm (s : hv) : option Z := host_vm s.

(** [vms[id] = p]. *)
Definition store_vms (id : Z) (p : option Z) (s : hv) : option hv :=
  if (0 <=? id) && (id <? Z.of_nat (length (vms s))) then Some (set_vms (<[Z.to_nat id := p]> (vms s)) s) else None.

Definition load_slot (i : Z) (m : vm) : option (option Z) :=
  match vcpus m !! Z.to_nat i with Some (Ptr p) => Some p | _ => None end.

Definition store_slot (i : Z) (p : option Z) (m : vm) : option vm :=
  if (0 <=? i) && (i <? Z.of_nat (length (vcpus m))) then Some (set_vcpus (<[Z.to_nat i := Ptr p]> (vcpus m)) m) else None.

Definition get_vcpu_in_vm (m : vm) (id : Z) : option (option Z) :=
  if vcpu_nr m <=? id then Some None else load_slot id m.

Definition get_vcpu_by_id (id vid : Z) (s : hv) : option (option Z) :=
  p ← get_vm_by_id id s;
  match p with
  | None => Some None
  | Some p => m ← vm_heap s !! p; get_vcpu_in_vm m vid
  end.

(** ** Affinity *)

(** The loop of [vm_check_vcpu_affinity] from index [i]; [1 << aff] is an [int]. *)
Fixpoint check_affinity_loop (n : nat) (i : Z) (aff : list Z) (mask : Z) : option Z :=
  match n with
  | O => Some 0
  | S n =>
      a ← aff !! Z.to_nat i;
      if VM_MAX_VCPU <=? a then Some (- EINVAL)
      else
        let b := u64 (s32 (Z.shiftl 1 a)) in
        if negb (Z.land mask b =? 0) then Some (- EINVAL) else check_affinity_loop n (i + 1) aff (Z.lor mask b)
  end.

Definition vm_check_vcpu_affinity (aff : list Z) (nr : Z) : option Z := check_affinity_loop (Z.to_nat nr) 0 aff 0.

Fixpoint set_bits (l : list Z) (map : list Z) : option (list Z) :=
  match l with [] => Some map | a :: l => map ← set_bit a map; set_bits l map end.

Fixpoint vm_affinity_bits (l : list Z) (s : hv) (map : list Z) : option (list Z) :=
  match l with
  | [] => Some map
  | p :: l =>
      m ← vm_heap s !! p;
      map ← set_bits (take (Z.to_nat (vcpu_nr m)) (vcpu_affinity m)) map;
      vm_affinity_bits l s map
  end.

Fixpoint count_bits (n : nat) (i : Z) (map : list Z) (acc : Z) : option Z :=
  match n with
  | O => Some acc
  | S n => b ← test_bit i map; count_bits n (i + 1) map (if b : bool then acc + 1 else acc)
  end.

Definition vcpu_affinity_init (s : hv) : option hv :=
  map ← bitmap_clear (vcpu_aff_bitmap s) 0 NR_CPUS;
  map ← vm_affinity_bits (vm_list s) s map;
  cur ← find_first_zero_bit map NR_CPUS;
  let cur := if NR_CPUS <=? cur then NR_CPUS - 1 else cur in
  n ← count_bits (Z.to_nat NR_CPUS) 0 map (native_vcpus s);
  Some (set_native_vcpus n (set_aff_current cur (set_vcpu_aff_bitmap map s))).

(** One turn of the [do ... while] of [get_vcpu_affinity]: the CPU is taken or
    passed over. *)
Definition aff_takes (vm0_vcpu0 : Z) (vcpu0_ok vcpus_ok : bool) (map : list Z) (c : Z) : option bool :=
  b ← test_bit c map;
  Some (negb b || (if c =? vm0_vcpu0 then vcpu0_ok else vcpus_ok)).

Definition aff_next (c : Z) : Z := if NR_CPUS <=? c + 1 then 0 else c + 1.

Fixpoint aff_loop (fuel : nat) (vm0_vcpu0 : Z) (vcpu0_ok vcpus_ok : bool) (map : list Z) (nr i cur : Z) (aff : list Z)
    : option (Z * list Z) :=
  match fuel with
  | O => None
  | S fuel =>
      t ← aff_takes vm0_vcpu0 vcpu0_ok vcpus_ok map cur;
      '(i, aff) ← (if t : bool then (if i <? Z.of_nat (length aff) then Some (i + 1, <[Z.to_nat i := cur]> aff) else None) else Some (i, aff));
      let cur := aff_next cur in
      if i <? nr then aff_loop fuel vm0_vcpu0 vcpu0_ok vcpus_ok map nr i cur aff else Some (cur, aff)
  end.

Definition get_vcpu_affinity (aff : list Z) (nr : Z) (s : hv) : option (list Z * hv) :=
  p ← get_host_vm s;
  vm0 ← vm_heap s !! p;
  vm0_vcpu0 ← vcpu_affinity vm0 !! 0%nat;
  let vcpu0_ok := nr =? NR_CPUS in
  let vcpus_ok := negb (nr =? NR_CPUS) && (NR_CPUS - native_vcpus s <? nr) in
  '(cur, aff) ← aff_loop (Z.to_nat (NR_CPUS * (nr + 1)) + 1) vm0_vcpu0 vcpu0_ok vcpus_ok (vcpu_aff_bitmap s) nr 0 (aff_current s) aff;
  Some (aff, set_aff_current cur s).

(** ** Creation *)
Definition alloc_new_vmid (s : hv) : option (Z * hv) :=
  id ← find_next_zero_bit_loop (vmid_bitmap s) CONFIG_MAX_VM (total_vms s);
  if CONFIG_MAX_VM <=? id then Some (0, s)
  else map ← set_bit id (vmid_bitmap s); Some (id, set_vmid_bitmap map s).

Definition vmtag_check_and_config (tag : vmtag) (s : hv) : option (Z * vmtag * hv) :=
  let base := if t_mem_base tag =? 0 then GVM_NORMAL_MEM_START else t_mem_base tag in
  let mk aff := mk_vmtag (t_vmid tag) (t_nr_vcpu tag) base (t_mem_size tag) (t_entry tag) (t_setup_data tag) (t_flags tag) aff
                  (t_load_address tag) (t_kernel_file tag) (t_dtb_file tag) (t_initrd_file tag) in
  if negb (e_memory e) then Some (- ENOMEM, mk (t_vcpu_affinity tag), s)
  else if NR_CPUS <? t_nr_vcpu tag then Some (- EINVAL, mk (t_vcpu_affinity tag), s)
  else if negb (Z.land (t_flags tag) VM_FLAGS_DYNAMIC_AFF =? 0) then
    '(aff, s) ← get_vcpu_affinity (replicate 8 0) (t_nr_vcpu tag) s;
    Some (0, mk aff, s)
  else Some (0, mk (t_vcpu_affinity tag), s).

(** [release_vcpu]: the freed vcpu leaves the heap. *)
Definition release_vcpu (v : Z) (s : hv) : option hv :=
  c ← vcpu_heap s !! v;
  let s := if vc_context c then emit (ev_stop_vmodule v) s else s in
  let s := emit (ev_release_task v) s in
  let s := if 0 <=? vmcs_irq c then emit (ev_release_hvm_virq (vmcs_irq c)) s else s in
  let s := emit (ev_free_virq_struct v) s in
  Some (set_vcpu_heap (delete v (vcpu_heap s)) s).

(** The loop over [vm->vcpus[j]] of [destroy_vm] and of [create_vcpus]. *)
Fixpoint release_slots (n : nat) (j : Z) (m : vm) (s : hv) : option hv :=
  match n with
  | O => Some s
  | S n =>
      p ← load_slot j m;
      s ← (match p with None => Some s | Some v => release_vcpu v s end);
      release_slots n (j + 1) m s
  end.

Definition alloc_vcpu (i p aff : Z) (b32 : bool) (s : hv) : option (Z * hv) :=
  if negb (e_vcpu e i) then None
  else if negb (e_virq_struct e i) then None
  else
    let '(v, s) := fresh s in
    Some (v, put_vcpu v (mk_vcpu i p None IN_ROOT_MODE TASK_STATE_SUSPEND false false aff None (-1) false b32) s).

(** NULL is the inner [None]. *)
Definition create_vcpu (p i : Z) (s : hv) : option (option Z * hv) :=
  m ← vm_heap s !! p;
  aff ← vcpu_affinity m !! Z.to_nat i;
  if negb (e_task e i) then Some (None, s)
  else
    match alloc_vcpu i p aff (negb (Z.land (flags m) VM_FLAGS_32BIT =? 0)) s with
    | None => Some (None, emit (ev_drop_task i) s)
    | Some (v, s) =>
        let s := emit (ev_virq_struct_init v) s in
        m ← store_slot i (Some v) m;
        let s := put_vm p m s in
        if negb (i =? 0) then
          prev ← load_slot (i - 1) m;
          prev ← prev;
          s ← upd_vcpu prev (set_vc_next (Some v)) s;
          Some (Some v, s)
        else Some (Some v, s)
    end.

Fixpoint create_vcpus_loop (n : nat) (i p : Z) (s : hv) : option (Z * hv) :=
  match n with
  | O => Some (0, s)
  | S n =>
      '(v, s) ← create_vcpu p i s;
      match v with
      | Some _ => create_vcpus_loop n (i + 1) p s
      | None =>
          m ← vm_heap s !! p;
          s ← release_slots (Z.to_nat (vcpu_nr m)) 0 m s;
          Some (- ENOMEM, s)
      end
  end.

Definition create_vcpus (p : Z) (s : hv) : option (Z * hv) :=
  m ← vm_heap s !! p; create_vcpus_loop (Z.to_nat (vcpu_nr m)) 0 p s.

Definition deinit_vdevs (m : vm) (s : hv) : hv := fold_left (fun s d => emit (ev_vdev_deinit d) s) (vdev_list m) s.

Definition destroy_vm (p : option Z) (s : hv) : option hv :=
  match p with
  | None => Some s
  | Some p =>
      m ← vm_heap s !! p;
      if vm_is_native m then None
      else
        let s := deinit_vdevs m s in
        let s := emit (ev_hook OS_HOOK_DESTROY_VM p) s in
        s ← release_slots (Z.to_nat (vcpu_nr m)) 0 m s;
        let s := emit (ev_release_memory p) s in
        map ← clear_bit (vmid m) (vmid_bitmap s);
        let s := set_vmid_bitmap map s in
        let s := set_vm_list (filter (fun q => q <> p) (vm_list s)) s in
        s ← store_vms (vmid m) None s;
        let s := set_total_vms (total_vms s - 1) s in
        Some (set_vm_heap (delete p (vm_heap s)) s)
  end.

(** [vm_open_ramdisk_file]: a file that cannot be opened stops the system. *)
Definition vm_open_ramdisk_file (tag : vmtag) : option (bool * bool * bool) :=
  if Z.land (t_flags tag) VM_FLAGS_NATIVE =? 0 then Some (false, false, false)
  else if (t_kernel_file tag || t_dtb_file tag || t_initrd_file tag) && negb (e_files e) then None
  else Some (t_kernel_file tag, t_dtb_file tag, t_initrd_file tag).

(** The array [vcpus] has [nr_vcpu] slots; for a negative count the size of the
    request wraps around and nothing is left of it. *)
Definition __create_vm (tag : vmtag) (s : hv) : option (option Z * hv) :=
  c ← vm_check_vcpu_affinity (t_vcpu_affinity tag) (t_nr_vcpu tag);
  if negb (c =? 0) then Some (None, s)
  else if negb (e_vm e) then Some (None, s)
  else
    let nr := Z.min (t_nr_vcpu tag) VM_MAX_VCPU in
    if negb (e_vcpus e) then Some (None, s)
    else
      files ← vm_open_ramdisk_file tag;
      let '(p, s) := fresh s in
      let m := mk_vm (t_vmid tag) (u32 nr) VM_STATE_OFFLINE (t_flags tag) (take (Z.to_nat VM_MAX_VCPU) (t_vcpu_affinity tag)) (t_entry tag) (t_setup_data tag)
                 (if t_load_address tag =? 0 then t_entry tag else t_load_address tag) (replicate (Z.to_nat nr) Undef) [] files in
      s ← store_vms (t_vmid tag) (Some p) (put_vm p m s);
      Some (Some p, set_total_vms (total_vms s + 1) (set_vm_list (vm_list s ++ [p]) s)).

Definition with_vmid (id : Z) (tag : vmtag) : vmtag :=
  mk_vmtag id (t_nr_vcpu tag) (t_mem_base tag) (t_mem_size tag) (t_entry tag) (t_setup_data tag) (t_flags tag) (t_vcpu_affinity tag)
    (t_load_address tag) (t_kernel_file tag) (t_dtb_file tag) (t_initrd_file tag).

(** The number of the new VM, or 0. *)
Definition claim_vmid (tag : vmtag) (s : hv) : option (Z * hv) :=
  if negb (t_vmid tag =? 0) then
    '(was, map) ← test_and_set_bit (t_vmid tag) (vmid_bitmap s);
    if was : bool then Some (0, s) else Some (t_vmid tag, set_vmid_bitmap map s)
  else alloc_new_vmid s.

Definition create_vm (tag : vmtag) (s : hv) : option (option Z * hv) :=
  '(id, s) ← claim_vmid tag s;
  if id =? 0 then Some (None, s)
  else
    '(p, s) ← __create_vm (with_vmid id tag) s;
    match p with
    | None => Some (None, s)
    | Some p =>
        let s := emit (ev_mm_init p) s in
        if negb (e_mm e =? 0) then s ← destroy_vm (Some p) s; Some (None, s)
        else
          let s := emit (ev_iommu_init p) s in
          '(r, s) ← create_vcpus p s;
          if negb (r =? 0) then s ← destroy_vm (Some p) s; Some (None, s)
          else
            m ← vm_heap s !! p;
            s ← (if vm_is_host_vm m then (match host_vm s with None => Some (set_host_vm (Some p) s) | Some _ => None end) else Some s);
            let s := emit (ev_hook OS_HOOK_CREATE_VM p) s in
            if negb (e_hook e =? 0) then s ← destroy_vm (Some p) s; Some (None, s)
            else Some (Some p, s)
    end.

Definition guest_mm_init (p base size : Z) (s : hv) : Z * hv :=
  let s := emit (ev_split_area p base size) s in
  if negb (e_split e) then (- EINVAL, s)
  else
    let s := emit (ev_alloc_memory p) s in
    if negb (e_alloc e) then (- ENOMEM, s) else (0, s).

Definition guest_tag (tag : vmtag) : vmtag :=
  mk_vmtag 0 (t_nr_vcpu tag) (t_mem_base tag) (t_mem_size tag) (t_entry tag) (t_setup_data tag) (Z.lor (t_flags tag) VM_FLAGS_CAN_RESET)
    (t_vcpu_affinity tag) (t_load_address tag) (t_kernel_file tag) (t_dtb_file tag) (t_initrd_file tag).

Definition create_guest_vm (tag : vmtag) (s : hv) : option (Z * hv) :=
  if negb (e_copy e) then Some (- EFAULT, s)
  else
    '(r, tag, s) ← vmtag_check_and_config tag s;
    if negb (r =? 0) then Some (r, s)
    else
      '(p, s) ← create_vm (guest_tag tag) s;
      match p with
      | None => Some (- ENOMEM, s)
      | Some p =>
          let '(r, s) := guest_mm_init p (t_mem_base tag) (t_mem_size tag) s in
          if negb (r =? 0) then s ← destroy_vm (Some p) s; Some (r, s)
          else m ← vm_heap s !! p; Some (vmid m, s)
      end.
(** ** Invariant *)

(** The first [k] slots of [m] hold the vcpus 0, 1, ... of the VM at [p], each
    linked to the next one. *)
Definition slots_ok (h : gmap Z vcpu) (p : Z) (m : vm) (k : Z) : Prop :=
  forall i, 0 <= i < k -> exists v c, load_slot i m = Some (Some v) /\ h !! v = Some c /\ vcpu_id c = i /\ vc_vm c = p
    /\ vc_next c = if i + 1 =? k then None else mjoin (load_slot (i + 1) m).

Record vm_ok (h : gmap Z vcpu) (p : Z) (m : vm) : Prop := mk_vm_ok {
  vo_nr : 0 < vcpu_nr m;
  vo_len : length (vcpus m) = Z.to_nat (vcpu_nr m);
  vo_slots : slots_ok h p m (vcpu_nr m);
}.

(** Every vcpu of the heap is in the slot of its VM. *)
Definition no_stray (s : hv) : Prop :=
  forall v c, vcpu_heap s !! v = Some c -> exists m, vm_heap s !! vc_vm c = Some m /\ 0 <= vcpu_id c < vcpu_nr m /\ load_slot (vcpu_id c) m = Some (Some v).

(** The table, the list, the count and the bitmap describe the same VMs, and
    all of their pointers are good. *)
Record hv_ok (s : hv) : Prop := mk_hv_ok {
  ho_len : Z.of_nat (length (vms s)) = CONFIG_MAX_VM;
  ho_map : bitmap_wf CONFIG_MAX_VM (vmid_bitmap s);
  ho_zero : bit_at (vmid_bitmap s) 0 = true /\ 0 < CONFIG_MAX_VM;
  ho_nodup : NoDup (vm_list s);
  ho_list : vm_list s ≡ₚ omap (fun x => x) (vms s);
  ho_total : total_vms s = Z.of_nat (length (vm_list s));
  ho_vm : forall id p, vms s !! id = Some (Some p) -> id <> 0%nat /\
            bit_at (vmid_bitmap s) (Z.of_nat id) = true /\
            exists m, vm_heap s !! p = Some m /\ vmid m = Z.of_nat id /\ vm_ok (vcpu_heap s) p m;
  ho_stray : no_stray s;
  ho_vm_brk : forall p m, vm_heap s !! p = Some m -> p < brk s;
  ho_vcpu_brk : forall v c, vcpu_heap s !! v = Some c -> v < brk s;
}.

(** A number that is taken and belongs to no VM. *)
Definition stale (s : hv) (i : Z) : Prop := bit_at (vmid_bitmap s) i = true /\ vms s !! Z.to_nat i = Some None.

(** ** Lemmas *)
Lemma omap_store_new (l : list (option Z)) (i : nat) p :
  l !! i = Some None -> omap (fun x => x) (<[i := Some p]> l) ≡ₚ p :: omap (fun x => x) l.
Proof.
  revert i. induction l as [|x l IH]; intros [|i] H; cbn in H; try done.
  - injection H as ->. done.
  - cbn. destruct x as [x|]; [|by apply IH]. rewrite (IH i H). apply Permutation_swap.
Qed.

Lemma omap_store_none (l : list (option Z)) (i : nat) p :
  l !! i = Some (Some p) -> p :: omap (fun x => x) (<[i := None]> l) ≡ₚ omap (fun x => x) l.
Proof.
  revert i. induction l as [|x l IH]; intros [|i] H; cbn in H; try done.
  - injection H as ->. done.
  - cbn. destruct x as [x|]; [|by apply IH]. rewrite Permutation_swap. by rewrite (IH i H).
Qed.

Lemma filter_remove (p : Z) (l l' : list Z) : NoDup l -> l ≡ₚ p :: l' -> filter (fun q => q <> p) l ≡ₚ l'.
Proof.
  intros Hn Hp. rewrite Hp in Hn. apply list.NoDup_cons in Hn as [Hp' Hn]. rewrite Hp. rewrite filter_cons_False by (intros H; by apply H).
  assert (filter (fun q => q <> p) l' = l') as ->; [|done]. clear -Hp'. induction l' as [|x l IH]; [done|].
  apply not_elem_of_cons in Hp' as [H1 H2]. rewrite filter_cons_True by done. by rewrite IH.
Qed.

Lemma test_and_set_bit_spec nr (map : list Z) :
  Forall is_word map -> 0 <= nr < 64 * Z.of_nat (length map) ->
  exists map', test_and_set_bit nr map = Some (bit_at map nr, map') /\ Forall is_word map' /\ length map' = length map
    /\ forall i, 0 <= i -> bit_at map' i = (i =? nr) || bit_at map i.
Proof.
  intros Hm Hn. destruct (set_bit_spec nr map Hm Hn) as (map' & E & H). exists map'. split; [|done].
  unfold test_and_set_bit, testop. rewrite test_bit_spec by done. msimpl. unfold set_bit in E. by rewrite E.
Qed.

Lemma bitmap_wf_same n (m m' : list Z) : bitmap_wf n m -> Forall is_word m' -> length m' = length m -> bitmap_wf n m'.
Proof. intros (H1 & H2 & H3) Hw Hl. unfold bitmap_wf. by rewrite Hl. Qed.

Lemma set_bit_wf n nr (m : list Z) : bitmap_wf n m -> 0 <= nr < n ->
  exists m', set_bit nr m = Some m' /\ bitmap_wf n m' /\ forall i, 0 <= i -> bit_at m' i = (i =? nr) || bit_at m i.
Proof.
  intros Hw Hn. destruct (set_bit_spec nr m) as (m' & E & H1 & H2 & H3); [apply Hw|destruct Hw as (_ & ? & _); lia|].
  exists m'. split_and!; [done|by eapply bitmap_wf_same|done].
Qed.

Lemma clear_bit_wf n nr (m : list Z) : bitmap_wf n m -> 0 <= nr < n ->
  exists m', clear_bit nr m = Some m' /\ bitmap_wf n m' /\ forall i, 0 <= i -> bit_at m' i = negb (i =? nr) && bit_at m i.
Proof.
  intros Hw Hn. destruct (clear_bit_spec nr m) as (m' & E & H1 & H2 & H3); [apply Hw|destruct Hw as (_ & ? & _); lia|].
  exists m'. split_and!; [done|by eapply bitmap_wf_same|done].
Qed.

Lemma load_slot_lookup i m v : load_slot i m = Some v -> vcpus m !! Z.to_nat i = Some (Ptr v).
Proof. unfold load_slot. destruct (_ !! _) as [[|q]|]; intros; simplify_eq; done. Qed.

Lemma release_vcpu_spec v c s : vcpu_heap s !! v = Some c ->
  exists t, release_vcpu v s = Some (set_trace t (set_vcpu_heap (delete v (vcpu_heap s)) s)).
Proof.
  intros Hc. unfold release_vcpu. rewrite Hc. msimpl. destruct (vc_context c), (0 <=? vmcs_irq c); eexists; reflexivity.
Qed.

(** The slots [j], ..., [j + n - 1] are released: their vcpus go, the others stay. *)
Lemma release_slots_spec n j m s :
  0 <= j ->
  (forall i, j <= i < j + Z.of_nat n -> exists v c, load_slot i m = Some (Some v) /\ vcpu_heap s !! v = Some c /\ vcpu_id c = i) ->
  exists t h, release_slots n j m s = Some (set_trace t (set_vcpu_heap h s)) /\
    (forall i v, j <= i < j + Z.of_nat n -> load_slot i m = Some (Some v) -> h !! v = None) /\
    (forall v, (forall i, j <= i < j + Z.of_nat n -> load_slot i m <> Some (Some v)) -> h !! v = vcpu_heap s !! v).
Proof.
  revert j s. induction n as [|n IH]; intros j s Hj Hs.
  { exists (trace s), (vcpu_heap s). split; [by destruct s|]. split; [intros; lia|done]. }
  destruct (Hs j) as (v & c & Hl & Hc & Hid); [lia|]. cbn [release_slots]. rewrite Hl. msimpl.
  destruct (release_vcpu_spec v c s Hc) as [t ->]. msimpl.
  destruct (IH (j + 1) (set_trace t (set_vcpu_heap (delete v (vcpu_heap s)) s))) as (t' & h & E & H1 & H2); [lia| |].
  - intros i Hi. destruct (Hs i) as (v' & c' & Hl' & Hc' & Hid'); [lia|]. exists v', c'. split_and!; [done| |done].
    cbn. rewrite lookup_delete_ne; [done|]. intros ->. assert (c' = c) by congruence. subst. lia.
  - exists t', h. split; [exact E|]. split.
    + intros i v' Hi Hl'. destruct (decide (i = j)) as [->|].
      * assert (v' = v) as -> by congruence. rewrite H2; [cbn; apply lookup_delete_eq|].
        intros i Hi' Hv. destruct (Hs i) as (v2 & c2 & Hl2 & Hc2 & Hid2); [lia|]. assert (v2 = v) as -> by congruence. assert (c2 = c) by congruence. subst. lia.
      * eapply H1; [|done]. lia.
    + intros v' Hv'. rewrite H2; [|intros i Hi; apply Hv'; lia]. cbn. rewrite lookup_delete_ne; [done|]. intros ->. apply (Hv' j); [lia|done].
Qed.
(** The state after a VM has gone. *)
Definition without_vm (s : hv) (id : nat) (p : Z) (h : gmap Z vcpu) (map : list Z) (t : list ev) : hv :=
  mk_hv (delete p (vm_heap s)) h (brk s) (<[id := None]> (vms s)) (filter (fun q => q <> p) (vm_list s)) (total_vms s - 1) map
    (host_vm s) (aff_current s) (native_vcpus s) (vcpu_aff_bitmap s) (vm_requests s) t.

(** [h'] is [h] without the vcpus of the VM at [p]. *)
Definition vcpus_of_gone (p : Z) (h h' : gmap Z vcpu) : Prop :=
  (forall v c, h' !! v = Some c -> h !! v = Some c /\ vc_vm c <> p) /\
  (forall v c, h !! v = Some c -> vc_vm c <> p -> h' !! v = Some c).

Lemma deinit_vdevs_trace m s : exists t, deinit_vdevs m s = set_trace t s.
Proof.
  unfold deinit_vdevs. generalize (vdev_list m). intros l. revert s. induction l as [|d l IH]; intros s; [exists (trace s); by destruct s|].
  cbn. destruct (IH (emit (ev_vdev_deinit d) s)) as [t ->]. by exists t.
Qed.

Lemma vms_index s (id : nat) p : hv_ok s -> vms s !! id = Some (Some p) -> 0 < Z.of_nat id < CONFIG_MAX_VM.
Proof. intros Ho H. pose proof (ho_vm s Ho id p H) as [Hi _]. apply lookup_lt_Some in H. pose proof (ho_len s Ho). lia. Qed.

Lemma hv_ok_without s id p m h map t :
  hv_ok s -> vms s !! id = Some (Some p) -> vm_heap s !! p = Some m -> vcpus_of_gone p (vcpu_heap s) h ->
  bitmap_wf CONFIG_MAX_VM map -> (forall i, 0 <= i -> bit_at map i = negb (i =? Z.of_nat id) && bit_at (vmid_bitmap s) i) ->
  hv_ok (without_vm s id p h map t).
Proof.
  intros Ho Hid Hm [Hg1 Hg2] Hw Hb. pose proof (vms_index s id p Ho Hid) as H0. pose proof (lookup_lt_Some _ _ _ Hid) as Hlt.
  assert (p :: omap (fun x => x) (<[id := None]> (vms s)) ≡ₚ omap (fun x => x) (vms s)) as Hp by by apply omap_store_none.
  assert (filter (fun q => q <> p) (vm_list s) ≡ₚ omap (fun x => x) (<[id := None]> (vms s))) as Hf.
  { apply filter_remove; [apply Ho|]. rewrite (ho_list s Ho). done. }
  split; cbn [without_vm vms vmid_bitmap vm_list total_vms vm_heap vcpu_heap brk].
  - rewrite length_insert. apply Ho.
  - done.
  - split; [|apply Ho]. rewrite Hb by lia. rewrite (proj2 (Z.eqb_neq _ _)) by lia. apply Ho.
  - apply list.NoDup_filter, Ho.
  - done.
  - rewrite (ho_total s Ho). rewrite (Permutation_length (ho_list s Ho)), <- (Permutation_length Hp), (Permutation_length Hf). cbn. lia.
  - intros id' p' H'. apply list_lookup_insert_Some in H' as [(_ & ? & _)|(Hne & H')]; [done|].
    destruct (ho_vm s Ho id' p' H') as (Hnz & Hbit & m' & Hm' & Hid' & [Hn Hl Hs]).
    destruct (ho_vm s Ho id p Hid) as (_ & _ & m2 & Hm2 & Hid2 & _). assert (m2 = m) as -> by congruence.
    assert (p' <> p) as Hpp by (intros ->; assert (m' = m) by congruence; subst; lia).
    split; [done|]. split; [rewrite Hb by lia; rewrite Hbit, (proj2 (Z.eqb_neq _ _)) by lia; done|].
    exists m'. rewrite lookup_delete_ne by done. split_and!; [done|done|]. split; [done|done|].
    intros i Hi. destruct (Hs i Hi) as (v & c & E1 & E2 & E3 & E4 & E5). exists v, c. split_and!; try done. apply Hg2; [done|]. congruence.
  - intros v c Hv. apply Hg1 in Hv as [Hv Hp']. destruct (ho_stray s Ho v c Hv) as (m' & Hm' & Hr). exists m'. cbn. by rewrite lookup_delete_ne.
  - intros q mq Hq. apply lookup_delete_Some in Hq as [_ Hq]. by eapply ho_vm_brk.
  - intros v c Hv. apply Hg1 in Hv as [Hv _]. by eapply ho_vcpu_brk.
Qed.

Lemma destroy_vm_spec s id p m :
  hv_ok s -> vms s !! id = Some (Some p) -> vm_heap s !! p = Some m -> vm_is_native m = false ->
  exists t h map, destroy_vm (Some p) s = Some (without_vm s id p h map t) /\
    vcpus_of_gone p (vcpu_heap s) h /\ bitmap_wf CONFIG_MAX_VM map /\
    (forall i, 0 <= i -> bit_at map i = negb (i =? Z.of_nat id) && bit_at (vmid_bitmap s) i).
Proof.
  intros Ho Hid Hm Hn. pose proof (ho_stray s Ho) as Hst. pose proof (vms_index s id p Ho Hid) as H0. destruct (ho_vm s Ho id p Hid) as (_ & _ & m' & Hm' & Hvid & [Hnr Hl Hs]). assert (m' = m) as -> by congruence.
  unfold destroy_vm. rewrite Hm. msimpl. rewrite Hn. destruct (deinit_vdevs_trace m s) as [t ->].
  destruct (release_slots_spec (Z.to_nat (vcpu_nr m)) 0 m (emit (ev_hook OS_HOOK_DESTROY_VM p) (set_trace t s))) as (t' & h & -> & H1 & H2); [lia| |].
  { intros i Hi. destruct (Hs i) as (v & c & E1 & E2 & E3 & _); [lia|]. by exists v, c. }
  msimpl. cbn [emit set_trace set_vcpu_heap vmid_bitmap vm_heap].
  assert (0 <= Z.of_nat id < CONFIG_MAX_VM) as Hr by lia.
  destruct (clear_bit_wf CONFIG_MAX_VM (vmid m) (vmid_bitmap s)) as (map & -> & Hw & Hb); [apply Ho|by rewrite Hvid|]. msimpl.
  unfold store_vms. cbn [emit set_vm_list set_vmid_bitmap set_trace set_vcpu_heap vms]. rewrite (ho_len s Ho), Hvid.
  rewrite (proj2 (Z.leb_le _ _)), (proj2 (Z.ltb_lt _ _)) by lia. cbn [andb]. msimpl. rewrite Nat2Z.id.
  eexists _, h, map. split; [reflexivity|]. rewrite <- Hvid. split_and!; [|done|done]. split.
  - intros v c Hv. assert (forall i, 0 <= i < 0 + Z.of_nat (Z.to_nat (vcpu_nr m)) -> load_slot i m <> Some (Some v)) as Hno.
    { intros i Hi E. rewrite (H1 i v Hi E) in Hv. done. }
    rewrite (H2 v Hno) in Hv. cbn in Hv. split; [done|]. intros Hp. destruct (Hst v c Hv) as (m2 & Hm2 & Hi2 & Hl2).
    rewrite Hp in Hm2. assert (m2 = m) as -> by congruence. apply (Hno (vcpu_id c)); [lia|done].
  - intros v c Hv Hp. rewrite H2; [done|]. intros i Hi E. destruct (Hs i) as (v2 & c2 & E1 & E2 & E3 & E4 & _); [lia|].
    assert (v2 = v) as -> by congruence. assert (c2 = c) by congruence. by subst.
Qed.
(** ** Creation: lemmas *)

(** [s] with other vcpus, another record at [p] and another allocation mark. *)
Definition grown (s : hv) (p : Z) (m : vm) (h : gmap Z vcpu) (b : Z) (t : list ev) : hv :=
  set_trace t (set_brk b (set_vcpu_heap h (set_vm_heap (<[p := m]> (vm_heap s)) s))).

Lemma load_store_slot i j q m m' :
  store_slot i q m = Some m' -> 0 <= j -> load_slot j m' = if i =? j then Some q else load_slot j m.
Proof.
  unfold store_slot, load_slot. destruct (Z.leb_spec 0 i); [|done]. destruct (Z.ltb_spec i (Z.of_nat (length (vcpus m)))); [|done]. cbn [andb].
  intros E Hj. injection E as <-. cbn [set_vcpus vcpus]. destruct (Z.eqb_spec i j) as [->|Hne].
  - by rewrite list_lookup_insert_eq by lia.
  - by rewrite list_lookup_insert_ne by lia.
Qed.

Lemma store_slot_some i q m : 0 <= i < Z.of_nat (length (vcpus m)) -> store_slot i q m = Some (set_vcpus (<[Z.to_nat i := Ptr q]> (vcpus m)) m).
Proof. intros H. unfold store_slot. by rewrite (proj2 (Z.leb_le _ _)), (proj2 (Z.ltb_lt _ _)) by lia. Qed.

(** The vcpus made so far are above the mark [b0], so nothing below it changes. *)
Definition slots_above (b0 : Z) (m : vm) (k : Z) : Prop := forall i v, 0 <= i < k -> load_slot i m = Some (Some v) -> b0 <= v.

Lemma create_vcpu_spec p i s m b0 :
  vm_heap s !! p = Some m -> 0 <= i < vcpu_nr m -> length (vcpus m) = Z.to_nat (vcpu_nr m) -> (Z.to_nat (vcpu_nr m) <= length (vcpu_affinity m))%nat ->
  e_task e i = true -> e_vcpu e i = true -> e_virq_struct e i = true ->
  slots_ok (vcpu_heap s) p m i -> slots_above b0 m i -> b0 <= brk s -> (forall v c, vcpu_heap s !! v = Some c -> v < brk s) ->
  exists m' h t, create_vcpu p i s = Some (Some (brk s), grown s p m' h (brk s + 1) t) /\
    slots_ok h p m' (i + 1) /\ slots_above b0 m' (i + 1) /\
    (exists l, m' = set_vcpus l m /\ length l = length (vcpus m) /\ forall j, i < j -> load_slot j m' = load_slot j m) /\
    (forall v c, h !! v = Some c -> v < brk s + 1 /\ (v < b0 -> vcpu_heap s !! v = Some c)) /\
    (forall v c, v < b0 -> vcpu_heap s !! v = Some c -> h !! v = Some c) /\
    (forall v c, h !! v = Some c -> b0 <= v -> (exists c', vcpu_heap s !! v = Some c' /\ vc_vm c = vc_vm c' /\ vcpu_id c = vcpu_id c') \/ (v = brk s /\ vc_vm c = p /\ vcpu_id c = i)).
Proof.
  intros Hm Hi Hl Haff Ht Hv Hq Hs Ha Hb Hbrk. unfold create_vcpu. rewrite Hm. msimpl.
  destruct (lookup_lt_is_Some_2 (vcpu_affinity m) (Z.to_nat i)) as [aff ->]; [lia|]. msimpl. rewrite Ht. cbn [negb].
  unfold alloc_vcpu. rewrite Hv, Hq. cbn [negb fresh]. rewrite store_slot_some by lia. msimpl.
  set (v0 := brk s). set (c0 := mk_vcpu i p None IN_ROOT_MODE TASK_STATE_SUSPEND false false aff None (-1) false _).
  set (m' := set_vcpus (<[Z.to_nat i := Ptr (Some v0)]> (vcpus m)) m).
  assert (forall j, 0 <= j -> load_slot j m' = if i =? j then Some (Some v0) else load_slot j m) as Hls.
  { intros j Hj. apply (load_store_slot i j (Some v0)); [|done]. rewrite store_slot_some by lia. done. }
  assert (vcpu_heap s !! v0 = None) as Hv0 by (destruct (vcpu_heap s !! v0) eqn:E; [apply Hbrk in E; unfold v0 in E; lia|done]).
  assert (exists l, m' = set_vcpus l m /\ length l = length (vcpus m) /\ forall j, i < j -> load_slot j m' = load_slot j m) as Hm'.
  { eexists. split; [reflexivity|]. rewrite length_insert. split; [done|]. intros j Hj. rewrite Hls by lia. by rewrite (proj2 (Z.eqb_neq i j)) by lia. }
  assert (slots_above b0 m' (i + 1)) as Ha'.
  { intros j v Hj. rewrite Hls by lia. destruct (Z.eqb_spec i j); [intros [= <-]; unfold v0; lia|]. intros E. apply (Ha j v); [lia|done]. }
  destruct (Z.eqb_spec i 0) as [->|Hi0]; cbn [negb].
  - exists m', (<[v0 := c0]> (vcpu_heap s)). eexists. split; [reflexivity|]. split_and!; try done.
    + intros j Hj. assert (j = 0) as -> by lia. exists v0, c0. rewrite Hls, lookup_insert_eq by lia. split_and!; done.
    + intros v c. rewrite lookup_insert_Some. intros [[<- <-]|[Hne E]]; [unfold v0; split; lia|]. apply Hbrk in E as ?. split; [lia|done].
    + intros v c Hlt E. rewrite lookup_insert_ne by (unfold v0; lia). done.
    + intros v c. rewrite lookup_insert_Some. intros [[<- <-]|[Hne E]] Hge; [by right|left; by exists c].
  - destruct (Hs (i - 1)) as (vp & cp & E1 & E2 & E3 & E4 & E5); [lia|].
    assert (load_slot (i - 1) m' = Some (Some vp)) as -> by (rewrite Hls by lia; rewrite (proj2 (Z.eqb_neq _ _)) by lia; done). msimpl.
    assert (vp <> v0) as Hpv by (intros ->; congruence).
    unfold upd_vcpu. cbn [put_vm put_vcpu emit set_vm_heap set_trace set_vcpu_heap set_brk vcpu_heap]. rewrite lookup_insert_ne by done. rewrite E2. msimpl.
    set (cp' := set_vc_next (Some v0) cp).
    exists m', (<[vp := cp']> (<[v0 := c0]> (vcpu_heap s))). eexists. split; [reflexivity|]. split_and!; try done.
    + intros j Hj. rewrite !Hls by lia. destruct (Z.eqb_spec i j) as [->|Hij].
      * exists v0, c0. rewrite Z.eqb_refl, lookup_insert_ne, lookup_insert_eq by done. done.
      * rewrite (proj2 (Z.eqb_neq (j + 1) (i + 1))) by lia. destruct (Z.eqb_spec i (j + 1)) as [Hij'|Hij'].
        { assert (j = i - 1) as -> by lia. exists vp, cp'. rewrite lookup_insert_eq. split_and!; done. }
        destruct (Hs j) as (v & c & F1 & F2 & F3 & F4 & F5); [lia|]. exists v, c. rewrite !lookup_insert_ne; [|congruence|intros <-; assert (cp = c) by congruence; subst; lia].
        split_and!; try done. rewrite F5. by rewrite (proj2 (Z.eqb_neq (j + 1) i)) by lia.
    + intros v c. rewrite lookup_insert_Some. intros [[<- <-]|[Hne E]].
      { split; [apply Hbrk in E2; lia|]. intros Hlt. pose proof (Ha (i - 1) vp ltac:(lia) E1). lia. }
      apply lookup_insert_Some in E as [[<- <-]|[_ E]]; [unfold v0; split; lia|]. apply Hbrk in E as ?. split; [lia|done].
    + intros v c Hlt E. pose proof (Ha (i - 1) vp ltac:(lia) E1). rewrite !lookup_insert_ne; [done|unfold v0; lia|lia].
    + intros v c. rewrite lookup_insert_Some. intros [[<- <-]|[Hne E]] Hge; [left; exists cp; by rewrite E2|].
      apply lookup_insert_Some in E as [[<- <-]|[_ E]]; [by right|left; by exists c].
Qed.
(** Above the mark there are only the vcpus of the new VM. *)
Definition only_new (b0 : Z) (h : gmap Z vcpu) (p : Z) (m : vm) (k : Z) : Prop :=
  forall v c, h !! v = Some c -> b0 <= v -> vc_vm c = p /\ 0 <= vcpu_id c < k /\ load_slot (vcpu_id c) m = Some (Some v).

Definition env_vcpus (nr : Z) : Prop := forall i, 0 <= i < nr -> e_task e i = true /\ e_vcpu e i = true /\ e_virq_struct e i = true.

Lemma grown_grown s p m h b t m' h' b' t' : grown (grown s p m h b t) p m' h' b' t' = grown s p m' h' b' t'.
Proof. unfold grown. cbn. by rewrite insert_insert_eq. Qed.

Lemma set_vcpus_vcpus m : set_vcpus (vcpus m) m = m.
Proof. by destruct m. Qed.

Lemma create_vcpus_loop_spec n p i s m b0 :
  vm_heap s !! p = Some m -> 0 <= i -> i + Z.of_nat n = vcpu_nr m ->
  length (vcpus m) = Z.to_nat (vcpu_nr m) -> (Z.to_nat (vcpu_nr m) <= length (vcpu_affinity m))%nat -> env_vcpus (vcpu_nr m) ->
  slots_ok (vcpu_heap s) p m i -> slots_above b0 m i -> only_new b0 (vcpu_heap s) p m i -> b0 <= brk s -> (forall v c, vcpu_heap s !! v = Some c -> v < brk s) ->
  exists l h b t, create_vcpus_loop n i p s = Some (0, grown s p (set_vcpus l m) h b t) /\
    length l = length (vcpus m) /\ slots_ok h p (set_vcpus l m) (vcpu_nr m) /\ only_new b0 h p (set_vcpus l m) (vcpu_nr m) /\ brk s <= b /\
    (forall v c, h !! v = Some c -> v < b) /\
    (forall v, v < b0 -> h !! v = vcpu_heap s !! v).
Proof.
  revert i s m. induction n as [|n IH]; intros i s m Hm Hi Hn Hl Haff He Hs Ha Hon Hb Hbrk.
  { exists (vcpus m), (vcpu_heap s), (brk s), (trace s). rewrite set_vcpus_vcpus. replace (vcpu_nr m) with i by lia. split_and!; try done; try lia.
    cbn. unfold grown. rewrite insert_id by done. by destruct s. }
  destruct (He i) as (E1 & E2 & E3); [lia|].
  destruct (create_vcpu_spec p i s m b0) as (m' & h & t & E & Hs' & Ha' & (l & -> & Hll & _) & Hh1 & Hh2 & Hh3); try done; [lia|].
  cbn [create_vcpus_loop]. rewrite E. msimpl.
  destruct (IH (i + 1) (grown s p (set_vcpus l m) h (brk s + 1) t) (set_vcpus l m)) as (l' & h' & b & t' & E' & Hl' & Hs'' & Hon' & Hb' & Hk1 & Hk2);
    try done; cbn [grown set_trace set_brk set_vcpu_heap set_vm_heap vm_heap vcpu_heap brk vcpu_nr set_vcpus vcpus vcpu_affinity].
  - apply lookup_insert_eq.
  - lia.
  - lia.
  - congruence.
  - intros v c Hv Hge. destruct (Hh3 v c Hv Hge) as [(c' & Hc' & -> & ->)|(-> & -> & Hid)].
    + destruct (Hon v c' Hc' Hge) as (-> & Hr & Hsl). split_and!; [done|lia|lia|].
      destruct (Hs' (vcpu_id c')) as (v' & c'' & G1 & G2 & G3 & _); [lia|]. rewrite G1. f_equal. f_equal.
      destruct (decide (v' = brk s)) as [->|Hne].
      * destruct (Hs (vcpu_id c') Hr) as (v2 & c2 & K1 & K2 & K3 & _). rewrite K1 in Hsl. injection Hsl as ->.
        exfalso. assert (h !! brk s = Some c'') as Hx by done. destruct (Hs' i) as (vi & ci & I1 & I2 & I3 & _); [lia|].
        destruct (Hh3 _ _ Hx Hb) as [(cx & Hcx & _)|(_ & _ & Hidx)]; [apply Hbrk in Hcx; lia|lia].
      * pose proof (Ha' (vcpu_id c') v' ltac:(lia) G1) as Hge'.
        destruct (Hh3 v' c'' G2 Hge') as [(cx & Hcx & Hq1 & Hq2)|(? & _)]; [|done]. destruct (Hon v' cx Hcx Hge') as (_ & Hrx & Hslx).
        rewrite <- Hq2, G3 in Hslx. congruence.
    + split_and!; [done|lia|lia|]. rewrite Hid. destruct (Hs' i) as (v' & c'' & G1 & G2 & G3 & _); [lia|]. rewrite G1. f_equal. f_equal.
      pose proof (Ha' i v' ltac:(lia) G1) as Hge'. destruct (Hh3 v' c'' G2 Hge') as [(cx & Hcx & Hq1 & Hq2)|(? & _)]; [|done].
      destruct (Hon v' cx Hcx Hge') as (_ & Hrx & _). lia.
  - lia.
  - intros v c Hv. by apply Hh1 in Hv as [? _].
  - rewrite grown_grown in E'. exists l', h', b, t'. rewrite E'.
    split_and!; try done; [cbn in *; congruence|cbn in *; lia|].
    intros v Hv. rewrite Hk2 by done. destruct (vcpu_heap s !! v) as [c|] eqn:Ec; [by apply Hh2|].
    destruct (h !! v) as [c|] eqn:Ec'; [|done]. cbn. rewrite Ec'. destruct (Hh1 v c Ec') as [_ Hx]. rewrite Hx in Ec by done. done.
Qed.

(** ** Creation: the number *)
Lemma total_bound s : hv_ok s -> 0 <= total_vms s <= CONFIG_MAX_VM.
Proof.
  intros Ho. rewrite (ho_total s Ho), (Permutation_length (ho_list s Ho)), <- (ho_len s Ho).
  assert (length (omap (fun x => x) (vms s)) <= length (vms s))%nat; [|lia].
  generalize (vms s). intros l. induction l as [|[x|] l IH]; cbn; lia.
Qed.

Lemma claim_vmid_spec tag s :
  hv_ok s -> 0 <= t_vmid tag < CONFIG_MAX_VM ->
  (claim_vmid tag s = Some (0, s) /\
     (if t_vmid tag =? 0 then forall i, 0 <= i < CONFIG_MAX_VM -> bit_at (vmid_bitmap s) i = true else bit_at (vmid_bitmap s) (t_vmid tag) = true))
  \/ exists id map, claim_vmid tag s = Some (id, set_vmid_bitmap map s) /\ 0 < id < CONFIG_MAX_VM /\ bit_at (vmid_bitmap s) id = false /\
       (t_vmid tag <> 0 -> id = t_vmid tag) /\
       bitmap_wf CONFIG_MAX_VM map /\ forall i, 0 <= i -> bit_at map i = (i =? id) || bit_at (vmid_bitmap s) i.
Proof.
  intros Ho Ht. pose proof (ho_map s Ho) as Hw. destruct (ho_zero s Ho) as [Hz Hmax]. unfold claim_vmid.
  destruct (Z.eqb_spec (t_vmid tag) 0) as [E0|E0]; cbn [negb].
  - unfold alloc_new_vmid. destruct (find_next_zero_bit_loop_spec (vmid_bitmap s) CONFIG_MAX_VM (total_vms s) Hw (total_bound s Ho)) as (r & -> & Hr & Hr1 & Hr2). msimpl.
    destruct (Z.leb_spec CONFIG_MAX_VM r).
    + left. split; [done|]. apply Hr2. lia.
    + right. destruct (set_bit_wf CONFIG_MAX_VM r (vmid_bitmap s) Hw) as (map & -> & Hw' & Hb); [lia|]. msimpl.
      exists r, map. split_and!; try done; [destruct (decide (r = 0)) as [->|]; [rewrite Hr1 in Hz by lia; done|lia]|by apply Hr1|..]; congruence.
  - destruct (test_and_set_bit_spec (t_vmid tag) (vmid_bitmap s)) as (map & -> & H1 & H2 & H3); [apply Hw|destruct Hw as (_ & ? & _); lia|]. msimpl.
    destruct (bit_at (vmid_bitmap s) (t_vmid tag)) eqn:Eb; [by left|]. right. exists (t_vmid tag), map.
    split_and!; try done; [lia|lia|by eapply bitmap_wf_same].
Qed.
(** ** Creation: the whole call *)

(** The state with a new VM. *)
Definition with_vm (s : hv) (id : nat) (p : Z) (m : vm) (h : gmap Z vcpu) (b : Z) (map : list Z) (host : option Z) (t : list ev) : hv :=
  mk_hv (<[p := m]> (vm_heap s)) h b (<[id := Some p]> (vms s)) (vm_list s ++ [p]) (total_vms s + 1) map
    host (aff_current s) (native_vcpus s) (vcpu_aff_bitmap s) (vm_requests s) t.

Lemma free_id_empty s (id : Z) : hv_ok s -> 0 <= id < CONFIG_MAX_VM -> bit_at (vmid_bitmap s) id = false -> vms s !! Z.to_nat id = Some None.
Proof.
  intros Ho Hi Hb. destruct (lookup_lt_is_Some_2 (vms s) (Z.to_nat id)) as [[p|] H]; [pose proof (ho_len s Ho); lia| |done].
  destruct (ho_vm s Ho _ _ H) as (_ & Hb' & _). rewrite Z2Nat.id in Hb' by lia. congruence.
Qed.

Lemma vm_in_list s p : hv_ok s -> p ∈ vm_list s -> exists id m, vms s !! id = Some (Some p) /\ vm_heap s !! p = Some m.
Proof.
  intros Ho Hp. rewrite (ho_list s Ho) in Hp. apply list_elem_of_omap in Hp as (x & Hx & ->). apply list_elem_of_lookup in Hx as [id Hid].
  destruct (ho_vm s Ho id p Hid) as (_ & _ & m & Hm & _). eauto.
Qed.

Lemma hv_ok_with s id m h b map host t :
  hv_ok s -> 0 < id < CONFIG_MAX_VM -> bit_at (vmid_bitmap s) id = false -> vmid m = id -> vm_ok h (brk s) m -> brk s + 1 <= b ->
  (forall v, v < brk s + 1 -> h !! v = vcpu_heap s !! v) -> only_new (brk s + 1) h (brk s) m (vcpu_nr m) -> (forall v c, h !! v = Some c -> v < b) ->
  bitmap_wf CONFIG_MAX_VM map -> (forall i, 0 <= i -> bit_at map i = (i =? id) || bit_at (vmid_bitmap s) i) ->
  hv_ok (with_vm s (Z.to_nat id) (brk s) m h b map host t).
Proof.
  intros Ho Hi Hb Hvid Hok Hbb Hlow Hnew Hhb Hw Hbits. pose proof (free_id_empty s id Ho ltac:(lia) Hb) as Hfree. set (p := brk s) in *.
  assert (vm_heap s !! p = None) as Hp by (destruct (vm_heap s !! p) eqn:E; [apply (ho_vm_brk s Ho) in E; unfold p in E; lia|done]).
  assert (p ∉ vm_list s) as Hpl by (intros Hin; apply (vm_in_list s p Ho) in Hin as (? & ? & _ & ?); congruence).
  split; cbn [with_vm vms vmid_bitmap vm_list total_vms vm_heap vcpu_heap brk].
  - rewrite length_insert. apply Ho.
  - done.
  - split; [|apply Ho]. rewrite Hbits by lia. rewrite (proj1 (ho_zero s Ho)). apply orb_true_r.
  - apply list.NoDup_app. split_and!; [apply Ho| |apply NoDup_singleton]. intros q Hq ->%list_elem_of_singleton. done.
  - rewrite omap_store_new by done. rewrite <- (ho_list s Ho). symmetry. apply Permutation_cons_append.
  - rewrite length_app, (ho_total s Ho). cbn. lia.
  - intros id' p' H'. apply list_lookup_insert_Some in H' as [(<- & E & _)|(Hne & H')].
    + injection E as ->. split; [lia|]. split; [rewrite Hbits, Z2Nat.id, Z.eqb_refl by lia; done|].
      exists m. rewrite lookup_insert_eq, Z2Nat.id by lia. done.
    + destruct (ho_vm s Ho id' p' H') as (Hnz & Hbit & m' & Hm' & Hid' & [Hn Hl Hs]). split; [done|]. split; [rewrite Hbits, Hbit by lia; apply orb_true_r|].
      exists m'. rewrite lookup_insert_ne by congruence. split_and!; [done|done|]. split; [done|done|].
      intros i Hii. destruct (Hs i Hii) as (v & c & E1 & E2 & E3 & E4 & E5). exists v, c. split_and!; try done.
      rewrite Hlow; [done|]. apply (ho_vcpu_brk s Ho) in E2. lia.
  - intros v c Hv. destruct (Z.lt_ge_cases v (p + 1)) as [Hlt|Hge].
    + cbn in Hv. rewrite Hlow in Hv by done. destruct (ho_stray s Ho v c Hv) as (m' & Hm' & Hr). exists m'. cbn. rewrite lookup_insert_ne by congruence. done.
    + cbn in Hv. destruct (Hnew v c Hv Hge) as (-> & Hr & Hl). exists m. cbn. rewrite lookup_insert_eq. done.
  - intros q mq Hq. apply lookup_insert_Some in Hq as [[<- _]|[_ Hq]]; [unfold p; lia|]. apply (ho_vm_brk s Ho) in Hq. lia.
  - done.
Qed.

Record tag_ok (tag : vmtag) : Prop := mk_tag_ok {
  tk_id : 0 <= t_vmid tag < CONFIG_MAX_VM;
  tk_nr : 0 < t_nr_vcpu tag <= NR_CPUS;
  tk_len : length (t_vcpu_affinity tag) = 8%nat;
  tk_aff : vm_check_vcpu_affinity (t_vcpu_affinity tag) (t_nr_vcpu tag) = Some 0;
}.

Record env_ok (tag : vmtag) : Prop := mk_env_ok {
  ek_vm : e_vm e = true;
  ek_vcpus : e_vcpus e = true;
  ek_files : is_Some (vm_open_ramdisk_file tag);
  ek_mm : e_mm e = 0;
  ek_each : env_vcpus (t_nr_vcpu tag);
}.

(** The VM a tag describes. *)
Definition vm_of_tag (tag : vmtag) (m : vm) : Prop :=
  vcpu_nr m = t_nr_vcpu tag /\ flags m = t_flags tag /\ vm_state m = VM_STATE_OFFLINE /\ entry_point m = t_entry tag /\
  setup_data m = t_setup_data tag /\ load_address m = (if t_load_address tag =? 0 then t_entry tag else t_load_address tag) /\
  vcpu_affinity m = take (Z.to_nat NR_CPUS) (t_vcpu_affinity tag) /\ vdev_list m = [].

Lemma check_affinity_nr n i (aff : list Z) mask : check_affinity_loop n i aff mask = Some 0 -> 0 <= i -> (Z.to_nat i + n <= Nat.max (Z.to_nat i) (length aff))%nat.
Proof.
  revert i mask. induction n as [|n IH]; intros i mask H Hi; [lia|]. cbn [check_affinity_loop] in H.
  destruct (aff !! Z.to_nat i) as [a|] eqn:E; [|done]. apply lookup_lt_Some in E. cbn in H.
  destruct (_ <=? a); [done|]. destruct (negb _); [done|]. apply IH in H; lia.
Qed.

(** The state in which [create_vcpus] starts, and what it becomes. *)
Definition before_vcpus (s : hv) (id : Z) (m : vm) (map : list Z) (t : list ev) : hv :=
  mk_hv (<[brk s := m]> (vm_heap s)) (vcpu_heap s) (brk s + 1) (<[Z.to_nat id := Some (brk s)]> (vms s)) (vm_list s ++ [brk s]) (total_vms s + 1) map
    (host_vm s) (aff_current s) (native_vcpus s) (vcpu_aff_bitmap s) (vm_requests s) t.

Lemma grown_before s id m0 map t0 m h b t :
  grown (before_vcpus s id m0 map t0) (brk s) m h b t = with_vm s (Z.to_nat id) (brk s) m h b map (host_vm s) t.
Proof. unfold grown, before_vcpus, with_vm. cbn [set_trace set_brk set_vcpu_heap set_vm_heap vm_heap vcpu_heap brk vms vm_list total_vms vmid_bitmap host_vm aff_current native_vcpus vcpu_aff_bitmap vm_requests trace]. by rewrite insert_insert_eq. Qed.

Lemma __create_vm_spec tag id s map :
  hv_ok s -> 0 < id < CONFIG_MAX_VM -> 0 < t_nr_vcpu tag <= NR_CPUS -> length (t_vcpu_affinity tag) = 8%nat ->
  vm_check_vcpu_affinity (t_vcpu_affinity tag) (t_nr_vcpu tag) = Some 0 -> e_vm e = true -> e_vcpus e = true -> is_Some (vm_open_ramdisk_file tag) ->
  exists m, __create_vm (with_vmid id tag) (set_vmid_bitmap map s) = Some (Some (brk s), before_vcpus s id m map (trace s)) /\
    vm_of_tag tag m /\ vmid m = id /\ vcpus m = replicate (Z.to_nat (t_nr_vcpu tag)) Undef /\ (Z.to_nat (t_nr_vcpu tag) <= length (vcpu_affinity m))%nat.
Proof.
  intros Ho Hir Hnr Hlen Haff Ev Ec Ef. unfold __create_vm. cbn [with_vmid t_vcpu_affinity t_nr_vcpu t_vmid t_flags t_entry t_setup_data t_load_address].
  rewrite Haff, Ev, Ec. msimpl. cbn [Z.eqb negb].
  destruct Ef as [f Ef]. change (vm_open_ramdisk_file (with_vmid id tag)) with (vm_open_ramdisk_file tag). rewrite Ef.
  msimpl. cbn [fresh]. unfold VM_MAX_VCPU. rewrite Z.min_l by lia.
  unfold vm_check_vcpu_affinity in Haff. apply check_affinity_nr in Haff; [|lia].
  assert (u32 (t_nr_vcpu tag) = t_nr_vcpu tag) as -> by (unfold u32; apply Z.mod_small; lia).
  set (m := mk_vm id _ _ _ _ _ _ _ _ _ _). exists m. split_and!; [|by unfold vm_of_tag; split_and!|done|done|cbn; rewrite length_take; lia].
  unfold store_vms. cbn [put_vm set_vm_heap set_brk set_vmid_bitmap vms brk]. rewrite (ho_len s Ho).
  rewrite (proj2 (Z.leb_le 0 id)), (proj2 (Z.ltb_lt id _)) by lia. cbn [andb]. msimpl. reflexivity.
Qed.

Lemma create_vcpus_spec s id m map t :
  hv_ok s -> 0 < vcpu_nr m -> vcpus m = replicate (Z.to_nat (vcpu_nr m)) Undef -> (Z.to_nat (vcpu_nr m) <= length (vcpu_affinity m))%nat -> env_vcpus (vcpu_nr m) ->
  exists l h b t', create_vcpus (brk s) (before_vcpus s id m map t) = Some (0, with_vm s (Z.to_nat id) (brk s) (set_vcpus l m) h b map (host_vm s) t') /\
    vm_ok h (brk s) (set_vcpus l m) /\ only_new (brk s + 1) h (brk s) (set_vcpus l m) (vcpu_nr m) /\ brk s + 1 <= b /\
    (forall v c, h !! v = Some c -> v < b) /\ (forall v, v < brk s + 1 -> h !! v = vcpu_heap s !! v).
Proof.
  intros Ho Hnr Hv Haff He. unfold create_vcpus. cbn [before_vcpus vm_heap]. rewrite lookup_insert_eq. msimpl.
  destruct (create_vcpus_loop_spec (Z.to_nat (vcpu_nr m)) (brk s) 0 (before_vcpus s id m map t) m (brk s + 1)) as (l & h & b & t' & -> & Hl & Hs & Hnew & Hbb & Hkb & Hlow);
    [apply lookup_insert_eq|lia|lia|by rewrite Hv, length_replicate|done|done|intros i Hi; lia|intros i v Hi; lia| |cbn; lia| |].
  { intros v c Hc Hge. apply (ho_vcpu_brk s Ho) in Hc. lia. }
  { intros v c Hc. apply (ho_vcpu_brk s Ho) in Hc. cbn. lia. }
  rewrite grown_before. exists l, h, b, t'. split; [done|]. split_and!; try done.
  split; [done| |done]. cbn [set_vcpus vcpus vcpu_nr]. by rewrite Hl, Hv, length_replicate.
Qed.

Lemma create_vm_spec tag s :
  hv_ok s -> tag_ok tag -> env_ok tag ->
  (Z.land (t_flags tag) VM_FLAGS_HOST <> 0 -> host_vm s = None) ->
  (exists i, 0 <= i < CONFIG_MAX_VM /\ bit_at (vmid_bitmap s) i = false /\ (t_vmid tag <> 0 -> i = t_vmid tag)) ->
  exists id m h b map t,
    let s' := with_vm s (Z.to_nat id) (brk s) m h b map (if Z.land (t_flags tag) VM_FLAGS_HOST =? 0 then host_vm s else Some (brk s)) t in
    create_vm tag s = (if negb (e_hook e =? 0) then s2 ← destroy_vm (Some (brk s)) s'; Some (None, s2) else Some (Some (brk s), s')) /\
    hv_ok s' /\ 0 < id < CONFIG_MAX_VM /\ bit_at (vmid_bitmap s) id = false /\ (t_vmid tag <> 0 -> id = t_vmid tag) /\
    vmid m = id /\ vm_of_tag tag m /\ (forall v, v < brk s + 1 -> h !! v = vcpu_heap s !! v) /\
    only_new (brk s + 1) h (brk s) m (vcpu_nr m) /\
    (forall i, 0 <= i -> bit_at map i = (i =? id) || bit_at (vmid_bitmap s) i).
Proof.
  intros Ho [Hid Hnr Hlen Haff] [Ev Ec Ef Em Ee] Hhost (i0 & Hi0 & Hf0 & Hr0). unfold create_vm.
  destruct (claim_vmid_spec tag s Ho Hid) as [[_ Hno]|(id & map & -> & Hir & Hbit & Hreq & Hw & Hb)].
  { exfalso. destruct (Z.eqb_spec (t_vmid tag) 0); [rewrite Hno in Hf0 by lia; done|]. rewrite (Hr0 n) in Hf0. congruence. }
  msimpl. rewrite (proj2 (Z.eqb_neq id 0)) by lia.
  destruct (__create_vm_spec tag id s map Ho Hir Hnr Hlen Haff Ev Ec Ef) as (m & -> & Htag & Hvid & Hvs & Hal). msimpl. rewrite Em.
  replace (negb (0 =? 0)) with false by done. assert (vcpu_nr m = t_nr_vcpu tag) as Hn by apply Htag.
  change (emit _ (emit _ (before_vcpus s id m map (trace s)))) with (before_vcpus s id m map ((trace s ++ [ev_mm_init (brk s)]) ++ [ev_iommu_init (brk s)])).
  destruct (create_vcpus_spec s id m map ((trace s ++ [ev_mm_init (brk s)]) ++ [ev_iommu_init (brk s)])) as (l & h & b & t & -> & Hok & Hnew & Hbb & Hkb & Hlow);
    [done|lia|by rewrite Hn|by rewrite Hn|by rewrite Hn|]. msimpl. replace (negb (0 =? 0)) with false by done.
  cbn [with_vm vm_heap]. rewrite lookup_insert_eq. msimpl.
  exists id, (set_vcpus l m), h, b, map, (t ++ [ev_hook OS_HOOK_CREATE_VM (brk s)]). cbv zeta.
  split; [|split; [|split_and!; try done; lia]].
  - unfold vm_is_host_vm. replace (flags (set_vcpus l m)) with (t_flags tag) by (symmetry; apply Htag).
    change (host_vm (mk_hv _ _ _ _ _ _ _ (host_vm s) _ _ _ _ _)) with (host_vm s).
    destruct (Z.eqb_spec (Z.land (t_flags tag) VM_FLAGS_HOST) 0) as [Eh|Eh]; cbn [negb]; [|rewrite (Hhost Eh)]; msimpl; destruct (negb _); reflexivity.
  - apply hv_ok_with; done.
Qed.
Lemma filter_last (p : Z) (l : list Z) : p ∉ l -> filter (fun q => q <> p) (l ++ [p]) = l.
Proof.
  induction l as [|x l IH]; intros Hp; cbn [app].
  - rewrite filter_cons_False by (intros H; by apply H). done.
  - apply not_elem_of_cons in Hp as [H1 H2]. rewrite filter_cons_True by done. by rewrite IH.
Qed.

(** Two states that agree on everything but the trace, the addresses that will
    be handed out next and the host VM. *)
Record same_vms (s s' : hv) : Prop := mk_same_vms {
  sv_heap : vm_heap s' = vm_heap s;
  sv_vcpu : vcpu_heap s' = vcpu_heap s;
  sv_vms : vms s' = vms s;
  sv_list : vm_list s' = vm_list s;
  sv_total : total_vms s' = total_vms s;
  sv_bits : forall i, 0 <= i -> bit_at (vmid_bitmap s') i = bit_at (vmid_bitmap s) i;
}.

Lemma without_with s id m h b map host t h' map' t' :
  hv_ok s -> 0 < id < CONFIG_MAX_VM -> bit_at (vmid_bitmap s) id = false ->
  (forall v, v < brk s + 1 -> h !! v = vcpu_heap s !! v) -> only_new (brk s + 1) h (brk s) m (vcpu_nr m) ->
  (forall i, 0 <= i -> bit_at map i = (i =? id) || bit_at (vmid_bitmap s) i) ->
  vcpus_of_gone (brk s) h h' -> (forall i, 0 <= i -> bit_at map' i = negb (i =? id) && bit_at map i) ->
  same_vms s (without_vm (with_vm s (Z.to_nat id) (brk s) m h b map host t) (Z.to_nat id) (brk s) h' map' t').
Proof.
  intros Ho Hi Hb Hlow Hnew Hbits [Hg1 Hg2] Hbits'.
  assert (forall m, vm_heap s !! brk s <> Some m) as Hp by (intros m' E; apply (ho_vm_brk s Ho) in E; lia).
  split; cbn [without_vm with_vm vm_heap vcpu_heap vms vm_list total_vms vmid_bitmap].
  - apply delete_insert_id. destruct (vm_heap s !! brk s) as [m'|] eqn:E; [by destruct (Hp m')|done].
  - apply map_eq. intros v. destruct (vcpu_heap s !! v) as [c|] eqn:E.
    + pose proof (ho_vcpu_brk s Ho v c E). apply Hg2; [by rewrite Hlow by lia|]. intros Hc. destruct (ho_stray s Ho v c E) as (m' & Hm' & _).
      rewrite Hc in Hm'. by apply Hp in Hm'.
    + destruct (h' !! v) as [c|] eqn:E'; [|done]. apply Hg1 in E' as [E' Hne]. destruct (Z.lt_ge_cases v (brk s + 1)) as [Hlt|Hge]; [rewrite Hlow in E' by done; congruence|].
      by destruct (Hnew v c E' Hge) as [? _].
  - rewrite list_insert_insert_eq. apply list_insert_id. by apply free_id_empty; [|lia|].
  - apply filter_last. intros Hin. apply (vm_in_list s _ Ho) in Hin as (? & m' & _ & ?). by apply (Hp m').
  - lia.
  - intros i Hii. rewrite Hbits', Hbits by done. destruct (Z.eqb_spec i id) as [->|]; [done|]. by destruct (bit_at _ i).
Qed.

Lemma destroy_created tag s id m h b map host t :
  let s1 := with_vm s (Z.to_nat id) (brk s) m h b map host t in
  hv_ok s -> hv_ok s1 -> 0 < id < CONFIG_MAX_VM -> bit_at (vmid_bitmap s) id = false -> vm_of_tag tag m -> Z.land (t_flags tag) VM_FLAGS_NATIVE = 0 ->
  (forall v, v < brk s + 1 -> h !! v = vcpu_heap s !! v) -> only_new (brk s + 1) h (brk s) m (vcpu_nr m) ->
  (forall i, 0 <= i -> bit_at map i = (i =? id) || bit_at (vmid_bitmap s) i) ->
  exists s2, destroy_vm (Some (brk s)) s1 = Some s2 /\ hv_ok s2 /\ same_vms s s2 /\ host_vm s2 = host.
Proof.
  intros s1 Ho Ho' Hid Hbit Htag Hnat Hlow Hnew Hbits.
  assert (vms s1 !! Z.to_nat id = Some (Some (brk s))) as Hvms.
  { cbn. apply list_lookup_insert_eq. pose proof (ho_len s Ho). lia. }
  destruct (destroy_vm_spec s1 (Z.to_nat id) (brk s) m Ho' Hvms) as (t' & h' & map' & E' & Hg & Hw' & Hb'); [apply lookup_insert_eq| |].
  { unfold vm_is_native. replace (flags m) with (t_flags tag) by (symmetry; apply Htag). by rewrite Hnat. }
  eexists. split; [exact E'|]. split_and!; [|rewrite Z2Nat.id in Hb' by lia; by apply without_with|done].
  by apply (hv_ok_without s1 (Z.to_nat id) (brk s) m); [| |apply lookup_insert_eq|..].
Qed.

(** ** Properties *)

(** C3: creating a VM.  With a free number, a valid configuration and
    successful allocations, [create_vm] returns a VM that is registered under
    a number that was free (the requested one, if one was requested), with all
    of its vcpus created, numbered, linked and back-pointing to it, offline,
    and described as the tag says; the table, the list, the count and the
    bitmap stay in step, and no other VM or vcpu is touched. *)
Theorem create_vm_correct tag s :
  hv_ok s -> tag_ok tag -> env_ok tag -> e_hook e = 0 ->
  (Z.land (t_flags tag) VM_FLAGS_HOST <> 0 -> host_vm s = None) ->
  (exists i, 0 <= i < CONFIG_MAX_VM /\ bit_at (vmid_bitmap s) i = false /\ (t_vmid tag <> 0 -> i = t_vmid tag)) ->
  exists p m s', create_vm tag s = Some (Some p, s') /\ hv_ok s' /\
    vm_heap s !! p = None /\ vm_heap s' !! p = Some m /\ vm_of_tag tag m /\ vm_ok (vcpu_heap s') p m /\
    bit_at (vmid_bitmap s) (vmid m) = false /\ (t_vmid tag <> 0 -> vmid m = t_vmid tag) /\
    get_vm_by_id (vmid m) s' = Some (Some p) /\ vm_list s' = vm_list s ++ [p] /\ total_vms s' = total_vms s + 1 /\
    (forall q, q <> p -> vm_heap s' !! q = vm_heap s !! q) /\
    (forall v c, vcpu_heap s !! v = Some c -> vcpu_heap s' !! v = Some c).
Proof.
  intros Ho Ht He Hh Hhost Hfree. destruct (create_vm_spec tag s Ho Ht He Hhost Hfree) as (id & m & h & b & map & t & E & Ho' & Hid & Hbit & Hreq & Hvid & Htag & Hlow & _).
  rewrite Hh in E. cbn [Z.eqb negb] in E. eexists (brk s), m, _. split; [exact E|]. split; [exact Ho'|].
  assert (vms (with_vm s (Z.to_nat id) (brk s) m h b map (if Z.land (t_flags tag) VM_FLAGS_HOST =? 0 then host_vm s else Some (brk s)) t) !! Z.to_nat id = Some (Some (brk s))) as Hvms.
  { cbn. apply list_lookup_insert_eq. pose proof (ho_len s Ho). lia. }
  destruct (ho_vm _ Ho' _ _ Hvms) as (_ & _ & m' & Hm' & _ & Hok). cbn in Hm'. rewrite lookup_insert_eq in Hm'. injection Hm' as <-.
  split_and!; try done.
  - destruct (vm_heap s !! brk s) eqn:E'; [apply (ho_vm_brk s Ho) in E'; lia|done].
  - apply lookup_insert_eq.
  - by rewrite Hvid.
  - by rewrite Hvid.
  - unfold get_vm_by_id. rewrite Hvid, (proj2 (Z.leb_gt _ _)), (proj2 (Z.eqb_neq _ _)) by lia. exact Hvms.
  - intros q Hq. cbn. by rewrite lookup_insert_ne.
  - intros v c Hv. cbn. rewrite Hlow; [done|]. apply (ho_vcpu_brk s Ho) in Hv. lia.
Qed.

(** A VM that a module refuses leaves nothing behind.  When the creation
    hook fails for a guest VM, [create_vm] returns NULL and the table, the
    list, the count, the bitmap, every VM and every vcpu are what they were. *)
Theorem create_vm_refused_rolls_back tag s :
  hv_ok s -> tag_ok tag -> env_ok tag -> e_hook e <> 0 -> Z.land (t_flags tag) VM_FLAGS_NATIVE = 0 -> Z.land (t_flags tag) VM_FLAGS_HOST = 0 ->
  (exists i, 0 <= i < CONFIG_MAX_VM /\ bit_at (vmid_bitmap s) i = false /\ (t_vmid tag <> 0 -> i = t_vmid tag)) ->
  exists s', create_vm tag s = Some (None, s') /\ hv_ok s' /\ same_vms s s' /\ host_vm s' = host_vm s.
Proof.
  intros Ho Ht He Hh Hnat Hhost Hfree.
  destruct (create_vm_spec tag s Ho Ht He ltac:(congruence) Hfree) as (id & m & h & b & map & t & E & Ho' & Hid & Hbit & Hreq & Hvid & Htag & Hlow & Hnew & Hbits).
  rewrite (proj2 (Z.eqb_neq _ _) Hh), Hhost in E. rewrite Hhost in Ho'. cbn [negb Z.eqb] in E, Ho'.
  destruct (destroy_created tag s id m h b map (host_vm s) t) as (s2 & E2 & H2); try done. rewrite E2 in E. by exists s2.
Qed.

(** Destroying a guest VM removes exactly that VM: its number is free
    again, it is out of the table, the list and the count, its vcpus are gone,
    and every other VM with all of its vcpus stays as it was. *)
Theorem destroy_vm_correct s id p m :
  hv_ok s -> vms s !! id = Some (Some p) -> vm_heap s !! p = Some m -> vm_is_native m = false ->
  exists s', destroy_vm (Some p) s = Some s' /\ hv_ok s' /\
    get_vm_by_id (Z.of_nat id) s' = Some None /\ vm_heap s' !! p = None /\ total_vms s' = total_vms s - 1 /\
    (forall i, 0 <= i -> bit_at (vmid_bitmap s') i = negb (i =? Z.of_nat id) && bit_at (vmid_bitmap s) i) /\
    (forall q, q ∈ vm_list s' <-> q ∈ vm_list s /\ q <> p) /\
    (forall q, q <> p -> vm_heap s' !! q = vm_heap s !! q) /\
    (forall v c, vcpu_heap s' !! v = Some c <-> vcpu_heap s !! v = Some c /\ vc_vm c <> p).
Proof.
  intros Ho Hid Hm Hn. destruct (destroy_vm_spec s id p m Ho Hid Hm Hn) as (t & h & map & E & Hg & Hw & Hb).
  pose proof (vms_index s id p Ho Hid) as Hr. eexists. split; [exact E|]. split; [by eapply hv_ok_without|]. split_and!; cbn; try done.
  - unfold get_vm_by_id. rewrite (proj2 (Z.leb_gt _ _)), (proj2 (Z.eqb_neq _ _)) by lia. cbn [orb]. rewrite Nat2Z.id. cbn. apply list_lookup_insert_eq. by apply lookup_lt_Some in Hid.
  - apply lookup_delete_eq.
  - intros q. rewrite list_elem_of_filter. tauto.
  - intros q Hq. by rewrite lookup_delete_ne.
  - intros v c. destruct Hg as [Hg1 Hg2]. split; [apply Hg1|]. intros [H1 H2]. by apply Hg2.
Qed.

(** Creating a guest VM and destroying it again restores the hypervisor:
    the same table, list, count and bitmap, the same VMs and the same vcpus. *)
Theorem create_destroy_roundtrip tag s p s' :
  hv_ok s -> tag_ok tag -> env_ok tag -> e_hook e = 0 -> Z.land (t_flags tag) VM_FLAGS_NATIVE = 0 -> Z.land (t_flags tag) VM_FLAGS_HOST = 0 ->
  (exists i, 0 <= i < CONFIG_MAX_VM /\ bit_at (vmid_bitmap s) i = false /\ (t_vmid tag <> 0 -> i = t_vmid tag)) ->
  create_vm tag s = Some (Some p, s') ->
  exists s'', destroy_vm (Some p) s' = Some s'' /\ hv_ok s'' /\ same_vms s s''.
Proof.
  intros Ho Ht He Hh Hnat Hhost Hfree Hc.
  destruct (create_vm_spec tag s Ho Ht He ltac:(congruence) Hfree) as (id & m & h & b & map & t & E & Ho' & Hid & Hbit & Hreq & Hvid & Htag & Hlow & Hnew & Hbits).
  rewrite Hh in E. cbn [Z.eqb negb] in E. rewrite E in Hc. injection Hc as <- <-.
  destruct (destroy_created tag s id m h b map (if Z.land (t_flags tag) VM_FLAGS_HOST =? 0 then host_vm s else Some (brk s)) t) as (s2 & E2 & H2 & H3 & _); try done. by exists s2.
Qed.
(** ** Creation: every other path *)
Lemma release_unset n j m s k : j <= k < j + Z.of_nat n -> load_slot k m = None -> release_slots n j m s = None.
Proof.
  revert j s. induction n as [|n IH]; intros j s Hk Hl; [lia|]. cbn [release_slots]. destruct (decide (j = k)) as [->|Hne]; [by rewrite Hl|].
  destruct (load_slot j m) as [[v|]|]; msimpl; [|by apply IH; [lia|]|done]. destruct (release_vcpu v s) as [s1|]; [|done]. msimpl. apply IH; [lia|done].
Qed.

Lemma create_vcpu_fail p i s m : vm_heap s !! p = Some m -> 0 <= i < vcpu_nr m -> (Z.to_nat (vcpu_nr m) <= length (vcpu_affinity m))%nat ->
  e_task e i && e_vcpu e i && e_virq_struct e i = false -> exists t, create_vcpu p i s = Some (None, set_trace t s).
Proof.
  intros Hm Hi Haff He. unfold create_vcpu. rewrite Hm. msimpl. destruct (lookup_lt_is_Some_2 (vcpu_affinity m) (Z.to_nat i)) as [aff ->]; [lia|]. msimpl.
  destruct (e_task e i); cbn [negb andb] in *; [|exists (trace s); by destruct s]. unfold alloc_vcpu.
  destruct (e_vcpu e i); cbn [negb andb] in *; [|by eexists]. rewrite He. cbn [negb]. by eexists.
Qed.

Lemma create_vcpus_loop_fail n p i s m b0 :
  vm_heap s !! p = Some m -> 0 <= i -> i + Z.of_nat n = vcpu_nr m ->
  length (vcpus m) = Z.to_nat (vcpu_nr m) -> (Z.to_nat (vcpu_nr m) <= length (vcpu_affinity m))%nat ->
  slots_ok (vcpu_heap s) p m i -> slots_above b0 m i -> b0 <= brk s -> (forall v c, vcpu_heap s !! v = Some c -> v < brk s) ->
  (forall j, i <= j < vcpu_nr m -> load_slot j m = None) ->
  (exists j, i <= j < vcpu_nr m /\ e_task e j && e_vcpu e j && e_virq_struct e j = false) -> create_vcpus_loop n i p s = None.
Proof.
  revert i s m. induction n as [|n IH]; intros i s m Hm Hi Hn Hl Haff Hs Ha Hb Hbrk Hun (j & Hj & He); [lia|]. cbn [create_vcpus_loop].
  destruct (e_task e i && e_vcpu e i && e_virq_struct e i) eqn:Ei.
  - apply andb_prop in Ei as [Ei E3]. apply andb_prop in Ei as [E1 E2].
    destruct (create_vcpu_spec p i s m b0) as (m' & h & t & -> & Hs' & Ha' & (l & -> & Hll & Hls) & Hh1 & Hh2 & Hh3); try done; [lia|]. msimpl.
    apply (IH (i + 1) _ (set_vcpus l m)); try done; cbn [grown set_trace set_brk set_vcpu_heap set_vm_heap vm_heap vcpu_heap brk vcpu_nr set_vcpus vcpus vcpu_affinity].
    + apply lookup_insert_eq.
    + lia.
    + lia.
    + congruence.
    + lia.
    + intros v c Hv. by apply Hh1 in Hv as [? _].
    + intros k Hk. rewrite Hls by lia. apply Hun. lia.
    + exists j. split; [|done]. destruct (decide (i = j)) as [->|]; [by rewrite E1, E2, E3 in He|lia].
  - destruct (create_vcpu_fail p i s m Hm ltac:(lia) Haff Ei) as [t ->]. msimpl. cbn [set_trace vm_heap]. rewrite Hm. msimpl.
    rewrite (release_unset _ 0 m _ i); [done|lia|apply Hun; lia].
Qed.

Lemma hv_ok_leak s id map : hv_ok s -> bitmap_wf CONFIG_MAX_VM map -> (forall i, 0 <= i -> bit_at map i = (i =? id) || bit_at (vmid_bitmap s) i) -> hv_ok (set_vmid_bitmap map s).
Proof.
  intros [O1 O2 [O3 O3'] O4 O5 O6 O7 O8 O9 O10] Hw Hb. split; try done.
  - split; [|done]. cbn. rewrite Hb, O3 by lia. apply orb_true_r.
  - intros k p Hp. destruct (O7 k p Hp) as (A & B & C). split; [done|]. split; [cbn; rewrite Hb, B by lia; apply orb_true_r|done].
Qed.

Lemma destroy_unset s id m map t : 0 < vcpu_nr m -> vcpus m = replicate (Z.to_nat (vcpu_nr m)) Undef -> destroy_vm (Some (brk s)) (before_vcpus s id m map t) = None.
Proof.
  intros Hnr Hv. unfold destroy_vm. cbn [before_vcpus vm_heap]. rewrite lookup_insert_eq. msimpl. destruct (vm_is_native m); [done|].
  rewrite (release_unset _ 0 m _ 0); [done|lia|]. unfold load_slot. rewrite Hv. by rewrite lookup_replicate_2 by lia.
Qed.

Lemma forallb_exists_false (f : Z -> bool) (l : list Z) : forallb f l = false -> exists x, x ∈ l /\ f x = false.
Proof.
  induction l as [|x l IH]; [done|]. cbn. destruct (f x) eqn:E; [|intros _; exists x; split; [left|done]].
  intros H. destruct (IH H) as (y & Hy & Ey). exists y. split; [by right|done].
Qed.

Definition registered (r : option Z) (s : hv) : Prop := forall p, r = Some p -> exists id : nat, vms s !! id = Some (Some p).

(** The number [create_vm] takes, if any. *)
Definition claimed (tag : vmtag) (s : hv) : list Z := match claim_vmid tag s with Some (id, _) => if id =? 0 then [] else [id] | None => [] end.

(** How a creation that took the numbers [l] may end. *)
Definition outcome (l : list Z) (r : option Z) (s s' : hv) : Prop :=
  hv_ok s' /\ registered r s' /\ forall i, 0 <= i -> stale s' i -> stale s i \/ (r = None /\ i ∈ l).

Lemma outcome_none l s : hv_ok s -> outcome l None s s.
Proof. intros Ho. split; [done|]. split; [done|]. intros i _ Hi. by left. Qed.

Lemma outcome_leak s id map : hv_ok (set_vmid_bitmap map s) -> (forall i, 0 <= i -> bit_at map i = (i =? id) || bit_at (vmid_bitmap s) i) -> outcome [id] None s (set_vmid_bitmap map s).
Proof.
  intros Ho Hb. split; [done|]. split; [done|]. intros i Hi [Hs Hv]. cbn in Hs, Hv. rewrite Hb in Hs by done. destruct (Z.eqb_spec i id) as [->|]; [right; split; [done|by apply list_elem_of_singleton]|].
  left. by split.
Qed.

Lemma stale_with s id m h b map host t i : 0 < id < CONFIG_MAX_VM -> hv_ok s -> (forall i, 0 <= i -> bit_at map i = (i =? id) || bit_at (vmid_bitmap s) i) -> 0 <= i ->
  stale (with_vm s (Z.to_nat id) (brk s) m h b map host t) i -> i <> id /\ stale s i.
Proof.
  intros Hid Ho Hb Hi [Hs Hv]. cbn in Hs, Hv. rewrite Hb in Hs by done. destruct (Z.eqb_spec i id) as [->|Hne].
  - rewrite list_lookup_insert_eq in Hv; [done|]. pose proof (ho_len s Ho). lia.
  - rewrite list_lookup_insert_ne in Hv by lia. done.
Qed.

Lemma stale_without s (id : nat) p h map t i : (forall i, 0 <= i -> bit_at map i = negb (i =? Z.of_nat id) && bit_at (vmid_bitmap s) i) -> 0 <= i ->
  stale (without_vm s id p h map t) i -> stale s i.
Proof.
  intros Hb Hi [Hs Hv]. cbn in Hs, Hv. rewrite Hb in Hs by done. destruct (Z.eqb_spec i (Z.of_nat id)) as [->|Hne]; [done|].
  rewrite list_lookup_insert_ne in Hv by lia. done.
Qed.

(** The end of [create_vm]: the host VM and the hook. *)
Lemma create_tail_ok s id m h b map t (host : bool) r s' :
  hv_ok s -> 0 < id < CONFIG_MAX_VM -> (forall hst t, hv_ok (with_vm s (Z.to_nat id) (brk s) m h b map hst t)) ->
  (forall i, 0 <= i -> bit_at map i = (i =? id) || bit_at (vmid_bitmap s) i) ->
  (s1 ← (if host then (match host_vm s with None => Some (set_host_vm (Some (brk s)) (with_vm s (Z.to_nat id) (brk s) m h b map (host_vm s) t)) | Some _ => None end)
         else Some (with_vm s (Z.to_nat id) (brk s) m h b map (host_vm s) t));
   let s1 := emit (ev_hook OS_HOOK_CREATE_VM (brk s)) s1 in
   if negb (e_hook e =? 0) then s2 ← destroy_vm (Some (brk s)) s1; Some (None, s2) else Some (Some (brk s), s1)) = Some (r, s') -> outcome [id] r s s'.
Proof.
  intros Ho Hir Hall Hbits E.
  assert (exists hst t1, (if negb (e_hook e =? 0) then s2 ← destroy_vm (Some (brk s)) (with_vm s (Z.to_nat id) (brk s) m h b map hst t1); Some (None, s2)
            else Some (Some (brk s), with_vm s (Z.to_nat id) (brk s) m h b map hst t1)) = Some (r, s')) as (hst & t1 & E').
  { destruct host; [destruct (host_vm s); [done|]|]; eexists _, _; exact E. }
  clear E. set (s1 := with_vm _ _ _ _ _ _ _ _ _) in E'.
  assert (vms s1 !! Z.to_nat id = Some (Some (brk s))) as Hv by (cbn; apply list_lookup_insert_eq; pose proof (ho_len s Ho); lia).
  destruct (negb (e_hook e =? 0)); [|injection E' as <- <-; split; [apply Hall|]; split; [intros p [= <-]; by exists (Z.to_nat id)|];
    intros i Hi Hs; left; by eapply (stale_with s id m h b map)].
  destruct (destroy_vm (Some (brk s)) s1) as [s2|] eqn:Ed; [|done]. injection E' as <- <-.
  assert (vm_heap s1 !! brk s = Some m) as Hm by apply lookup_insert_eq. destruct (vm_is_native m) eqn:Hn.
  { unfold destroy_vm in Ed. rewrite Hm in Ed. cbn in Ed. by rewrite Hn in Ed. }
  destruct (destroy_vm_spec s1 (Z.to_nat id) (brk s) m (Hall _ _) Hv Hm Hn) as (t' & h' & map' & Ed' & Hg & Hw & Hb). rewrite Ed' in Ed. injection Ed as <-.
  split; [exact (hv_ok_without s1 (Z.to_nat id) (brk s) m h' map' t' (Hall _ _) Hv Hm Hg Hw Hb)|]. split; [done|].
  intros i Hi Hs. apply (stale_without s1 _ _ _ _ _ _ Hb Hi) in Hs. left. by eapply (stale_with s id m h b map).
Qed.

(** Whatever the other components answer, [create_vm] keeps the table
    consistent, or does not return. *)
Lemma create_vm_stays tag s r s' :
  hv_ok s -> 0 <= t_vmid tag < CONFIG_MAX_VM -> 0 < t_nr_vcpu tag <= NR_CPUS -> length (t_vcpu_affinity tag) = 8%nat ->
  create_vm tag s = Some (r, s') -> outcome (claimed tag s) r s s'.
Proof.
  intros Ho Hid Hnr Hlen. unfold create_vm, claimed.
  destruct (claim_vmid_spec tag s Ho Hid) as [[-> _]|(id & map & -> & Hir & Hbit & Hreq & Hw & Hb)]; msimpl; [intros [= <- <-]; by apply outcome_none|].
  rewrite (proj2 (Z.eqb_neq id 0)) by lia. assert (hv_ok (set_vmid_bitmap map s)) as Hleak by by eapply hv_ok_leak. pose proof (outcome_leak s id map Hleak Hb) as Hout.
  destruct (vm_check_vcpu_affinity (t_vcpu_affinity tag) (t_nr_vcpu tag)) as [c|] eqn:Haff;
    [|unfold __create_vm; cbn [with_vmid t_vcpu_affinity t_nr_vcpu]; rewrite Haff; done].
  destruct (Z.eqb_spec c 0) as [->|Hc];
    [|unfold __create_vm; cbn [with_vmid t_vcpu_affinity t_nr_vcpu]; rewrite Haff; msimpl; rewrite (proj2 (Z.eqb_neq _ _) Hc); msimpl; intros [= <- <-]; done].
  destruct (e_vm e) eqn:Ev; [|unfold __create_vm; cbn [with_vmid t_vcpu_affinity t_nr_vcpu]; rewrite Haff, Ev; msimpl; intros [= <- <-]; done].
  destruct (e_vcpus e) eqn:Ec; [|unfold __create_vm; cbn [with_vmid t_vcpu_affinity t_nr_vcpu]; rewrite Haff, Ev, Ec; msimpl; intros [= <- <-]; done].
  destruct (vm_open_ramdisk_file tag) as [f|] eqn:Ef;
    [|unfold __create_vm; change (vm_open_ramdisk_file (with_vmid id tag)) with (vm_open_ramdisk_file tag); cbn [with_vmid t_vcpu_affinity t_nr_vcpu]; rewrite Haff, Ev, Ec, Ef; done].
  destruct (__create_vm_spec tag id s map Ho Hir Hnr Hlen Haff Ev Ec ltac:(by eexists)) as (m & -> & Htag & Hvid & Hvs & Hal). msimpl.
  assert (vcpu_nr m = t_nr_vcpu tag) as Hn by apply Htag.
  destruct (Z.eqb_spec (e_mm e) 0) as [Em|Em]; cbn [negb]; [|change (emit _ (before_vcpus s id m map (trace s))) with (before_vcpus s id m map (trace s ++ [ev_mm_init (brk s)])); rewrite (destroy_unset s id m map); [done|lia|by rewrite Hn]].
  set (t0 := (trace s ++ [ev_mm_init (brk s)]) ++ [ev_iommu_init (brk s)]).
  change (emit _ (emit _ (before_vcpus s id m map (trace s)))) with (before_vcpus s id m map t0).
  destruct (forallb (fun i => e_task e i && e_vcpu e i && e_virq_struct e i) (seqZ 0 (vcpu_nr m))) eqn:Eall.
  - assert (env_vcpus (vcpu_nr m)) as He.
    { intros i Hi. rewrite forallb_forall in Eall. specialize (Eall i ltac:(apply list_elem_of_In, elem_of_seqZ; lia)). apply andb_prop in Eall as [E E3]. by apply andb_prop in E as [E1 E2]. }
    destruct (create_vcpus_spec s id m map t0 Ho ltac:(lia) ltac:(by rewrite Hn) ltac:(by rewrite Hn) He) as (l & h & b & t & -> & Hok & Hnew & Hbb & Hkb & Hlow). msimpl.
    replace (negb (0 =? 0)) with false by done. cbn [with_vm vm_heap host_vm]. rewrite lookup_insert_eq. msimpl.
    assert (forall host t, hv_ok (with_vm s (Z.to_nat id) (brk s) (set_vcpus l m) h b map host t)) as Hall by (intros; by apply hv_ok_with).
    intros E. eapply create_tail_ok; [exact Ho|exact Hir|exact Hall|exact Hb|exact E].
  - unfold create_vcpus. cbn [before_vcpus vm_heap]. rewrite lookup_insert_eq. msimpl.
    rewrite (create_vcpus_loop_fail (Z.to_nat (vcpu_nr m)) (brk s) 0 (before_vcpus s id m map t0) m (brk s + 1)); [done|apply lookup_insert_eq|lia|lia|by rewrite Hvs, length_replicate, Hn|by rewrite Hn|intros i Hi; lia|intros i v Hi; lia|cbn; lia| | |].
    + intros v c Hc. apply (ho_vcpu_brk s Ho) in Hc. cbn. lia.
    + intros j Hj. unfold load_slot. rewrite Hvs. by rewrite lookup_replicate_2 by lia.
    + destruct (forallb_exists_false _ _ Eall) as (j & Hj & Ej). apply elem_of_seqZ in Hj. exists j. split; [lia|done].
Qed.

(** ** Affinity: lemmas *)
Lemma shift_small a : 0 <= a < 31 -> u64 (s32 (Z.shiftl 1 a)) = 2 ^ a.
Proof.
  intros Ha. rewrite Z.shiftl_1_l. assert (0 < 2 ^ a < 2 ^ 31) as H by (split; [apply Z.pow_pos_nonneg; lia|apply Z.pow_lt_mono_r; lia]).
  unfold s32, u64. rewrite (Z.mod_small (_ + _)) by lia. replace (2 ^ a + 2 ^ 31 - 2 ^ 31) with (2 ^ a) by lia. apply Z.mod_small. lia.
Qed.

Lemma land_pow_testbit x a : 0 <= a -> (Z.land x (2 ^ a) =? 0) = negb (Z.testbit x a).
Proof.
  intros Ha. destruct (Z.testbit x a) eqn:E; cbn [negb].
  - apply Z.eqb_neq. intros H. apply (f_equal (fun z => Z.testbit z a)) in H. rewrite Z.land_spec, E, Z.pow2_bits_true, Z.bits_0 in H by lia. done.
  - apply Z.eqb_eq, Z.bits_inj'. intros j Hj. rewrite Z.land_spec, Z.bits_0. destruct (decide (j = a)) as [->|]; [by rewrite E|].
    rewrite Z.pow2_bits_false by lia. apply andb_false_r.
Qed.

Lemma check_affinity_loop_spec n i (aff : list Z) mask (seen : list Z) :
  NR_CPUS <= 31 -> 0 <= i -> (Z.to_nat i + n <= length aff)%nat -> Forall (fun a => 0 <= a) aff ->
  (forall a, 0 <= a < 31 -> Z.testbit mask a = bool_decide (a ∈ seen)) ->
  check_affinity_loop n i aff mask =
    Some (if bool_decide (Forall (fun a => a < NR_CPUS) (take n (drop (Z.to_nat i) aff)) /\ NoDup (take n (drop (Z.to_nat i) aff)) /\ Forall (fun a => a ∉ seen) (take n (drop (Z.to_nat i) aff)))
          then 0 else - EINVAL).
Proof.
  intros HN. revert i mask seen. induction n as [|n IH]; intros i mask seen Hi Hl Hp Hm.
  { cbn. rewrite bool_decide_eq_true_2; [done|]. split_and!; constructor. }
  cbn [check_affinity_loop]. destruct (lookup_lt_is_Some_2 aff (Z.to_nat i)) as [a Ha]; [lia|]. rewrite Ha. msimpl.
  rewrite (drop_S aff a (Z.to_nat i) Ha). rewrite firstn_cons. assert (0 <= a) as Ha0 by (rewrite list.Forall_forall in Hp; apply Hp; by eapply list_elem_of_lookup_2).
  destruct (Z.leb_spec VM_MAX_VCPU a) as [Hge|Hlt]; unfold VM_MAX_VCPU in *.
  { rewrite bool_decide_eq_false_2; [done|]. intros (H1 & _). apply Forall_cons_1 in H1 as [H1 _]. lia. }
  rewrite shift_small by lia. rewrite land_pow_testbit by lia. rewrite Hm by lia. rewrite negb_involutive.
  destruct (bool_decide (a ∈ seen)) eqn:Es.
  { apply bool_decide_eq_true_1 in Es. rewrite bool_decide_eq_false_2; [done|]. intros (_ & _ & H3). apply Forall_cons_1 in H3 as [H3 _]. done. }
  apply bool_decide_eq_false_1 in Es. rewrite (IH (i + 1) _ (a :: seen)); [|lia|lia|done|].
  - replace (Z.to_nat (i + 1)) with (S (Z.to_nat i)) by lia. set (l := take n _). f_equal.
    rewrite (bool_decide_ext _ (Forall (fun a => a < NR_CPUS) (a :: l) /\ NoDup (a :: l) /\ Forall (fun a => a ∉ seen) (a :: l))); [done|].
    rewrite list.NoDup_cons, !Forall_cons_iff, !list.Forall_forall. split.
    + intros (H1 & H2 & H3). split_and!; try done. { intros Hin. apply (H3 _ Hin). left. } { intros x Hx Hs. apply (H3 x Hx). by right. }
    + intros ((_ & H1) & (H2 & H3) & _ & H4). split_and!; try done. intros x Hx [->|Hs]%elem_of_cons; [done|]. by apply (H4 x).
  - intros b Hb. rewrite Z.lor_spec, Hm by lia. rewrite Z.pow2_bits_eqb by lia. destruct (Z.eqb_spec a b) as [->|Hne].
    + rewrite orb_true_r. symmetry. apply bool_decide_eq_true_2. left.
    + rewrite orb_false_r. apply bool_decide_ext. rewrite elem_of_cons. split; [by right|]. intros [->|]; done.
Qed.

(** [vm_check_vcpu_affinity] is the specification "every vcpu on its own
    existing CPU": it accepts exactly the configurations whose first [nr]
    entries are distinct CPUs of the machine, and gives [-EINVAL] otherwise. *)
Theorem vm_check_vcpu_affinity_exact (aff : list Z) nr :
  NR_CPUS <= 31 -> 0 <= nr <= Z.of_nat (length aff) -> Forall (fun a => 0 <= a) aff ->
  vm_check_vcpu_affinity aff nr =
    Some (if bool_decide (Forall (fun a => a < NR_CPUS) (take (Z.to_nat nr) aff) /\ NoDup (take (Z.to_nat nr) aff)) then 0 else - EINVAL).
Proof.
  intros HN Hnr Hp. unfold vm_check_vcpu_affinity. rewrite (check_affinity_loop_spec _ _ _ _ []); [|done|lia|lia|done|].
  - cbn [Z.to_nat drop]. f_equal. rewrite (bool_decide_ext _ (Forall (fun a => a < NR_CPUS) (take (Z.to_nat nr) aff) /\ NoDup (take (Z.to_nat nr) aff))); [done|].
    split; [tauto|]. intros [H1 H2]. split_and!; try done. apply list.Forall_forall. intros x _ Hx. by apply not_elem_of_nil in Hx.
  - intros a _. rewrite Z.bits_0. symmetry. apply bool_decide_eq_false_2, not_elem_of_nil.
Qed.
(** ** Affinity: the round over the CPUs *)
Section aff_loop.
Context (cur0 vm0_vcpu0 : Z) (vcpu0_ok vcpus_ok : bool) (map : list Z).
Context (Hcur : 0 <= cur0 < NR_CPUS) (Hmap : bitmap_wf NR_CPUS map).

(** The CPUs of the first [k] turns, and which of them are taken. *)
Definition visited (k : nat) : list Z := (fun j => (cur0 + j) mod NR_CPUS) <$> seqZ 0 (Z.of_nat k).
Definition takes (c : Z) : bool := negb (bit_at map c) || (if c =? vm0_vcpu0 then vcpu0_ok else vcpus_ok).
Definition taken (k : nat) : list Z := filter (fun c => takes c = true) (visited k).

Lemma visited_S k : visited (S k) = visited k ++ [(cur0 + Z.of_nat k) mod NR_CPUS].
Proof. unfold visited. rewrite seqZ_S. by rewrite fmap_app. Qed.

Lemma taken_S k : taken (S k) = taken k ++ (if takes ((cur0 + Z.of_nat k) mod NR_CPUS) then [(cur0 + Z.of_nat k) mod NR_CPUS] else []).
Proof.
  unfold taken. rewrite visited_S, list.filter_app. f_equal. destruct (takes _) eqn:E; [by rewrite filter_cons_True|].
  rewrite filter_cons_False by (rewrite E; done). done.
Qed.

Lemma visited_NoDup k : Z.of_nat k <= NR_CPUS -> NoDup (visited k).
Proof.
  intros Hk. unfold visited. apply NoDup_fmap_2_strong; [|apply NoDup_seqZ].
  intros x y Hx Hy E. apply elem_of_seqZ in Hx, Hy.
  rewrite (Z.mod_eq (cur0 + x)), (Z.mod_eq (cur0 + y)) in E by lia.
  assert (x - y = NR_CPUS * ((cur0 + x) / NR_CPUS - (cur0 + y) / NR_CPUS)) as E' by lia. 
  set (q := (cur0 + x) / NR_CPUS - (cur0 + y) / NR_CPUS) in *. assert (q = 0) by nia. subst q. lia.
Qed.

Lemma visited_range k c : c ∈ visited k -> 0 <= c < NR_CPUS.
Proof. unfold visited. rewrite list_elem_of_fmap. intros (j & -> & _). apply Z.mod_pos_bound. lia. Qed.

Lemma visited_all : visited (Z.to_nat NR_CPUS) ≡ₚ seqZ 0 NR_CPUS.
Proof.
  apply NoDup_Permutation; [apply visited_NoDup; lia|apply NoDup_seqZ|]. intros c. split.
  - intros H. apply elem_of_seqZ. apply visited_range in H. lia.
  - intros H. apply elem_of_seqZ in H. unfold visited. apply list_elem_of_fmap. exists ((c - cur0) mod NR_CPUS).
    pose proof (Z.mod_pos_bound (c - cur0) NR_CPUS ltac:(lia)). split; [|apply elem_of_seqZ; lia].
    rewrite Zplus_mod_idemp_r. replace (cur0 + (c - cur0)) with c by lia. rewrite Z.mod_small; lia.
Qed.

Lemma aff_takes_spec c : 0 <= c < NR_CPUS -> aff_takes vm0_vcpu0 vcpu0_ok vcpus_ok map c = Some (takes c).
Proof. intros Hc. unfold aff_takes. rewrite test_bit_spec; [done|]. destruct Hmap as (_ & ? & _). lia. Qed.

Lemma aff_next_spec k : aff_next ((cur0 + Z.of_nat k) mod NR_CPUS) = (cur0 + Z.of_nat (S k)) mod NR_CPUS.
Proof.
  pose proof (Z.mod_pos_bound (cur0 + Z.of_nat k) NR_CPUS ltac:(lia)) as H. unfold aff_next.
  replace (cur0 + Z.of_nat (S k)) with (cur0 + Z.of_nat k + 1) by lia. rewrite <- (Zplus_mod_idemp_l (cur0 + Z.of_nat k) 1).
  destruct (Z.leb_spec NR_CPUS ((cur0 + Z.of_nat k) mod NR_CPUS + 1)).
  - replace ((cur0 + Z.of_nat k) mod NR_CPUS + 1) with NR_CPUS by lia. by rewrite Z.mod_same by lia.
  - symmetry. apply Z.mod_small. lia.
Qed.

Lemma aff_loop_spec n k nr (aff : list Z) :
  (k + n = Z.to_nat NR_CPUS)%nat -> 0 < nr <= Z.of_nat (length (taken (k + n))) -> Z.of_nat (length (taken k)) < nr ->
  (Z.to_nat nr <= length aff)%nat -> take (length (taken k)) aff = taken k ->
  forall fuel, (n <= fuel)%nat ->
  exists k' aff' cur', aff_loop fuel vm0_vcpu0 vcpu0_ok vcpus_ok map nr (Z.of_nat (length (taken k))) ((cur0 + Z.of_nat k) mod NR_CPUS) aff = Some (cur', aff') /\
    (k' <= Z.to_nat NR_CPUS)%nat /\ length (taken k') = Z.to_nat nr /\ length aff' = length aff /\ take (Z.to_nat nr) aff' = taken k' /\ 0 <= cur' < NR_CPUS.
Proof.
  revert k aff. induction n as [|n IH]; intros k aff Hk Hnr Hlt Hla Hpre fuel Hf; [rewrite Nat.add_0_r in Hnr; lia|].
  destruct fuel as [|fuel]; [lia|]. cbn [aff_loop]. set (c := (cur0 + Z.of_nat k) mod NR_CPUS).
  assert (0 <= c < NR_CPUS) as Hc by (apply Z.mod_pos_bound; lia). rewrite aff_takes_spec by done. msimpl.
  pose proof (taken_S k) as HS. fold c in HS. assert (aff_next c = (cur0 + Z.of_nat (S k)) mod NR_CPUS) as -> by apply aff_next_spec.
  replace (k + S n)%nat with (S k + n)%nat in Hnr by lia.
  assert (exists aff1, (if takes c then (if Z.of_nat (length (taken k)) <? Z.of_nat (length aff) then Some (Z.of_nat (length (taken k)) + 1, <[Z.to_nat (Z.of_nat (length (taken k))) := c]> aff) else None)
            else Some (Z.of_nat (length (taken k)), aff)) = Some (Z.of_nat (length (taken (S k))), aff1) /\ length aff1 = length aff /\ take (length (taken (S k))) aff1 = taken (S k)) as (aff1 & -> & Hl1 & Hp1).
  { destruct (takes c); rewrite HS.
    - rewrite (proj2 (Z.ltb_lt _ _)) by lia. rewrite length_app. cbn [length]. eexists. split; [f_equal; f_equal; lia|]. rewrite length_insert. split; [done|].
      rewrite Nat2Z.id, Nat.add_1_r. rewrite (take_S_r _ _ c) by (apply list_lookup_insert_eq; lia). by rewrite take_insert_ge, Hpre by lia.
    - rewrite app_nil_r. by exists aff. }
  msimpl. destruct (Z.ltb_spec (Z.of_nat (length (taken (S k)))) nr) as [Hlt'|Hge].
  - destruct (IH (S k) aff1 ltac:(lia) Hnr Hlt' ltac:(lia) Hp1 fuel ltac:(lia)) as (k' & aff' & cur' & H1 & H2 & H3 & H4 & H5).
    exists k', aff', cur'. rewrite Hl1 in H4. done.
  - assert (length (taken (S k)) = Z.to_nat nr) as Hex.
    { rewrite HS, length_app in Hge |- *. destruct (takes c); cbn [length] in *; lia. }
    exists (S k), aff1. eexists. split; [done|]. split_and!; try done; try lia.
    + by rewrite <- Hex.
    + apply Z.mod_pos_bound. lia.
    + apply Z.mod_pos_bound. lia.
Qed.
End aff_loop.

Lemma filter_length_perm (P : Z -> Prop) `{!forall x, Decision (P x)} (l l' : list Z) : l ≡ₚ l' -> length (filter P l) = length (filter P l').
Proof. intros Hp. apply Permutation_length. by rewrite Hp. Qed.

Lemma filter_split_length (f : Z -> bool) (l : list Z) : (length (filter (fun c => f c = true) l) + length (filter (fun c => negb (f c) = true) l) = length l)%nat.
Proof.
  induction l as [|x l IH]; [done|]. destruct (f x) eqn:E.
  - rewrite filter_cons_True by done. rewrite filter_cons_False by (by rewrite E). cbn. lia.
  - rewrite filter_cons_False by (by rewrite E). rewrite filter_cons_True by (by rewrite E). cbn. lia.
Qed.

Lemma filter_length_mono (P Q : Z -> Prop) `{!forall x, Decision (P x), !forall x, Decision (Q x)} (l : list Z) :
  (forall x, x ∈ l -> P x -> Q x) -> (length (filter P l) <= length (filter Q l))%nat.
Proof.
  induction l as [|x l IH]; intros Hpq; [done|]. assert (forall y, y ∈ l -> P y -> Q y) as H' by (intros y Hy; apply Hpq; by right). specialize (IH H').
  destruct (decide (P x)) as [Hx|Hx].
  - rewrite !filter_cons_True; [cbn; lia|apply Hpq; [left|done]|done].
  - rewrite filter_cons_False by done. destruct (decide (Q x)); [rewrite filter_cons_True by done|rewrite filter_cons_False by done]; cbn; lia.
Qed.

Lemma filter_eq_length (a : Z) (l : list Z) : NoDup l -> (length (filter (fun c => c = a) l) <= 1)%nat.
Proof.
  intros Hn. assert (NoDup (filter (fun c => c = a) l)) as H by by apply list.NoDup_filter.
  destruct (filter (fun c => c = a) l) as [|x [|y l']] eqn:E; [cbn; lia..|]. exfalso.
  assert (x ∈ filter (fun c => c = a) l /\ y ∈ filter (fun c => c = a) l) as [Hx Hy] by (rewrite E; split; [left|right; left]).
  apply list_elem_of_filter in Hx as [-> _]. apply list_elem_of_filter in Hy as [-> _]. apply list.NoDup_cons in H as [H _]. apply H. left.
Qed.

Lemma native_pos a map : 0 <= a < NR_CPUS -> bit_at map a = true -> 1 <= Z.of_nat (length (filter (fun c => bit_at map c = true) (seqZ 0 NR_CPUS))).
Proof.
  intros Ha Hb. assert (a ∈ filter (fun c => bit_at map c = true) (seqZ 0 NR_CPUS)) as H by (apply list_elem_of_filter; split; [done|apply elem_of_seqZ; lia]).
  destruct (filter _ _); [by apply not_elem_of_nil in H|cbn; lia].
Qed.

(** Enough CPUs can be taken. *)
Lemma aff_enough a0 map nr native :
  0 <= a0 < NR_CPUS -> bit_at map a0 = true -> native = Z.of_nat (length (filter (fun c => bit_at map c = true) (seqZ 0 NR_CPUS))) ->
  0 < nr <= NR_CPUS -> (nr = NR_CPUS -> native = 1) ->
  nr <= Z.of_nat (length (filter (fun c => takes a0 (nr =? NR_CPUS) (negb (nr =? NR_CPUS) && (NR_CPUS - native <? nr)) map c = true) (seqZ 0 NR_CPUS))).
Proof.
  intros Ha Hb Hn Hnr Hfull. set (T := takes _ _ _ _). pose proof (filter_split_length T (seqZ 0 NR_CPUS)) as Hsplit. rewrite length_seqZ in Hsplit.
  pose proof (native_pos a0 map Ha Hb) as Hpos. set (B := fun c => bit_at map c = true) in *.
  destruct (Z.eqb_spec nr NR_CPUS) as [E|E]; cbn [negb andb] in T.
  - assert (length (filter (fun c => negb (T c) = true) (seqZ 0 NR_CPUS)) = 0%nat); [|lia].
    destruct (filter (fun c => negb (T c) = true) (seqZ 0 NR_CPUS)) as [|x l] eqn:Ef; [done|]. exfalso.
    assert (x ∈ filter (fun c => negb (T c) = true) (seqZ 0 NR_CPUS)) as Hx by (rewrite Ef; left). apply list_elem_of_filter in Hx as [HT Hx].
    unfold T, takes in HT. destruct (bit_at map x) eqn:Eb; [|done]. cbn in HT. destruct (Z.eqb_spec x a0) as [|Hne]; [done|].
    assert (x ∈ filter B (seqZ 0 NR_CPUS) /\ a0 ∈ filter B (seqZ 0 NR_CPUS)) as [H1 H2] by (split; apply list_elem_of_filter; (split; [done|]); [done|apply elem_of_seqZ; lia]).
    specialize (Hfull E). rewrite Hn in Hfull. destruct (filter B (seqZ 0 NR_CPUS)) as [|y [|z l']]; [done| |cbn in Hfull; lia].
    apply list_elem_of_singleton in H1, H2. congruence.
  - destruct (Z.ltb_spec (NR_CPUS - native) nr) as [Hlt|Hge].
    + assert (length (filter (fun c => negb (T c) = true) (seqZ 0 NR_CPUS)) <= 1)%nat; [|lia].
      etransitivity; [|apply (filter_eq_length a0), (NoDup_seqZ 0 NR_CPUS)]. apply filter_length_mono. intros c _ HT. unfold T, takes in HT.
      destruct (bit_at map c), (Z.eqb_spec c a0); done.
    + assert (length (filter (fun c => negb (T c) = true) (seqZ 0 NR_CPUS)) <= length (filter B (seqZ 0 NR_CPUS)))%nat; [|lia].
      apply filter_length_mono. intros c _ HT. unfold T, takes in HT. unfold B. by destruct (bit_at map c).
Qed.

(** [get_vcpu_affinity] returns, and for every count but the whole machine
    it places the vcpus of a guest on [nr] distinct CPUs, none of which is the
    boot CPU of the host VM; while enough CPUs are unused, on unused ones only.
    For the whole machine it does so when the native VMs use the host's boot
    CPU alone. *)
Theorem get_vcpu_affinity_correct s p vm0 a0 nr :
  host_vm s = Some p -> vm_heap s !! p = Some vm0 -> vcpu_affinity vm0 !! 0%nat = Some a0 ->
  0 <= a0 < NR_CPUS -> NR_CPUS <= 8 -> 0 <= aff_current s < NR_CPUS -> bitmap_wf NR_CPUS (vcpu_aff_bitmap s) -> bit_at (vcpu_aff_bitmap s) a0 = true ->
  native_vcpus s = Z.of_nat (length (filter (fun c => bit_at (vcpu_aff_bitmap s) c = true) (seqZ 0 NR_CPUS))) ->
  0 < nr <= NR_CPUS -> (nr = NR_CPUS -> native_vcpus s = 1) ->
  exists aff s', get_vcpu_affinity (replicate 8 0) nr s = Some (aff, s') /\ length aff = 8%nat /\ 0 <= aff_current s' < NR_CPUS /\
    let l := take (Z.to_nat nr) aff in
    length l = Z.to_nat nr /\ NoDup l /\ Forall (fun c => 0 <= c < NR_CPUS) l /\ (nr < NR_CPUS -> a0 ∉ l) /\
    (nr <= NR_CPUS - native_vcpus s -> Forall (fun c => bit_at (vcpu_aff_bitmap s) c = false) l).
Proof.
  intros Hh Hm Ha Ha0 H8 Hcur Hw Hba Hnat Hnr Hfull. unfold get_vcpu_affinity, get_host_vm. rewrite Hh. msimpl. rewrite Hm. msimpl. rewrite Ha. msimpl.
  set (o1 := nr =? NR_CPUS). set (o2 := negb o1 && (NR_CPUS - native_vcpus s <? nr)).
  set (T := takes a0 o1 o2 (vcpu_aff_bitmap s)).
  assert (nr <= Z.of_nat (length (filter (fun c => T c = true) (seqZ 0 NR_CPUS)))) as Hcnt by by apply aff_enough.
  assert (length (taken (aff_current s) a0 o1 o2 (vcpu_aff_bitmap s) (Z.to_nat NR_CPUS)) = length (filter (fun c => T c = true) (seqZ 0 NR_CPUS))) as Hall.
  { apply filter_length_perm, visited_all. done. }
  destruct (aff_loop_spec (aff_current s) a0 o1 o2 (vcpu_aff_bitmap s) Hcur Hw (Z.to_nat NR_CPUS) 0 nr (replicate 8 0)) with (fuel := (Z.to_nat (NR_CPUS * (nr + 1)) + 1)%nat)
    as (k' & aff & cur' & E & Hk' & Hlen & Hla & Hpre & Hc'); [lia|rewrite Nat.add_0_l, Hall; lia|change (length (taken _ _ _ _ _ 0)) with 0%nat; lia|rewrite length_replicate; lia|done|nia|].
  change (Z.of_nat (length (taken _ _ _ _ _ 0))) with 0 in E. change (Z.of_nat 0) with 0 in E. rewrite Z.add_0_r, (Z.mod_small (aff_current s)) in E by done. rewrite E. msimpl.
  exists aff. eexists. split; [done|]. rewrite length_replicate in Hla. split; [done|]. split; [exact Hc'|]. cbv zeta. rewrite Hpre. fold T in Hpre |- *.
  assert (forall c, c ∈ taken (aff_current s) a0 o1 o2 (vcpu_aff_bitmap s) k' -> 0 <= c < NR_CPUS /\ T c = true) as Hin.
  { intros c Hc. unfold taken in Hc. apply list_elem_of_filter in Hc as [HT Hv]. split; [by apply (visited_range (aff_current s) Hcur k')|done]. }
  split_and!; [done|apply list.NoDup_filter, visited_NoDup; lia|apply list.Forall_forall; intros c Hc; by apply Hin| |].
  - intros Hlt Hc. apply Hin in Hc as [_ HT]. unfold T, takes, o1 in HT. rewrite Hba, Z.eqb_refl, (proj2 (Z.eqb_neq nr NR_CPUS)) in HT by lia. done.
  - intros Hle. apply list.Forall_forall. intros c Hc. apply Hin in Hc as [Hc HT]. unfold T, takes in HT. destruct (bit_at (vcpu_aff_bitmap s) c) eqn:Eb; [|done]. exfalso.
    assert (1 <= native_vcpus s). { rewrite Hnat. apply (native_pos a0); done. }
    unfold o2, o1 in HT. rewrite (proj2 (Z.eqb_neq nr NR_CPUS)), (proj2 (Z.ltb_ge _ nr)) in HT by lia. cbn in HT. by destruct (c =? a0).
Qed.
(** ** Affinity: the start *)
Lemma set_bits_spec (l : list Z) (m : list Z) : bitmap_wf NR_CPUS m -> Forall (fun a => 0 <= a < NR_CPUS) l ->
  exists m', set_bits l m = Some m' /\ bitmap_wf NR_CPUS m' /\ forall i, 0 <= i -> bit_at m' i = bool_decide (i ∈ l) || bit_at m i.
Proof.
  revert m. induction l as [|a l IH]; intros m Hw Hl; cbn [set_bits].
  - by exists m.
  - apply Forall_cons_1 in Hl as [Ha Hl]. destruct (set_bit_wf NR_CPUS a m Hw Ha) as (m1 & -> & Hw1 & Hb1). msimpl.
    destruct (IH m1 Hw1 Hl) as (m2 & -> & Hw2 & Hb2). exists m2. split_and!; try done. intros i Hi. rewrite Hb2, Hb1 by done.
    rewrite orb_assoc. f_equal. destruct (Z.eqb_spec i a) as [->|Hne]; [rewrite orb_true_r; symmetry; apply bool_decide_eq_true_2; left|].
    rewrite orb_false_r. apply bool_decide_ext. rewrite elem_of_cons. split; [by right|by intros [->|]].
Qed.

(** The CPUs of the VMs in the list. *)
Definition used_cpus (s : hv) (l : list Z) : list Z :=
  flat_map (fun p => match vm_heap s !! p with Some m => take (Z.to_nat (vcpu_nr m)) (vcpu_affinity m) | None => [] end) l.

Lemma vm_affinity_bits_spec s (l : list Z) (m : list Z) : bitmap_wf NR_CPUS m -> Forall (fun a => 0 <= a < NR_CPUS) (used_cpus s l) ->
  Forall (fun p => is_Some (vm_heap s !! p)) l ->
  exists m', vm_affinity_bits l s m = Some m' /\ bitmap_wf NR_CPUS m' /\ forall i, 0 <= i -> bit_at m' i = bool_decide (i ∈ used_cpus s l) || bit_at m i.
Proof.
  revert m. induction l as [|p l IH]; intros m Hw Hc Hl; cbn [vm_affinity_bits].
  - by exists m.
  - apply Forall_cons_1 in Hl as [[x Hx] Hl]. unfold used_cpus in *. cbn [flat_map] in *. rewrite Hx in *. msimpl. apply Forall_app in Hc as [Hc1 Hc2].
    destruct (set_bits_spec (take (Z.to_nat (vcpu_nr x)) (vcpu_affinity x)) m Hw Hc1) as (m1 & -> & Hw1 & Hb1). msimpl.
    destruct (IH m1 Hw1 Hc2 Hl) as (m2 & -> & Hw2 & Hb2). exists m2. split_and!; try done. intros i Hi. rewrite Hb2, Hb1 by done.
    rewrite orb_assoc. f_equal. rewrite <- bool_decide_or. apply bool_decide_ext. rewrite elem_of_app. tauto.
Qed.

Lemma count_bits_spec n i (m : list Z) acc : 0 <= i -> i + Z.of_nat n <= 64 * Z.of_nat (length m) ->
  count_bits n i m acc = Some (acc + Z.of_nat (length (filter (fun c => bit_at m c = true) (seqZ i (Z.of_nat n))))).
Proof.
  revert i acc. induction n as [|n IH]; intros i acc Hi Hn; cbn [count_bits]; [change (length (filter _ (seqZ i (Z.of_nat 0)))) with 0%nat; by rewrite Z.add_0_r|].
  rewrite test_bit_spec by lia. msimpl. rewrite IH by lia. rewrite (seqZ_cons i (Z.of_nat (S n))) by lia.
  replace (Z.succ i) with (i + 1) by lia. replace (Z.pred (Z.of_nat (S n))) with (Z.of_nat n) by lia.
  destruct (bit_at m i) eqn:E; [rewrite filter_cons_True by done|rewrite filter_cons_False by (by rewrite E)]; f_equal; cbn [length]; lia.
Qed.

(** [vcpu_affinity_init] records exactly the CPUs that the VMs created so
    far use, counts them, and starts the search for a free CPU at the first
    one that none of them uses (the last CPU if there is none). *)
Theorem vcpu_affinity_init_correct s :
  0 < NR_CPUS <= 8 -> bitmap_wf NR_CPUS (vcpu_aff_bitmap s) -> native_vcpus s = 0 ->
  Forall (fun p => is_Some (vm_heap s !! p)) (vm_list s) -> Forall (fun a => 0 <= a < NR_CPUS) (used_cpus s (vm_list s)) ->
  exists s', vcpu_affinity_init s = Some s' /\ bitmap_wf NR_CPUS (vcpu_aff_bitmap s') /\
    (forall c, 0 <= c < NR_CPUS -> bit_at (vcpu_aff_bitmap s') c = bool_decide (c ∈ used_cpus s (vm_list s))) /\
    native_vcpus s' = Z.of_nat (length (filter (fun c => bit_at (vcpu_aff_bitmap s') c = true) (seqZ 0 NR_CPUS))) /\
    0 <= aff_current s' < NR_CPUS /\
    (forall c, 0 <= c < aff_current s' -> c ∈ used_cpus s (vm_list s)) /\
    ((exists c, 0 <= c < NR_CPUS /\ c ∉ used_cpus s (vm_list s)) -> aff_current s' ∉ used_cpus s (vm_list s)).
Proof.
  intros HN Hw H0 Hl Hc. unfold vcpu_affinity_init.
  destruct (bitmap_clear_spec (vcpu_aff_bitmap s) 0 NR_CPUS) as (m1 & -> & Hw1 & Hl1 & Hb1); [apply Hw|lia|lia|destruct Hw as (_ & ? & _); lia|lia|]. msimpl.
  assert (bitmap_wf NR_CPUS m1) as Hwf1 by by eapply bitmap_wf_same.
  destruct (vm_affinity_bits_spec s (vm_list s) m1 Hwf1 Hc Hl) as (m2 & -> & Hw2 & Hb2). msimpl.
  assert (forall c, 0 <= c < NR_CPUS -> bit_at m2 c = bool_decide (c ∈ used_cpus s (vm_list s))) as Hb.
  { intros c Hcc. rewrite Hb2, Hb1 by lia. rewrite (proj2 (Z.leb_le 0 c)), (proj2 (Z.ltb_lt c (0 + NR_CPUS))) by lia. cbn. apply orb_false_r. }
  destruct (find_first_zero_bit_spec m2 NR_CPUS Hw2) as (r & -> & Hr & Hr1 & Hr2). msimpl.
  rewrite count_bits_spec by (destruct Hw2 as (_ & ? & _); lia). msimpl. eexists. split; [done|].
  cbn [set_native_vcpus set_aff_current set_vcpu_aff_bitmap vcpu_aff_bitmap native_vcpus aff_current]. rewrite H0, Z2Nat.id by lia.
  assert (forall c, 0 <= c < r -> c ∈ used_cpus s (vm_list s)) as Hbefore.
  { intros c Hcr. specialize (Hr1 c Hcr). apply negb_false_iff in Hr1. rewrite Hb in Hr1 by lia. by apply bool_decide_eq_true_1 in Hr1. }
  split_and!; try done; destruct (Z.leb_spec NR_CPUS r) as [Hge|Hlt]; try lia.
  - intros c Hcr. apply Hbefore. lia.
  - done.
  - intros (c & Hcr & Hn). exfalso. apply Hn, Hbefore. lia.
  - intros _. specialize (Hr2 Hlt). apply negb_true_iff in Hr2. rewrite Hb in Hr2 by lia. by apply bool_decide_eq_false_1 in Hr2.
Qed.

(** ** Paths of the code that go wrong *)

(** The number is not given back when [__create_vm] fails. *)
Lemma create_vm_leaks_vmid tag s :
  hv_ok s -> 0 < t_vmid tag < CONFIG_MAX_VM -> bit_at (vmid_bitmap s) (t_vmid tag) = false ->
  vm_check_vcpu_affinity (t_vcpu_affinity tag) (t_nr_vcpu tag) = Some (- EINVAL) ->
  exists s', create_vm tag s = Some (None, s') /\ bit_at (vmid_bitmap s') (t_vmid tag) = true /\ get_vm_by_id (t_vmid tag) s' = Some None.
Proof.
  intros Ho Ht Hb Hc. unfold create_vm. destruct (claim_vmid_spec tag s Ho ltac:(lia)) as [[_ H]|(id & map & -> & Hid & _ & Hreq & _ & Hbits)].
  { rewrite (proj2 (Z.eqb_neq _ _)) in H by lia. congruence. }
  msimpl. rewrite (proj2 (Z.eqb_neq id 0)) by lia. unfold __create_vm. cbn [with_vmid t_vcpu_affinity t_nr_vcpu]. rewrite Hc. msimpl.
  replace (negb (- EINVAL =? 0)) with true by done. rewrite Hreq in * by lia. eexists. split; [done|]. cbn [set_vmid_bitmap vmid_bitmap]. split.
  - rewrite Hbits by lia. by rewrite Z.eqb_refl.
  - unfold get_vm_by_id. rewrite (proj2 (Z.leb_gt _ _)), (proj2 (Z.eqb_neq _ _)) by lia. cbn [orb]. cbn. apply free_id_empty; [done|lia|done].
Qed.

(** When the address space of a guest cannot be set up, [destroy_vm] reads the
    array of vcpus, which nobody has written yet. *)
Lemma create_vm_reads_unset_vcpus tag s :
  hv_ok s -> tag_ok tag -> e_vm e = true -> e_vcpus e = true -> is_Some (vm_open_ramdisk_file tag) -> e_mm e <> 0 ->
  (exists i, 0 <= i < CONFIG_MAX_VM /\ bit_at (vmid_bitmap s) i = false /\ (t_vmid tag <> 0 -> i = t_vmid tag)) ->
  create_vm tag s = None.
Proof.
  intros Ho [Hid Hnr Hlen Haff] Ev Ec Ef Em (i0 & Hi0 & Hf0 & Hr0). unfold create_vm.
  destruct (claim_vmid_spec tag s Ho Hid) as [[_ Hno]|(id & map & -> & Hir & Hbit & Hreq & Hw & Hb)].
  { exfalso. destruct (Z.eqb_spec (t_vmid tag) 0); [rewrite Hno in Hf0 by lia; done|]. rewrite (Hr0 n) in Hf0. congruence. }
  msimpl. rewrite (proj2 (Z.eqb_neq id 0)) by lia.
  destruct (__create_vm_spec tag id s map Ho Hir Hnr Hlen Haff Ev Ec Ef) as (m & -> & Htag & Hvid & Hvs & Hal). msimpl.
  rewrite (proj2 (Z.eqb_neq _ _) Em). cbn [negb]. assert (vcpu_nr m = t_nr_vcpu tag) as Hn by apply Htag.
  change (emit _ (before_vcpus s id m map (trace s))) with (before_vcpus s id m map (trace s ++ [ev_mm_init (brk s)])).
  rewrite (destroy_unset s id m map); [done|lia|by rewrite Hn].
Qed.

(** A negative number of vcpus passes every check: the VM gets about four
    billion vcpus and an array without slots. *)
Lemma negative_vcpus_accepted tag : t_nr_vcpu tag = -1 -> 0 < NR_CPUS ->
  vm_check_vcpu_affinity (t_vcpu_affinity tag) (t_nr_vcpu tag) = Some 0 /\ u32 (Z.min (t_nr_vcpu tag) VM_MAX_VCPU) = 2 ^ 32 - 1.
Proof. intros -> H. split; [done|]. unfold VM_MAX_VCPU. rewrite Z.min_l by lia. done. Qed.
End vm.

(** ** A machine of four CPUs with room for three VMs *)
Definition demo_env : env := mk_env true true true 0 (fun _ => true) (fun _ => true) (fun _ => true) 0 true true true true.
Definition demo_env_refuse : env := mk_env true true true 0 (fun _ => true) (fun _ => true) (fun _ => true) 1 true true true true.
Definition demo_hv : hv := mk_hv ∅ ∅ 1000 [None; None; None; None] [] 0 [1] None 0 0 [0] [] [].
Definition demo_tag : vmtag := mk_vmtag 0 2 0 0 0x80000000 0 0 [1; 2; 0; 0; 0; 0; 0; 0] 0 false false false.

Lemma demo_hv_ok : hv_ok 4 demo_hv.
Proof.
  split; try done.
  - unfold bitmap_wf, is_word. split; [repeat constructor; lia|cbn; lia].
  - apply NoDup_nil_2.
  - intros id p H. do 4 (destruct id as [|id]; [done|]). done.
Qed.

Lemma demo_tag_ok : tag_ok 4 4 demo_tag.
Proof. split; try done; vm_compute; split; congruence. Qed.

Lemma demo_env_ok : env_ok demo_env demo_tag.
Proof. split; [done|done|by eexists|done|done]. Qed.

Lemma demo_free : exists i, 0 <= i < 4 /\ bit_at (vmid_bitmap demo_hv) i = false /\ (t_vmid demo_tag <> 0 -> i = t_vmid demo_tag).
Proof. exists 1. split_and!; done. Qed.

Lemma create_vm_correct_witness : exists p s', create_vm 4 4 demo_env demo_tag demo_hv = Some (Some p, s') /\ vm_list s' = [p].
Proof.
  destruct (create_vm_correct 4 4 demo_env demo_tag demo_hv) as (p & m & s' & H & _ & _ & _ & _ & _ & _ & _ & _ & Hl & _);
    [apply demo_hv_ok|apply demo_tag_ok|apply demo_env_ok|done|done|apply demo_free|]. exists p, s'. split; [exact H|exact Hl].
Defined.

Lemma create_vm_refused_rolls_back_witness : exists s', create_vm 4 4 demo_env_refuse demo_tag demo_hv = Some (None, s') /\ vm_list s' = [].
Proof.
  destruct (create_vm_refused_rolls_back 4 4 demo_env_refuse demo_tag demo_hv) as (s' & H & _ & [_ _ _ Hl _ _] & _);
    [apply demo_hv_ok|apply demo_tag_ok|split; [done|done|by eexists|done|done]|done|done|done|apply demo_free|]. exists s'. split; [exact H|exact Hl].
Defined.

Lemma create_destroy_roundtrip_witness :
  match create_vm 4 4 demo_env demo_tag demo_hv with
  | Some (Some p, s') => exists s'', destroy_vm (Some p) s' = Some s'' /\ same_vms demo_hv s''
  | _ => False
  end.
Proof.
  destruct (create_vm 4 4 demo_env demo_tag demo_hv) as [[[p|] s']|] eqn:E; [|vm_compute in E; congruence..].
  destruct (create_destroy_roundtrip 4 4 demo_env demo_tag demo_hv p s') as (s'' & H & _ & H2);
    [apply demo_hv_ok|apply demo_tag_ok|apply demo_env_ok|done|done|done|apply demo_free|exact E|]. exists s''. split; [exact H|exact H2].
Defined.

Lemma destroy_vm_correct_witness : exists s id p s', vms s !! id = Some (Some p) /\ destroy_vm (Some p) s = Some s' /\ total_vms s' = 0.
Proof.
  destruct (create_vm_spec 4 4 demo_env demo_tag demo_hv demo_hv_ok demo_tag_ok demo_env_ok ltac:(done) demo_free) as (id & m & h & b & map & t & _ & Ho & Hid & Hbit & _ & Hvid & Htag & _).
  set (s1 := with_vm _ _ _ _ _ _ _ _ _) in Ho.
  assert (vms s1 !! Z.to_nat id = Some (Some 1000)) as Hv by (cbn; apply list_lookup_insert_eq; cbn; lia).
  destruct (destroy_vm_correct 4 s1 (Z.to_nat id) 1000 m Ho Hv) as (s' & H & _ & _ & _ & Ht & _); [apply lookup_insert_eq|unfold vm_is_native; by destruct Htag as (_ & -> & _)|].
  exists s1, (Z.to_nat id), 1000, s'. split; [exact Hv|]. split; [exact H|exact Ht].
Defined.

Lemma vm_check_vcpu_affinity_exact_witness : vm_check_vcpu_affinity 4 [1; 2; 1] 3 = Some (- EINVAL).
Proof. rewrite (vm_check_vcpu_affinity_exact 4 [1; 2; 1] 3); [vm_compute; reflexivity|lia|cbn; lia|repeat constructor; lia]. Defined.

(** The host VM owns the CPUs 0 and 1. *)
Definition demo_host : vm := mk_vm 1 2 VM_STATE_ONLINE (Z.lor VM_FLAGS_NATIVE VM_FLAGS_HOST) [0; 1] 0 0 0 [] [] (false, false, false).
Definition demo_hv_host : hv := mk_hv {[ 1000 := demo_host ]} ∅ 1001 [None; Some 1000; None; None] [1000] 1 [3] (Some 1000) 2 2 [3] [] [].

Lemma get_vcpu_affinity_correct_witness :
  exists aff s', get_vcpu_affinity 4 (replicate 8 0) 3 demo_hv_host = Some (aff, s') /\ NoDup (take 3 aff) /\ 0 ∉ take 3 aff.
Proof.
  destruct (get_vcpu_affinity_correct 4 demo_hv_host 1000 demo_host 0 3) as (aff & s' & H & _ & _ & _ & Hn & _ & Ha & _);
    [done|apply lookup_singleton_eq|done|lia|lia|cbn; lia|unfold bitmap_wf, is_word; split; [repeat constructor; lia|cbn; lia]|done|done|lia|lia|].
  exists aff, s'. split; [exact H|]. split; [exact Hn|]. apply Ha. lia.
Defined.

Lemma vcpu_affinity_init_correct_witness :
  exists s', vcpu_affinity_init 4 (set_native_vcpus 0 demo_hv_host) = Some s' /\ native_vcpus s' = 2.
Proof.
  destruct (vcpu_affinity_init_correct 4 (set_native_vcpus 0 demo_hv_host)) as (s' & H & _);
    [lia|unfold bitmap_wf, is_word; split; [repeat constructor; lia|cbn; lia]|done|repeat constructor; by eexists|vm_compute; repeat constructor; congruence|].
  exists s'. split; [exact H|]. vm_compute in H. injection H as <-. done.
Defined.

(** With two native CPUs, a guest as large as the machine gets CPUs twice. *)
Lemma get_vcpu_affinity_repeats : (fun r => take 4 (fst r)) <$> get_vcpu_affinity 4 (replicate 8 0) 4 demo_hv_host = Some [2; 3; 0; 2].
Proof. vm_compute. reflexivity. Qed.
