(* ===== verification/VmPm.v ===== *)
(** * Virtual machines: starting, stopping, rebooting, suspending
      (virt/vm.c, virt/vm_pm.c, virt/vm_daemon.c, virt/vmcs.c, virt/hypercall.c,
      include/virt/vm_pm.h, include/virt/vmcs.h)

    The code runs on [this_cpu]; [current] is the vcpu whose task runs, if it
    is one.  Where the code sleeps, schedules or spins, the rest of the machine
    runs: that is the function [relax], about which the theorems assume only
    that it runs tasks and neither creates nor destroys a VM. *)
From S2P Require Import Prelude Bitops Bitmap Sched Vm.

Definition VM_PM_ACTION_BY_SELF : Z := Z.shiftl 1 0.
Definition VM_PM_ACTION_BY_MVM : Z := Z.shiftl 1 1.
Definition VM_PM_ACTION_BY_HOST : Z := Z.shiftl 1 2.

Definition pm_action_by_self (fl : Z) : bool := negb (Z.land fl VM_PM_ACTION_BY_SELF =? 0).
Definition pm_action_by_mvm (fl : Z) : bool := negb (Z.land fl VM_PM_ACTION_BY_MVM =? 0).
Definition pm_action_by_host (fl : Z) : bool := negb (Z.land fl VM_PM_ACTION_BY_HOST =? 0).

Definition VMTRAP_TYPE_COMMON : Z := 1.
Definition VMTRAP_TYPE_UNKNOWN : Z := 2.
Definition VMTRAP_REASON_REBOOT : Z := 3.
Definition VMTRAP_REASON_SHUTDOWN : Z := 4.
Definition VMTRAP_REASON_VM_SUSPEND : Z := 5.
Definition VMTRAP_REASON_VM_RESUMED : Z := 6.
Definition VMTRAP_REASON_UNKNOWN : Z := 9.

Definition VM_REBOOT : Z := 3.
Definition VM_SHUTDOWN : Z := 4.
Definition VM_SIGNAL_QUEUE_SIZE : Z := 8.

Definition VM_FLAGS_BIT_SKIP_CREATE_RES : Z := 20.
Definition VM_FLAGS_BIT_SKIP_MM_INIT : Z := 21.

Definition EABORT : Z := 134.
Definition VM_NR_CPUS_CLUSTER : Z := 256.
Definition VM_CAP_HOST : Z := Z.shiftl 1 0.
Definition VM_CAP_NATIVE : Z := Z.shiftl 1 1.

(** The calls made to set a native VM up whose success is asserted: [create_host_mapping]
    and [ramdisk_read] for the device tree and for the image. *)
Inductive setup_call := MapDtb | ReadDtb | MapImage | ReadImage.

Section pm.
Context (CONFIG_MAX_VM CONFIG_NR_CPUS_CLUSTER0 : Z).
Context (this_cpu : Z) (current : option Z) (relax : hv -> hv).
(** What the calls into the other components answer. *)
Context (mpidr_shift : bool) (has_irq : Z -> bool) (setup_ok : setup_call -> bool) (send_ok post_ok : bool).

(** [cmpxchg(&vm->state, old, new)]: the old value. *)
Definition cmpxchg_state (p old new : Z) (s : hv) : option (Z * hv) :=
  m ← vm_heap s !! p;
  Some (vm_state m, if vm_state m =? old then put_vm p (set_vm_state new m) s else s).

Definition check_vcpu_state (c : vcpu) (st : Z) : bool := vc_state c =? st.
Definition vcpu_is_offline (c : vcpu) : bool := check_vcpu_state c VCPU_STATE_SUSPEND.

(** What this code sees of [task_ready] (the whole is in [Sched]): the task
    goes on the ready list of its CPU; being on one already is an assertion
    failure. *)
Definition vcpu_ready (v : Z) (s : hv) : option hv :=
  c ← vcpu_heap s !! v;
  if vc_queued c then None else Some (emit (ev_task_ready v) (put_vcpu v (set_vc_queued true c) s)).

Definition vcpu_online (v : Z) (s : hv) : option hv :=
  c ← vcpu_heap s !! v;
  _ ← assert_ (vcpu_is_offline c);
  vcpu_ready v s.

(** What this code sees of [wake] on the event of a vcpu (the whole is in
    [Sync] and [Sched]): a task that waits is made ready. *)
Definition vcpu_wake (v : Z) (s : hv) : option (Z * hv) :=
  c ← vcpu_heap s !! v;
  if vc_state c =? TASK_STATE_WAIT_EVENT then
    s ← vcpu_ready v (put_vcpu v (set_vc_state TASK_STATE_WAKING c) s);
    Some (0, emit (ev_wake v) s)
  else Some (- EPERM, s).

Definition affinity_to_cpuid (aff : Z) : Z :=
  let aff0 := Z.land (Z.shiftr aff (if mpidr_shift then 8 else 0)) 0xff in
  let aff1 := Z.land (Z.shiftr aff (if mpidr_shift then 16 else 8)) 0xff in
  aff1 * CONFIG_NR_CPUS_CLUSTER0 + aff0.

Definition affinity_to_vcpuid (m : vm) (aff : Z) : Z :=
  if vm_is_host_vm m then affinity_to_cpuid aff
  else Z.land (Z.shiftr aff 8) 0xff * VM_NR_CPUS_CLUSTER + Z.land aff 0xff.

Definition vcpu_power_on (caller aff entry : Z) (s : hv) : option (Z * hv) :=
  c ← vcpu_heap s !! caller;
  m ← vm_heap s !! vc_vm c;
  v ← get_vcpu_in_vm m (affinity_to_vcpuid m aff);
  match v with
  | None => Some (- ENOENT, s)
  | Some v =>
      c ← vcpu_heap s !! v;
      if vcpu_is_offline c then s ← vcpu_online v (emit (ev_power_on v entry) s); Some (0, s)
      else Some (- EINVAL, s)
  end.

Definition vcpu_can_idle (v : Z) (s : hv) : option bool :=
  c ← vcpu_heap s !! v;
  m ← vm_heap s !! vc_vm c;
  Some (negb (negb (vm_state m =? VM_STATE_ONLINE)) && negb (vc_freeze c) && negb (has_irq v)).

(** [wait_event] on the vcpu's event without a timeout: the vcpu's task leaves
    the CPU until it is woken. *)
Definition vcpu_idle (v : Z) (s : hv) : option (Z * hv) :=
  b ← vcpu_can_idle v s;
  if b : bool then s ← upd_vcpu v (set_vc_state TASK_STATE_WAIT_EVENT) s; Some (TASK_STATE_PEND_OK, relax s)
  else Some (- EBUSY, s).

Definition vcpu_suspend (v : Z) (s : hv) : option (Z * hv) := vcpu_idle v s.

Definition vcpu_off (v : Z) (s : hv) : option (Z * hv) := s ← upd_vcpu v (set_vc_freeze true) s; Some (0, s).

Definition kick_vcpu (v : Z) (s : hv) : option (Z * hv) :=
  '(ret, s) ← vcpu_wake v s;
  c ← vcpu_heap s !! v;
  if this_cpu =? vc_affinity c then Some (ret, s)
  else
    m ← vm_heap s !! vc_vm c;
    if ((ret <? 0) && negb (vc_mode c =? IN_ROOT_MODE)) || ((ret <? 0) && negb (Z.land (flags m) VM_FLAGS_NATIVE_WFI =? 0))
    then Some (ret, emit (ev_resched (vc_affinity c)) s)
    else Some (ret, s).

Definition vcpu_return_to_user (v : Z) (s : hv) : option hv :=
  s ← upd_vcpu v (set_vc_mode OUTSIDE_ROOT_MODE) s;
  upd_vcpu v (set_vc_mode IN_GUEST_MODE) (emit (ev_hook OS_HOOK_ENTER_TO_GUEST v) s).

Definition vcpu_exit_from_user (v : Z) (s : hv) : option hv :=
  s ← upd_vcpu v (set_vc_mode OUTSIDE_GUEST_MODE) s;
  upd_vcpu v (set_vc_mode IN_ROOT_MODE) (emit (ev_hook OS_HOOK_EXIT_FROM_GUEST v) s).

(** [vm_for_each_vcpu]: along the [next] pointers; a result that is not 0
    leaves the loop. *)
Fixpoint each_vcpu (fuel : nat) (f : Z -> hv -> option (Z * hv)) (o : option Z) (s : hv) : option (Z * hv) :=
  match o with
  | None => Some (0, s)
  | Some v =>
      match fuel with
      | O => None
      | S fuel =>
          '(r, s) ← f v s;
          if negb (r =? 0) then Some (r, s) else c ← vcpu_heap s !! v; each_vcpu fuel f (vc_next c) s
      end
  end.

Definition vm_for_each_vcpu (p : Z) (f : Z -> hv -> option (Z * hv)) (s : hv) : option (Z * hv) :=
  m ← vm_heap s !! p;
  o ← load_slot 0 m;
  each_vcpu (S (Z.to_nat (vcpu_nr m))) f o s.

(** ** Starting *)
Definition vcpu_init_one (native : bool) (v : Z) (s : hv) : option (Z * hv) :=
  c ← vcpu_heap s !! v;
  let s := emit (ev_vmodules_init v) (put_vcpu v (set_vc_context true c) s) in
  if native then Some (0, s)
  else
    x ← vc_vmcs c;
    s ← upd_vcpu v (set_vc_vmcs (Some (mk_vmcs (trap_type x) (trap_reason x) (trap_ret x) (trap_data x) (trap_result x) 0 0))) s;
    Some (0, s).

Definition vcpu_power_one (entry v : Z) (s : hv) : option (Z * hv) :=
  Some (0, emit (ev_power_on v entry) (emit (ev_hook OS_HOOK_VCPU_INIT v) s)).

Definition vm_vcpus_init (p : Z) (s : hv) : option hv :=
  m ← vm_heap s !! p;
  '(_, s) ← vm_for_each_vcpu p (vcpu_init_one (vm_is_native m)) s;
  '(_, s) ← vm_for_each_vcpu p (vcpu_power_one (entry_point m)) s;
  Some s.

Definition do_start_vm (p : Z) (s : hv) : option (Z * hv) :=
  m ← vm_heap s !! p;
  o ← load_slot 0 m;
  match o with
  | None => Some (- ENOENT, s)
  | Some v => s ← vcpu_online v (emit (ev_flush_tlb p) s); Some (0, s)
  end.

Definition start_guest_vm (p : option Z) (s : hv) : option (Z * hv) :=
  match p with
  | None => Some (- ENOENT, s)
  | Some p =>
      '(old, s) ← cmpxchg_state p VM_STATE_OFFLINE VM_STATE_ONLINE s;
      if negb (old =? VM_STATE_OFFLINE) then Some (- EINVAL, s)
      else s ← vm_vcpus_init p s; do_start_vm p s
  end.

(** The resources and the memory map are made once; two flags remember it. *)
Definition create_vm_resource (p : Z) (s : hv) : option hv :=
  m ← vm_heap s !! p;
  let s' := put_vm p (set_flags (Z.lor (flags m) (2 ^ VM_FLAGS_BIT_SKIP_CREATE_RES)) m) s in
  Some (if Z.testbit (flags m) VM_FLAGS_BIT_SKIP_CREATE_RES then s' else emit (ev_setup_native p) s').

Definition vm_mm_init (p : Z) (s : hv) : option hv :=
  m ← vm_heap s !! p;
  let s' := put_vm p (set_flags (Z.lor (flags m) (2 ^ VM_FLAGS_BIT_SKIP_MM_INIT)) m) s in
  Some (if Z.testbit (flags m) VM_FLAGS_BIT_SKIP_MM_INIT then s' else emit (ev_vm_mm_init p) s').

(** [files] are the kernel, the device tree and the initrd. *)
Definition __setup_native_vm (p : Z) (s : hv) : option hv :=
  m ← vm_heap s !! p;
  _ ← assert_ (setup_ok MapDtb);
  _ ← (if snd (fst (files m)) then assert_ (setup_ok ReadDtb) else Some ());
  s ← create_vm_resource p s;
  Some (emit (ev_hook OS_HOOK_SETUP_VM p) (emit (ev_os_setup_vm p) s)).

Definition load_vm_image (p : Z) (s : hv) : option hv :=
  m ← vm_heap s !! p;
  if negb (fst (fst (files m))) then Some s
  else
    _ ← assert_ (setup_ok MapImage);
    _ ← assert_ (setup_ok ReadImage);
    Some (emit (ev_load_image p) s).

Definition setup_native_vm (p : Z) (s : hv) : option hv :=
  s ← __setup_native_vm p (emit (ev_os_vm_init p) s);
  s ← load_vm_image p s;
  s ← vm_mm_init p s;
  vm_vcpus_init p s.

Definition start_native_vm (p : option Z) (s : hv) : option (Z * hv) :=
  match p with
  | None => Some (- ENOENT, s)
  | Some p =>
      '(old, s) ← cmpxchg_state p VM_STATE_OFFLINE VM_STATE_ONLINE s;
      if negb (old =? VM_STATE_OFFLINE) then Some (- EINVAL, s)
      else
        m ← vm_heap s !! p;
        if negb (vm_is_native m) then Some (- EPERM, s)
        else s ← setup_native_vm p s; do_start_vm p s
  end.

Fixpoint start_list (l : list Z) (s : hv) : option hv :=
  match l with [] => Some s | p :: l => '(_, s) ← start_native_vm (Some p) s; start_list l s end.

Definition start_all_vm (s : hv) : option hv := start_list (vm_list s) s.

Definition power_up_guest_vm (id : Z) (s : hv) : option (Z * hv) :=
  p ← get_vm_by_id CONFIG_MAX_VM id s;
  match p with None => Some (- ENOENT, s) | Some p => start_guest_vm (Some p) s end.

(** ** The trap to the host VM *)

(** The guest waits until the host VM has handled the last trap. *)
Fixpoint wait_vmcs (fuel : nat) (v : Z) (s : hv) : option (Z * hv) :=
  match fuel with
  | O => None
  | S fuel =>
      c ← vcpu_heap s !! v;
      x ← vc_vmcs c;
      if guest_index x =? host_index x then Some (0, s)
      else
        let s := relax s in
        c ← vcpu_heap s !! v;
        if vc_freeze c then Some (- EABORT, s) else wait_vmcs fuel v s
  end.

(** [result] is the pointer to the value, which is read and written; NULL is
    [None]. *)
Definition __vcpu_trap (fuel : nat) (type reason data : Z) (result : option Z) (nonblock : bool) (s : hv) : option (Z * option Z * hv) :=
  v ← current;
  c ← vcpu_heap s !! v;
  if vmcs_irq c <? 0 then Some (- ENOENT, result, s)
  else if (VMTRAP_TYPE_UNKNOWN <=? type) || (VMTRAP_REASON_UNKNOWN <=? reason) then Some (- EINVAL, result, s)
  else
    '(r, s) ← wait_vmcs fuel v s;
    if negb (r =? 0) then Some (r, result, s)
    else
      c ← vcpu_heap s !! v;
      x ← vc_vmcs c;
      p0 ← get_host_vm s;
      vm0 ← vm_heap s !! p0;
      let x1 := mk_vmcs type reason 0 data (default 0 result) (u64 (host_index x + 1)) (guest_index x) in
      let s := emit (ev_send_virq p0 (vmcs_irq c)) (put_vcpu v (set_vc_vmcs (Some x1) c) s) in
      if negb send_ok then
        Some (- EFAULT, result, put_vcpu v (set_vc_vmcs (Some (mk_vmcs type reason (- EPERM) data 0 (host_index x) (guest_index x))) c) s)
      else
        o ← load_slot 0 vm0;
        v0 ← o;
        c0 ← vcpu_heap s !! v0;
        if negb (vc_affinity c =? vc_affinity c0) && nonblock then Some (0, (fun _ => 0) <$> result, s)
        else
          '(r, s) ← wait_vmcs fuel v s;
          if negb (r =? 0) then Some (r, result, s)
          else c ← vcpu_heap s !! v; x ← vc_vmcs c; Some (trap_ret x, (fun _ => trap_result x) <$> result, s).

Definition trap_vcpu (fuel : nat) (type reason data : Z) (result : option Z) (s : hv) : option (Z * option Z * hv) :=
  __vcpu_trap fuel type reason data result false s.

Definition trap_vcpu_nonblock (fuel : nat) (type reason data : Z) (result : option Z) (s : hv) : option (Z * option Z * hv) :=
  __vcpu_trap fuel type reason data result true s.

(** ** Stopping *)
Definition vcpu_enter_poweroff (v : Z) (s : hv) : option (Z * hv) :=
  c ← vcpu_heap s !! v;
  if check_vcpu_state c VCPU_STATE_STOP || check_vcpu_state c VCPU_STATE_SUSPEND then Some (0, s)
  else
    s ← upd_vcpu v (set_vc_freeze true) s;
    if bool_decide (current = Some v) then Some (0, s)
    else
      '(_, s) ← vcpu_wake v s;
      Some (0, if negb (vc_affinity c =? this_cpu) then emit (ev_smp_call (vc_affinity c) v) s else s).

Fixpoint wait_loop (n : nat) (st v : Z) (s : hv) : option (Z * hv) :=
  match n with
  | O => Some (- ETIMEDOUT, s)
  | S n => c ← vcpu_heap s !! v; if vc_state c =? st then Some (0, s) else wait_loop n st v (relax s)
  end.

Definition wait_vcpu_in_state (st timeout v : Z) (s : hv) : option (Z * hv) :=
  let timeout := if timeout =? 0 then 2 ^ 32 - 1 else timeout in
  wait_loop (Z.to_nat (timeout / 10)) st v s.

Definition wait_vm_in_state (p st : Z) (s : hv) : option (Z * hv) :=
  '(r, s) ← vm_for_each_vcpu p (wait_vcpu_in_state TASK_STATE_SUSPEND 1000) s;
  Some (if r =? 0 then 0 else - EBUSY, s).

(** The daemon's queue. *)
Definition send_vm_request (p action : Z) (s : hv) : Z * hv :=
  if negb post_ok then (- ENOMEM, s)
  else if VM_SIGNAL_QUEUE_SIZE <=? Z.of_nat (length (vm_requests s)) then (- ENOSPC, s)
  else (0, set_vm_requests (vm_requests s ++ [(action, p)]) s).

Definition __shutdown_native_vm (p fl : Z) (s : hv) : Z * hv :=
  if negb (pm_action_by_self fl) then (0, s) else send_vm_request p VM_SHUTDOWN s.

Definition __shutdown_guest_vm (fuel : nat) (fl : Z) (s : hv) : option (Z * hv) :=
  if negb (pm_action_by_mvm fl) then Some (0, s)
  else '(r, _, s) ← trap_vcpu_nonblock fuel VMTRAP_TYPE_COMMON VMTRAP_REASON_SHUTDOWN 0 None s; Some (r, s).

Definition __vm_power_off (fuel : nat) (p fl : Z) (s : hv) : option (Z * hv) :=
  '(old, s) ← cmpxchg_state p VM_STATE_ONLINE VM_STATE_FREEZEING s;
  if negb (old =? VM_STATE_ONLINE) then Some (0, s)
  else
    m ← vm_heap s !! p;
    s ← (if vm_is_native m then Some (snd (__shutdown_native_vm p fl s)) else '(_, s) ← __shutdown_guest_vm fuel fl s; Some s);
    '(_, s) ← vm_for_each_vcpu p vcpu_enter_poweroff s;
    s ← upd_vm p (set_vm_state VM_STATE_OFFLINE) s;
    Some (0, s).

Definition vm_power_off (fuel : nat) (id fl : Z) (s : hv) : option (Z * hv) :=
  p ← get_vm_by_id CONFIG_MAX_VM id s;
  match p with
  | None => Some (- EINVAL, s)
  | Some p =>
      m ← vm_heap s !! p;
      if vm_is_native m && ((Z.land (flags m) VM_FLAGS_CAN_RESET =? 0) || pm_action_by_mvm fl) then Some (- EPERM, s)
      else __vm_power_off fuel p fl s
  end.

Definition destroy_guest_vm (fuel : nat) (p : option Z) (s : hv) : option hv :=
  p ← p;
  '(_, s) ← __vm_power_off fuel p VM_PM_ACTION_BY_MVM s;
  '(_, s) ← wait_vm_in_state p VCPU_STATE_SUSPEND s;
  destroy_vm (Some p) s.

(** The loop over the numbers [i], ..., [CONFIG_MAX_VM - 1]. *)
Fixpoint shutdown_guests (n : nat) (fuel : nat) (i : Z) (s : hv) : option (Z * hv) :=
  match n with
  | O => Some (0, s)
  | S n =>
      o ← vms s !! Z.to_nat i;
      match o with
      | None => shutdown_guests n fuel (i + 1) s
      | Some p =>
          m ← vm_heap s !! p;
          if vm_is_native m then shutdown_guests n fuel (i + 1) s
          else
            '(_, s) ← vm_power_off fuel (vmid m) VM_PM_ACTION_BY_HOST s;
            '(r, s) ← wait_vm_in_state p TASK_STATE_SUSPEND s;
            if negb (r =? 0) then Some (- ETIMEDOUT, s)
            else s ← destroy_vm (Some p) s; shutdown_guests n fuel (i + 1) s
      end
  end.

Definition shutdown_all_guest_vm (fuel : nat) (s : hv) : option (Z * hv) := shutdown_guests (Z.to_nat (CONFIG_MAX_VM - 1)) fuel 1 s.

Definition vcpu_reset (v : Z) (s : hv) : option (Z * hv) := Some (0, emit (ev_virq_struct_reset v) (emit (ev_reset_vmodule v) s)).

Definition __native_vm_reset (p : Z) (s : hv) : option hv :=
  m ← vm_heap s !! p;
  '(_, s) ← vm_for_each_vcpu p vcpu_reset s;
  Some (emit (ev_vm_virq_reset p) (fold_left (fun s d => emit (ev_vdev_reset d) s) (vdev_list m) s)).

Definition reboot_native_vm (fuel : nat) (p : Z) (s : hv) : option (Z * hv) :=
  '(r, s) ← wait_vm_in_state p TASK_STATE_SUSPEND s;
  if negb (r =? 0) then Some (- EBUSY, s)
  else
    m ← vm_heap s !! p;
    s ← (if vm_is_host_vm m then '(_, s) ← shutdown_all_guest_vm fuel s; Some s else Some s);
    s ← __native_vm_reset p s;
    s ← upd_vm p (set_vm_state VM_STATE_OFFLINE) s;
    '(_, s) ← start_native_vm (Some p) s;
    Some (0, s).

Definition shutdown_native_vm (fuel : nat) (p : Z) (s : hv) : option (Z * hv) :=
  '(r, s) ← wait_vm_in_state p TASK_STATE_SUSPEND s;
  if negb (r =? 0) then Some (- EBUSY, s)
  else
    m ← vm_heap s !! p;
    s ← (if vm_is_host_vm m then '(_, s) ← shutdown_all_guest_vm fuel s; Some s else Some s);
    s ← __native_vm_reset p s;
    s ← upd_vm p (set_vm_state VM_STATE_OFFLINE) s;
    Some (0, s).

Definition native_vm_reset (fuel : nat) (p fl : Z) (s : hv) : option (Z * hv) :=
  if pm_action_by_self fl then Some (send_vm_request p VM_REBOOT s) else reboot_native_vm fuel p s.

Definition guest_vm_reset (fuel : nat) (p : Z) (s : hv) : option (Z * hv) :=
  s ← upd_vm p (set_vm_state VM_STATE_OFFLINE) s;
  '(r, _, s) ← trap_vcpu_nonblock fuel VMTRAP_TYPE_COMMON VMTRAP_REASON_REBOOT 0 None s; Some (r, s).

Definition __vm_reset (fuel : nat) (p fl : Z) (s : hv) : option (Z * hv) :=
  '(old, s) ← cmpxchg_state p VM_STATE_ONLINE VM_STATE_FREEZEING s;
  if negb (old =? VM_STATE_ONLINE) then Some (- EBUSY, s)
  else
    '(_, s) ← vm_for_each_vcpu p vcpu_enter_poweroff s;
    m ← vm_heap s !! p;
    if vm_is_native m then native_vm_reset fuel p fl s else guest_vm_reset fuel p s.

Definition vm_reset (fuel : nat) (id fl : Z) (s : hv) : option (Z * hv) :=
  p ← get_vm_by_id CONFIG_MAX_VM id s;
  match p with
  | None => Some (- ENOENT, s)
  | Some p =>
      m ← vm_heap s !! p;
      if vm_is_native m && ((Z.land (flags m) VM_FLAGS_CAN_RESET =? 0) || pm_action_by_mvm fl) then Some (- EPERM, s)
      else if negb (vm_is_native m) && pm_action_by_host fl then Some (- EPERM, s)
      else __vm_reset fuel p fl s
  end.

Definition handle_vm_request (fuel : nat) (action p : Z) (s : hv) : option hv :=
  if action =? VM_REBOOT then '(_, s) ← reboot_native_vm fuel p s; Some s
  else if action =? VM_SHUTDOWN then '(_, s) ← shutdown_native_vm fuel p s; Some s
  else Some s.

(** One turn of [vm_daemon_main] with a request in the queue. *)
Definition vm_daemon_step (fuel : nat) (s : hv) : option hv :=
  match vm_requests s with
  | [] => Some s
  | (action, p) :: l => handle_vm_request fuel action p (set_vm_requests l s)
  end.

(** ** Suspending *)
Definition resume_one (v : Z) (s : hv) : option (Z * hv) :=
  c ← vcpu_heap s !! v;
  Some (0, if vcpu_id c =? 0 then s else emit (ev_resume_vmodule v) s).

Definition vm_resume (fuel : nat) (p : Z) (s : hv) : option (Z * hv) :=
  '(_, s) ← vm_for_each_vcpu p resume_one s;
  let s := emit (ev_hook OS_HOOK_RESUME_VM p) s in
  m ← vm_heap s !! p;
  s ← (if vm_is_native m then Some s else '(_, _, s) ← trap_vcpu_nonblock fuel VMTRAP_TYPE_COMMON VMTRAP_REASON_VM_RESUMED 0 None s; Some s);
  Some (0, s).

Definition suspend_one (cur v : Z) (s : hv) : option (Z * hv) :=
  if v =? cur then Some (0, s)
  else
    c ← vcpu_heap s !! v;
    if negb (check_vcpu_state c TASK_STATE_STOP) then Some (- EINVAL, s) else Some (0, emit (ev_suspend_vmodule v) s).

Definition __vm_suspend (fuel : nat) (p : Z) (s : hv) : option (Z * hv) :=
  cur ← current;
  c ← vcpu_heap s !! cur;
  if negb (vcpu_id c =? 0) then Some (- EPERM, s)
  else
    '(r, s) ← vm_for_each_vcpu p (suspend_one cur) s;
    if negb (r =? 0) then Some (r, s)
    else
      s ← upd_vm p (set_vm_state VM_STATE_SUSPEND) s;
      let s := emit (ev_hook OS_HOOK_SUSPEND_VM p) s in
      m ← vm_heap s !! p;
      s ← (if vm_is_native m then Some s else '(_, _, s) ← trap_vcpu_nonblock fuel VMTRAP_TYPE_COMMON VMTRAP_REASON_VM_SUSPEND 0 None s; Some s);
      '(_, s) ← vcpu_idle cur s;
      s ← upd_vm p (set_vm_state VM_STATE_ONLINE) s;
      '(_, s) ← vm_resume fuel p s;
      Some (0, s).

Definition vm_suspend (fuel : nat) (id : Z) (s : hv) : option (Z * hv) :=
  p ← get_vm_by_id CONFIG_MAX_VM id s;
  match p with None => Some (- EINVAL, s) | Some p => __vm_suspend fuel p s end.

(** ** Hypercalls *)
Definition CHECK_VM_CAP (cap flg value : Z) : Z := Z.lor value (if negb (Z.land flg VM_FLAGS_HOST =? 0) then cap else 0).

Definition get_vm_capability (m : vm) : Z := CHECK_VM_CAP VM_CAP_NATIVE VM_FLAGS_NATIVE (CHECK_VM_CAP VM_CAP_HOST VM_FLAGS_HOST 0).
(** ** What the power operations leave alone *)

(** The state a result carries. *)
Class HasHv (A : Type) := get_hv : A -> hv.
#[export] Instance hv_has_hv : HasHv hv := fun s => s.
#[export] Instance pair_has_hv : HasHv (Z * hv) := snd.
#[export] Instance triple_has_hv : HasHv (Z * option Z * hv) := snd.

(** A VM without its state and the two "done" flags; a vcpu without what its
    task does. *)
Definition vm_core (m : vm) : vm := set_vm_state 0 (set_flags (Z.land (flags m) 0xfffff) m).
Definition vcpu_core (c : vcpu) : Z * Z * option Z * Z := (vcpu_id c, vc_vm c, vc_next c, vc_affinity c).

Record shape (s s' : hv) : Prop := mk_shape {
  sh_vms : vms s' = vms s;
  sh_list : vm_list s' = vm_list s;
  sh_total : total_vms s' = total_vms s;
  sh_map : vmid_bitmap s' = vmid_bitmap s;
  sh_brk : brk s' = brk s;
  sh_host : host_vm s' = host_vm s;
  sh_vm : forall p, vm_core <$> vm_heap s' !! p = vm_core <$> vm_heap s !! p;
  sh_vcpu : forall v, vcpu_core <$> vcpu_heap s' !! v = vcpu_core <$> vcpu_heap s !! v;
}.

#[export] Instance shape_preorder : PreOrder shape.
Proof.
  split.
  - intros s. by split.
  - intros s1 s2 s3 [] []. split; congruence.
Qed.

Lemma shape_refl s : shape s s.
Proof. by split. Qed.
#[local] Hint Resolve shape_refl : core.

Lemma shape_vm s s' p m : shape s s' -> vm_heap s !! p = Some m -> exists m', vm_heap s' !! p = Some m' /\ vm_core m' = vm_core m.
Proof.
  intros H Hm. pose proof (sh_vm s s' H p) as E. rewrite Hm in E. cbn in E. destruct (vm_heap s' !! p) as [m'|]; [|done].
  exists m'. split; [done|]. cbn in E. congruence.
Qed.

Lemma shape_vcpu s s' v c : shape s s' -> vcpu_heap s !! v = Some c -> exists c', vcpu_heap s' !! v = Some c' /\ vcpu_core c' = vcpu_core c.
Proof.
  intros H Hc. pose proof (sh_vcpu s s' H v) as E. rewrite Hc in E. cbn in E. destruct (vcpu_heap s' !! v) as [c'|]; [|done].
  exists c'. split; [done|]. cbn in E. congruence.
Qed.

Lemma shape_sym s s' : shape s s' -> shape s' s.
Proof. intros []. split; congruence. Qed.

Lemma core_native m m' : vm_core m = vm_core m' -> vm_is_native m = vm_is_native m'.
Proof.
  intros E. apply (f_equal flags) in E. cbn in E. unfold vm_is_native. f_equal. f_equal.
  apply (f_equal (fun f => Z.land f VM_FLAGS_NATIVE)) in E. by rewrite <- !Z.land_assoc in E.
Qed.

Lemma core_slots m m' i : vm_core m = vm_core m' -> load_slot i m = load_slot i m' /\ vcpu_nr m = vcpu_nr m' /\ vmid m = vmid m' /\ vcpus m = vcpus m'.
Proof.
  intros E. assert (vcpus m = vcpus m') as Hv by apply (f_equal vcpus E). unfold load_slot. rewrite Hv.
  split_and!; try done; [apply (f_equal vcpu_nr E)|apply (f_equal vmid E)].
Qed.

Lemma shape_hv_ok s s' : shape s s' -> hv_ok CONFIG_MAX_VM s -> hv_ok CONFIG_MAX_VM s'.
Proof.
  intros H Ho. pose proof H as [H1 H2 H3 H4 H5 H6 H7 H8].
  destruct Ho as [O1 O2 O3 O4 O5 O6 O7 O8 O9 O10]. split; rewrite ?H1, ?H2, ?H3, ?H4, ?H5; try done.
  - intros id p Hid. destruct (O7 id p Hid) as (A & B & m & Hm & Hid' & [N L S]). split; [done|]. split; [done|].
    destruct (shape_vm s s' p m H Hm) as (m' & Hm' & Hc). exists m'. destruct (core_slots _ _ 0 Hc) as (_ & En & Ei & Ev).
    split_and!; [done|congruence|]. split; [lia|rewrite Ev, En; done|]. intros i Hi. rewrite En in Hi.
    destruct (S i Hi) as (v & c & E1 & E2 & E3 & E4 & E5). destruct (shape_vcpu s s' v c H E2) as (c' & Hc' & Ec). injection Ec as K1 K2 K3 K4.
    exists v, c'. destruct (core_slots _ _ i Hc) as [-> _]. destruct (core_slots _ _ (i + 1) Hc) as [-> _]. rewrite En, K1, K2, K3. split_and!; done.
  - intros v c' Hc'. destruct (shape_vcpu s' s v c' (shape_sym _ _ H) Hc') as (c & Hc & Ec). injection Ec as K1 K2 K3 K4.
    destruct (O8 v c Hc) as (m & Hm & Hr & Hl). destruct (shape_vm s s' _ m H Hm) as (m' & Hm' & Hcore). destruct (core_slots _ _ (vcpu_id c) Hcore) as (Es & En & _).
    exists m'. rewrite <- K1, <- K2, En, Es. done.
  - intros p m' Hm'. destruct (shape_vm s' s p m' (shape_sym _ _ H) Hm') as (m & Hm & _). by eapply O9.
  - intros v c' Hc'. destruct (shape_vcpu s' s v c' (shape_sym _ _ H) Hc') as (c & Hc & _). by eapply O10.
Qed.

Lemma emit_shape e s : shape s (emit e s).
Proof. by split. Qed.

Lemma put_vm_shape p m m' s : vm_heap s !! p = Some m -> vm_core m' = vm_core m -> shape s (put_vm p m' s).
Proof.
  intros Hm Hc. split; try done. intros q. cbn. destruct (decide (q = p)) as [->|]; [rewrite lookup_insert_eq, Hm; cbn; by rewrite Hc|by rewrite lookup_insert_ne].
Qed.

Lemma put_vcpu_shape v c c' s : vcpu_heap s !! v = Some c -> vcpu_core c' = vcpu_core c -> shape s (put_vcpu v c' s).
Proof.
  intros Hm Hc. split; try done. intros q. cbn. destruct (decide (q = v)) as [->|]; [rewrite lookup_insert_eq, Hm; cbn; by rewrite Hc|by rewrite lookup_insert_ne].
Qed.

(** ** The loop over the vcpus *)
Section each.
Context (p : Z) (m : vm) (f : Z -> hv -> option (Z * hv)) (s0 : hv) (I : Z -> hv -> Prop).
Context (Hm : vm_heap s0 !! p = Some m) (Hok : vm_ok (vcpu_heap s0) p m).
Context (Hf : forall i v s, 0 <= i < vcpu_nr m -> load_slot i m = Some (Some v) -> shape s0 s -> I i s ->
                exists s', f v s = Some (0, s') /\ shape s0 s' /\ I (i + 1) s').

Lemma each_vcpu_run n i s fuel v :
  i + Z.of_nat n = vcpu_nr m -> 0 <= i -> (n <= fuel)%nat -> (n <> 0)%nat -> load_slot i m = Some (Some v) -> shape s0 s -> I i s ->
  exists s', each_vcpu fuel f (Some v) s = Some (0, s') /\ shape s0 s' /\ I (vcpu_nr m) s'.
Proof.
  revert i s fuel v. induction n as [|n IH]; intros i s fuel v Hn Hi Hfu Hn0 Hl Hs HI; [done|]. destruct fuel as [|fuel]; [lia|].
  cbn [each_vcpu]. destruct (Hf i v s ltac:(lia) Hl Hs HI) as (s1 & -> & Hs1 & HI1). msimpl. cbn [Z.eqb negb].
  destruct (vo_slots _ _ _ Hok i ltac:(lia)) as (v' & c & E1 & E2 & E3 & E4 & E5). assert (v' = v) as -> by congruence.
  destruct (shape_vcpu s0 s1 v c Hs1 E2) as (c1 & -> & Ec). msimpl. injection Ec as K1 K2 K3 K4. rewrite K3, E5.
  destruct (Z.eqb_spec (i + 1) (vcpu_nr m)) as [E|E].
  - destruct fuel; cbn; exists s1; (split; [done|]); rewrite <- E; done.
  - destruct (vo_slots _ _ _ Hok (i + 1) ltac:(lia)) as (v2 & c2 & F1 & _). rewrite F1. cbn [mjoin option_join].
    apply (IH (i + 1)); [lia|lia|lia|lia|done|done|done].
Qed.

Lemma vm_for_each_vcpu_run s : shape s0 s -> I 0 s -> exists s', vm_for_each_vcpu p f s = Some (0, s') /\ shape s0 s' /\ I (vcpu_nr m) s'.
Proof.
  intros Hs HI. unfold vm_for_each_vcpu. destruct (shape_vm s0 s p m Hs Hm) as (m1 & -> & Hc). msimpl.
  destruct (core_slots _ _ 0 Hc) as (-> & -> & _). pose proof (vo_nr _ _ _ Hok).
  destruct (vo_slots _ _ _ Hok 0 ltac:(lia)) as (v & c & E & _). rewrite E. msimpl.
  apply (each_vcpu_run (Z.to_nat (vcpu_nr m)) 0); [lia|lia|lia|lia|done|done|done].
Qed.
End each.
(** ** Every power operation keeps the VMs *)
Context (Hrelax : forall s, shape s (relax s)).

Definition keeps {A} `{!HasHv A} (s0 : hv) (o : option A) : Prop := forall x, o = Some x -> shape s0 (get_hv x).

Lemma keeps_some {A} `{!HasHv A} s0 (x : A) : shape s0 (get_hv x) -> keeps s0 (Some x).
Proof. intros H y E. by injection E as <-. Qed.

Lemma keeps_none {A} `{!HasHv A} s0 : keeps s0 (None : option A).
Proof. intros y E. done. Qed.

Lemma keeps_bind {A B} `{!HasHv A, !HasHv B} s0 (o : option A) (k : A -> option B) :
  keeps s0 o -> (forall x, shape s0 (get_hv x) -> keeps s0 (k x)) -> keeps s0 (o ≫= k).
Proof. intros Ho Hk y E. destruct o as [x|]; [|done]. apply (Hk x (Ho x eq_refl) y E). Qed.

(** Reading something that is not a state. *)
Lemma keeps_read {A B} `{!HasHv B} s0 (o : option A) (k : A -> option B) : (forall x, o = Some x -> keeps s0 (k x)) -> keeps s0 (o ≫= k).
Proof. intros Hk y E. destruct o as [x|]; [|done]. exact (Hk x eq_refl y E). Qed.

Lemma emit_shape_r e s0 s : shape s0 s -> shape s0 (emit e s).
Proof. intros H. etransitivity; [done|apply emit_shape]. Qed.

Lemma relax_shape_r s0 s : shape s0 s -> shape s0 (relax s).
Proof. intros H. etransitivity; [done|apply Hrelax]. Qed.

Lemma put_vm_shape_r s0 p m m' s : shape s0 s -> vm_heap s !! p = Some m -> vm_core m' = vm_core m -> shape s0 (put_vm p m' s).
Proof. intros H Hm Hc. etransitivity; [done|by eapply put_vm_shape]. Qed.

Lemma put_vcpu_shape_r s0 v c c' s : shape s0 s -> vcpu_heap s !! v = Some c -> vcpu_core c' = vcpu_core c -> shape s0 (put_vcpu v c' s).
Proof. intros H Hm Hc. etransitivity; [done|by eapply put_vcpu_shape]. Qed.

Lemma upd_vcpu_keeps s0 v f s : shape s0 s -> (forall c, vcpu_core (f c) = vcpu_core c) -> keeps s0 (upd_vcpu v f s).
Proof. intros H Hf. apply keeps_read. intros c Hc. apply keeps_some. by eapply put_vcpu_shape_r. Qed.

Lemma upd_vm_keeps s0 p f s : shape s0 s -> (forall m, vm_core (f m) = vm_core m) -> keeps s0 (upd_vm p f s).
Proof. intros H Hf. apply keeps_read. intros c Hc. apply keeps_some. by eapply put_vm_shape_r. Qed.

Create HintDb pm discriminated.
Hint Resolve emit_shape_r relax_shape_r put_vm_shape_r put_vcpu_shape_r upd_vcpu_keeps upd_vm_keeps keeps_none : pm.

(** One step through the body of an operation. *)
Ltac keep_step :=
  match goal with
  | |- keeps _ (Some _) => apply keeps_some; cbv beta iota delta [get_hv hv_has_hv pair_has_hv triple_has_hv snd]
  | |- keeps _ None => apply keeps_none
  | |- keeps _ (if ?b then _ else _) => destruct b eqn:?
  | |- keeps _ (match ?x with Some _ => _ | None => _ end) => destruct x eqn:?
  | |- keeps _ (_ ≫= _) =>
      first [apply keeps_bind; [solve [eauto 9 with pm]|intros [[? ?] ?] ?; cbn [get_hv triple_has_hv snd] in *]
            |apply keeps_bind; [solve [eauto 9 with pm]|intros [? ?] ?; cbn [get_hv pair_has_hv hv_has_hv snd] in *]
            |apply keeps_bind; [solve [eauto 9 with pm]|intros ? ?; cbn [get_hv pair_has_hv hv_has_hv snd] in *]
            |apply keeps_read; intros ? ?]
  | |- keeps _ _ => solve [eauto 9 with pm]
  | |- shape _ (if ?b then _ else _) => destruct b eqn:?
  | |- shape _ _ => first [done|solve [eauto 9 with pm]|apply emit_shape_r]
  end.
Ltac keep := repeat keep_step.

Lemma cmpxchg_keeps s0 p a b s : shape s0 s -> keeps s0 (cmpxchg_state p a b s).
Proof. intros H. unfold cmpxchg_state. keep. Qed.
Hint Resolve cmpxchg_keeps : pm.

Lemma vcpu_ready_keeps s0 v s : shape s0 s -> keeps s0 (vcpu_ready v s).
Proof. intros H. unfold vcpu_ready. keep. Qed.
Hint Resolve vcpu_ready_keeps : pm.

Lemma vcpu_online_keeps s0 v s : shape s0 s -> keeps s0 (vcpu_online v s).
Proof. intros H. unfold vcpu_online. keep. Qed.
Hint Resolve vcpu_online_keeps : pm.

Lemma wake_keeps s0 v s : shape s0 s -> keeps s0 (vcpu_wake v s).
Proof. intros H. unfold vcpu_wake. keep. Qed.
Hint Resolve wake_keeps : pm.

Lemma vcpu_power_on_keeps s0 v a en s : shape s0 s -> keeps s0 (vcpu_power_on v a en s).
Proof. intros H. unfold vcpu_power_on. keep. Qed.

Lemma vcpu_idle_keeps s0 v s : shape s0 s -> keeps s0 (vcpu_idle v s).
Proof. intros H. unfold vcpu_idle. keep. Qed.
Hint Resolve vcpu_idle_keeps : pm.

Lemma kick_vcpu_keeps s0 v s : shape s0 s -> keeps s0 (kick_vcpu v s).
Proof. intros H. unfold kick_vcpu. keep. Qed.

Lemma each_vcpu_keeps s0 f n o s : (forall v s, shape s0 s -> keeps s0 (f v s)) -> shape s0 s -> keeps s0 (each_vcpu n f o s).
Proof.
  intros Hf. revert o s. induction n as [|n IH]; intros [v|] s H; cbn [each_vcpu]; keep.
Qed.

Lemma for_each_keeps s0 p f s : (forall v s, shape s0 s -> keeps s0 (f v s)) -> shape s0 s -> keeps s0 (vm_for_each_vcpu p f s).
Proof. intros Hf H. unfold vm_for_each_vcpu. do 2 keep_step. by apply each_vcpu_keeps. Qed.
Lemma vcpu_init_one_keeps s0 b v s : shape s0 s -> keeps s0 (vcpu_init_one b v s).
Proof. intros H. unfold vcpu_init_one. keep. Qed.

Lemma vcpu_power_one_keeps s0 en v s : shape s0 s -> keeps s0 (vcpu_power_one en v s).
Proof. intros H. unfold vcpu_power_one. keep. Qed.

Lemma vm_vcpus_init_keeps s0 p s : shape s0 s -> keeps s0 (vm_vcpus_init p s).
Proof.
  intros H. unfold vm_vcpus_init. keep_step.
  apply keeps_bind; [apply for_each_keeps; [intros; by apply vcpu_init_one_keeps|done]|]. intros [r s1] H1. cbn in H1.
  apply keeps_bind; [apply for_each_keeps; [intros; by apply vcpu_power_one_keeps|done]|]. intros [r2 s2] H2. cbn in H2. keep.
Qed.
Hint Resolve vm_vcpus_init_keeps : pm.

Lemma do_start_vm_keeps s0 p s : shape s0 s -> keeps s0 (do_start_vm p s).
Proof. intros H. unfold do_start_vm. keep. Qed.
Hint Resolve do_start_vm_keeps : pm.

Lemma start_guest_vm_keeps s0 p s : shape s0 s -> keeps s0 (start_guest_vm p s).
Proof. intros H. unfold start_guest_vm. keep. Qed.
Hint Resolve start_guest_vm_keeps : pm.

Lemma core_skip m b : 20 <= b -> vm_core (set_flags (Z.lor (flags m) (2 ^ b)) m) = vm_core m.
Proof.
  intros Hb. assert (Z.land (Z.lor (flags m) (2 ^ b)) 0xfffff = Z.land (flags m) 0xfffff) as E.
  { apply Z.bits_inj'. intros i Hi. rewrite !Z.land_spec, Z.lor_spec, Z.pow2_bits_eqb by lia.
    change 0xfffff with (Z.ones 20). destruct (Z.eqb_spec b i) as [->|]; [|by rewrite orb_false_r]. rewrite Z.ones_spec_high by lia. by rewrite !andb_false_r. }
  unfold vm_core, set_flags, set_vm_state.
  cbn [flags vmid vcpu_nr vm_state vcpu_affinity entry_point setup_data load_address vcpus vdev_list files]. by rewrite E.
Qed.

Lemma create_vm_resource_keeps s0 p s : shape s0 s -> keeps s0 (create_vm_resource p s).
Proof.
  intros H. unfold create_vm_resource. keep_step. keep_step.
  assert (shape s0 (put_vm p (set_flags (Z.lor (flags x) (2 ^ VM_FLAGS_BIT_SKIP_CREATE_RES)) x) s)) as H' by (eapply put_vm_shape_r; [done|done|by apply core_skip]).
  destruct (Z.testbit _ _); keep.
Qed.
Hint Resolve create_vm_resource_keeps : pm.

Lemma vm_mm_init_keeps s0 p s : shape s0 s -> keeps s0 (vm_mm_init p s).
Proof.
  intros H. unfold vm_mm_init. keep_step. keep_step.
  assert (shape s0 (put_vm p (set_flags (Z.lor (flags x) (2 ^ VM_FLAGS_BIT_SKIP_MM_INIT)) x) s)) as H' by (eapply put_vm_shape_r; [done|done|by apply core_skip]).
  destruct (Z.testbit _ _); keep.
Qed.
Hint Resolve vm_mm_init_keeps : pm.

Lemma setup_native_vm_keeps1 s0 p s : shape s0 s -> keeps s0 (__setup_native_vm p s).
Proof. intros H. unfold __setup_native_vm. keep. Qed.

Lemma load_vm_image_keeps s0 p s : shape s0 s -> keeps s0 (load_vm_image p s).
Proof. intros H. unfold load_vm_image. keep. Qed.
Hint Resolve setup_native_vm_keeps1 load_vm_image_keeps : pm.

Lemma setup_native_vm_keeps s0 p s : shape s0 s -> keeps s0 (setup_native_vm p s).
Proof. intros H. unfold setup_native_vm. keep. Qed.
Hint Resolve setup_native_vm_keeps : pm.

Lemma start_native_vm_keeps s0 p s : shape s0 s -> keeps s0 (start_native_vm p s).
Proof. intros H. unfold start_native_vm. keep. Qed.
Hint Resolve start_native_vm_keeps : pm.

Lemma wait_vmcs_keeps s0 n v s : shape s0 s -> keeps s0 (wait_vmcs n v s).
Proof. revert s. induction n as [|n IH]; intros s H; cbn [wait_vmcs]; keep. Qed.
Hint Resolve wait_vmcs_keeps : pm.

Lemma vcpu_trap_keeps s0 n ty re da ru nb s : shape s0 s -> keeps s0 (__vcpu_trap n ty re da ru nb s).
Proof.
  intros H. unfold __vcpu_trap. keep.
  eapply put_vcpu_shape_r; [eauto 6 with pm|apply lookup_insert_eq|done].
Qed.
Hint Resolve vcpu_trap_keeps : pm.

Lemma enter_poweroff_keeps s0 v s : shape s0 s -> keeps s0 (vcpu_enter_poweroff v s).
Proof. intros H. unfold vcpu_enter_poweroff. keep. Qed.

Lemma wait_loop_keeps s0 n st v s : shape s0 s -> keeps s0 (wait_loop n st v s).
Proof. revert s. induction n as [|n IH]; intros s H; cbn [wait_loop]; keep. Qed.

Lemma wait_vm_keeps s0 p st s : shape s0 s -> keeps s0 (wait_vm_in_state p st s).
Proof.
  intros H. unfold wait_vm_in_state. apply keeps_bind; [apply for_each_keeps; [intros v s1 H1; by apply wait_loop_keeps|done]|].
  intros [r s1] H1. cbn in H1. keep.
Qed.
Hint Resolve wait_vm_keeps : pm.

Lemma send_vm_request_shape s0 p a s : shape s0 s -> shape s0 (snd (send_vm_request p a s)).
Proof. intros H. unfold send_vm_request. destruct (negb post_ok); [done|]. destruct (VM_SIGNAL_QUEUE_SIZE <=? _); [done|]. etransitivity; [done|]. by split. Qed.

Lemma for_each_poweroff_keeps s0 p s : shape s0 s -> keeps s0 (vm_for_each_vcpu p vcpu_enter_poweroff s).
Proof. intros H. apply for_each_keeps; [intros; by apply enter_poweroff_keeps|done]. Qed.
Hint Resolve for_each_poweroff_keeps : pm.

Lemma shutdown_native_shape s0 p fl s : shape s0 s -> shape s0 (snd (__shutdown_native_vm p fl s)).
Proof. intros H. unfold __shutdown_native_vm. destruct (negb _); [done|by apply send_vm_request_shape]. Qed.

Lemma shutdown_guest_keeps s0 n fl s : shape s0 s -> keeps s0 (__shutdown_guest_vm n fl s).
Proof. intros H. unfold __shutdown_guest_vm, trap_vcpu_nonblock. keep. Qed.
Hint Resolve shutdown_native_shape shutdown_guest_keeps : pm.

Lemma vm_power_off_keeps1 s0 n p fl s : shape s0 s -> keeps s0 (__vm_power_off n p fl s).
Proof.
  intros H. unfold __vm_power_off. do 3 keep_step; [by keep_step|]. apply keeps_bind; [destruct (vm_is_native _); keep|].
  intros s1 Hs1. cbn in Hs1. keep.
Qed.
Hint Resolve vm_power_off_keeps1 : pm.

Lemma vm_power_off_keeps s0 n id fl s : shape s0 s -> keeps s0 (vm_power_off n id fl s).
Proof. intros H. unfold vm_power_off. keep. Qed.
Hint Resolve vm_power_off_keeps : pm.

(** ** The loops return *)

(** A task that waits for an event is on no ready list. *)
Definition waits_ok (s : hv) : Prop := forall v c, vcpu_heap s !! v = Some c -> vc_state c = TASK_STATE_WAIT_EVENT -> vc_queued c = false.

(** A vcpu that is suspended and that nobody has made ready; all the vcpus of
    the VM at [q] are.  The machine leaves such vcpus alone. *)
Definition parked (c : vcpu) : Prop := vc_state c = TASK_STATE_SUSPEND /\ vc_queued c = false.
Definition parked_in (q : Z) (s : hv) : Prop := forall v c, vcpu_heap s !! v = Some c -> vc_vm c = q -> parked c.
Definition calm (q : Z) (s : hv) : Prop := waits_ok s /\ parked_in q s.

Context (Hcalm : forall q s, calm q s -> calm q (relax s)).

Lemma waits_emit e s : waits_ok s -> waits_ok (emit e s).
Proof. done. Qed.

Lemma waits_put v c s : waits_ok s -> (vc_state c = TASK_STATE_WAIT_EVENT -> vc_queued c = false) -> waits_ok (put_vcpu v c s).
Proof. intros Hw Hc w d. cbn. rewrite lookup_insert_Some. intros [[<- <-]|[_ H]]; [done|exact (Hw w d H)]. Qed.

Lemma wake_run v c s : vcpu_heap s !! v = Some c -> waits_ok s ->
  exists r s', vcpu_wake v s = Some (r, s') /\ shape s s' /\ waits_ok s' /\ vm_heap s' = vm_heap s /\
    (forall w, w <> v -> vcpu_heap s' !! w = vcpu_heap s !! w) /\
    (exists c', vcpu_heap s' !! v = Some c' /\ vc_freeze c' = vc_freeze c /\ (vc_state c <> TASK_STATE_WAIT_EVENT -> s' = s)).
Proof.
  intros Hc Hw. unfold vcpu_wake. rewrite Hc. msimpl. destruct (Z.eqb_spec (vc_state c) TASK_STATE_WAIT_EVENT) as [E|E].
  - unfold vcpu_ready. cbn [put_vcpu set_vcpu_heap vcpu_heap]. rewrite lookup_insert_eq. msimpl. cbn [set_vc_state vc_queued]. rewrite (Hw v c Hc E). msimpl.
    eexists _, _. split; [done|]. split_and!.
    + repeat apply emit_shape_r. eapply put_vcpu_shape_r; [eapply put_vcpu_shape_r; [done|exact Hc|done]|apply lookup_insert_eq|done].
    + repeat apply waits_emit. apply waits_put; [apply waits_put; done|done].
    + done.
    + intros w Hne. cbn. by rewrite !lookup_insert_ne.
    + eexists. cbn. rewrite lookup_insert_eq. split_and!; done.
  - eexists _, s. split; [done|]. split_and!; try done. exists c. done.
Qed.

(** A vcpu that has been told to stop. *)
Definition stopping (c c' : vcpu) : Prop :=
  if check_vcpu_state c VCPU_STATE_STOP || check_vcpu_state c VCPU_STATE_SUSPEND then c' = c else vc_freeze c' = true.

Lemma enter_poweroff_run v c s : vcpu_heap s !! v = Some c -> waits_ok s ->
  exists s' c', vcpu_enter_poweroff v s = Some (0, s') /\ shape s s' /\ waits_ok s' /\ vm_heap s' = vm_heap s /\
    (forall w, w <> v -> vcpu_heap s' !! w = vcpu_heap s !! w) /\ vcpu_heap s' !! v = Some c' /\ stopping c c'.
Proof.
  intros Hc Hw. unfold vcpu_enter_poweroff, stopping. rewrite Hc. msimpl.
  destruct (check_vcpu_state c VCPU_STATE_STOP || check_vcpu_state c VCPU_STATE_SUSPEND); [by exists s, c|].
  unfold upd_vcpu. rewrite Hc. msimpl. set (c1 := set_vc_freeze true c). set (s1 := put_vcpu v c1 s).
  assert (shape s s1) as Hs1 by (by eapply put_vcpu_shape). assert (waits_ok s1) as Hw1 by (apply waits_put; [done|apply (Hw v c Hc)]).
  assert (vcpu_heap s1 !! v = Some c1) as Hc1 by apply lookup_insert_eq.
  assert (forall w, w <> v -> vcpu_heap s1 !! w = vcpu_heap s !! w) as Ho by (intros w Hne; cbn; by rewrite lookup_insert_ne).
  case_bool_decide; [by exists s1, c1|].
  destruct (wake_run v c1 s1 Hc1 Hw1) as (r & s2 & -> & Hs2 & Hw2 & Hv2 & Ho2 & c2 & Hc2 & Hf2 & _). msimpl.
  assert (exists s', (if negb (vc_affinity c =? this_cpu) then emit (ev_smp_call (vc_affinity c) v) s2 else s2) = s' /\ shape s2 s' /\ vm_heap s' = vm_heap s2 /\ vcpu_heap s' = vcpu_heap s2) as (s' & -> & Hs' & Hv' & Hh').
  { destruct (negb _); eexists; (split; [done|]); split_and!; done || apply emit_shape. }
  exists s', c2. split; [done|]. split_and!.
  - by etransitivity; [exact Hs1|etransitivity].
  - unfold waits_ok. by rewrite Hh'.
  - by rewrite Hv', Hv2.
  - intros w Hne. by rewrite Hh', Ho2, Ho.
  - by rewrite Hh'.
  - by rewrite Hf2.
Qed.

Lemma wait_loop_run q n st v c s : vcpu_heap s !! v = Some c -> calm q s ->
  exists r s', wait_loop n st v s = Some (r, s') /\ shape s s' /\ calm q s'.
Proof.
  revert c s. induction n as [|n IH]; intros c s Hc Hw; cbn [wait_loop]; [by eexists _, s|]. rewrite Hc. msimpl.
  destruct (vc_state c =? st); [by eexists _, s|]. destruct (shape_vcpu _ _ v c (Hrelax s) Hc) as (c' & Hc' & _).
  destruct (IH c' (relax s) Hc' (Hcalm q s Hw)) as (r & s' & E & Hs & Hw'). exists r, s'. split; [done|]. split; [|done]. by etransitivity; [apply Hrelax|].
Qed.

Section each_any.
Context (p : Z) (m : vm) (f : Z -> hv -> option (Z * hv)) (s0 : hv) (J : hv -> Prop).
Context (Hm : vm_heap s0 !! p = Some m) (Hok : vm_ok (vcpu_heap s0) p m).
Context (Hf : forall v c s, vcpu_heap s0 !! v = Some c -> vc_vm c = p -> shape s0 s -> J s -> exists r s', f v s = Some (r, s') /\ shape s0 s' /\ J s').

Lemma each_vcpu_any n i s fuel v :
  i + Z.of_nat n = vcpu_nr m -> 0 <= i -> (n <= fuel)%nat -> (n <> 0)%nat -> load_slot i m = Some (Some v) -> shape s0 s -> J s ->
  exists r s', each_vcpu fuel f (Some v) s = Some (r, s') /\ shape s0 s' /\ J s'.
Proof.
  revert i s fuel v. induction n as [|n IH]; intros i s fuel v Hn Hi Hfu Hn0 Hl Hs HJ; [done|]. destruct fuel as [|fuel]; [lia|].
  destruct (vo_slots _ _ _ Hok i ltac:(lia)) as (v' & c & E1 & E2 & E3 & E4 & E5). assert (v' = v) as -> by congruence.
  cbn [each_vcpu]. destruct (Hf v c s E2 E4 Hs HJ) as (r & s1 & -> & Hs1 & HJ1). msimpl. destruct (negb (r =? 0)); [by eexists _, s1|].
  destruct (shape_vcpu s0 s1 v c Hs1 E2) as (c1 & -> & Ec). msimpl. injection Ec as K1 K2 K3 K4. rewrite K3, E5.
  destruct (Z.eqb_spec (i + 1) (vcpu_nr m)) as [E|E]; [destruct fuel; by exists 0, s1|].
  destruct (vo_slots _ _ _ Hok (i + 1) ltac:(lia)) as (v2 & c2 & F1 & _). rewrite F1. cbn [mjoin option_join].
  apply (IH (i + 1)); [lia|lia|lia|lia|done|done|done].
Qed.

Lemma vm_for_each_vcpu_any s : shape s0 s -> J s -> exists r s', vm_for_each_vcpu p f s = Some (r, s') /\ shape s0 s' /\ J s'.
Proof.
  intros Hs HJ. unfold vm_for_each_vcpu. destruct (shape_vm s0 s p m Hs Hm) as (m1 & -> & Hc). msimpl.
  destruct (core_slots _ _ 0 Hc) as (-> & -> & _). pose proof (vo_nr _ _ _ Hok).
  destruct (vo_slots _ _ _ Hok 0 ltac:(lia)) as (v & c & E & _). rewrite E. msimpl.
  apply (each_vcpu_any (Z.to_nat (vcpu_nr m)) 0); [lia|lia|lia|lia|done|done|done].
Qed.
End each_any.

Lemma wait_vm_run q p m st s : vm_heap s !! p = Some m -> vm_ok (vcpu_heap s) p m -> calm q s ->
  exists r s', wait_vm_in_state p st s = Some (r, s') /\ shape s s' /\ calm q s'.
Proof.
  intros Hm Hok Hw. unfold wait_vm_in_state.
  destruct (vm_for_each_vcpu_any p m (wait_vcpu_in_state TASK_STATE_SUSPEND 1000) s (calm q) Hm Hok) with (s := s) as (r & s' & -> & Hs & Hw'); [|done|done|].
  - intros v c s1 Hc _ Hs1 Hw1. destruct (shape_vcpu _ _ v c Hs1 Hc) as (c1 & Hc1 & _).
    destruct (wait_loop_run q (Z.to_nat (1000 / 10)) TASK_STATE_SUSPEND v c1 s1 Hc1 Hw1) as (r & s' & E & Hs & Hw'). exists r, s'. split; [exact E|]. split; [by etransitivity|done].
  - msimpl. by eexists _, s'.
Qed.

(** Nobody to trap for: the vcpu that runs has no interrupt in the host VM. *)
Definition no_trap (s : hv) : Prop := exists v c, current = Some v /\ vcpu_heap s !! v = Some c /\ vmcs_irq c < 0.

Lemma notify_run p m n fl s : (vm_is_native m = false -> pm_action_by_mvm fl = true -> no_trap s) ->
  exists s', (if vm_is_native m then Some (snd (__shutdown_native_vm p fl s)) else '(_, s) ← __shutdown_guest_vm n fl s; Some s) = Some s' /\
    shape s s' /\ vm_heap s' = vm_heap s /\ vcpu_heap s' = vcpu_heap s.
Proof.
  intros Ht. destruct (vm_is_native m) eqn:E.
  - eexists. split; [done|]. split; [by apply shutdown_native_shape|]. unfold __shutdown_native_vm, send_vm_request.
    destruct (negb (pm_action_by_self fl)); [done|]. destruct (negb post_ok); [done|]. by destruct (_ <=? Z.of_nat _).
  - unfold __shutdown_guest_vm. destruct (pm_action_by_mvm fl) eqn:Ef; cbn [negb]; [|by exists s].
    destruct (Ht eq_refl eq_refl) as (v & c & Hv & Hc & Hi). unfold trap_vcpu_nonblock, __vcpu_trap. rewrite Hv. msimpl. rewrite Hc. msimpl.
    rewrite (proj2 (Z.ltb_lt _ _) Hi). by exists s.
Qed.

(** A loop whose body changes one vcpu at a time, as [R] says. *)
Definition each_related (R : vcpu -> vcpu -> Prop) (p : Z) (s s' : hv) : Prop := forall v c, vcpu_heap s !! v = Some c ->
  exists c', vcpu_heap s' !! v = Some c' /\ if vc_vm c =? p then R c c' else c' = c.

Lemma for_each_related f (J : hv -> Prop) (R : vcpu -> vcpu -> Prop) p m s :
  hv_ok CONFIG_MAX_VM s -> vm_heap s !! p = Some m -> vm_ok (vcpu_heap s) p m -> J s ->
  (forall v c s1, vcpu_heap s !! v = Some c -> vc_vm c = p -> vcpu_heap s1 !! v = Some c -> J s1 ->
     exists s2 c2, f v s1 = Some (0, s2) /\ shape s1 s2 /\ J s2 /\ vm_heap s2 = vm_heap s1 /\
       (forall w, w <> v -> vcpu_heap s2 !! w = vcpu_heap s1 !! w) /\ vcpu_heap s2 !! v = Some c2 /\ R c c2) ->
  exists s', vm_for_each_vcpu p f s = Some (0, s') /\ shape s s' /\ J s' /\ vm_heap s' = vm_heap s /\ each_related R p s s'.
Proof.
  intros Ho Hm Hok HJ Hf.
  destruct (vm_for_each_vcpu_run p m f s
    (fun i s' => J s' /\ vm_heap s' = vm_heap s /\ forall v c, vcpu_heap s !! v = Some c ->
       exists c', vcpu_heap s' !! v = Some c' /\ if (vc_vm c =? p) && (vcpu_id c <? i) then R c c' else c' = c) Hm Hok) with (s := s) as (s' & E & Hs & Hw' & Hv' & Ha).
  - intros i v s1 Hi Hl Hs1 (Hw1 & Hv1 & Ha1). destruct (vo_slots _ _ _ Hok i Hi) as (v' & c & E1 & E2 & E3 & E4 & _). assert (v' = v) as -> by congruence.
    destruct (Ha1 v c E2) as (c1 & Hc1 & Hst). rewrite E3, Z.ltb_irrefl, andb_false_r in Hst. subst c1.
    destruct (Hf v c s1 E2 E4 Hc1 Hw1) as (s2 & c2 & -> & Hs2 & Hw2 & Hv2 & Ho2 & Hc2 & Hst2).
    exists s2. split; [done|]. split; [by etransitivity|]. split_and!; [done|congruence|].
    intros w d Hd. destruct (decide (w = v)) as [->|Hne].
    + assert (d = c) as -> by congruence. exists c2. split; [done|]. rewrite E3, E4, Z.eqb_refl, (proj2 (Z.ltb_lt _ _)) by lia. done.
    + destruct (Ha1 w d Hd) as (d1 & Hd1 & Hds). exists d1. rewrite Ho2 by done. split; [done|].
      destruct (Z.eqb_spec (vc_vm d) p) as [Ep|Ep]; cbn [andb] in *; [|done].
      destruct (Z.ltb_spec (vcpu_id d) i), (Z.ltb_spec (vcpu_id d) (i + 1)); try done; try lia.
      exfalso. apply Hne. assert (vcpu_id d = i) as Hdi by lia. destruct (ho_stray _ _ Ho w d Hd) as (m' & Hm' & _ & Hl').
      rewrite Ep, Hm in Hm'. injection Hm' as <-. rewrite Hdi, Hl in Hl'. congruence.
  - done.
  - split_and!; [done|done|]. intros v c Hc. exists c. split; [done|]. destruct (Z.eqb_spec (vc_vm c) p) as [Ep|Ep]; [|done]. cbn [andb].
    destruct (Z.ltb_spec (vcpu_id c) 0); [|done]. destruct (ho_stray _ _ Ho v c Hc) as (m' & _ & Hr & _). lia.
  - exists s'. split_and!; try done. intros v c Hc. destruct (Ha v c Hc) as (c' & Hc' & Hst). exists c'. split; [done|].
    destruct (Z.eqb_spec (vc_vm c) p) as [Ep|Ep]; [|done]. cbn [andb] in Hst. destruct (ho_stray _ _ Ho v c Hc) as (m' & Hm' & Hr & _).
    rewrite Ep, Hm in Hm'. injection Hm' as <-. rewrite (proj2 (Z.ltb_lt _ _)) in Hst by lia. done.
Qed.

(** All the vcpus of the VM at [p] have been told to stop; the others are as before. *)
Definition all_stopping (p : Z) (s s' : hv) : Prop := each_related stopping p s s'.

Lemma poweroff_all_run p m s : hv_ok CONFIG_MAX_VM s -> vm_heap s !! p = Some m -> vm_ok (vcpu_heap s) p m -> waits_ok s ->
  exists s', vm_for_each_vcpu p vcpu_enter_poweroff s = Some (0, s') /\ shape s s' /\ waits_ok s' /\ vm_heap s' = vm_heap s /\ all_stopping p s s'.
Proof.
  intros Ho Hm Hok Hw. apply (for_each_related vcpu_enter_poweroff waits_ok stopping p m s Ho Hm Hok Hw).
  intros v c s1 _ _ Hc1 Hw1. by apply enter_poweroff_run.
Qed.

Lemma power_off_run p m n fl s :
  hv_ok CONFIG_MAX_VM s -> vm_heap s !! p = Some m -> vm_ok (vcpu_heap s) p m -> waits_ok s -> vm_state m = VM_STATE_ONLINE ->
  (vm_is_native m = false -> pm_action_by_mvm fl = true -> no_trap s) ->
  exists s', __vm_power_off n p fl s = Some (0, s') /\ shape s s' /\ waits_ok s' /\
    vm_heap s' = <[p := set_vm_state VM_STATE_OFFLINE m]> (vm_heap s) /\ all_stopping p s s'.
Proof.
  intros Ho Hm Hok Hw Hst Ht. unfold __vm_power_off, cmpxchg_state. rewrite Hm. msimpl. rewrite Hst, !Z.eqb_refl. cbn [negb].
  set (m1 := set_vm_state VM_STATE_FREEZEING m). set (s1 := put_vm p m1 s).
  assert (shape s s1) as Hs1 by (by eapply put_vm_shape). assert (vm_heap s1 !! p = Some m1) as Hm1 by apply lookup_insert_eq. rewrite Hm1. msimpl.
  destruct (notify_run p m1 n fl s1) as (s2 & -> & Hs2 & Hv2 & Hc2). { intros H1 H2. by apply Ht. } msimpl.
  assert (shape s s2) as Hs02 by (by etransitivity). assert (vm_heap s2 !! p = Some m1) as Hm2 by congruence.
  destruct (poweroff_all_run p m1 s2) as (s3 & -> & Hs3 & Hw3 & Hv3 & Ha3); [by apply (shape_hv_ok s)|done| |unfold waits_ok; rewrite Hc2; exact Hw|].
  { rewrite Hc2. destruct Hok as [H1 H2 H3]. by split. }
  msimpl. unfold upd_vm. rewrite Hv3, Hm2. msimpl. eexists. split; [done|]. split_and!.
  - eapply put_vm_shape_r; [by etransitivity|rewrite Hv3; exact Hm2|done].
  - exact Hw3.
  - cbn. rewrite Hv3, Hv2. cbn. by rewrite insert_insert_eq.
  - intros v c Hc. cbn. apply Ha3. by rewrite Hc2.
Qed.

(** Powering a VM off, on every path.  A native VM that may not be reset,
    or that the VM manager asks about, is refused with [-EPERM]; a VM that is
    not online is left alone; otherwise the VM goes offline, every vcpu of it
    that has not stopped yet is told to freeze, and no other VM and no vcpu of
    another VM changes. *)
Theorem vm_power_off_correct s (id : nat) p m n fl :
  hv_ok CONFIG_MAX_VM s -> waits_ok s -> vms s !! id = Some (Some p) -> vm_heap s !! p = Some m ->
  (vm_is_native m = false -> pm_action_by_mvm fl = true -> no_trap s) ->
  if vm_is_native m && ((Z.land (flags m) VM_FLAGS_CAN_RESET =? 0) || pm_action_by_mvm fl) then vm_power_off n (Z.of_nat id) fl s = Some (- EPERM, s)
  else if negb (vm_state m =? VM_STATE_ONLINE) then vm_power_off n (Z.of_nat id) fl s = Some (0, s)
  else exists s', vm_power_off n (Z.of_nat id) fl s = Some (0, s') /\ hv_ok CONFIG_MAX_VM s' /\ waits_ok s' /\
         vm_heap s' = <[p := set_vm_state VM_STATE_OFFLINE m]> (vm_heap s) /\ all_stopping p s s'.
Proof.
  intros Ho Hw Hid Hm Ht. destruct (ho_vm _ _ Ho id p Hid) as (_ & _ & m' & Hm' & _ & Hok). assert (m' = m) as -> by congruence.
  assert (get_vm_by_id CONFIG_MAX_VM (Z.of_nat id) s = Some (Some p)) as Hg.
  { pose proof (vms_index _ s id p Ho Hid). unfold get_vm_by_id. rewrite (proj2 (Z.leb_gt _ _)), (proj2 (Z.eqb_neq _ _)) by lia. by rewrite Nat2Z.id. }
  unfold vm_power_off. rewrite Hg. msimpl. rewrite Hm. msimpl. destruct (vm_is_native m && _); [done|].
  destruct (Z.eqb_spec (vm_state m) VM_STATE_ONLINE) as [E|E]; cbn [negb].
  - destruct (power_off_run p m n fl s Ho Hm Hok Hw E Ht) as (s' & H1 & H2 & H3). exists s'. split; [done|]. split; [by apply (shape_hv_ok s)|done].
  - unfold __vm_power_off, cmpxchg_state. rewrite Hm. msimpl. rewrite (proj2 (Z.eqb_neq _ _) E). done.
Qed.

(** ** Shutting all the guests down *)
Lemma registered_ok s (id : nat) p : hv_ok CONFIG_MAX_VM s -> vms s !! id = Some (Some p) ->
  exists m, vm_heap s !! p = Some m /\ vmid m = Z.of_nat id /\ vm_ok (vcpu_heap s) p m /\ get_vm_by_id CONFIG_MAX_VM (Z.of_nat id) s = Some (Some p).
Proof.
  intros Ho Hid. destruct (ho_vm _ _ Ho id p Hid) as (_ & _ & m & Hm & Hvid & Hok). exists m. split_and!; try done.
  pose proof (vms_index _ s id p Ho Hid). unfold get_vm_by_id. rewrite (proj2 (Z.leb_gt _ _)), (proj2 (Z.eqb_neq _ _)) by lia. by rewrite Nat2Z.id.
Qed.

Lemma related_parked R p q s s' : shape s s' -> each_related R p s s' -> q <> p -> parked_in q s -> parked_in q s'.
Proof.
  intros Hs Hr Hne Hp v c' Hc' Hq. destruct (shape_vcpu s' s v c' (shape_sym _ _ Hs) Hc') as (c & Hc & Ec). injection Ec as K1 K2 K3 K4.
  destruct (Hr v c Hc) as (c2 & Hc2 & H). rewrite K2, Hq, (proj2 (Z.eqb_neq _ _) Hne) in H. assert (c' = c) as -> by congruence. by apply (Hp v).
Qed.

Lemma guest_power_off_run q s (id : nat) p m n : hv_ok CONFIG_MAX_VM s -> calm q s -> q <> p -> vms s !! id = Some (Some p) -> vm_heap s !! p = Some m -> vm_is_native m = false ->
  exists s', vm_power_off n (Z.of_nat id) VM_PM_ACTION_BY_HOST s = Some (0, s') /\ shape s s' /\ calm q s'.
Proof.
  intros Ho [Hw Hq] Hne Hid Hm Hn. destruct (registered_ok s id p Ho Hid) as (m' & Hm' & _ & Hok & Hg). assert (m' = m) as -> by congruence.
  unfold vm_power_off. rewrite Hg. msimpl. rewrite Hm. msimpl. rewrite Hn. cbn [andb].
  destruct (Z.eqb_spec (vm_state m) VM_STATE_ONLINE) as [E|E].
  - destruct (power_off_run p m n VM_PM_ACTION_BY_HOST s Ho Hm Hok Hw E) as (s' & H1 & H2 & H3 & _ & H5); [done|]. exists s'.
    split_and!; try done. split; [done|]. by apply (related_parked stopping p q s).
  - unfold __vm_power_off, cmpxchg_state. rewrite Hm. msimpl. rewrite (proj2 (Z.eqb_neq _ _) E). by exists s.
Qed.

Lemma calm_without q s id p h map t : calm q s -> vcpus_of_gone p (vcpu_heap s) h -> calm q (without_vm s id p h map t).
Proof.
  intros [Hw Hq] [Hg _]. split.
  - intros v c Hc. cbn in Hc. apply Hg in Hc as [Hc _]. exact (Hw v c Hc).
  - intros v c Hc. cbn in Hc. apply Hg in Hc as [Hc _]. exact (Hq v c Hc).
Qed.

(** What shutting guests down keeps: the registered native VMs. *)
Definition natives_kept (s s' : hv) : Prop := forall (id : nat) p m, vms s !! id = Some (Some p) -> vm_heap s !! p = Some m -> vm_is_native m = true ->
  vms s' !! id = Some (Some p) /\ exists m', vm_heap s' !! p = Some m' /\ vm_core m' = vm_core m.

Lemma natives_kept_trans s1 s2 s3 : natives_kept s1 s2 -> natives_kept s2 s3 -> natives_kept s1 s3.
Proof.
  intros H1 H2 id p m Hid Hm Hn. destruct (H1 id p m Hid Hm Hn) as (Hid2 & m2 & Hm2 & Hc2).
  destruct (H2 id p m2 Hid2 Hm2) as (Hid3 & m3 & Hm3 & Hc3); [by rewrite (core_native _ _ Hc2)|]. split; [done|]. exists m3. split; [done|congruence].
Qed.

Lemma shape_natives s s' : shape s s' -> natives_kept s s'.
Proof. intros H id p m Hid Hm _. rewrite (sh_vms _ _ H). split; [done|]. by apply (shape_vm s). Qed.

Lemma shutdown_guests_run q n fuel i s : hv_ok CONFIG_MAX_VM s -> calm q s -> (forall m, vm_heap s !! q = Some m -> vm_is_native m = true) -> 0 < i -> i + Z.of_nat n <= CONFIG_MAX_VM ->
  exists r s', shutdown_guests n fuel i s = Some (r, s') /\ hv_ok CONFIG_MAX_VM s' /\ calm q s' /\ natives_kept s s' /\
    (r = 0 \/ r = - ETIMEDOUT) /\
    (forall id : nat, vms s !! id = Some None -> vms s' !! id = Some None) /\
    (r = 0 -> forall (id : nat) p m, i <= Z.of_nat id < i + Z.of_nat n -> vms s' !! id = Some (Some p) -> vm_heap s' !! p = Some m -> vm_is_native m = true).
Proof.
  revert i s. induction n as [|n IH]; intros i s Ho Hw Hqn Hi Hn; cbn [shutdown_guests].
  { exists 0, s. split_and!; try done; [by apply shape_natives|by left|intros; lia]. }
  destruct (lookup_lt_is_Some_2 (vms s) (Z.to_nat i)) as [o Hid]; [pose proof (ho_len _ _ Ho); lia|]. rewrite Hid. msimpl.
  (* the rest of the loop, from a state in which slot [i] is settled *)
  assert (forall s1, hv_ok CONFIG_MAX_VM s1 -> calm q s1 -> (forall m, vm_heap s1 !! q = Some m -> vm_is_native m = true) -> natives_kept s s1 -> (forall id : nat, vms s !! id = Some None -> vms s1 !! id = Some None) ->
    (forall p m, vms s1 !! Z.to_nat i = Some (Some p) -> vm_heap s1 !! p = Some m -> vm_is_native m = true) ->
    exists r s', shutdown_guests n fuel (i + 1) s1 = Some (r, s') /\ hv_ok CONFIG_MAX_VM s' /\ calm q s' /\ natives_kept s s' /\
      (r = 0 \/ r = - ETIMEDOUT) /\ (forall id : nat, vms s !! id = Some None -> vms s' !! id = Some None) /\
      (r = 0 -> forall (id : nat) p m, i <= Z.of_nat id < i + Z.of_nat (S n) -> vms s' !! id = Some (Some p) -> vm_heap s' !! p = Some m -> vm_is_native m = true)) as Hrest.
  { intros s1 Ho1 Hw1 Hqn1 Hk1 He1 Hi1. destruct (IH (i + 1) s1 Ho1 Hw1 Hqn1 ltac:(lia) ltac:(lia)) as (r & s' & E & Ho' & Hw' & Hk' & Hr & He' & Ha').
    exists r, s'. split_and!; try done; [by eapply natives_kept_trans|by intros id Hx; apply He', He1|].
    intros Hr0 id p m Hrange Hp Hm. destruct (decide (Z.of_nat id = i)) as [Ei|Ei]; [|by apply (Ha' Hr0 id p); [lia|..]].
    assert (id = Z.to_nat i) as -> by lia. destruct (vms s1 !! Z.to_nat i) as [[x|]|] eqn:Es1.
    - destruct (registered_ok s1 _ x Ho1 Es1) as (mq & Hmq & _). pose proof (Hi1 x mq eq_refl Hmq) as Hnq.
      destruct (Hk' _ x mq Es1 Hmq Hnq) as (Es' & m' & Hm' & Hc'). assert (x = p) as -> by congruence. assert (m' = m) as -> by congruence.
      by rewrite (core_native _ _ Hc').
    - rewrite (He' _ Es1) in Hp. done.
    - apply lookup_ge_None in Es1. pose proof (ho_len _ _ Ho1). lia. }
  destruct o as [p|]; [|apply Hrest; try done; [by apply shape_natives|intros p m Hp; congruence]].
  destruct (registered_ok s _ p Ho Hid) as (m & Hm & Hvid & Hok & _). rewrite Hm. msimpl.
  destruct (vm_is_native m) eqn:Hn'; [apply Hrest; try done; [by apply shape_natives|intros x mq Hx Hmq; congruence]|].
  assert (q <> p) as Hqp by (intros ->; rewrite (Hqn m Hm) in Hn'; done).
  rewrite Hvid. destruct (guest_power_off_run q s _ p m fuel Ho Hw Hqp Hid Hm Hn') as (s1 & -> & Hs1 & Hw1). msimpl.
  assert (hv_ok CONFIG_MAX_VM s1) as Ho1 by by apply (shape_hv_ok s). assert (vms s1 !! Z.to_nat i = Some (Some p)) as Hid1 by by rewrite (sh_vms _ _ Hs1).
  destruct (registered_ok s1 _ p Ho1 Hid1) as (m1 & Hm1 & _ & Hok1 & _).
  destruct (wait_vm_run q p m1 TASK_STATE_SUSPEND s1 Hm1 Hok1 Hw1) as (r & s2 & -> & Hs2 & Hw2). msimpl.
  assert (shape s s2) as Hs02 by by etransitivity. assert (hv_ok CONFIG_MAX_VM s2) as Ho2 by by apply (shape_hv_ok s).
  destruct (negb (r =? 0)).
  { eexists _, s2. split; [done|]. split_and!; try done; [by apply shape_natives|by right|by rewrite (sh_vms _ _ Hs02)]. }
  assert (vms s2 !! Z.to_nat i = Some (Some p)) as Hid2 by by rewrite (sh_vms _ _ Hs02).
  destruct (shape_vm s s2 p m Hs02 Hm) as (m2 & Hm2 & Hc2). assert (vm_is_native m2 = false) as Hn2 by by rewrite (core_native _ _ Hc2).
  destruct (destroy_vm_spec CONFIG_MAX_VM s2 _ p m2 Ho2 Hid2 Hm2 Hn2) as (t & h & map & -> & Hg & Hwf & Hb). msimpl.
  apply Hrest.
  - by eapply hv_ok_without.
  - by apply calm_without.
  - intros mq Hmq. cbn [without_vm vm_heap] in Hmq. rewrite lookup_delete_ne in Hmq by done.
    destruct (shape_vm s2 s q mq (shape_sym _ _ Hs02) Hmq) as (m0 & Hm0 & Hc0). by rewrite <- (core_native _ _ Hc0), (Hqn m0 Hm0).
  - eapply natives_kept_trans; [by apply shape_natives|]. intros id x mq Hx Hmq Hnq. cbn [without_vm vms vm_heap].
    assert (x <> p) as Hxp by (intros ->; congruence). rewrite lookup_delete_ne by done. split; [|by exists mq].
    rewrite list_lookup_insert_ne; [done|]. intros <-. congruence.
  - intros id Hx. cbn [without_vm vms]. destruct (decide (id = Z.to_nat i)) as [->|Hne]; [congruence|].
    rewrite list_lookup_insert_ne by done. by rewrite (sh_vms _ _ Hs02).
  - intros x mq Hx. cbn [without_vm vms] in Hx. rewrite list_lookup_insert_eq in Hx; [done|]. by apply lookup_lt_Some in Hid2.
Qed.

(** C33: [shutdown_all_guest_vm] returns; it leaves every native VM registered
    and unharmed, and when it returns 0 no guest VM is left in the system:
    each one was powered off, waited for and destroyed.  The only other result
    is [-ETIMEDOUT]. *)
Theorem shutdown_all_guest_vm_correct s fuel :
  hv_ok CONFIG_MAX_VM s -> waits_ok s ->
  exists r s', shutdown_all_guest_vm fuel s = Some (r, s') /\ hv_ok CONFIG_MAX_VM s' /\ natives_kept s s' /\ (r = 0 \/ r = - ETIMEDOUT) /\
    (r = 0 -> forall (id : nat) p m, vms s' !! id = Some (Some p) -> vm_heap s' !! p = Some m -> vm_is_native m = true).
Proof.
  intros Ho Hw. pose proof (proj2 (ho_zero _ _ Ho)) as Hpos.
  assert (calm (brk s) s /\ forall m, vm_heap s !! brk s = Some m -> vm_is_native m = true) as [Hq Hqn].
  { split; [split; [done|]|]; [intros v c Hc Hv; destruct (ho_stray _ _ Ho v c Hc) as (m & Hm & _); rewrite Hv in Hm|intros m Hm]; apply (ho_vm_brk _ _ Ho) in Hm; lia. }
  destruct (shutdown_guests_run (brk s) (Z.to_nat (CONFIG_MAX_VM - 1)) fuel 1 s Ho Hq Hqn ltac:(lia) ltac:(lia)) as (r & s' & E & Ho' & _ & Hk & Hr & _ & Ha).
  exists r, s'. split_and!; try done. intros Hr0 id p m Hid Hm. apply (Ha Hr0 id p m); [|done|done]. pose proof (vms_index _ s' id p Ho' Hid). lia.
Qed.
(** ** Starting a VM *)

(** A vcpu made ready for its first instruction: a context, and for a guest an
    idle trap channel; its task is where it was. *)
Definition initialised (native : bool) (c c' : vcpu) : Prop :=
  vc_context c' = true /\ vc_state c' = vc_state c /\ vc_queued c' = vc_queued c /\ vcpu_core c' = vcpu_core c /\
  (native = false -> exists x, vc_vmcs c' = Some x /\ host_index x = 0 /\ guest_index x = 0).

Lemma vcpu_init_one_run native v c s : vcpu_heap s !! v = Some c -> (native = false -> vc_vmcs c <> None) ->
  exists s' c', vcpu_init_one native v s = Some (0, s') /\ shape s s' /\ vm_heap s' = vm_heap s /\
    (forall w, w <> v -> vcpu_heap s' !! w = vcpu_heap s !! w) /\ vcpu_heap s' !! v = Some c' /\ initialised native c c'.
Proof.
  intros Hc Hx. unfold vcpu_init_one. rewrite Hc. msimpl. assert (shape s (put_vcpu v (set_vc_context true c) s)) as Hs by by eapply put_vcpu_shape.
  destruct native.
  - eexists _, _. split; [done|]. split; [by apply emit_shape_r|]. split; [done|]. split; [intros w Hne; cbn; by rewrite lookup_insert_ne|].
    split; [apply lookup_insert_eq|]. split_and!; done.
  - destruct (vc_vmcs c) as [x|]; [|by destruct (Hx eq_refl)]. msimpl. unfold upd_vcpu. cbn [emit set_trace put_vcpu set_vcpu_heap vcpu_heap]. rewrite lookup_insert_eq. msimpl.
    eexists _, _. split; [done|]. split; [eapply put_vcpu_shape_r; [by apply emit_shape_r|apply lookup_insert_eq|done]|]. split; [done|].
    split; [intros w Hne; cbn; by rewrite !lookup_insert_ne|]. split; [apply lookup_insert_eq|]. split_and!; try done. intros _. eexists. done.
Qed.

Lemma vm_vcpus_init_run p m s :
  hv_ok CONFIG_MAX_VM s -> vm_heap s !! p = Some m -> vm_ok (vcpu_heap s) p m ->
  (vm_is_native m = false -> forall v c, vcpu_heap s !! v = Some c -> vc_vm c = p -> vc_vmcs c <> None) ->
  exists s', vm_vcpus_init p s = Some s' /\ shape s s' /\ vm_heap s' = vm_heap s /\ each_related (initialised (vm_is_native m)) p s s'.
Proof.
  intros Ho Hm Hok Hx. unfold vm_vcpus_init. rewrite Hm. msimpl.
  destruct (for_each_related (vcpu_init_one (vm_is_native m)) (fun _ => True) (initialised (vm_is_native m)) p m s Ho Hm Hok I) as (s1 & -> & Hs1 & _ & Hv1 & Hr1).
  { intros v c s1 Hc Hp Hc1 _. destruct (vcpu_init_one_run (vm_is_native m) v c s1 Hc1) as (s2 & c2 & E & H1 & H2 & H3 & H4 & H5); [intros Hn; by apply (Hx Hn v c)|]. by exists s2, c2. }
  msimpl. assert (hv_ok CONFIG_MAX_VM s1) as Ho1 by by apply (shape_hv_ok s).
  assert (vm_ok (vcpu_heap s1) p m) as Hok1.
  { destruct Hok as [H1 H2 H3]. split; [done|done|]. intros i Hi. destruct (H3 i Hi) as (v & c & E1 & E2 & E3 & E4 & E5).
    destruct (shape_vcpu s s1 v c Hs1 E2) as (c1 & Hc1 & Ec). injection Ec as K1 K2 K3 K4. exists v, c1. rewrite K1, K2, K3. done. }
  destruct (for_each_related (vcpu_power_one (entry_point m)) (fun _ => True) (fun c c' => c' = c) p m s1 Ho1) as (s2 & -> & Hs2 & _ & Hv2 & Hr2); [congruence|done|done| |].
  { intros v c s3 Hc Hp Hc3 _. eexists _, c. split; [done|]. split_and!; try done. }
  msimpl. exists s2. split; [done|]. split; [by etransitivity|]. split; [congruence|]. intros v c Hc. destruct (Hr1 v c Hc) as (c1 & Hc1 & Hi1).
  destruct (Hr2 v c1 Hc1) as (c2 & Hc2 & Hi2). exists c1. split; [|done]. destruct (vc_vm c1 =? p); congruence.
Qed.

Lemma do_start_vm_run p m v0 c0 s :
  vm_heap s !! p = Some m -> load_slot 0 m = Some (Some v0) -> vcpu_heap s !! v0 = Some c0 -> vc_state c0 = TASK_STATE_SUSPEND -> vc_queued c0 = false ->
  do_start_vm p s = Some (0, emit (ev_task_ready v0) (put_vcpu v0 (set_vc_queued true c0) (emit (ev_flush_tlb p) s))).
Proof.
  intros Hm Hl Hc Hst Hq. unfold do_start_vm. rewrite Hm. msimpl. rewrite Hl. msimpl. unfold vcpu_online, vcpu_ready.
  change (vcpu_heap (emit (ev_flush_tlb p) s)) with (vcpu_heap s). rewrite Hc. msimpl.
  unfold vcpu_is_offline, check_vcpu_state, VCPU_STATE_SUSPEND. rewrite Hst, Z.eqb_refl. msimpl. by rewrite Hq.
Qed.

(** Starting a guest.  A guest that is offline and whose trap channels
    exist goes online: every vcpu gets a context and an idle channel, exactly
    the boot vcpu is made ready to run, and nothing else of the system
    changes.  A guest in any other state is refused with [-EINVAL] and left
    alone. *)
Theorem start_guest_vm_correct s p m v0 c0 :
  hv_ok CONFIG_MAX_VM s -> vm_heap s !! p = Some m -> vm_ok (vcpu_heap s) p m -> vm_is_native m = false ->
  (forall v c, vcpu_heap s !! v = Some c -> vc_vm c = p -> vc_vmcs c <> None) ->
  load_slot 0 m = Some (Some v0) -> vcpu_heap s !! v0 = Some c0 -> vc_state c0 = TASK_STATE_SUSPEND -> vc_queued c0 = false ->
  if vm_state m =? VM_STATE_OFFLINE then
    exists s', start_guest_vm (Some p) s = Some (0, s') /\ hv_ok CONFIG_MAX_VM s' /\ vm_heap s' = <[p := set_vm_state VM_STATE_ONLINE m]> (vm_heap s) /\
      forall v c, vcpu_heap s !! v = Some c -> exists c', vcpu_heap s' !! v = Some c' /\
        if vc_vm c =? p then vc_context c' = true /\ vc_state c' = vc_state c /\ vc_queued c' = (if v =? v0 then true else vc_queued c) /\
                              exists x, vc_vmcs c' = Some x /\ host_index x = 0 /\ guest_index x = 0
        else c' = c
  else start_guest_vm (Some p) s = Some (- EINVAL, s).
Proof.
  intros Ho Hm Hok Hn Hx Hl Hc0 Hst Hq. unfold start_guest_vm, cmpxchg_state. rewrite Hm. msimpl.
  destruct (Z.eqb_spec (vm_state m) VM_STATE_OFFLINE) as [E|E]; cbn [negb]; [|done].
  set (m1 := set_vm_state VM_STATE_ONLINE m). set (s1 := put_vm p m1 s). assert (shape s s1) as Hs1 by (by eapply put_vm_shape).
  assert (vm_heap s1 !! p = Some m1) as Hm1 by apply lookup_insert_eq.
  destruct (vm_vcpus_init_run p m1 s1) as (s2 & -> & Hs2 & Hv2 & Hr2); [by apply (shape_hv_ok s)|done|by destruct Hok; split|by intros _|]. msimpl.
  destruct (Hr2 v0 c0 Hc0) as (c1 & Hc1 & Hi1). assert (vc_vm c0 = p) as Hp0.
  { pose proof (vo_nr _ _ _ Hok). destruct (vo_slots _ _ _ Hok 0 ltac:(lia)) as (v' & c' & E1 & E2 & _ & E4 & _). congruence. }
  rewrite Hp0, Z.eqb_refl in Hi1. destruct Hi1 as (I1 & I2 & I3 & I4 & I5).
  rewrite (do_start_vm_run p m1 v0 c1 s2) by (congruence || done). eexists. split; [done|].
  assert (shape s s2) as Hs02 by by etransitivity. split; [|split].
  - apply (shape_hv_ok s); [|done]. apply emit_shape_r. eapply put_vcpu_shape_r; [by apply emit_shape_r|exact Hc1|done].
  - cbn. rewrite Hv2. done.
  - intros v c Hc. destruct (Hr2 v c Hc) as (c' & Hc' & Hi). cbn. destruct (Z.eqb_spec v v0) as [->|Hne].
    + assert (c = c0) as -> by congruence. rewrite Hp0, Z.eqb_refl, lookup_insert_eq. eexists. split; [done|]. cbn. split_and!; try done. by apply I5.
    + exists c'. rewrite lookup_insert_ne by done. split; [done|]. destruct (Z.eqb_spec (vc_vm c) p); [|done]. destruct Hi as (J1 & J2 & J3 & J4 & J5). split_and!; try done. by apply J5.
Qed.
(** ** Rebooting a native VM *)
Lemma wait_parked p m st s : vm_heap s !! p = Some m -> vm_ok (vcpu_heap s) p m -> parked_in p s -> wait_vm_in_state p st s = Some (0, s).
Proof.
  intros Hm Hok Hp. unfold wait_vm_in_state.
  destruct (vm_for_each_vcpu_run p m (wait_vcpu_in_state TASK_STATE_SUSPEND 1000) s (fun _ s' => s' = s) Hm Hok) with (s := s) as (s' & -> & _ & ->); [|done|done|done].
  intros i v s1 Hi Hl _ ->. exists s. split; [|done]. destruct (vo_slots _ _ _ Hok i Hi) as (v' & c & E1 & E2 & _ & E4 & _). assert (v' = v) as -> by congruence.
  unfold wait_vcpu_in_state. change (Z.to_nat ((if 1000 =? 0 then 2 ^ 32 - 1 else 1000) / 10)) with (S 99). cbn [wait_loop]. rewrite E2. msimpl.
  destruct (Hp v c E2 E4) as [-> _]. by rewrite Z.eqb_refl.
Qed.

Lemma native_reset_run p m s : hv_ok CONFIG_MAX_VM s -> vm_heap s !! p = Some m -> vm_ok (vcpu_heap s) p m ->
  exists t, __native_vm_reset p s = Some (set_trace t s).
Proof.
  intros Ho Hm Hok. unfold __native_vm_reset. rewrite Hm. msimpl.
  destruct (vm_for_each_vcpu_run p m vcpu_reset s (fun _ s' => exists t, s' = set_trace t s) Hm Hok) with (s := s) as (s' & -> & _ & t & ->);
    [intros i v s1 _ _ Hs [t ->]; eexists; split; [done|]; split; [by repeat apply emit_shape_r|by eexists]|done|exists (trace s); by destruct s|].
  msimpl. assert (forall l t, exists t', fold_left (fun s d => emit (ev_vdev_reset d) s) l (set_trace t s) = set_trace t' s) as H.
  { intros l. induction l as [|d l IH]; intros t'; cbn [fold_left]; [by exists t'|]. apply IH. }
  destruct (H (vdev_list m) t) as [t' ->]. by eexists.
Qed.

Lemma vm_ok_shape s s' p m m' : shape s s' -> vm_ok (vcpu_heap s) p m -> vm_core m' = vm_core m -> vm_ok (vcpu_heap s') p m'.
Proof.
  intros Hs [H1 H2 H3] Hc. destruct (core_slots _ _ 0 Hc) as (_ & En & _ & Ev). split; [lia|by rewrite Ev, En|].
  intros i Hi. rewrite En in *. destruct (H3 i Hi) as (v & c & E1 & E2 & E3 & E4 & E5). destruct (shape_vcpu s s' v c Hs E2) as (c' & Hc' & Ec). injection Ec as K1 K2 K3 K4.
  destruct (core_slots _ _ i Hc) as (-> & _). destruct (core_slots _ _ (i + 1) Hc) as (-> & _). exists v, c'. rewrite K1, K2, K3. done.
Qed.

(** The two flags are set, the vcpus stay as they were until [vm_vcpus_init]. *)
Lemma setup_native_run p m s : hv_ok CONFIG_MAX_VM s -> vm_heap s !! p = Some m -> vm_ok (vcpu_heap s) p m -> vm_is_native m = true -> (forall c, setup_ok c = true) ->
  exists s' m', setup_native_vm p s = Some s' /\ shape s s' /\ vm_heap s' !! p = Some m' /\ vm_state m' = vm_state m /\ each_related (initialised true) p s s'.
Proof.
  intros Ho Hm Hok Hn Hset. unfold setup_native_vm, __setup_native_vm, load_vm_image. change (vm_heap (emit _ s)) with (vm_heap s). rewrite Hm. msimpl. rewrite !Hset. msimpl.
  replace (if snd (fst (files m)) then Some () else Some ()) with (Some ()) by (by case_match). msimpl.
  unfold create_vm_resource. change (vm_heap (emit _ s)) with (vm_heap s). rewrite Hm. msimpl.
  set (m1 := set_flags (Z.lor (flags m) (2 ^ VM_FLAGS_BIT_SKIP_CREATE_RES)) m).
  assert (exists t, (if Z.testbit (flags m) VM_FLAGS_BIT_SKIP_CREATE_RES then put_vm p m1 (emit (ev_os_vm_init p) s) else emit (ev_setup_native p) (put_vm p m1 (emit (ev_os_vm_init p) s))) = set_trace t (put_vm p m1 s)) as [t ->].
  { destruct (Z.testbit _ _); by eexists. }
  cbn [emit set_trace put_vm set_vm_heap vm_heap]. rewrite lookup_insert_eq. msimpl.
  match goal with |- context [mbind (fun s => s ← vm_mm_init p s; _) ?x] => assert (exists t', x = Some (set_trace t' (put_vm p m1 s))) as [t' ->] by (destruct (fst (fst (files m1))); by eexists) end. msimpl.
  unfold vm_mm_init. cbn [set_trace put_vm set_vm_heap vm_heap]. rewrite lookup_insert_eq. msimpl.
  set (m2 := set_flags (Z.lor (flags m1) (2 ^ VM_FLAGS_BIT_SKIP_MM_INIT)) m1).
  match goal with |- context [vm_vcpus_init p ?x] => assert (exists t2, x = set_trace t2 (put_vm p m2 (put_vm p m1 s))) as [t2 ->] by (destruct (Z.testbit _ _); by eexists) end.
  set (s2 := set_trace t2 (put_vm p m2 (put_vm p m1 s))).
  assert (vm_core m2 = vm_core m) as Hc2 by (unfold m2, m1; rewrite !core_skip; done).
  assert (shape s s2) as Hs2.
  { transitivity (put_vm p m2 (put_vm p m1 s)); [|by split]. eapply put_vm_shape_r; [eapply put_vm_shape; [exact Hm|by apply core_skip]|apply lookup_insert_eq|by apply core_skip]. }
  assert (vm_heap s2 !! p = Some m2) as Hm2 by apply lookup_insert_eq. assert (vm_is_native m2 = true) as Hn2 by by rewrite (core_native _ _ Hc2).
  destruct (vm_vcpus_init_run p m2 s2) as (s3 & E & Hs3 & Hv3 & Hr3); [by apply (shape_hv_ok s)|done|by apply (vm_ok_shape s s2 p m)|congruence|].
  exists s3, m2. split; [exact E|]. split; [by etransitivity|]. split; [congruence|]. split; [done|]. rewrite Hn2 in Hr3. exact Hr3.
Qed.

Lemma start_native_run p m v0 s :
  hv_ok CONFIG_MAX_VM s -> vm_heap s !! p = Some m -> vm_ok (vcpu_heap s) p m -> vm_is_native m = true -> (forall c, setup_ok c = true) ->
  vm_state m = VM_STATE_OFFLINE -> parked_in p s -> load_slot 0 m = Some (Some v0) ->
  exists s' m', start_native_vm (Some p) s = Some (0, s') /\ shape s s' /\ vm_heap s' !! p = Some m' /\ vm_state m' = VM_STATE_ONLINE /\
    forall v c, vcpu_heap s' !! v = Some c -> vc_vm c = p -> vc_state c = TASK_STATE_SUSPEND /\ vc_queued c = (v =? v0) /\ vc_context c = true.
Proof.
  intros Ho Hm Hok Hn Hset Hst Hp Hl. unfold start_native_vm, cmpxchg_state. rewrite Hm. msimpl. rewrite Hst, !Z.eqb_refl. cbn [negb].
  set (m1 := set_vm_state VM_STATE_ONLINE m). set (s1 := put_vm p m1 s). assert (shape s s1) as Hs1 by (by eapply put_vm_shape).
  assert (vm_heap s1 !! p = Some m1) as Hm1 by apply lookup_insert_eq. rewrite Hm1. msimpl. assert (vm_is_native m1 = true) as -> by done. cbn [negb].
  destruct (setup_native_run p m1 s1) as (s2 & m2 & -> & Hs2 & Hm2 & Hst2 & Hr2); [by apply (shape_hv_ok s)|done|by destruct Hok; split|done|done|]. msimpl.
  assert (shape s s2) as Hs02 by by etransitivity. destruct (shape_vm s s2 p m Hs02 Hm) as (m2' & Hm2' & Hc2). assert (m2' = m2) as -> by congruence.
  pose proof (vo_nr _ _ _ Hok). destruct (vo_slots _ _ _ Hok 0 ltac:(lia)) as (v' & c0 & E1 & E2 & _ & E4 & _). assert (v' = v0) as -> by congruence.
  destruct (Hr2 v0 c0 E2) as (c1 & Hc1 & Hi1). rewrite E4, Z.eqb_refl in Hi1. destruct Hi1 as (I1 & I2 & I3 & I4 & _). destruct (Hp v0 c0 E2 E4) as [P1 P2].
  rewrite (do_start_vm_run p m2 v0 c1 s2); [|done|by destruct (core_slots _ _ 0 Hc2) as (-> & _)|done|congruence|congruence].
  eexists _, m2. split; [done|]. split_and!.
  - apply emit_shape_r. eapply put_vcpu_shape_r; [by apply emit_shape_r|exact Hc1|done].
  - exact Hm2.
  - by rewrite Hst2.
  - intros v c Hc Hv. cbn in Hc. destruct (Z.eqb_spec v v0) as [->|Hne].
    + rewrite lookup_insert_eq in Hc. injection Hc as <-. cbn. split_and!; [congruence|done|done].
    + rewrite lookup_insert_ne in Hc by done. destruct (shape_vcpu s2 s v c (shape_sym _ _ Hs02) Hc) as (c' & Hc' & Ec). injection Ec as K1 K2 K3 K4.
      destruct (Hr2 v c' Hc') as (c'' & Hc'' & Hi). rewrite K2, Hv, Z.eqb_refl in Hi. assert (c'' = c) as -> by congruence. destruct Hi as (J1 & J2 & J3 & _).
      destruct (Hp v c' Hc') as [Q1 Q2]; [congruence|]. split_and!; congruence.
Qed.

(** C18: rebooting a native VM whose vcpus have all stopped (they are suspended
    and on no ready list, like every vcpu that is waited for), when its image
    and device tree can be mapped and read.  The reboot goes
    through: the VM is online again, its boot vcpu and no other is ready to
    run, every vcpu has a fresh context, the VMs and vcpus of the system are
    well formed, and the other native VMs are still registered; rebooting the
    host VM shuts the guests down first. *)
Theorem reboot_native_vm_correct s (id : nat) p m v0 fuel :
  hv_ok CONFIG_MAX_VM s -> vms s !! id = Some (Some p) -> vm_heap s !! p = Some m -> vm_is_native m = true -> (forall c, setup_ok c = true) ->
  waits_ok s -> parked_in p s -> load_slot 0 m = Some (Some v0) ->
  exists s' m', reboot_native_vm fuel p s = Some (0, s') /\ hv_ok CONFIG_MAX_VM s' /\ natives_kept s s' /\
    vm_heap s' !! p = Some m' /\ vm_state m' = VM_STATE_ONLINE /\
    forall v c, vcpu_heap s' !! v = Some c -> vc_vm c = p -> vc_state c = TASK_STATE_SUSPEND /\ vc_queued c = (v =? v0) /\ vc_context c = true.
Proof.
  intros Ho Hid Hm Hn Hset Hw Hp Hl. destruct (registered_ok s id p Ho Hid) as (m' & Hm' & _ & Hok & _). assert (m' = m) as -> by congruence.
  unfold reboot_native_vm. rewrite (wait_parked p m _ s Hm Hok Hp). msimpl. cbn [Z.eqb negb]. rewrite Hm. msimpl.
  assert (exists s1, (if vm_is_host_vm m then '(_, s) ← shutdown_all_guest_vm fuel s; Some s else Some s) = Some s1 /\ hv_ok CONFIG_MAX_VM s1 /\ natives_kept s s1 /\ parked_in p s1) as (s1 & -> & Ho1 & Hk1 & Hp1).
  { destruct (vm_is_host_vm m); [|exists s; split_and!; try done; by apply shape_natives]. pose proof (proj2 (ho_zero _ _ Ho)).
    destruct (shutdown_guests_run p (Z.to_nat (CONFIG_MAX_VM - 1)) fuel 1 s Ho (conj Hw Hp) ltac:(intros; congruence) ltac:(lia) ltac:(lia)) as (r & s1 & E & Ho1 & [_ Hp1] & Hk1 & _).
    unfold shutdown_all_guest_vm. rewrite E. msimpl. by exists s1. }
  msimpl. destruct (Hk1 id p m Hid Hm Hn) as (Hid1 & m1 & Hm1 & Hc1). destruct (registered_ok s1 id p Ho1 Hid1) as (m1' & Hm1' & _ & Hok1 & _). assert (m1' = m1) as -> by congruence.
  destruct (native_reset_run p m1 s1 Ho1 Hm1 Hok1) as [t ->]. msimpl. unfold upd_vm. cbn [set_trace vm_heap]. rewrite Hm1. msimpl.
  set (m2 := set_vm_state VM_STATE_OFFLINE m1). set (s2 := put_vm p m2 (set_trace t s1)).
  assert (shape s1 s2) as Hs2 by (transitivity (set_trace t s1); [by split|by eapply put_vm_shape]).
  destruct (start_native_run p m2 v0 s2) as (s3 & m3 & E & Hs3 & Hm3 & Hst3 & Hv3).
  - by apply (shape_hv_ok s1).
  - apply lookup_insert_eq.
  - by destruct Hok1; split.
  - by rewrite <- Hn, <- (core_native _ _ Hc1).
  - done.
  - done.
  - exact Hp1.
  - destruct (core_slots _ _ 0 Hc1) as (E0 & _). change (load_slot 0 m1 = Some (Some v0)). congruence.
  - rewrite E. msimpl. exists s3, m3. split; [done|].
    assert (shape s1 s3) as Hs13 by by etransitivity. split; [by apply (shape_hv_ok s1)|]. split; [|done]. eapply natives_kept_trans; [exact Hk1|by apply shape_natives].
Qed.
(** ** The operations in any order

    The state is consistent, and the numbers that are taken without a VM are among
    [L]. *)
Definition consistent (L : Z -> Prop) (s : hv) : Prop := hv_ok CONFIG_MAX_VM s /\ forall i, 0 <= i -> stale s i -> L i.

Section stays.
Context (L : Z -> Prop).
#[local] Abbreviation vms_ok := (consistent L).

Lemma shape_vms_ok s s' : shape s s' -> vms_ok s -> vms_ok s'.
Proof.
  intros H [Ho Hs]. split; [by apply (shape_hv_ok s)|]. intros i Hi [Hb Hv]. apply Hs; [done|]. split; [by rewrite <- (sh_map _ _ H)|by rewrite <- (sh_vms _ _ H)].
Qed.

Definition stays_ok {A} `{!HasHv A} (o : option A) : Prop := forall x, o = Some x -> vms_ok (get_hv x).

Lemma keeps_ok {A} `{!HasHv A} s (o : option A) : vms_ok s -> keeps s o -> stays_ok o.
Proof. intros Ho Hk x E. apply (shape_vms_ok s); [by apply Hk|done]. Qed.

Lemma stays_bind {A B} `{!HasHv A, !HasHv B} (o : option A) (k : A -> option B) :
  stays_ok o -> (forall x, vms_ok (get_hv x) -> stays_ok (k x)) -> stays_ok (o ≫= k).
Proof. intros Ho Hk y E. destruct o as [x|]; [|done]. exact (Hk x (Ho x eq_refl) y E). Qed.

Lemma stays_read {A B} `{!HasHv B} (o : option A) (k : A -> option B) : (forall x, o = Some x -> stays_ok (k x)) -> stays_ok (o ≫= k).
Proof. intros Hk y E. destruct o as [x|]; [|done]. exact (Hk x eq_refl y E). Qed.

Lemma stays_some {A} `{!HasHv A} (x : A) : vms_ok (get_hv x) -> stays_ok (Some x).
Proof. intros H y E. by injection E as <-. Qed.

(** A destroyed VM was a guest, and the one its record names. *)
Lemma destroy_stays s (id : nat) p : vms_ok s -> vms s !! id = Some (Some p) -> stays_ok (destroy_vm (Some p) s).
Proof.
  intros Ho Hid x E. destruct (registered_ok s id p (proj1 Ho) Hid) as (m & Hm & _). destruct (vm_is_native m) eqn:Hn.
  - unfold destroy_vm in E. rewrite Hm in E. cbn in E. by rewrite Hn in E.
  - destruct (destroy_vm_spec CONFIG_MAX_VM s id p m (proj1 Ho) Hid Hm Hn) as (t & h & map & E' & Hg & Hw & Hb). rewrite E' in E. injection E as <-.
    destruct Ho as [Ho Hst]. split; [by eapply hv_ok_without|]. intros i Hi Hs. apply Hst; [done|]. by eapply stale_without.
Qed.

Lemma shutdown_guests_stays n fuel i s : vms_ok s -> stays_ok (shutdown_guests n fuel i s).
Proof.
  revert i s. induction n as [|n IH]; intros i s Ho; cbn [shutdown_guests]; [by apply stays_some|].
  apply stays_read. intros [p|] Hid; [|by apply IH]. apply stays_read. intros m Hm. destruct (vm_is_native m); [by apply IH|].
  intros x E. destruct (vm_power_off fuel (vmid m) VM_PM_ACTION_BY_HOST s) as [[r1 s1]|] eqn:E1; [|done]. cbn [mbind option_bind] in E.
  destruct (wait_vm_in_state p TASK_STATE_SUSPEND s1) as [[r2 s2]|] eqn:E2; [|done]. cbn [mbind option_bind] in E.
  assert (shape s s1) as Hs1 by exact (vm_power_off_keeps s fuel _ _ s (shape_refl s) _ E1). assert (shape s s2) as Hs2 by exact (wait_vm_keeps s _ _ s1 Hs1 _ E2).
  assert (vms_ok s2) as Ho2 by by apply (shape_vms_ok s). destruct (negb (r2 =? 0)); [by injection E as <-|].
  destruct (destroy_vm (Some p) s2) as [s3|] eqn:E3; [|done]. cbn [mbind option_bind] in E.
  assert (vms_ok s3) as Ho3 by (apply (destroy_stays s2 (Z.to_nat i) p Ho2); [by rewrite (sh_vms _ _ Hs2)|done]).
  exact (IH (i + 1) s3 Ho3 x E).
Qed.

Lemma native_reset_keeps s0 p s : shape s0 s -> keeps s0 (__native_vm_reset p s).
Proof.
  intros H. unfold __native_vm_reset. keep_step.
  apply keeps_bind; [apply for_each_keeps; [intros v s1 H1; unfold vcpu_reset; keep|done]|]. intros [r s1] Hs1. cbn in Hs1. apply keeps_some. cbn.
  apply emit_shape_r. revert s1 Hs1. generalize (vdev_list x). intros l. induction l as [|d l IH]; intros s1 Hs1; cbn; [done|]. by apply IH, emit_shape_r.
Qed.

Lemma host_shutdown_stays fuel (b : bool) s : vms_ok s -> stays_ok (if b then '(_, s) ← shutdown_all_guest_vm fuel s; Some s else Some s).
Proof.
  intros Ho. destruct b; [|by apply stays_some]. apply stays_bind; [by apply shutdown_guests_stays|]. intros [r s1] H1. by apply stays_some.
Qed.

Lemma reboot_stays fuel p s : vms_ok s -> stays_ok (reboot_native_vm fuel p s).
Proof.
  intros Ho. unfold reboot_native_vm. apply stays_bind; [apply (keeps_ok s _ Ho), wait_vm_keeps; done|]. intros [r s1] Ho1. cbn in Ho1.
  destruct (negb (r =? 0)); [by apply stays_some|]. apply stays_read. intros m Hm. apply stays_bind; [by apply host_shutdown_stays|]. intros s2 Ho2.
  apply stays_bind; [apply (keeps_ok s2 _ Ho2), native_reset_keeps; done|]. intros s3 Ho3.
  apply stays_bind; [apply (keeps_ok s3 _ Ho3), upd_vm_keeps; done|]. intros s4 Ho4.
  apply stays_bind; [apply (keeps_ok s4 _ Ho4), start_native_vm_keeps; done|]. intros [r5 s5] Ho5. by apply stays_some.
Qed.

Lemma shutdown_native_stays fuel p s : vms_ok s -> stays_ok (shutdown_native_vm fuel p s).
Proof.
  intros Ho. unfold shutdown_native_vm. apply stays_bind; [apply (keeps_ok s _ Ho), wait_vm_keeps; done|]. intros [r s1] Ho1. cbn in Ho1.
  destruct (negb (r =? 0)); [by apply stays_some|]. apply stays_read. intros m Hm. apply stays_bind; [by apply host_shutdown_stays|]. intros s2 Ho2.
  apply stays_bind; [apply (keeps_ok s2 _ Ho2), native_reset_keeps; done|]. intros s3 Ho3.
  apply stays_bind; [apply (keeps_ok s3 _ Ho3), upd_vm_keeps; done|]. intros s4 Ho4. by apply stays_some.
Qed.

Lemma vm_reset_stays fuel id fl s : vms_ok s -> stays_ok (vm_reset fuel id fl s).
Proof.
  intros Ho. unfold vm_reset. apply stays_read. intros [p|] _; [|by apply stays_some]. apply stays_read. intros m Hm.
  destruct (vm_is_native m && _); [by apply stays_some|]. destruct (negb (vm_is_native m) && _); [by apply stays_some|]. unfold __vm_reset.
  apply stays_bind; [apply (keeps_ok s _ Ho), cmpxchg_keeps; done|]. intros [old s1] Ho1. cbn in Ho1. destruct (negb (old =? _)); [by apply stays_some|].
  apply stays_bind; [apply (keeps_ok s1 _ Ho1), for_each_poweroff_keeps; done|]. intros [r s2] Ho2. cbn in Ho2. apply stays_read. intros m2 _.
  destruct (vm_is_native m2).
  - unfold native_vm_reset. destruct (pm_action_by_self fl); [|by apply reboot_stays]. apply stays_some. apply (shape_vms_ok s2); [by apply send_vm_request_shape|done].
  - unfold guest_vm_reset. apply stays_bind; [apply (keeps_ok s2 _ Ho2), upd_vm_keeps; done|]. intros s3 Ho3. apply (keeps_ok s3 _ Ho3). unfold trap_vcpu_nonblock. assert (shape s3 s3) by done. keep.
Qed.

Lemma vm_suspend_keeps s0 fuel p s : shape s0 s -> keeps s0 (__vm_suspend fuel p s).
Proof.
  intros H. unfold __vm_suspend. do 2 keep_step. destruct (negb (vcpu_id _ =? 0)); [by keep_step|].
  apply keeps_bind; [apply for_each_keeps; [intros v s1 H1'; unfold suspend_one; keep|done]|]. intros [r s1] Hs1. cbn in Hs1. unfold trap_vcpu_nonblock.
  destruct (negb (r =? 0)); [by keep_step|]. keep_step. keep_step.
  apply keeps_bind; [destruct (vm_is_native _); keep|]. intros s2 Hs2. cbn in Hs2. do 2 keep_step. apply keeps_bind.
  - unfold vm_resume, trap_vcpu_nonblock. apply keeps_bind; [apply for_each_keeps; [intros v s6 H6; unfold resume_one; keep|done]|]. intros [r4 s4] Hs4. cbn in Hs4.
    keep_step. apply keeps_bind; [destruct (vm_is_native _); keep|]. intros s5 Hs5. cbn in Hs5. keep.
  - intros [r5 s5] Hs5. cbn in Hs5. keep.
Qed.

Lemma destroy_guest_stays fuel (id : nat) p s : vms_ok s -> vms s !! id = Some (Some p) -> stays_ok (destroy_guest_vm fuel (Some p) s).
Proof.
  intros Ho Hid x E. unfold destroy_guest_vm in E. cbn [mbind option_bind] in E.
  destruct (__vm_power_off fuel p VM_PM_ACTION_BY_MVM s) as [[r1 s1]|] eqn:E1; [|done]. cbn [mbind option_bind] in E.
  destruct (wait_vm_in_state p VCPU_STATE_SUSPEND s1) as [[r2 s2]|] eqn:E2; [|done]. cbn [mbind option_bind] in E.
  assert (shape s s1) as Hs1 by exact (vm_power_off_keeps1 s fuel _ _ s (shape_refl s) _ E1). assert (shape s s2) as Hs2 by exact (wait_vm_keeps s _ _ s1 Hs1 _ E2).
  apply (destroy_stays s2 id p); [by apply (shape_vms_ok s)|by rewrite (sh_vms _ _ Hs2)|done].
Qed.

End stays.

(** What the hypervisor does with VMs: the operations above, each when it
    returns, and the rest of the machine running in between.  The list has the
    number a creation took when it failed. *)
Inductive hv_step : list Z -> hv -> hv -> Prop :=
| hs_create NR_CPUS e tag r s s' : 0 <= t_vmid tag < CONFIG_MAX_VM -> 0 < t_nr_vcpu tag <= NR_CPUS -> length (t_vcpu_affinity tag) = 8%nat ->
    create_vm NR_CPUS CONFIG_MAX_VM e tag s = Some (r, s') -> hv_step (match r with Some _ => [] | None => claimed CONFIG_MAX_VM tag s end) s s'
| hs_destroy fuel (id : nat) p s s' : vms s !! id = Some (Some p) -> destroy_guest_vm fuel (Some p) s = Some s' -> hv_step [] s s'
| hs_start_guest p r s s' : start_guest_vm p s = Some (r, s') -> hv_step [] s s'
| hs_start_native p r s s' : start_native_vm p s = Some (r, s') -> hv_step [] s s'
| hs_power_off fuel id fl r s s' : vm_power_off fuel id fl s = Some (r, s') -> hv_step [] s s'
| hs_reset fuel id fl r s s' : vm_reset fuel id fl s = Some (r, s') -> hv_step [] s s'
| hs_suspend fuel p r s s' : __vm_suspend fuel p s = Some (r, s') -> hv_step [] s s'
| hs_daemon fuel s s' : vm_daemon_step fuel s = Some s' -> hv_step [] s s'
| hs_power_on v a en r s s' : vcpu_power_on v a en s = Some (r, s') -> hv_step [] s s'
| hs_idle v r s s' : vcpu_idle v s = Some (r, s') -> hv_step [] s s'
| hs_kick v r s s' : kick_vcpu v s = Some (r, s') -> hv_step [] s s'
| hs_relax s : hv_step [] s (relax s).

(** A run, with the numbers that failed creations took. *)
Inductive hv_run (s : hv) : list Z -> hv -> Prop :=
| run_start : hv_run s [] s
| run_step l k s1 s2 : hv_run s l s1 -> hv_step k s1 s2 -> hv_run s (l ++ k) s2.

Lemma hv_step_ok L k s s' : hv_step k s s' -> consistent L s -> consistent (fun i => L i \/ i ∈ k) s'.
Proof.
  intros H Ho. destruct H as [N e tag r s s' H1 H2 H3 E|fuel id p s s' Hid E|p r s s' E|p r s s' E|fuel id fl r s s' E|fuel id fl r s s' E|fuel p r s s' E|fuel s s' E|v a en r s s' E|v r s s' E|v r s s' E|s].
  { destruct Ho as [Ho Hst]. destruct (create_vm_stays N CONFIG_MAX_VM e tag s r s' Ho H1 H2 H3 E) as (Ho' & _ & Hs). split; [done|].
    intros i Hi Hsi. destruct (Hs i Hi Hsi) as [H|[-> H]]; [left; by apply Hst|by right]. }
  all: cut (consistent L s') || cut (consistent L (relax s)); [intros [? Hs]; split; [done|]; intros; left; by apply Hs|].
  - by apply (destroy_guest_stays L fuel id p s Ho Hid).
  - apply (shape_vms_ok L s); [|done]. exact (start_guest_vm_keeps s p s (shape_refl s) _ E).
  - apply (shape_vms_ok L s); [|done]. exact (start_native_vm_keeps s p s (shape_refl s) _ E).
  - apply (shape_vms_ok L s); [|done]. exact (vm_power_off_keeps s fuel id fl s (shape_refl s) _ E).
  - exact (vm_reset_stays L fuel id fl s Ho _ E).
  - apply (shape_vms_ok L s); [|done]. exact (vm_suspend_keeps s fuel p s (shape_refl s) _ E).
  - unfold vm_daemon_step in E. destruct (vm_requests s) as [|[a p] l]; [by injection E as <-|].
    assert (consistent L (set_vm_requests l s)) as Ho1 by (apply (shape_vms_ok L s); [by split|done]). unfold handle_vm_request in E.
    destruct (a =? VM_REBOOT); [|destruct (a =? VM_SHUTDOWN); [|by injection E as <-]].
    + destruct (reboot_native_vm _ _ _) as [[r s2]|] eqn:Er; [|done]. injection E as <-. exact (reboot_stays L fuel p _ Ho1 _ Er).
    + destruct (shutdown_native_vm _ _ _) as [[r s2]|] eqn:Er; [|done]. injection E as <-. exact (shutdown_native_stays L fuel p _ Ho1 _ Er).
  - apply (shape_vms_ok L s); [|done]. exact (vcpu_power_on_keeps s v a en s (shape_refl s) _ E).
  - apply (shape_vms_ok L s); [|done]. exact (vcpu_idle_keeps s v s (shape_refl s) _ E).
  - apply (shape_vms_ok L s); [|done]. exact (kick_vcpu_keeps s v s (shape_refl s) _ E).
  - by apply (shape_vms_ok L s).
Qed.


(** ** Paths of the code that do not do what they mean to *)

(** A suspended VM may not idle: the call by which [__vm_suspend] waits for
    the wake-up returns at once. *)
Lemma suspended_vm_does_not_wait v c m s :
  vcpu_heap s !! v = Some c -> vm_heap s !! vc_vm c = Some m -> vm_state m = VM_STATE_SUSPEND -> vcpu_idle v s = Some (- EBUSY, s).
Proof. intros Hc Hm Hs. unfold vcpu_idle, vcpu_can_idle. rewrite Hc. msimpl. rewrite Hm. msimpl. by rewrite Hs. Qed.

(** Starting a guest the way native VMs are started is refused, but the guest
    is left online and can then not be started at all. *)
Lemma start_native_of_guest_sticks p m s : vm_heap s !! p = Some m -> vm_is_native m = false -> vm_state m = VM_STATE_OFFLINE ->
  exists s', start_native_vm (Some p) s = Some (- EPERM, s') /\ start_guest_vm (Some p) s' = Some (- EINVAL, s').
Proof.
  intros Hm Hn Hst. unfold start_native_vm, cmpxchg_state. rewrite Hm. msimpl. rewrite Hst, !Z.eqb_refl. cbn [negb put_vm set_vm_heap vm_heap]. rewrite lookup_insert_eq. msimpl.
  unfold vm_is_native in *. cbn [flags set_vm_state]. rewrite Hn. cbn [negb]. eexists. split; [done|]. unfold start_guest_vm, cmpxchg_state. cbn [put_vm set_vm_heap vm_heap].
  rewrite lookup_insert_eq. msimpl. done.
Qed.

(** A guest that powers itself off does not tell the VM manager. *)
Lemma self_power_off_is_silent n s : __shutdown_guest_vm n VM_PM_ACTION_BY_SELF s = Some (0, s).
Proof. done. Qed.

(** Powering off a VM that is suspended reports success and does nothing. *)
Lemma power_off_suspended_does_nothing n p m fl s : vm_heap s !! p = Some m -> vm_state m = VM_STATE_SUSPEND -> __vm_power_off n p fl s = Some (0, s).
Proof. intros Hm Hs. unfold __vm_power_off, cmpxchg_state. rewrite Hm. msimpl. by rewrite Hs. Qed.

(** Every VM is told that it is the host. *)
Lemma every_vm_is_host m : get_vm_capability m = VM_CAP_HOST.
Proof. done. Qed.
End pm.

(** ** A machine with a host VM, a running guest and tasks that obey *)

(** The tasks that were told to freeze have suspended themselves. *)
Definition demo_relax (s : hv) : hv :=
  set_vcpu_heap ((fun c => if vc_freeze c && negb (vc_state c =? TASK_STATE_SUSPEND) then set_vc_queued false (set_vc_state TASK_STATE_SUSPEND c) else c) <$> vcpu_heap s) s.

Lemma demo_relax_shape s : shape s (demo_relax s).
Proof.
  split; try done. intros v. cbn. rewrite lookup_fmap. destruct (vcpu_heap s !! v) as [c|]; [|done]. cbn. f_equal. by destruct (_ && _).
Qed.

Lemma demo_relax_calm q s : calm q s -> calm q (demo_relax s).
Proof.
  intros [Hw Hp]. split; intros v c'; cbn; rewrite lookup_fmap; destruct (vcpu_heap s !! v) as [c|] eqn:Hc; try done; cbn; intros [= <-];
    destruct (vc_freeze c && negb (vc_state c =? TASK_STATE_SUSPEND)); try done; [by apply (Hw v)|by apply (Hp v)].
Qed.

Definition demo_vm (id st fl : Z) (v0 v1 : Z) : vm := mk_vm id 2 st fl [0; 1] 0x1000 0 0x1000 [Ptr (Some v0); Ptr (Some v1)] [] (false, false, false).
Definition demo_vcpu (i p : Z) (nx : option Z) (st : Z) : vcpu := mk_vcpu i p nx IN_ROOT_MODE st false false i (Some (mk_vmcs 0 0 0 0 0 5 3)) (-1) true false.

(** The host VM at 1 with its vcpus suspended; a guest at 2 in state [st]. *)
Definition demo_sys (st vst : Z) : hv :=
  mk_hv {[1 := demo_vm 1 VM_STATE_FREEZEING (Z.lor VM_FLAGS_NATIVE (Z.lor VM_FLAGS_HOST VM_FLAGS_CAN_RESET)) 10 11; 2 := demo_vm 2 st VM_FLAGS_CAN_RESET 12 13]}
    {[10 := demo_vcpu 0 1 (Some 11) TASK_STATE_SUSPEND; 11 := demo_vcpu 1 1 None TASK_STATE_SUSPEND;
      12 := demo_vcpu 0 2 (Some 13) vst; 13 := demo_vcpu 1 2 None vst]}
    100 [None; Some 1; Some 2; None] [1; 2] 2 [7] (Some 1) 0 0 [0] [] [].

Lemma demo_sys_heap st vst v c : vcpu_heap (demo_sys st vst) !! v = Some c ->
  (v = 10 /\ c = demo_vcpu 0 1 (Some 11) TASK_STATE_SUSPEND) \/ (v = 11 /\ c = demo_vcpu 1 1 None TASK_STATE_SUSPEND) \/
  (v = 12 /\ c = demo_vcpu 0 2 (Some 13) vst) \/ (v = 13 /\ c = demo_vcpu 1 2 None vst).
Proof. cbn. rewrite !lookup_insert_Some, lookup_singleton_Some. intros [[<- <-]|(_ & [[<- <-]|(_ & [[<- <-]|(_ & [<- <-])])])]; tauto. Qed.

Lemma demo_pm_vm_ok h p m v0 v1 c0 c1 : vcpus m = [Ptr (Some v0); Ptr (Some v1)] -> vcpu_nr m = 2 -> h !! v0 = Some c0 -> h !! v1 = Some c1 ->
  vcpu_id c0 = 0 -> vcpu_id c1 = 1 -> vc_vm c0 = p -> vc_vm c1 = p -> vc_next c0 = Some v1 -> vc_next c1 = None -> vm_ok h p m.
Proof.
  intros Hv Hn H0 H1 I0 I1 P0 P1 N0 N1. split; [lia|by rewrite Hv, Hn|]. rewrite Hn. intros i Hi. unfold load_slot. rewrite Hv.
  destruct (decide (i = 0)) as [->|]; [exists v0, c0; done|]. assert (i = 1) as -> by lia. exists v1, c1. done.
Qed.

Lemma demo_sys_ok st vst : hv_ok 4 (demo_sys st vst).
Proof.
  split; try done.
  - unfold bitmap_wf, is_word. split; [repeat constructor; lia|cbn; lia].
  - cbn. repeat (apply NoDup_cons_2; [rewrite ?list_elem_of_singleton; first [lia|apply not_elem_of_nil]|]). apply NoDup_nil_2.
  - intros id p H. do 4 (destruct id as [|id]; [cbn in H; try done; injection H as <-; (split; [done|]); (split; [done|]); eexists; (split; [reflexivity|]); (split; [done|]); (eapply demo_pm_vm_ok; [done|done|reflexivity|reflexivity|done..])|]). done.
  - intros v c Hc. apply demo_sys_heap in Hc as [[-> ->]|[[-> ->]|[[-> ->]|[-> ->]]]]; eexists; (split; [reflexivity|]); split; done.
  - intros p m. cbn. rewrite lookup_insert_Some, lookup_singleton_Some. intros [[<- _]|(_ & [<- _])]; done.
  - intros v c Hc. apply demo_sys_heap in Hc as [[-> _]|[[-> _]|[[-> _]|[-> _]]]]; done.
Qed.

Lemma demo_sys_waits st vst : waits_ok (demo_sys st vst).
Proof. intros v c Hc. apply demo_sys_heap in Hc as [[_ ->]|[[_ ->]|[[_ ->]|[_ ->]]]]; done. Qed.

Lemma demo_sys_parked st vst : parked_in 1 (demo_sys st vst).
Proof. intros v c Hc. apply demo_sys_heap in Hc as [[_ ->]|[[_ ->]|[[_ ->]|[_ ->]]]]; done. Qed.

Lemma vm_power_off_correct_witness :
  exists s', vm_power_off 4 0 (Some 10) demo_relax true false 0 2 VM_PM_ACTION_BY_MVM (demo_sys VM_STATE_ONLINE TASK_STATE_RUNNING) = Some (0, s').
Proof.
  pose proof (vm_power_off_correct 4 0 (Some 10) demo_relax true false (demo_sys VM_STATE_ONLINE TASK_STATE_RUNNING) 2 2 (demo_vm 2 VM_STATE_ONLINE VM_FLAGS_CAN_RESET 12 13) 0 VM_PM_ACTION_BY_MVM
    (demo_sys_ok _ _) (demo_sys_waits _ _) eq_refl eq_refl ltac:(intros _ _; eexists 10, _; split; [done|]; split; [reflexivity|done])) as H.
  destruct H as (s' & H & _). exists s'. exact H.
Defined.

Lemma start_guest_vm_correct_witness : exists s', start_guest_vm (Some 2) (demo_sys VM_STATE_OFFLINE TASK_STATE_SUSPEND) = Some (0, s') /\ hv_ok 4 s'.
Proof.
  pose proof (start_guest_vm_correct 4 (demo_sys VM_STATE_OFFLINE TASK_STATE_SUSPEND) 2 (demo_vm 2 VM_STATE_OFFLINE VM_FLAGS_CAN_RESET 12 13) 12 (demo_vcpu 0 2 (Some 13) TASK_STATE_SUSPEND)
    (demo_sys_ok _ _) eq_refl) as H.
  destruct H as (s' & H & Ho & _).
  - by eapply demo_pm_vm_ok.
  - done.
  - intros v c Hc _. apply demo_sys_heap in Hc as [[_ ->]|[[_ ->]|[[_ ->]|[_ ->]]]]; done.
  - done.
  - reflexivity.
  - done.
  - done.
  - exists s'. split; [exact H|exact Ho].
Defined.

Lemma shutdown_all_guest_vm_correct_witness :
  exists r s', shutdown_all_guest_vm 4 0 (Some 10) demo_relax true false 0 (demo_sys VM_STATE_ONLINE TASK_STATE_RUNNING) = Some (r, s') /\ (r = 0 \/ r = - ETIMEDOUT).
Proof.
  destruct (shutdown_all_guest_vm_correct 4 0 (Some 10) demo_relax true false demo_relax_shape demo_relax_calm (demo_sys VM_STATE_ONLINE TASK_STATE_RUNNING) 0 (demo_sys_ok _ _) (demo_sys_waits _ _)) as (r & s' & H & _ & _ & Hr & _).
  exists r, s'. split; [exact H|exact Hr].
Defined.

(** The guest is gone in the end. *)
Example shutdown_run : (fun r => (fst r, vm_list (snd r))) <$> shutdown_all_guest_vm 4 0 (Some 10) demo_relax true false 0 (demo_sys VM_STATE_ONLINE TASK_STATE_RUNNING) = Some (0, [1]).
Proof. vm_compute. reflexivity. Qed.

Lemma reboot_native_vm_correct_witness :
  exists s', reboot_native_vm 4 0 None demo_relax (fun _ => true) true false 0 1 (demo_sys VM_STATE_ONLINE TASK_STATE_RUNNING) = Some (0, s') /\ hv_ok 4 s'.
Proof.
  destruct (reboot_native_vm_correct 4 0 None demo_relax (fun _ => true) true false demo_relax_shape demo_relax_calm (demo_sys VM_STATE_ONLINE TASK_STATE_RUNNING) 1 1
    (demo_vm 1 VM_STATE_FREEZEING (Z.lor VM_FLAGS_NATIVE (Z.lor VM_FLAGS_HOST VM_FLAGS_CAN_RESET)) 10 11) 10 0 (demo_sys_ok _ _) eq_refl eq_refl eq_refl (fun _ => eq_refl) (demo_sys_waits _ _) (demo_sys_parked _ _) eq_refl) as (s' & m' & H & Ho & _).
  exists s'. split; [exact H|exact Ho].
Defined.

(** A guest is destroyed, a creation fails for its affinities and keeps the number, the
    next one succeeds. *)
Definition demo_life_tag (aff : list Z) : vmtag := mk_vmtag 0 2 0 0 0 0 0 aff 0 false false false.
Definition demo_life : option (hv * (option Z * hv) * (option Z * hv)) :=
  s1 ← destroy_guest_vm 0 (Some 10) demo_relax true false 3 (Some 2) (demo_sys VM_STATE_ONLINE TASK_STATE_RUNNING);
  x2 ← create_vm 4 4 demo_env (demo_life_tag (replicate 8 0)) s1;
  x3 ← create_vm 4 4 demo_env (demo_life_tag (seqZ 0 8)) (snd x2);
  Some (s1, x2, x3).

Lemma demo_life_run : exists s1 s2 s3,
  destroy_guest_vm 0 (Some 10) demo_relax true false 3 (Some 2) (demo_sys VM_STATE_ONLINE TASK_STATE_RUNNING) = Some s1 /\
  create_vm 4 4 demo_env (demo_life_tag (replicate 8 0)) s1 = Some (None, s2) /\ claimed 4 (demo_life_tag (replicate 8 0)) s1 = [2] /\
  create_vm 4 4 demo_env (demo_life_tag (seqZ 0 8)) s2 = Some (Some 100, s3) /\ vms s3 = [None; Some 1; None; Some 100].
Proof.
  assert ((fun '(s1, x2, x3) => (fst x2, claimed 4 (demo_life_tag (replicate 8 0)) s1, fst x3, vms (snd x3))) <$> demo_life = Some (None, [2], Some 100, [None; Some 1; None; Some 100]))
    as H by (vm_compute; reflexivity).
  unfold demo_life in H. destruct (destroy_guest_vm _ _ _ _ _ _ _ _) as [s1|]; [|discriminate H]. cbn [mbind option_bind] in H.
  destruct (create_vm _ _ _ _ s1) as [[r2 s2]|] eqn:E2; [|discriminate H]. cbn [mbind option_bind snd] in H.
  destruct (create_vm _ _ _ _ s2) as [[r3 s3]|] eqn:E3; [|discriminate H]. injection H as -> Hc -> Hv. by exists s1, s2, s3.
Qed.

Lemma demo_sys_fresh st vst i : 0 < i < 4 -> ~ stale (demo_sys st vst) i.
Proof. intros Hi [Hb Hv]. assert (i = 1 \/ i = 2 \/ i = 3) as [-> | [-> | ->]] by lia; [discriminate Hv..|discriminate Hb]. Qed.

