(* ===== verification/Vdev.v ===== *)
(** * Virtual devices and the emulation of their registers
      (virt/vdev.c, include/virt/vdev.h)

    A virtual device is an object of [w_objs], by address; an object whose
    memory has not been set up is not in the map.  The list of the devices of a
    VM is [vdev_list] of Vm.v.  The areas of a device are the list that starts
    at [gvm_area]; they are the areas that VmmArea.v took out of the address
    space of the VM, which is [w_mm].  A function pointer is a number; [call]
    says what a function does with the state [w_dev] of the devices.  The name
    of a device is left out.  A device that is put on a list twice makes the
    list unusable: that is [None]. *)
From S2P Require Import Prelude Bitops Bitmap Stage2 VmmArea Sched Vm VmPm.

Definition VMTRAP_TYPE_MMIO : Z := 0.
Definition VMTRAP_REASON_READ : Z := 0.
Definition VMTRAP_REASON_WRITE : Z := 1.
Definition VM_GUEST_VDEV : Z := __VM_GUEST.

(** The default [vdev_deinit]. *)
Definition VDEV_DEINIT : Z := 1.

Record vdev := mk_vdev {
  vd_vm : option Z;
  vd_host : Z;
  gvm_area : list vmm_area;
  vd_linked : bool;
  vd_read : option Z;
  vd_write : option Z;
  vd_deinit : option Z;
  vd_reset : option Z;
}.

Definition set_gvm_area (l : list vmm_area) (o : vdev) : vdev :=
  mk_vdev (vd_vm o) (vd_host o) l (vd_linked o) (vd_read o) (vd_write o) (vd_deinit o) (vd_reset o).
Definition set_linked (b : bool) (o : vdev) : vdev :=
  mk_vdev (vd_vm o) (vd_host o) (gvm_area o) b (vd_read o) (vd_write o) (vd_deinit o) (vd_reset o).
Definition set_ops (r w d rs : option Z) (o : vdev) : vdev :=
  mk_vdev (vd_vm o) (vd_host o) (gvm_area o) (vd_linked o) r w d rs.

Record vdw (D : Type) := mk_vdw {
  w_hv : hv;
  w_objs : gmap Z vdev;
  w_mm : gmap Z areas;
  w_dev : D;
}.
Arguments mk_vdw {D}.
Arguments w_hv {D}.
Arguments w_objs {D}.
Arguments w_mm {D}.
Arguments w_dev {D}.

Section vdev.
Context {D : Type}.
Implicit Type w : vdw D.

Definition set_hv (s : hv) w : vdw D := mk_vdw s (w_objs w) (w_mm w) (w_dev w).
Definition put_vdev (d : Z) (o : vdev) w : vdw D := mk_vdw (w_hv w) (<[d := o]> (w_objs w)) (w_mm w) (w_dev w).
Definition drop_vdev (d : Z) w : vdw D := mk_vdw (w_hv w) (delete d (w_objs w)) (w_mm w) (w_dev w).
Definition put_mm (p : Z) (a : areas) w : vdw D := mk_vdw (w_hv w) (w_objs w) (<[p := a]> (w_mm w)) (w_dev w).
Definition set_dev (x : D) w : vdw D := mk_vdw (w_hv w) (w_objs w) (w_mm w) x.

(** ** Making and releasing a device *)
Definition host_vdev_init (p : option Z) (d : Z) w : vdw D :=
  match p with
  | None => w
  | Some p => put_vdev d (mk_vdev (Some p) 1 [] false None None (Some VDEV_DEINIT) None) w
  end.

(** [d] is the address that [malloc] returns. *)
Definition create_host_vdev (p d : option Z) w : option Z * vdw D :=
  match d with None => (None, w) | Some d => (Some d, host_vdev_init p d w) end.

Definition vdev_add_vmm_area (d : Z) (va : vmm_area) w : option (vdw D) :=
  o ← w_objs w !! d; Some (put_vdev d (set_gvm_area (gvm_area o ++ [va]) o) w).

Definition vdev_add_iomem_range (d : option Z) (base size : Z) (oks : list bool) w : option (Z * list bool * vdw D) :=
  match d with
  | None => Some (- ENOENT, oks, w)
  | Some d =>
      o ← w_objs w !! d;
      match vd_vm o with
      | None => Some (- ENOENT, oks, w)
      | Some p =>
          mm ← w_mm w !! p;
          let '(va, oks, mm) := split_vmm_area base size VM_GUEST_VDEV oks mm in
          match va with
          | None => Some (- ENOMEM, oks, put_mm p mm w)
          | Some va => w ← vdev_add_vmm_area d va (put_mm p mm w); Some (0, oks, w)
          end
      end
  end.

Definition vdev_alloc_iomem_range (d size flags : Z) (oks : list bool) w : option (option vmm_area * list bool * vdw D) :=
  o ← w_objs w !! d;
  p ← vd_vm o;
  mm ← w_mm w !! p;
  let '(va, oks, mm) := alloc_free_vmm_area size PAGE_MASK flags oks mm in
  match va with
  | None => Some (None, oks, put_mm p mm w)
  | Some va => w ← vdev_add_vmm_area d va (put_mm p mm w); Some (Some va, oks, w)
  end.

Definition vdev_add (d : Z) w : option (vdw D) :=
  o ← w_objs w !! d;
  match vd_vm o with
  | None => Some w
  | Some p =>
      _ ← assert_ (negb (vd_linked o));
      m ← vm_heap (w_hv w) !! p;
      Some (put_vdev d (set_linked true o) (set_hv (put_vm p (set_vdev_list (vdev_list m ++ [d]) m) (w_hv w)) w))
  end.

(** The walk along [va->next]; NULL is followed, not tested. *)
Fixpoint get_area_walk (l : list vmm_area) (idx : Z) : option vmm_area :=
  match l with
  | [] => None
  | va :: l => if idx =? 0 then Some va else get_area_walk l (idx - 1)
  end.

Definition vdev_get_vmm_area (d idx : Z) w : option vmm_area :=
  o ← w_objs w !! d; get_area_walk (gvm_area o) idx.

(** The links between the areas are cut; [gvm_area] itself stays. *)
Definition vdev_release (d : Z) w : option (vdw D) :=
  o ← w_objs w !! d;
  w ← (if vd_linked o then
         p ← vd_vm o;
         m ← vm_heap (w_hv w) !! p;
         Some (set_hv (put_vm p (set_vdev_list (filter (fun x => x <> d) (vdev_list m)) m) (w_hv w)) w)
       else Some w);
  Some (put_vdev d (set_linked false (set_gvm_area (take 1 (gvm_area o)) o)) w).

Definition vdev_deinit (d : Z) w : option (vdw D) :=
  w ← vdev_release d w; Some (drop_vdev d w).

(** ** The areas of the devices of a VM *)

(** How many areas of devices of VM [p] hold address [a]. *)
Definition dev_cov (objs : gmap Z vdev) (p a : Z) : Z :=
  zsum (fun x => if decide (vd_vm (snd x) = Some p) then cov (gvm_area (snd x)) a else 0) (map_to_list objs).

(** Every listed device is alive and belongs to the VM of the list, and the
    areas of the devices of a VM are used areas of its address space, each of
    one device. *)
Record vdevs_ok w : Prop := mk_vdevs_ok {
  vk_mm : forall p a, w_mm w !! p = Some a -> areas_wf a;
  vk_list : forall p m, vm_heap (w_hv w) !! p = Some m -> NoDup (vdev_list m) /\
    forall d, d ∈ vdev_list m <-> exists o, w_objs w !! d = Some o /\ vd_vm o = Some p /\ vd_linked o = true;
  vk_cov : forall p mm a, w_mm w !! p = Some mm -> dev_cov (w_objs w) p a <= cov (vmm_area_used mm) a;
  vk_wf : forall d o va, w_objs w !! d = Some o -> va ∈ gvm_area o -> area_wf va;
}.

Definition dev_part (o : vdev) (p a : Z) : Z := if decide (vd_vm o = Some p) then cov (gvm_area o) a else 0.

Lemma dev_part_nonneg o p a : 0 <= dev_part o p a.
Proof. unfold dev_part. destruct (decide _); [apply cov_nonneg|done]. Qed.

Lemma dev_cov_insert objs d o p a : dev_cov (<[d := o]> objs) p a = dev_part o p a + dev_cov (delete d objs) p a.
Proof.
  unfold dev_cov. rewrite <- insert_delete_eq. rewrite (zsum_perm _ _ ((d, o) :: map_to_list (delete d objs))).
  - by rewrite zsum_cons.
  - apply map_to_list_insert, lookup_delete_eq.
Qed.

Lemma dev_cov_lookup objs d o p a : objs !! d = Some o -> dev_cov objs p a = dev_part o p a + dev_cov (delete d objs) p a.
Proof. intros H. rewrite <- (insert_id objs d o H) at 1. by rewrite dev_cov_insert. Qed.

Lemma dev_cov_nonneg objs p a : 0 <= dev_cov objs p a.
Proof. apply zsum_nonneg. intros [d o] _. apply dev_part_nonneg. Qed.

Lemma cov_member va l a : va ∈ l -> va_start va <= a < va_end va -> 1 <= cov l a.
Proof.
  intros Hin Ha. apply list_elem_of_lookup in Hin as [k Hk]. rewrite (cov_remove k va l a Hk).
  pose proof (cov_nonneg (take k l ++ drop (S k) l) a). destruct (rng_cases (va_start va) (va_end va) a); lia.
Qed.

(** Two areas of devices of one VM that hold the same address are the same
    area of the same device. *)
Lemma areas_apart w p mm d1 o1 i1 va1 d2 o2 i2 va2 a :
  vdevs_ok w -> w_mm w !! p = Some mm ->
  w_objs w !! d1 = Some o1 -> vd_vm o1 = Some p -> gvm_area o1 !! i1 = Some va1 -> va_start va1 <= a < va_end va1 ->
  w_objs w !! d2 = Some o2 -> vd_vm o2 = Some p -> gvm_area o2 !! i2 = Some va2 -> va_start va2 <= a < va_end va2 ->
  d1 = d2 /\ i1 = i2.
Proof.
  intros Hw Hmm H1 V1 A1 R1 H2 V2 A2 R2. pose proof (vk_cov w Hw p mm a Hmm) as Hc. pose proof (vk_mm w Hw p mm Hmm) as (_ & _ & Hone).
  specialize (Hone a). pose proof (cov_nonneg (vmm_area_free mm) a). destruct (decide (d1 = d2)) as [<-|Hd].
  - split; [done|]. assert (o2 = o1) as -> by congruence. destruct (decide (i1 = i2)) as [|Hi]; [done|exfalso].
    rewrite (dev_cov_lookup _ d1 o1 p a H1) in Hc. pose proof (dev_cov_nonneg (delete d1 (w_objs w)) p a).
    unfold dev_part in Hc. rewrite decide_True in Hc by done. rewrite (cov_remove i1 va1 _ a A1) in Hc.
    assert (va2 ∈ take i1 (gvm_area o1) ++ drop (S i1) (gvm_area o1)) as Hin.
    { rewrite elem_of_app. destruct (decide (i2 < i1)%nat).
      - left. apply list_elem_of_lookup. exists i2. rewrite lookup_take_lt by done. done.
      - right. apply list_elem_of_lookup. exists (i2 - S i1)%nat. rewrite lookup_drop. by replace (S i1 + (i2 - S i1))%nat with i2 by lia. }
    pose proof (cov_member va2 _ a Hin R2). destruct (rng_cases (va_start va1) (va_end va1) a); lia.
  - exfalso. rewrite (dev_cov_lookup _ d1 o1 p a H1), (dev_cov_lookup (delete d1 (w_objs w)) d2 o2 p a) in Hc by (by rewrite lookup_delete_ne).
    unfold dev_part in Hc. rewrite !decide_True in Hc by done. pose proof (dev_cov_nonneg (delete d2 (delete d1 (w_objs w))) p a).
    pose proof (cov_member va1 _ a (list_elem_of_lookup_2 _ _ _ A1) R1). pose proof (cov_member va2 _ a (list_elem_of_lookup_2 _ _ _ A2) R2). lia.
Qed.

(** ** The operations keep the areas apart *)
Lemma vdevs_ok_area w d o p mm mm' va :
  vdevs_ok w -> w_objs w !! d = Some o -> vd_vm o = Some p -> w_mm w !! p = Some mm -> areas_wf mm' -> area_wf va ->
  (forall a, cov (vmm_area_used mm') a = cov (vmm_area_used mm) a + rng (va_start va) (va_end va) a) ->
  vdevs_ok (put_vdev d (set_gvm_area (gvm_area o ++ [va]) o) (put_mm p mm' w)).
Proof.
  intros [Hmm Hl Hc Hf] Ho Hv Hp Hwf Hva Hcov. split; cbn [put_vdev put_mm w_hv w_objs w_mm].
  - intros q a. rewrite lookup_insert_Some. intros [[<- <-]|[_ H]]; [done|by apply (Hmm q)].
  - intros q m Hm. destruct (Hl q m Hm) as [Hnd Hd]. split; [done|]. intros x. rewrite Hd. destruct (decide (x = d)) as [->|Hne].
    + rewrite lookup_insert_eq. split; intros (y & Hy & H1 & H2).
      * assert (y = o) as -> by congruence. by eexists.
      * injection Hy as <-. by exists o.
    + by rewrite lookup_insert_ne.
  - intros q mq a. rewrite lookup_insert_Some. rewrite dev_cov_insert. intros [[<- <-]|[Hne H]].
    + rewrite Hcov. specialize (Hc p mm a Hp). rewrite (dev_cov_lookup _ d o p a Ho) in Hc. unfold dev_part in *. cbn [set_gvm_area vd_vm gvm_area].
      rewrite decide_True in * by done. rewrite cov_app, cov_cons, cov_nil. lia.
    + specialize (Hc q mq a H). rewrite (dev_cov_lookup _ d o q a Ho) in Hc. unfold dev_part in *. cbn [set_gvm_area vd_vm gvm_area].
      rewrite decide_False in * by congruence. lia.
  - intros x y va'. rewrite lookup_insert_Some. intros [[<- <-]|[_ H]]; [|by apply (Hf x)]. cbn [set_gvm_area gvm_area].
    rewrite elem_of_app, list_elem_of_singleton. intros [H| ->]; [by apply (Hf d o)|done].
Qed.

Lemma put_mm_id p mm w : w_mm w !! p = Some mm -> put_mm p mm w = w.
Proof. intros H. unfold put_mm. rewrite insert_id by done. by destruct w. Qed.

Lemma add_iomem_ok d base size oks w r oks' w' :
  vdevs_ok w -> 0 <= base -> 0 < size -> base + size < 2 ^ 62 -> vdev_add_iomem_range (Some d) base size oks w = Some (r, oks', w') -> vdevs_ok w'.
Proof.
  intros Hw Hb Hs He E. unfold vdev_add_iomem_range in E. destruct (w_objs w !! d) as [o|] eqn:Ho; [|done]. cbn [mbind option_bind] in E.
  destruct (vd_vm o) as [p|] eqn:Hv; [|by injection E as _ _ <-]. destruct (w_mm w !! p) as [mm|] eqn:Hp; [|done]. cbn [mbind option_bind] in E.
  pose proof (split_vmm_area_correct base size VM_GUEST_VDEV oks mm (vk_mm w Hw p mm Hp) Hb Hs ltac:(lia)) as Hsp.
  destruct (split_vmm_area base size VM_GUEST_VDEV oks mm) as [[[va|] oks1] mm'].
  - destruct Hsp as [(Hwf & Hmv & E1 & E2 & _ & _) _]. unfold vdev_add_vmm_area in E. cbn [put_mm w_objs] in E. rewrite Ho in E. cbn [mbind option_bind] in E.
    injection E as _ _ <-. apply (vdevs_ok_area w d o p mm); try done; [split; lia|]. intros a. rewrite (proj2 (Hmv a)), E1, E2. done.
  - destruct Hsp as [-> _]. injection E as _ _ <-. by rewrite put_mm_id.
Qed.

Lemma alloc_iomem_ok d size flags oks w va oks' w' :
  vdevs_ok w -> 0 < size < 2 ^ 62 -> vdev_alloc_iomem_range d size flags oks w = Some (va, oks', w') -> vdevs_ok w'.
Proof.
  intros Hw Hs E. unfold vdev_alloc_iomem_range in E. destruct (w_objs w !! d) as [o|] eqn:Ho; [|done]. cbn [mbind option_bind] in E.
  destruct (vd_vm o) as [p|] eqn:Hv; [|done]. cbn [mbind option_bind] in E. destruct (w_mm w !! p) as [mm|] eqn:Hp; [|done]. cbn [mbind option_bind] in E.
  pose proof (alloc_free_vmm_area_spec size PAGE_MASK flags oks mm (vk_mm w Hw p mm Hp) Hs) as Hsp. cbn zeta in Hsp.
  destruct (alloc_free_vmm_area size PAGE_MASK flags oks mm) as [[[va'|] oks1] mm'].
  - destruct Hsp as (base & _ & Hwf & Hmv & E1 & E2 & _ & Eu). unfold vdev_add_vmm_area in E. cbn [put_mm w_objs] in E. rewrite Ho in E. cbn [mbind option_bind] in E.
    injection E as _ _ <-. apply (vdevs_ok_area w d o p mm); try done.
    + destruct Hwf as (_ & Hu & _). rewrite Eu in Hu. by apply Forall_app, proj2, Forall_cons_1, proj1 in Hu.
    + intros a. rewrite (proj2 (Hmv a)), E1, E2. done.
  - destruct Hsp as [-> _]. injection E as _ _ <-. by rewrite put_mm_id.
Qed.

(** A change of a device that is not on a list. *)
Lemma vdevs_ok_put w d o : vdevs_ok w -> vd_linked o = false ->
  (forall o0, w_objs w !! d = Some o0 -> vd_linked o0 = false) ->
  (forall va, va ∈ gvm_area o -> area_wf va) ->
  (forall p mm a, w_mm w !! p = Some mm -> dev_part o p a + dev_cov (delete d (w_objs w)) p a <= cov (vmm_area_used mm) a) ->
  vdevs_ok (put_vdev d o w).
Proof.
  intros [Hmm Hl Hc Hf] Hu Hold Ha Hcov. split; cbn [put_vdev w_hv w_objs w_mm]; [done| | |].
  - intros q m Hm. destruct (Hl q m Hm) as [Hnd Hd]. split; [done|]. intros x. rewrite Hd. destruct (decide (x = d)) as [->|Hne].
    + rewrite lookup_insert_eq. split; intros (y & Hy & H1 & H2); [by rewrite (Hold y Hy) in H2|]. injection Hy as <-. congruence.
    + by rewrite lookup_insert_ne.
  - intros q mm a H. rewrite dev_cov_insert. by apply Hcov.
  - intros x y va. rewrite lookup_insert_Some. intros [[<- <-]|[_ H]]; [apply Ha|by apply (Hf x)].
Qed.

Lemma dev_cov_delete objs d p a : dev_cov (delete d objs) p a <= dev_cov objs p a.
Proof.
  destruct (objs !! d) as [o|] eqn:E; [|by rewrite delete_id]. rewrite (dev_cov_lookup objs d o p a E). pose proof (dev_part_nonneg o p a). lia.
Qed.

Lemma host_vdev_init_ok p d w : vdevs_ok w -> w_objs w !! d = None -> vdevs_ok (host_vdev_init p d w).
Proof.
  intros Hw Hd. destruct p as [p|]; [|done]. apply vdevs_ok_put; [done|done|by rewrite Hd|set_solver|].
  intros q mm a H. unfold dev_part. cbn. pose proof (dev_cov_delete (w_objs w) d q a). pose proof (vk_cov w Hw q mm a H). destruct (decide _); cbn [cov zsum foldr]; lia.
Qed.

Lemma vdev_add_ok d w w' : vdevs_ok w -> vdev_add d w = Some w' -> vdevs_ok w'.
Proof.
  intros Hw E. unfold vdev_add in E. destruct (w_objs w !! d) as [o|] eqn:Ho; [|done]. cbn [mbind option_bind] in E.
  destruct (vd_vm o) as [p|] eqn:Hv; [|by injection E as <-]. unfold assert_ in E. destruct (vd_linked o) eqn:Hu; [done|]. cbn [negb mbind option_bind] in E.
  destruct (vm_heap (w_hv w) !! p) as [m|] eqn:Hm; [|done]. cbn [mbind option_bind] in E. injection E as <-.
  destruct Hw as [Hmm Hl Hc Hf]. split; cbn [put_vdev set_hv w_hv w_objs w_mm put_vm set_vm_heap vm_heap]; [done| | |].
  - intros q mq. rewrite lookup_insert_Some. intros [[<- <-]|[Hne H]].
    + destruct (Hl p m Hm) as [Hnd Hd]. cbn [vdev_list set_vdev_list]. split.
      * apply list.NoDup_app. split; [done|]. split; [|by apply NoDup_singleton]. intros x Hx ->%list_elem_of_singleton.
        apply Hd in Hx as (y & Hy & _ & H2). congruence.
      * intros x. rewrite elem_of_app, list_elem_of_singleton, Hd. destruct (decide (x = d)) as [->|Hne].
        -- rewrite lookup_insert_eq. split; [intros _; by eexists|by right].
        -- rewrite lookup_insert_ne by done. naive_solver.
    + destruct (Hl q mq H) as [Hnd Hd]. split; [done|]. intros x. rewrite Hd. destruct (decide (x = d)) as [->|Hx]; [|by rewrite lookup_insert_ne].
      rewrite lookup_insert_eq. split; intros (y & Hy & H1 & H2); [congruence|]. injection Hy as <-. cbn in H1. congruence.
  - intros q mm a H. rewrite dev_cov_insert. change (dev_part (set_linked true o) q a) with (dev_part o q a). rewrite <- (dev_cov_lookup _ d o q a Ho). by apply Hc.
  - intros x y va. rewrite lookup_insert_Some. intros [[<- <-]|[_ H]]; [by apply (Hf d o)|by apply (Hf x)].
Qed.

Lemma cov_take n l a : cov (take n l) a <= cov l a.
Proof. rewrite <- (take_drop n l) at 2. rewrite cov_app. pose proof (cov_nonneg (drop n l) a). lia. Qed.

Lemma vdev_release_ok d w w' : vdevs_ok w -> vdev_release d w = Some w' -> vdevs_ok w'.
Proof.
  intros Hw E. unfold vdev_release in E. destruct (w_objs w !! d) as [o|] eqn:Ho; [|done]. cbn [mbind option_bind] in E.
  assert (forall p mm a, w_mm w !! p = Some mm -> dev_part (set_linked false (set_gvm_area (take 1 (gvm_area o)) o)) p a + dev_cov (delete d (w_objs w)) p a <= cov (vmm_area_used mm) a) as Hcov.
  { intros p mm a H. pose proof (vk_cov w Hw p mm a H) as Hc. rewrite (dev_cov_lookup _ d o p a Ho) in Hc. unfold dev_part in *. cbn [set_linked set_gvm_area vd_vm gvm_area].
    pose proof (cov_take 1 (gvm_area o) a). destruct (decide _); lia. }
  assert (forall va, va ∈ take 1 (gvm_area o) -> area_wf va) as Ha.
  { intros va H. apply (vk_wf w Hw d o); [done|]. rewrite <- (take_drop 1 (gvm_area o)). apply elem_of_app. by left. }
  destruct (vd_linked o) eqn:Hu.
  - destruct (vd_vm o) as [p|] eqn:Hv; [|done]. cbn [mbind option_bind] in E. destruct (vm_heap (w_hv w) !! p) as [m|] eqn:Hm; [|done]. cbn [mbind option_bind] in E. injection E as <-.
    destruct Hw as [Hmm Hl Hc Hf]. split; cbn [put_vdev set_hv w_hv w_objs w_mm put_vm set_vm_heap vm_heap]; [done| | |].
    + intros q mq. rewrite lookup_insert_Some. intros [[<- <-]|[Hne H]].
      * destruct (Hl p m Hm) as [Hnd Hd]. cbn [vdev_list set_vdev_list]. split; [by apply list.NoDup_filter|]. intros x. rewrite list_elem_of_filter, Hd.
        destruct (decide (x = d)) as [->|Hx]; [|rewrite lookup_insert_ne by done; naive_solver]. rewrite lookup_insert_eq. split; [by intros [? _]|].
        intros (y & Hy & _ & H2). injection Hy as <-. done.
      * destruct (Hl q mq H) as [Hnd Hd]. split; [done|]. intros x. rewrite Hd. destruct (decide (x = d)) as [->|Hx]; [|by rewrite lookup_insert_ne].
        rewrite lookup_insert_eq. split; intros (y & Hy & H1 & H2); [congruence|]. injection Hy as <-. done.
    + intros q mm a H. rewrite dev_cov_insert. by apply Hcov.
    + intros x y va. rewrite lookup_insert_Some. intros [[<- <-]|[_ H]]; [apply Ha|by apply (Hf x)].
  - cbn [mbind option_bind] in E. injection E as <-. apply vdevs_ok_put; try done. intros o0 H0. congruence.
Qed.

Lemma vdev_deinit_ok d w w' : vdevs_ok w -> vdev_deinit d w = Some w' -> vdevs_ok w'.
Proof.
  intros Hw E. unfold vdev_deinit in E. destruct (vdev_release d w) as [w1|] eqn:E1; [|done]. cbn [mbind option_bind] in E. injection E as <-.
  destruct (vdev_release_ok d w w1 Hw E1) as [Hmm Hl Hc Hf].
  assert (forall o, w_objs w1 !! d = Some o -> vd_linked o = false) as Hu.
  { unfold vdev_release in E1. destruct (w_objs w !! d) as [o|]; [|done]. cbn [mbind option_bind] in E1.
    destruct (if vd_linked o then _ else _) as [w2|]; [|done]. cbn [mbind option_bind] in E1. injection E1 as <-. cbn. rewrite lookup_insert_eq. by intros o' [= <-]. }
  split; cbn [drop_vdev w_hv w_objs w_mm]; [done| | |].
  - intros q m Hm. destruct (Hl q m Hm) as [Hnd Hd]. split; [done|]. intros x. rewrite Hd. destruct (decide (x = d)) as [->|Hne].
    + rewrite lookup_delete_eq. split; intros (y & Hy & H1 & H2); [|done]. rewrite (Hu y Hy) in H2. done.
    + by rewrite lookup_delete_ne.
  - intros q mm a H. pose proof (dev_cov_delete (w_objs w1) d q a). specialize (Hc q mm a H). lia.
  - intros x y va H. apply lookup_delete_Some in H as [_ H]. by apply (Hf x).
Qed.

Lemma set_ops_ok d o r wr de rs w : vdevs_ok w -> w_objs w !! d = Some o -> vdevs_ok (put_vdev d (set_ops r wr de rs o) w).
Proof.
  intros [Hmm Hl Hc Hf] Ho. split; cbn [put_vdev w_hv w_objs w_mm]; [done| | |].
  - intros q m Hm. destruct (Hl q m Hm) as [Hnd Hd]. split; [done|]. intros x. rewrite Hd. destruct (decide (x = d)) as [->|Hne]; [|by rewrite lookup_insert_ne].
    rewrite lookup_insert_eq. split; intros (y & Hy & H1 & H2); [assert (y = o) as -> by congruence; by eexists|]. injection Hy as <-. by exists o.
  - intros q mm a H. rewrite dev_cov_insert. change (dev_part (set_ops r wr de rs o) q a) with (dev_part o q a). rewrite <- (dev_cov_lookup _ d o q a Ho). by apply Hc.
  - intros x y va. rewrite lookup_insert_Some. intros [[<- <-]|[_ H]]; [by apply (Hf d o)|by apply (Hf x)].
Qed.

(** A new area changes the areas of its device only. *)
Lemma add_iomem_frame d base size oks w r oks' w' o :
  vdev_add_iomem_range (Some d) base size oks w = Some (r, oks', w') -> w_objs w !! d = Some o ->
  w_hv w' = w_hv w /\ w_dev w' = w_dev w /\ (exists l, w_objs w' !! d = Some (set_gvm_area l o)) /\ forall k, k <> d -> w_objs w' !! k = w_objs w !! k.
Proof.
  intros E Ho. assert (set_gvm_area (gvm_area o) o = o) as Eo by (by destruct o). unfold vdev_add_iomem_range in E. rewrite Ho in E. cbn [mbind option_bind] in E.
  destruct (vd_vm o) as [p|]; [|injection E as _ _ <-; split_and!; try done; exists (gvm_area o); by rewrite Eo].
  destruct (w_mm w !! p) as [mm|]; [|done]. cbn [mbind option_bind] in E. destruct (split_vmm_area _ _ _ _ _) as [[[va|] oks1] mm'].
  - unfold vdev_add_vmm_area in E. cbn [put_mm w_objs] in E. rewrite Ho in E. cbn [mbind option_bind] in E. injection E as _ _ <-. cbn. split_and!; try done.
    + eexists. apply lookup_insert_eq.
    + intros k Hk. by rewrite lookup_insert_ne.
  - injection E as _ _ <-. split_and!; try done. exists (gvm_area o). by rewrite Eo.
Qed.

(** The state of the devices themselves plays no part. *)
Lemma set_dev_ok x w : vdevs_ok w -> vdevs_ok (set_dev x w).
Proof. by intros [? ? ? ?]. Qed.

(** What the devices do with these functions, in any order.  A device is set
    up in memory that was just allocated. *)
Inductive vdev_step : vdw D -> vdw D -> Prop :=
| step_init p d w : w_objs w !! d = None -> vdev_step w (host_vdev_init p d w)
| step_iomem d base size oks w r oks' w' : 0 <= base -> 0 < size -> base + size < 2 ^ 62 ->
    vdev_add_iomem_range (Some d) base size oks w = Some (r, oks', w') -> vdev_step w w'
| step_alloc d size flags oks w va oks' w' : 0 < size < 2 ^ 62 ->
    vdev_alloc_iomem_range d size flags oks w = Some (va, oks', w') -> vdev_step w w'
| step_ops d o r wr de rs w : w_objs w !! d = Some o -> vdev_step w (put_vdev d (set_ops r wr de rs o) w)
| step_add d w w' : vdev_add d w = Some w' -> vdev_step w w'
| step_release d w w' : vdev_release d w = Some w' -> vdev_step w w'
| step_deinit d w w' : vdev_deinit d w = Some w' -> vdev_step w w'.

Lemma keep_steps w w' : vdevs_ok w -> rtc vdev_step w w' -> vdevs_ok w'.
Proof.
  intros Hw H. induction H as [|w1 w2 w3 H12 _ IH]; [done|]. apply IH.
  destruct H12; [by apply host_vdev_init_ok|by eapply add_iomem_ok|by eapply alloc_iomem_ok|by apply set_ops_ok|by eapply vdev_add_ok|by eapply vdev_release_ok|by eapply vdev_deinit_ok].
Qed.

(** C20: whatever the devices do, every device on the list of a VM is alive and
    belongs to it, and the register areas of the devices of a VM are disjoint
    parts of the used address space of the VM. *)
Theorem vdev_reachable_ok w w' : vdevs_ok w -> rtc vdev_step w w' -> vdevs_ok w'.
Proof. apply keep_steps. Qed.

End vdev.

Section mmio.
Context {D : Type}.
Implicit Type w : vdw D.

(** ** An access of the guest *)
Context (call : Z -> Z -> Z -> Z -> Z -> vdw D -> option (Z * Z * vdw D)).
Context (current : option Z) (relax : hv -> hv) (send_ok : bool).

Definition handle_mmio_write (d : Z) (o : vdev) (idx offset value : Z) w : option (Z * Z * vdw D) :=
  match vd_write o with Some f => call f d idx offset value w | None => Some (0, value, w) end.

Definition handle_mmio_read (d : Z) (o : vdev) (idx offset value : Z) w : option (Z * Z * vdw D) :=
  match vd_read o with Some f => call f d idx offset value w | None => Some (0, value, w) end.

Definition handle_mmio (d : Z) (o : vdev) (write : bool) (idx offset value : Z) w : option (Z * Z * vdw D) :=
  if write then handle_mmio_write d o idx offset value w else handle_mmio_read d o idx offset value w.

(** The two loops: the first area of the first device that matches. *)
Fixpoint match_area (l : list vmm_area) (idx address : Z) : option (Z * vmm_area) :=
  match l with
  | [] => None
  | va :: l => if (va_start va <=? address) && (address <=? va_end va) then Some (idx, va) else match_area l (idx + 1) address
  end.

Fixpoint match_vdev (l : list Z) (address : Z) w : option (option (Z * Z * vmm_area)) :=
  match l with
  | [] => Some None
  | d :: l =>
      o ← w_objs w !! d;
      match match_area (gvm_area o) 0 address with
      | Some (idx, va) => Some (Some (d, idx, va))
      | None => match_vdev l address w
      end
  end.

Definition vdev_mmio_emulation (fuel : nat) (write : bool) (address value : Z) w : option (Z * Z * vdw D) :=
  v ← current;
  c ← vcpu_heap (w_hv w) !! v;
  m ← vm_heap (w_hv w) !! vc_vm c;
  r ← match_vdev (vdev_list m) address w;
  match r with
  | Some (d, idx, va) =>
      o ← w_objs w !! d;
      '(_, value, w) ← handle_mmio d o write idx (u64 (address - va_start va)) value w;
      Some (0, value, w)
  | None =>
      if vm_is_native m then Some (- EACCES, value, w)
      else
        '(ret, res, s) ← trap_vcpu current relax send_ok fuel VMTRAP_TYPE_MMIO (b2z write) address (Some value) (w_hv w);
        Some (if ret =? - EACCES then - EACCES else 0, default value res, set_hv s w)
  end.

(** ** Which device gets an access *)
Lemma match_area_first l address : forall i va idx, l !! i = Some va -> va_start va <= address <= va_end va ->
  (forall j va', (j < i)%nat -> l !! j = Some va' -> ~ (va_start va' <= address <= va_end va')) ->
  match_area l idx address = Some (idx + Z.of_nat i, va).
Proof.
  induction l as [|x l IH]; intros i va idx Hi Hr Hno; [done|]. cbn [match_area]. destruct i as [|i].
  - injection Hi as ->. rewrite !(proj2 (Z.leb_le _ _)) by lia. cbn [andb]. do 2 f_equal. lia.
  - specialize (Hno 0%nat x ltac:(lia) eq_refl) as Hx. destruct (Z.leb_spec (va_start x) address), (Z.leb_spec address (va_end x)); cbn [andb]; try lia;
      (rewrite (IH i va (idx + 1) Hi Hr); [do 2 f_equal; lia|]; intros j va' Hj Hl; apply (Hno (S j)); [lia|done]).
Qed.

Lemma match_area_none l address : forall idx, (forall va, va ∈ l -> ~ (va_start va <= address <= va_end va)) -> match_area l idx address = None.
Proof.
  induction l as [|x l IH]; intros idx H; [done|]. cbn [match_area]. specialize (H x ltac:(set_solver)) as Hx.
  destruct (Z.leb_spec (va_start x) address), (Z.leb_spec address (va_end x)); cbn [andb]; try lia; apply IH; set_solver.
Qed.

Lemma match_vdev_first w address d o i va : forall l, w_objs w !! d = Some o -> d ∈ l ->
  gvm_area o !! i = Some va -> va_start va <= address <= va_end va ->
  (forall d' , d' ∈ l -> exists o', w_objs w !! d' = Some o' /\
     forall j va', gvm_area o' !! j = Some va' -> va_start va' <= address <= va_end va' -> d' = d /\ j = i) ->
  match_vdev l address w = Some (Some (d, Z.of_nat i, va)).
Proof.
  induction l as [|x l IH]; intros Hd Hin Hi Hr Hu; [set_solver|]. cbn [match_vdev].
  destruct (Hu x ltac:(set_solver)) as (o' & Ho' & Hx). rewrite Ho'. cbn [mbind option_bind]. destruct (decide (x = d)) as [->|Hne].
  - assert (o' = o) as -> by congruence. rewrite (match_area_first _ address i va 0); [done|done|done|].
    intros j va' Hj Hl Hr'. destruct (Hx j va' Hl Hr'). lia.
  - rewrite match_area_none; [|intros va' (j & Hj)%list_elem_of_lookup Hr'; by destruct (Hx j va' Hj Hr')].
    apply IH; [done|set_solver|done|done|]. intros d' Hd'. apply Hu. set_solver.
Qed.

Lemma match_vdev_none w address : forall l, (forall d, d ∈ l -> exists o, w_objs w !! d = Some o /\ forall va, va ∈ gvm_area o -> ~ (va_start va <= address <= va_end va)) ->
  match_vdev l address w = Some None.
Proof.
  induction l as [|x l IH]; intros H; [done|]. cbn [match_vdev]. destruct (H x ltac:(set_solver)) as (o & -> & Ho). cbn [mbind option_bind].
  rewrite match_area_none by done. apply IH. set_solver.
Qed.

Lemma mmio_dispatch_spec n write address value w v c m mm :
  vdevs_ok w -> current = Some v -> vcpu_heap (w_hv w) !! v = Some c -> vm_heap (w_hv w) !! vc_vm c = Some m -> w_mm w !! vc_vm c = Some mm ->
  (forall d o va, d ∈ vdev_list m -> w_objs w !! d = Some o -> va ∈ gvm_area o -> va_end va <> address) ->
  (forall d o i va, d ∈ vdev_list m -> w_objs w !! d = Some o -> gvm_area o !! i = Some va -> va_start va <= address < va_end va ->
     vdev_mmio_emulation n write address value w
     = ('(_, value', w') ← handle_mmio d o write (Z.of_nat i) (address - va_start va) value w; Some (0, value', w'))
     /\ 0 <= address - va_start va < va_end va - va_start va)
  /\ ((forall d o va, d ∈ vdev_list m -> w_objs w !! d = Some o -> va ∈ gvm_area o -> ~ (va_start va <= address < va_end va)) ->
      vm_is_native m = true -> vdev_mmio_emulation n write address value w = Some (- EACCES, value, w)).
Proof.
  intros Hw Hcur Hc Hm Hmm Hend. destruct (vk_list w Hw _ m Hm) as [_ Hl]. unfold vdev_mmio_emulation. rewrite Hcur. cbn [mbind option_bind]. rewrite Hc. cbn [mbind option_bind].
  rewrite Hm. cbn [mbind option_bind]. split.
  - intros d o i va Hd Ho Hi Hr. split; [|lia]. destruct (proj1 (Hl d) Hd) as (o0 & Ho0 & Vo & _). assert (o0 = o) as -> by congruence.
    rewrite (match_vdev_first w address d o i va (vdev_list m)); [|done|done|done|lia|].
    + cbn [mbind option_bind]. rewrite Ho. cbn [mbind option_bind]. destruct (vk_wf w Hw d o va Ho (list_elem_of_lookup_2 _ _ _ Hi)).
      rewrite u64_small by lia. done.
    + intros d' Hd'. destruct (proj1 (Hl d') Hd') as (o' & Ho' & Vo' & _). exists o'. split; [done|]. intros j va' Hj Hr'.
      pose proof (Hend d' o' va' Hd' Ho' (list_elem_of_lookup_2 _ _ _ Hj)).
      apply (areas_apart w (vc_vm c) mm d' o' j va' d o i va address); done || lia.
  - intros Hno Hnat. rewrite match_vdev_none; [cbn [mbind option_bind]; by rewrite Hnat|].
    intros d Hd. destruct (proj1 (Hl d) Hd) as (o & Ho & _). exists o. split; [done|]. intros va Hva Hr.
    specialize (Hno d o va Hd Ho Hva). specialize (Hend d o va Hd Ho Hva). lia.
Qed.

(** An access of a guest to an address inside an area of one of its devices
    reaches that device and no other, with the index of the area and the offset
    in it, unless an area of another device of the VM ends exactly there; the
    result of the device does not reach the caller.  An access outside of all
    areas is refused for a native VM. *)
Theorem vdev_mmio_dispatch n write address value w v c m mm :
  vdevs_ok w -> current = Some v -> vcpu_heap (w_hv w) !! v = Some c -> vm_heap (w_hv w) !! vc_vm c = Some m -> w_mm w !! vc_vm c = Some mm ->
  (forall d o va, d ∈ vdev_list m -> w_objs w !! d = Some o -> va ∈ gvm_area o -> va_end va <> address) ->
  (forall d o i va, d ∈ vdev_list m -> w_objs w !! d = Some o -> gvm_area o !! i = Some va -> va_start va <= address < va_end va ->
     vdev_mmio_emulation n write address value w
     = ('(_, value', w') ← handle_mmio d o write (Z.of_nat i) (address - va_start va) value w; Some (0, value', w'))
     /\ 0 <= address - va_start va < va_end va - va_start va)
  /\ ((forall d o va, d ∈ vdev_list m -> w_objs w !! d = Some o -> va ∈ gvm_area o -> ~ (va_start va <= address < va_end va)) ->
      vm_is_native m = true -> vdev_mmio_emulation n write address value w = Some (- EACCES, value, w)).
Proof. apply mmio_dispatch_spec. Qed.

(** ** The host VM answers *)

(** Within [k] turns of the rest of the machine the trap of vcpu [v] is
    answered with [ret] and [res]; until then it is left alone, and the vcpu is
    not asked to stop. *)
Fixpoint served_in (k : nat) (v ret res : Z) (s : hv) : Prop :=
  (exists c x, vcpu_heap s !! v = Some c /\ vc_vmcs c = Some x /\ guest_index x = host_index x /\ trap_ret x = ret /\ trap_result x = res)
  \/ (exists c x, vcpu_heap s !! v = Some c /\ vc_vmcs c = Some x /\ guest_index x <> host_index x
      /\ match k with
         | O => False
         | S k => (exists c', vcpu_heap (relax s) !! v = Some c' /\ vc_freeze c' = false) /\ served_in k v ret res (relax s)
         end).

(** The host VM answers every trap of vcpu [v] as [f] says. *)
Definition answers (k : nat) (f : Z -> Z -> Z -> Z -> Z * Z) (v : Z) : Prop := forall s c x,
  vcpu_heap s !! v = Some c -> vc_vmcs c = Some x -> vc_freeze c = false -> host_index x = u64 (guest_index x + 1) ->
  served_in k v (fst (f (trap_type x) (trap_reason x) (trap_data x) (trap_result x))) (snd (f (trap_type x) (trap_reason x) (trap_data x) (trap_result x))) s.

Lemma wait_served k v ret res : forall n s, (k < n)%nat -> served_in k v ret res s ->
  exists s' c x, wait_vmcs relax n v s = Some (0, s') /\ vcpu_heap s' !! v = Some c /\ vc_vmcs c = Some x /\ trap_ret x = ret /\ trap_result x = res.
Proof.
  induction k as [|k IH]; intros [|n] s Hn H; try lia; cbn [wait_vmcs]; cbn [served_in] in H.
  - destruct H as [(c & x & Hc & Hx & Hi & Hr)|(c & x & _ & _ & _ & [])]. rewrite Hc. cbn [mbind option_bind]. rewrite Hx. cbn [mbind option_bind].
    rewrite Hi, Z.eqb_refl. by exists s, c, x.
  - destruct H as [(c & x & Hc & Hx & Hi & Hr)|(c & x & Hc & Hx & Hi & (c' & Hc' & Hf) & H)]; rewrite Hc; cbn [mbind option_bind]; rewrite Hx; cbn [mbind option_bind].
    + rewrite Hi, Z.eqb_refl. by exists s, c, x.
    + rewrite (proj2 (Z.eqb_neq _ _) Hi), Hc'. cbn [mbind option_bind]. rewrite Hf. apply IH; [lia|done].
Qed.

(** A vcpu that may trap: it has an interrupt in the host VM, whose boot vcpu
    exists, and its last trap is finished. *)
Record can_trap (v : Z) (s : hv) : Prop := mk_can_trap {
  ct_vcpu : exists c x, vcpu_heap s !! v = Some c /\ vc_vmcs c = Some x /\ 0 <= vmcs_irq c /\ vc_freeze c = false /\ guest_index x = host_index x;
  ct_host : exists p0 vm0 v0 c0, get_host_vm s = Some p0 /\ vm_heap s !! p0 = Some vm0 /\ load_slot 0 vm0 = Some (Some v0) /\ vcpu_heap s !! v0 = Some c0;
}.

Lemma trap_vcpu_answered k f v n type reason data r s :
  current = Some v -> send_ok = true -> can_trap v s -> answers k f v -> (k < n)%nat -> type < VMTRAP_TYPE_UNKNOWN -> reason < VMTRAP_REASON_UNKNOWN ->
  exists s', trap_vcpu current relax send_ok n type reason data (Some r) s = Some (fst (f type reason data r), Some (snd (f type reason data r)), s').
Proof.
  intros Hcur Hsend [(c & x & Hc & Hx & Hirq & Hfz & Hidle) (p0 & vm0 & v0 & c0 & Hp0 & Hvm0 & Hs0 & Hc0)] Hans Hn Ht Hr.
  unfold trap_vcpu, __vcpu_trap. rewrite Hcur, Hsend. cbn [mbind option_bind negb]. rewrite Hc. cbn [mbind option_bind]. rewrite (proj2 (Z.ltb_ge _ _) Hirq).
  rewrite !(proj2 (Z.leb_gt _ _)) by done. cbn [orb]. destruct n as [|n]; [lia|].
  assert (wait_vmcs relax (S n) v s = Some (0, s)) as ->.
  { cbn [wait_vmcs]. rewrite Hc. cbn [mbind option_bind]. rewrite Hx. cbn [mbind option_bind]. by rewrite Hidle, Z.eqb_refl. }
  cbn [mbind option_bind]. rewrite Z.eqb_refl. cbn [negb]. rewrite Hc. cbn [mbind option_bind]. rewrite Hx. cbn [mbind option_bind]. rewrite Hp0. cbn [mbind option_bind].
  rewrite Hvm0. cbn [mbind option_bind]. rewrite Hs0. cbn [mbind option_bind].
  set (x1 := mk_vmcs type reason 0 data (default 0 (Some r)) (u64 (host_index x + 1)) (guest_index x)).
  set (s1 := emit _ (put_vcpu v (set_vc_vmcs (Some x1) c) s)).
  assert (exists c0', vcpu_heap s1 !! v0 = Some c0') as [c0' ->].
  { cbn. destruct (decide (v0 = v)) as [->|]; [rewrite lookup_insert_eq|rewrite lookup_insert_ne by done]; by eexists. }
  cbn [mbind option_bind]. rewrite andb_false_r.
  destruct (wait_served k v (fst (f type reason data r)) (snd (f type reason data r)) (S n) s1 Hn) as (s' & c' & x' & -> & Hc' & Hx' & Hr1 & Hr2).
  { apply (Hans s1 (set_vc_vmcs (Some x1) c) x1); [cbn; apply lookup_insert_eq|done|done|]. cbn. by rewrite Hidle. }
  cbn [mbind option_bind]. rewrite Z.eqb_refl. cbn [negb]. rewrite Hc'. cbn [mbind option_bind]. rewrite Hx'. cbn [mbind option_bind fmap option_fmap option_map]. rewrite Hr1, Hr2. by eexists.
Qed.

(** C19: an access of a guest VM that no device of the hypervisor answers is
    answered by the VM manager: the access returns with the value the manager
    gave for it, and is refused exactly when the manager refuses it. *)
Theorem guest_mmio_answered k f n (write : bool) address value w v c m :
  vdevs_ok w -> current = Some v -> vcpu_heap (w_hv w) !! v = Some c -> vm_heap (w_hv w) !! vc_vm c = Some m -> vm_is_native m = false ->
  (forall d o va, d ∈ vdev_list m -> w_objs w !! d = Some o -> va ∈ gvm_area o -> ~ (va_start va <= address <= va_end va)) ->
  send_ok = true -> can_trap v (w_hv w) -> answers k f v -> (k < n)%nat ->
  let '(ret, res) := f VMTRAP_TYPE_MMIO (if write then VMTRAP_REASON_WRITE else VMTRAP_REASON_READ) address value in
  exists s', vdev_mmio_emulation n write address value w = Some (if ret =? - EACCES then - EACCES else 0, res, set_hv s' w).
Proof.
  intros Hw Hcur Hc Hm Hnat Hno Hsend Hct Hans Hn. destruct (vk_list w Hw _ m Hm) as [_ Hl]. unfold vdev_mmio_emulation.
  rewrite Hcur. cbn [mbind option_bind]. rewrite Hc. cbn [mbind option_bind]. rewrite Hm. cbn [mbind option_bind].
  rewrite match_vdev_none. 2:{ intros d Hd. destruct (proj1 (Hl d) Hd) as (o & Ho & _). exists o. split; [done|]. intros va. by apply (Hno d). }
  cbn [mbind option_bind]. rewrite Hnat. destruct (trap_vcpu_answered k f v n VMTRAP_TYPE_MMIO (b2z write) address value (w_hv w)) as [s' E]; try done.
  { by destruct write. }
  rewrite Hcur in E. rewrite E.
  cbn [mbind option_bind]. change (b2z write) with (if write then VMTRAP_REASON_WRITE else VMTRAP_REASON_READ).
  destruct (f VMTRAP_TYPE_MMIO _ address value) as [ret res]. by exists s'.
Qed.

(** ** Paths of the code that go wrong *)

(** The end of an area is exclusive, but the comparison includes it: an access
    to the first address after an area goes to the device of the area, with an
    offset outside of it, although the next area starts there. *)
Lemma mmio_end_goes_to_neighbour n write value w v c m d o va l :
  current = Some v -> vcpu_heap (w_hv w) !! v = Some c -> vm_heap (w_hv w) !! vc_vm c = Some m ->
  vdev_list m = d :: l -> w_objs w !! d = Some o -> gvm_area o = [va] -> area_wf va ->
  vdev_mmio_emulation n write (va_end va) value w
  = ('(_, value', w') ← handle_mmio d o write 0 (va_end va - va_start va) value w; Some (0, value', w')).
Proof.
  intros Hcur Hc Hm Hl Ho Ha [H1 H2]. unfold vdev_mmio_emulation. rewrite Hcur. cbn [mbind option_bind]. rewrite Hc. cbn [mbind option_bind]. rewrite Hm. cbn [mbind option_bind].
  rewrite Hl. cbn [match_vdev]. rewrite Ho. cbn [mbind option_bind]. rewrite Ha. cbn [match_area]. rewrite !(proj2 (Z.leb_le _ _)) by lia. cbn [andb mbind option_bind]. rewrite Ho.
  cbn [mbind option_bind]. by rewrite u64_small by lia.
Qed.

(** Asking for an area that a device does not have follows NULL. *)
Lemma get_vmm_area_no_null d idx w o : w_objs w !! d = Some o -> Z.of_nat (length (gvm_area o)) <= idx -> vdev_get_vmm_area d idx w = None.
Proof.
  intros Ho. unfold vdev_get_vmm_area. rewrite Ho. cbn [mbind option_bind]. clear Ho. revert idx. induction (gvm_area o) as [|va l IH]; intros idx H; [done|]. cbn [get_area_walk length] in *.
  rewrite (proj2 (Z.eqb_neq _ _)) by lia. apply IH. lia.
Qed.
End mmio.

(** ** A VM with two devices, whose accesses are logged *)
Definition demo_call (f d idx offset value : Z) (w : vdw (list Z)) : option (Z * Z * vdw (list Z)) :=
  Some (0, 0x55, set_dev (w_dev w ++ [f; d; idx; offset; value]) w).

Definition demo_vdev_vm (fl : Z) : vm := mk_vm 1 1 VM_STATE_ONLINE fl [0] 0 0 0 [Ptr (Some 2)] [] (false, false, false).
Definition demo_vdev_vcpu : vcpu := mk_vcpu 0 1 None 0 TASK_STATE_RUNNING true false 0 (Some (mk_vmcs 0 0 0 0 0 7 7)) 40 true false.
Definition demo_vdev_hv (fl : Z) : hv := mk_hv {[1 := demo_vdev_vm fl]} {[2 := demo_vdev_vcpu]} 3 [None; Some 1] [1] 1 [3] (Some 1) 0 0 [0] [] [].
Definition demo_vdw0 (fl : Z) : vdw (list Z) := mk_vdw (demo_vdev_hv fl) ∅ {[1 := mk_areas [mk_area 0 0x40000000 0 0 0 []] []]} [].

(** Setting up device [d] with one page of registers at [base]. *)
Definition demo_setup (d base : Z) (w : vdw (list Z)) : option (vdw (list Z)) :=
  let w := host_vdev_init (Some 1) d w in
  '(_, _, w) ← vdev_add_iomem_range (Some d) base 0x1000 [true; true] w;
  o ← w_objs w !! d;
  vdev_add d (put_vdev d (set_ops (Some 5) (Some 6) None None o) w).

Definition demo_vdw (fl : Z) : vdw (list Z) := default (demo_vdw0 fl) (w ← demo_setup 10 0x1000 (demo_vdw0 fl); demo_setup 11 0x3000 w).

Lemma demo_vdw0_ok fl : vdevs_ok (demo_vdw0 fl).
Proof.
  split; cbn.
  - intros p a. rewrite lookup_singleton_Some. intros [<- <-]. split; [by repeat constructor|]. split; [done|]. intros a. cbn. unfold cov. cbn. destruct (rng_cases 0 0x40000000 a) as [[-> _]|[-> _]]; lia.
  - intros p m. rewrite lookup_singleton_Some. intros [<- <-]. split; [apply NoDup_nil_2|]. intros d. cbn. rewrite lookup_empty. set_solver.
  - intros p mm a _. unfold dev_cov. rewrite map_to_list_empty. apply cov_nonneg.
  - intros d o va. by rewrite lookup_empty.
Qed.

Lemma demo_setup_steps d base w w' : 0 <= base < 2 ^ 60 -> w_objs w !! d = None -> demo_setup d base w = Some w' -> rtc vdev_step w w'.
Proof.
  intros Hb Hd E. unfold demo_setup in E. destruct (vdev_add_iomem_range (Some d) base 0x1000 [true; true] (host_vdev_init (Some 1) d w)) as [[[r oks] w1]|] eqn:E1; [|done].
  cbn [mbind option_bind] in E. destruct (w_objs w1 !! d) as [o|] eqn:Ho; [|done]. cbn [mbind option_bind] in E.
  eapply rtc_l; [by apply step_init|]. eapply rtc_l; [eapply (step_iomem d base 0x1000 [true; true]); [lia..|exact E1]|].
  eapply rtc_l; [by apply step_ops|]. eapply rtc_l; [eapply step_add, E|]. done.
Qed.

Lemma demo_vdw_steps fl : rtc vdev_step (demo_vdw0 fl) (demo_vdw fl).
Proof.
  unfold demo_vdw. destruct (demo_setup 10 0x1000 (demo_vdw0 fl)) as [w1|] eqn:E1; [|done]. cbn [mbind option_bind].
  destruct (demo_setup 11 0x3000 w1) as [w2|] eqn:E2; [|done]. cbn [default]. etransitivity; [by eapply demo_setup_steps; [| |exact E1]|].
  eapply demo_setup_steps; [| |exact E2]; [done|]. vm_compute in E1. injection E1 as <-. done.
Qed.

Lemma vdev_reachable_ok_witness : vdevs_ok (demo_vdw VM_FLAGS_NATIVE).
Proof. exact (vdev_reachable_ok _ _ (demo_vdw0_ok VM_FLAGS_NATIVE) (demo_vdw_steps VM_FLAGS_NATIVE)). Defined.

Definition demo_mmio := vdev_mmio_emulation demo_call (Some 2) (fun s => s) true 1.

Definition demo_dev11 : vdev := mk_vdev (Some 1) 1 [mk_area 0x3000 0x4000 BAD_ADDRESS VM_GUEST_VDEV 0 []] true (Some 5) (Some 6) None None.

(** A write to offset 0x18 of the second device. *)
Lemma vdev_mmio_dispatch_witness : (fun r => w_dev (snd r)) <$> demo_mmio true 0x3018 9 (demo_vdw VM_FLAGS_NATIVE) = Some [6; 11; 0; 0x18; 9].
Proof.
  assert (vdevs_ok (demo_vdw VM_FLAGS_NATIVE)) as Hok by exact (keep_steps _ _ (demo_vdw0_ok VM_FLAGS_NATIVE) (demo_vdw_steps VM_FLAGS_NATIVE)).
  pose proof (vdev_mmio_dispatch demo_call (Some 2) (fun s => s) true 1 true 0x3018 9 (demo_vdw VM_FLAGS_NATIVE) 2 demo_vdev_vcpu
    (set_vdev_list [10; 11] (demo_vdev_vm VM_FLAGS_NATIVE)) _ Hok eq_refl eq_refl eq_refl eq_refl) as H.
  destruct H as [H _].
  - intros d o va Hd. cbn in Hd. apply elem_of_cons in Hd as [->|Hd%list_elem_of_singleton]; [|subst d]; intros Ho; vm_compute in Ho; injection Ho as <-; intros ->%list_elem_of_singleton; cbn; lia.
  - destruct (H 11 demo_dev11 0%nat (mk_area 0x3000 0x4000 BAD_ADDRESS VM_GUEST_VDEV 0 [])) as [E _]; [apply elem_of_cons; right; by apply list_elem_of_singleton|vm_compute; reflexivity|reflexivity|cbn; lia|].
    unfold demo_mmio. rewrite E. vm_compute. reflexivity.
Defined.

(** A host VM that answers every trap in its next turn with the value 0x77. *)
Definition demo_answer (s : hv) : hv :=
  set_vcpu_heap ((fun c => match vc_vmcs c with
                           | Some x => set_vc_vmcs (Some (mk_vmcs (trap_type x) (trap_reason x) 0 (trap_data x) 0x77 (host_index x) (host_index x))) c
                           | None => c
                           end) <$> vcpu_heap s) s.

Lemma demo_answers v : answers demo_answer 1 (fun _ _ _ _ => (0, 0x77)) v.
Proof.
  intros s c x Hc Hx Hf Hi. cbn [served_in fst snd]. destruct (decide (guest_index x = host_index x)) as [E|E].
  - exfalso. rewrite Hi in E. pose proof (Z.mod_pos_bound (guest_index x + 1) (2 ^ 64) ltac:(lia)). unfold u64 in E.
    assert ((guest_index x + 1) mod 2 ^ 64 <> guest_index x) as Hne; [|congruence]. intros H1.
    pose proof (Z.div_mod (guest_index x + 1) (2 ^ 64) ltac:(lia)). rewrite H1 in *. nia.
  - right. exists c, x. split; [done|]. split; [done|]. split; [done|]. cbn. rewrite lookup_fmap, Hc. cbn. rewrite Hx. split; [by eexists|].
    left. eexists _, _. by split_and!.
Qed.

Lemma guest_mmio_answered_witness : (fun r => (fst (fst r), snd (fst r))) <$> vdev_mmio_emulation demo_call (Some 2) demo_answer true 2 false 0x8000 0 (demo_vdw 0) = Some (0, 0x77).
Proof.
  assert (vdevs_ok (demo_vdw 0)) as Hok by exact (keep_steps _ _ (demo_vdw0_ok 0) (demo_vdw_steps 0)).
  pose proof (guest_mmio_answered demo_call (Some 2) demo_answer true 1 (fun _ _ _ _ => (0, 0x77)) 2 false 0x8000 0 (demo_vdw 0) 2 demo_vdev_vcpu
    (set_vdev_list [10; 11] (demo_vdev_vm 0)) Hok eq_refl eq_refl eq_refl eq_refl) as H.
  destruct H as [s' E].
  - intros d o va Hd. cbn in Hd. apply elem_of_cons in Hd as [->|Hd%list_elem_of_singleton]; [|subst d]; intros Ho; vm_compute in Ho; injection Ho as <-; intros ->%list_elem_of_singleton; cbn; lia.
  - done.
  - split; [exists demo_vdev_vcpu; eexists; by split_and!|]. eexists 1, _, 2, _. by split_and!.
  - apply demo_answers.
  - lia.
  - rewrite E. reflexivity.
Defined.
