(* ===== verification/Trap.v ===== *)
(** * Exceptions of a guest (arch/aarch64/virt/{trap,svc_service,smc_service}.c,
      virt/vfault.c, virt/hypercall.c)

    A guest enters the hypervisor with an exception: an access to a device, a
    system register, WFI, a hypercall or a secure monitor call.  The saved
    registers [gp_regs] are the 34 words of struct aarch64_regs, which ends at
    the top of the kernel stack: an access behind it is [None].  ESR, FAR and
    HPFAR are arguments; [va_to_ipa] is the address translation instruction of
    the CPU.  The handlers that a VM may have for registers and calls
    ([arm_virt_data]) are functions on the machine state.  [None] is a panic of
    the hypervisor, a failed assertion or a wild access. *)
From S2P Require Import Prelude Bitops Bitmap Stage2 VmmArea Sched Vm VmPm Vdev.

Definition ESR_ELx_EC_UNKNOWN : Z := 0x00.
Definition ESR_ELx_EC_WFx : Z := 0x01.
Definition ESR_ELx_EC_CP15_32 : Z := 0x03.
Definition ESR_ELx_EC_CP15_64 : Z := 0x04.
Definition ESR_ELx_EC_CP14_MR : Z := 0x05.
Definition ESR_ELx_EC_CP14_LS : Z := 0x06.
Definition ESR_ELx_EC_FP_ASIMD : Z := 0x07.
Definition ESR_ELx_EC_CP10_ID : Z := 0x08.
Definition ESR_ELx_EC_CP14_64 : Z := 0x0C.
Definition ESR_ELx_EC_ILL : Z := 0x0E.
Definition ESR_ELx_EC_HVC32 : Z := 0x12.
Definition ESR_ELx_EC_SMC32 : Z := 0x13.
Definition ESR_ELx_EC_HVC64 : Z := 0x16.
Definition ESR_ELx_EC_SMC64 : Z := 0x17.
Definition ESR_ELx_EC_SYS64 : Z := 0x18.
Definition ESR_ELx_EC_IABT_LOW : Z := 0x20.
Definition ESR_ELx_EC_PC_ALIGN : Z := 0x22.
Definition ESR_ELx_EC_DABT_LOW : Z := 0x24.
Definition ESR_ELx_EC_SP_ALIGN : Z := 0x26.
Definition ESR_ELx_EC_FP_EXC32 : Z := 0x28.
Definition ESR_ELx_EC_FP_EXC64 : Z := 0x2C.
Definition ESR_ELx_EC_SERROR : Z := 0x2F.
Definition ESR_ELx_EC_MAX : Z := 0x3F.
Definition ESR_ELx_EC_SHIFT : Z := 26.
Definition ESR_ELx_EC_MASK : Z := Z.shiftl 0x3F ESR_ELx_EC_SHIFT.
Definition ESR_ELx_WNR : Z := Z.shiftl 1 6.
Definition ESR_ELx_S1PTW : Z := Z.shiftl 1 7.
Definition ESR_ELx_ISV : Z := Z.shiftl 1 24.
Definition ESR_ELx_SRT (v : Z) : Z := Z.shiftr (Z.land v (Z.shiftl 0x1F 16)) 16.
Definition ESR_ELx_FSC_TYPE : Z := 0x3C.
Definition FSC_FAULT : Z := 0x04.
Definition FSC_PERM : Z := 0x0C.
Definition FSC_SEA : Z := 0x10.
Definition FSC_SEA_TTW0 : Z := 0x14.
Definition FSC_SEA_TTW1 : Z := 0x15.
Definition FSC_SEA_TTW2 : Z := 0x16.
Definition FSC_SEA_TTW3 : Z := 0x17.
Definition FSC_SECC : Z := 0x18.
Definition FSC_SECC_TTW0 : Z := 0x1c.
Definition FSC_SECC_TTW1 : Z := 0x1d.
Definition FSC_SECC_TTW2 : Z := 0x1e.
Definition FSC_SECC_TTW3 : Z := 0x1f.
Definition HPFAR_MASK : Z := Z.shiftl (Z.ones 36) 4.

(** ESR_SYSREG(op0, op1, crn, crm, op2). *)
Definition ESR_SYSREG (op0 op1 crn crm op2 : Z) : Z :=
  Z.lor (Z.lor (Z.lor (Z.lor (Z.shiftl op0 20) (Z.shiftl op1 14)) (Z.shiftl crn 10)) (Z.shiftl crm 1)) (Z.shiftl op2 17).
Definition ESR_SYSREG_REGS_MASK : Z :=
  Z.lor (Z.lor (Z.lor (Z.lor 0x00300000 0x0001c000) 0x00003c00) 0x0000001e) 0x000e0000.
Definition ESR_SYSREG_ICC_SGI1R_EL1 : Z := ESR_SYSREG 3 0 12 11 5.
Definition ESR_SYSREG_ICC_ASGI1R_EL1 : Z := ESR_SYSREG 3 1 12 11 6.
Definition ESR_SYSREG_ICC_SGI0R_EL1 : Z := ESR_SYSREG 3 2 12 11 7.
Definition ESR_SYSREG_CNTPCT_EL0 : Z := ESR_SYSREG 3 3 14 0 0.
Definition ESR_SYSREG_CNTP_TVAL_EL0 : Z := ESR_SYSREG 3 3 14 2 0.
Definition ESR_SYSREG_CNTP_CTL_EL0 : Z := ESR_SYSREG 3 3 14 2 1.
Definition ESR_SYSREG_CNTP_CVAL_EL0 : Z := ESR_SYSREG 3 3 14 2 2.
Definition ESR_SYSREG_DCZVA : Z := ESR_SYSREG 1 3 7 4 1.

Definition SVC_CTYPE_MASK : Z := 0x80000000.
Definition SVC_STYPE_MASK : Z := 0x3f000000.
Definition SVC_STYPE_SIP : Z := 0x02.
Definition SVC_STYPE_STDSMC : Z := 0x04.
Definition SVC_STYPE_MAX : Z := 64.

(** ** Registers (arch/aarch64/include/asm/arch.h) *)
Definition GP_REGS : Z := 34.

Definition get_reg_value (regs : list Z) (index : Z) : option Z := regs !! Z.to_nat (index + 3).
Definition set_reg_value (regs : list Z) (index value : Z) : option (list Z) :=
  if index + 3 <? Z.of_nat (length regs) then Some (<[Z.to_nat (index + 3) := u64 value]> regs) else None.

Definition SVC_RET1 {W} (regs : list Z) (a0 : Z) (w : W) : option (Z * list Z * W) :=
  regs ← set_reg_value regs 0 a0; Some (0, regs, w).
Definition SVC_RET2 {W} (regs : list Z) (a0 a1 : Z) (w : W) : option (Z * list Z * W) :=
  regs ← set_reg_value regs 0 a0; regs ← set_reg_value regs 1 a1; Some (0, regs, w).

Section trap.
Context {D : Type}.
Implicit Type w : vdw D.

Definition svc_handler : Type := list Z -> Z -> list Z -> vdw D -> option (Z * list Z * vdw D).

Record svc_desc := mk_svc_desc {
  type_start : Z;
  type_end : Z;
  handler : svc_handler;
}.

(** The handlers of a VM that its interrupt chip and its operating system
    support install (arch/aarch64/include/asm/virt.h). *)
Record arm_virt_data := mk_arm_data {
  dczva_trap : option (Z -> Z -> vdw D -> option (Z * vdw D));
  sgi1r_el1_trap : option (Z -> Z -> vdw D -> option (Z * vdw D));
  phy_timer_trap : option (Z -> Z -> bool -> Z -> vdw D -> option (Z * Z * vdw D));
  smc_handler : option (Z -> list Z -> Z -> vdw D -> option (Z * list Z * vdw D));
  hvc_handler : option (Z -> list Z -> Z -> vdw D -> option (Z * list Z * vdw D));
  sysreg_emulation : option (Z -> Z -> bool -> Z -> vdw D -> option (Z * Z * vdw D));
}.

Context (CONFIG_MAX_VM this_cpu : Z) (current : option Z) (relax : hv -> hv) (has_irq : Z -> bool) (send_ok post_ok : bool).
Context (call : Z -> Z -> Z -> Z -> Z -> vdw D -> option (Z * Z * vdw D)).
Context (arch_data : Z -> arm_virt_data) (va_to_ipa : Z -> Z).
Context (smc_descs hvc_descs : list (option svc_desc)).

(** ** Calls (svc_service.c) *)
Definition do_svc_handler (regs : list Z) (svc_id : Z) (args : list Z) (smc : bool) w : option (Z * list Z * vdw D) :=
  let table := if smc then smc_descs else hvc_descs in
  let type := Z.shiftr (Z.land svc_id SVC_STYPE_MASK) 24 in
  if SVC_STYPE_MAX <? type then SVC_RET1 regs (- EINVAL) w
  else
    desc ← table !! Z.to_nat type;
    match desc with
    | None => SVC_RET1 regs (- EINVAL) w
    | Some desc => handler desc regs svc_id args w
    end.

Fixpoint set_descs (n : nat) (j : Z) (desc : svc_desc) (table : list (option svc_desc)) : list (option svc_desc) :=
  match n with O => table | S n => set_descs n (j + 1) desc (<[Z.to_nat j := Some desc]> table) end.

Fixpoint parse_svc_desc (l : list svc_desc) (table : list (option svc_desc)) : option (list (option svc_desc)) :=
  match l with
  | [] => Some table
  | desc :: l =>
      _ ← assert_ (negb ((type_end desc <? type_start desc) || (SVC_STYPE_MAX <=? type_end desc)));
      parse_svc_desc l (set_descs (Z.to_nat (type_end desc - type_start desc + 1)) (type_start desc) desc table)
  end.

(** ** The handlers (trap.c) *)
Definition __arm_svc_handler (regs : list Z) (smc : bool) w : option (Z * list Z * vdw D) :=
  id ← get_reg_value regs 0;
  args ← mapM (get_reg_value regs) [1; 2; 3; 4; 5; 6];
  do_svc_handler regs (u32 id) args smc w.

Definition data_of w : option (Z * arm_virt_data) :=
  v ← current; c ← vcpu_heap (w_hv w) !! v; Some (v, arch_data (vc_vm c)).

Definition aarch64_hypercall_handler (regs : list Z) (esr : Z) w : option (Z * list Z * vdw D) :=
  '(v, a) ← data_of w;
  match hvc_handler a with Some f => f v regs esr w | None => __arm_svc_handler regs false w end.

(** The handler for SMC is called when the one for HVC is set. *)
Definition aarch64_smccall_handler (regs : list Z) (esr : Z) w : option (Z * list Z * vdw D) :=
  '(v, a) ← data_of w;
  match hvc_handler a with Some _ => f ← smc_handler a; f v regs esr w | None => __arm_svc_handler regs true w end.

Definition wfi_wfe_handler (regs : list Z) w : option (Z * list Z * vdw D) :=
  v ← current;
  '(_, s) ← vcpu_idle relax has_irq v (w_hv w);
  Some (0, regs, set_hv s w).

(** The fields of the AArch32 access to ICC_SGI1R and its kin:
    HSR_CPREG64(p15, op1, crm). *)
Definition HSR_CP64_REGS_MASK : Z := Z.lor 0x000f0000 0x0000001e.
Definition HSR_CPREG64 (op1 crm : Z) : Z := Z.lor (Z.shiftl crm 1) (Z.shiftl op1 16).

Definition mcrr_mrrc_cp15_handler (regs : list Z) (esr : Z) w : option (Z * list Z * vdw D) :=
  '(v, a) ← data_of w;
  let r := Z.land esr HSR_CP64_REGS_MASK in
  if (r =? HSR_CPREG64 0 12) || (r =? HSR_CPREG64 1 12) || (r =? HSR_CPREG64 2 12) then
    match sgi1r_el1_trap a with
    | Some f =>
        if Z.testbit esr 0 then Some (0, regs, w)
        else
          r0 ← get_reg_value regs (Z.land (Z.shiftr esr 5) 0x1f);
          r1 ← get_reg_value regs (Z.land (Z.shiftr esr 10) 0x1f);
          '(_, w) ← f v (Z.lor (u64 (Z.shiftl r1 32)) r0) w;
          Some (0, regs, w)
    | None => Some (0, regs, w)
    end
  else Some (0, regs, w).

(** An access to a system register: what the handler of the register does with
    the value. *)
Definition sysreg_access (v : Z) (a : arm_virt_data) (name : Z) (read : bool) (value : Z) w : option (Z * Z * vdw D) :=
  if (name =? ESR_SYSREG_ICC_SGI1R_EL1) || (name =? ESR_SYSREG_ICC_ASGI1R_EL1) || (name =? ESR_SYSREG_ICC_SGI0R_EL1) then
    match sgi1r_el1_trap a with
    | Some f => if read then Some (0, value, w) else '(_, w) ← f v value w; Some (0, value, w)
    | None => Some (0, value, w)
    end
  else if (name =? ESR_SYSREG_CNTPCT_EL0) || (name =? ESR_SYSREG_CNTP_TVAL_EL0) || (name =? ESR_SYSREG_CNTP_CTL_EL0) || (name =? ESR_SYSREG_CNTP_CVAL_EL0) then
    match phy_timer_trap a with Some f => f v name read value w | None => Some (0, value, w) end
  else if name =? ESR_SYSREG_DCZVA then
    match dczva_trap a with
    | Some f => if read then Some (0, value, w) else '(r, w) ← f v value w; Some (r, value, w)
    | None => Some (0, value, w)
    end
  else
    match sysreg_emulation a with Some f => f v name read value w | None => Some (0, value, w) end.

Definition access_system_reg_handler (regs : list Z) (esr : Z) w : option (Z * list Z * vdw D) :=
  '(v, a) ← data_of w;
  let regindex := Z.land (Z.shiftr esr 5) 0x1f in
  let read := Z.testbit esr 0 in
  value ← (if read then Some 0 else get_reg_value regs regindex);
  '(ret, value, w) ← sysreg_access v a (Z.land esr ESR_SYSREG_REGS_MASK) read value w;
  regs ← (if read then set_reg_value regs regindex value else Some regs);
  Some (ret, regs, w).

Definition dabt_isextabt (dfsc : Z) : bool :=
  (dfsc =? FSC_SEA) || (dfsc =? FSC_SEA_TTW0) || (dfsc =? FSC_SEA_TTW1) || (dfsc =? FSC_SEA_TTW2) || (dfsc =? FSC_SEA_TTW3)
  || (dfsc =? FSC_SECC) || (dfsc =? FSC_SECC_TTW0) || (dfsc =? FSC_SECC_TTW1) || (dfsc =? FSC_SECC_TTW2) || (dfsc =? FSC_SECC_TTW3).

Definition get_faulting_ipa (vaddr hpfar : Z) : Z :=
  Z.lor (u64 (Z.shiftl (Z.land hpfar HPFAR_MASK) 8)) (Z.land vaddr PAGE_MASK).

Definition dabt_iswrite (esr : Z) : bool := negb (Z.land esr ESR_ELx_WNR =? 0) || negb (Z.land esr ESR_ELx_S1PTW =? 0).

Definition vcpu_fault (fuel : nat) (v : Z) w : option (vdw D) :=
  c ← vcpu_heap (w_hv w) !! v;
  m ← vm_heap (w_hv w) !! vc_vm c;
  '(_, s) ← vm_power_off CONFIG_MAX_VM this_cpu current relax send_ok post_ok fuel (vmid m) VM_PM_ACTION_BY_HOST (w_hv w);
  Some (set_hv s w).

Definition dataabort_fail (fuel : nat) (regs : list Z) w : option (Z * list Z * vdw D) :=
  v ← current; w ← vcpu_fault fuel v w; Some (- EFAULT, regs, w).

Definition dataabort_tfl_handler (fuel : nat) (regs : list Z) (esr far hpfar : Z) w : option (Z * list Z * vdw D) :=
  let dfsc := Z.land esr ESR_ELx_FSC_TYPE in
  if dabt_isextabt dfsc then dataabort_fail fuel regs w
  else if negb (dfsc =? FSC_FAULT) && negb (dfsc =? FSC_PERM) then dataabort_fail fuel regs w
  else if Z.land esr ESR_ELx_ISV =? 0 then dataabort_fail fuel regs w
  else
    let iswrite := dabt_iswrite esr in
    let reg := ESR_ELx_SRT esr in
    value ← (if iswrite then get_reg_value regs reg else Some 0);
    let ipa := if negb (Z.land esr ESR_ELx_S1PTW =? 0) || (dfsc =? FSC_FAULT) then get_faulting_ipa far hpfar else va_to_ipa far in
    '(ret, value, w) ← vdev_mmio_emulation call current relax send_ok fuel iswrite ipa value w;
    if ret =? - EACCES then dataabort_fail fuel regs w
    else regs ← (if iswrite then Some regs else set_reg_value regs reg value); Some (0, regs, w).

(** ** The table of the exception classes *)
Inductive sync_handler := h_unknown | h_wfx | h_cp15_32 | h_cp15_64 | h_ignored | h_panic | h_sys64 | h_dabt | h_hvc | h_smc.

Definition guest_sync_descs (ec : Z) : sync_handler :=
  if ec =? ESR_ELx_EC_WFx then h_wfx
  else if ec =? ESR_ELx_EC_CP15_32 then h_cp15_32
  else if ec =? ESR_ELx_EC_CP15_64 then h_cp15_64
  else if (ec =? ESR_ELx_EC_CP14_MR) || (ec =? ESR_ELx_EC_CP14_LS) || (ec =? ESR_ELx_EC_FP_ASIMD) || (ec =? ESR_ELx_EC_CP10_ID)
          || (ec =? ESR_ELx_EC_CP14_64) || (ec =? ESR_ELx_EC_ILL) then h_ignored
  else if ec =? ESR_ELx_EC_SYS64 then h_sys64
  else if (ec =? ESR_ELx_EC_IABT_LOW) || (ec =? ESR_ELx_EC_PC_ALIGN) || (ec =? ESR_ELx_EC_SP_ALIGN) || (ec =? ESR_ELx_EC_FP_EXC32)
          || (ec =? ESR_ELx_EC_FP_EXC64) || (ec =? ESR_ELx_EC_SERROR) then h_panic
  else if ec =? ESR_ELx_EC_DABT_LOW then h_dabt
  else if (ec =? ESR_ELx_EC_HVC32) || (ec =? ESR_ELx_EC_HVC64) then h_hvc
  else if (ec =? ESR_ELx_EC_SMC32) || (ec =? ESR_ELx_EC_SMC64) then h_smc
  else h_unknown.

Definition ret_addr_adjust (h : sync_handler) : Z := match h with h_hvc => 0 | _ => 4 end.

Definition run_handler (fuel : nat) (h : sync_handler) (regs : list Z) (esr far hpfar : Z) w : option (Z * list Z * vdw D) :=
  match h with
  | h_unknown | h_cp15_32 | h_ignored => Some (0, regs, w)
  | h_wfx => wfi_wfe_handler regs w
  | h_cp15_64 => mcrr_mrrc_cp15_handler regs esr w
  | h_sys64 => access_system_reg_handler regs esr w
  | h_panic => None
  | h_dabt => dataabort_tfl_handler fuel regs esr far hpfar w
  | h_hvc => aarch64_hypercall_handler regs esr w
  | h_smc => aarch64_smccall_handler regs esr w
  end.

(** [regs->pc += adjust]. *)
Definition add_pc (n : Z) (regs : list Z) : option (list Z) := pc ← regs !! 0%nat; Some (<[0%nat := u64 (pc + n)]> regs).

Definition handle_vcpu_sync_exception (fuel : nat) (regs : list Z) (esr far hpfar : Z) w : option (list Z * vdw D) :=
  v ← current;
  c ← vcpu_heap (w_hv w) !! v;
  _ ← assert_ (vc_affinity c =? this_cpu);
  let ec_type := Z.shiftr (Z.land esr ESR_ELx_EC_MASK) ESR_ELx_EC_SHIFT in
  if ESR_ELx_EC_MAX <=? ec_type then Some (regs, w)
  else
    let h := guest_sync_descs ec_type in
    regs ← add_pc (ret_addr_adjust h) regs;
    '(_, regs, w) ← run_handler fuel h regs esr far hpfar w;
    Some (regs, w).

(** ** What a data abort does *)

(** The abort is one that the hypervisor can emulate: a translation or permission
    fault with a valid syndrome, from register [reg]. *)
Record emulated (esr reg : Z) : Prop := mk_emulated {
  em_ec : Z.shiftr (Z.land esr ESR_ELx_EC_MASK) ESR_ELx_EC_SHIFT = ESR_ELx_EC_DABT_LOW;
  em_fsc : Z.land esr ESR_ELx_FSC_TYPE = FSC_FAULT \/ Z.land esr ESR_ELx_FSC_TYPE = FSC_PERM;
  em_isv : Z.land esr ESR_ELx_ISV <> 0;
  em_reg : ESR_ELx_SRT esr = reg;
}.

(** The intermediate physical address of the access: a permission fault of the
    access itself is translated, other faults report it. *)
Definition accessed_ipa (esr far hpfar : Z) : Z :=
  if (Z.land esr ESR_ELx_S1PTW =? 0) && (Z.land esr ESR_ELx_FSC_TYPE =? FSC_PERM) then va_to_ipa far else get_faulting_ipa far hpfar.

Definition next_pc (regs : list Z) (pc : Z) : list Z := <[0%nat := u64 (pc + 4)]> regs.

Lemma sync_run fuel regs esr far hpfar w v c pc :
  current = Some v -> vcpu_heap (w_hv w) !! v = Some c -> vc_affinity c = this_cpu -> regs !! 0%nat = Some pc ->
  Z.shiftr (Z.land esr ESR_ELx_EC_MASK) ESR_ELx_EC_SHIFT = ESR_ELx_EC_DABT_LOW ->
  handle_vcpu_sync_exception fuel regs esr far hpfar w
  = ('(_, regs', w') ← dataabort_tfl_handler fuel (next_pc regs pc) esr far hpfar w; Some (regs', w')).
Proof.
  intros Hcur Hc Ha Hpc He. unfold handle_vcpu_sync_exception. rewrite Hcur. cbn [mbind option_bind]. rewrite Hc. cbn [mbind option_bind].
  rewrite (proj2 (Z.eqb_eq _ _) Ha). cbn [assert_ mbind option_bind]. rewrite He. change (ESR_ELx_EC_MAX <=? ESR_ELx_EC_DABT_LOW) with false. cbn iota.
  change (guest_sync_descs ESR_ELx_EC_DABT_LOW) with h_dabt. cbn [ret_addr_adjust]. unfold add_pc. rewrite Hpc. cbn [mbind option_bind run_handler]. done.
Qed.

Lemma emulated_run fuel regs esr far hpfar w reg : emulated esr reg ->
  dataabort_tfl_handler fuel regs esr far hpfar w =
    (value ← (if dabt_iswrite esr then get_reg_value regs reg else Some 0);
     '(ret, value, w) ← vdev_mmio_emulation call current relax send_ok fuel (dabt_iswrite esr) (accessed_ipa esr far hpfar) value w;
     if ret =? - EACCES then dataabort_fail fuel regs w
     else regs ← (if dabt_iswrite esr then Some regs else set_reg_value regs reg value); Some (0, regs, w)).
Proof.
  intros [Hec Hfsc Hisv Hreg]. unfold dataabort_tfl_handler, accessed_ipa. rewrite Hreg, (proj2 (Z.eqb_neq _ _) Hisv).
  destruct Hfsc as [-> | ->]; destruct (Z.land esr ESR_ELx_S1PTW =? 0); done.
Qed.

(** C5: a VM accesses an address inside an area of one of its devices, by a
    translation or permission fault with a valid syndrome, from one of the
    registers x0 to x30 (not the zero register, see [zero_register_overflows]),
    and no device of the VM has an area that ends exactly at the address (the
    code takes such an area for a hit).  The hypervisor gives the access to that
    device with the offset in the area: a store passes the value of the register
    of the instruction, a load puts the value of the device into it; the
    instruction is stepped over and no other register of the guest changes. *)
Theorem guest_mmio_access fuel regs esr far hpfar w v c m mm pc reg d o i va :
  vdevs_ok w -> current = Some v -> vcpu_heap (w_hv w) !! v = Some c -> vm_heap (w_hv w) !! vc_vm c = Some m -> w_mm w !! vc_vm c = Some mm ->
  vc_affinity c = this_cpu -> Z.of_nat (length regs) = GP_REGS -> regs !! 0%nat = Some pc ->
  emulated esr reg -> 0 <= reg < 31 ->
  let ipa := accessed_ipa esr far hpfar in
  (forall d o va, d ∈ vdev_list m -> w_objs w !! d = Some o -> va ∈ gvm_area o -> va_end va <> ipa) ->
  d ∈ vdev_list m -> w_objs w !! d = Some o -> gvm_area o !! i = Some va -> va_start va <= ipa < va_end va ->
  exists x, regs !! Z.to_nat (reg + 3) = Some x /\
  handle_vcpu_sync_exception fuel regs esr far hpfar w
  = ('(_, value, w') ← handle_mmio call d o (dabt_iswrite esr) (Z.of_nat i) (ipa - va_start va) (if dabt_iswrite esr then x else 0) w;
     Some (if dabt_iswrite esr then next_pc regs pc else <[Z.to_nat (reg + 3) := u64 value]> (next_pc regs pc), w')).
Proof.
  intros Hw Hcur Hc Hm Hmm Ha Hlen Hpc [Hec Hfsc Hisv Hreg] Hr ipa Hend Hd Ho Hi Hin.
  destruct (lookup_lt_is_Some_2 regs (Z.to_nat (reg + 3))) as [x Hx]; [unfold GP_REGS in Hlen; lia|]. exists x. split; [done|].
  rewrite (sync_run fuel regs esr far hpfar w v c pc) by done. rewrite (emulated_run _ _ _ _ _ _ reg) by (by split). fold ipa. clear Hfsc.
  assert (get_reg_value (next_pc regs pc) reg = Some x) as Hg.
  { unfold get_reg_value, next_pc. by rewrite list_lookup_insert_ne by lia. }
  assert (forall value, set_reg_value (next_pc regs pc) reg value = Some (<[Z.to_nat (reg + 3) := u64 value]> (next_pc regs pc))) as Hs.
  { intros value. unfold set_reg_value, next_pc. rewrite length_insert. rewrite (proj2 (Z.ltb_lt _ _)) by (unfold GP_REGS in Hlen; lia). done. }
  destruct (mmio_dispatch_spec call current relax send_ok fuel (dabt_iswrite esr) ipa (if dabt_iswrite esr then x else 0) w v c m mm) as [Hdis _]; try done.
  destruct (Hdis d o i va Hd Ho Hi Hin) as [E _]. rewrite Hg. destruct (dabt_iswrite esr) eqn:Ew; cbn [mbind option_bind]; rewrite E.
  - destruct (handle_mmio call d o true _ _ _ w) as [[[r value] w']|]; [|done]. cbn [mbind option_bind]. done.
  - destruct (handle_mmio call d o false _ _ _ w) as [[[r value] w']|]; [|done]. cbn [mbind option_bind]. change (0 =? - EACCES) with false. cbn iota. by rewrite Hs.
Qed.

(** ** Guests that stop the hypervisor *)

(** A guest that jumps to an unmapped address, misaligns its pc or its stack
    pointer, or takes a trapped floating point exception, panics the
    hypervisor. *)
Lemma guest_instruction_abort_panics fuel regs esr far hpfar w : 
  Z.shiftr (Z.land esr ESR_ELx_EC_MASK) ESR_ELx_EC_SHIFT = ESR_ELx_EC_IABT_LOW -> handle_vcpu_sync_exception fuel regs esr far hpfar w = None.
Proof.
  intros He. unfold handle_vcpu_sync_exception. destruct current as [v|]; [|done]. cbn [mbind option_bind]. destruct (vcpu_heap (w_hv w) !! v) as [c|]; [|done]. cbn [mbind option_bind].
  destruct (assert_ _); [|done]. cbn [mbind option_bind]. rewrite He. change (ESR_ELx_EC_MAX <=? ESR_ELx_EC_IABT_LOW) with false. cbn iota.
  change (guest_sync_descs ESR_ELx_EC_IABT_LOW) with h_panic. destruct (add_pc _ regs); done.
Qed.

(** A load from a device into the zero register writes behind the saved
    registers, over what lies above the kernel stack. *)
Lemma zero_register_overflows (regs : list Z) value : Z.of_nat (length regs) = GP_REGS -> set_reg_value regs 31 value = None.
Proof. intros H. unfold set_reg_value. rewrite H. done. Qed.

(** A fault of a native VM that may not be reset changes nothing: the guest
    goes on behind the access. *)
Lemma native_fault_goes_on fuel regs w v c m (id : nat) p :
  current = Some v -> vcpu_heap (w_hv w) !! v = Some c -> vc_vm c = p -> vm_heap (w_hv w) !! p = Some m -> vmid m = Z.of_nat id ->
  0 < Z.of_nat id < CONFIG_MAX_VM -> vms (w_hv w) !! id = Some (Some p) ->
  vm_is_native m = true -> Z.land (flags m) VM_FLAGS_CAN_RESET = 0 ->
  dataabort_fail fuel regs w = Some (- EFAULT, regs, w).
Proof.
  intros Hcur Hc Hp Hm Hv Hid Hvms Hnat Hfl. unfold dataabort_fail, vcpu_fault. rewrite Hcur. cbn [mbind option_bind]. rewrite Hc. cbn [mbind option_bind]. rewrite Hp, Hm. cbn [mbind option_bind].
  unfold vm_power_off, get_vm_by_id. rewrite Hv, (proj2 (Z.leb_gt _ _)), (proj2 (Z.eqb_neq _ _)) by lia. cbn [orb]. rewrite Nat2Z.id, Hvms. cbn [mbind option_bind]. rewrite Hm. cbn [mbind option_bind].
  rewrite Hnat, Hfl. cbn [andb orb]. rewrite Z.eqb_refl. cbn [orb mbind option_bind]. by destruct w.
Qed.
End trap.

(** ** The machine of Vdev.v: a load from offset 0x18 of the second device into x3 *)
Definition demo_data (p : Z) : @arm_virt_data (list Z) := mk_arm_data None None None None None None.
Definition demo_esr : Z := Z.lor (Z.lor (Z.lor (Z.shiftl ESR_ELx_EC_DABT_LOW 26) ESR_ELx_ISV) (Z.shiftl 3 16)) 0x05.
Definition demo_regs : list Z := 0x8000 :: replicate 33 1.

Lemma guest_mmio_access_witness :
  (fun r => (take 8 (fst r), w_dev (snd r))) <$>
    handle_vcpu_sync_exception 4 0 (Some 2) (fun s => s) (fun _ => false) true true demo_call demo_data (fun x => x) [] [] 1 demo_regs demo_esr 0xffff000012340018 0x30 (demo_vdw VM_FLAGS_NATIVE)
  = Some ([0x8004; 1; 1; 1; 1; 1; 0x55; 1], [5; 11; 0; 0x18; 0]).
Proof.
  assert (vdevs_ok (demo_vdw VM_FLAGS_NATIVE)) as Hok by exact (keep_steps _ _ (demo_vdw0_ok VM_FLAGS_NATIVE) (demo_vdw_steps VM_FLAGS_NATIVE)).
  destruct (guest_mmio_access 4 0 (Some 2) (fun s => s) (fun _ => false) true true demo_call demo_data (fun x => x) [] [] 1 demo_regs demo_esr 0xffff000012340018 0x30 (demo_vdw VM_FLAGS_NATIVE) 2 demo_vdev_vcpu
    (set_vdev_list [10; 11] (demo_vdev_vm VM_FLAGS_NATIVE)) (default (mk_areas [] []) (w_mm (demo_vdw VM_FLAGS_NATIVE) !! 1)) 0x8000 3 11 demo_dev11 0%nat (mk_area 0x3000 0x4000 BAD_ADDRESS VM_GUEST_VDEV 0 []))
    as (x & Hx & E); [exact Hok|reflexivity|reflexivity|reflexivity|reflexivity|reflexivity|reflexivity|reflexivity|by split; [|left| |]|lia|..].
  - intros d o va Hd. cbn in Hd. apply elem_of_cons in Hd as [->|Hd%list_elem_of_singleton]; [|subst d]; intros Ho; vm_compute in Ho; injection Ho as <-; intros ->%list_elem_of_singleton; vm_compute; congruence.
  - apply elem_of_cons. right. by apply list_elem_of_singleton.
  - vm_compute. reflexivity.
  - reflexivity.
  - by vm_compute.
  - rewrite E. vm_compute. reflexivity.
Defined.
