(* ===== verification/Hypercall.v ===== *)
(** * The calls of a VM: PSCI and hypercalls
      (arch/aarch64/virt/smc_service.c, virt/hypercall.c, virt/vmcs.c)

    The power state calls of every VM and the calls by which the host VM
    manages the guests, on top of the operations of Vm.v and VmPm.v.  The calls
    that reach other components (mapping of guest memory, virqs, virtio memory,
    resources) are the record [vm0_ops]; [guest_tag_at] is the structure that
    the caller's memory holds at an address. *)
From S2P Require Import Prelude Bitops Bitmap Stage2 VmmArea Sched Vm VmPm Vdev Trap.

Definition PSCI_0_2_FN (n : Z) : Z := 0x84000000 + n.
Definition PSCI_0_2_FN64 (n : Z) : Z := 0x84000000 + 0x40000000 + n.
Definition PSCI_0_2_FN_PSCI_VERSION : Z := PSCI_0_2_FN 0.
Definition PSCI_0_2_FN_CPU_OFF : Z := PSCI_0_2_FN 2.
Definition PSCI_0_2_FN_CPU_ON : Z := PSCI_0_2_FN 3.
Definition PSCI_0_2_FN_AFFINITY_INFO : Z := PSCI_0_2_FN 4.
Definition PSCI_0_2_FN_MIGRATE_INFO_TYPE : Z := PSCI_0_2_FN 6.
Definition PSCI_0_2_FN_SYSTEM_OFF : Z := PSCI_0_2_FN 8.
Definition PSCI_0_2_FN_SYSTEM_RESET : Z := PSCI_0_2_FN 9.
Definition PSCI_1_0_FN_PSCI_FEATURES : Z := PSCI_0_2_FN 10.
Definition PSCI_1_0_FN_SYSTEM_SUSPEND : Z := PSCI_0_2_FN 14.
Definition PSCI_0_2_FN64_CPU_SUSPEND : Z := PSCI_0_2_FN64 1.
Definition PSCI_0_2_FN64_CPU_ON : Z := PSCI_0_2_FN64 3.
Definition PSCI_0_2_FN64_AFFINITY_INFO : Z := PSCI_0_2_FN64 4.
Definition PSCI_1_0_FN64_SYSTEM_SUSPEND : Z := PSCI_0_2_FN64 14.
Definition ARM_SMCCC_VERSION_FUNC_ID : Z := 0x80000000.
Definition PSCI_VERSION (major minor : Z) : Z := Z.lor (Z.shiftl major 16) minor.
Definition PSCI_0_2_AFFINITY_LEVEL_OFF : Z := 1.
Definition PSCI_0_2_TOS_MP : Z := 2.
Definition PSCI_RET_SUCCESS : Z := 0.
Definition PSCI_RET_NOT_SUPPORTED : Z := -1.
Definition PSCI_RET_INVALID_PARAMS : Z := -2.
Definition PSCI_RET_DENIED : Z := -3.
Definition PSCI_RET_INTERNAL_FAILURE : Z := -6.

Definition HVC_CALL_NUM (t n : Z) : Z := 0xc0000000 + Z.shiftl t 24 + n.
Definition HVC_TYPE_VM0 : Z := 0x8.
Definition HVC_TYPE_MISC : Z := 0x9.
Definition HVC_TYPE_DEBUG_CONSOLE : Z := 0xb.
Definition HVC_VM0_FN (n : Z) : Z := HVC_CALL_NUM HVC_TYPE_VM0 n.
Definition HVC_MISC_FN (n : Z) : Z := HVC_CALL_NUM HVC_TYPE_MISC n.
Definition HVC_VM_CREATE : Z := HVC_VM0_FN 0.
Definition HVC_VM_DESTORY : Z := HVC_VM0_FN 1.
Definition HVC_VM_RESTART : Z := HVC_VM0_FN 2.
Definition HVC_VM_POWER_UP : Z := HVC_VM0_FN 3.
Definition HVC_VM_POWER_DOWN : Z := HVC_VM0_FN 4.
Definition HVC_VM_MMAP : Z := HVC_VM0_FN 5.
Definition HVC_VM_SEND_VIRQ : Z := HVC_VM0_FN 7.
Definition HVC_VM_CREATE_VMCS : Z := HVC_VM0_FN 8.
Definition HVC_VM_CREATE_VMCS_IRQ : Z := HVC_VM0_FN 9.
Definition HVC_VM_REQUEST_VIRQ : Z := HVC_VM0_FN 10.
Definition HVC_VM_VIRTIO_MMIO_INIT : Z := HVC_VM0_FN 11.
Definition HVC_VM_CREATE_RESOURCE : Z := HVC_VM0_FN 13.
Definition HVC_CHANGE_LOG_LEVEL : Z := HVC_VM0_FN 14.
Definition HVC_GET_VMID : Z := HVC_MISC_FN 0.
Definition HVC_SCHED_OUT : Z := HVC_MISC_FN 1.
Definition HVC_GET_VM_CAP : Z := HVC_MISC_FN 2.

(** ** The control blocks of a guest (vmcs.c) *)

(** The memory of the control blocks is set to zero. *)
Fixpoint init_vmcs (n : nat) (i : Z) (m : vm) (s : hv) : option hv :=
  match n with
  | O => Some s
  | S n =>
      o ← load_slot i m;
      v ← o;
      s ← upd_vcpu v (set_vc_vmcs (Some (mk_vmcs 0 0 0 0 0 0 0))) s;
      init_vmcs n (i + 1) m s
  end.

(** [shmem] is what [alloc_shmem] returns, [hvm_vmcs] the address that
    [create_hvm_shmem_map] gives.  [vm->vmcs] and [vm->hvm_vmcs] are never set. *)
Definition vm_create_vmcs (shmem : option Z) (hvm_vmcs : Z) (p : option Z) (s : hv) : option (Z * hv) :=
  p ← p;
  m ← vm_heap s !! p;
  match shmem with
  | None => Some (0, s)
  | Some _ => if hvm_vmcs =? BAD_ADDRESS then Some (0, s) else s ← init_vmcs (Z.to_nat (vcpu_nr m)) 0 m s; Some (hvm_vmcs, s)
  end.

Definition vm_create_vmcs_irq (virq : Z) (p : option Z) (id : Z) (s : hv) : option (Z * hv) :=
  p ← p;
  m ← vm_heap s !! p;
  o ← get_vcpu_in_vm m id;
  match o with
  | None => Some (- ENOENT, s)
  | Some v => s ← upd_vcpu v (set_vmcs_irq virq) s; Some (virq, s)
  end.

Section calls.
Context {D : Type}.
Implicit Type w : vdw D.

(** The other components; the results are the return code and the address. *)
Record vm0_ops := mk_vm0_ops {
  x_create_vm_mmap : Z -> Z -> Z -> vdw D -> option (Z * Z * vdw D);
  x_send_virq_to_vm : option Z -> Z -> vdw D -> option (vdw D);
  x_request_vm_virqs : option Z -> Z -> Z -> vdw D -> option (Z * vdw D);
  x_virtio_mmio_init : option Z -> Z -> Z -> vdw D -> option (Z * Z * vdw D);
  x_create_resource : option Z -> vdw D -> option (Z * vdw D);
}.

Context (NR_CPUS CONFIG_MAX_VM CONFIG_NR_CPUS_CLUSTER0 this_cpu : Z) (current : option Z) (relax : hv -> hv).
Context (mpidr_shift : bool) (has_irq : Z -> bool) (setup_ok : setup_call -> bool) (send_ok post_ok : bool) (e : env) (fuel : nat).
Context (ops : vm0_ops) (guest_tag_at : Z -> vmtag) (shmem : option Z) (hvm_vmcs new_virq : Z).

(** The handlers of the debug console (virt/debug_console.c, on the state of
    Console.v) and of the Amlogic platform (platform/amlogic/amlogic_smc.c). *)
Context (dcon_hvc_handler sip_smc_handler : @svc_handler D).

(** What an operation on the VMs returns goes into x0. *)
Definition ret_hv (regs : list Z) w (r : option (Z * hv)) : option (Z * list Z * vdw D) :=
  '(ret, s) ← r; SVC_RET1 regs ret (set_hv s w).

Definition current_vmid (s : hv) : option Z := v ← current; c ← vcpu_heap s !! v; m ← vm_heap s !! vc_vm c; Some (vmid m).

(** ** PSCI *)
Definition std_smc_handler (regs : list Z) (id : Z) (args : list Z) w : option (Z * list Z * vdw D) :=
  v ← current;
  a0 ← args !! 0%nat;
  a1 ← args !! 1%nat;
  let s := w_hv w in
  if id =? PSCI_0_2_FN_PSCI_VERSION then SVC_RET1 regs (PSCI_VERSION 1 0) w
  else if (id =? PSCI_0_2_FN64_CPU_ON) || (id =? PSCI_0_2_FN_CPU_ON) then
    '(ret, s) ← vcpu_power_on CONFIG_NR_CPUS_CLUSTER0 mpidr_shift v a0 a1 s;
    SVC_RET1 regs (if ret =? 0 then PSCI_RET_SUCCESS else PSCI_RET_INVALID_PARAMS) (set_hv s w)
  else if id =? PSCI_0_2_FN_CPU_OFF then
    '(ret, s) ← vcpu_off v s;
    SVC_RET1 regs (if ret =? 0 then PSCI_RET_SUCCESS else PSCI_RET_INTERNAL_FAILURE) (set_hv s w)
  else if id =? PSCI_0_2_FN64_CPU_SUSPEND then
    '(ret, s) ← vcpu_suspend relax has_irq v s;
    SVC_RET1 regs (if ret =? 0 then PSCI_RET_SUCCESS else PSCI_RET_DENIED) (set_hv s w)
  else if id =? PSCI_0_2_FN_MIGRATE_INFO_TYPE then SVC_RET1 regs PSCI_0_2_TOS_MP w
  else if (id =? PSCI_0_2_FN_AFFINITY_INFO) || (id =? PSCI_0_2_FN64_AFFINITY_INFO) then SVC_RET1 regs PSCI_0_2_AFFINITY_LEVEL_OFF w
  else if id =? PSCI_0_2_FN_SYSTEM_OFF then
    i ← current_vmid s;
    '(_, s) ← vm_power_off CONFIG_MAX_VM this_cpu current relax send_ok post_ok fuel i VM_PM_ACTION_BY_SELF s;
    SVC_RET1 regs PSCI_RET_SUCCESS (set_hv s w)
  else if id =? PSCI_0_2_FN_SYSTEM_RESET then
    i ← current_vmid s;
    '(_, s) ← vm_reset CONFIG_MAX_VM this_cpu current relax setup_ok send_ok post_ok fuel i VM_PM_ACTION_BY_SELF s;
    SVC_RET1 regs PSCI_RET_SUCCESS (set_hv s w)
  else if (id =? PSCI_1_0_FN_SYSTEM_SUSPEND) || (id =? PSCI_1_0_FN64_SYSTEM_SUSPEND) then
    i ← current_vmid s;
    '(_, s) ← vm_suspend CONFIG_MAX_VM current relax has_irq send_ok fuel i s;
    SVC_RET1 regs PSCI_RET_SUCCESS (set_hv s w)
  else if id =? PSCI_1_0_FN_PSCI_FEATURES then
    SVC_RET1 regs (if (a0 =? ARM_SMCCC_VERSION_FUNC_ID) || (a0 =? PSCI_0_2_FN64_CPU_SUSPEND) || (a0 =? PSCI_1_0_FN_SYSTEM_SUSPEND)
                      || (a0 =? PSCI_1_0_FN64_SYSTEM_SUSPEND) then PSCI_RET_SUCCESS else PSCI_RET_NOT_SUPPORTED) w
  else SVC_RET1 regs PSCI_RET_SUCCESS w.

(** ** The calls of the host VM (hypercall.c) *)
Definition vm_hvc_handler (regs : list Z) (id : Z) (args : list Z) w : option (Z * list Z * vdw D) :=
  a0 ← args !! 0%nat;
  a1 ← args !! 1%nat;
  a2 ← args !! 2%nat;
  let s := w_hv w in
  p ← get_vm_by_id CONFIG_MAX_VM (u32 a0) s;
  v ← current;
  c ← vcpu_heap s !! v;
  m ← vm_heap s !! vc_vm c;
  _ ← assert_ (vm_is_host_vm m);
  if id =? HVC_VM_CREATE then ret_hv regs w (create_guest_vm NR_CPUS CONFIG_MAX_VM e (guest_tag_at a0) s)
  else if id =? HVC_VM_DESTORY then s ← destroy_guest_vm this_cpu current relax send_ok post_ok fuel p s; SVC_RET1 regs 0 (set_hv s w)
  else if id =? HVC_VM_RESTART then ret_hv regs w (vm_reset CONFIG_MAX_VM this_cpu current relax setup_ok send_ok post_ok fuel (u32 a0) VM_PM_ACTION_BY_MVM s)
  else if id =? HVC_VM_POWER_UP then ret_hv regs w (power_up_guest_vm CONFIG_MAX_VM (u32 a0) s)
  else if id =? HVC_VM_POWER_DOWN then ret_hv regs w (vm_power_off CONFIG_MAX_VM this_cpu current relax send_ok post_ok fuel (u32 a0) VM_PM_ACTION_BY_MVM s)
  else if id =? HVC_VM_MMAP then '(ret, addr, w) ← x_create_vm_mmap ops (u32 a0) a1 a2 w; SVC_RET2 regs ret addr w
  else if id =? HVC_VM_SEND_VIRQ then w ← x_send_virq_to_vm ops p (s32 a1) w; SVC_RET1 regs 0 w
  else if id =? HVC_VM_CREATE_VMCS then ret_hv regs w (vm_create_vmcs shmem hvm_vmcs p s)
  else if id =? HVC_VM_REQUEST_VIRQ then '(ret, w) ← x_request_vm_virqs ops p (s32 a1) (s32 a2) w; SVC_RET1 regs ret w
  else if id =? HVC_VM_CREATE_VMCS_IRQ then ret_hv regs w (vm_create_vmcs_irq new_virq p (u32 a1) s)
  else if id =? HVC_VM_VIRTIO_MMIO_INIT then '(ret, hbase, w) ← x_virtio_mmio_init ops p a1 a2 w; SVC_RET2 regs ret hbase w
  else if id =? HVC_VM_CREATE_RESOURCE then '(ret, w) ← x_create_resource ops p w; SVC_RET1 regs ret w
  else SVC_RET1 regs (- EINVAL) w.

(** [sched] lets the rest of the machine run. *)
Definition misc_hvc_handler (regs : list Z) (id : Z) (args : list Z) w : option (Z * list Z * vdw D) :=
  v ← current;
  c ← vcpu_heap (w_hv w) !! v;
  m ← vm_heap (w_hv w) !! vc_vm c;
  if id =? HVC_GET_VMID then SVC_RET1 regs (vmid m) w
  else if id =? HVC_SCHED_OUT then SVC_RET1 regs 0 (set_hv (relax (w_hv w)) w)
  else if id =? HVC_GET_VM_CAP then SVC_RET1 regs (get_vm_capability m) w
  else SVC_RET1 regs (- EINVAL) w.

(** The tables of Trap.v with these handlers. *)
Definition smc_table : list (@svc_desc D) :=
  [mk_svc_desc SVC_STYPE_STDSMC SVC_STYPE_STDSMC std_smc_handler; mk_svc_desc SVC_STYPE_SIP SVC_STYPE_SIP sip_smc_handler].
Definition hvc_table : list (@svc_desc D) :=
  [mk_svc_desc HVC_TYPE_VM0 HVC_TYPE_VM0 vm_hvc_handler; mk_svc_desc HVC_TYPE_MISC HVC_TYPE_MISC misc_hvc_handler;
   mk_svc_desc HVC_TYPE_DEBUG_CONSOLE HVC_TYPE_DEBUG_CONSOLE dcon_hvc_handler].

(** ** Every call keeps the VM table consistent *)
#[local] Abbreviation vms_ok := (consistent CONFIG_MAX_VM (fun _ => True)).

Lemma vms_ok_iff s : vms_ok s <-> hv_ok CONFIG_MAX_VM s.
Proof. split; [by intros []|by split]. Qed.

#[local] Instance call_has_hv : HasHv (Z * list Z * vdw D) := fun x => w_hv (snd x).

(** What the other components do with the VMs keeps them consistent.  This is an
    assumption on their code: it is not proved here. *)
Record ops_ok : Prop := mk_ops_ok {
  oo_mmap i a b w r x w' : vms_ok (w_hv w) -> x_create_vm_mmap ops i a b w = Some (r, x, w') -> vms_ok (w_hv w');
  oo_send p i w w' : vms_ok (w_hv w) -> x_send_virq_to_vm ops p i w = Some w' -> vms_ok (w_hv w');
  oo_virqs p a b w r w' : vms_ok (w_hv w) -> x_request_vm_virqs ops p a b w = Some (r, w') -> vms_ok (w_hv w');
  oo_virtio p a b w r x w' : vms_ok (w_hv w) -> x_virtio_mmio_init ops p a b w = Some (r, x, w') -> vms_ok (w_hv w');
  oo_resource p w r w' : vms_ok (w_hv w) -> x_create_resource ops p w = Some (r, w') -> vms_ok (w_hv w');
  oo_dcon regs id args w r regs' w' : vms_ok (w_hv w) -> dcon_hvc_handler regs id args w = Some (r, regs', w') -> vms_ok (w_hv w');
  oo_sip regs id args w r regs' w' : vms_ok (w_hv w) -> sip_smc_handler regs id args w = Some (r, regs', w') -> vms_ok (w_hv w');
}.

Context (Hrelax : forall s, shape s (relax s)) (Hops : ops_ok).
Context (Htag : forall a, 0 < t_nr_vcpu (guest_tag_at a) /\ length (t_vcpu_affinity (guest_tag_at a)) = 8%nat).

#[local] Abbreviation stays := (stays_ok CONFIG_MAX_VM (fun _ => True)).

Lemma ret1_stays regs a w : vms_ok (w_hv w) -> stays (SVC_RET1 regs a w).
Proof. intros Hw. unfold SVC_RET1. apply stays_read. intros r _. by apply stays_some. Qed.

Lemma ret2_stays regs a b w : vms_ok (w_hv w) -> stays (SVC_RET2 regs a b w).
Proof. intros Hw. unfold SVC_RET2. apply stays_read. intros r _. apply stays_read. intros r' _. by apply stays_some. Qed.

Lemma ret_hv_stays regs w r : stays r -> stays (ret_hv regs w r).
Proof. intros Hr. unfold ret_hv. apply (stays_bind CONFIG_MAX_VM (fun _ => True) r); [done|]. intros [x s] Hs. by apply ret1_stays. Qed.

(** The pattern of the PSCI calls: an operation, then its code in x0. *)
Lemma then_ret1_stays regs w (f : Z -> Z) (r : option (Z * hv)) : stays r -> stays ('(ret, s) ← r; SVC_RET1 regs (f ret) (set_hv s w)).
Proof. intros Hr. apply (stays_bind CONFIG_MAX_VM (fun _ => True) r); [done|]. intros [x s] Hs. by apply ret1_stays. Qed.

Lemma aff_loop_length n a b c map nr i cur aff cur' aff' : aff_loop NR_CPUS n a b c map nr i cur aff = Some (cur', aff') -> length aff' = length aff.
Proof.
  revert i cur aff. induction n as [|n IH]; intros i cur aff; [done|]. cbn [aff_loop]. destruct (aff_takes a b c map cur) as [[]|]; [| |done]; cbn [mbind option_bind].
  - destruct (i <? _); [|done]. cbn [mbind option_bind]. destruct (i + 1 <? nr); [intros H; apply IH in H; by rewrite length_insert in H|intros [= _ <-]; by rewrite length_insert].
  - destruct (i <? nr); [apply IH|by intros [= _ <-]].
Qed.

Lemma vmtag_check_spec tag s r tag' s' : vmtag_check_and_config NR_CPUS e tag s = Some (r, tag', s') -> length (t_vcpu_affinity tag) = 8%nat ->
  shape s s' /\ t_nr_vcpu tag' = t_nr_vcpu tag /\ length (t_vcpu_affinity tag') = 8%nat /\ (r = 0 -> t_nr_vcpu tag <= NR_CPUS).
Proof.
  intros E Hl. unfold vmtag_check_and_config in E. destruct (negb (e_memory e)); [by injection E as <- <- <-|].
  destruct (Z.ltb_spec NR_CPUS (t_nr_vcpu tag)); [by injection E as <- <- <-|]. destruct (negb _); [|injection E as <- <- <-; by repeat split].
  unfold get_vcpu_affinity in E. destruct (get_host_vm s); [|done]. cbn [mbind option_bind] in E. destruct (vm_heap s !! _); [|done]. cbn [mbind option_bind] in E.
  destruct (_ !! 0%nat); [|done]. cbn [mbind option_bind] in E. destruct (aff_loop _ _ _ _ _ _ _ _ _ _) as [[cur aff]|] eqn:Ea; [|done]. injection E as <- <- <-.
  apply aff_loop_length in Ea. by repeat split.
Qed.

Lemma create_guest_stays a s : vms_ok s -> stays (create_guest_vm NR_CPUS CONFIG_MAX_VM e (guest_tag_at a) s).
Proof.
  intros Ho [r s'] E. cbn. unfold create_guest_vm in E. destruct (Htag a) as [Hn Hl]. destruct (negb (e_copy e)); [by injection E as _ <-|].
  destruct (vmtag_check_and_config _ _ _ s) as [[[r1 tag] s1]|] eqn:E1; [|done]. cbn [mbind option_bind] in E. destruct (vmtag_check_spec _ _ _ _ _ E1 Hl) as (Hs & En & Hl1 & Hle).
  assert (vms_ok s1) as Ho1 by by apply (shape_vms_ok CONFIG_MAX_VM (fun _ => True) s).
  destruct (Z.eqb_spec r1 0); cbn [negb] in E; [|by injection E as _ <-]. destruct (create_vm _ _ _ _ s1) as [[p s2]|] eqn:E2; [|done]. cbn [mbind option_bind] in E.
  apply create_vm_stays in E2 as (Ho2 & Hr & _); [|exact (proj1 Ho1)|cbn; destruct (ho_zero _ _ (proj1 Ho)); lia|cbn; lia|done]. destruct p as [p|]; [|by injection E as _ <-].
  destruct (guest_mm_init e p _ _ s2) as [r3 s3] eqn:E3. assert (exists t, s3 = set_trace t s2) as [t ->].
  { unfold guest_mm_init in E3. destruct (negb (e_split e)); [injection E3 as _ <-; by eexists|]. destruct (negb (e_alloc e)); injection E3 as _ <-; by eexists. }
  assert (vms_ok (set_trace t s2)) as Ho3 by (apply (shape_vms_ok CONFIG_MAX_VM (fun _ => True) s2); [by split|by apply vms_ok_iff]). destruct (negb (r3 =? 0)).
  - destruct (destroy_vm _ _) as [s4|] eqn:E4; [|done]. injection E as _ <-. destruct (Hr p eq_refl) as [id Hid]. exact (destroy_stays CONFIG_MAX_VM (fun _ => True) _ id p Ho3 Hid _ E4).
  - destruct (vm_heap _ !! p); [|done]. by injection E as _ <-.
Qed.

Lemma init_vmcs_keeps n i m s0 s : shape s0 s -> keeps s0 (init_vmcs n i m s).
Proof.
  revert i s. induction n as [|n IH]; intros i s Hs; cbn [init_vmcs]; [by apply keeps_some|]. apply keeps_read. intros o _. apply keeps_read. intros v _.
  apply keeps_bind; [by apply upd_vcpu_keeps|]. intros s' Hs'. by apply IH.
Qed.

Lemma vm_create_vmcs_stays p s : vms_ok s -> stays (vm_create_vmcs shmem hvm_vmcs p s).
Proof.
  intros Ho. apply (keeps_ok CONFIG_MAX_VM (fun _ => True) s); [done|]. unfold vm_create_vmcs. apply keeps_read. intros q _. apply keeps_read. intros m _. destruct shmem; [|by apply keeps_some].
  destruct (hvm_vmcs =? BAD_ADDRESS); [by apply keeps_some|]. apply keeps_bind; [by apply init_vmcs_keeps|]. intros s1 Hs1. by apply keeps_some.
Qed.

Lemma vm_create_vmcs_irq_stays p i s : vms_ok s -> stays (vm_create_vmcs_irq new_virq p i s).
Proof.
  intros Ho. apply (keeps_ok CONFIG_MAX_VM (fun _ => True) s); [done|]. unfold vm_create_vmcs_irq. apply keeps_read. intros q _. apply keeps_read. intros m _. apply keeps_read. intros [v|] _; [|by apply keeps_some].
  apply keeps_bind; [by apply upd_vcpu_keeps|]. intros s1 Hs1. by apply keeps_some.
Qed.

Create HintDb calls discriminated.
#[local] Hint Resolve ret1_stays ret2_stays ret_hv_stays then_ret1_stays create_guest_stays vm_create_vmcs_stays vm_create_vmcs_irq_stays : calls.

(** One case of a [switch]. *)
Ltac next_case := match goal with |- stays (if ?b then _ else _) => destruct b end.

Lemma std_smc_stays regs id args w : vms_ok (w_hv w) -> stays (std_smc_handler regs id args w).
Proof.
  intros Ho. unfold std_smc_handler. apply stays_read. intros v _. apply stays_read. intros a0 _. apply stays_read. intros a1 _.
  assert (shape (w_hv w) (w_hv w)) as Hr by done.
  next_case; [by apply ret1_stays|]. next_case; [apply (then_ret1_stays regs w (fun ret => if ret =? 0 then _ else _)), (keeps_ok _ _ (w_hv w)); [done|by apply vcpu_power_on_keeps]|].
  next_case; [apply (then_ret1_stays regs w (fun ret => if ret =? 0 then _ else _)), (keeps_ok _ _ (w_hv w)); [done|]|].
  { unfold vcpu_off. apply keeps_bind; [by apply upd_vcpu_keeps|]. intros s1 Hs1. by apply keeps_some. }
  next_case; [apply (then_ret1_stays regs w (fun ret => if ret =? 0 then _ else _)), (keeps_ok _ _ (w_hv w)); [done|by apply vcpu_idle_keeps]|].
  next_case; [by apply ret1_stays|]. next_case; [by apply ret1_stays|].
  next_case; [apply stays_read; intros i _; apply (then_ret1_stays regs w (fun _ => _)), (keeps_ok _ _ (w_hv w)); [done|by apply vm_power_off_keeps]|].
  next_case; [apply stays_read; intros i _; by apply (then_ret1_stays regs w (fun _ => _)), vm_reset_stays|].
  next_case.
  { apply stays_read. intros i _. apply (then_ret1_stays regs w (fun _ => _)), (keeps_ok _ _ (w_hv w)); [done|]. unfold vm_suspend. apply keeps_read.
    intros [p|] _; [by apply vm_suspend_keeps|by apply keeps_some]. }
  next_case; by apply ret1_stays.
Qed.

Lemma vm_hvc_stays regs id args w : vms_ok (w_hv w) -> stays (vm_hvc_handler regs id args w).
Proof.
  intros Ho. unfold vm_hvc_handler. apply stays_read. intros a0 _. apply stays_read. intros a1 _. apply stays_read. intros a2 _.
  apply stays_read. intros p Hp. apply stays_read. intros v _. apply stays_read. intros c _. apply stays_read. intros m _. apply stays_read. intros _ _.
  assert (shape (w_hv w) (w_hv w)) as Hr by done.
  next_case; [by eauto with calls|]. next_case.
  { destruct p as [p|]; [|by intros x E]. unfold get_vm_by_id in Hp. destruct (_ || _); [done|].
    apply (stays_bind CONFIG_MAX_VM (fun _ => True) (destroy_guest_vm this_cpu current relax send_ok post_ok fuel (Some p) (w_hv w))); [by eapply destroy_guest_stays|].
    intros s1 Hs1. by apply ret1_stays. }
  next_case; [by apply ret_hv_stays, vm_reset_stays|].
  next_case; [apply ret_hv_stays, (keeps_ok _ _ (w_hv w)); [done|]; unfold power_up_guest_vm; apply keeps_read; intros; by apply start_guest_vm_keeps|].
  next_case; [apply ret_hv_stays, (keeps_ok _ _ (w_hv w)); [done|by apply vm_power_off_keeps]|].
  next_case; [apply stays_read; intros [[r x] w'] E; by eapply ret2_stays, oo_mmap|]. next_case; [apply stays_read; intros w' E; by eapply ret1_stays, oo_send|].
  next_case; [by eauto with calls|]. next_case; [apply stays_read; intros [r w'] E; by eapply ret1_stays, oo_virqs|]. next_case; [by eauto with calls|].
  next_case; [apply stays_read; intros [[r x] w'] E; by eapply ret2_stays, oo_virtio|]. next_case; [apply stays_read; intros [r w'] E; by eapply ret1_stays, oo_resource|].
  by apply ret1_stays.
Qed.

Lemma misc_hvc_stays regs id args w : vms_ok (w_hv w) -> stays (misc_hvc_handler regs id args w).
Proof.
  intros Ho. unfold misc_hvc_handler. apply stays_read. intros v _. apply stays_read. intros c _. apply stays_read. intros m _.
  repeat next_case; apply ret1_stays; [done| |done..]. by apply (shape_vms_ok CONFIG_MAX_VM (fun _ => True) (w_hv w)).
Qed.

(** ** The tables *)

(** The tables that [svc_service_init] builds from the handlers. *)
Definition svc_tables (smc hvc : list (option (@svc_desc D))) : Prop :=
  parse_svc_desc smc_table (replicate 64 None) = Some smc /\ parse_svc_desc hvc_table (replicate 64 None) = Some hvc.

(** Who serves a call of type [t]. *)
Definition served_by (smc : bool) (t : Z) : option (@svc_handler D) :=
  if smc then (if t =? SVC_STYPE_STDSMC then Some std_smc_handler else if t =? SVC_STYPE_SIP then Some sip_smc_handler else None)
  else if t =? HVC_TYPE_VM0 then Some vm_hvc_handler else if t =? HVC_TYPE_MISC then Some misc_hvc_handler
  else if t =? HVC_TYPE_DEBUG_CONSOLE then Some dcon_hvc_handler else None.

Lemma stype_range id : 0 <= id < 2 ^ 32 -> 0 <= Z.shiftr (Z.land id SVC_STYPE_MASK) 24 < 64.
Proof.
  intros H. change SVC_STYPE_MASK with (Z.shiftl (Z.ones 6) 24). rewrite Z.shiftr_land, Z.shiftr_shiftl_l, Z.shiftl_0_r by lia.
  rewrite Z.land_ones by lia. apply Z.mod_pos_bound. lia.
Qed.

Lemma table_route smc hvc (b : bool) t : svc_tables smc hvc -> 0 <= t < 64 ->
  exists d, (if b then smc else hvc) !! Z.to_nat t = Some d /\ (handler <$> d) = served_by b t.
Proof.
  intros [Es Eh] Ht. injection Es as <-. injection Eh as <-. assert (Z.to_nat t < 64)%nat as Hn by lia. rewrite <- (Z2Nat.id t) by lia. revert Hn. generalize (Z.to_nat t).
  intros n Hn. rewrite Nat2Z.id. do 64 (destruct n as [|n]; [destruct b; by eexists|]). lia.
Qed.

Lemma route_spec smc hvc (b : bool) regs id args w : svc_tables smc hvc -> 0 <= id < 2 ^ 32 ->
  do_svc_handler smc hvc regs id args b w =
    match served_by b (Z.shiftr (Z.land id SVC_STYPE_MASK) 24) with Some h => h regs id args w | None => SVC_RET1 regs (- EINVAL) w end.
Proof.
  intros Ht Hid. pose proof (stype_range id Hid) as Hr. unfold do_svc_handler. set (t := Z.shiftr _ 24) in *. destruct (Z.ltb_spec SVC_STYPE_MAX t) as [Hx|_]; [unfold SVC_STYPE_MAX in Hx; lia|].
  destruct (table_route smc hvc b t Ht Hr) as (d & Hd & <-). rewrite Hd. by destruct d.
Qed.

(** The VM table stays consistent when a VM makes a call (any number, by SMC or
    HVC) and it returns, provided that the operations of [vm0_ops], the debug
    console and the platform keep it so and that the host asks for VMs with at
    least one vcpu. *)
Theorem guest_calls_keep_vms smc hvc (b : bool) regs w r regs' w' :
  svc_tables smc hvc -> hv_ok CONFIG_MAX_VM (w_hv w) ->
  __arm_svc_handler smc hvc regs b w = Some (r, regs', w') -> hv_ok CONFIG_MAX_VM (w_hv w').
Proof.
  rewrite <- !vms_ok_iff. intros Ht Ho E. unfold __arm_svc_handler in E. destruct (get_reg_value regs 0) as [id|]; [|done]. cbn [mbind option_bind] in E.
  destruct (mapM _ _) as [args|]; [|done]. cbn [mbind option_bind] in E. rewrite (route_spec smc hvc) in E; [|done|apply Z.mod_pos_bound; lia].
  revert E. unfold served_by. destruct b; repeat case_match; intros E;
    simplify_eq;
    [exact (std_smc_stays _ _ _ _ Ho _ E)|by eapply oo_sip|exact (ret1_stays _ _ _ Ho _ E)|exact (vm_hvc_stays _ _ _ _ Ho _ E)|exact (misc_hvc_stays _ _ _ _ Ho _ E)|by eapply oo_dcon|exact (ret1_stays _ _ _ Ho _ E)].
Qed.

(** ** CPU_ON *)
Definition with_x0 (regs : list Z) (x : Z) : list Z := <[3%nat := u64 x]> regs.

Lemma ret1_run regs a w : length regs = 34%nat -> SVC_RET1 regs a w = Some (0, with_x0 regs a, w).
Proof. intros Hl. unfold SVC_RET1, set_reg_value. rewrite Hl. done. Qed.

Lemma args_run smc hvc (b : bool) regs w x0 a0 a1 : length regs = 34%nat ->
  regs !! 3%nat = Some x0 -> regs !! 4%nat = Some a0 -> regs !! 5%nat = Some a1 ->
  exists args, args !! 0%nat = Some a0 /\ args !! 1%nat = Some a1 /\ __arm_svc_handler smc hvc regs b w = do_svc_handler smc hvc regs (u32 x0) args b w.
Proof.
  intros Hl H0 H1 H2. destruct (lookup_lt_is_Some_2 regs 6) as [a2 E2]; [lia|]. destruct (lookup_lt_is_Some_2 regs 7) as [a3 E3]; [lia|].
  destruct (lookup_lt_is_Some_2 regs 8) as [a4 E4]; [lia|]. destruct (lookup_lt_is_Some_2 regs 9) as [a5 E5]; [lia|].
  exists [a0; a1; a2; a3; a4; a5]. split; [done|]. split; [done|]. unfold __arm_svc_handler, get_reg_value. change (Z.to_nat (0 + 3)) with 3%nat. rewrite H0. cbn [mbind option_bind].
  replace (mapM _ _) with (Some [a0; a1; a2; a3; a4; a5]); [done|]. symmetry. apply mapM_Some. repeat constructor; cbv beta; by etrans; [|eassumption].
Qed.

Lemma vcpuid_nonneg m aff : 0 <= CONFIG_NR_CPUS_CLUSTER0 -> 0 <= affinity_to_vcpuid CONFIG_NR_CPUS_CLUSTER0 mpidr_shift m aff.
Proof.
  intros Hc. unfold affinity_to_vcpuid, affinity_to_cpuid, VM_NR_CPUS_CLUSTER. assert (forall x, 0 <= Z.land x 255) as Hn by (intros; apply Z.land_nonneg; lia).
  destruct (vm_is_host_vm m); [pose proof (Hn (Z.shiftr aff (if mpidr_shift then 16 else 8))); pose proof (Hn (Z.shiftr aff (if mpidr_shift then 8 else 0)))|
    pose proof (Hn (Z.shiftr aff 8)); pose proof (Hn aff)]; nia.
Qed.

(** C4: a VM starts one of its processors with PSCI CPU_ON (either calling
    convention), with the tables of the registered handlers, from a VM whose
    vcpus are all in place and while no vcpu that counts as off is on a ready
    list.  The target is the vcpu of the caller's own VM that the
    affinity names: if it is off it is given the entry point and made ready and
    the caller reads 0; if it is on, or there is no such vcpu, the caller reads
    INVALID_PARAMS and nothing changes. *)
Theorem psci_cpu_on_correct smc hvc regs w v c m x0 aff entry :
  svc_tables smc hvc -> 0 <= CONFIG_NR_CPUS_CLUSTER0 -> current = Some v -> vcpu_heap (w_hv w) !! v = Some c -> vm_heap (w_hv w) !! vc_vm c = Some m ->
  vm_ok (vcpu_heap (w_hv w)) (vc_vm c) m -> length regs = 34%nat -> regs !! 3%nat = Some x0 -> regs !! 4%nat = Some aff -> regs !! 5%nat = Some entry ->
  u32 x0 = PSCI_0_2_FN64_CPU_ON \/ u32 x0 = PSCI_0_2_FN_CPU_ON ->
  (forall t ct, vcpu_heap (w_hv w) !! t = Some ct -> vcpu_is_offline ct = true -> vc_queued ct = false) ->
  let i := affinity_to_vcpuid CONFIG_NR_CPUS_CLUSTER0 mpidr_shift m aff in
  exists ret s', __arm_svc_handler smc hvc regs true w = Some (0, with_x0 regs ret, set_hv s' w) /\
    (vcpu_nr m <= i -> ret = PSCI_RET_INVALID_PARAMS /\ s' = w_hv w) /\
    (i < vcpu_nr m -> exists t ct, load_slot i m = Some (Some t) /\ vcpu_heap (w_hv w) !! t = Some ct /\ vcpu_id ct = i /\ vc_vm ct = vc_vm c /\
       if vcpu_is_offline ct then ret = 0 /\ s' = emit (ev_task_ready t) (put_vcpu t (set_vc_queued true ct) (emit (ev_power_on t entry) (w_hv w)))
       else ret = PSCI_RET_INVALID_PARAMS /\ s' = w_hv w).
Proof.
  intros Ht Hcl Hv Hc Hm Hok Hl H0 H1 H2 Hid Hq i. destruct (args_run smc hvc true regs w x0 aff entry Hl H0 H1 H2) as (args & Ha0 & Ha1 & ->).
  rewrite (route_spec smc hvc) by (done || apply Z.mod_pos_bound; lia).
  replace (served_by true _) with (Some std_smc_handler) by (by destruct Hid as [-> | ->]). unfold std_smc_handler. rewrite Hv, Ha0, Ha1. msimpl.
  replace (u32 x0 =? PSCI_0_2_FN_PSCI_VERSION) with false by (by destruct Hid as [-> | ->]).
  replace ((u32 x0 =? PSCI_0_2_FN64_CPU_ON) || (u32 x0 =? PSCI_0_2_FN_CPU_ON)) with true by (by destruct Hid as [-> | ->]).
  pose proof (vcpuid_nonneg m aff Hcl) as Hi. fold i in Hi. unfold vcpu_power_on. rewrite Hc. msimpl. rewrite Hm. msimpl. fold i. unfold get_vcpu_in_vm.
  destruct (Z.leb_spec (vcpu_nr m) i) as [Hge|Hlt]; msimpl.
  - eexists _, _. split; [by apply ret1_run|]. split; [done|lia].
  - destruct (vo_slots _ _ _ Hok i ltac:(lia)) as (t & ct & Hs & Ht' & Hi' & Hp & _). rewrite Hs. msimpl. rewrite Ht'. msimpl. destruct (vcpu_is_offline ct) eqn:Eo.
    + unfold vcpu_online, vcpu_ready. change (vcpu_heap (emit _ (w_hv w))) with (vcpu_heap (w_hv w)). rewrite Ht'. msimpl. rewrite Eo. msimpl. rewrite (Hq t ct Ht' Eo). msimpl.
      eexists _, _. split; [by apply ret1_run|]. split; [lia|]. intros _. exists t, ct. rewrite Eo. done.
    + eexists _, _. split; [by apply ret1_run|]. split; [lia|]. intros _. exists t, ct. rewrite Eo. done.
Qed.

(** ** Calls that do not do what they mean to *)

(** A second CPU_ON before the target has run: the vcpu still counts as off,
    but it is on a ready list, and an assertion of the hypervisor fails. *)
Lemma second_cpu_on_panics v c m aff entry t ct s :
  vcpu_heap s !! v = Some c -> vm_heap s !! vc_vm c = Some m ->
  get_vcpu_in_vm m (affinity_to_vcpuid CONFIG_NR_CPUS_CLUSTER0 mpidr_shift m aff) = Some (Some t) -> vcpu_heap s !! t = Some ct ->
  vcpu_is_offline ct = true -> vc_queued ct = false ->
  exists s', vcpu_power_on CONFIG_NR_CPUS_CLUSTER0 mpidr_shift v aff entry s = Some (0, s') /\
    vcpu_power_on CONFIG_NR_CPUS_CLUSTER0 mpidr_shift v aff entry s' = None.
Proof.
  intros Hc Hm Hs Ht Ho Hq. unfold vcpu_power_on at 1, vcpu_online at 1, vcpu_ready at 1. rewrite Hc. msimpl. rewrite Hm. msimpl. rewrite Hs. msimpl. rewrite Ht. msimpl. rewrite Ho.
  change (vcpu_heap (emit _ s)) with (vcpu_heap s). rewrite Ht. msimpl. rewrite Ho. msimpl. rewrite Hq. msimpl. eexists. split; [done|].
  unfold vcpu_power_on. cbn [emit put_vcpu set_trace set_vcpu_heap vcpu_heap vm_heap].
  assert (exists c', <[t:=set_vc_queued true ct]> (vcpu_heap s) !! v = Some c' /\ vc_vm c' = vc_vm c) as (c' & -> & Hvm).
  { destruct (decide (t = v)) as [->|]; [rewrite lookup_insert_eq; simplify_eq; by eexists|rewrite lookup_insert_ne by done; by eexists]. }
  msimpl. rewrite Hvm, Hm. msimpl. rewrite Hs. msimpl. rewrite lookup_insert_eq. msimpl. replace (vcpu_is_offline (set_vc_queued true ct)) with true by done.
  unfold vcpu_online, vcpu_ready. cbn [emit put_vcpu set_trace set_vcpu_heap vcpu_heap]. rewrite lookup_insert_eq. msimpl. by replace (vcpu_is_offline (set_vc_queued true ct)) with true by done.
Qed.

(** A call of the VM management group by a VM that is not the host stops the
    hypervisor. *)
Lemma vm0_call_by_guest_panics regs id args w v c m :
  current = Some v -> vcpu_heap (w_hv w) !! v = Some c -> vm_heap (w_hv w) !! vc_vm c = Some m -> vm_is_host_vm m = false -> vm_hvc_handler regs id args w = None.
Proof.
  intros Hv Hc Hm Hh. unfold vm_hvc_handler. destruct (args !! 0%nat); [|done]. msimpl. destruct (args !! 1%nat); [|done]. msimpl. destruct (args !! 2%nat); [|done]. msimpl.
  destruct (get_vm_by_id _ _ _); [|done]. msimpl. rewrite Hv. msimpl. rewrite Hc. msimpl. rewrite Hm. msimpl. by rewrite Hh.
Qed.

(** Destroying a VM that does not exist dereferences a null pointer. *)
Lemma destroy_unknown_vm_faults regs args w v c m a0 a1 a2 :
  args !! 0%nat = Some a0 -> args !! 1%nat = Some a1 -> args !! 2%nat = Some a2 -> get_vm_by_id CONFIG_MAX_VM (u32 a0) (w_hv w) = Some None ->
  current = Some v -> vcpu_heap (w_hv w) !! v = Some c -> vm_heap (w_hv w) !! vc_vm c = Some m -> vm_hvc_handler regs HVC_VM_DESTORY args w = None.
Proof.
  intros H0 H1 H2 Hg Hv Hc Hm. unfold vm_hvc_handler. rewrite H0. msimpl. rewrite H1. msimpl. rewrite H2. msimpl. rewrite Hg. msimpl. rewrite Hv. msimpl. rewrite Hc. msimpl. rewrite Hm. msimpl.
  by destruct (vm_is_host_vm m).
Qed.
End calls.

(** ** Witnesses *)
Definition demo_ops : @vm0_ops unit :=
  mk_vm0_ops (fun _ _ _ w => Some (0, 0, w)) (fun _ _ w => Some w) (fun _ _ _ w => Some (0, w)) (fun _ _ _ w => Some (0, 0, w)) (fun _ w => Some (0, w)).

(** Handlers for the debug console and the platform that answer 0. *)
Definition demo_svc : @svc_handler unit := fun regs _ _ w => SVC_RET1 regs 0 w.

Lemma demo_ops_ok : ops_ok 4 demo_ops demo_svc demo_svc.
Proof. split; intros; cbn in *; simplify_eq; try done; revert H0; unfold demo_svc, SVC_RET1; destruct (set_reg_value _ _ _); intros; cbn in *; by simplify_eq. Qed.

Definition demo_env : env := mk_env true true true 0 (fun _ => true) (fun _ => true) (fun _ => true) 0 true true true true.
Definition demo_guest_tag (a : Z) : vmtag := mk_vmtag 0 2 0 0 0 0 0 (replicate 8 0) 0 false false false.
Definition demo_world (st vst : Z) : vdw unit := mk_vdw (demo_sys st vst) ∅ ∅ tt.
Definition demo_call_regs (x0 x1 x2 : Z) : list Z := [0x8000; 0; 0; x0; x1; x2] ++ replicate 28 0.
Definition demo_smc := smc_table (D := unit) 4 4 0 (Some 10) demo_relax false (fun _ => false) (fun _ => true) true false 3 demo_svc.
Definition demo_hvc := hvc_table 4 4 0 (Some 10) demo_relax (fun _ => true) true false demo_env 3 demo_ops demo_guest_tag (Some 0x9000) 0x9000 40 demo_svc.
Definition demo_tables (l : list (@svc_desc unit)) : list (option svc_desc) := default [] (parse_svc_desc l (replicate 64 None)).

(** The host VM asks for the power-off of the guest. *)
Example power_down_call :
  match __arm_svc_handler (demo_tables demo_smc) (demo_tables demo_hvc) (demo_call_regs HVC_VM_POWER_DOWN 2 0) false (demo_world VM_STATE_ONLINE TASK_STATE_RUNNING) with
  | Some (_, regs, w) => regs !! 3%nat = Some 0 /\ hv_ok 4 (w_hv w)
  | None => False
  end.
Proof.
  destruct (__arm_svc_handler _ _ _ _ _) as [[[r regs] w]|] eqn:E; [|vm_compute in E; discriminate E]. split.
  - assert ((fun x => snd (fst x) !! 3%nat) <$> Some (r, regs, w) = Some (Some 0)) as H by (rewrite <- E; vm_compute; reflexivity). cbn in H. by injection H as H.
  - apply (guest_calls_keep_vms 4 4 4 0 (Some 10) demo_relax false (fun _ => false) (fun _ => true) true false demo_env 3 demo_ops demo_guest_tag (Some 0x9000) 0x9000 40 demo_svc demo_svc
      demo_relax_shape demo_ops_ok (fun a => conj (eq_refl : 0 < 2) eq_refl) (demo_tables demo_smc) (demo_tables demo_hvc) false
      (demo_call_regs HVC_VM_POWER_DOWN 2 0) (demo_world VM_STATE_ONLINE TASK_STATE_RUNNING) r regs w (conj eq_refl eq_refl) (demo_sys_ok _ _) E).
Qed.

(** The first vcpu of the host VM starts the second one, which is made ready; a
    call for a third one is refused. *)
Lemma psci_cpu_on_correct_witness :
  (exists s', __arm_svc_handler (demo_tables demo_smc) (demo_tables demo_hvc) (demo_call_regs PSCI_0_2_FN64_CPU_ON 1 0x4000) true (demo_world VM_STATE_ONLINE TASK_STATE_SUSPEND)
      = Some (0, with_x0 (demo_call_regs PSCI_0_2_FN64_CPU_ON 1 0x4000) 0, set_hv s' (demo_world VM_STATE_ONLINE TASK_STATE_SUSPEND)) /\
    (vc_queued <$> vcpu_heap s' !! 11) = Some true /\ (vc_queued <$> vcpu_heap s' !! 13) = Some false) /\
  __arm_svc_handler (demo_tables demo_smc) (demo_tables demo_hvc) (demo_call_regs PSCI_0_2_FN64_CPU_ON 2 0x4000) true (demo_world VM_STATE_ONLINE TASK_STATE_SUSPEND)
    = Some (0, with_x0 (demo_call_regs PSCI_0_2_FN64_CPU_ON 2 0x4000) PSCI_RET_INVALID_PARAMS, demo_world VM_STATE_ONLINE TASK_STATE_SUSPEND).
Proof.
  pose proof (fun aff => psci_cpu_on_correct 4 4 4 0 (Some 10) demo_relax false (fun _ => false) (fun _ => true) true false demo_env 3 demo_ops demo_guest_tag (Some 0x9000) 0x9000 40 demo_svc demo_svc
    (demo_tables demo_smc) (demo_tables demo_hvc) (demo_call_regs PSCI_0_2_FN64_CPU_ON aff 0x4000) (demo_world VM_STATE_ONLINE TASK_STATE_SUSPEND)
    10 (demo_vcpu 0 1 (Some 11) TASK_STATE_SUSPEND) (demo_vm 1 VM_STATE_FREEZEING (Z.lor VM_FLAGS_NATIVE (Z.lor VM_FLAGS_HOST VM_FLAGS_CAN_RESET)) 10 11)
    PSCI_0_2_FN64_CPU_ON aff 0x4000 (conj eq_refl eq_refl)) as H.
  assert (vm_ok (vcpu_heap (demo_sys VM_STATE_ONLINE TASK_STATE_SUSPEND)) 1 (demo_vm 1 VM_STATE_FREEZEING (Z.lor VM_FLAGS_NATIVE (Z.lor VM_FLAGS_HOST VM_FLAGS_CAN_RESET)) 10 11)) as Hok.
  { destruct (ho_vm _ _ (demo_sys_ok VM_STATE_ONLINE TASK_STATE_SUSPEND) 1%nat 1 eq_refl) as (_ & _ & m & Hm & _ & Hok). by injection Hm as <-. }
  assert (forall t ct, vcpu_heap (demo_sys VM_STATE_ONLINE TASK_STATE_SUSPEND) !! t = Some ct -> vcpu_is_offline ct = true -> vc_queued ct = false) as Hq.
  { intros t ct Hc _. apply demo_sys_heap in Hc as [[_ ->]|[[_ ->]|[[_ ->]|[_ ->]]]]; done. }
  split.
  - destruct (H 1) as (ret & s' & E & _ & Hon); [done..|by left|done|]. destruct (Hon eq_refl) as (t & ct & Ht & Hc & _ & _ & Hr). injection Ht as <-. injection Hc as <-.
    destruct Hr as [-> ->]. by eexists.
  - destruct (H 2) as (ret & s' & E & Hoff & _); [done..|by left|done|]. rewrite E. by destruct (Hoff ltac:(done)) as [-> ->].
Defined.
