(* ===== verification/Vmbox.v ===== *)
(** * Message boxes between VMs (virt/vmbox/vmbox.c, virt/vmbox/vmbox_hvc.c,
      include/virt/vmbox.h)

    A message box is shared memory between two VMs with a device at each end.
    Every VM has a controller, a virtual device of Vdev.v whose state is here;
    the registers of the controller show the devices of the VM.  Pointers are
    numbers; boxes, devices and controllers are objects of [bx].  The address
    of a controller is the address of its virtual device.  [virq_of] and
    [shmem_of] are the answers of [ask_virq] and [ask_shmem]; they may
    depend on the calls made so far, which [bx_log] records together with the
    other calls that leave this component.  A bad access is [None].  The nodes
    that are added to the device tree of a VM are left out. *)
From stdpp Require Import strings.
From S2P Require Import Prelude Bitops Bitmap Stage2 VmmArea Vmm Sched Task Vm VmPm Vdev.

Definition VMBOX_MAX_COUNT : Z := 16.
Definition VMBOX_VRING_ALGIN_SIZE : Z := 8.
Definition VMBOX_DEV_STAT_ONLINE : Z := 0x1.
Definition VMBOX_IPC_ALL_ENTRY_SIZE : Z := 0x100.
Definition VMBOX_F_PLATFORM_DEV : Z := Z.shiftl 1 0.
Definition VMBOX_DEVICE_MAGIC : Z := 0xabcdef00.
Definition VMBOX_CON_DEV_STAT : Z := 0x00.
Definition VMBOX_CON_ONLINE : Z := 0x04.
Definition VMBOX_CON_INT_STATUS : Z := 0x08.
Definition VMBOX_CON_INT_TYPE_DEV_ONLINE : Z := Z.shiftl 1 0.
Definition VMBOX_CON_DEV_BASE : Z := 0x100.
Definition VMBOX_CON_DEV_SIZE : Z := 0x40.
Definition VMBOX_DEV_ID : Z := 0x00.
Definition VMBOX_DEV_VQS : Z := 0x04.
Definition VMBOX_DEV_VRING_NUM : Z := 0x08.
Definition VMBOX_DEV_VRING_SIZE : Z := 0x0c.
Definition VMBOX_DEV_VRING_BASE_HI : Z := 0x10.
Definition VMBOX_DEV_VRING_BASE_LOW : Z := 0x14.
Definition VMBOX_DEV_MEM_SIZE : Z := 0x18.
Definition VMBOX_DEV_DEVICE_ID : Z := 0x1c.
Definition VMBOX_DEV_VENDOR_ID : Z := 0x20.
Definition VMBOX_DEV_VRING_IRQ : Z := 0x24.
Definition VMBOX_DEV_IPC_IRQ : Z := 0x28.
Definition VMBOX_DEV_VRING_EVENT : Z := 0x2c.
Definition VMBOX_DEV_IPC_EVENT : Z := 0x30.
Definition VMBOX_DEV_VDEV_ONLINE : Z := 0x34.
Definition VMBOX_DEV_IPC_TYPE : Z := 0x38.
Definition VMBOX_DEV_IPC_COUNT : Z := 32.
Definition EEXIST : Z := 17.
Definition BUF_0_SIZE : Z := 4096.
Definition BUF_1_SIZE : Z := 2048.

(** The functions of the controller, by number. *)
Definition VMBOX_CON_READ_FN : Z := 0x100.
Definition VMBOX_CON_WRITE_FN : Z := 0x101.
Definition VMBOX_CON_DEINIT_FN : Z := 0x102.
Definition VMBOX_CON_RESET_FN : Z := 0x103.

Record vmbox_info := mk_vmbox_info {
  vi_owner : Z * Z;
  vi_id : Z * Z;
  vi_vqs : Z;
  vi_vring_num : Z;
  vi_vring_size : Z;
  vi_shmem_size : Z;
  vi_flags : Z;
  vi_type : string;
}.

Record vmbox_device := mk_vmbox_device {
  bd_devid : Z;
  is_backend : bool;
  bd_state : Z;
  bd_vm : option Z;
  bd_vmbox : Z;
  vring_virq : Z;
  ipc_virq : Z;
  ipc_type : Z;
  iomem : Z;
  iomem_size : Z;
  bd_vc : option Z;
  bro : option Z;
}.

(** [owner], [devid] and [devices] have the back end first. *)
Record vmbox := mk_vmbox {
  b_id : Z;
  b_name : string;
  b_owner : Z * Z;
  b_devid : Z * Z;
  b_shmem : Z;
  b_shmem_size : Z;
  b_vqs : Z;
  b_vring_num : Z;
  b_vring_size : Z;
  b_flags : Z;
  b_devices : option Z * option Z;
}.

Record vmbox_controller := mk_vmbox_controller {
  vc_va : Z;
  vc_owner : Z;
  dev_cnt : Z;
  status : Z;
  vc_virq : Z;
  irq_state : Z;
  dev_state : Z;
  con_devices : list (option Z);
}.

Record vmbox_hook_ops := mk_hook_ops { ho_init : option Z; ho_be_init : option Z; ho_fe_init : option Z }.

Inductive bcall :=
| bc_alloc_virq (p : option Z)
| bc_alloc_shmem (pages : Z)
| bc_memset (addr size : Z)
| bc_request_virq (p irq : Z)
| bc_map_area (p start pa : Z)
| bc_send_virq (p : option Z) (virq : Z)
| bc_write32 (addr v : Z)
| bc_hook (f : Z) (p : option Z) (box : Z) (dev : option Z).

Record bx := mk_bx {
  boxes : gmap Z vmbox;
  bdevs : gmap Z vmbox_device;
  controllers : gmap Z vmbox_controller;
  vmboxs : list (option Z);
  vmbox_index : Z;
  vmbox_con_list : list Z;
  vmbox_hook_list : list (string * vmbox_hook_ops);
  bx_log : list bcall;
}.

Definition set_bd_devid (y : Z) (v : vmbox_device) : vmbox_device := mk_vmbox_device y (is_backend v) (bd_state v) (bd_vm v) (bd_vmbox v) (vring_virq v) (ipc_virq v) (ipc_type v) (iomem v) (iomem_size v) (bd_vc v) (bro v).
Definition set_bd_state (y : Z) (v : vmbox_device) : vmbox_device := mk_vmbox_device (bd_devid v) (is_backend v) y (bd_vm v) (bd_vmbox v) (vring_virq v) (ipc_virq v) (ipc_type v) (iomem v) (iomem_size v) (bd_vc v) (bro v).
Definition set_vring_virq (y : Z) (v : vmbox_device) : vmbox_device := mk_vmbox_device (bd_devid v) (is_backend v) (bd_state v) (bd_vm v) (bd_vmbox v) y (ipc_virq v) (ipc_type v) (iomem v) (iomem_size v) (bd_vc v) (bro v).
Definition set_ipc_virq (y : Z) (v : vmbox_device) : vmbox_device := mk_vmbox_device (bd_devid v) (is_backend v) (bd_state v) (bd_vm v) (bd_vmbox v) (vring_virq v) y (ipc_type v) (iomem v) (iomem_size v) (bd_vc v) (bro v).
Definition set_ipc_type (y : Z) (v : vmbox_device) : vmbox_device := mk_vmbox_device (bd_devid v) (is_backend v) (bd_state v) (bd_vm v) (bd_vmbox v) (vring_virq v) (ipc_virq v) y (iomem v) (iomem_size v) (bd_vc v) (bro v).
Definition set_iomem (y : Z) (v : vmbox_device) : vmbox_device := mk_vmbox_device (bd_devid v) (is_backend v) (bd_state v) (bd_vm v) (bd_vmbox v) (vring_virq v) (ipc_virq v) (ipc_type v) y (iomem_size v) (bd_vc v) (bro v).
Definition set_iomem_size (y : Z) (v : vmbox_device) : vmbox_device := mk_vmbox_device (bd_devid v) (is_backend v) (bd_state v) (bd_vm v) (bd_vmbox v) (vring_virq v) (ipc_virq v) (ipc_type v) (iomem v) y (bd_vc v) (bro v).
Definition set_bd_vc (y : option Z) (v : vmbox_device) : vmbox_device := mk_vmbox_device (bd_devid v) (is_backend v) (bd_state v) (bd_vm v) (bd_vmbox v) (vring_virq v) (ipc_virq v) (ipc_type v) (iomem v) (iomem_size v) y (bro v).
Definition set_bro (y : option Z) (v : vmbox_device) : vmbox_device := mk_vmbox_device (bd_devid v) (is_backend v) (bd_state v) (bd_vm v) (bd_vmbox v) (vring_virq v) (ipc_virq v) (ipc_type v) (iomem v) (iomem_size v) (bd_vc v) y.
Definition set_b_shmem (y : Z) (b : vmbox) : vmbox := mk_vmbox (b_id b) (b_name b) (b_owner b) (b_devid b) y (b_shmem_size b) (b_vqs b) (b_vring_num b) (b_vring_size b) (b_flags b) (b_devices b).
Definition set_b_shmem_size (y : Z) (b : vmbox) : vmbox := mk_vmbox (b_id b) (b_name b) (b_owner b) (b_devid b) (b_shmem b) y (b_vqs b) (b_vring_num b) (b_vring_size b) (b_flags b) (b_devices b).
Definition set_b_devices (y : option Z * option Z) (b : vmbox) : vmbox := mk_vmbox (b_id b) (b_name b) (b_owner b) (b_devid b) (b_shmem b) (b_shmem_size b) (b_vqs b) (b_vring_num b) (b_vring_size b) (b_flags b) y.
Definition set_dev_cnt (y : Z) (c : vmbox_controller) : vmbox_controller := mk_vmbox_controller (vc_va c) (vc_owner c) y (status c) (vc_virq c) (irq_state c) (dev_state c) (con_devices c).
Definition set_status (y : Z) (c : vmbox_controller) : vmbox_controller := mk_vmbox_controller (vc_va c) (vc_owner c) (dev_cnt c) y (vc_virq c) (irq_state c) (dev_state c) (con_devices c).
Definition set_irq_state (y : Z) (c : vmbox_controller) : vmbox_controller := mk_vmbox_controller (vc_va c) (vc_owner c) (dev_cnt c) (status c) (vc_virq c) y (dev_state c) (con_devices c).
Definition set_dev_state (y : Z) (c : vmbox_controller) : vmbox_controller := mk_vmbox_controller (vc_va c) (vc_owner c) (dev_cnt c) (status c) (vc_virq c) (irq_state c) y (con_devices c).
Definition set_con_devices (y : list (option Z)) (c : vmbox_controller) : vmbox_controller := mk_vmbox_controller (vc_va c) (vc_owner c) (dev_cnt c) (status c) (vc_virq c) (irq_state c) (dev_state c) y.
Definition set_boxes (y : gmap Z vmbox) (x : bx) : bx := mk_bx y (bdevs x) (controllers x) (vmboxs x) (vmbox_index x) (vmbox_con_list x) (vmbox_hook_list x) (bx_log x).
Definition set_bdevs (y : gmap Z vmbox_device) (x : bx) : bx := mk_bx (boxes x) y (controllers x) (vmboxs x) (vmbox_index x) (vmbox_con_list x) (vmbox_hook_list x) (bx_log x).
Definition set_controllers (y : gmap Z vmbox_controller) (x : bx) : bx := mk_bx (boxes x) (bdevs x) y (vmboxs x) (vmbox_index x) (vmbox_con_list x) (vmbox_hook_list x) (bx_log x).
Definition set_vmboxs (y : list (option Z)) (x : bx) : bx := mk_bx (boxes x) (bdevs x) (controllers x) y (vmbox_index x) (vmbox_con_list x) (vmbox_hook_list x) (bx_log x).
Definition set_vmbox_index (y : Z) (x : bx) : bx := mk_bx (boxes x) (bdevs x) (controllers x) (vmboxs x) y (vmbox_con_list x) (vmbox_hook_list x) (bx_log x).
Definition set_vmbox_con_list (y : list Z) (x : bx) : bx := mk_bx (boxes x) (bdevs x) (controllers x) (vmboxs x) (vmbox_index x) y (vmbox_hook_list x) (bx_log x).
Definition set_vmbox_hook_list (y : list (string * vmbox_hook_ops)) (x : bx) : bx := mk_bx (boxes x) (bdevs x) (controllers x) (vmboxs x) (vmbox_index x) (vmbox_con_list x) y (bx_log x).
Definition set_bx_log (y : list bcall) (x : bx) : bx := mk_bx (boxes x) (bdevs x) (controllers x) (vmboxs x) (vmbox_index x) (vmbox_con_list x) (vmbox_hook_list x) y.

Definition blog (c : bcall) (x : bx) : bx := set_bx_log (bx_log x ++ [c]) x.
Definition put_box (p : Z) (b : vmbox) (x : bx) : bx := set_boxes (<[p := b]> (boxes x)) x.
Definition put_bdev (p : Z) (v : vmbox_device) (x : bx) : bx := set_bdevs (<[p := v]> (bdevs x)) x.
Definition put_con (p : Z) (c : vmbox_controller) (x : bx) : bx := set_controllers (<[p := c]> (controllers x)) x.
Definition upd_bdev (p : Z) (f : vmbox_device -> vmbox_device) (x : bx) : option bx := v ← bdevs x !! p; Some (put_bdev p (f v) x).

(** The field of the back end or of the front end. *)
Definition side {A} (be : bool) (l : A * A) : A := if be then fst l else snd l.

(** ** Hooks *)
Definition vmbox_find_hook (name : string) (x : bx) : option (string * vmbox_hook_ops) :=
  List.find (fun h => bool_decide (fst h = name)) (vmbox_hook_list x).

(** At most 31 characters of the name are kept. *)
Definition register_vmbox_hook (name : string) (ops : option vmbox_hook_ops) (ok : bool) (x : bx) : Z * bx :=
  match ops with
  | None => (- EINVAL, x)
  | Some ops =>
      match vmbox_find_hook name x with
      | Some _ => (- EEXIST, x)
      | None =>
          if negb ok then (- ENOMEM, x)
          else (0, set_vmbox_hook_list (vmbox_hook_list x ++ [(String.substring 0 31 name, ops)]) x)
      end
  end.

(** A hook that is called is recorded. *)
Definition call_hook (f : option Z) (p : option Z) (box : Z) (dev : option Z) (x : bx) : bx :=
  match f with Some f => blog (bc_hook f p box dev) x | None => x end.

Definition do_vmbox_hook (p : Z) (x : bx) : option bx :=
  b ← boxes x !! p;
  match vmbox_find_hook (b_name b) x with
  | None => Some x
  | Some (_, ops) => Some (call_hook (ho_init ops) None p None x)
  end.

(** ** The size of the shared memory *)

(** [int] variables: the value is cut to 32 bits before and after it is
    aligned. *)
Definition int_align (size align : Z) : Z := u32 (s32 (Z.land (u64 (s32 (u64 (size + (align - 1))))) (not64 (align - 1)))).

Definition vmbox_virtq_vring_desc_size (qsz align : Z) : Z := int_align (16 * qsz) align.
Definition vmbox_virtq_vring_avail_size (qsz align : Z) : Z := int_align (2 * u32 (3 + qsz)) align.
Definition vmbox_virtq_vring_used_size (qsz align : Z) : Z := int_align (2 * 2 + 8 * u32 (qsz + 1)) align.
Definition vmbox_virtq_vring_size (qsz align : Z) : Z :=
  u32 (vmbox_virtq_vring_desc_size qsz align + vmbox_virtq_vring_avail_size qsz align + vmbox_virtq_vring_used_size qsz align).

Definition get_vmbox_iomem_header_size (i : vmbox_info) : Z :=
  u64 (VMBOX_IPC_ALL_ENTRY_SIZE + u32 (vmbox_virtq_vring_size (vi_vring_num i) VMBOX_VRING_ALGIN_SIZE * vi_vqs i)).
Definition get_vmbox_iomem_buf_size (i : vmbox_info) : Z := u32 (u32 (vi_vring_num i * vi_vring_size i) * vi_vqs i).
Definition get_vmbox_iomem_size (i : vmbox_info) : Z := u64 (get_vmbox_iomem_header_size i + get_vmbox_iomem_buf_size i).

(** ** Making a box *)
Section vmbox.
Context (CONFIG_MAX_VM : Z) (virq_of : list bcall -> option Z -> Z) (shmem_of : list bcall -> Z -> option Z).
Implicit Type w : vdw bx.

Definition ask_virq (p : option Z) (x : bx) : Z * bx := (virq_of (bx_log x) p, blog (bc_alloc_virq p) x).
Definition ask_shmem (pages : Z) (x : bx) : option Z * bx := (shmem_of (bx_log x) pages, blog (bc_alloc_shmem pages) x).

(** [a] is the address that [zalloc] returns. *)
Definition create_vmbox_device (h : hv) (p : Z) (be : bool) (a : option Z) (x : bx) : option (option Z * bx) :=
  match a with
  | None => Some (None, x)
  | Some a =>
      b ← boxes x !! p;
      m ← get_vm_by_id CONFIG_MAX_VM (u32 (side be (b_owner b))) h;
      Some (Some a, put_bdev a (mk_vmbox_device 0 be 0 m p 0 0 0 0 0 None None) x)
  end.

Definition create_vmbox_devices (h : hv) (p : Z) (a_be a_fe : option Z) (x : bx) : option (Z * bx) :=
  '(be, x) ← create_vmbox_device h p true a_be x;
  '(fe, x) ← create_vmbox_device h p false a_fe x;
  match be, fe with
  | Some be, Some fe =>
      x ← upd_bdev be (set_bro (Some fe)) x;
      x ← upd_bdev fe (set_bro (Some be)) x;
      b ← boxes x !! p;
      Some (0, put_box p (set_b_devices (Some be, Some fe) b) x)
  | Some be, None => Some (- ENOMEM, set_bdevs (delete be (bdevs x)) x)
  | None, Some fe => Some (- ENOMEM, set_bdevs (delete fe (bdevs x)) x)
  | None, None => Some (- ENOMEM, x)
  end.

(** [vmboxs[vmbox_index++] = vmbox]. *)
Definition push_vmbox (p : Z) (x : bx) : option bx :=
  if (0 <=? vmbox_index x) && (vmbox_index x <? Z.of_nat (length (vmboxs x)))
  then Some (set_vmbox_index (vmbox_index x + 1) (set_vmboxs (<[Z.to_nat (vmbox_index x) := Some p]> (vmboxs x)) x)) else None.

Definition create_vmbox (h : hv) (i : vmbox_info) (a a_be a_fe : option Z) (x : bx) : option (Z * bx) :=
  vm1 ← get_vm_by_id CONFIG_MAX_VM (u32 (fst (vi_owner i))) h;
  vm2 ← get_vm_by_id CONFIG_MAX_VM (u32 (snd (vi_owner i))) h;
  match vm1, vm2 with
  | Some _, Some _ =>
      match a with
      | None => Some (- ENOMEM, x)
      | Some p =>
          let x := put_box p (mk_vmbox (vmbox_index x) (vi_type i) (u32 (fst (vi_owner i)), u32 (snd (vi_owner i))) (vi_id i) 0 0
                                (vi_vqs i) (vi_vring_num i) (vi_vring_size i) (vi_flags i) (None, None)) x in
          x ← push_vmbox p x;
          let iomem_size := PAGE_BALIGN (if vi_shmem_size i =? 0 then get_vmbox_iomem_size i else vi_shmem_size i) in
          let '(shmem, x) := ask_shmem (PAGE_NR iomem_size) x in
          shmem ← shmem;
          let x := blog (bc_memset shmem (if vi_shmem_size i =? 0 then get_vmbox_iomem_header_size i else VMBOX_IPC_ALL_ENTRY_SIZE)) x in
          b ← boxes x !! p;
          let x := put_box p (set_b_shmem_size iomem_size (set_b_shmem shmem b)) x in
          '(_, x) ← create_vmbox_devices h p a_be a_fe x;
          x ← do_vmbox_hook p x;
          Some (0, x)
      end
  | _, _ => Some (- ENOENT, x)
  end.

(** The properties of the device tree node of a box. *)
Record vmbox_node := mk_vmbox_node {
  n_owner : list Z;
  n_type : string;
  n_id : list Z;
  n_platform : bool;
  n_shmem_size : list Z;
  n_vqs : list Z;
  n_vrings : list Z;
  n_vring_size : list Z;
}.

(** [of_get_u32_array] with a property that is absent or malformed ([[]]). *)
Definition of_get_u32_array (l : list Z) (len : nat) : Z * list Z :=
  (match l with [] => - EINVAL | _ => Z.of_nat (Nat.min len (length l)) end, take len (l ++ replicate len 0)).
Definition u32_at (l : list Z) (k : nat) : Z := default 0 (l !! k).

Definition of_create_vmbox (h : hv) (n : vmbox_node) (a a_be a_fe : option Z) (x : bx) : option (Z * bx) :=
  if VMBOX_MAX_COUNT <=? vmbox_index x then Some (- ENOSPC, x)
  else
    let '(ret, owner) := of_get_u32_array (n_owner n) 2 in
    if ret <? 2 then Some (- EINVAL, x)
    else
      let '(_, id) := of_get_u32_array (n_id n) 2 in
      let '(ret, shmem_size) := of_get_u32_array (n_shmem_size n) 1 in
      let mk vqs num size := mk_vmbox_info (u32_at owner 0, u32_at owner 1) (u32_at id 0, u32_at id 1) vqs num size (u32_at shmem_size 0)
                               (if n_platform n then VMBOX_F_PLATFORM_DEV else 0) (String.substring 0 30 (n_type n)) in
      if negb (ret =? 0) && (0 <? u32_at shmem_size 0) then create_vmbox h (mk 0 0 0) a a_be a_fe x
      else
        let '(ret, vqs) := of_get_u32_array (n_vqs n) 1 in
        if ret <=? 0 then Some (- EINVAL, x)
        else create_vmbox h (mk (u32_at vqs 0) (u32_at (snd (of_get_u32_array (n_vrings n) 1)) 0) (u32_at (snd (of_get_u32_array (n_vring_size n) 1)) 0)) a a_be a_fe x.

(** ** Attaching the devices to a VM *)
Definition vmbox_get_controller (p : Z) (x : bx) : option (option Z) :=
  (fix go (l : list Z) : option (option Z) :=
     match l with
     | [] => Some None
     | d :: l => c ← controllers x !! d; if vc_owner c =? p then Some (Some d) else go l
     end) (vmbox_con_list x).

(** [map_vmm_area] on the area that was just taken, the last one used. *)
Definition map_new_area (p : Z) (va : vmm_area) (pa : Z) w : option (vdw bx) :=
  mm ← w_mm w !! p;
  let mm := mk_areas (vmm_area_free mm) (removelast (vmm_area_used mm) ++ [set_pstart pa va]) in
  Some (set_dev (blog (bc_map_area p (va_start va) pa) (w_dev w)) (put_mm p mm w)).

(** [vc->devices[devid] = vdev]. *)
Definition set_con_device (i v : Z) (c : vmbox_controller) : option vmbox_controller :=
  if (0 <=? i) && (i <? Z.of_nat (length (con_devices c))) then Some (set_con_devices (<[Z.to_nat i := Some v]> (con_devices c)) c) else None.

Definition vmbox_device_attach (d box : Z) (dev : option Z) (oks : list bool) w : option (Z * list bool * vdw bx) :=
  dev ← dev;
  v ← bdevs (w_dev w) !! dev;
  b ← boxes (w_dev w) !! box;
  let '(q1, x) := ask_virq (bd_vm v) (w_dev w) in
  let '(q2, x) := ask_virq (bd_vm v) x in
  x ← upd_bdev dev (fun v => set_ipc_virq q2 (set_vring_virq q1 (set_bd_vc (Some d) v))) x;
  let w := set_dev x w in
  if (q1 =? 0) || (q2 =? 0) then Some (- ENOSPC, oks, w)
  else
    p ← bd_vm v;
    mm ← w_mm w !! p;
    let '(va, oks, mm) := alloc_free_vmm_area (b_shmem_size b) PAGE_MASK (Z.lor VM_SHARED VM_GUEST_SHMEM) oks mm in
    let w := put_mm p mm w in
    match va with
    | None => Some (- ENOMEM, oks, w)
    | Some va =>
        w ← map_new_area p va (b_shmem b) w;
        c ← controllers (w_dev w) !! d;
        x ← upd_bdev dev (fun v => set_bd_devid (dev_cnt c) (set_iomem_size (b_shmem_size b) (set_iomem (va_start va) v))) (w_dev w);
        c' ← set_con_device (dev_cnt c) dev (set_dev_cnt (dev_cnt c + 1) c);
        let c' := set_irq_state (Z.lor (irq_state c') (Z.shiftl 1 VMBOX_CON_INT_TYPE_DEV_ONLINE)) (set_dev_state (Z.lor (dev_state c') (u32 (Z.shiftl 1 (dev_cnt c)))) c') in
        Some (0, oks, set_dev (put_con d c' x) w)
    end.

(** The device of one end of a box goes to the controller of its VM. *)
Definition attach_end (d box id : Z) (be : bool) (oks : list bool) w : option (list bool * vdw bx) :=
  b ← boxes (w_dev w) !! box;
  if side be (b_owner b) =? id then '(_, oks, w) ← vmbox_device_attach d box (side be (b_devices b)) oks w; Some (oks, w)
  else Some (oks, w).

Fixpoint attach_loop (n : nat) (i : nat) (d id : Z) (oks : list bool) w : option (list bool * vdw bx) :=
  match n with
  | O => Some (oks, w)
  | S n =>
      o ← vmboxs (w_dev w) !! i;
      box ← o;
      '(oks, w) ← attach_end d box id true oks w;
      '(oks, w) ← attach_end d box id false oks w;
      attach_loop n (S i) d id oks w
  end.

Definition vmbox_device_attach_to_vm (d : Z) (oks : list bool) w : option (list bool * vdw bx) :=
  c ← controllers (w_dev w) !! d;
  m ← vm_heap (w_hv w) !! vc_owner c;
  attach_loop (Z.to_nat (vmbox_index (w_dev w))) 0 d (vmid m) oks w.

(** ** The registers *)
Definition vmbox_handle_con_read (d offset : Z) w : option (Z * Z * vdw bx) :=
  c ← controllers (w_dev w) !! d;
  if offset =? VMBOX_CON_DEV_STAT then Some (0, dev_state c, w)
  else if offset =? VMBOX_CON_INT_STATUS then Some (0, irq_state c, set_dev (put_con d (set_irq_state 0 c) (w_dev w)) w)
  else Some (0, 0, w).

(** The value that is read, and the device after it. *)
Definition __vmbox_handle_dev_read (b : vmbox) (v : vmbox_device) (reg : Z) : Z * vmbox_device :=
  if reg =? VMBOX_DEV_IPC_TYPE then (ipc_type v, set_ipc_type 0 v)
  else if reg =? VMBOX_DEV_DEVICE_ID then (if is_backend v then fst (b_devid b) else u32 (fst (b_devid b) + 1), v)
  else if reg =? VMBOX_DEV_VQS then (b_vqs b, v)
  else if reg =? VMBOX_DEV_VRING_NUM then (b_vring_num b, v)
  else if reg =? VMBOX_DEV_VRING_SIZE then (b_vring_size b, v)
  else if reg =? VMBOX_DEV_VRING_BASE_HI then (Z.shiftr (iomem v) 32, v)
  else if reg =? VMBOX_DEV_VRING_BASE_LOW then (Z.land (iomem v) 0xffffffff, v)
  else if reg =? VMBOX_DEV_MEM_SIZE then (iomem_size v, v)
  else if reg =? VMBOX_DEV_ID then (Z.lor (u32 (bd_devid v)) VMBOX_DEVICE_MAGIC, v)
  else if reg =? VMBOX_DEV_VENDOR_ID then (snd (b_devid b), v)
  else if reg =? VMBOX_DEV_VRING_IRQ then (vring_virq v, v)
  else if reg =? VMBOX_DEV_IPC_IRQ then (ipc_virq v, v)
  else (0, v).

(** [vc->devices[devid]] for a register offset: the size of the array in bytes
    is taken for its length.  The error code, or the device and the register. *)
Definition select_device (d offset : Z) (x : bx) : option (Z + Z * Z) :=
  let offset := u64 (offset - VMBOX_CON_DEV_BASE) in
  let devid := s32 (offset / VMBOX_CON_DEV_SIZE) in
  let reg := u32 (offset mod VMBOX_CON_DEV_SIZE) in
  c ← controllers x !! d;
  if 8 * Z.of_nat (length (con_devices c)) <=? u64 devid then Some (inl (- EINVAL))
  else
    o ← con_devices c !! Z.to_nat devid;
    match o with None => Some (inl (- ENOENT)) | Some v => Some (inr (v, reg)) end.

Definition vmbox_handle_dev_read (d offset value : Z) w : option (Z * Z * vdw bx) :=
  r ← select_device d offset (w_dev w);
  match r with
  | inl ret => Some (ret, value, w)
  | inr (dev, reg) =>
      v ← bdevs (w_dev w) !! dev;
      b ← boxes (w_dev w) !! bd_vmbox v;
      let '(value, v) := __vmbox_handle_dev_read b v reg in
      Some (0, value, set_dev (put_bdev dev v (w_dev w)) w)
  end.

Definition vmbox_con_read (d offset value : Z) w : option (Z * Z * vdw bx) :=
  if offset <? VMBOX_CON_DEV_BASE then vmbox_handle_con_read d offset w else vmbox_handle_dev_read d offset value w.

Definition vmbox_handle_con_write (d offset value : Z) (oks : list bool) w : option (Z * Z * vdw bx) :=
  c ← controllers (w_dev w) !! d;
  if offset =? VMBOX_CON_ONLINE then
    '(_, w) ← vmbox_device_attach_to_vm d oks (set_dev (put_con d (set_status 1 c) (w_dev w)) w);
    Some (0, value, w)
  else Some (0, value, w).

Definition post_virq (p : option Z) (virq : Z) (x : bx) : bx := blog (bc_send_virq p virq) x.

(** The write of a device register: what it does to the other end [o] at [bp]. *)
Definition dev_event (reg value : Z) (dev : Z) (v : vmbox_device) (bp : Z) (o : vmbox_device) (x : bx) : bx :=
  if reg =? VMBOX_DEV_VRING_EVENT then
    if bd_state o =? 0 then x else post_virq (bd_vm o) (vring_virq o) x
  else if reg =? VMBOX_DEV_IPC_EVENT then
    if (bd_state o =? 0) || (VMBOX_DEV_IPC_COUNT <=? value) then x
    else if Z.land (ipc_type o) (u32 (Z.shiftl 1 value)) =? 0
    then post_virq (bd_vm o) (ipc_virq o) (put_bdev bp (set_ipc_type (Z.lor (ipc_type o) (u32 (Z.shiftl 1 value))) o) x)
    else x
  else if reg =? VMBOX_DEV_VDEV_ONLINE then
    let x := put_bdev dev (set_bd_state VMBOX_DEV_STAT_ONLINE v) x in
    if bd_state o =? VMBOX_DEV_STAT_ONLINE
    then post_virq (bd_vm o) (ipc_virq o) (put_bdev bp (set_ipc_type (Z.lor (ipc_type o) (Z.shiftl 1 0)) o) x)
    else x
  else x.

Definition vmbox_handle_dev_write (d offset value : Z) w : option (Z * Z * vdw bx) :=
  r ← select_device d offset (w_dev w);
  match r with
  | inl ret => Some (ret, value, w)
  | inr (dev, reg) =>
      v ← bdevs (w_dev w) !! dev;
      if (reg =? VMBOX_DEV_VRING_EVENT) || (reg =? VMBOX_DEV_IPC_EVENT) || (reg =? VMBOX_DEV_VDEV_ONLINE) then
        bp ← bro v;
        o ← bdevs (w_dev w) !! bp;
        Some (0, value, set_dev (dev_event reg value dev v bp o (w_dev w)) w)
      else Some (0, value, w)
  end.

Definition vmbox_con_write (d offset value : Z) (oks : list bool) w : option (Z * Z * vdw bx) :=
  if offset <? VMBOX_CON_DEV_BASE then vmbox_handle_con_write d offset value oks w else vmbox_handle_dev_write d offset value w.

(** The functions of the controller as Vdev.v calls them; [oks] are the
    answers of the allocations of one access. *)
Definition vmbox_call (oks : list bool) (f d idx offset value : Z) w : option (Z * Z * vdw bx) :=
  if f =? VMBOX_CON_READ_FN then vmbox_con_read d offset value w
  else if f =? VMBOX_CON_WRITE_FN then vmbox_con_write d offset value oks w
  else if (f =? VMBOX_CON_DEINIT_FN) || (f =? VMBOX_CON_RESET_FN) then Some (0, value, w)
  else None.

(** ** The controller of a VM *)
Definition init_controller (d p va virq : Z) w : option (vdw bx) :=
  o ← w_objs w !! d;
  let w := put_vdev d (set_ops (Some VMBOX_CON_READ_FN) (Some VMBOX_CON_WRITE_FN) (Some VMBOX_CON_DEINIT_FN) (Some VMBOX_CON_RESET_FN) o) w in
  w ← vdev_add d w;
  let x := put_con d (mk_vmbox_controller va p 0 0 virq 0 0 (replicate 32 None)) (w_dev w) in
  Some (set_dev (set_vmbox_con_list (vmbox_con_list x ++ [d]) x) w).

(** [a] is the address that [zalloc] returns.  A controller that is freed
    leaves its area in the address space of the VM. *)
Definition __vm_create_vmbox_controller_dynamic (p : Z) (a : option Z) (oks : list bool) w : option (Z * list bool * vdw bx) :=
  match a with
  | None => Some (- ENOMEM, oks, w)
  | Some d =>
      '(va, oks, w) ← vdev_alloc_iomem_range d PAGE_SIZE 0 oks (host_vdev_init (Some p) d w);
      match va with
      | None => Some (- ENOMEM, oks, drop_vdev d w)
      | Some va =>
          let '(virq, x) := ask_virq (Some p) (w_dev w) in
          let w := set_dev x w in
          if virq =? 0 then Some (- ENOENT, oks, drop_vdev d w)
          else w ← init_controller d p (va_start va) virq w; Some (0, oks, w)
      end
  end.

(** [node] is what the device tree says of a controller: its address range and
    its interrupt, where they can be read. *)
Definition __vm_create_vmbox_controller_static (p : Z) (node : option (option (Z * Z) * option Z)) (a : option Z) (oks : list bool) w
    : option (Z * list bool * vdw bx) :=
  match node with
  | None => Some (- EAGAIN, oks, w)
  | Some (None, _) => Some (- ENOENT, oks, w)
  | Some (Some (base, size), irq) =>
      if size =? 0 then Some (- ENOENT, oks, w)
      else
        match irq with
        | None => Some (- ENOENT, oks, w)
        | Some irq =>
            if irq <? 32 then Some (- ENOENT, oks, w)
            else
              match a with
              | None => Some (- ENOMEM, oks, w)
              | Some d =>
                  '(ret, oks, w) ← vdev_add_iomem_range (Some d) base size oks (host_vdev_init (Some p) d w);
                  if negb (ret =? 0) then Some (ret, oks, drop_vdev d w)
                  else
                    w ← init_controller d p base irq (set_dev (blog (bc_request_virq p irq) (w_dev w)) w);
                    Some (0, oks, w)
              end
        end
  end.

Definition create_vmbox_controller (p : Z) (node : option (option (Z * Z) * option Z)) (a : option Z) (oks : list bool) w : option (Z * list bool * vdw bx) :=
  '(ret, oks, w) ← __vm_create_vmbox_controller_static p node a oks w;
  if ret =? 0 then Some (0, oks, w)
  else if negb (ret =? - EAGAIN) then Some (ret, oks, w)
  else __vm_create_vmbox_controller_dynamic p a oks w.

(** ** Hooks of the ends, and the console *)
Definition end_hook (f : vmbox_hook_ops -> option Z) (be : bool) (p : Z) (m : vm) (b : vmbox) (ops : vmbox_hook_ops) (x : bx) : option bx :=
  match f ops with
  | Some g =>
      if side be (b_owner b) =? vmid m then
        dev ← side be (b_devices b);
        v ← bdevs x !! dev;
        Some (call_hook (Some g) (bd_vm v) p (Some dev) x)
      else Some x
  | None => Some x
  end.

Fixpoint hooks_loop (n i : nat) (m : vm) (x : bx) : option bx :=
  match n with
  | O => Some x
  | S n =>
      o ← vmboxs x !! i;
      p ← o;
      b ← boxes x !! p;
      x ← match vmbox_find_hook (b_name b) x with
          | None => Some x
          | Some (_, ops) => x ← end_hook ho_be_init true p m b ops x; end_hook ho_fe_init false p m b ops x
          end;
      hooks_loop n (S i) m x
  end.

Definition vmbox_device_do_hooks (m : vm) (x : bx) : option (Z * bx) :=
  x ← hooks_loop (Z.to_nat (vmbox_index x)) 0 m x; Some (0, x).

(** The two rings of the console: three words and the buffer. *)
Definition init_ring (addr size : Z) (x : bx) : bx := blog (bc_write32 (addr + 8) size) (blog (bc_write32 (addr + 4) 0) (blog (bc_write32 addr 0) x)).
Definition hvc_vmbox_init (p : Z) (x : bx) : option (Z * bx) :=
  b ← boxes x !! p;
  let base := b_shmem b + VMBOX_IPC_ALL_ENTRY_SIZE in
  Some (0, init_ring (base + 12 + BUF_0_SIZE) BUF_1_SIZE (init_ring base BUF_0_SIZE x)).
End vmbox.

(** ** Invariant *)
Section vmbox_ok.
Context (CONFIG_MAX_VM : Z).
Implicit Type w : vdw bx.

(** The device of one end of box [b] at [p]: its VM is the owner of that end,
    and it is connected to [o]. *)
Record end_ok (h : hv) (p : Z) (b : vmbox) (be : bool) (v : vmbox_device) (o : Z) : Prop := mk_end_ok {
  eo_box : bd_vmbox v = p;
  eo_side : is_backend v = be;
  eo_bro : bro v = Some o;
  eo_vm : exists q, bd_vm v = Some q /\ get_vm_by_id CONFIG_MAX_VM (side be (b_owner b)) h = Some (Some q);
}.

Definition pair_ok (h : hv) (dv : gmap Z vmbox_device) (p : Z) (b : vmbox) : Prop :=
  b_devices b = (None, None) \/
  exists be fe v1 v2, b_devices b = (Some be, Some fe) /\ be <> fe /\ dv !! be = Some v1 /\ dv !! fe = Some v2 /\
    end_ok h p b true v1 fe /\ end_ok h p b false v2 be.

(** A controller: the slots are filled from the first one on, each with a
    device of the VM of the controller, and the state register shows them. *)
Record con_ok (h : hv) (dv : gmap Z vmbox_device) (c : vmbox_controller) : Prop := mk_con_ok {
  co_len : length (con_devices c) = 32%nat;
  co_cnt : 0 <= dev_cnt c <= 32;
  co_slots : forall i : nat, (i < 32)%nat -> Z.of_nat i < dev_cnt c <-> exists a, con_devices c !! i = Some (Some a);
  co_state : dev_state c = Z.ones (dev_cnt c);
  co_own : forall (i : nat) a, con_devices c !! i = Some (Some a) -> exists v, dv !! a = Some v /\ bd_vm v = Some (vc_owner c);
  co_vm : exists m, vm_heap h !! vc_owner c = Some m /\ get_vm_by_id CONFIG_MAX_VM (vmid m) h = Some (Some (vc_owner c));
}.

Record bx_ok (h : hv) (x : bx) : Prop := mk_bx_ok {
  bk_len : length (vmboxs x) = 16%nat /\ 0 <= vmbox_index x <= 16;
  bk_box : forall i : nat, Z.of_nat i < vmbox_index x -> exists p b, vmboxs x !! i = Some (Some p) /\ boxes x !! p = Some b;
  bk_pair : forall p b, boxes x !! p = Some b -> pair_ok h (bdevs x) p b;
  bk_dev : forall a v, bdevs x !! a = Some v -> exists b, boxes x !! bd_vmbox v = Some b /\ side (is_backend v) (b_devices b) = Some a;
  bk_con : forall d c, controllers x !! d = Some c -> con_ok h (bdevs x) c;
}.

Definition dev_core (v : vmbox_device) : bool * option Z * Z * option Z := (is_backend v, bd_vm v, bd_vmbox v, bro v).
Definition box_core (b : vmbox) : Z * Z * (option Z * option Z) := (b_owner b, b_devices b).

Lemma blog_ok h c x : bx_ok h x -> bx_ok h (blog c x).
Proof. intros []. by split. Qed.

Lemma end_ok_core h p b be v v' o : dev_core v' = dev_core v -> end_ok h p b be v o -> end_ok h p b be v' o.
Proof. intros E [H1 H2 H3 H4]. injection E as E1 E2 E3 E4. split; [congruence|congruence|congruence|]. by rewrite E2. Qed.

Lemma end_ok_box h p b b' be v o : box_core b' = box_core b -> end_ok h p b be v o -> end_ok h p b' be v o.
Proof. intros E [H1 H2 H3 H4]. injection E as E1 E2. split; try done. by rewrite E1. Qed.

Lemma put_bdev_lookup a v v' x k u : bdevs x !! a = Some v -> dev_core v' = dev_core v -> bdevs x !! k = Some u ->
  exists u', bdevs (put_bdev a v' x) !! k = Some u' /\ dev_core u' = dev_core u.
Proof.
  intros Ha E Hk. cbn. destruct (decide (a = k)) as [->|]; [rewrite lookup_insert_eq; eexists; split; [done|congruence]|].
  rewrite lookup_insert_ne by done. by eexists.
Qed.

(** A device register that does not say what the device is connected to. *)
Lemma put_bdev_ok h a v v' x : bdevs x !! a = Some v -> dev_core v' = dev_core v -> bx_ok h x -> bx_ok h (put_bdev a v' x).
Proof.
  intros Ha E [Hl Hb Hp Hd Hc]. pose proof E as E0. injection E0 as E1 E2 E3 E4. split; [done|done| | |].
  - intros p b H. destruct (Hp p b H) as [Hn|(be & fe & v1 & v2 & Hde & Hne & H1 & H2 & O1 & O2)]; [by left|right].
    destruct (put_bdev_lookup a v v' x be v1 Ha E H1) as (u1 & U1 & C1). destruct (put_bdev_lookup a v v' x fe v2 Ha E H2) as (u2 & U2 & C2).
    exists be, fe, u1, u2. split; [done|]. split; [done|]. split; [done|]. split; [done|]. split; by eapply end_ok_core.
  - intros k u. cbn. rewrite lookup_insert_Some. intros [[<- <-]|[_ H]]; [|by apply (Hd k)].
    rewrite E1, E3. by apply (Hd a).
  - intros d c H. destruct (Hc d c H) as [L1 L2 L3 L4 L5 L6]. split; try done. intros i k Hk. destruct (L5 i k Hk) as (u & Hu & Hq).
    destruct (put_bdev_lookup a v v' x k u Ha E Hu) as (u' & U & C). exists u'. split; [done|]. injection C as _ C _ _. congruence.
Qed.

Lemma put_box_ok h p b b' x : boxes x !! p = Some b -> box_core b' = box_core b -> bx_ok h x -> bx_ok h (put_box p b' x).
Proof.
  intros Ha E [Hl Hb Hp Hd Hc]. pose proof E as E0. injection E0 as E1 E2. split; [done| | | |done].
  - intros i Hi. destruct (Hb i Hi) as (q & b0 & Hq & Hb0). exists q. cbn. destruct (decide (p = q)) as [<-|]; [rewrite lookup_insert_eq; by eexists|].
    rewrite lookup_insert_ne by done. by eexists.
  - intros q b0. cbn. rewrite lookup_insert_Some. intros [[<- <-]|[_ H]]; [|by apply Hp].
    destruct (Hp p b Ha) as [Hn|(be & fe & v1 & v2 & Hde & Hne & H1 & H2 & O1 & O2)]; [left; congruence|right].
    exists be, fe, v1, v2. split; [congruence|]. split; [done|]. split; [done|]. split; [done|]. split; by eapply end_ok_box.
  - intros k u Hu. destruct (Hd k u Hu) as (b0 & H0 & Hs). cbn. destruct (decide (p = bd_vmbox u)) as [Hu'|]; [|rewrite lookup_insert_ne by done; by eexists].
    rewrite <- Hu' in *. rewrite lookup_insert_eq. assert (b0 = b) as -> by congruence. eexists. split; [done|]. by rewrite E2.
Qed.

Lemma put_con_ok h d c x : con_ok h (bdevs x) c -> bx_ok h x -> bx_ok h (put_con d c x).
Proof. intros Hc [Hl Hb Hp Hd Hcs]. split; try done. intros k u. cbn. rewrite lookup_insert_Some. intros [[_ <-]|[_ H]]; [done|by apply (Hcs k)]. Qed.

(** The VM table is all that the invariant sees of the VMs. *)
Definition same_ids (h h' : hv) : Prop := vms h' = vms h /\ forall p, (vmid <$> vm_heap h' !! p) = (vmid <$> vm_heap h !! p).

Lemma same_ids_ok h h' x : same_ids h h' -> bx_ok h x -> bx_ok h' x.
Proof.
  intros [Ev Ei] [Hl Hb Hp Hd Hc].
  assert (forall i, get_vm_by_id CONFIG_MAX_VM i h' = get_vm_by_id CONFIG_MAX_VM i h) as Eg by (intros; unfold get_vm_by_id; by rewrite Ev).
  split; try done.
  - intros p b H. destruct (Hp p b H) as [Hn|(be & fe & v1 & v2 & Hde & Hne & H1 & H2 & [A1 A2 A3 A4] & [B1 B2 B3 B4])]; [by left|right].
    exists be, fe, v1, v2. do 4 (split; [done|]). split; split; try done; by rewrite Eg.
  - intros d c H. destruct (Hc d c H) as [L1 L2 L3 L4 L5 (m & Hm & Hg)]. split; try done. specialize (Ei (vc_owner c)). rewrite Hm in Ei. cbn in Ei.
    destruct (vm_heap h' !! vc_owner c) as [m'|]; [|done]. injection Ei as Ei. exists m'. split; [done|]. rewrite Eg. congruence.
Qed.

(** *** Making a box *)
Lemma new_box_ok h p b x : boxes x !! p = None -> b_devices b = (None, None) -> bx_ok h x -> bx_ok h (put_box p b x).
Proof.
  intros Hf Hn [Hl Hb Hp Hd Hc]. split; [done| | | |done].
  - intros i Hi. destruct (Hb i Hi) as (q & b0 & Hq & Hb0). exists q, b0. cbn. rewrite lookup_insert_ne by congruence. done.
  - intros q b0. cbn. rewrite lookup_insert_Some. intros [[_ <-]|[_ H]]; [by left|by apply Hp].
  - intros k u Hu. destruct (Hd k u Hu) as (b0 & H0 & Hs). exists b0. cbn. rewrite lookup_insert_ne by congruence. done.
Qed.

Lemma push_vmbox_ok h p b x x' : boxes x !! p = Some b -> push_vmbox p x = Some x' -> bx_ok h x -> bx_ok h x' /\ boxes x' = boxes x /\ bdevs x' = bdevs x.
Proof.
  intros Hp E [[Hl Hi] Hb Hpr Hd Hc]. unfold push_vmbox in E. destruct ((0 <=? vmbox_index x) && _) eqn:Eb; [|done]. injection E as <-. apply andb_prop in Eb as [E1 E2].
  apply Z.leb_le in E1. apply Z.ltb_lt in E2. split; [|done]. split; try done.
  - cbn. rewrite length_insert. split; [done|lia].
  - intros k Hk. cbn in *. destruct (decide (k = Z.to_nat (vmbox_index x))) as [->|].
    + exists p, b. rewrite list_lookup_insert_eq by lia. done.
    + rewrite list_lookup_insert_ne by done. apply Hb. lia.
Qed.

(** The two new devices are connected and the box is told of them. *)
Lemma connect_ok h p b be fe v1 v2 x x' :
  bx_ok h x -> boxes x !! p = Some b -> b_devices b = (None, None) -> bdevs x !! be = None -> bdevs x !! fe = None -> be <> fe ->
  boxes x' = <[p := set_b_devices (Some be, Some fe) b]> (boxes x) -> bdevs x' = <[fe := v2]> (<[be := v1]> (bdevs x)) ->
  controllers x' = controllers x -> vmboxs x' = vmboxs x -> vmbox_index x' = vmbox_index x ->
  end_ok h p b true v1 fe -> end_ok h p b false v2 be -> bx_ok h x'.
Proof.
  intros [Hl Hb Hp Hd Hc] Hbx Hn Hfb Hff Hne Ebx Edv Ec Ev Ei O1 O2.
  assert (forall k u, bdevs x !! k = Some u -> bdevs x' !! k = Some u) as Hkeep.
  { intros k u Hu. rewrite Edv, !lookup_insert_ne by congruence. done. }
  split; rewrite ?Ev, ?Ei; [done| | | |].
  - intros i Hi. destruct (Hb i Hi) as (q & b0 & Hq & Hb0). exists q. rewrite Ebx. destruct (decide (p = q)) as [<-|]; [rewrite lookup_insert_eq|rewrite lookup_insert_ne by done]; by eexists.
  - intros q b0. rewrite Ebx, lookup_insert_Some. intros [[<- <-]|[_ H]].
    + right. exists be, fe, v1, v2. rewrite Edv, lookup_insert_eq, lookup_insert_ne, lookup_insert_eq by done. split; [done|]. split; [done|]. split; [done|]. split; [done|].
      destruct O1, O2. by split; split.
    + destruct (Hp q b0 H) as [Hx|(e1 & e2 & u1 & u2 & H0 & H1 & H2 & H3 & H4)]; [by left|right]. exists e1, e2, u1, u2. do 2 (split; [done|]). split; [by apply Hkeep|]. split; [by apply Hkeep|done].
  - intros k u. rewrite Edv, Ebx, lookup_insert_Some. intros [[<- <-]|[_ H]].
    { rewrite (eo_box _ _ _ _ _ _ O2), (eo_side _ _ _ _ _ _ O2), lookup_insert_eq. by eexists. }
    apply lookup_insert_Some in H as [[<- <-]|[_ H]].
    { rewrite (eo_box _ _ _ _ _ _ O1), (eo_side _ _ _ _ _ _ O1), lookup_insert_eq. by eexists. }
    destruct (Hd k u H) as (b0 & H0 & Hs). exists b0. rewrite lookup_insert_ne; [done|]. intros Hpu. rewrite <- Hpu in H0. assert (b0 = b) as -> by congruence. rewrite Hn in Hs. by destruct (is_backend u).
  - intros d c. rewrite Ec. intros H. destruct (Hc d c H) as [L1 L2 L3 L4 L5 L6]. split; try done. intros k a Ha. destruct (L5 k a Ha) as (u & Hu & Hq). exists u. split; [by apply Hkeep|done].
Qed.

Lemma create_vmbox_devices_ok h p b q1 q2 a_be a_fe x r x' :
  bx_ok h x -> boxes x !! p = Some b -> b_devices b = (None, None) -> u32 (fst (b_owner b)) = fst (b_owner b) -> u32 (snd (b_owner b)) = snd (b_owner b) ->
  get_vm_by_id CONFIG_MAX_VM (fst (b_owner b)) h = Some (Some q1) -> get_vm_by_id CONFIG_MAX_VM (snd (b_owner b)) h = Some (Some q2) ->
  (forall a, a_be = Some a -> bdevs x !! a = None) -> (forall a, a_fe = Some a -> bdevs x !! a = None) -> (a_be = a_fe -> a_be = None) ->
  create_vmbox_devices CONFIG_MAX_VM h p a_be a_fe x = Some (r, x') -> bx_ok h x'.
Proof.
  intros Ho Hb Hn U1 U2 G1 G2 F1 F2 Hne E. unfold create_vmbox_devices, create_vmbox_device in E.
  destruct a_be as [be|]; cbn [mbind option_bind] in E; [rewrite Hb in E; cbn [mbind option_bind side] in E; rewrite U1, G1 in E; cbn [mbind option_bind] in E|];
  (destruct a_fe as [fe|]; cbn [mbind option_bind] in E; [change (boxes (put_bdev _ _ x)) with (boxes x) in E; rewrite Hb in E; cbn [mbind option_bind side] in E; rewrite U2, G2 in E; cbn [mbind option_bind] in E|]).
  - assert (be <> fe) as Hbf by (intros ->; by specialize (Hne eq_refl)). unfold upd_bdev in E. cbn [put_bdev set_bdevs bdevs boxes] in E.
    rewrite lookup_insert_ne, lookup_insert_eq in E by done. cbn [mbind option_bind put_bdev set_bdevs bdevs boxes] in E.
    rewrite lookup_insert_ne, lookup_insert_eq in E by done. cbn [mbind option_bind put_bdev set_bdevs bdevs boxes] in E. rewrite Hb in E. injection E as _ <-.
    eapply (connect_ok h p b be fe _ _ x); [exact Ho|exact Hb|exact Hn|by apply F1|by apply F2|exact Hbf|reflexivity| |reflexivity|reflexivity|reflexivity| |].
    + cbn. apply map_eq. intros k. destruct (decide (k = fe)) as [->|]; [by rewrite !lookup_insert_eq|]. rewrite !(lookup_insert_ne _ fe) by done.
      destruct (decide (k = be)) as [->|]; [by rewrite !lookup_insert_eq|]. rewrite !(lookup_insert_ne _ be), (lookup_insert_ne _ fe), !(lookup_insert_ne _ be) by done. reflexivity.
    + split; try done. by exists q1.
    + split; try done. by exists q2.
  - injection E as _ <-. destruct Ho as [Hl Hbx Hp Hd Hc]. assert (delete be (<[be:=mk_vmbox_device 0 true 0 (Some q1) p 0 0 0 0 0 None None]> (bdevs x)) = bdevs x) as Em by (rewrite delete_insert_id; [done|by apply F1]).
    split; cbn; rewrite ?Em; done.
  - injection E as _ <-. destruct Ho as [Hl Hbx Hp Hd Hc]. assert (delete fe (<[fe:=mk_vmbox_device 0 false 0 (Some q2) p 0 0 0 0 0 None None]> (bdevs x)) = bdevs x) as Em by (rewrite delete_insert_id; [done|by apply F2]).
    split; cbn; rewrite ?Em; done.
  - by injection E as _ <-.
Qed.

Lemma u32_u32 z : u32 (u32 z) = u32 z.
Proof. unfold u32. rewrite Z.mod_mod by lia. done. Qed.

(** Fresh memory for the box and its devices. *)
Record fresh_box (a a_be a_fe : option Z) (x : bx) : Prop := mk_fresh_box {
  fb_box : forall p, a = Some p -> boxes x !! p = None;
  fb_be : forall p, a_be = Some p -> bdevs x !! p = None;
  fb_fe : forall p, a_fe = Some p -> bdevs x !! p = None;
  fb_ne : a_be = a_fe -> a_be = None;
}.

Lemma do_vmbox_hook_ok h p x x' : do_vmbox_hook p x = Some x' -> bx_ok h x -> bx_ok h x'.
Proof.
  intros E Ho. unfold do_vmbox_hook in E. destruct (boxes x !! p); [|done]. cbn [mbind option_bind] in E. destruct (vmbox_find_hook _ _) as [[n ops]|]; injection E as <-; [|done].
  unfold call_hook. destruct (ho_init ops); [by apply blog_ok|done].
Qed.

Lemma create_vmbox_ok shmem_of h i a a_be a_fe x r x' : bx_ok h x -> fresh_box a a_be a_fe x ->
  create_vmbox CONFIG_MAX_VM shmem_of h i a a_be a_fe x = Some (r, x') -> bx_ok h x'.
Proof.
  intros Ho [Fb F1 F2 Fn] E. unfold create_vmbox in E. destruct (get_vm_by_id _ (u32 (fst _)) h) as [[q1|]|] eqn:G1; [| |done]; cbn [mbind option_bind] in E.
  2: { destruct (get_vm_by_id _ (u32 (snd _)) h); [|done]. cbn [mbind option_bind] in E. by injection E as _ <-. }
  destruct (get_vm_by_id _ (u32 (snd _)) h) as [[q2|]|] eqn:G2; [| |done]; cbn [mbind option_bind] in E; [|by injection E as _ <-].
  destruct a as [p|]; [|by injection E as _ <-].
  match type of E with context [put_box p ?B x] => set (b := B) in E end.
  assert (bx_ok h (put_box p b x)) as Ho1 by (by apply new_box_ok; [apply Fb|..]).
  destruct (push_vmbox p (put_box p b x)) as [x1|] eqn:E1; [|done]. cbn [mbind option_bind] in E.
  assert (boxes (put_box p b x) !! p = Some b) as Hb0 by apply lookup_insert_eq.
  destruct (push_vmbox_ok h p b _ _ Hb0 E1 Ho1) as (Ho2 & Eb & Ed). unfold ask_shmem in E. destruct (shmem_of _ _) as [sh|]; [|done]. cbn [mbind option_bind] in E.
  match type of E with context [blog (bc_memset ?A ?B) ?C] => set (x2 := blog (bc_memset A B) C) in E end.
  assert (bx_ok h x2) as Ho3 by (by apply blog_ok, blog_ok). change (boxes x2) with (boxes x1) in E. rewrite Eb, Hb0 in E. cbn [mbind option_bind] in E.
  match type of E with context [put_box p ?B x2] => set (b' := B) in E end.
  assert (boxes x2 !! p = Some b) as Hb2 by (change (boxes x2) with (boxes x1); by rewrite Eb).
  destruct (create_vmbox_devices _ h p a_be a_fe (put_box p b' x2)) as [[r3 x3]|] eqn:E3; [|done]. cbn [mbind option_bind] in E.
  destruct (do_vmbox_hook p x3) as [x4|] eqn:E4; [|done]. injection E as _ <-. eapply do_vmbox_hook_ok; [exact E4|].
  eapply (create_vmbox_devices_ok h p b' q1 q2); [| | | | | | | | | |exact E3]; [by apply (put_box_ok h p b)|apply lookup_insert_eq|done|apply u32_u32|apply u32_u32|done|done| | |done];
    intros k Hk; change (bdevs (put_box p b' x2)) with (bdevs x1); rewrite Ed; [by apply F1|by apply F2].
Qed.

Lemma of_create_vmbox_ok shmem_of h n a a_be a_fe x r x' : bx_ok h x -> fresh_box a a_be a_fe x ->
  of_create_vmbox CONFIG_MAX_VM shmem_of h n a a_be a_fe x = Some (r, x') -> bx_ok h x'.
Proof.
  intros Ho Hf E. unfold of_create_vmbox in E. destruct (_ <=? _); [by injection E as _ <-|]. destruct (of_get_u32_array (n_owner n) 2) as [r0 ow].
  destruct (r0 <? 2); [by injection E as _ <-|]. destruct (of_get_u32_array (n_id n) 2) as [r1 id]. destruct (of_get_u32_array (n_shmem_size n) 1) as [r2 sz].
  destruct (_ && _); [by eapply create_vmbox_ok|]. destruct (of_get_u32_array (n_vqs n) 1) as [r3 vq]. destruct (r3 <=? 0); [by injection E as _ <-|]. by eapply create_vmbox_ok.
Qed.

(** *** Attaching devices *)

(** The virqs that were sent. *)
Definition sends (l : list bcall) : list (option Z * Z) := omap (fun c => match c with bc_send_virq p q => Some (p, q) | _ => None end) l.

Lemma sends_app l c : sends (l ++ [c]) = sends l ++ sends [c].
Proof. apply omap_app. Qed.

(** Device [a] is one of VM [p], or the other end of one. *)
Definition in_reach (p : Z) (x : bx) (a : Z) : Prop :=
  exists k v, bdevs x !! k = Some v /\ bd_vm v = Some p /\ (k = a \/ bro v = Some a).

(** What VM [p] leaves alone: the boxes, what the devices are connected to,
    the controllers of other VMs and the devices out of its reach. *)
Record bx_frame (p : Z) (x x' : bx) : Prop := mk_bx_frame {
  br_boxes : boxes x' = boxes x;
  br_vmboxs : vmboxs x' = vmboxs x;
  br_index : vmbox_index x' = vmbox_index x;
  br_devs : forall k, (dev_core <$> bdevs x' !! k) = (dev_core <$> bdevs x !! k);
  br_cons : forall d, (vc_owner <$> controllers x' !! d) = (vc_owner <$> controllers x !! d);
  br_far_devs : forall a, ~ in_reach p x a -> bdevs x' !! a = bdevs x !! a;
  br_far_cons : forall d c, controllers x !! d = Some c -> vc_owner c <> p -> controllers x' !! d = Some c;
}.

(** What stays when devices are attached: no virq is sent either. *)
Definition bx_rel (p : Z) (x x' : bx) : Prop := bx_frame p x x' /\ sends (bx_log x') = sends (bx_log x).

Lemma in_reach_core p x x' a : (forall k, (dev_core <$> bdevs x' !! k) = (dev_core <$> bdevs x !! k)) -> in_reach p x' a -> in_reach p x a.
Proof.
  intros E (k & v & Hk & Hv & Ha). specialize (E k). rewrite Hk in E. destruct (bdevs x !! k) as [u|] eqn:Hu; [|done]. injection E as _ E2 _ E4.
  exists k, u. split; [done|]. split; [congruence|]. rewrite <- E4. done.
Qed.

#[local] Instance bx_frame_preorder p : PreOrder (bx_frame p).
Proof.
  split; [by split|]. intros x y z [A1 A2 A3 A4 A5 A6 A7] [B1 B2 B3 B4 B5 B6 B7]. split; intros; [congruence..|by rewrite B4, A4|by rewrite B5, A5| |].
  - rewrite B6; [by apply A6|]. intros H'. by apply (in_reach_core p x y) in H'.
  - apply B7; [by apply A7|done].
Qed.

#[local] Instance bx_rel_preorder p : PreOrder (bx_rel p).
Proof. split; [by split|]. intros x y z [A1 A2] [B1 B2]. split; [by etrans|congruence]. Qed.

Lemma blog_frame p c x : bx_frame p x (blog c x).
Proof. by split. Qed.

Lemma blog_rel p c x : sends [c] = [] -> bx_rel p x (blog c x).
Proof. intros H. split; [apply blog_frame|]. cbn [blog set_bx_log bx_log]. by rewrite sends_app, H, app_nil_r. Qed.

Lemma put_bdev_frame p a v v' x : bdevs x !! a = Some v -> dev_core v' = dev_core v -> in_reach p x a -> bx_frame p x (put_bdev a v' x).
Proof.
  intros Ha E Hr. split; try done.
  - intros k. cbn. destruct (decide (a = k)) as [<-|]; [|by rewrite lookup_insert_ne]. rewrite lookup_insert_eq, Ha. cbn. congruence.
  - intros k Hk. cbn. rewrite lookup_insert_ne; [done|]. by intros ->.
Qed.

Lemma put_con_frame p d c c' x : controllers x !! d = Some c -> vc_owner c = p -> vc_owner c' = vc_owner c -> bx_frame p x (put_con d c' x).
Proof.
  intros Ha Ep E. split; try done.
  - intros k. cbn. destruct (decide (d = k)) as [<-|]; [|by rewrite lookup_insert_ne]. rewrite lookup_insert_eq, Ha. cbn. congruence.
  - intros k u Hu Hn. cbn. rewrite lookup_insert_ne; [done|]. intros ->. congruence.
Qed.

Lemma upd_bdev_keeps h p a f x x' : (forall v, dev_core (f v) = dev_core v) -> in_reach p x a -> upd_bdev a f x = Some x' -> bx_ok h x -> bx_ok h x' /\ bx_rel p x x' /\ controllers x' = controllers x.
Proof.
  intros Hf Hr E Ho. unfold upd_bdev in E. destruct (bdevs x !! a) as [v|] eqn:Ha; [|done]. injection E as <-. split; [by apply (put_bdev_ok h a v)|]. split; [|done].
  split; [by apply (put_bdev_frame p a v)|done].
Qed.

Lemma own_in_reach p x a v : bdevs x !! a = Some v -> bd_vm v = Some p -> in_reach p x a.
Proof. intros Ha Hv. exists a, v. split; [done|]. split; [done|by left]. Qed.

Lemma ones_next n : 0 <= n < 32 -> Z.lor (Z.ones n) (u32 (Z.shiftl 1 n)) = Z.ones (n + 1).
Proof.
  intros Hn. unfold u32. rewrite Z.shiftl_1_l, Z.mod_small by (split; [apply Z.pow_nonneg; lia|apply Z.pow_lt_mono_r; lia]).
  apply Z.bits_inj'. intros j Hj. rewrite Z.lor_spec, Z.pow2_bits_eqb, !Z.testbit_ones_nonneg by lia.
  destruct (Z.ltb_spec j n), (Z.eqb_spec n j), (Z.ltb_spec j (n + 1)); try done; lia.
Qed.

(** The next slot of a controller is filled. *)
Lemma next_slot_ok h dv c c' dev v st : con_ok h dv c -> dv !! dev = Some v -> bd_vm v = Some (vc_owner c) ->
  set_con_device (dev_cnt c) dev (set_dev_cnt (dev_cnt c + 1) c) = Some c' ->
  con_ok h dv (set_irq_state st (set_dev_state (Z.lor (dev_state c') (u32 (Z.shiftl 1 (dev_cnt c)))) c')) /\ vc_owner c' = vc_owner c.
Proof.
  intros [L1 L2 L3 L4 L5 L6] Hv Hq E. unfold set_con_device in E. cbn [con_devices set_dev_cnt] in E. rewrite L1 in E.
  destruct ((0 <=? dev_cnt c) && _) eqn:Eb; [|done]. injection E as <-. apply andb_prop in Eb as [_ Eb]. apply Z.ltb_lt in Eb. split; [|done].
  split; cbn [con_devices set_con_devices set_dev_cnt dev_cnt dev_state set_dev_state set_irq_state vc_owner].
  - by rewrite length_insert.
  - lia.
  - intros i Hi. destruct (decide (i = Z.to_nat (dev_cnt c))) as [->|Hne].
    + rewrite list_lookup_insert_eq by lia. split; [intros _; by eexists|lia].
    + rewrite list_lookup_insert_ne by done. rewrite <- (L3 i Hi). lia.
  - rewrite L4. apply ones_next. lia.
  - intros i a. destruct (decide (i = Z.to_nat (dev_cnt c))) as [->|Hne].
    + rewrite list_lookup_insert_eq by lia. intros [= <-]. by exists v.
    + rewrite list_lookup_insert_ne by done. by apply L5.
  - done.
Qed.

Definition same_vms (p : Z) w w' : Prop := w_hv w' = w_hv w /\ w_objs w' = w_objs w /\ forall q, q <> p -> w_mm w' !! q = w_mm w !! q.

#[local] Instance same_vms_trans p : Transitive (same_vms p).
Proof. intros w1 w2 w3 (A1 & A2 & A3) (B1 & B2 & B3). split; [congruence|]. split; [congruence|]. intros q Hq. by rewrite B3, A3. Qed.

Lemma rel_bdev p x x' a v : bx_rel p x x' -> bdevs x !! a = Some v -> exists v', bdevs x' !! a = Some v' /\ dev_core v' = dev_core v.
Proof. intros [H _] Ha. pose proof (br_devs _ _ _ H a) as E. rewrite Ha in E. destruct (bdevs x' !! a) as [v'|]; [|done]. injection E as E. exists v'. split; [done|]. unfold dev_core in *. congruence. Qed.

Lemma rel_con p x x' d c : bx_rel p x x' -> controllers x !! d = Some c -> exists c', controllers x' !! d = Some c' /\ vc_owner c' = vc_owner c.
Proof. intros [H _] Ha. pose proof (br_cons _ _ _ H d) as E. rewrite Ha in E. destruct (controllers x' !! d) as [c'|]; [|done]. injection E as E. by exists c'. Qed.

Lemma attach_keeps virq_of d box dev oks w r oks' w' v c : bx_ok (w_hv w) (w_dev w) ->
  bdevs (w_dev w) !! dev = Some v -> controllers (w_dev w) !! d = Some c -> bd_vm v = Some (vc_owner c) ->
  vmbox_device_attach virq_of d box (Some dev) oks w = Some (r, oks', w') ->
  bx_ok (w_hv w') (w_dev w') /\ bx_rel (vc_owner c) (w_dev w) (w_dev w') /\ same_vms (vc_owner c) w w'.
Proof.
  intros Ho Hv Hc Hq E. unfold vmbox_device_attach in E. cbn [mbind option_bind] in E. rewrite Hv in E. cbn [mbind option_bind] in E.
  destruct (boxes (w_dev w) !! box) as [b|]; [|done]. cbn [mbind option_bind ask_virq] in E.
  destruct (upd_bdev dev _ _) as [x1|] eqn:E1; [|done]. cbn [mbind option_bind] in E.
  apply (upd_bdev_keeps (w_hv w) (vc_owner c)) in E1 as (Ho1 & Hr1 & _); [|done|by apply (own_in_reach _ _ dev v)|by apply blog_ok, blog_ok].
  assert (bx_rel (vc_owner c) (w_dev w) x1) as Hr by (etrans; [|exact Hr1]; etrans; by apply blog_rel). clear Hr1.
  destruct (_ || _); [by injection E as _ _ <-|]. rewrite Hq in E. cbn [mbind option_bind] in E.
  destruct (w_mm (set_dev x1 w) !! vc_owner c) as [mm|] eqn:Emm; [|done]. cbn [mbind option_bind] in E.
  destruct (alloc_free_vmm_area _ _ _ oks mm) as [[[va|] oks2] mm2] eqn:Ea.
  2: { injection E as _ _ <-. split; [done|]. split; [done|]. split; [done|]. split; [done|]. intros q Hq0. cbn. by rewrite lookup_insert_ne by done. }
  unfold map_new_area in E. cbn [put_mm w_mm w_dev set_dev w_hv w_objs] in E. rewrite lookup_insert_eq in E. cbn [mbind option_bind w_dev set_dev put_mm w_hv w_mm] in E.
  destruct (rel_con _ _ _ _ _ Hr Hc) as (c1 & Hc1 & Eo). destruct (rel_bdev _ _ _ _ _ Hr Hv) as (v1 & Hv1 & Ev1). injection Ev1 as _ Ev1 _ _. change (controllers (blog _ x1)) with (controllers x1) in E. rewrite Hc1 in E. cbn [mbind option_bind] in E.
  destruct (upd_bdev dev _ _) as [x2|] eqn:E2; [|done]. cbn [mbind option_bind] in E.
  apply (upd_bdev_keeps (w_hv w) (vc_owner c)) in E2 as (Ho2 & Hr2 & Ec2); [|done|apply (own_in_reach _ _ dev v1); [done|congruence]|by apply blog_ok].
  assert (bx_rel (vc_owner c) x1 x2) as Hr3 by (etrans; [|exact Hr2]; by apply blog_rel). destruct (set_con_device _ _ _) as [c2|] eqn:E3; [|done]. injection E as _ _ <-. cbn [w_hv w_dev set_dev].
  assert (bx_rel (vc_owner c) (w_dev w) x2) as Hr4 by by etrans. destruct (rel_bdev _ _ _ _ _ Hr4 Hv) as (v2 & Hv2 & Ev2). injection Ev2 as _ Ev2 _ _.
  assert (controllers x2 !! d = Some c1) as Hcx2 by by rewrite Ec2.
  destruct (next_slot_ok (w_hv w) (bdevs x2) c1 c2 dev v2 (Z.lor (irq_state c2) (Z.shiftl 1 VMBOX_CON_INT_TYPE_DEV_ONLINE)) (bk_con _ _ Ho2 d c1 Hcx2) Hv2 ltac:(congruence) E3) as [Hok Eo2].
  split; [by apply put_con_ok|]. split; [etrans; [exact Hr4|]; split; [by apply (put_con_frame _ d c1)|done]|].
  split; [done|]. split; [done|]. intros q Hq0. cbn. by rewrite !lookup_insert_ne by done.
Qed.

Lemma attach_end_keeps virq_of d box id be oks w oks' w' c : bx_ok (w_hv w) (w_dev w) -> controllers (w_dev w) !! d = Some c ->
  (exists m, vm_heap (w_hv w) !! vc_owner c = Some m /\ vmid m = id) ->
  attach_end virq_of d box id be oks w = Some (oks', w') ->
  bx_ok (w_hv w') (w_dev w') /\ bx_rel (vc_owner c) (w_dev w) (w_dev w') /\ same_vms (vc_owner c) w w'.
Proof.
  intros Ho Hc (m & Hm & Eid) E. unfold attach_end in E. destruct (boxes (w_dev w) !! box) as [b|] eqn:Hb; [|done]. cbn [mbind option_bind] in E.
  destruct (Z.eqb_spec (side be (b_owner b)) id) as [Es|]; [|by injection E as _ <-].
  destruct (vmbox_device_attach _ _ _ _ _ _) as [[[r oks1] w1]|] eqn:Ea; [|done]. injection E as _ <-.
  destruct (co_vm _ _ _ (bk_con _ _ Ho d c Hc)) as (m' & Hm' & Hg). rewrite Hm in Hm'. injection Hm' as <-.
  destruct (bk_pair _ _ Ho box b Hb) as [Hn|(e1 & e2 & v1 & v2 & Hd & _ & H1 & H2 & [A1 A2 A3 (q1 & A4 & A5)] & [B1 B2 B3 (q2 & B4 & B5)])].
  - rewrite Hn in Ea. by destruct be.
  - rewrite Hd in Ea. destruct be; cbn [side fst snd] in *; [eapply (attach_keeps virq_of d box e1)|eapply (attach_keeps virq_of d box e2)]; try done; rewrite Es, <- Eid, Hg in *; congruence.
Qed.

Lemma attach_loop_keeps virq_of n i d id oks w oks' w' c : bx_ok (w_hv w) (w_dev w) -> controllers (w_dev w) !! d = Some c ->
  (exists m, vm_heap (w_hv w) !! vc_owner c = Some m /\ vmid m = id) ->
  attach_loop virq_of n i d id oks w = Some (oks', w') ->
  bx_ok (w_hv w') (w_dev w') /\ bx_rel (vc_owner c) (w_dev w) (w_dev w') /\ same_vms (vc_owner c) w w'.
Proof.
  revert i oks w c. induction n as [|n IH]; intros i oks w c Ho Hc Hm E; cbn [attach_loop] in E; [by injection E as _ <-|].
  destruct (vmboxs (w_dev w) !! i) as [[box|]|]; [|done..]. cbn [mbind option_bind] in E.
  destruct (attach_end _ _ _ _ true _ _) as [[oks1 w1]|] eqn:E1; [|done]. cbn [mbind option_bind] in E.
  destruct (attach_end _ _ _ _ false _ _) as [[oks2 w2]|] eqn:E2; [|done]. cbn [mbind option_bind] in E.
  destruct (attach_end_keeps _ _ _ _ _ _ _ _ _ c Ho Hc Hm E1) as (Ho1 & Hr1 & Hs1). pose proof Hs1 as (Eh1 & _). destruct (rel_con _ _ _ _ _ Hr1 Hc) as (c1 & Hc1 & Eo1).
  destruct (attach_end_keeps _ _ _ _ _ _ _ _ _ c1 Ho1 Hc1 ltac:(by rewrite Eo1, Eh1) E2) as (Ho2 & Hr2 & Hs2). pose proof Hs2 as (Eh2 & _). destruct (rel_con _ _ _ _ _ Hr2 Hc1) as (c2 & Hc2 & Eo2).
  destruct (IH _ _ _ c2 Ho2 Hc2 ltac:(by rewrite Eo2, Eo1, Eh2, Eh1) E) as (Ho3 & Hr3 & Hs3).
  rewrite Eo2, Eo1 in *. split; [done|]. split; do 2 (etrans; [eassumption|]); done.
Qed.

(** *** Accesses *)
Lemma select_device_spec d offset x c dev reg : controllers x !! d = Some c -> select_device d offset x = Some (inr (dev, reg)) ->
  exists i : nat, con_devices c !! i = Some (Some dev).
Proof.
  intros Hc E. unfold select_device in E. rewrite Hc in E. cbn [mbind option_bind] in E. destruct (_ <=? _); [done|].
  destruct (con_devices c !! _) as [[v|]|] eqn:Hi; [|done..]. cbn [mbind option_bind] in E. injection E as -> _. by eexists.
Qed.

(** [p] and [q] own the two ends of a box. *)
Definition share_box (h : hv) (x : bx) (p q : Z) : Prop :=
  exists box b be, boxes x !! box = Some b /\ get_vm_by_id CONFIG_MAX_VM (side be (b_owner b)) h = Some (Some p) /\
    get_vm_by_id CONFIG_MAX_VM (side (negb be) (b_owner b)) h = Some (Some q).

(** The device at the other end. *)
Lemma other_end h x dev v : bx_ok h x -> bdevs x !! dev = Some v ->
  exists bp o p q, bro v = Some bp /\ bdevs x !! bp = Some o /\ bp <> dev /\ bd_vm v = Some p /\ bd_vm o = Some q /\ share_box h x p q /\ bro o = Some dev.
Proof.
  intros Ho Hv. destruct (bk_dev _ _ Ho dev v Hv) as (b & Hb & Hs).
  destruct (bk_pair _ _ Ho _ _ Hb) as [Hn|(e1 & e2 & v1 & v2 & Hd & Hne & H1 & H2 & [A1 A2 A3 (q1 & A4 & A5)] & [B1 B2 B3 (q2 & B4 & B5)])].
  - rewrite Hn in Hs. by destruct (is_backend v).
  - rewrite Hd in Hs. destruct (is_backend v) eqn:Eb; cbn in Hs; injection Hs as ->.
    + assert (v1 = v) as -> by congruence. exists e2, v2, q1, q2. do 5 (split; [done|]). split; [exists (bd_vmbox v), b, true; done|done].
    + assert (v2 = v) as -> by congruence. exists e1, v1, q2, q1. do 5 (split; [done|]). split; [exists (bd_vmbox v), b, false; done|done].
Qed.

(** What a write does: the invariant stays, whatever is out of reach is left
    alone, and a virq goes to the other end. *)
Definition write_effect (h : hv) (c : vmbox_controller) (x x' : bx) : Prop :=
  bx_ok h x' /\ bx_frame (vc_owner c) x x' /\ exists l, sends (bx_log x') = sends (bx_log x) ++ l /\ forall t q, (t, q) ∈ l -> exists p, t = Some p /\ share_box h x (vc_owner c) p.

Lemma quiet_effect h c x x' : bx_ok h x' -> bx_rel (vc_owner c) x x' -> write_effect h c x x'.
Proof. intros Ho [Hf E]. split; [done|]. split; [done|]. exists []. rewrite app_nil_r. split; [done|]. intros t q H. by apply not_elem_of_nil in H. Qed.

Lemma loud_effect h c x x' p q : bx_ok h x' -> bx_frame (vc_owner c) x x' -> bx_log x' = bx_log x -> share_box h x (vc_owner c) p -> write_effect h c x (post_virq (Some p) q x').
Proof.
  intros Ho Hf E Hs. split; [by apply blog_ok|]. split; [etrans; [exact Hf|apply blog_frame]|]. exists [(Some p, q)]. split.
  - unfold post_virq. cbn [blog set_bx_log bx_log]. by rewrite sends_app, E.
  - intros t r H. apply list_elem_of_singleton in H as [= -> _]. by exists p.
Qed.

Lemma dev_event_effect h c x reg value dev v bp o : bx_ok h x -> bdevs x !! dev = Some v -> bd_vm v = Some (vc_owner c) -> bro v = Some bp -> bdevs x !! bp = Some o ->
  write_effect h c x (dev_event reg value dev v bp o x).
Proof.
  intros Ho Hv Hp Hb Hbo. destruct (other_end h x dev v Ho Hv) as (bp' & o' & p & q & E1 & E2 & Hne & E3 & Eq & Hs & _).
  rewrite Hb in E1. injection E1 as <-. rewrite Hbo in E2. injection E2 as <-. rewrite Hp in E3. injection E3 as <-. unfold dev_event.
  assert (in_reach (vc_owner c) x bp) as Hr by (exists dev, v; split; [done|]; split; [done|by right]).
  destruct (reg =? _); [destruct (bd_state o =? 0); [by apply quiet_effect|]; rewrite Eq; by apply loud_effect|].
  destruct (reg =? _).
  - destruct (_ || _); [by apply quiet_effect|]. destruct (_ =? 0); [|by apply quiet_effect]. rewrite Eq. apply loud_effect; [by apply (put_bdev_ok h bp o)|by apply (put_bdev_frame _ bp o)|done|done].
  - destruct (reg =? _); [|by apply quiet_effect]. assert (bx_ok h (put_bdev dev (set_bd_state VMBOX_DEV_STAT_ONLINE v) x)) as Ho1 by by apply (put_bdev_ok h dev v).
    assert (bx_frame (vc_owner c) x (put_bdev dev (set_bd_state VMBOX_DEV_STAT_ONLINE v) x)) as Hf1 by (apply (put_bdev_frame _ dev v); [done|done|by apply (own_in_reach _ _ dev v)]).
    assert (bdevs (put_bdev dev (set_bd_state VMBOX_DEV_STAT_ONLINE v) x) !! bp = Some o) as Hbo1 by (cbn; by rewrite lookup_insert_ne).
    destruct (_ =? _); [|apply quiet_effect; [done|by split]]. rewrite Eq. apply loud_effect; [by apply (put_bdev_ok h bp o)| |done|done].
    etrans; [exact Hf1|]. apply (put_bdev_frame _ bp o); [done|done|]. exists dev, (set_bd_state VMBOX_DEV_STAT_ONLINE v). cbn. rewrite lookup_insert_eq. split; [done|]. split; [done|by right].
Qed.

Lemma set_status_ok h dv c s : con_ok h dv c -> con_ok h dv (set_status s c).
Proof. intros []. by split. Qed.

Lemma con_write_effect virq_of d offset value oks w r y w' c : bx_ok (w_hv w) (w_dev w) -> controllers (w_dev w) !! d = Some c ->
  vmbox_con_write virq_of d offset value oks w = Some (r, y, w') -> write_effect (w_hv w) c (w_dev w) (w_dev w') /\ same_vms (vc_owner c) w w'.
Proof.
  intros Ho Hc E. unfold vmbox_con_write in E. destruct (offset <? _).
  - unfold vmbox_handle_con_write in E. rewrite Hc in E. cbn [mbind option_bind] in E. destruct (_ =? _); [|injection E as _ _ <-; split; [by apply quiet_effect|done]].
    destruct (vmbox_device_attach_to_vm _ _ _ _) as [[oks1 w1]|] eqn:Ea; [|done]. injection E as _ _ <-. unfold vmbox_device_attach_to_vm in Ea. cbn [set_dev w_dev w_hv] in Ea.
    cbn [put_con set_controllers controllers] in Ea. rewrite lookup_insert_eq in Ea. cbn [mbind option_bind set_status vc_owner] in Ea.
    destruct (vm_heap (w_hv w) !! vc_owner c) as [m|] eqn:Hm; [|done]. cbn [mbind option_bind] in Ea.
    apply (attach_loop_keeps _ _ _ _ _ _ _ _ _ (set_status 1 c)) in Ea as (Ho1 & Hr1 & Hs1); [|apply put_con_ok; [by eapply set_status_ok, bk_con|done]|apply lookup_insert_eq|by exists m].
    pose proof Hs1 as (Eh1 & _). rewrite Eh1 in Ho1. split; [|exact Hs1]. apply quiet_effect; [done|]. etrans; [|exact Hr1]. split; [by apply (put_con_frame _ d c)|done].
  - unfold vmbox_handle_dev_write in E. destruct (select_device d offset (w_dev w)) as [[ret|[dev reg]]|] eqn:Es; [| |done]; cbn [mbind option_bind] in E.
    { injection E as _ _ <-. split; [by apply quiet_effect|done]. }
    destruct (select_device_spec _ _ _ _ _ _ Hc Es) as [i Hi]. destruct (co_own _ _ _ (bk_con _ _ Ho d c Hc) i dev Hi) as (v & Hv & Hp). rewrite Hv in E. cbn [mbind option_bind] in E.
    destruct (_ || _); [|injection E as _ _ <-; split; [by apply quiet_effect|done]]. destruct (bro v) as [bp|] eqn:Hb; [|done]. cbn [mbind option_bind] in E.
    destruct (bdevs (w_dev w) !! bp) as [o|] eqn:Hbo; [|done]. injection E as _ _ <-. split; [by apply dev_event_effect|done].
Qed.

Lemma dev_read_core b v reg : dev_core (snd (__vmbox_handle_dev_read b v reg)) = dev_core v.
Proof. unfold __vmbox_handle_dev_read. repeat (destruct (reg =? _); [done|]). done. Qed.

Lemma con_read_ok d offset value w r y w' c : bx_ok (w_hv w) (w_dev w) -> controllers (w_dev w) !! d = Some c -> vmbox_con_read d offset value w = Some (r, y, w') ->
  bx_ok (w_hv w) (w_dev w') /\ bx_rel (vc_owner c) (w_dev w) (w_dev w') /\ same_vms (vc_owner c) w w'.
Proof.
  intros Ho Hc E. unfold vmbox_con_read in E. destruct (offset <? _).
  - unfold vmbox_handle_con_read in E. rewrite Hc in E. cbn [mbind option_bind] in E.
    destruct (_ =? _); [by injection E as _ _ <-|]. destruct (_ =? _); injection E as _ _ <-; [|done]. split; [apply put_con_ok; [|done]; destruct (bk_con _ _ Ho d c Hc); by split|]. split; [|done].
    split; [by apply (put_con_frame _ d c)|done].
  - unfold vmbox_handle_dev_read in E. destruct (select_device d offset (w_dev w)) as [[ret|[dev reg]]|] eqn:Es; [| |done]; cbn [mbind option_bind] in E; [by injection E as _ _ <-|].
    destruct (select_device_spec _ _ _ _ _ _ Hc Es) as [i Hi]. destruct (co_own _ _ _ (bk_con _ _ Ho d c Hc) i dev Hi) as (v & Hv & Hp). rewrite Hv in E.
    cbn [mbind option_bind] in E. destruct (boxes (w_dev w) !! bd_vmbox v) as [b|]; [|done]. cbn [mbind option_bind] in E.
    pose proof (dev_read_core b v reg) as Ec. destruct (__vmbox_handle_dev_read b v reg) as [y' v']. injection E as _ _ <-. split; [by apply (put_bdev_ok _ dev v)|]. split; [|done].
    split; [|done]. apply (put_bdev_frame _ dev v); [done|done|by apply (own_in_reach _ _ dev v)].
Qed.

Lemma con_access_known virq_of d offset value oks w : controllers (w_dev w) !! d = None ->
  vmbox_con_read d offset value w = None /\ vmbox_con_write virq_of d offset value oks w = None.
Proof.
  intros Hd. unfold vmbox_con_write, vmbox_con_read, vmbox_handle_con_read, vmbox_handle_dev_read, vmbox_handle_con_write, vmbox_handle_dev_write, select_device. rewrite Hd. by destruct (_ <? _).
Qed.

(** *** The controllers *)

Definition vd_core (o : vdev) : option Z * option Z * option Z := (vd_vm o, vd_read o, vd_write o).

(** The invariant of the whole component: a controller belongs to the VM of
    its virtual device, which has the functions of the controller. *)
Record bw_ok w : Prop := mk_bw_ok {
  bw_bx : bx_ok (w_hv w) (w_dev w);
  bw_con : forall d c, controllers (w_dev w) !! d = Some c -> exists o, w_objs w !! d = Some o /\ vd_core o = (Some (vc_owner c), Some VMBOX_CON_READ_FN, Some VMBOX_CON_WRITE_FN);
}.

Lemma vdev_add_frame d w w' : vdev_add d w = Some w' -> same_ids (w_hv w) (w_hv w') /\ w_dev w' = w_dev w /\ forall k, (vd_core <$> w_objs w' !! k) = (vd_core <$> w_objs w !! k).
Proof.
  intros E. unfold vdev_add in E. destruct (w_objs w !! d) as [o|] eqn:Ho; [|done]. cbn [mbind option_bind] in E. destruct (vd_vm o) as [p|] eqn:Hp; [|injection E as <-; by repeat split].
  destruct (assert_ _); [|done]. cbn [mbind option_bind] in E. destruct (vm_heap (w_hv w) !! p) as [m|] eqn:Hm; [|done]. injection E as <-. split; [split; [done|]|split; [done|]].
  - intros q. cbn. destruct (decide (p = q)) as [<-|]; [by rewrite lookup_insert_eq, Hm|by rewrite lookup_insert_ne].
  - intros k. cbn. destruct (decide (d = k)) as [<-|]; [by rewrite lookup_insert_eq, Ho|by rewrite lookup_insert_ne].
Qed.

Lemma new_con_ok h dv va p virq m : vm_heap h !! p = Some m -> get_vm_by_id CONFIG_MAX_VM (vmid m) h = Some (Some p) ->
  con_ok h dv (mk_vmbox_controller va p 0 0 virq 0 0 (replicate 32 None)).
Proof.
  intros Hm Hg. split; cbn [con_devices dev_cnt dev_state vc_owner].
  - by rewrite length_replicate.
  - lia.
  - intros i Hi. split; [lia|]. intros [a Ha]. by apply lookup_replicate in Ha as [Ha _].
  - done.
  - intros i a Ha. by apply lookup_replicate in Ha as [Ha _].
  - by exists m.
Qed.

(** VM [p] is registered. *)
Definition vm_at (h : hv) (p : Z) : Prop := exists m, vm_heap h !! p = Some m /\ get_vm_by_id CONFIG_MAX_VM (vmid m) h = Some (Some p).

Lemma vm_at_same h h' p : same_ids h h' -> vm_at h p -> vm_at h' p.
Proof.
  intros [Ev Ei] (m & Hm & Hg). specialize (Ei p). rewrite Hm in Ei. destruct (vm_heap h' !! p) as [m'|] eqn:Hm'; [|done]. injection Ei as Ei.
  exists m'. split; [done|]. unfold get_vm_by_id in *. by rewrite Ev, Ei.
Qed.

Lemma init_controller_ok d p va virq w w' o : bw_ok w -> vm_at (w_hv w) p -> w_objs w !! d = Some o -> vd_vm o = Some p ->
  init_controller d p va virq w = Some w' -> bw_ok w'.
Proof.
  intros [Hb Hc] Hp Ho Hv E. unfold init_controller in E. rewrite Ho in E. cbn [mbind option_bind] in E. destruct (vdev_add d _) as [w1|] eqn:E1; [|done]. injection E as <-.
  destruct (vdev_add_frame _ _ _ E1) as (Hs & Ed & Ev). cbn [put_vdev w_hv w_dev w_objs] in Hs, Ed, Ev. assert (vm_at (w_hv w1) p) as (m & Hm & Hg) by (by apply (vm_at_same (w_hv w))).
  assert (bx_ok (w_hv w1) (w_dev w)) as Hb1 by (by apply (same_ids_ok (w_hv w))). split.
  - cbn [set_dev w_hv w_dev]. rewrite Ed. pose proof (put_con_ok (w_hv w1) d _ (w_dev w) (new_con_ok _ (bdevs (w_dev w)) va p virq m Hm Hg) Hb1) as [K1 K2 K3 K4 K5]. by split.
  - cbn [set_dev w_objs w_dev set_vmbox_con_list controllers put_con set_controllers]. rewrite Ed. intros k c. specialize (Ev k). rewrite lookup_insert_Some. intros [[<- <-]|[Hne H]].
    + rewrite lookup_insert_eq in Ev. destruct (w_objs w1 !! d) as [o1|]; [|done]. cbn [fmap option_fmap option_map] in Ev. assert (vd_core o1 = vd_core (set_ops (Some VMBOX_CON_READ_FN) (Some VMBOX_CON_WRITE_FN) (Some VMBOX_CON_DEINIT_FN) (Some VMBOX_CON_RESET_FN) o)) as Ec by congruence.
      exists o1. split; [done|]. rewrite Ec. unfold vd_core. cbn. by rewrite Hv.
    + rewrite lookup_insert_ne in Ev by done. destruct (Hc k c H) as (o2 & Ho2 & Hv2). rewrite Ho2 in Ev. destruct (w_objs w1 !! k) as [o1|]; [|done]. exists o1. split; [done|]. cbn [fmap option_fmap option_map] in Ev. congruence.
Qed.

(** The steps on a fresh virtual device leave this component alone. *)
Definition elsewhere (d : Z) w w' : Prop := w_hv w' = w_hv w /\ w_dev w' = w_dev w /\ forall k, k <> d -> w_objs w' !! k = w_objs w !! k.

Lemma elsewhere_ok d w w' : (forall c, controllers (w_dev w) !! d <> Some c) -> elsewhere d w w' -> bw_ok w -> bw_ok w'.
Proof.
  intros Hf (E1 & E2 & E3) [Hb Hc]. split; rewrite ?E1, ?E2; [done|]. intros k c H. rewrite E3; [by apply Hc|]. intros ->. by apply (Hf c).
Qed.

Lemma add_area_elsewhere d va w w' : vdev_add_vmm_area d va w = Some w' -> elsewhere d w w' /\ exists o o', w_objs w !! d = Some o /\ w_objs w' !! d = Some o' /\ vd_vm o' = vd_vm o.
Proof.
  intros E. unfold vdev_add_vmm_area in E. destruct (w_objs w !! d) as [o|] eqn:Ho; [|done]. injection E as <-. split.
  - split; [done|]. split; [done|]. intros k Hk. cbn. by rewrite lookup_insert_ne.
  - eexists _, _. split; [done|]. split; [cbn; apply lookup_insert_eq|done].
Qed.

Lemma new_vdev_alloc p d size fl oks w va oks' w' : vdev_alloc_iomem_range d size fl oks (host_vdev_init (Some p) d w) = Some (va, oks', w') ->
  elsewhere d w w' /\ exists o, w_objs w' !! d = Some o /\ vd_vm o = Some p.
Proof.
  intros E. unfold vdev_alloc_iomem_range, host_vdev_init in E. cbn [put_vdev w_objs] in E. rewrite lookup_insert_eq in E. cbn [mbind option_bind vd_vm] in E.
  destruct (w_mm _ !! p) as [mm|]; [|done]. cbn [mbind option_bind] in E. destruct (alloc_free_vmm_area _ _ _ _ _) as [[[a|] oks1] mm1].
  - destruct (vdev_add_vmm_area d a _) as [w1|] eqn:E1; [|done]. injection E as _ _ <-. apply add_area_elsewhere in E1 as ((A1 & A2 & A3) & o & o' & Ho & Ho' & Ev).
    cbn [put_mm put_vdev w_objs] in Ho. rewrite lookup_insert_eq in Ho. injection Ho as <-. split; [|by exists o']. split; [by rewrite A1|]. split; [by rewrite A2|]. intros k Hk. rewrite A3 by done. cbn. by rewrite lookup_insert_ne.
  - injection E as _ _ <-. split; [split; [done|split; [done|]]|].
    + intros k Hk. cbn. by rewrite lookup_insert_ne.
    + eexists. split; [cbn; apply lookup_insert_eq|done].
Qed.

Lemma new_vdev_iomem p d base size oks w r oks' w' : vdev_add_iomem_range (Some d) base size oks (host_vdev_init (Some p) d w) = Some (r, oks', w') ->
  elsewhere d w w' /\ exists o, w_objs w' !! d = Some o /\ vd_vm o = Some p.
Proof.
  intros E. unfold vdev_add_iomem_range, host_vdev_init in E. cbn [put_vdev w_objs] in E. rewrite lookup_insert_eq in E. cbn [mbind option_bind vd_vm] in E.
  destruct (w_mm _ !! p) as [mm|]; [|done]. cbn [mbind option_bind] in E. destruct (split_vmm_area _ _ _ _ _) as [[[a|] oks1] mm1].
  - destruct (vdev_add_vmm_area d a _) as [w1|] eqn:E1; [|done]. injection E as _ _ <-. apply add_area_elsewhere in E1 as ((A1 & A2 & A3) & o & o' & Ho & Ho' & Ev).
    cbn [put_mm put_vdev w_objs] in Ho. rewrite lookup_insert_eq in Ho. injection Ho as <-. split; [|by exists o']. split; [by rewrite A1|]. split; [by rewrite A2|]. intros k Hk. rewrite A3 by done. cbn. by rewrite lookup_insert_ne.
  - injection E as _ _ <-. split; [split; [done|split; [done|]]|].
    + intros k Hk. cbn. by rewrite lookup_insert_ne.
    + eexists. split; [cbn; apply lookup_insert_eq|done].
Qed.

Lemma drop_elsewhere d w w' : elsewhere d w w' -> elsewhere d w (drop_vdev d w').
Proof. intros (A1 & A2 & A3). split; [done|]. split; [done|]. intros k Hk. cbn. rewrite lookup_delete_ne by done. by apply A3. Qed.

Lemma set_log_ok c w : bw_ok w -> bw_ok (set_dev (blog c (w_dev w)) w).
Proof. intros [Hb Hc]. split; [by apply blog_ok|done]. Qed.

Lemma create_controller_ok virq_of p node a oks w r oks' w' : bw_ok w -> vm_at (w_hv w) p -> (forall d c, a = Some d -> controllers (w_dev w) !! d <> Some c) ->
  create_vmbox_controller virq_of p node a oks w = Some (r, oks', w') -> bw_ok w'.
Proof.
  intros Ho Hp Hf E. unfold create_vmbox_controller in E. destruct (__vm_create_vmbox_controller_static _ _ _ _ _) as [[[r1 oks1] w1]|] eqn:E1; [|done]. cbn [mbind option_bind] in E.
  assert (bw_ok w1 /\ (r1 <> 0 -> r1 = - EAGAIN -> w1 = w)) as [Ho1 Hw1].
  { unfold __vm_create_vmbox_controller_static in E1. destruct node as [[[[base size]|] irq]|]; [| |by injection E1 as <- _ <-]; [|by injection E1 as <- _ <-].
    destruct (size =? 0); [by injection E1 as <- _ <-|]. destruct irq as [irq|]; [|by injection E1 as <- _ <-]. destruct (irq <? 32); [by injection E1 as <- _ <-|].
    destruct a as [d|]; [|by injection E1 as <- _ <-]. destruct (vdev_add_iomem_range _ _ _ _ _) as [[[r2 oks2] w2]|] eqn:E2; [|done]. cbn [mbind option_bind] in E1.
    assert (r2 = 0 \/ r2 = - ENOMEM \/ r2 = - ENOENT) as Hr2.
    { unfold vdev_add_iomem_range in E2. cbn [host_vdev_init put_vdev w_objs] in E2. rewrite lookup_insert_eq in E2. cbn [mbind option_bind vd_vm] in E2. destruct (w_mm _ !! p); [|done].
      cbn [mbind option_bind] in E2. destruct (split_vmm_area _ _ _ _ _) as [[[x|] o] y]; [destruct (vdev_add_vmm_area _ _ _); [|done]|]; injection E2 as <- _ _; tauto. }
    destruct (new_vdev_iomem _ _ _ _ _ _ _ _ _ E2) as (Hel & o & Hd & Hv). assert (bw_ok w2) as Ho2 by (apply (elsewhere_ok d w); [intros c; by apply Hf|done|done]).
    destruct (Z.eqb_spec r2 0); cbn [negb] in E1.
    - destruct (init_controller _ _ _ _ _) as [w3|] eqn:E3; [|done]. injection E1 as <- _ <-. split; [|done].
      eapply init_controller_ok; [| | | |exact E3]; [by apply set_log_ok| |exact Hd|exact Hv]. destruct Hel as (Eh & _). cbn. by rewrite Eh.
    - injection E1 as <- _ <-. split; [apply (elsewhere_ok d w); [intros c; by apply Hf|by apply drop_elsewhere|done]|]. destruct Hr2 as [-> |[-> | ->]]; done. }
  destruct (Z.eqb_spec r1 0) as [->|Hr1]; [by injection E as _ _ <-|]. destruct (Z.eqb_spec r1 (- EAGAIN)) as [->|]; cbn [negb] in E; [|by injection E as _ _ <-].
  rewrite (Hw1 Hr1 eq_refl) in *. unfold __vm_create_vmbox_controller_dynamic in E. destruct a as [d|]; [|by injection E as _ _ <-].
  destruct (vdev_alloc_iomem_range _ _ _ _ _) as [[[va oks2] w2]|] eqn:E2; [|done]. cbn [mbind option_bind] in E.
  destruct (new_vdev_alloc _ _ _ _ _ _ _ _ _ E2) as (Hel & o & Hd & Hv). assert (bw_ok w2) as Ho2 by (apply (elsewhere_ok d w); [intros c; by apply Hf|done|done]).
  assert (forall k, bw_ok (drop_vdev d (set_dev (blog k (w_dev w2)) w2))) as Hdrop.
  { intros k. apply set_log_ok with (c := k) in Ho2. eapply (elsewhere_ok d (set_dev (blog k (w_dev w2)) w2)); [|apply drop_elsewhere; by split|done].
    destruct Hel as (_ & Ed & _). cbn. rewrite Ed. intros c. by apply Hf. }
  destruct va as [va|]; [|injection E as _ _ <-; apply (elsewhere_ok d w); [intros c; by apply Hf|by apply drop_elsewhere|done]].
  cbn [ask_virq] in E. destruct (_ =? 0); [by injection E as _ _ <-|].
  destruct (init_controller _ _ _ _ _) as [w3|] eqn:E3; [|done]. injection E as _ _ <-. eapply init_controller_ok; [| | | |exact E3]; [by apply set_log_ok| |exact Hd|exact Hv].
  destruct Hel as (Eh & _). cbn. by rewrite Eh.
Qed.

Lemma end_hook_frame f be p m b ops x x' : end_hook f be p m b ops x = Some x' -> exists l, x' = set_bx_log (bx_log x ++ l) x.
Proof.
  unfold end_hook. assert (exists l, x = set_bx_log (bx_log x ++ l) x) as Hx by (exists []; rewrite app_nil_r; by destruct x). intros E. destruct (f ops); [|by injection E as <-].
  destruct (_ =? _); [|by injection E as <-]. destruct (side be (b_devices b)) as [dv|]; [|done]. cbn [mbind option_bind] in E. destruct (bdevs x !! dv); [|done]. injection E as <-. by eexists.
Qed.

Lemma hooks_loop_ok h n i m x x' : bx_ok h x -> hooks_loop n i m x = Some x' -> bx_ok h x' /\ controllers x' = controllers x.
Proof.
  assert (forall y l, bx_ok h y -> bx_ok h (set_bx_log l y)) as Hl by (intros y l []; by split).
  revert i x. induction n as [|n IH]; intros i x Ho E; cbn [hooks_loop] in E; [by injection E as <-|]. destruct (vmboxs x !! i) as [[p|]|]; [|done..]. cbn [mbind option_bind] in E.
  destruct (boxes x !! p) as [b|]; [|done]. cbn [mbind option_bind] in E. destruct (vmbox_find_hook _ _) as [[nm ops]|]; cbn [mbind option_bind] in E; [|by apply IH in E].
  destruct (end_hook ho_be_init _ _ _ _ _ _) as [x1|] eqn:E1; [|done]. cbn [mbind option_bind] in E. destruct (end_hook ho_fe_init _ _ _ _ _ _) as [x2|] eqn:E2; [|done]. cbn [mbind option_bind] in E.
  apply end_hook_frame in E1 as [l1 ->]. apply end_hook_frame in E2 as [l2 ->]. apply IH in E as [E ->]; [by split|by apply Hl, Hl].
Qed.

(** VMs come, go and change their state; those that own an end of a box or a
    controller stay where they are in the table of VMs, as the VMs of the
    device tree do, the only ones boxes are made for: they are never
    destroyed. *)
Definition vms_kept (h h' : hv) (x : bx) : Prop :=
  (forall p b be q, boxes x !! p = Some b -> get_vm_by_id CONFIG_MAX_VM (side be (b_owner b)) h = Some (Some q) -> get_vm_by_id CONFIG_MAX_VM (side be (b_owner b)) h' = Some (Some q)) /\
  forall d c, controllers x !! d = Some c -> vm_at h (vc_owner c) -> vm_at h' (vc_owner c).

Lemma vms_kept_ok h h' x : vms_kept h h' x -> bx_ok h x -> bx_ok h' x.
Proof.
  intros [Kb Kc] [Hl Hb Hp Hd Hc]. split; try done.
  - intros p b H. destruct (Hp p b H) as [Hn|(be & fe & v1 & v2 & Hde & Hne & H1 & H2 & [A1 A2 A3 (q1 & A4 & A5)] & [B1 B2 B3 (q2 & B4 & B5)])]; [by left|right].
    exists be, fe, v1, v2. do 4 (split; [done|]). split; (split; [done..|]); [exists q1|exists q2]; (split; [done|by apply (Kb p b _ _ H)]).
  - intros d c H. destruct (Hc d c H) as [L1 L2 L3 L4 L5 L6]. split; try done. by apply (Kc d c H).
Qed.

(** What the hypervisor and the VMs do with boxes, in any order.  New objects
    are in memory of their own. *)
Inductive vmbox_step (virq_of : list bcall -> option Z -> Z) (shmem_of : list bcall -> Z -> option Z) : vdw bx -> vdw bx -> Prop :=
| bs_box n a a_be a_fe r x' w : fresh_box a a_be a_fe (w_dev w) ->
    of_create_vmbox CONFIG_MAX_VM shmem_of (w_hv w) n a a_be a_fe (w_dev w) = Some (r, x') -> vmbox_step virq_of shmem_of w (set_dev x' w)
| bs_con p node a oks r oks' w w' : vm_at (w_hv w) p -> (forall d c, a = Some d -> controllers (w_dev w) !! d <> Some c) ->
    create_vmbox_controller virq_of p node a oks w = Some (r, oks', w') -> vmbox_step virq_of shmem_of w w'
| bs_read d offset value r y w w' : vmbox_con_read d offset value w = Some (r, y, w') -> vmbox_step virq_of shmem_of w w'
| bs_write d offset value oks r y w w' : vmbox_con_write virq_of d offset value oks w = Some (r, y, w') -> vmbox_step virq_of shmem_of w w'
| bs_register name ops ok r x' w : register_vmbox_hook name ops ok (w_dev w) = (r, x') -> vmbox_step virq_of shmem_of w (set_dev x' w)
| bs_hooks m r x' w : vmbox_device_do_hooks m (w_dev w) = Some (r, x') -> vmbox_step virq_of shmem_of w (set_dev x' w)
| bs_vms h' w : vms_kept (w_hv w) h' (w_dev w) -> vmbox_step virq_of shmem_of w (mk_vdw h' (w_objs w) (w_mm w) (w_dev w)).

Lemma create_vmbox_devices_cons h p a_be a_fe x r x' : create_vmbox_devices CONFIG_MAX_VM h p a_be a_fe x = Some (r, x') -> controllers x' = controllers x.
Proof.
  unfold create_vmbox_devices, create_vmbox_device, upd_bdev. intros E. destruct a_be, a_fe; simplify_option_eq; done.
Qed.

Lemma do_vmbox_hook_cons p x x' : do_vmbox_hook p x = Some x' -> controllers x' = controllers x.
Proof. unfold do_vmbox_hook, call_hook. intros E. simplify_option_eq. repeat case_match; by simplify_eq. Qed.

Lemma create_vmbox_cons shmem_of h i a a_be a_fe x r x' : create_vmbox CONFIG_MAX_VM shmem_of h i a a_be a_fe x = Some (r, x') -> controllers x' = controllers x.
Proof.
  unfold create_vmbox, ask_shmem. intros E. destruct (get_vm_by_id _ (u32 (fst _)) h) as [o1|]; [|done]. cbn [mbind option_bind] in E.
  destruct (get_vm_by_id _ (u32 (snd _)) h) as [o2|]; [|done]. cbn [mbind option_bind] in E. destruct o1; [|by injection E as _ <-]. destruct o2; [|by injection E as _ <-].
  destruct a as [p|]; [|by injection E as _ <-]. destruct (push_vmbox p _) as [x1|] eqn:E1; [|done]. cbn [mbind option_bind] in E. destruct (shmem_of _ _); [|done]. cbn [mbind option_bind] in E.
  destruct (boxes _ !! p); [|done]. cbn [mbind option_bind] in E. destruct (create_vmbox_devices _ _ _ _ _ _) as [[r2 x2]|] eqn:E2; [|done]. cbn [mbind option_bind] in E.
  destruct (do_vmbox_hook p x2) as [x3|] eqn:E3; [|done]. injection E as _ <-. rewrite (do_vmbox_hook_cons _ _ _ E3), (create_vmbox_devices_cons _ _ _ _ _ _ _ E2).
  unfold push_vmbox in E1. destruct (_ && _); [|done]. injection E1 as <-. done.
Qed.

Lemma of_create_vmbox_cons shmem_of h n a a_be a_fe x r x' : of_create_vmbox CONFIG_MAX_VM shmem_of h n a a_be a_fe x = Some (r, x') -> controllers x' = controllers x.
Proof. unfold of_create_vmbox. intros E. repeat case_match; try by simplify_eq. all: by eapply create_vmbox_cons. Qed.

Lemma vmbox_step_ok virq_of shmem_of w w' : vmbox_step virq_of shmem_of w w' -> bw_ok w -> bw_ok w'.
Proof.
  intros H Ho. pose proof Ho as [Hb Hc].
  assert (forall w1, bx_ok (w_hv w1) (w_dev w1) -> w_objs w1 = w_objs w -> (forall k, (vc_owner <$> controllers (w_dev w1) !! k) = (vc_owner <$> controllers (w_dev w) !! k)) -> bw_ok w1) as Hkeep.
  { intros w1 H1 E2 E3. split; [done|]. intros d c Hd. specialize (E3 d). rewrite Hd in E3. destruct (controllers (w_dev w) !! d) as [c0|] eqn:E0; [|done]. injection E3 as E3. rewrite E2, E3. by apply Hc. }
  destruct H as [n a a_be a_fe r x' w Hf E|p node a oks r oks' w w' Hp Hf E|d offset value r y w w' E|d offset value oks r y w w' E|name ops ok r x' w E|m r x' w E|h' w Hk].
  - apply Hkeep; [by eapply of_create_vmbox_ok|done|]. intros k. cbn. by rewrite (of_create_vmbox_cons _ _ _ _ _ _ _ _ _ E).
  - by eapply create_controller_ok.
  - destruct (controllers (w_dev w) !! d) as [c|] eqn:Hd; [|destruct (con_access_known virq_of d offset value [] w Hd); congruence].
    destruct (con_read_ok _ _ _ _ _ _ _ c Hb Hd E) as (H1 & [Hr _] & Eh & Eo & _). apply Hkeep; [by rewrite Eh|done|apply (br_cons _ _ _ Hr)].
  - destruct (controllers (w_dev w) !! d) as [c|] eqn:Hd; [|destruct (con_access_known virq_of d offset value oks w Hd); congruence].
    destruct (con_write_effect _ _ _ _ _ _ _ _ _ c Hb Hd E) as ((H1 & Hr & _) & Eh & Eo & _). apply Hkeep; [by rewrite Eh|done|apply (br_cons _ _ _ Hr)].
  - assert (controllers x' = controllers (w_dev w) /\ bx_ok (w_hv w) x') as [Ec Hx].
    { unfold register_vmbox_hook in E. destruct ops; [|by injection E as _ <-]. destruct (vmbox_find_hook _ _); [by injection E as _ <-|]. destruct (negb ok); [by injection E as _ <-|].
      injection E as _ <-. split; [done|]. destruct Hb. by split. }
    apply Hkeep; [done|done|]. intros k. cbn. by rewrite Ec.
  - unfold vmbox_device_do_hooks in E. destruct (hooks_loop _ _ _ _) as [x1|] eqn:E1; [|done]. injection E as _ <-. destruct (hooks_loop_ok _ _ _ _ _ _ Hb E1) as [Hx Ec].
    apply Hkeep; [done|done|]. intros k. cbn. by rewrite Ec.
  - apply Hkeep; [by apply (vms_kept_ok (w_hv w))|done|done].
Qed.

Lemma vmbox_steps_ok virq_of shmem_of w w' : bw_ok w -> rtc (vmbox_step virq_of shmem_of) w w' -> bw_ok w'.
Proof. intros Ho H. induction H as [|w1 w2 w3 H12 _ IH]; [done|]. by apply IH, (vmbox_step_ok virq_of shmem_of w1). Qed.

(** C25: message boxes stay well formed whatever the hypervisor and the VMs do
    with them, as long as the VMs that own a box or a controller stay
    registered: a box has both of its devices, connected to each other and
    belonging to the owners of the two ends, or neither (when there was no
    memory for them); a controller lists only devices of its own VM, filled
    from the first slot on, and its state register shows exactly the filled
    slots. *)
Theorem vmbox_reachable_ok virq_of shmem_of w w' : bw_ok w -> rtc (vmbox_step virq_of shmem_of) w w' -> bw_ok w'.
Proof. apply vmbox_steps_ok. Qed.

(** ** A VM reaches only the other end of its own boxes *)
Lemma match_vdev_in l address w d idx va : match_vdev l address w = Some (Some (d, idx, va)) -> d ∈ l.
Proof.
  induction l as [|k l IH]; [done|]. cbn [match_vdev]. destruct (w_objs w !! k) as [o|]; [|done]. cbn [mbind option_bind]. destruct (match_area _ _ _) as [[i a]|]; [intros [= <- _ _]; left|intros H; right; by apply IH].
Qed.

(** What an access of VM [p] may do: nothing out of its reach changes, the
    areas of other VMs neither, and virqs go only to VMs at the other end of a
    box it owns an end of. *)
Definition confined (p : Z) (write : bool) w w' : Prop :=
  bx_frame p (w_dev w) (w_dev w') /\ (forall q, q <> p -> w_mm w' !! q = w_mm w !! q) /\
  exists l, sends (bx_log (w_dev w')) = sends (bx_log (w_dev w)) ++ l /\ (write = false -> l = []) /\
    forall t q, (t, q) ∈ l -> exists p', t = Some p' /\ share_box (w_hv w) (w_dev w) p p'.

Lemma quiet_confined p write w w' : bx_rel p (w_dev w) (w_dev w') -> (forall q, q <> p -> w_mm w' !! q = w_mm w !! q) -> confined p write w w'.
Proof.
  intros [Hf E] Hm. split; [done|]. split; [done|]. exists []. rewrite app_nil_r. split; [done|]. split; [done|]. intros t q H. by apply not_elem_of_nil in H.
Qed.

Lemma call_confined virq_of oks f d idx offset value w r y w' c (write : bool) : bx_ok (w_hv w) (w_dev w) -> controllers (w_dev w) !! d = Some c ->
  (write = false -> f <> VMBOX_CON_WRITE_FN) -> vmbox_call virq_of oks f d idx offset value w = Some (r, y, w') -> confined (vc_owner c) write w w'.
Proof.
  intros Hb Hd Hw E. unfold vmbox_call in E. destruct (f =? VMBOX_CON_READ_FN).
  { destruct (con_read_ok _ _ _ _ _ _ _ c Hb Hd E) as (_ & Hr & _ & _ & Hm). by apply quiet_confined. }
  destruct (Z.eqb_spec f VMBOX_CON_WRITE_FN) as [->|]; [|destruct (_ || _); [injection E as _ _ <-; by apply quiet_confined|done]].
  destruct (con_write_effect _ _ _ _ _ _ _ _ _ c Hb Hd E) as ((_ & Hf & l & El & Hl) & _ & _ & Hm). split; [done|]. split; [done|]. exists l. split; [done|]. split; [|done].
  intros ->. by destruct (Hw eq_refl).
Qed.

(** C24: A VM that accesses memory without a mapping, at any address with any
    value, changes no message box, no controller of another VM and no device
    but its own and the ones at the other end of its own; what the devices are
    connected to and the address areas of other VMs stay too.  A write causes
    interrupts only in VMs at the other end of a box that it owns an end of, a
    read causes none.  The access is assumed to return: it does not when it
    selects a slot behind the array of devices. *)
Theorem guest_box_isolation virq_of oks current relax send_ok fuel (write : bool) address value w v vc r y w' :
  bw_ok w -> vdevs_ok w -> current = Some v -> vcpu_heap (w_hv w) !! v = Some vc ->
  vdev_mmio_emulation (vmbox_call virq_of oks) current relax send_ok fuel write address value w = Some (r, y, w') ->
  confined (vc_vm vc) write w w'.
Proof.
  intros [Hb Hc] Hvd -> Hv E. unfold vdev_mmio_emulation in E. cbn [mbind option_bind] in E. rewrite Hv in E. cbn [mbind option_bind] in E.
  destruct (vm_heap (w_hv w) !! vc_vm vc) as [m|] eqn:Hm; [|done]. cbn [mbind option_bind] in E.
  destruct (match_vdev _ _ _) as [[[[d idx] va]|]|] eqn:Em; [| |done]; cbn [mbind option_bind] in E.
  2: { destruct (vm_is_native m); [injection E as _ _ <-; by apply quiet_confined|]. destruct (trap_vcpu _ _ _ _ _ _ _ _ _) as [[[r1 r2] s1]|]; [|done]. injection E as _ _ <-. by apply quiet_confined. }
  destruct (w_objs w !! d) as [o|] eqn:Ho; [|done]. cbn [mbind option_bind] in E.
  destruct (handle_mmio _ d o write idx _ value w) as [[[r1 y1] w1]|] eqn:Eh; [|done]. injection E as _ _ <-.
  assert (w1 = w \/ (exists f, vmbox_call virq_of oks f d idx (u64 (address - va_start va)) value w = Some (r1, y1, w1) /\ (if write then vd_write o else vd_read o) = Some f)) as [->|(f & Ef & Hf)].
  { unfold handle_mmio, handle_mmio_write, handle_mmio_read in Eh. destruct write; [destruct (vd_write o) as [f|]|destruct (vd_read o) as [f|]]; first [right; by exists f|left; congruence]. }
  { by apply quiet_confined. }
  destruct (controllers (w_dev w) !! d) as [c|] eqn:Hd.
  - destruct (Hc d c Hd) as (o' & Ho' & Hp). rewrite Ho in Ho'. injection Ho' as <-. injection Hp as Hp1 Hp2 Hp3. apply match_vdev_in in Em.
    apply (vk_list _ Hvd (vc_vm vc) m Hm) in Em as (o' & Ho' & Hp' & _). replace (vc_vm vc) with (vc_owner c) by congruence.
    eapply call_confined; [exact Hb|exact Hd| |exact Ef]. intros ->. rewrite Hp2 in Hf. by injection Hf as <-.
  - destruct (con_access_known virq_of d (u64 (address - va_start va)) value oks w Hd) as [Er Ew]. unfold vmbox_call in Ef. rewrite Er, Ew in Ef.
    destruct (_ =? _); [done|]. destruct (_ =? _); [done|]. destruct (_ || _); [injection Ef as _ _ <-; by apply quiet_confined|done].
Qed.
End vmbox_ok.

(** ** The events of a box *)
Section ipc.
Implicit Type w : vdw bx.

(** The other end keeps a set of pending events: an event is added, and
    announced if it was not there; reading takes the whole set. *)
Inductive ipc_op := Post (e : Z) | Take.

Definition spec_step (op : ipc_op) (S : gset Z) : gset Z * bool * option (gset Z) :=
  match op with
  | Post e => if decide (0 <= e < VMBOX_DEV_IPC_COUNT) then ({[e]} ∪ S, bool_decide (e ∉ S), None) else (S, false, None)
  | Take => (∅, false, Some S)
  end.

Fixpoint spec_run (ops : list ipc_op) (S : gset Z) : gset Z * nat * list (gset Z) :=
  match ops with
  | [] => (S, 0%nat, [])
  | op :: ops =>
      let '(S1, n, out) := spec_step op S in
      let '(S2, k, outs) := spec_run ops S1 in
      (S2, ((if n : bool then 1 else 0) + k)%nat, option_list out ++ outs)
  end.

(** The registers of slot [i] of a controller. *)
Definition slot_reg (i : nat) (reg : Z) : Z := VMBOX_CON_DEV_BASE + VMBOX_CON_DEV_SIZE * Z.of_nat i + reg.

(** One VM writes the event register of its device in slot [ia] of [da], the
    other reads and clears the event register of its own in slot [ib] of [db]. *)
Definition ipc_run1 (virq_of : list bcall -> option Z -> Z) (da : Z) (ia : nat) (db : Z) (ib : nat) (op : ipc_op) w : option (Z * Z * vdw bx) :=
  match op with
  | Post e => vmbox_con_write virq_of da (slot_reg ia VMBOX_DEV_IPC_EVENT) e [] w
  | Take => vmbox_con_read db (slot_reg ib VMBOX_DEV_IPC_TYPE) 0 w
  end.

Fixpoint ipc_run (virq_of : list bcall -> option Z -> Z) (da : Z) (ia : nat) (db : Z) (ib : nat) (ops : list ipc_op) w : option (list Z * vdw bx) :=
  match ops with
  | [] => Some ([], w)
  | op :: ops =>
      '(_, y, w) ← ipc_run1 virq_of da ia db ib op w;
      '(ys, w) ← ipc_run virq_of da ia db ib ops w;
      Some ((match op with Take => [y] | Post _ => [] end) ++ ys, w)
  end.

Definition mask_is (m : Z) (S : gset Z) : Prop := forall e, Z.testbit m e = bool_decide (e ∈ S).

Definition in_slot (x : bx) (d : Z) (i : nat) (a : Z) : Prop :=
  exists c, controllers x !! d = Some c /\ length (con_devices c) = 32%nat /\ con_devices c !! i = Some (Some a).

(** Device [b] is online, with the events [S]. *)
Record ipc_end (x : bx) (b q virq : Z) (S : gset Z) : Prop := mk_ipc_end {
  ie_dev : exists v, bdevs x !! b = Some v /\ bd_state v <> 0 /\ bd_vm v = Some q /\ ipc_virq v = virq /\ mask_is (ipc_type v) S /\ is_Some (boxes x !! bd_vmbox v);
}.

(** Device [a] of slot [ia] and device [b] of slot [ib] are the ends of a box. *)
Record ipc_link (da : Z) (ia : nat) (db : Z) (ib : nat) (a b q virq : Z) (S : gset Z) (x : bx) : Prop := mk_ipc_link {
  il_a : in_slot x da ia a;
  il_b : in_slot x db ib b;
  il_bro : exists v, bdevs x !! a = Some v /\ bro v = Some b;
  il_ne : a <> b;
  il_end : ipc_end x b q virq S;
}.

Lemma select_slot d (i : nat) reg x a : in_slot x d i a -> 0 <= reg < VMBOX_CON_DEV_SIZE ->
  select_device d (slot_reg i reg) x = Some (inr (a, reg)) /\ (slot_reg i reg <? VMBOX_CON_DEV_BASE) = false.
Proof.
  intros (c & Hc & Hl & Ha) Hr. assert (i < 32)%nat as Hi by (apply lookup_lt_Some in Ha; lia). unfold slot_reg, VMBOX_CON_DEV_SIZE, VMBOX_CON_DEV_BASE in *. split; [|apply Z.ltb_ge; lia].
  unfold select_device, VMBOX_CON_DEV_SIZE, VMBOX_CON_DEV_BASE. rewrite Hc. cbn [mbind option_bind].
  cbv zeta. replace (u64 (256 + 64 * Z.of_nat i + reg - 256)) with (64 * Z.of_nat i + reg) by (unfold u64; rewrite Z.mod_small by lia; lia).
  replace ((64 * Z.of_nat i + reg) / 64) with (Z.of_nat i) by (apply (Z.div_unique _ _ _ reg); lia). replace ((64 * Z.of_nat i + reg) mod 64) with reg by (apply (Z.mod_unique _ _ (Z.of_nat i)); lia).
  replace (s32 (Z.of_nat i)) with (Z.of_nat i) by (unfold s32; rewrite Z.mod_small; lia). replace (u64 (Z.of_nat i)) with (Z.of_nat i) by (unfold u64; rewrite Z.mod_small; lia).
  replace (u32 reg) with reg by (unfold u32; rewrite Z.mod_small; lia). rewrite Hl, (proj2 (Z.leb_gt _ _)) by lia. rewrite Nat2Z.id, Ha. done.
Qed.

Lemma event_bit e : 0 <= e < 32 -> u32 (Z.shiftl 1 e) = 2 ^ e.
Proof. intros He. rewrite Z.shiftl_1_l. apply Z.mod_small. split; [apply Z.pow_nonneg; lia|apply Z.pow_lt_mono_r; lia]. Qed.

Lemma mask_add m S e : 0 <= e -> mask_is m S -> mask_is (Z.lor m (2 ^ e)) ({[e]} ∪ S).
Proof.
  intros He Hm k. rewrite Z.lor_spec, Hm. destruct (decide (k = e)) as [->|Hne].
  - rewrite Z.pow2_bits_true by done. rewrite orb_true_r. symmetry. apply bool_decide_eq_true. set_solver.
  - rewrite Z.pow2_bits_false by done. rewrite orb_false_r. apply bool_decide_ext. set_solver.
Qed.

Lemma mask_test m S e : 0 <= e -> mask_is m S -> (Z.land m (2 ^ e) =? 0) = bool_decide (e ∉ S).
Proof. intros He Hm. rewrite land_pow_testbit, Hm by done. rewrite bool_decide_not. done. Qed.

Lemma ipc_step virq_of da ia db ib a b q virq S op w :
  ipc_link da ia db ib a b q virq S (w_dev w) -> (forall e, op = Post e -> 0 <= e) ->
  let '(S', n, out) := spec_step op S in
  exists y w', ipc_run1 virq_of da ia db ib op w = Some (0, y, w') /\ ipc_link da ia db ib a b q virq S' (w_dev w') /\
    sends (bx_log (w_dev w')) = sends (bx_log (w_dev w)) ++ (if n : bool then [(Some q, virq)] else []) /\
    match out with Some T => mask_is y T | None => True end.
Proof.
  intros [Ha Hb (va & Hva & Hbro) Hne [(v & Hv & Hst & Hq & Hi & Hm & [bx0 Hbox])]] Hpos.
  assert (forall v' t, bd_state v' <> 0 -> bd_vm v' = Some q -> ipc_virq v' = virq -> mask_is (ipc_type v') t -> bd_vmbox v' = bd_vmbox v ->
    ipc_link da ia db ib a b q virq t (put_bdev b v' (w_dev w))) as Hput.
  { intros v' t H1 H2 H3 H4 H5. split; [done|done| |done|].
    - exists va. cbn. by rewrite lookup_insert_ne.
    - split. exists v'. cbn. rewrite lookup_insert_eq, H5, Hbox. by repeat split. }
  destruct op as [e|]; cbn [spec_step].
  - specialize (Hpos e eq_refl). cbn [ipc_run1]. unfold vmbox_con_write. destruct (select_slot da ia VMBOX_DEV_IPC_EVENT (w_dev w) a Ha ltac:(done)) as [Es ->].
    unfold vmbox_handle_dev_write. rewrite Es. msimpl. rewrite Hva. msimpl. rewrite Hbro. msimpl. rewrite Hv. msimpl. unfold dev_event.
    change (VMBOX_DEV_IPC_EVENT =? VMBOX_DEV_VRING_EVENT) with false. change (VMBOX_DEV_IPC_EVENT =? VMBOX_DEV_IPC_EVENT) with true. cbn iota.
    rewrite (proj2 (Z.eqb_neq _ _) Hst). cbn [orb]. assert (set_dev (w_dev w) w = w) as Ew by by destruct w. unfold VMBOX_DEV_IPC_COUNT. destruct (decide _) as [He|He].
    + rewrite (proj2 (Z.leb_gt _ _)) by lia. rewrite event_bit by done. rewrite (mask_test _ S e) by done. destruct (bool_decide (e ∉ S)) eqn:Eb.
      * eexists _, _. split; [done|]. split; [|split; [|done]].
        -- destruct (Hput (set_ipc_type (Z.lor (ipc_type v) (2 ^ e)) v) ({[e]} ∪ S)) as [P1 P2 P3 P4 [P5]]; [done..|by apply mask_add|done|by split].
        -- unfold post_virq. cbn [w_dev set_dev blog set_bx_log bx_log]. rewrite sends_app, Hq, Hi. done.
      * apply bool_decide_eq_false, dec_stable in Eb. exists e, w. rewrite Ew, app_nil_r. replace ({[e]} ∪ S) with S by set_solver. split; [done|]. split; [|done]. split; [done|done|by eexists|done|]. split. exists v. by repeat split.
    + rewrite (proj2 (Z.leb_le _ _)) by lia. exists e, w. rewrite Ew, app_nil_r. split; [done|]. split; [|done]. split; [done|done|by eexists|done|]. split. exists v. by repeat split.
  - cbn [ipc_run1]. unfold vmbox_con_read. destruct (select_slot db ib VMBOX_DEV_IPC_TYPE (w_dev w) b Hb ltac:(done)) as [Es ->].
    unfold vmbox_handle_dev_read. rewrite Es. msimpl. rewrite Hv. msimpl. rewrite Hbox. msimpl. cbn [__vmbox_handle_dev_read].
    eexists _, _. split; [done|]. split; [|split; [by rewrite app_nil_r|exact Hm]]. apply Hput; [done..| |done]. intros k. cbn. rewrite Z.bits_0. symmetry. apply bool_decide_eq_false. set_solver.
Qed.

(** C26: the event register of a box is a mailbox that loses nothing.  Whatever
    sequence of events one VM posts and however the reads of the other VM fall
    in between, the reads return exactly the sets of events that were posted
    since the read before, the rest is still pending, and the reader gets one
    interrupt for every event that was not pending when it was posted. *)
Theorem vmbox_ipc_refines_sets virq_of da ia db ib a b q virq ops : forall S w,
  ipc_link da ia db ib a b q virq S (w_dev w) -> Forall (fun op => forall e, op = Post e -> 0 <= e) ops ->
  let '(S', n, outs) := spec_run ops S in
  exists ys w', ipc_run virq_of da ia db ib ops w = Some (ys, w') /\ ipc_link da ia db ib a b q virq S' (w_dev w') /\
    sends (bx_log (w_dev w')) = sends (bx_log (w_dev w)) ++ replicate n (Some q, virq) /\ Forall2 mask_is ys outs.
Proof.
  induction ops as [|op ops IH]; intros S w Hl Hops; cbn [spec_run ipc_run].
  - exists [], w. rewrite app_nil_r. split; [done|]. split; [done|]. split; [done|constructor].
  - apply Forall_cons_1 in Hops as [Hop Hops]. pose proof (ipc_step virq_of da ia db ib a b q virq S op w Hl Hop) as Hs.
    destruct (spec_step op S) as [[S1 n1] out] eqn:Eo. destruct Hs as (y & w1 & E1 & Hl1 & Es1 & Hy). specialize (IH S1 w1 Hl1 Hops).
    destruct (spec_run ops S1) as [[S2 n2] outs]. destruct IH as (ys & w2 & E2 & Hl2 & Es2 & Hys). rewrite E1. cbn [mbind option_bind]. rewrite E2. cbn [mbind option_bind].
    eexists _, w2. split; [done|]. split; [done|]. split.
    + rewrite Es2, Es1, <- app_assoc. by destruct n1.
    + destruct op as [e|]; cbn in Eo; [|by injection Eo as <- <- <-; constructor].
      destruct (decide _); injection Eo as <- <- <-; done.
Qed.
End ipc.

(** ** The shared memory of a box *)

(** An [int] holds the aligned size of a small request. *)
Lemma int_align_small size : 0 <= size < 2 ^ 30 -> int_align size VMBOX_VRING_ALGIN_SIZE = 8 * ((size + 7) / 8).
Proof.
  intros Hs. unfold int_align. change VMBOX_VRING_ALGIN_SIZE with (2 ^ 3). change (2 ^ 3 - 1) with 7.
  assert (forall z, 0 <= z < 2 ^ 31 -> s32 z = z) as H32 by (intros; unfold s32; rewrite Z.mod_small; lia).
  rewrite (u64_small (size + 7)), (H32 (size + 7)), (u64_small (size + 7)) by lia. change 7 with (2 ^ 3 - 1). rewrite land_not64_pow2 by lia. change (2 ^ 3 - 1) with 7.
  pose proof (Z.mul_div_le (size + 7) 8 ltac:(lia)). pose proof (Z.div_pos (size + 7) 8 ltac:(lia) ltac:(lia)). change (2 ^ 3) with 8. rewrite H32 by lia. unfold u32. apply Z.mod_small. lia.
Qed.

(** One queue: descriptors, available ring and used ring. *)
Definition ring_bytes (n : Z) : Z := 16 * n + 2 * (3 + n) + (4 + 8 * (n + 1)).

Lemma vring_size_spec n : 0 <= n < 2 ^ 24 ->
  let s := vmbox_virtq_vring_size n VMBOX_VRING_ALGIN_SIZE in ring_bytes n <= s <= ring_bytes n + 21 /\ s mod 8 = 0.
Proof.
  intros Hn. unfold vmbox_virtq_vring_size, vmbox_virtq_vring_desc_size, vmbox_virtq_vring_avail_size, vmbox_virtq_vring_used_size, ring_bytes.
  assert (forall z, 0 <= z < 2 ^ 32 -> u32 z = z) as Hu by (intros; by apply Z.mod_small). rewrite !(Hu (_ + _)); [|lia|lia|].
  - rewrite !int_align_small by lia. dlia.
  - rewrite (Hu (3 + n)), (Hu (n + 1)) by lia. rewrite !int_align_small by lia. dlia.
Qed.

(** The shared memory of a box is large enough, when the sizes of its
    node do not overflow: the pages that are allocated hold the event area,
    the rings of all queues, each on an 8 byte boundary, and all buffers. *)
Theorem vmbox_memory_fits i : 0 <= vi_vring_num i < 2 ^ 24 -> 0 <= vi_vqs i -> 0 <= vi_vring_size i ->
  (ring_bytes (vi_vring_num i) + 21) * vi_vqs i < 2 ^ 32 -> vi_vring_num i * vi_vring_size i * vi_vqs i < 2 ^ 32 ->
  let size := PAGE_BALIGN (get_vmbox_iomem_size i) in
  let ring := vmbox_virtq_vring_size (vi_vring_num i) VMBOX_VRING_ALGIN_SIZE in
  ring mod 8 = 0 /\ ring_bytes (vi_vring_num i) <= ring /\ get_vmbox_iomem_header_size i = VMBOX_IPC_ALL_ENTRY_SIZE + vi_vqs i * ring /\
  VMBOX_IPC_ALL_ENTRY_SIZE + vi_vqs i * ring + vi_vring_num i * vi_vring_size i * vi_vqs i <= size /\ PAGE_NR size * PAGE_SIZE = size.
Proof.
  intros Hn Hq Hs Hr Hb size ring. destruct (vring_size_spec (vi_vring_num i) Hn) as [[R1 R2] R3]. fold ring in R1, R2, R3.
  assert (0 <= ring_bytes (vi_vring_num i)) as R0 by (unfold ring_bytes; lia).
  assert (0 <= ring * vi_vqs i < 2 ^ 32) as Hrq by nia.
  assert (get_vmbox_iomem_header_size i = VMBOX_IPC_ALL_ENTRY_SIZE + vi_vqs i * ring) as Eh.
  { unfold get_vmbox_iomem_header_size. fold ring. unfold u32. rewrite (Z.mod_small (ring * _)) by lia. unfold VMBOX_IPC_ALL_ENTRY_SIZE. rewrite u64_small; lia. }
  assert (get_vmbox_iomem_buf_size i = vi_vring_num i * vi_vring_size i * vi_vqs i) as Ebf.
  { unfold get_vmbox_iomem_buf_size, u32. destruct (decide (vi_vqs i = 0)) as [->|]; [by rewrite !Z.mul_0_r|]. assert (0 <= vi_vring_num i * vi_vring_size i < 2 ^ 32) by nia. rewrite (Z.mod_small (vi_vring_num i * _)) by lia. apply Z.mod_small. nia. }
  set (bytes := get_vmbox_iomem_size i) in *.
  assert (bytes = VMBOX_IPC_ALL_ENTRY_SIZE + vi_vqs i * ring + vi_vring_num i * vi_vring_size i * vi_vqs i /\ 0 <= bytes < 2 ^ 40) as [Eb Hbr].
  { unfold bytes, get_vmbox_iomem_size. rewrite Eh, Ebf. unfold VMBOX_IPC_ALL_ENTRY_SIZE. rewrite u64_small by nia. split; [done|nia]. }
  assert (size = 4096 * ((bytes + 4095) / 4096)) as Es by (apply (BALIGN_pow2 bytes 12); lia).
  split; [done|]. split; [lia|]. split; [done|]. rewrite <- Eb. pose proof (Z.div_mod (bytes + 4095) 4096 ltac:(lia)). pose proof (Z.mod_pos_bound (bytes + 4095) 4096 ltac:(lia)). split; [lia|].
  unfold PAGE_NR. replace (PAGE_BALIGN size) with size.
  - rewrite Z.shiftr_div_pow2 by done. change (2 ^ PAGE_SHIFT) with 4096. change PAGE_SIZE with 4096. rewrite Es. rewrite (Z.mul_comm 4096), Z.div_mul by lia. done.
  - symmetry. etrans; [apply (BALIGN_pow2 size 12); lia|]. rewrite Es. change (2 ^ 12) with 4096. f_equal. rewrite Z.add_comm, (Z.mul_comm 4096), Z.div_add by lia. done.
Qed.

(** ** What goes wrong *)

(** The size of the buffers is computed in 32 bits: a box with 65536 buffers of
    65536 bytes gets no buffer memory at all. *)
Lemma vmbox_buffers_wrap : get_vmbox_iomem_buf_size (mk_vmbox_info (1, 2) (0, 0) 1 65536 65536 0 0 EmptyString) = 0.
Proof. reflexivity. Qed.

(** The registers of slot 32 and above exist for the range check, and read
    behind the controller. *)
Lemma vmbox_slot_out_of_bounds d value w c : controllers (w_dev w) !! d = Some c -> length (con_devices c) = 32%nat -> vmbox_con_read d 0x900 value w = None.
Proof. intros Hc Hl. unfold vmbox_con_read, vmbox_handle_dev_read, select_device. rewrite Hc. cbn [mbind option_bind].
  change (s32 (u64 (0x900 - VMBOX_CON_DEV_BASE) / VMBOX_CON_DEV_SIZE)) with 32. change (0x900 <? VMBOX_CON_DEV_BASE) with false. rewrite Hl. change (8 * Z.of_nat 32 <=? u64 32) with false. cbn iota.
  by rewrite lookup_ge_None_2 by (rewrite Hl; done).
Qed.

(** The interrupt status of a new device is bit 1; the register is documented
    with bit 0. *)
Lemma vmbox_online_bit : Z.land (Z.shiftl 1 VMBOX_CON_INT_TYPE_DEV_ONLINE) VMBOX_CON_INT_TYPE_DEV_ONLINE = 0.
Proof. reflexivity. Qed.

(** A box whose devices could not be allocated stays in the table: attaching
    it follows a null pointer. *)
Lemma vmbox_without_devices_faults virq_of d box id be oks w b : boxes (w_dev w) !! box = Some b -> b_devices b = (None, None) -> side be (b_owner b) = id ->
  attach_end virq_of d box id be oks w = None.
Proof. intros Hb Hn Hs. unfold attach_end. rewrite Hb. cbn [mbind option_bind]. rewrite Hs, Z.eqb_refl, Hn. by destruct be. Qed.

(** ** Witnesses *)

(** VM 1 and VM 2 of [demo_sys], a box between them, and their controllers. *)
Definition demo_bx0 : bx := mk_bx ∅ ∅ ∅ (replicate 16 None) 0 [] [] [].
Definition demo_space : areas := mk_areas [mk_area 0 0x40000000 BAD_ADDRESS 0 0 []] [].
Definition demo_bw0 : vdw bx := mk_vdw (demo_sys VM_STATE_ONLINE TASK_STATE_RUNNING) ∅ {[1 := demo_space; 2 := demo_space]} demo_bx0.
Definition demo_virq_of (l : list bcall) (p : option Z) : Z := 32 + Z.of_nat (length l).
Definition demo_shmem_of (l : list bcall) (n : Z) : option Z := Some 0x50000000.
Definition demo_node : vmbox_node := mk_vmbox_node [1; 2] EmptyString [7; 9] false [] [2] [16] [512].
Definition demo_oks : list bool := replicate 8 true.
Definition demo_bw1 : vdw bx := set_dev (default demo_bx0 (snd <$> of_create_vmbox 4 demo_shmem_of (w_hv demo_bw0) demo_node (Some 301) (Some 302) (Some 303) demo_bx0)) demo_bw0.
Definition demo_bw2 : vdw bx := default demo_bw1 (snd <$> create_vmbox_controller demo_virq_of 1 None (Some 401) demo_oks demo_bw1).
Definition demo_bw3 : vdw bx := default demo_bw2 (snd <$> create_vmbox_controller demo_virq_of 2 None (Some 402) demo_oks demo_bw2).
Definition demo_bw4 : vdw bx := default demo_bw3 (snd <$> vmbox_con_write demo_virq_of 401 VMBOX_CON_ONLINE 1 demo_oks demo_bw3).
Definition demo_bw5 : vdw bx := default demo_bw4 (snd <$> vmbox_con_write demo_virq_of 402 VMBOX_CON_ONLINE 1 demo_oks demo_bw4).
Definition demo_bw : vdw bx := default demo_bw5 (snd <$> vmbox_con_write demo_virq_of 402 (slot_reg 0 VMBOX_DEV_VDEV_ONLINE) 1 [] demo_bw5).

Lemma demo_bw0_ok : bw_ok 4 demo_bw0.
Proof.
  split; [split; cbn; try done|done].
  - intros i Hi. lia.
Qed.

Lemma demo_bw_steps : rtc (vmbox_step 4 demo_virq_of demo_shmem_of) demo_bw0 demo_bw.
Proof.
  eapply (rtc_l _ _ demo_bw1); [eapply (bs_box _ _ _ demo_node (Some 301) (Some 302) (Some 303) 0); [split; [by intros ? [= <-]..|done]|vm_compute; reflexivity]|].
  eapply (rtc_l _ _ demo_bw2); [eapply (bs_con _ _ _ 1 None (Some 401) demo_oks 0 (drop 1 demo_oks)); [eexists; split; reflexivity|by intros d c [= <-]|vm_compute; reflexivity]|].
  eapply (rtc_l _ _ demo_bw3); [eapply (bs_con _ _ _ 2 None (Some 402) demo_oks 0 (drop 1 demo_oks)); [eexists; split; vm_compute; reflexivity|intros d c [= <-]; by vm_compute|vm_compute; reflexivity]|].
  eapply (rtc_l _ _ demo_bw4); [eapply (bs_write _ _ _ 401 VMBOX_CON_ONLINE 1 demo_oks 0 1); vm_compute; reflexivity|].
  eapply (rtc_l _ _ demo_bw5); [eapply (bs_write _ _ _ 402 VMBOX_CON_ONLINE 1 demo_oks 0 1); vm_compute; reflexivity|].
  eapply (rtc_l _ _ demo_bw); [eapply (bs_write _ _ _ 402 (slot_reg 0 VMBOX_DEV_VDEV_ONLINE) 1 [] 0 1); vm_compute; reflexivity|]. apply rtc_refl.
Qed.

Lemma vmbox_reachable_ok_witness : bw_ok 4 demo_bw.
Proof. exact (vmbox_reachable_ok 4 demo_virq_of demo_shmem_of demo_bw0 demo_bw demo_bw0_ok demo_bw_steps). Defined.

(** The state [demo_bw], evaluated. *)
Definition demo_con_dev (p : Z) : vdev :=
  mk_vdev (Some p) 1 [mk_area 0 0x1000 BAD_ADDRESS 0 0 []] true (Some VMBOX_CON_READ_FN) (Some VMBOX_CON_WRITE_FN) (Some VMBOX_CON_DEINIT_FN) (Some VMBOX_CON_RESET_FN).
Definition demo_space' : areas := mk_areas [mk_area 0x6000 0x40000000 BAD_ADDRESS 0 0 []] [mk_area 0 0x1000 BAD_ADDRESS 0 0 []; mk_area 0x1000 0x6000 0x50000000 53252 0 []].

Lemma demo_bw_objs d o : w_objs demo_bw !! d = Some o -> (d = 401 /\ o = demo_con_dev 1) \/ (d = 402 /\ o = demo_con_dev 2).
Proof.
  replace (w_objs demo_bw) with ({[401 := demo_con_dev 1; 402 := demo_con_dev 2]} : gmap Z vdev) by (vm_compute; reflexivity).
  rewrite lookup_insert_Some, lookup_singleton_Some. intros [[<- <-]|[_ [<- <-]]]; tauto.
Qed.

Lemma demo_bw_vdevs : vdevs_ok demo_bw.
Proof.
  assert (forall p a, w_mm demo_bw !! p = Some a -> a = demo_space') as Hmm.
  { intros p a. replace (w_mm demo_bw) with ({[1 := demo_space'; 2 := demo_space']} : gmap Z areas) by (vm_compute; reflexivity). rewrite lookup_insert_Some, lookup_singleton_Some. by intros [[_ <-]|[_ [_ <-]]]. }
  split.
  - intros p a ->%Hmm. split; [repeat constructor; done|]. split; [repeat constructor; done|]. intros a. unfold cov. cbn.
    destruct (rng_cases 0x6000 0x40000000 a), (rng_cases 0 0x1000 a), (rng_cases 0x1000 0x6000 a); lia.
  - intros p m. replace (vm_heap (w_hv demo_bw)) with ({[1 := set_vdev_list [401] (demo_vm 1 VM_STATE_FREEZEING (Z.lor VM_FLAGS_NATIVE (Z.lor VM_FLAGS_HOST VM_FLAGS_CAN_RESET)) 10 11);
      2 := set_vdev_list [402] (demo_vm 2 VM_STATE_ONLINE VM_FLAGS_CAN_RESET 12 13)]} : gmap Z vm) by (vm_compute; reflexivity).
    rewrite lookup_insert_Some, lookup_singleton_Some. intros [[<- <-]|[_ [<- <-]]]; (split; [apply NoDup_singleton|]); intros d; cbn; rewrite list_elem_of_singleton;
      (split; [intros ->; eexists; (split; [vm_compute; reflexivity|done])|intros (o & [[-> ->]|[-> ->]]%demo_bw_objs & H & _); done]).
  - intros p mm a ->%Hmm. unfold dev_cov. replace (map_to_list (w_objs demo_bw)) with [(401, demo_con_dev 1); (402, demo_con_dev 2)] by (vm_compute; reflexivity).
    cbn. unfold cov. cbn. destruct (rng_cases 0 0x1000 a), (rng_cases 0x1000 0x6000 a); repeat destruct (decide _); simplify_eq; lia.
  - intros d o va [[_ ->]|[_ ->]]%demo_bw_objs; intros ->%list_elem_of_singleton; done.
Qed.

(** VM 1 posts event 3: VM 2 gets the interrupt of its device, and its
    controller stays as it is. *)
Lemma guest_box_isolation_witness : exists r y w', vdev_mmio_emulation (vmbox_call demo_virq_of []) (Some 10) (fun s => s) true 1 true (slot_reg 0 VMBOX_DEV_IPC_EVENT) 3 demo_bw = Some (r, y, w') /\
  sends (bx_log (w_dev w')) = [(Some 2, 40)] /\ share_box 4 (w_hv demo_bw) (w_dev demo_bw) 1 2 /\ bx_frame 1 (w_dev demo_bw) (w_dev w') /\ (ipc_type <$> bdevs (w_dev w') !! 303) = Some 8.
Proof.
  set (o := vdev_mmio_emulation _ _ _ _ _ _ _ _ _). assert ((fun x => (sends (bx_log (w_dev (snd x))), ipc_type <$> bdevs (w_dev (snd x)) !! 303)) <$> o = Some ([(Some 2, 40)], Some 8)) as Hs by (vm_compute; reflexivity).
  destruct o as [[[r y] w']|] eqn:E; [|discriminate Hs]. exists r, y, w'. injection Hs as Hs Hi. split; [done|]. split; [exact Hs|].
  destruct (guest_box_isolation 4 demo_virq_of [] (Some 10) (fun s => s) true 1 true (slot_reg 0 VMBOX_DEV_IPC_EVENT) 3 demo_bw 10 (demo_vcpu 0 1 (Some 11) TASK_STATE_SUSPEND) r y w'
    (vmbox_steps_ok 4 demo_virq_of demo_shmem_of demo_bw0 demo_bw demo_bw0_ok demo_bw_steps) demo_bw_vdevs eq_refl ltac:(vm_compute; reflexivity) E) as (Hf & _ & l & El & _ & Hl).
  replace (sends (bx_log (w_dev demo_bw))) with ([] : list (option Z * Z)) in El by (vm_compute; reflexivity). rewrite app_nil_l in El. cbn in Hs. rewrite Hs in El. subst l.
  destruct (Hl (Some 2) 40 ltac:(by apply list_elem_of_singleton)) as (p & [= <-] & Hp). split; [exact Hp|]. split; [exact Hf|exact Hi].
Defined.

Lemma demo_bw_link : ipc_link 401 0 402 0 302 303 2 40 ∅ (w_dev demo_bw).
Proof.
  split.
  - eexists. split; [vm_compute; reflexivity|done].
  - eexists. split; [vm_compute; reflexivity|done].
  - eexists. split; [vm_compute; reflexivity|done].
  - done.
  - split. eexists. split; [vm_compute; reflexivity|]. split; [done|]. split; [done|]. split; [done|]. split; [|vm_compute; by eexists].
    intros e. cbn. rewrite Z.bits_0. symmetry. by apply bool_decide_eq_false, not_elem_of_empty.
Qed.

(** Two events, one of them twice, a read, and one more event. *)
Lemma vmbox_ipc_refines_sets_witness : exists ys w', ipc_run demo_virq_of 401 0 402 0 [Post 3; Post 31; Post 3; Take; Post 3] demo_bw = Some (ys, w') /\
  sends (bx_log (w_dev w')) = [(Some 2, 40); (Some 2, 40); (Some 2, 40)] /\ ys = [0x80000008].
Proof.
  pose proof (vmbox_ipc_refines_sets demo_virq_of 401 0 402 0 302 303 2 40 [Post 3; Post 31; Post 3; Take; Post 3] ∅ demo_bw demo_bw_link) as H.
  destruct H as (ys & w' & E & _ & Es & _); [repeat constructor; intros e; try intros [= <-]; done|].
  exists ys, w'. split; [exact E|]. split; [rewrite Es; vm_compute; reflexivity|].
  assert (fst <$> Some (ys, w') = Some [0x80000008]) as Hy by (rewrite <- E; vm_compute; reflexivity). by injection Hy as ->.
Defined.

Lemma vmbox_memory_fits_witness : VMBOX_IPC_ALL_ENTRY_SIZE + 2 * ring_bytes 16 + 16 * 512 * 2 <= PAGE_BALIGN (get_vmbox_iomem_size (mk_vmbox_info (1, 2) (0, 0) 2 16 512 0 0 EmptyString)).
Proof.
  destruct (vmbox_memory_fits (mk_vmbox_info (1, 2) (0, 0) 2 16 512 0 0 EmptyString)) as (_ & H1 & _ & H2 & _); [done..|]. cbn [vi_vring_num vi_vqs vi_vring_size] in H1, H2. lia.
Defined.
