(* ===== verification/Vtimer.v ===== *)
(** * Time and the timers of a vcpu (core/stdlib.c, include/minos/time.h,
      arch/aarch64/virt/vtimer.c)

    The conversion between counter ticks and nanoseconds, and the virtual and
    the emulated physical timer of a vcpu.  The contexts of the vcpus are
    [vt_ctx], by the address of the vcpu; the counter registers of the CPU are
    [vt_regs]; the software timers are the ones of Timer.v, by the number in
    [vt_timer].  The counter is the argument [ticks] of the functions that read
    it.  [vt_log] records what is sent to the vcpus. *)
From S2P Require Import Prelude Bitops Sched Timer Trap.

(** ** Time *)
Definition SYSTEM_TIME_HZ : Z := 1000000000.
Definition SECONDS (s : Z) : Z := u64 (s * 1000000000).

(** [(a * b) / c] with a 96 bit intermediate result: [a] is 64 bits wide, [b]
    and [c] 32 bits.  A division by zero is [None]. *)
Definition muldiv64 (a b c : Z) : option Z :=
  let rl := u64 (Z.land a 0xffffffff * b) in
  let rh := u64 (Z.shiftr a 32 * b) in
  let rh := u64 (rh + Z.shiftr rl 32) in
  if c =? 0 then None
  else
    let high := u32 (rh / c) in
    let low := u32 (u64 (u64 (Z.shiftl (rh mod c) 32) + Z.land rl 0xffffffff) / c) in
    Some (Z.lor (Z.shiftl high 32) low).

Section vtimer.
Context (cpu_khz boot_tick : Z).

Definition ticks_to_ns (ticks : Z) : option Z := muldiv64 ticks (u32 (SECONDS 1)) (u32 (1000 * cpu_khz)).
Definition ns_to_ticks (ns : Z) : option Z := muldiv64 ns (u32 (1000 * cpu_khz)) (u32 (SECONDS 1)).

Definition get_current_time (cntpct : Z) : option Z := ticks_to_ns (u64 (cntpct - boot_tick)).
Definition get_sys_time (cntpct : Z) : option Z := ticks_to_ns cntpct.

(** The deadline of the comparator; the time 0 switches it off. *)
Definition arch_enable_timer (expires : Z) : option (option Z) :=
  if expires =? 0 then Some None else d ← ns_to_ticks expires; Some (Some d).

(** ** The timers of a vcpu *)
Definition CNT_CTL_ISTATUS : Z := Z.shiftl 1 2.
Definition CNT_CTL_IMASK : Z := Z.shiftl 1 1.
Definition CNT_CTL_ENABLE : Z := Z.shiftl 1 0.

Record vtimer := mk_vtimer {
  vt_vcpu : Z;
  vt_timer : Z;
  vt_virq : Z;
  cnt_ctl : Z;
  cnt_cval : Z;
}.

Record vtimer_context := mk_vtimer_context {
  phy_timer : vtimer;
  virt_timer : vtimer;
  vt_offset : Z;
}.

(** CNTVOFF_EL2, CNTV_CVAL_EL0 and CNTV_CTL_EL0 of the CPU. *)
Record counter := mk_counter { CNTVOFF : Z; CNTV_CVAL : Z; CNTV_CTL : Z }.

Inductive vt_call :=
| vt_send_virq (vcpu virq : Z)
| vt_wake (vcpu : Z)
| vt_clear_pending (vcpu virq : Z).

(** What the functions see of the VM of a vcpu: its time offset, its timer
    interrupt, and that [phy_timer_trap] is installed. *)
Record vt_vm := mk_vt_vm { time_offset : Z; vtimer_virq : Z; os_is_xnu : bool; has_trap : bool }.

Record vtw := mk_vtw {
  vt_ctx : gmap Z vtimer_context;
  vt_regs : counter;
  vt_ts : tstate;
  vt_vms : gmap Z vt_vm;
  vt_log : list vt_call;
}.

Definition set_cnt_ctl (x : Z) (v : vtimer) : vtimer := mk_vtimer (vt_vcpu v) (vt_timer v) (vt_virq v) x (cnt_cval v).
Definition set_cnt_cval (x : Z) (v : vtimer) : vtimer := mk_vtimer (vt_vcpu v) (vt_timer v) (vt_virq v) (cnt_ctl v) x.
Definition set_phy (v : vtimer) (c : vtimer_context) : vtimer_context := mk_vtimer_context v (virt_timer c) (vt_offset c).
Definition set_virt (v : vtimer) (c : vtimer_context) : vtimer_context := mk_vtimer_context (phy_timer c) v (vt_offset c).
Definition put_ctx (p : Z) (c : vtimer_context) (w : vtw) : vtw := mk_vtw (<[p := c]> (vt_ctx w)) (vt_regs w) (vt_ts w) (vt_vms w) (vt_log w).
Definition set_regs (r : counter) (w : vtw) : vtw := mk_vtw (vt_ctx w) r (vt_ts w) (vt_vms w) (vt_log w).
Definition set_ts (s : tstate) (w : vtw) : vtw := mk_vtw (vt_ctx w) (vt_regs w) s (vt_vms w) (vt_log w).
Definition put_vt_vm (p : Z) (m : vt_vm) (w : vtw) : vtw := mk_vtw (vt_ctx w) (vt_regs w) (vt_ts w) (<[p := m]> (vt_vms w)) (vt_log w).
Definition vlog (c : vt_call) (w : vtw) : vtw := mk_vtw (vt_ctx w) (vt_regs w) (vt_ts w) (vt_vms w) (vt_log w ++ [c]).

Definition stop (t : Z) (w : vtw) : option vtw := s ← stop_timer t (vt_ts w); Some (set_ts s w).
Definition arm (cpu : nat) (ticks t ns : Z) (w : vtw) : option vtw :=
  now ← get_sys_time ticks; s ← mod_timer cpu now t ns (vt_ts w); Some (set_ts s w).

(** *** The handlers of the software timers *)
Definition phys_timer_expire_function (p : Z) (w : vtw) : option vtw :=
  c ← vt_ctx w !! p;
  let v := set_cnt_cval 0 (set_cnt_ctl (Z.lor (cnt_ctl (phy_timer c)) CNT_CTL_ISTATUS) (phy_timer c)) in
  let w := put_ctx p (set_phy v c) w in
  Some (if Z.land (cnt_ctl v) CNT_CTL_IMASK =? 0 then vlog (vt_send_virq (vt_vcpu v) (vt_virq v)) w else w).

Definition virt_timer_expire_function (p : Z) (w : vtw) : option vtw :=
  c ← vt_ctx w !! p; Some (vlog (vt_wake (vt_vcpu (virt_timer c))) w).

(** *** Switching vcpus *)
Definition vtimer_state_restore (p : Z) (w : vtw) : option vtw :=
  c ← vt_ctx w !! p;
  w ← stop (vt_timer (virt_timer c)) w;
  Some (set_regs (mk_counter (vt_offset c) (cnt_cval (virt_timer c)) (cnt_ctl (virt_timer c))) w).

(** [state] is the state of the task of the vcpu. *)
Definition vtimer_state_save (cpu : nat) (ticks p state : Z) (w : vtw) : option vtw :=
  c ← vt_ctx w !! p;
  let v := set_cnt_ctl (CNTV_CTL (vt_regs w)) (set_cnt_cval (CNTV_CVAL (vt_regs w)) (virt_timer c)) in
  let w := put_ctx p (set_virt v c) (set_regs (mk_counter (CNTVOFF (vt_regs w)) (CNTV_CVAL (vt_regs w)) 0) w) in
  if (state =? TASK_STATE_STOP) || (state =? TASK_STATE_SUSPEND) then Some w
  else if negb (Z.land (cnt_ctl v) CNT_CTL_ENABLE =? 0) && (Z.land (cnt_ctl v) CNT_CTL_IMASK =? 0)
  then ns ← ticks_to_ns (u64 (cnt_cval v + vt_offset c - boot_tick)); arm cpu ticks (vt_timer v) ns w
  else Some w.

(** The function numbers of the two handlers. *)
Definition VIRT_TIMER_EXPIRE : Z := 1.
Definition PHYS_TIMER_EXPIRE : Z := 2.

(** [vid] is the number of the vcpu in its VM [q]; [tp] and [tv] are the timer
    objects inside of the context. *)
Definition vtimer_state_init (ticks p vid q tp tv : Z) (w : vtw) : option vtw :=
  m ← vt_vms w !! q;
  let w := if vid =? 0 then put_vt_vm q (mk_vt_vm ticks (vtimer_virq m) (os_is_xnu m) true) w else w in
  m ← vt_vms w !! q;
  s ← init_timer tv VIRT_TIMER_EXPIRE p (vt_ts w);
  s ← init_timer tp PHYS_TIMER_EXPIRE p s;
  Some (put_ctx p (mk_vtimer_context (mk_vtimer p tp 26 0 0) (mk_vtimer p tv (vtimer_virq m) 0 0) (time_offset m)) (set_ts s w)).

Definition vtimer_state_stop (p : Z) (w : vtw) : option vtw :=
  c ← vt_ctx w !! p; w ← stop (vt_timer (virt_timer c)) w; stop (vt_timer (phy_timer c)) w.

(** *** The physical timer, as the guest accesses it *)

(** [vf] says that a virtual fast interrupt is pending. *)
Definition asoc_handle_cntp_ctl (vf : bool) (p : Z) (v : vtimer) (c : vtimer_context) (w : vtw) : vtw :=
  if negb (Z.land (cnt_ctl v) CNT_CTL_ISTATUS =? 0) && vf
  then vlog (vt_clear_pending p (vt_virq v)) (put_ctx p (set_phy (set_cnt_ctl (Z.land (cnt_ctl v) (not64 CNT_CTL_ISTATUS)) v) c) w) else w.

Definition vtimer_handle_cntp_ctl (cpu : nat) (ticks : Z) (xnu vf : bool) (p : Z) (read : bool) (value : Z) (w : vtw) : option (Z * vtw) :=
  c ← vt_ctx w !! p;
  let v := phy_timer c in
  if read then Some (cnt_ctl v, if xnu then asoc_handle_cntp_ctl vf p v c w else w)
  else
    let x := Z.land (u32 value) (not64 CNT_CTL_ISTATUS) in
    let x := if negb (Z.land x CNT_CTL_ENABLE =? 0) then Z.lor x (Z.land (cnt_ctl v) CNT_CTL_ISTATUS) else x in
    let v := set_cnt_ctl x v in
    let w := put_ctx p (set_phy v c) w in
    w ← (if negb (Z.land x CNT_CTL_ENABLE =? 0) && negb (cnt_cval v =? 0)
         then ns ← ticks_to_ns (u64 (cnt_cval v + vt_offset c)); arm cpu ticks (vt_timer v) ns w
         else stop (vt_timer v) w);
    Some (value, w).

(** The new compare value; an enabled timer is armed for it. *)
Definition set_compare (cpu : nat) (ticks p cval : Z) (c : vtimer_context) (w : vtw) : option vtw :=
  let v := set_cnt_cval cval (phy_timer c) in
  if negb (Z.land (cnt_ctl v) CNT_CTL_ENABLE =? 0) then
    let v := set_cnt_ctl (Z.land (cnt_ctl v) (not64 CNT_CTL_ISTATUS)) v in
    ns ← ticks_to_ns (cnt_cval v);
    arm cpu ticks (vt_timer v) ns (put_ctx p (set_phy v c) w)
  else Some (put_ctx p (set_phy v c) w).

Definition vtimer_handle_cntp_tval (cpu : nat) (ticks p : Z) (read : bool) (value : Z) (w : vtw) : option (Z * vtw) :=
  c ← vt_ctx w !! p;
  let now := u64 (ticks - vt_offset c) in
  if read then Some (Z.land (u64 (cnt_cval (phy_timer c) - now - vt_offset c)) 0xffffffff, w)
  else w ← set_compare cpu ticks p (u64 (ticks + value)) c w; Some (value, w).

Definition vtimer_handle_cntp_cval (cpu : nat) (ticks p : Z) (read : bool) (value : Z) (w : vtw) : option (Z * vtw) :=
  c ← vt_ctx w !! p;
  if read then Some (u64 (cnt_cval (phy_timer c) - vt_offset c), w)
  else w ← set_compare cpu ticks p (u64 (value + vt_offset c)) c w; Some (value, w).

Definition arm_phy_timer_trap (cpu : nat) (ticks : Z) (xnu vf : bool) (p reg : Z) (read : bool) (value : Z) (w : vtw) : option (Z * Z * vtw) :=
  if reg =? ESR_SYSREG_CNTP_CTL_EL0 then '(v, w) ← vtimer_handle_cntp_ctl cpu ticks xnu vf p read value w; Some (0, v, w)
  else if reg =? ESR_SYSREG_CNTP_CVAL_EL0 then '(v, w) ← vtimer_handle_cntp_cval cpu ticks p read value w; Some (0, v, w)
  else if reg =? ESR_SYSREG_CNTP_TVAL_EL0 then '(v, w) ← vtimer_handle_cntp_tval cpu ticks p read value w; Some (0, v, w)
  else Some (0, value, w).

(** *** The interrupt of the virtual timer.  [cur] is the vcpu that runs and
    its VM, if a vcpu runs. *)
Definition virtual_timer_irq_handler (cur : option (Z * Z)) (w : vtw) : option vtw :=
  let r := vt_regs w in
  match cur with
  | None => Some (set_regs (mk_counter (CNTVOFF r) (CNTV_CVAL r) 0) w)
  | Some (p, q) =>
      if Z.land (CNTV_CTL r) CNT_CTL_ISTATUS =? 0 then Some w
      else
        m ← vt_vms w !! q;
        Some (vlog (vt_send_virq p (vtimer_virq m)) (set_regs (mk_counter (CNTVOFF r) (CNTV_CVAL r) (Z.lor (CNTV_CTL r) CNT_CTL_IMASK)) w))
  end.
End vtimer.

(** ** Time *)

(** The division of the 96 bit product. *)
Lemma muldiv64_ok a b c :
  0 <= a < 2 ^ 64 -> 0 <= b < 2 ^ 32 -> 0 < c < 2 ^ 32 -> muldiv64 a b c = Some (u64 (a * b / c)).
Proof.
  intros Ha Hb Hc. unfold muldiv64. rewrite (proj2 (Z.eqb_neq c 0)) by lia. f_equal.
  change 0xffffffff with (2 ^ 32 - 1). rewrite !land_pow_pred, !Z.shiftr_div_pow2 by lia.
  set (L := a mod 2 ^ 32). set (H := a / 2 ^ 32). assert (0 <= L < 2 ^ 32 /\ 0 <= H < 2 ^ 32 /\ a = H * 2 ^ 32 + L) as (HL & HH & Ea) by (unfold L, H; dlia).
  rewrite (u64_small (L * b)), (u64_small (H * b)) by nia. set (rl := L * b). assert (0 <= rl < 2 ^ 64) as Hrl by (unfold rl; nia).
  assert (0 <= rl / 2 ^ 32 < 2 ^ 32) as Hq by dlia. rewrite (u64_small (H * b + _)) by nia. set (rh := H * b + rl / 2 ^ 32).
  assert (a * b = rh * 2 ^ 32 + rl mod 2 ^ 32) as Eab by (unfold rh, rl in *; dlia).
  set (m := rl mod 2 ^ 32) in *. assert (0 <= m < 2 ^ 32) as Hm by (unfold m; dlia). pose proof (Z.mod_pos_bound rh c ltac:(lia)) as Hr.
  rewrite (Z.shiftl_mul_pow2 (rh mod c)) by lia. rewrite (u64_small (rh mod c * 2 ^ 32)), (u64_small (_ + m)) by lia.
  set (low := (rh mod c * 2 ^ 32 + m) / c). assert (0 <= low < 2 ^ 32) as Hlow.
  { unfold low. split; [apply Z.div_pos; lia|]. apply Z.div_lt_upper_bound; lia. }
  rewrite (u32_small low) by lia. replace (a * b / c) with (rh / c * 2 ^ 32 + low).
  - rewrite Z.lor_comm. rewrite <- (Z.mod_small low (2 ^ 32)) at 1 by lia. rewrite <- Z.land_ones by lia.
    pose proof (Z.add_lor_land (Z.land low (Z.ones 32)) (Z.shiftl (u32 (rh / c)) 32)) as E.
    assert (Z.land (Z.land low (Z.ones 32)) (Z.shiftl (u32 (rh / c)) 32) = 0) as E0.
    { apply Z.bits_inj'. intros n Hn. rewrite !Z.land_spec, Z.bits_0, Z.testbit_ones by lia. destruct (Z.ltb_spec n 32).
      - rewrite Z.shiftl_spec_low by lia. by rewrite andb_false_r.
      - by rewrite andb_false_r, andb_false_r. }
    rewrite E0, Z.add_0_r in E. rewrite E, Z.land_ones, Z.mod_small, Z.shiftl_mul_pow2 by lia. unfold u32, u64. dlia.
  - rewrite Eab. rewrite (Z.div_mod rh c) at 2 by lia. unfold low.
    replace ((c * (rh / c) + rh mod c) * 2 ^ 32 + m) with ((rh mod c * 2 ^ 32 + m) + (rh / c * 2 ^ 32) * c) by ring.
    rewrite Z.div_add by lia. ring.
Qed.

(** The product and quotient of muldiv64, computed from 32 bit halves, are
    those of the integers, cut to 64 bits: no carry of the 96 bit product is
    lost. *)
Theorem muldiv64_correct a b c :
  0 <= a < 2 ^ 64 -> 0 <= b < 2 ^ 32 -> 0 < c < 2 ^ 32 -> muldiv64 a b c = Some (u64 (a * b / c)).
Proof. apply muldiv64_ok. Qed.

Lemma muldiv64_correct_witness : muldiv64 0xfffffffffff 1000000000 62500000 = Some (u64 (0xfffffffffff * 1000000000 / 62500000)).
Proof. apply (muldiv64_correct 0xfffffffffff 1000000000 62500000); lia. Defined.

Section time.
Context (cpu_khz : Z) (Hkhz : 0 < 1000 * cpu_khz <= 1000000000).

Lemma freq_u32 : u32 (1000 * cpu_khz) = 1000 * cpu_khz /\ u32 (SECONDS 1) = 1000000000.
Proof. split; [rewrite u32_small; lia|done]. Qed.

Lemma ticks_to_ns_ok t : 0 <= t < 2 ^ 64 -> t * 1000000000 / (1000 * cpu_khz) < 2 ^ 64 ->
  ticks_to_ns cpu_khz t = Some (t * 1000000000 / (1000 * cpu_khz)).
Proof.
  intros Ht Hr. unfold ticks_to_ns. destruct freq_u32 as [-> ->]. rewrite muldiv64_ok by lia. f_equal. apply u64_small.
  split; [apply Z.div_pos; lia|done].
Qed.

Lemma ns_to_ticks_ok n : 0 <= n < 2 ^ 64 -> ns_to_ticks cpu_khz n = Some (n * (1000 * cpu_khz) / 1000000000).
Proof.
  intros Hn. unfold ns_to_ticks. destruct freq_u32 as [-> ->]. rewrite muldiv64_ok by lia. f_equal. apply u64_small.
  split; [apply Z.div_pos; lia|]. apply Z.div_lt_upper_bound; nia.
Qed.

(** A deadline in ticks that is kept as nanoseconds is given back to the
    comparator at most one tick early, and never late: a counter of at most
    1 GHz. *)
Theorem deadline_roundtrip t :
  0 <= t < 2 ^ 64 -> t * 1000000000 / (1000 * cpu_khz) < 2 ^ 64 ->
  exists ns d, ticks_to_ns cpu_khz t = Some ns /\ ns_to_ticks cpu_khz ns = Some d /\ t - 1 <= d <= t.
Proof.
  intros Ht Hr. eexists _, _. split; [by apply ticks_to_ns_ok|]. set (f := 1000 * cpu_khz) in *. set (ns := t * 1000000000 / f) in *.
  assert (0 <= ns) by (apply Z.div_pos; lia). split; [by apply ns_to_ticks_ok|].
  assert (t * 1000000000 = f * ns + (t * 1000000000) mod f /\ 0 <= (t * 1000000000) mod f < f) as [E1 E2].
  { split; [apply Z.div_mod; lia|apply Z.mod_pos_bound; lia]. }
  fold f. fold ns. set (m := (t * 1000000000) mod f) in *. clearbody ns m. clearbody f. split; [apply Z.div_le_lower_bound|apply Z.lt_succ_r, Z.div_lt_upper_bound]; nia.
Qed.
End time.

Lemma deadline_roundtrip_witness : exists ns d, ticks_to_ns 62500 1000001 = Some ns /\ ns_to_ticks 62500 ns = Some d /\ 1000001 - 1 <= d <= 1000001.
Proof. apply (deadline_roundtrip 62500 ltac:(lia) 1000001); [lia|vm_compute; reflexivity]. Defined.

(** ** The timers of a vcpu *)

(** The software timer of a vcpu can be stopped: it exists and its handler
    does not run. *)
Definition stoppable (t : Z) (s : tstate) : Prop :=
  timers_ok s /\ is_Some (tobjs s !! t) /\ forall c r, timers s !! c = Some r -> running_timer r <> Some t.

(** It can be armed on [cpu]: it is not armed on another CPU. *)
Definition armable (cpu : nat) (t : Z) (s : tstate) : Prop :=
  timers_ok s /\ (cpu < length (timers s))%nat /\ exists o, tobjs s !! t = Some o /\ (t_cpu o = -1 \/ t_cpu o = Z.of_nat cpu).

Definition enabled (ctl : Z) : bool := negb (Z.land ctl CNT_CTL_ENABLE =? 0) && (Z.land ctl CNT_CTL_IMASK =? 0).

Section switch.
Context (cpu_khz boot_tick : Z) (Hkhz : 0 < 1000 * cpu_khz <= 1000000000).

(** A time of the counter in nanoseconds. *)
Definition nanos (t : Z) : Z := t * 1000000000 / (1000 * cpu_khz).

Lemma arm_ok cpu ticks t ns w :
  armable cpu t (vt_ts w) -> 0 <= ticks < 2 ^ 64 -> nanos ticks < 2 ^ 61 -> 0 <= ns < 2 ^ 63 ->
  exists s' o, arm cpu_khz cpu ticks t ns w = Some (set_ts s' w) /\ timers_ok s' /\ tobjs s' !! t = Some o
    /\ armed cpu o /\ t_expires o = Z.max ns (nanos ticks + TIMER_PRECISION)
    /\ (forall u, u <> t -> tobjs s' !! u = tobjs (vt_ts w) !! u).
Proof.
  intros (Hk & Hl & o & Ho & Hc) Ht Hn Hns. unfold arm, get_sys_time. assert (0 <= nanos ticks) by (apply Z.div_pos; lia).
  rewrite ticks_to_ns_ok by (done || (fold (nanos ticks); lia)). cbn [mbind option_bind]. fold (nanos ticks).
  destruct (mod_timer_arms cpu (nanos ticks) t ns _ o Hk Ho Hc Hl ltac:(lia) Hns) as (s' & o' & E & Hk' & Ho' & He & Ha & Hu & _).
  rewrite E. by exists s', o'.
Qed.

(** A vcpu that leaves its CPU takes the registers of its virtual timer with
    it and leaves the comparator of the CPU off; its software timer is armed
    exactly when the virtual timer is enabled and not masked and the vcpu was
    not stopped or suspended, for the deadline of the guest, less the boot
    time, or for the precision of the timers from now. *)
Theorem vtimer_save_correct cpu ticks p state w c :
  vt_ctx w !! p = Some c -> armable cpu (vt_timer (virt_timer c)) (vt_ts w) -> 0 <= ticks < 2 ^ 64 -> nanos ticks < 2 ^ 61 ->
  let d := u64 (CNTV_CVAL (vt_regs w) + vt_offset c - boot_tick) in nanos d < 2 ^ 63 ->
  exists w', vtimer_state_save cpu_khz boot_tick cpu ticks p state w = Some w'
    /\ CNTV_CTL (vt_regs w') = 0 /\ vt_log w' = vt_log w /\ timers_ok (vt_ts w')
    /\ (exists c', vt_ctx w' !! p = Some c' /\ cnt_ctl (virt_timer c') = CNTV_CTL (vt_regs w) /\ cnt_cval (virt_timer c') = CNTV_CVAL (vt_regs w)
          /\ vt_timer (virt_timer c') = vt_timer (virt_timer c) /\ vt_offset c' = vt_offset c /\ phy_timer c' = phy_timer c)
    /\ (forall q, q <> p -> vt_ctx w' !! q = vt_ctx w !! q)
    /\ if enabled (CNTV_CTL (vt_regs w)) && negb ((state =? TASK_STATE_STOP) || (state =? TASK_STATE_SUSPEND))
       then exists o, tobjs (vt_ts w') !! vt_timer (virt_timer c) = Some o /\ armed cpu o
              /\ t_expires o = Z.max (nanos d) (nanos ticks + TIMER_PRECISION)
       else vt_ts w' = vt_ts w.
Proof.
  intros Hc Ha Ht Hn d Hd. unfold vtimer_state_save. rewrite Hc. cbn [mbind option_bind]. cbn [cnt_ctl cnt_cval vt_timer set_cnt_ctl set_cnt_cval].
  set (v := set_cnt_ctl _ _). set (w1 := put_ctx p (set_virt v c) _).
  assert (exists c', vt_ctx w1 !! p = Some c' /\ cnt_ctl (virt_timer c') = CNTV_CTL (vt_regs w) /\ cnt_cval (virt_timer c') = CNTV_CVAL (vt_regs w)
    /\ vt_timer (virt_timer c') = vt_timer (virt_timer c) /\ vt_offset c' = vt_offset c /\ phy_timer c' = phy_timer c) as Hc1.
  { eexists. split; [apply lookup_insert_eq|done]. }
  assert (forall q, q <> p -> vt_ctx w1 !! q = vt_ctx w !! q) as Hq by (intros q Hq; cbn; by rewrite lookup_insert_ne).
  assert (0 <= d < 2 ^ 64) as Hdr by apply u64_range. assert (0 <= nanos d) by (apply Z.div_pos; lia). pose proof Ha as (Hk & _).
  unfold enabled. destruct ((state =? TASK_STATE_STOP) || (state =? TASK_STATE_SUSPEND)); cbn [negb]; rewrite ?andb_false_r, ?andb_true_r; [by exists w1|].
  destruct (negb _ && _) eqn:Een; [|by exists w1]. fold d. rewrite ticks_to_ns_ok by (done || (fold (nanos d); lia)). cbn [mbind option_bind]. fold (nanos d).
  destruct (arm_ok cpu ticks (vt_timer (virt_timer c)) (nanos d) w1 Ha Ht Hn ltac:(lia)) as (s' & o & E & Hk' & Ho & Hao & Hex & _).
  rewrite E. exists (set_ts s' w1). split_and!; try done. by exists o.
Qed.

Lemma restore_ok p w c :
  vt_ctx w !! p = Some c -> stoppable (vt_timer (virt_timer c)) (vt_ts w) ->
  exists s', vtimer_state_restore p w = Some (set_regs (mk_counter (vt_offset c) (cnt_cval (virt_timer c)) (cnt_ctl (virt_timer c))) (set_ts s' w))
    /\ timers_ok s' /\ unlinked (vt_timer (virt_timer c)) (timers s').
Proof.
  intros Hc (Hk & [o Ho] & Hr). unfold vtimer_state_restore, stop. rewrite Hc. cbn [mbind option_bind].
  destruct (stop_timer_total _ _ o Hk Ho Hr) as (s' & E & He & _ & Hu). rewrite E. cbn [mbind option_bind]. exists s'. split; [done|].
  split; [apply (ef_ok _ _ _ _ He)|done].
Qed.

(** Switching a vcpu out and back in, whatever ran between, gives it back
    the counter offset, compare value and control word it had, and its
    software timer is on no list. *)
Theorem vtimer_switch_roundtrip cpu ticks p state w c w1 w2 :
  vt_ctx w !! p = Some c -> CNTVOFF (vt_regs w) = vt_offset c ->
  vtimer_state_save cpu_khz boot_tick cpu ticks p state w = Some w1 -> vt_ctx w2 !! p = vt_ctx w1 !! p ->
  stoppable (vt_timer (virt_timer c)) (vt_ts w2) ->
  exists w3, vtimer_state_restore p w2 = Some w3 /\ vt_regs w3 = vt_regs w /\ timers_ok (vt_ts w3)
    /\ unlinked (vt_timer (virt_timer c)) (timers (vt_ts w3)).
Proof.
  intros Hc Ho H Hsame Hs. assert (vt_ctx w1 !! p = Some (set_virt (set_cnt_ctl (CNTV_CTL (vt_regs w)) (set_cnt_cval (CNTV_CVAL (vt_regs w)) (virt_timer c))) c)) as H1.
  { unfold vtimer_state_save, arm in H. rewrite Hc in H. cbn [mbind option_bind] in H. repeat case_match; simplify_eq/=; try apply lookup_insert_eq.
    destruct (ticks_to_ns _ _); [|done]. cbn [mbind option_bind] in H. destruct (get_sys_time _ _); [|done]. cbn [mbind option_bind] in H.
    destruct (mod_timer _ _ _ _ _); [|done]. injection H as <-. apply lookup_insert_eq. }
  rewrite H1 in Hsame. destruct (restore_ok p w2 _ Hsame Hs) as (s' & E & Hk & Hu). eexists. split; [exact E|].
  cbn. rewrite <- Ho. by destruct (vt_regs w).
Qed.
End switch.

(** ** The physical timer of the guest *)
Section cntp.
Context (cpu_khz : Z) (Hkhz : 0 < 1000 * cpu_khz <= 1000000000).

Lemma set_compare_ok cpu ticks p cval c w :
  armable cpu (vt_timer (phy_timer c)) (vt_ts w) -> 0 <= ticks < 2 ^ 64 -> nanos cpu_khz ticks < 2 ^ 61 -> 0 <= cval < 2 ^ 64 -> nanos cpu_khz cval < 2 ^ 63 ->
  exists w' v, set_compare cpu_khz cpu ticks p cval c w = Some w' /\ vt_ctx w' !! p = Some (set_phy v c) /\ cnt_cval v = cval
    /\ if negb (Z.land (cnt_ctl (phy_timer c)) CNT_CTL_ENABLE =? 0)
       then cnt_ctl v = Z.land (cnt_ctl (phy_timer c)) (not64 CNT_CTL_ISTATUS)
            /\ exists o, tobjs (vt_ts w') !! vt_timer (phy_timer c) = Some o /\ armed cpu o
                 /\ t_expires o = Z.max (nanos cpu_khz cval) (nanos cpu_khz ticks + TIMER_PRECISION)
       else cnt_ctl v = cnt_ctl (phy_timer c) /\ vt_ts w' = vt_ts w.
Proof.
  intros Ha Ht Hn Hc Hd. unfold set_compare. cbn [cnt_ctl cnt_cval vt_timer set_cnt_ctl set_cnt_cval]. destruct (negb _).
  - assert (0 <= nanos cpu_khz cval) by (apply Z.div_pos; lia). rewrite ticks_to_ns_ok by (done || (fold (nanos cpu_khz cval); lia)). cbn [mbind option_bind]. fold (nanos cpu_khz cval).
    set (v := set_cnt_ctl _ _). set (w1 := put_ctx p (set_phy v c) w).
    destruct (arm_ok cpu_khz Hkhz cpu ticks (vt_timer (phy_timer c)) (nanos cpu_khz cval) w1 Ha Ht Hn ltac:(lia)) as (s' & o & E & Hk' & Ho & Hao & Hex & _).
    rewrite E. eexists _, v. split; [done|]. split; [apply lookup_insert_eq|]. split; [done|]. split; [done|]. by exists o.
  - eexists _, _. split; [done|]. split; [apply lookup_insert_eq|done].
Qed.

(** The absolute time a write of the compare or of the timer value means. *)
Definition cntp_deadline (cval : bool) (ticks value : Z) (c : vtimer_context) : Z :=
  if cval then u64 (value + vt_offset c) else u64 (ticks + value).

(** A guest that writes the compare value of its physical timer, or the time
    that is left, reads back, at any later time, the compare value it wrote and
    the time that is left of it; if the timer is enabled the software timer is
    armed for that time, and the interrupt status is cleared. *)
Theorem cntp_compare_roundtrip (xnu vf cval : bool) cpu ticks p value w c :
  vt_ctx w !! p = Some c -> armable cpu (vt_timer (phy_timer c)) (vt_ts w) -> 0 <= ticks < 2 ^ 64 -> nanos cpu_khz ticks < 2 ^ 61 ->
  let d := cntp_deadline cval ticks value c in nanos cpu_khz d < 2 ^ 63 ->
  exists w', arm_phy_timer_trap cpu_khz cpu ticks xnu vf p (if cval then ESR_SYSREG_CNTP_CVAL_EL0 else ESR_SYSREG_CNTP_TVAL_EL0) false value w = Some (0, value, w')
    /\ (forall later old, arm_phy_timer_trap cpu_khz cpu later xnu vf p ESR_SYSREG_CNTP_CVAL_EL0 true old w' = Some (0, u64 (d - vt_offset c), w'))
    /\ (forall later old, arm_phy_timer_trap cpu_khz cpu later xnu vf p ESR_SYSREG_CNTP_TVAL_EL0 true old w' = Some (0, u32 (d - later), w'))
    /\ (negb (Z.land (cnt_ctl (phy_timer c)) CNT_CTL_ENABLE =? 0) = true ->
        exists c' o, vt_ctx w' !! p = Some c' /\ Z.land (cnt_ctl (phy_timer c')) CNT_CTL_ISTATUS = 0
          /\ tobjs (vt_ts w') !! vt_timer (phy_timer c) = Some o /\ armed cpu o
          /\ t_expires o = Z.max (nanos cpu_khz d) (nanos cpu_khz ticks + TIMER_PRECISION)).
Proof.
  intros Hc Ha Ht Hn d Hd. assert (0 <= d < 2 ^ 64) as Hdr by (unfold d, cntp_deadline; destruct cval; apply u64_range).
  destruct (set_compare_ok cpu ticks p d c w Ha Ht Hn Hdr Hd) as (w' & v & E & Hc' & Hv & Hen). exists w'. split_and!.
  - unfold arm_phy_timer_trap, vtimer_handle_cntp_cval, vtimer_handle_cntp_tval. destruct cval; cbn [Z.eqb]; rewrite Hc; cbn [mbind option_bind].
    + replace (u64 (value + vt_offset c)) with d by done. by rewrite E.
    + replace (u64 (ticks + value)) with d by done. by rewrite E.
  - intros later old. unfold arm_phy_timer_trap, vtimer_handle_cntp_cval. cbn [Z.eqb]. rewrite Hc'. cbn [mbind option_bind phy_timer set_phy vt_offset]. by rewrite Hv.
  - intros later old. unfold arm_phy_timer_trap, vtimer_handle_cntp_tval. cbn [Z.eqb]. rewrite Hc'. cbn [mbind option_bind phy_timer set_phy vt_offset].
    rewrite Hv. do 3 f_equal. change 0xffffffff with (2 ^ 32 - 1). rewrite land_pow_pred by lia. unfold u64, u32. dlia.
  - intros He. rewrite He in Hen. destruct Hen as (Hctl & o & Ho & Hao & Hex). exists (set_phy v c), o. split; [done|]. split; [|done].
    cbn [phy_timer set_phy]. rewrite Hctl, <- Z.land_assoc. by rewrite (eq_refl : Z.land (not64 CNT_CTL_ISTATUS) CNT_CTL_ISTATUS = 0), Z.land_0_r.
Qed.
End cntp.

(** ** A concrete vcpu, on a counter of 62.5 MHz that ran before the boot *)
Definition vt_objs : gmap Z timer := <[10 := mk_timer (-1) 0 0 0 VIRT_TIMER_EXPIRE 1 false None]> {[11 := mk_timer (-1) 0 0 0 PHYS_TIMER_EXPIRE 1 false None]}.
Definition vt_demo (ctl : Z) : vtw :=
  mk_vtw {[1 := mk_vtimer_context (mk_vtimer 1 11 26 ctl 0) (mk_vtimer 1 10 27 0 0) 125000000]}
         (mk_counter 125000000 62500000 1) (init_raw_timers 1 vt_objs) ∅ [].

Lemma vt_objs_cases t o : vt_objs !! t = Some o -> t_entry o = false /\ obj_ok 1 o.
Proof.
  unfold vt_objs. intros [[<- <-]|[_ [<- <-]%lookup_singleton_Some]]%lookup_insert_Some; (split; [done|]); split; cbn; [lia|by left|lia|by left].
Qed.

Lemma vt_demo_armable ctl t : t = 10 \/ t = 11 -> armable 0 t (vt_ts (vt_demo ctl)).
Proof.
  intros Ht. split; [apply init_raw_timers_ok, vt_objs_cases|]. split; [cbn; lia|].
  destruct Ht as [-> | ->]; (eexists; split; [vm_compute; reflexivity|by left]).
Qed.

Lemma vtimer_save_correct_witness :
  exists w' o, vtimer_state_save 62500 62500000 0 130000000 1 TASK_STATE_WAIT_EVENT (vt_demo 0) = Some w'
    /\ tobjs (vt_ts w') !! 10 = Some o /\ t_expires o = 2081000000.
Proof.
  destruct (vtimer_save_correct 62500 62500000 ltac:(lia) 0 130000000 1 TASK_STATE_WAIT_EVENT (vt_demo 0)
    (mk_vtimer_context (mk_vtimer 1 11 26 0 0) (mk_vtimer 1 10 27 0 0) 125000000)) as (w' & E & _ & _ & _ & _ & _ & o & Ho & _ & He);
    [by vm_compute|by apply vt_demo_armable; left|lia|by vm_compute|by vm_compute|].
  exists w', o. split; [exact E|]. split; [exact Ho|]. rewrite He. by vm_compute.
Defined.

Lemma vtimer_switch_roundtrip_witness :
  exists w1 w3, vtimer_state_save 62500 62500000 0 130000000 1 TASK_STATE_STOP (vt_demo 0) = Some w1
    /\ vtimer_state_restore 1 w1 = Some w3 /\ vt_regs w3 = mk_counter 125000000 62500000 1.
Proof.
  destruct (vtimer_state_save 62500 62500000 0 130000000 1 TASK_STATE_STOP (vt_demo 0)) as [w1|] eqn:E; [|by vm_compute in E].
  assert (vt_ts w1 = vt_ts (vt_demo 0)) as Hts by (vm_compute in E; by injection E as <-).
  destruct (vtimer_switch_roundtrip 62500 62500000 0 130000000 1 TASK_STATE_STOP (vt_demo 0) (mk_vtimer_context (mk_vtimer 1 11 26 0 0) (mk_vtimer 1 10 27 0 0) 125000000)
    w1 w1) as (w3 & E3 & Hr & _); [by vm_compute|done|exact E|done| |by exists w1, w3].
  rewrite Hts. split; [apply init_raw_timers_ok, vt_objs_cases|]. split; [eexists; by vm_compute|].
  intros [|[|c]] r Hr; [injection Hr as <-; by intros H|done|done].
Defined.

Lemma cntp_compare_roundtrip_witness :
  exists w', arm_phy_timer_trap 62500 0 130000000 false false 1 ESR_SYSREG_CNTP_CVAL_EL0 false 70000000 (vt_demo 1) = Some (0, 70000000, w')
    /\ arm_phy_timer_trap 62500 0 140000000 false false 1 ESR_SYSREG_CNTP_CVAL_EL0 true 0 w' = Some (0, 70000000, w')
    /\ arm_phy_timer_trap 62500 0 140000000 false false 1 ESR_SYSREG_CNTP_TVAL_EL0 true 0 w' = Some (0, 55000000, w').
Proof.
  destruct (cntp_compare_roundtrip 62500 ltac:(lia) false false true 0 130000000 1 70000000 (vt_demo 1)
    (mk_vtimer_context (mk_vtimer 1 11 26 1 0) (mk_vtimer 1 10 27 0 0) 125000000)) as (w' & E & Hc & Ht & _);
    [by vm_compute|by apply vt_demo_armable; right|lia|by vm_compute|by vm_compute|].
  exists w'. split; [exact E|]. split; [apply Hc|apply Ht].
Defined.

(** The compare value that is kept is absolute, but enabling the timer adds the
    offset of the VM again: the timer of a guest that writes the compare value
    and then enables the timer, as Linux does, is set too late. *)
Lemma cntp_enable_adds_offset_twice :
  exists w1 w2 o, vtimer_handle_cntp_cval 62500 0 130000000 1 false 70000000 (vt_demo 0) = Some (70000000, w1)
    /\ vtimer_handle_cntp_ctl 62500 0 130000000 false false 1 false CNT_CTL_ENABLE w1 = Some (CNT_CTL_ENABLE, w2)
    /\ tobjs (vt_ts w2) !! 11 = Some o /\ t_expires o = nanos 62500 (70000000 + 2 * 125000000).
Proof. do 3 eexists. split; [by vm_compute|]. split; [by vm_compute|]. split; by vm_compute. Qed.

(** When the timer expires the compare value is lost: the guest then reads the
    negative offset of its VM. *)
Lemma cntp_expiry_loses_compare :
  exists w1 w2, vtimer_handle_cntp_cval 62500 0 130000000 1 false 70000000 (vt_demo 1) = Some (70000000, w1)
    /\ phys_timer_expire_function 1 w1 = Some w2
    /\ vtimer_handle_cntp_cval 62500 0 210000000 1 true 0 w2 = Some (2 ^ 64 - 125000000, w2).
Proof. do 2 eexists. split; [by vm_compute|]. split; [by vm_compute|]. by vm_compute. Qed.
