(* ===== verification/Virtio.v ===== *)
(** * Virtio over MMIO (virt/virtio_mmio.c)

    The registers of a virtio device are a page of shared memory that the host
    VM reads and writes; the guest maps it read-only, so that its writes come
    to [virtio_mmio_write].  The device is a virtual device of Vdev.v whose
    state here is [vio]: the words of the memory, by address, and the address
    of the page of each device.  The answers of the allocators and of the
    mappings are arguments; the calls are kept in [vio_log]. *)
From S2P Require Import Prelude Bitops Stage2 VmmArea Vmm Sched Task Vm VmPm Vdev.

Definition VIRTIO_MMIO_HOST_FEATURES : Z := 0x010.
Definition VIRTIO_MMIO_HOST_FEATURES_SEL : Z := 0x014.
Definition VIRTIO_MMIO_GUEST_FEATURES : Z := 0x020.
Definition VIRTIO_MMIO_GUEST_FEATURES_SEL : Z := 0x024.
Definition VIRTIO_MMIO_GUEST_PAGE_SIZE : Z := 0x028.
Definition VIRTIO_MMIO_QUEUE_SEL : Z := 0x030.
Definition VIRTIO_MMIO_QUEUE_NUM_MAX : Z := 0x034.
Definition VIRTIO_MMIO_QUEUE_NUM : Z := 0x038.
Definition VIRTIO_MMIO_QUEUE_ALIGN : Z := 0x03c.
Definition VIRTIO_MMIO_QUEUE_READY : Z := 0x044.
Definition VIRTIO_MMIO_QUEUE_PFN : Z := 0x040.
Definition VIRTIO_MMIO_QUEUE_NOTIFY : Z := 0x050.
Definition VIRTIO_MMIO_INTERRUPT_STATUS : Z := 0x060.
Definition VIRTIO_MMIO_INTERRUPT_ACK : Z := 0x064.
Definition VIRTIO_MMIO_STATUS : Z := 0x070.
Definition VIRTIO_MMIO_QUEUE_DESC_LOW : Z := 0x080.
Definition VIRTIO_MMIO_QUEUE_DESC_HIGH : Z := 0x084.
Definition VIRTIO_MMIO_QUEUE_AVAIL_LOW : Z := 0x090.
Definition VIRTIO_MMIO_QUEUE_AVAIL_HIGH : Z := 0x094.
Definition VIRTIO_MMIO_QUEUE_USED_LOW : Z := 0x0a0.
Definition VIRTIO_MMIO_QUEUE_USED_HIGH : Z := 0x0a4.
Definition VIRTIO_MMIO_HOST_FEATURE0 : Z := 0x308.
Definition VIRTIO_MMIO_DRIVER_FEATURE0 : Z := 0x318.
Definition VIRTIO_DEVICE_IOMEM_SIZE : Z := 0x1000.
Definition VM_RO : Z := __VM_RO.

(** The numbers of the operations of a virtio device. *)
Definition VIRTIO_READ_FN : Z := 0x200.
Definition VIRTIO_WRITE_FN : Z := 0x201.
Definition VIRTIO_DEINIT_FN : Z := 0x202.
Definition VIRTIO_RESET_FN : Z := 0x203.

Inductive vio_call :=
| vi_request_virq (p irq flags : Z)
| vi_alloc_shmem (pages : Z)
| vi_free_shmem (a : Z)
| vi_hvm_map (p a size : Z)
| vi_guest_map (p gbase a size flags : Z).

Record vio := mk_vio { vio_mem : gmap Z Z; vio_iomem : gmap Z Z; vio_log : list vio_call }.

Definition ioread32 (a : Z) (x : vio) : Z := default 0 (vio_mem x !! a).
Definition iowrite32 (v a : Z) (x : vio) : vio := mk_vio (<[a := v]> (vio_mem x)) (vio_iomem x) (vio_log x).
Definition vi_log (c : vio_call) (x : vio) : vio := mk_vio (vio_mem x) (vio_iomem x) (vio_log x ++ [c]).
Definition set_vio_iomem (y : gmap Z Z) (x : vio) : vio := mk_vio (vio_mem x) y (vio_log x).

(** [memset(a, 0, 4 * n)]. *)
Fixpoint zero_words (n : nat) (a : Z) (x : vio) : vio :=
  match n with O => x | S n => zero_words n (a + 4) (iowrite32 0 a x) end.

Section virtio.
Context (current : option Z) (relax : hv -> hv) (send_ok : bool).
Implicit Type w : vdw vio.

Definition wr (v a : Z) w : vdw vio := set_dev (iowrite32 v a (w_dev w)) w.

(** [trap_mmio_write] and [trap_mmio_write_nonblock]. *)
Definition trap_mmio_write (fuel : nat) (nonblock : bool) (address value : Z) w : option (Z * vdw vio) :=
  '(_, res, s) ← __vcpu_trap current relax send_ok fuel VMTRAP_TYPE_MMIO VMTRAP_REASON_WRITE address (Some value) nonblock (w_hv w);
  Some (default value res, set_hv s w).

Definition virtio_mmio_read (d idx offset value : Z) w : option (Z * Z * vdw vio) := Some (0, value, w).

Definition clear_queue (iomem : Z) w : vdw vio :=
  wr 0 (iomem + VIRTIO_MMIO_QUEUE_USED_HIGH) (wr 0 (iomem + VIRTIO_MMIO_QUEUE_USED_LOW)
  (wr 0 (iomem + VIRTIO_MMIO_QUEUE_AVAIL_HIGH) (wr 0 (iomem + VIRTIO_MMIO_QUEUE_AVAIL_LOW)
  (wr 0 (iomem + VIRTIO_MMIO_QUEUE_DESC_HIGH) (wr 0 (iomem + VIRTIO_MMIO_QUEUE_DESC_LOW)
  (wr 0 (iomem + VIRTIO_MMIO_QUEUE_NUM) (wr 0 (iomem + VIRTIO_MMIO_QUEUE_READY) w))))))).

(** The registers that just take the value. *)
Definition plain (offset : Z) : bool :=
  existsb (Z.eqb offset)
    [VIRTIO_MMIO_GUEST_FEATURES_SEL; VIRTIO_MMIO_GUEST_PAGE_SIZE; VIRTIO_MMIO_QUEUE_NUM; VIRTIO_MMIO_QUEUE_ALIGN; VIRTIO_MMIO_QUEUE_PFN;
     VIRTIO_MMIO_QUEUE_DESC_LOW; VIRTIO_MMIO_QUEUE_AVAIL_LOW; VIRTIO_MMIO_QUEUE_USED_LOW;
     VIRTIO_MMIO_QUEUE_DESC_HIGH; VIRTIO_MMIO_QUEUE_USED_HIGH; VIRTIO_MMIO_QUEUE_AVAIL_HIGH].

(** The result is the return value and [*write_value].  A queue that is larger
    than the device allows is only reported. *)
Definition virtio_mmio_write (fuel : nat) (d idx offset write_value : Z) w : option (Z * Z * vdw vio) :=
  va ← vdev_get_vmm_area d idx w;
  iomem ← vio_iomem (w_dev w) !! d;
  let value := u32 write_value in
  let address := u64 (va_start va + offset) in
  let rd a := ioread32 a (w_dev w) in
  if offset =? VIRTIO_MMIO_HOST_FEATURES then Some (0, write_value, w)
  else if offset =? VIRTIO_MMIO_HOST_FEATURES_SEL then
    if 3 <? value then Some (0, write_value, w)
    else Some (0, write_value, wr (rd (iomem + VIRTIO_MMIO_HOST_FEATURE0 + value * 4)) (iomem + VIRTIO_MMIO_HOST_FEATURES) w)
  else if offset =? VIRTIO_MMIO_GUEST_FEATURES then
    let tmp := u32 (rd (iomem + VIRTIO_MMIO_GUEST_FEATURES_SEL) * 4 + VIRTIO_MMIO_DRIVER_FEATURE0) in
    Some (0, write_value, wr value (iomem + tmp) w)
  else if offset =? VIRTIO_MMIO_QUEUE_SEL then
    Some (0, write_value, clear_queue iomem (wr value (iomem + VIRTIO_MMIO_QUEUE_SEL) w))
  else if plain offset then Some (0, write_value, wr value (iomem + offset) w)
  else if offset =? VIRTIO_MMIO_QUEUE_NOTIFY then
    '(v, w) ← trap_mmio_write fuel true address write_value w; Some (0, v, w)
  else if offset =? VIRTIO_MMIO_STATUS then
    let value := u32 (value - rd (iomem + VIRTIO_MMIO_STATUS)) in
    '(v, w) ← trap_mmio_write fuel false address value (wr value (iomem + VIRTIO_MMIO_STATUS) w); Some (0, v, w)
  else if offset =? VIRTIO_MMIO_QUEUE_READY then
    '(v, w) ← trap_mmio_write fuel false address (rd (iomem + VIRTIO_MMIO_QUEUE_SEL)) w; Some (0, v, w)
  else if offset =? VIRTIO_MMIO_INTERRUPT_ACK then
    Some (0, write_value, wr 0 (iomem + VIRTIO_MMIO_INTERRUPT_STATUS) (wr 0 (iomem + VIRTIO_MMIO_INTERRUPT_ACK) w))
  else '(v, w) ← trap_mmio_write fuel false address write_value w; Some (0, v, w).

Definition release_virtio_dev (d : option Z) w : option (vdw vio) :=
  match d with
  | None => Some w
  | Some d => w ← vdev_release d w; Some (set_dev (set_vio_iomem (delete d (vio_iomem (w_dev w))) (w_dev w)) (drop_vdev d w))
  end.

Definition virtio_dev_deinit (d : Z) w : option (vdw vio) := release_virtio_dev (Some d) w.

(** [dt] is the address, size and interrupt in the device tree, if all are
    there; [a] the address that [zalloc] returns; [pa] what
    [translate_guest_ipa] gives for the base. *)
Definition virtio_create_device (p : Z) (dt : option (Z * Z * Z)) (a : option Z) (pa : Z + Z) (oks : list bool) w : option (option Z * list bool * vdw vio) :=
  match dt, a with
  | Some (base, size, irq), Some d =>
      if size =? 0 then Some (None, oks, w)
      else
        let w := host_vdev_init (Some p) d (set_dev (set_vio_iomem (<[d := 0]> (vio_iomem (w_dev w))) (w_dev w)) w) in
        '(ret, oks, w) ← vdev_add_iomem_range (Some d) base VIRTIO_DEVICE_IOMEM_SIZE oks w;
        if negb (ret =? 0) then w ← release_virtio_dev (Some d) w; Some (None, oks, w)
        else
          let w := set_dev (vi_log (vi_request_virq p irq 0) (w_dev w)) w in
          match pa with
          | inl _ => w ← release_virtio_dev (Some d) w; Some (None, oks, w)
          | inr pa =>
              let w := set_dev (set_vio_iomem (<[d := pa]> (vio_iomem (w_dev w))) (w_dev w)) w in
              o ← w_objs w !! d;
              w ← vdev_add d (put_vdev d (set_ops (Some VIRTIO_READ_FN) (Some VIRTIO_WRITE_FN) (Some VIRTIO_DEINIT_FN) (Some VIRTIO_RESET_FN) o) w);
              Some (Some d, oks, w)
          end
  | _, _ => Some (None, oks, w)
  end.

(** [shm], [hva] and [mapped] are the results of [alloc_shmem],
    [create_hvm_shmem_map] and [create_guest_mapping]. *)
Definition virtio_mmio_init (p gbase size : Z) (shm : option Z) (hva mapped : Z) (x : vio) : Z * option Z * vio :=
  if size =? 0 then (- EINVAL, None, x)
  else
    let size := PAGE_BALIGN size in
    let x := vi_log (vi_alloc_shmem (PAGE_NR size)) x in
    match shm with
    | None => (- ENOMEM, None, x)
    | Some a =>
        let x := vi_log (vi_hvm_map p a size) (zero_words (Z.to_nat (size / 4)) a x) in
        if hva =? BAD_ADDRESS then (- ENOMEM, None, vi_log (vi_free_shmem a) x)
        else
          let x := vi_log (vi_guest_map p gbase a size (Z.lor VM_IO VM_RO)) x in
          if negb (mapped =? 0) then (- ENOMEM, None, vi_log (vi_free_shmem a) x)
          else (0, Some hva, x)
    end.

(** The operations of a device, by number. *)
Definition virtio_call (fuel : nat) (f d idx offset value : Z) w : option (Z * Z * vdw vio) :=
  if f =? VIRTIO_READ_FN then virtio_mmio_read d idx offset value w
  else if f =? VIRTIO_WRITE_FN then virtio_mmio_write fuel d idx offset value w
  else if f =? VIRTIO_RESET_FN then Some (0, value, w)
  else if f =? VIRTIO_DEINIT_FN then w ← virtio_dev_deinit d w; Some (0, value, w)
  else None.
End virtio.

(** ** Memory words *)
Lemma read_write v a b x : ioread32 b (iowrite32 v a x) = if decide (a = b) then v else ioread32 b x.
Proof. unfold ioread32, iowrite32. cbn. destruct (decide (a = b)) as [->|]; [by rewrite lookup_insert_eq|by rewrite lookup_insert_ne]. Qed.

Lemma zero_words_read n : forall a b x, ioread32 b (zero_words n a x) = if decide (a <= b < a + 4 * Z.of_nat n /\ (b - a) mod 4 = 0) then 0 else ioread32 b x.
Proof.
  induction n as [|n IH]; intros a b x; cbn [zero_words]; [destruct (decide _); [lia|done]|]. rewrite IH, read_write.
  destruct (decide (a + 4 <= b < a + 4 + 4 * Z.of_nat n /\ (b - (a + 4)) mod 4 = 0)) as [H|H], (decide (a <= b < a + 4 * Z.of_nat (S n) /\ (b - a) mod 4 = 0)) as [H'|H'];
    try done; try (exfalso; apply H'; dlia); destruct (decide (a = b)) as [->|]; try done.
  - exfalso. apply H. dlia.
  - exfalso. apply H'. replace (b - b) with 0 by lia. dlia.
Qed.

(** A read at another offset of the page. *)
Ltac io_step := rewrite read_write; destruct (decide _) as [He|_]; [apply Z.add_cancel_l in He; vm_compute in He; discriminate He|].

Section writes.
Context (current : option Z) (relax : hv -> hv) (send_ok : bool).
Implicit Type w : vdw vio.

(** A device with its page. *)
Definition has_page (d idx iomem : Z) w : Prop := is_Some (vdev_get_vmm_area d idx w) /\ vio_iomem (w_dev w) !! d = Some iomem.

(** The traps that an access can lead to come back. *)
Definition trap_returns (fuel : nat) w : Prop := forall nb address value,
  is_Some (__vcpu_trap current relax send_ok fuel VMTRAP_TYPE_MMIO VMTRAP_REASON_WRITE address (Some value) nb (w_hv w)).

(** Two states that differ in words of one page only, and in the trap state. *)
Record in_page (iomem : Z) w w' : Prop := mk_in_page {
  ip_objs : w_objs w' = w_objs w;
  ip_mm : w_mm w' = w_mm w;
  ip_iomem : vio_iomem (w_dev w') = vio_iomem (w_dev w);
  ip_log : vio_log (w_dev w') = vio_log (w_dev w);
  ip_words : forall a, ~ (iomem <= a < iomem + VIRTIO_DEVICE_IOMEM_SIZE) -> ioread32 a (w_dev w') = ioread32 a (w_dev w);
}.

Lemma in_page_refl iomem w : in_page iomem w w.
Proof. by split. Qed.

Lemma in_page_trans iomem w1 w2 w3 : in_page iomem w1 w2 -> in_page iomem w2 w3 -> in_page iomem w1 w3.
Proof. intros [A1 A2 A3 A4 A5] [B1 B2 B3 B4 B5]. split; try congruence. intros a Ha. by rewrite B5, A5. Qed.

Lemma in_page_wr iomem v off w : 0 <= off < VIRTIO_DEVICE_IOMEM_SIZE -> in_page iomem w (wr v (iomem + off) w).
Proof. intros Ho. split; try done. intros a Ha. cbn [w_dev wr set_dev]. rewrite read_write. destruct (decide _) as [<-|]; [exfalso; apply Ha; lia|done]. Qed.

Lemma in_page_hv iomem s w : in_page iomem w (set_hv s w).
Proof. by split. Qed.

Lemma clear_queue_page iomem w : in_page iomem w (clear_queue iomem w).
Proof. unfold clear_queue. repeat (eapply in_page_trans; [|apply in_page_wr; vm_compute; split; [discriminate|reflexivity]]). apply in_page_refl. Qed.

Lemma plain_small offset : plain offset = true -> 0 <= offset < VIRTIO_DEVICE_IOMEM_SIZE.
Proof.
  unfold plain. intros H. apply existsb_exists in H as (x & Hx & <-%Z.eqb_eq). cbn [In] in Hx.
  repeat destruct Hx as [Hx|Hx]; try (rewrite <- Hx; by vm_compute). done.
Qed.

Lemma trap_page fuel nb address v iomem w :
  trap_returns fuel w -> exists v' w', trap_mmio_write current relax send_ok fuel nb address v w = Some (v', w') /\ in_page iomem w w'.
Proof.
  intros Ht. unfold trap_mmio_write. destruct (Ht nb address v) as [[[r res] s] E]. rewrite E. cbn [mbind option_bind].
  eexists _, _. split; [done|]. apply in_page_hv.
Qed.

(** A write of a guest to its virtio device, at any offset and with any
    value, returns 0 and changes only words of the page of that device, while
    the guest feature selector is one of the four that exist: not the pages of
    other devices or VMs, not the devices, not the address spaces. *)
Theorem virtio_write_confined fuel d idx offset value iomem w :
  has_page d idx iomem w -> trap_returns fuel w ->
  0 <= ioread32 (iomem + VIRTIO_MMIO_GUEST_FEATURES_SEL) (w_dev w) <= 3 ->
  exists v' w', virtio_mmio_write current relax send_ok fuel d idx offset value w = Some (0, v', w') /\ in_page iomem w w'.
Proof.
  intros [[va Hva] Hio] Ht Hsel. unfold virtio_mmio_write. rewrite Hva. cbn [mbind option_bind]. rewrite Hio. cbn [mbind option_bind].
  assert (forall nb a v w1, trap_returns fuel w1 -> in_page iomem w w1 ->
    exists v' w', ('(v0, w2) ← trap_mmio_write current relax send_ok fuel nb a v w1; Some (0, v0, w2)) = Some (0, v', w') /\ in_page iomem w w') as Htr.
  { intros nb a v w1 Ht1 H1. destruct (trap_page fuel nb a v iomem w1 Ht1) as (v' & w' & -> & H'). eexists _, _. split; [done|]. by eapply in_page_trans. }
  repeat match goal with |- context [if ?b then _ else _] => destruct b eqn:?; [|] end;
    try (eexists _, _; split; [done|]; try apply in_page_refl); try (apply Htr; [exact Ht|apply in_page_refl]).
  - by apply in_page_wr.
  - apply in_page_wr. unfold VIRTIO_MMIO_DRIVER_FEATURE0, VIRTIO_DEVICE_IOMEM_SIZE. rewrite u32_small by lia. lia.
  - eapply in_page_trans; [|apply clear_queue_page]. by apply in_page_wr.
  - by apply in_page_wr, plain_small.
  - apply Htr; [exact Ht|]. by apply in_page_wr.
  - eapply in_page_trans; by apply in_page_wr.
Qed.

(** A sequence of writes of the guest to one device. *)
Fixpoint run_writes (fuel : nat) (d idx : Z) (l : list (Z * Z)) w : option (vdw vio) :=
  match l with
  | [] => Some w
  | (offset, value) :: l => '(_, _, w) ← virtio_mmio_write current relax send_ok fuel d idx offset value w; run_writes fuel d idx l w
  end.

Lemma write_plain fuel d idx offset value iomem w :
  has_page d idx iomem w -> plain offset = true ->
  virtio_mmio_write current relax send_ok fuel d idx offset value w = Some (0, value, wr (u32 value) (iomem + offset) w).
Proof.
  intros [[va Hva] Hio] Hp. unfold virtio_mmio_write. rewrite Hva. cbn [mbind option_bind]. rewrite Hio. cbn [mbind option_bind].
  rewrite Hp. unfold plain in Hp. apply existsb_exists in Hp as (x & Hx & <-%Z.eqb_eq). cbn [In] in Hx.
  repeat destruct Hx as [Hx|Hx]; try (rewrite <- Hx; reflexivity). done.
Qed.

Lemma has_page_wr d idx iomem v a w : has_page d idx iomem w -> has_page d idx iomem (wr v a w).
Proof. done. Qed.

Lemma write_sel fuel d idx value iomem w :
  has_page d idx iomem w ->
  virtio_mmio_write current relax send_ok fuel d idx VIRTIO_MMIO_QUEUE_SEL value w
  = Some (0, value, clear_queue iomem (wr (u32 value) (iomem + VIRTIO_MMIO_QUEUE_SEL) w)).
Proof. intros [[va Hva] Hio]. unfold virtio_mmio_write. rewrite Hva. cbn [mbind option_bind]. by rewrite Hio. Qed.

(** Negotiation of the features, for each of the four words: selecting a
    word shows the guest the word the host offers, and nothing else changes;
    the word the guest accepts is stored in its place for the host, and the
    words that the host offers stay. *)
Theorem virtio_negotiation fuel d idx sel feats iomem w :
  has_page d idx iomem w -> 0 <= sel <= 3 -> 0 <= feats < 2 ^ 32 ->
  exists w1 w2, run_writes fuel d idx [(VIRTIO_MMIO_HOST_FEATURES_SEL, sel)] w = Some w1
    /\ ioread32 (iomem + VIRTIO_MMIO_HOST_FEATURES) (w_dev w1) = ioread32 (iomem + VIRTIO_MMIO_HOST_FEATURE0 + 4 * sel) (w_dev w)
    /\ (forall a, a <> iomem + VIRTIO_MMIO_HOST_FEATURES -> ioread32 a (w_dev w1) = ioread32 a (w_dev w))
    /\ run_writes fuel d idx [(VIRTIO_MMIO_GUEST_FEATURES_SEL, sel); (VIRTIO_MMIO_GUEST_FEATURES, feats)] w1 = Some w2
    /\ ioread32 (iomem + VIRTIO_MMIO_DRIVER_FEATURE0 + 4 * sel) (w_dev w2) = feats
    /\ (forall a, a <> iomem + VIRTIO_MMIO_GUEST_FEATURES_SEL -> a <> iomem + VIRTIO_MMIO_DRIVER_FEATURE0 + 4 * sel -> ioread32 a (w_dev w2) = ioread32 a (w_dev w1)).
Proof.
  intros Hp Hs Hf. pose proof Hp as [[va Hva] Hio].
  assert (virtio_mmio_write current relax send_ok fuel d idx VIRTIO_MMIO_HOST_FEATURES_SEL sel w
    = Some (0, sel, wr (ioread32 (iomem + VIRTIO_MMIO_HOST_FEATURE0 + 4 * sel) (w_dev w)) (iomem + VIRTIO_MMIO_HOST_FEATURES) w)) as E1.
  { unfold virtio_mmio_write. rewrite Hva. cbn [mbind option_bind]. rewrite Hio. cbn [mbind option_bind Z.eqb]. cbn. rewrite u32_small by lia.
    rewrite (proj2 (Z.ltb_ge 3 sel)) by lia. do 4 f_equal. lia. }
  set (w1 := wr _ (iomem + VIRTIO_MMIO_HOST_FEATURES) w) in *. set (w2 := wr sel (iomem + VIRTIO_MMIO_GUEST_FEATURES_SEL) w1).
  assert (virtio_mmio_write current relax send_ok fuel d idx VIRTIO_MMIO_GUEST_FEATURES feats w2
    = Some (0, feats, wr feats (iomem + VIRTIO_MMIO_DRIVER_FEATURE0 + 4 * sel) w2)) as E3.
  { unfold virtio_mmio_write. change (vdev_get_vmm_area d idx w2) with (vdev_get_vmm_area d idx w). rewrite Hva. cbn [mbind option_bind].
    change (vio_iomem (w_dev w2)) with (vio_iomem (w_dev w)). rewrite Hio. cbn [mbind option_bind].
    replace (ioread32 (iomem + VIRTIO_MMIO_GUEST_FEATURES_SEL) (w_dev w2)) with sel.
    - cbn. rewrite (u32_small feats) by lia. unfold VIRTIO_MMIO_DRIVER_FEATURE0. rewrite u32_small by lia. do 3 f_equal. lia.
    - unfold w2. cbn [w_dev wr set_dev]. rewrite read_write. by destruct (decide _). }
  exists w1, (wr feats (iomem + VIRTIO_MMIO_DRIVER_FEATURE0 + 4 * sel) w2). split_and!.
  - cbn [run_writes]. by rewrite E1.
  - unfold w1. cbn [w_dev wr set_dev]. rewrite read_write. by destruct (decide _).
  - intros a Ha. unfold w1. cbn [w_dev wr set_dev]. rewrite read_write. by destruct (decide _).
  - cbn [run_writes]. rewrite (write_plain fuel d idx _ sel iomem w1) by done. cbn [mbind option_bind]. rewrite u32_small by lia. fold w2. by rewrite E3.
  - cbn [w_dev wr set_dev]. rewrite read_write. by destruct (decide _).
  - intros a H1 H2. unfold w2. cbn [w_dev wr set_dev]. rewrite !read_write. by repeat destruct (decide _).
Qed.

(** The registers of a queue, with what the guest wrote. *)
Definition queue_writes (num dl dh al ah ul uh : Z) : list (Z * Z) :=
  [(VIRTIO_MMIO_QUEUE_NUM, num); (VIRTIO_MMIO_QUEUE_DESC_LOW, dl); (VIRTIO_MMIO_QUEUE_DESC_HIGH, dh); (VIRTIO_MMIO_QUEUE_AVAIL_LOW, al);
   (VIRTIO_MMIO_QUEUE_AVAIL_HIGH, ah); (VIRTIO_MMIO_QUEUE_USED_LOW, ul); (VIRTIO_MMIO_QUEUE_USED_HIGH, uh)].

Lemma run_plain fuel d idx iomem : forall l w, has_page d idx iomem w -> Forall (fun e => plain (fst e) = true) l -> NoDup (fst <$> l) ->
  exists w', run_writes fuel d idx l w = Some w' /\ has_page d idx iomem w'
    /\ (forall off v, (off, v) ∈ l -> ioread32 (iomem + off) (w_dev w') = u32 v)
    /\ (forall a, (forall off, off ∈ (fst <$> l) -> a <> iomem + off) -> ioread32 a (w_dev w') = ioread32 a (w_dev w))
    /\ w_hv w' = w_hv w.
Proof.
  induction l as [|[off v] l IH]; intros w Hp Hpl Hnd; cbn [run_writes fmap list_fmap fst] in *.
  { exists w. split_and!; try done. intros ? ? H. by apply elem_of_nil in H. }
  apply Forall_cons_1 in Hpl as [Hpo Hpl]. apply list.NoDup_cons in Hnd as [Hni Hnd]. cbn [fst] in Hpo. rewrite (write_plain _ _ _ _ _ _ _ Hp Hpo). cbn [mbind option_bind].
  destruct (IH (wr (u32 v) (iomem + off) w)) as (w' & E & Hp' & Hrd & Hoth & Hhv); [done..|]. exists w'. split; [done|]. split; [done|]. split; [|split; [|done]].
  - intros off' v' Hin. apply elem_of_cons in Hin as [[= -> ->]|Hin]; [|by apply Hrd]. rewrite Hoth.
    + cbn [w_dev wr set_dev]. rewrite read_write. by destruct (decide _).
    + intros o Ho He. assert (off = o) by lia. by subst.
  - intros a Ha. rewrite Hoth.
    + cbn [w_dev wr set_dev]. rewrite read_write. destruct (decide _) as [<-|]; [|done]. exfalso. by apply (Ha off); [apply elem_of_cons; left|].
    + intros o Ho. apply Ha. apply elem_of_cons. by right.
Qed.

(** A guest that selects a queue, describes it and declares it ready hands
    over to the host exactly that queue: when the host is told, it is told the
    number of the queue, and the words of the page are the ones the guest wrote
    for this queue. *)
Theorem virtio_queue_handed_over fuel d idx q num dl dh al ah ul uh ready iomem w :
  has_page d idx iomem w ->
  let l := queue_writes num dl dh al ah ul uh in
  exists w1 va, run_writes fuel d idx ((VIRTIO_MMIO_QUEUE_SEL, q) :: l) w = Some w1
    /\ vdev_get_vmm_area d idx w = Some va /\ w_hv w1 = w_hv w
    /\ (forall off v, (off, v) ∈ l -> ioread32 (iomem + off) (w_dev w1) = u32 v)
    /\ virtio_mmio_write current relax send_ok fuel d idx VIRTIO_MMIO_QUEUE_READY ready w1
       = '(v, w2) ← trap_mmio_write current relax send_ok fuel false (u64 (va_start va + VIRTIO_MMIO_QUEUE_READY)) (u32 q) w1; Some (0, v, w2).
Proof.
  intros Hp l. pose proof Hp as [[va Hva] Hio]. cbn [run_writes]. rewrite (write_sel _ _ _ _ _ _ Hp). cbn [mbind option_bind].
  set (w0 := clear_queue _ _). assert (has_page d idx iomem w0) as Hp0 by done.
  destruct (run_plain fuel d idx iomem l w0 Hp0) as (w1 & E & Hp1 & Hrd & Hoth & Hhv).
  { repeat apply Forall_cons; done. }
  { apply (bool_decide_unpack _). by vm_compute. }
  pose proof Hp1 as [[va1 Hva1] Hio1]. exists w1, va. split; [done|]. split; [done|]. split; [by rewrite Hhv|]. split; [done|].
  assert (va1 = va) as ->.
  { assert (w_objs w1 = w_objs w) as Eo by (revert E; unfold l, queue_writes; cbn [run_writes]; repeat (rewrite (write_plain _ _ _ _ _ iomem) by done; cbn [mbind option_bind]); by intros [= <-]).
    unfold vdev_get_vmm_area in *. rewrite Eo in Hva1. congruence. }
  assert (VIRTIO_MMIO_QUEUE_SEL ∉ (fst <$> l)) as Hns by (apply (bool_decide_unpack _); by vm_compute).
  unfold virtio_mmio_write. rewrite Hva1. cbn [mbind option_bind]. rewrite Hio1. cbn [mbind option_bind]. cbn.
  rewrite Hoth; [|intros off Hoff He; assert (off = VIRTIO_MMIO_QUEUE_SEL) by lia; subst off; by apply Hns].
  unfold w0, clear_queue. cbn [w_dev wr set_dev]. do 8 io_step. rewrite read_write. by destruct (decide _).
Qed.
End writes.

(** ** Making and releasing a device *)
Lemma release_virtio_ok d w w' :
  vdevs_ok w -> release_virtio_dev (Some d) w = Some w' -> vdevs_ok w' /\ w_objs w' !! d = None /\ vio_iomem (w_dev w') !! d = None.
Proof.
  intros Hw E. cbn [release_virtio_dev] in E. destruct (vdev_release d w) as [w1|] eqn:E1; [|done]. cbn [mbind option_bind] in E. injection E as <-.
  split; [|split; cbn; apply lookup_delete_eq]. apply set_dev_ok, (vdev_deinit_ok d w); [done|]. unfold vdev_deinit. by rewrite E1.
Qed.

(** A device that is made is on the list of its VM with its operations and its
    page; one that cannot be made leaves nothing behind.  Either way the
    devices and the address spaces stay consistent. *)
Theorem virtio_create_correct p dt a pa oks w r oks' w' d :
  vdevs_ok w -> a = Some d -> w_objs w !! d = None -> vio_iomem (w_dev w) !! d = None -> is_Some (vm_heap (w_hv w) !! p) ->
  (forall base size irq, dt = Some (base, size, irq) -> 0 <= base < 2 ^ 61) ->
  virtio_create_device p dt a pa oks w = Some (r, oks', w') ->
  vdevs_ok w' /\ match r with
    | Some d' => d' = d /\ exists o m, w_objs w' !! d = Some o /\ vd_vm o = Some p /\ vd_write o = Some VIRTIO_WRITE_FN /\ inr (vio_iomem (w_dev w') !!! d) = pa
                 /\ vm_heap (w_hv w') !! p = Some m /\ d ∈ vdev_list m
    | None => w_objs w' !! d = None /\ vio_iomem (w_dev w') !! d = None
    end.
Proof.
  intros Hw -> Hd Hi Hp Hdt E. unfold virtio_create_device in E. destruct dt as [[[base size] irq]|]; [|by injection E as <- _ <-].
  destruct (size =? 0); [by injection E as <- _ <-|]. specialize (Hdt base size irq eq_refl). set (w0 := host_vdev_init _ _ _) in E.
  assert (vdevs_ok w0) as Hw0 by (apply host_vdev_init_ok; [by apply set_dev_ok|exact Hd]).
  destruct (vdev_add_iomem_range (Some d) base _ oks w0) as [[[ret oks1] w1]|] eqn:E1; [|done]. cbn [mbind option_bind] in E.
  assert (vdevs_ok w1) as Hw1 by (eapply add_iomem_ok; [| | | |exact E1]; [done|lia|done|unfold VIRTIO_DEVICE_IOMEM_SIZE; lia]).
  destruct (negb (ret =? 0)).
  { destruct (release_virtio_dev (Some d) w1) as [w2|] eqn:E2; [|done]. cbn [mbind option_bind] in E. injection E as <- _ <-. by apply (release_virtio_ok d w1). }
  destruct pa as [e|pa].
  { destruct (release_virtio_dev _ _) as [w2|] eqn:E2; [|done]. cbn [mbind option_bind] in E. injection E as <- _ <-. eapply release_virtio_ok; [|exact E2]. by apply set_dev_ok. }
  match type of E with context [w_objs ?x !! d] => set (w2 := x) in E end. change (w_objs w2 !! d) with (w_objs w1 !! d) in E. destruct (w_objs w1 !! d) as [o|] eqn:Ho; [|done]. cbn [mbind option_bind] in E.
  destruct (vdev_add d _) as [w3|] eqn:E3; [|done].
  cbn [mbind option_bind] in E. injection E as <- _ <-.
  assert (vd_vm o = Some p) as Hv.
  { destruct (add_iomem_frame d _ _ _ w0 _ _ _ (mk_vdev (Some p) 1 [] false None None (Some VDEV_DEINIT) None) E1) as (_ & _ & [l Hl] & _); [apply lookup_insert_eq|].
    rewrite Hl in Ho. by injection Ho as <-. }
  assert (vdevs_ok w2) as Hw2 by (by apply set_dev_ok, set_dev_ok).
  split; [eapply vdev_add_ok; [|exact E3]; by apply set_ops_ok|]. split; [done|].
  unfold vdev_add in E3. cbn [w_objs put_vdev] in E3. rewrite lookup_insert_eq in E3. cbn [mbind option_bind vd_vm set_ops] in E3. rewrite Hv in E3.
  unfold assert_ in E3. destruct (negb _) in E3; [|done]. cbn [mbind option_bind] in E3.
  destruct (vm_heap _ !! p) as [m|] in E3; [|done]. cbn [mbind option_bind] in E3. injection E3 as <-. eexists _, _. split; [cbn; apply lookup_insert_eq|].
  split; [exact Hv|]. split; [done|]. split; [|split; [cbn; apply lookup_insert_eq|]].
  - cbn. f_equal. unfold lookup_total, map_lookup_total. by rewrite lookup_insert_eq.
  - cbn. apply elem_of_app. right. by apply list_elem_of_singleton.
Qed.

(** ** A concrete device, with its page at 0x80000000 *)
Definition demo_vio (sel : Z) : vio := mk_vio {[0x80000024 := sel; 0x80000308 := 0x30000002; 0x8000030c := 1]} {[10 := 0x80000000]} [].
Definition demo_vdw_vio (sel : Z) : vdw vio :=
  mk_vdw (demo_vdev_hv 0) {[10 := mk_vdev (Some 1) 1 [mk_area 0xa000000 0xa001000 BAD_ADDRESS VM_GUEST_VDEV 0 []] true (Some VIRTIO_READ_FN) (Some VIRTIO_WRITE_FN) None None]} ∅ (demo_vio sel).

Lemma demo_page sel : has_page 10 0 0x80000000 (demo_vdw_vio sel).
Proof. split; [eexists; vm_compute; reflexivity|vm_compute; reflexivity]. Qed.

Lemma demo_trap_returns sel : trap_returns (Some 2) demo_answer true 2 (demo_vdw_vio sel).
Proof. intros [] address value; vm_compute; eexists; reflexivity. Qed.

Lemma virtio_write_confined_witness :
  exists v' w', virtio_mmio_write (Some 2) demo_answer true 2 10 0 VIRTIO_MMIO_GUEST_FEATURES 5 (demo_vdw_vio 1) = Some (0, v', w')
    /\ ioread32 0x7ffffffc (w_dev w') = 0.
Proof.
  destruct (virtio_write_confined (Some 2) demo_answer true 2 10 0 VIRTIO_MMIO_GUEST_FEATURES 5 0x80000000 (demo_vdw_vio 1)) as (v' & w' & E & Hi);
    [apply demo_page|apply demo_trap_returns|vm_compute; split; discriminate|]. exists v', w'. split; [exact E|].
  rewrite (ip_words _ _ _ Hi) by (unfold VIRTIO_DEVICE_IOMEM_SIZE; lia). by vm_compute.
Defined.

Lemma virtio_negotiation_witness :
  exists w1 w2, run_writes (Some 2) demo_answer true 2 10 0 [(VIRTIO_MMIO_HOST_FEATURES_SEL, 1)] (demo_vdw_vio 0) = Some w1
    /\ ioread32 0x80000010 (w_dev w1) = 1
    /\ run_writes (Some 2) demo_answer true 2 10 0 [(VIRTIO_MMIO_GUEST_FEATURES_SEL, 1); (VIRTIO_MMIO_GUEST_FEATURES, 1)] w1 = Some w2
    /\ ioread32 0x8000031c (w_dev w2) = 1.
Proof.
  destruct (virtio_negotiation (Some 2) demo_answer true 2 10 0 1 1 0x80000000 (demo_vdw_vio 0)) as (w1 & w2 & E1 & H1 & _ & E2 & H2 & _);
    [apply demo_page|lia|lia|]. exists w1, w2. split; [exact E1|]. split; [exact H1|]. split; [exact E2|exact H2].
Defined.

Lemma virtio_queue_handed_over_witness :
  exists w1, run_writes (Some 2) demo_answer true 2 10 0 ((VIRTIO_MMIO_QUEUE_SEL, 1) :: queue_writes 256 0x1000 0 0x2000 0 0x3000 0) (demo_vdw_vio 0) = Some w1
    /\ ioread32 0x80000080 (w_dev w1) = 0x1000.
Proof.
  destruct (virtio_queue_handed_over (Some 2) demo_answer true 2 10 0 1 256 0x1000 0 0x2000 0 0x3000 0 1 0x80000000 (demo_vdw_vio 0)) as (w1 & va & E & _ & _ & H & _);
    [apply demo_page|]. exists w1. split; [exact E|]. apply (H VIRTIO_MMIO_QUEUE_DESC_LOW 0x1000). apply (bool_decide_unpack _). by vm_compute.
Defined.

(** The selector of the guest features is not tested: a guest that writes
    0x400 to it and then its features stores them in the page behind its own. *)
Lemma virtio_selector_escapes :
  exists w', run_writes (Some 2) demo_answer true 2 10 0 [(VIRTIO_MMIO_GUEST_FEATURES_SEL, 0x400); (VIRTIO_MMIO_GUEST_FEATURES, 0xdead)] (demo_vdw_vio 0) = Some w'
    /\ ioread32 0x80001318 (w_dev (demo_vdw_vio 0)) = 0 /\ ioread32 0x80001318 (w_dev w') = 0xdead.
Proof. eexists. split; [vm_compute; reflexivity|]. split; vm_compute; reflexivity. Qed.

(** A queue larger than the largest that the device takes is reported and set
    all the same. *)
Lemma virtio_queue_num_unchecked :
  exists w', run_writes (Some 2) demo_answer true 2 10 0 [(VIRTIO_MMIO_QUEUE_NUM, 65535)] (demo_vdw_vio 0) = Some w'
    /\ ioread32 (0x80000000 + VIRTIO_MMIO_QUEUE_NUM_MAX) (w_dev w') = 0 /\ ioread32 (0x80000000 + VIRTIO_MMIO_QUEUE_NUM) (w_dev w') = 65535.
Proof. eexists. split; [vm_compute; reflexivity|]. split; vm_compute; reflexivity. Qed.
