(* ===== verification/Periph.v ===== *)
(** * The watchdog and the clock of a guest (virt/vwdt.c, virt/vrtc.c)

    An SP805 watchdog and a PL031 real time clock, as virtual devices of Vdev.v
    whose state is [per]: the watchdogs and the clocks by the address of their
    virtual device, the software timers of Timer.v, by number, and a log of the
    virqs that are requested and sent.  The argument [now] is the time in
    nanoseconds that [NOW] gives; [panic] is [None]. *)
From S2P Require Import Prelude Bitops Stage2 VmmArea Vmm Sched Task Timer Vm VmPm Vdev Trap Vtimer.

Definition SP805_WDT_LOAD : Z := 0x00.
Definition SP805_WDT_VALUE : Z := 0x04.
Definition SP805_WDT_CTL : Z := 0x08.
Definition SP805_WDT_INTCLR : Z := 0x0c.
Definition SP805_WDT_RIS : Z := 0x10.
Definition SP805_WDT_MIS : Z := 0x14.
Definition SP805_WDT_LOCK : Z := 0xc00.
Definition SP805_WDT_PRID0 : Z := 0xfe0.
Definition SP805_WDT_PRID1 : Z := 0xfe4.
Definition SP805_WDT_PRID2 : Z := 0xfe8.
Definition SP805_WDT_PRID3 : Z := 0xfec.
Definition SP805_WDT_PCID0 : Z := 0xff0.
Definition SP805_WDT_PCID1 : Z := 0xff4.
Definition SP805_WDT_PCID2 : Z := 0xff8.
Definition SP805_WDT_PCID3 : Z := 0xffc.
Definition INT_ENABLE : Z := Z.shiftl 1 0.
Definition RESET_ENABLE : Z := Z.shiftl 1 1.
Definition WDT_LOCK : Z := 0x00000001.
Definition WDT_UNLOCK : Z := 0x1acce551.
Definition WDT_CLK_RATE : Z := 32768.
Definition SP805_IRQ : Z := 32.
Definition VMTRAP_REASON_WDT_TIMEOUT : Z := 7.

Definition RTC_DR : Z := 0x00.
Definition RTC_MR : Z := 0x04.
Definition RTC_LR : Z := 0x08.
Definition RTC_CR : Z := 0x0c.
Definition RTC_IMSC : Z := 0x10.
Definition RTC_RIS : Z := 0x14.
Definition RTC_MIS : Z := 0x18.
Definition RTC_ICR : Z := 0x1c.
Definition RTC_PID0 : Z := 0xfe0.
Definition RTC_PID1 : Z := 0xfe4.
Definition RTC_PID2 : Z := 0xfe8.
Definition RTC_PID3 : Z := 0xfec.
Definition RTC_PCID0 : Z := 0xff0.
Definition RTC_PCID1 : Z := 0xff4.
Definition RTC_PCID2 : Z := 0xff8.
Definition RTC_PCID3 : Z := 0xffc.
Definition PL031_IRQ : Z := 33.
Definition VIRQF_CAN_WAKEUP : Z := Z.shiftl 1 4.
Definition VMTRAP_REASON_GET_TIME : Z := 8.

(** The numbers of the operations. *)
Definition VWDT_READ_FN : Z := 0x300.
Definition VWDT_WRITE_FN : Z := 0x301.
Definition VWDT_DEINIT_FN : Z := 0x302.
Definition VWDT_RESET_FN : Z := 0x303.
Definition VWDT_EXPIRE_FN : Z := 0x304.
Definition VRTC_READ_FN : Z := 0x310.
Definition VRTC_WRITE_FN : Z := 0x311.
Definition VRTC_DEINIT_FN : Z := 0x312.
Definition VRTC_RESET_FN : Z := 0x313.
Definition VRTC_ALARM_FN : Z := 0x314.

Record vwdt_dev := mk_vwdt {
  int_enable : Z;
  reset_enable : Z;
  int_trigger : Z;
  access_lock : Z;
  load_value : Z;
  timeout_value : Z;
  wdt_timer : Z;
}.

Record vrtc_dev := mk_vrtc {
  rtc_en : Z;
  rtc_int_en : Z;
  rtc_int_trigger : Z;
  time_base : Z;
  time_alarm : Z;
  rtc_offset : Z;
  alarm_timer : Z;
}.

Inductive per_call := pc_request_virq (p irq flags : Z) | pc_send_virq (p : option Z) (virq : Z).

Record per := mk_per { wdts : gmap Z vwdt_dev; rtcs : gmap Z vrtc_dev; per_ts : tstate; per_log : list per_call }.

Definition put_wdt (d : Z) (x : vwdt_dev) (y : per) : per := mk_per (<[d := x]> (wdts y)) (rtcs y) (per_ts y) (per_log y).
Definition put_rtc (d : Z) (x : vrtc_dev) (y : per) : per := mk_per (wdts y) (<[d := x]> (rtcs y)) (per_ts y) (per_log y).
Definition drop_dev (d : Z) (y : per) : per := mk_per (delete d (wdts y)) (delete d (rtcs y)) (per_ts y) (per_log y).
Definition set_per_ts (s : tstate) (y : per) : per := mk_per (wdts y) (rtcs y) s (per_log y).
Definition per_call_log (c : per_call) (y : per) : per := mk_per (wdts y) (rtcs y) (per_ts y) (per_log y ++ [c]).

Section periph.
Context (current : option Z) (relax : hv -> hv) (send_ok : bool) (cpu : nat).
Implicit Type w : vdw per.

Definition upd_dev (f : per -> per) w : vdw per := set_dev (f (w_dev w)) w.

(** [mod_timer] and [stop_timer] on a timer of a device. *)
Definition arm_at (now t e : Z) w : option (vdw per) := s ← mod_timer cpu now t e (per_ts (w_dev w)); Some (upd_dev (set_per_ts s) w).
Definition stop_at (t : Z) w : option (vdw per) := s ← stop_timer t (per_ts (w_dev w)); Some (upd_dev (set_per_ts s) w).

(** ** The watchdog *)
Definition set_int_enable (x : Z) (y : vwdt_dev) : vwdt_dev := mk_vwdt x (reset_enable y) (int_trigger y) (access_lock y) (load_value y) (timeout_value y) (wdt_timer y).
Definition set_reset_enable (x : Z) (y : vwdt_dev) : vwdt_dev := mk_vwdt (int_enable y) x (int_trigger y) (access_lock y) (load_value y) (timeout_value y) (wdt_timer y).
Definition set_int_trigger (x : Z) (y : vwdt_dev) : vwdt_dev := mk_vwdt (int_enable y) (reset_enable y) x (access_lock y) (load_value y) (timeout_value y) (wdt_timer y).
Definition set_access_lock (x : Z) (y : vwdt_dev) : vwdt_dev := mk_vwdt (int_enable y) (reset_enable y) (int_trigger y) x (load_value y) (timeout_value y) (wdt_timer y).
Definition set_load_value (x : Z) (y : vwdt_dev) : vwdt_dev := mk_vwdt (int_enable y) (reset_enable y) (int_trigger y) (access_lock y) x (timeout_value y) (wdt_timer y).
Definition set_timeout_value (x : Z) (y : vwdt_dev) : vwdt_dev := mk_vwdt (int_enable y) (reset_enable y) (int_trigger y) (access_lock y) (load_value y) x (wdt_timer y).

Definition wdt_timeleft (now : Z) (y : vwdt_dev) : Z := u32 (u64 (u64 (timeout_value y - now) / 1000000000 * WDT_CLK_RATE)).

Definition vwdt_mmio_read (now d idx offset value : Z) w : option (Z * Z * vdw per) :=
  y ← wdts (w_dev w) !! d;
  let v :=
    if offset =? SP805_WDT_VALUE then wdt_timeleft now y
    else if offset =? SP805_WDT_CTL then Z.lor (Z.shiftl (reset_enable y) 1) (int_enable y)
    else if offset =? SP805_WDT_LOCK then access_lock y
    else if offset =? SP805_WDT_RIS then int_trigger y
    else if offset =? SP805_WDT_MIS then int_enable y
    else if offset =? SP805_WDT_PRID0 then 0x5
    else if offset =? SP805_WDT_PRID1 then Z.lor (Z.shiftl 0x1 4) 0x8
    else if offset =? SP805_WDT_PRID2 then Z.lor (Z.shiftl 0x1 4) 0x4
    else if offset =? SP805_WDT_PRID3 then 0x0
    else if offset =? SP805_WDT_PCID0 then 0x0d
    else if offset =? SP805_WDT_PCID1 then 0xf0
    else if offset =? SP805_WDT_PCID2 then 0x05
    else if offset =? SP805_WDT_PCID3 then 0xb1
    else value in
  Some (0, v, w).

(** The new timeout, from now on. *)
Definition wdt_restart (now d : Z) (y : vwdt_dev) w : option (vdw per) :=
  let y := set_timeout_value (u64 (now + load_value y)) y in
  arm_at now (wdt_timer y) (timeout_value y) (upd_dev (put_wdt d y) w).

(** The handler of the timer.  The trap is one of the vcpu that runs. *)
Definition vwdt_timer_expire (fuel : nat) (now d : Z) w : option (vdw per) :=
  y ← wdts (w_dev w) !! d;
  o ← w_objs w !! d;
  if negb (int_trigger y =? 0) && negb (reset_enable y =? 0) then
    p ← vd_vm o;
    m ← vm_heap (w_hv w) !! p;
    if vm_is_native m then None
    else '(_, _, s) ← trap_vcpu_nonblock current relax send_ok fuel VMTRAP_TYPE_COMMON VMTRAP_REASON_WDT_TIMEOUT 0 None (w_hv w); Some (set_hv s w)
  else if negb (int_enable y =? 0) then
    wdt_restart now d (set_int_trigger 1 y) (upd_dev (per_call_log (pc_send_virq (vd_vm o) SP805_IRQ)) w)
  else Some w.

(** The interrupt enable bit; the result is the device as it is then. *)
Definition wdt_enable (now d : Z) (y : vwdt_dev) (ie : Z) w : option (vwdt_dev * vdw per) :=
  if negb (int_enable y =? ie) then
    let y := set_int_enable ie y in
    if negb (ie =? 0) then w ← wdt_restart now d y w; y ← wdts (w_dev w) !! d; Some (y, w)
    else
      let y := set_int_trigger 0 y in
      w ← stop_at (wdt_timer y) (upd_dev (put_wdt d y) w); Some (y, w)
  else Some (y, w).

Definition vwdt_config_ctrl (now d : Z) (y : vwdt_dev) (ie re : Z) w : option (vdw per) :=
  '(y, w) ← wdt_enable now d y ie w;
  Some (if negb (reset_enable y =? re) then upd_dev (put_wdt d (set_reset_enable re y)) w else w).

Definition vwdt_config_intclr (now d : Z) (y : vwdt_dev) w : option (vdw per) :=
  let y := set_int_trigger 0 y in
  if negb (int_enable y =? 0) then wdt_restart now d y w else Some (upd_dev (put_wdt d y) w).

Definition vwdt_config_load (d : Z) (y : vwdt_dev) (v : Z) w : vdw per :=
  upd_dev (put_wdt d (set_load_value (SECONDS (u32 (v + WDT_CLK_RATE - 1) / WDT_CLK_RATE)) y)) w.

Definition vwdt_mmio_write (now d idx offset value : Z) w : option (Z * Z * vdw per) :=
  let v := u32 value in
  y ← wdts (w_dev w) !! d;
  if negb (offset =? SP805_WDT_LOCK) && negb (access_lock y =? 0) then Some (- EPERM, value, w)
  else
    w ← (if offset =? SP805_WDT_LOAD then Some (vwdt_config_load d y v w)
         else if offset =? SP805_WDT_CTL then
           vwdt_config_ctrl now d y (b2z (negb (Z.land v INT_ENABLE =? 0))) (b2z (negb (Z.land v RESET_ENABLE =? 0))) w
         else if offset =? SP805_WDT_INTCLR then vwdt_config_intclr now d y w
         else if offset =? SP805_WDT_LOCK then
           Some (if v =? WDT_UNLOCK then upd_dev (put_wdt d (set_access_lock 0 y)) w
                 else if v =? WDT_LOCK then upd_dev (put_wdt d (set_access_lock 1 y)) w else w)
         else Some w);
    Some (0, value, w).

Definition vwdt_reset (d : Z) w : option (vdw per) :=
  y ← wdts (w_dev w) !! d;
  stop_at (wdt_timer y) (upd_dev (put_wdt d (mk_vwdt 0 0 0 1 0 0 (wdt_timer y))) w).

Definition vwdt_deinit (d : Z) w : option (vdw per) :=
  y ← wdts (w_dev w) !! d;
  w ← stop_at (wdt_timer y) w;
  w ← vdev_release d w;
  Some (upd_dev (drop_dev d) (drop_vdev d w)).

(** [dt] is the address, size, interrupt and flags in the device tree, if they
    are there; [a] the address that [zalloc] returns and the timer inside. *)
Definition vwdt_init (p : Z) (dt : option (Z * Z * Z)) (a : option (Z * Z)) (oks : list bool) w : option (option Z * list bool * vdw per) :=
  match dt, a with
  | Some (base, size, irq), Some (d, t) =>
      if size =? 0 then Some (None, oks, w)
      else
        let s := set_obj t (mk_timer 0 0 0 0 0 0 false None) (per_ts (w_dev w)) in
        let w := host_vdev_init (Some p) d (upd_dev (fun x => set_per_ts s (put_wdt d (mk_vwdt 0 0 0 0 0 0 t) x)) w) in
        '(ret, oks, w) ← vdev_add_iomem_range (Some d) base size oks w;
        if negb (ret =? 0) then Some (None, oks, upd_dev (drop_dev d) (drop_vdev d w))
        else
          let w := upd_dev (fun x => put_wdt d (mk_vwdt 0 0 0 1 0 0 t) (per_call_log (pc_request_virq p irq 0) x)) w in
          o ← w_objs w !! d;
          w ← vdev_add d (put_vdev d (set_ops (Some VWDT_READ_FN) (Some VWDT_WRITE_FN) (Some VWDT_DEINIT_FN) (Some VWDT_RESET_FN) o) w);
          s ← init_timer t VWDT_EXPIRE_FN d (per_ts (w_dev w));
          Some (None, oks, upd_dev (set_per_ts s) w)
  | _, _ => Some (None, oks, w)
  end.

(** ** The real time clock *)
Definition set_rtc_en (x : Z) (y : vrtc_dev) : vrtc_dev := mk_vrtc x (rtc_int_en y) (rtc_int_trigger y) (time_base y) (time_alarm y) (rtc_offset y) (alarm_timer y).
Definition set_rtc_int_en (x : Z) (y : vrtc_dev) : vrtc_dev := mk_vrtc (rtc_en y) x (rtc_int_trigger y) (time_base y) (time_alarm y) (rtc_offset y) (alarm_timer y).
Definition set_rtc_int_trigger (x : Z) (y : vrtc_dev) : vrtc_dev := mk_vrtc (rtc_en y) (rtc_int_en y) x (time_base y) (time_alarm y) (rtc_offset y) (alarm_timer y).
Definition set_rtc_time (base off : Z) (y : vrtc_dev) : vrtc_dev := mk_vrtc (rtc_en y) (rtc_int_en y) (rtc_int_trigger y) base (time_alarm y) off (alarm_timer y).

Definition vrtc_mmio_read (now d idx offset value : Z) w : option (Z * Z * vdw per) :=
  y ← rtcs (w_dev w) !! d;
  v ← (if offset =? RTC_DR then
         if rtc_en y =? 0 then Some 0
         else s ← muldiv64 (u64 (now - rtc_offset y)) 1 (u32 (SECONDS 1)); Some (u64 (time_base y + s))
       else if offset =? RTC_MR then Some (time_alarm y)
       else if offset =? RTC_LR then Some (time_base y)
       else if offset =? RTC_CR then Some (u64 (rtc_en y))
       else if offset =? RTC_IMSC then Some (u64 (rtc_int_en y))
       else if offset =? RTC_RIS then Some (u64 (rtc_int_trigger y))
       else if offset =? RTC_MIS then Some (b2z (rtc_int_en y =? 0))
       else if offset =? RTC_PID0 then Some 0x31
       else if offset =? RTC_PID1 then Some 0x10
       else if offset =? RTC_PID2 then Some 0x04
       else if offset =? RTC_PID3 then Some 0x00
       else if offset =? RTC_PCID0 then Some 0x0d
       else if offset =? RTC_PCID1 then Some 0xf0
       else if offset =? RTC_PCID2 then Some 0x05
       else if offset =? RTC_PCID3 then Some 0xb1
       else Some value);
  Some (0, v, w).

(** [junk] is the value that the variable [t] has before the trap. *)
Definition vrtc_enable (fuel : nat) (now junk d : Z) (y : vrtc_dev) (en : Z) w : option (vdw per) :=
  if rtc_en y =? en then Some w
  else
    '(y, w) ← (if negb (en =? 0) then
                 '(_, t, s) ← trap_vcpu current relax send_ok fuel VMTRAP_TYPE_COMMON VMTRAP_REASON_GET_TIME 0 (Some junk) (w_hv w);
                 Some (set_rtc_time (u32 (default junk t)) now y, set_hv s w)
               else
                 w ← stop_at (alarm_timer y) w;
                 Some (mk_vrtc (rtc_en y) 0 0 0 0 0 (alarm_timer y), w));
    Some (upd_dev (put_rtc d (set_rtc_en en y)) w).

Definition vrtc_int_enable (d : Z) (y : vrtc_dev) (mask : Z) w : option (vdw per) :=
  if negb (rtc_int_en y =? mask) then Some w
  else
    o ← w_objs w !! d;
    let w := if (mask =? 0) && negb (rtc_int_trigger y =? 0) then upd_dev (per_call_log (pc_send_virq (vd_vm o) PL031_IRQ)) w else w in
    Some (upd_dev (put_rtc d (set_rtc_int_en (b2z (mask =? 0)) y)) w).

Definition vrtc_set_alarm (now : Z) (y : vrtc_dev) (alarm : Z) w : option (Z * vdw per) :=
  if alarm <=? time_base y then Some (- EINVAL, w)
  else w ← arm_at now (alarm_timer y) (u64 (SECONDS (u32 (alarm - time_base y)) + rtc_offset y)) w; Some (0, w).

Definition vrtc_mmio_write (fuel : nat) (now junk d idx offset value : Z) w : option (Z * Z * vdw per) :=
  let v := u32 value in
  y ← rtcs (w_dev w) !! d;
  w ← (if offset =? RTC_MR then '(_, w) ← vrtc_set_alarm now y v w; Some w
       else if offset =? RTC_LR then Some (upd_dev (put_rtc d (set_rtc_time v now y)) w)
       else if offset =? RTC_CR then vrtc_enable fuel now junk d y (s32 v) w
       else if offset =? RTC_IMSC then vrtc_int_enable d y (s32 v) w
       else if offset =? RTC_ICR then Some (upd_dev (put_rtc d (set_rtc_int_trigger 0 y)) w)
       else Some w);
  Some (0, value, w).

Definition vrtc_alarm_function (d : Z) w : option (vdw per) :=
  y ← rtcs (w_dev w) !! d;
  o ← w_objs w !! d;
  let w := upd_dev (put_rtc d (set_rtc_int_trigger 1 y)) w in
  Some (if negb (rtc_int_en y =? 0) then upd_dev (per_call_log (pc_send_virq (vd_vm o) PL031_IRQ)) w else w).

Definition vrtc_reset (d : Z) w : option (vdw per) := Some w.

Definition vrtc_deinit (d : Z) w : option (vdw per) :=
  y ← rtcs (w_dev w) !! d;
  w ← stop_at (alarm_timer y) w;
  w ← vdev_release d w;
  Some (upd_dev (drop_dev d) (drop_vdev d w)).

(** A clock whose registers cannot be placed is freed and then used: the next
    access to it fails. *)
Definition vrtc_init (p : Z) (dt : option (Z * Z * Z * Z)) (a : option (Z * Z)) (oks : list bool) w : option (option Z * list bool * vdw per) :=
  match dt, a with
  | Some (base, size, irq, flags), Some (d, t) =>
      if size =? 0 then Some (None, oks, w)
      else
        let s := set_obj t (mk_timer 0 0 0 0 0 0 false None) (per_ts (w_dev w)) in
        let w := host_vdev_init (Some p) d (upd_dev (fun x => set_per_ts s (put_rtc d (mk_vrtc 0 0 0 0 0 0 t) x)) w) in
        '(ret, oks, w) ← vdev_add_iomem_range (Some d) base size oks w;
        let w := if negb (ret =? 0) then upd_dev (drop_dev d) (drop_vdev d w) else w in
        let w := upd_dev (per_call_log (pc_request_virq p irq (Z.lor flags VIRQF_CAN_WAKEUP))) w in
        o ← w_objs w !! d;
        w ← vdev_add d (put_vdev d (set_ops (Some VRTC_READ_FN) (Some VRTC_WRITE_FN) (Some VRTC_DEINIT_FN) (Some VRTC_RESET_FN) o) w);
        s ← init_timer t VRTC_ALARM_FN d (per_ts (w_dev w));
        Some (Some d, oks, upd_dev (set_per_ts s) w)
  | _, _ => Some (None, oks, w)
  end.
End periph.

(** ** The timer of a device *)
Section device_timer.
Context (cpu : nat).
Implicit Type w : vdw per.

(** The timer [t] exists, is armed on no other CPU and its handler does not
    run. *)
Record own_timer (t : Z) (s : tstate) : Prop := mk_own_timer {
  ot_ok : timers_ok s;
  ot_cpu : (cpu < length (timers s))%nat;
  ot_obj : exists o, tobjs s !! t = Some o /\ (t_cpu o = -1 \/ t_cpu o = Z.of_nat cpu);
  ot_run : forall c r, timers s !! c = Some r -> running_timer r <> Some t;
}.

(** It is set to the time [e], or to the next time that can be set. *)
Definition set_for (t e : Z) (s : tstate) : Prop := exists o, tobjs s !! t = Some o /\ armed cpu o /\ e <= t_expires o <= e + TIMER_PRECISION.

Lemma arm_at_ok now t e w :
  own_timer t (per_ts (w_dev w)) -> 0 <= now < 2 ^ 61 -> 0 <= e < 2 ^ 63 ->
  exists s' o, arm_at cpu now t e w = Some (upd_dev (set_per_ts s') w) /\ own_timer t s' /\ tobjs s' !! t = Some o /\ armed cpu o
    /\ t_expires o = Z.max e (now + TIMER_PRECISION).
Proof.
  intros [Hk Hl (o & Ho & Hc) Hr] Hn He. unfold arm_at. destruct (mod_timer_arms cpu now t e _ o Hk Ho Hc Hl Hn He) as (s' & o' & E & Hk' & Ho' & Hex & Ha & _ & Hlen & Hru).
  rewrite E. cbn [mbind option_bind]. exists s', o'. split; [done|]. split; [|done]. split; [done|by rewrite Hlen|exists o'; split; [done|right; apply (ar_cpu _ _ Ha)]|].
  intros c r' Hr'. destruct (Hru c r' Hr') as (r & Hr0 & ->). by apply (Hr c).
Qed.

Lemma stop_at_ok t w : own_timer t (per_ts (w_dev w)) ->
  exists s', stop_at t w = Some (upd_dev (set_per_ts s') w) /\ own_timer t s' /\ unlinked t (timers s').
Proof.
  intros [Hk Hl (o & Ho & Hc) Hr]. unfold stop_at. destruct (stop_timer_total t _ o Hk Ho Hr) as (s' & E & He & (o' & Ho' & Hc') & Hu).
  rewrite E. cbn [mbind option_bind]. exists s'. split; [done|]. split; [|done].
  split; [apply (ef_ok _ _ _ _ He)|by rewrite (ef_len _ _ _ _ He)|exists o'; by split; [|left]|].
  intros c r' Hr'. pose proof (lookup_lt_Some _ _ _ Hr') as Hlt. rewrite (ef_len _ _ _ _ He) in Hlt. destruct (lookup_lt_is_Some_2 _ _ Hlt) as [r Hr0].
  destruct (ef_raw _ _ _ _ He c r Hr0) as (r'' & Hr'' & Hru & _). assert (r'' = r') as -> by congruence. rewrite Hru. by apply (Hr c).
Qed.
End device_timer.

(** ** The watchdog as an automaton *)

(** Off; counting, up to the time given; or warned, counting to the reset. *)
Inductive wphase := WOff | WArmed (deadline : Z) | WWarned (deadline : Z).

Record watchdog := mk_watchdog { wd_locked : bool; wd_reset : bool; wd_load : Z; wd_phase : wphase }.

(** Writes of the guest, and the timer running out. *)
Inductive wop := WWrite (now offset value : Z) | WExpire (now : Z).

Definition is_off (p : wphase) : bool := match p with WOff => true | _ => false end.

Definition spec_write (now offset v : Z) (a : watchdog) : watchdog :=
  let 'mk_watchdog lk rs ld ph := a in
  if lk && negb (offset =? SP805_WDT_LOCK) then a
  else if offset =? SP805_WDT_LOAD then mk_watchdog lk rs (u32 (v + WDT_CLK_RATE - 1) / WDT_CLK_RATE * 1000000000) ph
  else if offset =? SP805_WDT_CTL then
    mk_watchdog lk (Z.testbit v 1) ld (if Z.testbit v 0 then if is_off ph then WArmed (now + ld) else ph else WOff)
  else if offset =? SP805_WDT_INTCLR then mk_watchdog lk rs ld (if is_off ph then WOff else WArmed (now + ld))
  else if offset =? SP805_WDT_LOCK then mk_watchdog (if v =? WDT_UNLOCK then false else if v =? WDT_LOCK then true else lk) rs ld ph
  else a.

(** The number is how often the interrupt is sent; [None] is the reset. *)
Definition wd_step (op : wop) (a : watchdog) : option (watchdog * nat) :=
  match op with
  | WWrite now offset value => Some (spec_write now offset (u32 value) a, 0%nat)
  | WExpire now =>
      match wd_phase a with
      | WOff => Some (a, 0%nat)
      | WArmed _ => Some (mk_watchdog (wd_locked a) (wd_reset a) (wd_load a) (WWarned (now + wd_load a)), 1%nat)
      | WWarned _ => if wd_reset a then None else Some (mk_watchdog (wd_locked a) (wd_reset a) (wd_load a) (WWarned (now + wd_load a)), 1%nat)
      end
  end.

Fixpoint wd_run (ops : list wop) (a : watchdog) : option (watchdog * nat) :=
  match ops with
  | [] => Some (a, 0%nat)
  | op :: ops => '(a, n) ← wd_step op a; '(a, m) ← wd_run ops a; Some (a, (n + m)%nat)
  end.

Section wdt.
Context (current : option Z) (relax : hv -> hv) (send_ok : bool) (cpu : nat).
Implicit Type w : vdw per.

Definition wdt_op (fuel : nat) (d : Z) (op : wop) w : option (vdw per) :=
  match op with
  | WWrite now offset value => '(_, _, w) ← vwdt_mmio_write cpu now d 0 offset value w; Some w
  | WExpire now => vwdt_timer_expire current relax send_ok cpu fuel now d w
  end.

Fixpoint wdt_run (fuel : nat) (d : Z) (ops : list wop) w : option (vdw per) :=
  match ops with [] => Some w | op :: ops => w ← wdt_op fuel d op w; wdt_run fuel d ops w end.

Definition wop_time (op : wop) : Z := match op with WWrite now _ _ | WExpire now => now end.

(** The device is in the state of the automaton; its timer is set to the time
    that the automaton waits for. *)
Definition wdt_is (d t p : Z) (a : watchdog) w : Prop :=
  exists y o, wdts (w_dev w) !! d = Some y /\ wdt_timer y = t /\ w_objs w !! d = Some o /\ vd_vm o = Some p
    /\ access_lock y = b2z (wd_locked a) /\ reset_enable y = b2z (wd_reset a) /\ load_value y = wd_load a /\ 0 <= wd_load a < 2 ^ 48
    /\ own_timer cpu t (per_ts (w_dev w))
    /\ match wd_phase a with
       | WOff => int_enable y = 0 /\ int_trigger y = 0 /\ unlinked t (timers (per_ts (w_dev w)))
       | WArmed dl => int_enable y = 1 /\ int_trigger y = 0 /\ timeout_value y = dl /\ set_for cpu t dl (per_ts (w_dev w))
       | WWarned dl => int_enable y = 1 /\ int_trigger y = 1 /\ timeout_value y = dl /\ set_for cpu t dl (per_ts (w_dev w))
       end.

Lemma restart_ok now d y w :
  own_timer cpu (wdt_timer y) (per_ts (w_dev w)) -> 0 <= now < 2 ^ 61 -> 0 <= load_value y < 2 ^ 48 ->
  exists s', wdt_restart cpu now d y w = Some (upd_dev (set_per_ts s') (upd_dev (put_wdt d (set_timeout_value (now + load_value y) y)) w))
    /\ own_timer cpu (wdt_timer y) s' /\ set_for cpu (wdt_timer y) (now + load_value y) s'.
Proof.
  intros Ht Hn Hl. unfold wdt_restart. rewrite u64_small by lia. set (w1 := upd_dev (put_wdt d _) w).
  destruct (arm_at_ok cpu now (wdt_timer y) (now + load_value y) w1 Ht Hn ltac:(lia)) as (s' & o & E & Hs' & Ho & Ha & He). exists s'. split; [exact E|].
  split; [done|]. exists o. split; [done|]. split; [done|]. unfold TIMER_PRECISION in *. lia.
Qed.

Lemma b2z_eqb (a b : bool) : (b2z a =? b2z b) = eqb a b.
Proof. by destruct a, b. Qed.

Lemma b2z_zero (a : bool) : (b2z a =? 0) = negb a.
Proof. by destruct a. Qed.

(** A state of the device, from its parts. *)
Lemma wdt_is_intro d t p a w y s o :
  w_objs w !! d = Some o -> vd_vm o = Some p -> wdt_timer y = t -> access_lock y = b2z (wd_locked a) -> reset_enable y = b2z (wd_reset a) ->
  load_value y = wd_load a -> 0 <= wd_load a < 2 ^ 48 -> own_timer cpu t s ->
  match wd_phase a with
  | WOff => int_enable y = 0 /\ int_trigger y = 0 /\ unlinked t (timers s)
  | WArmed dl => int_enable y = 1 /\ int_trigger y = 0 /\ timeout_value y = dl /\ set_for cpu t dl s
  | WWarned dl => int_enable y = 1 /\ int_trigger y = 1 /\ timeout_value y = dl /\ set_for cpu t dl s
  end ->
  forall r l, wdt_is d t p a (set_dev (mk_per (<[d := y]> (wdts (w_dev w))) r s l) w).
Proof. intros. exists y, o. cbn [w_dev set_dev wdts w_objs per_ts]. rewrite lookup_insert_eq. split_and!; done || lia. Qed.

Lemma expire_step fuel d t p now a w a' n :
  wdt_is d t p a w -> 0 <= now < 2 ^ 61 -> wd_step (WExpire now) a = Some (a', n) ->
  exists w', vwdt_timer_expire current relax send_ok cpu fuel now d w = Some w' /\ wdt_is d t p a' w'
    /\ per_log (w_dev w') = per_log (w_dev w) ++ replicate n (pc_send_virq (Some p) SP805_IRQ).
Proof.
  intros H Hn E. pose proof H as (y & o & Hy & Ht & Ho & Hv & Hlk & Hrs & Hld & Hb & Hot & Hph). unfold vwdt_timer_expire. rewrite Hy. cbn [mbind option_bind].
  rewrite Ho. cbn [mbind option_bind wd_step] in *.
  assert (forall x, wdt_timer x = t -> load_value x = wd_load a -> access_lock x = access_lock y -> reset_enable x = reset_enable y -> int_enable x = 1 -> int_trigger x = 1 ->
    exists w', wdt_restart cpu now d x (upd_dev (per_call_log (pc_send_virq (vd_vm o) SP805_IRQ)) w) = Some w'
    /\ wdt_is d t p (mk_watchdog (wd_locked a) (wd_reset a) (wd_load a) (WWarned (now + wd_load a))) w'
    /\ per_log (w_dev w') = per_log (w_dev w) ++ replicate 1 (pc_send_virq (Some p) SP805_IRQ)) as Hre.
  { intros x Hxt Hxl Hxk Hxr Hxe Hxi. set (w1 := upd_dev (per_call_log _) w).
    destruct (restart_ok now d x w1) as (s' & E1 & Hot' & Hset); [by rewrite Hxt|done|by rewrite Hxl|]. rewrite E1. eexists. split; [done|]. split.
    - unfold upd_dev, set_per_ts, put_wdt. cbn. eapply (wdt_is_intro d t p _ w (set_timeout_value (now + load_value x) x) s' o); try done; cbn; try congruence.
      split_and!; congruence.
    - cbn. by rewrite Hv. }
  destruct (wd_phase a) as [|dl|dl]; destruct Hph as (Hie & Hit & Hph).
  - rewrite Hit, Hie. cbn [Z.eqb negb andb]. injection E as <- <-. exists w. split; [done|]. split; [exact H|]. cbn. by rewrite app_nil_r.
  - rewrite Hit, Hie. cbn [Z.eqb negb andb]. injection E as <- <-. by apply (Hre (set_int_trigger 1 y)).
  - rewrite Hit, Hie, Hrs. destruct (wd_reset a) eqn:Hr; [done|]. cbn [b2z Z.eqb negb andb]. injection E as <- <-. by apply (Hre (set_int_trigger 1 y)).
Qed.

Lemma ctl_bits v : negb (Z.land v INT_ENABLE =? 0) = Z.testbit v 0 /\ negb (Z.land v RESET_ENABLE =? 0) = Z.testbit v 1.
Proof. change INT_ENABLE with (2 ^ 0). change RESET_ENABLE with (2 ^ 1). by rewrite !land_pow_testbit, !negb_involutive. Qed.

Lemma put_reset_ok d t p lk rs ld ph (rb : bool) y w :
  wdt_is d t p (mk_watchdog lk rs ld ph) w -> wdts (w_dev w) !! d = Some y ->
  let w' := if negb (reset_enable y =? b2z rb) then upd_dev (put_wdt d (set_reset_enable (b2z rb) y)) w else w in
  wdt_is d t p (mk_watchdog lk rb ld ph) w' /\ per_log (w_dev w') = per_log (w_dev w).
Proof.
  intros H Hy. pose proof H as (y' & o & Hy' & Ht & Ho & Hv & Hlk & Hrs & Hld & Hb & Hot & Hph). assert (y' = y) as -> by congruence. cbn [wd_locked wd_reset wd_load wd_phase] in *.
  rewrite Hrs, b2z_eqb. destruct (eqb rs rb) eqn:E; cbn [negb]; [apply eqb_prop in E as <-; by split|]. split; [|done].
  apply (wdt_is_intro d t p _ w _ _ o); try done.
Qed.

(** The interrupt enable bit. *)
Lemma enable_step d t p now (ie : bool) lk rs ld ph y w :
  wdt_is d t p (mk_watchdog lk rs ld ph) w -> 0 <= now < 2 ^ 61 -> wdts (w_dev w) !! d = Some y ->
  exists y' w', wdt_enable cpu now d y (b2z ie) w = Some (y', w') /\ wdts (w_dev w') !! d = Some y'
    /\ wdt_is d t p (mk_watchdog lk rs ld (if ie then if is_off ph then WArmed (now + ld) else ph else WOff)) w' /\ per_log (w_dev w') = per_log (w_dev w).
Proof.
  intros H Hn Hy. pose proof H as (y' & o & Hy' & Ht & Ho & Hv & Hlk & Hrs & Hld & Hb & Hot & Hph). assert (y' = y) as -> by congruence. cbn [wd_locked wd_reset wd_load wd_phase] in *.
  assert (int_enable y = b2z (negb (is_off ph))) as Hie by (destruct ph; tauto). unfold wdt_enable. rewrite Hie, b2z_eqb, b2z_zero.
  destruct ie, (is_off ph) eqn:Eoff; cbn [negb eqb].
  - destruct (restart_ok now d (set_int_enable 1 y) w) as (s' & E1 & Hot' & Hset); [cbn; by rewrite Ht|done|cbn; by rewrite Hld|].
    cbn [b2z]. rewrite E1. cbn [mbind option_bind upd_dev w_dev set_dev set_per_ts put_wdt wdts]. rewrite lookup_insert_eq. cbn [mbind option_bind].
    eexists _, _. split; [done|]. split; [apply lookup_insert_eq|]. split; [|done].
    apply (wdt_is_intro d t p _ w _ s' o); try done; [cbn in *; congruence|]. destruct ph; try done. destruct Hph as (_ & Hit & _).
    cbn in *. split_and!; try done; congruence.
  - exists y, w. by destruct ph.
  - exists y, w. by destruct ph.
  - set (w1 := upd_dev _ w). destruct (stop_at_ok cpu (wdt_timer y) w1) as (s' & E1 & Hot' & Hu); [cbn; by rewrite Ht|]. cbn [wdt_timer set_int_trigger set_int_enable].
    rewrite E1. cbn [mbind option_bind]. eexists _, _. split; [done|]. split; [apply lookup_insert_eq|]. split; [|done].
    apply (wdt_is_intro d t p _ w _ s' o); try done; [congruence|]. cbn. by rewrite <- Ht.
Qed.

Lemma write_step d t p now offset value a w :
  wdt_is d t p a w -> 0 <= now < 2 ^ 61 ->
  exists r w', vwdt_mmio_write cpu now d 0 offset value w = Some (r, value, w') /\ wdt_is d t p (spec_write now offset (u32 value) a) w' /\ per_log (w_dev w') = per_log (w_dev w).
Proof.
  intros H Hn. pose proof H as (y & o & Hy & Ht & Ho & Hv & Hlk & Hrs & Hld & Hb & Hot & Hph). destruct a as [lk rs ld ph]. cbn [wd_locked wd_reset wd_load wd_phase] in *.
  unfold vwdt_mmio_write. rewrite Hy. cbn [mbind option_bind]. rewrite Hlk, b2z_zero, negb_involutive, andb_comm. cbn [spec_write].
  set (v := u32 value). pose proof (u32_range (v + WDT_CLK_RATE - 1)) as Hvr. unfold WDT_CLK_RATE in Hvr. destruct (lk && _) eqn:El; [by eexists _, w|].
  destruct (offset =? SP805_WDT_LOAD).
  { eexists _, _. split; [done|]. split; [|done]. apply (wdt_is_intro d t p _ w _ _ o); try done; unfold WDT_CLK_RATE, SECONDS; cbn; [apply u64_small; dlia|dlia]. }
  destruct (offset =? SP805_WDT_CTL).
  { destruct (ctl_bits v) as [-> ->]. unfold vwdt_config_ctrl.
    destruct (enable_step d t p now (Z.testbit v 0) lk rs ld ph y w H Hn Hy) as (y' & w' & E1 & Hy' & Hw' & Hlog). rewrite E1. cbn [mbind option_bind].
    destruct (put_reset_ok d t p lk rs ld _ (Z.testbit v 1) y' w' Hw' Hy') as [Hw2 Hl2]. eexists _, _. split; [done|]. split; [done|]. by rewrite Hl2. }
  destruct (offset =? SP805_WDT_INTCLR).
  { unfold vwdt_config_intclr. assert (int_enable y = b2z (negb (is_off ph))) as Hie by (destruct ph; tauto). cbn [int_enable set_int_trigger]. rewrite Hie, b2z_zero, negb_involutive.
    destruct (is_off ph) eqn:Eoff; cbn [negb mbind option_bind].
    - eexists _, _. split; [done|]. split; [|done]. apply (wdt_is_intro d t p _ w _ _ o); try done. destruct ph; try done. cbn in *. tauto.
    - destruct (restart_ok now d (set_int_trigger 0 y) w) as (s' & E1 & Hot' & Hset); [cbn; by rewrite Ht|done|cbn; by rewrite Hld|]. rewrite E1.
      eexists _, _. split; [done|]. split; [|done]. apply (wdt_is_intro d t p _ w _ s' o); try done; [cbn in *; congruence|]. destruct ph; try done; cbn in *; split_and!; try done; congruence. }
  destruct (offset =? SP805_WDT_LOCK); [|by eexists _, w].
  destruct (v =? WDT_UNLOCK); [|destruct (v =? WDT_LOCK); [|by eexists _, w]];
    (eexists _, _; split; [done|]; split; [|done]; by apply (wdt_is_intro d t p _ w _ _ o)).
Qed.

Lemma wdt_op_step fuel d t p op a w a' n :
  wdt_is d t p a w -> 0 <= wop_time op < 2 ^ 61 -> wd_step op a = Some (a', n) ->
  exists w', wdt_op fuel d op w = Some w' /\ wdt_is d t p a' w' /\ per_log (w_dev w') = per_log (w_dev w) ++ replicate n (pc_send_virq (Some p) SP805_IRQ).
Proof.
  intros H Hn E. destruct op as [now offset value|now]; [|by apply (expire_step fuel d t p now a)]. injection E as <- <-.
  destruct (write_step d t p now offset value a w H Hn) as (r & w' & E & Hw' & Hl). exists w'. cbn [wdt_op]. rewrite E. split; [done|]. split; [done|]. by rewrite app_nil_r.
Qed.

(** C23: the watchdog of a guest is the automaton: off, counting, warned.  Any
    sequence of register writes and timer expiries that does not lead to the
    reset runs as the automaton says, with the interrupts it says and the timer
    set for the time it waits for; the writes are ignored while the device is
    locked.  The reset comes only with a second expiry after the warning, and
    then panics for a native VM and is reported to the host for a guest. *)
Theorem vwdt_refines_automaton fuel d t p ops : forall a w,
  wdt_is d t p a w -> Forall (fun op => 0 <= wop_time op < 2 ^ 61) ops ->
  (forall a' n, wd_run ops a = Some (a', n) ->
    exists w', wdt_run fuel d ops w = Some w' /\ wdt_is d t p a' w' /\ per_log (w_dev w') = per_log (w_dev w) ++ replicate n (pc_send_virq (Some p) SP805_IRQ))
  /\ (wd_run ops a = None -> exists ops1 now ops2 a1 n dl w1, ops = ops1 ++ WExpire now :: ops2 /\ wd_run ops1 a = Some (a1, n) /\ wd_phase a1 = WWarned dl /\ wd_reset a1 = true
      /\ wdt_run fuel d ops1 w = Some w1
      /\ forall m, vm_heap (w_hv w1) !! p = Some m -> wdt_op fuel d (WExpire now) w1
         = if vm_is_native m then None
           else '(_, _, s) ← trap_vcpu_nonblock current relax send_ok fuel VMTRAP_TYPE_COMMON VMTRAP_REASON_WDT_TIMEOUT 0 None (w_hv w1); Some (set_hv s w1)).
Proof.
  induction ops as [|op ops IH]; intros a w H Hf; cbn [wd_run wdt_run].
  { split; [|done]. intros a' n [= <- <-]. exists w. split; [done|]. split; [done|]. by rewrite app_nil_r. }
  apply Forall_cons_1 in Hf as [Hn Hf]. destruct (wd_step op a) as [[a1 n1]|] eqn:E1; cbn [mbind option_bind].
  - destruct (wdt_op_step fuel d t p op a w a1 n1 H Hn E1) as (w1 & E & Hw1 & Hl1). rewrite E. cbn [mbind option_bind]. destruct (IH a1 w1 Hw1 Hf) as [IH1 IH2]. split.
    + intros a' n. destruct (wd_run ops a1) as [[a2 n2]|]; [|done]. cbn [mbind option_bind]. intros [= <- <-]. destruct (IH1 a2 n2 eq_refl) as (w' & Ew & Hw' & Hl).
      exists w'. split; [done|]. split; [done|]. by rewrite Hl, Hl1, <- app_assoc, replicate_add.
    + intros En. destruct (wd_run ops a1) as [[]|] eqn:Er; [done|]. destruct (IH2 eq_refl) as (ops1 & now & ops2 & a2 & n2 & dl & w2 & -> & Hr & Hp & Hrs & Hw & Hx).
      exists (op :: ops1), now, ops2, a2, (n1 + n2)%nat, dl, w2. split; [done|]. cbn [wd_run wdt_run]. rewrite E1. cbn [mbind option_bind]. rewrite Hr. cbn [mbind option_bind].
      rewrite E. cbn [mbind option_bind]. by split_and!.
  - split; [done|]. intros _. destruct op as [|now]; [done|]. cbn [wd_step] in E1. destruct (wd_phase a) as [| |dl] eqn:Eph; try done. destruct (wd_reset a) eqn:Ers; [|done].
    exists [], now, ops, a, 0%nat, dl, w. split_and!; try done. intros m Hm. destruct H as (y & o & Hy & Ht & Ho & Hv & Hlk & Hrs & Hld & Hb & Hot & Hph).
    rewrite Eph in Hph. destruct Hph as (Hie & Hit & _). cbn [wdt_op]. unfold vwdt_timer_expire. rewrite Hy. cbn [mbind option_bind]. rewrite Ho. cbn [mbind option_bind].
    rewrite Hit, Hrs, Ers. cbn [b2z Z.eqb negb andb]. rewrite Hv. cbn [mbind option_bind]. by rewrite Hm.
Qed.
End wdt.

(** ** The clock *)
Section rtc.
Context (current : option Z) (relax : hv -> hv) (send_ok : bool) (cpu : nat).
Implicit Type w : vdw per.

Lemma dr_read now d idx old y w :
  rtcs (w_dev w) !! d = Some y -> rtc_en y <> 0 -> 0 <= rtc_offset y <= now -> now < 2 ^ 64 -> 0 <= time_base y < 2 ^ 32 ->
  vrtc_mmio_read now d idx RTC_DR old w = Some (0, time_base y + (now - rtc_offset y) / 1000000000, w).
Proof.
  intros Hy Hen Ho Hn Hb. unfold vrtc_mmio_read. rewrite Hy. cbn [mbind option_bind Z.eqb]. cbn. rewrite (proj2 (Z.eqb_neq _ _) Hen).
  rewrite (u64_small (now - _)) by lia. change (u32 (SECONDS 1)) with 1000000000. rewrite muldiv64_ok by lia. cbn [mbind option_bind]. rewrite Z.mul_1_r.
  assert (0 <= (now - rtc_offset y) / 1000000000 < 2 ^ 35) as Hq by dlia.
  rewrite (u64_small ((now - _) / _)) by lia. by rewrite u64_small by lia.
Qed.

(** A clock that is set shows the time that was set plus the whole seconds
    that went by, at every later time. *)
Theorem vrtc_counts_seconds fuel now0 junk d value y w :
  rtcs (w_dev w) !! d = Some y -> rtc_en y <> 0 -> 0 <= now0 ->
  exists w', vrtc_mmio_write current relax send_ok cpu fuel now0 junk d 0 RTC_LR value w = Some (0, value, w')
    /\ forall now old, now0 <= now < 2 ^ 64 -> vrtc_mmio_read now d 0 RTC_DR old w' = Some (0, u32 value + (now - now0) / 1000000000, w').
Proof.
  intros Hy Hen H0. unfold vrtc_mmio_write. rewrite Hy. cbn [mbind option_bind]. cbn. eexists. split; [done|]. intros now old Hn.
  apply (dr_read now d 0 old (set_rtc_time (u32 value) now0 y)); cbn; [apply lookup_insert_eq|done|lia|lia|apply u32_range].
Qed.

(** An alarm in the future of the clock is set for the time at which the
    clock shows it, neither earlier nor later, or for the next time that can be
    set when that time is too close. *)
Theorem vrtc_alarm_on_time fuel now junk d alarm y w :
  rtcs (w_dev w) !! d = Some y -> rtc_en y <> 0 -> 0 <= time_base y < alarm -> alarm < 2 ^ 32 -> 0 <= rtc_offset y <= now -> now < 2 ^ 61 ->
  own_timer cpu (alarm_timer y) (per_ts (w_dev w)) ->
  exists w' o due, vrtc_mmio_write current relax send_ok cpu fuel now junk d 0 RTC_MR alarm w = Some (0, alarm, w')
    /\ tobjs (per_ts (w_dev w')) !! alarm_timer y = Some o /\ armed cpu o /\ t_expires o = Z.max due (now + TIMER_PRECISION)
    /\ forall later old, rtc_offset y <= later < 2 ^ 64 ->
         exists shown, vrtc_mmio_read later d 0 RTC_DR old w' = Some (0, shown, w') /\ (alarm <= shown <-> due <= later).
Proof.
  intros Hy Hen Hb Ha Ho Hn Ht. unfold vrtc_mmio_write. rewrite Hy. cbn [mbind option_bind]. cbn. unfold vrtc_set_alarm.
  rewrite (u32_small alarm) by lia. rewrite (proj2 (Z.leb_gt alarm (time_base y))) by lia. rewrite (u32_small (alarm - _)) by lia.
  unfold SECONDS. rewrite (u64_small ((alarm - time_base y) * 1000000000)) by lia.
  set (due := (alarm - time_base y) * 1000000000 + rtc_offset y). rewrite (u64_small due) by (unfold due; lia).
  destruct (arm_at_ok cpu now (alarm_timer y) due w Ht ltac:(lia) ltac:(unfold due; lia)) as (s' & o & E & _ & Ho' & Har & Hex). rewrite E. cbn [mbind option_bind].
  eexists _, o, due. split; [done|]. split; [done|]. split; [done|]. split; [done|]. intros later old Hl.
  eexists. split; [apply (dr_read later d 0 old y); [done|done|lia|lia|lia]|]. unfold due. dlia.
Qed.
End rtc.

(** ** A new watchdog *)

(** A timer in memory that was just allocated. *)
Lemma fresh_timer_ok s t o : timers_ok s -> tobjs s !! t = None -> Timer.t_entry o = false -> obj_ok (length (timers s)) o -> timers_ok (set_obj t o s).
Proof.
  intros [Hl Hnd He Ho Hn] Hf Heo Hok. split; cbn [timers tobjs set_obj]; [|done| | |].
  - intros c r u Hr Hu. destruct (Hl c r u Hr Hu) as (x & Hx & Ha). exists x. split; [|done]. rewrite lookup_insert_ne; [done|]. by intros ->; congruence.
  - intros u x. rewrite lookup_insert_Some. intros [[<- <-]|[_ H]] Hx; [congruence|by eapply He].
  - intros u x. rewrite lookup_insert_Some. intros [[<- <-]|[_ H]]; [done|by eapply Ho].
  - intros c r n Hr Hx. rewrite lookup_insert_is_Some'. right. by eapply Hn.
Qed.

Lemma add_keeps_dev d (w w' : vdw per) : vdev_add d w = Some w' ->
  w_dev w' = w_dev w /\ forall o p, w_objs w !! d = Some o -> vd_vm o = Some p -> exists o', w_objs w' !! d = Some o' /\ vd_vm o' = Some p.
Proof.
  unfold vdev_add. destruct (w_objs w !! d) as [o|] eqn:Ho; [|done]. cbn [mbind option_bind]. destruct (vd_vm o) as [p|] eqn:Hv; intros E.
  - unfold assert_ in E. destruct (negb _) in E; [|done]. cbn [mbind option_bind] in E. destruct (vm_heap _ !! p) in E; [|done]. cbn [mbind option_bind] in E. injection E as <-.
    split; [done|]. intros o' p' [= <-] Hp. eexists. split; [cbn; apply lookup_insert_eq|done].
  - injection E as <-. split; [done|]. intros o' p' [= <-] Hp. congruence.
Qed.

(** A watchdog that is made is locked and off. *)
Theorem vwdt_init_correct cpu p base size irq d t oks w oks' w' :
  vwdt_init p (Some (base, size, irq)) (Some (d, t)) oks w = Some (None, oks', w') ->
  size <> 0 -> timers_ok (per_ts (w_dev w)) -> (cpu < length (timers (per_ts (w_dev w))))%nat -> tobjs (per_ts (w_dev w)) !! t = None ->
  (forall c r, timers (per_ts (w_dev w)) !! c = Some r -> running_timer r <> Some t) ->
  w_objs w !! d = None -> wdts (w_dev w) !! d = None ->
  if decide (w_objs w' !! d = None) then wdts (w_dev w') !! d = None else wdt_is cpu d t p (mk_watchdog true false 0 WOff) w'.
Proof.
  intros E Hs Hk Hl Hf Hr Hd Hw. unfold vwdt_init in E. rewrite (proj2 (Z.eqb_neq _ _) Hs) in E. set (w0 := host_vdev_init _ _ _) in E.
  destruct (vdev_add_iomem_range _ _ _ _ w0) as [[[ret oks1] w1]|] eqn:E1; [|done]. cbn [mbind option_bind] in E.
  destruct (add_iomem_frame d _ _ _ w0 _ _ _ (mk_vdev (Some p) 1 [] false None None (Some VDEV_DEINIT) None) E1) as (_ & Edev & [l Hl1] & _); [apply lookup_insert_eq|].
  destruct (negb (ret =? 0)); [injection E as _ <-; cbn; rewrite lookup_delete_eq; destruct (decide _); [apply lookup_delete_eq|done]|].
  set (w2 := upd_dev _ w1) in E. change (w_objs w2) with (w_objs w1) in E. rewrite Hl1 in E. cbn [mbind option_bind] in E.
  destruct (vdev_add d _) as [w3|] eqn:E3; [|done]. cbn [mbind option_bind] in E. apply add_keeps_dev in E3 as [Edev3 Hobj].
  destruct (Hobj _ p (lookup_insert_eq _ _ _) eq_refl) as (o' & Ho' & Hv'). rewrite Edev3 in E. cbn [w_dev put_vdev] in E.
  assert (per_ts (w_dev w2) = set_obj t (mk_timer 0 0 0 0 0 0 false None) (per_ts (w_dev w))) as Ets by (unfold w2; cbn; by rewrite Edev).
  rewrite Ets in E. unfold init_timer in E. cbn [set_obj tobjs] in E. rewrite lookup_insert_eq in E. cbn [mbind option_bind] in E. injection E as _ <-.
  unfold set_obj. cbn [timers tobjs hist]. rewrite insert_insert_eq. cbn [w_objs upd_dev set_dev]. destruct (decide _) as [Hx|_]; [by rewrite Ho' in Hx|].
  set (x := mk_timer (-1) 0 0 0 VWDT_EXPIRE_FN d false None). change (mk_ts _ _ _) with (set_obj t x (per_ts (w_dev w))).
  assert (timers_ok (set_obj t x (per_ts (w_dev w)))) as Hk' by (apply fresh_timer_ok; try done; split; [cbn; lia|by left]).
  eexists (mk_vwdt 0 0 0 1 0 0 t), o'. cbn [w_dev upd_dev set_dev set_per_ts wdts per_ts w_objs]. rewrite Edev3. split_and!; try done.
  - cbn. apply lookup_insert_eq.
  - split; [done|done|exists x; split; [apply lookup_insert_eq|by left]|done].
  - split; [done|]. split; [done|]. intros c r Hc Hin. destruct (tk_link _ Hk _ _ _ Hc Hin) as (o2 & Ho2 & _). congruence.
Qed.

(** ** A concrete guest with a watchdog and a clock *)
Definition demo_per0 : per := mk_per ∅ {[11 := mk_vrtc 1 0 0 1000 0 5000000000 21]} (init_raw_timers 1 {[21 := mk_timer (-1) 0 0 0 VRTC_ALARM_FN 11 false None]}) [].
Definition demo_pw0 : vdw per :=
  mk_vdw (demo_vdev_hv 0) {[11 := mk_vdev (Some 1) 1 [mk_area 0x3000 0x4000 BAD_ADDRESS VM_GUEST_VDEV 0 []] true None None None None]}
    {[1 := mk_areas [mk_area 0 0x3000 0 0 0 []] []]} demo_per0.
Definition demo_pw : vdw per := from_option (fun r => snd r) demo_pw0 (vwdt_init 1 (Some (0x1000, 0x1000, 32)) (Some (10, 20)) (repeat true 8) demo_pw0).

Lemma demo_per0_ok : timers_ok (per_ts demo_per0).
Proof. apply init_raw_timers_ok. intros t o [<- <-]%lookup_singleton_Some. split; [done|]. split; [cbn; lia|by left]. Qed.

Lemma demo_off : wdt_is 0 10 20 1 (mk_watchdog true false 0 WOff) demo_pw.
Proof.
  destruct (vwdt_init 1 (Some (0x1000, 0x1000, 32)) (Some (10, 20)) (repeat true 8) demo_pw0) as [[[r oks] w']|] eqn:E; [|by vm_compute in E].
  assert (r = None) as -> by (vm_compute in E; by injection E as <- _ _).
  pose proof (vwdt_init_correct 0 1 0x1000 0x1000 32 10 20 _ demo_pw0 _ _ E) as H. unfold demo_pw. rewrite E. cbn [from_option snd].
  destruct (decide (w_objs w' !! 10 = None)) as [Hx|_] in H; [by vm_compute in E; injection E as _ <-; vm_compute in Hx|].
  apply H; [done|apply demo_per0_ok|cbn; lia|done|by intros [|[|c]] r Hr; [injection Hr as <-; intros Hx| |]|done|done].
Qed.

(** Unlocked, loaded with two seconds and enabled with reset, the watchdog warns
    once, is kicked, and warns again. *)
Definition demo_ops : list wop :=
  [WWrite 0 SP805_WDT_LOCK WDT_UNLOCK; WWrite 0 SP805_WDT_LOAD 65536; WWrite 1000 SP805_WDT_CTL 3; WExpire 2000001000;
   WWrite 2500000000 SP805_WDT_INTCLR 0; WExpire 4500000000].

Lemma vwdt_refines_automaton_witness :
  exists w', wdt_run (Some 2) demo_answer true 0 2 10 demo_ops demo_pw = Some w'
    /\ wdt_is 0 10 20 1 (mk_watchdog false true 2000000000 (WWarned 6500000000)) w'.
Proof.
  destruct (vwdt_refines_automaton (Some 2) demo_answer true 0 2 10 20 1 demo_ops (mk_watchdog true false 0 WOff) demo_pw demo_off) as [H _].
  - repeat apply Forall_cons_2; try apply Forall_nil_2; cbn; lia.
  - destruct (H (mk_watchdog false true 2000000000 (WWarned 6500000000)) 2%nat) as (w' & E & Hw & _); [by vm_compute|]. exists w'. split; [exact E|exact Hw].
Defined.

Lemma vrtc_counts_seconds_witness :
  exists w', vrtc_mmio_write (Some 2) demo_answer true 0 2 6000000000 0 11 0 RTC_LR 1700000000 demo_pw0 = Some (0, 1700000000, w')
    /\ vrtc_mmio_read 8500000000 11 0 RTC_DR 0 w' = Some (0, 1700000002, w').
Proof.
  destruct (vrtc_counts_seconds (Some 2) demo_answer true 0 2 6000000000 0 11 1700000000 (mk_vrtc 1 0 0 1000 0 5000000000 21) demo_pw0) as (w' & E & H);
    [by vm_compute|done|lia|]. exists w'. split; [exact E|]. apply (H 8500000000 0). lia.
Defined.

Lemma demo_own : own_timer 0 21 (per_ts demo_per0).
Proof.
  split; [apply demo_per0_ok|cbn; lia|eexists; split; [vm_compute; reflexivity|by left]|]. by intros [|[|c]] r Hr; [injection Hr as <-; intros Hx| |].
Qed.

Lemma vrtc_alarm_on_time_witness :
  exists w' o due, vrtc_mmio_write (Some 2) demo_answer true 0 2 6000000000 0 11 0 RTC_MR 1010 demo_pw0 = Some (0, 1010, w')
    /\ tobjs (per_ts (w_dev w')) !! 21 = Some o /\ t_expires o = Z.max due 6001000000.
Proof.
  destruct (vrtc_alarm_on_time (Some 2) demo_answer true 0 2 6000000000 0 11 1010 (mk_vrtc 1 0 0 1000 0 5000000000 21) demo_pw0) as (w' & o & due & E & Ho & _ & He & _);
    [by vm_compute|done|cbn; lia|lia|cbn; lia|lia|apply demo_own|]. exists w', o, due. split; [exact E|]. split; [exact Ho|exact He].
Defined.

(** A load value close to the largest wraps around to a timeout of zero. *)
Lemma vwdt_load_wraps :
  exists w1, wdt_run (Some 2) demo_answer true 0 2 10 [WWrite 0 SP805_WDT_LOCK WDT_UNLOCK; WWrite 0 SP805_WDT_LOAD 0xffffffff] demo_pw = Some w1
    /\ load_value <$> wdts (w_dev w1) !! 10 = Some 0.
Proof. eexists. split; [vm_compute; reflexivity|]. vm_compute. reflexivity. Qed.

(** Less than a second before the timeout the guest reads that no time is
    left. *)
Lemma vwdt_time_left_truncated y : timeout_value y = 1999999999 -> wdt_timeleft 1000000000 y = 0.
Proof. unfold wdt_timeleft. by intros ->. Qed.

(** Writing 1 to the interrupt mask, which enables the interrupt of a PL031, is
    ignored; writing 0 enables it. *)
Lemma vrtc_mask_inverted :
  (exists w1, vrtc_mmio_write (Some 2) demo_answer true 0 2 0 0 11 0 RTC_IMSC 1 demo_pw0 = Some (0, 1, w1) /\ rtc_int_en <$> rtcs (w_dev w1) !! 11 = Some 0)
  /\ (exists w1, vrtc_mmio_write (Some 2) demo_answer true 0 2 0 0 11 0 RTC_IMSC 0 demo_pw0 = Some (0, 0, w1) /\ rtc_int_en <$> rtcs (w_dev w1) !! 11 = Some 1).
Proof. split; (eexists; split; [vm_compute; reflexivity|vm_compute; reflexivity]). Qed.

(** The match register reads 0 after an alarm was set. *)
Lemma vrtc_match_lost :
  exists w1, vrtc_mmio_write (Some 2) demo_answer true 0 2 6000000000 0 11 0 RTC_MR 1010 demo_pw0 = Some (0, 1010, w1)
    /\ vrtc_mmio_read 6000000000 11 0 RTC_MR 7 w1 = Some (0, 0, w1).
Proof. eexists. split; [vm_compute; reflexivity|vm_compute; reflexivity]. Qed.

(** A clock whose registers cannot be placed is freed and used afterwards. *)
Lemma vrtc_init_uses_freed : vrtc_init 1 (Some (0x9000, 0x1000, 33, 0)) (Some (12, 22)) (repeat true 8) demo_pw0 = None.
Proof. vm_compute. reflexivity. Qed.
