(* ===== verification/Vmodule.v ===== *)
(** * The state of a vcpu and its switch (virt/vmodule.c,
      arch/aarch64/virt/arch_virt.c, arch/aarch64/virt/vfp.c,
      arch/aarch64/core/fpsimd.c)

    The parts of the hypervisor that keep state per vcpu are modules with hooks
    that are called when a vcpu is created, switched, reset and so on; each
    module has a block of memory in the [context] array of the vcpu.  Here are
    the framework, over any machine [M] and any blocks [B], and the modules of
    the system registers and of the floating point unit.  A hook that uses NULL
    is [None]; so is a failed assertion. *)
From stdpp Require Import strings.
From S2P Require Import Prelude Bitops Task Vm.

(** ** The framework *)
Section framework.
Context {M B : Type} (B0 : B).

(** The vcpu, its block if there is one, and the machine. *)
Definition hook : Type := Z -> option B -> M -> option (option B * M).

Record vmodule := mk_vmodule {
  vmo_name : string;
  vmo_id : nat;
  context_size : Z;
  state_save : option hook;
  state_restore : option hook;
  state_init : option hook;
  state_deinit : option hook;
  state_reset : option hook;
  state_stop : option hook;
  state_suspend : option hook;
  state_resume : option hook;
  state_dump : option hook;
}.

(** [contexts] has the array of each vcpu that has one. *)
Record vmods := mk_vmods {
  vmodule_list : list vmodule;
  vmodule_class_nr : nat;
  contexts : gmap Z (list (option B));
  mach : M;
}.

Definition put_context (v : Z) (c : list (option B)) (s : vmods) : vmods := mk_vmods (vmodule_list s) (vmodule_class_nr s) (<[v := c]> (contexts s)) (mach s).
Definition set_mach (m : M) (s : vmods) : vmods := mk_vmods (vmodule_list s) (vmodule_class_nr s) (contexts s) m.

Definition VCPU_CORE : string := "vcpu_core".

(** [malloc_ok] is that [malloc] returns memory; [init] is the routine of the
    module, which fills in the size and the hooks. *)
Definition create_vmodule (name : string) (init : option (vmodule -> vmodule)) (malloc_ok : bool) (s : vmods) : bool * vmods :=
  if negb malloc_ok then (false, s)
  else
    let name := String.substring 0 31 name in
    let m := mk_vmodule name (vmodule_class_nr s) 0 None None None None None None None None None in
    let m := match init with Some f => f m | None => m end in
    (true, mk_vmods (if String.eqb (vmo_name m) VCPU_CORE then m :: vmodule_list s else vmodule_list s ++ [m]) (S (vmodule_class_nr s)) (contexts s) (mach s)).

Definition register_vcpu_vmodule (name : string) (init : vmodule -> vmodule) (malloc_ok : bool) (s : vmods) : Z * vmods :=
  let '(ok, s) := create_vmodule name (Some init) malloc_ok s in (if ok then 0 else - ENOMEM, s).

(** The modules that the linker collects, with what [malloc] gives for each. *)
Fixpoint vmodules_init (l : list (string * option (vmodule -> vmodule) * bool)) (s : vmods) : vmods :=
  match l with
  | [] => s
  | (name, init, ok) :: l => vmodules_init l (snd (create_vmodule name init ok s))
  end.

(** [vcpu->context[id]]; NULL and an index outside of the array are [None]. *)
Definition get_vmodule_data_by_id (v : Z) (id : nat) (s : vmods) : option (option B) := c ← contexts s !! v; c !! id.

Definition put_data (v : Z) (id : nat) (d : option B) (s : vmods) : option vmods := c ← contexts s !! v; Some (put_context v (<[id := d]> c) s).

Definition run_hook (h : hook) (v : Z) (id : nat) (s : vmods) : option vmods :=
  d ← get_vmodule_data_by_id v id s;
  '(d', m) ← h v d (mach s);
  s ← put_data v id d' s;
  Some (set_mach m s).

(** One module of [vcpu_vmodules_init]: a block that is not there yet is
    allocated, cleared and given to the hook. *)
Definition init_one (v : Z) (m : vmodule) (ok : bool) (s : vmods) : option vmods :=
  if context_size m =? 0 then Some s
  else
    d ← get_vmodule_data_by_id v (vmo_id m) s;
    _ ← assert_ (match d with Some _ => true | None => ok end);
    s ← put_data v (vmo_id m) (Some B0) s;
    match state_init m with Some h => run_hook h v (vmo_id m) s | None => Some s end.

Fixpoint init_loop (v : Z) (l : list vmodule) (oks : list bool) (s : vmods) : option vmods :=
  match l with
  | [] => Some s
  | m :: l => s ← init_one v m (default true (head oks)) s; init_loop v l (tail oks) s
  end.

(** The array is allocated anew on every call. *)
Definition vcpu_vmodules_init (v : Z) (zalloc_ok : bool) (oks : list bool) (s : vmods) : option vmods :=
  if (vmodule_class_nr s =? 0)%nat then Some s
  else
    _ ← assert_ zalloc_ok;
    init_loop v (vmodule_list s) oks (put_context v (replicate (vmodule_class_nr s) None) s).

(** The hooks run; the number of blocks that are freed is the result.  The
    array keeps the pointers. *)
Fixpoint deinit_loop (v : Z) (l : list vmodule) (s : vmods) : option (nat * vmods) :=
  match l with
  | [] => Some (0%nat, s)
  | m :: l =>
      d ← get_vmodule_data_by_id v (vmo_id m) s;
      s ← match state_deinit m with Some h => run_hook h v (vmo_id m) s | None => Some s end;
      '(n, s) ← deinit_loop v l s;
      Some (match d with Some _ => S n | None => n end, s)
  end.

Definition vcpu_vmodules_deinit (v : Z) (s : vmods) : option (nat * vmods) :=
  match contexts s !! v with None => Some (0%nat, s) | Some _ => deinit_loop v (vmodule_list s) s end.

(** [VCPU_VMODULE_ACTION]. *)
Fixpoint action_loop (sel : vmodule -> option hook) (v : Z) (l : list vmodule) (s : vmods) : option vmods :=
  match l with
  | [] => Some s
  | m :: l => s ← match sel m with Some h => run_hook h v (vmo_id m) s | None => Some s end; action_loop sel v l s
  end.

Definition save_vcpu_vmodule_state (v : Z) (s : vmods) : option vmods := action_loop state_save v (vmodule_list s) s.
Definition restore_vcpu_vmodule_state (v : Z) (s : vmods) : option vmods := action_loop state_restore v (vmodule_list s) s.
Definition reset_vcpu_vmodule_state (v : Z) (s : vmods) : option vmods := action_loop state_reset v (vmodule_list s) s.
Definition stop_vcpu_vmodule_state (v : Z) (s : vmods) : option vmods := action_loop state_stop v (vmodule_list s) s.
Definition suspend_vcpu_vmodule_state (v : Z) (s : vmods) : option vmods := action_loop state_suspend v (vmodule_list s) s.
Definition resume_vcpu_vmodule_state (v : Z) (s : vmods) : option vmods := action_loop state_resume v (vmodule_list s) s.
Definition dump_vcpu_vmodule_state (v : Z) (s : vmods) : option vmods := action_loop state_dump v (vmodule_list s) s.

(** virt/vm.c: the hooks of the context switch. *)
Definition vcpu_context_save (v : Z) (s : vmods) : option vmods := save_vcpu_vmodule_state v s.
Definition vcpu_context_restore (v : Z) (s : vmods) : option vmods := restore_vcpu_vmodule_state v s.
End framework.

Arguments vmodule : clear implicits.
Arguments vmods : clear implicits.
Arguments hook : clear implicits.

(** ** The system registers of a vcpu *)
Inductive sysreg :=
| VBAR_EL1 | ESR_EL1 | ELR_EL1 | VMPIDR_EL2 | VPIDR_EL2 | SCTLR_EL1 | HCR_EL2 | SP_EL1 | SP_EL0 | SPSR_EL1 | FAR_EL1 | ACTLR_EL1
| TPIDR_EL1 | CSSELR_EL1 | CPACR_EL1 | CONTEXTIDR_EL1 | TPIDR_EL0 | TPIDRRO_EL0 | CNTKCTL_EL1 | AFSR0_EL1 | AFSR1_EL1
| DACR32_EL2 | IFSR32_EL2 | VTCR_EL2 | VTTBR_EL2 | TTBR0_EL1 | TTBR1_EL1 | MAIR_EL1 | TCR_EL1 | PAR_EL1 | AMAIR_EL1
| FPEXC32_EL2 | CPTR_EL2 | FPSR | FPCR | Q_reg (n : Z).

#[export] Instance sysreg_eq : EqDecision sysreg.
Proof. solve_decision. Defined.

(** The fields of [struct vcpu_context] and of [struct vfp_context]. *)
Inductive field :=
| vbar_el1 | esr_el1 | sp_el1 | sp_el0 | elr_el1 | vmpidr | vpidr | sctlr_el1 | hcr_el2 | spsr_el1 | far_el1 | actlr_el1
| tpidr_el1 | csselr | cpacr | contextidr | tpidr_el0 | tpidrro_el0 | cntkctl | afsr0 | afsr1 | dacr32_el2 | ifsr32_el2
| vtcr_el2 | ttbr0_el1 | ttbr1_el1 | vttbr_el2 | mair_el1 | amair_el1 | tcr_el1 | par_el1
| vfp_regs (n : Z) | fpexc32_el2 | fpsr | fpcr | cptr.

#[export] Instance field_eq : EqDecision field.
Proof. solve_decision. Defined.

(** The registers of the CPU, and a block of memory. *)
Definition sysregs : Type := sysreg -> Z.
Definition block : Type := field -> Z.
Definition zero_block : block := fun _ => 0.

Definition upd {K} `{EqDecision K} (k : K) (v : Z) (f : K -> Z) : K -> Z := fun x => if decide (x = k) then v else f x.

(** A 32 bit field keeps the low half of the register. *)
Definition narrow (f : field) : bool :=
  match f with dacr32_el2 | ifsr32_el2 | fpexc32_el2 | fpsr | fpcr | cptr => true | _ => false end.
Definition fit (f : field) (v : Z) : Z := if narrow f then u32 v else v.

(** [c->f = read_sysreg(r)] and [write_sysreg(c->f, r)], for each pair. *)
Definition save_all (l : list (field * sysreg)) (m : sysregs) (c : block) : block := fold_left (fun c '(f, r) => upd f (fit f (m r)) c) l c.
Definition restore_all (l : list (field * sysreg)) (c : block) (m : sysregs) : sysregs := fold_left (fun m '(f, r) => upd r (c f) m) l m.

Section hooks.
Context (task_is_32bit : Z -> bool).

Definition arch_saved (is32 : bool) : list (field * sysreg) :=
  [(vbar_el1, VBAR_EL1); (esr_el1, ESR_EL1); (elr_el1, ELR_EL1); (vmpidr, VMPIDR_EL2); (vpidr, VPIDR_EL2); (sctlr_el1, SCTLR_EL1);
   (hcr_el2, HCR_EL2); (sp_el1, SP_EL1); (sp_el0, SP_EL0); (spsr_el1, SPSR_EL1); (far_el1, FAR_EL1); (actlr_el1, ACTLR_EL1);
   (tpidr_el1, TPIDR_EL1); (csselr, CSSELR_EL1); (cpacr, CPACR_EL1); (contextidr, CONTEXTIDR_EL1); (tpidr_el0, TPIDR_EL0);
   (tpidrro_el0, TPIDRRO_EL0); (cntkctl, CNTKCTL_EL1); (afsr0, AFSR0_EL1); (afsr1, AFSR1_EL1)]
  ++ (if is32 then [(dacr32_el2, DACR32_EL2); (ifsr32_el2, IFSR32_EL2)] else [])
  ++ [(vtcr_el2, VTCR_EL2); (vttbr_el2, VTTBR_EL2); (ttbr0_el1, TTBR0_EL1); (ttbr1_el1, TTBR1_EL1); (mair_el1, MAIR_EL1);
      (tcr_el1, TCR_EL1); (par_el1, PAR_EL1); (amair_el1, AMAIR_EL1)].

Definition arch_vcpu_state_save : hook sysregs block := fun v d m =>
  c ← d; Some (Some (save_all (arch_saved (task_is_32bit v)) m c), m).

Definition arch_restored (is32 : bool) : list (field * sysreg) :=
  [(vbar_el1, VBAR_EL1); (esr_el1, ESR_EL1); (elr_el1, ELR_EL1); (vmpidr, VMPIDR_EL2); (vpidr, VPIDR_EL2); (sctlr_el1, SCTLR_EL1);
   (hcr_el2, HCR_EL2); (sp_el1, SP_EL1); (sp_el0, SP_EL0); (spsr_el1, SPSR_EL1); (far_el1, FAR_EL1); (actlr_el1, ACTLR_EL1);
   (tpidr_el1, TPIDR_EL1); (csselr, CSSELR_EL1); (cpacr, CPACR_EL1); (contextidr, CONTEXTIDR_EL1); (tpidr_el0, TPIDR_EL0);
   (tpidrro_el0, TPIDRRO_EL0); (cntkctl, CNTKCTL_EL1); (afsr0, AFSR0_EL1); (afsr1, AFSR1_EL1)]
  ++ (if is32 then [(dacr32_el2, DACR32_EL2); (ifsr32_el2, IFSR32_EL2)] else [])
  ++ [(vtcr_el2, VTCR_EL2); (vttbr_el2, VTTBR_EL2); (ttbr0_el1, TTBR0_EL1); (ttbr1_el1, TTBR1_EL1); (mair_el1, MAIR_EL1);
      (amair_el1, AMAIR_EL1); (tcr_el1, TCR_EL1); (par_el1, PAR_EL1)].

Definition arch_vcpu_state_restore : hook sysregs block := fun v d m =>
  c ← d; Some (Some c, restore_all (arch_restored (task_is_32bit v)) c m).

(** The 32 registers of the floating point unit. *)
Definition q_regs : list (field * sysreg) := (fun n => (vfp_regs (Z.of_nat n), Q_reg (Z.of_nat n))) <$> seq 0 32.

Definition vfp_saved (is32 : bool) : list (field * sysreg) :=
  (if is32 then [(fpexc32_el2, FPEXC32_EL2)] else []) ++ [(cptr, CPTR_EL2); (fpsr, FPSR); (fpcr, FPCR)] ++ q_regs.
Definition vfp_restored (is32 : bool) : list (field * sysreg) :=
  [(cptr, CPTR_EL2)] ++ (if is32 then [(fpexc32_el2, FPEXC32_EL2)] else []) ++ [(fpsr, FPSR); (fpcr, FPCR)] ++ q_regs.

Definition vfp_state_init : hook sysregs block := fun v d m => _ ← d; Some (Some (upd cptr 0x300000 zero_block), m).
Definition vfp_state_save : hook sysregs block := fun v d m =>
  c ← d; Some (Some (save_all (vfp_saved (task_is_32bit v)) m c), m).
Definition vfp_state_restore : hook sysregs block := fun v d m =>
  c ← d; Some (Some c, restore_all (vfp_restored (task_is_32bit v)) c m).

Definition vfp_vmodule_init (m : vmodule sysregs block) : vmodule sysregs block :=
  mk_vmodule (vmo_name m) (vmo_id m) 544 (Some vfp_state_save) (Some vfp_state_restore) (Some vfp_state_init)
    (state_deinit m) (state_reset m) (state_stop m) (state_suspend m) (state_resume m) (state_dump m).

(** The same registers, without CPTR_EL2, for a task of the hypervisor. *)
Definition fpsimd_state_save (vcpu32 : bool) (m : sysregs) (c : block) : block :=
  save_all ((if vcpu32 then [(fpexc32_el2, FPEXC32_EL2)] else []) ++ [(fpsr, FPSR); (fpcr, FPCR)] ++ q_regs) m c.
Definition fpsimd_state_restore (vcpu32 : bool) (c : block) (m : sysregs) : sysregs :=
  restore_all ((if vcpu32 then [(fpexc32_el2, FPEXC32_EL2)] else []) ++ [(fpsr, FPSR); (fpcr, FPCR)] ++ q_regs) c m.
End hooks.

(** ** What a vcpu starts with *)
Definition HCR_EL2_VM : Z := Z.shiftl 1 0.
Definition HCR_EL2_PTW : Z := Z.shiftl 1 2.
Definition HCR_EL2_FMO : Z := Z.shiftl 1 3.
Definition HCR_EL2_IMO : Z := Z.shiftl 1 4.
Definition HCR_EL2_AMO : Z := Z.shiftl 1 5.
Definition HCR_EL2_VF : Z := Z.shiftl 1 6.
Definition HCR_EL2_VI : Z := Z.shiftl 1 7.
Definition HCR_EL2_FB : Z := Z.shiftl 1 9.
Definition HCR_EL2_BSU_IS : Z := Z.shiftl 1 10.
Definition HCR_EL2_TWI : Z := Z.shiftl 1 13.
Definition HCR_EL2_TSC : Z := Z.shiftl 1 19.
Definition HCR_EL2_TIDCP : Z := Z.shiftl 1 20.
Definition HCR_EL2_TACR : Z := Z.shiftl 1 21.
Definition HCR_EL2_TDZ : Z := Z.shiftl 1 28.
Definition HCR_EL2_RW : Z := Z.shiftl 1 31.

Definition generate_vtcr_el2 : Z :=
  fold_left Z.lor [Z.shiftl 24 0; Z.shiftl 0x01 6; Z.shiftl 0x1 8; Z.shiftl 0x1 10; Z.shiftl 0x3 12; Z.shiftl 0x0 14; Z.shiftl 2 16; Z.shiftl 0x0 19] 0.
Definition generate_vttbr_el2 (vmid base : Z) : Z := Z.lor base (u64 (Z.shiftl vmid 48)).

(** What [arch_vcpu_state_init] reads of the vcpu and its VM. *)
Record vcpu_info := mk_vcpu_info {
  vi_vcpuid : Z;
  vi_32bit : bool;
  vi_vmid : Z;
  vi_native : bool;
  vi_host : bool;
  vi_native_wfi : bool;
  vi_xnu : bool;
  vi_pgd : Z;
  vi_mpidr : Z;
  vi_affinity : Z;
}.

(** [hcr] is the value of the register; [vi_pgd] the physical address of the
    page table, [vi_affinity] what [cpuid_to_affinity] gives for the vcpu and
    [vi_mpidr] the entry of [mpidr_el1] for its CPU. *)
Definition arch_vcpu_state_init (i : vcpu_info) (hcr : Z) : block :=
  let h := fold_left Z.lor [HCR_EL2_VM; HCR_EL2_TIDCP; HCR_EL2_IMO; HCR_EL2_FMO; HCR_EL2_BSU_IS; HCR_EL2_FB; HCR_EL2_PTW; HCR_EL2_TSC; HCR_EL2_TACR; HCR_EL2_AMO] hcr in
  let h := if vi_native_wfi i then h else Z.lor h HCR_EL2_TWI in
  let h := if vi_32bit i then h else Z.lor h HCR_EL2_RW in
  let h := if vi_xnu i then Z.lor h HCR_EL2_TDZ else h in
  upd vttbr_el2 (generate_vttbr_el2 (vi_vmid i) (vi_pgd i)) (upd vtcr_el2 generate_vtcr_el2
  (upd vpidr (if vi_native i then vi_mpidr i else 0x410fc050) (upd cpacr (Z.shiftl 0x3 20)
  (upd vmpidr (if vi_host i then vi_affinity i else vi_vcpuid i) (upd hcr_el2 h zero_block))))).

Definition arch_init_hook (info : Z -> vcpu_info) : hook sysregs block := fun v d m => _ ← d; Some (Some (arch_vcpu_state_init (info v) (m HCR_EL2)), m).

Definition aarch64_vcpu_context_init (info : Z -> vcpu_info) (m : vmodule sysregs block) : vmodule sysregs block :=
  mk_vmodule (vmo_name m) (vmo_id m) 248 (Some (arch_vcpu_state_save (fun v => vi_32bit (info v)))) (Some (arch_vcpu_state_restore (fun v => vi_32bit (info v))))
    (Some (arch_init_hook info)) (state_deinit m) (state_reset m) (state_stop m) (state_suspend m) (state_resume m) (Some (fun v d m => Some (d, m))).

(** ** Virtual interrupt flags and the TLB *)
Definition arch_set_virq_flag (m : sysregs) : sysregs := upd HCR_EL2 (Z.lor (m HCR_EL2) HCR_EL2_VI) m.
Definition arch_set_vfiq_flag (m : sysregs) : sysregs := upd HCR_EL2 (Z.lor (m HCR_EL2) HCR_EL2_VF) m.
Definition arch_clear_virq_flag (m : sysregs) : sysregs := upd HCR_EL2 (Z.land (Z.land (m HCR_EL2) (not64 HCR_EL2_VI)) (not64 HCR_EL2_VF)) m.
Definition arch_clear_vfiq_flag (m : sysregs) : sysregs := upd HCR_EL2 (Z.land (m HCR_EL2) (not64 HCR_EL2_VF)) m.

(** The result is the VTTBR under which the TLB was flushed, and the
    registers afterwards. *)
Definition flush_all_tlb_mm (vmid pgd : Z) (m : sysregs) : Z * sysregs :=
  let vttbr := Z.lor pgd (u64 (Z.shiftl vmid 48)) in
  let old := m VTTBR_EL2 in
  let m := upd VTTBR_EL2 vttbr m in
  (m VTTBR_EL2, upd VTTBR_EL2 old m).

(** ** The registered modules *)
Section registered.
Context {M B : Type}.
Implicit Type s : vmods M B.

(** The numbers of the modules are the indices of the context arrays. *)
Record vmods_ok s : Prop := mk_vmods_ok {
  mo_ids : (vmo_id <$> vmodule_list s) ≡ₚ seq 0 (vmodule_class_nr s);
}.

(** The routine of a module leaves the number alone. *)
Definition init_ok (f : option (vmodule M B -> vmodule M B)) : Prop := match f with Some f => forall m, vmo_id (f m) = vmo_id m | None => True end.

Lemma create_vmodule_ok name f ok s : init_ok f -> vmods_ok s -> vmods_ok (snd (create_vmodule name f ok s)).
Proof.
  intros Hf [Hids]. unfold create_vmodule. destruct ok; cbn [negb snd]; [|done]. split. cbn [vmodule_list vmodule_class_nr snd]. set (m0 := mk_vmodule _ _ _ _ _ _ _ _ _ _ _ _).
  assert (vmo_id (match f with Some f => f m0 | None => m0 end) = vmodule_class_nr s) as Hid by (destruct f as [f|]; [apply Hf|done]).
  rewrite seq_S. cbn [Nat.add]. destruct (String.eqb _ _); [|rewrite fmap_app]; cbn [fmap list_fmap]; rewrite Hid; [|by rewrite Hids].
  rewrite Hids. by rewrite (Permutation_app_comm (seq 0 _)).
Qed.

Lemma vmodules_init_ok l : forall s, Forall (fun x => init_ok (snd (fst x))) l -> vmods_ok s -> vmods_ok (vmodules_init l s).
Proof.
  induction l as [|[[name f] ok] l IH]; intros s Hl Hs; cbn [vmodules_init]; [done|]. apply Forall_cons_1 in Hl as [Hf Hl]. apply IH; [done|]. by apply create_vmodule_ok.
Qed.

Lemma vmods_ok_nodup s : vmods_ok s -> NoDup (vmo_id <$> vmodule_list s).
Proof. intros [H]. rewrite H. apply NoDup_seq. Qed.

Lemma vmods_ok_id s m : vmods_ok s -> m ∈ vmodule_list s -> (vmo_id m < vmodule_class_nr s)%nat.
Proof.
  intros [H] Hm. assert (vmo_id m ∈ (vmo_id <$> vmodule_list s)) as Hi by (by apply list_elem_of_fmap_2). rewrite H in Hi. apply elem_of_seq in Hi. lia.
Qed.
End registered.

(** ** Switching a vcpu *)

(** The machine beside the registers of this file is [R], with what the other
    modules keep in their blocks in [C]. *)
Section lifted.
Context {R C : Type}.

Definition lift_hook (h : hook sysregs block) : hook (sysregs * R) (block * C) := fun v d m =>
  '(d', x) ← h v (fst <$> d) m.1;
  Some (b ← d'; o ← d; Some (b, o.2), (x, m.2)).

Definition lift_module (m : vmodule sysregs block) : vmodule (sysregs * R) (block * C) :=
  mk_vmodule (vmo_name m) (vmo_id m) (context_size m) (lift_hook <$> state_save m) (lift_hook <$> state_restore m) (lift_hook <$> state_init m)
    (lift_hook <$> state_deinit m) (lift_hook <$> state_reset m) (lift_hook <$> state_stop m) (lift_hook <$> state_suspend m)
    (lift_hook <$> state_resume m) (lift_hook <$> state_dump m).
End lifted.

Section switch.
Context {R C : Type} (F : nat -> Z -> sysreg -> bool) (good : Z -> sysregs -> Prop).
Implicit Type s : vmods (sysregs * R) (block * C).
Implicit Type m : vmodule (sysregs * R) (block * C).

(** What a module promises: saving changes no register of this file; restoring what
    was saved gives the registers of its part back and leaves the others alone, if
    the registers were in range when they were saved. *)
Definition saved_by m (F : sysreg -> bool) (v : Z) (x : sysregs) (b : block * C) : Prop := forall y : sysregs * R, exists b' y',
  match state_restore m with Some h => h v (Some b) y = Some (Some b', y') | None => y' = y /\ b' = b end
  /\ (forall r, F r = true -> y'.1 r = x r) /\ (forall r, F r = false -> y'.1 r = y.1 r).

Class Switched m (F : Z -> sysreg -> bool) (good : Z -> sysregs -> Prop) : Prop := {
  sw_save : forall v b (x : sysregs * R), exists b' x', match state_save m with Some h => h v (Some b) x = Some (Some b', x') | None => b' = b /\ x' = x end
    /\ x'.1 = x.1 /\ (good v x.1 -> saved_by m (F v) v x.1 b');
}.

Definition only_blocks (v : Z) s s' : Prop :=
  vmodule_list s' = vmodule_list s /\ vmodule_class_nr s' = vmodule_class_nr s /\ forall u, u <> v -> contexts s' !! u = contexts s !! u.

Lemma only_blocks_trans v s1 s2 s3 : only_blocks v s1 s2 -> only_blocks v s2 s3 -> only_blocks v s1 s3.
Proof. intros (A1 & A2 & A3) (B1 & B2 & B3). split_and!; try congruence. intros u Hu. by rewrite B3, A3. Qed.

Lemma run_hook_ok h v id s c b b' y' :
  contexts s !! v = Some c -> c !! id = Some (Some b) -> h v (Some b) (mach s) = Some (Some b', y') ->
  run_hook h v id s = Some (set_mach y' (put_context v (<[id := Some b']> c) s)).
Proof. intros Hc Hb Hh. unfold run_hook, get_vmodule_data_by_id, put_data. rewrite Hc. cbn [mbind option_bind]. rewrite Hb. cbn [mbind option_bind]. by rewrite Hh. Qed.

(** One hook that returns. *)
Lemma step_hook (o : option (hook (sysregs * R) (block * C))) v id s c b b' y' :
  contexts s !! v = Some c -> c !! id = Some (Some b) -> match o with Some h => h v (Some b) (mach s) = Some (Some b', y') | None => b' = b /\ y' = mach s end ->
  exists s1 c1, match o with Some h => run_hook h v id s | None => Some s end = Some s1 /\ only_blocks v s s1 /\ contexts s1 !! v = Some c1 /\ mach s1 = y'
    /\ c1 !! id = Some (Some b') /\ (forall j, j <> id -> c1 !! j = c !! j).
Proof.
  intros Hc Hb Ho. destruct o as [h|]; [|destruct Ho as [-> ->]; by exists s, c]. rewrite (run_hook_ok h v id s c b b' y' Hc Hb Ho). eexists _, _. split; [done|].
  split; [split_and!; [done|done|intros u Hu; cbn; by rewrite lookup_insert_ne]|]. split; [apply lookup_insert_eq|]. split; [done|].
  split; [apply list_lookup_insert_eq; by eapply lookup_lt_Some|]. intros j Hj. by rewrite list_lookup_insert_ne.
Qed.

Lemma save_loop v (x : sysregs) : good v x -> forall l s c,
  NoDup (vmo_id <$> l) -> (forall m, m ∈ l -> Switched m (F (vmo_id m)) good /\ exists b, c !! vmo_id m = Some (Some b)) ->
  contexts s !! v = Some c -> (mach s).1 = x ->
  exists s' c', action_loop state_save v l s = Some s' /\ only_blocks v s s' /\ contexts s' !! v = Some c' /\ (mach s').1 = x
    /\ (forall m, m ∈ l -> exists b, c' !! vmo_id m = Some (Some b) /\ saved_by m (F (vmo_id m) v) v x b) /\ (forall j, j ∉ (vmo_id <$> l) -> c' !! j = c !! j).
Proof.
  intros Hg l. induction l as [|m l IH]; intros s c Hnd Hl Hc Hx; cbn [action_loop]; [exists s, c; split_and!; try done; intros m Hm; by apply elem_of_nil in Hm|].
  cbn [fmap list_fmap] in Hnd. apply list.NoDup_cons in Hnd as [Hni Hnd]. destruct (Hl m ltac:(apply elem_of_cons; by left)) as [[Hsw] [b Hb]].
  destruct (Hsw v b (mach s)) as (b' & x' & Hs & Ex & Hr). rewrite Hx in Ex, Hr. specialize (Hr Hg).
  destruct (step_hook (state_save m) v (vmo_id m) s c b b' x' Hc Hb Hs) as (s1 & c1 & E1 & Ho1 & Hc1 & Hx1 & Hb1 & Hj1). rewrite E1. cbn [mbind option_bind].
  destruct (IH s1 c1 Hnd) as (s2 & c2 & E2 & Ho2 & Hc2 & Hx2 & Hs2 & Hj2); [|done|by rewrite Hx1|].
  { intros m' Hm'. destruct (Hl m' ltac:(apply elem_of_cons; by right)) as [Hsw' [b0 Hb0]]. split; [done|]. exists b0. rewrite Hj1; [done|].
    intros He. apply Hni. rewrite <- He. by apply list_elem_of_fmap_2. }
  exists s2, c2. split; [done|]. split; [by eapply only_blocks_trans|]. split; [done|]. split; [done|]. split.
  - intros m' Hm'. apply elem_of_cons in Hm' as [->|Hm']; [exists b'; by rewrite Hj2|by apply Hs2].
  - intros j Hj. cbn [fmap list_fmap] in Hj. apply not_elem_of_cons in Hj as [Hj1' Hj2']. by rewrite Hj2, Hj1.
Qed.

(** The parts of two modules do not overlap. *)
Definition apart (v : Z) (l : list (vmodule (sysregs * R) (block * C))) : Prop :=
  forall i j r, i ∈ (vmo_id <$> l) -> j ∈ (vmo_id <$> l) -> i <> j -> F i v r = true -> F j v r = false.

Lemma restore_loop v x : forall l s c,
  NoDup (vmo_id <$> l) -> apart v l -> contexts s !! v = Some c ->
  (forall m, m ∈ l -> exists b, c !! vmo_id m = Some (Some b) /\ saved_by m (F (vmo_id m) v) v x b) ->
  exists s', action_loop state_restore v l s = Some s' /\ only_blocks v s s'
    /\ (forall m r, m ∈ l -> F (vmo_id m) v r = true -> (mach s').1 r = x r) /\ (forall r, (forall m, m ∈ l -> F (vmo_id m) v r = false) -> (mach s').1 r = (mach s).1 r).
Proof.
  induction l as [|m l IH]; intros s c Hnd Hap Hc Hl; cbn [action_loop]; [exists s; split_and!; try done; intros m r Hm; by apply elem_of_nil in Hm|].
  cbn [fmap list_fmap] in Hnd. apply list.NoDup_cons in Hnd as [Hni Hnd]. destruct (Hl m ltac:(apply elem_of_cons; by left)) as (b & Hb & Hs).
  destruct (Hs (mach s)) as (b' & y' & Hy & HF & HN).
  destruct (step_hook (state_restore m) v (vmo_id m) s c b b' y' Hc Hb) as (s1 & c1 & E1 & Ho1 & Hc1 & Hx1 & _ & Hj1); [destruct (state_restore m); [done|by destruct Hy]|].
  rewrite E1. cbn [mbind option_bind]. destruct (IH s1 c1 Hnd) as (s2 & E2 & Ho2 & HF2 & HN2); [|done| |].
  { intros i j r Hi Hj. apply Hap; apply elem_of_cons; by right. }
  { intros m' Hm'. destruct (Hl m' ltac:(apply elem_of_cons; by right)) as (b0 & Hb0 & Hs0). exists b0. rewrite Hj1; [done|]. intros He. apply Hni. rewrite <- He. by apply list_elem_of_fmap_2. }
  exists s2. split; [done|]. split; [by eapply only_blocks_trans|]. split.
  - intros m' r Hm' Hr. apply elem_of_cons in Hm' as [->|Hm']; [|by apply (HF2 m')]. rewrite HN2; [rewrite Hx1; by apply HF|]. intros m2 Hm2.
    assert (vmo_id m2 ∈ (vmo_id <$> l)) by (by apply list_elem_of_fmap_2). apply (Hap (vmo_id m)); [apply elem_of_cons; by left|apply elem_of_cons; by right|by intros He; apply Hni; rewrite He|done].
  - intros r Hr. rewrite HN2; [rewrite Hx1; apply HN, Hr, elem_of_cons; by left|]. intros m' Hm'. apply Hr, elem_of_cons. by right.
Qed.

(** The blocks of vcpu [v] are there. *)
Definition has_blocks (v : Z) s : Prop := exists c, contexts s !! v = Some c /\ forall m, m ∈ vmodule_list s -> exists b, c !! vmo_id m = Some (Some b).

Lemma switch_roundtrip v s :
  vmods_ok s -> has_blocks v s -> (forall m, m ∈ vmodule_list s -> Switched m (F (vmo_id m)) good) -> apart v (vmodule_list s) -> good v (mach s).1 ->
  exists s1, vcpu_context_save v s = Some s1 /\ only_blocks v s s1 /\ (mach s1).1 = (mach s).1
    /\ forall s2, vmodule_list s2 = vmodule_list s -> contexts s2 !! v = contexts s1 !! v ->
       exists s3, vcpu_context_restore v s2 = Some s3 /\ only_blocks v s2 s3
         /\ (forall m r, m ∈ vmodule_list s -> F (vmo_id m) v r = true -> (mach s3).1 r = (mach s).1 r)
         /\ (forall r, (forall m, m ∈ vmodule_list s -> F (vmo_id m) v r = false) -> (mach s3).1 r = (mach s2).1 r).
Proof.
  intros Hok (c & Hc & Hb) Hsw Hap Hg. pose proof (vmods_ok_nodup s Hok) as Hnd.
  destruct (save_loop v (mach s).1 Hg (vmodule_list s) s c Hnd) as (s1 & c1 & E1 & Ho1 & Hc1 & Hm1 & Hs1 & _); try done.
  { intros m Hm. split; [by apply Hsw|by apply Hb]. }
  exists s1. split; [done|]. split; [done|]. split; [done|]. intros s2 El Ec. rewrite Hc1 in Ec.
  destruct (restore_loop v (mach s).1 (vmodule_list s) s2 c1 Hnd Hap Ec Hs1) as (s3 & E3 & Ho3 & HF & HN). exists s3.
  split; [|done]. unfold vcpu_context_restore, restore_vcpu_vmodule_state. by rewrite El.
Qed.
End switch.

(** Another module returns from its hooks and keeps off the registers of this
    file. *)
Class Foreign {R C} (m : vmodule (sysregs * R) (block * C)) : Prop := {
  fo_size : context_size m <> 0;
  fo_hook : forall (sel : vmodule (sysregs * R) (block * C) -> option (hook (sysregs * R) (block * C))) h, sel = state_init \/ sel = state_save \/ sel = state_restore -> sel m = Some h ->
    forall v b (x : sysregs * R), exists b' x', h v (Some b) x = Some (Some b', x') /\ x'.1 = x.1;
}.

(** A module that works on the rest of the machine only. *)
Definition rest_hook {R C} (h : hook R C) : hook (sysregs * R) (block * C) := fun v d m =>
  '(d', y) ← h v (snd <$> d) m.2;
  Some (c ← d'; o ← d; Some (o.1, c), (m.1, y)).

Definition rest_module {R C} (m : vmodule R C) : vmodule (sysregs * R) (block * C) :=
  mk_vmodule (vmo_name m) (vmo_id m) (context_size m) (rest_hook <$> state_save m) (rest_hook <$> state_restore m) (rest_hook <$> state_init m)
    (rest_hook <$> state_deinit m) (rest_hook <$> state_reset m) (rest_hook <$> state_stop m) (rest_hook <$> state_suspend m)
    (rest_hook <$> state_resume m) (rest_hook <$> state_dump m).

(** The hook returns, with its block. *)
Definition returns {R C} (o : option (hook R C)) : Prop := forall h, o = Some h -> forall v c y, exists c' y', h v (Some c) y = Some (Some c', y').

Lemma rest_foreign {R C} (m : vmodule R C) : context_size m <> 0 -> returns (state_init m) -> returns (state_save m) -> returns (state_restore m) -> Foreign (rest_module m).
Proof.
  intros Hs Hi Hsv Hr. split; [done|].
  assert (forall (o : option (hook R C)) h, returns o -> rest_hook <$> o = Some h -> forall v b (x : sysregs * R), exists b' x', h v (Some b) x = Some (Some b', x') /\ x'.1 = x.1) as H.
  { intros [g|] h Hg E v b x; [|done]. cbn in E. injection E as <-. destruct (Hg g eq_refl v b.2 x.2) as (c' & y' & Eg). unfold rest_hook. cbn [fmap option_fmap option_map]. rewrite Eg.
    cbn [mbind option_bind]. eexists _, _. done. }
  intros sel h [->|[->| ->]] E; [exact (H _ h Hi E)|exact (H _ h Hsv E)|exact (H _ h Hr E)].
Qed.

Lemma foreign_switched {R C} (m : vmodule (sysregs * R) (block * C)) good : Foreign m -> Switched m (fun _ _ => false) good.
Proof.
  intros [_ Hh]. split. intros v b x.
  assert (exists b' x', match state_save m with Some h => h v (Some b) x = Some (Some b', x') | None => b' = b /\ x' = x end /\ x'.1 = x.1) as (b' & x' & E & Ex).
  { destruct (state_save m) as [h|] eqn:E; [by apply (Hh state_save); [right; left|]|by exists b, x]. }
  exists b', x'. split; [done|]. split; [done|]. intros _ y. destruct (state_restore m) as [h|] eqn:Er.
  - destruct (Hh state_restore h ltac:(by right; right) Er v b' y) as (b2 & y2 & E2 & Ey). exists b2, y2. split; [done|]. split; [done|]. intros r _. by rewrite Ey.
  - by exists b', y.
Qed.

(** ** The registers and the floating point unit *)
Lemma upd_eq {K} `{EqDecision K} (k : K) v f : upd k v f k = v.
Proof. unfold upd. by destruct (decide _). Qed.

Lemma upd_ne {K} `{EqDecision K} (k x : K) v f : x <> k -> upd k v f x = f x.
Proof. intros H. unfold upd. by destruct (decide _). Qed.

Lemma save_all_out l m : forall c f, f ∉ (fst <$> l) -> save_all l m c f = c f.
Proof.
  induction l as [|[f0 r0] l IH]; intros c f Hf; [done|]. cbn [fmap list_fmap fst] in Hf. apply not_elem_of_cons in Hf as [Hne Hf].
  unfold save_all in *. cbn [fold_left]. rewrite IH by done. by apply upd_ne.
Qed.

Lemma save_all_in l m : forall c f r, NoDup (fst <$> l) -> (f, r) ∈ l -> save_all l m c f = fit f (m r).
Proof.
  induction l as [|[f0 r0] l IH]; intros c f r Hnd Hin; [by apply elem_of_nil in Hin|]. cbn [fmap list_fmap fst] in Hnd. apply list.NoDup_cons in Hnd as [Hni Hnd].
  apply elem_of_cons in Hin as [[= -> ->]|Hin]; [|by apply (IH _ f r)]. change (save_all ((f0, r0) :: l) m c) with (save_all l m (upd f0 (fit f0 (m r0)) c)).
  rewrite save_all_out by done. apply upd_eq.
Qed.

Lemma restore_all_out l c : forall m r, r ∉ (snd <$> l) -> restore_all l c m r = m r.
Proof.
  induction l as [|[f0 r0] l IH]; intros m r Hr; [done|]. cbn [fmap list_fmap snd] in Hr. apply not_elem_of_cons in Hr as [Hne Hr].
  unfold restore_all in *. cbn [fold_left]. rewrite IH by done. by apply upd_ne.
Qed.

Lemma restore_all_in l c : forall m f r, NoDup (snd <$> l) -> (f, r) ∈ l -> restore_all l c m r = c f.
Proof.
  induction l as [|[f0 r0] l IH]; intros m f r Hnd Hin; [by apply elem_of_nil in Hin|]. cbn [fmap list_fmap snd] in Hnd. apply list.NoDup_cons in Hnd as [Hni Hnd].
  apply elem_of_cons in Hin as [[= -> ->]|Hin]; [|by apply (IH _ f r)]. change (restore_all ((f0, r0) :: l) c m) with (restore_all l c (upd r0 (c f0) m)).
  rewrite restore_all_out by done. apply upd_eq.
Qed.

Definition in_part (l : list (field * sysreg)) (r : sysreg) : bool := bool_decide (r ∈ (snd <$> l)).
Definition in_range (l : list (field * sysreg)) (x : sysregs) : Prop := forall f r, (f, r) ∈ l -> narrow f = true -> 0 <= x r < 2 ^ 32.

(** A block that holds the values [x] of the registers [l'] restores them. *)
Lemma saved_by_block {R C} (m0 : vmodule sysregs block) l' h v x (b : block * C) :
  state_restore m0 = Some h -> (forall c y, h v (Some c) y = Some (Some c, restore_all l' c y)) -> NoDup (snd <$> l') -> (forall f r, (f, r) ∈ l' -> x r = b.1 f) ->
  saved_by (R := R) (lift_module m0) (in_part l') v x b.
Proof.
  intros Hm Hh Hr Hx y. cbn [state_restore lift_module]. rewrite Hm. cbn [fmap option_fmap option_map]. unfold lift_hook. cbn [fmap option_fmap option_map]. rewrite Hh. cbn [mbind option_bind].
  eexists _, _. split; [done|]. cbn [fst]. unfold in_part. split; intros r E.
  - apply bool_decide_eq_true in E. apply list_elem_of_fmap in E as ([f r'] & -> & Hin). cbn [snd]. by rewrite (restore_all_in l' _ _ f r'), (Hx f r').
  - apply bool_decide_eq_false in E. by apply restore_all_out.
Qed.

Lemma saved_by_lists {R C} (m0 : vmodule sysregs block) l l' h v x (b : block * C) :
  state_restore m0 = Some h -> (forall c y, h v (Some c) y = Some (Some c, restore_all l' c y)) ->
  NoDup (fst <$> l) -> NoDup (snd <$> l') -> l' ≡ₚ l -> in_range l x -> saved_by (R := R) (lift_module m0) (in_part l) v x (save_all l x b.1, b.2).
Proof.
  intros Hm Hh Hf Hr Hp Hn. intros y. destruct (saved_by_block (R := R) m0 l' h v x (save_all l x b.1, b.2) Hm Hh Hr) with (y := y) as (b' & y' & E & H1 & H2).
  - intros f r Hin. cbn [fst]. rewrite Hp in Hin. rewrite (save_all_in l x _ f r Hf Hin). unfold fit. destruct (narrow f) eqn:En; [|done]. symmetry. apply u32_small. by apply (Hn f).
  - exists b', y'. split; [done|]. unfold in_part in *. split; intros r E'; [apply H1|apply H2]; [apply bool_decide_eq_true in E'; apply bool_decide_eq_true|apply bool_decide_eq_false in E'; apply bool_decide_eq_false]; by rewrite Hp.
Qed.

Lemma arch_lists is32 : NoDup (fst <$> arch_saved is32) /\ NoDup (snd <$> arch_restored is32) /\ arch_restored is32 ≡ₚ arch_saved is32.
Proof. destruct is32; split_and!; apply (bool_decide_unpack _); vm_compute; exact I. Qed.

Lemma vfp_lists is32 : NoDup (fst <$> vfp_saved is32) /\ NoDup (snd <$> vfp_restored is32) /\ vfp_restored is32 ≡ₚ vfp_saved is32.
Proof. destruct is32; split_and!; apply (bool_decide_unpack _); vm_compute; exact I. Qed.

Section modules.
Context {R C : Type} (C0 : C) (info : Z -> vcpu_info).

Definition is32 (v : Z) : bool := vi_32bit (info v).

(** The registers of both modules that are kept in 32 bits are in range. *)
Definition regs_in_range (v : Z) (x : sysregs) : Prop := in_range (arch_saved (is32 v)) x /\ in_range (vfp_saved (is32 v)) x.

(** The two modules of this file, as number [i], on the whole machine. *)
Definition arch_mod (name : string) (i : nat) : vmodule (sysregs * R) (block * C) :=
  lift_module (aarch64_vcpu_context_init info (mk_vmodule name i 0 None None None None None None None None None)).
Definition vfp_mod (name : string) (i : nat) : vmodule (sysregs * R) (block * C) :=
  lift_module (vfp_vmodule_init is32 (mk_vmodule name i 0 None None None None None None None None None)).

#[export] Instance arch_switched name i : Switched (arch_mod name i) (fun v => in_part (arch_saved (is32 v))) regs_in_range.
Proof.
  split. intros v b x. exists (save_all (arch_saved (is32 v)) x.1 b.1, b.2), (x.1, x.2). split; [done|]. split; [done|]. intros [Hg _]. destruct (arch_lists (is32 v)) as (H1 & H2 & H3).
  by apply (saved_by_lists _ _ (arch_restored (is32 v)) (arch_vcpu_state_restore is32)).
Qed.

#[export] Instance vfp_switched name i : Switched (vfp_mod name i) (fun v => in_part (vfp_saved (is32 v))) regs_in_range.
Proof.
  split. intros v b x. exists (save_all (vfp_saved (is32 v)) x.1 b.1, b.2), (x.1, x.2). split; [done|]. split; [done|]. intros [_ Hg]. destruct (vfp_lists (is32 v)) as (H1 & H2 & H3).
  by apply (saved_by_lists _ _ (vfp_restored (is32 v)) (vfp_state_restore is32)).
Qed.

(** The modules that are registered: the two of this file among any others that keep
    off their registers, in any order. *)
Record registered (s : vmods (sysregs * R) (block * C)) (na nf : string) (i j : nat) : Prop := mk_registered {
  re_ok : vmods_ok s;
  re_arch : arch_mod na i ∈ vmodule_list s;
  re_vfp : vfp_mod nf j ∈ vmodule_list s;
  re_ne : i <> j;
  re_other : forall m, m ∈ vmodule_list s -> vmo_id m <> i -> vmo_id m <> j -> Foreign m;
}.

Definition part_of (i j k : nat) (v : Z) : sysreg -> bool :=
  if decide (k = i) then in_part (arch_saved (is32 v)) else if decide (k = j) then in_part (vfp_saved (is32 v)) else fun _ => false.

(** A module is known by its number. *)
Lemma by_id (l : list (vmodule (sysregs * R) (block * C))) m m' : NoDup (vmo_id <$> l) -> m ∈ l -> m' ∈ l -> vmo_id m = vmo_id m' -> m = m'.
Proof.
  intros Hnd (a & Ha)%list_elem_of_lookup (b & Hb)%list_elem_of_lookup E. assert (a = b) as ->; [|congruence].
  apply (proj1 (NoDup_alt _) Hnd a b (vmo_id m)); rewrite list_lookup_fmap; [by rewrite Ha|by rewrite Hb, E].
Qed.

Lemma registered_cases s na nf i j m : registered s na nf i j -> m ∈ vmodule_list s -> m = arch_mod na i \/ m = vfp_mod nf j \/ (vmo_id m <> i /\ vmo_id m <> j /\ Foreign m).
Proof.
  intros [Hok Ha Hf Hne Ho] Hm. pose proof (vmods_ok_nodup s Hok) as Hnd. destruct (decide (vmo_id m = i)) as [E|Hi]; [left; by apply (by_id _ _ _ Hnd)|].
  destruct (decide (vmo_id m = j)) as [E|Hj]; [right; left; by apply (by_id _ _ _ Hnd)|]. right; right. split_and!; [done|done|]. by apply Ho.
Qed.

Lemma registered_switched s na nf i j m : registered s na nf i j -> m ∈ vmodule_list s -> Switched m (part_of i j (vmo_id m)) regs_in_range.
Proof.
  intros Hr Hm. pose proof (re_ne _ _ _ _ _ Hr) as Hne. unfold part_of. destruct (registered_cases _ _ _ _ _ m Hr Hm) as [->|[->|(Hi & Hj & Hf)]].
  - change (vmo_id (arch_mod na i)) with i. destruct (decide (i = i)); [apply arch_switched|done].
  - change (vmo_id (vfp_mod nf j)) with j. destruct (decide (j = i)); [congruence|]. destruct (decide (j = j)); [apply vfp_switched|done].
  - destruct (decide (vmo_id m = i)); [done|]. destruct (decide (vmo_id m = j)); [done|]. by apply foreign_switched.
Qed.

Lemma parts_apart b r : in_part (arch_saved b) r = true -> in_part (vfp_saved b) r = false.
Proof.
  unfold in_part. intros H%bool_decide_eq_true. apply bool_decide_eq_false. intros Hv.
  assert (Forall (fun r => r ∉ (snd <$> vfp_saved b)) (snd <$> arch_saved b)) as Hf by (destruct b; apply (bool_decide_unpack _); vm_compute; exact I).
  by apply (proj1 (list.Forall_forall _ _) Hf r).
Qed.

Lemma registered_apart i j v l : apart (R := R) (C := C) (part_of i j) v l.
Proof.
  intros a b r _ _ Hab. unfold part_of. destruct (decide (a = i)) as [->|Ha], (decide (b = i)) as [->|Hb]; try done.
  - intros H. destruct (decide (b = j)); [by apply parts_apart|done].
  - destruct (decide (a = j)); [|done]. intros H. destruct (in_part (arch_saved (is32 v)) r) eqn:E; [|done]. apply parts_apart in E. congruence.
  - destruct (decide (a = j)) as [->|], (decide (b = j)); by try congruence.
Qed.

(** C22: a vcpu that is switched out and back in, with the modules of the system
    registers and of the floating point unit registered among any others that
    return and keep off their registers, whatever the CPU did in between and
    wherever the vcpu goes on, has its system registers and its floating
    point registers back, given that the registers that are kept in 32 bits fit;
    switching it touches the blocks of no other vcpu and none of the other registers
    of this file. *)
Theorem vcpu_registers_survive_switch na nf i j v s :
  registered s na nf i j -> has_blocks v s -> regs_in_range v (mach s).1 ->
  exists s1, vcpu_context_save v s = Some s1 /\ only_blocks v s s1 /\ (mach s1).1 = (mach s).1
    /\ forall s2, vmodule_list s2 = vmodule_list s -> contexts s2 !! v = contexts s1 !! v ->
       exists s3, vcpu_context_restore v s2 = Some s3 /\ only_blocks v s2 s3
         /\ (forall r, r ∈ (snd <$> arch_saved (is32 v)) \/ r ∈ (snd <$> vfp_saved (is32 v)) -> (mach s3).1 r = (mach s).1 r)
         /\ (forall r, r ∉ (snd <$> arch_saved (is32 v)) -> r ∉ (snd <$> vfp_saved (is32 v)) -> (mach s3).1 r = (mach s2).1 r).
Proof.
  intros Hr Hb Hg. pose proof (re_ne _ _ _ _ _ Hr) as Hne.
  destruct (switch_roundtrip (part_of i j) regs_in_range v s (re_ok _ _ _ _ _ Hr) Hb (fun m Hm => registered_switched s na nf i j m Hr Hm) (registered_apart i j v _) Hg) as (s1 & E1 & Ho1 & Hm1 & H).
  exists s1. split; [done|]. split; [done|]. split; [done|]. intros s2 El Ec. destruct (H s2 El Ec) as (s3 & E3 & Ho3 & HF & HN). exists s3. split; [done|]. split; [done|]. split.
  - intros r [Hin|Hin]; [apply (HF (arch_mod na i) r (re_arch _ _ _ _ _ Hr))|apply (HF (vfp_mod nf j) r (re_vfp _ _ _ _ _ Hr))]; unfold part_of.
    + change (vmo_id (arch_mod na i)) with i. rewrite decide_True by done. by apply bool_decide_eq_true.
    + change (vmo_id (vfp_mod nf j)) with j. rewrite decide_False, decide_True by done. by apply bool_decide_eq_true.
  - intros r Hr1 Hr2. apply HN. intros m Hm. unfold part_of. destruct (decide _); [by apply bool_decide_eq_false|]. destruct (decide _); [by apply bool_decide_eq_false|done].
Qed.

(** *** A new vcpu *)

(** The block of a module after [state_init], from the registers at that time. *)
Definition first_block (na nf : string) (i j : nat) (v : Z) (x : sysregs) (m : vmodule (sysregs * R) (block * C)) (b : block * C) : Prop :=
  (m = arch_mod na i -> b.1 = arch_vcpu_state_init (info v) (x HCR_EL2)) /\ (m = vfp_mod nf j -> b.1 = upd cptr 0x300000 zero_block).

Lemma init_one_spec na nf i j v (x : sysregs) m s c : i <> j ->
  m = arch_mod na i \/ m = vfp_mod nf j \/ (vmo_id m <> i /\ vmo_id m <> j /\ Foreign m) ->
  contexts s !! v = Some c -> c !! vmo_id m = Some None -> (mach s).1 = x ->
  exists s1 c1 b, init_one (zero_block, C0) v m true s = Some s1 /\ only_blocks v s s1 /\ contexts s1 !! v = Some c1 /\ (mach s1).1 = x
    /\ c1 !! vmo_id m = Some (Some b) /\ first_block na nf i j v x m b /\ (forall k, k <> vmo_id m -> c1 !! k = c !! k).
Proof.
  intros Hne Hm Hc Hn Hx.
  assert (context_size m <> 0 /\ exists b y', match state_init m with Some h => h v (Some (zero_block, C0)) (mach s) = Some (Some b, y') | None => b = (zero_block, C0) /\ y' = mach s end
    /\ y'.1 = x /\ first_block na nf i j v x m b) as (Hsz & b & y' & Hh & Ey & Hb).
  { destruct Hm as [->|[->|(Hi & Hj & [Hsz Hfo])]].
    - split; [done|]. eexists _, _. split; [done|]. split; [done|]. by split; [intros _; rewrite <- Hx|].
    - split; [done|]. eexists _, _. split; [done|]. split; [done|]. by split.
    - split; [done|]. assert (forall b, first_block na nf i j v x m b) as Hfb by (intros b; split; intros ->; done).
      destruct (state_init m) as [h|] eqn:E; [|by exists (zero_block, C0), (mach s)]. destruct (Hfo state_init h ltac:(by left) E v (zero_block, C0) (mach s)) as (b & y' & E' & Ey).
      exists b, y'. split; [done|]. split; [congruence|done]. }
  unfold init_one. rewrite (proj2 (Z.eqb_neq _ _) Hsz). unfold get_vmodule_data_by_id. rewrite Hc. cbn [mbind option_bind]. rewrite Hn. cbn [mbind option_bind assert_].
  unfold put_data. rewrite Hc. cbn [mbind option_bind]. set (s0 := put_context v _ s).
  destruct (step_hook (state_init m) v (vmo_id m) s0 (<[vmo_id m := Some (zero_block, C0)]> c) (zero_block, C0) b y') as (s1 & c1 & E1 & Ho1 & Hc1 & Hx1 & Hb1 & Hj1).
  { apply lookup_insert_eq. }
  { apply list_lookup_insert_eq. by eapply lookup_lt_Some. }
  { exact Hh. }
  exists s1, c1, b. split; [done|]. split; [eapply only_blocks_trans; [|exact Ho1]; split_and!; [done|done|intros u Hu; cbn; by rewrite lookup_insert_ne]|].
  split; [done|]. split; [by rewrite Hx1|]. split; [done|]. split; [done|]. intros k Hk. rewrite Hj1, list_lookup_insert_ne by done. done.
Qed.

Lemma init_loop_spec na nf i j v (x : sysregs) : i <> j -> forall l s c,
  NoDup (vmo_id <$> l) -> (forall m, m ∈ l -> m = arch_mod na i \/ m = vfp_mod nf j \/ (vmo_id m <> i /\ vmo_id m <> j /\ Foreign m)) ->
  contexts s !! v = Some c -> (forall m, m ∈ l -> c !! vmo_id m = Some None) -> (mach s).1 = x ->
  exists s1 c1, init_loop (zero_block, C0) v l [] s = Some s1 /\ only_blocks v s s1 /\ contexts s1 !! v = Some c1
    /\ (forall m, m ∈ l -> exists b, c1 !! vmo_id m = Some (Some b) /\ first_block na nf i j v x m b) /\ (forall k, k ∉ (vmo_id <$> l) -> c1 !! k = c !! k).
Proof.
  intros Hne l. induction l as [|m l IH]; intros s c Hnd Hl Hc Hn Hx; cbn [init_loop]; [exists s, c; split_and!; try done; intros m Hm; by apply elem_of_nil in Hm|].
  cbn [fmap list_fmap] in Hnd. apply list.NoDup_cons in Hnd as [Hni Hnd]. cbn [head default from_option tail].
  destruct (init_one_spec na nf i j v x m s c Hne (Hl m ltac:(apply elem_of_cons; by left)) Hc (Hn m ltac:(apply elem_of_cons; by left)) Hx) as (s1 & c1 & b & E1 & Ho1 & Hc1 & Hx1 & Hb1 & Hf1 & Hj1).
  cbn [from_option default] in *. unfold default in *. cbn in E1 |- *. rewrite E1. cbn [mbind option_bind].
  assert (forall m', m' ∈ l -> vmo_id m' <> vmo_id m) as Hd by (intros m' Hm' He; apply Hni; rewrite <- He; by apply list_elem_of_fmap_2).
  destruct (IH s1 c1 Hnd) as (s2 & c2 & E2 & Ho2 & Hc2 & Hb2 & Hj2); [|done| |done|].
  { intros m' Hm'. apply Hl, elem_of_cons. by right. }
  { intros m' Hm'. rewrite Hj1 by (by apply Hd). apply Hn, elem_of_cons. by right. }
  exists s2, c2. split; [done|]. split; [by eapply only_blocks_trans|]. split; [done|]. split.
  - intros m' Hm'. apply elem_of_cons in Hm' as [->|Hm']; [exists b; by rewrite Hj2|by apply Hb2].
  - intros k Hk. cbn [fmap list_fmap] in Hk. apply not_elem_of_cons in Hk as [Hk1 Hk2]. by rewrite Hj2, Hj1.
Qed.

Lemma new_vcpu_blocks na nf i j v s : registered s na nf i j ->
  exists s1 c1, vcpu_vmodules_init (zero_block, C0) v true [] s = Some s1 /\ only_blocks v s s1 /\ contexts s1 !! v = Some c1
    /\ (forall m, m ∈ vmodule_list s -> exists b, c1 !! vmo_id m = Some (Some b) /\ first_block na nf i j v (mach s).1 m b).
Proof.
  intros Hr. unfold vcpu_vmodules_init.
  assert (vmodule_class_nr s <> 0)%nat as H0 by (pose proof (vmods_ok_id s _ (re_ok _ _ _ _ _ Hr) (re_arch _ _ _ _ _ Hr)); lia).
  rewrite (proj2 (Nat.eqb_neq _ _) H0). cbn [assert_ mbind option_bind]. set (s0 := put_context v _ s).
  destruct (init_loop_spec na nf i j v (mach s).1 (re_ne _ _ _ _ _ Hr) (vmodule_list s) s0 (replicate (vmodule_class_nr s) None)) as (s1 & c1 & E1 & Ho1 & Hc1 & Hb1 & _).
  - apply vmods_ok_nodup, Hr.
  - intros m Hm. by apply (registered_cases s).
  - apply lookup_insert_eq.
  - intros m Hm. apply lookup_replicate_2. apply (vmods_ok_id s _ (re_ok _ _ _ _ _ Hr) Hm).
  - done.
  - exists s1, c1. split; [done|]. split; [eapply only_blocks_trans; [|exact Ho1]; split_and!; [done|done|intros u Hu; cbn; by rewrite lookup_insert_ne]|]. by split.
Qed.

(** The first time a vcpu is switched in. *)
Lemma first_restore na nf i j v s s2 c1 x : registered s na nf i j -> vmodule_list s2 = vmodule_list s -> contexts s2 !! v = Some c1 ->
  (forall m, m ∈ vmodule_list s -> exists b, c1 !! vmo_id m = Some (Some b) /\ first_block na nf i j v x m b) ->
  exists s3, vcpu_context_restore v s2 = Some s3 /\ only_blocks v s2 s3 /\
    forall f r, (f, r) ∈ arch_restored (is32 v) -> (mach s3).1 r = arch_vcpu_state_init (info v) (x HCR_EL2) f.
Proof.
  intros Hr El Ec Hb. pose proof (re_ne _ _ _ _ _ Hr) as Hne. set (ba := arch_vcpu_state_init (info v) (x HCR_EL2)) in *. set (bf := upd cptr 0x300000 zero_block) in *.
  set (y := restore_all (vfp_restored (is32 v)) bf (restore_all (arch_restored (is32 v)) ba (fun _ => 0))).
  destruct (arch_lists (is32 v)) as (_ & Hna & Hpa). destruct (vfp_lists (is32 v)) as (_ & Hnf & Hpf).
  assert (forall f r, (f, r) ∈ arch_restored (is32 v) -> y r = ba f) as Hya.
  { intros f r Hin. unfold y. rewrite restore_all_out; [by apply restore_all_in|]. intros Hin'. rewrite Hpf in Hin'. rewrite Hpa in Hin.
    assert (in_part (arch_saved (is32 v)) r = true) as E by (apply bool_decide_eq_true; by apply (list_elem_of_fmap_2 snd _ (f, r))). apply parts_apart in E. by apply bool_decide_eq_false in E. }
  assert (forall f r, (f, r) ∈ vfp_restored (is32 v) -> y r = bf f) as Hyf by (intros f r Hin; unfold y; by apply restore_all_in).
  destruct (restore_loop (part_of i j) v y (vmodule_list s) s2 c1) as (s3 & E3 & Ho3 & HF & _).
  - apply vmods_ok_nodup, Hr.
  - apply registered_apart.
  - done.
  - intros m Hm. destruct (Hb m Hm) as (b & Hc & Hfa & Hff). exists b. split; [done|]. unfold part_of. destruct (registered_cases _ _ _ _ _ m Hr Hm) as [->|[->|(Hi & Hj & Hf)]].
    + change (vmo_id (arch_mod na i)) with i. rewrite decide_True by done. specialize (Hfa eq_refl). intros z.
      destruct (saved_by_block (R := R) (aarch64_vcpu_context_init info (mk_vmodule na i 0 None None None None None None None None None)) (arch_restored (is32 v)) (arch_vcpu_state_restore is32) v y b eq_refl
        ltac:(done) Hna ltac:(intros f r Hin; rewrite Hfa; by apply Hya) z) as (b' & z' & E & H1 & H2).
      exists b', z'. split; [exact E|]. unfold in_part in *. split; intros r E'; [apply H1|apply H2]; [apply bool_decide_eq_true in E'; apply bool_decide_eq_true|apply bool_decide_eq_false in E'; apply bool_decide_eq_false]; by rewrite Hpa.
    + change (vmo_id (vfp_mod nf j)) with j. rewrite decide_False, decide_True by done. specialize (Hff eq_refl). intros z.
      destruct (saved_by_block (R := R) (vfp_vmodule_init is32 (mk_vmodule nf j 0 None None None None None None None None None)) (vfp_restored (is32 v)) (vfp_state_restore is32) v y b eq_refl
        ltac:(done) Hnf ltac:(intros f r Hin; rewrite Hff; by apply Hyf) z) as (b' & z' & E & H1 & H2).
      exists b', z'. split; [exact E|]. unfold in_part in *. split; intros r E'; [apply H1|apply H2]; [apply bool_decide_eq_true in E'; apply bool_decide_eq_true|apply bool_decide_eq_false in E'; apply bool_decide_eq_false]; by rewrite Hpf.
    + rewrite !decide_False by done. intros z. destruct (state_restore m) as [h|] eqn:Er; [|by exists b, z].
      destruct (fo_hook (m := m) state_restore h ltac:(by right; right) Er v b z) as (b2 & z2 & E2 & Ez). exists b2, z2. split; [done|]. split; [done|]. intros r _. by rewrite Ez.
  - exists s3. split; [unfold vcpu_context_restore, restore_vcpu_vmodule_state; by rewrite El|]. split; [done|]. intros f r Hin. rewrite <- (Hya f r Hin).
    apply (HF (arch_mod na i) r (re_arch _ _ _ _ _ Hr)). unfold part_of. change (vmo_id (arch_mod na i)) with i. rewrite decide_True by done. apply bool_decide_eq_true.
    rewrite <- Hpa. by apply (list_elem_of_fmap_2 snd _ (f, r)).
Qed.

(** A table of a VM, and the number of the VM, in VTTBR_EL2. *)
Lemma vttbr_fields vmid pgd : 0 <= vmid < 2 ^ 16 -> 0 <= pgd < 2 ^ 48 ->
  generate_vttbr_el2 vmid pgd / 2 ^ 48 = vmid /\ generate_vttbr_el2 vmid pgd mod 2 ^ 48 = pgd.
Proof.
  intros Hv Hp. unfold generate_vttbr_el2. rewrite u64_small by (rewrite Z.shiftl_mul_pow2 by lia; lia).
  rewrite <- Z.shiftr_div_pow2, <- Z.land_ones by lia. split; apply Z.bits_inj'; intros i Hi.
  - rewrite Z.shiftr_spec, Z.lor_spec, Z.shiftl_spec by lia. rewrite (testbit_small pgd 48) by lia. cbn [orb]. f_equal. lia.
  - rewrite Z.land_spec, Z.lor_spec, Z.shiftl_spec, Z.testbit_ones by lia. destruct (Z.ltb_spec i 48).
    + rewrite (Z.testbit_neg_r vmid) by lia. rewrite orb_false_r. destruct (0 <=? i) eqn:E; [cbn; apply andb_true_r|lia].
    + rewrite (testbit_small pgd 48) by lia. by rewrite andb_false_r, andb_false_r.
Qed.

Lemma fold_lor_testbit l : forall h k b, b ∈ l -> Z.testbit b k = true -> Z.testbit (fold_left Z.lor l h) k = true.
Proof.
  assert (forall l h k, Z.testbit h k = true -> Z.testbit (fold_left Z.lor l h) k = true) as Hk.
  { intros l0. induction l0 as [|x l0 IH]; intros h k H; [done|]. cbn [fold_left]. apply IH. by rewrite Z.lor_spec, H. }
  induction l as [|x l IH]; intros h k b Hb Ht; [by apply elem_of_nil in Hb|]. cbn [fold_left]. apply elem_of_cons in Hb as [->|Hb]; [|by apply (IH _ k b)].
  apply Hk. by rewrite Z.lor_spec, Ht, orb_true_r.
Qed.

(** The traps and the routing that a vcpu always runs with: stage 2 translation,
    physical interrupts and aborts to the hypervisor, and SMC. *)
Lemma init_hcr_bits i hcr k : k ∈ [0; 3; 4; 5; 19] -> Z.testbit (arch_vcpu_state_init i hcr hcr_el2) k = true.
Proof.
  intros Hk. unfold arch_vcpu_state_init. rewrite !upd_ne by done. rewrite upd_eq. set (h := fold_left _ _ _).
  assert (Z.testbit h k = true) as Hh.
  { set (l := [HCR_EL2_VM; _; _; _; _; _; _; _; _; _]) in h.
    assert (Forall (fun k => Exists (fun b => Z.testbit b k = true) l) [0; 3; 4; 5; 19]) as Hf by (apply (bool_decide_unpack _); vm_compute; exact I).
    apply (proj1 (list.Forall_forall _ _) Hf) in Hk. apply list.Exists_exists in Hk as (b & Hb & Ht).
    by apply (fold_lor_testbit _ _ _ b). }
  destruct (vi_native_wfi i), (vi_32bit i), (vi_xnu i); rewrite ?Z.lor_spec, ?Hh; done.
Qed.

End modules.

(** Flushing the TLB of another VM leaves the running VM in place. *)
Lemma flush_keeps_vttbr vmid pgd m r : let '(under, m') := flush_all_tlb_mm vmid pgd m in under = generate_vttbr_el2 vmid pgd /\ m' r = m r.
Proof.
  unfold flush_all_tlb_mm. rewrite upd_eq. split; [done|]. destruct (decide (r = VTTBR_EL2)) as [->|H]; [apply upd_eq|]. by rewrite !upd_ne.
Qed.

(** ** A concrete machine with two vcpus *)

(** A third module, which keeps the control register of a timer and stops the timer
    while the vcpu is switched out; the register is the rest of the machine. *)
Definition demo_timer (m : vmodule (sysregs * Z) (block * Z)) : vmodule (sysregs * Z) (block * Z) :=
  mk_vmodule (vmo_name m) (vmo_id m) 8 (Some (fun _ d x => b ← d; Some (Some (b.1, x.2), (x.1, 0)))) (Some (fun _ d x => b ← d; Some (Some b, (x.1, b.2))))
    (Some (fun _ d x => b ← d; Some (Some (b.1, 0), x))) None None None None None None.

Lemma demo_timer_foreign m : Foreign (demo_timer m).
Proof. split; [done|]. intros sel h [->|[->| ->]]; cbn; intros [= <-] v b x; eexists _, _; done. Qed.

Definition demo_info (v : Z) : vcpu_info := mk_vcpu_info 0 false v (v =? 1) (v =? 1) false false (v * 0x10000) 0 0.
Definition demo_regs : sysregs := fun r => match r with Q_reg n => 1000 + n | CPTR_EL2 => 0x300000 | FPSR => 5 | FPCR => 7 | VBAR_EL1 => 0x80000 | _ => 3 end.

Definition boot_modules : list (string * option (vmodule (sysregs * Z) (block * Z) -> vmodule (sysregs * Z) (block * Z)) * bool) :=
  [("vtimer_module"%string, Some demo_timer, true);
   ("aarch64 vcpu context"%string, Some (fun m => arch_mod demo_info (vmo_name m) (vmo_id m)), true);
   ("vfp"%string, Some (fun m => vfp_mod demo_info (vmo_name m) (vmo_id m)), true)].

Definition boot_state : vmods (sysregs * Z) (block * Z) := vmodules_init boot_modules (mk_vmods [] 0 ∅ (demo_regs, 77)).

Lemma boot_registered : registered demo_info boot_state "aarch64 vcpu context" "vfp" 1 2.
Proof.
  split.
  - apply vmodules_init_ok; [repeat apply Forall_cons_2; try apply Forall_nil_2; cbn; by intros|]. by split.
  - change (vmodule_list boot_state) with [demo_timer (mk_vmodule "vtimer_module" 0 0 None None None None None None None None None); arch_mod demo_info "aarch64 vcpu context" 1; vfp_mod demo_info "vfp" 2].
    apply elem_of_cons. right. apply elem_of_cons. by left.
  - change (vmodule_list boot_state) with [demo_timer (mk_vmodule "vtimer_module" 0 0 None None None None None None None None None); arch_mod demo_info "aarch64 vcpu context" 1; vfp_mod demo_info "vfp" 2].
    apply elem_of_cons. right. apply elem_of_cons. right. by apply list_elem_of_singleton.
  - done.
  - change (vmodule_list boot_state) with [demo_timer (mk_vmodule "vtimer_module" 0 0 None None None None None None None None None); arch_mod demo_info "aarch64 vcpu context" 1; vfp_mod demo_info "vfp" 2].
    intros m Hm. apply elem_of_cons in Hm as [->|Hm]; [intros _ _; apply demo_timer_foreign|]. apply elem_of_cons in Hm as [->|Hm%list_elem_of_singleton]; [by intros H|]. rewrite Hm. by intros _ H.
Qed.

Definition boot_vcpu (v : Z) (s : vmods (sysregs * Z) (block * Z)) : vmods (sysregs * Z) (block * Z) :=
  from_option (fun s => s) s (vcpu_vmodules_init (zero_block, 0) v true [] s).
Definition demo_vmods : vmods (sysregs * Z) (block * Z) := boot_vcpu 2 (boot_vcpu 1 boot_state).

Definition demo_ctx (v : Z) : list (option (block * Z)) := [Some (zero_block, 0); Some (arch_vcpu_state_init (demo_info v) 3, 0); Some (upd cptr 0x300000 zero_block, 0)].

Lemma demo_init v s : vmodule_list s = vmodule_list boot_state -> vmodule_class_nr s = 3%nat -> mach s = (demo_regs, 77) -> boot_vcpu v s = put_context v (demo_ctx v) s.
Proof.
  intros Hl Hn Hx. destruct s as [l n c x]. cbn in Hl, Hn, Hx. subst l n x. unfold boot_vcpu, vcpu_vmodules_init. cbn [Nat.eqb vmodule_class_nr vmodule_list assert_ mbind option_bind].
  unfold init_loop, init_one, run_hook, get_vmodule_data_by_id, put_data. cbn [contexts put_context set_mach].
  repeat (rewrite ?lookup_insert_eq; cbn; unfold put_context, set_mach; cbn). by rewrite !insert_insert_eq.
Qed.

Lemma demo_vmods_eq : demo_vmods = put_context 2 (demo_ctx 2) (put_context 1 (demo_ctx 1) boot_state).
Proof. unfold demo_vmods. by rewrite (demo_init 1), (demo_init 2). Qed.

Lemma demo_blocks : has_blocks 1 demo_vmods.
Proof.
  rewrite demo_vmods_eq. exists (demo_ctx 1). split; [cbn; by rewrite lookup_insert_ne, lookup_insert_eq|]. intros m Hm.
  change (vmodule_list _) with [demo_timer (mk_vmodule "vtimer_module" 0 0 None None None None None None None None None); arch_mod demo_info "aarch64 vcpu context" 1; vfp_mod demo_info "vfp" 2] in Hm.
  apply elem_of_cons in Hm as [->|Hm]; [by eexists|]. apply elem_of_cons in Hm as [->|Hm%list_elem_of_singleton]; [by eexists|]. rewrite Hm. by eexists.
Qed.

Lemma demo_registered : registered demo_info demo_vmods "aarch64 vcpu context" "vfp" 1 2.
Proof. rewrite demo_vmods_eq. destruct boot_registered as [[H1] H2 H3 H4 H5]. split; [by split|done..]. Qed.

Lemma demo_range : regs_in_range demo_info 1 (mach demo_vmods).1.
Proof.
  rewrite demo_vmods_eq. assert (Forall (fun x => narrow (fst x) = true -> 0 <= demo_regs (snd x) < 2 ^ 32) (arch_saved false ++ vfp_saved false)) as H by (repeat apply Forall_cons_2; try apply Forall_nil_2; cbn; lia).
  split; intros f r Hin; [apply (proj1 (list.Forall_forall _ _) H (f, r))|apply (proj1 (list.Forall_forall _ _) H (f, r))]; apply elem_of_app; [by left|by right].
Qed.

Lemma vcpu_registers_survive_switch_witness :
  exists s1 s3 : vmods (sysregs * Z) (block * Z), vcpu_context_save 1 demo_vmods = Some s1 /\ vcpu_context_restore 1 (set_mach (fun _ => 0, 0) s1) = Some s3
    /\ (mach s3).1 VBAR_EL1 = 0x80000 /\ (mach s3).1 (Q_reg 5) = 1005.
Proof.
  destruct (vcpu_registers_survive_switch demo_info "aarch64 vcpu context" "vfp" 1 2 1 demo_vmods demo_registered demo_blocks demo_range) as (s1 & E1 & (Hl & _) & _ & H).
  destruct (H (set_mach (fun _ => 0, 0) s1)) as (s3 & E3 & _ & Hr & _); [exact Hl|reflexivity|]. exists s1, s3. split; [exact E1|]. split; [exact E3|].
  rewrite demo_vmods_eq in Hr. split; [rewrite (Hr VBAR_EL1); [reflexivity|]; left|rewrite (Hr (Q_reg 5)); [reflexivity|]; right]; apply (bool_decide_unpack _); vm_compute; exact I.
Defined.


(** A virq that is taken back also takes back a pending fast interrupt. *)
Lemma clear_virq_clears_vfiq : Z.testbit (arch_clear_virq_flag (arch_set_vfiq_flag (fun _ => 0)) HCR_EL2) 6 = false.
Proof. vm_compute. reflexivity. Qed.

(** Initialising a vcpu again, as for a reboot, forgets the blocks it has: the
    array is a new one, so that memory is asked for again, and its absence is
    fatal. *)
Lemma reinit_forgets_blocks : contexts demo_vmods !! 1 = Some (demo_ctx 1) /\ vcpu_vmodules_init (zero_block, 0) 1 true [false] demo_vmods = None.
Proof.
  rewrite demo_vmods_eq. split; [cbn; by rewrite lookup_insert_ne, lookup_insert_eq|]. unfold vcpu_vmodules_init.
  change (vmodule_class_nr _) with 3%nat. cbn [Nat.eqb assert_ mbind option_bind]. unfold init_loop, init_one, get_vmodule_data_by_id. cbn. by rewrite lookup_insert_eq.
Qed.
