(* ===== verification/Vgicv3.v ===== *)
(** * The GICv3 of a guest (virt/virq_chips/vgicv3.c, include/device/gicv3.h)

    The list registers of the hypervisor interface, which are system registers
    here, the module that switches them between vcpus, the emulated distributor
    and the emulated redistributors.  A redistributor belongs to one vcpu;
    [gicr] holds the pointers to them, [None] is NULL.  A register of the GICv3
    that has the offset it has in the GICv2 keeps the name of Vgicv2.v. *)
From stdpp Require Import strings.
From S2P Require Import Prelude Bitops Bitmap Vmodule Virq Vgic Vgicv2.

Definition GICD_STATUSR : Z := 0x0010.
Definition GICD_ISENABLER_END : Z := 0x017c - 1.
Definition GICD_ICENABLER_END : Z := 0x01fc - 1.
Definition GICD_IPRIORITYR_END : Z := 0x07f8 - 1.
Definition GICD_ICFGR_END : Z := 0x0cfc - 1.
Definition GICD_PIDR2 : Z := 0xffe8.
Definition GICR_CTLR : Z := 0x0000.
Definition GICR_TYPER : Z := 0x0008.
Definition GICR_TYPER_HIGH : Z := 0x000c.
Definition GICR_ISENABLER : Z := 0x0100.
Definition GICR_ICENABLER : Z := 0x0180.
Definition GICR_ISPENDR0 : Z := 0x0200.
Definition GICR_ICPENDR0 : Z := 0x0280.
Definition GICR_PIDR2 : Z := 0xffe8.
Definition GICH_VMCR_VENG1 : Z := Z.shiftl 1 1.
Definition GICH_HCR_EN : Z := Z.shiftl 1 0.
Definition SIZE_64K : Z := 0x10000.
Definition EACCES : Z := 13.

(** ** The hypervisor interface *)
Inductive ich_reg :=
| ICH_LR_EL2 (n : Z)
| ICH_AP0R_EL2 (n : Z)
| ICH_AP1R_EL2 (n : Z)
| ICC_SRE_EL1
| ICH_VMCR_EL2
| ICH_HCR_EL2.

#[export] Instance ich_reg_eq : EqDecision ich_reg.
Proof. solve_decision. Defined.

(** The registers, and the interrupts [irq_clear_pending] was called for. *)
Record icregs := mk_ic {
  ic_reg : ich_reg -> Z;
  ic_cleared : list Z;
}.

Definition read_ic (r : ich_reg) (h : icregs) : Z := ic_reg h r.
Definition write_ic (val : Z) (r : ich_reg) (h : icregs) : icregs :=
  mk_ic (fun x => if decide (x = r) then val else ic_reg h x) (ic_cleared h).

Definition gicv3_read_lr (lr : Z) (h : icregs) : Z :=
  if (0 <=? lr) && (lr <? 16) then read_ic (ICH_LR_EL2 lr) h else 0.
Definition gicv3_write_lr (lr val : Z) (h : icregs) : icregs :=
  if (0 <=? lr) && (lr <? 16) then write_ic val (ICH_LR_EL2 lr) h else h.

(** The bit field [struct gic_lr]. *)
Definition gic_lr (v_intid p_intid priority group hw state : Z) : Z :=
  v_intid mod 2 ^ 32 + 2 ^ 32 * (p_intid mod 2 ^ 10) + 2 ^ 48 * (priority mod 2 ^ 8)
  + 2 ^ 60 * (group mod 2) + 2 ^ 61 * (hw mod 2) + 2 ^ 62 * (state mod 2 ^ 2).

Section gicv3.
(** [gicv3_nr_lr] and [gicv3_nr_pr] are set by [vgicv3_init]. *)
Context (gicv3_nr_lr gicv3_nr_pr : Z).

Definition gicv3_send_virq (virq : virq_desc) (h : icregs) : Z * icregs :=
  if gicv3_nr_lr <=? d_id virq then (- EINVAL, h)
  else
    let value := gic_lr (d_vno virq) (d_hno virq) (d_pr virq) 1 (b2z (virq_is_hw virq)) 1 in
    (0, gicv3_write_lr (d_id virq) value h).

(** VIRQ_ACTION_REMOVE falls through to VIRQ_ACTION_CLEAR. *)
Definition gicv3_update_virq (desc : virq_desc) (action : Z) (h : icregs) : Z * icregs :=
  if gicv3_nr_lr <=? d_id desc then (- EINVAL, h)
  else if action =? VIRQ_ACTION_REMOVE then
    let h := if virq_is_hw desc then mk_ic (ic_reg h) (ic_cleared h ++ [d_hno desc]) else h in
    (0, gicv3_write_lr (d_id desc) 0 h)
  else if action =? VIRQ_ACTION_CLEAR then (0, gicv3_write_lr (d_id desc) 0 h)
  else (0, h).

Definition gicv3_get_virq_state (virq : virq_desc) (h : icregs) : Z :=
  if gicv3_nr_lr <=? d_id virq then 0
  else Z.land (Z.shiftr (gicv3_read_lr (d_id virq) h) 62) 0x03.

Definition vgicv3_vcpu_init (v : nat) (flags : Z) (m : vm) : option vm :=
  if Z.land flags VIRQCHIP_F_HW_VIRT =? 0 then Some m else upd_vs v (set_nr_lrs gicv3_nr_lr) m.

(** The structure is cleared memory before; without hardware support it stays so. *)
Definition vgicv3_init_virqchip (flags : Z) : virq_chip icregs :=
  if negb (Z.land flags VIRQCHIP_F_HW_VIRT =? 0)
  then mk_chip (Some gicv3_send_virq) (Some gicv3_get_virq_state) (Some gicv3_update_virq) hook_vgic hook_vgic flags
  else mk_chip None None None hook_null hook_null 0.

(** ** The context of a vcpu: [ctx_lrs] are the fields [ich_lr0_el2] to
    [ich_lr15_el2], [ctx_ap0r] and [ctx_ap1r] those of the active priorities. *)
Record gicv3_context := mk_ctx3 {
  ctx_lrs : list Z;
  ctx_ap0r : list Z;
  ctx_ap1r : list Z;
  ctx_sre : Z;
  ctx_vmcr3 : Z;
  ctx_hcr3 : Z;
}.

(** The [switch] without breaks, from the case [count] down. *)
Fixpoint save_from (reg : Z -> ich_reg) (width : Z -> Z) (count : nat) (h : icregs) (l : list Z) : list Z :=
  match count with
  | O => l
  | S k => save_from reg width k h (<[k := width (read_ic (reg (Z.of_nat k)) h)]> l)
  end.

Fixpoint restore_from (reg : Z -> ich_reg) (width : Z -> Z) (count : nat) (l : list Z) (h : icregs) : icregs :=
  match count with
  | O => h
  | S k => restore_from reg width k l (write_ic (width (nth k l 0)) (reg (Z.of_nat k)) h)
  end.

(** A count that is not supported is a panic. *)
Definition gicv3_save_lrs (c : gicv3_context) (count : Z) (h : icregs) : option gicv3_context :=
  if 16 <? count then None
  else Some (mk_ctx3 (save_from ICH_LR_EL2 (fun x => x) (Z.to_nat count) h (ctx_lrs c)) (ctx_ap0r c) (ctx_ap1r c) (ctx_sre c) (ctx_vmcr3 c) (ctx_hcr3 c)).

(** Case 5 has the registers 0, case 6 the registers 1, case 7 the registers 2. *)
Definition gicv3_save_aprn (c : gicv3_context) (count : Z) (h : icregs) : option gicv3_context :=
  if (count =? 7) || (count =? 6) || (count =? 5) then
    let n := Z.to_nat (count - 4) in
    Some (mk_ctx3 (ctx_lrs c) (save_from ICH_AP0R_EL2 u32 n h (ctx_ap0r c)) (save_from ICH_AP1R_EL2 u32 n h (ctx_ap1r c)) (ctx_sre c) (ctx_vmcr3 c) (ctx_hcr3 c))
  else None.

Definition gicv3_state_save : hook icregs gicv3_context := fun _ d h =>
  c ← d;
  c ← gicv3_save_lrs c gicv3_nr_lr h;
  c ← gicv3_save_aprn c gicv3_nr_pr h;
  Some (Some (mk_ctx3 (ctx_lrs c) (ctx_ap0r c) (ctx_ap1r c) (u32 (read_ic ICC_SRE_EL1 h)) (u32 (read_ic ICH_VMCR_EL2 h)) (u32 (read_ic ICH_HCR_EL2 h))), h).

Definition gicv3_restore_aprn (c : gicv3_context) (count : Z) (h : icregs) : option icregs :=
  if (count =? 7) || (count =? 6) || (count =? 5) then
    let n := Z.to_nat (count - 4) in
    Some (restore_from ICH_AP1R_EL2 u32 n (ctx_ap1r c) (restore_from ICH_AP0R_EL2 u32 n (ctx_ap0r c) h))
  else None.

Definition gicv3_restore_lrs (c : gicv3_context) (count : Z) (h : icregs) : option icregs :=
  if 16 <? count then None else Some (restore_from ICH_LR_EL2 (fun x => x) (Z.to_nat count) (ctx_lrs c) h).

Definition gicv3_state_restore : hook icregs gicv3_context := fun _ d h =>
  c ← d;
  h ← gicv3_restore_lrs c gicv3_nr_lr h;
  h ← gicv3_restore_aprn c gicv3_nr_pr h;
  Some (Some c, write_ic (ctx_hcr3 c) ICH_HCR_EL2 (write_ic (ctx_vmcr3 c) ICH_VMCR_EL2 (write_ic (ctx_sre c) ICC_SRE_EL1 h))).

Definition gicv3_state_init : hook icregs gicv3_context := fun _ d h =>
  _ ← d;
  Some (Some (mk_ctx3 (replicate 16 0) (replicate 3 0) (replicate 3 0) 0x7 (u32 (Z.lor GICH_VMCR_VENG1 (Z.shiftl 0xff 24))) GICH_HCR_EN), h).

Definition gicv3_state_resume : hook icregs gicv3_context := gicv3_state_init.

Definition gicv3_vmodule_init (m : vmodule icregs gicv3_context) : vmodule icregs gicv3_context :=
  mk_vmodule (vmo_name m) (vmo_id m) 168 (Some gicv3_state_save) (Some gicv3_state_restore) (Some gicv3_state_init)
    (state_deinit m) (state_reset m) (state_stop m) (state_suspend m) (Some gicv3_state_resume) (state_dump m).
End gicv3.

(** ** Starting the virtual GICv3 *)
Record vgicv3_info := mk_info {
  i_gicd_base : Z; i_gicd_size : Z;
  i_gicr_base : Z; i_gicr_size : Z;
  i_gicc_base : Z; i_gicc_size : Z;
  i_gich_base : Z; i_gich_size : Z;
  i_gicv_base : Z; i_gicv_size : Z;
}.

Record gicv3_vars := mk_vars {
  v_nr_lr : Z;
  v_nr_pr : Z;
  v_info : list Z;
}.

(** The structure read as an array of ten words. *)
Definition info_of (l : list Z) : option vgicv3_info :=
  match l with
  | [a; b; c; d; e; f; g; h; i; j] => Some (mk_info a b c d e f g h i j)
  | _ => None
  end.

(** [data] are the [len] words; a word past the structure is written outside of it. *)
Fixpoint copy_words (i : nat) (data : list Z) (l : list Z) : option (list Z) :=
  match data with
  | [] => Some l
  | x :: data => _ ← l !! i; copy_words (S i) data (<[i := x]> l)
  end.

(** [vtr] is ICH_VTR_EL2; the result of the registration is ignored. *)
Definition vgicv3_init (data : list Z) (vtr : Z) (malloc_ok : bool) (g : gicv3_vars) (s : vmods icregs gicv3_context)
    : option (Z * gicv3_vars * vmods icregs gicv3_context) :=
  l ← copy_words 0 data (v_info g);
  i ← info_of l;
  if (i_gicd_base i =? 0) || (i_gicr_base i =? 0) || (i_gicd_size i =? 0) || (i_gicr_size i =? 0) then None
  else
    let val := u32 vtr in
    let nr_lr := Z.land val 0x3f + 1 in
    let nr_pr := Z.land (Z.shiftr val 29) 0x7 + 1 in
    let '(_, s) := register_vcpu_vmodule "gicv3-vmodule" (gicv3_vmodule_init nr_lr nr_pr) malloc_ok s in
    Some (0, mk_vars nr_lr nr_pr l, s).

(** ** The emulated distributor and redistributors *)
Record vgic_gicd := mk_vgicd {
  gd_ctlr : Z;
  gd_typer : Z;
  gd_pidr2 : Z;
  gd_base : Z;
  gd_end : Z;
}.

Record vgic_gicr := mk_gicr {
  gicr_ctlr : Z;
  gicr_pidr2 : Z;
  gicr_typer : Z;
  gicr_ispender : Z;
  gicr_enabler0 : Z;
  gicr_vcpu_id : Z;
  rd_base : Z;
  sgi_base : Z;
  vlpi_base : Z;
}.

Record vgicv3_dev := mk_vgicv3 {
  gicd : vgic_gicd;
  gicr : list (option vgic_gicr);
}.

Definition set_gicd (x : vgic_gicd) (g : vgicv3_dev) : vgicv3_dev := mk_vgicv3 x (gicr g).
Definition put_gicr (i : nat) (x : vgic_gicr) (g : vgicv3_dev) : vgicv3_dev := mk_vgicv3 (gicd g) (<[i := Some x]> (gicr g)).
Definition set_ispender (x : Z) (r : vgic_gicr) : vgic_gicr :=
  mk_gicr (gicr_ctlr r) (gicr_pidr2 r) (gicr_typer r) x (gicr_enabler0 r) (gicr_vcpu_id r) (rd_base r) (sgi_base r) (vlpi_base r).
Definition set_enabler0 (x : Z) (r : vgic_gicr) : vgic_gicr :=
  mk_gicr (gicr_ctlr r) (gicr_pidr2 r) (gicr_typer r) (gicr_ispender r) x (gicr_vcpu_id r) (rd_base r) (sgi_base r) (vlpi_base r).

Inductive gic_type := GIC_TYPE_GICD | GIC_TYPE_GICR_RD | GIC_TYPE_GICR_SGI | GIC_TYPE_GICR_VLPI | GIC_TYPE_INVAILD.

Definition vgic_gicd_init (nr_vcpu nr_vspi base size : Z) : vgic_gicd :=
  let typer := Z.lor 0 (u32 (Z.shiftl nr_vcpu 5)) in
  let typer := Z.lor typer (Z.shiftl 9 19) in
  let nr_spi := Z.shiftr (nr_vspi + 32) 5 - 1 in
  mk_vgicd 0 (Z.lor typer nr_spi) (Z.shiftl 0x3 4) base (u64 (base + size)).

(** [r] is the memory as [malloc] gave it; [gicr_enabler0] is not assigned. *)
Definition vgic_gicr_init (id nr_vcpu base : Z) (r : vgic_gicr) : vgic_gicr :=
  let base := 128 * 1024 * id in
  let typer := Z.lor 0 (u64 (Z.shiftl id 32)) in
  let typer := if id =? nr_vcpu - 1 then Z.lor typer (Z.shiftl 1 4) else typer in
  mk_gicr 0 (Z.shiftl 0x3 4) typer 0 (gicr_enabler0 r) id base (base + 64 * 1024) 0.

(** The type of the frame, and the offset in it. *)
Definition offset_to_gicr_type (r : vgic_gicr) (offset : Z) : gic_type * Z :=
  if (rd_base r <=? offset) && (offset <? rd_base r + SIZE_64K) then (GIC_TYPE_GICR_RD, offset - rd_base r)
  else if (sgi_base r <=? offset) && (offset <? sgi_base r + SIZE_64K) then (GIC_TYPE_GICR_SGI, offset - sgi_base r)
  else (GIC_TYPE_INVAILD, offset).

(** [*(uint32_t * )v = x] *)
Definition put_low (x v : Z) : Z := v - v mod 2 ^ 32 + x.

Section mmio.
Context {H : Type} (vc : virq_chip H) (v : nat).

Definition vgic_get_virq_type (offset : Z) (m : vm) : option Z :=
  collect (virq_get_type m v) 16 0 2 (16 * ((offset - GICD_ICFGR) / 4)) 0.

Definition vgic_set_virq_type (offset value : Z) (m : vm) : option vm :=
  set_types v 16 (16 * ((offset - GICD_ICFGR) / 4)) value m.

Definition vgic_gicd_mmio_read (d : vgic_gicd) (offset : Z) (m : vm) : option Z :=
  if offset =? GICD_CTLR then Some (Z.land (gd_ctlr d) 0x7fffffff)
  else if offset =? GICD_TYPER then Some (gd_typer d)
  else if offset =? GICD_STATUSR then Some 0
  else if between GICD_ISENABLER GICD_ISENABLER_END offset then Some 0
  else if between GICD_ICENABLER GICD_ICENABLER_END offset then Some 0
  else if offset =? GICD_PIDR2 then Some (gd_pidr2 d)
  else if between GICD_ICFGR GICD_ICFGR_END offset then vgic_get_virq_type offset m
  else Some 0.

Definition set_gd_ctlr (x : Z) (d : vgic_gicd) : vgic_gicd := mk_vgicd x (gd_typer d) (gd_pidr2 d) (gd_base d) (gd_end d).

(** The four priorities of a word. *)
Definition set_priorities (x t : Z) (m : vm) : option vm :=
  let y := u32 (x * 4 - 1) in
  '(_, m) ← virq_set_priority v (u32 (y + 1)) (Z.land t 0xff) m;
  '(_, m) ← virq_set_priority v (u32 (y + 2)) (Z.shiftr (Z.land t 0xff00) 8) m;
  '(_, m) ← virq_set_priority v (u32 (y + 3)) (Z.shiftr (Z.land t 0xff0000) 16) m;
  '(_, m) ← virq_set_priority v (u32 (y + 4)) (Z.shiftr (Z.land t 0xff000000) 24) m;
  Some m.

Definition vgic_gicd_mmio_write (d : vgic_gicd) (offset value : Z) (m : vm) : option (vgic_gicd * vm) :=
  if offset =? GICD_CTLR then Some (set_gd_ctlr (u32 value) d, m)
  else if (offset =? GICD_TYPER) || (offset =? GICD_STATUSR) then Some (d, m)
  else if between GICD_ISENABLER GICD_ISENABLER_END offset then
    m ← enable_bits v ((offset - GICD_ISENABLER) / 4 * 32) value m; Some (d, m)
  else if between GICD_ICENABLER GICD_ICENABLER_END offset then
    m ← disable_bits v ((offset - GICD_ICENABLER) / 4 * 32) value m; Some (d, m)
  else if between GICD_IPRIORITYR GICD_IPRIORITYR_END offset then
    m ← set_priorities ((offset - GICD_IPRIORITYR) / 4) (u32 value) m; Some (d, m)
  else if between GICD_ICFGR GICD_ICFGR_END offset then
    m ← vgic_set_virq_type offset (u32 value) m; Some (d, m)
  else Some (d, m).

(** The value that the guest reads or has written, the distributor and the VM. *)
Definition vgic_gicd_mmio (d : vgic_gicd) (read : bool) (offset value : Z) (m : vm) : option (Z * Z * vgic_gicd * vm) :=
  if read then x ← vgic_gicd_mmio_read d offset m; Some (0, put_low x value, d, m)
  else '(d, m) ← vgic_gicd_mmio_write d offset value m; Some (0, value, d, m).

(** A write to the frame RD does nothing. *)
Definition vgic_gicr_rd_mmio (r : vgic_gicr) (read : bool) (offset value : Z) : Z * Z :=
  if read then
    (0, if offset =? GICR_PIDR2 then gicr_pidr2 r
        else if offset =? GICR_TYPER then gicr_typer r
        else if offset =? GICR_TYPER_HIGH then Z.shiftr (gicr_typer r) 32
        else 0)
  else (0, value).

(** The bodies of the loops over the written bits. *)
Definition icpend_bit (bit : Z) (s : vgic_gicr * vm * H) : option (bool * (vgic_gicr * vm * H)) :=
  let '(r, m, h) := s in
  let r := set_ispender (Z.ldiff (gicr_ispender r) (Z.shiftl 1 bit)) r in
  '(m, h) ← clear_pending_virq vc v bit m h;
  Some (false, (r, m, h)).

Definition isenable_bit (bit : Z) (s : vgic_gicr * vm) : option (bool * (vgic_gicr * vm)) :=
  let '(r, m) := s in
  if Z.land (gicr_enabler0 r) (Z.shiftl 1 bit) =? 0 then
    '(_, m) ← virq_enable v bit m;
    Some (false, (set_enabler0 (Z.lor (gicr_enabler0 r) (Z.shiftl 1 bit)) r, m))
  else Some (false, (r, m)).

Definition icenable_bit (bit : Z) (s : vgic_gicr * vm) : option (bool * (vgic_gicr * vm)) :=
  let '(r, m) := s in
  if negb (Z.land (gicr_enabler0 r) (Z.shiftl 1 bit) =? 0) then
    '(_, m) ← virq_disable v bit m;
    Some (false, (set_enabler0 (Z.ldiff (gicr_enabler0 r) (Z.shiftl 1 bit)) r, m))
  else Some (false, (r, m)).

Definition gicr_sgi_read (r : vgic_gicr) (offset : Z) : Z :=
  if offset =? GICR_CTLR then Z.land (gicr_ctlr r) 0x7fffffff
  else if offset =? GICR_ISPENDR0 then gicr_ispender r
  else if offset =? GICR_PIDR2 then Z.shiftl 0x3 4
  else if (offset =? GICR_ISENABLER) || (offset =? GICR_ICENABLER) then gicr_enabler0 r
  else 0.

Definition gicr_sgi_write (r : vgic_gicr) (offset value : Z) (m : vm) (h : H) : option (vgic_gicr * vm * H) :=
  if offset =? GICR_ICPENDR0 then for_each_set_bit (fun _ => [value]) 32 icpend_bit (r, m, h)
  else if offset =? GICR_ISENABLER then s ← for_each_set_bit (fun _ => [value]) 32 isenable_bit (r, m); Some (s, h)
  else if offset =? GICR_ICENABLER then s ← for_each_set_bit (fun _ => [value]) 32 icenable_bit (r, m); Some (s, h)
  else Some (r, m, h).

Definition vgic_gicr_sgi_mmio (r : vgic_gicr) (read : bool) (offset value : Z) (m : vm) (h : H) : option (Z * Z * vgic_gicr * vm * H) :=
  if read then Some (0, gicr_sgi_read r offset, r, m, h)
  else '(r, m, h) ← gicr_sgi_write r offset value m h; Some (0, value, r, m, h).

Definition vgic_gicr_vlpi_mmio (value : Z) : Z * Z := (0, value).

(** [id] is the vcpu's number. *)
Definition vgic_check_gicr_access (id : Z) (r : vgic_gicr) (type : gic_type) (offset : Z) : bool :=
  if negb (id =? gicr_vcpu_id r) then
    match type with
    | GIC_TYPE_GICR_RD => (offset =? GICR_TYPER) || (offset =? GICR_PIDR2) || (offset =? GICR_TYPER_HIGH)
    | _ => false
    end
  else true.

(** The redistributors from [i] on; [n] are left.  [gic->gicr[i]] is dereferenced. *)
Fixpoint find_gicr (n i : nat) (offset : Z) (g : vgicv3_dev) (last : nat) : option (gic_type * Z * nat) :=
  match n with
  | O => Some (GIC_TYPE_INVAILD, offset, last)
  | S n =>
      r ← mjoin (gicr g !! i);
      match offset_to_gicr_type r offset with
      | (GIC_TYPE_INVAILD, _) => find_gicr n (S i) offset g i
      | (t, o) => Some (t, o, i)
      end
  end.

(** The access to the frame [type] of the redistributor [i]. *)
Definition gicr_access (id : Z) (g : vgicv3_dev) (type : gic_type) (i : nat) (read : bool) (offset value : Z) (m : vm) (h : H)
    : option (Z * Z * vgicv3_dev * vm * H) :=
  match type with
  | GIC_TYPE_INVAILD => Some (- EINVAL, value, g, m, h)
  | _ =>
      r ← mjoin (gicr g !! i);
      if negb (vgic_check_gicr_access id r type offset) then Some (- EACCES, value, g, m, h)
      else
        match type with
        | GIC_TYPE_GICR_RD => let '(ret, x) := vgic_gicr_rd_mmio r read offset value in Some (ret, x, g, m, h)
        | GIC_TYPE_GICR_SGI => '(ret, x, r, m, h) ← vgic_gicr_sgi_mmio r read offset value m h; Some (ret, x, put_gicr i r g, m, h)
        | GIC_TYPE_GICR_VLPI => let '(ret, x) := vgic_gicr_vlpi_mmio value in Some (ret, x, g, m, h)
        | _ => Some (- EINVAL, value, g, m, h)
        end
  end.

(** The own redistributor first; the master vcpu may access those of the others. *)
Definition locate_gicr (own : vgic_gicr) (id nr_vcpu : nat) (offset : Z) (g : vgicv3_dev) : option (gic_type * Z * nat) :=
  match offset_to_gicr_type own offset with
  | (GIC_TYPE_INVAILD, _) => find_gicr nr_vcpu 0 offset g id
  | (t, o) => Some (t, o, id)
  end.

(** [idx] says which area of the device the access is in; [gic->gicr[id]] is read
    for every one of them. *)
Definition vgic_mmio_handler (read : bool) (idx offset value : Z) (g : vgicv3_dev) (m : vm) (h : H) : option (Z * Z * vgicv3_dev * vm * H) :=
  c ← get_vcpu v m;
  let id := vcpu_id c in
  own ← gicr g !! Z.to_nat id;
  if idx =? 0 then
    '(ret, x, d, m) ← vgic_gicd_mmio (gicd g) read offset value m; Some (ret, x, set_gicd d g, m, h)
  else if idx =? 1 then
    r ← own;
    '(type, offset, i) ← locate_gicr r (Z.to_nat id) (length (vcpus m)) offset g;
    gicr_access id g type i read offset value m h
  else Some (- EINVAL, value, g, m, h).

Definition vgic_mmio_read := vgic_mmio_handler true.
Definition vgic_mmio_write := vgic_mmio_handler false.

(** ** Software generated interrupts: a write to ICC_SGI1R_EL1 *)
Context (CONFIG_NR_CPUS_CLUSTER0 : Z).

Definition affinity_to_logic_cpu (aff3 aff2 aff1 aff0 : Z) : Z := aff1 * CONFIG_NR_CPUS_CLUSTER0 + aff0.

(** The bits of [cpumask], one word; a bit outside of it is a write past it. *)
Definition sgi_targets (id sgi_value : Z) (m : vm) : option (list Z) :=
  if negb (Z.land sgi_value (Z.shiftl 1 40) =? 0) then mask_others (length (vcpus m)) 0 id [0]
  else
    let tmp := Z.land sgi_value 0xffff in
    let aff3 := Z.shiftr (Z.land sgi_value (Z.shiftl 0xff 48)) 48 in
    let aff2 := Z.shiftr (Z.land sgi_value (Z.shiftl 0xff 32)) 32 in
    let aff1 := Z.shiftr (Z.land sgi_value (Z.shiftl 0xff 16)) 16 in
    for_each_set_bit (fun _ => [tmp]) 16
      (fun bit mask => mask ← set_bit (affinity_to_logic_cpu aff3 aff2 aff1 bit) mask; Some (false, mask)) [0].

Definition sgi_to_cpu (id sgi bit : Z) (m : vm) : option (bool * vm) :=
  target ← get_vcpu_in_vm m bit; '(_, m) ← send_virq_to_vcpu id target sgi m; Some (false, m).

(** A target that is not a vcpu of the VM is a NULL pointer, which is used. *)
Definition vgicv3_send_sgi (sgi_value : Z) (m : vm) : option (Z * vm) :=
  c ← get_vcpu v m;
  let id := vcpu_id c in
  let sgi := Z.shiftr (Z.land sgi_value (Z.shiftl 0xf 24)) 24 in
  if 16 <=? sgi then Some (- EINVAL, m)
  else
    mask ← sgi_targets id sgi_value m;
    m ← for_each_set_bit (fun _ => mask) CONFIG_NR_CPUS (sgi_to_cpu id sgi) m;
    Some (0, m).
End mmio.

(** ** The list registers of the GICv3 implement the interface of vgic.c *)
Definition gicv3_chip (nr : Z) : virq_chip icregs := vgicv3_init_virqchip nr VIRQCHIP_F_HW_VIRT.

Lemma lr3_write k j x h : 0 <= j < 16 -> gicv3_read_lr k (gicv3_write_lr j x h) = if k =? j then x else gicv3_read_lr k h.
Proof.
  intros Hj. unfold gicv3_read_lr, gicv3_write_lr. rewrite (proj2 (Z.leb_le 0 j)), (proj2 (Z.ltb_lt j 16)) by lia. cbn [andb].
  unfold read_ic, write_ic; cbn. destruct (Z.eqb_spec k j) as [->|Hne].
  - rewrite (proj2 (Z.leb_le 0 j)), (proj2 (Z.ltb_lt j 16)) by lia. cbn [andb]. by rewrite decide_True.
  - destruct (_ && _); [|done]. rewrite decide_False; [done|]. congruence.
Qed.

Lemma shiftr_land_62 x : Z.land (Z.shiftr x 62) 3 = (x / 2 ^ 62) mod 4.
Proof. change 3 with (2 ^ 2 - 1). by rewrite land_pow_pred, Z.shiftr_div_pow2. Qed.

(** The fields of a list register. *)
Lemma gic_lr_fields vid pid pr grp hw state :
  let x := gic_lr vid pid pr grp hw state in
  x mod 2 ^ 32 = vid mod 2 ^ 32 /\ (x / 2 ^ 32) mod 2 ^ 10 = pid mod 2 ^ 10 /\ (x / 2 ^ 48) mod 2 ^ 8 = pr mod 2 ^ 8
  /\ (x / 2 ^ 60) mod 2 = grp mod 2 /\ (x / 2 ^ 61) mod 2 = hw mod 2 /\ (x / 2 ^ 62) mod 4 = state mod 4 /\ 0 <= x < 2 ^ 64.
Proof.
  unfold gic_lr. pose proof (Z.mod_pos_bound vid (2 ^ 32) ltac:(lia)). pose proof (Z.mod_pos_bound pid (2 ^ 10) ltac:(lia)).
  pose proof (Z.mod_pos_bound pr (2 ^ 8) ltac:(lia)). pose proof (Z.mod_pos_bound grp 2 ltac:(lia)).
  pose proof (Z.mod_pos_bound hw 2 ltac:(lia)). pose proof (Z.mod_pos_bound state (2 ^ 2) ltac:(lia)). change 4 with (2 ^ 2).
  generalize dependent (vid mod 2 ^ 32). generalize dependent (pid mod 2 ^ 10). generalize dependent (pr mod 2 ^ 8).
  generalize dependent (grp mod 2). generalize dependent (hw mod 2). generalize dependent (state mod 2 ^ 2).
  intros. cbn zeta. split_and!; dlia.
Qed.

#[export] Instance gicv3_list_registers nr (Hnr : 0 < nr <= 16) : ListRegisters (gicv3_chip nr) nr.
Proof.
  refine {| lr_state := fun h k => Z.land (Z.shiftr (gicv3_read_lr k h) 62) 3; lr_vid := fun h k => gicv3_read_lr k h mod 2 ^ 32 |}.
  - lia.
  - intros h k. rewrite shiftr_land_62. pose proof (Z.mod_pos_bound (gicv3_read_lr k h / 2 ^ 62) 4 ltac:(lia)). lia.
  - intros x h k Hid Hk Hno. unfold virqchip_send_virq.
    change (send_virq_op (gicv3_chip nr)) with (Some (gicv3_send_virq nr)). unfold gicv3_send_virq. rewrite (proj2 (Z.leb_gt _ _)) by lia. cbn [snd].
    rewrite !lr3_write by lia. destruct (k =? d_id x); [|done].
    destruct (gic_lr_fields (d_vno x) (d_hno x) (d_pr x) 1 (b2z (virq_is_hw x)) 1) as (F1 & _ & _ & _ & _ & F6 & _).
    rewrite shiftr_land_62, F6, F1, (Z.mod_small (d_vno x)) by lia. done.
  - intros x h Hid. unfold virqchip_get_virq_state.
    change (get_virq_state_op (gicv3_chip nr)) with (Some (gicv3_get_virq_state nr)). unfold gicv3_get_virq_state.
    by rewrite (proj2 (Z.leb_gt _ _)) by lia.
  - intros x h k Hid Hk Hne. unfold virqchip_update_virq.
    change (update_virq_op (gicv3_chip nr)) with (Some (gicv3_update_virq nr)). unfold gicv3_update_virq.
    rewrite (proj2 (Z.leb_gt _ _)) by lia.
    change (VIRQ_ACTION_CLEAR =? VIRQ_ACTION_REMOVE) with false. rewrite Z.eqb_refl. cbn [snd]. rewrite !lr3_write by lia. by rewrite (proj2 (Z.eqb_neq _ _) Hne).
Defined.

(** A list register carries the virq: its number, the physical interrupt, the
    whole priority, group 1, the hardware bit and the pending state; the other
    list registers keep what they had. *)
Theorem gicv3_send_virq_encodes nr x h :
  nr <= 16 -> 0 <= d_id x < nr -> 0 <= d_vno x < 1024 -> 0 <= d_hno x < 1024 -> 0 <= d_pr x < 256 ->
  exists h', gicv3_send_virq nr x h = (0, h') /\ gicv3_get_virq_state nr x h' = VIRQ_STATE_PENDING
    /\ (let lr := gicv3_read_lr (d_id x) h' in
        0 <= lr < 2 ^ 64 /\ lr mod 2 ^ 32 = d_vno x /\ (lr / 2 ^ 32) mod 2 ^ 10 = d_hno x /\ (lr / 2 ^ 48) mod 2 ^ 8 = d_pr x
        /\ (lr / 2 ^ 60) mod 2 = 1 /\ (lr / 2 ^ 61) mod 2 = b2z (virq_is_hw x))
    /\ (forall k, k <> d_id x -> gicv3_read_lr k h' = gicv3_read_lr k h) /\ ic_cleared h' = ic_cleared h.
Proof.
  intros Hnr Hid Hno Hh Hp. unfold gicv3_send_virq, gicv3_get_virq_state. rewrite (proj2 (Z.leb_gt _ _)) by lia. eexists. split; [done|].
  destruct (gic_lr_fields (d_vno x) (d_hno x) (d_pr x) 1 (b2z (virq_is_hw x)) 1) as (F1 & F2 & F3 & F4 & F5 & F6 & F7).
  split; [|split; [|split]].
  - by rewrite lr3_write, Z.eqb_refl, shiftr_land_62, F6 by lia.
  - cbn zeta. rewrite lr3_write, Z.eqb_refl, F1, F2, F3, F4, F5, !Z.mod_small by (lia || by destruct (virq_is_hw x)). done.
  - intros k Hk. by rewrite lr3_write, (proj2 (Z.eqb_neq _ _) Hk) by lia.
  - unfold gicv3_write_lr. by destruct (_ && _).
Qed.

(** ** Switching between vcpus *)
Lemma save_from_spec reg width n h l :
  (n <= length l)%nat -> length (save_from reg width n h l) = length l
  /\ forall k, (k < n)%nat -> nth k (save_from reg width n h l) 0 = width (read_ic (reg (Z.of_nat k)) h).
Proof.
  assert (forall n l, length (save_from reg width n h l) = length l) as Hlen.
  { clear. intros n. induction n as [|n IH]; intros l; cbn [save_from]; [done|]. by rewrite IH, length_insert. }
  assert (forall n l k, (n <= k)%nat -> nth k (save_from reg width n h l) 0 = nth k l 0) as Hhi.
  { clear. intros n. induction n as [|n IH]; intros l k Hk; cbn [save_from]; [done|]. rewrite IH by lia.
    rewrite !nth_lookup, list_lookup_insert_ne by lia. done. }
  intros Hl. split; [apply Hlen|]. revert l Hl. induction n as [|n IH]; intros l Hl k Hk; [lia|]. cbn [save_from].
  destruct (decide (k = n)) as [->|]; [|apply IH; [rewrite length_insert|]; lia].
  rewrite Hhi, nth_lookup, list_lookup_insert_eq by lia. done.
Qed.

(** [kept reg n h h']: the registers outside of the first [n] of the bank [reg] are the same. *)
Definition kept (reg : Z -> ich_reg) (n : nat) (h h' : icregs) : Prop :=
  ic_cleared h' = ic_cleared h /\ forall r, (forall k, (k < n)%nat -> r <> reg (Z.of_nat k)) -> read_ic r h' = read_ic r h.

Lemma write_ic_spec r x y h : read_ic r (write_ic x y h) = if decide (r = y) then x else read_ic r h.
Proof. done. Qed.

Lemma restore_from_spec reg width n l h :
  (forall i j, reg i = reg j -> i = j) ->
  (forall k, (k < n)%nat -> read_ic (reg (Z.of_nat k)) (restore_from reg width n l h) = width (nth k l 0)) /\ kept reg n h (restore_from reg width n l h).
Proof.
  intros Hinj. revert h. induction n as [|n IH]; intros h; cbn [restore_from].
  - split; [intros; lia|]. by split.
  - destruct (IH (write_ic (width (nth n l 0)) (reg (Z.of_nat n)) h)) as (H1 & H2 & H3). split; [|split].
    + intros k Hk. destruct (decide (k = n)) as [->|]; [|apply H1; lia].
      rewrite H3 by (intros j Hj ?%Hinj; lia). by rewrite write_ic_spec, decide_True.
    + done.
    + intros r Hr. rewrite H3 by (intros k Hk; apply Hr; lia). rewrite write_ic_spec, decide_False; [done|]. apply Hr. lia.
Qed.

(** The fields of the structure. *)
Definition ctx_ok (c : gicv3_context) : Prop := length (ctx_lrs c) = 16%nat /\ length (ctx_ap0r c) = 3%nat /\ length (ctx_ap1r c) = 3%nat.

(** The registers that belong to a vcpu. *)
Definition vcpu_part (nr_lr nr_pr : Z) (r : ich_reg) : bool :=
  match r with
  | ICH_LR_EL2 n => (0 <=? n) && (n <? nr_lr)
  | ICH_AP0R_EL2 n | ICH_AP1R_EL2 n => (0 <=? n) && (n <? nr_pr - 4)
  | _ => true
  end.

Definition regs_fit (h : icregs) : Prop := forall r, 0 <= read_ic r h < 2 ^ match r with ICH_LR_EL2 _ => 64 | _ => 32 end.

Lemma supported_aprn nr_pr : 5 <= nr_pr <= 7 -> (nr_pr =? 7) || (nr_pr =? 6) || (nr_pr =? 5) = true.
Proof. intros H. destruct (Z.eqb_spec nr_pr 7), (Z.eqb_spec nr_pr 6), (Z.eqb_spec nr_pr 5); try done; lia. Qed.

(** What a context holds after it was saved. *)
Definition holds (nr_lr nr_pr : Z) (c : gicv3_context) (h : icregs) : Prop :=
  ctx_ok c
  /\ (forall k, (k < Z.to_nat nr_lr)%nat -> nth k (ctx_lrs c) 0 = read_ic (ICH_LR_EL2 (Z.of_nat k)) h)
  /\ (forall k, (k < Z.to_nat (nr_pr - 4))%nat -> nth k (ctx_ap0r c) 0 = u32 (read_ic (ICH_AP0R_EL2 (Z.of_nat k)) h)
        /\ nth k (ctx_ap1r c) 0 = u32 (read_ic (ICH_AP1R_EL2 (Z.of_nat k)) h))
  /\ ctx_sre c = u32 (read_ic ICC_SRE_EL1 h) /\ ctx_vmcr3 c = u32 (read_ic ICH_VMCR_EL2 h) /\ ctx_hcr3 c = u32 (read_ic ICH_HCR_EL2 h).

Lemma gicv3_save_spec nr_lr nr_pr v c h :
  0 < nr_lr <= 16 -> 5 <= nr_pr <= 7 -> ctx_ok c ->
  exists c', gicv3_state_save nr_lr nr_pr v (Some c) h = Some (Some c', h) /\ holds nr_lr nr_pr c' h.
Proof.
  intros Hl Hp (C1 & C2 & C3). unfold gicv3_state_save, gicv3_save_lrs, gicv3_save_aprn.
  rewrite (proj2 (Z.ltb_ge _ _)), supported_aprn by lia. msimpl. eexists. split; [done|].
  destruct (save_from_spec ICH_LR_EL2 (fun x => x) (Z.to_nat nr_lr) h (ctx_lrs c)) as [L1 S1]; [lia|].
  destruct (save_from_spec ICH_AP0R_EL2 u32 (Z.to_nat (nr_pr - 4)) h (ctx_ap0r c)) as [L2 S2]; [lia|].
  destruct (save_from_spec ICH_AP1R_EL2 u32 (Z.to_nat (nr_pr - 4)) h (ctx_ap1r c)) as [L3 S3]; [lia|].
  split; [split; cbn; lia|]. split; [exact S1|]. split; [|done]. intros k Hk. split; [by apply S2|by apply S3].
Qed.

Lemma gicv3_restore_spec nr_lr nr_pr v c h h2 :
  0 < nr_lr <= 16 -> 5 <= nr_pr <= 7 -> regs_fit h -> holds nr_lr nr_pr c h ->
  exists h3, gicv3_state_restore nr_lr nr_pr v (Some c) h2 = Some (Some c, h3) /\ ic_cleared h3 = ic_cleared h2
    /\ forall r, read_ic r h3 = if vcpu_part nr_lr nr_pr r then read_ic r h else read_ic r h2.
Proof.
  intros Hl Hp Hfit (_ & H1 & H2 & H3 & H4 & H5). unfold gicv3_state_restore, gicv3_restore_lrs, gicv3_restore_aprn.
  rewrite (proj2 (Z.ltb_ge _ _)), supported_aprn by lia. msimpl. set (n := Z.to_nat (nr_pr - 4)) in *.
  destruct (restore_from_spec ICH_LR_EL2 (fun x => x) (Z.to_nat nr_lr) (ctx_lrs c) h2) as (R1 & C1 & K1); [by intros ?? [= ->]|].
  set (ha := restore_from ICH_LR_EL2 _ _ _ h2) in *.
  destruct (restore_from_spec ICH_AP0R_EL2 u32 n (ctx_ap0r c) ha) as (R2 & C2 & K2); [by intros ?? [= ->]|].
  set (hb := restore_from ICH_AP0R_EL2 _ _ _ ha) in *.
  destruct (restore_from_spec ICH_AP1R_EL2 u32 n (ctx_ap1r c) hb) as (R3 & C3 & K3); [by intros ?? [= ->]|].
  set (hc := restore_from ICH_AP1R_EL2 _ _ _ hb) in *.
  eexists. split; [done|]. split; [cbn [ic_cleared write_ic]; congruence|].
  assert (forall r, (forall k, r <> ICH_LR_EL2 k) -> u32 (read_ic r h) = read_ic r h) as Hu.
  { intros r Hr. specialize (Hfit r). destruct r; try (by apply u32_small). by destruct (Hr n0). }
  intros r. rewrite !write_ic_spec. destruct r as [k|k|k| | |]; cbn [vcpu_part].
  - rewrite !decide_False by done. rewrite K3, K2 by done. destruct ((0 <=? k) && (k <? nr_lr)) eqn:E.
    + apply andb_true_iff in E as [?%Z.leb_le ?%Z.ltb_lt]. replace k with (Z.of_nat (Z.to_nat k)) by lia. rewrite R1, H1 by lia. done.
    + rewrite K1; [done|]. intros j Hj [= ->]. apply andb_false_iff in E as [?%Z.leb_gt|?%Z.ltb_ge]; lia.
  - rewrite !decide_False by done. rewrite K3 by done. destruct ((0 <=? k) && (k <? nr_pr - 4)) eqn:E.
    + apply andb_true_iff in E as [?%Z.leb_le ?%Z.ltb_lt]. replace k with (Z.of_nat (Z.to_nat k)) by lia.
      rewrite R2, (proj1 (H2 (Z.to_nat k) ltac:(lia))) by lia. by rewrite !Hu by (by rewrite ?Hu).
    + rewrite K2, K1; [done|done|]. intros j Hj [= ->]. apply andb_false_iff in E as [?%Z.leb_gt|?%Z.ltb_ge]; lia.
  - rewrite !decide_False by done. destruct ((0 <=? k) && (k <? nr_pr - 4)) eqn:E.
    + apply andb_true_iff in E as [?%Z.leb_le ?%Z.ltb_lt]. replace k with (Z.of_nat (Z.to_nat k)) by lia.
      rewrite R3, (proj2 (H2 (Z.to_nat k) ltac:(lia))) by lia. by rewrite !Hu by (by rewrite ?Hu).
    + rewrite K3, K2, K1; [done|done|done|]. intros j Hj [= ->]. apply andb_false_iff in E as [?%Z.leb_gt|?%Z.ltb_ge]; lia.
  - by rewrite !decide_False, decide_True, H3, Hu by done.
  - by rewrite decide_False, decide_True, H4, Hu by done.
  - by rewrite decide_True, H5, Hu by done.
Qed.

(** A vcpu's interface survives other vcpus: with the counts the code supports,
    saving never panics, and whatever the registers hold when the context is
    restored, those of the vcpu then have the values they had when it was saved;
    the registers that are no part of it are not touched. *)
Theorem gicv3_switch_roundtrip nr_lr nr_pr v c h h2 :
  0 < nr_lr <= 16 -> 5 <= nr_pr <= 7 -> ctx_ok c -> regs_fit h ->
  exists c' h3, gicv3_state_save nr_lr nr_pr v (Some c) h = Some (Some c', h) /\ ctx_ok c'
    /\ gicv3_state_restore nr_lr nr_pr v (Some c') h2 = Some (Some c', h3) /\ ic_cleared h3 = ic_cleared h2
    /\ forall r, read_ic r h3 = if vcpu_part nr_lr nr_pr r then read_ic r h else read_ic r h2.
Proof.
  intros Hl Hp Hc Hf. destruct (gicv3_save_spec nr_lr nr_pr v c h Hl Hp Hc) as (c' & E & Hh).
  destruct (gicv3_restore_spec nr_lr nr_pr v c' h h2 Hl Hp Hf Hh) as (h3 & E3 & H3). exists c', h3. split_and!; try done; apply Hh || apply H3.
Qed.

(** With the counts the code supports, the module keeps to its promise to the others
    (Vmodule.v): its hooks return and touch none of their registers. *)
Lemma gicv3_module_foreign nr_lr nr_pr m : 0 < nr_lr <= 16 -> 5 <= nr_pr <= 7 -> Foreign (rest_module (gicv3_vmodule_init nr_lr nr_pr m)).
Proof.
  intros Hl Hp. apply rest_foreign; [done|..]; intros h [= <-] v c y.
  - by eexists _, _.
  - unfold gicv3_state_save, gicv3_save_lrs, gicv3_save_aprn. cbn [mbind option_bind]. rewrite (proj2 (Z.ltb_ge _ _)), supported_aprn by lia. by eexists _, _.
  - unfold gicv3_state_restore, gicv3_restore_lrs, gicv3_restore_aprn. cbn [mbind option_bind]. rewrite (proj2 (Z.ltb_ge _ _)), supported_aprn by lia. by eexists _, _.
Qed.

(** ** What a vcpu does to its own interrupts stays there *)

(** [m'] is [m] but for the vcpu [v], which is still the same vcpu. *)
Record own_step (v : nat) (m m' : vm) : Prop := mk_own_step {
  os_ok : vm_ok m';
  os_nr : vspi_nr m' = vspi_nr m;
  os_spi : vspi_desc m' = vspi_desc m;
  os_map : vspi_map m' = vspi_map m;
  os_vcpus : length (vcpus m') = length (vcpus m);
  os_others : forall u, u <> v -> get_vcpu u m' = get_vcpu u m;
  os_id : vcpu_id <$> get_vcpu v m' = vcpu_id <$> get_vcpu v m;
}.

Lemma own_step_refl v m : vm_ok m -> own_step v m m.
Proof. by split. Qed.

Lemma own_step_trans v m1 m2 m3 : own_step v m1 m2 -> own_step v m2 m3 -> own_step v m1 m3.
Proof.
  intros [] []. split; try congruence. intros u Hu. rewrite os_others1, os_others0 by done. done.
Qed.

Lemma own_step_emit v m m' c : own_step v m m' -> own_step v m (emit c m').
Proof. intros []. split; try done. by destruct os_ok0. Qed.

Lemma own_step_vcpu v m m' c : own_step v m m' -> get_vcpu v m = Some c -> exists c', get_vcpu v m' = Some c' /\ vcpu_id c' = vcpu_id c.
Proof. intros [] Hc. rewrite Hc in os_id0. destruct (get_vcpu v m') as [c'|]; [|done]. exists c'. cbn in os_id0. split; congruence. Qed.

Lemma own_step_upd_vs v c f m : vm_ok m -> get_vcpu v m = Some c -> vs_ok (vm_irq_count m) (f (vcpu_vs c)) ->
  exists m', upd_vs v f m = Some m' /\ own_step v m m'.
Proof.
  intros Hm Hc Hf. rewrite (upd_vs_some _ _ _ _ Hc). eexists. split; [done|]. split; try done.
  - by apply vm_ok_upd_vs.
  - cbn. apply length_insert.
  - intros u Hu. by rewrite (get_vcpu_insert _ _ _ _ _ Hc), decide_False by congruence.
  - by rewrite (get_vcpu_insert _ _ _ _ _ Hc), decide_True, Hc by done.
Qed.

Lemma own_step_upd v i f m x : vm_ok m -> 0 <= i -> rd (Local v i) m = Some x -> keeps f x ->
  exists m', upd (Local v i) f m = Some m' /\ own_step v m m' /\ rd (Local v i) m' = Some (f x).
Proof.
  intros Hm Hi Hx Hk. destruct (upd_keeps (Local v i) x f m Hm Hi Hx Hk) as (m' & E & Hm' & Hr & Hx' & _).
  exists m'. split; [done|]. split; [|done]. pose proof E as E'. unfold upd, wr in E'. rewrite Hx in E'. cbn [mbind option_bind] in E'.
  rewrite ?Hx in E'. cbn [mbind option_bind] in E'. destruct (get_vcpu v m) as [c|] eqn:Hc; [|cbn [rd] in Hx; by rewrite Hc in Hx].
  rewrite (upd_vs_some _ _ _ _ Hc) in E'. injection E' as <-. split; try done.
  - cbn. apply length_insert.
  - intros u Hu. by rewrite (get_vcpu_insert _ _ _ _ _ Hc), decide_False by congruence.
  - by rewrite (get_vcpu_insert _ _ _ _ _ Hc), decide_True, Hc by done.
Qed.

Lemma local_desc_some v c m i : vm_ok m -> get_vcpu v m = Some c -> 0 <= i < 32 ->
  get_virq_desc m v i = Some (Local v i) /\ exists x, rd (Local v i) m = Some x /\ d_vno x = i.
Proof.
  intros Hm Hc Hi. unfold get_virq_desc. rewrite (proj2 (Z.ltb_lt _ _)) by (unfold VM_LOCAL_VIRQ_NR, VM_SGI_VIRQ_NR, VM_PPI_VIRQ_NR; lia).
  split; [done|]. destruct (ok_vcpu m Hm v c Hc) as (_ & _ & Hl & _ & Hd).
  destruct (lookup_lt_is_Some_2 (local_desc (vcpu_vs c)) (Z.to_nat i)) as [x Hx]; [change (Z.to_nat VM_LOCAL_VIRQ_NR) with 32%nat in Hl; lia|].
  exists x. cbn [rd]. rewrite Hc. split; [done|]. rewrite (Hd _ _ Hx). lia.
Qed.

Lemma own_enable v c m i : vm_ok m -> get_vcpu v m = Some c -> 0 <= i < 32 -> exists m', virq_enable v i m = Some (0, m') /\ own_step v m m'.
Proof.
  intros Hm Hc Hi. destruct (local_desc_some v c m i Hm Hc Hi) as (Ed & x & Hx & _). unfold virq_enable. rewrite Ed.
  destruct (own_step_upd v i virq_set_enable m x Hm ltac:(lia) Hx (proj2 (set_enable_spec x))) as (m' & E & Hs & Hx').
  rewrite E. msimpl. rewrite Hx'. msimpl. destruct (_ && _); eexists; (split; [done|]); [by apply own_step_emit|done].
Qed.

Lemma own_disable v c m i : vm_ok m -> get_vcpu v m = Some c -> 0 <= i < 32 -> exists m', virq_disable v i m = Some (0, m') /\ own_step v m m'.
Proof.
  intros Hm Hc Hi. destruct (local_desc_some v c m i Hm Hc Hi) as (Ed & x & Hx & _). unfold virq_disable. rewrite Ed.
  destruct (own_step_upd v i virq_clear_enable m x Hm ltac:(lia) Hx (proj2 (clear_enable_spec x))) as (m' & E & Hs & Hx').
  rewrite E. msimpl. rewrite Hx'. msimpl. destruct (_ || _); eexists; (split; [done|]); [by apply own_step_emit|done].
Qed.

Lemma own_clear_pending {H : Type} (vc : virq_chip H) v c m h i :
  vm_ok m -> get_vcpu v m = Some c -> 0 <= i < 32 -> exists m' h', clear_pending_virq vc v i m h = Some (m', h') /\ own_step v m m'.
Proof.
  intros Hm Hc Hi. destruct (local_desc_some v c m i Hm Hc Hi) as (Ed & x & Hx & _). unfold clear_pending_virq. rewrite Ed, Hx. msimpl.
  destruct (negb _); [exists m, h; split; [done|by apply own_step_refl]|].
  destruct (ok_vcpu m Hm v c Hc) as (B1 & B2 & B3 & B4 & B5). rewrite (active_of_get _ _ _ Hc).
  assert (i < vm_irq_count m) as Hlt by (pose proof (ok_nr m Hm); unfold vm_irq_count, VM_LOCAL_VIRQ_NR, VM_SGI_VIRQ_NR, VM_PPI_VIRQ_NR; lia).
  destruct (clear_bit_ok _ _ i B2 ltac:(lia)) as (act & Ea & Ba). rewrite Ea. msimpl.
  destruct (own_step_upd_vs v c (set_active_bitmap act) m Hm Hc) as (m1 & E1 & H1); [split_and!; try done; apply Ba|]. rewrite E1. msimpl.
  assert (rd (Local v i) m1 = Some x) as Hx1.
  { rewrite (upd_vs_some _ _ _ _ Hc) in E1. injection E1 as <-. by rewrite rd_upd_vs. }
  destruct (own_step_upd v i (set_d_state VIRQ_STATE_INACTIVE) m1 x (os_ok _ _ _ H1) ltac:(lia) Hx1) as (m2 & E2 & H2 & Hx2); [done|].
  rewrite E2. msimpl. rewrite Hx2. msimpl. eexists _, _. split; [done|]. by eapply own_step_trans.
Qed.

(** ** The enable registers of a redistributor *)
Lemma bit_is_clear e b : 0 <= b -> (Z.land e (Z.shiftl 1 b) =? 0) = negb (Z.testbit e b).
Proof. intros Hb. pose proof (has_testbit b (set_d_flags e zero_desc) Hb) as E. unfold has in E. cbn [d_flags set_d_flags] in E. by rewrite <- E, negb_involutive. Qed.

(** The register with the bit [b] set or cleared. *)
Definition with_bit (on : bool) (b e : Z) : Z := if on then Z.lor e (Z.shiftl 1 b) else Z.ldiff e (Z.shiftl 1 b).

Lemma with_bit_spec on b e j : 0 <= b -> 0 <= j -> Z.testbit (with_bit on b e) j = if j =? b then on else Z.testbit e j.
Proof.
  intros Hb Hj. assert (Z.testbit (Z.shiftl 1 b) j = (j =? b)) as E.
  { rewrite Z.shiftl_mul_pow2, Z.mul_1_l by done. destruct (Z.eqb_spec j b) as [->|]; [by apply Z.pow2_bits_true|by apply Z.pow2_bits_false; congruence]. }
  unfold with_bit. destruct on; [rewrite Z.lor_spec|rewrite Z.ldiff_spec]; rewrite E; by destruct (j =? b), (Z.testbit e j).
Qed.

(** The fields that do not change after [vgic_gicr_init]. *)
Definition framed (r r' : vgic_gicr) : Prop := r' = set_ispender (gicr_ispender r') (set_enabler0 (gicr_enabler0 r') r).

Lemma framed_refl r : framed r r.
Proof. by destruct r. Qed.
Lemma framed_trans r1 r2 r3 : framed r1 r2 -> framed r2 r3 -> framed r1 r3.
Proof. destruct r1, r2, r3. by intros [= -> -> -> -> -> -> ->] [= -> -> -> -> -> -> ->]. Qed.

Section enabler.
Context (v : nat) (on : bool).

Definition toggle_op : Z -> vm -> option (Z * vm) := if on then virq_enable v else virq_disable v.

Definition enabler_bit (bit : Z) (s : vgic_gicr * vm) : option (bool * (vgic_gicr * vm)) :=
  if Bool.eqb (Z.testbit (gicr_enabler0 s.1) bit) on then Some (false, s)
  else '(_, m) ← toggle_op bit s.2; Some (false, (set_enabler0 (with_bit on bit (gicr_enabler0 s.1)) s.1, m)).

Lemma enabler_bit_body bit s : 0 <= bit -> (if on then isenable_bit v else icenable_bit v) bit s = enabler_bit bit s.
Proof.
  intros Hb. destruct s as [r m]. unfold enabler_bit, toggle_op, with_bit; cbn [fst snd]. destruct on; cbn [isenable_bit icenable_bit].
  all: unfold isenable_bit, icenable_bit; rewrite bit_is_clear by done; destruct (Z.testbit (gicr_enabler0 r) bit); done.
Qed.

(** The bits below [b] of the value were written. *)
Definition written (value : Z) (r : vgic_gicr) (m : vm) (b : Z) (s : vgic_gicr * vm) : Prop :=
  own_step v m s.2 /\ framed r s.1 /\ gicr_ispender s.1 = gicr_ispender r
  /\ forall j, 0 <= j ->
       Z.testbit (gicr_enabler0 s.1) j = (if (j <? b) && Z.testbit value j then on else Z.testbit (gicr_enabler0 r) j)
       /\ enabled v s.2 j = (if (j <? b) && Z.testbit value j && negb (Bool.eqb (Z.testbit (gicr_enabler0 r) j) on) then on else enabled v m j).

Lemma toggle_op_spec m c bit : vm_ok m -> get_vcpu v m = Some c -> 0 <= bit < 32 ->
  exists m', toggle_op bit m = Some (0, m') /\ own_step v m m' /\ forall j, 0 <= j -> enabled v m' j = if j =? bit then on else enabled v m j.
Proof.
  intros Hm Hc Hb. assert (bit < vm_irq_count m) by (pose proof (ok_nr m Hm); unfold vm_irq_count, VM_LOCAL_VIRQ_NR, VM_SGI_VIRQ_NR, VM_PPI_VIRQ_NR; lia).
  unfold toggle_op. destruct on.
  - destruct (own_enable v c m bit Hm Hc Hb) as (m' & E & Ho). destruct (enable_op v m c bit Hm Hc ltac:(lia)) as (m2 & E2 & _ & _ & _ & He).
    exists m'. split; [done|]. split; [done|]. by replace m' with m2 by congruence.
  - destruct (own_disable v c m bit Hm Hc Hb) as (m' & E & Ho). destruct (disable_op v m c bit Hm Hc ltac:(lia)) as (m2 & E2 & _ & _ & _ & He).
    exists m'. split; [done|]. split; [done|]. by replace m' with m2 by congruence.
Qed.

Lemma written_step value r m c bit s : vm_ok m -> get_vcpu v m = Some c -> 0 <= bit < 32 -> Z.testbit value bit = true ->
  written value r m bit s -> exists s', enabler_bit bit s = Some (false, s') /\ written value r m (bit + 1) s'.
Proof.
  intros Hm Hc Hb Hv (Ho & Hf & Hi & Hj). destruct (own_step_vcpu _ _ _ _ Ho Hc) as (c1 & Hc1 & _). pose proof (os_ok _ _ _ Ho) as Hm1.
  assert (forall j, (j <? bit + 1) && Z.testbit value j = (j =? bit) || (j <? bit) && Z.testbit value j) as Hlt.
  { intros j. destruct (Z.eqb_spec j bit) as [->|]; [by rewrite (proj2 (Z.ltb_lt bit (bit + 1))), Hv by lia|].
    cbn [orb]. destruct (Z.ltb_spec j (bit + 1)), (Z.ltb_spec j bit); try done; lia. }
  pose proof (Hj bit ltac:(lia)) as [Hb0 _]. rewrite Z.ltb_irrefl in Hb0. cbn [andb] in Hb0. unfold enabler_bit. rewrite Hb0.
  destruct (Bool.eqb (Z.testbit (gicr_enabler0 r) bit) on) eqn:Eon.
  - exists s. split; [done|]. split; [done|]. split; [done|]. split; [done|]. intros j Hj0. destruct (Hj j Hj0) as [H1 H2]. rewrite H1, H2, Hlt.
    destruct (Z.eqb_spec j bit) as [->|]; cbn [orb]; [|done]. rewrite Z.ltb_irrefl, Eon. cbn. split; [by apply eqb_prop in Eon|done].
  - destruct (toggle_op_spec _ _ bit Hm1 Hc1 Hb) as (m2 & E2 & Ho2 & He2). rewrite E2. msimpl. eexists. split; [done|].
    split; [by eapply own_step_trans|]. split; [|split; [done|]].
    { eapply framed_trans; [done|]. by destruct (s.1). }
    intros j Hj0. cbn [fst snd set_enabler0 gicr_enabler0]. destruct (Hj j Hj0) as [H1 H2]. rewrite with_bit_spec, He2, Hlt by lia.
    destruct (Z.eqb_spec j bit) as [->|]; cbn [orb andb]; [by rewrite Eon|]. by rewrite H1, H2.
Qed.

Lemma enabler_write value r m c : vm_ok m -> get_vcpu v m = Some c -> 0 <= value < 2 ^ 64 ->
  exists s, for_each_set_bit (fun _ => [value]) 32 (if on then isenable_bit v else icenable_bit v) (r, m) = Some s /\ written value r m 32 s.
Proof.
  intros Hm Hc Hv. apply (for_each_set_bit_spec (fun _ => [value]) 32 _ (written value r m) (written value r m 32)).
  - intros b s _. apply one_word_wf; lia.
  - intros b b' s (H1 & H2 & H3 & H4) Hb Hz. split_and!; try done. intros j Hj. destruct (H4 j Hj) as [H5 H6]. rewrite H5, H6.
    destruct (Z.ltb_spec j b), (Z.ltb_spec j b'); cbn [andb]; try done; try lia.
    assert (Z.testbit value j = false) as -> by (rewrite <- one_word_bits by lia; apply Hz; lia). done.
  - intros bit s Hw Hb Hbit. rewrite one_word_bits in Hbit by lia.
    destruct (written_step value r m c bit s Hm Hc Hb Hbit Hw) as (s' & E & Hs'). exists false, s'. by rewrite enabler_bit_body by lia.
  - done.
  - lia.
  - split; [by apply own_step_refl|]. split; [apply framed_refl|]. split; [done|]. intros j Hj. by rewrite (proj2 (Z.ltb_ge j 0)) by lia.
Qed.
End enabler.

Lemma icpend_write {H : Type} (vc : virq_chip H) v value r m c h : vm_ok m -> get_vcpu v m = Some c -> 0 <= value < 2 ^ 64 ->
  exists r' m' h', for_each_set_bit (fun _ => [value]) 32 (icpend_bit vc v) (r, m, h) = Some (r', m', h')
    /\ own_step v m m' /\ framed r r' /\ gicr_enabler0 r' = gicr_enabler0 r.
Proof.
  intros Hm Hc Hv.
  set (Q := fun s : vgic_gicr * vm * H => own_step v m s.1.2 /\ framed r s.1.1 /\ gicr_enabler0 s.1.1 = gicr_enabler0 r).
  destruct (for_each_set_bit_spec (fun _ => [value]) 32 (icpend_bit vc v) (fun _ => Q) Q) with (s := (r, m, h)) as ([[r' m'] h'] & E & HQ).
  - intros b s _. apply one_word_wf; lia.
  - done.
  - intros bit [[r1 m1] h1] (H1 & H2 & H3) Hb _. cbn [fst snd] in *. destruct (own_step_vcpu _ _ _ _ H1 Hc) as (c1 & Hc1 & _).
    destruct (own_clear_pending vc v c1 m1 h1 bit (os_ok _ _ _ H1) Hc1 Hb) as (m2 & h2 & E & H4). unfold icpend_bit. rewrite E. msimpl.
    eexists _, _. split; [done|]. split; [by eapply own_step_trans|]. split; [|done]. eapply framed_trans; [done|]. by destruct r1.
  - done.
  - lia.
  - split; [by apply own_step_refl|]. split; [apply framed_refl|done].
  - exists r', m', h'. by split.
Qed.

(** ** The frames of the redistributors: 128K each, one after the other *)
Definition gicr_at (i : nat) (r : vgic_gicr) : Prop :=
  gicr_vcpu_id r = Z.of_nat i /\ rd_base r = 0x20000 * Z.of_nat i /\ sgi_base r = 0x20000 * Z.of_nat i + 0x10000.
Definition gic_ok (n : nat) (g : vgicv3_dev) : Prop := forall i, (i < n)%nat -> exists r, gicr g !! i = Some (Some r) /\ gicr_at i r.

(** The frame of an offset in the area of the redistributors. *)
Definition frame_of (offset : Z) : gic_type * Z :=
  if offset mod 0x20000 <? 0x10000 then (GIC_TYPE_GICR_RD, offset mod 0x20000) else (GIC_TYPE_GICR_SGI, offset mod 0x20000 - 0x10000).

Lemma vgic_gicr_init_at i nr base r : gicr_at i (vgic_gicr_init (Z.of_nat i) nr base r).
Proof. unfold gicr_at, vgic_gicr_init; cbn [gicr_vcpu_id rd_base sgi_base]. lia. Qed.

Lemma framed_at i r r' : framed r r' -> gicr_at i r -> gicr_at i r'.
Proof. intros -> H. exact H. Qed.

Lemma offset_to_gicr_type_spec i r offset : gicr_at i r -> 0 <= offset ->
  offset_to_gicr_type r offset = if offset / 0x20000 =? Z.of_nat i then frame_of offset else (GIC_TYPE_INVAILD, offset).
Proof.
  intros (_ & Hr & Hs) Ho. unfold offset_to_gicr_type, frame_of, SIZE_64K. rewrite Hr, Hs.
  pose proof (Z.div_mod offset 0x20000 ltac:(lia)) as Hdm. pose proof (Z.mod_pos_bound offset 0x20000 ltac:(lia)) as Hb.
  destruct (Z.eqb_spec (offset / 0x20000) (Z.of_nat i)) as [E|E].
  - rewrite E in Hdm. rewrite (proj2 (Z.leb_le (0x20000 * Z.of_nat i) offset)) by lia. cbn [andb].
    destruct (Z.ltb_spec (offset mod 0x20000) 0x10000).
    + rewrite (proj2 (Z.ltb_lt _ _)) by lia. f_equal. lia.
    + rewrite (proj2 (Z.ltb_ge offset _)), (proj2 (Z.leb_le _ _)), (proj2 (Z.ltb_lt _ _)) by lia. cbn [andb]. f_equal. lia.
  - destruct (Z.leb_spec (0x20000 * Z.of_nat i) offset), (Z.ltb_spec offset (0x20000 * Z.of_nat i + 0x10000)),
      (Z.leb_spec (0x20000 * Z.of_nat i + 0x10000) offset), (Z.ltb_spec offset (0x20000 * Z.of_nat i + 0x10000 + 0x10000)); cbn [andb]; try done; exfalso; lia.
Qed.

Lemma find_gicr_spec n i offset g last : 0 <= offset -> (forall k, (i <= k < i + n)%nat -> exists r, gicr g !! k = Some (Some r) /\ gicr_at k r) ->
  find_gicr n i offset g last =
    if decide (i <= Z.to_nat (offset / 0x20000) < i + n)%nat then Some (frame_of offset, Z.to_nat (offset / 0x20000))
    else Some (GIC_TYPE_INVAILD, offset, if decide (n = 0%nat) then last else (i + n - 1)%nat).
Proof.
  intros Ho. assert (0 <= offset / 0x20000) as Hq by (apply Z.div_pos; lia). revert i last. induction n as [|n IH]; intros i last Hg; cbn [find_gicr].
  - rewrite decide_False by lia. by rewrite decide_True.
  - destruct (Hg i ltac:(lia)) as (r & Hr & Hat). rewrite Hr. cbn [mjoin option_join mbind option_bind]. rewrite (offset_to_gicr_type_spec i) by done.
    destruct (Z.eqb_spec (offset / 0x20000) (Z.of_nat i)) as [E|E].
    + rewrite decide_True by lia. replace (Z.to_nat (offset / 0x20000)) with i by lia. unfold frame_of. by destruct (_ <? _).
    + rewrite IH by (intros k Hk; apply Hg; lia). destruct (decide (n = 0%nat)) as [->|].
      * rewrite !decide_False by lia. do 2 f_equal. lia.
      * rewrite (decide_False (P := S n = 0%nat)) by lia.
        destruct (decide (S i <= _ < S i + n)%nat), (decide (i <= _ < i + S n)%nat); try lia; [done|]. do 2 f_equal. lia.
Qed.

Lemma locate_gicr_spec r v n offset g : gicr_at v r -> (v < n)%nat -> gic_ok n g -> 0 <= offset ->
  locate_gicr r v n offset g = if decide (Z.to_nat (offset / 0x20000) < n)%nat then Some (frame_of offset, Z.to_nat (offset / 0x20000))
                               else Some (GIC_TYPE_INVAILD, offset, (n - 1)%nat).
Proof.
  intros Hat Hv Hg Ho. unfold locate_gicr. rewrite (offset_to_gicr_type_spec v r offset Hat Ho). pose proof (Z.div_pos offset 0x20000 Ho ltac:(lia)) as Hq.
  set (i := Z.to_nat (offset / 0x20000)). destruct (Z.eqb_spec (offset / 0x20000) (Z.of_nat v)) as [E|E].
  - replace i with v by lia. rewrite decide_True by done. unfold frame_of. by destruct (_ <? _).
  - rewrite find_gicr_spec by (done || (intros k Hk; apply Hg; lia)). fold i.
    destruct (decide (0 <= i < 0 + n)%nat), (decide (i < n)%nat); try lia; [done|]. by rewrite decide_False by lia.
Qed.

(** The registers of a redistributor that every vcpu may read. *)
Definition discovery (offset : Z) : bool := (offset =? GICR_TYPER) || (offset =? GICR_PIDR2) || (offset =? GICR_TYPER_HIGH).

Lemma gicr_sgi_write_total {H : Type} (vc : virq_chip H) v c r offset value m h :
  vm_ok m -> get_vcpu v m = Some c -> 0 <= value < 2 ^ 64 ->
  exists r' m' h', gicr_sgi_write vc v r offset value m h = Some (r', m', h') /\ own_step v m m' /\ framed r r'.
Proof.
  intros Hm Hc Hv. unfold gicr_sgi_write. destruct (offset =? GICR_ICPENDR0).
  { destruct (icpend_write vc v value r m c h Hm Hc Hv) as (r' & m' & h' & E & H1 & H2 & _). by exists r', m', h'. }
  destruct (offset =? GICR_ISENABLER).
  { destruct (enabler_write v true value r m c Hm Hc Hv) as ([r' m'] & E & H1 & H2 & _). rewrite E. msimpl. by exists r', m', h. }
  destruct (offset =? GICR_ICENABLER).
  { destruct (enabler_write v false value r m c Hm Hc Hv) as ([r' m'] & E & H1 & H2 & _). rewrite E. msimpl. by exists r', m', h. }
  exists r, m, h. split; [done|]. split; [by apply own_step_refl|apply framed_refl].
Qed.

(** What [gicr_access] may do for the vcpu [v] with a frame of the redistributor [i]. *)
Definition gicr_result {H : Type} (v i : nat) (offset : Z) (ret x value : Z) (read : bool) (g g' : vgicv3_dev) (m m' : vm) (h h' : H) : Prop :=
  gicd g' = gicd g /\ own_step v m m' /\ (forall j, j <> v -> gicr g' !! j = gicr g !! j)
  /\ (i = v -> ret = 0)
  /\ (i <> v -> g' = g /\ m' = m /\ h' = h
        /\ ret = (match (frame_of offset).1 with GIC_TYPE_GICR_RD => if discovery (frame_of offset).2 then 0 else - EACCES | _ => - EACCES end)).

Lemma gicr_access_spec {H : Type} (vc : virq_chip H) v c g i read offset value m h n :
  vm_ok m -> get_vcpu v m = Some c -> vcpu_id c = Z.of_nat v -> gic_ok n g -> (i < n)%nat -> 0 <= value < 2 ^ 64 ->
  exists ret x g' m' h', gicr_access vc v (vcpu_id c) g (frame_of offset).1 i read (frame_of offset).2 value m h = Some (ret, x, g', m', h')
    /\ gic_ok n g' /\ gicr_result v i offset ret x value read g g' m m' h h'.
Proof.
  intros Hm Hc Hid Hg Hi Hv. destruct (Hg i Hi) as (r & Hr & Hat). unfold gicr_access, gicr_result. rewrite Hr. cbn [mjoin option_join mbind option_bind].
  unfold vgic_check_gicr_access. rewrite Hid, (proj1 Hat). fold (discovery (frame_of offset).2).
  assert ((Z.of_nat v =? Z.of_nat i) = bool_decide (i = v)) as ->.
  { destruct (Z.eqb_spec (Z.of_nat v) (Z.of_nat i)); [by rewrite bool_decide_eq_true_2 by lia|by rewrite bool_decide_eq_false_2 by lia]. }
  pose proof (own_step_refl v m Hm) as Ho. unfold frame_of. destruct (_ <? _); cbn [fst snd].
  - destruct (decide (i = v)) as [->|Hne].
    + rewrite bool_decide_eq_true_2 by done. cbn [negb]. unfold vgic_gicr_rd_mmio. destruct read; (eexists _, _, g, m, h; split; [done|]; split_and!; done).
    + rewrite bool_decide_eq_false_2 by done. cbn [negb]. destruct (discovery _); cbn [negb].
      * unfold vgic_gicr_rd_mmio. destruct read; (eexists _, _, g, m, h; split; [done|]; split_and!; done).
      * eexists _, _, g, m, h. split; [done|]. by split_and!.
  - destruct (decide (i = v)) as [->|Hne].
    + rewrite bool_decide_eq_true_2 by done. cbn [negb]. unfold vgic_gicr_sgi_mmio. destruct read; msimpl.
      * eexists _, _, _, m, h. split; [done|]. unfold put_gicr. rewrite list_insert_id by done. destruct g. by split_and!.
      * destruct (gicr_sgi_write_total vc v c r (offset mod 0x20000 - 0x10000) value m h Hm Hc Hv) as (r' & m' & h' & E & Hs & Hf). rewrite E. msimpl.
        eexists _, _, _, m', h'. split; [done|]. split; [|split_and!; try done].
        -- intros j Hj. unfold put_gicr; cbn [gicr]. destruct (decide (j = v)) as [->|Hn].
           ++ exists r'. rewrite list_lookup_insert_eq by (by eapply lookup_lt_Some). split; [done|]. by eapply framed_at.
           ++ rewrite list_lookup_insert_ne by done. by apply Hg.
        -- intros j Hj. unfold put_gicr; cbn [gicr]. by rewrite list_lookup_insert_ne by done.
    + rewrite bool_decide_eq_false_2 by done. cbn [negb]. eexists _, _, g, m, h. split; [done|]. by split_and!.
Qed.

(** ** The distributor: its registers reach the shared virqs and the vcpu's own *)
Record dist_step (v : nat) (m m' : vm) : Prop := mk_dist_step {
  ds_ok : vm_ok m';
  ds_nr : vspi_nr m' = vspi_nr m;
  ds_map : vspi_map m' = vspi_map m;
  ds_vcpus : length (vcpus m') = length (vcpus m);
  ds_others : forall u, u <> v -> get_vcpu u m' = get_vcpu u m;
  ds_id : vcpu_id <$> get_vcpu v m' = vcpu_id <$> get_vcpu v m;
}.

Lemma own_dist v m m' : own_step v m m' -> dist_step v m m'.
Proof. by intros []. Qed.
Lemma dist_step_refl v m : vm_ok m -> dist_step v m m.
Proof. by split. Qed.
Lemma dist_step_trans v m1 m2 m3 : dist_step v m1 m2 -> dist_step v m2 m3 -> dist_step v m1 m3.
Proof. intros [] []. split; try congruence. intros u Hu. rewrite ds_others1, ds_others0 by done. done. Qed.
Lemma dist_step_emit v m m' c : dist_step v m m' -> dist_step v m (emit c m').
Proof. intros []. split; try done. by destruct ds_ok0. Qed.
Lemma dist_step_vcpu v m m' c : dist_step v m m' -> get_vcpu v m = Some c -> exists c', get_vcpu v m' = Some c'.
Proof. intros [] Hc. rewrite Hc in ds_id0. destruct (get_vcpu v m') as [c'|]; [|done]. by exists c'. Qed.

Lemma dist_upd v c m i d f : vm_ok m -> get_vcpu v m = Some c -> 0 <= i -> get_virq_desc m v i = Some d -> (forall x, keeps f x) ->
  exists x m', rd d m = Some x /\ upd d f m = Some m' /\ dist_step v m m' /\ rd d m' = Some (f x).
Proof.
  intros Hm Hc Hi Hd Hk. assert (i < vm_irq_count m) as Hlt.
  { unfold get_virq_desc, VM_VIRQ_NR in Hd. pose proof (ok_nr m Hm). unfold vm_irq_count.
    destruct (Z.ltb_spec i VM_LOCAL_VIRQ_NR); [lia|]. destruct (Z.leb_spec (vspi_nr m + VM_LOCAL_VIRQ_NR) i); [done|lia]. }
  destruct (get_virq_desc_ok m v c i Hm Hc ltac:(lia)) as (d' & x & Hd' & Hx & Hor). rewrite Hd in Hd'. injection Hd' as <-.
  exists x. destruct Hor as [[-> _]|[-> Hge]].
  - destruct (own_step_upd v i f m x Hm Hi Hx (Hk x)) as (m' & E & Ho & Hx'). exists m'. split_and!; try done. by apply own_dist.
  - destruct (upd_keeps (Spi (i - VM_LOCAL_VIRQ_NR)) x f m Hm ltac:(cbn; lia) Hx (Hk x)) as (m' & E & Hm' & Hr & Hx' & _).
    exists m'. split_and!; try done. pose proof E as E'. unfold upd, wr in E'. rewrite Hx in E'. cbn [mbind option_bind] in E'. rewrite ?Hx in E'.
    cbn [mbind option_bind] in E'. injection E' as <-. by split.
Qed.

(** An operation of the distributor on one virq. *)
Definition dist_op (v : nat) (op : Z -> vm -> option (Z * vm)) : Prop :=
  forall m c i, vm_ok m -> get_vcpu v m = Some c -> 0 <= i -> exists ret m', op i m = Some (ret, m') /\ dist_step v m m'.

Lemma dist_enable v : dist_op v (virq_enable v).
Proof.
  intros m c i Hm Hc Hi. unfold virq_enable. destruct (get_virq_desc m v i) as [d|] eqn:Hd; [|eexists _, m; split; [done|by apply dist_step_refl]].
  destruct (dist_upd v c m i d virq_set_enable Hm Hc Hi Hd (fun x => proj2 (set_enable_spec x))) as (x & m' & _ & E & Hs & Hx). rewrite E. msimpl.
  rewrite Hx. msimpl. destruct (_ && _); (eexists _, _; split; [done|]); [by apply dist_step_emit|done].
Qed.

Lemma dist_disable v : dist_op v (virq_disable v).
Proof.
  intros m c i Hm Hc Hi. unfold virq_disable. destruct (get_virq_desc m v i) as [d|] eqn:Hd; [|eexists _, m; split; [done|by apply dist_step_refl]].
  destruct (dist_upd v c m i d virq_clear_enable Hm Hc Hi Hd (fun x => proj2 (clear_enable_spec x))) as (x & m' & _ & E & Hs & Hx). rewrite E. msimpl.
  rewrite Hx. msimpl. destruct (_ || _); (eexists _, _; split; [done|]); [by apply dist_step_emit|done].
Qed.

Lemma dist_set_type v value : dist_op v (fun i => virq_set_type v i value).
Proof.
  intros m c i Hm Hc Hi. unfold virq_set_type. destruct (get_virq_desc m v i) as [d|] eqn:Hd; [|eexists _, m; split; [done|by apply dist_step_refl]].
  destruct (dist_upd v c m i d (set_d_type (u8 value)) Hm Hc Hi Hd) as (x & m' & Hx & E & Hs & _); [done|]. rewrite Hx. msimpl.
  destruct (negb _); [|eexists _, m; split; [done|by apply dist_step_refl]]. rewrite E. msimpl.
  destruct (virq_is_hw x); (eexists _, _; split; [done|]); [by apply dist_step_emit|done].
Qed.

Lemma dist_set_priority v pr : dist_op v (fun i => virq_set_priority v i pr).
Proof.
  intros m c i Hm Hc Hi. unfold virq_set_priority. destruct (get_virq_desc m v i) as [d|] eqn:Hd; [|eexists _, m; split; [done|by apply dist_step_refl]].
  destruct (dist_upd v c m i d (set_d_pr (u8 pr)) Hm Hc Hi Hd) as (x & m' & _ & E & Hs & _); [done|]. rewrite E. msimpl. by eexists _, _.
Qed.

Lemma dist_bits v c m y value op : dist_op v op -> vm_ok m -> get_vcpu v m = Some c -> 0 <= value < 2 ^ 64 ->
  exists m', for_each_set_bit (fun _ => [value]) 32 (fun bit m => '(_, m) ← op (u32 (y + bit)) m; Some (false, m)) m = Some m' /\ dist_step v m m'.
Proof.
  intros Hop Hm Hc Hv. apply (for_each_set_bit_spec (fun _ => [value]) 32 _ (fun _ => dist_step v m) (dist_step v m)).
  - intros b s _. apply one_word_wf; lia.
  - done.
  - intros bit m1 Hs _ _. destruct (dist_step_vcpu _ _ _ _ Hs Hc) as (c1 & Hc1).
    destruct (Hop m1 c1 (u32 (y + bit)) (ds_ok _ _ _ Hs) Hc1) as (ret & m2 & E & H2); [apply Z.mod_pos_bound; lia|].
    rewrite E. msimpl. exists false, m2. split; [done|]. by eapply dist_step_trans.
  - done.
  - lia.
  - by apply dist_step_refl.
Qed.

Lemma dist_types v c n irq value m : 0 <= irq -> vm_ok m -> get_vcpu v m = Some c -> exists m', set_types v n irq value m = Some m' /\ dist_step v m m'.
Proof.
  revert irq value m c. induction n as [|n IH]; intros irq value m c Hi Hm Hc; cbn [set_types]; [exists m; split; [done|by apply dist_step_refl]|].
  destruct (dist_set_type v (Z.land value 0x3) m c irq Hm Hc Hi) as (ret & m1 & E & H1). rewrite E. msimpl.
  destruct (dist_step_vcpu _ _ _ _ H1 Hc) as (c1 & Hc1). destruct (IH (irq + 1) (Z.shiftr value 2) m1 c1 ltac:(lia) (ds_ok _ _ _ H1) Hc1) as (m2 & E2 & H2).
  exists m2. split; [done|]. by eapply dist_step_trans.
Qed.

Lemma dist_priorities v c x t m : vm_ok m -> get_vcpu v m = Some c -> exists m', set_priorities v x t m = Some m' /\ dist_step v m m'.
Proof.
  intros Hm Hc. unfold set_priorities. cbv zeta. set (y := u32 (x * 4 - 1)).
  assert (forall pr k m1, dist_step v m m1 -> exists ret m2, virq_set_priority v (u32 (y + k)) pr m1 = Some (ret, m2) /\ dist_step v m m2) as Hstep.
  { intros pr k m1 Hs. destruct (dist_step_vcpu _ _ _ _ Hs Hc) as (c1 & Hc1).
    destruct (dist_set_priority v pr m1 c1 (u32 (y + k)) (ds_ok _ _ _ Hs) Hc1) as (ret & m2 & E & H2); [apply Z.mod_pos_bound; lia|].
    exists ret, m2. split; [done|]. by eapply dist_step_trans. }
  destruct (Hstep (Z.land t 0xff) 1 m (dist_step_refl v m Hm)) as (r1 & m1 & E1 & H1). rewrite E1. msimpl.
  destruct (Hstep (Z.shiftr (Z.land t 0xff00) 8) 2 m1 H1) as (r2 & m2 & E2 & H2). rewrite E2. msimpl.
  destruct (Hstep (Z.shiftr (Z.land t 0xff0000) 16) 3 m2 H2) as (r3 & m3 & E3 & H3). rewrite E3. msimpl.
  destruct (Hstep (Z.shiftr (Z.land t 0xff000000) 24) 4 m3 H3) as (r4 & m4 & E4 & H4). rewrite E4. msimpl. by exists m4.
Qed.

Lemma collect_total get n i w irq value : (forall k, irq <= k -> exists x, get k = Some x) -> exists r, collect get n i w irq value = Some r.
Proof.
  revert i irq value. induction n as [|n IH]; intros i irq value Hg; cbn [collect]; [by exists value|].
  destruct (Hg irq ltac:(lia)) as [x ->]. msimpl. apply IH. intros k Hk. apply Hg. lia.
Qed.

Lemma get_type_total v c m k : vm_ok m -> get_vcpu v m = Some c -> 0 <= k -> exists x, virq_get_type m v k = Some x.
Proof.
  intros Hm Hc Hk. unfold virq_get_type, virq_get. destruct (get_virq_desc m v k) as [d|] eqn:Hd; [|by eexists].
  destruct (dist_upd v c m k d (fun x => x) Hm Hc Hk Hd) as (x & m' & Hx & _); [done|]. rewrite Hx. by eexists.
Qed.

Lemma gicd_read_total v c d offset m : vm_ok m -> get_vcpu v m = Some c -> exists x, vgic_gicd_mmio_read v d offset m = Some x.
Proof.
  intros Hm Hc. unfold vgic_gicd_mmio_read, between. destruct (offset =? GICD_CTLR); [by eexists|]. destruct (offset =? GICD_TYPER); [by eexists|].
  destruct (offset =? GICD_STATUSR); [by eexists|]. destruct (_ && _); [by eexists|]. destruct (_ && _); [by eexists|].
  destruct (offset =? GICD_PIDR2); [by eexists|]. destruct (Z.leb_spec GICD_ICFGR offset); cbn [andb]; [|by eexists]. destruct (offset <=? _); [|by eexists].
  unfold vgic_get_virq_type. apply collect_total. intros k Hk. apply (get_type_total v c m k Hm Hc).
  pose proof (Z.div_pos (offset - GICD_ICFGR) 4). lia.
Qed.

Lemma gicd_write_total v c d offset value m : vm_ok m -> get_vcpu v m = Some c -> 0 <= value < 2 ^ 64 ->
  exists d' m', vgic_gicd_mmio_write v d offset value m = Some (d', m') /\ dist_step v m m'
    /\ (offset <> GICD_CTLR -> d' = d) /\ (offset = GICD_CTLR -> d' = set_gd_ctlr (u32 value) d /\ m' = m).
Proof.
  intros Hm Hc Hv. unfold vgic_gicd_mmio_write, between. pose proof (dist_step_refl v m Hm) as Hr.
  destruct (Z.eqb_spec offset GICD_CTLR) as [->|Hn]; [by eexists _, m|].
  destruct (_ || _); [by exists d, m|].
  destruct (_ && _). { destruct (dist_bits v c m ((offset - GICD_ISENABLER) / 4 * 32) value (virq_enable v) (dist_enable v) Hm Hc Hv) as (m' & E & Hs).
    unfold enable_bits. rewrite E. msimpl. by exists d, m'. }
  destruct (_ && _). { destruct (dist_bits v c m ((offset - GICD_ICENABLER) / 4 * 32) value (virq_disable v) (dist_disable v) Hm Hc Hv) as (m' & E & Hs).
    unfold disable_bits. rewrite E. msimpl. by exists d, m'. }
  destruct (_ && _). { destruct (dist_priorities v c ((offset - GICD_IPRIORITYR) / 4) (u32 value) m Hm Hc) as (m' & E & Hs). rewrite E. msimpl. by exists d, m'. }
  destruct (Z.leb_spec GICD_ICFGR offset); cbn [andb]; [|by exists d, m]. destruct (offset <=? _); [|by exists d, m].
  pose proof (Z.div_pos (offset - GICD_ICFGR) 4).
  destruct (dist_types v c 16 (16 * ((offset - GICD_ICFGR) / 4)) (u32 value) m ltac:(lia) Hm Hc) as (m' & E & Hs).
  unfold vgic_set_virq_type. rewrite E. msimpl. by exists d, m'.
Qed.

(** C27: every access of a guest to its GICv3 is answered, whatever offset and value
    it uses, and stays with the vcpu that makes it: the state of every other
    vcpu and every other redistributor is the same afterwards.  An access to the
    redistributor of another vcpu has no effect at all, and succeeds for the
    three registers that describe it only; one past the last redistributor or to
    another area of the device is refused. *)
Theorem vgicv3_mmio_isolated {H : Type} (vc : virq_chip H) v c read idx offset value g m (h : H) :
  vm_ok m -> get_vcpu v m = Some c -> vcpu_id c = Z.of_nat v -> gic_ok (length (vcpus m)) g -> 0 <= offset -> 0 <= value < 2 ^ 64 ->
  exists ret x g' m' h', vgic_mmio_handler vc v read idx offset value g m h = Some (ret, x, g', m', h')
    /\ gic_ok (length (vcpus m')) g' /\ dist_step v m m' /\ (forall j, j <> v -> gicr g' !! j = gicr g !! j)
    /\ (idx <> 0 -> gicd g' = gicd g /\ vspi_desc m' = vspi_desc m)
    /\ (idx = 0 -> ret = 0 /\ gicr g' = gicr g /\ h' = h)
    /\ (idx = 1 -> let i := Z.to_nat (offset / 0x20000) in
          (i = v -> ret = 0)
          /\ (i <> v -> g' = g /\ m' = m /\ h' = h /\ (ret = 0 <-> (i < length (vcpus m))%nat /\ offset mod 0x20000 < 0x10000 /\ discovery (offset mod 0x20000) = true)))
    /\ (idx <> 0 -> idx <> 1 -> ret = - EINVAL /\ g' = g /\ m' = m /\ h' = h).
Proof.
  intros Hm Hc Hid Hg Ho Hv. set (n := length (vcpus m)) in *. assert (v < n)%nat as Hvn by (by eapply lookup_lt_Some).
  destruct (Hg v Hvn) as (r & Hr & Hat). unfold vgic_mmio_handler. rewrite Hc. cbn [mbind option_bind]. rewrite Hid, Nat2Z.id, Hr. cbn [mbind option_bind].
  destruct (Z.eqb_spec idx 0) as [->|H0].
  - unfold vgic_gicd_mmio. destruct read.
    + destruct (gicd_read_total v c (gicd g) offset m Hm Hc) as [x E]. rewrite E. msimpl. eexists _, _, _, m, h. split; [done|].
      split_and!; done.
    + destruct (gicd_write_total v c (gicd g) offset value m Hm Hc Hv) as (d' & m' & E & Hs & _). rewrite E. msimpl.
      eexists _, _, _, m', h. split; [done|]. split; [by rewrite (ds_vcpus _ _ _ Hs)|]. by split_and!.
  - destruct (Z.eqb_spec idx 1) as [->|H1]; [|eexists _, _, g, m, h; split; [done|]; split_and!; done].
    set (i := Z.to_nat (offset / 0x20000)). fold n. rewrite (locate_gicr_spec r v n offset g) by done. fold i.
    destruct (decide (i < n)%nat) as [Hi|Hi].
    + destruct (gicr_access_spec vc v c g i read offset value m h n Hm Hc Hid Hg Hi Hv) as (ret & x & g' & m' & h' & E & Hg' & Hd & Hs & Hoth & Hown & Helse).
      destruct (frame_of offset) as [t o] eqn:Ef. cbn [fst snd mbind option_bind] in *. rewrite <- Hid, E. exists ret, x, g', m', h'. split; [done|].
      split; [by rewrite (os_vcpus _ _ _ Hs)|]. split; [by apply own_dist|]. split; [done|]. split; [intros _; split; [done|apply (os_spi _ _ _ Hs)]|].
      split; [done|]. split; [|done]. intros _. cbn zeta. split; [done|]. intros Hne. destruct (Helse Hne) as (-> & -> & -> & ->). do 3 (split; [done|]).
      unfold frame_of in Ef. destruct (Z.ltb_spec (offset mod 0x20000) 0x10000); injection Ef as <- <-.
      * destruct (discovery _); split; try done. intros (_ & _ & ?). done.
      * split; [done|]. intros (_ & ? & _). lia.
    + cbn [mbind option_bind gicr_access]. eexists _, _, g, m, h. split; [done|].
      split_and!; try done. intros _. cbn zeta. split; [lia|]. intros _. do 3 (split; [done|]). split; [done|]. intros (? & _). lia.
Qed.

(** The virqs whose bit the register has are enabled. *)
Definition covered (v : nat) (r : vgic_gicr) (m : vm) : Prop := forall j, 0 <= j < 32 -> Z.testbit (gicr_enabler0 r) j = true -> enabled v m j = true.

(** The enable registers of a redistributor: a write to the set register enables
    exactly the virqs whose bit is set, a write to the clear register disables
    exactly those of them that the guest enabled there; the register reads back
    what was written to the two, and every virq it shows is enabled. *)
Theorem gicr_enable_registers {H : Type} (vc : virq_chip H) v c r on value m (h : H) :
  vm_ok m -> get_vcpu v m = Some c -> 0 <= value < 2 ^ 64 -> covered v r m ->
  let reg := if on : bool then GICR_ISENABLER else GICR_ICENABLER in
  exists r' m', vgic_gicr_sgi_mmio vc v r false reg value m h = Some (0, value, r', m', h)
    /\ own_step v m m' /\ covered v r' m'
    /\ (forall j, 0 <= j < 32 -> enabled v m' j = if Z.testbit value j && (on || Z.testbit (gicr_enabler0 r) j) then on else enabled v m j)
    /\ exists x, vgic_gicr_sgi_mmio vc v r' true reg 0 m' h = Some (0, x, r', m', h)
         /\ forall j, 0 <= j < 32 -> Z.testbit x j = if Z.testbit value j then on else Z.testbit (gicr_enabler0 r) j.
Proof.
  intros Hm Hc Hv Hcov reg. destruct (enabler_write v on value r m c Hm Hc Hv) as ([r' m'] & E & Ho & Hf & Hi & Hj). cbn [fst snd] in *.
  assert (gicr_sgi_write vc v r reg value m h = Some (r', m', h)) as Ew.
  { unfold gicr_sgi_write, reg. destruct on; cbn [Z.eqb GICR_ISENABLER GICR_ICENABLER GICR_ICPENDR0 Pos.eqb]; by rewrite E. }
  assert (forall j, 0 <= j < 32 -> Z.testbit (gicr_enabler0 r') j = if Z.testbit value j then on else Z.testbit (gicr_enabler0 r) j) as Hreg.
  { intros j Hj0. destruct (Hj j ltac:(lia)) as [-> _]. by rewrite (proj2 (Z.ltb_lt _ _)) by lia. }
  assert (forall j, 0 <= j < 32 -> enabled v m' j = if Z.testbit value j && (on || Z.testbit (gicr_enabler0 r) j) then on else enabled v m j) as He.
  { intros j Hj0. destruct (Hj j ltac:(lia)) as [_ ->]. rewrite (proj2 (Z.ltb_lt _ _)) by lia. cbn [andb]. specialize (Hcov j Hj0).
    destruct (Z.testbit value j), on, (Z.testbit (gicr_enabler0 r) j); cbn; try done. by rewrite Hcov. }
  exists r', m'. unfold vgic_gicr_sgi_mmio at 1. rewrite Ew. msimpl. split; [done|]. split; [done|]. split; [|split; [done|]].
  - intros j Hj0. rewrite Hreg, He by done. specialize (Hcov j Hj0). destruct (Z.testbit value j), on; cbn; done.
  - exists (gicr_enabler0 r'). split; [|exact Hreg]. unfold vgic_gicr_sgi_mmio, gicr_sgi_read, reg. by destruct on.
Qed.

(** ** Software generated interrupts *)
Section sgi.
Context (v : nat) (C0 : Z) (HC0 : 0 <= C0).

Definition sgi_aff1 (val : Z) : Z := (val / 2 ^ 16) mod 256.
Definition sgi_no (val : Z) : Z := (val / 2 ^ 24) mod 16.

(** The vcpus that a value names: all others, or those of the list. *)
Definition sgi_target (n id val u : Z) : bool :=
  if Z.testbit val 40 then (u <? n) && negb (u =? id)
  else (sgi_aff1 val * C0 <=? u) && (u <? sgi_aff1 val * C0 + 16) && Z.testbit val (u - sgi_aff1 val * C0).

Lemma shifted_field val w k : 0 <= w -> 0 <= k -> Z.shiftr (Z.land val (Z.shiftl (2 ^ w - 1) k)) k = (val / 2 ^ k) mod 2 ^ w.
Proof.
  intros Hw Hk. apply Z.bits_inj'. intros i Hi. rewrite Z.shiftr_spec, Z.land_spec, Z.shiftl_spec by lia.
  replace (i + k - k) with i by lia. rewrite mod_pow2_testbit by lia. rewrite <- Z.shiftr_div_pow2, Z.shiftr_spec by lia.
  rewrite pow_pred_ones, Z.testbit_ones_nonneg by lia. apply andb_comm.
Qed.

Lemma sgi_fields val : 0 <= val ->
  Z.shiftr (Z.land val (Z.shiftl 0xf 24)) 24 = sgi_no val /\ Z.shiftr (Z.land val (Z.shiftl 0xff 16)) 16 = sgi_aff1 val
  /\ negb (Z.land val (Z.shiftl 1 40) =? 0) = Z.testbit val 40 /\ 0 <= sgi_no val < 16 /\ 0 <= sgi_aff1 val < 256.
Proof.
  intros Hv. split; [apply (shifted_field val 4 24); lia|]. split; [apply (shifted_field val 8 16); lia|].
  split; [by rewrite bit_is_clear, negb_involutive by lia|]. split; apply Z.mod_pos_bound; lia.
Qed.

(** [mask] has the bits of the cpus below [b] that [f] names. *)
Definition mask_is (f : Z -> bool) (b : Z) (mask : list Z) : Prop :=
  bitmap_wf 64 mask /\ forall k, 0 <= k -> bit_at mask k = (k <? b) && f k.

Lemma mask_is_skip f b b' mask : mask_is f b mask -> b <= b' -> (forall k, b <= k < b' -> f k = false) -> mask_is f b' mask.
Proof.
  intros [Hw H] Hb Hz. split; [done|]. intros k Hk. rewrite H by done.
  destruct (Z.ltb_spec k b), (Z.ltb_spec k b'); cbn [andb]; try done; try lia. by rewrite Hz by lia.
Qed.

Lemma mask_is_set f b mask : mask_is f b mask -> 0 <= b < 64 -> f b = true -> exists mask', set_bit b mask = Some mask' /\ mask_is f (b + 1) mask'.
Proof.
  intros [Hw H] Hb Hf. destruct (set_bit_ok 64 mask b Hw Hb) as (mask' & E & Hw' & H'). exists mask'. split; [done|]. split; [done|].
  intros k Hk. rewrite H', H by done. destruct (Z.eqb_spec k b) as [->|]; cbn [orb]; [by rewrite (proj2 (Z.ltb_lt _ _)), Hf by lia|].
  destruct (Z.ltb_spec k b), (Z.ltb_spec k (b + 1)); try done; lia.
Qed.

Lemma empty_mask f b : b <= 0 -> mask_is f b [0].
Proof. intros Hb. split; [by apply one_word_wf|]. intros k Hk. rewrite (proj2 (Z.ltb_ge _ _)) by lia. change [0] with (replicate 1 0). apply zero_bitmap_bit. Qed.

Lemma mask_others_spec n b id mask : 0 <= b -> b + Z.of_nat n <= 64 -> mask_is (fun u => negb (u =? id)) b mask ->
  exists mask', mask_others n b id mask = Some mask' /\ mask_is (fun u => negb (u =? id)) (b + Z.of_nat n) mask'.
Proof.
  revert b mask. induction n as [|n IH]; intros b mask Hb Hn Hm; cbn [mask_others]; [exists mask; by rewrite Z.add_0_r|].
  replace (b + Z.of_nat (S n)) with (b + 1 + Z.of_nat n) by lia. destruct (Z.eqb_spec b id) as [->|Hne].
  - apply IH; [lia|lia|]. eapply mask_is_skip; [done|lia|]. intros k Hk. replace k with id by lia. by rewrite Z.eqb_refl.
  - destruct (mask_is_set _ b mask Hm ltac:(lia)) as (mask' & E & Hm'); [by rewrite (proj2 (Z.eqb_neq _ _) Hne)|]. rewrite E. msimpl. apply IH; [lia|lia|done].
Qed.

(** The targets of a value are cpus of the VM. *)
Definition sgi_valid (n val : Z) : Prop :=
  Z.testbit val 40 = false -> forall b, 0 <= b < 16 -> Z.testbit val b = true -> sgi_aff1 val * C0 + b < n.

Lemma sgi_list_mask val n : 0 <= val < 2 ^ 64 -> n <= 64 -> Z.testbit val 40 = false -> sgi_valid n val ->
  exists mask, for_each_set_bit (fun _ => [Z.land val 0xffff]) 16
    (fun bit mask => mask ← set_bit (sgi_aff1 val * C0 + bit) mask; Some (false, mask)) [0] = Some mask
    /\ mask_is (sgi_target n 0 val) (sgi_aff1 val * C0 + 16) mask.
Proof.
  intros Hv Hn H40 Hval. specialize (Hval H40). set (base := sgi_aff1 val * C0) in *.
  assert (0 <= base) as Hbase by (unfold base, sgi_aff1; pose proof (Z.mod_pos_bound (val / 2 ^ 16) 256); nia).
  assert (forall i, 0 <= i < 16 -> bit_at [Z.land val 0xffff] i = Z.testbit val i) as Hbits.
  { intros i Hi. rewrite one_word_bits by lia. change 0xffff with (2 ^ 16 - 1). rewrite land_pow_pred, mod_pow2_testbit by lia.
    by rewrite (proj2 (Z.ltb_lt _ _)) by lia. }
  assert (forall i, 0 <= i < 16 -> sgi_target n 0 val (base + i) = Z.testbit val i) as Ht.
  { intros i Hi. unfold sgi_target. rewrite H40. fold base. rewrite (proj2 (Z.leb_le _ _)), (proj2 (Z.ltb_lt _ _)) by lia. cbn [andb]. f_equal. lia. }
  apply (for_each_set_bit_spec (fun _ => [Z.land val 0xffff]) 16 _ (fun b s => 0 <= b /\ mask_is (sgi_target n 0 val) (base + b) s) (mask_is (sgi_target n 0 val) (base + 16))).
  - intros b s _. apply one_word_wf; [|lia]. change 0xffff with (2 ^ 16 - 1). rewrite land_pow_pred by lia. pose proof (Z.mod_pos_bound val (2 ^ 16)). lia.
  - intros b b' s [Hb0 Hm] Hb Hz. split; [lia|]. eapply mask_is_skip; [done|lia|]. intros k Hk. replace k with (base + (k - base)) by lia. rewrite Ht, <- Hbits by lia. apply Hz. lia.
  - intros b mask [_ Hm] Hb Hbit. rewrite Hbits in Hbit by lia. pose proof (Hval b Hb Hbit) as Hlt.
    destruct (mask_is_set _ (base + b) mask Hm ltac:(lia)) as (mask' & E & Hm'); [by rewrite Ht by lia|]. rewrite E. msimpl. exists false, mask'. split; [done|]. split; [lia|].
    by replace (base + (b + 1)) with (base + b + 1) by lia.
  - by intros s [_ Hm].
  - lia.
  - split; [lia|]. rewrite Z.add_0_r. eapply (mask_is_skip _ 0); [by apply empty_mask|lia|]. intros k Hk. unfold sgi_target. rewrite H40. fold base.
    by rewrite (proj2 (Z.leb_gt _ _)) by lia.
Qed.

Lemma sgi_targets_spec id val m : 0 <= val < 2 ^ 64 -> vcpu_nr m <= 64 -> sgi_valid (vcpu_nr m) val ->
  exists mask, sgi_targets C0 id val m = Some mask /\ bitmap_wf 64 mask /\ forall k, 0 <= k -> bit_at mask k = sgi_target (vcpu_nr m) id val k.
Proof.
  intros Hv Hn Hval. destruct (sgi_fields val ltac:(lia)) as (_ & E1 & E2 & _). unfold sgi_targets, affinity_to_logic_cpu. rewrite E1, E2. unfold sgi_target.
  destruct (Z.testbit val 40) eqn:H40.
  - destruct (mask_others_spec (length (vcpus m)) 0 id [0]) as (mask & E & Hw & Hm); [lia|unfold vcpu_nr in Hn; lia|by apply empty_mask|].
    exists mask. split; [done|]. split; [done|]. exact Hm.
  - destruct (sgi_list_mask val (vcpu_nr m) Hv Hn H40 Hval) as (mask & E & Hw & Hm). exists mask. split; [done|]. split; [done|].
    intros k Hk. rewrite Hm by done. unfold sgi_target. rewrite H40. destruct (sgi_aff1 val * C0 <=? k), (k <? sgi_aff1 val * C0 + 16); by rewrite ?andb_false_r.
Qed.
Lemma upd_vs_len u f m m' : upd_vs u f m = Some m' -> length (vcpus m') = length (vcpus m).
Proof. unfold upd_vs. destruct (get_vcpu u m); [|done]. intros [= <-]. cbn. apply length_insert. Qed.

Lemma upd_len d f m m' : upd d f m = Some m' -> length (vcpus m') = length (vcpus m).
Proof.
  unfold upd, wr. destruct (rd d m) as [x|] eqn:Hx; [|done]. cbn [mbind option_bind]. rewrite ?Hx. cbn [mbind option_bind].
  destruct d; [apply upd_vs_len|]. by intros [= <-].
Qed.

Lemma send_len cur u d m r m' : send_virq cur u d m = Some (r, m') -> length (vcpus m') = length (vcpus m).
Proof.
  unfold send_virq. destruct u as [u|]; [|done]. cbn [mbind option_bind]. destruct d as [d|]; [|by intros [= _ <-]].
  destruct (rd d m) as [x|] eqn:Hx; [|done]. cbn [mbind option_bind]. destruct (_ && _); [by intros [= _ <-]|]. destruct (_ && _); [by intros [= _ <-]|].
  unfold __send_virq. destruct (get_vcpu u m) as [c|] eqn:Hc; [|done]. cbn [mbind option_bind]. rewrite Hx. cbn [mbind option_bind].
  destruct (test_and_set_bit _ _) as [[was bm]|]; [|done]. cbn [mbind option_bind].
  assert (forall m1 r m', length (vcpus m1) = length (vcpus m) ->
    (if negb (0 =? 0) then Some (0, m1) else m2 ← virq_kick_vcpu u d m1; Some (0, m2)) = Some (r, m') -> length (vcpus m') = length (vcpus m)) as Hk.
  { intros m1 r1 m2 Hl. cbn [negb Z.eqb]. unfold virq_kick_vcpu. destruct (get_vcpu u m1); [|done]. cbn [mbind option_bind].
    destruct (rd d m1); [|done]. cbn [mbind option_bind]. by intros [= _ <-]. }
  destruct was.
  - destruct (upd_vs u _ m) as [m1|] eqn:E1; [|done]. cbn [mbind option_bind]. apply Hk. by eapply upd_vs_len.
  - destruct (upd_vs u _ m) as [m1|] eqn:E1; [|done]. cbn [mbind option_bind]. apply upd_vs_len in E1. destruct (_ <? _).
    + destruct (upd d _ m1) as [m2|] eqn:E2; [|done]. cbn [mbind option_bind]. apply upd_len in E2. apply Hk. congruence.
    + cbn [mbind option_bind]. by apply Hk.
Qed.

(** The SGI [k] is pending at the vcpus below [b] that [f] names, beside what was pending before. *)
Definition sgi_posted (k : Z) (f : Z -> bool) (m : vm) (b : Z) (m' : vm) : Prop :=
  vm_ok m' /\ vm_state m' = vm_state m /\ vspi_nr m' = vspi_nr m /\ length (vcpus m') = length (vcpus m)
  /\ (forall u, active_of u m' = active_of u m)
  /\ forall u j, 0 <= j -> bit_at (pending_of u m') j = bit_at (pending_of u m) j || ((Z.of_nat u <? b) && f (Z.of_nat u) && (j =? k)).

Lemma sgi_to_cpu_spec id k f m b m1 : 0 <= k < 16 -> vm_state m = VM_STATE_ONLINE -> 0 <= b < vcpu_nr m -> f b = true ->
  sgi_posted k f m b m1 -> exists m2, sgi_to_cpu id k b m1 = Some (false, m2) /\ sgi_posted k f m (b + 1) m2.
Proof.
  intros Hk Hst Hb Hf (Hm1 & Es & En & El & Ha & Hp). unfold vcpu_nr in Hb.
  destruct (lookup_lt_is_Some_2 (vcpus m1) (Z.to_nat b)) as [c Hc]; [lia|]. change (vcpus m1 !! Z.to_nat b) with (get_vcpu (Z.to_nat b) m1) in Hc.
  destruct (local_desc_some (Z.to_nat b) c m1 k Hm1 Hc ltac:(lia)) as (Ed & x & Hx & Hno).
  assert (k < vm_irq_count m1) by (pose proof (ok_nr m1 Hm1); unfold vm_irq_count, VM_LOCAL_VIRQ_NR, VM_SGI_VIRQ_NR, VM_PPI_VIRQ_NR; lia).
  destruct (send_virq_spec id (Z.to_nat b) c (Local (Z.to_nat b) k) x m1 Hm1 Hc ltac:(cbn; lia) Hx ltac:(lia)) as (r & m2 & E & Hm2 & Hr & _ & Hok).
  assert (r = 0) as -> by (apply Hr; unfold accepts; rewrite Es, Hst; done). destruct (Hok eq_refl) as [(P1 & P2 & P3 & P4 & _) _].
  unfold sgi_to_cpu, get_vcpu_in_vm, vcpu_nr, send_virq_to_vcpu. rewrite (proj2 (Z.leb_gt _ _)) by lia. msimpl. rewrite Ed, E. msimpl.
  exists m2. split; [done|]. split; [done|]. split; [congruence|]. split; [congruence|]. split; [apply send_len in E; congruence|].
  split; [intros u; by rewrite P2|]. intros u j Hj. rewrite P1, Hp, Hno by done.
  destruct (decide (u = Z.to_nat b)) as [->|Hne].
  - rewrite bool_decide_eq_true_2, Z2Nat.id, Hf, Z.ltb_irrefl, (proj2 (Z.ltb_lt b (b + 1))) by (done || lia). cbn [andb]. by rewrite orb_false_r.
  - rewrite bool_decide_eq_false_2 by done. cbn [andb]. rewrite orb_false_r. f_equal. f_equal.
    destruct (Z.ltb_spec (Z.of_nat u) b), (Z.ltb_spec (Z.of_nat u) (b + 1)); try done; lia.
Qed.

(** A write to ICC_SGI1R_EL1 whose targets are vcpus of the VM makes the SGI
    pending at exactly these vcpus, at all others than the writer or at those of
    the list, and nothing else pending or active anywhere. *)
Theorem vgicv3_send_sgi_correct c val m :
  vm_ok m -> get_vcpu v m = Some c -> vm_state m = VM_STATE_ONLINE -> vcpu_nr m <= CONFIG_NR_CPUS ->
  0 <= val < 2 ^ 64 -> sgi_valid (vcpu_nr m) val ->
  exists m', vgicv3_send_sgi v C0 val m = Some (0, m')
    /\ sgi_posted (sgi_no val) (sgi_target (vcpu_nr m) (vcpu_id c) val) m (vcpu_nr m) m'.
Proof.
  intros Hm Hc Hst Hn Hv Hval. change CONFIG_NR_CPUS with 4 in Hn. destruct (sgi_fields val ltac:(lia)) as (E1 & _ & _ & Hno & Ha). unfold vgicv3_send_sgi. rewrite Hc. msimpl. rewrite E1.
  rewrite (proj2 (Z.leb_gt _ _)) by lia. destruct (sgi_targets_spec (vcpu_id c) val m Hv ltac:(lia) Hval) as (mask & Em & Hw & Hmask). rewrite Em. cbn [mbind option_bind].
  set (f := sgi_target _ _ _) in *. assert (forall k, vcpu_nr m <= k -> f k = false) as Hf.
  { intros k Hk. unfold f, sgi_target. destruct (Z.testbit val 40) eqn:H40; [by rewrite (proj2 (Z.ltb_ge _ _)) by lia|].
    destruct (Z.leb_spec (sgi_aff1 val * C0) k); cbn [andb]; [|done]. destruct (Z.ltb_spec k (sgi_aff1 val * C0 + 16)); cbn [andb]; [|done].
    destruct (Z.testbit val (k - sgi_aff1 val * C0)) eqn:Et; [|done]. specialize (Hval H40 (k - sgi_aff1 val * C0) ltac:(lia) Et). lia. }
  edestruct (for_each_set_bit_spec (fun _ => mask) CONFIG_NR_CPUS (sgi_to_cpu (vcpu_id c) (sgi_no val))
    (fun b m' => 0 <= b /\ sgi_posted (sgi_no val) f m b m') (sgi_posted (sgi_no val) f m (vcpu_nr m)) ) with (s := m) as (m' & E & Hp).
  - intros _ _ _. destruct Hw as (W1 & W2 & W3). split; [done|]. unfold CONFIG_NR_CPUS. lia.
  - intros b b' m' (Hb0 & H1 & H2 & H3 & H4 & H5 & H6) Hb Hz. split; [lia|]. split_and!; try done. intros u j Hj. rewrite H6 by done. f_equal. f_equal.
    destruct (Z.ltb_spec (Z.of_nat u) b), (Z.ltb_spec (Z.of_nat u) b'); cbn [andb]; try done; try lia. by rewrite <- Hmask, Hz by lia.
  - intros b m1 [_ Hp] Hb Hbit. rewrite Hmask in Hbit by lia. assert (b < vcpu_nr m).
    { destruct (Z.lt_ge_cases b (vcpu_nr m)); [done|]. by rewrite Hf in Hbit by lia. }
    destruct (sgi_to_cpu_spec (vcpu_id c) (sgi_no val) f m b m1 Hno Hst ltac:(lia) Hbit Hp) as (m2 & E & H2). exists false, m2. split; [done|]. split; [lia|done].
  - intros m' (_ & H1 & H2 & H3 & H4 & H5 & H6). split_and!; try done. intros u j Hj. rewrite H6 by done. f_equal. f_equal.
    destruct (Z.ltb_spec (Z.of_nat u) CONFIG_NR_CPUS), (Z.ltb_spec (Z.of_nat u) (vcpu_nr m)); cbn [andb]; try done; [by rewrite Hf by lia|unfold CONFIG_NR_CPUS in *; lia].
  - unfold CONFIG_NR_CPUS. lia.
  - split; [lia|]. split_and!; try done. intros u j Hj. rewrite (proj2 (Z.ltb_ge (Z.of_nat u) 0)) by lia. cbn [andb]. by rewrite orb_false_r.
  - rewrite E. msimpl. by exists m'.
Qed.
End sgi.

(** ** Starting the driver *)
Lemma copy_words_spec i data l : (i + length data <= length l)%nat -> copy_words i data l = Some (take i l ++ data ++ drop (i + length data) l).
Proof.
  revert i l. induction data as [|x data IH]; intros i l Hl; cbn [copy_words length] in *.
  - by rewrite Nat.add_0_r, app_nil_l, take_drop.
  - destruct (lookup_lt_is_Some_2 l i) as [y Hy]; [lia|]. rewrite Hy. cbn [mbind option_bind]. rewrite IH by (rewrite length_insert; lia). f_equal.
    rewrite drop_insert_lt by lia. rewrite (take_S_r _ i x) by (apply list_lookup_insert_eq; lia). rewrite take_insert_ge by lia.
    rewrite <- app_assoc. cbn [app]. do 4 f_equal. lia.
Qed.

Lemma info_of_ten l : length l = 10%nat -> exists i, info_of l = Some i /\ i_gicd_base i = nth 0 l 0 /\ i_gicd_size i = nth 1 l 0
  /\ i_gicr_base i = nth 2 l 0 /\ i_gicr_size i = nth 3 l 0.
Proof. intros Hl. do 10 (destruct l as [|? l]; [done|]). destruct l; [|done]. by eexists. Qed.

Lemma vgicv3_init_spec data vtr g s :
  length data = 10%nat -> length (v_info g) = 10%nat -> (forall k, (k < 4)%nat -> nth k data 0 <> 0) ->
  exists g' s' m, vgicv3_init data vtr true g s = Some (0, g', s') /\ v_info g' = data
    /\ v_nr_lr g' = vtr mod 64 + 1 /\ v_nr_pr g' = (vtr / 2 ^ 29) mod 8 + 1
    /\ vmodule_list s' = vmodule_list s ++ [m] /\ vmo_id m = vmodule_class_nr s /\ mach s' = mach s
    /\ state_save m = Some (gicv3_state_save (v_nr_lr g') (v_nr_pr g')) /\ state_restore m = Some (gicv3_state_restore (v_nr_lr g') (v_nr_pr g'))
    /\ state_init m = Some gicv3_state_init.
Proof.
  intros Hd Hl Hnz. assert (copy_words 0 data (v_info g) = Some data) as Ec.
  { rewrite copy_words_spec by lia. rewrite drop_ge by lia. by rewrite app_nil_r. }
  unfold vgicv3_init. rewrite Ec. cbn [mbind option_bind]. destruct (info_of_ten data Hd) as (i & Ei & E1 & E2 & E3 & E4). rewrite Ei. cbn [mbind option_bind].
  rewrite E1, E2, E3, E4. rewrite !(proj2 (Z.eqb_neq _ _)) by (apply Hnz; lia). cbn [orb].
  assert (Z.land (u32 vtr) 0x3f = vtr mod 64) as Elr.
  { change 0x3f with (2 ^ 6 - 1). rewrite land_pow_pred by lia. unfold u32. dlia. }
  assert (Z.land (Z.shiftr (u32 vtr) 29) 0x7 = (vtr / 2 ^ 29) mod 8) as Epr.
  { change 0x7 with (2 ^ 3 - 1). rewrite land_pow_pred, Z.shiftr_div_pow2 by lia. unfold u32. dlia. }
  rewrite Elr, Epr. unfold register_vcpu_vmodule, create_vmodule. cbn [negb]. eexists _, _, _. split; [reflexivity|]. split_and!; reflexivity.
Qed.

(** The driver starts when the interrupt chip hands over the addresses of the
    distributor and of the redistributors: it knows the number of list registers
    and of priority bits of the cpu, and the module that switches the interface
    is registered last. *)
Theorem vgicv3_init_correct data vtr g s :
  length data = 10%nat -> length (v_info g) = 10%nat -> (forall k, (k < 4)%nat -> nth k data 0 <> 0) ->
  exists g' s' m, vgicv3_init data vtr true g s = Some (0, g', s') /\ v_info g' = data
    /\ v_nr_lr g' = vtr mod 64 + 1 /\ v_nr_pr g' = (vtr / 2 ^ 29) mod 8 + 1
    /\ vmodule_list s' = vmodule_list s ++ [m] /\ vmo_id m = vmodule_class_nr s /\ mach s' = mach s
    /\ state_save m = Some (gicv3_state_save (v_nr_lr g') (v_nr_pr g')) /\ state_restore m = Some (gicv3_state_restore (v_nr_lr g') (v_nr_pr g'))
    /\ state_init m = Some gicv3_state_init.
Proof. apply vgicv3_init_spec. Qed.

(** With eight priority bits the driver starts, and the first switch panics. *)
Theorem gicv3_eight_priority_bits data g s :
  length data = 10%nat -> length (v_info g) = 10%nat -> (forall k, (k < 4)%nat -> nth k data 0 <> 0) ->
  exists g' s', vgicv3_init data 0xE0000003 true g s = Some (0, g', s') /\ forall v c h, gicv3_state_save (v_nr_lr g') (v_nr_pr g') v (Some c) h = None.
Proof.
  intros Hd Hl Hnz. destruct (vgicv3_init_spec data 0xE0000003 g s Hd Hl Hnz) as (g' & s' & m & E & _ & E1 & E2 & _). exists g', s'. split; [exact E|]. intros v c h. rewrite E1, E2. reflexivity.
Qed.

(** [gicr_enabler0] is what the memory held: a bit that is set there makes the
    write that enables the virq do nothing. *)
Theorem gicr_enable_lost {H : Type} (vc : virq_chip H) v id nr base r k m (h : H) :
  0 <= k < 32 -> Z.testbit (gicr_enabler0 r) k = true ->
  vgic_gicr_sgi_mmio vc v (vgic_gicr_init id nr base r) false GICR_ISENABLER (2 ^ k) m h
  = Some (0, 2 ^ k, vgic_gicr_init id nr base r, m, h).
Proof.
  intros Hk Hb. set (r0 := vgic_gicr_init id nr base r). assert (Z.testbit (gicr_enabler0 r0) k = true) as Hb0 by done.
  unfold vgic_gicr_sgi_mmio, gicr_sgi_write. change (GICR_ISENABLER =? GICR_ICPENDR0) with false. rewrite Z.eqb_refl.
  destruct (for_each_set_bit_spec (fun _ => [2 ^ k]) 32 (isenable_bit v) (fun _ s => s = (r0, m)) (fun s => s = (r0, m))) with (s := (r0, m)) as (s & E & ->); try done.
  - intros _ s _. apply one_word_wf; [|lia]. split; [lia|]. apply Z.pow_lt_mono_r; lia.
  - intros bit s -> Hbit Ht. rewrite one_word_bits in Ht by lia. destruct (decide (bit = k)) as [->|Hn]; [|by rewrite Z.pow2_bits_false in Ht by done].
    exists false, (r0, m). unfold isenable_bit. rewrite bit_is_clear, Hb0 by lia. done.
  - rewrite E. done.
Qed.

(** Every virq of its own is enabled when a vcpu starts and the register does not
    show it: the first write that disables it does nothing. *)
Theorem gicr_disable_ignored {H : Type} (vc : virq_chip H) v r m (h : H) value : gicr_enabler0 r = 0 -> 0 <= value < 2 ^ 64 ->
  vgic_gicr_sgi_mmio vc v r false GICR_ICENABLER value m h = Some (0, value, r, m, h).
Proof.
  intros Hr Hv. unfold vgic_gicr_sgi_mmio, gicr_sgi_write. change (GICR_ICENABLER =? GICR_ICPENDR0) with false.
  change (GICR_ICENABLER =? GICR_ISENABLER) with false. rewrite Z.eqb_refl.
  destruct (for_each_set_bit_spec (fun _ => [value]) 32 (icenable_bit v) (fun _ s => s = (r, m)) (fun s => s = (r, m))) with (s := (r, m)) as (s & E & ->); try done.
  - intros _ s _. apply one_word_wf; lia.
  - intros bit s -> _ _. exists false, (r, m). split; [|done]. unfold icenable_bit. by rewrite Hr.
  - rewrite E. done.
Qed.

(** The enable registers of the distributor read as zero. *)
Theorem gicd_enable_reads_zero v d k m : 0 <= k < 31 -> vgic_gicd_mmio_read v d (GICD_ISENABLER + 4 * k) m = Some 0.
Proof.
  intros Hk. unfold vgic_gicd_mmio_read, between. rewrite !(proj2 (Z.eqb_neq (GICD_ISENABLER + 4 * k) _)) by (unfold GICD_ISENABLER, GICD_CTLR, GICD_TYPER, GICD_STATUSR; lia).
  by rewrite (proj2 (Z.leb_le _ _)), (proj2 (Z.leb_le _ _)) by (unfold GICD_ISENABLER, GICD_ISENABLER_END; lia).
Qed.

(** A guest that names the affinity 1.0 with 64 cpus or more per cluster, or the
    affinity 16.0 with four, has the hypervisor write past the cpu mask. *)
Theorem sgi_mask_overflow v c m : get_vcpu v m = Some c -> vgicv3_send_sgi v 4 (Z.shiftl 16 16 + 1) m = None.
Proof. intros Hc. unfold vgicv3_send_sgi. rewrite Hc. reflexivity. Qed.

(** ** The theorems at a concrete guest with two vcpus *)
Definition demo_gicr (i : Z) : vgic_gicr := vgic_gicr_init i 2 0 (mk_gicr 0 0 0 0 0 0 0 0 0).
Definition demo_gic : vgicv3_dev := mk_vgicv3 (vgic_gicd_init 2 64 0x2f000000 0x10000) [Some (demo_gicr 0); Some (demo_gicr 1); None; None].
Definition demo_ic : icregs := mk_ic (fun r => match r with ICH_LR_EL2 n => (100 + n) mod 256 | _ => 1 end) [].
Definition demo_ctx3 : gicv3_context := mk_ctx3 (replicate 16 0) (replicate 3 0) (replicate 3 0) 0 0 0.
Definition demo_chip3 : virq_chip icregs := gicv3_chip 4.

Lemma demo_gic_ok : gic_ok 2 demo_gic.
Proof. intros i Hi. destruct i as [|[|i]]; [| |lia]; (eexists; split; [reflexivity|]); split_and!; reflexivity. Qed.

Lemma gicv3_send_virq_encodes_witness :
  exists h', gicv3_send_virq 4 (set_d_id 2 (init_local 3 zero_desc)) demo_ic = (0, h')
    /\ gicv3_get_virq_state 4 (set_d_id 2 (init_local 3 zero_desc)) h' = VIRQ_STATE_PENDING.
Proof.
  destruct (gicv3_send_virq_encodes 4 (set_d_id 2 (init_local 3 zero_desc)) demo_ic) as (h' & E & H & _); [cbn; lia..|].
  exists h'. exact (conj E H).
Defined.

Lemma gicv3_switch_roundtrip_witness :
  exists c' h3, gicv3_state_save 4 5 0 (Some demo_ctx3) demo_ic = Some (Some c', demo_ic)
    /\ gicv3_state_restore 4 5 0 (Some c') (mk_ic (fun _ => 7) []) = Some (Some c', h3)
    /\ read_ic (ICH_LR_EL2 3) h3 = 103 /\ read_ic (ICH_LR_EL2 4) h3 = 7.
Proof.
  destruct (gicv3_switch_roundtrip 4 5 0 demo_ctx3 demo_ic (mk_ic (fun _ => 7) [])) as (c' & h3 & E1 & _ & E2 & _ & H); [lia|lia|done| |].
  - intros r. unfold read_ic. destruct r; cbn [demo_ic ic_reg]; try lia. pose proof (Z.mod_pos_bound (100 + n) 256). lia.
  - exists c', h3. exact (conj E1 (conj E2 (conj (H (ICH_LR_EL2 3)) (H (ICH_LR_EL2 4))))).
Defined.

Lemma vgicv3_mmio_isolated_witness :
  exists ret x g' m' h', vgic_mmio_handler demo_chip3 0 false 1 0x30100 1 demo_gic demo_vm demo_ic = Some (ret, x, g', m', h') /\ g' = demo_gic /\ m' = demo_vm.
Proof.
  destruct (vgicv3_mmio_isolated demo_chip3 0 (create_vs demo_vm (demo_vcpu 0)) false 1 0x30100 1 demo_gic demo_vm demo_ic)
    as (ret & x & g' & m' & h' & E & _ & _ & _ & _ & _ & H & _); [apply demo_vm_ok|reflexivity|reflexivity|exact demo_gic_ok|lia|lia|].
  exists ret, x, g', m', h'. split; [exact E|]. destruct (H eq_refl) as [_ H2]. destruct (H2 ltac:(vm_compute; discriminate)) as (H3 & H4 & _). exact (conj H3 H4).
Defined.

Lemma gicr_enable_registers_witness :
  exists r' m', vgic_gicr_sgi_mmio demo_chip3 0 (demo_gicr 0) false GICR_ISENABLER 8 demo_vm demo_ic = Some (0, 8, r', m', demo_ic) /\ enabled 0 m' 3 = true.
Proof.
  destruct (gicr_enable_registers demo_chip3 0 (create_vs demo_vm (demo_vcpu 0)) (demo_gicr 0) true 8 demo_vm demo_ic)
    as (r' & m' & E & _ & _ & H & _); [apply demo_vm_ok|reflexivity|lia| |].
  - intros j Hj. by rewrite Z.bits_0.
  - exists r', m'. split; [exact E|]. exact (H 3 ltac:(lia)).
Defined.

Lemma vgicv3_send_sgi_correct_witness :
  exists m', vgicv3_send_sgi 0 4 (Z.shiftl 5 24 + 2) demo_vm = Some (0, m') /\ bit_at (pending_of 1 m') 5 = true.
Proof.
  destruct (vgicv3_send_sgi_correct 0 4 ltac:(lia) (create_vs demo_vm (demo_vcpu 0)) (Z.shiftl 5 24 + 2) demo_vm)
    as (m' & E & _ & _ & _ & _ & _ & H); [apply demo_vm_ok|reflexivity|reflexivity|vm_compute; discriminate|vm_compute; split; [discriminate|reflexivity]| |].
  - intros _ b Hb Ht. assert (b = 1) as ->; [|reflexivity]. assert (forallb (fun n => negb (Z.testbit (Z.shiftl 5 24 + 2) (Z.of_nat n)) || (Z.of_nat n =? 1)) (seq 0 16) = true) as Hf by (vm_compute; reflexivity).
    rewrite forallb_forall in Hf. specialize (Hf (Z.to_nat b)). rewrite Z2Nat.id, Ht in Hf by lia. apply Z.eqb_eq, Hf, in_seq. lia.
  - exists m'. split; [exact E|]. rewrite (H 1%nat 5) by lia. apply orb_true_iff. right. vm_compute. reflexivity.
Defined.

Lemma vgicv3_init_correct_witness :
  exists g' s', vgicv3_init [1; 1; 1; 1; 0; 0; 0; 0; 0; 0] 0x80000003 true (mk_vars 0 0 (replicate 10 0)) (mk_vmods [] 0 ∅ demo_ic) = Some (0, g', s') /\ v_nr_lr g' = 4.
Proof.
  destruct (vgicv3_init_correct [1; 1; 1; 1; 0; 0; 0; 0; 0; 0] 0x80000003 (mk_vars 0 0 (replicate 10 0)) (mk_vmods [] 0 ∅ demo_ic))
    as (g' & s' & m & E & _ & H & _); [reflexivity|reflexivity| |].
  - intros k Hk. destruct k as [|[|[|[|k]]]]; [discriminate..|lia].
  - exists g', s'. exact (conj E H).
Defined.
