(* ===== verification/Vgicv3Dev.v ===== *)
(** * Making and releasing the GICv3 of a VM (virt/virq_chips/vgicv3.c)

    The device is an object of Vdev.v with the areas of the interrupt
    controller in the device tree; its distributor and redistributors are the
    [vgicv3_dev] of Vgicv3.v, by the address of the device.  The
    redistributors are the objects that the pointers [gicr] own. *)
From S2P Require Import Prelude Bitops Bitmap Stage2 VmmArea Vm VmPm Vdev Vgic Vgicv3.

Definition VGIC_READ_FN : Z := 41.
Definition VGIC_WRITE_FN : Z := 42.
Definition VGIC_DEINIT_FN : Z := 43.
Definition VGIC_RESET_FN : Z := 44.

(** The devices, and the VMs whose [sgi1r_el1_trap] is [vgicv3_send_sgi]. *)
Record g3 := mk_g3 {
  g3_devs : gmap Z vgicv3_dev;
  g3_traps : list Z;
}.

Section vgicv3.
(** [NR_CPUS] is the size of [gicr]; [nr_lr] and [hw_base] are [gicv3_nr_lr] and
    [vgicv3_info.gicd_base]. *)
Context (NR_CPUS nr_lr hw_base : Z).
Implicit Type w : vdw g3.

Definition upd_g3 (f : g3 -> g3) w : vdw g3 := set_dev (f (w_dev w)) w.
Definition put_g3 (d : Z) (g : vgicv3_dev) (x : g3) : g3 := mk_g3 (<[d := g]> (g3_devs x)) (g3_traps x).
Definition drop_g3 (d : Z) (x : g3) : g3 := mk_g3 (delete d (g3_devs x)) (g3_traps x).
Definition set_trap (p : Z) (x : g3) : g3 := mk_g3 (g3_devs x) (g3_traps x ++ [p]).

(** [tr index] is what the device tree has for the index; without an entry the
    fields stay 0.  [inl] is the error. *)
Definition get_vgicv3_info (tr : Z -> option (Z * Z)) : Z + vgicv3_info :=
  match tr 0, tr 1 with
  | None, _ => inl (- ENOENT)
  | _, None => inl (- ENOENT)
  | Some (gicd_base, gicd_size), Some (gicr_base, gicr_size) =>
      if (gicd_base =? 0) || (gicd_size =? 0) || (gicr_base =? 0) || (gicr_size =? 0) then inl (- EINVAL)
      else
        let '(c, cs) := default (0, 0) (tr 2) in
        let '(h, hs) := default (0, 0) (tr 3) in
        let '(v, vs) := default (0, 0) (tr 4) in
        inr (mk_info gicd_base gicd_size gicr_base gicr_size c cs h hs v vs)
  end.

(** [gic->vdev.vm] is read first; the redistributors go with the device. *)
Definition vm_release_gic (d : Z) w : option (vdw g3) :=
  o ← w_objs w !! d;
  w ← vdev_release d w;
  p ← vd_vm o;
  m ← vm_heap (w_hv w) !! p;
  g ← g3_devs (w_dev w) !! d;
  _ ← assert_ (vcpu_nr m <=? Z.of_nat (length (gicr g)));
  Some (upd_g3 (drop_g3 d) (drop_vdev d w)).

Definition vgic_deinit (d : Z) w : option (vdw g3) := vm_release_gic d w.
Definition vgic_reset (d : Z) w : vdw g3 := w.

(** The five areas of the device; the results are added up. *)
Definition add_areas (d : Z) (i : vgicv3_info) (oks : list bool) w : option (Z * list bool * vdw g3) :=
  '(r0, oks, w) ← vdev_add_iomem_range (Some d) (i_gicd_base i) (i_gicd_size i) oks w;
  '(r1, oks, w) ← vdev_add_iomem_range (Some d) (i_gicr_base i) (i_gicr_size i) oks w;
  '(r2, oks, w) ← vdev_add_iomem_range (Some d) (i_gicc_base i) (i_gicc_size i) oks w;
  '(r3, oks, w) ← vdev_add_iomem_range (Some d) (i_gich_base i) (i_gich_size i) oks w;
  '(r4, oks, w) ← vdev_add_iomem_range (Some d) (i_gicv_base i) (i_gicv_size i) oks w;
  Some (r0 + r1 + r2 + r3 + r4, oks, w).

(** The redistributors of the vcpus from [i] on.  [mems] is what [malloc] returns
    for each, NULL when it is used up; the first result is that all were made. *)
Fixpoint gicr_loop (n : nat) (i : Z) (base : Z) (m : vm) (mems : list (option vgic_gicr)) (g : vgicv3_dev) (s : hv) : option (bool * vgicv3_dev) :=
  match n with
  | O => Some (true, g)
  | S n =>
      v ← load_slot i m;
      match mems with
      | Some mem :: mems =>
          v ← v;
          c ← vcpu_heap s !! v;
          cm ← vm_heap s !! vc_vm c;
          _ ← assert_ (i <? Z.of_nat (length (gicr g)));
          gicr_loop n (i + 1) base m mems (put_gicr (Z.to_nat i) (vgic_gicr_init (vcpu_id c) (vcpu_nr cm) base mem) g) s
      | _ => Some (false, g)
      end
  end.

(** [a] is the address that [zalloc] returns, [vc_ok] that [alloc_virq_chip] gets
    memory, [nr_vspi] is [vm->vspi_nr]. *)
Definition vgicv3_virqchip_init (p nr_vspi : Z) (tr : Z -> option (Z * Z)) (a : option Z) (mems : list (option vgic_gicr)) (vc_ok : bool)
    (oks : list bool) w : option (option (virq_chip icregs) * list bool * vdw g3) :=
  match get_vgicv3_info tr, a with
  | inl _, _ => Some (None, oks, w)
  | _, None => Some (None, oks, w)
  | inr i, Some d =>
      let w := host_vdev_init (Some p) d (upd_g3 (put_g3 d (mk_vgicv3 (mk_vgicd 0 0 0 0 0) (replicate (Z.to_nat NR_CPUS) None))) w) in
      '(ret, oks, w) ← add_areas d i oks w;
      if negb (ret =? 0) then w ← vm_release_gic d w; Some (None, oks, w)
      else
        m ← vm_heap (w_hv w) !! p;
        g ← g3_devs (w_dev w) !! d;
        '(ok, g) ← gicr_loop (Z.to_nat (vcpu_nr m)) 0 (i_gicr_base i) m mems
                     (set_gicd (vgic_gicd_init (vcpu_nr m) nr_vspi (i_gicd_base i) (i_gicd_size i)) g) (w_hv w);
        let w := upd_g3 (put_g3 d g) w in
        if negb ok then w ← vm_release_gic d w; Some (None, oks, w)
        else
          o ← w_objs w !! d;
          w ← vdev_add d (put_vdev d (set_ops (Some VGIC_READ_FN) (Some VGIC_WRITE_FN) (Some VGIC_DEINIT_FN) (Some VGIC_RESET_FN) o) w);
          if negb vc_ok then w ← vm_release_gic d w; Some (None, oks, w)
          else
            let flags := if negb (hw_base =? 0) then VIRQCHIP_F_HW_VIRT else 0 in
            Some (Some (vgicv3_init_virqchip nr_lr flags), oks, upd_g3 (set_trap p) w)
  end.
End vgicv3.

(** ** The parts of the construction *)
Lemma release_gic_ok d o p m g (w : vdw g3) :
  vdevs_ok w -> w_objs w !! d = Some o -> vd_vm o = Some p -> vm_heap (w_hv w) !! p = Some m -> g3_devs (w_dev w) !! d = Some g ->
  vcpu_nr m <= Z.of_nat (length (gicr g)) ->
  exists w', vm_release_gic d w = Some w' /\ vdevs_ok w' /\ w_objs w' = delete d (w_objs w) /\ w_dev w' = drop_g3 d (w_dev w).
Proof.
  intros Hw Ho Hv Hm Hg Hn. assert (exists w1 m1, vdev_release d w = Some w1 /\ vm_heap (w_hv w1) !! p = Some m1 /\ vcpu_nr m1 = vcpu_nr m
    /\ w_dev w1 = w_dev w /\ delete d (w_objs w1) = delete d (w_objs w)) as (w1 & m1 & E & Hm1 & En & Ed & Eo).
  { unfold vdev_release. rewrite Ho. cbn [mbind option_bind]. destruct (vd_linked o).
    - rewrite Hv. cbn [mbind option_bind]. rewrite Hm. cbn [mbind option_bind]. eexists _, _. split; [done|]. cbn. split; [apply lookup_insert_eq|].
      split; [done|]. split; [done|]. by rewrite delete_insert_eq.
    - cbn [mbind option_bind]. exists (put_vdev d (set_linked false (set_gvm_area (take 1 (gvm_area o)) o)) w), m. split; [done|]. cbn. split_and!; try done. by rewrite delete_insert_eq. }
  unfold vm_release_gic. rewrite Ho. cbn [mbind option_bind]. rewrite E. cbn [mbind option_bind]. rewrite Hv. cbn [mbind option_bind].
  rewrite Hm1. cbn [mbind option_bind]. rewrite Ed, Hg. cbn [mbind option_bind]. unfold assert_. rewrite En, (proj2 (Z.leb_le _ _)) by done. cbn [mbind option_bind].
  eexists. split; [done|]. split; [|split; [exact Eo|]].
  - apply set_dev_ok, (vdev_deinit_ok d w); [done|]. unfold vdev_deinit. by rewrite E.
  - cbn. by rewrite Ed.
Qed.

(** While the device is being made: [w0] is the state it started from. *)
Record making (p d : Z) (x : g3) (w0 w : vdw g3) : Prop := mk_making {
  mk_ok : vdevs_ok w;
  mk_hv : w_hv w = w_hv w0;
  mk_dev : w_dev w = x;
  mk_obj : exists l, w_objs w !! d = Some (mk_vdev (Some p) 1 l false None None (Some VDEV_DEINIT) None);
  mk_others : delete d (w_objs w) = delete d (w_objs w0);
  mk_mm : is_Some (w_mm w !! p);
}.

Lemma making_area p d x w0 w base size oks : 0 <= base -> 0 < size -> base + size < 2 ^ 62 -> making p d x w0 w ->
  exists r oks' w', vdev_add_iomem_range (Some d) base size oks w = Some (r, oks', w') /\ making p d x w0 w' /\ r <= 0.
Proof.
  intros Hb Hs He [Hw Hh Hd (l & Ho) Hot (mm & Hmm)].
  assert (exists r oks' w', vdev_add_iomem_range (Some d) base size oks w = Some (r, oks', w') /\ is_Some (w_mm w' !! p) /\ r <= 0) as (r & oks' & w' & E & Hm' & Hr).
  { unfold vdev_add_iomem_range. rewrite Ho. cbn [mbind option_bind vd_vm]. rewrite Hmm. cbn [mbind option_bind].
    destruct (split_vmm_area _ _ _ _ _) as [[[va|] oks1] mm1].
    - unfold vdev_add_vmm_area. cbn [put_mm w_objs]. rewrite Ho. cbn [mbind option_bind]. eexists _, _, _. split; [done|]. split; [|lia]. cbn. rewrite lookup_insert_eq. by eexists.
    - eexists _, _, _. split; [done|]. split; [|by unfold ENOMEM]. cbn. rewrite lookup_insert_eq. by eexists. }
  exists r, oks', w'. split; [done|]. split; [|done]. destruct (add_iomem_frame d base size oks w r oks' w' _ E Ho) as (F1 & F2 & [l' F3] & F4).
  split; [by eapply (add_iomem_ok d base size oks w)|congruence|congruence|by exists l'| |done].
  rewrite <- Hot. apply map_eq. intros k. destruct (decide (k = d)) as [->|Hk]; [by rewrite !lookup_delete_eq|]. rewrite !lookup_delete_ne by done. by apply F4.
Qed.

(** The addresses in the device tree. *)
Definition range_ok (base size : Z) : Prop := 0 <= base /\ 0 < size /\ base + size < 2 ^ 62.
Definition info_ok (i : vgicv3_info) : Prop :=
  range_ok (i_gicd_base i) (i_gicd_size i) /\ range_ok (i_gicr_base i) (i_gicr_size i) /\ range_ok (i_gicc_base i) (i_gicc_size i)
  /\ range_ok (i_gich_base i) (i_gich_size i) /\ range_ok (i_gicv_base i) (i_gicv_size i).

Lemma making_areas p d x w0 w i oks : info_ok i -> making p d x w0 w ->
  exists r oks' w', add_areas d i oks w = Some (r, oks', w') /\ making p d x w0 w'.
Proof.
  intros ((A1 & A2 & A3) & (B1 & B2 & B3) & (C1 & C2 & C3) & (D1 & D2 & D3) & (E1 & E2 & E3)) Hm. unfold add_areas.
  destruct (making_area p d x w0 w _ _ oks A1 A2 A3 Hm) as (r0 & o0 & w1 & F0 & H0 & _). rewrite F0. cbn [mbind option_bind].
  destruct (making_area p d x w0 w1 _ _ o0 B1 B2 B3 H0) as (r1 & o1 & w2 & F1 & H1 & _). rewrite F1. cbn [mbind option_bind].
  destruct (making_area p d x w0 w2 _ _ o1 C1 C2 C3 H1) as (r2 & o2 & w3 & F2 & H2 & _). rewrite F2. cbn [mbind option_bind].
  destruct (making_area p d x w0 w3 _ _ o2 D1 D2 D3 H2) as (r3 & o3 & w4 & F3 & H3 & _). rewrite F3. cbn [mbind option_bind].
  destruct (making_area p d x w0 w4 _ _ o3 E1 E2 E3 H3) as (r4 & o4 & w5 & F4 & H4 & _). rewrite F4. cbn [mbind option_bind]. by eexists _, _, _.
Qed.

(** The redistributors: as many as [malloc] gave memory for. *)
Lemma gicr_loop_spec n i base p m mems g s :
  vm_heap s !! p = Some m -> slots_ok (vcpu_heap s) p m (vcpu_nr m) -> 0 <= i -> i + Z.of_nat n <= vcpu_nr m -> i + Z.of_nat n <= Z.of_nat (length (gicr g)) ->
  gic_ok (Z.to_nat i) g ->
  exists ok g', gicr_loop n i base m mems g s = Some (ok, g') /\ gicd g' = gicd g /\ length (gicr g') = length (gicr g)
    /\ (ok = true -> gic_ok (Z.to_nat i + n) g').
Proof.
  intros Hm Hs. revert i mems g. induction n as [|n IH]; intros i mems g Hi Hn Hl Hg; cbn [gicr_loop].
  - exists true, g. rewrite Nat.add_0_r. by split_and!.
  - destruct (Hs i ltac:(lia)) as (v & c & Hv & Hc & Hid & Hvm & _). rewrite Hv. cbn [mbind option_bind].
    destruct mems as [|[mem|] mems]; [by exists false, g| |by exists false, g]. cbn [mbind option_bind]. rewrite Hc. cbn [mbind option_bind]. rewrite Hvm, Hm. cbn [mbind option_bind].
    unfold assert_. rewrite (proj2 (Z.ltb_lt _ _)) by lia. cbn [mbind option_bind]. rewrite Hid. set (r := vgic_gicr_init i _ base mem).
    destruct (IH (i + 1) mems (put_gicr (Z.to_nat i) r g)) as (ok & g' & E & Ed & El & Hok); [lia|lia|cbn; rewrite length_insert; lia| |].
    + intros k Hk. unfold put_gicr; cbn [gicr]. destruct (decide (k = Z.to_nat i)) as [->|Hne].
      * exists r. rewrite list_lookup_insert_eq by lia. split; [done|]. unfold r. rewrite <- (Z2Nat.id i) at 2 by lia. apply vgic_gicr_init_at.
      * rewrite list_lookup_insert_ne by done. apply Hg. lia.
    + exists ok, g'. split; [done|]. cbn in El. rewrite length_insert in El. split_and!; try done. intros H. specialize (Hok H). by replace (Z.to_nat i + S n)%nat with (Z.to_nat (i + 1) + n)%nat by lia.
Qed.

Lemma drop_put d g (x : g3) : g3_devs x !! d = None -> drop_g3 d (put_g3 d g x) = x.
Proof. intros H. destruct x as [m t]; unfold drop_g3, put_g3; cbn in *. f_equal. by rewrite delete_insert_id. Qed.

Lemma put_put d g g' (x : g3) : put_g3 d g (put_g3 d g' x) = put_g3 d g x.
Proof. unfold put_g3; cbn. f_equal. apply insert_insert_eq. Qed.

(** A release during the construction restores what was there. *)
Lemma making_undo p d g x w0 w m : w_objs w0 !! d = None -> g3_devs x !! d = None -> making p d (put_g3 d g x) w0 w ->
  vm_heap (w_hv w0) !! p = Some m -> vcpu_nr m <= Z.of_nat (length (gicr g)) ->
  exists w', vm_release_gic d w = Some w' /\ vdevs_ok w' /\ w_objs w' = w_objs w0 /\ w_dev w' = x.
Proof.
  intros Hd Hx [Hw Hh Hdv (l & Ho) Hot _] Hm Hn.
  destruct (release_gic_ok d _ p m g w Hw Ho eq_refl) as (w' & E & H1 & H2 & H3); [by rewrite Hh|rewrite Hdv; cbn; apply lookup_insert_eq|done|].
  exists w'. split; [done|]. split; [done|]. rewrite H2, H3, Hdv, drop_put, Hot, delete_id by done. done.
Qed.

Lemma making_put p d g g' x w0 w : making p d (put_g3 d g x) w0 w -> making p d (put_g3 d g' x) w0 (upd_g3 (put_g3 d g') w).
Proof. intros [H1 H2 H3 H4 H5 H6]. split; try done; [by apply set_dev_ok|]. cbn. by rewrite H3, put_put. Qed.

Lemma making_start p d g w : vdevs_ok w -> w_objs w !! d = None -> is_Some (w_mm w !! p) ->
  making p d (put_g3 d g (w_dev w)) w (host_vdev_init (Some p) d (upd_g3 (put_g3 d g) w)).
Proof.
  intros Hw Hd Hm. split; try done.
  - apply host_vdev_init_ok; [by apply set_dev_ok|done].
  - exists []. apply lookup_insert_eq.
  - cbn. apply delete_insert_eq.
Qed.

(** The device on the list of its VM. *)
Lemma making_add p d x w0 w m r wr de rs : making p d x w0 w -> vm_heap (w_hv w0) !! p = Some m ->
  exists o o' w', w_objs w !! d = Some o /\ vdev_add d (put_vdev d (set_ops r wr de rs o) w) = Some w' /\ vdevs_ok w' /\ w_dev w' = x
    /\ w_objs w' !! d = Some o' /\ vd_vm o' = Some p /\ vd_read o' = r /\ vd_write o' = wr /\ vd_deinit o' = de
    /\ vm_heap (w_hv w') !! p = Some (set_vdev_list (vdev_list m ++ [d]) m) /\ delete d (w_objs w') = delete d (w_objs w0).
Proof.
  intros [Hw Hh Hdv (l & Ho) Hot _] Hm. eexists _. rewrite Ho.
  assert (exists w', vdev_add d (put_vdev d (set_ops r wr de rs (mk_vdev (Some p) 1 l false None None (Some VDEV_DEINIT) None)) w) = Some w'
    /\ w' = put_vdev d (set_linked true (set_ops r wr de rs (mk_vdev (Some p) 1 l false None None (Some VDEV_DEINIT) None)))
         (set_hv (put_vm p (set_vdev_list (vdev_list m ++ [d]) m) (w_hv w)) (put_vdev d (set_ops r wr de rs (mk_vdev (Some p) 1 l false None None (Some VDEV_DEINIT) None)) w)))
    as (w' & E & ->).
  { unfold vdev_add. cbn [put_vdev w_objs w_hv]. rewrite lookup_insert_eq. cbn [mbind option_bind vd_vm set_ops vd_linked negb assert_]. unfold assert_. cbn [negb mbind option_bind].
    rewrite Hh, Hm. cbn [mbind option_bind]. by eexists. }
  eexists _, _. split; [done|]. split; [exact E|]. split; [eapply vdev_add_ok; [|exact E]; by apply set_ops_ok|].
  cbn [w_dev put_vdev set_hv w_objs w_hv]. split; [done|]. split; [apply lookup_insert_eq|]. do 4 (split; [done|]). split; [cbn; apply lookup_insert_eq|].
  by rewrite !delete_insert_eq.
Qed.

(** C28: making the GICv3 of a VM succeeds or leaves nothing behind.  When it succeeds
    the device is on the list of the VM with its operations, every vcpu has the
    redistributor with its number at its place, the distributor describes the
    VM, and the chip is the one of the hardware if there is one; when any of the
    allocations fails, all devices are as they were. *)
Theorem vgicv3_create_correct NR_CPUS nr_lr hw p nr_vspi tr a mems vc_ok oks (w : vdw g3) m :
  vdevs_ok w -> vm_heap (w_hv w) !! p = Some m -> vm_ok (vcpu_heap (w_hv w)) p m -> vcpu_nr m <= NR_CPUS -> is_Some (w_mm w !! p) ->
  (forall d, a = Some d -> w_objs w !! d = None /\ g3_devs (w_dev w) !! d = None) -> (forall i, get_vgicv3_info tr = inr i -> info_ok i) ->
  exists r oks' w', vgicv3_virqchip_init NR_CPUS nr_lr hw p nr_vspi tr a mems vc_ok oks w = Some (r, oks', w') /\ vdevs_ok w'
    /\ match r with
       | None => w_objs w' = w_objs w /\ w_dev w' = w_dev w
       | Some vc => exists d i o g m', a = Some d /\ get_vgicv3_info tr = inr i
           /\ vc = vgicv3_init_virqchip nr_lr (if hw =? 0 then 0 else VIRQCHIP_F_HW_VIRT)
           /\ w_objs w' !! d = Some o /\ vd_vm o = Some p /\ vd_read o = Some VGIC_READ_FN /\ vd_write o = Some VGIC_WRITE_FN
           /\ vm_heap (w_hv w') !! p = Some m' /\ vdev_list m' = vdev_list m ++ [d] /\ p ∈ g3_traps (w_dev w')
           /\ g3_devs (w_dev w') !! d = Some g /\ gic_ok (Z.to_nat (vcpu_nr m)) g
           /\ gicd g = vgic_gicd_init (vcpu_nr m) nr_vspi (i_gicd_base i) (i_gicd_size i)
       end.
Proof.
  intros Hw Hm [Hnr Hlen Hslots] Hcpus Hmm Ha Hinfo. unfold vgicv3_virqchip_init. destruct (get_vgicv3_info tr) as [e|i] eqn:Ei; [by eexists _, _, w|].
  destruct a as [d|]; [|by eexists _, _, w]. destruct (Ha d eq_refl) as [Hd Hx]. specialize (Hinfo i eq_refl).
  set (g0 := mk_vgicv3 _ _). pose proof (making_start p d g0 w Hw Hd Hmm) as Hmk. set (w1 := host_vdev_init _ _ _) in *.
  assert (length (gicr g0) = Z.to_nat NR_CPUS) as Hl0 by apply length_replicate.
  destruct (making_areas p d _ w w1 i oks Hinfo Hmk) as (ret & oks1 & w2 & E2 & Hmk2). rewrite E2. cbn [mbind option_bind]. destruct (negb (ret =? 0)).
  { destruct (making_undo p d g0 (w_dev w) w w2 m Hd Hx Hmk2 Hm ltac:(lia)) as (w3 & E3 & H3). rewrite E3. cbn [mbind option_bind]. by eexists _, _, w3. }
  rewrite (mk_hv _ _ _ _ _ Hmk2), Hm, (mk_dev _ _ _ _ _ Hmk2). cbn [mbind option_bind]. cbn [put_g3 g3_devs]. rewrite lookup_insert_eq. cbn [mbind option_bind].
  destruct (gicr_loop_spec (Z.to_nat (vcpu_nr m)) 0 (i_gicr_base i) p m mems (set_gicd (vgic_gicd_init (vcpu_nr m) nr_vspi (i_gicd_base i) (i_gicd_size i)) g0) (w_hv w))
    as (ok & g & Eg & Egd & Egl & Hok); [done|done|lia|lia|cbn [set_gicd gicr]; lia|intros k Hk; lia|]. rewrite Eg. cbn [mbind option_bind].
  cbn [set_gicd gicr gicd] in Egl, Egd. pose proof (making_put p d g0 g _ _ _ Hmk2) as Hmk3. set (w3 := upd_g3 (put_g3 d g) w2) in *. destruct ok; cbn [negb].
  2:{ destruct (making_undo p d g (w_dev w) w w3 m Hd Hx Hmk3 Hm ltac:(lia)) as (w4 & E4 & H4). rewrite E4. cbn [mbind option_bind]. by eexists _, _, w4. }
  destruct (making_add p d _ w w3 m (Some VGIC_READ_FN) (Some VGIC_WRITE_FN) (Some VGIC_DEINIT_FN) (Some VGIC_RESET_FN) Hmk3 Hm)
    as (o & o' & w4 & Ho & E4 & Hw4 & Hdev4 & Ho' & Hv' & Hr' & Hwr' & _ & Hm4 & Hdel4). rewrite Ho. cbn [mbind option_bind]. rewrite E4. cbn [mbind option_bind].
  destruct vc_ok; cbn [negb].
  - eexists _, _, _. split; [done|]. split; [by apply set_dev_ok|]. exists d, i, o', g, (set_vdev_list (vdev_list m ++ [d]) m).
    cbn [upd_g3 set_dev w_objs w_hv w_dev set_trap g3_devs g3_traps]. rewrite Hdev4. cbn [put_g3 g3_devs g3_traps]. split_and!; try done.
    + by destruct (hw =? 0).
    + apply elem_of_app. right. by apply list_elem_of_singleton.
    + apply lookup_insert_eq.
    + by apply Hok.
  - destruct (release_gic_ok d o' p _ g w4 Hw4 Ho' Hv' Hm4) as (w5 & E5 & H5 & H6 & H7); [rewrite Hdev4; cbn; apply lookup_insert_eq|cbn [set_vdev_list vcpu_nr]; lia|].
    rewrite E5. cbn [mbind option_bind]. eexists _, _, w5. split; [done|]. split; [done|]. rewrite H6, H7, Hdel4, Hdev4, drop_put, delete_id by done. done.
Qed.

(** ** A VM with one vcpu *)
Definition demo_g3 : vdw g3 := mk_vdw (demo_vdev_hv 0) ∅ {[1 := mk_areas [mk_area 0 0x40000000 0 0 0 []] []]} (mk_g3 ∅ []).
Definition demo_tr (i : Z) : option (Z * Z) := Some (0x10000000 + i * 0x100000, 0x20000).

Lemma demo_g3_ok : vdevs_ok demo_g3.
Proof. destruct (demo_vdw0_ok 0) as [H1 H2 H3 H4]. by split. Qed.

Lemma demo_made :
  match vgicv3_virqchip_init 4 4 0x2f000000 1 64 demo_tr (Some 20) [Some (demo_gicr 7)] true (replicate 10 true) demo_g3 with
  | Some (Some _, _, _) => true | _ => false end = true.
Proof. vm_compute. reflexivity. Qed.

Lemma vgicv3_create_correct_witness :
  exists r oks' w', vgicv3_virqchip_init 4 4 0x2f000000 1 64 demo_tr (Some 20) [Some (demo_gicr 7)] true (replicate 10 true) demo_g3 = Some (r, oks', w')
    /\ vdevs_ok w' /\ r <> None.
Proof.
  destruct (vgicv3_create_correct 4 4 0x2f000000 1 64 demo_tr (Some 20) [Some (demo_gicr 7)] true (replicate 10 true) demo_g3 (demo_vdev_vm 0))
    as (r & oks' & w' & E & Hw & _); [exact demo_g3_ok|reflexivity| |vm_compute; discriminate|by eexists|intros d _; by split| |].
  - split; [reflexivity|reflexivity|]. intros i Hi. cbn in Hi. assert (i = 0) as -> by lia. exists 2, demo_vdev_vcpu. by split_and!.
  - intros i Hi. vm_compute in Hi. injection Hi as <-. unfold info_ok, range_ok. cbn. lia.
  - exists r, oks', w'. split; [exact E|]. split; [exact Hw|]. intros ->.
    pose proof demo_made as H. rewrite E in H. discriminate.
Defined.
