(* ===== verification/Strings.v ===== *)
(** * Numbers, strings and messages (core/string.c, core/print.c, core/bootarg.c)

    A character is its code; a string is the list of its characters, and a
    string in memory ends with the character 0, behind which the model knows
    nothing: reading there is [None], as is an access outside of a buffer.
    What is printed is a list of characters, whether it goes to the console or
    to memory.  [strcmp] and [strlen] come with the compiler. *)
From Stdlib Require Import Ascii.
From stdpp Require Import strings.
From S2P Require Import Prelude.

(** The characters of a literal. *)
Definition chars (s : string) : list Z := map (fun c => Z.of_N (N_of_ascii c)) (String.list_ascii_of_string s).

Definition PRINTF_DEC : Z := 0x0001.
Definition PRINTF_HEX : Z := 0x0002.
Definition PRINTF_OCT : Z := 0x0004.
Definition PRINTF_BIN : Z := 0x0008.
Definition PRINTF_POINTER : Z := 0x0010.
Definition PRINTF_MASK : Z := 0xff.
Definition PRINTF_UNSIGNED : Z := 0x0100.
Definition PRINTF_SIGNED : Z := 0x0200.
Definition PRINTF_LONG : Z := 0x0400.

(** ** Numbers to strings *)

(** The table [hex]. *)
Definition hex (m : Z) : Z := if m <? 10 then 48 + m else 87 + m.

(** [long] as the number it stands for. *)
Definition s64 (x : Z) : Z := if u64 x <? 2 ^ 63 then u64 x else u64 x - 2 ^ 64.

Definition absolute (num : Z) : Z := if 0 <? num then num else s64 (Z.lnot num + 1).

(** [*tmp++ = c]; a character of [tmp_buf] that was not written is [None]. *)
Definition put_tmp (tmp : nat) (c : Z) (buf : list (option Z)) : option (list (option Z)) :=
  if decide (tmp < length buf)%nat then Some (<[tmp := Some c]> buf) else None.

Fixpoint digit_loop (fuel : nat) (bdho num : Z) (tmp : nat) (buf : list (option Z)) : option (list (option Z) * nat * Z) :=
  match fuel with
  | O => None
  | S fuel =>
      let m := num mod bdho in
      let num := num / bdho in
      buf ← put_tmp tmp (hex m) buf;
      if bdho <=? num then digit_loop fuel bdho num (S tmp) buf else Some (buf, S tmp, num)
  end.

(** The characters below [len], the last one first. *)
Fixpoint copy_back (len : nat) (buf : list (option Z)) : option (list Z) :=
  match len with
  | O => Some []
  | S k => c ← mjoin (buf !! k); l ← copy_back k buf; Some (c :: l)
  end.

(** The characters written to [buf]; their number is the result. *)
Definition num_to_str (num b : Z) : option (list Z) :=
  let bdho := if b =? 32 then 16 else b in
  let tmp_buf := replicate 16 (Some 48) ++ replicate 48 None in
  '(tmp_buf, tmp, num) ← digit_loop 65 bdho num 0 tmp_buf;
  '(tmp_buf, tmp) ← (if negb (num =? 0) then buf ← put_tmp tmp (hex num) tmp_buf; Some (buf, S tmp) else Some (tmp_buf, tmp));
  copy_back (if b =? 32 then 16 else tmp) tmp_buf.

(** [xxxtoa], for a type whose values [wrap] makes of the integers; a value is
    sign extended when it is passed on. *)
Definition xxxtoa (wrap : Z -> Z) (num : Z) : option (list Z) :=
  if num <? 0 then l ← num_to_str (u64 (wrap (Z.lnot num + 1))) 10; Some (45 :: l)
  else num_to_str (u64 num) 10.

Definition ltoa (num : Z) := xxxtoa s64 num.
Definition itoa (num : Z) := xxxtoa s32 num.
Definition ultoa (num : Z) := num_to_str num 10.
Definition uitoa (num : Z) := num_to_str (u32 num) 10.
Definition hextoa (num : Z) := num_to_str num 16.
Definition octtoa (num : Z) := num_to_str num 8.
Definition bintoa (num : Z) := num_to_str num 2.
Definition ptoa (num : Z) := num_to_str num 32.

(** The pointer case falls through to a default that does nothing. *)
Definition numbric (num flag : Z) : option (list Z) :=
  let f := Z.land flag PRINTF_MASK in
  if f =? PRINTF_DEC then
    if negb (Z.land flag PRINTF_SIGNED =? 0) then
      if negb (Z.land flag PRINTF_LONG =? 0) then ltoa (s64 num) else itoa (s32 num)
    else if negb (Z.land flag PRINTF_LONG =? 0) then ultoa num else uitoa num
  else if f =? PRINTF_HEX then hextoa num
  else if f =? PRINTF_OCT then octtoa num
  else if f =? PRINTF_BIN then bintoa num
  else if f =? PRINTF_POINTER then ptoa num
  else Some [].

(** ** Formatted output *)
Inductive varg := ANum (n : Z) | AStr (s : list Z).

Definition pad (align : Z) (len : nat) : list Z := replicate (Z.to_nat (align - Z.of_nat len)) 32.

Definition is_digit (ch : Z) : bool := (48 <=? ch) && (ch <=? 57).

(** What a conversion character other than [l] adds to [flag], if it is one of
    the conversions of a number. *)
Definition conv_flag (ch : Z) : option Z :=
  if ch =? 100 then Some (Z.lor PRINTF_DEC PRINTF_SIGNED)
  else if ch =? 112 then Some (Z.lor PRINTF_POINTER PRINTF_UNSIGNED)
  else if ch =? 120 then Some (Z.lor PRINTF_HEX PRINTF_UNSIGNED)
  else if ch =? 117 then Some (Z.lor PRINTF_DEC PRINTF_UNSIGNED)
  else if ch =? 111 then Some (Z.lor PRINTF_DEC PRINTF_SIGNED)
  else None.

Definition print_number (align flag : Z) (args : list varg) : option (list Z * list varg) :=
  match args with
  | ANum n :: args => l ← numbric n flag; Some (pad align (length l) ++ l, args)
  | _ => None
  end.

(** One conversion: the characters behind the percent sign and the optional
    digit.  The result is what is printed, the format behind it and the
    arguments that are left. *)
Definition convert (align : Z) (fmt : list Z) (args : list varg) : option (list Z * list Z * list varg) :=
  ch ← head fmt;
  let digit := if negb (align =? 0) then [48 + align] else [] in
  if ch =? 108 then
    c ← head (tail fmt);
    let rest := tail (tail fmt) in
    if (c =? 100) || (c =? 120) then
      '(out, args) ← print_number align (Z.lor PRINTF_LONG (if c =? 100 then PRINTF_DEC else PRINTF_HEX)) args; Some (out, rest, args)
    else Some ([37] ++ digit ++ [108; c], rest, args)
  else if ch =? 115 then
    match args with
    | AStr s :: args => Some (pad align (length s) ++ s, tail fmt, args)
    | _ => None
    end
  else if ch =? 99 then
    match args with
    | ANum c :: args => Some (pad align 1 ++ [u8 c], tail fmt, args)
    | _ => None
    end
  else
    match conv_flag ch with
    | Some flag => '(out, args) ← print_number align flag args; Some (out, tail fmt, args)
    | None =>
        if ch =? 37 then Some ((if negb (align =? 0) then 37 :: digit else []) ++ [37], tail fmt, args)
        else Some ([37] ++ digit ++ [ch], tail fmt, args)
    end.

(** [fuel] is enough when it is the length of the format. *)
Fixpoint format_loop (fuel : nat) (fmt : list Z) (args : list varg) : option (list Z) :=
  c ← head fmt;
  if c =? 0 then Some []
  else
    match fuel with
    | O => None
    | S fuel =>
        if negb (c =? 37) then out ← format_loop fuel (tail fmt) args; Some (c :: out)
        else
          let fmt := tail fmt in
          d ← head fmt;
          let '(align, fmt) := if is_digit d then (d - 48, tail fmt) else (0, fmt) in
          '(out, fmt, args) ← convert align fmt args;
          rest ← format_loop fuel fmt args;
          Some (out ++ rest)
    end.

(** What is printed; a 0 follows it, which the result does not count. *)
Definition vsprintf (fmt : list Z) (args : list varg) : option (list Z) := format_loop (length fmt) fmt args.

Definition sprintf (str_null : bool) (fmt : list Z) (args : list varg) : option (Z * list Z) :=
  if str_null then Some (- EINVAL, [])
  else out ← vsprintf fmt args; Some (Z.of_nat (length out), out ++ [0]).

(** ** Strings to numbers *)
Definition TOLOWER (x : Z) : Z := Z.lor x 0x20.
Definition isdigit (ch : Z) : bool := (48 <=? ch) && (ch <=? 57).
Definition isxdigit (ch : Z) : bool := isdigit ch || ((97 <=? ch) && (ch <=? 102)).

Fixpoint strtoul_loop (cp : list Z) (base result : Z) : option (Z * list Z) :=
  match cp with
  | [] => None
  | c :: cp' =>
      if isxdigit c then
        let value := u32 (if isdigit c then c - 48 else TOLOWER c - 97 + 10) in
        if base <=? value then Some (result, cp)
        else strtoul_loop cp' base (u64 (result * base + value))
      else Some (result, cp)
  end.

(** The number and the string behind it. *)
Definition strtoul (cp : list Z) (base : Z) : option (Z * list Z) :=
  let base := if base =? 0 then 10 else base in
  cp ← (if base =? 16 then
          c0 ← head cp;
          if c0 =? 48 then c1 ← head (tail cp); Some (if TOLOWER c1 =? 120 then tail (tail cp) else cp)
          else Some cp
        else Some cp);
  strtoul_loop cp base 0.

(** ** Splitting strings *)

(** The token before the first delimiter and the string behind it; at the end of
    the string there is no rest. *)
Fixpoint strsep_loop (s delim : list Z) : option (list Z * option (list Z)) :=
  match s with
  | [] => None
  | c :: s =>
      if c =? 0 then Some ([], None)
      else if bool_decide (c ∈ delim) then Some ([], Some s)
      else '(tok, rest) ← strsep_loop s delim; Some (c :: tok, rest)
  end.

Definition strsep (stringp : option (list Z)) (delim : list Z) : option (option (list Z) * option (list Z)) :=
  match stringp with
  | None => Some (None, None)
  | Some s => '(tok, rest) ← strsep_loop s delim; Some (Some tok, rest)
  end.

(** [src[i]] for [i] below [len]. *)
Definition strncpy (src : list Z) (len : nat) : option (list Z) :=
  if decide (len <= length src)%nat then Some (take len src) else None.

(** ** The log *)

(** [now] is [get_current_time], in nanoseconds.  A buffer of 15 characters. *)
Definition get_print_time (now : Z) : option (list Z) :=
  let us := now / 1000 in
  let second := us / 1000000 in
  let us := us mod 1000000 in
  buf ← uitoa second;
  let len := if 8 <? Z.of_nat (length buf) then 8%nat else length buf in
  let out := replicate (8 - len) 32 ++ take len buf ++ [46] in
  buf ← uitoa us;
  let len := if 6 <? Z.of_nat (length buf) then 6%nat else length buf in
  Some (out ++ replicate (6 - len) 48 ++ take len buf).

Definition print_header (now cpuid tid : Z) : option (list Z) :=
  t ← get_print_time now;
  Some ([91] ++ t ++ [64; cpuid / 10 + 48; cpuid mod 10 + 48; 32; tid / 100 + 48; tid mod 100 / 10 + 48; tid mod 10 + 48; 93; 32]).

(** [None] for [tid] is that no task runs. *)
Definition level_print (print_level level now cpuid : Z) (tid : option Z) (fmt : list Z) (args : list varg) : option (list Z) :=
  if u32 print_level <? u32 level then Some []
  else
    h ← print_header now cpuid (default 0 tid);
    out ← vsprintf fmt args;
    Some (h ++ out ++ [0]).

(** ** Boot arguments *)
Record boot_option := mk_bo {
  bo_name : list Z;
  bo_args : option (list Z);
}.

Definition CMDLINE_SIZE : Z := 511.

(** The strings end with a 0 in [cmdline]; [args] keeps it. *)
Definition bootarg_init_one (str : list Z) (opts : list boot_option) : option (list boot_option) :=
  match str with
  | [] => Some opts
  | c :: _ =>
      if c =? 32 then Some opts
      else '(name, args) ← strsep_loop (str ++ [0]) (chars "="); Some (mk_bo name args :: opts)
  end.

Fixpoint bootargs_loop (fuel : nat) (tmp : option (list Z)) (opts : list boot_option) : option (list boot_option) :=
  match fuel with
  | O => None
  | S fuel =>
      '(tok, tmp) ← strsep tmp (chars " ");
      match tok with
      | None => Some opts
      | Some tok => opts ← bootarg_init_one tok opts; bootargs_loop fuel tmp opts
      end
  end.

Definition bootargs_init (str : list Z) (len : nat) (opts : list boot_option) : option (list boot_option) :=
  let len := if CMDLINE_SIZE <? Z.of_nat len then Z.to_nat CMDLINE_SIZE else len in
  cmdline ← strncpy str len;
  bootargs_loop (len + 2) (Some (cmdline ++ [0])) opts.

(** [parse] gets the arguments of the first option with the name. *)
Definition __get_boot_option {V : Type} (name : list Z) (parse : option (list Z) -> option (Z + V)) (opts : list boot_option) : option (Z + V) :=
  match list_find (fun bo => bo_name bo = name) opts with
  | Some (_, bo) => parse (bo_args bo)
  | None => Some (inl (- ENOENT))
  end.

(** [inl] is the error. *)
Definition __parse_num (wrap : Z -> Z) (base : Z) (args : option (list Z)) : option (Z + Z) :=
  match args with
  | None => Some (inl (- EINVAL))
  | Some s => '(x, _) ← strtoul s base; Some (inr (wrap x))
  end.

Definition bootarg_parse_hex32 (name : list Z) := __get_boot_option name (__parse_num u32 16).
Definition bootarg_parse_hex64 (name : list Z) := __get_boot_option name (__parse_num (fun x => x) 16).
Definition bootarg_parse_uint (name : list Z) := __get_boot_option name (__parse_num u32 10).
Definition bootarg_parse_bool (name : list Z) := __get_boot_option name (fun _ => Some (inr 1)).
Definition bootarg_parse_string (name : list Z) :=
  __get_boot_option name (fun args => match args with None => Some (inl (- EINVAL)) | Some s => Some (inr s) end).

(** ** Positional notation *)

(** The value of digits, the lowest first, and the highest first. *)
Definition le_val (b : Z) (ds : list Z) : Z := foldr (fun d acc => d + b * acc) 0 ds.
Definition be_val (b acc : Z) (ds : list Z) : Z := fold_left (fun acc d => acc * b + d) ds acc.

Definition is_digits (b : Z) (ds : list Z) : Prop := Forall (fun d => 0 <= d < b) ds.

Lemma le_val_cons b d l : le_val b (d :: l) = d + b * le_val b l.
Proof. done. Qed.

Lemma le_val_app b l1 l2 : le_val b (l1 ++ l2) = le_val b l1 + b ^ Z.of_nat (length l1) * le_val b l2.
Proof.
  induction l1 as [|d l IH]; cbn [app length]; [change (le_val b []) with 0; change (Z.of_nat 0) with 0; rewrite Z.pow_0_r; lia|].
  rewrite !le_val_cons, IH, Nat2Z.inj_succ, Z.pow_succ_r by lia. lia.
Qed.

Lemma be_val_rev b ds : be_val b 0 (rev ds) = le_val b ds.
Proof.
  unfold be_val, le_val. rewrite <- (rev_involutive ds) at 2. rewrite fold_left_rev_right with (f := fun d acc => d + b * acc). generalize 0.
  induction (rev ds) as [|d l IH]; intros acc; cbn [fold_left]; [done|]. rewrite <- IH. f_equal. lia.
Qed.

Lemma le_val_bound b ds : 0 < b -> is_digits b ds -> 0 <= le_val b ds < b ^ Z.of_nat (length ds).
Proof.
  intros Hb. induction 1 as [|d l Hd Hl IH]; cbn [length]; [change (Z.of_nat 0) with 0; rewrite Z.pow_0_r; cbn; lia|]. rewrite le_val_cons.
  rewrite Nat2Z.inj_succ, Z.pow_succ_r by lia. nia.
Qed.

(** ** Numbers to strings *)
Lemma put_tmp_spec tmp c buf ds : (tmp < length buf)%nat -> length ds = tmp -> take tmp buf = map Some ds ->
  exists buf', put_tmp tmp c buf = Some buf' /\ length buf' = length buf /\ take (S tmp) buf' = map Some (ds ++ [c]) /\ drop (S tmp) buf' = drop (S tmp) buf.
Proof.
  intros Hl Hd Ht. unfold put_tmp. rewrite decide_True by done. eexists. split; [done|]. rewrite length_insert. split; [done|]. split.
  - rewrite (take_S_r _ tmp (Some c)) by (by apply list_lookup_insert_eq). rewrite take_insert_ge, Ht, map_app by lia. done.
  - by rewrite drop_insert_lt by lia.
Qed.

Lemma pow_div_lt num b k : 2 <= b -> 0 <= num < 2 ^ k -> 1 <= k -> 0 <= num / b < 2 ^ (k - 1).
Proof.
  intros Hb Hn Hk. split; [apply Z.div_pos; lia|]. apply Z.div_lt_upper_bound; [lia|].
  replace k with (Z.succ (k - 1)) in Hn by lia. rewrite Z.pow_succ_r in Hn by lia. nia.
Qed.

Section digits.
Context (b : Z) (Hb : 2 <= b <= 16).

(** After the loop: [ds] are the digits it wrote behind the [ds0] that were there. *)
Definition loop_post (num : Z) (ds0 : list Z) (buf : list (option Z)) (r : list (option Z) * nat * Z) : Prop :=
  let '(buf', tmp', num') := r in
  exists ds, tmp' = (length ds0 + length ds)%nat /\ length buf' = length buf /\ take tmp' buf' = map Some (map hex (ds0 ++ ds))
    /\ drop tmp' buf' = drop tmp' buf /\ is_digits b ds /\ le_val b ds + b ^ Z.of_nat (length ds) * num' = num
    /\ 0 <= num' < b /\ (num' <> 0 -> (tmp' < 64)%nat) /\ (if num <? b then ds = [num] /\ num' = 0 else num' <> 0).

Lemma digit_loop_spec fuel num ds0 buf k :
  length buf = 64%nat -> Z.of_nat (length ds0) + k = 64 -> 1 <= k -> k <= Z.of_nat fuel -> 0 <= num < 2 ^ k ->
  take (length ds0) buf = map Some (map hex ds0) -> exists r, digit_loop fuel b num (length ds0) buf = Some r /\ loop_post num ds0 buf r.
Proof.
  revert num ds0 buf k. induction fuel as [|fuel IH]; intros num ds0 buf k Hl Hk Hk1 Hf Hn Ht; [lia|]. cbn [digit_loop].
  destruct (put_tmp_spec (length ds0) (hex (num mod b)) buf (map hex ds0)) as (buf1 & E & L1 & T1 & D1); [lia|by rewrite length_map|done|].
  rewrite E. cbn [mbind option_bind]. pose proof (pow_div_lt num b k ltac:(lia) Hn Hk1) as Hq.
  pose proof (Z.div_mod num b ltac:(lia)) as Hdm. pose proof (Z.mod_pos_bound num b ltac:(lia)) as Hmb.
  assert (map hex ds0 ++ [hex (num mod b)] = map hex (ds0 ++ [num mod b])) as Em by (by rewrite map_app). rewrite Em in T1.
  destruct (Z.leb_spec b (num / b)) as [Hge|Hlt].
  - assert (2 <= k - 1) as Hk2.
    { destruct (Z.le_gt_cases 2 (k - 1)); [done|]. assert (2 ^ (k - 1) <= 2 ^ 1) by (apply Z.pow_le_mono_r; lia). lia. }
    destruct (IH (num / b) (ds0 ++ [num mod b]) buf1 (k - 1)) as ([[buf2 tmp2] num2] & E2 & ds & H1 & H2 & H3 & H4 & H5 & H6 & H7 & H8 & H9);
      [lia|rewrite length_app; cbn [length]; lia|lia|lia|lia|by rewrite length_app, Nat.add_1_r|].
    rewrite length_app, Nat.add_1_r in E2. rewrite E2. eexists. split; [done|]. rewrite length_app in H1. cbn [length] in H1.
    exists ((num mod b) :: ds). cbn [length]. split; [lia|]. split; [lia|]. split; [by rewrite H3, <- app_assoc|].
    split; [rewrite H4|split; [by constructor|split; [|split; [done|split; [done|]]]]].
    + replace tmp2 with (S (length ds0) + length ds)%nat by lia. rewrite <- !drop_drop. by rewrite D1.
    + rewrite le_val_cons, Nat2Z.inj_succ, Z.pow_succ_r by lia. nia.
    + rewrite (proj2 (Z.ltb_ge num b)) by nia. rewrite (proj2 (Z.ltb_ge _ _)) in H9 by done. done.
  - eexists. split; [done|]. exists [num mod b]. cbn [length]. rewrite Nat.add_1_r. split; [done|]. split; [done|]. split; [done|]. split; [done|].
    split; [by constructor|]. split; [cbn [le_val foldr]; change (Z.of_nat 1) with 1; rewrite Z.pow_1_r; lia|]. split; [lia|]. split.
    + intros Hnz. destruct (decide (S (length ds0) < 64)%nat) as [|Hno]; [done|]. assert (k = 1) as -> by lia. change (2 ^ (1 - 1)) with 1 in Hq. lia.
    + destruct (Z.ltb_spec num b); [|intros H0; apply Z.div_small_iff in H0; lia]. rewrite Z.div_small, Z.mod_small by lia. done.
Qed.

(** The digits of a number: [num] in base [b], without leading zeros. *)
Definition digits_of (num : Z) (ds : list Z) : Prop :=
  is_digits b ds /\ le_val b ds = num /\ (length ds <= 64)%nat /\ (if num <? b then ds = [num] else exists d ds', ds = ds' ++ [d] /\ 0 < d).

(** [tmp_buf] after the digits were written. *)
Lemma digits_written num : 0 <= num < 2 ^ 64 ->
  exists ds buf, ('(tmp_buf, tmp, num) ← digit_loop 65 b num 0 (replicate 16 (Some 48) ++ replicate 48 None);
    (if negb (num =? 0) then buf ← put_tmp tmp (hex num) tmp_buf; Some (buf, S tmp) else Some (tmp_buf, tmp))) = Some (buf, length ds)
    /\ digits_of num ds /\ take (length ds) buf = map Some (map hex ds)
    /\ drop (length ds) buf = drop (length ds) (replicate 16 (Some 48) ++ replicate 48 None).
Proof.
  intros Hn. set (buf0 := replicate 16 (Some 48) ++ replicate 48 None).
  destruct (digit_loop_spec 65 num [] buf0 64) as ([[buf tmp] num'] & E & ds & H1 & H2 & H3 & H4 & H5 & H6 & H7 & H8 & H9); [done|done|lia|lia|done|done|].
  cbn [length] in E. rewrite E. cbn [mbind option_bind]. cbn [length app Nat.add] in H1, H3. subst tmp. destruct (Z.eqb_spec num' 0) as [->|Hnz]; cbn [negb].
  - assert (ds = [num] /\ num < b) as [-> Hlt].
    { destruct (Z.ltb_spec num b); [by destruct H9 as [-> _]|done]. }
    exists [num], buf. split; [done|]. split; [|done]. split; [done|]. split; [cbn [le_val foldr]; lia|]. split; [cbn; lia|]. by rewrite (proj2 (Z.ltb_lt _ _)).
  - destruct (put_tmp_spec (length ds) (hex num') buf (map hex ds)) as (buf' & E' & L' & T' & D'); [rewrite H2; cbn; by apply H8|by rewrite length_map|done|].
    rewrite E'. cbn [mbind option_bind]. exists (ds ++ [num']), buf'. rewrite length_app, Nat.add_1_r. split; [done|].
    assert (b <= num) as Hge by (destruct (Z.ltb_spec num b); [by destruct H9|done]).
    split; [|split; [by rewrite map_app|]].
    + split; [apply Forall_app; split; [done|by constructor]|]. split; [rewrite le_val_app; cbn [le_val foldr]; lia|].
      split; [rewrite length_app; cbn [length]; specialize (H8 Hnz); lia|]. rewrite (proj2 (Z.ltb_ge _ _)) by done. exists num', ds. split; [done|lia].
    + rewrite D'. replace (S (length ds)) with (length ds + 1)%nat by lia. rewrite <- !drop_drop. by rewrite H4.
Qed.
End digits.

Lemma copy_back_spec buf l : take (length l) buf = map Some l -> copy_back (length l) buf = Some (rev l).
Proof.
  revert buf. induction l as [|c l IH] using rev_ind; intros buf Ht; [done|]. rewrite length_app, Nat.add_1_r in *. cbn [copy_back].
  assert (buf !! length l = Some (Some c)) as Hc.
  { rewrite <- (lookup_take_lt buf (S (length l))) by lia. rewrite Ht. rewrite list_lookup_fmap, lookup_app_r, Nat.sub_diag by lia. done. }
  rewrite Hc. cbn [mjoin option_join mbind option_bind]. rewrite IH; [by rewrite rev_app_distr|].
  replace (length l) with (Nat.min (length l) (S (length l))) by lia. rewrite <- take_take, Ht, map_app, take_app_le by (rewrite length_map; lia).
  by rewrite take_ge by (rewrite length_map; lia).
Qed.

Lemma num_to_str_spec b num : 2 <= b <= 16 -> 0 <= num < 2 ^ 64 -> exists ds, num_to_str num b = Some (map hex (rev ds)) /\ digits_of b num ds.
Proof.
  intros Hb Hn. destruct (digits_written b Hb num Hn) as (ds & buf & E & Hd & Ht & _). unfold num_to_str. rewrite (proj2 (Z.eqb_neq b 32)) by lia.
  exists ds. split; [|done]. destruct (digit_loop _ _ _ _ _) as [[[tb tmp] num']|]; [|done]. cbn [mbind option_bind] in *. rewrite E. cbn [mbind option_bind].
  rewrite <- (length_map hex ds) in Ht |- *. rewrite (copy_back_spec buf (map hex ds) Ht). by rewrite map_rev.
Qed.

Lemma map_repl {A B} (f : A -> B) n x : map f (replicate n x) = replicate n (f x).
Proof. induction n as [|n IH]; [done|]. cbn. by rewrite IH. Qed.

(** A pointer has sixteen digits. *)
Lemma ptoa_spec num : 0 <= num < 2 ^ 64 ->
  exists ds, ptoa num = Some (map hex (rev ds)) /\ is_digits 16 ds /\ le_val 16 ds = num /\ length ds = 16%nat.
Proof.
  intros Hn. destruct (digits_written 16 ltac:(lia) num Hn) as (ds & buf & E & (Hd & Hv & _ & Hz) & Ht & Hdr). unfold ptoa, num_to_str. cbn [Z.eqb Pos.eqb].
  assert (length ds <= 16)%nat as Hl.
  { destruct (Z.ltb_spec num 16); [by subst ds; cbn; lia|]. destruct Hz as (d & ds' & -> & Hd0). apply Forall_app in Hd as [Hd1 Hd2]. rewrite le_val_app in Hv. cbn [le_val foldr] in Hv.
    rewrite length_app; cbn [length]. pose proof (le_val_bound 16 ds' ltac:(lia) Hd1). destruct (decide (length ds' <= 15)%nat) as [|Hno]; [lia|].
    assert (16 ^ 16 <= 16 ^ Z.of_nat (length ds')) by (apply Z.pow_le_mono_r; lia). change (16 ^ 16) with (2 ^ 64) in *. nia. }
  exists (ds ++ replicate (16 - length ds) 0). split; [|split; [|split]].
  - destruct (digit_loop _ _ _ _ _) as [[[tb tmp] num']|]; [|done]. cbn [mbind option_bind] in *. rewrite E. cbn [mbind option_bind].
    assert (length (map hex (ds ++ replicate (16 - length ds) 0)) = 16%nat) as Hl16 by (rewrite length_map, length_app, length_replicate; lia).
    rewrite <- Hl16 at 1. rewrite copy_back_spec; [by rewrite map_rev|]. rewrite Hl16. rewrite <- (take_drop (length ds) buf), Ht, Hdr.
    rewrite take_app_ge by (rewrite !length_map; lia). rewrite !length_map, (map_app hex), map_app. f_equal.
    rewrite !map_repl. rewrite drop_app_le by (rewrite length_replicate; lia). rewrite drop_replicate.
    rewrite take_app_le by (rewrite length_replicate; lia). rewrite take_ge by (rewrite length_replicate; lia). done.
  - apply Forall_app. split; [done|]. apply Forall_replicate. lia.
  - rewrite le_val_app, Hv. assert (le_val 16 (replicate (16 - length ds) 0) = 0) as ->; [|lia]. induction (16 - length ds)%nat as [|n IH]; [done|].
    cbn [replicate]. by rewrite le_val_cons, IH.
  - rewrite length_app, length_replicate. lia.
Qed.

(** ** Strings to numbers *)
Lemma hex_facts d : 0 <= d < 16 ->
  isxdigit (hex d) = true /\ u32 (if isdigit (hex d) then hex d - 48 else TOLOWER (hex d) - 97 + 10) = d /\ hex d <> 0 /\ hex d <> 37 /\ (hex d = 48 -> d = 0).
Proof.
  intros Hd. assert (forallb (fun n => let d := Z.of_nat n in isxdigit (hex d) && (u32 (if isdigit (hex d) then hex d - 48 else TOLOWER (hex d) - 97 + 10) =? d)
    && negb (hex d =? 0) && negb (hex d =? 37) && (negb (hex d =? 48) || (d =? 0))) (seq 0 16) = true) as H by (vm_compute; reflexivity).
  rewrite forallb_forall in H. specialize (H (Z.to_nat d) ltac:(apply in_seq; lia)). cbn zeta in H. rewrite Z2Nat.id in H by lia.
  apply andb_true_iff in H as [H H5]. apply andb_true_iff in H as [H H4%negb_true_iff]. apply andb_true_iff in H as [H H3%negb_true_iff]. apply andb_true_iff in H as [H1 H2%Z.eqb_eq].
  apply Z.eqb_neq in H3, H4. split_and!; try done. intros E. rewrite E in H5. by apply Z.eqb_eq in H5.
Qed.

Lemma be_val_mono b acc ds : 1 <= b -> 0 <= acc -> Forall (fun d => 0 <= d) ds -> acc <= be_val b acc ds.
Proof.
  intros Hb Ha Hd. revert acc Ha. induction Hd as [|d l H0 _ IH]; intros acc Ha; cbn [be_val fold_left]; [lia|]. fold (be_val b (acc * b + d) l).
  specialize (IH (acc * b + d) ltac:(nia)). nia.
Qed.

Lemma strtoul_loop_digits b acc ds c rest : 2 <= b <= 16 -> 0 <= acc -> is_digits b ds -> be_val b acc ds < 2 ^ 64 -> isxdigit c = false ->
  strtoul_loop (map hex ds ++ c :: rest) b acc = Some (be_val b acc ds, c :: rest).
Proof.
  intros Hb Ha Hd Hlt Hc. revert acc Ha Hlt. induction Hd as [|d l H0 Hl IH]; intros acc Ha Hlt; cbn [map app strtoul_loop]; [by rewrite Hc|].
  destruct (hex_facts d ltac:(lia)) as (E1 & E2 & _). rewrite E1, E2, (proj2 (Z.leb_gt _ _)) by lia. change (be_val b acc (d :: l)) with (be_val b (acc * b + d) l) in *.
  assert (acc * b + d <= be_val b (acc * b + d) l) by (apply be_val_mono; [lia|nia|apply (list.Forall_impl _ _ _ Hl); cbn; lia]).
  rewrite u64_small by nia. apply IH; [nia|done].
Qed.

Lemma digits_nonempty b num ds : digits_of b num ds -> ds <> [].
Proof. intros (_ & _ & _ & Hz) ->. destruct (num <? b); [done|]. destruct Hz as (d & [|] & E & _); done. Qed.

(** Printing a number and reading it back gives the number: for every base from
    2 to 16 and every 64 bit number, whatever character that is no digit follows. *)
Theorem strtoul_roundtrip num b c rest :
  2 <= b <= 16 -> 0 <= num < 2 ^ 64 -> isxdigit c = false -> TOLOWER c <> 120 ->
  exists s, num_to_str num b = Some s /\ strtoul (s ++ c :: rest) b = Some (num, c :: rest).
Proof.
  intros Hb Hn Hc Hx. destruct (num_to_str_spec b num Hb Hn) as (ds & E & Hdo). pose proof (digits_nonempty b num ds Hdo) as Hne. destruct Hdo as (Hd & Hv & _ & Hz). exists (map hex (rev ds)). split; [done|].
  assert (is_digits b (rev ds)) as Hdr by (by apply Forall_rev).
  assert (strtoul_loop (map hex (rev ds) ++ c :: rest) b 0 = Some (num, c :: rest)) as El.
  { rewrite <- Hv, <- be_val_rev. apply strtoul_loop_digits; try done. rewrite be_val_rev. lia. }
  unfold strtoul. rewrite (proj2 (Z.eqb_neq b 0)) by lia. destruct (Z.eqb_spec b 16) as [->|]; [|done].
  destruct (rev ds) as [|d l] eqn:Er; [exfalso; apply (f_equal (@rev Z)) in Er; rewrite rev_involutive in Er; by apply Hne|].
  cbn [map app head mbind option_bind]. destruct (Z.eqb_spec (hex d) 48) as [E0|]; [|done].
  pose proof (Forall_inv Hdr) as Hd0. cbn in Hd0. destruct (hex_facts d Hd0) as (_ & _ & _ & _ & H48). specialize (H48 E0) as ->.
  assert (num < 16) as Hlt.
  { destruct (Z.ltb_spec num 16); [done|]. destruct Hz as (d & ds' & -> & Hpos). rewrite rev_app_distr in Er. cbn in Er. injection Er as -> _. lia. }
  rewrite (proj2 (Z.ltb_lt _ _)) in Hz by done. subst ds. cbn in Er. injection Er as -> <-. cbn [map app head tail mbind option_bind]. by rewrite (proj2 (Z.eqb_neq _ _) Hx).
Qed.

(** ** Signed numbers *)
Lemma lnot_succ n : Z.lnot n + 1 = - n.
Proof. unfold Z.lnot. lia. Qed.

Lemma s64_small n : - 2 ^ 63 <= n < 2 ^ 63 -> s64 n = n.
Proof.
  intros Hn. unfold s64, u64. destruct (Z.le_gt_cases 0 n).
  - rewrite Z.mod_small by lia. by rewrite (proj2 (Z.ltb_lt _ _)) by lia.
  - replace (n mod 2 ^ 64) with (n + 2 ^ 64) by (rewrite <- (Z.mod_add n 1), Z.mul_1_l, Z.mod_small by lia; lia).
    rewrite (proj2 (Z.ltb_ge _ _)) by lia. lia.
Qed.

Lemma s32_small n : - 2 ^ 31 <= n < 2 ^ 31 -> s32 n = n.
Proof. intros Hn. unfold s32. rewrite Z.mod_small by lia. lia. Qed.

(** *** Positional notation

    The numeral of [n] with [k] digits in base [b]: the digit at place [i] is
    what is left of [n / b ^ i] below [b], and the highest place comes first.
    The numeral of [n] alone has as many digits as there are powers of [b] up
    to [n], and at least one. *)
Definition numeral_char (d : Z) : Z := nth (Z.to_nat d) (chars "0123456789abcdef") 0.
Definition numeral (b : Z) (k : nat) (n : Z) : list Z := map (fun i => numeral_char ((n / b ^ Z.of_nat i) mod b)) (rev (seq 0 k)).
Definition places (b n : Z) : nat := S (length (filter (fun k => b ^ Z.of_nat k <= n) (seq 1 64))).
Definition text_of (b n : Z) : list Z := numeral b (places b n) n.
Definition decimal (n : Z) : list Z := (if n <? 0 then chars "-" else []) ++ text_of 10 (Z.abs n).

Lemma hex_char d : 0 <= d < 16 -> hex d = numeral_char d.
Proof.
  intros Hd. assert (forallb (fun i => hex (Z.of_nat i) =? numeral_char (Z.of_nat i)) (seq 0 16) = true) as H by (vm_compute; reflexivity).
  rewrite forallb_forall in H. specialize (H (Z.to_nat d) ltac:(apply in_seq; lia)). apply Z.eqb_eq in H. by rewrite Z2Nat.id in H by lia.
Qed.

Lemma digits_at b ds : 2 <= b -> is_digits b ds -> ds = map (fun i => (le_val b ds / b ^ Z.of_nat i) mod b) (seq 0 (length ds)).
Proof.
  intros Hb Hd. induction Hd as [|d l H0 Hl IH]; [done|]. cbn [length seq map]. rewrite le_val_cons. f_equal.
  - change (b ^ Z.of_nat 0) with 1. rewrite Z.div_1_r, Z.mul_comm, Z.mod_add, Z.mod_small by lia. done.
  - rewrite <- seq_shift, map_map. rewrite IH at 1. apply map_ext. intros i. rewrite Nat2Z.inj_succ, Z.pow_succ_r by lia. rewrite <- Z.div_div by lia.
    by rewrite Z.mul_comm, Z.div_add, (Z.div_small d b), Z.add_0_l by lia.
Qed.

Lemma digits_numeral b ds : 2 <= b <= 16 -> is_digits b ds -> map hex (rev ds) = numeral b (length ds) (le_val b ds).
Proof.
  intros Hb Hd. unfold numeral. rewrite (digits_at b ds ltac:(lia) Hd) at 1. rewrite <- map_rev, map_map. apply map_ext. intros i. apply hex_char.
  pose proof (Z.mod_pos_bound (le_val b ds / b ^ Z.of_nat i) b ltac:(lia)). lia.
Qed.

Lemma filter_keeps {A} (P : A -> Prop) `{!forall x, Decision (P x)} (l : list A) : (forall x, x ∈ l -> P x) -> filter P l = l.
Proof. induction l as [|x l IH]; intros Hp; [done|]. rewrite filter_cons_True by (apply Hp; left). by rewrite IH by (intros y Hy; apply Hp; by right). Qed.

Lemma filter_drops {A} (P : A -> Prop) `{!forall x, Decision (P x)} (l : list A) : (forall x, x ∈ l -> ~ P x) -> filter P l = [].
Proof. induction l as [|x l IH]; intros Hp; [done|]. rewrite filter_cons_False by (apply Hp; left). by rewrite IH by (intros y Hy; apply Hp; by right). Qed.

Lemma digits_places b num ds : 2 <= b -> 0 <= num -> digits_of b num ds -> length ds = places b num.
Proof.
  intros Hb Hn (Hd & Hv & Hl & Hz). unfold places. assert (exists k, length ds = S k /\ num < b ^ Z.of_nat (S k) /\ ((1 <= k)%nat -> b ^ Z.of_nat k <= num)) as (k & El & Hhi & Hlo).
  { destruct (Z.ltb_spec num b) as [Hlt|Hge].
    - subst ds. exists 0%nat. split; [done|]. change (b ^ Z.of_nat 1) with (b ^ 1). rewrite Z.pow_1_r. split; [done|lia].
    - destruct Hz as (d & ds' & -> & Hd0). exists (length ds'). rewrite length_app, Nat.add_1_r. split; [done|].
      pose proof (le_val_bound b _ ltac:(lia) Hd) as Hb1. rewrite length_app, Nat.add_1_r, Hv in Hb1. split; [lia|]. intros _.
      apply Forall_app in Hd as [Hd1 _]. rewrite le_val_app in Hv. change (le_val b [d]) with (d + b * 0) in Hv. pose proof (le_val_bound b ds' ltac:(lia) Hd1).
      assert (0 < b ^ Z.of_nat (length ds')) by (apply Z.pow_pos_nonneg; lia). nia. }
  rewrite El in *. f_equal. replace 64%nat with (k + (64 - k))%nat by lia. rewrite seq_app, list.filter_app.
  rewrite filter_keeps, filter_drops; [by rewrite app_nil_r, length_seq|..]; intros i Hi%list_elem_of_In%in_seq.
  - apply Z.lt_nge. eapply Z.lt_le_trans; [exact Hhi|]. apply Z.pow_le_mono_r; lia.
  - etrans; [|apply Hlo; lia]. apply Z.pow_le_mono_r; lia.
Qed.

(** What the program writes is the numeral. *)
Lemma num_to_str_text b num : 2 <= b <= 16 -> 0 <= num < 2 ^ 64 -> num_to_str num b = Some (text_of b num).
Proof.
  intros Hb Hn. destruct (num_to_str_spec b num Hb Hn) as (ds & E & Hd). rewrite E. f_equal. unfold text_of. rewrite <- (digits_places b num ds) by (done || lia).
  destruct Hd as (Hd & <- & _). by apply digits_numeral.
Qed.

Lemma ptoa_text num : 0 <= num < 2 ^ 64 -> ptoa num = Some (numeral 16 16 num).
Proof. intros Hn. destruct (ptoa_spec num Hn) as (ds & E & Hd & <- & Hl). rewrite E, (digits_numeral 16 ds) by (done || lia). by rewrite Hl. Qed.

Lemma decimal_nonneg n : 0 <= n -> decimal n = text_of 10 n.
Proof. intros Hn. unfold decimal. by rewrite (proj2 (Z.ltb_ge _ _)), Z.abs_eq by lia. Qed.

Lemma decimal_neg n : n < 0 -> decimal n = 45 :: text_of 10 (- n).
Proof. intros Hn. unfold decimal. by rewrite (proj2 (Z.ltb_lt _ _)), Z.abs_neq by lia. Qed.

(** A [long] is printed with its sign, also the smallest one. *)
Theorem ltoa_correct n : - 2 ^ 63 <= n < 2 ^ 63 -> ltoa n = Some (decimal n).
Proof.
  intros Hn. unfold ltoa, xxxtoa. rewrite lnot_succ. destruct (Z.ltb_spec n 0).
  - assert (u64 (s64 (- n)) = - n) as ->; [|by rewrite (num_to_str_text 10 (- n)), decimal_neg by lia].
    destruct (Z.eq_dec n (- 2 ^ 63)) as [->|]; [reflexivity|]. rewrite s64_small, u64_small by lia. done.
  - by rewrite u64_small, (num_to_str_text 10 n), decimal_nonneg by lia.
Qed.

(** An [int] is printed with its sign unless it is the smallest one. *)
Theorem itoa_correct n : - 2 ^ 31 < n < 2 ^ 31 -> itoa n = Some (decimal n).
Proof.
  intros Hn. unfold itoa, xxxtoa. rewrite lnot_succ. destruct (Z.ltb_spec n 0).
  - rewrite s32_small, u64_small by lia. by rewrite (num_to_str_text 10 (- n)), decimal_neg by lia.
  - by rewrite u64_small, (num_to_str_text 10 n), decimal_nonneg by lia.
Qed.

(** The smallest [int] is printed as -18446744071562067968. *)
Theorem itoa_int_min : itoa (- 2 ^ 31) = Some (chars "-18446744071562067968").
Proof. vm_compute. reflexivity. Qed.

(** ** Formatted output *)

(** The conversions, with their argument and the text they stand for: [%d] and
    [%ld] are the signed values of 32 and 64 bits, [%u] the unsigned one of 32
    bits, [%x] and [%lx] all 64 bits, [%p] its sixteen digits. *)
Inductive conv := Cd (n : Z) | Cu (n : Z) | Cx (n : Z) | Cp (n : Z) | Cld (n : Z) | Clx (n : Z) | Cs (s : list Z) | Cc (c : Z).
Inductive directive := Lit (c : Z) | Percent | Conv (align : Z) (k : conv).

Definition conv_chars (k : conv) : list Z :=
  chars (match k with Cd _ => "d" | Cu _ => "u" | Cx _ => "x" | Cp _ => "p" | Cld _ => "ld" | Clx _ => "lx" | Cs _ => "s" | Cc _ => "c" end).
Definition conv_arg (k : conv) : varg :=
  match k with Cd n | Cu n | Cx n | Cp n | Cld n | Clx n => ANum n | Cs s => AStr s | Cc c => ANum c end.
Definition conv_text (k : conv) : list Z :=
  match k with
  | Cd n => decimal (s32 n)
  | Cu n => decimal (u32 n)
  | Cld n => decimal (s64 n)
  | Cx n | Clx n => text_of 16 n
  | Cp n => numeral 16 16 n
  | Cs s => s
  | Cc c => [u8 c]
  end.

Definition dir_chars (d : directive) : list Z :=
  match d with Lit c => [c] | Percent => [37; 37] | Conv a k => 37 :: (if a =? 0 then [] else [48 + a]) ++ conv_chars k end.
Definition dir_args (d : directive) : list varg := match d with Conv _ k => [conv_arg k] | _ => [] end.
Definition dir_text (d : directive) : list Z :=
  match d with Lit c => [c] | Percent => [37] | Conv a k => replicate (Z.to_nat a - length (conv_text k)) 32 ++ conv_text k end.

(** Left out are the smallest [int] and the negative [long]s, which the program
    prints wrongly ([itoa_int_min], [ld_is_unsigned]). *)
Definition conv_ok (k : conv) : Prop :=
  match k with
  | Cd n => 0 <= n < 2 ^ 64 /\ s32 n <> - 2 ^ 31
  | Cld n => 0 <= n < 2 ^ 63
  | Cu n | Cx n | Cp n | Clx n => 0 <= n < 2 ^ 64
  | _ => True
  end.
Definition dir_ok (d : directive) : Prop :=
  match d with Lit c => c <> 0 /\ c <> 37 | Percent => True | Conv a k => 0 <= a <= 9 /\ conv_ok k end.

Lemma s32_range n : - 2 ^ 31 <= s32 n < 2 ^ 31.
Proof. unfold s32. pose proof (Z.mod_pos_bound (n + 2 ^ 31) (2 ^ 32) ltac:(lia)). lia. Qed.

Lemma convert_spec a k rest args : conv_ok k ->
  convert a (conv_chars k ++ rest) (conv_arg k :: args) = Some (pad a (length (conv_text k)) ++ conv_text k, rest, args).
Proof.
  destruct k as [n|n|n|n|n|n|s|c]; intros Hk; cbn [conv_ok] in Hk; cbn [conv_arg conv_text].
  - change (convert a (conv_chars (Cd n) ++ rest) (ANum n :: args)) with ('(out, args) ← print_number a (Z.lor PRINTF_DEC PRINTF_SIGNED) (ANum n :: args); Some (out, rest, args)).
    cbn [print_number]. change (numbric n (Z.lor PRINTF_DEC PRINTF_SIGNED)) with (itoa (s32 n)). rewrite itoa_correct; [done|]. pose proof (s32_range n). lia.
  - change (convert a (conv_chars (Cu n) ++ rest) (ANum n :: args)) with ('(out, args) ← print_number a (Z.lor PRINTF_DEC PRINTF_UNSIGNED) (ANum n :: args); Some (out, rest, args)).
    cbn [print_number]. change (numbric n (Z.lor PRINTF_DEC PRINTF_UNSIGNED)) with (num_to_str (u32 n) 10).
    assert (0 <= u32 n < 2 ^ 32) by (apply Z.mod_pos_bound; lia). rewrite decimal_nonneg, (num_to_str_text 10 (u32 n)) by lia. done.
  - change (convert a (conv_chars (Cx n) ++ rest) (ANum n :: args)) with ('(out, args) ← print_number a (Z.lor PRINTF_HEX PRINTF_UNSIGNED) (ANum n :: args); Some (out, rest, args)).
    cbn [print_number]. change (numbric n (Z.lor PRINTF_HEX PRINTF_UNSIGNED)) with (num_to_str n 16). by rewrite (num_to_str_text 16 n) by lia.
  - change (convert a (conv_chars (Cp n) ++ rest) (ANum n :: args)) with ('(out, args) ← print_number a (Z.lor PRINTF_POINTER PRINTF_UNSIGNED) (ANum n :: args); Some (out, rest, args)).
    cbn [print_number]. change (numbric n (Z.lor PRINTF_POINTER PRINTF_UNSIGNED)) with (ptoa n). by rewrite (ptoa_text n Hk).
  - change (convert a (conv_chars (Cld n) ++ rest) (ANum n :: args)) with ('(out, args) ← print_number a (Z.lor PRINTF_LONG PRINTF_DEC) (ANum n :: args); Some (out, rest, args)).
    cbn [print_number]. change (numbric n (Z.lor PRINTF_LONG PRINTF_DEC)) with (num_to_str n 10). rewrite s64_small, decimal_nonneg, (num_to_str_text 10 n) by lia. done.
  - change (convert a (conv_chars (Clx n) ++ rest) (ANum n :: args)) with ('(out, args) ← print_number a (Z.lor PRINTF_LONG PRINTF_HEX) (ANum n :: args); Some (out, rest, args)).
    cbn [print_number]. change (numbric n (Z.lor PRINTF_LONG PRINTF_HEX)) with (num_to_str n 16). by rewrite (num_to_str_text 16 n) by lia.
  - done.
  - done.
Qed.

Lemma pad_spaces a n : 0 <= a -> pad a n = replicate (Z.to_nat a - n) 32.
Proof. intros Ha. unfold pad. f_equal. lia. Qed.

Lemma conv_chars_head k : exists c l, conv_chars k = c :: l /\ is_digit c = false.
Proof. destruct k; eexists _, _; (split; [reflexivity|reflexivity]). Qed.

Lemma format_loop_spec ds fuel : (length ds <= fuel)%nat -> Forall dir_ok ds ->
  format_loop fuel (concat (map dir_chars ds) ++ [0]) (concat (map dir_args ds)) = Some (concat (map dir_text ds)).
Proof.
  intros Hf Hd. revert fuel Hf. induction Hd as [|d ds Hok _ IH]; intros fuel Hf; [by destruct fuel|]. cbn [length] in Hf. destruct fuel as [|fuel]; [lia|].
  specialize (IH fuel ltac:(lia)). assert (forall a k, 0 <= a <= 9 -> replicate (Z.to_nat a - length (conv_text k)) 32 = pad a (length (conv_text k))) as Hpad by (intros; by rewrite pad_spaces by lia). cbn [map concat]. rewrite <- app_assoc. set (fmt := concat (map dir_chars ds) ++ [0]) in *.
  destruct d as [c| |a k]; cbn [dir_ok dir_chars dir_args dir_text] in *.
  - cbn [app]. cbn [format_loop head mbind option_bind tail]. destruct Hok as [H0 H37]. rewrite (proj2 (Z.eqb_neq _ _) H0), (proj2 (Z.eqb_neq _ _) H37). cbn [negb]. by rewrite IH.
  - change (format_loop (S fuel) ([37; 37] ++ fmt) ([] ++ concat (map dir_args ds))) with (rest ← format_loop fuel fmt (concat (map dir_args ds)); Some ([37] ++ rest)). by rewrite IH.
  - destruct Hok as [Ha Hk]. rewrite Hpad by done. destruct (conv_chars_head k) as (c & l & Ek & Hc). cbn [app].
    assert (forall x, format_loop (S fuel) (37 :: x) (conv_arg k :: concat (map dir_args ds)) = (d ← head x;
      let '(align, fmt) := if is_digit d then (d - 48, tail x) else (0, x) in
      '(out, fmt, args) ← convert align fmt (conv_arg k :: concat (map dir_args ds)); rest ← format_loop fuel fmt args; Some (out ++ rest))) as Estep by reflexivity.
    rewrite Estep. destruct (Z.eqb_spec a 0) as [->|Hnz].
    + cbn [app]. rewrite Ek. cbn [app head mbind option_bind]. rewrite Hc. change (c :: l ++ fmt) with ((c :: l) ++ fmt). rewrite <- Ek, convert_spec by done. cbn [mbind option_bind]. by rewrite IH.
    + cbn [app head mbind option_bind]. assert (is_digit (48 + a) = true) as ->.
      { unfold is_digit. rewrite (proj2 (Z.leb_le _ _)), (proj2 (Z.leb_le _ _)) by lia. done. }
      cbn [tail]. replace (48 + a - 48) with a by lia. rewrite convert_spec by done. cbn [mbind option_bind]. by rewrite IH.
Qed.

(** C40: formatted output means what the format says: a format made of text, escaped
    percent signs and the conversions [%d], [%u], [%x], [%p], [%ld], [%lx],
    [%s] and [%c], with a width of one digit or none, and the arguments the
    conversions call for, prints the text of each of them in order, right
    aligned to its width.  The text of a number is its numeral in positional
    notation.  Left out are the smallest [int] for [%d] and negative numbers
    for [%ld]; [%o] is no conversion of this list. *)
Theorem vsprintf_correct ds : Forall dir_ok ds ->
  vsprintf (concat (map dir_chars ds) ++ [0]) (concat (map dir_args ds)) = Some (concat (map dir_text ds)).
Proof.
  intros Hd. apply format_loop_spec; [|done]. rewrite length_app. cbn [length]. assert (length ds <= length (concat (map dir_chars ds)))%nat; [|lia]. clear Hd.
  induction ds as [|d ds IH]; [done|]. cbn [map concat length]. rewrite length_app. assert (1 <= length (dir_chars d))%nat; [|lia].
  destruct d; cbn; lia.
Qed.

(** [%ld] prints a negative number as an unsigned one. *)
Theorem ld_is_unsigned : vsprintf (chars "%ld" ++ [0]) [ANum (u64 (-1))] = Some (chars "18446744073709551615").
Proof. vm_compute. reflexivity. Qed.

(** [%o] is decimal. *)
Theorem octal_is_decimal : vsprintf (chars "%o" ++ [0]) [ANum 8] = Some (chars "8").
Proof. vm_compute. reflexivity. Qed.

(** A format that ends with a percent sign is read past its end. *)
Theorem percent_at_end : vsprintf (chars "100%" ++ [0]) [] = None.
Proof. vm_compute. reflexivity. Qed.

(** ** The time in the log *)
Lemma digits_length b num ds k : 2 <= b -> digits_of b num ds -> (1 <= k)%nat -> num < b ^ Z.of_nat k -> (length ds <= k)%nat.
Proof.
  intros Hb (Hd & Hv & _ & Hz) Hk Hn. destruct (Z.ltb_spec num b); [subst ds; cbn; lia|]. destruct Hz as (d & ds' & -> & Hd0).
  apply Forall_app in Hd as [Hd1 _]. rewrite le_val_app in Hv. change (le_val b [d]) with (d + b * 0) in Hv. rewrite length_app; cbn [length].
  pose proof (le_val_bound b ds' ltac:(lia) Hd1). destruct (decide (length ds' < k)%nat) as [|Hno]; [lia|].
  assert (b ^ Z.of_nat k <= b ^ Z.of_nat (length ds')) by (apply Z.pow_le_mono_r; lia). nia.
Qed.

Lemma rev_zeros b l n : be_val b 0 (replicate n 0 ++ l) = be_val b 0 l.
Proof. induction n as [|n IH]; [done|]. cbn [replicate app]. change (be_val b 0 (0 :: replicate n 0 ++ l)) with (be_val b (0 * b + 0) (replicate n 0 ++ l)). by rewrite Z.mul_0_l. Qed.

(** The time stamp of a message is 15 characters wide: the seconds, in decimal and
    right aligned, a point, and the six digits of the microseconds, for the first
    three years after the start. *)
Theorem get_print_time_correct now : 0 <= now < 10 ^ 17 ->
  exists t sec us, get_print_time now = Some t /\ t = replicate (8 - length sec) 32 ++ map hex sec ++ [46] ++ map hex us
    /\ length t = 15%nat /\ length us = 6%nat /\ is_digits 10 sec /\ is_digits 10 us
    /\ be_val 10 0 sec = now / 10 ^ 9 /\ be_val 10 0 us = now / 1000 mod 10 ^ 6.
Proof.
  intros Hn. unfold get_print_time, uitoa. assert (0 <= now / 1000 / 1000000 < 10 ^ 8) as Hs.
  { rewrite Z.div_div by lia. split; [apply Z.div_pos; lia|]. apply Z.div_lt_upper_bound; lia. }
  pose proof (Z.mod_pos_bound (now / 1000) 1000000 ltac:(lia)) as Hu.
  rewrite !u32_small by lia. destruct (num_to_str_spec 10 (now / 1000 / 1000000)) as (ds & E1 & D1); [lia|lia|].
  destruct (num_to_str_spec 10 ((now / 1000) mod 1000000)) as (du & E2 & D2); [lia|lia|]. rewrite E1. cbn [mbind option_bind]. rewrite E2. cbn [mbind option_bind].
  pose proof (digits_length 10 _ ds 8 ltac:(lia) D1 ltac:(lia) ltac:(lia)) as L1. pose proof (digits_length 10 _ du 6 ltac:(lia) D2 ltac:(lia) ltac:(cbn; lia)) as L2.
  rewrite !length_map, !length_rev. rewrite (proj2 (Z.ltb_ge 8 _)), (proj2 (Z.ltb_ge 6 _)) by lia.
  rewrite !take_ge by (rewrite length_map, length_rev; lia). destruct D1 as (A1 & A2 & _). destruct D2 as (B1 & B2 & _).
  eexists _, (rev ds), (replicate (6 - length du) 0 ++ rev du). split; [done|].
  assert (is_digits 10 (rev ds)) by (by apply Forall_rev). assert (is_digits 10 (rev du)) by (by apply Forall_rev).
  split; [|split; [|split; [|split; [done|split; [|split]]]]].
  - rewrite length_rev, map_app, map_repl, <- !app_assoc. done.
  - rewrite !length_app, !length_replicate, !length_map, !length_rev. cbn [length]. lia.
  - rewrite length_app, length_replicate, length_rev. lia.
  - apply Forall_app. split; [apply Forall_replicate; lia|done].
  - rewrite be_val_rev, A2, Z.div_div by lia. done.
  - rewrite rev_zeros, be_val_rev, B2. done.
Qed.

(** ** Boot arguments *)
Lemma strsep_loop_spec tok c rest delim : 0 ∉ tok -> (forall x, x ∈ tok -> x ∉ delim) -> c <> 0 -> c ∈ delim ->
  strsep_loop (tok ++ c :: rest) delim = Some (tok, Some rest).
Proof.
  intros H0 Hd Hc Hin. induction tok as [|x tok IH]; cbn [app strsep_loop].
  - by rewrite (proj2 (Z.eqb_neq _ _) Hc), bool_decide_eq_true_2.
  - rewrite not_elem_of_cons in H0. destruct H0 as [Hx H0]. rewrite (proj2 (Z.eqb_neq x 0)) by congruence.
    rewrite bool_decide_eq_false_2 by (apply Hd, elem_of_cons; by left). rewrite IH; [done|done|]. intros y Hy. apply Hd, elem_of_cons. by right.
Qed.

Lemma strsep_loop_end tok rest delim : 0 ∉ tok -> (forall x, x ∈ tok -> x ∉ delim) -> strsep_loop (tok ++ 0 :: rest) delim = Some (tok, None).
Proof.
  intros H0 Hd. induction tok as [|x tok IH]; cbn [app strsep_loop]; [done|]. rewrite not_elem_of_cons in H0. destruct H0 as [Hx H0]. rewrite (proj2 (Z.eqb_neq x 0)) by congruence.
  rewrite bool_decide_eq_false_2 by (apply Hd, elem_of_cons; by left). rewrite IH; [done|done|]. intros y Hy. apply Hd, elem_of_cons. by right.
Qed.

(** An option as it is written, and the command line of a list of them. *)
Definition opt_text (o : boot_option) : list Z := bo_name o ++ match bo_args o with Some a => 61 :: a | None => [] end.
Fixpoint cmdline_of (l : list boot_option) : list Z :=
  match l with
  | [] => []
  | [o] => opt_text o
  | o :: l => opt_text o ++ 32 :: cmdline_of l
  end.

(** A name is not empty and has no space, no equal sign and no 0; an argument has no space and no 0. *)
Definition opt_ok (o : boot_option) : Prop :=
  bo_name o <> [] /\ Forall (fun c => c <> 0 /\ c <> 32 /\ c <> 61) (bo_name o) /\ Forall (fun c => c <> 0 /\ c <> 32) (default [] (bo_args o)).

(** As it is stored: the argument ends with a 0. *)
Definition stored (o : boot_option) : boot_option := mk_bo (bo_name o) ((fun a => a ++ [0]) <$> bo_args o).

Lemma bootarg_init_one_spec o opts : opt_ok o -> bootarg_init_one (opt_text o) opts = Some (stored o :: opts).
Proof.
  intros (Hne & Hn & Ha). destruct o as [name args]; cbn [bo_name bo_args] in *. unfold opt_text, stored; cbn [bo_name bo_args].
  destruct name as [|c name]; [done|]. unfold bootarg_init_one. cbn [app]. pose proof (Forall_inv Hn) as (_ & H32 & _). rewrite (proj2 (Z.eqb_neq _ _) H32).
  change (c :: name ++ match args with Some a => 61 :: a | None => [] end) with ((c :: name) ++ match args with Some a => 61 :: a | None => [] end). rewrite <- app_assoc.
  rewrite list.Forall_forall in Hn. assert (0 ∉ (c :: name)) as H0 by (intros H; by destruct (Hn _ H)).
  assert (forall x, x ∈ c :: name -> x ∉ chars "=") as Heq by (intros x Hx Hin%list_elem_of_singleton; destruct (Hn _ Hx) as (_ & _ & ?); by subst x).
  destruct args as [a|]; cbn [fmap option_fmap option_map].
  - change ((61 :: a) ++ [0]) with (61 :: (a ++ [0])). change (c :: name ++ 61 :: a ++ [0]) with ((c :: name) ++ 61 :: (a ++ [0])).
    rewrite strsep_loop_spec; [done|done|done|done|]. by apply list_elem_of_singleton.
  - change (c :: name ++ [] ++ [0]) with ((c :: name) ++ 0 :: []). by rewrite strsep_loop_end.
Qed.

Lemma opt_text_token o x : opt_ok o -> x ∈ opt_text o -> x <> 0 /\ x <> 32.
Proof.
  intros (_ & Hn & Ha). rewrite list.Forall_forall in Hn. rewrite list.Forall_forall in Ha. unfold opt_text. rewrite elem_of_app. intros [H|H]; [destruct (Hn _ H); tauto|].
  destruct (bo_args o) as [a|]; [|by apply elem_of_nil in H]. apply elem_of_cons in H as [->|H]; [done|by apply Ha].
Qed.

Lemma bootargs_loop_spec l o fuel opts : (length (o :: l) + 1 <= fuel)%nat -> Forall opt_ok (o :: l) ->
  bootargs_loop fuel (Some (cmdline_of (o :: l) ++ [0])) opts = Some (rev (map stored (o :: l)) ++ opts).
Proof.
  revert o fuel opts. induction l as [|o2 l IH]; intros o fuel opts Hf Hl; cbn [length] in Hf; (destruct fuel as [|fuel]; [lia|]); cbn [bootargs_loop];
    pose proof (Forall_inv Hl) as Ho; assert (0 ∉ opt_text o) as H0 by (intros H; by destruct (opt_text_token o 0 Ho H));
    assert (forall x, x ∈ opt_text o -> x ∉ chars " ") as Hsp by (intros x Hx Hin%list_elem_of_singleton; destruct (opt_text_token o x Ho Hx); by subst x).
  - cbn [cmdline_of]. unfold strsep. rewrite strsep_loop_end by done. cbn [mbind option_bind]. rewrite bootarg_init_one_spec by done. cbn [mbind option_bind].
    destruct fuel as [|fuel]; [lia|]. done.
  - change (cmdline_of (o :: o2 :: l)) with (opt_text o ++ 32 :: cmdline_of (o2 :: l)). rewrite <- app_assoc. cbn [app]. unfold strsep.
    rewrite strsep_loop_spec by (done || by apply list_elem_of_singleton). cbn [mbind option_bind]. rewrite bootarg_init_one_spec by done. cbn [mbind option_bind].
    rewrite IH by (cbn [length]; lia || by apply Forall_inv_tail in Hl). cbn [map rev]. by rewrite <- !app_assoc.
Qed.

Lemma cmdline_length l : Forall opt_ok l -> (length l <= length (cmdline_of l))%nat.
Proof.
  induction l as [|o l IH]; intros Hl; [done|]. pose proof (Forall_inv Hl) as (Hne & _). assert (1 <= length (opt_text o))%nat.
  { unfold opt_text. rewrite length_app. destruct (bo_name o); [done|]. cbn. lia. }
  apply Forall_inv_tail in Hl. specialize (IH Hl). destruct l as [|o2 l]; [cbn [length cmdline_of] in *; lia|].
  change (cmdline_of (o :: o2 :: l)) with (opt_text o ++ 32 :: cmdline_of (o2 :: l)). rewrite length_app. cbn [length] in *. lia.
Qed.

Lemma bootargs_init_spec l opts : Forall opt_ok l -> Z.of_nat (length (cmdline_of l)) <= CMDLINE_SIZE ->
  bootargs_init (cmdline_of l ++ [0]) (length (cmdline_of l)) opts = Some (rev (map stored l) ++ opts).
Proof.
  intros Hl Hs. pose proof (cmdline_length l Hl) as Hlen. unfold bootargs_init. rewrite (proj2 (Z.ltb_ge _ _)) by done. unfold strncpy. rewrite decide_True by (rewrite length_app; lia).
  cbn [mbind option_bind]. rewrite take_app_length. destruct l as [|o l]; [done|]. apply bootargs_loop_spec; [lia|done].
Qed.

(** The command line is parsed into its options, and of several options with one
    name the last one counts: the option is found, and a number printed into it
    in hexadecimal is the number that is read. *)
Theorem bootargs_roundtrip l1 name num l2 :
  Forall opt_ok (l1 ++ mk_bo name (num_to_str num 16) :: l2) -> 0 <= num < 2 ^ 64 -> (forall o, o ∈ l2 -> bo_name o <> name) ->
  let l := l1 ++ mk_bo name (num_to_str num 16) :: l2 in
  Z.of_nat (length (cmdline_of l)) <= CMDLINE_SIZE ->
  exists opts, bootargs_init (cmdline_of l ++ [0]) (length (cmdline_of l)) [] = Some opts /\ opts = rev (map stored l)
    /\ bootarg_parse_hex64 name opts = Some (inr num).
Proof.
  intros Hl Hn Hl2 l Hs. exists (rev (map stored l)). split; [by rewrite bootargs_init_spec, app_nil_r|]. split; [done|].
  unfold bootarg_parse_hex64, __get_boot_option, l. rewrite map_app, rev_app_distr. cbn [map rev]. rewrite <- app_assoc. cbn [app].
  assert (exists i, list_find (fun bo => bo_name bo = name) (rev (map stored l2) ++ stored (mk_bo name (num_to_str num 16)) :: rev (map stored l1))
    = Some (i, stored (mk_bo name (num_to_str num 16)))) as [i ->].
  { eexists. apply list_find_Some. split; [rewrite lookup_app_r, Nat.sub_diag by done; done|]. split; [done|]. intros j y Hj Hlt. rewrite lookup_app_l in Hj by done.
    apply list_elem_of_lookup_2 in Hj. apply list_elem_of_In, in_rev in Hj. apply in_map_iff in Hj as (o & <- & Ho). apply (Hl2 o). by rewrite list_elem_of_In. }
  destruct (strtoul_roundtrip num 16 0 [] ltac:(lia) Hn) as (s & E & Er); [done|done|]. unfold stored; cbn [bo_name bo_args]. rewrite E. cbn [fmap option_fmap option_map __parse_num].
  by rewrite Er.
Qed.

(** Upper case digits end a number, although the value of a digit is taken from
    its lower case form. *)
Theorem strtoul_upper_case : strtoul (chars "0x8F" ++ [0]) 16 = Some (8, chars "F" ++ [0]).
Proof. vm_compute. reflexivity. Qed.

(** ** The theorems at concrete values *)
Lemma strtoul_roundtrip_witness : exists s, num_to_str 0xdeadbeef 16 = Some s /\ strtoul (s ++ [32]) 16 = Some (0xdeadbeef, [32]).
Proof. exact (strtoul_roundtrip 0xdeadbeef 16 32 [] ltac:(lia) ltac:(lia) eq_refl ltac:(discriminate)). Defined.

Definition demo_format : list directive := [Conv 5 (Cs (chars "cpu")); Lit 58; Conv 0 (Cd (u64 (-7))); Percent; Conv 0 (Cp 0xffff)].

Lemma vsprintf_correct_witness :
  vsprintf (chars "%5s:%d%%%p" ++ [0]) [AStr (chars "cpu"); ANum (u64 (-7)); ANum 0xffff] = Some (chars "  cpu:-7%000000000000ffff").
Proof.
  pose proof (vsprintf_correct demo_format) as H. change (chars "%5s:%d%%%p") with (concat (map dir_chars demo_format)).
  change [AStr (chars "cpu"); ANum (u64 (-7)); ANum 0xffff] with (concat (map dir_args demo_format)). rewrite H; [vm_compute; reflexivity|].
  repeat constructor; try done; vm_compute; (discriminate || reflexivity).
Defined.

Lemma get_print_time_correct_witness : exists t, get_print_time 12345678901 = Some t /\ length t = 15%nat.
Proof.
  destruct (get_print_time_correct 12345678901) as (t & sec & us & E & _ & Hl & _); [split; [discriminate|reflexivity]|]. exists t. exact (conj E Hl).
Defined.

Lemma bootargs_roundtrip_witness :
  exists opts, bootargs_init (chars "console=ttyS0 mem=40000000 quiet" ++ [0]) 32 [] = Some opts /\ bootarg_parse_hex64 (chars "mem") opts = Some (inr 0x40000000).
Proof.
  destruct (bootargs_roundtrip [mk_bo (chars "console") (Some (chars "ttyS0"))] (chars "mem") 0x40000000 [mk_bo (chars "quiet") None]) as (opts & E & _ & H).
  - repeat constructor; discriminate.
  - split; [discriminate|reflexivity].
  - intros o ->%list_elem_of_singleton. discriminate.
  - vm_compute. discriminate.
  - exists opts. exact (conj E H).
Defined.

Lemma ltoa_correct_witness : ltoa (- 2 ^ 63) = Some (chars "-9223372036854775808").
Proof. rewrite (ltoa_correct (- 2 ^ 63)); [vm_compute; reflexivity|lia]. Defined.

Lemma itoa_correct_witness : itoa (-42) = Some (chars "-42").
Proof. rewrite (itoa_correct (-42)); [vm_compute; reflexivity|lia]. Defined.
