(* ===== verification/Ramdisk.v ===== *)
(** * The ramdisk: the tool that makes it and the code that reads it
      (tools/mkrmd/mkrmd.c, core/ramdisk.c, generic/include/generic/ramdisk.h)

    An image is the list of its bytes, from the start of the ramdisk.  The tool
    collects the inodes and the data of the files in two memory blocks, which
    here are the bytes that are used, and writes both behind the super block;
    the target file keeps what it had where nothing is written.  Reading
    outside of the image is [None]. *)
From stdpp Require Import strings.
From S2P Require Import Prelude Strings.

Definition RAMDISK_MAGIC : list Z := chars "MINOSRAMDISK....".
Definition RAMDISK_MAGIC_SIZE : Z := 16.
Definition RAMDISK_FNAME_SIZE : Z := 32.
Definition FMEMBLOCK_SIZE : Z := 128 * 1024 * 1024.
Definition IMEMBLOCK_SIZE : Z := 32 * 1024 * 1024.
Definition SIZEOF_INODE : Z := 48.
Definition SIZEOF_SB : Z := 32.
Definition EBADF : Z := 9.

Record ramdisk_sb := mk_sb {
  file_cnt : Z;
  block_size : Z;
  inode_offset : Z;
  data_offset : Z;
  ramdisk_size : Z;
}.

(** Little endian numbers. *)
Fixpoint le_bytes (n : nat) (x : Z) : list Z :=
  match n with O => [] | S n => (x mod 256) :: le_bytes n (x / 256) end.

(** ** Making the image *)

(** [mb_mem] are the used bytes, [mb_free] the number of those left. *)
Record memblock := mk_mb {
  mb_free : Z;
  mb_mem : list Z;
}.

Record mkrmd := mk_mkrmd {
  imem : memblock;
  fmem : memblock;
  sb_cnt : Z;
}.

Definition mb_used (b : memblock) : Z := Z.of_nat (length (mb_mem b)).

Definition memblock_init : mkrmd := mk_mkrmd (mk_mb IMEMBLOCK_SIZE []) (mk_mb FMEMBLOCK_SIZE []) 0.

(** The offset and the size are stored first, then the name is cleared and
    copied; a name that is too long runs over the fields behind it. *)
Definition inode_bytes (name : list Z) (offset size : Z) : option (list Z) :=
  let b := replicate (Z.to_nat RAMDISK_FNAME_SIZE) 0 ++ le_bytes 8 offset ++ le_bytes 8 size in
  if decide (length name + 1 <= length b)%nat then Some (name ++ [0] ++ drop (length name + 1) b) else None.

(** [data] are the [size] bytes behind the used part of [fmem], which the caller
    has read. *)
Definition add_new_file (name data : list Z) (t : mkrmd) : option (Z * mkrmd) :=
  if mb_free (imem t) <=? SIZEOF_INODE then Some (- ENOMEM, t)
  else
    let size := Z.of_nat (length data) in
    b ← inode_bytes name (mb_used (fmem t)) size;
    let i := mk_mb (mb_free (imem t) - SIZEOF_INODE) (mb_mem (imem t) ++ b) in
    let total_size := Z.land (size + 4095) (Z.lnot 4095) in
    let adjust := total_size - size in
    let f := mk_mb (mb_free (fmem t) - adjust) (mb_mem (fmem t) ++ data ++ replicate (Z.to_nat adjust) 0) in
    Some (0, mk_mkrmd i f (sb_cnt t + 1)).

(** The loop that reads the file in pieces of 4096 bytes: the memory left at the
    end of the file, or [None] when there is none before it.  [left] are the bytes of
    the file that were not read; [fuel] is enough when it exceeds their number. *)
Fixpoint read_loop (fuel : nat) (left free : Z) : option (bool * Z) :=
  match fuel with
  | O => None
  | S fuel =>
      if free =? 0 then Some (false, free)
      else
        let read_size := if 4096 <? free then 4096 else free in
        let cnt := Z.min left read_size in
        if cnt =? 0 then Some (true, free) else read_loop fuel (left - cnt) (free - cnt)
  end.

Definition set_ffree (x : Z) (t : mkrmd) : mkrmd := mk_mkrmd (imem t) (mk_mb x (mb_mem (fmem t))) (sb_cnt t).

Definition __add_file (name data : list Z) (t : mkrmd) : option (Z * mkrmd) :=
  '(ok, free) ← read_loop (length data + 2) (Z.of_nat (length data)) (mb_free (fmem t));
  let t := set_ffree free t in
  if negb ok then Some (- ENOMEM, t)
  else if decide (length data = 0%nat) then Some (0, t)
  else '(r, t) ← add_new_file name data t; if negb (r =? 0) then Some (- ENOMEM, t) else Some (0, t).

(** The part of the path behind the last slash. *)
Fixpoint base_name (path : list Z) : list Z :=
  match path with
  | [] => []
  | c :: l => if bool_decide (47 ∈ path) then base_name l else path
  end.

(** [None] for the contents is a file that cannot be opened. *)
Definition add_file (path : list Z) (contents : option (list Z)) (t : mkrmd) : option (Z * mkrmd) :=
  match contents with
  | None => Some (-1, t)
  | Some data => __add_file (base_name path) data t
  end.

Fixpoint make_ramdisk_file_mode (files : list (list Z * option (list Z))) (t : mkrmd) : option (Z * mkrmd) :=
  match files with
  | [] => Some (0, t)
  | (path, contents) :: files =>
      '(r, t) ← add_file path contents t;
      if negb (r =? 0) then Some (- ENOENT, t) else make_ramdisk_file_mode files t
  end.

(** The entries of the directory, with whether they are regular files; the result
    of adding one is not looked at.  [None] is a path that does not fit in its
    buffer of 256 bytes. *)
Fixpoint make_ramdisk_dir_mode (dirname : list Z) (entries : list (list Z * bool * option (list Z))) (t : mkrmd) : option (Z * mkrmd) :=
  match entries with
  | [] => Some (0, t)
  | (name, regular, contents) :: entries =>
      if bool_decide (name = chars ".") || bool_decide (name = chars "..") || negb regular
         || (255 <? Z.of_nat (length dirname + length name)) || (RAMDISK_FNAME_SIZE <? Z.of_nat (length name) + 1)
      then make_ramdisk_dir_mode dirname entries t
      else if 256 <? Z.of_nat (length dirname + length name) + 2 then None
      else '(_, t) ← add_file (dirname ++ [47] ++ name) contents t; make_ramdisk_dir_mode dirname entries t
  end.

(** [lseek] and [write]: a gap behind the end of the file reads as zeros. *)
Definition write_at (pos : nat) (bs f : list Z) : list Z :=
  take pos (f ++ replicate (pos - length f) 0) ++ bs ++ drop (pos + length bs) f.

Definition align (x n : Z) : Z := Z.land (x + (n - 1)) (Z.lnot (n - 1)).

Definition sb_bytes (s : ramdisk_sb) : list Z :=
  le_bytes 4 (file_cnt s) ++ le_bytes 4 (block_size s) ++ le_bytes 8 (inode_offset s) ++ le_bytes 8 (data_offset s) ++ le_bytes 8 (ramdisk_size s).

(** [block_size] is never assigned.  [f] is the target file as it was. *)
Definition packing_ramdisk (t : mkrmd) (f : list Z) : list Z :=
  let i_off := align (RAMDISK_MAGIC_SIZE + SIZEOF_SB) 16 in
  let f_off := align (i_off + mb_used (imem t)) 4096 in
  let size := Z.land (f_off + mb_used (fmem t)) (Z.lnot 4095) in
  let f := write_at 0 RAMDISK_MAGIC f in
  let f := write_at 16 (sb_bytes (mk_sb (sb_cnt t) 0 i_off f_off size)) f in
  let f := write_at (Z.to_nat i_off) (mb_mem (imem t)) f in
  write_at (Z.to_nat f_off) (mb_mem (fmem t)) f.

(** ** Reading the image *)
Definition bytes_at (off n : Z) (img : list Z) : option (list Z) :=
  if (0 <=? off) && (off + n <=? Z.of_nat (length img)) then Some (take (Z.to_nat n) (drop (Z.to_nat off) img)) else None.
Definition num_at (off n : Z) (img : list Z) : option Z := b ← bytes_at off n img; Some (le_val 256 b).

(** [strncmp(a, b, n) == 0], both strings in memory. *)
Fixpoint strncmp_eq (n : nat) (a b : list Z) : option bool :=
  match n with
  | O => Some true
  | S n =>
      x ← head a; y ← head b;
      if negb (x =? y) then Some false else if x =? 0 then Some true else strncmp_eq n (tail a) (tail b)
  end.

(** [sb], [root] and [ramdisk_data], as offsets in the image. *)
Record ramdisk := mk_ramdisk {
  rd_img : list Z;
  rd_sb : Z;
  rd_root : Z;
  rd_data : Z;
}.

(** [start] and [end_] are the addresses that were set, [mapped] is the result of
    [create_host_mapping]. *)
Definition ramdisk_init (start end_ : Z) (mapped : Z) (img : list Z) : option (Z * option ramdisk) :=
  if (start =? 0) || (end_ =? 0) then Some (- EINVAL, None)
  else if negb (start mod 4096 =? 0) then Some (- EINVAL, None)
  else if negb (mapped =? 0) then Some (- ENOMEM, None)
  else
    eq ← strncmp_eq (Z.to_nat RAMDISK_MAGIC_SIZE) img (RAMDISK_MAGIC ++ [0]);
    if negb (eq : bool) then Some (- EBADF, None)
    else
      root ← num_at (RAMDISK_MAGIC_SIZE + 8) 8 img;
      data ← num_at (RAMDISK_MAGIC_SIZE + 16) 8 img;
      Some (0, Some (mk_ramdisk img RAMDISK_MAGIC_SIZE root data)).

(** An inode is its offset in the image. *)
Definition ramdisk_file_name (inode : Z) (r : ramdisk) : option (list Z) := bytes_at inode RAMDISK_FNAME_SIZE (rd_img r).
Definition ramdisk_file_size (inode : Z) (r : ramdisk) : option Z := num_at (inode + 40) 8 (rd_img r).
Definition ramdisk_file_base (inode : Z) (r : ramdisk) : option Z := o ← num_at (inode + 32) 8 (rd_img r); Some (u64 (rd_data r + o)).

Fixpoint inode_loop (n : nat) (inode : Z) (name : list Z) (r : ramdisk) : option (option Z) :=
  match n with
  | O => Some None
  | S n =>
      f ← ramdisk_file_name inode r;
      eq ← strncmp_eq (Z.to_nat (RAMDISK_FNAME_SIZE - 1)) f name;
      if (eq : bool) then Some (Some inode) else inode_loop n (inode + SIZEOF_INODE) name r
  end.

Definition get_file_inode (name : list Z) (r : ramdisk) : option (option Z) :=
  cnt ← num_at (rd_sb r) 4 (rd_img r);
  inode_loop (Z.to_nat cnt) (rd_root r) name r.

(** [name] ends with a 0; [None] for the ramdisk is that there is no super block. *)
Definition ramdisk_open (name : list Z) (r : option ramdisk) : option (Z * option Z) :=
  match r with
  | None => Some (- ENOENT, None)
  | Some r => i ← get_file_inode name r; match i with None => Some (- ENOENT, None) | Some i => Some (0, Some i) end
  end.

(** The bytes that are copied. *)
Definition ramdisk_read (file : option Z) (size offset : Z) (r : ramdisk) : option (Z * list Z) :=
  match file with
  | None => Some (- EINVAL, [])
  | Some i =>
      f_size ← ramdisk_file_size i r;
      if f_size <? u64 (offset + size) then Some (- EINVAL, [])
      else
        base ← ramdisk_file_base i r;
        b ← bytes_at (u64 (base + offset)) size (rd_img r);
        Some (0, b)
  end.

(** ** Bytes *)
Lemma le_bytes_length n x : length (le_bytes n x) = n.
Proof. revert x. induction n as [|n IH]; intros x; [done|]. cbn. by rewrite IH. Qed.

Lemma le_bytes_val n x : 0 <= x < 256 ^ Z.of_nat n -> le_val 256 (le_bytes n x) = x.
Proof.
  revert x. induction n as [|n IH]; intros x Hx; cbn [le_bytes]; [change (256 ^ Z.of_nat 0) with 1 in Hx; cbn; lia|].
  rewrite Nat2Z.inj_succ, Z.pow_succ_r in Hx by lia. rewrite le_val_cons, IH; [pose proof (Z.div_mod x 256 ltac:(lia)); lia|].
  split; [apply Z.div_pos; lia|apply Z.div_lt_upper_bound; lia].
Qed.

Lemma bytes_at_sub (A B C : list Z) o n : 0 <= o -> 0 <= n -> o + n <= Z.of_nat (length B) ->
  bytes_at (Z.of_nat (length A) + o) n (A ++ B ++ C) = Some (take (Z.to_nat n) (drop (Z.to_nat o) B)).
Proof.
  intros Ho Hn Hl. unfold bytes_at. rewrite !length_app, (proj2 (Z.leb_le _ _)), (proj2 (Z.leb_le _ _)) by lia. cbn [andb]. f_equal.
  replace (Z.to_nat (Z.of_nat (length A) + o)) with (length A + Z.to_nat o)%nat by lia. rewrite <- drop_drop, drop_app_length.
  rewrite drop_app_le by lia. rewrite take_app_le; [done|]. rewrite length_drop. lia.
Qed.

Lemma bytes_at_app (A B C : list Z) : bytes_at (Z.of_nat (length A)) (Z.of_nat (length B)) (A ++ B ++ C) = Some B.
Proof.
  rewrite <- (Z.add_0_r (Z.of_nat (length A))), bytes_at_sub by lia. change (Z.to_nat 0) with 0%nat. rewrite drop_0. by rewrite take_ge by lia.
Qed.

Lemma num_at_app (A C : list Z) n x : 0 <= x < 256 ^ Z.of_nat n -> num_at (Z.of_nat (length A)) (Z.of_nat n) (A ++ le_bytes n x ++ C) = Some x.
Proof. intros Hx. unfold num_at. rewrite <- (le_bytes_length n x) at 1. rewrite bytes_at_app. cbn [mbind option_bind]. by rewrite le_bytes_val. Qed.

(** ** The layout of an image *)
Lemma write_at_prefix pos bs (P R : list Z) : (length P <= pos)%nat -> write_at pos bs (P ++ R) = P ++ write_at (pos - length P) bs R.
Proof.
  intros Hl. unfold write_at. rewrite length_app, <- app_assoc. rewrite take_app_ge by done. rewrite drop_app_ge by lia. rewrite <- app_assoc. do 3 f_equal; [|].
  - do 2 f_equal. lia.
  - f_equal. lia.
Qed.

Lemma write_at_shape pos bs R : exists G T, write_at pos bs R = G ++ bs ++ T /\ length G = pos.
Proof. eexists _, _. split; [done|]. rewrite length_take, length_app, length_replicate. lia. Qed.

Lemma write_at_here bs R : exists T, write_at 0 bs R = bs ++ T.
Proof. exists (drop (length bs) R). done. Qed.

Definition i_off : Z := 48.
Definition f_off (t : mkrmd) : Z := align (i_off + mb_used (imem t)) 4096.
Definition sb_of (t : mkrmd) : ramdisk_sb := mk_sb (sb_cnt t) 0 i_off (f_off t) (Z.land (f_off t + mb_used (fmem t)) (Z.lnot 4095)).

Lemma align_spec x : 0 <= x -> align x 4096 mod 4096 = 0 /\ x <= align x 4096 < x + 4096.
Proof.
  intros Hx. unfold align. change (4096 - 1) with (2 ^ 12 - 1). rewrite pow_pred_ones, <- Z.ldiff_land, Z.ldiff_ones_r, Z.shiftl_mul_pow2, Z.shiftr_div_pow2 by lia.
  rewrite Z.ones_equiv. change (Z.pred (2 ^ 12)) with 4095. change (2 ^ 12) with 4096. pose proof (Z.div_mod (x + 4095) 4096 ltac:(lia)). pose proof (Z.mod_pos_bound (x + 4095) 4096 ltac:(lia)).
  split; [apply Z.mod_mul; lia|lia].
Qed.

Lemma sb_bytes_length s : length (sb_bytes s) = 32%nat.
Proof. unfold sb_bytes. by rewrite !length_app, !le_bytes_length. Qed.

Lemma packing_shape t f : exists G T, packing_ramdisk t f = RAMDISK_MAGIC ++ sb_bytes (sb_of t) ++ mb_mem (imem t) ++ G ++ mb_mem (fmem t) ++ T
  /\ Z.of_nat (length G) = f_off t - i_off - mb_used (imem t).
Proof.
  pose proof (align_spec (i_off + mb_used (imem t))) as Hal. unfold packing_ramdisk. change (align (RAMDISK_MAGIC_SIZE + SIZEOF_SB) 16) with i_off. fold (f_off t). fold (sb_of t).
  assert (0 <= mb_used (imem t)) as Hu by (unfold mb_used; lia). specialize (Hal ltac:(unfold i_off; lia)). fold (f_off t) in Hal.
  destruct (write_at_here RAMDISK_MAGIC f) as [R1 ->]. rewrite (write_at_prefix 16 _ RAMDISK_MAGIC R1) by done. change (16 - length RAMDISK_MAGIC)%nat with 0%nat.
  destruct (write_at_here (sb_bytes (sb_of t)) R1) as [R2 ->]. rewrite app_assoc.
  assert (length (RAMDISK_MAGIC ++ sb_bytes (sb_of t)) = 48%nat) as L2 by (rewrite length_app, sb_bytes_length; done).
  change (Z.to_nat i_off) with 48%nat. rewrite (write_at_prefix 48) by lia. rewrite L2, Nat.sub_diag. destruct (write_at_here (mb_mem (imem t)) R2) as [R3 ->]. rewrite app_assoc.
  unfold mb_used in *. rewrite write_at_prefix by (rewrite length_app, L2; unfold i_off in *; lia).
  destruct (write_at_shape (Z.to_nat (f_off t) - length ((RAMDISK_MAGIC ++ sb_bytes (sb_of t)) ++ mb_mem (imem t))) (mb_mem (fmem t)) R3) as (G & T & -> & LG).
  exists G, T. rewrite <- !app_assoc. split; [done|]. rewrite LG, length_app, L2. unfold i_off in *. lia.
Qed.

(** ** What a list of files becomes *)
Definition file : Type := list Z * list Z.
Definition f_name (x : file) : list Z := base_name x.1.
Definition input (x : file) : list Z * option (list Z) := (x.1, Some x.2).

(** The name fits in its field; a file without contents is left out by the tool. *)
Definition file_ok (x : file) : Prop := 0 ∉ f_name x /\ (length (f_name x) <= 31)%nat /\ snd x <> [].

Definition name_field (name : list Z) : list Z := name ++ 0 :: replicate (31 - length name) 0.
Definition inode (off : Z) (x : file) : list Z := name_field (f_name x) ++ le_bytes 8 off ++ le_bytes 8 (Z.of_nat (length x.2)).
Definition padded (x : file) : list Z := x.2 ++ replicate (Z.to_nat (align (Z.of_nat (length x.2)) 4096 - Z.of_nat (length x.2))) 0.
Definition datas (fs : list file) : list Z := flat_map padded fs.

Fixpoint inodes (off : Z) (fs : list file) : list Z :=
  match fs with [] => [] | x :: fs => inode off x ++ inodes (off + Z.of_nat (length (padded x))) fs end.

Lemma name_field_length name : (length name <= 31)%nat -> length (name_field name) = 32%nat.
Proof. intros H. unfold name_field. rewrite length_app. cbn [length]. rewrite length_replicate. lia. Qed.

Lemma inode_length off x : file_ok x -> length (inode off x) = 48%nat.
Proof. intros (_ & H & _). unfold inode. rewrite !length_app, !le_bytes_length, name_field_length by done. lia. Qed.

Lemma inodes_length fs off : Forall file_ok fs -> length (inodes off fs) = (48 * length fs)%nat.
Proof.
  intros H. revert off. induction H as [|x fs Hx Hfs IH]; intros off; cbn [inodes length]; [done|]. rewrite length_app, inode_length, IH by done. lia.
Qed.

Lemma inodes_app off l1 l2 : inodes off (l1 ++ l2) = inodes off l1 ++ inodes (off + Z.of_nat (length (datas l1))) l2.
Proof.
  revert off. induction l1 as [|x l1 IH]; intros off; cbn [inodes app datas flat_map]; [cbn; by rewrite Z.add_0_r|].
  rewrite IH, <- app_assoc, length_app, Nat2Z.inj_add. unfold datas. by rewrite Z.add_assoc.
Qed.

Lemma inode_bytes_ok off x : file_ok x -> inode_bytes (f_name x) off (Z.of_nat (length x.2)) = Some (inode off x).
Proof.
  intros (_ & Hl & _). unfold inode_bytes. change (Z.to_nat RAMDISK_FNAME_SIZE) with 32%nat.
  rewrite decide_True by (rewrite !length_app, length_replicate, !le_bytes_length; lia). f_equal. unfold inode, name_field.
  rewrite <- app_assoc. cbn [app]. do 2 f_equal. rewrite drop_app_le by (rewrite length_replicate; lia). rewrite drop_replicate. do 2 f_equal. lia.
Qed.

Lemma padded_length x : Z.of_nat (length (padded x)) = align (Z.of_nat (length x.2)) 4096.
Proof. pose proof (align_spec (Z.of_nat (length x.2)) ltac:(lia)). unfold padded. rewrite length_app, length_replicate. lia. Qed.

(** ** Reading the files in *)
Lemma read_loop_ok fuel left free : 0 <= left < free -> left < Z.of_nat fuel -> read_loop fuel left free = Some (true, free - left).
Proof.
  revert left free. induction fuel as [|fuel IH]; intros left free Hl Hf; [lia|]. cbn [read_loop]. rewrite (proj2 (Z.eqb_neq _ _)) by lia.
  destruct (Z.eq_dec left 0) as [->|Hn].
  - rewrite (proj2 (Z.eqb_eq _ _)) by (destruct (4096 <? free); lia). by rewrite Z.sub_0_r.
  - destruct (Z.ltb_spec 4096 free); (rewrite (proj2 (Z.eqb_neq _ _)) by lia); rewrite IH by lia; do 2 f_equal; lia.
Qed.

Definition tool_with (off : Z) (fs : list file) (t : mkrmd) : mkrmd :=
  mk_mkrmd (mk_mb (mb_free (imem t) - 48 * Z.of_nat (length fs)) (mb_mem (imem t) ++ inodes off fs))
    (mk_mb (mb_free (fmem t) - Z.of_nat (length (datas fs))) (mb_mem (fmem t) ++ datas fs)) (sb_cnt t + Z.of_nat (length fs)).

Lemma add_file_ok x t : file_ok x -> Z.of_nat (length (padded x)) < mb_free (fmem t) -> 48 < mb_free (imem t) ->
  add_file x.1 (Some x.2) t = Some (0, tool_with (mb_used (fmem t)) [x] t).
Proof.
  intros Hx Hf Hi. pose proof (padded_length x) as Hp. pose proof (align_spec (Z.of_nat (length x.2)) ltac:(lia)) as Ha.
  unfold add_file, __add_file. rewrite read_loop_ok by lia. cbn [mbind option_bind negb].
  rewrite decide_False by (destruct Hx as (_ & _ & Hn); destruct x.2; done). unfold add_new_file, set_ffree. cbn [imem fmem mb_free mb_mem sb_cnt].
  rewrite (proj2 (Z.leb_gt _ _)) by (unfold SIZEOF_INODE; lia). change (mb_used (mk_mb (mb_free (fmem t) - Z.of_nat (length x.2)) (mb_mem (fmem t)))) with (mb_used (fmem t)).
  fold (f_name x). rewrite inode_bytes_ok by done. cbn [mbind option_bind]. change (negb (0 =? 0)) with false. cbv iota. do 2 f_equal.
  change (Z.land (Z.of_nat (length x.2) + 4095) (Z.lnot 4095)) with (align (Z.of_nat (length x.2)) 4096).
  unfold tool_with, SIZEOF_INODE. cbn [inodes datas flat_map length]. rewrite !app_nil_r. f_equal; f_equal. rewrite Hp. lia.
Qed.

Lemma make_files fs t : Forall file_ok fs -> Z.of_nat (length (datas fs)) < mb_free (fmem t) -> 48 * Z.of_nat (length fs) < mb_free (imem t) ->
  make_ramdisk_file_mode (map input fs) t = Some (0, tool_with (mb_used (fmem t)) fs t).
Proof.
  intros H. revert t. induction H as [|x fs Hx Hfs IH]; intros t Hf Hi.
  - unfold tool_with. cbn. rewrite !app_nil_r, !Z.sub_0_r, Z.add_0_r. by destruct t as [[] [] ].
  - cbn [map make_ramdisk_file_mode length datas flat_map] in *. rewrite length_app in Hf. cbn [input]. rewrite add_file_ok by (done || lia).
    cbn [mbind option_bind]. change (negb (0 =? 0)) with false. cbv iota. rewrite IH; [|cbn; rewrite app_nil_r; unfold datas; lia|cbn; lia].
    do 2 f_equal. unfold tool_with, mb_used. cbn [imem fmem mb_free mb_mem sb_cnt inodes datas flat_map length]. rewrite !app_nil_r, !length_app, <- !app_assoc.
    f_equal; [f_equal; [lia|] |f_equal; unfold datas; lia|lia]. do 3 f_equal. lia.
Qed.

(** ** Finding a file *)
Lemma strncmp_names n a b r1 r2 : (length a <= n)%nat -> (length b <= n)%nat -> 0 ∉ a -> 0 ∉ b ->
  strncmp_eq n (a ++ 0 :: r1) (b ++ 0 :: r2) = Some (bool_decide (a = b)).
Proof.
  revert a b. induction n as [|n IH]; intros a b Ha Hb Na Nb.
  - destruct a, b; cbn in Ha, Hb; try lia. done.
  - destruct a as [|x a], b as [|y b]; cbn [strncmp_eq app head tail mbind option_bind]; [done|..].
    + rewrite (proj2 (Z.eqb_neq _ _)) by set_solver. done.
    + rewrite (proj2 (Z.eqb_neq _ _)) by set_solver. done.
    + destruct (Z.eqb_spec x y) as [->|Hn]; cbn [negb]; [|rewrite bool_decide_false by congruence; done].
      rewrite (proj2 (Z.eqb_neq _ _)) by set_solver. cbn [length] in *. rewrite IH by (lia || set_solver). f_equal. apply bool_decide_ext. split; congruence.
Qed.

Lemma file_name_at (r : ramdisk) P off x S : file_ok x -> rd_img r = P ++ inode off x ++ S -> ramdisk_file_name (Z.of_nat (length P)) r = Some (name_field (f_name x)).
Proof.
  intros Hx E. unfold ramdisk_file_name. rewrite E. unfold inode. rewrite <- !app_assoc. destruct Hx as (_ & Hl & _).
  change RAMDISK_FNAME_SIZE with (Z.of_nat 32). rewrite <- (name_field_length (f_name x)) by done. apply bytes_at_app.
Qed.

Lemma inode_loop_head r P off x S name n : file_ok x -> 0 ∉ name -> (length name <= 31)%nat -> rd_img r = P ++ inode off x ++ S ->
  inode_loop (Datatypes.S n) (Z.of_nat (length P)) (name ++ [0]) r
  = if bool_decide (f_name x = name) then Some (Some (Z.of_nat (length P))) else inode_loop n (Z.of_nat (length P) + SIZEOF_INODE) (name ++ [0]) r.
Proof.
  intros Hx Nn Ln E. cbn [inode_loop]. rewrite (file_name_at _ _ _ _ _ Hx E). cbn [mbind option_bind]. unfold name_field. change (Z.to_nat (RAMDISK_FNAME_SIZE - 1)) with 31%nat.
  destruct Hx as (Nx & Lx & _). by rewrite strncmp_names.
Qed.

Lemma inode_loop_skip r name l n P off S : Forall file_ok l -> 0 ∉ name -> (length name <= 31)%nat -> rd_img r = P ++ inodes off l ++ S -> name ∉ map f_name l ->
  inode_loop (length l + n) (Z.of_nat (length P)) (name ++ [0]) r = inode_loop n (Z.of_nat (length (P ++ inodes off l))) (name ++ [0]) r.
Proof.
  intros H Nn Ln. revert P off. induction H as [|x l Hx Hl IH]; intros P off E Hni; cbn [inodes length Nat.add map] in *; [by rewrite app_nil_r|].
  apply not_elem_of_cons in Hni as [Hne Hni]. rewrite <- app_assoc in E. rewrite (inode_loop_head _ _ _ _ _ _ _ Hx Nn Ln E), bool_decide_false by congruence.
  specialize (IH (P ++ inode off x) _ ltac:(rewrite <- app_assoc; exact E) Hni). rewrite length_app, inode_length, Nat2Z.inj_add in IH by done.
  change (Z.of_nat 48) with SIZEOF_INODE in IH. rewrite IH. by rewrite <- app_assoc.
Qed.

(** ** The image of a list of files *)
Definition total_ok (fs : list file) : Prop :=
  Forall file_ok fs /\ Z.of_nat (length (datas fs)) < FMEMBLOCK_SIZE /\ 48 * Z.of_nat (length fs) < IMEMBLOCK_SIZE.

Definition tool_of (fs : list file) : mkrmd := tool_with 0 fs memblock_init.
Definition disk_of (fs : list file) (f : list Z) : ramdisk := mk_ramdisk (packing_ramdisk (tool_of fs) f) RAMDISK_MAGIC_SIZE i_off (f_off (tool_of fs)).

Lemma f_off_bounds fs : total_ok fs -> i_off + 48 * Z.of_nat (length fs) <= f_off (tool_of fs) < 2 ^ 26.
Proof.
  intros (Hok & Hd & Hi). unfold f_off, tool_of, tool_with, mb_used. cbn [imem mb_mem memblock_init app]. rewrite inodes_length by done.
  unfold i_off, IMEMBLOCK_SIZE in *. pose proof (align_spec (48 + Z.of_nat (48 * length fs)) ltac:(lia)). lia.
Qed.

Lemma disk_shape fs f : exists G T, rd_img (disk_of fs f) = (RAMDISK_MAGIC ++ sb_bytes (sb_of (tool_of fs))) ++ inodes 0 fs ++ G ++ datas fs ++ T
  /\ Z.of_nat (length ((RAMDISK_MAGIC ++ sb_bytes (sb_of (tool_of fs))) ++ inodes 0 fs ++ G)) = f_off (tool_of fs).
Proof.
  destruct (packing_shape (tool_of fs) f) as (G & T & E & L). exists G, T. cbn [disk_of rd_img]. rewrite E, <- app_assoc. cbn [tool_of tool_with imem fmem mb_mem memblock_init app].
  split; [done|]. rewrite !length_app, sb_bytes_length. change (length RAMDISK_MAGIC) with 16%nat. unfold mb_used, i_off, tool_of, tool_with in *. cbn [imem mb_mem memblock_init app] in *. lia.
Qed.

Lemma num_at_mid img (A C : list Z) k n m x : img = A ++ le_bytes n x ++ C -> k = Z.of_nat (length A) -> m = Z.of_nat n -> 0 <= x < 256 ^ Z.of_nat n -> num_at k m img = Some x.
Proof. intros -> -> ->. apply num_at_app. Qed.

Lemma disk_init fs f start end_ : total_ok fs -> start <> 0 -> end_ <> 0 -> start mod 4096 = 0 ->
  ramdisk_init start end_ 0 (packing_ramdisk (tool_of fs) f) = Some (0, Some (disk_of fs f)).
Proof.
  intros Ht Hs He Ha. destruct (packing_shape (tool_of fs) f) as (G & T & E & _). pose proof (f_off_bounds _ Ht) as Hf. unfold ramdisk_init. rewrite !(proj2 (Z.eqb_neq _ _)) by done. rewrite Ha. cbn [orb negb Z.eqb].
  assert (strncmp_eq (Z.to_nat RAMDISK_MAGIC_SIZE) (packing_ramdisk (tool_of fs) f) (RAMDISK_MAGIC ++ [0]) = Some true) as -> by (rewrite E; reflexivity).
  cbn [mbind option_bind negb]. unfold sb_bytes in E. rewrite <- !app_assoc in E. cbn [sb_of file_cnt block_size inode_offset data_offset ramdisk_size] in E.
  erewrite (num_at_mid _ (RAMDISK_MAGIC ++ le_bytes 4 (sb_cnt (tool_of fs)) ++ le_bytes 4 0) _ (RAMDISK_MAGIC_SIZE + 8) 8 _ i_off); [|rewrite E, <- !app_assoc; reflexivity|reflexivity|reflexivity|unfold i_off; lia].
  cbn [mbind option_bind]. erewrite (num_at_mid _ (RAMDISK_MAGIC ++ le_bytes 4 (sb_cnt (tool_of fs)) ++ le_bytes 4 0 ++ le_bytes 8 i_off) _ (RAMDISK_MAGIC_SIZE + 16) 8 _ (f_off (tool_of fs))); [|rewrite E, <- !app_assoc; reflexivity|reflexivity|reflexivity|unfold i_off in *; lia].
  reflexivity.
Qed.

Lemma disk_count fs f : total_ok fs -> num_at RAMDISK_MAGIC_SIZE 4 (rd_img (disk_of fs f)) = Some (Z.of_nat (length fs)).
Proof.
  intros (_ & _ & Hi). destruct (packing_shape (tool_of fs) f) as (G & T & E & _). cbn [disk_of rd_img].
  apply (num_at_mid _ RAMDISK_MAGIC (drop 4 (sb_bytes (sb_of (tool_of fs))) ++ mb_mem (imem (tool_of fs)) ++ G ++ mb_mem (fmem (tool_of fs)) ++ T) _ 4); [|done|done|unfold IMEMBLOCK_SIZE in *; lia].
  rewrite E. done.
Qed.

Section image.
Context (fs : list file) (f : list Z) (Hok : total_ok fs).

Lemma open_unknown name : 0 ∉ name -> (length name <= 31)%nat -> name ∉ map f_name fs -> ramdisk_open (name ++ [0]) (Some (disk_of fs f)) = Some (- ENOENT, None).
Proof using Hok.
  intros Nn Ln Hni. cbn [ramdisk_open]. unfold get_file_inode. change (rd_sb (disk_of fs f)) with RAMDISK_MAGIC_SIZE. rewrite disk_count by done. cbn [mbind option_bind].
  destruct (disk_shape fs f) as (G & T & E & _). change (rd_root (disk_of fs f)) with (Z.of_nat (length (RAMDISK_MAGIC ++ sb_bytes (sb_of (tool_of fs))))).
  rewrite Nat2Z.id, <- (Nat.add_0_r (length fs)). rewrite (inode_loop_skip _ _ _ _ _ _ _ (proj1 Hok) Nn Ln E Hni). done.
Qed.

Section one_file.
Context (l1 : list file) (x : file) (l2 : list file) (Hfs : fs = l1 ++ x :: l2).

Definition inode_at : Z := i_off + 48 * Z.of_nat (length l1).

Lemma disk_split : exists Q, rd_img (disk_of fs f) = (RAMDISK_MAGIC ++ sb_bytes (sb_of (tool_of fs))) ++ inodes 0 l1 ++ inode (Z.of_nat (length (datas l1))) x ++ Q.
Proof using Hfs.
  destruct (disk_shape fs f) as (G & T & E & _). eexists. rewrite E. f_equal. rewrite Hfs at 1. rewrite inodes_app. cbn [inodes]. rewrite Z.add_0_l, <- !app_assoc. reflexivity.
Qed.

Lemma before_length : Z.of_nat (length ((RAMDISK_MAGIC ++ sb_bytes (sb_of (tool_of fs))) ++ inodes 0 l1)) = inode_at.
Proof using Hok Hfs.
  pose proof (proj1 Hok) as H. rewrite Hfs in H. apply Forall_app in H as [H1 _].
  rewrite !length_app, sb_bytes_length, inodes_length by done. change (length RAMDISK_MAGIC) with 16%nat. unfold inode_at, i_off. lia.
Qed.

Lemma inode_shape : exists P S, rd_img (disk_of fs f) = P ++ inode (Z.of_nat (length (datas l1))) x ++ S /\ Z.of_nat (length P) = inode_at.
Proof using Hok Hfs.
  destruct disk_split as [Q E]. rewrite app_assoc in E. eexists _, Q. split; [exact E|apply before_length].
Qed.

Lemma this_ok : file_ok x.
Proof using Hok Hfs. destruct Hok as [H _]. rewrite Hfs in H. apply Forall_app in H as [_ H]. by inversion H. Qed.

Lemma open_known : f_name x ∉ map f_name l1 -> ramdisk_open (f_name x ++ [0]) (Some (disk_of fs f)) = Some (0, Some inode_at).
Proof using Hok Hfs.
  intros Hni. pose proof this_ok as Hx. destruct Hx as (Nn & Ln & _). cbn [ramdisk_open]. unfold get_file_inode. change (rd_sb (disk_of fs f)) with RAMDISK_MAGIC_SIZE. rewrite disk_count by done. cbn [mbind option_bind].
  destruct disk_split as [Q E]. change (rd_root (disk_of fs f)) with (Z.of_nat (length (RAMDISK_MAGIC ++ sb_bytes (sb_of (tool_of fs))))).
  pose proof (proj1 Hok) as H. rewrite Hfs in H. apply Forall_app in H as [H1 _]. rewrite Nat2Z.id. replace (length fs) with (length l1 + S (length l2))%nat by (rewrite Hfs, length_app; done).
  rewrite (inode_loop_skip _ _ _ _ _ _ _ H1 Nn Ln E Hni). rewrite app_assoc in E.
  rewrite (inode_loop_head _ _ _ _ _ _ _ this_ok Nn Ln E), bool_decide_true by done. cbn [mbind option_bind]. by rewrite before_length.
Qed.

Lemma data_bound : Z.of_nat (length (datas l1)) + Z.of_nat (length x.2) < FMEMBLOCK_SIZE.
Proof using Hok Hfs.
  destruct Hok as (_ & H & _). rewrite Hfs in H. unfold datas in *. rewrite flat_map_app, length_app in H. cbn [flat_map] in H. unfold padded in H at 2. rewrite !length_app in H. lia.
Qed.

Lemma size_known : ramdisk_file_size inode_at (disk_of fs f) = Some (Z.of_nat (length x.2)).
Proof using Hok Hfs.
  destruct inode_shape as (P & S & E & L). pose proof data_bound as Hb. unfold FMEMBLOCK_SIZE in Hb. unfold ramdisk_file_size. pose proof this_ok as (_ & Ln & _).
  unfold inode in E. apply (num_at_mid _ (P ++ name_field (f_name x) ++ le_bytes 8 (Z.of_nat (length (datas l1)))) S _ 8); [rewrite E, <- !app_assoc; done| |done|lia].
  rewrite !length_app, name_field_length, le_bytes_length by done. lia.
Qed.

Lemma base_known : ramdisk_file_base inode_at (disk_of fs f) = Some (f_off (tool_of fs) + Z.of_nat (length (datas l1))).
Proof using Hok Hfs.
  destruct inode_shape as (P & S & E & L). pose proof data_bound as Hb. pose proof (f_off_bounds _ Hok). unfold FMEMBLOCK_SIZE, i_off in *. unfold ramdisk_file_base. pose proof this_ok as (_ & Ln & _).
  unfold inode in E. rewrite (num_at_mid _ (P ++ name_field (f_name x)) (le_bytes 8 (Z.of_nat (length x.2)) ++ S) _ 8 _ (Z.of_nat (length (datas l1)))); [|rewrite E, <- !app_assoc; done| |done|lia].
  - cbn [mbind option_bind]. change (rd_data (disk_of fs f)) with (f_off (tool_of fs)). rewrite u64_small by lia. done.
  - rewrite !length_app, name_field_length by done. lia.
Qed.

Lemma read_known off sz : 0 <= off -> 0 <= sz -> off + sz < 2 ^ 64 ->
  ramdisk_read (Some inode_at) sz off (disk_of fs f)
  = Some (if off + sz <=? Z.of_nat (length x.2) then (0, take (Z.to_nat sz) (drop (Z.to_nat off) x.2)) else (- EINVAL, [])).
Proof using Hok Hfs.
  intros Ho Hs Hb. cbn [ramdisk_read]. rewrite size_known. cbn [mbind option_bind]. rewrite u64_small by lia.
  destruct (Z.ltb_spec (Z.of_nat (length x.2)) (off + sz)); destruct (Z.leb_spec (off + sz) (Z.of_nat (length x.2))); try lia; [done|].
  rewrite base_known. cbn [mbind option_bind]. pose proof data_bound as Hd. pose proof (f_off_bounds _ Hok) as Hf. unfold FMEMBLOCK_SIZE, i_off in *. rewrite u64_small by lia.
  destruct (disk_shape fs f) as (G & T & E & L). rewrite E.
  assert (datas fs = datas l1 ++ x.2 ++ drop (length x.2) (padded x) ++ datas l2) as ->.
  { rewrite Hfs. unfold datas. rewrite flat_map_app. cbn [flat_map]. f_equal. rewrite app_assoc. f_equal. unfold padded. by rewrite drop_app_length. }
  replace (_ ++ inodes 0 fs ++ _) with ((((RAMDISK_MAGIC ++ sb_bytes (sb_of (tool_of fs))) ++ inodes 0 fs ++ G) ++ datas l1) ++ x.2 ++ (drop (length x.2) (padded x) ++ datas l2) ++ T) by (rewrite <- !app_assoc; done).
  replace (f_off (tool_of fs) + Z.of_nat (length (datas l1)) + off) with (Z.of_nat (length (((RAMDISK_MAGIC ++ sb_bytes (sb_of (tool_of fs))) ++ inodes 0 fs ++ G) ++ datas l1)) + off) by (rewrite length_app; lia).
  rewrite bytes_at_sub by lia. done.
Qed.
End one_file.
End image.

(** C39: the tool makes an image of any list of nonempty files with different names that fit, and
    the code that reads it finds every file in the image, with its size and its
    contents, and no other. *)
Theorem ramdisk_roundtrip (fs : list file) (f : list Z) (start end_ : Z) :
  total_ok fs -> NoDup (map f_name fs) -> start <> 0 -> end_ <> 0 -> start mod 4096 = 0 ->
  exists t r, make_ramdisk_file_mode (map input fs) memblock_init = Some (0, t)
    /\ ramdisk_init start end_ 0 (packing_ramdisk t f) = Some (0, Some r)
    /\ (forall x, x ∈ fs -> exists i, ramdisk_open (f_name x ++ [0]) (Some r) = Some (0, Some i)
         /\ ramdisk_file_size i r = Some (Z.of_nat (length x.2))
         /\ forall off sz, 0 <= off -> 0 <= sz -> off + sz < 2 ^ 64 ->
              ramdisk_read (Some i) sz off r
              = Some (if off + sz <=? Z.of_nat (length x.2) then (0, take (Z.to_nat sz) (drop (Z.to_nat off) x.2)) else (- EINVAL, [])))
    /\ (forall name, 0 ∉ name -> (length name <= 31)%nat -> name ∉ map f_name fs -> ramdisk_open (name ++ [0]) (Some r) = Some (- ENOENT, None)).
Proof.
  intros Hok Hnd Hs He Ha. exists (tool_of fs), (disk_of fs f). split; [|split; [|split]].
  - destruct Hok as (H1 & H2 & H3). by apply make_files.
  - by apply disk_init.
  - intros x Hx. apply list_elem_of_split in Hx as (l1 & l2 & Hfs). exists (inode_at l1).
    assert (f_name x ∉ map f_name l1) as Hni.
    { rewrite Hfs, map_app in Hnd. apply list.NoDup_app in Hnd as (_ & Hd & _). intros Hin. apply (Hd _ Hin). cbn. left. }
    split; [by apply (open_known fs f Hok l1 x l2 Hfs)|]. split; [by apply (size_known fs f Hok l1 x l2 Hfs)|]. intros off sz. by apply (read_known fs f Hok l1 x l2 Hfs).
  - intros name. by apply open_unknown.
Qed.

Definition two_files : list file := [(chars "/boot/vm.dtb", [1; 2; 3]); (chars "kernel", [9; 8])].

Lemma two_files_ok : total_ok two_files.
Proof.
  split; [|split; vm_compute; reflexivity]. repeat constructor; try (vm_compute; lia); try discriminate;
    (assert (bool_decide (0 ∈ f_name (chars "/boot/vm.dtb", [1; 2; 3])) = false /\ bool_decide (0 ∈ f_name (chars "kernel", [9; 8])) = false) as [E1 E2] by (split; vm_compute; reflexivity);
     first [by apply bool_decide_eq_false in E1|by apply bool_decide_eq_false in E2]).
Qed.

Lemma ramdisk_roundtrip_witness : exists t r i, make_ramdisk_file_mode (map input two_files) memblock_init = Some (0, t)
  /\ ramdisk_init 4096 20480 0 (packing_ramdisk t []) = Some (0, Some r)
  /\ ramdisk_open (chars "kernel" ++ [0]) (Some r) = Some (0, Some i)
  /\ ramdisk_read (Some i) 1 1 r = Some (0, [8]) /\ ramdisk_read (Some i) 2 1 r = Some (- EINVAL, [])
  /\ ramdisk_open (chars "boot" ++ [0]) (Some r) = Some (- ENOENT, None).
Proof.
  destruct (ramdisk_roundtrip two_files [] 4096 20480) as (t & r & Hm & Hi & Hf & Hn).
  - apply two_files_ok.
  - apply (bool_decide_unpack _). vm_compute. exact I.
  - lia.
  - lia.
  - reflexivity.
  - destruct (Hf (chars "kernel", [9; 8])) as (i & Ho & _ & Hr); [right; left|]. exists t, r, i. split; [done|]. split; [done|]. split; [exact Ho|].
    split; [rewrite Hr by lia; reflexivity|]. split; [rewrite Hr by lia; reflexivity|].
    apply Hn; [apply (bool_decide_unpack _); vm_compute; exact I|vm_compute; lia|apply (bool_decide_unpack _); vm_compute; exact I].
Defined.

(** The sum of the offset and the size wraps around: an offset that is negative as
    a signed number passes the check, and what lies before the file is read. *)
Lemma read_before_file : ramdisk_read (Some 96) 4096 (2 ^ 64 - 4096) (disk_of two_files []) = Some (0, padded (chars "vm.dtb", [1; 2; 3])).
Proof. vm_compute. reflexivity. Qed.

(** In file mode a name of 40 characters overwrites the offset of the file. *)
Lemma long_name_overwrites off off' size : inode_bytes (replicate 40 97) off size = inode_bytes (replicate 40 97) off' size.
Proof. reflexivity. Qed.

(** The block size of an image is 0. *)
Lemma block_size_is_zero t f : num_at (RAMDISK_MAGIC_SIZE + 4) 4 (packing_ramdisk t f) = Some 0.
Proof.
  destruct (packing_shape t f) as (G & T & E & _). unfold sb_bytes in E. cbn [sb_of block_size] in E.
  eapply (num_at_mid _ (RAMDISK_MAGIC ++ le_bytes 4 (sb_cnt t)) _ _ 4); [rewrite E, <- !app_assoc; reflexivity|done|done|lia].
Qed.

(** In directory mode a file that cannot be opened is left out, and the tool reports
    success. *)
Lemma dir_mode_ignores_errors : make_ramdisk_dir_mode (chars "d") [(chars "f", true, None)] memblock_init = Some (0, memblock_init).
Proof. reflexivity. Qed.

(** The check on the length of the path forgets the slash. *)
Lemma dir_path_overflow : make_ramdisk_dir_mode (replicate 252 97) [(chars "abc", true, None)] memblock_init = None.
Proof. reflexivity. Qed.
