(* ===== verification/Virtq.v ===== *)
(** * Virtqueues of the virtual machine monitor (tools/mvm/devices/virtio/virtio.c,
      tools/mvm/include/minos/virtio.h)

    The monitor runs in the host VM and serves the virtio devices of a guest.  The
    descriptors, the available ring and the used ring are memory of the guest,
    which it may change at any time: a descriptor is read field by field, and the
    memory [g] is a function of the number of reads so far.  [mapped] says which
    descriptors lie in memory of the monitor: the addresses that a guest writes are
    not checked, and reading elsewhere is a fault.  A queue is the record
    [virt_queue]; the rings it points to are arguments of the operations that read
    them, and [used_ring] is the one the monitor writes to.  A write outside of an
    array is [None], and so is a fault.  The registers of the device are the words of the page that
    the hypervisor shares with the monitor. *)
From S2P Require Import Prelude Vdev Virtio.

Definition VRING_DESC_F_NEXT : Z := 1.
Definition VRING_DESC_F_WRITE : Z := 2.
Definition VRING_DESC_F_INDIRECT : Z := 4.
Definition VRING_AVAIL_F_NO_INTERRUPT : Z := 1.
Definition VRING_USED_F_NO_NOTIFY : Z := 1.
Definition VIRTIO_RING_F_EVENT_IDX : Z := 29.
Definition VIRTIO_F_NOTIFY_ON_EMPTY : Z := 24.
Definition VIRTQUEUE_MAX_SIZE : Z := 1024.

Record vring_desc := mk_desc {
  vd_addr : Z;
  vd_len : Z;
  vd_flags : Z;
  vd_next : Z;
}.

(** [id] and [len]. *)
Record vring_used_elem := mk_elem {
  ue_id : Z;
  ue_len : Z;
}.

(** [used]: its flags and index, the ring and the word behind it, which is
    [virtq_avail_event]. *)
Record vring_used := mk_used {
  u_flags : Z;
  u_idx : Z;
  u_ring : list vring_used_elem;
  u_avail_event : Z;
}.

(** [avail]; [av_ring] also gives the word behind the ring, [virtq_used_event]. *)
Record vring_avail := mk_avail {
  av_flags : Z;
  av_idx : Z;
  av_ring : Z -> Z;
}.

Record virt_queue := mk_vq {
  vq_ready : Z;
  vq_num : Z;
  vq_desc : Z;
  vq_avail : Z;
  vq_used : Z;
  last_avail_idx : Z;
  avail_idx : Z;
  last_used_idx : Z;
  used_flags : Z;
  signalled_used : Z;
  signalled_used_valid : Z;
  vq_index : Z;
}.

Definition set_last_avail_idx (x : Z) (q : virt_queue) : virt_queue :=
  mk_vq (vq_ready q) (vq_num q) (vq_desc q) (vq_avail q) (vq_used q) x (avail_idx q) (last_used_idx q) (used_flags q) (signalled_used q) (signalled_used_valid q) (vq_index q).
Definition set_avail_idx (x : Z) (q : virt_queue) : virt_queue :=
  mk_vq (vq_ready q) (vq_num q) (vq_desc q) (vq_avail q) (vq_used q) (last_avail_idx q) x (last_used_idx q) (used_flags q) (signalled_used q) (signalled_used_valid q) (vq_index q).
Definition set_used_state (l s v : Z) (q : virt_queue) : virt_queue :=
  mk_vq (vq_ready q) (vq_num q) (vq_desc q) (vq_avail q) (vq_used q) (last_avail_idx q) (avail_idx q) l (used_flags q) s v (vq_index q).
Definition set_vq_used_flags (x : Z) (q : virt_queue) : virt_queue :=
  mk_vq (vq_ready q) (vq_num q) (vq_desc q) (vq_avail q) (vq_used q) (last_avail_idx q) (avail_idx q) (last_used_idx q) x (signalled_used q) (signalled_used_valid q) (vq_index q).

(** ** Descriptors *)
Section chains.
Context (mmap mem_start : Z) (mapped : Z -> bool) (g : nat -> Z -> vring_desc).

Definition gpa_to_hvm_va (gpa : Z) : Z := u64 (mmap + (gpa - mem_start)).

(** The state of the walk: the number of reads so far, [iov], [*in] and [*out]. *)
Record walkst := mk_walk {
  w_time : nat;
  w_iov : list (Z * Z);
  w_in : Z;
  w_out : Z;
}.

Definition fetch (f : vring_desc -> Z) (a : Z) (s : walkst) : option (Z * walkst) :=
  if mapped a then Some (f (g (w_time s) a), mk_walk (S (w_time s)) (w_iov s) (w_in s) (w_out s)) else None.

Definition fetch_flags := fetch (fun d => u16 (vd_flags d)).

(** [-1] is [None]. *)
Definition next_desc (a : Z) (s : walkst) : option (option Z * walkst) :=
  '(flags, s) ← fetch_flags a s;
  if Z.land flags VRING_DESC_F_NEXT =? 0 then Some (None, s)
  else '(n, s) ← fetch (fun d => u16 (vd_next d)) a s; Some (Some n, s).

Definition translate_desc (a index iov_size : Z) (s : walkst) : option walkst :=
  if iov_size <=? index then Some s
  else
    '(len, s) ← fetch (fun d => u32 (vd_len d)) a s;
    '(addr, s) ← fetch (fun d => u64 (vd_addr d)) a s;
    if index <? Z.of_nat (length (w_iov s))
    then Some (mk_walk (w_time s) (<[Z.to_nat index := (gpa_to_hvm_va addr, len)]> (w_iov s)) (w_in s) (w_out s)) else None.

Definition count_desc (flags : Z) (s : walkst) : walkst :=
  if negb (Z.land flags VRING_DESC_F_WRITE =? 0) then mk_walk (w_time s) (w_iov s) (u32 (w_in s + 1)) (w_out s)
  else mk_walk (w_time s) (w_iov s) (w_in s) (u32 (w_out s + 1)).

(** [&in_desc[i]]. *)
Definition desc_at (table i : Z) : Z := table + 16 * i.

(** [desc] is the descriptor that points to the table [in_desc] of [nr_in] entries.
    One step more than the entries of [iov] is enough fuel. *)
Fixpoint indirect_loop (fuel : nat) (desc in_desc nr_in next index iov_size : Z) (s : walkst) : option (Z * walkst) :=
  match fuel with
  | O => None
  | S fuel =>
      let vd := desc_at in_desc next in
      '(flags, s) ← fetch_flags vd s;
      if negb (Z.land flags VRING_DESC_F_INDIRECT =? 0) then Some (- EINVAL, s)
      else
        s ← translate_desc vd index iov_size s;
        '(flags, s) ← fetch_flags desc s;
        let s := count_desc flags s in
        let index := index + 1 in
        if iov_size <=? index then Some (- ENOMEM, s)
        else
          '(n, s) ← next_desc vd s;
          match n with
          | None => Some (index, s)
          | Some n => if nr_in <=? n then Some (- EINVAL, s) else indirect_loop fuel desc in_desc nr_in n index iov_size s
          end
  end.

(** The index behind the entries that were filled, or the error. *)
Definition get_indirect_buf (desc index iov_size : Z) (s : walkst) : option (Z * walkst) :=
  '(len, s) ← fetch (fun d => u32 (vd_len d)) desc s;
  let nr_in := len / 16 in
  '(len, s) ← fetch (fun d => u32 (vd_len d)) desc s;
  if negb (Z.land len 0xf =? 0) || (nr_in =? 0) then Some (- EINVAL, s)
  else
    '(addr, s) ← fetch (fun d => u64 (vd_addr d)) desc s;
    '(r, s) ← indirect_loop (Z.to_nat iov_size + 1) desc (gpa_to_hvm_va addr) nr_in 0 index iov_size s;
    Some (if r <? 0 then r else r - index, s).

Fixpoint desc_loop (fuel : nat) (q : virt_queue) (i iov_index iov_size : Z) (s : walkst) : option (Z * walkst) :=
  match fuel with
  | O => None
  | S fuel =>
      if iov_size <=? iov_index then Some (- ENOMEM, s)
      else if vq_num q <=? i then Some (- EINVAL, s)
      else
        let desc := desc_at (vq_desc q) i in
        '(flags, s) ← fetch_flags desc s;
        '(ret, s) ← (if negb (Z.land flags VRING_DESC_F_INDIRECT =? 0) then get_indirect_buf desc iov_index iov_size s
                     else
                       s ← translate_desc desc iov_index iov_size s;
                       '(flags, s) ← fetch_flags desc s;
                       Some (1, count_desc flags s));
        if ret <? 0 then Some (ret, s)
        else
          '(n, s) ← next_desc desc s;
          match n with
          | None => Some (0, s)
          | Some n => desc_loop fuel q n (iov_index + ret) iov_size s
          end
  end.

(** The result, with [iov], [*in_num] and [*out_num]. *)
Definition virtq_get_descs (avail : vring_avail) (iov_size : Z) (q : virt_queue) (s : walkst) : option (Z * walkst * virt_queue) :=
  let idx := u16 (av_idx avail) in
  let q := set_avail_idx idx q in
  let count := u16 (idx - last_avail_idx q) in
  if count =? 0 then Some (vq_num q, s, q)
  else if vq_num q <? count then Some (- EINVAL, s, q)
  else
    let head := u16 (av_ring avail (Z.land (last_avail_idx q) (u32 (vq_num q - 1)))) in
    if vq_num q <=? head then Some (- EINVAL, s, q)
    else
      '(r, s) ← desc_loop (Z.to_nat iov_size + 1) q head 0 iov_size (mk_walk (w_time s) (w_iov s) 0 0);
      if r <? 0 then Some (r, s, q) else Some (head, s, set_last_avail_idx (u16 (last_avail_idx q + 1)) q).
End chains.

Definition virtq_has_descs (avail : vring_avail) (q : virt_queue) : bool := negb (u16 (av_idx avail) =? last_avail_idx q).
Definition virtq_discard_desc (n : Z) (q : virt_queue) : virt_queue := set_last_avail_idx (u16 (last_avail_idx q - n)) q.

(** ** The used ring *)

(** [memcpy] of [heads] to the ring from [start] on. *)
Definition copy_heads (start : nat) (heads : list vring_used_elem) (ring : list vring_used_elem) : option (list vring_used_elem) :=
  if decide (start + length heads <= length ring)%nat then Some (take start ring ++ heads ++ drop (start + length heads) ring) else None.

Definition __virtq_add_used_n (heads : list vring_used_elem) (q : virt_queue) (u : vring_used) : option (virt_queue * vring_used) :=
  let start := Z.land (last_used_idx q) (u32 (vq_num q - 1)) in
  ring ← copy_heads (Z.to_nat start) heads (u_ring u);
  let old := last_used_idx q in
  let new := u16 (old + Z.of_nat (length heads)) in
  let valid := if u16 (new - signalled_used q) <? u16 (new - old) then 0 else signalled_used_valid q in
  Some (set_used_state new (signalled_used q) valid q, mk_used (u_flags u) (u_idx u) ring (u_avail_event u)).

Definition virtq_add_used_n (heads : list vring_used_elem) (q : virt_queue) (u : vring_used) : option (virt_queue * vring_used) :=
  let start := Z.land (last_used_idx q) (u32 (vq_num q - 1)) in
  let n := vq_num q - start in
  '(heads, q, u) ← (if n <? Z.of_nat (length heads)
                    then '(q, u) ← __virtq_add_used_n (take (Z.to_nat n) heads) q u; Some (drop (Z.to_nat n) heads, q, u)
                    else Some (heads, q, u));
  '(q, u) ← __virtq_add_used_n heads q u;
  Some (q, mk_used (u_flags u) (last_used_idx q) (u_ring u) (u_avail_event u)).

Definition virtq_add_used (head len : Z) (q : virt_queue) (u : vring_used) : option (virt_queue * vring_used) := virtq_add_used_n [mk_elem head len] q u.

(** ** Notifications *)
Definition virtq_need_event (event_idx new_idx old_idx : Z) : bool := u16 (new_idx - event_idx - 1) <? u16 (new_idx - old_idx).

Definition virtq_has_feature (acked_features fe : Z) : bool := negb (Z.land acked_features (Z.shiftl 1 fe) =? 0).

Definition virtq_need_notify (acked_features : Z) (avail : vring_avail) (q : virt_queue) : bool * virt_queue :=
  if virtq_has_feature acked_features VIRTIO_F_NOTIFY_ON_EMPTY && (avail_idx q =? last_avail_idx q) then (true, q)
  else if negb (virtq_has_feature acked_features VIRTIO_RING_F_EVENT_IDX) then (Z.land (u16 (av_flags avail)) VRING_AVAIL_F_NO_INTERRUPT =? 0, q)
  else
    let old := signalled_used q in
    let notify := signalled_used_valid q in
    let new := last_used_idx q in
    let q := set_used_state (last_used_idx q) new 1 q in
    if notify =? 0 then (true, q)
    else (virtq_need_event (u16 (av_ring avail (vq_num q))) new old, q).

(** The result is whether another buffer has come in. *)
Definition virtq_enable_notify (acked_features : Z) (avail : vring_avail) (q : virt_queue) (u : vring_used) : bool * virt_queue * vring_used :=
  if Z.land (used_flags q) VRING_USED_F_NO_NOTIFY =? 0 then (false, q, u)
  else
    let q := set_vq_used_flags (Z.ldiff (used_flags q) VRING_USED_F_NO_NOTIFY) q in
    let u := if negb (virtq_has_feature acked_features VIRTIO_RING_F_EVENT_IDX)
             then mk_used (used_flags q) (u_idx u) (u_ring u) (u_avail_event u)
             else mk_used (u_flags u) (u_idx u) (u_ring u) (avail_idx q) in
    (negb (u16 (av_idx avail) =? avail_idx q), q, u).

(** The flags are written only if the guest does not look at them. *)
Definition virtq_disable_notify (acked_features : Z) (q : virt_queue) (u : vring_used) : virt_queue * vring_used :=
  if negb (Z.land (used_flags q) VRING_USED_F_NO_NOTIFY =? 0) then (q, u)
  else
    let q := set_vq_used_flags (Z.lor (used_flags q) VRING_USED_F_NO_NOTIFY) q in
    (q, if virtq_has_feature acked_features VIRTIO_RING_F_EVENT_IDX then mk_used (used_flags q) (u_idx u) (u_ring u) (u_avail_event u) else u).

(** ** The device *)
Definition VIRTIO_MMIO_MAGIC_VALUE : Z := 0x000.
Definition VIRTIO_MMIO_VERSION : Z := 0x004.
Definition VIRTIO_MMIO_DEVICE_ID : Z := 0x008.
Definition VIRTIO_MMIO_VENDOR_ID : Z := 0x00c.
Definition VIRTIO_MMIO_DRIVER_FEATURE1 : Z := 0x31c.
Definition VIRTIO_MMIO_MAGIG : Z := 0x74726976.
Definition VIRTIO_VENDER_ID : Z := 0x8888.
Definition VIRTIO_VERSION : Z := 2.
Definition VIRTIO_DEV_STATUS_FEATURES_OK : Z := 8.
Definition VIRTIO_MMIO_INT_VRING : Z := 1.
Definition VM_MAX_VIRTIO_DEVICES : Z := 32.
Definition VM_VIRTIO_IOMEM_BASE : Z := 0x1fe00000.

(** The registers by their offset, the queues and the features the guest has taken. *)
Record virtio_device := mk_vdevice {
  vd_regs : gmap Z Z;
  vd_guest_iomem : Z;
  vd_nr_vq : Z;
  vd_vqs : list virt_queue;
  vd_acked : Z;
}.

Definition reg (off : Z) (d : virtio_device) : Z := default 0 (vd_regs d !! off).
Definition set_reg (off v : Z) (d : virtio_device) : virtio_device := mk_vdevice (<[off := v]> (vd_regs d)) (vd_guest_iomem d) (vd_nr_vq d) (vd_vqs d) (vd_acked d).
Definition set_vqs (l : list virt_queue) (d : virtio_device) : virtio_device := mk_vdevice (vd_regs d) (vd_guest_iomem d) (vd_nr_vq d) l (vd_acked d).
Definition set_acked (x : Z) (d : virtio_device) : virtio_device := mk_vdevice (vd_regs d) (vd_guest_iomem d) (vd_nr_vq d) (vd_vqs d) x.
Definition u32_to_u64 (high low : Z) : Z := Z.lor (u64 (Z.shiftl high 32)) low.

Definition virtio_send_irq (type : Z) (d : virtio_device) : virtio_device := set_reg VIRTIO_MMIO_INTERRUPT_STATUS (Z.lor (reg VIRTIO_MMIO_INTERRUPT_STATUS d) type) d.

(** The result is whether the interrupt is sent. *)
Definition virtq_notify (avail : vring_avail) (i : Z) (d : virtio_device) : option (bool * virtio_device) :=
  q ← vd_vqs d !! Z.to_nat i;
  let '(b, q) := virtq_need_notify (vd_acked d) avail q in
  let d := set_vqs (<[Z.to_nat i := q]> (vd_vqs d)) d in
  Some (b, if (b : bool) then virtio_send_irq VIRTIO_MMIO_INT_VRING d else d).

Definition virtq_add_used_and_signal_n (avail : vring_avail) (i : Z) (heads : list vring_used_elem) (d : virtio_device) (u : vring_used) : option (bool * virtio_device * vring_used) :=
  q ← vd_vqs d !! Z.to_nat i;
  '(q, u) ← virtq_add_used_n heads q u;
  '(b, d) ← virtq_notify avail i (set_vqs (<[Z.to_nat i := q]> (vd_vqs d)) d);
  Some (b, d, u).

Definition virtq_add_used_and_signal (avail : vring_avail) (i head len : Z) (d : virtio_device) (u : vring_used) : option (bool * virtio_device * vring_used) :=
  virtq_add_used_and_signal_n avail i [mk_elem head (u32 len)] d u.

Definition virtq_reset (q : virt_queue) : virt_queue := mk_vq 0 (vq_num q) 0 0 0 0 0 0 0 0 0 (vq_index q).

(** [hook] is [ops->vq_reset]. *)
Definition virtio_device_reset (hook : virt_queue -> virt_queue) (d : virtio_device) : virtio_device := set_vqs (map (fun q => virtq_reset (hook q)) (vd_vqs d)) d.

(** [neg] is what [ops->neg_features] does. *)
Definition virtio_status_event (neg : virtio_device -> virtio_device) (arg : Z) (d : virtio_device) : Z * virtio_device :=
  if arg =? VIRTIO_DEV_STATUS_FEATURES_OK
  then (0, neg (set_acked (u32_to_u64 (reg VIRTIO_MMIO_DRIVER_FEATURE1 d) (reg VIRTIO_MMIO_DRIVER_FEATURE0 d)) d))
  else (0, d).

(** The number of the queue is tested with [>]; [callback] says whether a queue has one,
    and the queue that is called is returned. *)
Definition virtio_queue_event (callback : Z -> bool) (arg : Z) (d : virtio_device) : option (Z * option Z) :=
  if vd_nr_vq d <? arg then Some (- EINVAL, None)
  else
    q ← vd_vqs d !! Z.to_nat arg;
    if negb (callback arg) then Some (- ENOENT, None)
    else if vq_ready q =? 0 then Some (- EPERM, None)
    else Some (0, Some arg).

(** [mmap] and [mem_start] are those of the guest; [hook] is [ops->vq_init]. *)
Definition virtio_buffer_event (mmap mem_start : Z) (hook : virt_queue -> virt_queue) (arg : Z) (d : virtio_device) : option (Z * virtio_device) :=
  if vd_nr_vq d <=? arg then Some (- EINVAL, d)
  else
    q ← vd_vqs d !! Z.to_nat arg;
    let va hi lo := gpa_to_hvm_va mmap mem_start (u32_to_u64 (reg hi d) (reg lo d)) in
    let q := mk_vq 1 (reg VIRTIO_MMIO_QUEUE_NUM d) (va VIRTIO_MMIO_QUEUE_DESC_HIGH VIRTIO_MMIO_QUEUE_DESC_LOW) (va VIRTIO_MMIO_QUEUE_AVAIL_HIGH VIRTIO_MMIO_QUEUE_AVAIL_LOW)
               (va VIRTIO_MMIO_QUEUE_USED_HIGH VIRTIO_MMIO_QUEUE_USED_LOW) 0 0 0 (used_flags q) 0 0 arg in
    Some (0, set_vqs (<[Z.to_nat arg := hook q]> (vd_vqs d)) d).

(** A write of the guest that the hypervisor hands on: the result, the device and the
    queue that is called. *)
Definition mvm_mmio_write (mmap mem_start : Z) (neg : virtio_device -> virtio_device) (hook : virt_queue -> virt_queue) (callback : Z -> bool) (addr value : Z) (d : virtio_device) : option (Z * virtio_device * option Z) :=
  let arg := u32 value in
  let offset := u64 (addr - vd_guest_iomem d) in
  if offset =? VIRTIO_MMIO_STATUS then let '(r, d) := virtio_status_event neg arg d in Some (r, d, None)
  else if offset =? VIRTIO_MMIO_QUEUE_READY then '(r, d) ← virtio_buffer_event mmap mem_start hook arg d; Some (r, d, None)
  else if offset =? VIRTIO_MMIO_QUEUE_NOTIFY then '(r, c) ← virtio_queue_event callback arg d; Some (r, d, c)
  else Some (0, d, None).

Definition virtio_mmio_read : Z := - EINVAL.

Definition virtio_handle_mmio (mmap mem_start : Z) (neg : virtio_device -> virtio_device) (hook : virt_queue -> virt_queue) (callback : Z -> bool) (write addr value : Z) (d : virtio_device) : option (Z * virtio_device * option Z) :=
  if write =? VMTRAP_REASON_WRITE then mvm_mmio_write mmap mem_start neg hook callback addr value d
  else if write =? VMTRAP_REASON_READ then Some (virtio_mmio_read, d, None)
  else Some (- EINVAL, d, None).

(** ** Making a device *)

(** [index] is [virtio_device_index]; [hbase] what the hypervisor and the mapping give
    for the page, if they do. *)
Definition hv_create_virtio_device (hbase : option Z) (index : Z) : (Z + (Z * Z)) * Z :=
  if VM_MAX_VIRTIO_DEVICES <=? index then (inl (- ENOENT), index)
  else
    let gbase := VM_VIRTIO_IOMEM_BASE + index * VIRTIO_DEVICE_IOMEM_SIZE in
    match hbase with
    | None => (inl (- ENOMEM), index + 1)
    | Some h => (inr (gbase, h), index + 1)
    end.

(** [irq] is what [vdev_alloc_irq] returns. *)
Definition __virtio_vdev_init (gbase hbase type rs irq : Z) (d : virtio_device) : Z * virtio_device :=
  if (gbase =? 0) || (hbase =? 0) then (- EINVAL, d)
  else
    let d := mk_vdevice (vd_regs d) gbase (vd_nr_vq d) (vd_vqs d) (vd_acked d) in
    if irq =? 0 then (- ENOENT, d)
    else
      let rs := if VIRTQUEUE_MAX_SIZE <? rs then VIRTQUEUE_MAX_SIZE else rs in
      (0, set_reg VIRTIO_MMIO_QUEUE_NUM_MAX rs (set_reg VIRTIO_MMIO_DEVICE_ID type (set_reg VIRTIO_MMIO_VENDOR_ID VIRTIO_VENDER_ID
           (set_reg VIRTIO_MMIO_VERSION VIRTIO_VERSION (set_reg VIRTIO_MMIO_MAGIC_VALUE VIRTIO_MMIO_MAGIG d))))).

(** What the device owns: the array of queues, and the [iovec] of each of them. *)
Inductive vqs_mem := VqsNone | VqsLive (iovecs : list (option Z)) | VqsFreed.

Definition virtio_device_deinit (m : vqs_mem) : vqs_mem := match m with VqsLive _ => VqsFreed | _ => m end.

(** The result is whether all of them were allocated. *)
Fixpoint alloc_iovecs (n : nat) (iov_size : Z) (oks : list bool) : bool * list (option Z) :=
  match n, oks with
  | O, _ => (true, [])
  | S n, true :: oks => let '(b, l) := alloc_iovecs n iov_size oks in (b, Some iov_size :: l)
  | S n, _ => (false, replicate (S n) None)
  end.

(** [oks] are the results of [malloc].  When an [iovec] is missing, [ret] is still 0. *)
Definition virtio_device_init (hbase : option Z) (irq type queue_nr rs iov_size : Z) (oks : list bool) (index : Z) (d : virtio_device) : Z * vqs_mem * Z * virtio_device :=
  if (type =? 0) || (18 <? type) || ((9 <? type) && (type <? 18)) then (- EINVAL, VqsNone, index, d)
  else
    match hv_create_virtio_device hbase index with
    | (inl _, index) => (- ENOMEM, VqsNone, index, d)
    | (inr (gbase, h), index) =>
        let rs := if VIRTQUEUE_MAX_SIZE <? rs then VIRTQUEUE_MAX_SIZE else rs in
        let '(ret, d) := __virtio_vdev_init gbase h type rs irq d in
        if negb (ret =? 0) then (ret, VqsNone, index, d)
        else
          match oks with
          | true :: oks =>
              let d := mk_vdevice (vd_regs d) (vd_guest_iomem d) queue_nr (replicate (Z.to_nat queue_nr) (mk_vq 0 0 0 0 0 0 0 0 0 0 0 0)) (vd_acked d) in
              let iov_size := if VIRTQUEUE_MAX_SIZE <? iov_size then VIRTQUEUE_MAX_SIZE else iov_size in
              let '(b, l) := alloc_iovecs (Z.to_nat queue_nr) iov_size oks in
              if (b : bool) then (0, VqsLive l, index, d) else (ret, virtio_device_deinit (VqsLive l), index, d)
          | _ => (- ENOMEM, virtio_device_deinit VqsNone, index, d)
          end
    end.

(** ** Whatever the guest does *)
Section safety.
Context (mmap mem_start : Z) (mapped : Z -> bool) (g : nat -> Z -> vring_desc) (iov_size : Z) (iov0 : list (Z * Z)).
Context (Hsz : 0 <= iov_size < 2 ^ 31) (Hlen : Z.of_nat (length iov0) = iov_size).

(** The descriptors of the queue are mapped, and so are those of every table that
    one of them names as an indirect one, whenever its fields are read. *)
Definition tables_mapped (q : virt_queue) : Prop :=
  forall i, 0 <= i < vq_num q -> let d := desc_at (vq_desc q) i in mapped d = true /\
    forall t0 t1 t2 k, Z.land (u16 (vd_flags (g t0 d))) VRING_DESC_F_INDIRECT <> 0 -> 0 <= k < u32 (vd_len (g t1 d)) / 16 ->
      mapped (desc_at (gpa_to_hvm_va mmap mem_start (u64 (vd_addr (g t2 d)))) k) = true.

(** [n] entries are filled, the others are as before. *)
Definition filled (n : Z) (s : walkst) : Prop :=
  length (w_iov s) = length iov0 /\ 0 <= w_in s /\ 0 <= w_out s /\ w_in s + w_out s = n /\ drop (Z.to_nat n) (w_iov s) = drop (Z.to_nat n) iov0.

Lemma filled_fetch f a n s : mapped a = true -> filled n s -> exists t s', fetch mapped g f a s = Some (f (g t a), s') /\ filled n s'.
Proof. intros Ha H. unfold fetch. rewrite Ha. eexists _, _. split; [done|exact H]. Qed.

Lemma filled_flags a n s : mapped a = true -> filled n s -> exists t s', fetch_flags mapped g a s = Some (u16 (vd_flags (g t a)), s') /\ filled n s'.
Proof. apply (filled_fetch (fun d => u16 (vd_flags d))). Qed.

Lemma filled_next a n s : mapped a = true -> filled n s -> exists x s', next_desc mapped g a s = Some (x, s') /\ filled n s' /\ (forall y, x = Some y -> 0 <= y).
Proof.
  intros Ha H. unfold next_desc. destruct (filled_flags a n s Ha H) as (t1 & s1 & -> & H1). cbn [mbind option_bind].
  destruct (_ =? 0); [by eexists _, _|]. destruct (filled_fetch (fun d => u16 (vd_next d)) a n s1 Ha H1) as (t2 & s2 & E2 & H2). rewrite E2. cbn [mbind option_bind].
  eexists _, _. split; [done|]. split; [done|]. intros y [= <-]. apply Z.mod_pos_bound. lia.
Qed.

(** A descriptor is stored and counted. *)
Lemma filled_desc a n s : mapped a = true -> filled n s -> 0 <= n < iov_size ->
  exists s', translate_desc mmap mem_start mapped g a n iov_size s = Some s' /\
    forall d, mapped d = true -> exists flags s'', fetch_flags mapped g d s' = Some (flags, s'') /\ filled (n + 1) (count_desc flags s'').
Proof using Hsz Hlen.
  intros Ha (Hl & Hi & Ho & Hs & Hd) Hn. unfold translate_desc. rewrite (proj2 (Z.leb_gt _ _)) by lia. unfold fetch. rewrite Ha. cbn [mbind option_bind w_iov].
  rewrite (proj2 (Z.ltb_lt _ _)) by lia. eexists. split; [done|]. intros d Hd'. unfold fetch_flags, fetch. rewrite Hd'. eexists _, _. split; [done|]. unfold count_desc.
  assert (forall x, drop (Z.to_nat (n + 1)) (<[Z.to_nat n := x]> (w_iov s)) = drop (Z.to_nat (n + 1)) iov0) as E.
  { intros x. replace (Z.to_nat (n + 1)) with (1 + Z.to_nat n)%nat by lia. rewrite drop_insert_lt by lia.
    rewrite (Nat.add_comm 1), <- !drop_drop, Hd. done. }
  destruct (negb _); unfold filled; cbn [w_iov w_in w_out w_time]; (split; [by rewrite length_insert|]); rewrite u32_small by lia; repeat (split; [lia|]); apply E.
Qed.

Lemma indirect_loop_safe fuel desc in_desc nr_in : mapped desc = true -> (forall k, 0 <= k < nr_in -> mapped (desc_at in_desc k) = true) -> forall next index s,
  0 <= next < nr_in -> filled index s -> 0 <= index < iov_size -> iov_size - index < Z.of_nat fuel ->
  exists r s', indirect_loop mmap mem_start mapped g fuel desc in_desc nr_in next index iov_size s = Some (r, s')
    /\ ((r < 0 /\ length (w_iov s') = length iov0) \/ (index < r < iov_size /\ filled r s')).
Proof using Hsz Hlen.
  intros Hdm Htab. induction fuel as [|fuel IH]; intros next index s Hnext Hs Hi Hf; [lia|]. cbn [indirect_loop].
  destruct (filled_flags _ _ _ (Htab next Hnext) Hs) as (t0 & s0 & -> & H0). cbn [mbind option_bind].
  destruct (negb _); [exists (- EINVAL), s0; split; [done|]; left; split; [done|apply H0]|].
  destruct (filled_desc (desc_at in_desc next) index s0 (Htab next Hnext) H0 Hi) as (s1 & -> & H1). cbn [mbind option_bind].
  destruct (H1 desc Hdm) as (fl & s2 & -> & H2). cbn [mbind option_bind].
  destruct (Z.leb_spec iov_size (index + 1)); [eexists (- ENOMEM), _; split; [done|]; left; split; [done|apply H2]|].
  destruct (filled_next (desc_at in_desc next) _ _ (Htab next Hnext) H2) as (n & s3 & -> & H3 & Hn). cbn [mbind option_bind].
  destruct n as [n|]; [|exists (index + 1), s3; split; [done|]; right; split; [lia|done]].
  destruct (Z.leb_spec nr_in n); [exists (- EINVAL), s3; split; [done|]; left; split; [done|apply H3]|].
  destruct (IH n (index + 1) s3) as (r & s' & E & Hr); [split; [by apply Hn|lia]|done|lia|lia|]. exists r, s'. split; [done|]. destruct Hr as [Hr|[Hr1 Hr2]]; [by left|]. right. split; [lia|done].
Qed.

Lemma get_indirect_safe q i index s : tables_mapped q -> 0 <= i < vq_num q -> (exists t, Z.land (u16 (vd_flags (g t (desc_at (vq_desc q) i)))) VRING_DESC_F_INDIRECT <> 0) ->
  filled index s -> 0 <= index < iov_size ->
  exists r s', get_indirect_buf mmap mem_start mapped g (desc_at (vq_desc q) i) index iov_size s = Some (r, s')
    /\ ((r < 0 /\ length (w_iov s') = length iov0) \/ (0 < r /\ index + r < iov_size /\ filled (index + r) s')).
Proof using Hsz Hlen.
  intros Htab Hiq [t0 Ht0] Hs Hi. destruct (Htab i Hiq) as [Hd Hk]. set (desc := desc_at (vq_desc q) i) in *. unfold get_indirect_buf.
  destruct (filled_fetch (fun d => u32 (vd_len d)) desc _ _ Hd Hs) as (t1 & s1 & -> & H1). cbn [mbind option_bind].
  destruct (filled_fetch (fun d => u32 (vd_len d)) desc _ _ Hd H1) as (t2 & s2 & -> & H2). cbn [mbind option_bind].
  destruct (_ || _) eqn:Eb; [exists (- EINVAL), s2; split; [done|]; left; split; [done|apply H2]|]. apply orb_false_iff in Eb as [_ Eb%Z.eqb_neq].
  assert (0 < u32 (vd_len (g t1 desc)) / 16) by (pose proof (Z.mod_pos_bound (vd_len (g t1 desc)) (2 ^ 32)); unfold u32 in *; dlia).
  destruct (filled_fetch (fun d => u64 (vd_addr d)) desc _ _ Hd H2) as (t3 & s3 & -> & H3). cbn [mbind option_bind].
  destruct (indirect_loop_safe (Z.to_nat iov_size + 1) desc (gpa_to_hvm_va mmap mem_start (u64 (vd_addr (g t3 desc)))) (u32 (vd_len (g t1 desc)) / 16) Hd
    (fun k Hk' => Hk t0 t1 t3 k Ht0 Hk') 0 index s3) as (r & s' & -> & Hr); [lia|done|done|lia|].
  cbn [mbind option_bind]. destruct Hr as [[Hr Hl]|[Hr Hfl]].
  - rewrite (proj2 (Z.ltb_lt _ _)) by lia. exists r, s'. split; [done|]. by left.
  - rewrite (proj2 (Z.ltb_ge _ _)) by lia. exists (r - index), s'. split; [done|]. right. replace (index + (r - index)) with r by lia. split; [lia|]. split; [lia|done].
Qed.

Lemma desc_loop_safe fuel q : tables_mapped q -> forall i index s,
  0 <= i -> filled index s -> 0 <= index <= iov_size -> iov_size - index < Z.of_nat fuel ->
  exists r s', desc_loop mmap mem_start mapped g fuel q i index iov_size s = Some (r, s')
    /\ ((r < 0 /\ length (w_iov s') = length iov0) \/ (r = 0 /\ exists n, index < n <= iov_size /\ filled n s')).
Proof using Hsz Hlen.
  intros Htab. induction fuel as [|fuel IH]; intros i index s Hi0 Hs Hi Hf; [lia|]. cbn [desc_loop].
  destruct (Z.leb_spec iov_size index) as [_|Hlt]; [exists (- ENOMEM), s; split; [done|]; left; split; [done|apply Hs]|].
  destruct (Z.leb_spec (vq_num q) i) as [_|Hiq]; [exists (- EINVAL), s; split; [done|]; left; split; [done|apply Hs]|].
  assert (mapped (desc_at (vq_desc q) i) = true) as Hd by (by apply Htab).
  destruct (filled_flags _ _ _ Hd Hs) as (t0 & s0 & -> & H0). cbn [mbind option_bind].
  match goal with |- context [mbind _ ?x] => assert (exists r s1, x = Some (r, s1) /\ ((r < 0 /\ length (w_iov s1) = length iov0) \/ (0 < r /\ index + r <= iov_size /\ filled (index + r) s1))) as (r & s1 & -> & Hr) end.
  { destruct (Z.eqb_spec (Z.land (u16 (vd_flags (g t0 (desc_at (vq_desc q) i)))) VRING_DESC_F_INDIRECT) 0) as [Ez|Ez]; cbn [negb].
    - destruct (filled_desc (desc_at (vq_desc q) i) index s0 Hd H0) as (s1 & -> & H1); [lia|]. cbn [mbind option_bind]. destruct (H1 _ Hd) as (fl & s2 & -> & H2). cbn [mbind option_bind].
      eexists 1, _. split; [done|]. right. split; [lia|]. split; [lia|done].
    - destruct (get_indirect_safe q i index s0 Htab) as (r & s1 & E & Hr); [lia|by exists t0|done|lia|]. exists r, s1. split; [done|]. destruct Hr as [Hr|(Hr1 & Hr2 & Hr3)]; [by left|]. right. split; [lia|]. split; [lia|done]. }
  cbn [mbind option_bind]. destruct Hr as [[Hr Hl]|(Hr & Hle & Hfl)].
  - rewrite (proj2 (Z.ltb_lt _ _)) by lia. exists r, s1. split; [done|]. by left.
  - rewrite (proj2 (Z.ltb_ge _ _)) by lia. destruct (filled_next (desc_at (vq_desc q) i) _ _ Hd Hfl) as (n & s2 & -> & H2 & Hn). cbn [mbind option_bind].
    destruct n as [n|]; [|exists 0, s2; split; [done|]; right; split; [done|]; exists (index + r); split; [lia|done]].
    destruct (IH n (index + r) s2) as (r' & s' & E & Hr'); [by apply Hn|done|lia|lia|]. exists r', s'. split; [done|].
    destruct Hr' as [Hr'|(-> & k & Hk & Hk')]; [by left|]. right. split; [done|]. exists k. split; [lia|done].
Qed.
End safety.

(** C7: whatever the guest writes to its descriptors and rings, and whenever it does,
    as long as the descriptors of the queue and the tables that they name lie in
    mapped memory (the code does not check this, see [indirect_table_faults]), taking
    a chain of descriptors returns: it stores at most as many entries as
    there is room for and nothing else, what it counts is what it stored, and it
    moves on by one chain exactly when it returns the head of one; an empty queue and
    every error leave the position where it was. *)
Theorem virtq_get_descs_safe (mmap mem_start : Z) (mapped : Z -> bool) (g : nat -> Z -> vring_desc) (avail : vring_avail) (iov_size : Z) (q : virt_queue) (s : walkst) :
  0 <= iov_size < 2 ^ 31 -> Z.of_nat (length (w_iov s)) = iov_size -> tables_mapped mmap mem_start mapped g q ->
  exists r s' q', virtq_get_descs mmap mem_start mapped g avail iov_size q s = Some (r, s', q')
    /\ length (w_iov s') = length (w_iov s)
    /\ ((r = vq_num q /\ w_iov s' = w_iov s /\ last_avail_idx q' = last_avail_idx q /\ u16 (av_idx avail - last_avail_idx q) = 0)
        \/ (r < 0 /\ last_avail_idx q' = last_avail_idx q)
        \/ (0 <= r < vq_num q /\ last_avail_idx q' = u16 (last_avail_idx q + 1)
            /\ exists n, 0 < n <= iov_size /\ w_in s' + w_out s' = n /\ 0 <= w_in s' /\ 0 <= w_out s' /\ drop (Z.to_nat n) (w_iov s') = drop (Z.to_nat n) (w_iov s))).
Proof.
  intros Hsz Hlen Htab. unfold virtq_get_descs. cbn [set_avail_idx last_avail_idx vq_num].
  destruct (Z.eqb_spec (u16 (u16 (av_idx avail) - last_avail_idx q)) 0) as [E|_].
  { eexists _, _, _. split; [done|]. split; [done|]. left. do 3 (split; [done|]). revert E. unfold u16. by rewrite Zminus_mod_idemp_l. }
  destruct (_ <? _); [eexists _, _, _; split; [done|]; split; [done|]; right; left; by split|].
  set (head := u16 _). destruct (Z.leb_spec (vq_num q) head) as [_|Hh]; [eexists _, _, _; split; [done|]; split; [done|]; right; left; by split|].
  assert (0 <= head) as Hh0 by (apply Z.mod_pos_bound; lia).
  set (q1 := set_avail_idx _ q). assert (tables_mapped mmap mem_start mapped g q1) as Htab1 by exact Htab.
  destruct (desc_loop_safe mmap mem_start mapped g iov_size (w_iov s) Hsz Hlen (Z.to_nat iov_size + 1) q1 Htab1 head 0 (mk_walk (w_time s) (w_iov s) 0 0)) as (r & s' & -> & Hr); [done|done|lia|lia|].
  cbn [mbind option_bind]. destruct Hr as [[Hr Hl]|(-> & n & Hn & Hl & Hi & Ho & Hs & Hd)].
  - rewrite (proj2 (Z.ltb_lt _ _)) by lia. eexists _, _, _. split; [done|]. split; [done|]. right; left. by split.
  - change (0 <? 0) with false. cbv iota. eexists _, _, _. split; [done|]. split; [done|]. right; right. split; [lia|]. split; [done|]. exists n. split; [lia|]. done.
Qed.

(** A guest that names a table outside of the memory of the monitor stops it: the
    first entry of the table is read without a check of its address. *)
Lemma indirect_table_faults (mmap mem_start : Z) (mapped : Z -> bool) (d : vring_desc) (avail : vring_avail) (iov_size : Z) (q : virt_queue) (s : walkst) :
  let head := u16 (av_ring avail (Z.land (last_avail_idx q) (u32 (vq_num q - 1)))) in
  0 < iov_size -> 0 < u16 (av_idx avail - last_avail_idx q) <= vq_num q -> head < vq_num q ->
  Z.land (u16 (vd_flags d)) VRING_DESC_F_INDIRECT <> 0 -> Z.land (u32 (vd_len d)) 0xf = 0 -> u32 (vd_len d) / 16 <> 0 ->
  mapped (desc_at (gpa_to_hvm_va mmap mem_start (u64 (vd_addr d))) 0) = false ->
  virtq_get_descs mmap mem_start mapped (fun _ _ => d) avail iov_size q s = None.
Proof.
  intros head Hsz Hcnt Hh Hi Hl Hn Hm. unfold virtq_get_descs. cbn [set_avail_idx last_avail_idx vq_num].
  assert (u16 (u16 (av_idx avail) - last_avail_idx q) = u16 (av_idx avail - last_avail_idx q)) as -> by (unfold u16; by rewrite Zminus_mod_idemp_l).
  rewrite (proj2 (Z.eqb_neq _ _)), (proj2 (Z.ltb_ge _ _)) by lia. fold head. rewrite (proj2 (Z.leb_gt _ _)) by lia. rewrite Nat.add_1_r. cbn [desc_loop set_avail_idx vq_num vq_desc].
  rewrite (proj2 (Z.leb_gt _ _)), (proj2 (Z.leb_gt _ _)) by lia.
  assert (forall a s, fetch_flags mapped (fun _ _ => d) a s = if mapped a then Some (u16 (vd_flags d), mk_walk (S (w_time s)) (w_iov s) (w_in s) (w_out s)) else None) as Hf by done.
  rewrite Hf. destruct (mapped (desc_at (vq_desc q) head)) eqn:Em; [|done]. cbn [mbind option_bind].
  rewrite (proj2 (Z.eqb_neq _ _) Hi). cbn [negb]. unfold get_indirect_buf, fetch. rewrite Em. cbn [mbind option_bind]. rewrite Hl, (proj2 (Z.eqb_neq _ _) Hn). cbn [negb orb Z.eqb].
  cbn [mbind option_bind]. rewrite Nat.add_1_r. cbn [indirect_loop]. by rewrite Hf, Hm.
Qed.

(** ** Chains that stay as they are *)
Definition has (bit : Z) (d : vring_desc) : bool := negb (Z.land (u16 (vd_flags d)) bit =? 0).

Section memory.
Context (mmap mem_start : Z) (mapped : Z -> bool) (m : Z -> vring_desc).

(** What a descriptor becomes in [iov]. *)
Definition entry (d : vring_desc) : Z * Z := (gpa_to_hvm_va mmap mem_start (u64 (vd_addr d)), u32 (vd_len d)).

(** The chain of descriptors in a table of [nr_in] from entry [i] on, in mapped
    memory. *)
Inductive ichain (in_desc nr_in : Z) : Z -> list vring_desc -> Prop :=
| ichain_end i : mapped (desc_at in_desc i) = true -> has VRING_DESC_F_INDIRECT (m (desc_at in_desc i)) = false -> has VRING_DESC_F_NEXT (m (desc_at in_desc i)) = false ->
    ichain in_desc nr_in i [m (desc_at in_desc i)]
| ichain_next i l : mapped (desc_at in_desc i) = true -> has VRING_DESC_F_INDIRECT (m (desc_at in_desc i)) = false -> has VRING_DESC_F_NEXT (m (desc_at in_desc i)) = true ->
    u16 (vd_next (m (desc_at in_desc i))) < nr_in -> ichain in_desc nr_in (u16 (vd_next (m (desc_at in_desc i)))) l ->
    ichain in_desc nr_in i (m (desc_at in_desc i) :: l).

(** The buffers of one descriptor of the queue, with whether they are counted as
    written by the device; a table takes this from the descriptor that points to it. *)
Inductive segment (d : vring_desc) : list (vring_desc * bool) -> Prop :=
| seg_direct : has VRING_DESC_F_INDIRECT d = false -> segment d [(d, has VRING_DESC_F_WRITE d)]
| seg_indirect l : has VRING_DESC_F_INDIRECT d = true -> Z.land (u32 (vd_len d)) 0xf = 0 -> u32 (vd_len d) / 16 <> 0 ->
    ichain (gpa_to_hvm_va mmap mem_start (u64 (vd_addr d))) (u32 (vd_len d) / 16) 0 l -> segment d (map (fun x => (x, has VRING_DESC_F_WRITE d)) l).

Inductive chain (q : virt_queue) : Z -> list (vring_desc * bool) -> Prop :=
| chain_end i l : i < vq_num q -> mapped (desc_at (vq_desc q) i) = true -> segment (m (desc_at (vq_desc q) i)) l -> has VRING_DESC_F_NEXT (m (desc_at (vq_desc q) i)) = false -> chain q i l
| chain_next i l l' : i < vq_num q -> mapped (desc_at (vq_desc q) i) = true -> segment (m (desc_at (vq_desc q) i)) l -> has VRING_DESC_F_NEXT (m (desc_at (vq_desc q) i)) = true ->
    chain q (u16 (vd_next (m (desc_at (vq_desc q) i)))) l' -> chain q i (l ++ l').

Definition count_w (b : bool) (l : list (vring_desc * bool)) : Z := Z.of_nat (length (filter (fun x => x.2 = b) l)).

(** The entries from [n] on are those of [l]. *)
Definition extends (n : nat) (l : list (vring_desc * bool)) (s s' : walkst) : Prop :=
  w_iov s' = take n (w_iov s) ++ map (fun x => entry x.1) l ++ drop (n + length l) (w_iov s)
  /\ w_in s' = w_in s + count_w true l /\ w_out s' = w_out s + count_w false l.

Lemma count_w_app b l1 l2 : count_w b (l1 ++ l2) = count_w b l1 + count_w b l2.
Proof. unfold count_w. rewrite list.filter_app, length_app. lia. Qed.

Lemma count_w_single b c d : count_w c [(d, b)] = b2z (Bool.eqb b c).
Proof. by destruct b, c. Qed.

Lemma extends_trans n l1 l2 s s1 s2 : (n + length l1 <= length (w_iov s))%nat -> extends n l1 s s1 -> extends (n + length l1) l2 s1 s2 -> extends n (l1 ++ l2) s s2.
Proof.
  intros Hl (E1 & I1 & O1) (E2 & I2 & O2). split; [|rewrite I2, I1, O2, O1, !count_w_app; lia]. rewrite app_assoc in E1. set (W := take n (w_iov s) ++ map (fun x => entry x.1) l1) in *.
  assert (length W = (n + length l1)%nat) as L by (unfold W; rewrite length_app, length_take, length_map; lia).
  rewrite E2, E1, <- L, take_app_length, <- drop_drop, drop_app_length, drop_drop, map_app, length_app. subst W. rewrite <- !app_assoc. do 3 f_equal. f_equal. lia.
Qed.

Definition counts_ok (n : nat) (s : walkst) : Prop := 0 <= w_in s /\ 0 <= w_out s /\ w_in s + w_out s <= Z.of_nat n.

Lemma extends_ok n l s s' : extends n l s s' -> (n + length l <= length (w_iov s))%nat -> counts_ok n s -> counts_ok (n + length l) s' /\ length (w_iov s') = length (w_iov s).
Proof.
  intros (E & I & O) Hl (H1 & H2 & H3). split.
  - assert (count_w true l + count_w false l = Z.of_nat (length l)) as C.
    { clear. unfold count_w. induction l as [|[d b] l IH]; [done|]. rewrite !list.filter_cons. cbn [snd]. destruct b; repeat (destruct (decide _); try done); cbn [length]; lia. }
    unfold counts_ok. rewrite I, O. unfold count_w in *. lia.
  - rewrite E, !length_app, length_take, length_map, length_drop. lia.
Qed.

Abbreviation G := (fun (_ : nat) => m).

Lemma flags_static a s : mapped a = true -> fetch_flags mapped G a s = Some (u16 (vd_flags (m a)), mk_walk (S (w_time s)) (w_iov s) (w_in s) (w_out s)).
Proof. intros Ha. unfold fetch_flags, fetch. by rewrite Ha. Qed.

Lemma next_desc_static a s : mapped a = true ->
  exists s', next_desc mapped G a s = Some ((if has VRING_DESC_F_NEXT (m a) then Some (u16 (vd_next (m a))) else None), s') /\ w_iov s' = w_iov s /\ w_in s' = w_in s /\ w_out s' = w_out s.
Proof. intros Ha. unfold next_desc, fetch_flags, fetch, has. rewrite Ha. cbn [mbind option_bind w_time]. destruct (_ =? 0); eexists; done. Qed.

(** Same contents, at another time. *)
Definition same (s s' : walkst) : Prop := w_iov s' = w_iov s /\ w_in s' = w_in s /\ w_out s' = w_out s.

Lemma extends_same n l s0 s s1 s2 : same s0 s -> extends n l s s1 -> same s1 s2 -> extends n l s0 s2.
Proof. intros (A1 & A2 & A3) (B1 & B2 & B3) (C1 & C2 & C3). split; [congruence|]. split; congruence. Qed.

Lemma store_static a fl n iov_size s : mapped a = true -> counts_ok n s -> (n < length (w_iov s))%nat -> Z.of_nat (length (w_iov s)) = iov_size -> iov_size < 2 ^ 31 ->
  exists s', translate_desc mmap mem_start mapped G a (Z.of_nat n) iov_size s = Some s'
    /\ extends n [(m a, negb (Z.land fl VRING_DESC_F_WRITE =? 0))] s (count_desc fl s').
Proof.
  intros Ha (H1 & H2 & H3) Hn Hsz Hb. unfold translate_desc, fetch. rewrite (proj2 (Z.leb_gt _ _)) by lia. rewrite Ha. cbn [mbind option_bind w_iov]. rewrite (proj2 (Z.ltb_lt _ _)) by lia.
  eexists. split; [done|]. rewrite Nat2Z.id. unfold count_desc. destruct (negb _); unfold extends; rewrite !count_w_single; cbn [w_iov w_in w_out w_time Bool.eqb b2z length map fst];
    rewrite ?(u32_small (w_in s + 1)), ?(u32_small (w_out s + 1)) by lia; (split; [|lia]); rewrite insert_take_drop by done; (replace (n + 1)%nat with (S n) by lia); done.
Qed.

(** One entry of a table. *)
Lemma indirect_head fuel desc in_desc nr_in iov_size i n s : mapped desc = true -> mapped (desc_at in_desc i) = true -> has VRING_DESC_F_INDIRECT (m (desc_at in_desc i)) = false ->
  iov_size < 2 ^ 31 -> counts_ok n s -> Z.of_nat (length (w_iov s)) = iov_size -> Z.of_nat (n + 1) < iov_size ->
  exists s', extends n [(m (desc_at in_desc i), has VRING_DESC_F_WRITE (m desc))] s s'
    /\ indirect_loop mmap mem_start mapped G (S fuel) desc in_desc nr_in i (Z.of_nat n) iov_size s
      = if has VRING_DESC_F_NEXT (m (desc_at in_desc i))
        then let nx := u16 (vd_next (m (desc_at in_desc i))) in
             if nr_in <=? nx then Some (- EINVAL, s') else indirect_loop mmap mem_start mapped G fuel desc in_desc nr_in nx (Z.of_nat (n + 1)) iov_size s'
        else Some (Z.of_nat (n + 1), s').
Proof.
  intros Hmd Hmi Hi Hb Hok Hsz Hle. cbn [indirect_loop]. rewrite (flags_static _ _ Hmi). cbn [mbind option_bind]. fold (has VRING_DESC_F_INDIRECT (m (desc_at in_desc i))). rewrite Hi.
  set (s0 := mk_walk _ _ _ _). destruct (store_static (desc_at in_desc i) (u16 (vd_flags (m desc))) n iov_size s0) as (s1 & -> & Hx); [done|done|cbn; lia|done|done|].
  cbn [mbind option_bind]. rewrite (flags_static _ _ Hmd). cbn [mbind option_bind]. set (s2 := count_desc _ _). rewrite (proj2 (Z.leb_gt _ _)) by lia.
  destruct (next_desc_static (desc_at in_desc i) s2 Hmi) as (s3 & -> & Hs3). cbn [mbind option_bind]. exists s3. split.
  - eapply (extends_same _ _ s s0); [done|exact Hx|]. destruct Hs3 as (S1 & S2 & S3). unfold same. rewrite S1, S2, S3. unfold s2, count_desc. by destruct (negb _).
  - replace (Z.of_nat n + 1) with (Z.of_nat (n + 1)) by lia. by destruct (has VRING_DESC_F_NEXT _).
Qed.

Lemma indirect_static desc in_desc nr_in iov_size next l : mapped desc = true -> ichain in_desc nr_in next l -> forall fuel n s, iov_size < 2 ^ 31 ->
  counts_ok n s -> Z.of_nat (length (w_iov s)) = iov_size -> Z.of_nat (n + length l) < iov_size -> (length l <= fuel)%nat ->
  exists s', indirect_loop mmap mem_start mapped G fuel desc in_desc nr_in next (Z.of_nat n) iov_size s = Some (Z.of_nat (n + length l), s')
    /\ extends n (map (fun x => (x, has VRING_DESC_F_WRITE (m desc))) l) s s'.
Proof.
  intros Hmd. induction 1 as [i Hmi Hi Hn|i l Hmi Hi Hn Hlt Hc IH]; intros fuel n s Hb Hok Hsz Hle Hf; (destruct fuel as [|fuel]; [cbn in Hf; lia|]); cbn [length] in *;
    (destruct (indirect_head fuel desc in_desc nr_in iov_size i n s Hmd Hmi Hi) as (s3 & Hx3 & ->); [done|done|done|lia|]); rewrite Hn; [by exists s3|]. cbv zeta.
  rewrite (proj2 (Z.leb_gt _ _)) by lia. destruct (extends_ok _ _ _ _ Hx3) as [Hok3 Hl3]; [cbn; lia|done|]. cbn [length] in Hok3.
  destruct (IH fuel (n + 1)%nat s3) as (s' & -> & Hx'); [done|done|lia|lia|lia|]. exists s'. split; [do 2 f_equal; lia|].
  rewrite map_cons. change (?x :: map ?f l) with ([x] ++ map f l). eapply extends_trans; [cbn; lia|exact Hx3|exact Hx'].
Qed.

Lemma segment_static q i iov_size l n s : mapped (desc_at (vq_desc q) i) = true -> segment (m (desc_at (vq_desc q) i)) l -> iov_size < 2 ^ 31 -> counts_ok n s -> Z.of_nat (length (w_iov s)) = iov_size -> Z.of_nat (n + length l) < iov_size ->
  exists s', (if negb (Z.land (u16 (vd_flags (m (desc_at (vq_desc q) i)))) VRING_DESC_F_INDIRECT =? 0) then get_indirect_buf mmap mem_start mapped G (desc_at (vq_desc q) i) (Z.of_nat n) iov_size s
              else s ← translate_desc mmap mem_start mapped G (desc_at (vq_desc q) i) (Z.of_nat n) iov_size s;
                   '(flags, s) ← fetch_flags mapped G (desc_at (vq_desc q) i) s; Some (1, count_desc flags s)) = Some (Z.of_nat (length l), s')
    /\ extends n l s s'.
Proof.
  intros Hmd Hseg Hb Hok Hsz Hle. set (d := desc_at (vq_desc q) i) in *. fold (has VRING_DESC_F_INDIRECT (m d)). destruct Hseg as [Hd|l Hd H16 Hnr Hc]; rewrite Hd.
  - destruct (store_static d (u16 (vd_flags (m d))) n iov_size s) as (s1 & -> & Hx); [done|done|cbn in Hle; lia|done|done|]. cbn [mbind option_bind]. rewrite (flags_static _ _ Hmd). cbn [mbind option_bind].
    eexists. split; [done|]. eapply extends_same; [done|exact Hx|]. unfold same, count_desc. by destruct (negb _).
  - rewrite length_map in *. unfold get_indirect_buf, fetch. rewrite Hmd. cbn [mbind option_bind w_time]. rewrite H16, (proj2 (Z.eqb_neq (u32 (vd_len (m d)) / 16) 0) Hnr). cbn [negb orb Z.eqb mbind option_bind].
    set (s0 := mk_walk _ _ _ _). destruct (indirect_static d _ _ iov_size _ _ Hmd Hc (Z.to_nat iov_size + 1) n s0 Hb) as (s' & -> & Hx); [done|done|done|lia|].
    cbn [mbind option_bind]. rewrite (proj2 (Z.ltb_ge _ _)) by lia. exists s'. split; [do 2 f_equal; lia|]. by eapply (extends_same _ _ s s0).
Qed.

Lemma chain_static q iov_size i l : chain q i l -> forall fuel n s, iov_size < 2 ^ 31 ->
  counts_ok n s -> Z.of_nat (length (w_iov s)) = iov_size -> Z.of_nat (n + length l) < iov_size -> (length l < fuel)%nat ->
  exists s', desc_loop mmap mem_start mapped G fuel q i (Z.of_nat n) iov_size s = Some (0, s') /\ extends n l s s'.
Proof.
  assert (forall d l, segment d l -> 0 < length l)%nat as Hpos by (intros d l0 [|l1 _ _ _ []]; cbn; lia).
  induction 1 as [i l Hi Hmi Hseg Hn|i l l' Hi Hmi Hseg Hn Hc IH]; intros fuel n s Hb Hok Hsz Hle Hf; (destruct fuel as [|fuel]; [lia|]); cbn [desc_loop]; rewrite ?length_app in *; pose proof (Hpos _ _ Hseg) as Hp;
    rewrite (proj2 (Z.leb_gt _ _)), (proj2 (Z.leb_gt _ _)) by lia; rewrite (flags_static _ _ Hmi); cbn [mbind option_bind]; set (s0 := mk_walk _ _ _ _);
    (destruct (segment_static q i iov_size l n s0 Hmi Hseg Hb) as (s1 & -> & Hx); [done|done|lia|]); cbn [mbind option_bind]; rewrite (proj2 (Z.ltb_ge _ _)) by lia;
    destruct (next_desc_static (desc_at (vq_desc q) i) s1 Hmi) as (s2 & -> & Hs2); cbn [mbind option_bind]; rewrite Hn;
    assert (extends n l s s2) as Hx2 by (by eapply (extends_same _ _ s s0)).
  - by exists s2.
  - destruct (extends_ok _ _ _ _ Hx2) as [Hok2 Hl2]; [lia|done|]. replace (Z.of_nat n + Z.of_nat (length l)) with (Z.of_nat (n + length l)) by lia.
    destruct (IH fuel (n + length l)%nat s2) as (s' & -> & Hx'); [done|done|lia|lia|lia|]. exists s'. split; [done|]. eapply extends_trans; [lia|done|done].
Qed.

Lemma chain_avail_idx q x h l : chain q h l -> chain (set_avail_idx x q) h l.
Proof. induction 1; [by apply chain_end|by apply chain_next]. Qed.

(** A chain that the guest has made available and that fits is taken as it is: the
    entries are its buffers in order, direct or in a table, as host addresses, and
    they are counted as buffers to read and to write. *)
Theorem virtq_get_descs_chain avail iov_size q s l :
  0 <= iov_size < 2 ^ 31 -> Z.of_nat (length (w_iov s)) = iov_size -> Z.of_nat (length l) < iov_size ->
  0 < u16 (av_idx avail - last_avail_idx q) <= vq_num q ->
  let head := u16 (av_ring avail (Z.land (last_avail_idx q) (u32 (vq_num q - 1)))) in
  chain q head l ->
  exists s', virtq_get_descs mmap mem_start mapped G avail iov_size q s = Some (head, s', set_last_avail_idx (u16 (last_avail_idx q + 1)) (set_avail_idx (u16 (av_idx avail)) q))
    /\ w_iov s' = map (fun x => entry x.1) l ++ drop (length l) (w_iov s)
    /\ w_in s' = count_w true l /\ w_out s' = count_w false l.
Proof.
  intros Hsz Hlen Hl Hcnt head Hc. assert (head < vq_num q) as Hh by (by destruct Hc). unfold virtq_get_descs. cbn [set_avail_idx last_avail_idx vq_num].
  assert (u16 (u16 (av_idx avail) - last_avail_idx q) = u16 (av_idx avail - last_avail_idx q)) as -> by (unfold u16; by rewrite Zminus_mod_idemp_l).
  rewrite (proj2 (Z.eqb_neq _ _)), (proj2 (Z.ltb_ge _ _)) by lia. fold head. rewrite (proj2 (Z.leb_gt _ _)) by lia.
  destruct (chain_static _ iov_size head l (chain_avail_idx _ (u16 (av_idx avail)) _ _ Hc) (Z.to_nat iov_size + 1) 0 (mk_walk (w_time s) (w_iov s) 0 0)) as (s' & E & Ev & Ei & Eo); [lia|done|done|done|lia|].
  change (Z.of_nat 0) with 0 in E. rewrite E. cbn [mbind option_bind]. change (0 <? 0) with false. cbv iota. exists s'. split; [done|].
  rewrite Ev, Ei, Eo. done.
Qed.
End memory.

(** ** The used ring in order *)

(** A queue whose size is a power of two, with its ring. *)
Definition ring_ok (q : virt_queue) (u : vring_used) : Prop :=
  (exists k, 0 <= k <= 15 /\ vq_num q = 2 ^ k) /\ Z.of_nat (length (u_ring u)) = vq_num q /\ 0 <= last_used_idx q < 2 ^ 16.

Lemma mod_num q x : (exists k, 0 <= k <= 15 /\ vq_num q = 2 ^ k) -> 0 < vq_num q <= 2 ^ 15 /\ Z.land x (u32 (vq_num q - 1)) = x mod vq_num q /\ u16 x mod vq_num q = x mod vq_num q.
Proof.
  intros (k & Hk & E). assert (0 < 2 ^ k <= 2 ^ 15) as Hb by (split; [apply Z.pow_pos_nonneg; lia|apply Z.pow_le_mono_r; lia]). rewrite E, u32_small, land_pow_pred by lia.
  split; [done|]. split; [done|]. unfold u16. replace (2 ^ 16) with (2 ^ k * 2 ^ (16 - k)) by (rewrite <- Z.pow_add_r by lia; f_equal; lia).
  rewrite Z.rem_mul_r by (lia || apply Z.pow_pos_nonneg; lia). rewrite Z.mul_comm, Z.mod_add by lia. apply Z.mod_mod. lia.
Qed.

Lemma copy_heads_lookup start heads ring : (start + length heads <= length ring)%nat ->
  exists ring', copy_heads start heads ring = Some ring' /\ length ring' = length ring
    /\ forall j, ring' !! j = if decide (start <= j < start + length heads)%nat then heads !! (j - start)%nat else ring !! j.
Proof.
  intros H. unfold copy_heads. rewrite decide_True by done. eexists. split; [done|]. split; [rewrite !length_app, length_take, length_drop; lia|]. intros j.
  destruct (decide (j < start)%nat).
  - rewrite decide_False, lookup_app_l, lookup_take_lt by (rewrite ?length_take; lia). done.
  - rewrite lookup_app_r, length_take, Nat.min_l by (rewrite ?length_take; lia). case_decide.
    + rewrite lookup_app_l by lia. done.
    + rewrite lookup_app_r by lia. rewrite lookup_drop. f_equal. lia.
Qed.

(** The elements at the positions from [last] on, around the ring. *)
Definition put_used (last num : Z) (heads ring ring' : list vring_used_elem) : Prop :=
  length ring' = length ring /\ forall j, 0 <= j < num ->
    ring' !! Z.to_nat j = let k := (j - last) mod num in if k <? Z.of_nat (length heads) then heads !! Z.to_nat k else ring !! Z.to_nat j.

Lemma add_part heads q u : ring_ok q u -> last_used_idx q mod vq_num q + Z.of_nat (length heads) <= vq_num q ->
  exists q' u', __virtq_add_used_n heads q u = Some (q', u') /\ vq_num q' = vq_num q /\ last_used_idx q' = u16 (last_used_idx q + Z.of_nat (length heads))
    /\ ring_ok q' u' /\ put_used (last_used_idx q) (vq_num q) heads (u_ring u) (u_ring u').
Proof.
  intros (Hn & Hl & Hu) Hle. destruct (mod_num q (last_used_idx q) Hn) as (Hb & E & _). unfold __virtq_add_used_n. rewrite E.
  set (st := last_used_idx q mod vq_num q) in *. assert (0 <= st < vq_num q) as Hst by (apply Z.mod_pos_bound; lia).
  destruct (copy_heads_lookup (Z.to_nat st) heads (u_ring u)) as (ring' & -> & Hlr & Hlk); [lia|]. cbn [mbind option_bind].
  eexists _, _. split; [done|]. split; [done|]. split; [done|]. split; [split; [done|]; split; [cbn; lia|]; cbn; apply Z.mod_pos_bound; lia|].
  split; [done|]. intros j Hj. cbn [u_ring]. rewrite Hlk. cbv zeta. destruct (decide (st <= j < st + Z.of_nat (length heads))).
  - rewrite decide_True by lia. assert ((j - last_used_idx q) mod vq_num q = j - st) as ->.
    { rewrite <- Zminus_mod_idemp_r. fold st. apply Z.mod_small. lia. }
    rewrite (proj2 (Z.ltb_lt _ _)) by lia. f_equal. lia.
  - rewrite decide_False by lia. rewrite (proj2 (Z.ltb_ge _ _)); [done|]. rewrite <- Zminus_mod_idemp_r. fold st. destruct (decide (j < st)).
    + rewrite <- (Z.mod_add _ 1), Z.mul_1_l, Z.mod_small by lia. lia.
    + rewrite Z.mod_small by lia. lia.
Qed.

Lemma add_used_spec heads q u : ring_ok q u -> Z.of_nat (length heads) <= vq_num q ->
  exists q' u', virtq_add_used_n heads q u = Some (q', u') /\ vq_num q' = vq_num q /\ last_used_idx q' = u16 (last_used_idx q + Z.of_nat (length heads)) /\ u_idx u' = last_used_idx q'
    /\ ring_ok q' u' /\ put_used (last_used_idx q) (vq_num q) heads (u_ring u) (u_ring u').
Proof.
  intros Hok Hle. pose proof Hok as (Hn & Hl & Hu). destruct (mod_num q (last_used_idx q) Hn) as (Hb & E & _). unfold virtq_add_used_n. rewrite E.
  set (st := last_used_idx q mod vq_num q) in *. assert (0 <= st < vq_num q) as Hst by (apply Z.mod_pos_bound; lia).
  destruct (Z.ltb_spec (vq_num q - st) (Z.of_nat (length heads))) as [Hlt|Hge].
  - set (n := Z.to_nat (vq_num q - st)). assert (length (take n heads) = n) as L1 by (rewrite length_take; lia). assert (length (drop n heads) = (length heads - n)%nat) as L2 by apply length_drop.
    destruct (add_part (take n heads) q u Hok) as (q1 & u1 & -> & N1 & I1 & Hok1 & P1 & Q1); [fold st; lia|]. cbn [mbind option_bind].
    assert (last_used_idx q1 mod vq_num q = 0) as Z1.
    { rewrite I1, L1. destruct (mod_num q (last_used_idx q + Z.of_nat n) Hn) as (_ & _ & ->). replace (last_used_idx q + Z.of_nat n) with ((last_used_idx q / vq_num q + 1) * vq_num q); [apply Z.mod_mul; lia|].
      pose proof (Z.div_mod (last_used_idx q) (vq_num q) ltac:(lia)). fold st in H. lia. }
    destruct (add_part (drop n heads) q1 u1 Hok1) as (q2 & u2 & -> & N2 & I2 & Hok2 & P2 & Q2); [rewrite N1, Z1; lia|]. cbn [mbind option_bind].
    eexists _, _. split; [done|]. split; [congruence|]. split; [rewrite I2, I1, L1, L2; unfold u16; rewrite Zplus_mod_idemp_l; f_equal; lia|]. split; [done|].
    split; [by destruct Hok2 as (A & B & C)|]. split; [cbn; congruence|]. cbn [u_ring]. intros j Hj. cbv zeta. rewrite Q2, N1 by lia. cbv zeta.
    replace ((j - last_used_idx q1) mod vq_num q) with j by (rewrite <- Zminus_mod_idemp_r, Z1, Z.sub_0_r, Z.mod_small by lia; done).
    rewrite L2, Q1 by lia. cbv zeta. rewrite L1. rewrite <- (Zminus_mod_idemp_r j (last_used_idx q)). fold st. destruct (decide (j < st)).
    + rewrite <- (Z.mod_add (j - st) 1), Z.mul_1_l, Z.mod_small by lia. destruct (Z.ltb_spec j (Z.of_nat (length heads - n))).
      * rewrite (proj2 (Z.ltb_lt _ _)) by lia. rewrite lookup_drop. f_equal. lia.
      * rewrite (proj2 (Z.ltb_ge _ _)), (proj2 (Z.ltb_ge _ _)) by lia. done.
    + rewrite Z.mod_small by lia. rewrite (proj2 (Z.ltb_ge j _)), (proj2 (Z.ltb_lt _ (Z.of_nat n))), (proj2 (Z.ltb_lt _ _)) by lia. rewrite lookup_take_lt by lia. done.
  - cbn [mbind option_bind]. destruct (add_part heads q u Hok) as (q1 & u1 & -> & N1 & I1 & Hok1 & P1); [fold st; lia|]. cbn [mbind option_bind].
    eexists _, _. split; [done|]. split; [done|]. split; [done|]. split; [done|]. split; [by destruct Hok1 as (A & B & C)|done].
Qed.

(** ** No notification is lost *)
Lemma need_event_spec event new old : 0 <= event < 2 ^ 16 ->
  virtq_need_event event new old = true <-> exists j, 0 <= j < u16 (new - old) /\ u16 (old + j) = event.
Proof.
  intros He. unfold virtq_need_event, u16. rewrite Z.ltb_lt. set (d := (new - old) mod 2 ^ 16). set (e := (new - event - 1) mod 2 ^ 16).
  assert (0 <= d < 2 ^ 16) as Hd by (apply Z.mod_pos_bound; lia). assert (0 <= e < 2 ^ 16) as Hee by (apply Z.mod_pos_bound; lia).
  assert (forall j, 0 <= j < d -> (old + j) mod 2 ^ 16 = (new - 1 - (d - 1 - j)) mod 2 ^ 16) as Hj.
  { intros j Hj. unfold d. replace (new - 1 - ((new - old) mod 2 ^ 16 - 1 - j)) with (new + j - (new - old) mod 2 ^ 16) by lia. rewrite Zminus_mod_idemp_r. f_equal. lia. }
  assert ((new - 1 - e) mod 2 ^ 16 = event) as Hev.
  { unfold e. rewrite Zminus_mod_idemp_r. replace (new - 1 - (new - event - 1)) with event by lia. by apply Z.mod_small. }
  split.
  - intros Hlt. exists (d - 1 - e). split; [lia|]. rewrite Hj by lia. by replace (d - 1 - (d - 1 - e)) with e by lia.
  - intros (j & Hjd & E). rewrite Hj in E by done. assert (e = d - 1 - j) as ->; [|lia]. unfold e. rewrite <- E, <- (Zminus_mod_idemp_l (new - _)), Zminus_mod_idemp_r, Zminus_mod_idemp_l.
    replace (new - (new - 1 - (d - 1 - j)) - 1) with (d - 1 - j) by lia. apply Z.mod_small. lia.
Qed.

(** [T] elements were ever used, [S] of them when its event index was last looked
    at. *)
Definition used_inv (T S : Z) (q : virt_queue) : Prop :=
  last_used_idx q = u16 T /\ S <= T
  /\ (signalled_used_valid q = 0 \/ (signalled_used_valid q = 1 /\ signalled_used q = u16 S /\ T - S < 2 ^ 16)).

Lemma u16_diff a b : u16 (u16 a - u16 b) = u16 (a - b).
Proof. unfold u16. by rewrite Zminus_mod_idemp_l, Zminus_mod_idemp_r. Qed.

Lemma part_inv T S heads q u q' u' : used_inv T S q -> Z.of_nat (length heads) < 2 ^ 16 -> __virtq_add_used_n heads q u = Some (q', u') -> used_inv (T + Z.of_nat (length heads)) S q'.
Proof.
  intros (H1 & H2 & H3) Hl. unfold __virtq_add_used_n. destruct (copy_heads _ _ _) as [ring|]; [|done]. cbn [mbind option_bind]. intros [= <- <-].
  set (c := Z.of_nat (length heads)) in *. assert (u16 (last_used_idx q + c) = u16 (T + c)) as E by (rewrite H1; unfold u16; by rewrite Zplus_mod_idemp_l).
  split; [done|]. split; [lia|]. cbn [set_used_state signalled_used_valid signalled_used]. rewrite E. destruct H3 as [->|(-> & -> & Hd)].
  - left. by destruct (_ <? _).
  - rewrite H1, !u16_diff. replace (T + c - T) with c by lia. assert (u16 c = c) as -> by (apply Z.mod_small; lia). destruct (decide (T + c - S < 2 ^ 16)) as [Hs|Hs].
    + right. assert (u16 (T + c - S) = T + c - S) as -> by (apply Z.mod_small; lia). rewrite (proj2 (Z.ltb_ge _ _)) by lia. split; [done|]. split; [done|lia].
    + left. assert (u16 (T + c - S) = T + c - S - 2 ^ 16) as -> by (unfold u16; rewrite <- (Z.mod_add _ (-1)), Z.mod_small by lia; lia). by rewrite (proj2 (Z.ltb_lt _ _)) by lia.
Qed.

Lemma add_inv T S heads q u q' u' : ring_ok q u -> Z.of_nat (length heads) <= vq_num q -> used_inv T S q -> virtq_add_used_n heads q u = Some (q', u') -> used_inv (T + Z.of_nat (length heads)) S q'.
Proof.
  intros (Hn & Hl & Hu) Hle Hi. destruct (mod_num q (last_used_idx q) Hn) as (Hb & _). unfold virtq_add_used_n. destruct (_ <? _).
  - destruct (__virtq_add_used_n (take _ heads) q u) as [[q1 u1]|] eqn:E1; [|done]. cbn [mbind option_bind].
    destruct (__virtq_add_used_n (drop _ heads) q1 u1) as [[q2 u2]|] eqn:E2; [|done]. cbn [mbind option_bind]. intros [= <- <-].
    pose proof (length_take heads (Z.to_nat (vq_num q - Z.land (last_used_idx q) (u32 (vq_num q - 1))))) as L1. pose proof (length_drop heads (Z.to_nat (vq_num q - Z.land (last_used_idx q) (u32 (vq_num q - 1))))) as L2.
    eapply part_inv in E1; [|done|lia]. eapply part_inv in E2; [|done|lia]. rewrite <- Z.add_assoc, <- Nat2Z.inj_add, <- length_app, take_drop in E2. done.
  - cbn [mbind option_bind]. destruct (__virtq_add_used_n heads q u) as [[q1 u1]|] eqn:E1; [|done]. cbn [mbind option_bind]. intros [= <- <-]. eapply part_inv; [done|lia|done].
Qed.

(** The guest is notified because the queue is empty. *)
Definition empty_notified (acked : Z) (q : virt_queue) : bool := virtq_has_feature acked VIRTIO_F_NOTIFY_ON_EMPTY && (avail_idx q =? last_avail_idx q).

(** The states of a queue that starts empty, with the number of elements used so far
    and when the event index was last looked at; taking buffers moves the positions in
    the available ring. *)
Inductive used_reachable (acked : Z) : Z -> Z -> virt_queue -> vring_used -> Prop :=
| used_start q u : ring_ok q u -> last_used_idx q = 0 -> signalled_used_valid q = 0 -> used_reachable acked 0 0 q u
| used_add T S q u heads q' u' : used_reachable acked T S q u -> Z.of_nat (length heads) <= vq_num q -> virtq_add_used_n heads q u = Some (q', u') ->
    used_reachable acked (T + Z.of_nat (length heads)) S q' u'
| used_take T S q u a b : used_reachable acked T S q u -> used_reachable acked T S (set_last_avail_idx a (set_avail_idx b q)) u
| used_notify T S q u avail : used_reachable acked T S q u -> used_reachable acked T (if empty_notified acked q then S else T) (virtq_need_notify acked avail q).2 u.

Lemma used_reachable_inv acked T S q u : virtq_has_feature acked VIRTIO_RING_F_EVENT_IDX = true ->
  used_reachable acked T S q u -> ring_ok q u /\ used_inv T S q.
Proof.
  intros He. induction 1 as [q u Hok Hl Hv|T S q u heads q' u' _ [Hok Hi] Hle E|T S q u a b _ [Hok Hi]|T S q u avail _ [Hok Hi]].
  - split; [done|]. split; [by rewrite Hl|]. split; [lia|]. by left.
  - split; [|by eapply add_inv]. destruct (add_used_spec heads q u Hok Hle) as (q1 & u1 & E1 & _ & _ & _ & Hok1 & _). rewrite E in E1. by injection E1 as <- <-.
  - by split.
  - unfold virtq_need_notify. fold (empty_notified acked q). destruct (empty_notified acked q); [by split|]. rewrite He. cbn [negb]. destruct Hi as (H1 & H2 & H3).
    assert (forall b, ((if signalled_used_valid q =? 0 then (true, b) else (virtq_need_event (u16 (av_ring avail (vq_num b))) (last_used_idx q) (signalled_used q), b)) : bool * virt_queue).2 = b) as -> by (intros b; by destruct (_ =? 0)).
    split; [by destruct Hok as (A & B & C)|]. split; [done|]. split; [lia|]. right. cbn. split; [done|]. split; [done|lia].
Qed.

(** C8: with event indices, whatever was used, taken and notified before, the guest is
    notified if the element it waits for is among those used since its event index was
    last looked at; and it is notified only then, unless the device has agreed to
    notify on an empty queue and has seen no further buffer (the event index is not
    looked at then), or the state is invalid: it is the first time, or more elements
    than an index can tell apart were used. *)
Theorem virtq_notify_exact (acked T S : Z) (q : virt_queue) (u : vring_used) (avail : vring_avail) :
  virtq_has_feature acked VIRTIO_RING_F_EVENT_IDX = true -> used_reachable acked T S q u ->
  let event := u16 (av_ring avail (vq_num q)) in
  ((exists k, S <= k < T /\ u16 k = event) -> (virtq_need_notify acked avail q).1 = true)
  /\ ((virtq_need_notify acked avail q).1 = true -> empty_notified acked q = true \/ signalled_used_valid q = 0 \/ exists k, S <= k < T /\ u16 k = event).
Proof.
  intros He Hr event. destruct (used_reachable_inv acked T S q u He Hr) as [_ (H1 & H2 & H3)]. unfold virtq_need_notify. fold (empty_notified acked q).
  destruct (empty_notified acked q); [split; [done|by left]|]. rewrite He. cbn [negb]. destruct H3 as [->|(-> & E & Hd)]; [split; [done|by right; left]|]. cbn [Z.eqb fst set_used_state vq_num]. fold event.
  assert (u16 (last_used_idx q - signalled_used q) = T - S) as Ed by (rewrite H1, E, u16_diff; apply Z.mod_small; lia).
  assert (forall j, u16 (signalled_used q + j) = u16 (S + j)) as Es by (intros j; rewrite E; unfold u16; by rewrite Zplus_mod_idemp_l).
  rewrite (need_event_spec event) by (apply Z.mod_pos_bound; lia). rewrite Ed. split.
  - intros (k & Hk & Ek). exists (k - S). split; [lia|]. rewrite Es. by replace (S + (k - S)) with k by lia.
  - intros (j & Hj & Ej). right; right. exists (S + j). split; [lia|]. by rewrite <- Es.
Qed.

(** Used elements go around the ring in order: the elements are stored at the next
    positions, no other position changes, and the index that the guest reads advances
    by their number. *)
Theorem virtq_add_used_correct (heads : list vring_used_elem) (q : virt_queue) (u : vring_used) : ring_ok q u -> Z.of_nat (length heads) <= vq_num q ->
  exists q' u', virtq_add_used_n heads q u = Some (q', u') /\ u_idx u' = u16 (last_used_idx q + Z.of_nat (length heads)) /\ ring_ok q' u'
    /\ put_used (last_used_idx q) (vq_num q) heads (u_ring u) (u_ring u').
Proof.
  intros Hok Hle. destruct (add_used_spec heads q u Hok Hle) as (q' & u' & E & _ & E1 & E2 & H). exists q', u'. split; [done|]. split; [congruence|done].
Qed.

(** ** Witnesses and what goes wrong *)
Definition ex_mem (a : Z) : vring_desc :=
  if a =? 0x1000 then mk_desc 0x40000100 64 VRING_DESC_F_NEXT 1
  else if a =? 0x1010 then mk_desc 0x40002000 32 (Z.lor VRING_DESC_F_INDIRECT VRING_DESC_F_WRITE) 0
  else if a =? 0x2000 then mk_desc 0x40000200 512 VRING_DESC_F_NEXT 1
  else mk_desc 0x40000400 8 0 0.
Definition ex_vq : virt_queue := mk_vq 1 4 0x1000 0 0 0 0 0 0 0 0 0.
Definition ex_avail : vring_avail := mk_avail 0 1 (fun _ => 0).
Definition ex_walk : walkst := mk_walk 0 (replicate 4 (0, 0)) 7 7.
Definition ex_used : vring_used := mk_used 0 0 (replicate 4 (mk_elem 9 9)) 0.

Lemma ex_ring_ok : ring_ok ex_vq ex_used.
Proof. split; [exists 2; done|]. split; [done|]. cbn. lia. Qed.

(** The memory of the monitor that holds the guest's. *)
Definition ex_mapped (a : Z) : bool := (0 <=? a) && (a <? 0x10000).

(** A descriptor that becomes an indirect one and back at every read, and names itself
    as the next one: the chain is refused when the entries are full. *)
Definition ex_race (t : nat) (_ : Z) : vring_desc := mk_desc 0x40000000 64 (if Nat.even t then 5 else 1) 0.

Lemma virtq_get_descs_safe_witness :
  exists r s' q', virtq_get_descs 0 0x40000000 ex_mapped ex_race ex_avail 4 ex_vq ex_walk = Some (r, s', q') /\ length (w_iov s') = 4%nat /\ r < 0 /\ last_avail_idx q' = 0.
Proof.
  destruct (virtq_get_descs_safe 0 0x40000000 ex_mapped ex_race ex_avail 4 ex_vq ex_walk) as (r & s' & q' & E & L & H); [lia|done| |].
  - intros i Hi. cbn in Hi. split; [unfold ex_mapped, desc_at; cbn; lia|]. intros t0 t1 t2 k _ Hk. change (0 <= k < 4) in Hk. change (ex_mapped (0 + 16 * k) = true). unfold ex_mapped. lia.
  - exists r, s', q'. split; [exact E|]. split; [exact L|]. assert (r = - EINVAL \/ r = - ENOMEM) as Hr by (vm_compute in E; injection E as <- _ _; by (left; done) || (right; done)).
    destruct H as [(Hr1 & _)|[H|(Hr1 & _)]]; [destruct Hr; subst r; done|exact H|destruct Hr; subst r; destruct Hr1; done].
Defined.

(** A buffer to read, and a table of two. *)
Lemma virtq_get_descs_chain_witness :
  exists s', virtq_get_descs 0 0x40000000 ex_mapped (fun _ => ex_mem) ex_avail 4 ex_vq ex_walk = Some (0, s', set_last_avail_idx 1 (set_avail_idx 1 ex_vq))
    /\ w_iov s' = [(0x100, 64); (0x200, 512); (0x400, 8); (0, 0)] /\ w_in s' = 2 /\ w_out s' = 1.
Proof.
  apply (virtq_get_descs_chain 0 0x40000000 ex_mapped ex_mem ex_avail 4 ex_vq ex_walk
           ([(ex_mem 0x1000, false)] ++ map (fun x => (x, true)) [ex_mem 0x2000; ex_mem 0x2010])); [lia|done|done|done|].
  apply (chain_next _ _ _ _ _ 0); [done|done|by apply seg_direct|done|]. apply chain_end; [done|done| |done].
  apply (seg_indirect _ _ _ _ (ex_mem 0x1010)); [done|done|done|]. apply (ichain_next _ _ 0x2000 2 0); [done|done|done|done|]. by apply ichain_end.
Defined.

Lemma virtq_add_used_correct_witness :
  exists q' u', virtq_add_used_n [mk_elem 2 64; mk_elem 3 65] (set_used_state 3 0 0 ex_vq) ex_used = Some (q', u') /\ u_idx u' = 5 /\ u_ring u' !! 0%nat = Some (mk_elem 3 65) /\ u_ring u' !! 3%nat = Some (mk_elem 2 64).
Proof.
  destruct (virtq_add_used_correct [mk_elem 2 64; mk_elem 3 65] (set_used_state 3 0 0 ex_vq) ex_used) as (q' & u' & E & Hi & _ & _ & Hp).
  { split; [exists 2; done|]. split; [done|]. cbn. lia. }
  { cbn. lia. }
  exists q', u'. split; [exact E|]. split; [exact Hi|]. split; [apply (Hp 0); cbn; lia|apply (Hp 3); cbn; lia].
Defined.

(** The guest waits for the element 1, and the second is used. *)
Lemma virtq_notify_exact_witness :
  let acked := 2 ^ 29 in let q := (virtq_need_notify acked ex_avail ex_vq).2 in
  exists q' u', virtq_add_used_n [mk_elem 0 1; mk_elem 1 1] q ex_used = Some (q', u') /\ (virtq_need_notify acked (mk_avail 0 0 (fun _ => 1)) q').1 = true.
Proof.
  cbv zeta. destruct (virtq_add_used_n [mk_elem 0 1; mk_elem 1 1] (virtq_need_notify (2 ^ 29) ex_avail ex_vq).2 ex_used) as [[q' u']|] eqn:E; [|by vm_compute in E].
  exists q', u'. split; [done|].
  assert (used_reachable (2 ^ 29) 2 0 q' u') as Hr.
  { refine (used_add (2 ^ 29) 0 0 _ _ _ _ _ (used_notify (2 ^ 29) 0 0 ex_vq ex_used ex_avail (used_start _ ex_vq ex_used ex_ring_ok eq_refl eq_refl)) _ E). by vm_compute. }
  destruct (virtq_notify_exact (2 ^ 29) 2 0 q' u' (mk_avail 0 0 (fun _ => 1)) eq_refl Hr) as [H _]. apply H. exists 1. split; [lia|done].
Defined.

(** The test of the number of a queue lets the number behind the last one through. *)
Lemma virtio_queue_event_behind callback d : 0 <= vd_nr_vq d -> length (vd_vqs d) = Z.to_nat (vd_nr_vq d) -> virtio_queue_event callback (vd_nr_vq d) d = None.
Proof. intros H E. unfold virtio_queue_event. rewrite (proj2 (Z.ltb_ge _ _)) by lia. by rewrite lookup_ge_None_2 by lia. Qed.

(** The same chain with the direction in the entries of the table and not in the
    descriptor that points to it, where a driver puts it: a buffer to write is counted
    as a buffer to read. *)
Lemma indirect_direction_of_outer :
  let m a := if a =? 0x1000 then mk_desc 0x40002000 16 VRING_DESC_F_INDIRECT 0 else mk_desc 0x40000200 512 VRING_DESC_F_WRITE 0 in
  exists s q, virtq_get_descs 0 0x40000000 ex_mapped (fun _ => m) ex_avail 4 ex_vq ex_walk = Some (0, s, q) /\ w_in s = 0 /\ w_out s = 1.
Proof. eexists _, _. split; [vm_compute; reflexivity|done]. Qed.

(** A table that fills the entries exactly is refused, a direct chain of the same length
    is not. *)
Lemma indirect_exact_fit_refused :
  let m1 a := if a =? 0x1000 then mk_desc 0x40002000 16 VRING_DESC_F_INDIRECT 0 else mk_desc 0x40000200 512 0 0 in
  let w := mk_walk 0 [(0, 0)] 0 0 in
  (exists s q, virtq_get_descs 0 0x40000000 ex_mapped (fun _ => m1) ex_avail 1 ex_vq w = Some (- ENOMEM, s, q))
  /\ (exists s q, virtq_get_descs 0 0x40000000 ex_mapped (fun _ _ => mk_desc 0x40000200 512 0 0) ex_avail 1 ex_vq w = Some (0, s, q)).
Proof. split; eexists _, _; vm_compute; reflexivity. Qed.

(** A driver without event indices looks at the flags, and they are not written; one
    with event indices does not. *)
Lemma disable_notify_not_told acked q u : virtq_has_feature acked VIRTIO_RING_F_EVENT_IDX = false -> (virtq_disable_notify acked q u).2 = u.
Proof. intros H. unfold virtq_disable_notify. rewrite H. by destruct (negb _). Qed.

(** [malloc] fails for the second [iovec]: the result is 0 and the queues are freed. *)
Lemma virtio_device_init_freed :
  let '(r, m, _, d) := virtio_device_init (Some 0x7000) 40 2 2 64 64 [true; true; false] 0 (mk_vdevice ∅ 0 0 [] 0) in r = 0 /\ m = VqsFreed /\ vd_nr_vq d = 2.
Proof. done. Qed.

(** The address of a descriptor is not compared with the memory of the guest: any
    address of the monitor can be named. *)
Lemma desc_reaches_monitor mmap mem_start a : 0 <= a < 2 ^ 64 -> exists gpa, 0 <= gpa < 2 ^ 64 /\ gpa_to_hvm_va mmap mem_start gpa = a.
Proof.
  intros Ha. exists (u64 (a - mmap + mem_start)). split; [apply Z.mod_pos_bound; lia|]. unfold gpa_to_hvm_va, u64.
  rewrite Z.add_sub_assoc, <- Zminus_mod_idemp_l, Zplus_mod_idemp_r, Zminus_mod_idemp_l. replace (_ - _) with a by lia. by apply Z.mod_small.
Qed.
