(* ===== verification/Smp.v ===== *)
(** * Calls between cpus (core/smp.c)

    A cpu runs a function on another one through a slot: each cpu has an array with
    one slot per calling cpu.  The caller waits until its slot is free, stores the
    function and its argument, locks the slot and sends an interrupt; the handler
    scans the slots of its cpu, runs what is locked and unlocks it.  The two run in
    parallel, so the position of every cpu in [smp_function_call] and in the handler
    is part of the state, each access to a slot is a step, and the steps of all cpus
    interleave; a cpu in the handler does not go on with what was interrupted.  The
    numbers of the called functions stand for them: running one is recorded.  The
    calls that were made are recorded as well, to state what the slots achieve.  The
    steps act on one memory, in the order of the interleaving: that the barriers of
    the code are enough for this on weakly ordered memory is not shown. *)
From stdpp Require Import functions.
From S2P Require Import Prelude.

Definition SMP_CALL_LOCKED : Z := 1.

Record smp_call := mk_call {
  sc_fn : Z;
  sc_flags : Z;
  sc_data : Z;
}.

Definition locked (c : smp_call) : bool := negb (Z.land (sc_flags c) SMP_CALL_LOCKED =? 0).
(** Whether the loop is left. *)
Definition smp_call_wait (c : smp_call) : bool := negb (locked c).
Definition smp_call_lock (c : smp_call) : smp_call := mk_call (sc_fn c) (Z.lor (sc_flags c) SMP_CALL_LOCKED) (sc_data c).
Definition smp_call_unlock (c : smp_call) : smp_call := mk_call (sc_fn c) (Z.ldiff (sc_flags c) SMP_CALL_LOCKED) (sc_data c).
Definition set_fn (f : Z) (c : smp_call) : smp_call := mk_call f (sc_flags c) (sc_data c).
Definition set_data (d : Z) (c : smp_call) : smp_call := mk_call (sc_fn c) (sc_flags c) d.

(** The arguments of [smp_function_call]. *)
Record request := mk_req {
  rq_cpu : nat;
  rq_fn : Z;
  rq_data : Z;
  rq_wait : bool;
}.

(** Where a cpu is in [smp_function_call]: in the first loop, before the store of the
    function, of the argument, before the lock, the interrupt, in the second loop,
    before [preempt_enable]. *)
Inductive cpos :=
| COut
| CWait (r : request)
| CFn (r : request)
| CData (r : request)
| CLock (r : request)
| CSgi (r : request)
| CDone (r : request)
| CExit (r : request).

(** Where a cpu is in the handler: at the test of slot [i], before the call, before the
    two stores and before the unlock. *)
Inductive hpos :=
| HOut
| HTest (i : nat)
| HRun (i : nat)
| HFn (i : nat)
| HData (i : nat)
| HUnlock (i : nat).

(** [calls t c] is slot [c] of cpu [t]; [sgi] the interrupts that are pending and
    [irq_off] the cpus that have masked theirs; [issued c t] and [ran c t] are the calls
    that [c] has asked [t] for and those that [t] has run for [c]. *)
Record smp := mk_smp {
  calls : nat -> nat -> smp_call;
  caller : nat -> cpos;
  handler : nat -> hpos;
  sgi : nat -> bool;
  irq_off : nat -> bool;
  preempt_count : nat -> Z;
  issued : nat -> nat -> list (Z * Z);
  ran : nat -> nat -> list (Z * Z);
}.

Definition set_call (t c : nat) (x : smp_call) (s : smp) : smp :=
  mk_smp (<[t := <[c := x]> (calls s t)]> (calls s)) (caller s) (handler s) (sgi s) (irq_off s) (preempt_count s) (issued s) (ran s).
Definition set_caller (c : nat) (p : cpos) (s : smp) : smp :=
  mk_smp (calls s) (<[c := p]> (caller s)) (handler s) (sgi s) (irq_off s) (preempt_count s) (issued s) (ran s).
Definition set_handler (t : nat) (p : hpos) (s : smp) : smp :=
  mk_smp (calls s) (caller s) (<[t := p]> (handler s)) (sgi s) (irq_off s) (preempt_count s) (issued s) (ran s).
Definition set_sgi (t : nat) (b : bool) (s : smp) : smp :=
  mk_smp (calls s) (caller s) (handler s) (<[t := b]> (sgi s)) (irq_off s) (preempt_count s) (issued s) (ran s).
Definition set_irq_off (t : nat) (b : bool) (s : smp) : smp :=
  mk_smp (calls s) (caller s) (handler s) (sgi s) (<[t := b]> (irq_off s)) (preempt_count s) (issued s) (ran s).
Definition preempt_disable (c : nat) (s : smp) : smp :=
  mk_smp (calls s) (caller s) (handler s) (sgi s) (irq_off s) (<[c := preempt_count s c + 1]> (preempt_count s)) (issued s) (ran s).
Definition preempt_enable (c : nat) (s : smp) : smp :=
  mk_smp (calls s) (caller s) (handler s) (sgi s) (irq_off s) (<[c := preempt_count s c - 1]> (preempt_count s)) (issued s) (ran s).
Definition add_issued (c t : nat) (x : Z * Z) (s : smp) : smp :=
  mk_smp (calls s) (caller s) (handler s) (sgi s) (irq_off s) (preempt_count s) (<[c := <[t := issued s c t ++ [x]]> (issued s c)]> (issued s)) (ran s).
Definition add_ran (c t : nat) (x : Z * Z) (s : smp) : smp :=
  mk_smp (calls s) (caller s) (handler s) (sgi s) (irq_off s) (preempt_count s) (issued s) (<[c := <[t := ran s c t ++ [x]]> (ran s c)]> (ran s)).

Section smp.
Context (NR_CPUS : nat).

(** [smp_function_call] on cpu [c], up to the first loop, or to the end where there is
    none: the number is out of range, or the cpu calls itself. *)
Definition smp_function_call (c : nat) (r : request) (s : smp) : option smp :=
  match caller s c, handler s c with
  | COut, HOut =>
      let s := preempt_disable c s in
      if decide (NR_CPUS <= rq_cpu r)%nat then Some s
      else if decide (rq_cpu r = c) then Some (preempt_enable c (add_ran c c (rq_fn r, rq_data r) (add_issued c c (rq_fn r, rq_data r) s)))
      else Some (set_caller c (CWait r) (add_issued c (rq_cpu r) (rq_fn r, rq_data r) s))
  | _, _ => None
  end.

(** The rest of it, step by step. *)
Definition caller_step (c : nat) (s : smp) : option smp :=
  match handler s c with
  | HOut =>
      match caller s c with
      | COut => None
      | CWait r => if smp_call_wait (calls s (rq_cpu r) c) then Some (set_caller c (CFn r) s) else None
      | CFn r => Some (set_caller c (CData r) (set_call (rq_cpu r) c (set_fn (rq_fn r) (calls s (rq_cpu r) c)) s))
      | CData r => Some (set_caller c (CLock r) (set_call (rq_cpu r) c (set_data (rq_data r) (calls s (rq_cpu r) c)) s))
      | CLock r => Some (set_caller c (CSgi r) (set_call (rq_cpu r) c (smp_call_lock (calls s (rq_cpu r) c)) s))
      | CSgi r => Some (set_caller c (if rq_wait r then CDone r else CExit r) (set_sgi (rq_cpu r) true s))
      | CDone r => if smp_call_wait (calls s (rq_cpu r) c) then Some (set_caller c (CExit r) s) else None
      | CExit r => Some (set_caller c COut (preempt_enable c s))
      end
  | _ => None
  end.

(** The interrupt is taken, and [smp_function_call_handler] runs. *)
Definition handler_step (t : nat) (s : smp) : option smp :=
  match handler s t with
  | HOut => if sgi s t && negb (irq_off s t) then Some (set_handler t (HTest 0) (set_sgi t false s)) else None
  | HTest i =>
      if decide (i < NR_CPUS)%nat
      then Some (set_handler t (if locked (calls s t i) then HRun i else HTest (S i)) s)
      else Some (set_handler t HOut s)
  | HRun i => Some (set_handler t (HFn i) (add_ran i t (sc_fn (calls s t i), sc_data (calls s t i)) s))
  | HFn i => Some (set_handler t (HData i) (set_call t i (set_fn 0 (calls s t i)) s))
  | HData i => Some (set_handler t (HUnlock i) (set_call t i (set_data 0 (calls s t i)) s))
  | HUnlock i => Some (set_handler t (HTest (S i)) (set_call t i (smp_call_unlock (calls s t i)) s))
  end.

(** [smp_init] clears the slots. *)
Definition smp_init (s : smp) : smp :=
  mk_smp (fun _ _ => mk_call 0 0 0) (caller s) (handler s) (sgi s) (irq_off s) (preempt_count s) (issued s) (ran s).

(** A cpu that is in the middle of a call or of the handler goes on. *)
Inductive work : smp -> smp -> Prop :=
| work_caller c s s' : (c < NR_CPUS)%nat -> caller_step c s = Some s' -> work s s'
| work_handler t s s' : (t < NR_CPUS)%nat -> handler_step t s = Some s' -> work s s'.

(** A cpu makes a call, or masks its interrupts, or goes on. *)
Inductive step : smp -> smp -> Prop :=
| step_call c r s s' : (c < NR_CPUS)%nat -> smp_function_call c r s = Some s' -> step s s'
| step_mask c b s : caller s c = COut -> handler s c = HOut -> step s (set_irq_off c b s)
| step_work s s' : work s s' -> step s s'.

Definition booted (s : smp) : Prop :=
  forall c, caller s c = COut /\ handler s c = HOut /\ sgi s c = false /\ preempt_count s c = 0 /\ forall t, issued s c t = [] /\ ran s c t = [].

Inductive reachable : smp -> Prop :=
| reach_init s : booted s -> reachable (smp_init s)
| reach_step s s' : reachable s -> step s s' -> reachable s'.

(** ** One caller and one target *)

(** What concerns slot [c] of cpu [t]: the slot, the position of the caller and of the
    handler, the pending interrupt, and what was issued and run. *)
Definition past_run (h : hpos) (c : nat) : bool :=
  match h with HFn i | HData i | HUnlock i => bool_decide (i = c) | _ => false end.

Definition at_slot (h : hpos) (c : nat) : Prop :=
  match h with HRun i | HFn i | HData i | HUnlock i => i = c | _ => False end.

(** The handler has not passed the slot. *)
Definition visits (h : hpos) (c : nat) : Prop :=
  match h with HOut => False | HTest i | HRun i | HFn i | HData i | HUnlock i => (i <= c)%nat end.

Definition target (p : cpos) : option request :=
  match p with COut => None | CWait r | CFn r | CData r | CLock r | CSgi r | CDone r | CExit r => Some r end.

(** The call that is in the slot, and the one that is not there yet. *)
Definition slot_ev (x : smp_call) (h : hpos) (c : nat) : list (Z * Z) :=
  if locked x && negb (past_run h c) then [(sc_fn x, sc_data x)] else [].
Definition caller_ev (p : cpos) (t : nat) : list (Z * Z) :=
  match p with
  | CWait r | CFn r | CData r | CLock r => if decide (rq_cpu r = t) then [(rq_fn r, rq_data r)] else []
  | _ => []
  end.

(** What the caller knows of its slot. *)
Definition caller_sees (p : cpos) (t : nat) (x : smp_call) : Prop :=
  match p with
  | CFn r => rq_cpu r = t -> locked x = false
  | CData r => rq_cpu r = t -> locked x = false /\ sc_fn x = rq_fn r
  | CLock r => rq_cpu r = t -> locked x = false /\ sc_fn x = rq_fn r /\ sc_data x = rq_data r
  | CExit r => rq_cpu r = t -> rq_wait r = true -> locked x = false
  | _ => True
  end.

Record pair_inv (c t : nat) (x : smp_call) (p : cpos) (h : hpos) (g : bool) (iss rn : list (Z * Z)) : Prop := mk_pair {
  pi_order : iss = rn ++ slot_ev x h c ++ caller_ev p t;
  pi_caller : caller_sees p t x;
  pi_handler : at_slot h c -> locked x = true;
  pi_served : locked x = true -> g = true \/ visits h c \/ exists r, p = CSgi r /\ rq_cpu r = t;
  pi_range : locked x = true -> (c < NR_CPUS)%nat /\ c <> t;
}.

Lemma locked_lock x : locked (smp_call_lock x) = true.
Proof.
  unfold locked, smp_call_lock, SMP_CALL_LOCKED. cbn [sc_flags]. destruct (Z.eqb_spec (Z.land (Z.lor (sc_flags x) 1) 1) 0) as [E|]; [|done].
  apply (f_equal (fun y => Z.testbit y 0)) in E. by rewrite Z.land_spec, Z.lor_spec, Z.bits_0, orb_true_r in E.
Qed.

Lemma locked_unlock x : locked (smp_call_unlock x) = false.
Proof. unfold locked, smp_call_unlock, SMP_CALL_LOCKED. cbn [sc_flags]. by rewrite Z.land_ldiff. Qed.

Lemma locked_set_fn f x : locked (set_fn f x) = locked x. Proof. done. Qed.
Lemma locked_set_data d x : locked (set_data d x) = locked x. Proof. done. Qed.

(** Steps of a caller that do not concern the slot. *)
Lemma pair_other c t x p p' h g iss rn : pair_inv c t x p h g iss rn ->
  (forall r, target p = Some r -> rq_cpu r <> t) -> (forall r, target p' = Some r -> rq_cpu r <> t) -> pair_inv c t x p' h g iss rn.
Proof.
  intros [H1 H2 H3 H4 H5] Hp Hp'. assert (forall q, (forall r, target q = Some r -> rq_cpu r <> t) -> caller_ev q t = [] /\ caller_sees q t x) as Hq.
  { intros [] Hq; cbn in *; try done; rewrite ?decide_False by (by apply Hq); split; try done; intros; by destruct (Hq _ eq_refl). }
  split; [|by apply Hq|done| |done].
  - by rewrite H1, (proj1 (Hq p Hp)), (proj1 (Hq p' Hp')).
  - intros Hl. destruct (H4 Hl) as [?|[?|(r & -> & ?)]]; [by left|by right; left|]. by destruct (Hp r eq_refl).
Qed.

Lemma pair_sgi c t x p h g iss rn : pair_inv c t x p h g iss rn -> pair_inv c t x p h true iss rn.
Proof. intros [H1 H2 H3 H4 H5]. split; try done. intros _. by left. Qed.

(** Steps of the caller on its slot. *)
Lemma pair_wait c r x h g iss rn : locked x = false -> pair_inv c (rq_cpu r) x (CWait r) h g iss rn -> pair_inv c (rq_cpu r) x (CFn r) h g iss rn.
Proof. intros Hl [H1 H2 H3 H4 H5]. split; [done|by cbn|done| |done]. by rewrite Hl. Qed.

Lemma pair_fn c r x h g iss rn : pair_inv c (rq_cpu r) x (CFn r) h g iss rn -> pair_inv c (rq_cpu r) (set_fn (rq_fn r) x) (CData r) h g iss rn.
Proof.
  intros [H1 H2 H3 H4 H5]. specialize (H2 eq_refl). split; rewrite ?locked_set_fn; [|done|done|by rewrite H2|done].
  unfold slot_ev in *. rewrite locked_set_fn. by rewrite H2 in *.
Qed.

Lemma pair_data c r x h g iss rn : pair_inv c (rq_cpu r) x (CData r) h g iss rn -> pair_inv c (rq_cpu r) (set_data (rq_data r) x) (CLock r) h g iss rn.
Proof.
  intros [H1 H2 H3 H4 H5]. destruct (H2 eq_refl) as [Hl Hf]. split; rewrite ?locked_set_data; [|done|done|by rewrite Hl|done].
  unfold slot_ev in *. rewrite locked_set_data. by rewrite Hl in *.
Qed.

Lemma not_at_slot x h c : (at_slot h c -> locked x = true) -> locked x = false -> past_run h c = false.
Proof. intros H Hl. destruct h; cbn in *; try done; apply bool_decide_eq_false; intros ->; by rewrite H in Hl. Qed.

Lemma pair_lock c r x h g iss rn : (c < NR_CPUS)%nat -> rq_cpu r <> c ->
  pair_inv c (rq_cpu r) x (CLock r) h g iss rn -> pair_inv c (rq_cpu r) (smp_call_lock x) (CSgi r) h g iss rn.
Proof.
  intros Hc Hr [H1 H2 H3 H4 H5]. destruct (H2 eq_refl) as (Hl & Hf & Hd). split; rewrite ?locked_lock; [|done|done| |by split].
  - rewrite H1. unfold slot_ev. rewrite locked_lock, Hl, (not_at_slot x) by done. cbn. rewrite decide_True by done. by rewrite Hf, Hd.
  - intros _. right; right. by exists r.
Qed.

Lemma pair_sent c r x h g iss rn : pair_inv c (rq_cpu r) x (CSgi r) h g iss rn -> pair_inv c (rq_cpu r) x (if rq_wait r then CDone r else CExit r) h true iss rn.
Proof. intros [H1 H2 H3 H4 H5]. destruct (rq_wait r) eqn:E; (split; [done| |done|by left|done]); [done|]. cbn. by rewrite E. Qed.

Lemma pair_done c r x h g iss rn : locked x = false -> pair_inv c (rq_cpu r) x (CDone r) h g iss rn -> pair_inv c (rq_cpu r) x (CExit r) h g iss rn.
Proof. intros Hl [H1 H2 H3 H4 H5]. split; [done|by cbn|done| |done]. by rewrite Hl. Qed.

Lemma pair_exit c r t x h g iss rn : pair_inv c t x (CExit r) h g iss rn -> pair_inv c t x COut h g iss rn.
Proof. intros [H1 H2 H3 H4 H5]. split; [done|done|done| |done]. intros Hl. destruct (H4 Hl) as [?|[?|(? & [=] & _)]]; eauto. Qed.

(** Steps of the handler. *)
Lemma pair_taken c t x p g iss rn : pair_inv c t x p HOut g iss rn -> pair_inv c t x p (HTest 0) false iss rn.
Proof. intros [H1 H2 H3 H4 H5]. split; [done|done|done| |done]. intros _. right; left. cbn. lia. Qed.

Lemma pair_locked c t i x p g iss rn : (i = c -> locked x = true) -> pair_inv c t x p (HTest i) g iss rn -> pair_inv c t x p (HRun i) g iss rn.
Proof. intros Hl [H1 H2 H3 H4 H5]. by split. Qed.

Lemma pair_skipped c t i x p g iss rn : (i = c -> locked x = false) -> pair_inv c t x p (HTest i) g iss rn -> pair_inv c t x p (HTest (S i)) g iss rn.
Proof.
  intros Hl [H1 H2 H3 H4 H5]. split; [done|done|done| |done]. intros H. destruct (H4 H) as [?|[Hv|?]]; [by left| |by right; right].
  right; left. cbn in *. destruct (decide (i = c)); [|lia]. rewrite Hl in H by done. done.
Qed.

Lemma pair_left c t i x p g iss rn : (NR_CPUS <= i)%nat -> pair_inv c t x p (HTest i) g iss rn -> pair_inv c t x p HOut g iss rn.
Proof.
  intros Hi [H1 H2 H3 H4 H5]. split; [done|done|done| |done]. intros H. destruct (H4 H) as [?|[Hv|?]]; [by left| |by right; right].
  cbn in Hv. destruct (H5 H). lia.
Qed.

Lemma pair_run_other c t i x p g iss rn : i <> c -> pair_inv c t x p (HRun i) g iss rn -> pair_inv c t x p (HFn i) g iss rn.
Proof. intros Hi [H1 H2 H3 H4 H5]. split; [|done|done|done|done]. rewrite H1. unfold slot_ev. cbn. by rewrite bool_decide_eq_false_2. Qed.

Lemma pair_run c t x p g iss rn : pair_inv c t x p (HRun c) g iss rn -> pair_inv c t x p (HFn c) g iss (rn ++ [(sc_fn x, sc_data x)]).
Proof.
  intros [H1 H2 H3 H4 H5]. split; [|done|done|done|done]. rewrite H1. unfold slot_ev. rewrite (H3 eq_refl). cbn. rewrite bool_decide_eq_true_2 by done.
  by rewrite <- app_assoc.
Qed.

(** The caller is outside of its stores while the handler is at its slot. *)
Lemma sees_locked p t x x' : locked x = true -> locked x' = true -> caller_sees p t x -> caller_sees p t x'.
Proof. intros Hl Hl'. destruct p; cbn; try done; rewrite Hl; naive_solver. Qed.

Lemma pair_clear c t x x' h h' p g iss rn : locked x' = locked x -> past_run h c = true -> past_run h' c = true -> visits h' c -> at_slot h c ->
  pair_inv c t x p h g iss rn -> pair_inv c t x' p h' g iss rn.
Proof.
  intros El Hp Hp' Hv Ha [H1 H2 H3 H4 H5]. specialize (H3 Ha). split; rewrite ?El; [| |done| |done].
  - rewrite H1. unfold slot_ev. by rewrite Hp, Hp', !andb_false_r.
  - eapply sees_locked; [exact H3|by rewrite El|done].
  - intros _. by right; left.
Qed.

Lemma pair_past_other c t h h' x p g iss rn : past_run h c = past_run h' c -> ~ at_slot h' c -> (visits h c -> visits h' c) ->
  pair_inv c t x p h g iss rn -> pair_inv c t x p h' g iss rn.
Proof.
  intros Hp Hn Hv [H1 H2 H3 H4 H5]. split; [|done|done| |done].
  - rewrite H1. unfold slot_ev. by rewrite Hp.
  - intros H. destruct (H4 H) as [?|[?|?]]; auto.
Qed.

Lemma pair_unlock c t x p g iss rn : pair_inv c t x p (HUnlock c) g iss rn -> pair_inv c t (smp_call_unlock x) p (HTest (S c)) g iss rn.
Proof.
  intros [H1 H2 H3 H4 H5]. specialize (H3 eq_refl). split; rewrite ?locked_unlock; [| |done|done|done].
  - rewrite H1. unfold slot_ev. rewrite locked_unlock. cbn. by rewrite bool_decide_eq_true_2, andb_false_r.
  - destruct p; cbn in *; try done; rewrite ?locked_unlock in *; try done; rewrite H3 in H2; naive_solver.
Qed.

(** ** All cpus *)
Definition cpu_ok (c : nat) (p : cpos) (h : hpos) : Prop :=
  (forall r, target p = Some r -> (rq_cpu r < NR_CPUS)%nat /\ rq_cpu r <> c)
  /\ match h with HRun i | HFn i | HData i | HUnlock i => (i < NR_CPUS)%nat | _ => True end.

Definition smp_ok (s : smp) : Prop :=
  (forall c t, pair_inv c t (calls s t c) (caller s c) (handler s t) (sgi s t) (issued s c t) (ran s c t))
  /\ forall c, cpu_ok c (caller s c) (handler s c).

Ltac upd_case a b := destruct (decide (a = b)) as [<-|]; repeat first [rewrite fn_lookup_insert | rewrite fn_lookup_insert_ne by done].

Lemma call_same (f : nat -> nat -> smp_call) t c x t0 c0 : (t0, c0) <> (t, c) -> <[t := <[c := x]> (f t)]> f t0 c0 = f t0 c0.
Proof. intros H. upd_case t t0; [|done]. rewrite fn_lookup_insert_ne; [done|congruence]. Qed.

Lemma call_new (f : nat -> nat -> smp_call) t c x : <[t := <[c := x]> (f t)]> f t c = x.
Proof. by rewrite !fn_lookup_insert. Qed.

(** A step of caller [c] changes its own slot and may raise an interrupt. *)
Lemma caller_frame c r p' s s' : smp_ok s -> target (caller s c) = Some r -> (forall r', target p' = Some r' -> r' = r) ->
  caller s' = <[c := p']> (caller s) -> handler s' = handler s -> issued s' = issued s -> ran s' = ran s ->
  (forall t0 c0, (t0, c0) <> (rq_cpu r, c) -> calls s' t0 c0 = calls s t0 c0) -> (forall t, sgi s' t = sgi s t \/ sgi s' t = true) ->
  pair_inv c (rq_cpu r) (calls s' (rq_cpu r) c) p' (handler s (rq_cpu r)) (sgi s' (rq_cpu r)) (issued s c (rq_cpu r)) (ran s c (rq_cpu r)) -> smp_ok s'.
Proof.
  intros [HP HC] Hr Hp' E1 E2 E3 E4 E5 E6 Hx. split.
  - intros c0 t0. rewrite E1, E2, E3, E4.
    assert (forall p q, pair_inv c0 t0 p q (handler s t0) (sgi s t0) (issued s c0 t0) (ran s c0 t0) -> pair_inv c0 t0 p q (handler s t0) (sgi s' t0) (issued s c0 t0) (ran s c0 t0)) as Hs.
    { intros p q H. destruct (E6 t0) as [->| ->]; [done|by eapply pair_sgi]. }
    upd_case c c0; [|rewrite E5 by congruence; apply Hs, HP]. destruct (decide (t0 = rq_cpu r)) as [->|Ht]; [done|]. rewrite E5 by congruence. apply Hs.
    eapply pair_other; [apply HP| |].
    + intros r' Hr'. rewrite Hr in Hr'. injection Hr' as <-. done.
    + intros r' Hr'. rewrite (Hp' r' Hr'). done.
  - intros c0. rewrite E1, E2. upd_case c c0; [|apply HC]. split; [|apply HC]. intros r' Hr'. rewrite (Hp' r' Hr'). by apply HC.
Qed.

Lemma caller_step_ok c s s' : (c < NR_CPUS)%nat -> caller_step c s = Some s' -> smp_ok s -> smp_ok s'.
Proof.
  intros Hc E Hok. pose proof Hok as [HP HC]. unfold caller_step in E. destruct (handler s c) eqn:Eh; try done.
  assert (forall r, target (caller s c) = Some r -> rq_cpu r <> c) as Ht by (intros r Hr; by apply HC).
  destruct (caller s c) as [|r|r|r|r|r|r|r] eqn:Ec; [done| | | | | | |]; try (destruct (smp_call_wait _) eqn:Ew; [|done]); injection E as <-; pose proof (HP c (rq_cpu r)) as H; rewrite Ec in H;
    (eapply (caller_frame c r); [done|by rewrite Ec| |reflexivity|done|done|done| | |]);
    try (cbn; intros ??; by apply call_same); try (intros ?; by left); try (cbn; congruence); try (cbn; rewrite call_new).
  - apply pair_wait; [|done]. by apply negb_true_iff in Ew.
  - by apply pair_fn.
  - by apply pair_data.
  - apply pair_lock; [done|by apply Ht|done].
  - destruct (rq_wait r); cbn; congruence.
  - intros t. cbn. upd_case (rq_cpu r) t; auto.
  - cbn. rewrite fn_lookup_insert. by eapply pair_sent.
  - apply pair_done; [|done]. by apply negb_true_iff in Ew.
  - by eapply pair_exit.
Qed.

(** A step of the handler of [t] concerns the slots of [t]. *)
Lemma handler_frame t h' s s' : smp_ok s -> caller s' = caller s -> handler s' = <[t := h']> (handler s) -> issued s' = issued s ->
  (forall t0, t0 <> t -> sgi s' t0 = sgi s t0 /\ (forall c, calls s' t0 c = calls s t0 c) /\ forall c, ran s' c t0 = ran s c t0) ->
  match h' with HRun i | HFn i | HData i | HUnlock i => (i < NR_CPUS)%nat | _ => True end ->
  (forall c, pair_inv c t (calls s' t c) (caller s c) h' (sgi s' t) (issued s c t) (ran s' c t)) -> smp_ok s'.
Proof.
  intros [HP HC] E1 E2 E3 E4 Hh Hx. split.
  - intros c0 t0. rewrite E1, E2, E3. upd_case t t0; [done|]. destruct (E4 t0) as (-> & -> & ->); [done|]. apply HP.
  - intros c0. rewrite E1, E2. upd_case t c0; [|apply HC]. by split; [apply HC|].
Qed.

Lemma ran_new (f : nat -> nat -> list (Z * Z)) i t l c t0 : <[i := <[t := l]> (f i)]> f c t0 = if decide (c = i /\ t0 = t) then l else f c t0.
Proof.
  destruct (decide (c = i /\ t0 = t)) as [[-> ->]|H]; [by rewrite !fn_lookup_insert|]. upd_case i c; [|done]. rewrite fn_lookup_insert_ne; [done|naive_solver].
Qed.

Lemma handler_step_ok t s s' : handler_step t s = Some s' -> smp_ok s -> smp_ok s'.
Proof.
  intros E Hok. pose proof Hok as [HP HC]. pose proof (fun c => HP c t) as H. pose proof (proj2 (HC t)) as Hi. unfold handler_step in E. destruct (handler s t) as [|i|i|i|i|i] eqn:Eh.
  - destruct (_ && _); [|done]. injection E as <-. eapply (handler_frame t (HTest 0)); [done|done|reflexivity|done| |done|].
    + intros t0 Ht. cbn. by rewrite fn_lookup_insert_ne by done.
    + intros c. cbn. rewrite fn_lookup_insert. by eapply pair_taken.
  - case_decide; injection E as <-; (eapply (handler_frame t); [done|done|reflexivity|done|done| |]).
    + by destruct (locked _).
    + intros c. cbn. destruct (locked (calls s t i)) eqn:El; [apply pair_locked|apply pair_skipped]; try done; by intros <-.
    + done.
    + intros c. eapply (pair_left _ _ i); [lia|done].
  - injection E as <-. eapply (handler_frame t); [done|done|reflexivity|done| |done|].
    + intros t0 Ht. split; [done|]. split; [done|]. intros c. cbn. by rewrite ran_new, decide_False by naive_solver.
    + intros c. cbn. rewrite ran_new. case_decide as Hd; [destruct Hd as [-> _]; by apply pair_run|]. apply pair_run_other; [naive_solver|done].
  - injection E as <-. eapply (handler_frame t); [done|done|reflexivity|done| |done|].
    + intros t0 Ht. split; [done|]. split; [|done]. intros c. cbn. apply call_same. congruence.
    + intros c. cbn. destruct (decide (i = c)) as [<-|Hc].
      * rewrite call_new. eapply (pair_clear _ _ (calls s t i) _ (HFn i)); [done|by apply bool_decide_eq_true|by apply bool_decide_eq_true|cbn; lia|done|done].
      * rewrite call_same by congruence. eapply (pair_past_other _ _ (HFn i)); [done|done|done|done].
  - injection E as <-. eapply (handler_frame t); [done|done|reflexivity|done| |done|].
    + intros t0 Ht. split; [done|]. split; [|done]. intros c. cbn. apply call_same. congruence.
    + intros c. cbn. destruct (decide (i = c)) as [<-|Hc].
      * rewrite call_new. eapply (pair_clear _ _ (calls s t i) _ (HData i)); [done|by apply bool_decide_eq_true|by apply bool_decide_eq_true|cbn; lia|done|done].
      * rewrite call_same by congruence. eapply (pair_past_other _ _ (HData i)); [done|done|done|done].
  - injection E as <-. eapply (handler_frame t); [done|done|reflexivity|done| |done|].
    + intros t0 Ht. split; [done|]. split; [|done]. intros c. cbn. apply call_same. congruence.
    + intros c. cbn. destruct (decide (i = c)) as [<-|Hc].
      * rewrite call_new. by apply pair_unlock.
      * rewrite call_same by congruence. eapply (pair_past_other _ _ (HUnlock i)); [cbn; by rewrite bool_decide_eq_false_2|by intros []|cbn; lia|done].
Qed.

(** A new call is behind those that are on their way. *)
Lemma smp_function_call_ok c r s s' : smp_function_call c r s = Some s' -> smp_ok s -> smp_ok s'.
Proof.
  intros E [HP HC]. unfold smp_function_call in E. destruct (caller s c) eqn:Ec; try done. destruct (handler s c) eqn:Eh; try done. case_decide as Hr; [|case_decide as Hs]; injection E as <-.
  - by split.
  - split; [|done]. intros c0 t0. cbn. rewrite !ran_new. case_decide as Hd; [|apply HP]. destruct Hd as [-> ->]. destruct (HP c c) as [H1 H2 H3 H4 H5]. rewrite Ec, Eh in *.
    split; try done. assert (slot_ev (calls s c c) HOut c = []) as E.
    { unfold slot_ev. destruct (locked _) eqn:El; [|done]. by destruct (H5 eq_refl). }
    rewrite H1, E. cbn. by rewrite !app_nil_r.
  - split.
    + intros c0 t0. cbn. rewrite ran_new. upd_case c c0; [|rewrite decide_False by naive_solver; apply HP]. pose proof (HP c t0) as H. rewrite Ec in H. case_decide as Hd.
      * destruct Hd as [_ ->]. destruct H as [H1 H2 H3 H4 H5]. split; [|done|done| |done].
        -- rewrite H1. cbn. rewrite decide_True by done. by rewrite app_nil_r, <- app_assoc.
        -- intros Hl. destruct (H4 Hl) as [?|[?|(? & [=] & _)]]; auto.
      * eapply pair_other; [done|done|]. intros r' [= <-]. naive_solver.
    + intros c0. cbn. upd_case c c0; [|apply HC]. split; [|apply HC]. intros r' [= <-]. split; [lia|done].
Qed.

Lemma work_ok s s' : work s s' -> smp_ok s -> smp_ok s'.
Proof. intros [c s0 s1 Hc E|t s0 s1 Ht E]; [by apply (caller_step_ok c)|by apply (handler_step_ok t)]. Qed.

Lemma reachable_ok s : reachable s -> smp_ok s.
Proof.
  induction 1 as [s Hb|s s' _ IH Hs].
  - split; intros c; destruct (Hb c) as (Ec & Eh & Eg & _ & El); [|cbn; by rewrite Ec, Eh]. intros t. destruct (El t) as [Ei Er]. destruct (Hb t) as (_ & Et & _ & _). cbn.
    rewrite Ec, Et, Ei, Er. by split.
  - destruct Hs as [c r s s' Hc E|c b s _ _|s s' Hw]; [by eapply smp_function_call_ok| |by eapply work_ok]. exact IH.
Qed.

(** ** Every call runs *)

(** What is left to do, in steps. *)
Definition scan : nat := 6 * NR_CPUS + 2.
Definition caller_work (p : cpos) : nat :=
  match p with COut => 0 | CWait _ => scan + 7 | CFn _ => scan + 6 | CData _ => scan + 5 | CLock _ => scan + 4 | CSgi _ => scan + 3 | CDone _ => 2 | CExit _ => 1 end.
Definition handler_work (h : hpos) : nat :=
  match h with
  | HOut => 0
  | HTest i => 6 * (NR_CPUS - i) + 1
  | HRun i => 6 * (NR_CPUS - i)
  | HFn i => 6 * (NR_CPUS - i) - 1
  | HData i => 6 * (NR_CPUS - i) - 2
  | HUnlock i => 6 * (NR_CPUS - i) - 3
  end.
Definition target_work (s : smp) (t : nat) : nat := handler_work (handler s t) + if sgi s t then scan else 0.
Definition work_left (s : smp) : nat := sum_list_with (fun c => caller_work (caller s c)) (seq 0 NR_CPUS) + sum_list_with (target_work s) (seq 0 NR_CPUS).

Lemma sum_change (f g : nat -> nat) a : (a < NR_CPUS)%nat -> (forall c, c <> a -> g c = f c) ->
  (sum_list_with g (seq 0 NR_CPUS) + f a = sum_list_with f (seq 0 NR_CPUS) + g a)%nat.
Proof.
  intros Ha Hg. assert (forall n m, (forall c, (m <= c < m + n)%nat -> g c = f c) -> sum_list_with g (seq m n) = sum_list_with f (seq m n)) as Hsame.
  { intros n. induction n as [|n IH]; intros m H; [done|]. cbn. rewrite H by lia. f_equal. apply IH. intros; apply H. lia. }
  replace NR_CPUS with (a + S (NR_CPUS - S a))%nat by lia. rewrite seq_app, !sum_list_with_app, Nat.add_0_l. cbn [seq sum_list_with].
  rewrite (Hsame a 0%nat), (Hsame (NR_CPUS - S a)%nat (S a)) by (intros; apply Hg; lia). lia.
Qed.

Lemma work_decreases s s' : smp_ok s -> work s s' -> (work_left s' < work_left s)%nat.
Proof.
  intros Hok Hw. revert Hok. destruct Hw as [c s0 s1 Hc E|t s0 s1 Ht E]; intros [HP HC]; unfold work_left.
  - unfold caller_step in E. destruct (handler s0 c); try done.
    assert (forall p' s2, caller s2 = <[c := p']> (caller s0) -> handler s2 = handler s0 -> sgi s2 = sgi s0 -> (caller_work p' < caller_work (caller s0 c))%nat -> (work_left s2 < work_left s0)%nat) as Hq.
    { intros p' s2 E1 E2 E3 Hlt. unfold work_left. rewrite E1. pose proof (sum_change (fun c => caller_work (caller s0 c)) (fun x => caller_work (<[c := p']> (caller s0) x)) c Hc) as H.
      cbv beta in H. rewrite fn_lookup_insert in H. unfold target_work. rewrite E2, E3. rewrite <- (Nat.add_lt_mono_r _ _). enough (forall x y z w : nat, (x + y = z + w -> w < y -> x < z)%nat) as Hn by (eapply Hn; [apply H|done]; intros x Hx; by rewrite fn_lookup_insert_ne). lia. }
    pose proof (proj1 (HC c)) as Hr. destruct (caller s0 c) as [|r|r|r|r|r|r|r] eqn:Ec; [done| | | | | | |]; try (destruct (smp_call_wait _); [|done]); injection E as <-;
      try (eapply Hq; [reflexivity|done|done|cbn; lia]).
    destruct (Hr r eq_refl) as [Hlt _]. cbn [set_caller set_sgi caller handler sgi].
    set (p' := if rq_wait r then CDone r else CExit r). assert (caller_work p' <= 2)%nat as Hp by (unfold p'; destruct (rq_wait r); cbn; lia).
    pose proof (sum_change (fun c => caller_work (caller s0 c)) (fun x => caller_work (<[c := p']> (caller s0) x)) c Hc) as H1. cbv beta in H1. rewrite fn_lookup_insert, Ec in H1.
    specialize (H1 ltac:(intros x Hx; by rewrite fn_lookup_insert_ne)).
    match goal with |- context [target_work ?s1] => pose proof (sum_change (target_work s0) (target_work s1) (rq_cpu r) Hlt) as H2 end.
    specialize (H2 ltac:(intros x Hx; unfold target_work; cbn; by rewrite fn_lookup_insert_ne)). unfold target_work at 2 4 in H2. cbn [set_caller set_sgi caller handler sgi] in H2. rewrite fn_lookup_insert in H2. cbn [caller_work] in H1. destruct (sgi s0 (rq_cpu r)); lia.
  - pose proof (proj2 (HC t)) as Hi.
    assert (caller s1 = caller s0 /\ (forall x, x <> t -> target_work s1 x = target_work s0 x) /\ (target_work s1 t < target_work s0 t)%nat) as (E1 & E2 & E3).
    { unfold handler_step in E. unfold target_work. destruct (handler s0 t) as [|i|i|i|i|i] eqn:Eh.
      - destruct (sgi s0 t); [|done]. destruct (irq_off s0 t); [done|]. injection E as <-. split; [done|]. cbn [set_handler set_sgi handler sgi]. split; [intros x Hx; by rewrite !fn_lookup_insert_ne|].
        rewrite !fn_lookup_insert. unfold scan. cbn. lia.
      - case_decide; injection E as <-; (split; [done|]; cbn [set_handler handler sgi]; split; [intros x Hx; by rewrite !fn_lookup_insert_ne|]; rewrite fn_lookup_insert); [destruct (locked _)|]; cbn; lia.
      - injection E as <-. split; [done|]. cbn [set_handler handler sgi add_ran]. split; [intros x Hx; by rewrite !fn_lookup_insert_ne|]. rewrite fn_lookup_insert. cbn. lia.
      - injection E as <-. split; [done|]. cbn [set_handler handler sgi set_call]. split; [intros x Hx; by rewrite !fn_lookup_insert_ne|]. rewrite fn_lookup_insert. cbn. lia.
      - injection E as <-. split; [done|]. cbn [set_handler handler sgi set_call]. split; [intros x Hx; by rewrite !fn_lookup_insert_ne|]. rewrite fn_lookup_insert. cbn. lia.
      - injection E as <-. split; [done|]. cbn [set_handler handler sgi set_call]. split; [intros x Hx; by rewrite !fn_lookup_insert_ne|]. rewrite fn_lookup_insert. cbn. lia. }
    rewrite E1. pose proof (sum_change (target_work s0) (target_work s1) t Ht E2). lia.
Qed.

Lemma work_irq_off s s' : work s s' -> irq_off s' = irq_off s.
Proof.
  intros [c s0 s1 Hc E|t s0 s1 Ht E].
  - unfold caller_step in E. destruct (handler s0 c); try done. destruct (caller s0 c); try done; try (destruct (smp_call_wait _); [|done]); by injection E as <-.
  - unfold handler_step in E. destruct (handler s0 t); try (by injection E as <-); [|case_decide; by injection E as <-]. destruct (_ && _); [|done]. by injection E as <-.
Qed.

Definition all_done (s : smp) : Prop :=
  forall c, (c < NR_CPUS)%nat -> caller s c = COut /\ handler s c = HOut /\ forall t, (t < NR_CPUS)%nat -> issued s c t = ran s c t.

(** Where no cpu can go on there is nothing left. *)
Lemma stuck_done s : smp_ok s -> (forall c, irq_off s c = false) -> (forall c, (c < NR_CPUS)%nat -> caller_step c s = None /\ handler_step c s = None) -> all_done s.
Proof.
  intros [HP HC] Hoff Hst.
  assert (forall t, (t < NR_CPUS)%nat -> handler s t = HOut /\ sgi s t = false) as Hh.
  { intros t Ht. destruct (Hst t Ht) as [_ E]. unfold handler_step in E. rewrite Hoff in E. destruct (handler s t); try done; [destruct (sgi s t); done|by case_decide]. }
  assert (forall t c, (t < NR_CPUS)%nat -> locked (calls s t c) = false) as Hl.
  { intros t c Ht. destruct (locked (calls s t c)) eqn:El; [|done]. destruct (HP c t) as [_ _ _ H4 H5]. destruct (Hh t Ht) as [Eh Eg]. rewrite Eh, Eg in H4. destruct (H5 El) as [Hc _].
    destruct (H4 El) as [?|[?|(r & Er & _)]]; [done|done|]. destruct (Hst c Hc) as [E _]. unfold caller_step in E. by rewrite (proj1 (Hh c Hc)), Er in E. }
  assert (forall c, (c < NR_CPUS)%nat -> caller s c = COut) as Hco.
  { intros c Hc. destruct (Hst c Hc) as [E _]. unfold caller_step in E. rewrite (proj1 (Hh c Hc)) in E. pose proof (proj1 (HC c)) as Ht.
    destruct (caller s c) as [|r|r|r|r|r|r|r]; try done; unfold smp_call_wait in E; by rewrite Hl in E by (by apply Ht). }
  intros c Hc. split; [by apply Hco|]. split; [by apply Hh|]. intros t Ht. rewrite (pi_order _ _ _ _ _ _ _ _ (HP c t)), (Hco c Hc). unfold slot_ev. rewrite Hl by done. cbn. by rewrite app_nil_r.
Qed.

Lemma can_go_on s : (exists s', work s s') \/ forall c, (c < NR_CPUS)%nat -> caller_step c s = None /\ handler_step c s = None.
Proof.
  destruct (decide (Exists (fun c => is_Some (caller_step c s) \/ is_Some (handler_step c s)) (seq 0 NR_CPUS))) as [H|H].
  - left. apply list.Exists_exists in H as (c & Hc & [[s' E]|[s' E]]); apply elem_of_seq in Hc; exists s'; [apply (work_caller c)|apply (work_handler c)]; (lia || done).
  - right. intros c Hc. apply not_Exists_Forall in H; [|apply _]. rewrite list.Forall_forall in H. specialize (H c ltac:(apply elem_of_seq; lia)). cbn in H.
    split; apply eq_None_not_Some; tauto.
Qed.
End smp.

(** C11: calls from one cpu to another are run in the order they were made, each of them
    once and with its own argument: what was run is what was asked for, up to the last
    two, and a caller that waits goes on only when its call was run.  Memory
    is sequentially consistent. *)
Theorem smp_calls_in_order (n : nat) (s : smp) : reachable n s -> forall c t,
  (exists todo, issued s c t = ran s c t ++ todo /\ (length todo <= 2)%nat)
  /\ forall r, caller s c = CExit r -> rq_wait r = true -> rq_cpu r = t -> issued s c t = ran s c t.
Proof.
  intros Hr c t. destruct (reachable_ok n s Hr) as [HP _]. destruct (HP c t) as [H1 H2 H3 H4 H5]. split.
  - eexists. split; [exact H1|]. rewrite length_app. assert (length (slot_ev (calls s t c) (handler s t) c) <= 1)%nat by (unfold slot_ev; destruct (_ && _); cbn; lia).
    assert (length (caller_ev (caller s c) t) <= 1)%nat by (destruct (caller s c); cbn; try case_decide; cbn; lia). lia.
  - intros r Er Hw Ht. rewrite Er in *. cbn in H2. rewrite H1. unfold slot_ev. rewrite H2 by done. cbn. by rewrite app_nil_r.
Qed.

(** C12: as long as no cpu keeps its interrupts masked, the calls that were made are
    completed whatever the order in which the cpus go on: they can take only a bounded
    number of steps, and stop only when every caller has returned and every call was run.
    Memory is sequentially consistent. *)
Theorem smp_calls_complete (n : nat) (s : smp) : reachable n s -> (forall c, irq_off s c = false) ->
  (forall k s', nsteps (work n) k s s' -> (k <= work_left n s)%nat)
  /\ forall s', rtc (work n) s s' -> (exists s'', work n s' s'') \/ all_done n s'.
Proof.
  intros Hr Hoff. pose proof (reachable_ok n s Hr) as Hok. clear Hr. split.
  - intros k s' H. revert Hok. clear Hoff. induction H as [s|k s s1 s2 Hw Hn IH]; intros Hok; [lia|].
    pose proof (work_decreases n s s1 Hok Hw). specialize (IH (work_ok n s s1 Hw Hok)). lia.
  - intros s' H. induction H as [s|s s1 s2 Hw Hn IH].
    + destruct (can_go_on n s) as [?|Hst]; [by left|right]. by apply stuck_done.
    + apply IH; [|by eapply work_ok]. intros c. by rewrite (work_irq_off n s s1 Hw).
Qed.

(** ** Examples *)
Definition boot0 : smp := mk_smp (fun _ _ => mk_call 7 1 7) (fun _ => COut) (fun _ => HOut) (fun _ => false) (fun _ => false) (fun _ => 0) (fun _ _ => []) (fun _ _ => []).

Lemma boot0_reachable n : reachable n (smp_init boot0).
Proof. apply reach_init. by intros c. Qed.

(** Runs the steps that are named: [inl c] goes on with the caller and [inr t] with the
    handler. *)
Fixpoint run_work (n : nat) (l : list (nat + nat)) (s : smp) : option smp :=
  match l with
  | [] => Some s
  | inl c :: l => s ← caller_step c s; run_work n l s
  | inr t :: l => s ← handler_step n t s; run_work n l s
  end.

Lemma run_work_rtc n l s s' : Forall (fun x => match x with inl c | inr c => (c < n)%nat end) l -> run_work n l s = Some s' -> rtc (work n) s s'.
Proof.
  revert s. induction l as [|[c|t] l IH]; intros s Hl E; cbn in E; [by injection E as <-| |]; apply list.Forall_cons in Hl as [Hc Hl].
  - destruct (caller_step c s) as [s1|] eqn:E1; [|done]. eapply rtc_l; [by apply (work_caller n c)|by apply IH].
  - destruct (handler_step n t s) as [s1|] eqn:E1; [|done]. eapply rtc_l; [by apply (work_handler n t)|by apply IH].
Qed.

Lemma reachable_work n s s' : reachable n s -> rtc (work n) s s' -> reachable n s'.
Proof. intros Hr H. induction H as [|s s1 s2 Hw _ IH]; [done|]. apply IH. eapply reach_step; [done|by apply step_work]. Qed.

Lemma reach_call n c r s : (c < n)%nat -> reachable n s -> reachable n (default s (smp_function_call n c r s)).
Proof. intros Hc Hr. destruct (smp_function_call n c r s) eqn:E; [|done]. eapply reach_step; [done|by apply (step_call n c r)]. Qed.

Lemma reach_run n l s : Forall (fun x => match x with inl c | inr c => (c < n)%nat end) l -> reachable n s -> reachable n (default s (run_work n l s)).
Proof. intros Hl Hr. destruct (run_work n l s) eqn:E; [|done]. eapply reachable_work; [done|by eapply run_work_rtc]. Qed.

(** Cpu 0 calls function 5 on cpu 1 and waits. *)
Definition call01 : smp := default (smp_init boot0) (smp_function_call 2 0 (mk_req 1 5 6 true) (smp_init boot0)).
Definition exit01 : smp := default call01 (run_work 2 (replicate 5 (inl 0%nat) ++ replicate 6 (inr 1%nat) ++ [inl 0%nat]) call01).

Lemma call01_reachable : reachable 2 call01.
Proof. apply reach_call; [lia|apply boot0_reachable]. Qed.

Lemma exit01_reachable : reachable 2 exit01.
Proof. apply reach_run; [cbn; repeat constructor|apply call01_reachable]. Qed.

Lemma smp_calls_in_order_witness : caller exit01 0%nat = CExit (mk_req 1 5 6 true) /\ issued exit01 0%nat 1%nat = ran exit01 0%nat 1%nat /\ ran exit01 0%nat 1%nat = [(5, 6)].
Proof. split; [reflexivity|]. split; [|reflexivity]. exact (proj2 (smp_calls_in_order 2 exit01 exit01_reachable 0 1) (mk_req 1 5 6 true) eq_refl eq_refl eq_refl). Defined.

Lemma smp_calls_complete_witness : ran call01 0%nat 1%nat = [] /\ forall s', rtc (work 2) call01 s' -> (exists s'', work 2 s' s'') \/ all_done 2 s'.
Proof. split; [reflexivity|]. exact (proj2 (smp_calls_complete 2 call01 call01_reachable (fun _ => eq_refl))). Defined.

Definition masked0 : smp := set_irq_off 1 true (set_irq_off 0 true (smp_init boot0)).
Definition masked1 : smp := default masked0 (smp_function_call 2 0 (mk_req 1 5 6 true) masked0).
Definition masked2 : smp := default masked1 (smp_function_call 2 1 (mk_req 0 5 6 true) masked1).
Definition masked3 : smp := default masked2 (run_work 2 (replicate 5 (inl 0%nat) ++ replicate 5 (inl 1%nat)) masked2).

(** Two cpus that call each other with their interrupts masked wait for ever. *)
Lemma masked_calls_deadlock : reachable 2 masked3 /\ (forall c, (c < 2)%nat -> caller_step c masked3 = None /\ handler_step 2 c masked3 = None) /\ caller masked3 0%nat = CDone (mk_req 1 5 6 true).
Proof.
  split; [|split; [intros [|[|c]] Hc; [split; vm_compute; reflexivity|split; vm_compute; reflexivity|lia]|vm_compute; reflexivity]].
  apply reach_run; [cbn; repeat constructor|]. apply reach_call; [lia|]. apply reach_call; [lia|].
  eapply reach_step; [eapply reach_step; [apply boot0_reachable|]|]; by apply step_mask.
Qed.

(** A number that is out of range is refused with preemption left disabled. *)
Lemma bad_cpu_keeps_preempt n c r s : caller s c = COut -> handler s c = HOut -> (n <= rq_cpu r)%nat ->
  exists s', smp_function_call n c r s = Some s' /\ caller s' c = COut /\ preempt_count s' c = preempt_count s c + 1.
Proof. intros Ec Eh Hr. unfold smp_function_call. rewrite Ec, Eh, decide_True by done. eexists. split; [done|]. split; [done|]. cbn. apply fn_lookup_insert. Qed.

(** ** Starting the cpus *)
Section up.

(** [cpu_on] is the result of [platform->cpu_on], none if there is no such function, and
    [awake i t] says whether cpu [i] has written its entry of [smp_affinity_id] [t]
    milliseconds after the loop began. *)
Context (nr_cpus : nat) (cpu_on : option (nat -> Z)) (awake : nat -> nat -> bool).

Definition smp_cpu_up (cpu : nat) : Z := match cpu_on with Some f => f cpu | None => 0 end.

(** The cpus that could not be started. *)
Definition failed_cpus : list nat := List.filter (fun i => negb (smp_cpu_up i =? 0)) (seq 1 (nr_cpus - 1)).

(** The loop for one cpu: the counter goes on from where the last one left it. *)
Fixpoint wait_up (fuel : nat) (i cnt now : nat) : nat * nat :=
  match fuel with
  | O => (cnt, now)
  | S fuel => if negb (awake i now) && (cnt <? 2000)%nat then wait_up fuel i (S cnt) (S now) else (cnt, now)
  end.

Fixpoint up_loop (l : list nat) (cnt now : nat) (cpu_online : Z) : Z * nat * nat :=
  match l with
  | [] => (cpu_online, cnt, now)
  | i :: l =>
      let '(cnt, now) := wait_up 2001 i cnt now in
      up_loop l cnt now (if awake i now then Z.setbit cpu_online (Z.of_nat i) else cpu_online)
  end.

(** [cpu_online] at the end, with what was waited. *)
Definition smp_cpus_up (cpu_online : Z) : Z * nat * nat := up_loop (seq 1 (nr_cpus - 1)) 0 0 cpu_online.

Lemma wait_up_spec fuel i : forall cnt now, (2000 < fuel + cnt)%nat -> (cnt <= 2000)%nat ->
  exists cnt' now', wait_up fuel i cnt now = (cnt', now') /\ (cnt' <= 2000)%nat /\ (cnt' - cnt = now' - now)%nat /\ (cnt <= cnt')%nat /\ (now <= now')%nat
    /\ (awake i now' = true \/ cnt' = 2000%nat) /\ forall k, (now <= k < now')%nat -> awake i k = false.
Proof.
  induction fuel as [|fuel IH]; intros cnt now Hf Hc; [lia|]. cbn [wait_up]. destruct (awake i now) eqn:Ea; cbn [negb andb].
  - exists cnt, now. do 5 (split; [done || lia|]). split; [by left|lia].
  - destruct (Nat.ltb_spec cnt 2000).
    + destruct (IH (S cnt) (S now)) as (cnt' & now' & -> & H1 & H2 & H3 & H4 & H5 & H6); [lia|lia|]. exists cnt', now'. do 5 (split; [done || lia|]). split; [done|]. intros k Hk. destruct (decide (k = now)) as [->|]; [done|]. apply H6. lia.
    + exists cnt, now. do 5 (split; [done || lia|]). split; [right; lia|lia].
Qed.

Lemma up_loop_spec l : forall cnt now online, (cnt <= 2000)%nat -> exists online' cnt' now', up_loop l cnt now online = (online', cnt', now')
  /\ (cnt' <= 2000)%nat /\ (now <= now' <= now + (2000 - cnt))%nat
  /\ forall b, 0 <= b -> (Z.testbit online' b = true -> Z.testbit online b = true \/ (Z.to_nat b ∈ l /\ exists k, (now <= k <= now')%nat /\ awake (Z.to_nat b) k = true))
       /\ (Z.testbit online b = true \/ (Z.to_nat b ∈ l /\ forall k, (now <= k)%nat -> awake (Z.to_nat b) k = true) -> Z.testbit online' b = true).
Proof.
  induction l as [|i l IH]; intros cnt now online Hc; cbn [up_loop].
  - eexists _, _, _. split; [done|]. split; [done|]. split; [lia|]. intros b Hb. split; [by left|]. intros [?|[H _]]; [done|]. by apply not_elem_of_nil in H.
  - destruct (wait_up_spec 2001 i cnt now) as (c1 & n1 & -> & H1 & H2 & H3 & H4 & H5 & H6); [lia|done|].
    set (o1 := if awake i n1 then _ else _). destruct (IH c1 n1 o1 H1) as (o' & c' & n' & -> & H7 & H8 & H9). eexists _, _, _. split; [done|]. split; [done|]. split; [lia|].
    intros b Hb. destruct (H9 b Hb) as [Ha Hd]. split.
    + intros E. destruct (Ha E) as [Eo|(Hin & k & Hk & Ek)]; [|right; split; [by constructor|exists k; split; [lia|done]]].
      unfold o1 in Eo. destruct (awake i n1) eqn:Ea; [|by left]. rewrite Z.setbit_eqb in Eo by lia. destruct (Z.eqb_spec (Z.of_nat i) b) as [<-|]; [|by left].
      right. rewrite Nat2Z.id. split; [constructor|]. exists n1. split; [lia|done].
    + intros [Eo|[Hin Hk]]; apply Hd.
      * left. unfold o1. destruct (awake i n1); [|done]. rewrite Z.setbit_eqb by lia. rewrite Eo. apply orb_true_r.
      * apply elem_of_cons in Hin as [Hin|Hin]; [|right; split; [done|intros k Hn; apply Hk; lia]]. left. unfold o1. rewrite <- Hin, Hk by lia. rewrite Z.setbit_eqb by lia. by rewrite Z2Nat.id, Z.eqb_refl by done.
Qed.
End up.

(** Bringing the cpus up ends after at most two seconds; a cpu is online at the end only
    if it has come up by then, and it is if it was up from the start. *)
Theorem smp_cpus_up_correct (n : nat) (awake : nat -> nat -> bool) :
  exists online cnt now, smp_cpus_up n awake 1 = (online, cnt, now) /\ (now <= 2000)%nat
    /\ forall i, (1 <= i < n)%nat ->
         (Z.testbit online (Z.of_nat i) = true -> exists k, (k <= now)%nat /\ awake i k = true)
         /\ ((forall k, awake i k = true) -> Z.testbit online (Z.of_nat i) = true).
Proof.
  destruct (up_loop_spec awake (seq 1 (n - 1)) 0 0 1) as (o & c & m & E & _ & Hm & H); [lia|]. exists o, c, m. split; [done|]. split; [lia|].
  intros i Hi. destruct (H (Z.of_nat i)) as [Ha Hb]; [lia|]. rewrite Nat2Z.id in *. split.
  - intros Et. destruct (Ha Et) as [E1|(_ & k & Hk & Ek)]; [|exists k; split; [lia|done]]. rewrite Z.bits_above_log2 in E1 by (cbn; lia). done.
  - intros Hk. apply Hb. right. split; [apply elem_of_seq; lia|]. intros k _. apply Hk.
Qed.

(** The counter is not reset for the next cpu: one that never comes up takes the two
    seconds of all others, and a cpu that needs a millisecond more is left offline. *)
Lemma late_cpu_offline : let '(online, _, _) := smp_cpus_up 3 (fun i t => (i =? 2)%nat && (2000 <? t)%nat) 1 in online = 1.
Proof. vm_compute. done. Qed.
