(* ===== verification/Console.v ===== *)
(** * Consoles (drivers/console.c, drivers/tty.c, virt/debug_console.c,
      generic/minos-linux-driver/vmbox/vmbox_console.c)

    The console of the hypervisor keeps a log in memory until a device takes over, and
    a ring of the characters that came in.  A native VM has a debug console: two rings
    of characters in memory that it shares with the hypervisor, and hypercalls; the
    driver of the guest is in the repository and is modelled with it, as is the console
    between two VMs over a message box.  All of them use rings with free running 32 bit
    indices, the record [vm_ring].  An access outside of the buffer of a ring, and a
    failed assertion, are [None].  What the device prints is a list. *)
From S2P Require Import Prelude Virq.
Local Open Scope minos_scope.

Definition EIO : Z := 5.
Definition ENODEV : Z := 19.

(** ** Rings *)
Record vm_ring := mk_ring {
  ridx : Z;
  widx : Z;
  rsize : Z;
  rbuf : list Z;
}.

Definition set_ridx (x : Z) (r : vm_ring) : vm_ring := mk_ring x (widx r) (rsize r) (rbuf r).
Definition set_widx (x : Z) (r : vm_ring) : vm_ring := mk_ring (ridx r) x (rsize r) (rbuf r).

Definition VM_RING_IDX (idx size : Z) : Z := Z.land idx (u32 (size - 1)).

Definition buf_get (i : Z) (r : vm_ring) : option Z := rbuf r !! Z.to_nat i.
Definition buf_set (i ch : Z) (r : vm_ring) : option vm_ring :=
  if i <? Z.of_nat (length (rbuf r)) then Some (mk_ring (ridx r) (widx r) (rsize r) (<[Z.to_nat i := ch]> (rbuf r))) else None.

(** [while (ridx != widx && recv < count) buf[recv++] = buffer[VM_RING_IDX(ridx++, size)]];
    [n] is the room that is left. *)
Fixpoint get_loop (n : nat) (rd w : Z) (r : vm_ring) : option (list Z * Z) :=
  match n with
  | O => Some ([], rd)
  | S n =>
      if rd =? w then Some ([], rd)
      else
        ch ← buf_get (VM_RING_IDX rd (rsize r)) r;
        '(l, rd) ← get_loop n (u32 (rd + 1)) w r;
        Some (ch :: l, rd)
  end.

(** [while (send < count) buffer[VM_RING_IDX(widx++, size)] = buf[send++]]. *)
Fixpoint put_loop (l : list Z) (w : Z) (r : vm_ring) : option (vm_ring * Z) :=
  match l with
  | [] => Some (r, w)
  | ch :: l => r ← buf_set (VM_RING_IDX w (rsize r)) ch r; put_loop l (u32 (w + 1)) r
  end.

(** *** What a ring holds *)
Definition ring_ok (r : vm_ring) : Prop :=
  (exists k, 0 <= k <= 31 /\ rsize r = 2 ^ k) /\ Z.of_nat (length (rbuf r)) = rsize r /\ 0 <= ridx r < 2 ^ 32 /\ 0 <= widx r < 2 ^ 32 /\ u32 (widx r - ridx r) <= rsize r.

Definition used (r : vm_ring) : nat := Z.to_nat (u32 (widx r - ridx r)).
(** The [n] characters from index [i] on. *)
Definition chars (i : Z) (n : nat) (r : vm_ring) : list Z := map (fun k => default 0 (rbuf r !! Z.to_nat ((i + Z.of_nat k) mod rsize r))) (seq 0 n).
Definition unread (r : vm_ring) : list Z := chars (ridx r) (used r) r.

Lemma ring_idx k i : 0 <= k <= 31 -> VM_RING_IDX i (2 ^ k) = i mod 2 ^ k.
Proof.
  intros Hk. unfold VM_RING_IDX. assert (0 < 2 ^ k <= 2 ^ 31) as Hp by (split; [lia|apply Z.pow_le_mono_r; lia]). rewrite u32_small by lia. apply land_pow_pred. lia.
Qed.

Lemma u32_mod k i : 0 <= k <= 31 -> u32 i mod 2 ^ k = i mod 2 ^ k.
Proof. intros Hk. unfold u32. apply Z.mod_mod_divide. exists (2 ^ (32 - k)). rewrite <- Z.pow_add_r by lia. f_equal. lia. Qed.

Lemma chars_length i n r : length (chars i n r) = n.
Proof. unfold chars. by rewrite length_map, length_seq. Qed.

Lemma chars_cons i n r : chars i (S n) r = default 0 (rbuf r !! Z.to_nat (i mod rsize r)) :: chars (i + 1) n r.
Proof.
  unfold chars. cbn [seq map]. rewrite Z.add_0_r. f_equal. rewrite <- seq_shift, map_map. apply map_ext. intros k. by replace (i + 1 + Z.of_nat k) with (i + Z.of_nat (S k)) by lia.
Qed.

Lemma chars_app i n m r : chars i (n + m) r = chars i n r ++ chars (i + Z.of_nat n) m r.
Proof. revert i. induction n as [|n IH]; intros i; cbn [Nat.add]; [by rewrite Z.add_0_r|]. rewrite !chars_cons, IH. cbn. do 2 f_equal. f_equal. lia. Qed.

Lemma chars_mod i j n r : i mod rsize r = j mod rsize r -> chars i n r = chars j n r.
Proof. intros H. unfold chars. apply map_ext. intros k. by rewrite <- (Zplus_mod_idemp_l i), H, Zplus_mod_idemp_l. Qed.

Section ring.
Context (r : vm_ring) (k : Z) (Hk : 0 <= k <= 31) (Hs : rsize r = 2 ^ k) (Hl : Z.of_nat (length (rbuf r)) = rsize r).

Lemma size_pos : 0 < rsize r <= 2 ^ 31.
Proof using Hk Hs. rewrite Hs. split; [lia|apply Z.pow_le_mono_r; lia]. Qed.

Lemma buf_at i : 0 <= i -> is_Some (rbuf r !! Z.to_nat (i mod rsize r)).
Proof using Hk Hs Hl. intros Hi. apply lookup_lt_is_Some. pose proof (Z.mod_pos_bound i (rsize r) ltac:(pose proof size_pos; lia)). lia. Qed.

(** Reading takes the first characters, as many as there is room for. *)
Lemma get_loop_spec n rd w : 0 <= rd < 2 ^ 32 -> 0 <= w < 2 ^ 32 ->
  let m := Nat.min n (Z.to_nat (u32 (w - rd))) in get_loop n rd w r = Some (chars rd m r, u32 (rd + Z.of_nat m)).
Proof using Hk Hs Hl.
  revert rd. induction n as [|n IH]; intros rd Hr Hw m; [cbn; by rewrite Z.add_0_r, u32_small|]. cbn [get_loop]. destruct (Z.eqb_spec rd w) as [->|Hne].
  - unfold m. rewrite Z.sub_diag, Nat.min_0_r. cbn. by rewrite Z.add_0_r, u32_small.
  - assert (u32 (w - rd) = u32 (w - u32 (rd + 1)) + 1) as E.
    { unfold u32. dlia. }
    unfold m. rewrite E. pose proof (u32_range (w - u32 (rd + 1))). replace (Z.to_nat (u32 (w - u32 (rd + 1)) + 1)) with (S (Z.to_nat (u32 (w - u32 (rd + 1))))) by lia. rewrite <- Nat.succ_min_distr, chars_cons.
    unfold buf_get. rewrite Hs, ring_idx by done. rewrite <- Hs. destruct (buf_at rd ltac:(lia)) as [x Ex]. rewrite Ex. cbn [mbind option_bind default]. rewrite IH by (try done; apply u32_range). cbn [mbind option_bind].
    f_equal. f_equal.
    + f_equal. apply chars_mod. rewrite Hs. by apply u32_mod.
    + unfold u32. rewrite Zplus_mod_idemp_l. f_equal. lia.
Qed.

Lemma buf_set_spec i n w ch : 0 <= w -> (i + Z.of_nat n) mod rsize r = w mod rsize r -> Z.of_nat n < rsize r ->
  exists r', buf_set (VM_RING_IDX w (rsize r)) ch r = Some r' /\ ridx r' = ridx r /\ widx r' = widx r /\ rsize r' = rsize r /\ length (rbuf r') = length (rbuf r)
    /\ chars i (S n) r' = chars i n r ++ [ch].
Proof using Hk Hs Hl.
  intros Hw E Hn. pose proof size_pos as Hp. pose proof (Z.mod_pos_bound w (rsize r) ltac:(lia)) as Hm. unfold buf_set. rewrite Hs, ring_idx by done. rewrite <- Hs, (proj2 (Z.ltb_lt _ _)) by lia.
  eexists. split; [done|]. do 3 (split; [done|]). split; [cbn [rbuf]; by rewrite length_insert|]. replace (S n) with (n + 1)%nat by lia. rewrite chars_app. f_equal.
  - unfold chars. cbn [rsize rbuf]. apply map_ext_in. intros j Hj%in_seq. rewrite list_lookup_insert_ne; [done|]. intros Ej.
    pose proof (Z.mod_pos_bound (i + Z.of_nat j) (rsize r) ltac:(lia)) as Hj2. assert ((i + Z.of_nat n) mod rsize r = (i + Z.of_nat j) mod rsize r) as E2 by lia.
    assert ((Z.of_nat n - Z.of_nat j) mod rsize r = 0) as E3.
    { replace (Z.of_nat n - Z.of_nat j) with ((i + Z.of_nat n) - (i + Z.of_nat j)) by lia. by rewrite Zminus_mod, E2, Z.sub_diag. }
    rewrite Z.mod_small in E3 by lia. lia.
  - rewrite chars_cons. unfold chars. cbn [rsize rbuf seq map]. rewrite E, list_lookup_insert_eq by lia. done.
Qed.
End ring.

(** Writing appends. *)
Lemma put_loop_spec k l : 0 <= k <= 31 -> forall i n w r, rsize r = 2 ^ k -> Z.of_nat (length (rbuf r)) = rsize r ->
  0 <= w < 2 ^ 32 -> (i + Z.of_nat n) mod rsize r = w mod rsize r -> Z.of_nat (n + length l) <= rsize r ->
  exists r', put_loop l w r = Some (r', u32 (w + Z.of_nat (length l))) /\ ridx r' = ridx r /\ widx r' = widx r /\ rsize r' = rsize r /\ length (rbuf r') = length (rbuf r)
    /\ chars i (n + length l) r' = chars i n r ++ l.
Proof.
  intros Hk. induction l as [|ch l IH]; intros i n w r Hs Hl Hw E Hn; cbn [length put_loop] in *.
  - exists r. rewrite Z.add_0_r, u32_small, Nat.add_0_r, app_nil_r by done. done.
  - destruct (buf_set_spec r k Hk Hs Hl i n w ch) as (r1 & -> & E1 & E2 & E3 & E4 & E5); [lia|done|lia|]. cbn [mbind option_bind].
    destruct (IH i (S n) (u32 (w + 1)) r1) as (r' & -> & F1 & F2 & F3 & F4 & F5); [congruence|lia|apply u32_range| |lia|].
    + rewrite E3, Hs, u32_mod by done. rewrite <- Hs. replace (i + Z.of_nat (S n)) with (i + Z.of_nat n + 1) by lia. by rewrite <- (Zplus_mod_idemp_l (i + _)), E, Zplus_mod_idemp_l.
    + exists r'. split; [f_equal; f_equal; unfold u32; rewrite Zplus_mod_idemp_l; f_equal; lia|]. do 3 (split; [congruence|]). split; [lia|].
      replace (n + S (length l))%nat with (S n + length l)%nat by lia. by rewrite F5, E5, <- app_assoc.
Qed.

Lemma chars_split i n m r : take m (chars i n r) = chars i (Nat.min m n) r /\ drop m (chars i n r) = chars (i + Z.of_nat m) (n - m) r.
Proof.
  destruct (decide (m <= n)%nat) as [Hm|Hm].
  - replace n with (m + (n - m))%nat at 1 3 by lia. rewrite chars_app, take_app_length', drop_app_length' by (by rewrite chars_length). by rewrite Nat.min_l by lia.
  - rewrite take_ge, drop_ge by (rewrite chars_length; lia). rewrite Nat.min_r by lia. by replace (n - m)%nat with 0%nat by lia.
Qed.

Lemma used_after a b n : 0 <= a < 2 ^ 32 -> 0 <= b < 2 ^ 32 -> (n <= Z.to_nat (u32 (b - a)))%nat -> u32 (b - u32 (a + Z.of_nat n)) = u32 (b - a) - Z.of_nat n.
Proof. intros Ha Hb Hn. unfold u32 in *. dlia. Qed.

Lemma ring_read r n : ring_ok r -> exists rd, get_loop n (ridx r) (widx r) r = Some (take n (unread r), rd) /\ ring_ok (set_ridx rd r) /\ unread (set_ridx rd r) = drop n (unread r).
Proof.
  intros ((k & Hk & Hs) & Hl & Hr & Hw & Hu). pose proof (u32_range (widx r - ridx r)) as Hub. unfold unread. destruct (chars_split (ridx r) (used r) n r) as [-> ->].
  set (m := Nat.min n (used r)). assert (m <= Z.to_nat (u32 (widx r - ridx r)))%nat as Hm by (unfold m, used; lia).
  exists (u32 (ridx r + Z.of_nat m)). split; [by rewrite (get_loop_spec r k Hk Hs Hl)|]. pose proof (used_after (ridx r) (widx r) m Hr Hw Hm) as E. split.
  - split; [by exists k|]. split; [done|]. split; [apply u32_range|]. split; [done|]. cbn. rewrite E. lia.
  - unfold used. cbn [set_ridx ridx widx]. rewrite E. change (chars (u32 (ridx r + Z.of_nat m)) (Z.to_nat (u32 (widx r - ridx r) - Z.of_nat m)) (set_ridx (u32 (ridx r + Z.of_nat m)) r))
      with (chars (u32 (ridx r + Z.of_nat m)) (Z.to_nat (u32 (widx r - ridx r) - Z.of_nat m)) r).
    replace (Z.to_nat (u32 (widx r - ridx r) - Z.of_nat m)) with (Z.to_nat (u32 (widx r - ridx r)) - n)%nat by (unfold m, used; lia).
    destruct (decide (n <= used r)%nat); [|by replace (Z.to_nat (u32 (widx r - ridx r)) - n)%nat with 0%nat by (unfold used in *; lia)].
    apply chars_mod. rewrite Hs, u32_mod by done. by replace m with n by (unfold m; lia).
Qed.

Lemma used_more a b n : 0 <= a < 2 ^ 32 -> 0 <= b < 2 ^ 32 -> u32 (b - a) + Z.of_nat n < 2 ^ 32 -> u32 (u32 (b + Z.of_nat n) - a) = u32 (b - a) + Z.of_nat n.
Proof. intros Ha Hb Hn. unfold u32 in *. dlia. Qed.

Lemma ring_write r l : ring_ok r -> Z.of_nat (used r + length l) <= rsize r ->
  exists r' w, put_loop l (widx r) r = Some (r', w) /\ ridx r' = ridx r /\ widx r' = widx r /\ rsize r' = rsize r /\ length (rbuf r') = length (rbuf r)
    /\ ring_ok (set_widx w r') /\ unread (set_widx w r') = unread r ++ l.
Proof.
  intros ((k & Hk & Hs) & Hl & Hr & Hw & Hu) Hn. pose proof (u32_range (widx r - ridx r)) as Hub. assert (rsize r <= 2 ^ 31) as Hp by (rewrite Hs; apply Z.pow_le_mono_r; lia). unfold used in Hn.
  destruct (put_loop_spec k l Hk (ridx r) (used r) (widx r) r Hs Hl Hw) as (r' & E & E1 & E2 & E3 & E4 & E5); [|done|].
  { unfold used. rewrite Z2Nat.id by lia. rewrite Hs, <- u32_mod by done. f_equal. unfold u32 in *. dlia. }
  assert (u32 (u32 (widx r + Z.of_nat (length l)) - ridx r) = u32 (widx r - ridx r) + Z.of_nat (length l)) as Eu by (apply used_more; lia).
  eexists _, _. split; [exact E|]. do 4 (split; [done|]). split.
  - split; [exists k; cbn; split; [done|congruence]|]. cbn. rewrite E1, E3. split; [lia|]. split; [done|]. split; [apply u32_range|]. rewrite Eu. lia.
  - unfold unread, used. cbn [set_widx ridx widx]. rewrite E1, Eu, Z2Nat.inj_add, Nat2Z.id by lia. exact E5.
Qed.

(** ** The console of the hypervisor *)
Definition MEM_CONSOLE_SIZE : Z := 2048.
Definition CONSOLE_INBUF_SIZE : Z := 2048.
Definition MEM_CONSOLE_IDX (idx : Z) : Z := Z.land idx (MEM_CONSOLE_SIZE - 1).

Inductive con := MemConsole | DevConsole (name : list Z).
#[export] Instance con_eq_dec : EqDecision con.
Proof. solve_decision. Defined.

(** [widx] and [mem_log_buf], the console in use if it is not [NULL], the ring of
    characters that came in ([inbuf_ridx], [inbuf_widx], [console_inbuf]), the count of
    [console_sem] and what the device has printed. *)
Record console := mk_console {
  log_widx : Z;
  mem_log_buf : list Z;
  cur_console : option con;
  inbuf : vm_ring;
  console_sem : Z;
  printed : list Z;
}.

Definition set_inbuf (x : vm_ring) (s : console) : console := mk_console (log_widx s) (mem_log_buf s) (cur_console s) x (console_sem s) (printed s).
Definition set_cur (x : option con) (s : console) : console := mk_console (log_widx s) (mem_log_buf s) x (inbuf s) (console_sem s) (printed s).
Definition set_sem (x : Z) (s : console) : console := mk_console (log_widx s) (mem_log_buf s) (cur_console s) (inbuf s) x (printed s).
Definition print_dev (ch : Z) (s : console) : console := mk_console (log_widx s) (mem_log_buf s) (cur_console s) (inbuf s) (console_sem s) (printed s ++ [ch]).

Definition mem_console_putc (ch : Z) (s : console) : console :=
  mk_console (s32 (log_widx s + 1)) (<[Z.to_nat (MEM_CONSOLE_IDX (log_widx s)) := ch]> (mem_log_buf s)) (cur_console s) (inbuf s) (console_sem s) (printed s).

Definition console_putc (ch : Z) (s : console) : option console :=
  match cur_console s with
  | None => None
  | Some MemConsole => Some (mem_console_putc ch s)
  | Some (DevConsole _) => Some (print_dev ch s)
  end.

(** [consoles] are those of the section [.__console], with their names. *)
Fixpoint get_console (consoles : list (list Z * con)) (name : list Z) : option con :=
  match consoles with
  | [] => None
  | (n, c) :: l => if decide (n = name) then Some c else get_console l name
  end.

(** The loop that flushes the log; its bound is read in each round. *)
Fixpoint flush_loop (fuel : nat) (index : Z) (s : console) : option console :=
  match fuel with
  | O => None
  | S fuel =>
      if index <? MEM_CONSOLE_IDX (log_widx s)
      then ch ← mem_log_buf s !! Z.to_nat index; s ← console_putc ch s; flush_loop fuel (index + 1) s
      else Some s
  end.

Definition console_init (consoles : list (list Z * con)) (name : option (list Z)) (s : console) : option console :=
  let s := set_sem 0 s in
  let s := match name with Some n => set_cur (get_console consoles n) s | None => s end in
  match cur_console s with
  | None => None
  | Some _ => flush_loop 2049 0 s
  end.

Definition console_recv (buf : list Z) (s : console) : option console :=
  '(r, w) ← put_loop buf (widx (inbuf s)) (inbuf s);
  Some (set_sem (console_sem s + 1) (set_inbuf (set_widx w r) s)).

(** [waits] is what each [sem_pend] returns and the characters that come in before it
    does. *)
Fixpoint console_gets (waits : list (Z * list Z)) (max timeout : Z) (s : console) : option (Z * list Z * console) :=
  let r := inbuf s in
  let n := u32 (widx r - ridx r) in
  ASSERT (n <=? CONSOLE_INBUF_SIZE) ;;
  let copy := if max <? n then max else n in
  if 0 <? copy then
    '(l, rd) ← get_loop (Z.to_nat copy) (ridx r) (widx r) r;
    Some (copy, l, set_inbuf (set_ridx rd r) s)
  else if 0 <? timeout then
    match waits with
    | [] => None
    | (ret, cs) :: waits =>
        s ← (if decide (cs = []) then Some s else console_recv cs s);
        if ret =? 0 then console_gets waits max timeout s else Some (ret, [], s)
    end
  else Some (copy, [], s).

(** ** Terminals *)
Definition TTY_NAME_SIZE : Z := 16.

(** [ty_ops] says whether there are operations, [ty_linked] whether [list] is in the list. *)
Record tty := mk_tty {
  ty_name : list Z;
  ty_id : Z;
  ty_open : bool;
  ty_flags : Z;
  ty_ops : bool;
  ty_pdata : Z;
  ty_linked : bool;
}.

(** The terminals that were allocated, and [tty_list]. *)
Record ttys := mk_ttys {
  tty_heap : gmap Z tty;
  tty_list : list Z;
}.

Definition upd_tty (f : tty -> tty) (p : Z) (s : ttys) : option ttys :=
  t ← tty_heap s !! p; Some (mk_ttys (<[p := f t]> (tty_heap s)) (tty_list s)).

(** The entry of the list with that name or number. *)
Fixpoint tty_find (test : tty -> bool) (l : list Z) (h : gmap Z tty) : option Z :=
  match l with
  | [] => None
  | p :: l => match h !! p with Some t => if test t then Some p else tty_find test l h | None => tty_find test l h end
  end.

Definition name_is (name : list Z) (t : tty) : bool := bool_decide (name = ty_name t).

(** [mem] is what [zalloc] returns. *)
Definition alloc_tty (mem : option Z) (name : list Z) (id flags : Z) (s : ttys) : option Z * ttys :=
  match tty_find (fun t => (ty_id t =? id) || name_is name t) (tty_list s) (tty_heap s) with
  | Some _ => (None, s)
  | None =>
      match mem with
      | None => (None, s)
      | Some p => (Some p, mk_ttys (<[p := mk_tty (take (Z.to_nat (TTY_NAME_SIZE - 1)) name) id false flags false 0 false]> (tty_heap s)) (tty_list s))
      end
  end.

Definition register_tty (p : Z) (s : ttys) : option (Z * ttys) :=
  t ← tty_heap s !! p;
  if negb (ty_ops t) then Some (- EINVAL, s)
  else Some (0, mk_ttys (<[p := mk_tty (ty_name t) (ty_id t) (ty_open t) (ty_flags t) (ty_ops t) (ty_pdata t) true]> (tty_heap s)) (tty_list s ++ [p])).

Definition release_tty (p : Z) (s : ttys) : option (Z * ttys) :=
  if p =? 0 then Some (- EINVAL, s)
  else
    t ← tty_heap s !! p;
    if negb (ty_linked t) then Some (- EINVAL, s)
    else Some (0, mk_ttys (delete p (tty_heap s)) (List.filter (fun q => negb (q =? p)) (tty_list s))).

Definition open_tty (name : list Z) (s : ttys) : option (option Z * ttys) :=
  match tty_find (name_is name) (tty_list s) (tty_heap s) with
  | None => Some (None, s)
  | Some p =>
      t ← tty_heap s !! p;
      if ty_open t then Some (None, s)
      else if negb (ty_ops t) then None
      else Some (Some p, mk_ttys (<[p := mk_tty (ty_name t) (ty_id t) true (ty_flags t) (ty_ops t) (ty_pdata t) (ty_linked t)]> (tty_heap s)) (tty_list s))
  end.

Definition close_tty (p : Z) (s : ttys) : option ttys :=
  if p =? 0 then Some s
  else
    t ← tty_heap s !! p;
    if negb (ty_open t) then Some s
    else if negb (ty_ops t) then None
    else Some (mk_ttys (<[p := mk_tty (ty_name t) (ty_id t) false (ty_flags t) (ty_ops t) (ty_pdata t) (ty_linked t)]> (tty_heap s)) (tty_list s)).

(** ** The debug console of a VM *)
Definition DCON_TTY_MAGIC : Z := 0xabcd0000.
Definition DCON_RX_RING_SIZE : Z := 2048.
Definition DCON_TX_RING_SIZE : Z := 4096.
Definition DCON_RING_SIZE : Z := 8192.
Definition NR_DC : Z := 8.

(** The rings are in memory that is shared with the VM; [dc_tty] is the terminal. *)
Record vm_debug_console := mk_dcon {
  dc_irq : Z;
  dc_open : bool;
  dc_tty : Z;
  dc_ring_addr : Z;
  dc_tx : vm_ring;
  dc_rx : vm_ring;
}.

Definition set_dc_irq (x : Z) (d : vm_debug_console) := mk_dcon x (dc_open d) (dc_tty d) (dc_ring_addr d) (dc_tx d) (dc_rx d).
Definition set_dc_open (x : bool) (d : vm_debug_console) := mk_dcon (dc_irq d) x (dc_tty d) (dc_ring_addr d) (dc_tx d) (dc_rx d).
Definition set_dc_tx (x : vm_ring) (d : vm_debug_console) := mk_dcon (dc_irq d) (dc_open d) (dc_tty d) (dc_ring_addr d) x (dc_rx d).
Definition set_dc_rx (x : vm_ring) (d : vm_debug_console) := mk_dcon (dc_irq d) (dc_open d) (dc_tty d) (dc_ring_addr d) (dc_tx d) x.

(** The index is used as it is, without [VM_RING_IDX]. *)
Definition dcon_putc (cur ch : Z) (d : vm_debug_console) (m : vm) : option (Z * vm_debug_console * vm) :=
  let tx := dc_tx d in
  if negb (dc_open d) then Some (0, d, m)
  else if rsize tx <? u32 (widx tx - ridx tx) then Some (- EIO, d, m)
  else
    tx' ← buf_set (widx tx) ch tx;
    '(_, m) ← send_virq_to_vm cur (dc_irq d) m;
    Some (0, set_dc_tx (set_widx (u32 (widx tx + 1)) tx') d, m).

Definition dcon_putcs : Z := 0.

(** [n] is the number of characters between the indices. *)
Fixpoint write_loop (n : nat) (rd : Z) (ring : vm_ring) (s : console) : option console :=
  match n with
  | O => Some s
  | S n =>
      ch ← buf_get (VM_RING_IDX rd (rsize ring)) ring;
      s ← console_putc ch s;
      write_loop n (u32 (rd + 1)) ring s
  end.

Definition dcon_write (tty_open : bool) (d : vm_debug_console) (s : console) : option (vm_debug_console * console) :=
  let ring := dc_rx d in
  if negb tty_open then Some (set_dc_rx (set_ridx (widx ring) ring) d, s)
  else
    s ← write_loop (Z.to_nat (u32 (widx ring - ridx ring))) (ridx ring) ring s;
    Some (set_dc_rx (set_ridx (widx ring) ring) d, s).

(** [dynamic] is the property of the node; the rest is what the calls give: the base and
    size of the device, its interrupt, and the start of the area, 0 if there is none. *)
Definition dcon_get_resource (dynamic : bool) (addr : option (Z * Z)) (irq : option Z) (area : Z) : Z + Z * Z :=
  if negb dynamic then
    match addr with
    | None => inl (- EINVAL)
    | Some (_, size) =>
        if size <? DCON_RING_SIZE then inl (- EINVAL)
        else match irq with None => inl (- EINVAL) | Some i => inr (area, i) end
    end
  else if area =? 0 then inl (- ENOMEM) else inr (area, 0).

(** [tx0] and [rx0] are what the buffers of the rings hold in the shared memory.  An area
    that is missing is used all the same. *)
Definition dcon_init (dynamic : bool) (addr : option (Z * Z)) (irq : option Z) (area : Z) (tx0 rx0 : list Z) (d : vm_debug_console) : option (Z * vm_debug_console) :=
  match dcon_get_resource dynamic addr irq area with
  | inl _ => Some (- ENODEV, d)
  | inr (start, irq) =>
      if start =? 0 then None
      else Some (0, mk_dcon irq (dc_open d) (dc_tty d) start (mk_ring 0 0 DCON_RX_RING_SIZE tx0) (mk_ring 0 0 DCON_TX_RING_SIZE rx0))
  end.

(** The consoles by VM and their state; [m] is the VM that runs. *)
Record dcons_st := mk_dcons {
  dcons : list (option vm_debug_console);
  dc_ttys : ttys;
  dc_console : console;
}.

(** [tmem], [dmem] and [ring] are what the allocations return, [name] is the text of
    [vm%d]. *)
Definition create_dconsole (native : bool) (vmid : Z) (name : list Z) (tmem dmem ring : option Z) (dynamic : bool) (addr : option (Z * Z)) (irq : option Z) (area : Z) (tx0 rx0 : list Z) (s : dcons_st) : option (Z * dcons_st) :=
  if negb native || (NR_DC <=? vmid) then Some (0, s)
  else
    match alloc_tty tmem name (Z.lor vmid DCON_TTY_MAGIC) 0 (dc_ttys s) with
    | (None, _) => Some (- ENOENT, s)
    | (Some t, ts) =>
        let s := mk_dcons (dcons s) ts (dc_console s) in
        let release s := '(_, ts) ← release_tty t (dc_ttys s); Some (- ENOMEM, mk_dcons (dcons s) ts (dc_console s)) in
        match dmem, ring with
        | Some _, Some _ =>
            '(ret, d) ← dcon_init dynamic addr irq area tx0 rx0 (mk_dcon 0 false t 0 (mk_ring 0 0 0 []) (mk_ring 0 0 0 []));
            if negb (ret =? 0) then release s
            else
              ts ← upd_tty (fun t => mk_tty (ty_name t) (ty_id t) (ty_open t) (ty_flags t) true vmid (ty_linked t)) t ts;
              '(_, ts) ← register_tty t ts;
              Some (0, mk_dcons (<[Z.to_nat vmid := Some d]> (dcons s)) ts (dc_console s))
        | _, _ => release s
        end
    end.

Definition HVC_DC_GET_STAT : Z := 0.
Definition HVC_DC_GET_RING : Z := 1.
Definition HVC_DC_GET_IRQ : Z := 2.
Definition HVC_DC_WRITE : Z := 3.
Definition HVC_DC_OPEN : Z := 4.
Definition HVC_DC_CLOSE : Z := 5.

(** The number of the VM is not compared with the size of the array; [fn] is the number
    of the function in the class of the console.  The result is what the guest gets. *)
Definition dcon_hvc_handler (vmid fn : Z) (s : dcons_st) (m : vm) : option (Z * dcons_st * vm) :=
  x ← dcons s !! Z.to_nat vmid;
  match x with
  | None => Some (0, s, m)
  | Some d =>
      let put d := mk_dcons (<[Z.to_nat vmid := Some d]> (dcons s)) (dc_ttys s) (dc_console s) in
      if fn =? HVC_DC_GET_STAT then Some (Z.lor DCON_TTY_MAGIC vmid, s, m)
      else if fn =? HVC_DC_GET_RING then Some (dc_ring_addr d, s, m)
      else if fn =? HVC_DC_GET_IRQ then
        if dc_irq d =? 0 then '(v, m) ← alloc_vm_virq m; let irq := u32 v in Some (irq, put (set_dc_irq (if irq <? 0 then 0 else irq) d), m)
        else Some (dc_irq d, s, m)
      else if fn =? HVC_DC_WRITE then
        t ← tty_heap (dc_ttys s) !! dc_tty d;
        '(d, c) ← dcon_write (ty_open t) d (dc_console s);
        Some (0, mk_dcons (<[Z.to_nat vmid := Some d]> (dcons s)) (dc_ttys s) c, m)
      else if fn =? HVC_DC_OPEN then Some (0, put (set_dc_open true d), m)
      else if fn =? HVC_DC_CLOSE then Some (0, put (set_dc_open false d), m)
      else Some (0, s, m)
  end.

(** ** The driver in the guest *)

(** The rings are seen from the other side: the guest writes to [rx] of the hypervisor. *)
Definition vm_debug_read_console (count : nat) (ring : vm_ring) : option (list Z * vm_ring) :=
  ASSERT (u32 (widx ring - ridx ring) <=? rsize ring) ;;
  '(l, rd) ← get_loop count (ridx ring) (widx ring) ring;
  Some (l, set_ridx rd ring).

(** Up to the hypercall. *)
Definition vm_debug_put (buf : list Z) (tx : vm_ring) : option vm_ring :=
  ASSERT (u32 (widx tx - ridx tx) <? rsize tx) ;;
  '(r, w) ← put_loop buf (widx tx) tx;
  Some (set_widx w r).

Definition vm_debug_write_console (vmid : Z) (buf : list Z) (s : dcons_st) (m : vm) : option (Z * dcons_st * vm) :=
  x ← dcons s !! Z.to_nat vmid;
  d ← x;
  r ← vm_debug_put buf (dc_rx d);
  '(_, s, m) ← dcon_hvc_handler vmid HVC_DC_WRITE (mk_dcons (<[Z.to_nat vmid := Some (set_dc_rx r d)]> (dcons s)) (dc_ttys s) (dc_console s)) m;
  Some (Z.of_nat (length buf), s, m).

(** *** The console over a message box *)
Definition vmbox_hvc_read_console (count : nat) (ring : vm_ring) : option (list Z * vm_ring) := vm_debug_read_console count ring.

(** What is stored until the ring is full or nothing is left. *)
Definition room (r : vm_ring) (rd w : Z) : nat := Z.to_nat (rsize r - u32 (w - rd)).

(** [waits] is what the other side does each time the writer lets it run: the number of
    characters it reads, which are collected in [got].  [opened] is its state.  The number
    of events that are sent is returned as well. *)
Fixpoint vmbox_hvc_write_console (fuel : nat) (opened : bool) (waits : list nat) (buf : list Z) (ring : vm_ring) (events : nat) (got : list Z) : option (vm_ring * nat * list Z) :=
  match fuel with
  | O => None
  | S fuel =>
      match buf with
      | [] => Some (ring, events, got)
      | _ =>
          let full := u32 (widx ring - ridx ring) =? rsize ring in
          if full && opened then
            match waits with
            | [] => None
            | n :: waits => '(l, ring) ← vmbox_hvc_read_console n ring; vmbox_hvc_write_console fuel opened waits buf ring (S events) (got ++ l)
            end
          else
            let ring := if full then set_ridx (u32 (ridx ring + Z.of_nat (length buf))) ring else ring in
            let n := Nat.min (length buf) (room ring (ridx ring) (widx ring)) in
            '(r, w) ← put_loop (take n buf) (widx ring) ring;
            vmbox_hvc_write_console fuel opened waits (drop n buf) (set_widx w r) (if bool_decide (n <> 0%nat) && opened then S events else events) got
      end
  end.

(** ** What is written arrives *)
Lemma ring_used r : ring_ok r -> length (unread r) = used r /\ Z.of_nat (used r) = u32 (widx r - ridx r) /\ Z.of_nat (used r) <= rsize r /\ 0 < rsize r <= 2 ^ 31.
Proof.
  intros ((k & Hk & Hs) & Hl & Hr & Hw & Hu). unfold unread. rewrite chars_length. unfold used. pose proof (u32_range (widx r - ridx r)). split; [done|]. split; [lia|]. split; [lia|]. by apply (size_pos r k).
Qed.

Lemma hvc_read_spec r n : ring_ok r -> exists r', vmbox_hvc_read_console n r = Some (take n (unread r), r') /\ ring_ok r' /\ unread r' = drop n (unread r) /\ rsize r' = rsize r.
Proof.
  intros Hr. destruct (ring_read r n Hr) as (rd & E & H1 & H2). destruct (ring_used r Hr) as (_ & U & U2 & _). unfold vmbox_hvc_read_console, vm_debug_read_console. rewrite (proj2 (Z.leb_le _ _)) by lia. cbn [assert_].
  rewrite E. cbn [mbind option_bind]. by exists (set_ridx rd r).
Qed.

Lemma write_loop_spec n : forall fuel waits buf r events got, (length buf <= n)%nat -> (2 * n + 1 <= fuel)%nat -> ring_ok r -> (length buf <= length waits)%nat -> Forall (fun n => n <> 0%nat) waits ->
  exists r' ev l, vmbox_hvc_write_console fuel true waits buf r events got = Some (r', ev, got ++ l) /\ ring_ok r' /\ l ++ unread r' = unread r ++ buf.
Proof.
  induction n as [|n IH]; intros fuel waits buf r events got Hb Hf Hr Hw Hn; (destruct fuel as [|fuel]; [lia|]).
  { destruct buf; [|cbn in Hb; lia]. exists r, events, []. cbn. by rewrite !app_nil_r. }
  destruct buf as [|ch buf]; [exists r, events, []; cbn; by rewrite !app_nil_r|].
  assert (forall fuel waits r events got, (2 * n + 1 <= fuel)%nat -> ring_ok r -> (used r < Z.to_nat (rsize r))%nat -> (length (ch :: buf) <= length waits + 1)%nat -> Forall (fun n => n <> 0%nat) waits ->
    exists r' ev l, vmbox_hvc_write_console (S fuel) true waits (ch :: buf) r events got = Some (r', ev, got ++ l) /\ ring_ok r' /\ l ++ unread r' = unread r ++ ch :: buf) as Hstore.
  { clear fuel r waits events got Hf Hr Hw Hn. intros fuel waits r events got Hf Hr Hu Hw Hn. destruct (ring_used r Hr) as (U1 & U2 & U3 & U4). cbn [vmbox_hvc_write_console].
    rewrite (proj2 (Z.eqb_neq _ _)) by lia. cbn [andb]. set (m := Nat.min (length (ch :: buf)) (room r (ridx r) (widx r))). assert (1 <= m <= length (ch :: buf))%nat as Hm by (unfold m, room; cbn [length]; lia).
    destruct (ring_write r (take m (ch :: buf)) Hr) as (r1 & w & -> & _ & _ & _ & _ & Hr1 & E1); [rewrite length_take; unfold m, room; lia|]. cbn [mbind option_bind].
    destruct (IH fuel waits (drop m (ch :: buf)) (set_widx w r1) (if bool_decide (m <> 0%nat) && true then S events else events) got) as (r' & ev & l & -> & Hr' & E); [rewrite length_drop; lia|done|done|rewrite length_drop; lia|done|].
    exists r', ev, l. split; [done|]. split; [done|]. rewrite E, E1, <- app_assoc. by rewrite take_drop. }
  destruct (ring_used r Hr) as (U1 & U2 & U3 & U4). destruct (decide (used r < Z.to_nat (rsize r))%nat) as [Hu|Hu]; [apply Hstore; [lia|done|done|lia|done]|].
  destruct waits as [|w waits]; [cbn in Hw; lia|]. apply list.Forall_cons in Hn as [Hwn Hn]. cbn [vmbox_hvc_write_console]. rewrite (proj2 (Z.eqb_eq _ _)) by lia. cbn [andb].
  destruct (hvc_read_spec r w Hr) as (r1 & -> & Hr1 & E1 & E2). cbn [mbind option_bind]. destruct fuel as [|fuel]; [lia|]. destruct (ring_used r1 Hr1) as (V1 & V2 & V3 & V4).
  destruct (Hstore fuel waits r1 (S events) (got ++ take w (unread r))) as (r' & ev & l & -> & Hr' & E); [lia|done| |cbn [length] in *; lia|done|].
  { rewrite <- V1, E1, length_drop, E2. lia. }
  exists r', ev, (take w (unread r) ++ l). rewrite <- !app_assoc. split; [done|]. split; [done|]. rewrite E, E1, app_assoc. by rewrite take_drop.
Qed.

(** A writer whose partner has opened the console returns when the partner reads what
    it lets it read: the characters arrive in order, none is lost or made up. *)
Theorem vmbox_console_correct (waits : list nat) (buf : list Z) (r : vm_ring) (events : nat) (got : list Z) :
  ring_ok r -> (length buf <= length waits)%nat -> Forall (fun n => n <> 0%nat) waits ->
  exists r' ev l, vmbox_hvc_write_console (2 * length buf + 1) true waits buf r events got = Some (r', ev, got ++ l)
    /\ ring_ok r' /\ l ++ unread r' = unread r ++ buf.
Proof.
  intros Hr Hw Hn. apply (write_loop_spec (length buf)); [done|lia|done|done|done].
Qed.

Lemma write_loop_prints k n rd ring nm s : 0 <= k <= 31 -> rsize ring = 2 ^ k -> Z.of_nat (length (rbuf ring)) = rsize ring -> 0 <= rd < 2 ^ 32 -> cur_console s = Some (DevConsole nm) ->
  write_loop n rd ring s = Some (mk_console (log_widx s) (mem_log_buf s) (cur_console s) (inbuf s) (console_sem s) (printed s ++ chars rd n ring)).
Proof.
  intros Hk Hs Hl. revert rd s. induction n as [|n IH]; intros rd s Hr Hc; [cbn; rewrite app_nil_r; by destruct s|]. cbn [write_loop]. unfold buf_get. rewrite Hs, ring_idx by done. rewrite <- Hs.
  destruct (buf_at ring k Hk Hs Hl rd) as [x Ex]; [lia|]. rewrite Ex. cbn [mbind option_bind]. unfold console_putc. rewrite Hc. cbn [mbind option_bind].
  rewrite IH by (done || apply u32_range). cbn [print_dev log_widx mem_log_buf cur_console inbuf console_sem printed]. rewrite <- app_assoc, chars_cons, Ex. cbn [default app].
  rewrite (chars_mod (u32 (rd + 1)) (rd + 1)) by (rewrite Hs; by apply u32_mod). by rewrite Hc.
Qed.

(** A ring that was read to the end is empty. *)
Lemma drained r : ring_ok r -> ring_ok (set_ridx (widx r) r) /\ unread (set_ridx (widx r) r) = [].
Proof.
  intros Hr. destruct (ring_used r Hr) as (_ & _ & _ & Hp). destruct Hr as (Hk & Hl & H1 & H2 & H3). unfold unread, used. cbn [set_ridx widx ridx]. rewrite Z.sub_diag. split; [|done].
  split; [done|]. split; [done|]. split; [done|]. split; [done|]. cbn. rewrite Z.sub_diag. change (u32 0) with 0. lia.
Qed.

(** Text that a guest writes to its debug console, when the terminal is open, is printed
    by the hypervisor as it is, and the ring is empty again. *)
Theorem guest_text_reaches_console (vmid : Z) (buf nm : list Z) (s : dcons_st) (m : vm) (d : vm_debug_console) (t : tty) :
  dcons s !! Z.to_nat vmid = Some (Some d) -> tty_heap (dc_ttys s) !! dc_tty d = Some t -> ty_open t = true -> cur_console (dc_console s) = Some (DevConsole nm) ->
  ring_ok (dc_rx d) -> unread (dc_rx d) = [] -> Z.of_nat (length buf) <= rsize (dc_rx d) ->
  exists s' r, vm_debug_write_console vmid buf s m = Some (Z.of_nat (length buf), s', m)
    /\ printed (dc_console s') = printed (dc_console s) ++ buf
    /\ dcons s' = <[Z.to_nat vmid := Some (set_dc_rx r d)]> (dcons s) /\ dc_ttys s' = dc_ttys s
    /\ ring_ok r /\ unread r = [] /\ rsize r = rsize (dc_rx d).
Proof.
  intros Hd Ht Ho Hc Hr He Hb. destruct (ring_used _ Hr) as (U1 & U2 & U3 & U4). rewrite He in U1. cbn in U1.
  unfold vm_debug_write_console. rewrite Hd. cbn [mbind option_bind]. unfold vm_debug_put. rewrite (proj2 (Z.ltb_lt _ _)) by lia. cbn [assert_].
  destruct (ring_write (dc_rx d) buf Hr) as (r1 & w & -> & E1 & E2 & E3 & E4 & Hr1 & Eu); [lia|]. cbn [mbind option_bind]. rewrite He in Eu. cbn in Eu. set (r := set_widx w r1) in *.
  pose proof (lookup_lt_Some _ _ _ Hd) as Hlt. unfold dcon_hvc_handler. cbn [dcons dc_ttys dc_console]. rewrite list_lookup_insert_eq by done. cbn [mbind option_bind].
  change (HVC_DC_WRITE =? HVC_DC_GET_STAT) with false. change (HVC_DC_WRITE =? HVC_DC_GET_RING) with false. change (HVC_DC_WRITE =? HVC_DC_GET_IRQ) with false. change (HVC_DC_WRITE =? HVC_DC_WRITE) with true. cbv iota.
  cbn [set_dc_rx dc_tty]. rewrite Ht. cbn [mbind option_bind]. unfold dcon_write. rewrite Ho. cbn [negb dc_rx set_dc_rx].
  pose proof Hr1 as ((k & Hk & Hs) & Hl & Hri & Hwi & Hui). rewrite (write_loop_prints k _ _ r nm) by done. cbn [mbind option_bind].
  change (chars (ridx r) (Z.to_nat (u32 (widx r - ridx r))) r) with (unread r). rewrite Eu. destruct (drained r Hr1) as [Hr2 He2].
  eexists _, (set_ridx (widx r) r). split; [done|]. cbn [printed dc_console dcons dc_ttys]. split; [done|]. split; [by rewrite list_insert_insert_eq|]. split; [done|]. split; [done|]. split; [done|]. cbn. done.
Qed.

(** Characters that come in are handed out in order, and those that do not fit into the
    buffer of the reader stay for the next time. *)
Theorem console_input_fifo (buf : list Z) (waits : list (Z * list Z)) (max timeout : Z) (s : console) :
  ring_ok (inbuf s) -> rsize (inbuf s) = CONSOLE_INBUF_SIZE -> Z.of_nat (length (unread (inbuf s)) + length buf) <= CONSOLE_INBUF_SIZE -> 0 < max -> unread (inbuf s) ++ buf <> [] ->
  exists s1 s2 n, console_recv buf s = Some s1 /\ console_gets waits max timeout s1 = Some (n, take (Z.to_nat max) (unread (inbuf s) ++ buf), s2)
    /\ n = Z.min max (Z.of_nat (length (unread (inbuf s)) + length buf)) /\ unread (inbuf s2) = drop (Z.to_nat max) (unread (inbuf s) ++ buf) /\ ring_ok (inbuf s2).
Proof.
  intros Hr Hs Hl Hm Hne. destruct (ring_used _ Hr) as (U1 & _ & _ & _). unfold console_recv. destruct (ring_write (inbuf s) buf Hr) as (r1 & w & -> & _ & _ & E3 & _ & Hr1 & Eu); [rewrite Hs; lia|]. cbn [mbind option_bind].
  set (r := set_widx w r1) in *. destruct (ring_used r Hr1) as (V1 & V2 & V3 & _). rewrite Eu in V1. rewrite length_app in V1.
  assert (0 < used r)%nat as Hpos by (rewrite <- V1; destruct (unread (inbuf s)), buf; cbn in *; try lia; done).
  assert (forall c, inbuf c = r -> exists rd, console_gets waits max timeout c = Some (Z.min max (Z.of_nat (used r)), take (Z.to_nat max) (unread r), set_inbuf (set_ridx rd r) c) /\ ring_ok (set_ridx rd r) /\ unread (set_ridx rd r) = drop (Z.to_nat max) (unread r)) as H.
  { intros c Ec. assert (forall l : list Z, take (Z.to_nat (Z.min max (Z.of_nat (used r)))) l = take (Z.to_nat max) l \/ (used r < length l)%nat) as Ht.
    { intros l. destruct (decide (used r < length l)%nat); [by right|left]. destruct (Z.min_spec max (Z.of_nat (used r))) as [[? ->]|[? ->]]; [done|]. rewrite !take_ge by lia. done. }
    assert (length (unread r) = used r) as Lu by apply (ring_used r Hr1).
    destruct (ring_read r (Z.to_nat (Z.min max (Z.of_nat (used r)))) Hr1) as (rd & E & Hr2 & E2). exists rd.
    assert (console_gets waits max timeout c = Some (Z.min max (Z.of_nat (used r)), take (Z.to_nat max) (unread r), set_inbuf (set_ridx rd r) c)) as ->.
    { destruct waits; cbn [console_gets]; rewrite Ec, <- V2, (proj2 (Z.leb_le _ _)) by (rewrite <- Hs, <- E3; exact V3); cbn [assert_];
      (replace (if max <? Z.of_nat (used r) then max else Z.of_nat (used r)) with (Z.min max (Z.of_nat (used r))) by (destruct (Z.ltb_spec max (Z.of_nat (used r))); lia)); rewrite (proj2 (Z.ltb_lt 0 _)) by lia;
      rewrite E; cbn [mbind option_bind]; (destruct (Ht (unread r)) as [->|?]; [done|lia]). }
    split; [done|]. split; [done|]. rewrite E2. destruct (Z.min_spec max (Z.of_nat (used r))) as [[? ->]|[? ->]]; [done|]. rewrite !drop_ge by lia. done. }
  destruct (H (set_sem (console_sem s + 1) (set_inbuf r s)) eq_refl) as (rd & E & Hr2 & E2). rewrite Eu in E, E2. eexists _, _, _. split; [done|]. split; [exact E|]. split; [by rewrite V1|]. split; [exact E2|exact Hr2].
Qed.

(** Up to the end of the ring, a character that is typed for a VM is the next one that
    its driver reads, and the interrupt of the console is sent. *)
Lemma dcon_putc_correct cur ch d m m' ret : dc_open d = true -> ring_ok (dc_tx d) -> (used (dc_tx d) < Z.to_nat (rsize (dc_tx d)))%nat -> widx (dc_tx d) < rsize (dc_tx d) ->
  send_virq_to_vm cur (dc_irq d) m = Some (ret, m') ->
  exists r, dcon_putc cur ch d m = Some (0, set_dc_tx r d, m') /\ ring_ok r /\ unread r = unread (dc_tx d) ++ [ch].
Proof.
  intros Ho Hr Hu Hw Hs. destruct (ring_used _ Hr) as (U1 & U2 & U3 & U4). destruct (ring_write (dc_tx d) [ch] Hr) as (r & w & E & E1 & E2 & E3 & E4 & Hr1 & Eu); [cbn; lia|].
  unfold dcon_putc. rewrite Ho, (proj2 (Z.ltb_ge _ _)) by lia. cbn [negb]. pose proof Hr as ((k & Hk & Hs2) & Hl & _ & Hw2 & _).
  cbn [put_loop] in E. rewrite Hs2, ring_idx in E by done. rewrite <- Hs2, (Z.mod_small (widx _)) in E by lia. destruct (buf_set _ _ _) as [r1|] eqn:Eb; [|done]. cbn [mbind option_bind] in *. injection E as <- <-.
  rewrite Hs. cbn [mbind option_bind]. eexists. split; [done|]. split; [exact Hr1|exact Eu].
Qed.

(** ** Examples and what goes wrong *)
Definition empty_ring (n : nat) : vm_ring := mk_ring 0 0 (Z.of_nat n) (replicate n 0).
Definition ex_console : console := mk_console 0 (replicate 2048 0) (Some (DevConsole [117])) (empty_ring 2048) 0 [].
Definition ex_dcon : vm_debug_console := mk_dcon 40 true 7 0x1000 (empty_ring 2048) (empty_ring 4096).
Definition ex_dcons : dcons_st := mk_dcons (Some ex_dcon :: replicate 7 None) (mk_ttys {[ 7 := mk_tty [118; 109; 48] 0 true 0 true 0 true ]} [7]) ex_console.

Lemma empty_ring_ok k : (k <= 31)%nat -> ring_ok (empty_ring (2 ^ k)) /\ unread (empty_ring (2 ^ k)) = [].
Proof.
  intros Hk. split; [|done]. assert (Z.of_nat (2 ^ k) = 2 ^ Z.of_nat k) as E by (by rewrite Nat2Z.inj_pow). split; [exists (Z.of_nat k); cbn [empty_ring rsize]; split; [lia|done]|]. cbn [empty_ring rsize rbuf ridx widx]. rewrite length_replicate. change (u32 (0 - 0)) with 0. lia.
Qed.

Lemma guest_text_reaches_console_witness : exists s' r, vm_debug_write_console 0 [104; 105] ex_dcons demo_vm = Some (2, s', demo_vm) /\ printed (dc_console s') = [104; 105] /\ unread r = [].
Proof.
  destruct (empty_ring_ok 12) as [H1 H2]; [lia|].
  destruct (guest_text_reaches_console 0 [104; 105] [117] ex_dcons demo_vm ex_dcon (mk_tty [118; 109; 48] 0 true 0 true 0 true)) as (s' & r & E & Ep & _ & _ & _ & Eu & _); [done|done|done|done|exact H1|exact H2|cbn; lia|].
  exists s', r. split; [exact E|]. split; [exact Ep|exact Eu].
Defined.

Lemma vmbox_console_correct_witness : exists r' ev l, vmbox_hvc_write_console 7 true [2; 1; 1]%nat [1; 2; 3] (mk_ring 0 2 2 [8; 9]) 0 [] = Some (r', ev, l) /\ l ++ unread r' = [8; 9; 1; 2; 3].
Proof.
  destruct (vmbox_console_correct [2; 1; 1]%nat [1; 2; 3] (mk_ring 0 2 2 [8; 9]) 0 []) as (r' & ev & l & E & _ & E2); [|cbn; lia|repeat constructor; lia|exists r', ev, l; split; [exact E|exact E2]].
  split; [exists 1; done|]. cbn [ridx widx rsize rbuf length]. change (u32 (2 - 0)) with 2. lia.
Defined.

Lemma console_input_fifo_witness : exists s1 s2 n, console_recv [1; 2; 3] ex_console = Some s1 /\ console_gets [] 2 0 s1 = Some (n, [1; 2], s2) /\ unread (inbuf s2) = [3].
Proof.
  destruct (empty_ring_ok 11) as [H1 H2]; [lia|]. destruct (console_input_fifo [1; 2; 3] [] 2 0 ex_console) as (s1 & s2 & n & E1 & E2 & _ & E3 & _); [exact H1|done|by vm_compute|lia|done|].
  exists s1, s2, n. split; [exact E1|]. split; [exact E2|exact E3].
Defined.

(** The index of the debug console is not reduced: the character behind the 2048th goes
    past the end of the ring, into the ring behind it, even if the guest has read all. *)
Lemma dcon_putc_overruns cur ch m : dcon_putc cur ch (set_dc_tx (mk_ring 2048 2048 2048 (replicate 2048 0)) ex_dcon) m = None.
Proof. done. Qed.

(** A VM whose number is 8 or more reads behind the array with any call of the console. *)
Lemma dcon_hvc_out_of_range vmid fn s m : length (dcons s) = Z.to_nat NR_DC -> NR_DC <= vmid -> dcon_hvc_handler vmid fn s m = None.
Proof. intros Hl Hv. unfold dcon_hvc_handler. rewrite lookup_ge_None_2; [done|]. rewrite Hl. lia. Qed.

(** The interrupt number is unsigned: if there is none left, the number is 0xffffffff and
    not 0. *)
Lemma dcon_no_irq vmid s m m' d : dcons s !! Z.to_nat vmid = Some (Some d) -> dc_irq d = 0 -> alloc_vm_virq m = Some (-1, m') ->
  exists s', dcon_hvc_handler vmid HVC_DC_GET_IRQ s m = Some (2 ^ 32 - 1, s', m').
Proof.
  intros Hd Hi Ha. unfold dcon_hvc_handler. rewrite Hd. cbn [mbind option_bind]. rewrite Hi. change (HVC_DC_GET_IRQ =? HVC_DC_GET_STAT) with false. change (HVC_DC_GET_IRQ =? HVC_DC_GET_RING) with false. change (HVC_DC_GET_IRQ =? HVC_DC_GET_IRQ) with true. cbv iota.
  change (0 =? 0) with true. cbv iota. rewrite Ha. cbn [mbind option_bind]. by eexists.
Qed.

(** A terminal that was not registered is not released: when the memory of the console
    cannot be allocated, that of the terminal is lost. *)
Lemma create_dconsole_leaks vmid name t dynamic addr irq area tx0 rx0 s : 0 <= vmid < NR_DC -> t <> 0 -> tty_list (dc_ttys s) = [] -> tty_heap (dc_ttys s) !! t = None ->
  exists s', create_dconsole true vmid name (Some t) None None dynamic addr irq area tx0 rx0 s = Some (- ENOMEM, s') /\ is_Some (tty_heap (dc_ttys s') !! t).
Proof.
  intros Hv Ht Hl Hh. unfold create_dconsole. rewrite (proj2 (Z.leb_gt _ _)) by lia. cbn [negb orb]. unfold alloc_tty. rewrite Hl. cbn [tty_find]. cbn [dc_ttys]. unfold release_tty. rewrite (proj2 (Z.eqb_neq _ _)) by done.
  cbn [tty_heap]. rewrite lookup_insert_eq. cbn [mbind option_bind ty_linked negb]. eexists. split; [done|]. cbn. rewrite lookup_insert_eq. by eexists.
Qed.

(** An area of the VM that is in use already is not noticed. *)
Lemma dcon_init_no_area base size irq tx0 rx0 d : DCON_RING_SIZE <= size -> dcon_init false (Some (base, size)) (Some irq) 0 tx0 rx0 d = None.
Proof. intros H. unfold dcon_init, dcon_get_resource. cbn [negb]. by rewrite (proj2 (Z.ltb_ge _ _)) by lia. Qed.

(** Input that is not read stops the hypervisor: the ring is filled beyond its size, and
    the reader asserts that it is not. *)
Lemma unread_input_asserts : exists s1, console_recv (replicate 2049 65) ex_console = Some s1 /\ console_gets [] 10 0 s1 = None.
Proof. eexists. split; [vm_compute; reflexivity|]. vm_compute. reflexivity. Qed.

(** When the log has been filled, what is flushed is what was written since it began
    again from the start: of 2048 characters, none. *)
Lemma full_log_not_flushed s nm : log_widx s = 2048 -> exists s', console_init [(nm, DevConsole nm)] (Some nm) s = Some s' /\ printed s' = printed s.
Proof.
  intros Hw. unfold console_init. cbn [get_console]. rewrite decide_True by done. cbn [set_cur set_sem cur_console flush_loop log_widx]. rewrite Hw.
  change (MEM_CONSOLE_IDX 2048) with 0. cbn [Z.ltb Z.compare]. by eexists.
Qed.

(** A text that is longer than the ring and a partner that has not opened the console:
    the read index passes the write index and the loop makes no progress any more. *)
Lemma closed_console_spins : forall fuel ev, vmbox_hvc_write_console fuel false [] [1; 2; 3] (mk_ring 3 2 2 [8; 9]) ev [] = None.
Proof. induction fuel as [|fuel IH]; intros ev; [done|]. exact (IH ev). Qed.

Lemma closed_console_never_returns fuel ev : vmbox_hvc_write_console (S fuel) false [] [1; 2; 3] (mk_ring 0 2 2 [8; 9]) ev [] = None.
Proof. exact (closed_console_spins fuel ev). Qed.
