(* ===== verification/Of.v ===== *)
(** * Device trees (drivers/of/of.c, drivers/of/of_mm.c, include/minos/of.h,
      include/minos/device_id.h)

    A flattened device tree is read through libfdt; what the code uses of it is the
    class [Fdt], a node being its offset in the blob.  The values of a property are
    bytes, and numbers in them are cells of four bytes, the highest first.  A read
    behind the end of a property is [None].  From the blob the hypervisor makes a tree
    of [device_node]s that are linked by pointers: a heap from addresses to nodes. *)
From stdpp Require Import strings.
From S2P Require Import Prelude MemRegion.
Local Open Scope minos_scope.

(** ** What libfdt gives *)
Class Fdt (D : Type) := {
  fdt_getprop : D -> Z -> string -> option (list Z);
  fdt_subnodes : D -> Z -> list Z;
  fdt_parent_offset : D -> Z -> option Z;
  fdt_get_name : D -> Z -> option string;
  fdt_node_offset_by_phandle : D -> Z -> option Z;
  fdt_path_offset : D -> string -> option Z;
  fdt_compatible : D -> Z -> string -> bool;
  fdt_mem_rsv : D -> list (option (Z * Z));
}.

(** A node lies behind its parent, and properties are bytes. *)
Class FdtLaws (D : Type) `{Fdt D} : Prop := {
  fdt_parent_before d n p : fdt_parent_offset d n = Some p -> 0 <= p < n;
  fdt_bytes d n a v : fdt_getprop d n a = Some v -> Forall (fun x => 0 <= x < 256) v;
}.

(** ** Cells *)
Definition be_val (l : list Z) : Z := fold_left (fun a x => a * 256 + x) l 0.

Fixpoint cells_of (l : list Z) : list Z :=
  match l with
  | a :: b :: c :: d :: l => be_val [a; b; c; d] :: cells_of l
  | _ => []
  end.

Definition fdt32_to_cpu64 (high low : Z) : Z := Z.lor (u64 (Z.shiftl high 32)) low.

(** The number in the first [size] cells. *)
Fixpoint of_read_number (cell : list Z) (size : nat) (r : Z) : option Z :=
  match size with
  | O => Some r
  | S size =>
      match cell with
      | [] => None
      | c :: cell => of_read_number cell size (Z.lor (u64 (Z.shiftl r 32)) c)
      end
  end.

Definition OF_MAX_ADDR_CELLS : Z := 4.
Definition OF_BAD_ADDR : Z := 2 ^ 64 - 1.
Definition OF_MAX_DEEPTH : Z := 5.

Section blob.
Context {D : Type} `{Fdt D}.
Implicit Types (dtb : D).

(** *** Properties *)

(** The first cell of a property, as an [int]. *)
Definition prop_cell (v : list Z) : option Z := c ← cells_of v !! 0%nat; Some (s32 c).

(** The loop of [fdt_n_size_cells] and [fdt_n_addr_cells]. *)
Fixpoint n_cells_loop (fuel : nat) dtb (attr : string) (child : Z) (parent : option Z) : option Z :=
  match fuel with
  | O => None
  | S fuel =>
      let child := default child parent in
      match fdt_getprop dtb child attr with
      | Some v => prop_cell v
      | None => match fdt_parent_offset dtb child with Some p => n_cells_loop fuel dtb attr child (Some p) | None => Some 2 end
      end
  end.

Definition fdt_n_size_cells dtb (node : Z) : option Z := n_cells_loop (S (Z.to_nat node)) dtb "#size-cells" node (fdt_parent_offset dtb node).
Definition fdt_n_addr_cells dtb (node : Z) : option Z := n_cells_loop (S (Z.to_nat node)) dtb "#address-cells" node (fdt_parent_offset dtb node).

(** [NULL] is [None]. *)
Definition __of_getprop dtb (node : Z) (attr : string) : option (list Z) :=
  if node <=? 0 then None
  else v ← fdt_getprop dtb node attr; if decide (v = []) then None else Some v.

(** The bound is compared with a constant, and not with the depth. *)
Fixpoint __of_get_node_by_name (fuel : nat) dtb (pnode : Z) (str : string) : option Z :=
  match fuel with
  | O => None
  | S fuel =>
      if 10 <=? OF_MAX_DEEPTH then Some (- ENOENT)
      else
        (fix loop (l : list Z) : option Z :=
           match l with
           | [] => Some (- ENOENT)
           | node :: l =>
               match fdt_get_name dtb node with
               | None => loop l
               | Some name =>
                   if String.prefix str name then Some node
                   else child ← __of_get_node_by_name fuel dtb node str; if 0 <? child then Some child else loop l
               end
           end) (fdt_subnodes dtb pnode)
  end.

Definition of_get_node_by_name (fuel : nat) dtb (pnode : Z) (str : string) : option Z :=
  if pnode <? 0 then Some (- EINVAL) else __of_get_node_by_name fuel dtb pnode str.

Definition __of_get_compatible dtb (node : Z) : option (list Z) :=
  v ← fdt_getprop dtb node "compatible"; if decide (v = []) then None else Some v.

Definition __of_get_bool dtb (node : Z) (attr : string) : bool := bool_decide (is_Some (fdt_getprop dtb node attr)).

(** The text up to the first zero. *)
Fixpoint c_str (l : list Z) : list Z :=
  match l with [] => [] | c :: l => if c =? 0 then [] else c :: c_str l end.

(** The result and the string. *)
Definition __of_get_string dtb (node : Z) (attr : string) (len : Z) : Z * list Z :=
  match __of_getprop dtb node attr with
  | None => (- EINVAL, [])
  | Some s => let length := Z.min (len - 1) (Z.of_nat (length s)) in (length, c_str (take (Z.to_nat length) s))
  end.

(** The numbers of [w] bytes each. *)
Fixpoint numbers (w : nat) (n : nat) (l : list Z) : list Z :=
  match n with O => [] | S n => be_val (take w l) :: numbers w n (drop w l) end.

(** [__of_get_u16_array], [__of_get_u32_array] and [__of_get_u64_array]: the result and
    the array. *)
Definition of_get_array (w : nat) dtb (node : Z) (attr : string) (len : Z) : Z * list Z :=
  let zeros := replicate (Z.to_nat len) 0 in
  match __of_getprop dtb node attr with
  | None => (- EINVAL, zeros)
  | Some v =>
      if negb (Z.of_nat (length v) mod Z.of_nat w =? 0) then (- EINVAL, zeros)
      else
        let n := Z.min len (Z.of_nat (length v) / Z.of_nat w) in
        (n, numbers w (Z.to_nat n) v ++ drop (Z.to_nat n) zeros)
  end.
Definition __of_get_u16_array := of_get_array 2.
Definition __of_get_u32_array := of_get_array 4.
Definition __of_get_u64_array := of_get_array 8.

(** *** The chosen node *)
Definition node_positive (o : option Z) : option Z := n ← o; if n <=? 0 then None else Some n.

Definition of_get_cmdline dtb : option (list Z) := n ← node_positive (fdt_path_offset dtb "/chosen"); fdt_getprop dtb n "bootargs".

Definition chosen_text dtb (attr : string) : Z + list Z :=
  match node_positive (fdt_path_offset dtb "/chosen") with
  | None => inl (- ENOENT)
  | Some n => match fdt_getprop dtb n attr with Some (x :: v) => inr (x :: v) | _ => inl (- ENOENT) end
  end.
(** The text for [bootargs_init]. *)
Definition of_init_bootargs dtb : Z + list Z := chosen_text dtb "bootargs".
Definition of_get_console_name dtb : Z + list Z := chosen_text dtb "minos,stdout".

Definition of_get_chosen_prop dtb (name : string) (len : Z) : option (list Z) :=
  n ← node_positive (fdt_path_offset dtb "/chosen");
  d ← fdt_getprop dtb n name;
  if Z.of_nat (length d) <? len then None else Some d.

Definition of_get_chosen_prop32 dtb (name : string) : Z + Z :=
  match of_get_chosen_prop dtb name 4 with None => inl (- ENOENT) | Some d => inr (be_val (take 4 d)) end.
Definition of_get_chosen_prop64 dtb (name : string) : Z + Z :=
  match of_get_chosen_prop dtb name 8 with None => inl (- ENOENT) | Some d => inr (be_val (take 8 d)) end.

Definition of_get_ramdisk_address dtb : Z + Z * Z :=
  match of_get_chosen_prop32 dtb "minos,ramdisk_start" with
  | inl e => inl e
  | inr s => match of_get_chosen_prop32 dtb "minos,ramdisk_end" with inl e => inl e | inr e => inr (s, e) end
  end.

(** ** Nodes *)
Inductive device_class :=
| DT_CLASS_CPU | DT_CLASS_MEMORY | DT_CLASS_IRQCHIP | DT_CLASS_TIMER | DT_CLASS_SIMPLE_BUS | DT_CLASS_PCI_BUS
| DT_CLASS_VDEV | DT_CLASS_PDEV | DT_CLASS_VM | DT_CLASS_VMBOX | DT_CLASS_VIRQCHIP | DT_CLASS_OTHER.

Definition DEVICE_NODE_F_ROOT : Z := 1.
Definition DEVICE_NODE_F_OF : Z := 2.

(** Pointers to nodes; [NULL] is [None].  All nodes are of one blob. *)
Record device_node := mk_node {
  dn_offset : Z;
  dn_name : option string;
  dn_compatible : option (list Z);
  dn_parent : option Z;
  dn_child : option Z;
  dn_sibling : option Z;
  dn_next : option Z;
  dn_class : device_class;
  dn_flags : Z;
}.

(** The nodes, the next address of [zalloc], and how many allocations succeed. *)
Record nodes := mk_nodes {
  nheap : gmap Z device_node;
  nfresh : Z;
  nleft : nat;
}.

Definition set_child (x : Z) (n : device_node) := mk_node (dn_offset n) (dn_name n) (dn_compatible n) (dn_parent n) (Some x) (dn_sibling n) (dn_next n) (dn_class n) (dn_flags n).
Definition set_sibling (x : Z) (n : device_node) := mk_node (dn_offset n) (dn_name n) (dn_compatible n) (dn_parent n) (dn_child n) (Some x) (dn_next n) (dn_class n) (dn_flags n).
Definition set_next (x : option Z) (n : device_node) := mk_node (dn_offset n) (dn_name n) (dn_compatible n) (dn_parent n) (dn_child n) (dn_sibling n) x (dn_class n) (dn_flags n).
Definition set_class (x : device_class) (n : device_node) := mk_node (dn_offset n) (dn_name n) (dn_compatible n) (dn_parent n) (dn_child n) (dn_sibling n) (dn_next n) x (dn_flags n).
Definition upd_node (p : Z) (f : device_node -> device_node) (s : nodes) : option nodes :=
  n ← nheap s !! p; Some (mk_nodes (<[p := f n]> (nheap s)) (nfresh s) (nleft s)).

Definition alloc_device_node (s : nodes) : option (Z * nodes) :=
  match nleft s with
  | O => None
  | S k => Some (nfresh s, mk_nodes (<[nfresh s := mk_node 0 None None None None None None DT_CLASS_CPU 0]> (nheap s)) (nfresh s + 1) k)
  end.

Definition text (s : string) : list Z := map (fun a => Z.of_N (Ascii.N_of_ascii a)) (String.list_ascii_of_string s).

Definition class_of_type (t : list Z) : device_class :=
  if decide (t = text "cpu") then DT_CLASS_CPU
  else if decide (t = text "memory") then DT_CLASS_MEMORY
  else if decide (t = text "pci") then DT_CLASS_PCI_BUS
  else if decide (t = text "virtual_machine") then DT_CLASS_VM
  else if decide (t = text "vmbox") then DT_CLASS_VMBOX
  else DT_CLASS_OTHER.

(** The class of a node from its properties and the class of its parent. *)
Definition of_parse_dt_class dtb (n : device_node) (parent_class : device_class) : device_class :=
  let '(ret, type) := __of_get_string dtb (dn_offset n) "device_type" 64 in
  if 0 <? ret then class_of_type type
  else if __of_get_bool dtb (dn_offset n) "interrupt-controller" then DT_CLASS_IRQCHIP
  else if decide (dn_name n = Some "timer"%string) then DT_CLASS_TIMER
  else if fdt_compatible dtb (dn_offset n) "simple-bus" then DT_CLASS_SIMPLE_BUS
  else if __of_get_bool dtb (dn_offset n) "virtual_device" then DT_CLASS_VDEV
  else
    match parent_class with
    | DT_CLASS_IRQCHIP | DT_CLASS_CPU | DT_CLASS_PDEV | DT_CLASS_VDEV => parent_class
    | _ => match dn_compatible n with Some _ => DT_CLASS_PDEV | None => DT_CLASS_OTHER end
    end.

(** The node of [child] as it is after its fields are set, before it is linked. *)
Definition new_node dtb (pnode child : Z) : device_node :=
  mk_node child (fdt_get_name dtb child) (__of_get_compatible dtb child) (Some pnode) None None None DT_CLASS_CPU DEVICE_NODE_F_OF.

(** One round of the loop of [__of_parse_device_node], up to the recursive call: the new
    node, linked behind [prev] or as the first child, and into the list of all nodes. *)
Definition parse_one dtb (root pnode child : Z) (prev : option Z) (s : nodes) : option (option Z * nodes) :=
  match alloc_device_node s with
  | None => Some (None, s)
  | Some (p, s) =>
      s ← upd_node p (fun _ => new_node dtb pnode child) s;
      s ← match prev with None => upd_node pnode (set_child p) s | Some q => upd_node q (set_sibling p) s end;
      r ← nheap s !! root;
      s ← upd_node p (set_next (dn_next r)) s;
      s ← upd_node root (set_next (Some p)) s;
      par ← nheap s !! pnode;
      s ← upd_node p (fun n => set_class (of_parse_dt_class dtb n (dn_class par)) n) s;
      Some (Some p, s)
  end.

(** The loop; [rec] is the recursive call, whose result is ignored. *)
Fixpoint parse_loop (rec : Z -> nodes -> option (Z * nodes)) dtb (root pnode : Z) (l : list Z) (prev : option Z) (s : nodes) : option (Z * nodes) :=
  match l with
  | [] => Some (0, s)
  | child :: l =>
      '(o, s) ← parse_one dtb root pnode child prev s;
      match o with
      | None => Some (- ENOMEM, s)
      | Some p => '(_, s) ← rec p s; parse_loop rec dtb root pnode l (Some p) s
      end
  end.

Fixpoint __of_parse_device_node (fuel : nat) dtb (root pnode : Z) (s : nodes) : option (Z * nodes) :=
  match fuel with
  | O => None
  | S fuel =>
      pn ← nheap s !! pnode;
      parse_loop (__of_parse_device_node fuel dtb root) dtb root pnode (fdt_subnodes dtb (dn_offset pn)) None s
  end.

Definition of_parse_device_tree (fuel : nat) dtb (s : nodes) : option (option Z * nodes) :=
  match alloc_device_node s with
  | None => Some (None, s)
  | Some (p, s) =>
      s ← upd_node p (fun _ => mk_node 0 (Some "root node"%string) (fdt_getprop dtb 0 "compatible") None None None None DT_CLASS_OTHER (Z.lor DEVICE_NODE_F_OF DEVICE_NODE_F_ROOT)) s;
      '(_, s) ← __of_parse_device_node fuel dtb p p s;
      Some (Some p, s)
  end.

(** The list of all nodes is freed from the root on. *)
Fixpoint release_loop (fuel : nat) (p : Z) (h : gmap Z device_node) : option (gmap Z device_node) :=
  match fuel with
  | O => None
  | S fuel =>
      n ← h !! p;
      match dn_next n with None => Some (delete p h) | Some q => release_loop fuel q (delete p h) end
  end.

Definition of_release_all_node (fuel : nat) (p : Z) (s : nodes) : option nodes :=
  n ← nheap s !! p;
  match dn_parent n with
  | Some _ => Some s
  | None => h ← release_loop fuel p (nheap s); Some (mk_nodes h (nfresh s) (nleft s))
  end.

(** *** Walking over the nodes *)

(** The loop over the children of a node; [rec] is the recursive call. *)
Fixpoint children_loop (rec : option Z -> option (option Z * list Z)) (loop : bool) (h : gmap Z device_node) (k : nat) (c : option Z) : option (option Z * list Z) :=
  match k with
  | O => None
  | S k =>
      match c with
      | None => Some (None, [])
      | Some q =>
          cn ← h !! q;
          '(r, l) ← rec (Some q);
          match r, loop with
          | Some x, false => Some (Some x, l)
          | _, _ => '(r, l') ← children_loop rec loop h k (dn_sibling cn); Some (r, l ++ l')
          end
      end
  end.

(** [func] is asked for each node; with [loop] it goes on after a hit.  The first hit is
    returned, and the nodes that were asked. *)
Fixpoint __iterate_device_node (fuel : nat) (func : Z -> device_node -> bool) (loop : bool) (h : gmap Z device_node) (node : option Z) : option (option Z * list Z) :=
  match fuel with
  | O => None
  | S fuel =>
      match node with
      | None => Some (None, [])
      | Some p =>
          n ← h !! p;
          if func p n && negb loop then Some (Some p, [p])
          else '(r, l) ← children_loop (__iterate_device_node fuel func loop h) loop h fuel (dn_child n); Some (r, p :: l)
      end
  end.

Definition of_iterate_all_node (fuel : nat) (func : Z -> device_node -> bool) (h : gmap Z device_node) (node : option Z) : option (option Z * list Z) := __iterate_device_node fuel func false h node.
Definition of_iterate_all_node_loop (fuel : nat) (func : Z -> device_node -> bool) (h : gmap Z device_node) (node : option Z) : option (option Z * list Z) := __iterate_device_node fuel func true h node.

Definition of_device_match dtb (n : device_node) (comp : list string) : bool := existsb (fdt_compatible dtb (dn_offset n)) comp.

Definition find_node_by_compatible dtb (comp : list string) (p : Z) (n : device_node) : bool := of_device_match dtb n comp.
Definition find_node_by_name (name : string) (p : Z) (n : device_node) : bool := bool_decide (dn_name n = Some name).

Definition of_find_node_by_compatible (fuel : nat) dtb (comp : list string) (h : gmap Z device_node) (root : option Z) : option (option Z) :=
  '(r, _) ← of_iterate_all_node fuel (find_node_by_compatible dtb comp) h root; Some r.
Definition of_find_node_by_name (fuel : nat) (name : string) (h : gmap Z device_node) (root : option Z) : option (option Z) :=
  '(r, _) ← of_iterate_all_node fuel (find_node_by_name name) h root; Some r.

(** [modules] are the entries of a section of the linker: the strings and the data. *)
Fixpoint of_device_node_match dtb (n : device_node) (modules : list (list string * Z)) : option Z :=
  match modules with
  | [] => None
  | (comp, data) :: l => if of_device_match dtb n comp then Some data else of_device_node_match dtb n l
  end.

(** ** Addresses *)
Definition of_check_counts (na ns : Z) : bool := (0 <? na) && (na <=? OF_MAX_ADDR_CELLS) && (0 <? ns).

(** [#address-cells] and [#size-cells] of the node itself. *)
Definition of_bus_default_count_cells dtb (parentoffset : Z) : option (Z * Z) :=
  na ← match fdt_getprop dtb parentoffset "#address-cells" with Some v => prop_cell v | None => Some 2 end;
  ns ← match fdt_getprop dtb parentoffset "#size-cells" with Some v => prop_cell v | None => Some 1 end;
  Some (na, ns).

Definition of_bus_default_map (addr range : list Z) (na ns pna : nat) : option Z :=
  cp ← of_read_number range na 0;
  s ← of_read_number (drop (na + pna) range) ns 0;
  da ← of_read_number addr na 0;
  Some (if (da <? cp) || (u64 (cp + s) <=? da) then OF_BAD_ADDR else da - cp).

(** [addr] with its first [na] cells overwritten. *)
Definition of_bus_default_translate (addr : list Z) (offset : Z) (na : nat) : option (list Z) :=
  a ← of_read_number addr na 0;
  let a := u64 (a + offset) in
  let addr := replicate na 0 ++ drop na addr in
  let addr := if (1 <? na)%nat then <[(na - 2)%nat := u32 (Z.shiftr a 32)]> addr else addr in
  Some (<[(na - 1)%nat := Z.land a 0xffffffff]> addr).

(** The loop over the ranges: the rest of the ranges from the one that fits on, and the
    offset in it. *)
Fixpoint ranges_loop (fuel : nat) (addr ranges : list Z) (na ns pna : nat) : option (option (list Z * Z)) :=
  match fuel with
  | O => None
  | S fuel =>
      if (na + pna + ns <=? length ranges)%nat then
        offset ← of_bus_default_map addr ranges na ns pna;
        if negb (offset =? OF_BAD_ADDR) then Some (Some (ranges, offset)) else ranges_loop fuel addr (drop (na + pna + ns) ranges) na ns pna
      else Some None
  end.

(** The result is 1 if there is no range for the address. *)
Definition of_translate_one dtb (parent : Z) (addr : list Z) (na ns pna : nat) (rprop : string) : option (Z * list Z) :=
  match fdt_getprop dtb parent rprop with
  | None | Some [] =>
      offset ← of_read_number addr na 0;
      addr ← of_bus_default_translate (replicate pna 0 ++ drop pna addr) offset pna;
      Some (0, addr)
  | Some v =>
      let ranges := cells_of v in
      x ← ranges_loop (S (length ranges)) addr ranges na ns pna;
      match x with
      | None => Some (1, addr)
      | Some (ranges, offset) =>
          addr ← of_bus_default_translate (take pna (drop na ranges) ++ drop pna addr) offset pna;
          Some (0, addr)
      end
  end.

(** The loop of [__of_translate_address]: [parent] is the node of the bus with the counts
    [na] and [ns]. *)
Fixpoint translate_loop (fuel : nat) dtb (h : gmap Z device_node) (parent : Z) (addr : list Z) (na ns : nat) : option Z :=
  match fuel with
  | O => None
  | S fuel =>
      n ← h !! parent;
      match dn_parent n with
      | None => of_read_number addr na 0
      | Some q =>
          pn ← h !! q;
          if dn_offset pn <? 0 then of_read_number addr na 0
          else
            '(pna, pns) ← of_bus_default_count_cells dtb (dn_offset pn);
            if negb (of_check_counts pna pns) then Some OF_BAD_ADDR
            else
              '(r, addr) ← of_translate_one dtb (dn_offset n) addr na ns (Z.to_nat pna) "ranges";
              if negb (r =? 0) then Some OF_BAD_ADDR
              else translate_loop fuel dtb h q addr (Z.to_nat pna) (Z.to_nat pns)
      end
  end.

(** [addr] is an array of [OF_MAX_ADDR_CELLS]; [junk] is what it holds at first. *)
Definition __of_translate_address (fuel : nat) dtb (h : gmap Z device_node) (node : device_node) (in_addr junk : list Z) : option Z :=
  match dn_parent node with
  | None => Some OF_BAD_ADDR
  | Some parent =>
      pn ← h !! parent;
      '(na, ns) ← of_bus_default_count_cells dtb (dn_offset pn);
      if negb (of_check_counts na ns) then Some OF_BAD_ADDR
      else
        if decide (length (take (Z.to_nat na) in_addr) = Z.to_nat na)
        then translate_loop fuel dtb h parent (take (Z.to_nat na) in_addr ++ drop (Z.to_nat na) junk) (Z.to_nat na) (Z.to_nat ns)
        else None
  end.

(** The address and the size, or the error. *)
Definition of_translate_address_index (fuel : nat) dtb (h : gmap Z device_node) (np : device_node) (junk : list Z) (index : nat) : option (Z + Z * Z) :=
  let node := dn_offset np in
  if node <=? 0 then Some (inl (- EINVAL))
  else
    na ← fdt_n_addr_cells dtb node;
    if na <? 1 then Some (inl (- EINVAL))
    else
      ns ← fdt_n_size_cells dtb node;
      if ns <? 0 then Some (inl (- EINVAL))
      else
        match fdt_getprop dtb node "reg" with
        | None => Some (inl (- ENOENT))
        | Some v =>
            if Z.of_nat (length v) <=? Z.of_nat index * 4 * (na + ns) then Some (inl (- ENOENT))
            else
              let reg := drop (index * Z.to_nat (na + ns)) (cells_of v) in
              if negb (ns =? 0) then
                address ← __of_translate_address fuel dtb h np reg junk;
                if address =? OF_BAD_ADDR then Some (inl (- EINVAL))
                else
                  c ← reg !! Z.to_nat na;
                  if ns =? 2 then c' ← reg !! Z.to_nat (na + 1); Some (inr (address, fdt32_to_cpu64 c c'))
                  else Some (inr (address, c))
              else a ← of_read_number reg (Z.to_nat na) 0; Some (inr (a, 0))
        end.

Definition of_translate_address (fuel : nat) dtb (h : gmap Z device_node) (np : device_node) (junk : list Z) : option (Z + Z * Z) := of_translate_address_index fuel dtb h np junk 0.

(** [len] is not yet divided by the number of cells. *)
Definition of_n_addr_count dtb (node : device_node) : option Z :=
  na ← fdt_n_addr_cells dtb (dn_offset node);
  ns ← fdt_n_size_cells dtb (dn_offset node);
  match fdt_getprop dtb (dn_offset node) "reg" with
  | None => Some 0
  | Some v => if (na + ns) * 4 =? 0 then None else Some (Z.of_nat (length v) / ((na + ns) * 4))
  end.

(** The loops of [of_n_addr_cells] and [of_n_size_cells]; at the root the node stays what
    it is. *)
Fixpoint of_cells_loop (fuel : nat) dtb (h : gmap Z device_node) (attr : string) (p : Z) : option Z :=
  match fuel with
  | O => None
  | S fuel =>
      n ← h !! p;
      match fdt_getprop dtb (dn_offset n) attr with
      | Some v => prop_cell v
      | None => of_cells_loop fuel dtb h attr (default p (dn_parent n))
      end
  end.
Definition of_n_addr_cells (fuel : nat) dtb (h : gmap Z device_node) (p : Z) : option Z := of_cells_loop fuel dtb h "#address-cells" p.
Definition of_n_size_cells (fuel : nat) dtb (h : gmap Z device_node) (p : Z) : option Z := of_cells_loop fuel dtb h "#size-cells" p.

(** *** Interrupts *)
Definition of_get_phandle dtb (n : device_node) : option Z :=
  match fdt_getprop dtb (dn_offset n) "interrupt-parent" with None => Some (-1) | Some v => prop_cell v end.

Fixpoint of_n_interrupt_cells (fuel : nat) dtb (h : gmap Z device_node) (parent : option Z) : option Z :=
  match fuel with
  | O => None
  | S fuel =>
      match parent with
      | None => Some 0
      | Some p =>
          n ← h !! p;
          match fdt_getprop dtb (dn_offset n) "interrupt-parent" with
          | None => of_n_interrupt_cells fuel dtb h (dn_parent n)
          | Some v =>
              c ← cells_of v !! 0%nat;
              match node_positive (fdt_node_offset_by_phandle dtb c) with
              | None => Some 0
              | Some offset =>
                  let '(ret, arr) := __of_get_u32_array dtb offset "#interrupt-cells" 1 in
                  if ret =? 1 then Some (s32 (default 0 (arr !! 0%nat))) else of_n_interrupt_cells fuel dtb h (dn_parent n)
              end
          end
      end
  end.

(** [xlate] is [irq_xlate] on the cells; [irqv] has four of them. *)
Definition get_device_irq_index (fuel : nat) dtb (h : gmap Z device_node) (xlate : list Z -> Z + Z * Z) (p : Z) (index : nat) : option (Z + Z * Z) :=
  n ← h !! p;
  match __of_getprop dtb (dn_offset n) "interrupts" with
  | None => Some (inl (- ENOENT))
  | Some v =>
      if (length v <? 4)%nat then Some (inl (- ENOENT))
      else
        cells ← of_n_interrupt_cells fuel dtb h (Some p);
        if cells =? 0 then Some (inl (- ENOENT))
        else if (length v / 4 <=? index)%nat then Some (inl (- ENOENT))
        else
          let l := take (Z.to_nat cells) (drop (index * Z.to_nat cells) (cells_of v)) in
          if (cells <=? 4) && bool_decide (length l = Z.to_nat cells) then Some (xlate l) else None
  end.

(** ** The memory of the board *)

(** The loop of [__fdt_parse_memory_info]: [len] cells are left in [v]. *)
Fixpoint mem_loop (fuel : nat) (address_cell size_cell : Z) (v : list Z) (len : Z) (s : regions) : option regions :=
  match fuel with
  | O => None
  | S fuel =>
      if size_cell + address_cell <=? len then
        '(base, v) ← (if address_cell =? 2 then match v with a :: b :: v => Some (fdt32_to_cpu64 a b, v) | _ => None end else match v with a :: v => Some (a, v) | _ => None end);
        '(size, v) ← (if size_cell =? 2 then match v with a :: b :: v => Some (fdt32_to_cpu64 a b, v) | _ => None end else match v with a :: v => Some (a, v) | _ => None end);
        '(_, s) ← add_memory_region base size MEMORY_REGION_TYPE_NORMAL 0 s;
        mem_loop fuel address_cell size_cell v (len - (size_cell + address_cell)) s
      else Some s
  end.

Definition __fdt_parse_memory_info dtb (node : Z) (attr : string) (s : regions) : option (Z * regions) :=
  match fdt_getprop dtb node attr with
  | None => Some (- ENOENT, s)
  | Some v =>
      if Z.of_nat (length v) <? 8 then Some (- ENOENT, s)
      else
        size_cell ← fdt_n_size_cells dtb node;
        address_cell ← fdt_n_addr_cells dtb node;
        if (2 <? size_cell) || (size_cell =? 0) then Some (- EINVAL, s)
        else if (2 <? address_cell) || (address_cell =? 0) then Some (- EINVAL, s)
        else s ← mem_loop (S (length v)) address_cell size_cell (cells_of v) (Z.of_nat (length v) / 4) s; Some (0, s)
  end.

Section memory_info.
Context (CONFIG_MINOS_ENTRY_ADDRESS CONFIG_MINOS_RAM_SIZE minos_start : Z).

Definition __fdt_parse_kernel_mem (s : regions) : option regions :=
  '(_, s) ← split_memory_region minos_start CONFIG_MINOS_RAM_SIZE MEMORY_REGION_TYPE_KERNEL 0 s; Some s.

Fixpoint rsv_loop (l : list (option (Z * Z))) (s : regions) : option regions :=
  match l with
  | [] => Some s
  | None :: l => rsv_loop l s
  | Some (address, size) :: l => '(_, s) ← split_memory_region address size MEMORY_REGION_TYPE_RSV 0 s; rsv_loop l s
  end.

Definition __fdt_parse_memreserve dtb (s : regions) : option regions :=
  s ← (if negb (CONFIG_MINOS_ENTRY_ADDRESS =? minos_start)
       then '(_, s) ← split_memory_region minos_start (u64 (CONFIG_MINOS_ENTRY_ADDRESS - minos_start)) MEMORY_REGION_TYPE_RSV 1 s; Some s else Some s);
  rsv_loop (fdt_mem_rsv dtb) s.

(** The two cells of a property. *)
Definition prop64 (v : list Z) : option Z := a ← cells_of v !! 0%nat; b ← cells_of v !! 1%nat; Some (fdt32_to_cpu64 a b).

Definition __fdt_parse_ramdisk_mem dtb (s : regions) : option regions :=
  match node_positive (fdt_path_offset dtb "/chosen") with
  | None => Some s
  | Some n =>
      match fdt_getprop dtb n "minos,ramdisk-start" with
      | None | Some [] => Some s
      | Some v =>
          start ← prop64 v;
          match fdt_getprop dtb n "minos,ramdisk-end" with
          | None | Some [] => Some s
          | Some v =>
              end_ ← prop64 v;
              if negb (IS_PAGE_ALIGN start) then Some s
              else '(_, s) ← split_memory_region start (PAGE_BALIGN (u64 (end_ - start))) MEMORY_REGION_TYPE_RAMDISK 0 s; Some s
          end
      end
  end.

Fixpoint vm_mem_pairs (vmid : Z) (l : list Z) (s : regions) : option regions :=
  match l with
  | base :: size :: l => '(_, s) ← split_memory_region base size MEMORY_REGION_TYPE_VM vmid s; vm_mem_pairs vmid l s
  | _ => Some s
  end.

Fixpoint vm_mem_loop dtb (l : list Z) (s : regions) : option regions :=
  match l with
  | [] => Some s
  | child :: l =>
      match fdt_getprop dtb child "device_type" with
      | Some t =>
          if decide (c_str t = text "virtual_machine") then
            let '(_, id) := __of_get_u32_array dtb child "vmid" 1 in
            let '(len, arr) := __of_get_u64_array dtb child "memory" 20 in
            if (len <=? 0) || negb (len mod 2 =? 0) then vm_mem_loop dtb l s
            else s ← vm_mem_pairs (s32 (default 0 (id !! 0%nat))) (take (Z.to_nat len) arr) s; vm_mem_loop dtb l s
          else vm_mem_loop dtb l s
      | None => vm_mem_loop dtb l s
      end
  end.

Definition __fdt_parse_vm_mem dtb (s : regions) : option regions :=
  match node_positive (fdt_path_offset dtb "/vms") with None => Some s | Some n => vm_mem_loop dtb (fdt_subnodes dtb n) s end.

Definition of_parse_memory_info (fuel : nat) dtb (s : regions) : option (Z * regions) :=
  node ← of_get_node_by_name fuel dtb 0 "memory";
  if node <=? 0 then Some (- ENOENT, s)
  else
    '(_, s) ← __fdt_parse_memory_info dtb node "reg" s;
    s ← __fdt_parse_kernel_mem s;
    s ← __fdt_parse_memreserve dtb s;
    s ← __fdt_parse_ramdisk_mem dtb s;
    s ← __fdt_parse_vm_mem dtb s;
    Some (0, s).
End memory_info.

(** *** Release addresses of the cpus *)

(** [cpu_name] is the name of the node of cpu [i]; the addresses that are found. *)
Definition spin_table_entry (fuel : nat) dtb (offset : Z) (name : string) : option (option Z) :=
  node ← of_get_node_by_name fuel dtb offset name;
  if node <=? 0 then Some None
  else
    match fdt_getprop dtb node "enable-method" with
    | None | Some [] => Some None
    | Some m =>
        if negb (bool_decide (take 10 m = text "spin-table")) then Some None
        else
          match fdt_getprop dtb node "cpu-release-addr" with
          | None => Some None
          | Some v =>
              if Z.of_nat (length v) <=? 4 then Some None
              else
                let len := Z.of_nat (length v) / 4 in
                a ← cells_of v !! 0%nat;
                if len =? 1 then Some (Some a) else b ← cells_of v !! 1%nat; Some (Some (fdt32_to_cpu64 a b))
          end
    end.

Fixpoint spin_table_loop (fuel : nat) dtb (offset : Z) (names : list string) (smp_holding : list Z) : option (list Z) :=
  match names, smp_holding with
  | name :: names, h :: hs =>
      x ← spin_table_entry fuel dtb offset name;
      hs ← spin_table_loop fuel dtb offset names hs;
      Some (default h x :: hs)
  | _, _ => Some smp_holding
  end.

Definition of_spin_table_init (fuel : nat) dtb (cpu_names : list string) (smp_holding : list Z) : option (Z * list Z) :=
  offset ← of_get_node_by_name fuel dtb 0 "cpus";
  if offset <=? 0 then Some (- EINVAL, smp_holding)
  else l ← spin_table_loop fuel dtb offset cpu_names smp_holding; Some (0, l).
End blob.

(** ** Addresses as numbers *)

(** What a list of cells stands for. *)
Definition cell_ok (c : Z) : Prop := 0 <= c < 2 ^ 32.
Definition num (l : list Z) : Z := fold_left (fun a c => u64 (a * 2 ^ 32 + c)) l 0.

Lemma lor_shift r c : cell_ok c -> Z.lor (u64 (Z.shiftl r 32)) c = u64 (r * 2 ^ 32 + c).
Proof.
  intros Hc. unfold u64. rewrite Z.shiftl_mul_pow2 by lia. apply Z.bits_inj'. intros i Hi. rewrite Z.lor_spec. rewrite !mod_pow2_testbit by lia. destruct (Z.ltb_spec i 64); cbn [andb].
  - destruct (Z.lt_ge_cases i 32).
    + rewrite Z.mul_pow2_bits_low by lia. cbn [orb]. rewrite <- (Z.mod_pow2_bits_low (r * 2 ^ 32 + c) 32) by lia. rewrite Z.add_comm, Z.mod_add, Z.mod_small by (unfold cell_ok in Hc; lia). done.
    + rewrite (testbit_small c 32) by (unfold cell_ok in Hc; lia). rewrite orb_false_r, Z.mul_pow2_bits by lia. replace i with ((i - 32) + 32) at 2 by lia. rewrite <- Z.div_pow2_bits by lia.
      rewrite Z.add_comm, Z.div_add, Z.div_small by (unfold cell_ok in Hc; lia). done.
  - apply (testbit_small c 32); unfold cell_ok in Hc; lia.
Qed.

Lemma read_number_acc l : forall n r, (n <= length l)%nat -> Forall cell_ok l -> of_read_number l n r = Some (fold_left (fun a c => u64 (a * 2 ^ 32 + c)) (take n l) r).
Proof.
  induction l as [|c l IH]; intros n r Hn Hl; [by destruct n; [|cbn in Hn; lia]|]. destruct n as [|n]; [done|]. apply list.Forall_cons in Hl as [Hc Hl]. cbn [of_read_number take fold_left]. rewrite lor_shift by done. apply IH; [cbn in Hn; lia|done].
Qed.

Lemma read_number l n : (n <= length l)%nat -> Forall cell_ok l -> of_read_number l n 0 = Some (num (take n l)).
Proof. apply read_number_acc. Qed.

Lemma num_range l : 0 <= num l < 2 ^ 64.
Proof.
  unfold num. assert (forall r, 0 <= r < 2 ^ 64 -> 0 <= fold_left (fun a c => u64 (a * 2 ^ 32 + c)) l r < 2 ^ 64) as H; [|apply H; lia].
  induction l as [|c l IH]; intros r Hr; [done|]. apply IH, u64_range.
Qed.

Lemma cells_of_ok l : Forall (fun x => 0 <= x < 256) l -> Forall cell_ok (cells_of l).
Proof.
  revert l. fix IH 1. intros [|a [|b [|c [|d l]]]] Hl; try constructor.
  - repeat apply list.Forall_cons in Hl as [? Hl]. unfold cell_ok, be_val. cbn. lia.
  - apply IH. by repeat apply list.Forall_cons in Hl as [_ Hl].
Qed.

(** What fits into [n] cells. *)
Definition trunc (n : nat) (x : Z) : Z := x mod 2 ^ (32 * Z.min (Z.of_nat n) 2).

Lemma num_zeros n : num (replicate n 0) = 0.
Proof. unfold num. induction n as [|n IH]; [done|]. exact IH. Qed.

Lemma num_last2 n hi lo : cell_ok hi -> cell_ok lo -> num (replicate n 0 ++ [hi; lo]) = hi * 2 ^ 32 + lo.
Proof.
  intros Hh Hl. unfold num. rewrite fold_left_app. fold (num (replicate n 0)). rewrite num_zeros. cbn [fold_left]. unfold cell_ok in *. rewrite (u64_small (0 * 2 ^ 32 + hi)) by lia. rewrite u64_small; lia.
Qed.

(** The address in the parent bus, from the one that is in [addr]. *)
Lemma translate_num addr offset na : Forall cell_ok addr -> (1 <= na <= length addr)%nat ->
  exists addr', of_bus_default_translate addr offset na = Some addr' /\ length addr' = length addr /\ Forall cell_ok addr' /\ num (take na addr') = trunc na (num (take na addr) + offset).
Proof.
  intros Ha Hn. unfold of_bus_default_translate. rewrite read_number by (done || lia). cbn [mbind option_bind]. set (a := u64 _). pose proof (u64_range (num (take na addr) + offset)) as Hr. fold a in Hr.
  assert (cell_ok (Z.land a 0xffffffff)) as Hlo by (change 0xffffffff with (2 ^ 32 - 1); rewrite land_pow_pred by lia; apply Z.mod_pos_bound; lia).
  assert (cell_ok (u32 (Z.shiftr a 32))) as Hhi by apply u32_range.
  assert (Forall cell_ok (replicate na 0 ++ drop na addr)) as Hz by (apply list.Forall_app; split; [apply list.Forall_forall; intros x Hx; apply elem_of_replicate in Hx as [-> _]; unfold cell_ok; lia|by apply Forall_drop]).
  eexists. split; [done|]. split; [rewrite length_insert; destruct (_ <? _)%nat; rewrite ?length_insert, length_app, length_replicate, length_drop; lia|].
  split; [apply Forall_insert; [|done]; destruct (_ <? _)%nat; [by apply Forall_insert|done]|].
  assert (Z.land a 0xffffffff = a mod 2 ^ 32) as El by (change 0xffffffff with (2 ^ 32 - 1); by apply land_pow_pred).
  unfold trunc. destruct (Nat.ltb_spec 1 na) as [H1|H1].
  - assert (take na (<[(na - 1)%nat := Z.land a 0xffffffff]> (<[(na - 2)%nat := u32 (Z.shiftr a 32)]> (replicate na 0 ++ drop na addr))) = replicate (na - 2) 0 ++ [u32 (Z.shiftr a 32); Z.land a 0xffffffff]) as ->.
    { assert (replicate na 0 = replicate (na - 2) 0 ++ [0; 0]) as -> by (replace na with (na - 2 + 2)%nat at 1 by lia; by rewrite replicate_add).
      rewrite <- app_assoc. rewrite insert_app_r_alt by (rewrite length_replicate; lia). rewrite insert_app_r_alt by (rewrite length_replicate; lia). rewrite length_replicate.
      replace (na - 2 - (na - 2))%nat with 0%nat by lia. replace (na - 1 - (na - 2))%nat with 1%nat by lia. cbn [insert list_insert app].
      rewrite take_app, take_ge by (rewrite length_replicate; lia). rewrite length_replicate. f_equal. replace (na - (na - 2))%nat with 2%nat by lia. done. }
    rewrite num_last2 by done. rewrite El. rewrite u32_small by (rewrite Z.shiftr_div_pow2 by lia; dlia). rewrite Z.shiftr_div_pow2, Z.min_r by lia. unfold a, u64. change (32 * 2) with 64. set (x := _ mod 2 ^ 64). pose proof (Z.div_mod x (2 ^ 32)). lia.
  - assert (na = 1)%nat as -> by lia. assert (take 1 (<[(1 - 1)%nat := Z.land a 0xffffffff]> (replicate 1 0 ++ drop 1 addr)) = [Z.land a 0xffffffff]) as -> by done.
    unfold num. cbn [fold_left]. rewrite El. change (32 * Z.min (Z.of_nat 1) 2) with 32. rewrite Z.mul_0_l, Z.add_0_l, u64_small by (pose proof (Z.mod_pos_bound a (2 ^ 32)); lia). unfold a, u64. apply Z.mod_mod_divide. exists (2 ^ 32). lia.
Qed.

(** A bus as numbers: the cells of an address of the bus above it, and its ranges, each
    with its base, its base in the bus above and its size. *)
Record bus := mk_bus {
  b_pna : nat;
  b_ranges : option (list (Z * Z * Z));
}.

(** The address in the bus above: of the first range that holds it, or the same one if
    there are no ranges. *)
Fixpoint find_range (a : Z) (l : list (Z * Z * Z)) : option (Z * Z) :=
  match l with
  | [] => None
  | (cp, pp, s) :: l => if (a <? cp) || (u64 (cp + s) <=? a) then find_range a l else Some (pp, a - cp)
  end.

Definition bus_up (b : bus) (a : Z) : option Z :=
  match b_ranges b with
  | None => Some (trunc (b_pna b) a)
  | Some l => '(pp, o) ← find_range a l; Some (trunc (b_pna b) (pp + o))
  end.

Fixpoint bus_address (path : list bus) (a : Z) : option Z :=
  match path with [] => Some a | b :: path => a ← bus_up b a; bus_address path a end.

(** The ranges in a list of cells. *)
Fixpoint range_list (fuel : nat) (l : list Z) (na ns pna : nat) : list (Z * Z * Z) :=
  match fuel with
  | O => []
  | S fuel =>
      if (na + pna + ns <=? length l)%nat
      then (num (take na l), num (take pna (drop na l)), num (take ns (drop (na + pna) l))) :: range_list fuel (drop (na + pna + ns) l) na ns pna
      else []
  end.

Section translate.
Context {D : Type} `{FdtLaws D}.
Implicit Types (dtb : D).

Lemma map_spec addr range na ns pna : Forall cell_ok addr -> Forall cell_ok range -> (na <= length addr)%nat -> (na + pna + ns <= length range)%nat ->
  let da := num (take na addr) in let cp := num (take na range) in let s := num (take ns (drop (na + pna) range)) in
  of_bus_default_map addr range na ns pna = Some (if (da <? cp) || (u64 (cp + s) <=? da) then OF_BAD_ADDR else da - cp)
  /\ ((da <? cp) || (u64 (cp + s) <=? da) = false -> da - cp <> OF_BAD_ADDR).
Proof.
  intros Ha Hr Hn Hl da cp s. unfold of_bus_default_map. rewrite !read_number by (try done; try (by apply Forall_drop); rewrite ?length_drop; lia). cbn [mbind option_bind]. split; [done|].
  intros [H1%Z.ltb_ge H2%Z.leb_gt]%orb_false_iff. assert (0 <= da < 2 ^ 64) by apply num_range. assert (0 <= cp < 2 ^ 64) by apply num_range. assert (0 <= s < 2 ^ 64) by apply num_range. unfold OF_BAD_ADDR, u64 in *. intros E. assert (cp = 0) as Ec by lia. rewrite Ec, Z.add_0_l, Z.mod_small in H2 by lia. lia.
Qed.

Lemma ranges_loop_spec na ns pna addr : (0 < na)%nat -> Forall cell_ok addr -> (na <= length addr)%nat -> forall fuel l, (length l < fuel)%nat -> Forall cell_ok l ->
  (ranges_loop fuel addr l na ns pna = Some None /\ find_range (num (take na addr)) (range_list fuel l na ns pna) = None)
  \/ exists rest off, ranges_loop fuel addr l na ns pna = Some (Some (rest, off)) /\ Forall cell_ok rest /\ (na + pna <= length rest)%nat
       /\ find_range (num (take na addr)) (range_list fuel l na ns pna) = Some (num (take pna (drop na rest)), off).
Proof.
  intros Hna Ha Hn. induction fuel as [|fuel IH]; intros l Hf Hl; [lia|]. cbn [ranges_loop range_list]. destruct (Nat.leb_spec (na + pna + ns) (length l)) as [Hle|Hgt]; [|by left].
  destruct (map_spec addr l na ns pna Ha Hl Hn Hle) as [-> Hbad]. cbn [mbind option_bind find_range]. destruct (_ || _) eqn:E.
  - rewrite Z.eqb_refl. cbn [negb]. apply IH; [rewrite length_drop; lia|by apply Forall_drop].
  - rewrite (proj2 (Z.eqb_neq _ _)) by (by apply Hbad). cbn [negb]. right. eexists _, _. split; [done|]. split; [done|]. split; [lia|done].
Qed.

(** A node with its ranges as a bus. *)
Definition bus_at dtb (o : Z) (na ns pna : nat) : bus :=
  mk_bus pna match fdt_getprop dtb o "ranges" with
             | None | Some [] => None
             | Some v => Some (range_list (S (length (cells_of v))) (cells_of v) na ns pna)
             end.

Lemma translate_one_spec dtb o addr na ns pna : Forall cell_ok addr -> (1 <= na <= length addr)%nat -> (1 <= pna <= length addr)%nat ->
  (of_translate_one dtb o addr na ns pna "ranges" = Some (1, addr) /\ bus_up (bus_at dtb o na ns pna) (num (take na addr)) = None)
  \/ exists addr', of_translate_one dtb o addr na ns pna "ranges" = Some (0, addr') /\ length addr' = length addr /\ Forall cell_ok addr'
       /\ bus_up (bus_at dtb o na ns pna) (num (take na addr)) = Some (num (take pna addr')).
Proof.
  intros Ha Hna Hpna. unfold of_translate_one, bus_up, bus_at. cbn [b_pna b_ranges].
  assert (forall l, length l = pna -> Forall cell_ok l -> Forall cell_ok (l ++ drop pna addr) /\ length (l ++ drop pna addr) = length addr) as Hlen.
  { intros l El Hl. split; [apply list.Forall_app; split; [done|by apply Forall_drop]|]. rewrite length_app, length_drop. lia. }
  assert (Forall cell_ok (replicate pna 0)) as Hz by (apply list.Forall_forall; intros x Hx; apply elem_of_replicate in Hx as [-> _]; unfold cell_ok; lia).
  assert (exists addr', (offset ← of_read_number addr na 0; addr ← of_bus_default_translate (replicate pna 0 ++ drop pna addr) offset pna; Some (0, addr)) = Some (0, addr')
    /\ length addr' = length addr /\ Forall cell_ok addr' /\ Some (trunc pna (num (take na addr))) = Some (num (take pna addr'))) as Hsame.
  { rewrite read_number by (done || lia). cbn [mbind option_bind]. destruct (Hlen (replicate pna 0)) as [H1 H2]; [by rewrite length_replicate|done|].
    destruct (translate_num (replicate pna 0 ++ drop pna addr) (num (take na addr)) pna H1) as (addr' & -> & E1 & E2 & E3); [lia|]. cbn [mbind option_bind]. exists addr'. split; [done|]. split; [lia|]. split; [done|].
    f_equal. rewrite E3, take_app_length' by (by rewrite length_replicate). by rewrite num_zeros. }
  destruct (fdt_getprop dtb o "ranges") as [[|x v]|] eqn:Ep; [by right|clear Hsame|by right].
  set (cs := cells_of (x :: v)). assert (Forall cell_ok cs) as Hc by (eapply cells_of_ok, fdt_bytes, Ep).
  destruct (ranges_loop_spec na ns pna addr ltac:(lia) Ha ltac:(lia) (S (length cs)) cs ltac:(lia) Hc) as [[-> ->]|(rest & off & -> & Hr & Hl & ->)]; cbn [mbind option_bind]; [by left|right].
  assert (length (take pna (drop na rest)) = pna) as El by (rewrite length_take, length_drop; lia). destruct (Hlen (take pna (drop na rest)) El) as [H1 H2]; [by apply Forall_take, Forall_drop|].
  destruct (translate_num (take pna (drop na rest) ++ drop pna addr) off pna H1) as (addr' & -> & E1 & E2 & E3); [lia|]. cbn [mbind option_bind]. exists addr'. split; [done|]. split; [lia|]. split; [done|].
  f_equal. rewrite E3, take_app_length' by done. done.
Qed.

(** The buses from a node up to the root. *)
Inductive bus_path dtb (h : gmap Z device_node) : Z -> nat -> nat -> list bus -> Prop :=
| path_root p n na ns : h !! p = Some n -> dn_parent n = None -> bus_path dtb h p na ns []
| path_up p n q pn na ns pna pns path : h !! p = Some n -> dn_parent n = Some q -> h !! q = Some pn -> 0 <= dn_offset pn ->
    of_bus_default_count_cells dtb (dn_offset pn) = Some (pna, pns) -> of_check_counts pna pns = true -> bus_path dtb h q (Z.to_nat pna) (Z.to_nat pns) path ->
    bus_path dtb h p na ns (bus_at dtb (dn_offset n) na ns (Z.to_nat pna) :: path).

Lemma check_counts pna pns : of_check_counts pna pns = true -> (1 <= Z.to_nat pna <= 4)%nat /\ (1 <= Z.to_nat pns)%nat.
Proof. unfold of_check_counts, OF_MAX_ADDR_CELLS. intros [[H1%Z.ltb_lt H2%Z.leb_le]%andb_true_iff H3%Z.ltb_lt]%andb_true_iff. lia. Qed.

Lemma translate_loop_spec dtb h p na ns path : bus_path dtb h p na ns path -> forall fuel addr, (length path < fuel)%nat -> Forall cell_ok addr -> length addr = 4%nat -> (1 <= na <= 4)%nat ->
  translate_loop fuel dtb h p addr na ns = Some (default OF_BAD_ADDR (bus_address path (num (take na addr)))).
Proof.
  induction 1 as [p n na ns Hp Hr|p n q pn na ns pna pns path Hp Hq Hpn Ho Hc Hk Hpath IH]; intros fuel addr Hf Ha Hl Hn; (destruct fuel as [|fuel]; [cbn in Hf; lia|]); cbn [translate_loop]; rewrite Hp; cbn [mbind option_bind].
  - rewrite Hr, read_number by (done || lia). done.
  - rewrite Hq, Hpn. cbn [mbind option_bind]. rewrite (proj2 (Z.ltb_ge _ _)) by lia. rewrite Hc. cbn [mbind option_bind]. rewrite Hk. cbn [negb]. destruct (check_counts _ _ Hk) as [Hn2 _].
    cbn [bus_address]. destruct (translate_one_spec dtb (dn_offset n) addr na ns (Z.to_nat pna) Ha) as [[-> ->]|(addr' & -> & E1 & E2 & ->)]; [lia|lia|done|]. cbn [mbind option_bind Z.eqb negb].
    apply IH; [cbn in Hf; lia|done|lia|done].
Qed.

(** C15: translating an address of a device to one of the cpu is done on arrays of cells; it
    is the translation of numbers through the buses above the device, where each bus
    takes the first of its ranges that holds the address. *)
Theorem of_translate_equiv dtb h node in_addr junk parent pn na ns path fuel :
  dn_parent node = Some parent -> h !! parent = Some pn -> of_bus_default_count_cells dtb (dn_offset pn) = Some (na, ns) -> of_check_counts na ns = true ->
  bus_path dtb h parent (Z.to_nat na) (Z.to_nat ns) path -> (length path < fuel)%nat ->
  Forall cell_ok in_addr -> (Z.to_nat na <= length in_addr)%nat -> length junk = 4%nat -> Forall cell_ok junk ->
  __of_translate_address fuel dtb h node in_addr junk = Some (default OF_BAD_ADDR (bus_address path (num (take (Z.to_nat na) in_addr)))).
Proof.
  intros Hp Hpn Hc Hk Hpath Hf Ha Hn Hj Hjc. unfold __of_translate_address. rewrite Hp, Hpn. cbn [mbind option_bind]. rewrite Hc. cbn [mbind option_bind]. rewrite Hk. cbn [negb]. destruct (check_counts _ _ Hk) as [Hn2 _].
  assert (length (take (Z.to_nat na) in_addr) = Z.to_nat na) as El by (rewrite length_take; lia). rewrite decide_True by done.
  rewrite (translate_loop_spec dtb h parent _ _ path Hpath) by (try done; try (apply list.Forall_app; split; [by apply Forall_take|by apply Forall_drop]); rewrite ?length_app, ?length_drop; lia).
  do 3 f_equal. by rewrite take_app_length'.
Qed.
End translate.

(** ** The tree of nodes *)

(** A blob as a tree of offsets. *)
Inductive ftree := FNode (o : Z) (l : list ftree).

Definition f_off (t : ftree) : Z := match t with FNode o _ => o end.
Definition f_sub (t : ftree) : list ftree := match t with FNode _ l => l end.

Section ftree_ind.
Context (P : ftree -> Prop) (HP : forall o l, Forall P l -> P (FNode o l)).
Fixpoint ftree_ind' (t : ftree) : P t :=
  match t with
  | FNode o l => HP o l ((fix go (l : list ftree) : Forall P l := match l with [] => list.Forall_nil_2 _ | t :: l => list.Forall_cons_2 _ _ _ (ftree_ind' t) (go l) end) l)
  end.
End ftree_ind.

Fixpoint f_size (t : ftree) : nat := match t with FNode _ l => S (sum_list_with f_size l) end.
Fixpoint f_height (t : ftree) : nat := match t with FNode _ l => S (max_list_with f_height l) end.
Fixpoint f_offsets (t : ftree) : list Z := match t with FNode o l => o :: flat_map f_offsets l end.

Section nodes.
Context {D : Type} `{Fdt D}.
Implicit Types (dtb : D).

Fixpoint describes dtb (t : ftree) : Prop :=
  match t with FNode o l => fdt_subnodes dtb o = map f_off l /\ fold_right (fun t P => describes dtb t /\ P) True l end.

(** A node without the link that makes the list of all nodes. *)
Definition bare (n : device_node) : device_node := set_next None n.
Definition look (x : Z) (s : nodes) : option device_node := bare <$> nheap s !! x.

Definition first_child (l : list ftree) (q : Z) : option Z := match l with [] => None | _ => Some q end.

(** The node of [o] at its place. *)
Definition node_at dtb (o : Z) (par child sib : option Z) (n : device_node) : Prop :=
  dn_offset n = o /\ dn_name n = fdt_get_name dtb o /\ dn_compatible n = __of_get_compatible dtb o /\ dn_parent n = par /\ dn_child n = child /\ dn_sibling n = sib /\ dn_flags n = DEVICE_NODE_F_OF.

(** The nodes of a tree lie in document order from [p] on, and are linked as the tree is. *)
Fixpoint built dtb (s : nodes) (t : ftree) (p : Z) (par sib : option Z) : Prop :=
  match t with
  | FNode o l =>
      (exists n, look p s = Some n /\ node_at dtb o par (first_child l (p + 1)) sib n)
      /\ (fix sub (l : list ftree) (q : Z) : Prop :=
            match l with [] => True | t :: l => built dtb s t q (Some p) (first_child l (q + Z.of_nat (f_size t))) /\ sub l (q + Z.of_nat (f_size t)) end) l (p + 1)
  end.

Fixpoint built_list dtb (s : nodes) (l : list ftree) (q p : Z) : Prop :=
  match l with [] => True | t :: l => built dtb s t q (Some p) (first_child l (q + Z.of_nat (f_size t))) /\ built_list dtb s l (q + Z.of_nat (f_size t)) p end.

Lemma built_eq dtb s o l p par sib : built dtb s (FNode o l) p par sib <-> (exists n, look p s = Some n /\ node_at dtb o par (first_child l (p + 1)) sib n) /\ built_list dtb s l (p + 1) p.
Proof.
  cbn [built]. assert (forall q, (fix sub (l : list ftree) (q : Z) : Prop := match l with [] => True | t :: l => built dtb s t q (Some p) (first_child l (q + Z.of_nat (f_size t))) /\ sub l (q + Z.of_nat (f_size t)) end) l q <-> built_list dtb s l q p) as E.
  { induction l as [|t l IH]; intros q; [done|]. cbn [built_list]. by rewrite <- IH. }
  by rewrite E.
Qed.

Lemma f_size_pos t : (1 <= f_size t)%nat.
Proof. destruct t. cbn. lia. Qed.

Definition l_size (l : list ftree) : nat := sum_list_with f_size l.

Definition frame_prop dtb (s s' : nodes) (t : ftree) : Prop :=
  forall p par sib, (forall x, p <= x < p + Z.of_nat (f_size t) -> look x s' = look x s) -> built dtb s t p par sib -> built dtb s' t p par sib.

Lemma list_frame dtb s s' l p : Forall (frame_prop dtb s s') l -> forall q, (forall x, q <= x < q + Z.of_nat (l_size l) -> look x s' = look x s) -> built_list dtb s l q p -> built_list dtb s' l q p.
Proof.
  induction 1 as [|t l Ht Hl IH]; intros q Hx Hb; [done|]. cbn [built_list l_size sum_list_with] in *. fold (l_size l) in Hx. destruct Hb as [Hb1 Hb2]. split; [apply Ht; [intros x Hr; apply Hx; lia|done]|].
  apply IH; [intros x Hr; apply Hx; lia|done].
Qed.

Lemma built_frame dtb s s' t : frame_prop dtb s s' t.
Proof.
  induction t as [o l IH] using ftree_ind'. intros p par sib Hx [(n & Hn & Ha) Hl]%built_eq. apply built_eq. cbn [f_size] in Hx. fold (l_size l) in Hx.
  split; [exists n; split; [|done]; rewrite Hx by lia; done|]. apply (list_frame dtb s s'); [done|intros x Hr; apply Hx; lia|done].
Qed.

Lemma built_list_frame dtb s s' l q p : (forall x, q <= x < q + Z.of_nat (l_size l) -> look x s' = look x s) -> built_list dtb s l q p -> built_list dtb s' l q p.
Proof. intros Hx Hb. eapply list_frame; [|done|done]. apply list.Forall_forall. intros t _. apply built_frame. Qed.

(** The next sibling of the last subtree is set afterwards. *)
Lemma built_sibling dtb s s' t p par x : (forall y, p < y < p + Z.of_nat (f_size t) -> look y s' = look y s) -> look p s' = set_sibling x <$> look p s -> built dtb s t p par None -> built dtb s' t p par (Some x).
Proof.
  destruct t as [o l]. intros Hy Hp [(n & Hn & Ha) Hl]%built_eq. apply built_eq. cbn [f_size] in Hy. fold (l_size l) in Hy. split.
  - exists (set_sibling x n). rewrite Hp, Hn. split; [done|]. destruct Ha as (A1 & A2 & A3 & A4 & A5 & A6 & A7). done.
  - eapply built_list_frame; [|done]. intros y Hr. apply Hy. lia.
Qed.

(** *** Parsing *)

(** All addresses from the next one on are free. *)
Definition fresh (s : nodes) : Prop := forall x, nfresh s <= x -> nheap s !! x = None.

(** The list of all nodes goes backwards from the last one. *)
Definition next_of (root x : Z) : option Z := if x =? root + 1 then None else Some (x - 1).
Definition next_ok (root : Z) (s : nodes) : Prop :=
  root < nfresh s /\ (forall n, nheap s !! root = Some n -> dn_next n = next_of root (nfresh s)) /\ forall x n, root < x -> nheap s !! x = Some n -> dn_next n = next_of root x.

(** What the new node is linked to. *)
Definition link_at (pnode : Z) (prev : option Z) : Z := default pnode prev.
Definition link_with (prev : option Z) (q : Z) : device_node -> device_node := match prev with None => set_child q | Some _ => set_sibling q end.

Lemma upd_node_eq p f h a b n : h !! p = Some n -> upd_node p f (mk_nodes h a b) = Some (mk_nodes (<[p := f n]> h) a b).
Proof. intros E. unfold upd_node. cbn [nheap]. by rewrite E. Qed.

Lemma parse_one_spec dtb root pnode child prev s k : fresh s -> nleft s = S k -> is_Some (nheap s !! root) -> is_Some (nheap s !! pnode) -> is_Some (nheap s !! link_at pnode prev) ->
  let q := nfresh s in
  exists s', parse_one dtb root pnode child prev s = Some (Some q, s') /\ nfresh s' = q + 1 /\ nleft s' = k /\ fresh s'
    /\ (exists n, look q s' = Some n /\ node_at dtb child (Some pnode) None None n)
    /\ look (link_at pnode prev) s' = link_with prev q <$> look (link_at pnode prev) s
    /\ (forall x, x <> q -> x <> link_at pnode prev -> look x s' = look x s)
    /\ (next_ok root s -> next_ok root s').
Proof.
  intros Hf Hk [r Hr] [pn Hpn] [an Han] q. unfold parse_one, alloc_device_node. rewrite Hk. fold q. set (a := link_at pnode prev) in *. set (f := link_with prev q).
  assert (forall s, match prev with None => upd_node pnode (set_child q) s | Some r => upd_node r (set_sibling q) s end = upd_node a f s) as Ea by (by destruct prev).
  assert (forall n, dn_next (f n) = dn_next n) as Hfn by (by destruct prev). assert (forall n, bare (f n) = f (bare n)) as Hfb by (by destruct prev).
  clearbody a f. assert (nheap s !! q = None) as Hq by (apply Hf; lia). assert (a <> q) as Haq by congruence. assert (root <> q) as Hrq by congruence. assert (pnode <> q) as Hpq by congruence.
  erewrite upd_node_eq by apply lookup_insert_eq. cbn [mbind option_bind]. rewrite Ea. erewrite upd_node_eq by (rewrite !lookup_insert_ne by done; exact Han). cbn [mbind option_bind nheap].
  set (h2 := <[a := f an]> _). assert (exists r2, h2 !! root = Some r2 /\ dn_next r2 = dn_next r /\ (root <> a -> r2 = r) /\ (root = a -> r2 = f r)) as (r2 & Er2 & En2 & Era & Erb).
  { unfold h2. destruct (decide (root = a)) as [E|E]; [rewrite E, lookup_insert_eq; eexists; split; [done|]; assert (an = r) by congruence; subst; split; [apply Hfn|done]|]. rewrite lookup_insert_ne, !lookup_insert_ne by done. eexists; done. }
  rewrite Er2. cbn [mbind option_bind]. assert (h2 !! q = Some (new_node dtb pnode child)) as Eq2 by (unfold h2; rewrite lookup_insert_ne, lookup_insert_eq by done; done).
  erewrite upd_node_eq by exact Eq2. cbn [mbind option_bind]. erewrite upd_node_eq by (rewrite lookup_insert_ne by done; exact Er2). cbn [mbind option_bind nheap].
  set (h4 := <[root := _]> _). assert (is_Some (h4 !! pnode)) as [par Epar].
  { unfold h4, h2. destruct (decide (pnode = root)) as [->|]; [rewrite lookup_insert_eq; by eexists|]. rewrite lookup_insert_ne, lookup_insert_ne by done. destruct (decide (pnode = a)) as [->|]; [rewrite lookup_insert_eq; by eexists|]. rewrite !lookup_insert_ne by done. by eexists. }
  rewrite Epar. cbn [mbind option_bind]. assert (h4 !! q = Some (set_next (dn_next r2) (new_node dtb pnode child))) as Eq4 by (unfold h4; rewrite lookup_insert_ne, lookup_insert_eq by done; done).
  erewrite upd_node_eq by exact Eq4. cbn [mbind option_bind]. set (nq := set_class _ _).
  assert (forall x, x <> q -> x <> root -> x <> a -> h4 !! x = nheap s !! x) as Eo by (intros x H1 H2 H3; unfold h4, h2; rewrite !lookup_insert_ne by done; done).
  assert (forall x, x <> q -> bare <$> <[q := nq]> h4 !! x = if decide (x = a) then f <$> look a s else look x s) as El.
  { intros x Hx. rewrite lookup_insert_ne by done. unfold look. case_decide as Hd.
    - subst x. rewrite Han. unfold h4. destruct (decide (a = root)) as [E|E]; [rewrite E, lookup_insert_eq; cbn; f_equal; rewrite Erb by done; assert (an = r) by congruence; subst; rewrite <- Hfb; done|]. rewrite lookup_insert_ne, lookup_insert_ne by done. unfold h2. rewrite lookup_insert_eq. cbn. by rewrite Hfb.
    - destruct (decide (x = root)) as [->|E]; [unfold h4; rewrite lookup_insert_eq, Hr; cbn; by rewrite Era|]. by rewrite Eo. }
  eexists. split; [done|]. split; [done|]. split; [done|]. split; [|split; [|split; [|split]]].
  - intros x Hx. cbn [nheap nfresh] in *. rewrite lookup_insert_ne by lia. assert (nheap s !! x = None) as Hn by (apply Hf; lia). rewrite Eo; [done|lia| |]; intros ->; congruence.
  - exists (bare nq). unfold look. cbn [nheap]. rewrite lookup_insert_eq. split; [done|]. by repeat split.
  - unfold look at 1. cbn [nheap]. rewrite El by done. by rewrite decide_True.
  - intros x H1 H2. unfold look at 1. cbn [nheap]. rewrite El by done. by rewrite decide_False.
  - intros (Hn1 & Hn2 & Hn3). split; [cbn [nfresh]; lia|]. split.
    + intros n. cbn [nheap nfresh]. rewrite lookup_insert_ne by done. unfold h4. rewrite lookup_insert_eq. intros [= <-]. cbn. unfold next_of. fold q in Hn1. rewrite (proj2 (Z.eqb_neq _ _)) by lia. f_equal. lia.
    + intros x n Hx. cbn [nheap]. destruct (decide (x = q)) as [->|E]; [rewrite lookup_insert_eq; intros [= <-]; cbn; rewrite En2; by apply Hn2|]. rewrite lookup_insert_ne by done. unfold h4. rewrite lookup_insert_ne, lookup_insert_ne by (done || lia).
      unfold h2. destruct (decide (x = a)) as [->|E2]; [rewrite lookup_insert_eq; intros [= <-]; rewrite Hfn; by apply (Hn3 a)|]. rewrite !lookup_insert_ne by done. by apply Hn3.
Qed.

Lemma look_is_Some x s s' : look x s' = look x s -> is_Some (nheap s !! x) -> is_Some (nheap s' !! x).
Proof. unfold look. intros E [n Hn]. rewrite Hn in E. destruct (nheap s' !! x); [by eexists|done]. Qed.

Lemma look_some x s n : look x s = Some n -> exists m, nheap s !! x = Some m /\ n = bare m.
Proof. unfold look. destruct (nheap s !! x) as [m|]; [|done]. cbn. intros [= <-]. by exists m. Qed.

Lemma fresh_lt x s : fresh s -> is_Some (nheap s !! x) -> x < nfresh s.
Proof. intros Hf [n Hn]. destruct (Z.lt_ge_cases x (nfresh s)) as [|Hge]; [done|]. by rewrite Hf in Hn. Qed.

(** What parsing the nodes [l] below [pnode] does. *)
Definition parsed dtb (root pnode : Z) (l : list ftree) (prev : option Z) (s s' : nodes) : Prop :=
  let q := nfresh s in let a := link_at pnode prev in
  nfresh s' = q + Z.of_nat (l_size l) /\ nleft s' = (nleft s - l_size l)%nat /\ fresh s' /\ next_ok root s'
  /\ look a s' = match l with [] => look a s | _ => link_with prev q <$> look a s end
  /\ (forall x, x < q -> x <> a -> look x s' = look x s) /\ built_list dtb s' l q pnode.

Definition parse_prop dtb (t : ftree) : Prop :=
  forall fuel root pnode s pn, (f_height t <= fuel)%nat -> describes dtb t -> nheap s !! pnode = Some pn -> dn_offset pn = f_off t -> fresh s -> next_ok root s -> is_Some (nheap s !! root) -> (l_size (f_sub t) <= nleft s)%nat ->
  exists s', __of_parse_device_node fuel dtb root pnode s = Some (0, s') /\ parsed dtb root pnode (f_sub t) None s s'.

Lemma parse_loop_spec dtb fuel root pnode l : Forall (parse_prop dtb) l -> (max_list_with f_height l <= fuel)%nat -> fold_right (fun t P => describes dtb t /\ P) True l ->
  forall prev s, fresh s -> next_ok root s -> is_Some (nheap s !! root) -> is_Some (nheap s !! pnode) -> is_Some (nheap s !! link_at pnode prev) -> (l_size l <= nleft s)%nat ->
  exists s', parse_loop (__of_parse_device_node fuel dtb root) dtb root pnode (map f_off l) prev s = Some (0, s') /\ parsed dtb root pnode l prev s s'.
Proof.
  induction 1 as [|t l Ht Hl IH]; intros Hh Hd prev s Hf Hn Hr Hp Ha Hk.
  - exists s. split; [done|]. unfold parsed. cbn [l_size sum_list_with]. rewrite Z.add_0_r, Nat.sub_0_r. done.
  - cbn [max_list_with fold_right map parse_loop] in *. destruct Hd as [Hd1 Hd2]. unfold l_size in Hk. cbn [sum_list_with] in Hk. fold (l_size l) in Hk. pose proof (f_size_pos t) as Hpos. set (q := nfresh s).
    destruct (nleft s) as [|k] eqn:Ek; [lia|]. pose proof (fresh_lt _ _ Hf Ha) as Haq. pose proof (fresh_lt _ _ Hf Hr) as Hrq. pose proof (fresh_lt _ _ Hf Hp) as Hpq. fold q in Haq, Hrq, Hpq.
    destruct (parse_one_spec dtb root pnode (f_off t) prev s k Hf Ek Hr Hp Ha) as (s1 & -> & F1 & L1 & Fr1 & (n1 & N1 & A1) & La1 & Lo1 & Nx1). fold q in F1, N1, La1, Lo1. cbn [mbind option_bind]. fold q.
    assert (forall x, x < q -> is_Some (nheap s !! x) -> is_Some (nheap s1 !! x)) as Keep1.
    { intros x Hx Hsx. destruct (decide (x = link_at pnode prev)) as [->|Hxa]; [|apply (look_is_Some x s); [apply Lo1; [lia|done]|done]]. destruct Ha as [an Han]. unfold look in La1. rewrite Han in La1. destruct (nheap s1 !! _); [by eexists|done]. }
    destruct (look_some _ _ _ N1) as (m1 & M1 & ->). destruct t as [o lt]. cbn [f_off f_sub f_size f_height] in *. fold (l_size lt) in *.
    destruct (Ht fuel root q s1 m1) as (s2 & -> & F2 & L2 & Fr2 & Nx2 & La2 & Lo2 & B2); [cbn [f_height]; lia|done|done|apply A1|done|by apply Nx1|by apply Keep1|cbn [f_sub]; lia|]. cbn [mbind option_bind link_at default f_sub link_with] in *. unfold id in *.
    rewrite F1 in F2, La2, Lo2, B2. assert (forall x, x < q -> look x s2 = look x s1) as Lo2' by (intros x Hx; apply Lo2; lia).
    assert (built dtb s2 (FNode o lt) q (Some pnode) None) as B3.
    { apply built_eq. split; [|done]. rewrite N1 in La2. destruct A1 as (A1 & A2 & A3 & A4 & A5 & A6 & A7). destruct lt as [|t0 lt]; rewrite La2; cbn; eexists; (split; [reflexivity|by repeat split]). }
    assert (is_Some (nheap s2 !! q)) as Hq2 by (destruct (proj1 (built_eq _ _ _ _ _ _ _) B3) as [(n & Hn2 & _) _]; destruct (look_some _ _ _ Hn2) as (m & -> & _); by eexists).
    destruct (IH ltac:(lia) Hd2 (Some q) s2) as (s3 & -> & F3 & L3 & Fr3 & Nx3 & La3 & Lo3 & B4); [done|done| | |done|lia|].
    { apply (look_is_Some root s1); [by apply Lo2'|by apply Keep1]. }
    { apply (look_is_Some pnode s1); [by apply Lo2'|by apply Keep1]. }
    cbn [link_at default link_with] in *. unfold id in *. exists s3. split; [done|]. unfold parsed. cbn [l_size sum_list_with]. fold (l_size l). cbn [f_size]. fold (l_size lt). fold q.
    split; [rewrite F3, F2; lia|]. split; [rewrite L3, L2, L1, Ek; lia|]. split; [done|]. split; [done|].
    split; [rewrite Lo3 by lia; rewrite Lo2' by done; exact La1|]. split; [intros x Hx Hxa; rewrite Lo3 by lia; rewrite Lo2' by done; apply Lo1; [lia|done]|].
    cbn [built_list f_size]. fold (l_size lt). replace (q + Z.of_nat (S (l_size lt))) with (nfresh s2) by (rewrite F2; lia). split; [|done].
    assert (forall y, q < y < q + Z.of_nat (f_size (FNode o lt)) -> look y s3 = look y s2) as Hy by (intros y Hy; cbn [f_size] in Hy; fold (l_size lt) in Hy; apply Lo3; lia).
    destruct l as [|t2 l]; cbn [first_child].
    + eapply built_frame; [|exact B3]. intros x Hx. destruct (decide (x = q)) as [->|]; [exact La3|apply Hy; lia].
    + eapply built_sibling; [exact Hy|exact La3|exact B3].
Qed.

Lemma parse_spec dtb t : parse_prop dtb t.
Proof.
  induction t as [o l IH] using ftree_ind'. intros fuel root pnode s pn Hh Hd Hp Ho Hf Hn Hr Hk. cbn [f_height f_off f_sub] in *. destruct fuel as [|fuel]; [lia|]. destruct Hd as [Hs Hd]. cbn [__of_parse_device_node]. rewrite Hp. cbn [mbind option_bind].
  rewrite Ho, Hs. apply parse_loop_spec; [done|lia|done|done|done|done|by eexists|by eexists|done].
Qed.

(** *** Walking *)
Definition hit (func : Z -> device_node -> bool) (h : gmap Z device_node) (x : Z) : bool := match h !! x with Some n => func x n | None => false end.

Definition iterate_prop dtb (s : nodes) (t : ftree) : Prop := forall fuel func p par sib, (f_size t < fuel)%nat -> built dtb s t p par sib ->
  (exists l, __iterate_device_node fuel func false (nheap s) (Some p) = Some (List.find (hit func (nheap s)) (seqZ p (Z.of_nat (f_size t))), l))
  /\ __iterate_device_node fuel func true (nheap s) (Some p) = Some (None, seqZ p (Z.of_nat (f_size t))).

Lemma find_app {A} (f : A -> bool) l1 l2 : List.find f (l1 ++ l2) = match List.find f l1 with Some x => Some x | None => List.find f l2 end.
Proof. induction l1 as [|a l1 IH]; [done|]. cbn. by destruct (f a). Qed.

Lemma children_spec dtb s fuel func pp l : Forall (iterate_prop dtb s) l -> (l_size l < fuel)%nat -> forall k q, (length l < k)%nat -> built_list dtb s l q pp ->
  (exists v, children_loop (__iterate_device_node fuel func false (nheap s)) false (nheap s) k (first_child l q) = Some (List.find (hit func (nheap s)) (seqZ q (Z.of_nat (l_size l))), v))
  /\ children_loop (__iterate_device_node fuel func true (nheap s)) true (nheap s) k (first_child l q) = Some (None, seqZ q (Z.of_nat (l_size l))).
Proof.
  induction 1 as [|t l Ht Hl IH]; intros Hf k q Hk Hb; (destruct k as [|k]; [cbn in Hk; lia|]); [split; [by exists []|done]|]. cbn [built_list first_child children_loop] in *. destruct Hb as [Hb1 Hb2].
  unfold l_size in *. cbn [sum_list_with] in *. fold (l_size l) in *. destruct t as [o lt] eqn:Et. pose proof Hb1 as [(n & Hn & (_ & _ & _ & _ & _ & Hs & _)) _]%built_eq. destruct (look_some _ _ _ Hn) as (m & -> & ->). cbn [mbind option_bind]. change (dn_sibling (bare m)) with (dn_sibling m) in Hs. rewrite <- Et in *.
  destruct (Ht fuel func q (Some pp) (first_child l (q + Z.of_nat (f_size t)))) as [[l1 E1] E2]; [lia|done|]. rewrite E1, E2. cbn [mbind option_bind]. rewrite Hs.
  destruct (IH ltac:(lia) k (q + Z.of_nat (f_size t)) ltac:(cbn in Hk; lia) Hb2) as [[l2 F1] F2]. rewrite F2, Nat2Z.inj_add, seqZ_app by lia. cbn [mbind option_bind]. split; [|done].
  rewrite find_app. destruct (List.find _ (seqZ q _)); [by eexists|]. rewrite F1. cbn [mbind option_bind]. by eexists.
Qed.

Lemma l_size_length l : (length l <= l_size l)%nat.
Proof. induction l as [|t l IH]; [done|]. unfold l_size. cbn [sum_list_with length]. fold (l_size l). pose proof (f_size_pos t). lia. Qed.

Lemma iterate_spec dtb s t : iterate_prop dtb s t.
Proof.
  induction t as [o l IH] using ftree_ind'. intros fuel func p par sib Hf [(n & Hn & (_ & _ & _ & _ & Hc & _)) Hb]%built_eq. destruct fuel as [|fuel]; [lia|]. cbn [f_size] in *. fold (l_size l) in *.
  destruct (look_some _ _ _ Hn) as (m & Hm & ->). cbn in Hc. pose proof (l_size_length l). destruct (children_spec dtb s fuel func p l IH ltac:(lia) fuel (p + 1) ltac:(lia) Hb) as [[v E1] E2].
  assert (forall b, seqZ p (Z.of_nat (S (l_size l))) = p :: seqZ (p + 1) b -> True) as _ by done. rewrite Nat2Z.inj_succ, seqZ_cons by lia. rewrite Z.pred_succ.
  cbn [__iterate_device_node List.find]. unfold hit at 1. rewrite Hm. cbn [mbind option_bind]. rewrite Hc. replace (Z.succ p) with (p + 1) by lia. split.
  - destruct (func p m); cbn [andb negb]; [by eexists|]. rewrite E1. cbn [mbind option_bind]. by eexists.
  - rewrite andb_false_r, E2. done.
Qed.

(** The nodes in document order. *)
Definition shows dtb (o : Z) (n : device_node) : Prop := dn_offset n = o /\ dn_name n = fdt_get_name dtb o /\ dn_compatible n = __of_get_compatible dtb o.

Definition order_prop dtb (s : nodes) (t : ftree) : Prop := forall p par sib, built dtb s t p par sib ->
  length (f_offsets t) = f_size t /\ forall i o, f_offsets t !! i = Some o -> exists n, nheap s !! (p + Z.of_nat i) = Some n /\ shows dtb o n.

Lemma order_list dtb s l pp : Forall (order_prop dtb s) l -> forall q, built_list dtb s l q pp ->
  length (flat_map f_offsets l) = l_size l /\ forall i o, flat_map f_offsets l !! i = Some o -> exists n, nheap s !! (q + Z.of_nat i) = Some n /\ shows dtb o n.
Proof.
  induction 1 as [|t l Ht Hl IH]; intros q Hb; [done|]. cbn [built_list flat_map] in *. destruct Hb as [Hb1 Hb2]. destruct (Ht _ _ _ Hb1) as [E1 H1]. destruct (IH _ Hb2) as [E2 H2]. unfold l_size. cbn [sum_list_with]. fold (l_size l).
  rewrite length_app. split; [lia|]. intros i o Hi. apply lookup_app_Some in Hi as [Hi|[Hge Hi]]; [by apply H1|]. destruct (H2 _ _ Hi) as (n & Hn & Hs). exists n. split; [|done]. rewrite <- Hn. f_equal. lia.
Qed.

Lemma order_spec dtb s t : order_prop dtb s t.
Proof.
  induction t as [o l IH] using ftree_ind'. intros p par sib [(n & Hn & Ha) Hb]%built_eq. destruct (order_list dtb s l p IH _ Hb) as [E H1]. cbn [f_offsets f_size length]. fold (l_size l). split; [lia|]. intros [|i] o' Hi; cbn in Hi.
  - injection Hi as <-. destruct (look_some _ _ _ Hn) as (m & Hm & ->). exists m. rewrite Z.add_0_r. split; [done|]. destruct Ha as (A1 & A2 & A3 & _). by repeat split.
  - destruct (H1 _ _ Hi) as (m & Hm & Hs). exists m. split; [|done]. rewrite <- Hm. f_equal. lia.
Qed.

Lemma find_seqZ {A} (P : Z -> bool) (Q : A -> Prop) `{forall x, Decision (Q x)} (l : list A) : forall p, (forall i x, l !! i = Some x -> P (p + Z.of_nat i) = bool_decide (Q x)) ->
  List.find P (seqZ p (Z.of_nat (length l))) = (fun y => p + Z.of_nat y.1) <$> list_find Q l.
Proof.
  induction l as [|a l IH]; intros p Hp; [done|]. cbn [length]. rewrite Nat2Z.inj_succ, seqZ_cons, Z.pred_succ by lia. cbn [List.find list_find]. pose proof (Hp 0%nat a eq_refl) as Ha. rewrite Z.add_0_r in Ha. rewrite Ha. case_decide as Hq.
  - rewrite bool_decide_eq_true_2 by done. cbn. f_equal. lia.
  - rewrite bool_decide_eq_false_2 by done. rewrite (IH (Z.succ p)); [|intros i x Hx; rewrite <- (Hp (S i) x Hx); f_equal; lia]. destruct (list_find Q l) as [[i x]|]; [|done]. cbn. f_equal. lia.
Qed.

(** The root has a name of its own. *)
Definition node_names dtb (t : ftree) : list (option string) := Some "root node"%string :: map (fdt_get_name dtb) (flat_map f_offsets (f_sub t)).

Lemma parse_tree_spec dtb t fuel s : describes dtb t -> f_off t = 0 -> fresh s -> (f_size t <= nleft s)%nat -> (f_height t <= fuel)%nat ->
  exists s' rn, of_parse_device_tree fuel dtb s = Some (Some (nfresh s), s') /\ nfresh s' = nfresh s + Z.of_nat (f_size t) /\ nleft s' = (nleft s - f_size t)%nat /\ fresh s' /\ next_ok (nfresh s) s'
    /\ nheap s' !! nfresh s = Some rn /\ dn_name rn = Some "root node"%string /\ dn_parent rn = None /\ dn_offset rn = 0 /\ dn_child rn = first_child (f_sub t) (nfresh s + 1)
    /\ (forall x, x < nfresh s -> look x s' = look x s) /\ built_list dtb s' (f_sub t) (nfresh s + 1) (nfresh s).
Proof.
  intros Hd Ho Hf Hk Hh. unfold of_parse_device_tree, alloc_device_node. destruct t as [o l] eqn:Et. cbn [f_size] in Hk. fold (l_size l) in Hk. destruct (nleft s) as [|k] eqn:Ek; [lia|]. set (root := nfresh s).
  erewrite upd_node_eq by apply lookup_insert_eq. cbn [mbind option_bind]. rewrite insert_insert_eq. set (n0 := mk_node _ _ _ _ _ _ _ _ _). set (s0 := mk_nodes _ _ _).
  assert (fresh s0) as Hf0 by (intros x Hx; cbn in *; rewrite lookup_insert_ne by lia; apply Hf; lia).
  assert (next_ok root s0) as Hn0.
  { split; [cbn; lia|]. split; [intros n; cbn; rewrite lookup_insert_eq; intros [= <-]; cbn; unfold next_of; by rewrite Z.eqb_refl|]. intros x n Hx. cbn. rewrite lookup_insert_ne by lia. intros Hn. by rewrite Hf in Hn by (unfold root in *; lia). }
  assert (nheap s0 !! root = Some n0) as Hr0 by apply lookup_insert_eq.
  destruct (parse_spec dtb (FNode o l) fuel root root s0 n0) as (s' & -> & F & L & Fr & Nx & La & Lo & B); [done|done|done|by rewrite Ho|done|done|by eexists|unfold s0; cbn [f_sub nleft]; lia|]. cbn [mbind option_bind f_sub link_at default link_with] in *. unfold id in *.
  assert (nfresh s0 = root + 1) as Es0 by done. assert (nleft s0 = k) as Ks0 by done. rewrite Es0 in F, La, Lo, B. rewrite Ks0 in L.
  assert (look root s' = Some (match l with [] => bare n0 | _ => set_child (root + 1) (bare n0) end)) as La' by (rewrite La; unfold look at 1 2; rewrite Hr0; by destruct l). destruct (look_some _ _ _ La') as (rn & Hrn & Erb).
  exists s', rn. split; [done|]. cbn [f_size]. fold (l_size l). split; [rewrite F; lia|]. split; [rewrite L; lia|]. split; [done|]. split; [done|]. split; [done|].
  assert (dn_name rn = dn_name (bare rn) /\ dn_parent rn = dn_parent (bare rn) /\ dn_offset rn = dn_offset (bare rn) /\ dn_child rn = dn_child (bare rn)) as (-> & -> & -> & ->) by done. rewrite <- Erb.
  split; [by destruct l|]. split; [by destruct l|]. split; [by destruct l|]. split; [by destruct l|]. split; [|done]. intros x Hx. rewrite Lo by lia. unfold look. cbn. by rewrite lookup_insert_ne by lia.
Qed.

(** The list of all nodes is the nodes behind the root, and freeing it frees them. *)
Lemma release_spec root k : forall h, (forall x, root < x <= root + Z.of_nat k -> exists n, h !! x = Some n /\ dn_next n = next_of root x) -> (0 < k)%nat ->
  exists h', release_loop k (root + Z.of_nat k) h = Some h' /\ forall x, h' !! x = if decide (root < x <= root + Z.of_nat k) then None else h !! x.
Proof.
  induction k as [|k IH]; intros h Hh Hk; [lia|]. destruct (Hh (root + Z.of_nat (S k))) as (n & Hn & Hx); [lia|]. cbn [release_loop]. rewrite Hn. cbn [mbind option_bind]. rewrite Hx. unfold next_of. destruct (decide (k = 0)%nat) as [->|Hk0].
  - rewrite (proj2 (Z.eqb_eq _ _)) by lia. eexists. split; [done|]. intros x. case_decide as Hd; [by replace x with (root + Z.of_nat 1) by lia; rewrite lookup_delete_eq|]. rewrite lookup_delete_ne by lia. done.
  - rewrite (proj2 (Z.eqb_neq _ _)) by lia. replace (root + Z.of_nat (S k) - 1) with (root + Z.of_nat k) by lia.
    destruct (IH (delete (root + Z.of_nat (S k)) h)) as (h' & -> & E); [|lia|].
    { intros x Hxr. destruct (Hh x) as (m & Hm & Hnx); [lia|]. exists m. rewrite lookup_delete_ne by lia. done. }
    exists h'. split; [done|]. intros x. rewrite E. destruct (decide (x = root + Z.of_nat (S k))) as [->|Hne]; [rewrite decide_False by lia; rewrite decide_True by lia; by rewrite lookup_delete_eq|]. rewrite lookup_delete_ne by done. destruct (decide (root < x <= root + Z.of_nat k)); [by rewrite decide_True by lia|by rewrite decide_False by lia].
Qed.
End nodes.

(** C16: the tree that is made of a blob has every node of it once: a search by name returns
    the first node in document order with that name, or none where the blob has none, and
    releasing the tree gives all of its memory back. *)
Theorem device_tree_correct {D : Type} `{Fdt D} (dtb : D) (t : ftree) (fuel : nat) (s : nodes) :
  describes dtb t -> f_off t = 0 -> fresh s -> (f_size t <= nleft s)%nat -> (f_height t <= fuel)%nat ->
  let root := nfresh s in
  exists s', of_parse_device_tree fuel dtb s = Some (Some root, s')
    /\ (forall name, of_find_node_by_name (S (f_size t)) name (nheap s') (Some root) = Some ((fun y => root + Z.of_nat y.1) <$> list_find (fun x => x = Some name) (node_names dtb t)))
    /\ (forall i o, (0 :: flat_map f_offsets (f_sub t)) !! i = Some o -> exists n, nheap s' !! (root + Z.of_nat i) = Some n /\ dn_offset n = o)
    /\ exists s'', of_release_all_node (f_size t) root s' = Some s'' /\ forall x, look x s'' = look x s.
Proof.
  intros Hd Ho Hf Hk Hh root. destruct (parse_tree_spec dtb t fuel s Hd Ho Hf Hk Hh) as (s' & rn & E & F & L & Fr & Nx & Hrn & R1 & R2 & R3 & R4 & Old & B). fold root in E, F, Nx, Hrn, R4, Old, B.
  set (l := f_sub t) in *. assert (f_size t = S (l_size l)) as Es by (by destruct t). pose proof (proj2 (Forall_forall (order_prop dtb s') l) (fun t _ => order_spec dtb s' t)) as Hall. destruct (order_list dtb s' l root Hall _ B) as [El Hord].
  exists s'. split; [done|].
  assert (forall i o, (0 :: flat_map f_offsets l) !! i = Some o -> exists n, nheap s' !! (root + Z.of_nat i) = Some n /\ dn_offset n = o /\ node_names dtb t !! i = Some (dn_name n)) as Hnodes.
  { intros [|i] o Hi; cbn in Hi; [injection Hi as <-; exists rn; rewrite Z.add_0_r; split; [done|]; split; [done|]; unfold node_names; cbn; by rewrite R1|].
    destruct (Hord i o Hi) as (n & Hn & (A1 & A2 & A3)). exists n. replace (root + Z.of_nat (S i)) with (root + 1 + Z.of_nat i) by lia. split; [done|]. split; [done|]. unfold node_names. cbn. fold l. change ((fdt_get_name dtb <$> flat_map f_offsets l) !! i = Some (dn_name n)). rewrite list_lookup_fmap. transitivity (Some (fdt_get_name dtb o)); [|by rewrite A2]. exact (f_equal (fmap (fdt_get_name dtb)) Hi). }
  split; [|split].
  - intros name. unfold of_find_node_by_name, of_iterate_all_node. cbn [__iterate_device_node]. rewrite Hrn. cbn [mbind option_bind]. rewrite R4, Es.
    pose proof (proj2 (Forall_forall (iterate_prop dtb s') l) (fun t _ => iterate_spec dtb s' t)) as Hit. pose proof (l_size_length l).
    destruct (children_spec dtb s' (S (l_size l)) (find_node_by_name name) root l Hit ltac:(lia) (S (l_size l)) (root + 1) ltac:(lia) B) as [[v E1] _].
    rewrite <- (find_seqZ (hit (find_node_by_name name) (nheap s')) (fun x => x = Some name) (node_names dtb t) root).
    2: { intros i x Hi. destruct ((0 :: flat_map f_offsets l) !! i) as [o|] eqn:Eo.
         - destruct (Hnodes i o Eo) as (n & Hn & _ & Hx). rewrite Hi in Hx. injection Hx as ->. unfold hit. rewrite Hn. done.
         - apply lookup_ge_None in Eo. apply lookup_lt_Some in Hi. unfold node_names in Hi. fold l in Hi. cbn in *. rewrite length_map in Hi. lia. }
    assert (length (node_names dtb t) = S (l_size l)) as -> by (unfold node_names; fold l; cbn; rewrite length_map; lia). rewrite Nat2Z.inj_succ, seqZ_cons, Z.pred_succ by lia. cbn [List.find]. unfold hit at 1. rewrite Hrn. replace (Z.succ root) with (root + 1) by lia.
    destruct (find_node_by_name name root rn); cbn [andb negb mbind option_bind]; [done|]. rewrite E1. done.
  - intros i o Hi. destruct (Hnodes i o Hi) as (n & Hn & Hof & _). by exists n.
  - unfold of_release_all_node. rewrite Hrn. cbn [mbind option_bind]. rewrite R2. destruct Nx as (N1 & N2 & N3). rewrite F, Es in N2.
    assert (forall x, root < x <= root + Z.of_nat (l_size l) -> exists n, nheap s' !! x = Some n /\ dn_next n = next_of root x) as Hch.
    { intros x Hx. destruct (lookup_lt_is_Some_2 (0 :: flat_map f_offsets l) (Z.to_nat (x - root))) as [o Hi]; [cbn; lia|]. destruct (Hnodes _ _ Hi) as (n & Hn & _). replace (root + Z.of_nat (Z.to_nat (x - root))) with x in Hn by lia. exists n. split; [done|]. apply (N3 x); [lia|done]. }
    rewrite Es. cbn [release_loop]. rewrite Hrn. cbn [mbind option_bind]. rewrite (N2 rn Hrn). unfold next_of.
    assert (forall h, (forall x, h !! x = if decide (root <= x <= root + Z.of_nat (l_size l)) then None else nheap s' !! x) -> forall x, look x (mk_nodes h (nfresh s') (nleft s')) = look x s) as Hfin.
    { intros h Eh x. unfold look. cbn [nheap]. rewrite Eh. case_decide; [rewrite Hf by (fold root; lia); done|]. destruct (Z.lt_ge_cases x root); [by apply Old|]. rewrite Fr, Hf by (rewrite ?F, ?Es; fold root; lia). done. }
    destruct (Z.eqb_spec (root + Z.of_nat (S (l_size l))) (root + 1)) as [Ez|Ez].
    + eexists. split; [done|]. apply Hfin. intros x. case_decide; [replace x with root by lia; by rewrite lookup_delete_eq|]. rewrite lookup_delete_ne by lia. done.
    + replace (root + Z.of_nat (S (l_size l)) - 1) with (root + Z.of_nat (l_size l)) by lia. destruct (release_spec root (l_size l) (delete root (nheap s'))) as (h' & -> & Eh); [|lia|].
      { intros x Hx. destruct (Hch x Hx) as (n & Hn & Hnx). exists n. rewrite lookup_delete_ne by lia. done. }
      cbn [mbind option_bind]. eexists. split; [done|]. apply Hfin. intros x. rewrite Eh. destruct (decide (x = root)) as [->|]; [rewrite decide_False by lia; rewrite decide_True by lia; by rewrite lookup_delete_eq|]. rewrite lookup_delete_ne by done. destruct (decide (root < x <= root + Z.of_nat (l_size l))); [by rewrite decide_True by lia|by rewrite decide_False by lia].
Qed.

(** ** The memory nodes *)

(** The regions that a list of cells names. *)
Fixpoint mem_regs (fuel : nat) (na ns : nat) (l : list Z) : list (Z * Z) :=
  match fuel with
  | O => []
  | S fuel => if (na + ns <=? length l)%nat then (num (take na l), num (take ns (drop na l))) :: mem_regs fuel na ns (drop (na + ns) l) else []
  end.

Fixpoint add_regions (l : list (Z * Z)) (s : regions) : option regions :=
  match l with [] => Some s | (b, z) :: l => '(_, s) ← add_memory_region b z MEMORY_REGION_TYPE_NORMAL 0 s; add_regions l s end.

Lemma num_one a : cell_ok a -> num [a] = a.
Proof. intros Ha. unfold num, cell_ok in *. cbn. rewrite u64_small; lia. Qed.

Lemma num_two a b : cell_ok a -> cell_ok b -> num [a; b] = fdt32_to_cpu64 a b.
Proof. intros Ha Hb. unfold fdt32_to_cpu64. rewrite lor_shift by done. unfold num. cbn [fold_left]. replace (0 * 2 ^ 32 + a) with a by lia. by rewrite (u64_small a) by (unfold cell_ok in Ha; lia). Qed.

Lemma mem_loop_spec na ns : (1 <= na <= 2)%nat -> (1 <= ns <= 2)%nat -> forall fuel l s, Forall cell_ok l -> (length l < fuel)%nat ->
  mem_loop fuel (Z.of_nat na) (Z.of_nat ns) l (Z.of_nat (length l)) s = add_regions (mem_regs fuel na ns l) s.
Proof.
  intros Hna Hns. induction fuel as [|fuel IH]; intros l s Hl Hf; [lia|]. cbn [mem_loop mem_regs]. destruct (Nat.leb_spec (na + ns) (length l)) as [Hle|Hgt]; [|by rewrite (proj2 (Z.leb_gt _ _)) by lia]. rewrite (proj2 (Z.leb_le _ _)) by lia.
  assert (forall l, Forall cell_ok l -> forall k, (1 <= k <= 2)%nat -> (k <= length l)%nat -> (if Z.of_nat k =? 2 then match l with a :: b :: v => Some (fdt32_to_cpu64 a b, v) | _ => None end else match l with a :: v => Some (a, v) | _ => None end) = Some (num (take k l), drop k l)) as Hg.
  { clear. intros l Hl k Hk Hle. destruct (decide (k = 1)%nat) as [->|]; [destruct l as [|a l]; [cbn in Hle; lia|]; cbn [Z.eqb]; apply list.Forall_cons in Hl as [Ha _]; by rewrite <- (num_one a Ha) at 1|].
    assert (k = 2)%nat as -> by lia. destruct l as [|a [|b l]]; cbn in Hle; [lia|lia|]. apply list.Forall_cons in Hl as [Ha Hl]. apply list.Forall_cons in Hl as [Hb _]. cbn [take drop]. by rewrite num_two. }
  rewrite (Hg l Hl na Hna) by lia. cbn [mbind option_bind]. rewrite (Hg (drop na l)) by first [done | by apply Forall_drop | rewrite length_drop; lia]. cbn [mbind option_bind add_regions].
  destruct (add_memory_region _ _ _ _ _) as [[r s1]|]; [|done]. cbn [mbind option_bind]. rewrite drop_drop, <- (IH (drop (na + ns) l)) by first [by apply Forall_drop | rewrite length_drop; lia]. f_equal. rewrite length_drop. lia.
Qed.

Lemma cells_of_length v : length (cells_of v) = (length v / 4)%nat.
Proof.
  revert v. fix IH 1. intros [|a [|b [|c [|d v]]]]; [reflexivity|reflexivity|reflexivity|reflexivity|]. cbn [cells_of length]. rewrite IH. replace (S (S (S (S (length v))))) with (1 * 4 + length v)%nat by lia. rewrite Nat.div_add_l by lia. lia.
Qed.

(** The memory node becomes the regions it names, in order; whatever it names, as long as
    the regions end below 2^64 and there are not too many, the table stays a table of
    regions that do not overlap. *)
Theorem memory_info_correct {D : Type} `{FdtLaws D} (dtb : D) (node : Z) (attr : string) (v : list Z) (na ns : nat) (s : regions) :
  fdt_getprop dtb node attr = Some v -> (8 <= length v)%nat -> (1 <= na <= 2)%nat -> (1 <= ns <= 2)%nat ->
  fdt_n_addr_cells dtb node = Some (Z.of_nat na) -> fdt_n_size_cells dtb node = Some (Z.of_nat ns) ->
  let regs := mem_regs (S (length v)) na ns (cells_of v) in
  regions_wf s -> Forall (fun x => x.1 + x.2 < 2 ^ 64) regs -> current_region_id s + Z.of_nat (length regs) <= MAX_MEMORY_REGION ->
  exists s', __fdt_parse_memory_info dtb node attr s = Some (0, s') /\ add_regions regs s = Some s' /\ regions_wf s'
    /\ Forall (fun r => r ∈ mem_list s \/ exists x, x ∈ regs /\ r = mk_region MEMORY_REGION_TYPE_NORMAL 0 x.1 x.2) (mem_list s').
Proof.
  intros Hv Hlen Hna Hns Ena Ens regs Hs Hr Hid. unfold __fdt_parse_memory_info. rewrite Hv, (proj2 (Z.ltb_ge _ _)) by lia. rewrite Ens. cbn [mbind option_bind]. rewrite Ena. cbn [mbind option_bind].
  rewrite (proj2 (Z.ltb_ge 2 (Z.of_nat ns))), (proj2 (Z.ltb_ge 2 (Z.of_nat na))), (proj2 (Z.eqb_neq (Z.of_nat ns) 0)), (proj2 (Z.eqb_neq (Z.of_nat na) 0)) by lia. cbn [orb].
  assert (Z.of_nat (length v) / 4 = Z.of_nat (length (cells_of v))) as -> by (rewrite cells_of_length, Nat2Z.inj_div; done).
  rewrite mem_loop_spec; [|done|done|eapply cells_of_ok, fdt_bytes, Hv|rewrite cells_of_length; pose proof (Nat.Div0.div_le_upper_bound (length v) 4 (length v) ltac:(lia)); lia]. fold regs.
  assert (Forall (fun x => 0 <= x.1 /\ 0 <= x.2) regs) as Hpos.
  { unfold regs. generalize (S (length v)) as fuel. generalize (cells_of v) as l. intros l fuel. revert l. induction fuel as [|fuel IH]; intros l; cbn [mem_regs]; [constructor|]. destruct (_ <=? _)%nat; constructor; [cbn; split; apply num_range|apply IH]. }
  clearbody regs. clear Hv Hlen. enough (exists s', add_regions regs s = Some s' /\ regions_wf s' /\ Forall (fun r => r ∈ mem_list s \/ exists x, x ∈ regs /\ r = mk_region MEMORY_REGION_TYPE_NORMAL 0 x.1 x.2) (mem_list s')) as (s' & -> & H1 & H2) by (by exists s').
  revert s Hs Hid. induction regs as [|[b z] regs IH]; intros s Hs Hid; [exists s; split; [done|]; split; [done|]; apply list.Forall_forall; by left|].
  apply list.Forall_cons in Hr as [Hb Hr]. apply list.Forall_cons in Hpos as [[Hp1 Hp2] Hpos]. cbn in Hb, Hp1, Hp2, Hid. cbn [add_regions].
  assert (exists r s1, add_memory_region b z MEMORY_REGION_TYPE_NORMAL 0 s = Some (r, s1) /\ regions_wf s1 /\ current_region_id s1 <= current_region_id s + 1 /\ (mem_list s1 = mem_list s \/ mem_list s1 = mem_list s ++ [mk_region MEMORY_REGION_TYPE_NORMAL 0 b z])) as (r & s1 & -> & Hs1 & Hid1 & Hl1).
  { pose proof (add_memory_region_ok b z MEMORY_REGION_TYPE_NORMAL 0 s) as Hok. revert Hok. unfold add_memory_region, alloc_memory_region. destruct ((z =? 0) || _); [intros _; eexists _, s; split; [done|]; split; [done|]; split; [lia|by left]|].
    destruct (existsb _ _); [intros _; eexists _, s; split; [done|]; split; [done|]; split; [lia|by left]|]. rewrite (proj2 (Z.ltb_lt _ _)) by lia. cbn [assert_ mbind option_bind]. intros Hok. destruct (Hok _ Hs Hp1 Hp2 Hb eq_refl) as [Hw Hl]. eexists _, _. split; [done|]. split; [done|]. split; [cbn; lia|by right]. }
  cbn [mbind option_bind]. destruct (IH Hr Hpos s1 Hs1 ltac:(lia)) as (s' & -> & Hs' & Hl'). exists s'. split; [done|]. split; [done|]. eapply list.Forall_impl; [exact Hl'|]. intros x [Hx|(y & Hy & ->)]; [|right; exists y; split; [by apply list_elem_of_further|done]].
  destruct Hl1 as [E|E]; rewrite E in Hx; [by left|]. apply elem_of_app in Hx as [Hx|Hx]; [by left|]. apply list_elem_of_singleton in Hx as ->. right. exists (b, z). split; [apply list_elem_of_here|done].
Qed.

(** ** A blob *)
Record tnode := mk_tnode {
  tn_name : string;
  tn_parent : option Z;
  tn_subs : list Z;
  tn_props : list (string * list Z);
}.

Fixpoint assoc {A B} `{EqDecision A} (l : list (A * B)) (k : A) : option B :=
  match l with [] => None | (a, b) :: l => if decide (a = k) then Some b else assoc l k end.

Lemma assoc_in {A B} `{EqDecision A} (l : list (A * B)) k b : assoc l k = Some b -> (k, b) ∈ l.
Proof. induction l as [|[a c] l IH]; [done|]. cbn. case_decide as Hd; [intros [= ->]; subst; apply list_elem_of_here|]. intros E. by apply list_elem_of_further, IH. Qed.

Definition tnode_ok (x : Z * tnode) : bool :=
  match tn_parent x.2 with Some p => (0 <=? p) && (p <? x.1) | None => true end && forallb (fun y => forallb (fun b => (0 <=? b) && (b <? 256)) y.2) (tn_props x.2).

Record tblob := mk_tblob {
  tb_nodes : list (Z * tnode);
  tb_ok : Is_true (forallb tnode_ok tb_nodes);
}.

#[export] Instance tblob_fdt : Fdt tblob := {|
  fdt_getprop d o a := n ← assoc (tb_nodes d) o; assoc (tn_props n) a;
  fdt_subnodes d o := match assoc (tb_nodes d) o with Some n => tn_subs n | None => [] end;
  fdt_parent_offset d o := n ← assoc (tb_nodes d) o; tn_parent n;
  fdt_get_name d o := tn_name <$> assoc (tb_nodes d) o;
  fdt_node_offset_by_phandle d c := fst <$> List.find (fun x => bool_decide (assoc (tn_props x.2) "phandle"%string ≫= prop_cell = Some c)) (tb_nodes d);
  fdt_path_offset d p := fst <$> List.find (fun x => bool_decide (("/" ++ tn_name x.2)%string = p) && bool_decide (tn_parent x.2 = Some 0)) (tb_nodes d);
  fdt_compatible d o c := bool_decide (c_str <$> (n ← assoc (tb_nodes d) o; assoc (tn_props n) "compatible"%string) = Some (text c));
  fdt_mem_rsv d := [];
|}.

Lemma tblob_node (d : tblob) o n : assoc (tb_nodes d) o = Some n -> tnode_ok (o, n) = true.
Proof. intros E. pose proof (tb_ok d) as Hok. apply Is_true_true in Hok. apply assoc_in, list_elem_of_In in E. by eapply forallb_forall in Hok; [|exact E]. Qed.

#[export] Instance tblob_laws : FdtLaws tblob.
Proof.
  split.
  - intros d n p E. cbn in E. destruct (assoc (tb_nodes d) n) as [x|] eqn:Ex; [|done]. cbn in E. apply tblob_node in Ex. unfold tnode_ok in Ex. cbn in Ex. rewrite E in Ex. apply andb_true_iff in Ex as [Ex _]. apply andb_true_iff in Ex as [E1%Z.leb_le E2%Z.ltb_lt]. done.
  - intros d n a v E. cbn in E. destruct (assoc (tb_nodes d) n) as [x|] eqn:Ex; [|done]. cbn in E. apply tblob_node in Ex. unfold tnode_ok in Ex. apply andb_true_iff in Ex as [_ Ex]. cbn in Ex.
    apply assoc_in, list_elem_of_In in E. eapply forallb_forall in Ex; [|exact E]. cbn in Ex. apply list.Forall_forall. intros y Hy%list_elem_of_In. eapply forallb_forall in Ex; [|exact Hy]. apply andb_true_iff in Ex as [E1%Z.leb_le E2%Z.ltb_lt]. done.
Qed.

Definition c32 (x : Z) : list Z := [x / 2 ^ 24 mod 256; x / 2 ^ 16 mod 256; x / 2 ^ 8 mod 256; x mod 256].

(** A bus with a range at 0x10000000, a device on it, and memory. *)
Definition board_nodes : list (Z * tnode) := [
  (0, mk_tnode "" None [100; 300] [("#address-cells"%string, c32 2); ("#size-cells"%string, c32 2)]);
  (100, mk_tnode "soc" (Some 0) [200] [("#address-cells"%string, c32 1); ("#size-cells"%string, c32 1); ("ranges"%string, c32 0 ++ c32 0 ++ c32 0x10000000 ++ c32 0x1000000)]);
  (200, mk_tnode "uart@9000" (Some 100) [] [("reg"%string, c32 0x9000 ++ c32 0x1000)]);
  (300, mk_tnode "memory@40000000" (Some 0) [] [("device_type"%string, text "memory" ++ [0]); ("reg"%string, c32 0 ++ c32 0x40000000 ++ c32 0 ++ c32 0x20000000)])].
Definition board : tblob := mk_tblob board_nodes I.
Definition board_tree : ftree := FNode 0 [FNode 100 [FNode 200 []]; FNode 300 []].

Definition dnode (o : Z) (parent : option Z) : device_node := mk_node o None None parent None None None DT_CLASS_OTHER DEVICE_NODE_F_OF.
Definition board_heap : gmap Z device_node := {[ 1 := dnode 0 None; 2 := dnode 100 (Some 1); 3 := dnode 200 (Some 2) ]}.

Lemma of_translate_equiv_witness :
  __of_translate_address 2 board board_heap (dnode 200 (Some 2)) [0x9000; 0x1000] [0; 0; 0; 0] = Some 0x10009000
  /\ exists path, __of_translate_address 2 board board_heap (dnode 200 (Some 2)) [0x9000; 0x1000] [0; 0; 0; 0] = Some (default OF_BAD_ADDR (bus_address path 0x9000)).
Proof.
  split; [vm_compute; reflexivity|]. exists [bus_at board 100 1 1 2].
  apply (of_translate_equiv board board_heap (dnode 200 (Some 2)) [0x9000; 0x1000] [0; 0; 0; 0] 2 (dnode 100 (Some 1)) 1 1 [bus_at board 100 1 1 2] 2); [done|done|done|done| |cbn; lia|repeat constructor; unfold cell_ok; lia|cbn; lia|done|repeat constructor; unfold cell_ok; lia].
  apply (path_up board board_heap 2 (dnode 100 (Some 1)) 1 (dnode 0 None) 1 1 2 2 []); [done|done|done|cbn; lia|done|done|]. by apply (path_root board board_heap 1 (dnode 0 None)).
Defined.

Lemma device_tree_correct_witness :
  exists s', of_parse_device_tree 3 board (mk_nodes ∅ 1 4) = Some (Some 1, s') /\ of_find_node_by_name 5 "uart@9000" (nheap s') (Some 1) = Some (Some 3).
Proof.
  destruct (device_tree_correct board board_tree 3 (mk_nodes ∅ 1 4)) as (s' & E & Hf & _); [by repeat split|done|by intros x _|done|cbn; lia|].
  exists s'. split; [exact E|]. exact (Hf "uart@9000"%string).
Defined.

Lemma no_regions_wf : regions_wf (mk_regions [] 0).
Proof. split; [constructor|]. intros a. cbn. lia. Qed.

Lemma memory_info_correct_witness : exists s', __fdt_parse_memory_info board 300 "reg" (mk_regions [] 0) = Some (0, s') /\ regions_wf s'.
Proof.
  destruct (memory_info_correct board 300 "reg" (c32 0 ++ c32 0x40000000 ++ c32 0 ++ c32 0x20000000) 2 2 (mk_regions [] 0)) as (s' & E & _ & Hw & _); [done|cbn; lia|lia|lia|done|done|exact no_regions_wf|by repeat constructor|done|].
  exists s'. split; [exact E|exact Hw].
Defined.

(** ** What goes wrong *)

(** At the root the loop looks at the same node again: if no node on the way has the
    property, it does not end. *)
Lemma of_cells_loop_forever {D} `{Fdt D} (dtb : D) h attr p n : h !! p = Some n -> dn_parent n = None -> fdt_getprop dtb (dn_offset n) attr = None -> forall fuel, of_cells_loop fuel dtb h attr p = None.
Proof. intros Hp Hr Hg. induction fuel as [|fuel IH]; [done|]. cbn. rewrite Hp. cbn. rewrite Hg, Hr. exact IH. Qed.

(** A node is found by the beginning of its name: the node of another cpu can be taken. *)
Lemma node_by_prefix : exists d : tblob, of_get_node_by_name 3 d 0 "cpu@1" = Some 8 /\ fdt_get_name d 8 = Some "cpu@100"%string /\ fdt_get_name d 16 = Some "cpu@1"%string.
Proof. exists (mk_tblob [(0, mk_tnode "" None [8; 16] []); (8, mk_tnode "cpu@100" (Some 0) [] []); (16, mk_tnode "cpu@1" (Some 0) [] [])] I). done. Qed.

Definition blob_with (bus_props uart_props : list (string * list Z)) : list (Z * tnode) := [
  (0, mk_tnode "" None [100] [("#address-cells"%string, c32 1); ("#size-cells"%string, c32 1); ("interrupt-parent"%string, c32 7)]);
  (100, mk_tnode "soc" (Some 0) [200; 400] bus_props);
  (200, mk_tnode "dev" (Some 100) [] uart_props);
  (400, mk_tnode "gic" (Some 100) [] [("phandle"%string, c32 7); ("#interrupt-cells"%string, c32 3)])].

(** A [reg] that ends in the middle of an entry is read past its end. *)
Lemma short_reg_read : let d := mk_tblob (blob_with [("#address-cells"%string, c32 1); ("#size-cells"%string, c32 1)] [("reg"%string, c32 0x9000)]) I in
  of_translate_address_index 5 d board_heap (dnode 200 (Some 2)) [0; 0; 0; 0] 0 = None.
Proof. vm_compute. reflexivity. Qed.

(** The cells of an entry are counted in two ways: from the nodes above, and from the bus
    alone.  If the bus does not say, one cell is taken for the address of the device, and
    two are translated: the size becomes a part of the address. *)
Lemma cells_counted_twice : let d := mk_tblob (blob_with [] [("reg"%string, c32 0x9000 ++ c32 0x1000)]) I in
  fdt_n_addr_cells d 200 = Some 1 /\ of_translate_address_index 5 d board_heap (dnode 200 (Some 2)) [0; 0; 0; 0] 0 = Some (inr (0x1000, 0x1000)).
Proof. vm_compute. done. Qed.

(** The number of an interrupt is compared with the number of cells: with three cells each,
    a second interrupt that does not exist is read. *)
Lemma irq_index_past_end xlate : let d := mk_tblob (blob_with [] [("interrupts"%string, c32 0 ++ c32 5 ++ c32 4)]) I in
  get_device_irq_index 5 d board_heap xlate 3 1 = None.
Proof. vm_compute. reflexivity. Qed.

(** More than four cells do not fit into the array on the stack. *)
Lemma irq_cells_overflow {D} `{Fdt D} (dtb : D) h xlate p n v cells fuel index : h !! p = Some n -> __of_getprop dtb (dn_offset n) "interrupts" = Some v -> (4 <= length v)%nat -> of_n_interrupt_cells fuel dtb h (Some p) = Some cells -> 4 < cells -> (index < length v / 4)%nat ->
  get_device_irq_index fuel dtb h xlate p index = None.
Proof.
  intros Hp Hg Hv Hc H4 Hi. unfold get_device_irq_index. rewrite Hp. cbn [mbind option_bind]. rewrite Hg, (proj2 (Nat.ltb_ge _ _)) by lia. rewrite Hc. cbn [mbind option_bind]. rewrite (proj2 (Z.eqb_neq _ _)), (proj2 (Nat.leb_gt _ _)), (proj2 (Z.leb_gt _ _)) by lia. done.
Qed.

(** A release address of one cell is not taken, although there is code for it. *)
Lemma spin_table_one_cell {D} `{Fdt D} (dtb : D) fuel offset name node m v : of_get_node_by_name fuel dtb offset name = Some node -> 0 < node -> fdt_getprop dtb node "enable-method" = Some m -> take 10 m = text "spin-table" ->
  fdt_getprop dtb node "cpu-release-addr" = Some v -> length v = 4%nat -> spin_table_entry fuel dtb offset name = Some None.
Proof.
  intros Hn Hp Hm Ht Hv Hl. unfold spin_table_entry. rewrite Hn. cbn [mbind option_bind]. rewrite (proj2 (Z.leb_gt _ _)) by lia. rewrite Hm. destruct m as [|x m]; [done|]. rewrite bool_decide_eq_true_2 by done. cbn [negb]. by rewrite Hv, Hl.
Qed.
