(* ===== verification/GicChip.v ===== *)
(** * Interrupt controllers and the interrupt core (drivers/irq-chips/irqchip.c,
      arch/aarch64/core/arch.c, include/minos/irq.h)

    What a driver of an interrupt controller promises to core/irq.c: the class
    [IrqChip] has the functions of struct irq_chip that change the controller, and
    [IrqChipLaws] says what each of them does to the abstract state [gic] of the
    lines.  The drivers of the GICv2 and of the GICv3 are instances, in files of their
    own.  Against the class alone, this file runs the calls that the operations of
    [Irq] make on the controller and shows that descriptors and controller agree
    whatever the sequence of operations.  It also has the translation of interrupt
    specifiers and the numbering of the cpus by affinity, which the drivers share. *)
From stdpp Require Import relations.
From S2P Require Import Prelude Irq.

(** ** The lines of a controller

    The first 32 interrupts belong to a cpu; the others are shared, and every cpu
    sees the same state of them. *)
Inductive gic_event := ev_eoi (cpu v : Z) | ev_dir (cpu v : Z).

Record gic := mk_gic {
  g_on : bool;
  g_enable : Z -> Z -> bool;
  g_pend : Z -> Z -> bool;
  g_edge : Z -> Z -> bool;
  g_prio : Z -> Z -> Z;
  g_route : Z -> Z -> bool;
  g_group : Z -> Z -> bool;
  g_cif : Z -> Z -> Z;
  g_log : list gic_event;
}.

Definition map_enable (f : (Z -> Z -> bool) -> Z -> Z -> bool) (g : gic) : gic :=
  mk_gic (g_on g) (f (g_enable g)) (g_pend g) (g_edge g) (g_prio g) (g_route g) (g_group g) (g_cif g) (g_log g).
Definition map_pend (f : (Z -> Z -> bool) -> Z -> Z -> bool) (g : gic) : gic :=
  mk_gic (g_on g) (g_enable g) (f (g_pend g)) (g_edge g) (g_prio g) (g_route g) (g_group g) (g_cif g) (g_log g).
Definition map_edge (f : (Z -> Z -> bool) -> Z -> Z -> bool) (g : gic) : gic :=
  mk_gic (g_on g) (g_enable g) (g_pend g) (f (g_edge g)) (g_prio g) (g_route g) (g_group g) (g_cif g) (g_log g).
Definition map_prio (f : (Z -> Z -> Z) -> Z -> Z -> Z) (g : gic) : gic :=
  mk_gic (g_on g) (g_enable g) (g_pend g) (g_edge g) (f (g_prio g)) (g_route g) (g_group g) (g_cif g) (g_log g).
Definition map_route (f : (Z -> Z -> bool) -> Z -> Z -> bool) (g : gic) : gic :=
  mk_gic (g_on g) (g_enable g) (g_pend g) (g_edge g) (g_prio g) (f (g_route g)) (g_group g) (g_cif g) (g_log g).
Definition map_group (f : (Z -> Z -> bool) -> Z -> Z -> bool) (g : gic) : gic :=
  mk_gic (g_on g) (g_enable g) (g_pend g) (g_edge g) (g_prio g) (g_route g) (f (g_group g)) (g_cif g) (g_log g).
Definition map_cif (f : (Z -> Z -> Z) -> Z -> Z -> Z) (g : gic) : gic :=
  mk_gic (g_on g) (g_enable g) (g_pend g) (g_edge g) (g_prio g) (g_route g) (g_group g) (f (g_cif g)) (g_log g).
Definition set_on (b : bool) (g : gic) : gic :=
  mk_gic b (g_enable g) (g_pend g) (g_edge g) (g_prio g) (g_route g) (g_group g) (g_cif g) (g_log g).
Definition log_event (e : gic_event) (g : gic) : gic :=
  mk_gic (g_on g) (g_enable g) (g_pend g) (g_edge g) (g_prio g) (g_route g) (g_group g) (g_cif g) (g_log g ++ [e]).

(** Two states are the same when they agree on every line. *)
Definition peq {A} (f g : Z -> Z -> A) : Prop := forall x y, f x y = g x y.

#[global] Instance peq_equiv {A} : Equivalence (@peq A).
Proof.
  split; [by intros f x y|by intros f g H x y|intros f g h H1 H2 x y; by rewrite (H1 x y)].
Qed.

#[global] Instance gic_equiv : Equiv gic := fun a b =>
  g_on a = g_on b /\ peq (g_enable a) (g_enable b) /\ peq (g_pend a) (g_pend b) /\ peq (g_edge a) (g_edge b) /\
  peq (g_prio a) (g_prio b) /\ peq (g_route a) (g_route b) /\ peq (g_group a) (g_group b) /\ peq (g_cif a) (g_cif b) /\ g_log a = g_log b.

#[global] Instance gic_equivalence : Equivalence (≡@{gic}).
Proof.
  split.
  - intros a. by repeat split.
  - intros a b (H1 & H2 & H3 & H4 & H5 & H6 & H7 & H8 & H9). by repeat split.
  - intros a b c (H1 & H2 & H3 & H4 & H5 & H6 & H7 & H8 & H9) (K1 & K2 & K3 & K4 & K5 & K6 & K7 & K8 & K9).
    repeat split; try (by etransitivity).
Qed.

#[global] Instance map_enable_proper : Proper ((peq ==> peq) ==> (≡) ==> (≡)) map_enable.
Proof. intros f f' Hf a b (H1 & H2 & H3 & H4 & H5 & H6 & H7 & H8 & H9). repeat split; try done. by apply Hf. Qed.
#[global] Instance map_pend_proper : Proper ((peq ==> peq) ==> (≡) ==> (≡)) map_pend.
Proof. intros f f' Hf a b (H1 & H2 & H3 & H4 & H5 & H6 & H7 & H8 & H9). repeat split; try done. by apply Hf. Qed.
#[global] Instance map_edge_proper : Proper ((peq ==> peq) ==> (≡) ==> (≡)) map_edge.
Proof. intros f f' Hf a b (H1 & H2 & H3 & H4 & H5 & H6 & H7 & H8 & H9). repeat split; try done. by apply Hf. Qed.
#[global] Instance map_prio_proper : Proper ((peq ==> peq) ==> (≡) ==> (≡)) map_prio.
Proof. intros f f' Hf a b (H1 & H2 & H3 & H4 & H5 & H6 & H7 & H8 & H9). repeat split; try done. by apply Hf. Qed.
#[global] Instance map_route_proper : Proper ((peq ==> peq) ==> (≡) ==> (≡)) map_route.
Proof. intros f f' Hf a b (H1 & H2 & H3 & H4 & H5 & H6 & H7 & H8 & H9). repeat split; try done. by apply Hf. Qed.
#[global] Instance map_group_proper : Proper ((peq ==> peq) ==> (≡) ==> (≡)) map_group.
Proof. intros f f' Hf a b (H1 & H2 & H3 & H4 & H5 & H6 & H7 & H8 & H9). repeat split; try done. by apply Hf. Qed.
#[global] Instance map_cif_proper : Proper ((peq ==> peq) ==> (≡) ==> (≡)) map_cif.
Proof. intros f f' Hf a b (H1 & H2 & H3 & H4 & H5 & H6 & H7 & H8 & H9). repeat split; try done. by apply Hf. Qed.
#[global] Instance set_on_proper b : Proper ((≡) ==> (≡)) (set_on b).
Proof. intros x y (H1 & H2 & H3 & H4 & H5 & H6 & H7 & H8 & H9). by repeat split. Qed.
#[global] Instance log_event_proper e : Proper ((≡) ==> (≡)) (log_event e).
Proof. intros x y (H1 & H2 & H3 & H4 & H5 & H6 & H7 & H8 & H9). repeat split; try done. cbn. by rewrite H9. Qed.

(** [upd lines per c n f m]: what a write of register [n] of a family does, whose
    registers hold [per] interrupts each, by or for the cpu [c]: the interrupts of
    the register that are implemented, those of other cpus excepted. *)
Definition banked (c c' i : Z) : bool := (32 <=? i) || (c' =? c).
Definition upd {A} (lines per c n : Z) (f : Z -> Z -> A -> A) (m : Z -> Z -> A) : Z -> Z -> A :=
  fun c' i => if (i / per =? n) && (i <? lines) && banked c c' i then f c' (i mod per) (m c' i) else m c' i.

(** One line, and a range of them. *)
Definition set1 {A} (c irq : Z) (x : A) (m : Z -> Z -> A) : Z -> Z -> A :=
  fun c' i => if (i =? irq) && banked c c' i then x else m c' i.
Definition updr {A} (lines a b per c : Z) (f : Z -> Z -> A -> A) (m : Z -> Z -> A) : Z -> Z -> A :=
  fun c' i => if (a <=? i) && (i <? b) && (i <? lines) && banked c c' i then f c' (i mod per) (m c' i) else m c' i.

#[global] Instance upd_proper {A} lines per c n (f : Z -> Z -> A -> A) : Proper (peq ==> peq) (upd lines per c n f).
Proof. intros m m' H x y. unfold upd. by rewrite (H x y). Qed.
#[global] Instance updr_proper {A} lines a b per c (f : Z -> Z -> A -> A) : Proper (peq ==> peq) (updr lines a b per c f).
Proof. intros m m' H x y. unfold updr. by rewrite (H x y). Qed.
#[global] Instance set1_proper {A} c irq (x : A) : Proper (peq ==> peq) (set1 c irq x).
Proof. intros m m' H u v. unfold set1. by rewrite (H u v). Qed.

(** Writing the bit of one interrupt. *)
Lemma upd_bit (g : bool -> bool -> bool) (x : bool) lines c irq m :
  0 <= irq < lines -> (forall y, g true y = x) -> (forall y, g false y = y) ->
  peq (upd lines 32 c (irq / 32) (fun _ b y => g (Z.testbit (2 ^ (irq mod 32)) b) y) m) (set1 c irq x m).
Proof.
  intros Hi Ht Hf c' i. unfold upd, set1. pose proof (Z.mod_pos_bound irq 32 ltac:(lia)). pose proof (Z.mod_pos_bound i 32 ltac:(lia)).
  destruct (Z.eqb_spec i irq) as [->|Hne].
  - rewrite Z.eqb_refl, (proj2 (Z.ltb_lt irq lines)) by lia. cbn [andb]. rewrite Z.pow2_bits_true by lia. by rewrite Ht.
  - cbn [andb]. destruct (Z.eqb_spec (i / 32) (irq / 32)) as [E|E]; [|done]. cbn [andb]. destruct (_ && _); [|done].
    rewrite Z.pow2_bits_false by (pose proof (Z.div_mod i 32); pose proof (Z.div_mod irq 32); lia). by rewrite Hf.
Qed.

(** Writing the register of one interrupt, one interrupt wide. *)
Lemma upd_one {A} lines c irq (x : A) m : irq < lines -> peq (upd lines 1 c irq (fun _ _ _ => x) m) (set1 c irq x m).
Proof.
  intros Hi c' i. unfold upd, set1. rewrite Z.div_1_r. destruct (Z.eqb_spec i irq) as [->|]; [|done].
  by rewrite (proj2 (Z.ltb_lt irq lines)) by lia.
Qed.

(** [for (i = a; i < b; i += k)] *)
Definition steps (a b k : Z) : list Z := (fun j => a + k * j) <$> seqZ 0 ((b - a + k - 1) / k).

Definition for_steps {D} (a b k : Z) (body : Z -> D -> D) (d : D) : D := fold_left (fun d i => body i d) (steps a b k) d.

Lemma fold_upd {A} lines per c f (a : Z) l (m : Z -> Z -> A) :
  0 < per -> a mod per = 0 ->
  NoDup l ->
  peq (fold_left (fun m j => upd lines per c ((a + per * j) / per) f m) l m)
      (fun c' i => if bool_decide (i / per - a / per ∈ l) && (i <? lines) && banked c c' i then f c' (i mod per) (m c' i) else m c' i).
Proof.
  intros Hp Ha. revert m. induction l as [|j l IH]; intros m Hnd c' i; cbn [fold_left].
  { done. }
  apply list.NoDup_cons in Hnd as [Hj Hnd]. rewrite (IH _ Hnd c' i). unfold upd.
  assert ((a + per * j) / per = a / per + j) as -> by (rewrite Z.mul_comm, Z.div_add; lia).
  destruct (Z.eqb_spec (i / per) (a / per + j)) as [E|E]; cbn [andb].
  - assert (i / per - a / per = j) as -> by lia. rewrite (bool_decide_eq_false_2 _ Hj). cbn [andb].
    rewrite (bool_decide_eq_true_2 (j ∈ j :: l)) by apply list_elem_of_here. done.
  - assert (bool_decide (i / per - a / per ∈ j :: l) = bool_decide (i / per - a / per ∈ l)) as ->; [|done].
    apply bool_decide_ext. rewrite elem_of_cons. split; [intros [?|?]; [lia|done]|by right].
Qed.

(** A loop of register writes over whole registers is the update of the range. *)
Lemma for_steps_upd {A} lines per c f a b (m : Z -> Z -> A) :
  0 < per -> a mod per = 0 -> b mod per = 0 -> a <= b ->
  peq (fold_left (fun m i => upd lines per c (i / per) f m) (steps a b per) m) (updr lines a b per c f m).
Proof.
  intros Hp Ha Hb Hab c' i. unfold steps.
  assert (forall (l : list Z) m, fold_left (fun m i => upd lines per c (i / per) f m) ((fun j => a + per * j) <$> l) m
    = fold_left (fun m j => upd lines per c ((a + per * j) / per) f m) l m) as ->.
  { intros l. induction l as [|j l IH]; intros m'; cbn; [done|]. apply IH. }
  rewrite (fold_upd lines per c f a _ m Hp Ha ltac:(apply NoDup_seqZ) c' i). unfold updr.
  assert (bool_decide (i / per - a / per ∈ seqZ 0 ((b - a + per - 1) / per)) = (a <=? i) && (i <? b)) as ->; [|done].
  apply Z.mod_divide in Ha as [qa ->]; [|lia]. apply Z.mod_divide in Hb as [qb ->]; [|lia].
  rewrite Z.div_mul by lia. assert ((qb * per - qa * per + per - 1) / per = qb - qa) as ->.
  { symmetry. apply (Z.div_unique _ _ _ (per - 1)); [lia|]. lia. }
  apply Bool.eq_iff_eq_true. rewrite bool_decide_eq_true, elem_of_seqZ, andb_true_iff, Z.leb_le, Z.ltb_lt.
  pose proof (Z.div_mod i per ltac:(lia)). pose proof (Z.mod_pos_bound i per ltac:(lia)). nia.
Qed.

(** A field of the lines that can be mapped over. *)
Class LineField {A} (mapf : ((Z -> Z -> A) -> Z -> Z -> A) -> gic -> gic) := {
  lf_id : forall g, mapf (fun m => m) g ≡ g;
  lf_comp : forall f h g, mapf f (mapf h g) ≡ mapf (fun m => f (h m)) g;
  lf_ext : forall f f' g, (forall m, peq (f m) (f' m)) -> mapf f g ≡ mapf f' g;
  lf_proper : forall f, Proper (peq ==> peq) f -> Proper ((≡) ==> (≡)) (mapf f);
}.

Ltac line_field := split;
  [by repeat split|by repeat split|intros f f' g Hf; repeat split; try done; intros x y; cbn; apply Hf
  |intros f Hf a b (H1 & H2 & H3 & H4 & H5 & H6 & H7 & H8 & H9); repeat split; try done; by apply Hf].
#[global] Instance enable_field : LineField map_enable. Proof. line_field. Qed.
#[global] Instance pend_field : LineField map_pend. Proof. line_field. Qed.
#[global] Instance edge_field : LineField map_edge. Proof. line_field. Qed.
#[global] Instance prio_field : LineField map_prio. Proof. line_field. Qed.
#[global] Instance route_field : LineField map_route. Proof. line_field. Qed.
#[global] Instance group_field : LineField map_group. Proof. line_field. Qed.
#[global] Instance cif_field : LineField map_cif. Proof. line_field. Qed.

(** A loop whose rounds each write one register of a family. *)
Lemma for_steps_view {A D} mapf `{LineField A mapf} (view : D -> gic) (Q : D -> Prop) (body : Z -> D -> D) lines per c f a b d :
  0 < per -> a mod per = 0 -> b mod per = 0 -> a <= b -> Q d ->
  (forall i d, a <= i < b -> i mod per = 0 -> Q d -> Q (body i d) /\ view (body i d) ≡ mapf (upd lines per c (i / per) f) (view d)) ->
  Q (for_steps a b per body d) /\ view (for_steps a b per body d) ≡ mapf (updr lines a b per c f) (view d).
Proof.
  intros Hp Ha Hb Hab Hq Hbody.
  assert (forall l d, Q d -> Forall (fun i => a <= i < b /\ i mod per = 0) l ->
    Q (fold_left (fun d i => body i d) l d) /\
    view (fold_left (fun d i => body i d) l d) ≡ mapf (fun m => fold_left (fun m i => upd lines per c (i / per) f m) l m) (view d)) as Hl.
  { intros l. induction l as [|i l IH]; intros d0 Hq0 Hl; cbn [fold_left]; [split; [done|]; symmetry; apply lf_id|].
    apply list.Forall_cons in Hl as [[Hi Hm] Hl]. destruct (Hbody i d0 Hi Hm Hq0) as [Hq1 Hv1]. destruct (IH _ Hq1 Hl) as [Hq2 Hv2].
    split; [done|]. rewrite Hv2. transitivity (mapf (fun m => fold_left (fun m i => upd lines per c (i / per) f m) l m) (mapf (upd lines per c (i / per) f) (view d0))).
    - apply lf_proper; [|done]. clear. induction l as [|i l IH]; [by intros m m' E|]. intros m m' E. cbn. apply IH. by apply upd_proper.
    - apply lf_comp. }
  unfold for_steps. destruct (Hl (steps a b per) d Hq) as [H1 H2].
  { apply list.Forall_forall. intros i Hi. unfold steps in Hi. apply list_elem_of_fmap in Hi as (j & -> & Hj%elem_of_seqZ).
    apply Z.mod_divide in Ha as [qa ->]; [|lia]. apply Z.mod_divide in Hb as [qb ->]; [|lia].
    assert ((qb * per - qa * per + per - 1) / per = qb - qa) as E by (symmetry; apply (Z.div_unique _ _ _ (per - 1)); lia).
    rewrite E in Hj. split; [nia|]. rewrite (Z.mul_comm per), <- Z.mul_add_distr_r. apply Z.mod_mul. lia. }
  split; [done|]. rewrite H2. apply lf_ext. intros m. by apply for_steps_upd.
Qed.

(** ** What a driver promises *)
Class IrqChip (D : Type) := mk_IrqChip {
  ch_view : D -> gic;
  ch_ok : D -> Prop;
  ch_lines : Z;
  ch_percpu : bool;
  ch_funs : irq_chip;
  ch_mask : Z -> Z -> D -> option D;
  ch_unmask : Z -> Z -> D -> option D;
  ch_unmask_cpu : Z -> Z -> Z -> D -> option D;
  ch_eoi : Z -> Z -> D -> option D;
  ch_dir : Z -> Z -> D -> option D;
  ch_set_affinity : Z -> Z -> Z -> D -> option (Z * D);
  ch_set_type : Z -> Z -> Z -> D -> option (Z * D);
  ch_clear_pending : Z -> Z -> D -> option D;
  ch_send_sgi : Z -> Z -> Z -> D -> option D;
}.

(** [op] returns and its effect on the lines is [f]. *)
Definition does {D} `{IrqChip D} (op : D -> option D) (f : gic -> gic) (d : D) : Prop :=
  exists d', op d = Some d' /\ ch_ok d' /\ ch_view d' ≡ f (ch_view d).

(** The function returned 0. *)
Definition success {T} (r : option (Z * T)) : option T :=
  match r with Some (0, d) => Some d | _ => None end.

(** The sense of an interrupt: level wins, and flags of neither kind change nothing. *)
Definition sense (type : Z) (old : bool) : bool :=
  if negb (Z.land type 12 =? 0) then false else if negb (Z.land type 3 =? 0) then true else old.

Definition sense_at (c irq type : Z) (m : Z -> Z -> bool) : Z -> Z -> bool :=
  fun c' i => if (i =? irq) && banked c c' i then sense type (m c' i) else m c' i.
Definition route_to (irq cpu : Z) (m : Z -> Z -> bool) : Z -> Z -> bool := fun c i => if i =? irq then c =? cpu else m c i.

(** The functions are called on a cpu [c] below [n]; interrupt numbers are below
    the number of implemented lines.  Whether SGIs can be disabled, and whether the
    sense of local interrupts can be changed, is up to the implementation. *)
Class IrqChipLaws (D : Type) `{IrqChip D} (n : Z) := {
  law_mask : forall c irq (d : D), ch_ok d -> 0 <= c < n -> 16 <= irq < ch_lines ->
    does (ch_mask c irq) (map_enable (set1 c irq false)) d;
  law_mask_sgi : forall c irq (d : D), ch_ok d -> 0 <= c < n -> 0 <= irq < 16 ->
    exists b : bool, does (ch_mask c irq) (map_enable (fun m => if b then set1 c irq false m else m)) d;
  law_unmask : forall c irq (d : D), ch_ok d -> 0 <= c < n -> 0 <= irq < ch_lines ->
    does (ch_unmask c irq) (map_enable (set1 c irq true)) d;
  law_unmask_cpu : forall c irq cpu (d : D), ch_ok d -> 0 <= c < n -> 0 <= irq < 32 -> 0 <= cpu < n ->
    does (ch_unmask_cpu c irq cpu) (map_enable (fun m => if ch_percpu then set1 cpu irq true m else m)) d;
  law_eoi : forall c irq (d : D), ch_ok d -> 0 <= c < n -> does (ch_eoi c irq) (log_event (ev_eoi c (u32 irq))) d;
  law_dir : forall c irq (d : D), ch_ok d -> 0 <= c < n -> does (ch_dir c irq) (log_event (ev_dir c (u32 irq))) d;
  law_set_affinity : forall c irq cpu (d : D), ch_ok d -> 0 <= c < n -> 32 <= irq < ch_lines -> 0 <= cpu < n ->
    does (fun d : D => success (ch_set_affinity c irq cpu d)) (map_route (route_to irq cpu)) d;
  law_set_type : forall c irq type (d : D), ch_ok d -> 0 <= c < n -> 32 <= irq < ch_lines ->
    does (fun d : D => success (ch_set_type c irq type d)) (map_edge (sense_at c irq type)) d;
  law_set_type_local : forall c irq type (d : D), ch_ok d -> 0 <= c < n -> 0 <= irq < 32 ->
    exists f, does (fun d : D => success (ch_set_type c irq type d)) (map_edge f) d;
  law_clear_pending : forall c irq (d : D), ch_ok d -> 0 <= c < n -> 0 <= irq < ch_lines ->
    has_clear_pending ch_funs = true -> exists f, does (ch_clear_pending c irq) (map_pend f) d;
  law_send_sgi : forall c sgi cpu (d : D), ch_ok d -> 0 <= c < n -> 0 <= sgi < 16 -> 0 <= cpu < n ->
    does (ch_send_sgi c sgi cpu) (map_pend (set1 cpu sgi true)) d;
}.

(** ** The interrupt core on a controller *)
Section core.
Context {D : Type} `{IrqChip D} (NR_CPUS CONFIG_NR_SPI_IRQS : Z) `{!IrqChipLaws D NR_CPUS} (run_handler : Z -> Z -> Z -> irqs -> Z * list irq_op).

(** A call that the core made on the cpu [c]; the results are dropped. *)
Definition run_call (c : Z) (k : chip_call) (d : D) : option D :=
  match k with
  | call_handler _ _ _ => Some d
  | irq_eoi i => ch_eoi c i d
  | irq_dir i => ch_dir c i d
  | irq_mask i => ch_mask c i d
  | irq_unmask i => ch_unmask c i d
  | irq_unmask_cpu i cpu => ch_unmask_cpu c i cpu d
  | chip_set_affinity i cpu => snd <$> ch_set_affinity c i cpu d
  | chip_set_type i t => snd <$> ch_set_type c i t d
  | chip_clear_pending i => ch_clear_pending c i d
  | chip_send_sgi sgi cpu => ch_send_sgi c sgi cpu d
  end.

Fixpoint run_calls (c : Z) (l : list chip_call) (d : D) : option D :=
  match l with
  | [] => Some d
  | k :: l => d ← run_call c k d; run_calls c l d
  end.

(** What runs on a cpu: an operation of the core, the dispatch loop; and interrupts
    that arrive. *)
Inductive sys_op :=
| op_core (o : irq_op)
| op_raise (irq : Z)
| op_handle.

Definition machine_op (c : Z) (o : sys_op) (s : irqs) : option irqs :=
  match o with
  | op_core o => core_op NR_CPUS CONFIG_NR_SPI_IRQS ch_funs c o s
  | op_raise irq => Some (take_pending s (pending s ++ [irq]))
  | op_handle => do_irq_handler NR_CPUS CONFIG_NR_SPI_IRQS ch_funs run_handler (S (length (pending s))) c s
  end.

(** An operation, and the calls it makes run on the controller in their order. *)
Definition run_op (co : Z * sys_op) (sd : irqs * D) : option (irqs * D) :=
  let '(s, d) := sd in
  s' ← machine_op (co.1) (co.2) s;
  d' ← run_calls (co.1) (drop (length (calls s)) (calls s')) d;
  Some (s', d').

Fixpoint run_ops (l : list (Z * sys_op)) (sd : irqs * D) : option (irqs * D) :=
  match l with
  | [] => Some sd
  | co :: l => sd ← run_op co sd; run_ops l sd
  end.

(** What callers pass: affinities of shared interrupts only, the sense bits as a
    type, the numbers of implemented lines. *)
Definition irq_op_valid (o : irq_op) : Prop :=
  match o with
  | op_request irq _ _ _ | op_request_percpu irq _ _ _ | op_enable irq _ => 0 <= irq
  | op_affinity irq cpu => 32 <= irq /\ 0 <= cpu
  | op_type irq t => 0 <= irq /\ 0 <= t <= 255
  | op_clear irq => 0 <= irq < ch_lines
  | op_sgi sgi _ => 0 <= sgi
  | op_dir _ => True
  end.

Definition op_valid (co : Z * sys_op) : Prop :=
  0 <= co.1 < NR_CPUS /\
  match co.2 with
  | op_core o => irq_op_valid o
  | op_raise irq => 0 <= irq
  | op_handle => True
  end.

Lemma valid_ok o : irq_op_valid o -> op_ok o.
Proof. destruct o; cbn; try done; lia. Qed.

(** ** Descriptors and lines agree *)
Definition masked (x : irq_desc) : bool := Z.testbit (i_flags x) 8.

Record line_ok (d : D) (cpu irq : Z) (x : irq_desc) : Prop := mk_line_ok {
  lo_masked : 16 <= irq -> masked x = true -> g_enable (ch_view d) cpu irq = false;
  lo_live : 32 <= irq \/ ch_percpu = true -> i_handler x <> DEFAULT_IRQ_HANDLER -> masked x = false -> g_enable (ch_view d) cpu irq = true;
  lo_route : 32 <= irq -> forall c, 0 <= c -> g_route (ch_view d) c irq = (c =? i_affinity x);
}.

Record coupled (s : irqs) (d : D) : Prop := mk_coupled {
  cp_chip : ch_ok d;
  cp_irqs : irqs_ok NR_CPUS CONFIG_NR_SPI_IRQS s;
  cp_pending : Forall (fun i => 0 <= i) (pending s);
  cp_line : forall cpu irq x, 0 <= cpu < NR_CPUS -> 0 <= irq -> get_irq_desc_cpu CONFIG_NR_SPI_IRQS cpu irq s = Some (Some x) -> line_ok d cpu irq x;
}.

Hypothesis Hcpus : 0 < NR_CPUS <= 256.
Hypothesis Hlines : MAX_IRQ_COUNT CONFIG_NR_SPI_IRQS <= ch_lines.

Lemma same_desc_banked c irq c' i : same_desc c irq c' i = (i =? irq) && banked c c' i.
Proof.
  unfold same_desc, banked, SPI_IRQ_BASE, NR_PERCPU_IRQS. rewrite (Z.eqb_sym irq i), (Z.eqb_sym c c').
  destruct (Z.eqb_spec i irq) as [->|]; done.
Qed.

(** A descriptor and its line change together. *)
Lemma coupled_put s d d' cpu irq x y :
  coupled s d -> ch_ok d' -> 0 <= cpu < NR_CPUS -> 0 <= irq ->
  get_irq_desc_cpu CONFIG_NR_SPI_IRQS cpu irq s = Some (Some x) ->
  (forall cpu', 0 <= cpu' < NR_CPUS -> banked cpu cpu' irq = true -> line_ok d cpu' irq x -> line_ok d' cpu' irq y) ->
  (forall cpu' irq', (irq' =? irq) && banked cpu cpu' irq' = false ->
     g_enable (ch_view d') cpu' irq' = g_enable (ch_view d) cpu' irq') ->
  (forall irq' c, irq' <> irq -> g_route (ch_view d') c irq' = g_route (ch_view d) c irq') ->
  coupled (put_irq_desc_cpu cpu irq y s) d'.
Proof.
  intros [Hk Ho Hp Hl] Hk' Hc Hi Hx Hy He Hr. pose proof (get_desc_max _ _ _ _ _ Hx) as Hm.
  split; [done|by apply put_desc_ok|unfold put_irq_desc_cpu; by destruct (_ <? _)|].
  intros cpu' irq' z Hc' Hi' Hz. rewrite (get_put_desc _ _ s cpu irq cpu' irq' y Ho Hc Hc' ltac:(lia) Hi') in Hz.
  rewrite same_desc_banked in Hz. destruct ((irq' =? irq) && banked cpu cpu' irq') eqn:E.
  - injection Hz as <-. apply andb_true_iff in E as [->%Z.eqb_eq Hb]. apply Hy; [done|done|].
    apply Hl; [done|done|]. rewrite <- Hx. unfold get_irq_desc_cpu. destruct (_ <=? _); [done|].
    unfold banked in Hb. destruct (Z.ltb_spec irq SPI_IRQ_BASE) as [Hs|Hs]; [|done]. unfold SPI_IRQ_BASE, NR_PERCPU_IRQS in Hs.
    rewrite (proj2 (Z.leb_gt 32 irq)) in Hb by lia. cbn in Hb. by apply Z.eqb_eq in Hb as ->.
  - destruct (Hl cpu' irq' z Hc' Hi' Hz) as [L1 L2 L3]. split.
    + rewrite He by done. exact L1.
    + rewrite He by done. exact L2.
    + intros H32 c Hc0. rewrite Hr; [by apply L3|]. intros ->. rewrite Z.eqb_refl in E. unfold banked in E.
      rewrite (proj2 (Z.leb_le 32 irq)) in E by lia. done.
Qed.

(** Descriptors that stay as they are, over a change of the controller that does not
    touch enables and routes. *)
Lemma coupled_frame s d d' l cs :
  coupled s d -> ch_ok d' -> Forall (fun i => 0 <= i) l -> peq (g_enable (ch_view d')) (g_enable (ch_view d)) ->
  peq (g_route (ch_view d')) (g_route (ch_view d)) -> coupled (with_calls s l cs) d'.
Proof.
  intros [Hk Ho Hp Hl] Hk' Hl' He Hr. split; [done|by apply with_calls_ok|done|].
  intros cpu irq x Hc Hi Hx. destruct (Hl cpu irq x Hc Hi Hx) as [L1 L2 L3].
  split; rewrite ?(He cpu irq); [done|done|]. intros H32 c Hc0. rewrite (Hr c irq). by apply L3.
Qed.

Lemma coupled_call s d k : coupled s d -> coupled (call k s) d.
Proof. intros Hc. by apply (coupled_frame s d d (pending s) [k]); try apply Hc. Qed.

(** [runs c s d s' d']: the calls made between the two states of the core take the
    controller from [d] to [d']. *)
Definition runs (c : Z) (s : irqs) (d : D) (s' : irqs) (d' : D) : Prop :=
  exists cs, calls s' = calls s ++ cs /\ run_calls c cs d = Some d'.

Lemma run_calls_app c l1 l2 d : run_calls c (l1 ++ l2) d = run_calls c l1 d ≫= run_calls c l2.
Proof. revert d. induction l1 as [|k l IH]; intros d; cbn; [done|]. destruct (run_call c k d); cbn; [apply IH|done]. Qed.

Lemma runs_refl c s d : runs c s d s d.
Proof. exists []. by rewrite app_nil_r. Qed.

Lemma runs_trans c s d s1 d1 s2 d2 : runs c s d s1 d1 -> runs c s1 d1 s2 d2 -> runs c s d s2 d2.
Proof.
  intros (l1 & E1 & H1) (l2 & E2 & H2). exists (l1 ++ l2). rewrite E2, E1, app_assoc. split; [done|].
  rewrite run_calls_app, H1. done.
Qed.

Lemma runs_one c s d s' d' k : calls s' = calls s ++ [k] -> run_call c k d = Some d' -> runs c s d s' d'.
Proof. intros E Hk. exists [k]. split; [done|]. cbn. by rewrite Hk. Qed.

Lemma calls_put cpu irq x s : calls (put_irq_desc_cpu cpu irq x s) = calls s.
Proof. unfold put_irq_desc_cpu. by destruct (_ <? _). Qed.

Lemma success_snd (r : option (Z * D)) d : success r = Some d -> snd <$> r = Some d.
Proof. destruct r as [[[|p|p] d']|]; cbn; congruence. Qed.

(** Lines of the controller after a write for one interrupt. *)
Lemma enable_set1 (d d' : D) c irq b :
  ch_view d' ≡ map_enable (set1 c irq b) (ch_view d) ->
  (forall c' i, g_enable (ch_view d') c' i = if (i =? irq) && banked c c' i then b else g_enable (ch_view d) c' i) /\
  peq (g_route (ch_view d')) (g_route (ch_view d)).
Proof. intros (_ & He & _ & _ & _ & Hr & _). split; [intros c' i; apply (He c' i)|intros x y; apply (Hr x y)]. Qed.

(** The core changes the mask of a descriptor and calls the controller for it. *)
Lemma couple_line s d d' c cpu irq x y k :
  coupled s d -> 0 <= cpu < NR_CPUS -> 0 <= irq -> get_irq_desc_cpu CONFIG_NR_SPI_IRQS cpu irq s = Some (Some x) ->
  run_call c k d = Some d' -> ch_ok d' ->
  (forall c' i, (i =? irq) && banked cpu c' i = false -> g_enable (ch_view d') c' i = g_enable (ch_view d) c' i) ->
  peq (g_route (ch_view d')) (g_route (ch_view d)) ->
  (forall c', banked cpu c' irq = true ->
    (16 <= irq -> masked y = true -> g_enable (ch_view d') c' irq = false) /\
    (32 <= irq \/ ch_percpu = true -> masked y = false -> g_enable (ch_view d') c' irq = true)) ->
  (32 <= irq -> i_affinity y = i_affinity x) ->
  runs c s d (put_irq_desc_cpu cpu irq y (call k s)) d' /\ coupled (put_irq_desc_cpu cpu irq y (call k s)) d'.
Proof.
  intros Hcp Hc Hi Hx Hk Hok He Hr Hl Ha. split.
  - by apply (runs_one _ _ _ _ _ k); [rewrite calls_put|].
  - apply (coupled_put (call k s) d d' cpu irq x y); [by apply coupled_call|done|done|done|done| |done|by intros irq' c' _; apply (Hr c' irq')].
    intros c' Hc' Hb [L1 L2 L3]. destruct (Hl c' Hb) as [M1 M2]. split; [done|by intros ? _; apply M2|].
    intros H32 c0 H0. rewrite (Hr c0 irq), L3, Ha; done.
Qed.

(** For the two masks, and for the mask of a cpu. *)
Lemma couple_set1 s d c cpu irq x y k b (op : D -> option D) :
  coupled s d -> 0 <= cpu < NR_CPUS -> 0 <= irq -> get_irq_desc_cpu CONFIG_NR_SPI_IRQS cpu irq s = Some (Some x) ->
  run_call c k d = op d -> does op (map_enable (set1 cpu irq b)) d -> masked y = negb b ->
  (32 <= irq -> i_affinity y = i_affinity x) ->
  exists d', runs c s d (put_irq_desc_cpu cpu irq y (call k s)) d' /\ coupled (put_irq_desc_cpu cpu irq y (call k s)) d'.
Proof.
  intros Hcp Hc Hi Hx Hk (d' & Hd & Hok & Hv) Hm Ha. exists d'. destruct (enable_set1 d d' cpu irq b Hv) as [He Hr].
  apply (couple_line s d d' c cpu irq x y k); try done; [by rewrite Hk|intros c' i E; by rewrite He, E|].
  intros c' Hb. rewrite He, Z.eqb_refl, Hb. cbn [andb]. rewrite Hm. by destruct b.
Qed.

Lemma masked_clear f h n a p : masked (mk_desc h n a (Z.ldiff f IRQ_FLAGS_MASKED) p) = false.
Proof. unfold masked; cbn [i_flags]. rewrite Z.ldiff_spec. by rewrite andb_false_r. Qed.

Lemma masked_set f h n a p : masked (mk_desc h n a (Z.lor f IRQ_FLAGS_MASKED) p) = true.
Proof. unfold masked; cbn [i_flags]. rewrite Z.lor_spec. by rewrite orb_true_r. Qed.

Lemma desc_range s d cpu irq x :
  coupled s d -> 0 <= irq -> get_irq_desc_cpu CONFIG_NR_SPI_IRQS cpu irq s = Some (Some x) -> 0 <= irq < ch_lines.
Proof. intros _ Hi Hx. pose proof (get_desc_max _ _ _ _ _ Hx). lia. Qed.

Lemma enable_couples s d c irq e :
  coupled s d -> 0 <= c < NR_CPUS -> 0 <= irq ->
  exists s' d', __irq_enable CONFIG_NR_SPI_IRQS c irq e s = Some s' /\ runs c s d s' d' /\ coupled s' d'.
Proof.
  intros Hcp Hc Hi. unfold __irq_enable.
  destruct (decide (irq < MAX_IRQ_COUNT CONFIG_NR_SPI_IRQS)) as [Hm|Hm].
  - destruct (get_desc_some _ _ s c irq (cp_irqs _ _ Hcp) Hc (conj Hi Hm)) as [x Hx]. rewrite Hx. cbn [mbind option_bind].
    pose proof (cp_chip _ _ Hcp) as Hok. pose proof (desc_range _ _ _ _ _ Hcp Hi Hx) as Hrg.
    destruct e.
    + destruct (couple_set1 s d c c irq x (set_flags (Z.ldiff (i_flags x) IRQ_FLAGS_MASKED) x) (irq_unmask irq) true (ch_unmask c irq))
        as (d' & H1 & H2); try done; [by apply law_unmask|apply masked_clear|by eauto].
    + destruct (decide (16 <= irq)) as [Hg|Hg].
      * destruct (couple_set1 s d c c irq x (set_flags (Z.lor (i_flags x) IRQ_FLAGS_MASKED) x) (irq_mask irq) false (ch_mask c irq))
          as (d' & H1 & H2); try done; [by apply law_mask; try lia|apply masked_set|by eauto].
      * destruct (law_mask_sgi c irq d Hok Hc ltac:(lia)) as (b & d' & Hd & Hok' & _ & He & _ & _ & _ & Hr & _).
        destruct (couple_line s d d' c c irq x (set_flags (Z.lor (i_flags x) IRQ_FLAGS_MASKED) x) (irq_mask irq))
          as [H1 H2]; try done; [|intros c' Hb; split; [lia|]|by eauto].
        -- intros c' i E. rewrite (He c' i). cbn. destruct b; [|done]. unfold set1. by rewrite E.
        -- intros _. pose proof (masked_set (i_flags x) (i_handler x) (i_hno x) (i_affinity x) (i_pdata x)). unfold set_flags. congruence.
  - exists s, d. unfold get_irq_desc_cpu. rewrite (proj2 (Z.leb_le _ _)) by lia. cbn. split; [done|]. split; [apply runs_refl|done].
Qed.

(** A change of the other fields of a descriptor. *)
Lemma couple_same s d d' cpu irq x y :
  coupled s d -> ch_ok d' -> 0 <= cpu < NR_CPUS -> 0 <= irq -> get_irq_desc_cpu CONFIG_NR_SPI_IRQS cpu irq s = Some (Some x) ->
  peq (g_enable (ch_view d')) (g_enable (ch_view d)) -> peq (g_route (ch_view d')) (g_route (ch_view d)) ->
  masked y = masked x -> i_handler y = i_handler x -> i_affinity y = i_affinity x ->
  coupled (put_irq_desc_cpu cpu irq y s) d'.
Proof.
  intros Hcp Hok Hc Hi Hx He Hr Hm Hh Ha.
  apply (coupled_put s d d' cpu irq x y); try done.
  intros c' _ _ [L1 L2 L3]. split; rewrite ?Hm, ?Hh, ?Ha, ?(He c' irq); [done|done|]. intros H32 c0 H0. rewrite (Hr c0 irq). by apply L3.
Qed.

Lemma masked_type f t : 0 <= t <= 255 -> Z.testbit (Z.lor (Z.ldiff f IRQ_FLAGS_TYPE_MASK) t) 8 = Z.testbit f 8.
Proof.
  intros Ht. rewrite Z.lor_spec, Z.ldiff_spec. change (Z.testbit IRQ_FLAGS_TYPE_MASK 8) with false. cbn [negb]. rewrite andb_true_r.
  assert (Z.testbit t 8 = false) as ->; [|by rewrite orb_false_r].
  destruct (decide (t = 0)) as [->|]; [by rewrite Z.bits_0|]. apply Z.bits_above_log2; [lia|]. apply Z.log2_lt_pow2; lia.
Qed.

Lemma type_couples s d c irq t :
  coupled s d -> 0 <= c < NR_CPUS -> 0 <= irq -> 0 <= t <= 255 ->
  exists s' d', irq_set_type CONFIG_NR_SPI_IRQS ch_funs c irq t s = Some s' /\ runs c s d s' d' /\ coupled s' d'.
Proof.
  intros Hcp Hc Hi Ht. unfold irq_set_type.
  destruct (decide (irq < MAX_IRQ_COUNT CONFIG_NR_SPI_IRQS)) as [Hm|Hm].
  2:{ exists s, d. unfold get_irq_desc_cpu. rewrite (proj2 (Z.leb_le _ _)) by lia. cbn. split; [done|]. split; [apply runs_refl|done]. }
  destruct (get_desc_some _ _ s c irq (cp_irqs _ _ Hcp) Hc (conj Hi Hm)) as [x Hx]. rewrite Hx. cbn [mbind option_bind].
  pose proof (cp_chip _ _ Hcp) as Hok. pose proof (desc_range _ _ _ _ _ Hcp Hi Hx) as Hrg.
  destruct (t =? _); [exists s, d; split; [done|]; split; [apply runs_refl|done]|].
  destruct (has_set_type ch_funs).
  - assert (exists f, does (fun d : D => success (ch_set_type c irq t d)) (map_edge f) d) as (f & d' & Hd & Hok' & _ & He & _ & _ & _ & Hr & _).
    { destruct (decide (32 <= irq)); [eexists; by apply law_set_type; try lia|by apply law_set_type_local; try lia]. }
    eexists _, d'. split; [done|]. split.
    + apply (runs_one _ _ _ _ _ (chip_set_type irq t)); [by rewrite calls_put|]. by apply success_snd.
    + apply (couple_same _ d d' c irq x); try done; [by apply coupled_call|]. unfold masked. by apply masked_type.
  - eexists _, d. split; [done|]. split; [exists []; by rewrite calls_put, app_nil_r|].
    apply (couple_same _ d d c irq x); try done. unfold masked. by apply masked_type.
Qed.

Lemma affinity_couples s d c irq cpu :
  has_set_affinity ch_funs = true ->
  coupled s d -> 0 <= c < NR_CPUS -> 32 <= irq -> 0 <= cpu ->
  exists s' d', irq_set_affinity NR_CPUS CONFIG_NR_SPI_IRQS ch_funs c irq cpu s = Some s' /\ runs c s d s' d' /\ coupled s' d'.
Proof.
  intros Hf Hcp Hc Hi Hcpu. unfold irq_set_affinity. rewrite Hf.
  destruct (Z.leb_spec NR_CPUS cpu) as [Hn|Hn]; [exists s, d; split; [done|]; split; [apply runs_refl|done]|].
  destruct (decide (irq < MAX_IRQ_COUNT CONFIG_NR_SPI_IRQS)) as [Hm|Hm].
  2:{ exists s, d. unfold get_irq_desc_cpu. rewrite (proj2 (Z.leb_le _ _)) by lia. cbn. split; [done|]. split; [apply runs_refl|done]. }
  destruct (get_desc_some NR_CPUS CONFIG_NR_SPI_IRQS s c irq (cp_irqs _ _ Hcp) Hc ltac:(lia)) as [x Hx]. rewrite Hx. cbn [mbind option_bind].
  pose proof (desc_range s d c irq x Hcp ltac:(lia) Hx) as Hrg.
  destruct (law_set_affinity c irq cpu d (cp_chip _ _ Hcp) Hc ltac:(lia) ltac:(lia)) as (d' & Hd & Hok' & _ & He & _ & _ & _ & Hr & _).
  eexists _, d'. split; [done|]. split.
  - apply (runs_one _ _ _ _ _ (chip_set_affinity irq cpu)); [cbn; by rewrite calls_put|]. by apply success_snd.
  - apply coupled_call. apply (coupled_put s d d' c irq x); try done; [lia| |].
    + intros c' _ _ [L1 L2 L3]. split; cbn [i_handler i_affinity set_affinity]; rewrite ?(He c' irq); [done|done|].
      intros _ c0 H0. rewrite (Hr c0 irq). cbn. unfold route_to. rewrite Z.eqb_refl. unfold u16. by rewrite Z.mod_small by lia.
    + intros i c' Hne. rewrite (Hr c' i). cbn. unfold route_to. by rewrite (proj2 (Z.eqb_neq _ _) Hne).
Qed.

Lemma request_couples s d c irq h flags data :
  coupled s d -> 0 <= c < NR_CPUS -> 0 <= irq ->
  exists r s' d', request_irq CONFIG_NR_SPI_IRQS ch_funs c irq h flags data s = Some (r, s') /\ runs c s d s' d' /\ coupled s' d'.
Proof.
  intros Hcp Hc Hi. unfold request_irq. destruct h as [h|]; [|exists (- EINVAL), s, d; split; [done|]; split; [apply runs_refl|done]].
  destruct (decide (irq < MAX_IRQ_COUNT CONFIG_NR_SPI_IRQS)) as [Hm|Hm].
  2:{ exists (- ENOENT), s, d. unfold get_irq_desc_cpu. rewrite (proj2 (Z.leb_le _ _)) by lia. cbn. split; [done|]. split; [apply runs_refl|done]. }
  destruct (get_desc_some _ _ s c irq (cp_irqs _ _ Hcp) Hc (conj Hi Hm)) as [x Hx]. rewrite Hx. cbn [mbind option_bind].
  pose proof (desc_range _ _ _ _ _ Hcp Hi Hx) as Hrg.
  set (y := mk_desc h _ _ _ data).
  destruct (couple_set1 s d c c irq x y (irq_unmask irq) true (ch_unmask c irq)) as (d1 & H1 & H2);
    try done; [by apply law_unmask; [apply Hcp|..]|apply masked_clear| |].
  { intros H32. unfold y; cbn. unfold SPI_IRQ_BASE, NR_PERCPU_IRQS. by rewrite (proj2 (Z.ltb_ge irq 32)). }
  destruct (negb _).
  - destruct (type_couples _ d1 c irq (Z.land flags IRQ_FLAGS_TYPE_MASK) H2 Hc Hi) as (s' & d' & E & H3 & H4).
    { change IRQ_FLAGS_TYPE_MASK with (Z.ones 8). rewrite Z.land_ones by lia. pose proof (Z.mod_pos_bound flags (2 ^ 8) ltac:(lia)). lia. }
    exists 0, s', d'. rewrite E. split; [done|]. split; [by eapply runs_trans|done].
  - exists 0, (put_irq_desc_cpu c irq y (call (irq_unmask irq) s)), d1. done.
Qed.

Lemma percpu_couples n i c irq h flags data s d :
  coupled s d -> 0 <= c < NR_CPUS -> 0 <= irq < 32 -> 0 <= i -> i + Z.of_nat n <= NR_CPUS ->
  exists s' d', request_percpu_loop CONFIG_NR_SPI_IRQS n i irq h flags data s = Some s' /\ runs c s d s' d' /\ coupled s' d'.
Proof.
  revert i s d. induction n as [|n IH]; intros i s d Hcp Hc Hi H0 Hn; cbn [request_percpu_loop].
  { exists s, d. split; [done|]. split; [apply runs_refl|done]. }
  pose proof (io_spi _ _ _ (cp_irqs _ _ Hcp)) as [Hs _].
  destruct (get_desc_some NR_CPUS CONFIG_NR_SPI_IRQS s i irq (cp_irqs _ _ Hcp) ltac:(lia)) as [x Hx].
  { unfold MAX_IRQ_COUNT, NR_PERCPU_IRQS. lia. }
  rewrite Hx. cbn [mbind option_bind].
  destruct (law_unmask_cpu c irq i d (cp_chip _ _ Hcp) Hc Hi ltac:(lia)) as (d1 & Hd & Hok & _ & He & _ & _ & _ & Hr & _).
  set (y := mk_desc h irq i _ data).
  destruct (couple_line s d d1 c i irq x y (irq_unmask_cpu irq i)) as [H1 H2]; try done; [lia|lia| | |lia|].
  - intros c' j E. rewrite (He c' j). cbn. destruct ch_percpu; [|done]. unfold set1. by rewrite E.
  - intros c' Hb. split; [intros _ Hm; unfold y in Hm; rewrite masked_clear in Hm; done|].
    intros [Hc32|Hpc] _; [lia|]. rewrite (He c' irq). cbn. rewrite Hpc. unfold set1. by rewrite Z.eqb_refl, Hb.
  - destruct (IH (i + 1) _ d1 H2 Hc Hi ltac:(lia) ltac:(lia)) as (s' & d' & E & H3 & H4).
    exists s', d'. split; [done|]. split; [by eapply runs_trans|done].
Qed.

(** The calls of the dispatch loop end and deactivate interrupts. *)
Definition ack_call (k : chip_call) : Prop :=
  match k with call_handler _ _ _ | irq_eoi _ | irq_dir _ => True | _ => False end.

Lemma run_acks c l d :
  ch_ok d -> 0 <= c < NR_CPUS -> Forall ack_call l ->
  exists d', run_calls c l d = Some d' /\ ch_ok d' /\
    peq (g_enable (ch_view d')) (g_enable (ch_view d)) /\ peq (g_route (ch_view d')) (g_route (ch_view d)).
Proof.
  intros Hok Hc Hl. revert d Hok. induction Hl as [|k l Hk Hl IH]; intros d Hok; cbn [run_calls].
  { by exists d. }
  assert (exists d1, run_call c k d = Some d1 /\ ch_ok d1 /\
    peq (g_enable (ch_view d1)) (g_enable (ch_view d)) /\ peq (g_route (ch_view d1)) (g_route (ch_view d))) as (d1 & -> & Hok1 & He & Hr).
  { destruct k; try done; cbn [run_call]; [by exists d| |].
    - by destruct (law_eoi c irq d Hok Hc) as (d1 & Hd & Hok1 & _ & He & _ & _ & _ & Hr & _); exists d1.
    - by destruct (law_dir c irq d Hok Hc) as (d1 & Hd & Hok1 & _ & He & _ & _ & _ & Hr & _); exists d1. }
  cbn [mbind option_bind]. destruct (IH d1 Hok1) as (d' & E & Hok' & He' & Hr'). exists d'.
  split; [done|]. split; [done|]. split; by etransitivity.
Qed.

(** Every operation returns and keeps descriptors and lines in agreement. *)
Lemma core_op_couples c o s d :
  has_set_affinity ch_funs = true -> coupled s d -> 0 <= c < NR_CPUS -> irq_op_valid o ->
  exists s' d', core_op NR_CPUS CONFIG_NR_SPI_IRQS ch_funs c o s = Some s' /\ runs c s d s' d' /\ coupled s' d'.
Proof.
  intros Hf Hcp Hc Hv.
  destruct o as [irq h flags data|irq h flags data|irq e|irq cpu|irq t|irq|irq|sgi cpu]; cbn [core_op irq_op_valid] in *.
  - destruct (request_couples s d c irq h flags data Hcp Hc Hv) as (r & s' & d' & -> & H1 & H2). by exists s', d'.
  - unfold request_irq_percpu. destruct h as [h|]; [|exists s, d; split; [done|]; split; [apply runs_refl|done]].
    destruct (Z.leb_spec NR_PERCPU_IRQS irq) as [Hp|Hp]; [exists s, d; split; [done|]; split; [apply runs_refl|done]|].
    unfold NR_PERCPU_IRQS in Hp.
    destruct (percpu_couples (Z.to_nat NR_CPUS) 0 c irq h flags data s d Hcp Hc ltac:(lia) ltac:(lia) ltac:(lia)) as (s' & d' & -> & H1 & H2).
    by exists s', d'.
  - by apply enable_couples.
  - destruct Hv as [Hv1 Hv2]. by apply affinity_couples.
  - destruct Hv as [Hv1 Hv2]. by apply type_couples.
  - unfold irq_clear_pending. destruct (has_clear_pending ch_funs) eqn:Eh.
    + destruct (law_clear_pending c irq d (cp_chip _ _ Hcp) Hc Hv Eh) as (f & d' & Hd & Hok & _ & He & _ & _ & _ & Hr & _).
      eexists _, d'. split; [done|]. split; [by apply (runs_one _ _ _ _ _ (chip_clear_pending irq))|].
      apply (coupled_frame s d d' (pending s) [chip_clear_pending irq]); try done. apply Hcp.
    + exists s, d. split; [done|]. split; [apply runs_refl|done].
  - destruct (law_dir c irq d (cp_chip _ _ Hcp) Hc) as (d' & Hd & Hok & _ & He & _ & _ & _ & Hr & _).
    eexists _, d'. split; [done|]. split; [by apply (runs_one _ _ _ _ _ (irq_dir irq))|].
    apply (coupled_frame s d d' (pending s) [irq_dir irq]); try done. apply Hcp.
  - unfold send_sgi. destruct ((cpu <? 0) || (NR_CPUS <=? cpu)) eqn:E1; [exists s, d; split; [done|]; split; [apply runs_refl|done]|].
    destruct (Z.leb_spec 16 sgi) as [E2|E2]; [exists s, d; split; [done|]; split; [apply runs_refl|done]|].
    apply orb_false_iff in E1 as [E1%Z.ltb_ge E3%Z.leb_gt].
    destruct (law_send_sgi c sgi cpu d (cp_chip _ _ Hcp) Hc ltac:(lia) ltac:(lia)) as (d' & Hd & Hok & _ & He & _ & _ & _ & Hr & _).
    eexists _, d'. split; [done|]. split; [by apply (runs_one _ _ _ _ _ (chip_send_sgi sgi cpu))|].
    apply (coupled_frame s d d' (pending s) [chip_send_sgi sgi cpu]); try done. apply Hcp.
Qed.

Lemma core_ops_couple c l s d :
  has_set_affinity ch_funs = true -> coupled s d -> 0 <= c < NR_CPUS -> Forall irq_op_valid l ->
  exists s' d', core_ops NR_CPUS CONFIG_NR_SPI_IRQS ch_funs c l s = Some s' /\ runs c s d s' d' /\ coupled s' d'.
Proof.
  intros Hf Hcp Hc Hl. revert s d Hcp. induction Hl as [|o l Hv Hl IH]; intros s d Hcp; cbn [core_ops].
  { exists s, d. split; [done|]. split; [apply runs_refl|done]. }
  destruct (core_op_couples c o s d Hf Hcp Hc Hv) as (s1 & d1 & -> & R1 & C1). cbn [mbind option_bind].
  destruct (IH s1 d1 C1) as (s' & d' & -> & R2 & C2). exists s', d'. split; [done|]. split; [by eapply runs_trans|done].
Qed.

Lemma acks_couple c s d cs : coupled s d -> 0 <= c < NR_CPUS -> Forall ack_call cs ->
  exists d', runs c s d (with_calls s (pending s) cs) d' /\ coupled (with_calls s (pending s) cs) d'.
Proof.
  intros Hcp Hc Hcs. destruct (run_acks c cs d (cp_chip _ _ Hcp) Hc Hcs) as (d' & E & Hok & He & Hr). exists d'. split; [by eexists|].
  apply (coupled_frame s d d'); try done. apply Hcp.
Qed.

(** What handlers do is valid as well. *)
Hypothesis handlers_valid : forall h hno pdata s, 0 <= hno -> Forall irq_op_valid (run_handler h hno pdata s).2.

Lemma handlers_op_ok h hno pdata s : 0 <= hno -> Forall op_ok (run_handler h hno pdata s).2.
Proof. intros Hh. eapply list.Forall_impl; [by apply handlers_valid|apply valid_ok]. Qed.

Lemma do_handle_couples c irq s d x :
  has_set_affinity ch_funs = true -> irqs_inv NR_CPUS CONFIG_NR_SPI_IRQS s -> coupled s d -> 0 <= c < NR_CPUS -> 0 <= irq ->
  get_irq_desc_cpu CONFIG_NR_SPI_IRQS c irq s = Some (Some x) ->
  exists r s' d', do_handle_host_irq NR_CPUS CONFIG_NR_SPI_IRQS ch_funs run_handler c irq s = Some (r, s') /\ runs c s d s' d' /\ coupled s' d' /\
    irqs_inv NR_CPUS CONFIG_NR_SPI_IRQS s' /\ pending s' = pending s.
Proof.
  intros Hf Hv Hcp Hc Hi Hx. destruct (do_handle_spec NR_CPUS CONFIG_NR_SPI_IRQS ch_funs run_handler handlers_op_ok c irq s x Hv Hc Hi Hx) as (r & s' & E & Hv' & Hk & Hs').
  exists r, s'. rewrite E. destruct (c =? i_affinity x).
  - destruct Hs' as (s1 & x1 & Hh & Hk1 & _ & ->). unfold handled in Hh. set (s0 := call _ s) in Hh.
    assert (0 <= i_hno x) as Hno by (destruct (ii_sane _ _ _ Hv c irq x Hc Hi Hx) as [[_ ->]| ->]; lia).
    pose proof (handlers_valid (i_handler x) (i_hno x) (i_pdata x) s0 Hno) as Hops. destruct (run_handler _ _ _ s0) as [r0 ops].
    destruct (core_ops_couple c ops s0 d Hf (coupled_call _ _ _ Hcp) Hc Hops) as (s1' & d1 & E1 & R1 & C1). rewrite E1 in Hh. cbn [mbind option_bind] in Hh. injection Hh as -> ->.
    edestruct (acks_couple c s1 d1) as (d' & R2 & C2); [done|done| |exists d'; split; [done|]; split; [|split; [exact C2|]; split; [done|exact (kp_pending _ _ _ _ Hk)]]].
    { constructor; [done|]. destruct (_ || _); by repeat constructor. }
    eapply runs_trans; [|eapply runs_trans; [exact R1|exact R2]]. exists [call_handler (i_handler x) (i_hno x) (i_pdata x)]. by split.
  - destruct Hs' as [-> ->]. destruct (acks_couple c s d [irq_dir (i_hno x)]) as (d' & R & C); [done|done|by repeat constructor|]. exists d'. split; [done|]. split; [exact R|]. by split.
Qed.

Lemma coupled_pending s d l : coupled s d -> Forall (fun i => 0 <= i) l -> coupled (take_pending s l) d.
Proof. intros [Hk Ho Hp Hl] Hl'. split; [done|by destruct Ho|done|exact Hl]. Qed.

Lemma handle_couples n c s d :
  has_set_affinity ch_funs = true -> irqs_inv NR_CPUS CONFIG_NR_SPI_IRQS s -> coupled s d -> 0 <= c < NR_CPUS -> (length (pending s) < n)%nat ->
  exists s' d', do_irq_handler NR_CPUS CONFIG_NR_SPI_IRQS ch_funs run_handler n c s = Some s' /\ runs c s d s' d' /\ coupled s' d' /\ irqs_inv NR_CPUS CONFIG_NR_SPI_IRQS s'.
Proof.
  intros Hf. revert s d. induction n as [|n IH]; intros s d Hv Hcp Hc Hn; [lia|]. cbn [do_irq_handler]. unfold get_pending_irq.
  destruct (pending s) as [|irq l] eqn:Ep; [exists s, d; split; [done|]; split; [apply runs_refl|done]|].
  pose proof (cp_pending _ _ Hcp) as Hp. rewrite Ep in Hp. apply list.Forall_cons in Hp as [Hi Hl]. fold (take_pending s l).
  assert (coupled (take_pending s l) d) as Hcp1 by by apply coupled_pending. assert (irqs_inv NR_CPUS CONFIG_NR_SPI_IRQS (take_pending s l)) as Hv1 by by apply take_pending_inv.
  assert (runs c s d (take_pending s l) d) as R0 by (exists []; by rewrite app_nil_r).
  destruct (BAD_IRQ <=? irq); [eexists _, d; done|]. cbn [length] in Hn.
  destruct (desc_cases NR_CPUS CONFIG_NR_SPI_IRQS _ c irq Hv1 Hc Hi) as [Hd|(x & Hd & _)]; rewrite Hd; cbn [mbind option_bind].
  - destruct (acks_couple c (take_pending s l) d [irq_eoi irq; irq_dir irq]) as (d1 & R1 & C1); [done|done|by repeat constructor|].
    replace (with_calls _ _ _) with (call (irq_dir irq) (call (irq_eoi irq) (take_pending s l))) in R1, C1 by (unfold call, with_calls; cbn; by rewrite <- app_assoc).
    destruct (IH _ d1 ltac:(by apply call_inv, call_inv) C1 Hc) as (s' & d' & E & R & C & V); [cbn; lia|]. exists s', d'. split; [done|].
    split; [eapply runs_trans; [exact R0|]; by eapply runs_trans|done].
  - destruct (do_handle_couples c irq _ d x Hf Hv1 Hcp1 Hc Hi Hd) as (r & s2 & d2 & -> & R2 & C2 & V2 & P2). cbn [mbind option_bind].
    destruct (IH s2 d2 V2 C2 Hc) as (s' & d' & E & R & C & V); [rewrite P2; cbn; lia|]. exists s', d'. split; [done|].
    split; [eapply runs_trans; [exact R0|]; by eapply runs_trans|done].
Qed.

Lemma run_op_couples co s d :
  has_set_affinity ch_funs = true -> irqs_inv NR_CPUS CONFIG_NR_SPI_IRQS s -> coupled s d -> op_valid co ->
  exists s' d', run_op co (s, d) = Some (s', d') /\ coupled s' d' /\ irqs_inv NR_CPUS CONFIG_NR_SPI_IRQS s'.
Proof.
  destruct co as [c o]. intros Hf Hv Hcp [Hc Hop]. cbn [fst snd] in *.
  assert (exists s' d', machine_op c o s = Some s' /\ runs c s d s' d' /\ coupled s' d' /\ irqs_inv NR_CPUS CONFIG_NR_SPI_IRQS s') as (s' & d' & E & (cs & Ecs & Hrun) & Hcp').
  { destruct o as [o|irq|]; cbn [machine_op].
    - destruct (core_op_couples c o s d Hf Hcp Hc Hop) as (s' & d' & E & R & C). destruct (core_op_spec NR_CPUS CONFIG_NR_SPI_IRQS ch_funs c o s Hv Hc (valid_ok o Hop)) as (s1 & E1 & V & _).
      rewrite E in E1. injection E1 as <-. exists s', d'. by split_and!.
    - assert (Forall (fun i => 0 <= i) (pending s ++ [irq])) as Hl by (apply list.Forall_app; split; [apply Hcp|by repeat constructor]).
      eexists _, d. split; [done|]. split; [exists []; by rewrite app_nil_r|]. split; [by apply coupled_pending|by apply take_pending_inv].
    - apply handle_couples; [done..|lia]. }
  exists s', d'. unfold run_op; cbn [fst snd]. rewrite E. cbn [mbind option_bind]. rewrite Ecs, drop_app_length, Hrun. done.
Qed.

(** The interrupt core and the controller agree whatever the core does: any
    sequence of registrations, mask, sense and affinity changes, inter-cpu interrupts
    and runs of the dispatch loop, on any cpus, returns, and after it a line whose
    descriptor says masked is disabled, a line that has a handler and is not masked is
    enabled, and every shared interrupt goes to the cpu of its descriptor and to no
    other. *)
Theorem irq_core_drives_chip l s d :
  has_set_affinity ch_funs = true -> irqs_inv NR_CPUS CONFIG_NR_SPI_IRQS s -> coupled s d -> Forall op_valid l ->
  exists s' d', run_ops l (s, d) = Some (s', d') /\ coupled s' d'.
Proof.
  intros Hf Hi Hcp Hl. revert s d Hi Hcp. induction Hl as [|co l Hv Hl IH]; intros s d Hi Hcp; cbn [run_ops].
  { by exists s, d. }
  destruct (run_op_couples co s d Hf Hi Hcp Hv) as (s1 & d1 & -> & H1 & H2). cbn [mbind option_bind]. by apply IH.
Qed.
End core.

(** ** Numbering of the cpus (arch/aarch64/core/arch.c, cpu_feature.c) *)
Definition CPU_FEATURE_BITS : Z := 128.
Definition CPU_FEATURE_VHE : Z := 0.
Definition ARM_FEATURE_MPIDR_SHIFT : Z := 0.
Definition MPIDR_EL1_MT : Z := 2 ^ 24.
Definition MPIDR_EL1_AFF0_LSB : Z := 0.
Definition MPIDR_EL1_AFF1_LSB : Z := 8.
Definition MPIDR_EL1_AFF2_LSB : Z := 16.

(** The feature words of this cpu, as one number of 128 bits. *)
Definition cpu_has_feature (cf feature : Z) : bool := if CPU_FEATURE_BITS <=? feature then false else Z.testbit cf feature.

(** [vhe_enable] is the static variable, -1 at first. *)
Definition cpu_has_vhe (cf vhe_enable : Z) : Z * Z :=
  let v := if vhe_enable =? -1 then b2z (cpu_has_feature cf CPU_FEATURE_VHE) else vhe_enable in (v, v).

(** The words after the allocation is cleared, for the MPIDR of the cpu. *)
Definition arch_cpu_feature_init (mpidr : Z) : Z :=
  if negb (Z.land mpidr MPIDR_EL1_MT =? 0) then Z.lor 0 (2 ^ ARM_FEATURE_MPIDR_SHIFT) else 0.

Section affinity.
Context (CONFIG_NR_CPUS_CLUSTER0 : Z) (cf : Z).

Definition cpuid_to_affinity (cpuid : Z) : Z :=
  if cpu_has_feature cf ARM_FEATURE_MPIDR_SHIFT then
    if cpuid <? CONFIG_NR_CPUS_CLUSTER0 then Z.shiftl cpuid MPIDR_EL1_AFF1_LSB
    else
      let aff0 := cpuid - CONFIG_NR_CPUS_CLUSTER0 in
      let aff1 := 1 in
      Z.lor (Z.shiftl aff1 MPIDR_EL1_AFF2_LSB) (Z.shiftl aff0 MPIDR_EL1_AFF1_LSB)
  else
    if cpuid <? CONFIG_NR_CPUS_CLUSTER0 then cpuid
    else
      let aff0 := cpuid - CONFIG_NR_CPUS_CLUSTER0 in
      let aff1 := 1 in
      Z.shiftl aff1 MPIDR_EL1_AFF1_LSB + aff0.

Definition affinity_to_cpuid (affinity : Z) : Z :=
  let '(aff0, aff1) :=
    if cpu_has_feature cf ARM_FEATURE_MPIDR_SHIFT
    then (Z.land (Z.shiftr affinity MPIDR_EL1_AFF1_LSB) 0xff, Z.land (Z.shiftr affinity MPIDR_EL1_AFF2_LSB) 0xff)
    else (Z.land (Z.shiftr affinity MPIDR_EL1_AFF0_LSB) 0xff, Z.land (Z.shiftr affinity MPIDR_EL1_AFF1_LSB) 0xff) in
  aff1 * CONFIG_NR_CPUS_CLUSTER0 + aff0.

Lemma low_byte x : Z.land x 0xff = x mod 256.
Proof. change 0xff with (Z.ones 8). by rewrite Z.land_ones by lia. Qed.

Lemma lor_shifted k : 0 <= k < 256 -> Z.lor (Z.shiftl 1 16) (Z.shiftl k 8) = 65536 + k * 256.
Proof.
  intros Hk. change 256 with (2 ^ 8). rewrite <- (Z.shiftl_mul_pow2 k 8) by lia. change 65536 with (Z.shiftl 1 16). symmetry. rewrite Z.add_nocarry_lxor, Z.lxor_lor; [done|..].
  all: change (Z.shiftl 1 16) with (2 ^ 16); rewrite Z.shiftl_mul_pow2 by lia; apply Z.bits_inj'; intros n Hn; rewrite Z.land_spec, Z.bits_0.
  all: destruct (decide (n = 16)) as [->|]; [|by rewrite Z.pow2_bits_false by lia].
  all: rewrite Z.mul_pow2_bits by lia; rewrite andb_comm; apply andb_false_intro1; destruct (decide (k = 0)) as [->|]; [by rewrite Z.bits_0|].
  all: apply Z.bits_above_log2; [lia|]; apply Z.log2_lt_pow2; lia.
Qed.

(** The number of a cpu survives the way to its affinity and back, for two clusters
    of at most 256 cpus each; so cpus have distinct affinities. *)
Theorem affinity_roundtrip cpuid :
  0 <= CONFIG_NR_CPUS_CLUSTER0 <= 256 -> 0 <= cpuid < CONFIG_NR_CPUS_CLUSTER0 + 256 ->
  affinity_to_cpuid (cpuid_to_affinity cpuid) = cpuid.
Proof.
  intros Hn Hc. unfold affinity_to_cpuid, cpuid_to_affinity, MPIDR_EL1_AFF0_LSB, MPIDR_EL1_AFF1_LSB, MPIDR_EL1_AFF2_LSB.
  assert (forall a b x y, a = x -> b = y -> y * CONFIG_NR_CPUS_CLUSTER0 + x = cpuid -> b * CONFIG_NR_CPUS_CLUSTER0 + a = cpuid) as Hgo by (intros; subst; done).
  destruct (cpu_has_feature cf _), (Z.ltb_spec cpuid CONFIG_NR_CPUS_CLUSTER0); cbn zeta; rewrite !low_byte.
  - rewrite Z.shiftl_mul_pow2, !Z.shiftr_div_pow2 by lia. apply (Hgo _ _ cpuid 0); [dlia|dlia|lia].
  - rewrite lor_shifted by lia. rewrite !Z.shiftr_div_pow2 by lia.
    apply (Hgo _ _ (cpuid - CONFIG_NR_CPUS_CLUSTER0) 1); [dlia|dlia|lia].
  - rewrite !Z.shiftr_div_pow2 by lia. apply (Hgo _ _ cpuid 0); [dlia|dlia|lia].
  - rewrite Z.shiftl_mul_pow2, !Z.shiftr_div_pow2 by lia. apply (Hgo _ _ (cpuid - CONFIG_NR_CPUS_CLUSTER0) 1); [dlia|dlia|lia].
Qed.
End affinity.

(** Both features have number 0, so a cpu whose affinities are shifted is taken to
    have the virtualization extensions for hosts. *)
Lemma shifted_cpu_has_vhe mpidr : Z.testbit mpidr 24 = true -> cpu_has_vhe (arch_cpu_feature_init mpidr) (-1) = (1, 1).
Proof.
  intros Hm. unfold arch_cpu_feature_init, MPIDR_EL1_MT. destruct (Z.eqb_spec (Z.land mpidr (2 ^ 24)) 0) as [E|E]; [|done].
  assert (Z.testbit (Z.land mpidr (2 ^ 24)) 24 = true) as Ht by (rewrite Z.land_spec, Hm; done). by rewrite E in Ht.
Qed.

(** ** Interrupt specifiers (irqchip.c)

    [intspec] are the cells of a specifier, [intsize] how many the caller says there
    are; a cell outside of the array is [None], an error is [inl]. *)
Definition NR_BANKS : Z := 3.
Definition IRQS_PER_BANK : Z := 32.
Definition MAKE_HWIRQ (b n : Z) : Z := Z.lor (u32 (Z.shiftl (u32 (b + 1)) 5)) n.
Definition HWIRQ_BANK (i : Z) : Z := u32 (Z.shiftr i 5 - 1).
Definition HWIRQ_BIT (i : Z) : Z := 2 ^ Z.land i 0x1f.

Definition bcm2836_xlate_irq (phandle : Z) (intspec : list Z) (intsize : Z) : option (Z + Z * Z) :=
  if phandle =? 3 then
    if negb (intsize =? 2) then Some (inl (- EINVAL))
    else
      c0 ← intspec !! 0%nat;
      if c0 =? 8 then Some (inl (- EINVAL))
      else c1 ← intspec !! 1%nat; Some (inr (u32 (c0 + 16), c1))
  else if intsize =? 1 then
    c0 ← intspec !! 0%nat;
    if c0 <? 16 then Some (inr (u32 (c0 + 16), 0)) else Some (inl (- EINVAL))
  else if intsize =? 2 then
    c0 ← intspec !! 0%nat;
    if NR_BANKS <=? c0 then Some (inl (- EINVAL))
    else
      c1 ← intspec !! 1%nat;
      if IRQS_PER_BANK <=? c1 then Some (inl (- EINVAL)) else Some (inr (MAKE_HWIRQ c0 c1, 0))
  else Some (inl (- EINVAL)).

Definition gic_xlate_irq (intspec : list Z) (intsize : Z) : option (Z + Z * Z) :=
  if negb (intsize =? 3) then Some (inl (- EINVAL))
  else
    c0 ← intspec !! 0%nat;
    c1 ← intspec !! 1%nat;
    let hwirq :=
      if c0 =? 0 then inr (u32 (c1 + 32))
      else if c0 =? 1 then if 16 <=? c1 then inl (- EINVAL) else inr (u32 (c1 + 16))
      else inl (- EINVAL) in
    match hwirq with
    | inl e => Some (inl e)
    | inr hwirq => type ← intspec !! 2%nat; Some (inr (hwirq, type))
    end.

(** Private interrupts and shared ones are translated to disjoint ranges, each
    specifier to a number of its own. *)
Theorem gic_xlate_distinct k n t k' n' t' irq x x' :
  0 <= n < 2 ^ 32 - 32 -> 0 <= n' < 2 ^ 32 - 32 ->
  gic_xlate_irq [k; n; t] 3 = Some (inr (irq, x)) -> gic_xlate_irq [k'; n'; t'] 3 = Some (inr (irq, x')) ->
  k = k' /\ n = n' /\ x = t /\ x' = t' /\ (if k =? 0 then 32 <= irq else 16 <= irq < 32).
Proof.
  intros Hn Hn'. unfold gic_xlate_irq, u32. cbn [negb Z.eqb Pos.eqb lookup list_lookup mbind option_bind].
  destruct (Z.eqb_spec k 0) as [->|Hk], (Z.eqb_spec k' 0) as [->|Hk']; cbn [Z.eqb].
  1: rewrite !Z.mod_small by lia; intros [= <- <-] [= ? <-]; repeat split; lia.
  all: repeat match goal with |- context [?a =? 1] => destruct (Z.eqb_spec a 1) as [->|]; [|done] end.
  all: repeat match goal with |- context [16 <=? ?a] => destruct (Z.leb_spec 16 a); [done|] end.
  all: rewrite !Z.mod_small by lia; intros [= <- <-] [= ? <-]; repeat split; lia.
Qed.

(** The bank and the bit of an interrupt of the board controller come back. *)
Theorem bcm_hwirq_roundtrip b n :
  0 <= b < NR_BANKS -> 0 <= n < IRQS_PER_BANK ->
  bcm2836_xlate_irq 0 [b; n] 2 = Some (inr (MAKE_HWIRQ b n, 0)) /\ HWIRQ_BANK (MAKE_HWIRQ b n) = b /\ HWIRQ_BIT (MAKE_HWIRQ b n) = 2 ^ n.
Proof.
  unfold NR_BANKS, IRQS_PER_BANK. intros Hb Hn. split.
  { unfold bcm2836_xlate_irq, NR_BANKS, IRQS_PER_BANK. cbn [Z.eqb Pos.eqb lookup list_lookup mbind option_bind].
    rewrite (proj2 (Z.leb_gt 3 b)) by lia. cbn. by rewrite (proj2 (Z.leb_gt 32 n)) by lia. }
  assert (MAKE_HWIRQ b n = 32 * (b + 1) + n) as ->.
  { unfold MAKE_HWIRQ, u32. rewrite (Z.mod_small (b + 1)) by lia. rewrite Z.shiftl_mul_pow2 by lia. rewrite Z.mod_small by lia.
    assert (b = 0 \/ b = 1 \/ b = 2) as [-> | [-> | ->]] by lia;
      (assert (In n (seqZ 0 32)) as Hin by (apply list_elem_of_In, elem_of_seqZ; lia));
      vm_compute in Hin; repeat (destruct Hin as [<-|Hin]; [reflexivity|]); destruct Hin. }
  unfold HWIRQ_BANK, HWIRQ_BIT, u32. rewrite Z.shiftr_div_pow2 by lia. split.
  - rewrite Z.mod_small; dlia.
  - f_equal. change 0x1f with (Z.ones 5). rewrite Z.land_ones by lia. dlia.
Qed.

(** The number of a shared interrupt is not bounded: specifiers wrap around into the
    private interrupts. *)
Lemma gic_xlate_wraps t : gic_xlate_irq [0; 2 ^ 32 - 2; t] 3 = Some (inr (30, t)).
Proof. done. Qed.
