(* ===== verification/Gicv2Drv.v ===== *)
(** * Driver of the physical GICv2 (drivers/irq-chips/gicv2.c)

    The controller is the class [Gicv2Hw]: reads and writes of its registers by a cpu,
    at addresses, over a state of any type.  [Gicv2Laws] are the rules of the registers
    from the architecture, stated on the lines [gic] that the state stands for.  The
    driver is an instance of [IrqChip], so what GicChip proves of the interrupt core
    holds on it; the start of the system is proved to set up every line. *)
From S2P Require Import Prelude Irq GicChip.

(** ** Registers (include/device/gicv2.h) *)
Definition GICD_CTLR : Z := 0x000.
Definition GICD_TYPER : Z := 0x004.
Definition GICD_IIDR : Z := 0x008.
Definition GICD_ISENABLER : Z := 0x100.
Definition GICD_ICENABLER : Z := 0x180.
Definition GICD_ICPENDR : Z := 0x280.
Definition GICD_IPRIORITYR : Z := 0x400.
Definition GICD_ITARGETSR : Z := 0x800.
Definition GICD_ICFGR : Z := 0xC00.
Definition GICD_SGIR : Z := 0xF00.
Definition GICC_CTLR : Z := 0x0000.
Definition GICC_PMR : Z := 0x0004.
Definition GICC_BPR : Z := 0x0008.
Definition GICC_IAR : Z := 0x000C.
Definition GICC_EOIR : Z := 0x0010.
Definition GICC_IIDR : Z := 0x00FC.
Definition GICC_DIR : Z := 0x1000.
Definition GICD_SGI_TARGET_LIST_SHIFT : Z := 24.
Definition GICD_SGI_TARGET_SHIFT : Z := 16.
Definition GICD_SGI_TARGET_OTHERS : Z := Z.shiftl 1 GICD_SGI_TARGET_LIST_SHIFT.
Definition GICD_SGI_TARGET_SELF : Z := Z.shiftl 2 GICD_SGI_TARGET_LIST_SHIFT.
Definition GICD_SGI_TARGET_LIST : Z := Z.shiftl 0 GICD_SGI_TARGET_LIST_SHIFT.
Definition GICD_CTL_ENABLE : Z := 0x1.
Definition GICD_TYPE_LINES : Z := 0x01f.
Definition GICC_CTL_ENABLE : Z := 0x1.
Definition GICC_CTL_EOI : Z := Z.shiftl 0x1 9.
Definition GICC_IA_IRQ : Z := 0x03ff.
Definition GIC_PRI_IRQ : Z := 0xa0.
Definition GIC_PRI_IPI : Z := 0x90.
Definition NR_GIC_CPU_IF : Z := 8.
Definition IRQ_FLAGS_EDGE_BOTH : Z := 0x3.
Definition IRQ_FLAGS_LEVEL_BOTH : Z := 0xc.

Inductive sgi_mode := SGI_TO_LIST | SGI_TO_OTHERS | SGI_TO_SELF.

(** ** The controller *)
Class Gicv2Hw (D : Type) := mk_Gicv2Hw {
  readl : Z -> Z -> D -> Z * D;
  writel : Z -> Z -> Z -> D -> D;
  writeb : Z -> Z -> Z -> D -> D;
  hw_view : D -> gic;
}.

(** The variables of the driver. *)
Record gicv2 := mk_gicv2 {
  gicv2_dbase : Z;
  gicv2_cbase : Z;
  gicv2_hbase : Z;
  gicv2_nr_lines : Z;
  gic_cpu_mask : list Z;
}.

Definition gicv2_initial : gicv2 := mk_gicv2 0 0 0 0 [0xff; 0; 0; 0; 0; 0; 0; 0].

Section driver.
Context {D : Type} `{Gicv2Hw D}.
(** The first argument is the cpu that runs the code, where there is one. *)
Definition writeb_gicd (c val offset : Z) (s : gicv2 * D) : gicv2 * D := (s.1, writeb c (u8 val) (gicv2_dbase s.1 + offset) s.2).
Definition writel_gicd (c val offset : Z) (s : gicv2 * D) : gicv2 * D := (s.1, writel c (u32 val) (gicv2_dbase s.1 + offset) s.2).
Definition readl_gicd (c offset : Z) (s : gicv2 * D) : Z * (gicv2 * D) := let '(v, d) := readl c (gicv2_dbase s.1 + offset) s.2 in (v, (s.1, d)).
Definition writel_gicc (c val offset : Z) (s : gicv2 * D) : gicv2 * D := (s.1, writel c (u32 val) (gicv2_cbase s.1 + offset) s.2).
Definition readl_gicc (c offset : Z) (s : gicv2 * D) : Z * (gicv2 * D) := let '(v, d) := readl c (gicv2_cbase s.1 + offset) s.2 in (v, (s.1, d)).
Definition writel_gich (c val offset : Z) (s : gicv2 * D) : gicv2 * D := (s.1, writel c (u32 val) (gicv2_hbase s.1 + offset) s.2).
Definition readl_gich (c offset : Z) (s : gicv2 * D) : Z * (gicv2 * D) := let '(v, d) := readl c (gicv2_hbase s.1 + offset) s.2 in (v, (s.1, d)).

Definition gicv2_eoi_irq (c irq : Z) (s : gicv2 * D) : gicv2 * D := writel_gicc c irq GICC_EOIR s.
Definition gicv2_dir_irq (c irq : Z) (s : gicv2 * D) : gicv2 * D := writel_gicc c irq GICC_DIR s.

Definition gicv2_read_irq (c : Z) (s : gicv2 * D) : Z * (gicv2 * D) :=
  let '(irq, s) := readl_gicc c GICC_IAR s in (Z.land irq GICC_IA_IRQ, s).

Definition gicv2_set_irq_type (c irq type : Z) (s : gicv2 * D) : Z * (gicv2 * D) :=
  if irq <? 16 then (0, s)
  else
    let '(cfg, s) := readl_gicd c (GICD_ICFGR + irq / 16 * 4) s in
    let edgebit := u32 (Z.shiftl 2 (2 * (irq mod 16))) in
    let cfg :=
      if negb (Z.land type IRQ_FLAGS_LEVEL_BOTH =? 0) then Z.ldiff cfg edgebit
      else if negb (Z.land type IRQ_FLAGS_EDGE_BOTH =? 0) then Z.lor cfg edgebit
      else cfg in
    (0, writel_gicd c cfg (GICD_ICFGR + irq / 16 * 4) s).

Definition gicv2_clear_pending (c irq : Z) (s : gicv2 * D) : gicv2 * D := writel_gicd c (Z.shiftl 1 (irq mod 32)) (GICD_ICPENDR + irq / 32 * 4) s.

Definition gicv2_set_irq_priority (c irq pr : Z) (s : gicv2 * D) : Z * (gicv2 * D) := (0, writeb_gicd c pr (u32 (GICD_IPRIORITYR + irq)) s).

Definition gicv2_set_irq_affinity (c irq pcpu : Z) (s : gicv2 * D) : Z * (gicv2 * D) :=
  if (NR_GIC_CPU_IF <? pcpu) || (irq <? 32) then (- EINVAL, s)
  else (0, writeb_gicd c (Z.shiftl 1 pcpu) (u32 (GICD_ITARGETSR + irq)) s).

(** [for_each_cpu(cpu, mask)] over a mask of [n] bits. *)
Definition cpus_in (n mask : Z) : list Z := filter (fun cpu => Z.testbit mask cpu) (seqZ 0 n).

Fixpoint sgi_targets (masks : list Z) (l : list Z) (value : Z) : option Z :=
  match l with
  | [] => Some value
  | cpu :: l => m ← masks !! Z.to_nat cpu; sgi_targets masks l (Z.lor value m)
  end.

Definition gicv2_send_sgi (n c sgi : Z) (mode : sgi_mode) (mask : Z) (s : gicv2 * D) : option (gicv2 * D) :=
  match mode with
  | SGI_TO_OTHERS => Some (writel_gicd c (Z.lor GICD_SGI_TARGET_OTHERS sgi) GICD_SGIR s)
  | SGI_TO_SELF => Some (writel_gicd c (Z.lor GICD_SGI_TARGET_SELF sgi) GICD_SGIR s)
  | SGI_TO_LIST =>
      value ← sgi_targets (gic_cpu_mask s.1) (cpus_in n mask) 0;
      Some (writel_gicd c (Z.lor (Z.lor GICD_SGI_TARGET_LIST (u32 (Z.shiftl value GICD_SGI_TARGET_SHIFT))) sgi) GICD_SGIR s)
  end.

Definition gicv2_mask_irq (c irq : Z) (s : gicv2 * D) : gicv2 * D := writel_gicd c (Z.shiftl 1 (irq mod 32)) (GICD_ICENABLER + irq / 32 * 4) s.
Definition gicv2_unmask_irq (c irq : Z) (s : gicv2 * D) : gicv2 * D := writel_gicd c (Z.shiftl 1 (irq mod 32)) (GICD_ISENABLER + irq / 32 * 4) s.

(** Both only print a warning. *)
Definition gicv2_mask_irq_cpu (c irq cpu : Z) (s : gicv2 * D) : gicv2 * D := s.
Definition gicv2_unmask_irq_cpu (c irq cpu : Z) (s : gicv2 * D) : gicv2 * D := s.

Definition SIZE_1K : Z := 1024.

Definition gicv2_is_aliased (c base size : Z) (s : gicv2 * D) : bool * (gicv2 * D) :=
  if negb (size =? SIZE_1K * 128) then (false, s)
  else
    let '(val_low, s) := readl_gicc c GICC_IIDR s in
    let '(val_high, s) := readl_gicc c (GICC_IIDR + 0xf000) s in
    ((Z.land val_low 0xfff0fff =? 0x0202043B) && (val_low =? val_high), s).

(** Four copies of a byte. *)
Definition word4 (x : Z) : Z := Z.lor (Z.lor (Z.lor (Z.shiftl x 24) (Z.shiftl x 16)) (Z.shiftl x 8)) x.

(** [gic_cpu_mask[cpuid] = mask], an index out of the array is [None]. *)
Definition set_cpu_mask (cpuid mask : Z) (g : gicv2) : option gicv2 :=
  if (0 <=? cpuid) && (cpuid <? Z.of_nat (length (gic_cpu_mask g)))
  then Some (mk_gicv2 (gicv2_dbase g) (gicv2_cbase g) (gicv2_hbase g) (gicv2_nr_lines g) (<[Z.to_nat cpuid := u8 mask]> (gic_cpu_mask g)))
  else None.

Definition gicv2_cpu_init (cpuid : Z) (s : gicv2 * D) : option (gicv2 * D) :=
  let '(t, s) := readl_gicd cpuid GICD_ITARGETSR s in
  g ← set_cpu_mask cpuid (Z.land t 0xff) s.1;
  g ← (if Z.land t 0xff =? 0 then set_cpu_mask cpuid (Z.shiftl 1 cpuid) g else Some g);
  let s := (g, s.2) in
  let s := writel_gicd cpuid 0xffff0000 GICD_ICENABLER s in
  let s := writel_gicd cpuid 0x0000ffff GICD_ISENABLER s in
  let s := for_steps 0 16 4 (fun i => writel_gicd cpuid (word4 GIC_PRI_IPI) (GICD_IPRIORITYR + i / 4 * 4)) s in
  let s := for_steps 16 32 4 (fun i => writel_gicd cpuid (word4 GIC_PRI_IRQ) (GICD_IPRIORITYR + i / 4 * 4)) s in
  let s := writel_gicc cpuid 0xff GICC_PMR s in
  let s := writel_gicc cpuid 0x0 GICC_BPR s in
  Some (writel_gicc cpuid (Z.lor GICC_CTL_ENABLE GICC_CTL_EOI) GICC_CTLR s).

Definition set_nr_lines (n : Z) (g : gicv2) : gicv2 := mk_gicv2 (gicv2_dbase g) (gicv2_cbase g) (gicv2_hbase g) n (gic_cpu_mask g).

Definition gicv2_dist_init (c : Z) (s : gicv2 * D) : gicv2 * D :=
  let '(t, s) := readl_gicd c GICD_ITARGETSR s in
  let cpumask := Z.land t 0xff in
  let cpumask := if cpumask =? 0 then Z.shiftl 1 0 else cpumask in
  let cpumask := Z.lor cpumask (u32 (Z.shiftl cpumask 8)) in
  let cpumask := Z.lor cpumask (u32 (Z.shiftl cpumask 16)) in
  let s := writel_gicd c 0 GICD_CTLR s in
  let '(type, s) := readl_gicd c GICD_TYPER s in
  let nr_lines := 32 * (Z.land type GICD_TYPE_LINES + 1) in
  let '(_, s) := readl_gicd c GICD_IIDR s in
  let s := for_steps 32 nr_lines 16 (fun i => writel_gicd c 0x0 (GICD_ICFGR + i / 16 * 4)) s in
  let s := for_steps 32 nr_lines 4 (fun i => writel_gicd c cpumask (GICD_ITARGETSR + i / 4 * 4)) s in
  let s := for_steps 32 nr_lines 4 (fun i => writel_gicd c (word4 GIC_PRI_IRQ) (GICD_IPRIORITYR + i / 4 * 4)) s in
  let s := for_steps 32 nr_lines 32 (fun i => writel_gicd c 0xffffffff (GICD_ICENABLER + i / 32 * 4)) s in
  let s := (set_nr_lines (Z.min 1020 nr_lines) s.1, s.2) in
  writel_gicd c GICD_CTL_ENABLE GICD_CTLR s.

(** [translate] gives address and size of a range of the node, zeros where there is
    none; the four ranges go to [vgicv2_init]. *)
Definition gicv2_init (c : Z) (translate : Z -> Z * Z) (io_remap : Z -> Z -> Z) (s : gicv2 * D) : option (Z * (gicv2 * D)) :=
  let '(a0, a1) := translate 0 in
  let '(a2, a3) := translate 1 in
  let '(a4, a5) := translate 2 in
  if (a0 =? 0) || (a1 =? 0) then None
  else
    let g := mk_gicv2 (io_remap a0 a1) (gicv2_cbase s.1) (gicv2_hbase s.1) (gicv2_nr_lines s.1) (gic_cpu_mask s.1) in
    if (a2 =? 0) || (a3 =? 0) then None
    else
      let g := mk_gicv2 (gicv2_dbase g) (io_remap a2 a3) (gicv2_hbase g) (gicv2_nr_lines g) (gic_cpu_mask g) in
      if (a4 =? 0) || (a5 =? 0) then None
      else
        let g := mk_gicv2 (gicv2_dbase g) (gicv2_cbase g) (io_remap a4 a5) (gicv2_nr_lines g) (gic_cpu_mask g) in
        let '(aliased, s) := gicv2_is_aliased c a2 a3 (g, s.2) in
        let g := s.1 in
        let g := if aliased then mk_gicv2 (gicv2_dbase g) (gicv2_cbase g + 0xf000) (gicv2_hbase g) (gicv2_nr_lines g) (gic_cpu_mask g) else g in
        let s := gicv2_dist_init c (g, s.2) in
        s ← gicv2_cpu_init c s;
        Some (0, s).

Definition gicv2_secondary_init (c : Z) (s : gicv2 * D) : option (Z * (gicv2 * D)) := s ← gicv2_cpu_init c s; Some (0, s).

(** The other cpus, in the order in which they start. *)
Fixpoint secondary_inits (l : list Z) (s : gicv2 * D) : option (gicv2 * D) :=
  match l with
  | [] => Some s
  | c :: l => '(_, s) ← gicv2_secondary_init c s; secondary_inits l s
  end.
End driver.

(** ** The rules of the registers (ARM Generic Interrupt Controller, version 2)

    [dva] and [cva] are where the distributor and the interface of the cpu are mapped,
    [lines] the number of implemented interrupts, [iface] the number of the interface
    of a cpu, of [ncpu] cpus, and [pmask] the priority bits that are implemented, the
    upper four at least.  [ppi_cfg] says whether the sense of private interrupts can be
    changed, [sgi_off] whether software interrupts can be disabled. *)
Definition sgi_hits (ncpu : Z) (iface : Z -> Z) (c v c' : Z) : bool :=
  (0 <=? c') && (c' <? ncpu) &&
  match Z.land (Z.shiftr v 24) 3 with
  | 0 => Z.testbit v (16 + iface c')
  | 1 => negb (c' =? c)
  | 2 => c' =? c
  | _ => false
  end.

(** A register of the interface of a cpu. *)
Definition cif_set (c off v : Z) (m : Z -> Z -> Z) : Z -> Z -> Z := fun c' r => if (c' =? c) && (r =? off) then v else m c' r.

#[global] Instance cif_set_proper c off v : Proper (peq ==> peq) (cif_set c off v).
Proof. intros m m' E x y. unfold cif_set. by rewrite (E x y). Qed.

Class Gicv2Laws (D : Type) `{Gicv2Hw D} (dva cva lines ncpu pmask : Z) (iface : Z -> Z) (ppi_cfg sgi_off : bool) := {
  hw_cpus : 0 < ncpu <= 8 /\ forall c, 0 <= c < ncpu -> 0 <= iface c < 8;
  hw_pmask : Z.land pmask 0xf0 = 0xf0;
  hw_read_dist : forall c off (d : D), 0 <= c < ncpu -> 0 <= off < 0x1000 -> snd (readl c (dva + off) d) = d;
  hw_read_iidr : forall c off (d : D), 0 <= c < ncpu -> off = GICC_IIDR \/ off = GICC_IIDR + 0xf000 \/ off = GICC_IIDR - 0xf000 ->
    snd (readl c (cva + off) d) = d;
  hw_read_typer : forall c (d : D), 0 <= c < ncpu ->
    lines = Z.min 1020 (32 * (Z.land (fst (readl c (dva + GICD_TYPER) d)) 0x1f + 1));
  hw_read_target : forall c (d : D), 0 <= c < ncpu -> Z.land (fst (readl c (dva + GICD_ITARGETSR) d)) 0xff = 2 ^ iface c;
  hw_read_cfg : forall c n b (d : D), 0 <= c < ncpu -> 1 <= n < 64 -> 0 <= b < 16 -> 16 * n + b < lines ->
    Z.testbit (fst (readl c (dva + (GICD_ICFGR + n * 4)) d)) (2 * b + 1) = g_edge (hw_view d) c (16 * n + b);
  hw_shared_cfg : forall c c' i (d : D), 32 <= i -> g_edge (hw_view d) c i = g_edge (hw_view d) c' i;
  hw_ctlr : forall c v (d : D), 0 <= c < ncpu -> hw_view (writel c v (dva + GICD_CTLR) d) ≡ set_on (Z.testbit v 0) (hw_view d);
  hw_isenabler : forall c v n (d : D), 0 <= c < ncpu -> 0 <= n < 32 ->
    hw_view (writel c v (dva + (GICD_ISENABLER + n * 4)) d) ≡ map_enable (upd lines 32 c n (fun _ b x => Z.testbit v b || x)) (hw_view d);
  hw_icenabler : forall c v n (d : D), 0 <= c < ncpu -> 0 <= n < 32 ->
    hw_view (writel c v (dva + (GICD_ICENABLER + n * 4)) d) ≡
      map_enable (upd lines 32 c n (fun _ b x => if (n =? 0) && (b <? 16) && negb sgi_off then x else negb (Z.testbit v b) && x)) (hw_view d);
  hw_icpendr : forall c v n (d : D), 0 <= c < ncpu -> 1 <= n < 32 ->
    hw_view (writel c v (dva + (GICD_ICPENDR + n * 4)) d) ≡ map_pend (upd lines 32 c n (fun _ b x => negb (Z.testbit v b) && x)) (hw_view d);
  hw_ipriorityr : forall c v n (d : D), 0 <= c < ncpu -> 0 <= n < 256 ->
    hw_view (writel c v (dva + (GICD_IPRIORITYR + n * 4)) d) ≡
      map_prio (upd lines 4 c n (fun _ b _ => Z.land (Z.land (Z.shiftr v (8 * b)) 0xff) pmask)) (hw_view d);
  hw_ipriorityr_byte : forall c v i (d : D), 0 <= c < ncpu -> 0 <= i < lines ->
    hw_view (writeb c v (dva + (GICD_IPRIORITYR + i)) d) ≡ map_prio (upd lines 1 c i (fun _ _ _ => Z.land v pmask)) (hw_view d);
  hw_itargetsr : forall c v n (d : D), 0 <= c < ncpu -> 8 <= n < 256 ->
    hw_view (writel c v (dva + (GICD_ITARGETSR + n * 4)) d) ≡
      map_route (upd lines 4 c n (fun c' b _ => (0 <=? c') && (c' <? ncpu) && Z.testbit (Z.shiftr v (8 * b)) (iface c'))) (hw_view d);
  hw_itargetsr_byte : forall c v i (d : D), 0 <= c < ncpu -> 32 <= i < lines ->
    hw_view (writeb c v (dva + (GICD_ITARGETSR + i)) d) ≡
      map_route (fun m c' j => if j =? i then (0 <=? c') && (c' <? ncpu) && Z.testbit v (iface c') else m c' j) (hw_view d);
  hw_icfgr : forall c v n (d : D), 0 <= c < ncpu -> 1 <= n < 64 ->
    hw_view (writel c v (dva + (GICD_ICFGR + n * 4)) d) ≡
      map_edge (fun m => if (n =? 1) && negb ppi_cfg then m else upd lines 16 c n (fun _ b _ => Z.testbit v (2 * b + 1)) m) (hw_view d);
  hw_sgir : forall c v (d : D), 0 <= c < ncpu ->
    hw_view (writel c v (dva + GICD_SGIR) d) ≡
      map_pend (fun m c' i => if (i =? Z.land v 15) && sgi_hits ncpu iface c v c' then true else m c' i) (hw_view d);
  hw_cif : forall c v off (d : D), 0 <= c < ncpu -> off = GICC_CTLR \/ off = GICC_PMR \/ off = GICC_BPR ->
    hw_view (writel c v (cva + off) d) ≡ map_cif (cif_set c off v) (hw_view d);
  hw_eoir : forall c v (d : D), 0 <= c < ncpu -> hw_view (writel c v (cva + GICC_EOIR) d) ≡ log_event (ev_eoi c v) (hw_view d);
  hw_dir : forall c v (d : D), 0 <= c < ncpu -> hw_view (writel c v (cva + GICC_DIR) d) ≡ log_event (ev_dir c v) (hw_view d);
}.

Section chip.
Context {D : Type} `{Gicv2Hw D} {dva cva lines ncpu pmask : Z} {ppi_cfg sgi_off : bool}
  `{HL : !Gicv2Laws D dva cva lines ncpu pmask (fun c => c) ppi_cfg sgi_off}.
(** The bases are where the controller is mapped, and every cpu has found its
    interface. *)
Definition gicv2_ok (s : gicv2 * D) : Prop :=
  gicv2_dbase s.1 = dva /\ gicv2_cbase s.1 = cva /\ forall c, 0 <= c < ncpu -> gic_cpu_mask s.1 !! Z.to_nat c = Some (2 ^ c).

#[local] Instance gicv2_chip : IrqChip (gicv2 * D) := {|
  ch_view s := hw_view s.2;
  ch_ok := gicv2_ok;
  ch_lines := lines;
  ch_percpu := false;
  ch_funs := mk_chip false true true;
  ch_mask c irq s := Some (gicv2_mask_irq c irq s);
  ch_unmask c irq s := Some (gicv2_unmask_irq c irq s);
  ch_unmask_cpu c irq cpu s := Some (gicv2_unmask_irq_cpu c irq cpu s);
  ch_eoi c irq s := Some (gicv2_eoi_irq c irq s);
  ch_dir c irq s := Some (gicv2_dir_irq c irq s);
  ch_set_affinity c irq cpu s := Some (gicv2_set_irq_affinity c irq cpu s);
  ch_set_type c irq type s := Some (gicv2_set_irq_type c irq type s);
  ch_clear_pending _ _ _ := None;
  ch_send_sgi c sgi cpu s := gicv2_send_sgi ncpu c sgi SGI_TO_LIST (2 ^ cpu) s;
|}.

Lemma lines_max c (d : D) : 0 <= c < ncpu -> 32 <= lines <= 1020.
Proof.
  intros Hc. pose proof (hw_read_typer c d Hc) as E. change 0x1f with (Z.ones 5) in E. rewrite Z.land_ones in E by lia.
  pose proof (Z.mod_pos_bound (readl c (dva + GICD_TYPER) d).1 (2 ^ 5) ltac:(lia)). lia.
Qed.

Lemma u32_bit k : 0 <= k < 32 -> u32 (Z.shiftl 1 k) = 2 ^ k.
Proof. intros Hk. rewrite Z.shiftl_1_l. unfold u32. apply Z.mod_small. split; [lia|]. apply Z.pow_lt_mono_r; lia. Qed.

Lemma does_intro (op : (gicv2 * D) -> option (gicv2 * D)) f s s' : op s = Some s' -> gicv2_ok s' -> hw_view s'.2 ≡ f (hw_view s.2) -> does op f s.
Proof. intros H1 H2 H3. by exists s'. Qed.

Lemma gicv2_enable_does c irq s :
  gicv2_ok s -> 0 <= c < ncpu -> 0 <= irq < lines -> does (ch_unmask c irq) (map_enable (set1 c irq true)) s.
Proof.
  intros Hk Hc Hi. pose proof (lines_max c s.2 Hc) as Hl. destruct Hk as (Hd & Hk).
  eapply does_intro; [done|by split|]. unfold gicv2_unmask_irq, writel_gicd. cbn [snd fst]. rewrite Hd. rewrite hw_isenabler by first [done|dlia].
  apply lf_ext. intros m. rewrite u32_bit by (pose proof (Z.mod_pos_bound irq 32); lia). by apply (upd_bit orb).
Qed.

Lemma gicv2_mask_does c irq s :
  gicv2_ok s -> 0 <= c < ncpu -> 16 <= irq < lines -> does (ch_mask c irq) (map_enable (set1 c irq false)) s.
Proof.
  intros Hk Hc Hi. pose proof (lines_max c s.2 Hc) as Hl. destruct Hk as (Hd & Hk).
  eapply does_intro; [done|by split|]. unfold gicv2_mask_irq, writel_gicd. cbn [snd fst]. rewrite Hd. rewrite hw_icenabler by first [done|dlia].
  apply lf_ext. intros m. rewrite u32_bit by (pose proof (Z.mod_pos_bound irq 32); lia).
  rewrite <- (upd_bit (fun b x => negb b && x) false lines c irq m) by first [done|lia].
  intros c' i. unfold upd. destruct (_ && _ && _) eqn:E; [|done].
  destruct ((irq / 32 =? 0) && (i mod 32 <? 16) && negb sgi_off) eqn:E2; [|done].
  rewrite Z.pow2_bits_false; [done|]. rewrite !andb_true_iff, Z.eqb_eq, Z.ltb_lt in E2. dlia.
Qed.

Lemma gicv2_mask_sgi_does c irq s :
  gicv2_ok s -> 0 <= c < ncpu -> 0 <= irq < 16 ->
  does (ch_mask c irq) (map_enable (fun m => if sgi_off then set1 c irq false m else m)) s.
Proof.
  intros Hk Hc Hi. pose proof (lines_max c s.2 Hc) as Hl. destruct Hk as (Hd & Hk).
  eapply does_intro; [done|by split|]. unfold gicv2_mask_irq, writel_gicd. cbn [snd fst]. rewrite Hd. rewrite hw_icenabler by first [done|dlia].
  apply lf_ext. intros m. rewrite u32_bit by (pose proof (Z.mod_pos_bound irq 32); lia). destruct sgi_off.
  - rewrite <- (upd_bit (fun b x => negb b && x) false lines c irq m) by first [done|lia].
    intros c' i. unfold upd. by rewrite !andb_false_r.
  - intros c' i. unfold upd. destruct (_ && _ && _) eqn:E; [|done]. rewrite !andb_true_r.
    rewrite !andb_true_iff, Z.eqb_eq in E. rewrite (proj2 (Z.eqb_eq (irq / 32) 0)) by dlia. cbn [andb].
    destruct (Z.ltb_spec (i mod 32) 16); [done|]. rewrite Z.pow2_bits_false by dlia. done.
Qed.

Lemma gicv2_affinity_does c irq cpu s :
  gicv2_ok s -> 0 <= c < ncpu -> 32 <= irq < lines -> 0 <= cpu < ncpu ->
  does (fun s => success (ch_set_affinity c irq cpu s)) (map_route (route_to irq cpu)) s.
Proof.
  intros Hk Hc Hi Hcpu. pose proof (lines_max c s.2 Hc) as Hl. destruct hw_cpus as [Hn _]. destruct Hk as (Hd & Hk).
  eapply does_intro.
  { cbn [ch_set_affinity gicv2_chip]. unfold gicv2_set_irq_affinity, NR_GIC_CPU_IF.
    rewrite (proj2 (Z.ltb_ge 8 cpu)), (proj2 (Z.ltb_ge irq 32)) by lia. done. }
  { by split. }
  unfold writeb_gicd. cbn [snd fst]. rewrite Hd. unfold u32. rewrite (Z.mod_small (GICD_ITARGETSR + irq)) by (unfold GICD_ITARGETSR; lia).
  rewrite hw_itargetsr_byte by done. apply lf_ext. intros m c' i. unfold route_to. destruct (i =? irq); [|done].
  unfold u8. rewrite Z.shiftl_1_l, Z.mod_small by (split; [lia|]; change (2 ^ 8) with 256; assert (2 ^ cpu <= 2 ^ 7) by (apply Z.pow_le_mono_r; lia); lia).
  destruct (Z.eqb_spec c' cpu) as [->|Hne].
  - rewrite Z.pow2_bits_true, (proj2 (Z.leb_le 0 cpu)), (proj2 (Z.ltb_lt cpu ncpu)) by lia. done.
  - rewrite Z.pow2_bits_false by lia. by rewrite andb_false_r.
Qed.

Lemma edge_bit b : 0 <= b < 16 -> u32 (Z.shiftl 2 (2 * b)) = 2 ^ (2 * b + 1).
Proof.
  intros Hb. rewrite Z.shiftl_mul_pow2 by lia. rewrite <- Z.pow_succ_r by lia. unfold u32. apply Z.mod_small.
  split; [lia|]. apply Z.pow_lt_mono_r; lia.
Qed.

(** The read, the change of one bit and the write of a configuration register. *)
Definition cfg_set (type b cfg : Z) : Z :=
  if negb (Z.land type IRQ_FLAGS_LEVEL_BOTH =? 0) then Z.ldiff cfg (2 ^ (2 * b + 1))
  else if negb (Z.land type IRQ_FLAGS_EDGE_BOTH =? 0) then Z.lor cfg (2 ^ (2 * b + 1)) else cfg.

Lemma cfg_set_bit type b b' cfg :
  0 <= b < 16 -> 0 <= b' < 16 ->
  Z.testbit (u32 (cfg_set type b cfg)) (2 * b' + 1) = if b' =? b then sense type (Z.testbit cfg (2 * b + 1)) else Z.testbit cfg (2 * b' + 1).
Proof.
  intros Hb Hb'. unfold u32. rewrite Z.mod_pow2_bits_low by lia. unfold cfg_set, sense, IRQ_FLAGS_LEVEL_BOTH, IRQ_FLAGS_EDGE_BOTH.
  destruct (Z.eqb_spec b' b) as [->|Hne].
  - destruct (negb _); [|destruct (negb _)]; [rewrite Z.ldiff_spec, Z.pow2_bits_true by lia; by rewrite andb_false_r| |done].
    rewrite Z.lor_spec, Z.pow2_bits_true by lia. by rewrite orb_true_r.
  - destruct (negb _); [|destruct (negb _)]; [rewrite Z.ldiff_spec, Z.pow2_bits_false by lia; by rewrite andb_true_r| |done].
    rewrite Z.lor_spec, Z.pow2_bits_false by lia. by rewrite orb_false_r.
Qed.

Lemma set_type_state c irq type s :
  gicv2_ok s -> 0 <= c < ncpu -> 16 <= irq < lines ->
  success (ch_set_type c irq type s) =
    Some (writel_gicd c (cfg_set type (irq mod 16) (fst (readl c (dva + (GICD_ICFGR + irq / 16 * 4)) s.2))) (GICD_ICFGR + irq / 16 * 4) s).
Proof.
  intros Hk Hc Hi. pose proof (lines_max c s.2 Hc) as Hl. destruct s as [g d], Hk as (Hd & Hk). cbn [fst snd] in *. cbn [ch_set_type gicv2_chip].
  unfold gicv2_set_irq_type. rewrite (proj2 (Z.ltb_ge irq 16)) by lia. unfold readl_gicd. cbn [fst snd]. rewrite Hd.
  pose proof (hw_read_dist c (GICD_ICFGR + irq / 16 * 4) d Hc ltac:(unfold GICD_ICFGR; dlia)) as Hr.
  destruct (readl c (dva + (GICD_ICFGR + irq / 16 * 4)) d) as [cfg d']. cbn [snd fst] in *. subst d'.
  rewrite edge_bit by (pose proof (Z.mod_pos_bound irq 16); lia). done.
Qed.

Lemma gicv2_type_does c irq type s :
  gicv2_ok s -> 0 <= c < ncpu -> 32 <= irq < lines ->
  does (fun s => success (ch_set_type c irq type s)) (map_edge (sense_at c irq type)) s.
Proof.
  intros Hk Hc Hi. pose proof (lines_max c s.2 Hc) as Hl.
  eapply does_intro; [by apply set_type_state; [..|lia]|by destruct Hk as (? & ?); split|].
  destruct Hk as (Hd & _). unfold writel_gicd. cbn [snd fst]. rewrite Hd. rewrite hw_icfgr by first [done|dlia].
  rewrite (proj2 (Z.eqb_neq (irq / 16) 1)) by dlia. cbn [andb].
  repeat split; try done. intros c' i. cbn [map_edge g_edge]. unfold upd, sense_at.
  destruct (Z.eqb_spec (i / 16) (irq / 16)) as [E|E]; cbn [andb].
  2:{ rewrite (proj2 (Z.eqb_neq i irq)) by congruence. done. }
  assert (banked c c' i = true) as -> by (unfold banked; rewrite (proj2 (Z.leb_le 32 i)) by dlia; done). rewrite !andb_true_r.
  rewrite cfg_set_bit by (pose proof (Z.mod_pos_bound irq 16); pose proof (Z.mod_pos_bound i 16); lia).
  destruct (Z.ltb_spec i lines) as [Hil|Hil].
  2:{ rewrite (proj2 (Z.eqb_neq i irq)) by lia. done. }
  rewrite !hw_read_cfg by (try done; dlia). rewrite <- Z.div_mod by lia.
  assert (16 * (irq / 16) + i mod 16 = i) as -> by dlia.
  destruct (Z.eqb_spec i irq) as [->|Hne].
  - rewrite Z.eqb_refl, (hw_shared_cfg c c') by lia. done.
  - rewrite (proj2 (Z.eqb_neq (i mod 16) (irq mod 16))) by dlia. apply hw_shared_cfg. dlia.
Qed.

Lemma gicv2_type_local_does c irq type s :
  gicv2_ok s -> 0 <= c < ncpu -> 0 <= irq < 32 ->
  exists f, does (fun s => success (ch_set_type c irq type s)) (map_edge f) s.
Proof.
  intros Hk Hc Hi. pose proof (lines_max c s.2 Hc) as Hl. destruct (decide (irq < 16)) as [Hs|Hs].
  - exists (fun m => m). eapply does_intro; [|done|by rewrite lf_id].
    cbn [ch_set_type gicv2_chip]. unfold gicv2_set_irq_type. by rewrite (proj2 (Z.ltb_lt irq 16)).
  - eexists. eapply does_intro; [by apply set_type_state; [..|lia]|by destruct Hk as (? & ?); split|].
    destruct Hk as (Hd & _). unfold writel_gicd. cbn [snd fst]. rewrite Hd. by rewrite hw_icfgr by first [done|dlia].
Qed.

Lemma filter_none (P : Z -> bool) l : Forall (fun x => P x = false) l -> filter (fun x => P x) l = [].
Proof. induction 1 as [|x l Hx Hl IH]; [done|]. rewrite filter_cons_False; [done|]. rewrite Hx. by intros []. Qed.

Lemma cpus_in_one n cpu : 0 <= cpu < n -> cpus_in n (2 ^ cpu) = [cpu].
Proof.
  intros Hc. unfold cpus_in. replace n with (cpu + (1 + (n - cpu - 1))) by lia.
  rewrite (seqZ_app 0 cpu), (seqZ_app (0 + cpu) 1), !list.filter_app by lia.
  assert (forall m k, (forall x, m <= x < m + k -> x <> cpu) -> filter (fun x => Z.testbit (2 ^ cpu) x) (seqZ m k) = []) as Hf.
  { intros m k Hx. apply filter_none, list.Forall_forall. intros x Hin%elem_of_seqZ. apply Z.pow2_bits_false. symmetry. by apply Hx. }
  rewrite (Hf 0 cpu), (Hf (0 + cpu + 1)) by lia. rewrite app_nil_r. cbn [app]. rewrite Z.add_0_l. change (seqZ cpu 1) with [Z.of_nat 0 + cpu]. cbn [Z.of_nat]. rewrite Z.add_0_l. rewrite filter_cons_True; [done|]. by rewrite Z.pow2_bits_true by lia.
Qed.

Lemma sgi_word v sgi :
  0 <= v < 256 -> 0 <= sgi < 16 ->
  let w := u32 (Z.lor (Z.lor GICD_SGI_TARGET_LIST (u32 (Z.shiftl v GICD_SGI_TARGET_SHIFT))) sgi) in
  Z.land w 15 = sgi /\ Z.land (Z.shiftr w 24) 3 = 0 /\ forall b, 0 <= b < 8 -> Z.testbit w (16 + b) = Z.testbit v b.
Proof.
  intros Hv Hs w.
  assert (forall k, 0 <= k < 32 -> Z.testbit w k = Z.testbit v (k - 16) || Z.testbit sgi k) as Hw.
  { intros k Hk. unfold w, u32, GICD_SGI_TARGET_LIST, GICD_SGI_TARGET_SHIFT. rewrite Z.shiftl_0_l, Z.lor_0_l.
    rewrite Z.mod_pow2_bits_low, Z.lor_spec, Z.mod_pow2_bits_low, Z.shiftl_spec by lia. done. }
  assert (forall k, 4 <= k -> Z.testbit sgi k = false) as Hh by (intros k Hk; by apply (testbit_small sgi 4); lia).
  assert (forall k, 8 <= k -> Z.testbit v k = false) as Hv' by (intros k Hk; by apply (testbit_small v 8); lia).
  split; [|split].
  - apply Z.bits_inj'. intros k Hk. change 15 with (Z.ones 4). rewrite Z.land_spec. destruct (decide (k < 4)) as [Hlt|Hge].
    + rewrite Z.ones_spec_low, Hw, Z.testbit_neg_r by lia. by rewrite andb_true_r.
    + rewrite Z.ones_spec_high, Hh by lia. by rewrite andb_false_r.
  - apply Z.bits_inj'. intros k Hk. change 3 with (Z.ones 2). rewrite Z.land_spec, Z.bits_0, Z.shiftr_spec by lia. destruct (decide (k < 2)) as [Hlt|Hge].
    + by rewrite Hw, Hh, Hv' by lia.
    + rewrite Z.ones_spec_high by lia. by rewrite andb_false_r.
  - intros b Hb. rewrite Hw, Hh, orb_false_r by lia. f_equal. lia.
Qed.

Lemma gicv2_sgi_does c sgi cpu s :
  gicv2_ok s -> 0 <= c < ncpu -> 0 <= sgi < 16 -> 0 <= cpu < ncpu ->
  does (ch_send_sgi c sgi cpu) (map_pend (set1 cpu sgi true)) s.
Proof.
  intros Hk Hc Hs Hcpu. destruct hw_cpus as [Hn _]. pose proof Hk as (Hd & _ & Hm).
  assert (0 <= 2 ^ cpu < 256) as Hv by (split; [lia|]; change 256 with (2 ^ 8); apply Z.pow_lt_mono_r; lia).
  eapply does_intro.
  { cbn [ch_send_sgi gicv2_chip gicv2_send_sgi]. rewrite cpus_in_one by lia. cbn [sgi_targets]. rewrite Hm by lia. cbn [mbind option_bind].
    rewrite (Z.lor_0_l (2 ^ cpu)). done. }
  { done. }
  unfold writel_gicd. cbn [fst snd]. rewrite Hd, hw_sgir by done. apply lf_ext. intros m c' i. unfold set1, sgi_hits.
  destruct (sgi_word (2 ^ cpu) sgi Hv Hs) as (W1 & W2 & W3). rewrite W1, W2.
  destruct (Z.eqb_spec i sgi) as [->|]; [|done]. cbn [andb]. unfold banked. rewrite (proj2 (Z.leb_gt 32 sgi)) by lia. cbn [orb].
  destruct (Z.leb_spec 0 c'), (Z.ltb_spec c' ncpu); cbn [andb].
  2-4: rewrite (proj2 (Z.eqb_neq c' cpu)) by lia; done.
  rewrite W3 by lia. destruct (Z.eqb_spec c' cpu) as [->|]; [by rewrite Z.pow2_bits_true by lia|by rewrite Z.pow2_bits_false by lia].
Qed.

#[local] Instance gicv2_chip_laws : IrqChipLaws (gicv2 * D) ncpu.
Proof.
  split.
  - exact gicv2_mask_does.
  - intros c irq s Hk Hc Hi. exists sgi_off. by apply gicv2_mask_sgi_does.
  - exact gicv2_enable_does.
  - intros c irq cpu s Hk Hc Hi Hcpu. eapply does_intro; [done|done|]. by rewrite lf_id.
  - intros c irq s Hk Hc. pose proof Hk as (_ & Hcb & _). eapply does_intro; [done|done|].
    unfold gicv2_eoi_irq, writel_gicc. cbn [fst snd]. rewrite Hcb. by apply hw_eoir.
  - intros c irq s Hk Hc. pose proof Hk as (_ & Hcb & _). eapply does_intro; [done|done|].
    unfold gicv2_dir_irq, writel_gicc. cbn [fst snd]. rewrite Hcb. by apply hw_dir.
  - exact gicv2_affinity_does.
  - exact gicv2_type_does.
  - exact gicv2_type_local_does.
  - done.
  - exact gicv2_sgi_does.
Qed.

(** ** Start of the controller *)
Lemma prio_byte x b : x ∈ [0xa0; 0x90] -> 0 <= b < 4 -> Z.land (Z.land (Z.shiftr (u32 (word4 x)) (8 * b)) 0xff) pmask = x.
Proof.
  intros Hx Hb. assert (Z.land (Z.shiftr (u32 (word4 x)) (8 * b)) 0xff = x /\ Z.land x 0xf0 = x) as [-> E].
  { assert (b = 0 \/ b = 1 \/ b = 2 \/ b = 3) as Hb4 by lia.
    rewrite !elem_of_cons in Hx. destruct Hx as [->|[->|Hx]]; [| |by apply not_elem_of_nil in Hx];
    destruct Hb4 as [->|[->|[->| ->]]]; split; vm_compute; done. }
  rewrite <- E at 1. rewrite <- Z.land_assoc, (Z.land_comm 0xf0), hw_pmask. done.
Qed.

(** The target byte of every interrupt of a word of four. *)
Definition mask_word (m : Z) : Z := let m := Z.lor m (u32 (Z.shiftl m 8)) in Z.lor m (u32 (Z.shiftl m 16)).

Lemma mask_byte c b c' : 0 <= c < 8 -> 0 <= b < 4 -> 0 <= c' < 8 -> Z.testbit (Z.shiftr (u32 (mask_word (2 ^ c))) (8 * b)) c' = (c' =? c).
Proof.
  intros Hc Hb Hc'.
  assert (forallb (fun c => forallb (fun b => forallb (fun c' => Bool.eqb (Z.testbit (Z.shiftr (u32 (mask_word (2 ^ c))) (8 * b)) c') (c' =? c))
    (seqZ 0 8)) (seqZ 0 4)) (seqZ 0 8) = true) as E by (vm_compute; done).
  rewrite forallb_forall in E. specialize (E c ltac:(apply list_elem_of_In, elem_of_seqZ; lia)).
  rewrite forallb_forall in E. specialize (E b ltac:(apply list_elem_of_In, elem_of_seqZ; lia)).
  rewrite forallb_forall in E. specialize (E c' ltac:(apply list_elem_of_In, elem_of_seqZ; lia)).
  by apply Bool.eqb_prop in E.
Qed.

(** What the cpu [c] does to its own lines and interface. *)
Definition cpu_setup (c : Z) (g : gic) : gic :=
  map_cif (cif_set c GICC_CTLR 0x201) (map_cif (cif_set c GICC_BPR 0) (map_cif (cif_set c GICC_PMR 0xff)
    (map_prio (updr lines 16 32 4 c (fun _ _ _ => 0xa0)) (map_prio (updr lines 0 16 4 c (fun _ _ _ => 0x90))
      (map_enable (upd lines 32 c 0 (fun _ b x => Z.testbit 0x0000ffff b || x))
        (map_enable (upd lines 32 c 0 (fun _ b x => if (b <? 16) && negb sgi_off then x else negb (Z.testbit 0xffff0000 b) && x)) g)))))).

Lemma prio_loop x a b c s :
  x ∈ [0xa0; 0x90] -> gicv2_dbase s.1 = dva -> 0 <= c < ncpu -> a mod 4 = 0 -> b mod 4 = 0 -> 0 <= a <= b -> b <= 1024 ->
  let s' := for_steps a b 4 (fun i => writel_gicd c (word4 x) (GICD_IPRIORITYR + i / 4 * 4)) s in
  s'.1 = s.1 /\ hw_view s'.2 ≡ map_prio (updr lines a b 4 c (fun _ _ _ => x)) (hw_view s.2).
Proof.
  intros Hx Hd Hc Ha Hb Hab Hb1.
  refine (for_steps_view map_prio (fun s : gicv2 * D => hw_view s.2) (fun s' => s'.1 = s.1) _ lines 4 c (fun _ _ _ => x) a b s _ Ha Hb _ eq_refl _); [lia|lia|].
  intros i s1 Hi Hm H1. split; [done|]. unfold writel_gicd. cbn [fst snd]. rewrite H1, Hd, hw_ipriorityr by first [done|dlia].
  apply lf_ext. intros m c' j. unfold upd. destruct (_ && _ && _); [|done]. apply prio_byte; [done|]. apply Z.mod_pos_bound. lia.
Qed.

Lemma cpu_init_view c s :
  gicv2_dbase s.1 = dva -> gicv2_cbase s.1 = cva -> length (gic_cpu_mask s.1) = 8%nat -> 0 <= c < ncpu ->
  exists s', gicv2_cpu_init c s = Some s' /\
    s'.1 = mk_gicv2 dva cva (gicv2_hbase s.1) (gicv2_nr_lines s.1) (<[Z.to_nat c := 2 ^ c]> (gic_cpu_mask s.1)) /\
    hw_view s'.2 ≡ cpu_setup c (hw_view s.2).
Proof.
  intros Hd Hcb Hlen Hc. destruct hw_cpus as [Hn _]. destruct s as [g d]. cbn [fst snd] in *.
  unfold gicv2_cpu_init, readl_gicd. cbn [fst snd]. rewrite Hd.
  pose proof (hw_read_dist c GICD_ITARGETSR d Hc ltac:(unfold GICD_ITARGETSR; lia)) as Hr.
  pose proof (hw_read_target c d Hc) as Ht. destruct (readl c (dva + GICD_ITARGETSR) d) as [t d']. cbn [fst snd] in *. subst d'.
  rewrite Ht. unfold set_cpu_mask. rewrite Hlen, (proj2 (Z.leb_le 0 c)), (proj2 (Z.ltb_lt c (Z.of_nat 8))) by lia. cbn [andb mbind option_bind].
  rewrite (proj2 (Z.eqb_neq (2 ^ c) 0)) by lia. cbn [mbind option_bind]. eexists. split; [reflexivity|].
  assert (u8 (2 ^ c) = 2 ^ c) as -> by (unfold u8; apply Z.mod_small; split; [lia|apply Z.pow_lt_mono_r; lia]).
  rewrite Hd, Hcb. set (g1 := mk_gicv2 dva cva _ _ _).
  set (s2 := writel_gicd c 0xffff (GICD_ISENABLER) _).
  destruct (prio_loop 0x90 0 16 c s2) as [E3 V3]; [set_solver|done|done|done|done|lia|lia|].
  set (s3 := for_steps 0 16 4 _ s2) in *.
  destruct (prio_loop 0xa0 16 32 c s3) as [E4 V4]; [set_solver|by rewrite E3|done|done|done|lia|lia|].
  set (s4 := for_steps 16 32 4 _ s3) in *. split; [cbn [writel_gicc fst]; rewrite E4, E3; done|].
  assert (gicv2_cbase s4.1 = cva) as Hcb4 by (rewrite E4, E3; done). unfold writel_gicc. cbn [fst snd]. rewrite Hcb4.
  rewrite !hw_cif by auto. rewrite V4, V3. unfold cpu_setup. unfold s2, writel_gicd. cbn [fst snd gicv2_dbase g1].
  rewrite (hw_isenabler c _ 0), (hw_icenabler c _ 0) by first [done|lia]. done.
Qed.

(** What the first cpu does to the shared lines; [nl] is the number of lines of whole
    registers. *)
Definition dist_setup (c nl : Z) (g : gic) : gic :=
  set_on true (map_enable (updr lines 32 nl 32 c (fun _ _ _ => false)) (map_prio (updr lines 32 nl 4 c (fun _ _ _ => 0xa0))
    (map_route (updr lines 32 nl 4 c (fun c' _ _ => (0 <=? c') && (c' <? ncpu) && (c' =? c))) (map_edge (updr lines 32 nl 16 c (fun _ _ _ => false)) (set_on false g))))).

Lemma edge_loop b c s :
  gicv2_dbase s.1 = dva -> 0 <= c < ncpu -> b mod 16 = 0 -> 32 <= b <= 1024 ->
  let s' := for_steps 32 b 16 (fun i => writel_gicd c 0x0 (GICD_ICFGR + i / 16 * 4)) s in
  s'.1 = s.1 /\ hw_view s'.2 ≡ map_edge (updr lines 32 b 16 c (fun _ _ _ => false)) (hw_view s.2).
Proof.
  intros Hd Hc Hb Hab.
  refine (for_steps_view map_edge (fun s : gicv2 * D => hw_view s.2) (fun s' => s'.1 = s.1) _ lines 16 c (fun _ _ _ => false) 32 b s _ _ Hb _ eq_refl _); [lia|done|lia|].
  intros i s1 Hi Hm H1. split; [done|]. unfold writel_gicd. cbn [fst snd]. rewrite H1, Hd, hw_icfgr by first [done|dlia].
  rewrite (proj2 (Z.eqb_neq (i / 16) 1)) by dlia. cbn [andb]. apply lf_ext. intros m c' j. unfold upd. destruct (_ && _ && _); [|done].
  change (u32 0) with 0. apply Z.bits_0.
Qed.

Lemma route_loop b c s :
  gicv2_dbase s.1 = dva -> 0 <= c < ncpu -> b mod 4 = 0 -> 32 <= b <= 1024 ->
  let s' := for_steps 32 b 4 (fun i => writel_gicd c (mask_word (2 ^ c)) (GICD_ITARGETSR + i / 4 * 4)) s in
  s'.1 = s.1 /\ hw_view s'.2 ≡ map_route (updr lines 32 b 4 c (fun c' _ _ => (0 <=? c') && (c' <? ncpu) && (c' =? c))) (hw_view s.2).
Proof.
  intros Hd Hc Hb Hab. destruct hw_cpus as [Hn _].
  refine (for_steps_view map_route (fun s : gicv2 * D => hw_view s.2) (fun s' => s'.1 = s.1) _ lines 4 c _ 32 b s _ _ Hb _ eq_refl _); [lia|done|lia|].
  intros i s1 Hi Hm H1. split; [done|]. unfold writel_gicd. cbn [fst snd]. rewrite H1, Hd, hw_itargetsr by first [done|dlia].
  apply lf_ext. intros m c' j. unfold upd. destruct (_ && _ && _); [|done].
  destruct (Z.leb_spec 0 c'), (Z.ltb_spec c' ncpu); try done. cbn [andb]. apply mask_byte; [lia| |lia]. apply Z.mod_pos_bound. lia.
Qed.

Lemma disable_loop b c s :
  gicv2_dbase s.1 = dva -> 0 <= c < ncpu -> b mod 32 = 0 -> 32 <= b <= 1024 ->
  let s' := for_steps 32 b 32 (fun i => writel_gicd c 0xffffffff (GICD_ICENABLER + i / 32 * 4)) s in
  s'.1 = s.1 /\ hw_view s'.2 ≡ map_enable (updr lines 32 b 32 c (fun _ _ _ => false)) (hw_view s.2).
Proof.
  intros Hd Hc Hb Hab.
  refine (for_steps_view map_enable (fun s : gicv2 * D => hw_view s.2) (fun s' => s'.1 = s.1) _ lines 32 c _ 32 b s _ _ Hb _ eq_refl _); [lia|done|lia|].
  intros i s1 Hi Hm H1. split; [done|]. unfold writel_gicd. cbn [fst snd]. rewrite H1, Hd, hw_icenabler by first [done|dlia].
  apply lf_ext. intros m c' j. unfold upd. destruct (_ && _ && _); [|done].
  rewrite (proj2 (Z.eqb_neq (i / 32) 0)) by dlia. cbn [andb]. change (u32 0xffffffff) with (Z.ones 32).
  pose proof (Z.mod_pos_bound j 32 ltac:(lia)). by rewrite Z.ones_spec_low by lia.
Qed.

Lemma dist_init_view c s :
  gicv2_dbase s.1 = dva -> 0 <= c < ncpu ->
  exists nl s', lines = Z.min 1020 nl /\ 32 <= nl <= 1024 /\ gicv2_dist_init c s = s' /\ s'.1 = set_nr_lines lines s.1 /\
    hw_view s'.2 ≡ dist_setup c nl (hw_view s.2).
Proof.
  intros Hd Hc. destruct hw_cpus as [Hn _]. destruct s as [g d]. cbn [fst snd] in *. unfold gicv2_dist_init, readl_gicd at 1. cbn [fst snd]. rewrite Hd.
  pose proof (hw_read_dist c GICD_ITARGETSR d Hc ltac:(unfold GICD_ITARGETSR; lia)) as Hr.
  pose proof (hw_read_target c d Hc) as Ht. destruct (readl c (dva + GICD_ITARGETSR) d) as [t d']. cbn [fst snd] in *. subst d'.
  rewrite Ht, (proj2 (Z.eqb_neq (2 ^ c) 0)) by lia. fold (mask_word (2 ^ c)).
  unfold readl_gicd at 1. cbn [fst snd writel_gicd]. rewrite Hd. set (d0 := writel c _ (dva + GICD_CTLR) d).
  pose proof (hw_read_dist c GICD_TYPER d0 Hc ltac:(unfold GICD_TYPER; lia)) as Hr1. pose proof (hw_read_typer c d0 Hc) as Hlines.
  destruct (readl c (dva + GICD_TYPER) d0) as [type d1]. cbn [fst snd] in *. subst d1.
  unfold readl_gicd. cbn [fst snd]. rewrite Hd. pose proof (hw_read_dist c GICD_IIDR d0 Hc ltac:(unfold GICD_IIDR; lia)) as Hr2.
  destruct (readl c (dva + GICD_IIDR) d0) as [iidr d1]. cbn [fst snd] in *. subst d1.
  unfold GICD_TYPE_LINES. set (nl := 32 * (Z.land type 0x1f + 1)) in *. exists nl. eexists.
  assert (32 <= nl <= 1024 /\ nl mod 32 = 0) as [Hnl Hmod].
  { unfold nl. change 0x1f with (Z.ones 5). rewrite Z.land_ones by lia. dlia. }
  split; [done|]. split; [done|]. split; [reflexivity|].
  destruct (edge_loop nl c (g, d0)) as [E1 V1]; [done|done|dlia|done|]. set (s1 := for_steps 32 nl 16 _ _) in *.
  destruct (route_loop nl c s1) as [E2 V2]; [by rewrite E1|done|dlia|done|]. set (s2 := for_steps 32 nl 4 _ s1) in *.
  destruct (prio_loop 0xa0 32 nl c s2) as [E3 V3]; [set_solver|by rewrite E2, E1|done|done|dlia|lia|lia|]. set (s3 := for_steps 32 nl 4 _ s2) in *.
  destruct (disable_loop nl c s3) as [E4 V4]; [by rewrite E3, E2, E1|done|done|done|]. set (s4 := for_steps 32 nl 32 _ s3) in *.
  assert (s4.1 = g) as Eg by (rewrite E4, E3, E2, E1; done). unfold writel_gicd. cbn [fst snd gicv2_dbase set_nr_lines]. rewrite Eg, Hd, Hlines. split; [done|].
  rewrite hw_ctlr by done. rewrite V4, V3, V2, V1. cbn [snd]. unfold d0. rewrite hw_ctlr by done. done.
Qed.

(** The shared lines are off, level sensitive, of normal priority and routed to the
    first cpu; the first [k] cpus take software interrupts with a higher priority than
    the others, their private lines are off, and their interfaces deliver. *)
Record ready (k : Z) (g : gic) : Prop := mk_ready {
  rd_on : g_on g = true;
  rd_shared : forall c i, 0 <= c < ncpu -> 32 <= i < lines ->
    g_enable g c i = false /\ g_edge g c i = false /\ g_prio g c i = 0xa0;
  rd_route : forall c i, 0 <= c -> 32 <= i < lines -> g_route g c i = (c =? 0);
  rd_local : forall c i, 0 <= c < k -> 0 <= i < 32 -> g_enable g c i = (i <? 16) /\ g_prio g c i = if i <? 16 then 0x90 else 0xa0;
  rd_cif : forall c, 0 <= c < k -> g_cif g c GICC_PMR = 0xff /\ g_cif g c GICC_BPR = 0 /\ g_cif g c GICC_CTLR = 0x201;
}.

#[global] Instance ready_proper k : Proper ((≡) ==> iff) (ready k).
Proof.
  assert (forall a b : gic, a ≡ b -> ready k a -> ready k b) as Hgo.
  { intros a b (E1 & E2 & E3 & E4 & E5 & E6 & E7 & E8 & E9) [R1 R2 Rr R3 R4]. split.
    - by rewrite <- E1.
    - intros c i Hc Hi. rewrite <- (E2 c i), <- (E4 c i), <- (E5 c i). by apply R2.
    - intros c i Hc Hi. rewrite <- (E6 c i). by apply Rr.
    - intros c i Hc Hi. rewrite <- (E2 c i), <- (E5 c i). by apply R3.
    - intros c Hc. rewrite <- !(E8 c _). by apply R4. }
  intros a b E. split; [by apply Hgo|apply Hgo; by symmetry].
Qed.

Lemma dist_setup_ready nl g : lines = Z.min 1020 nl -> 32 <= nl <= 1024 -> ready 0 (dist_setup 0 nl g).
Proof.
  intros Hl Hnl. destruct hw_cpus as [Hn _]. split; [done| | |intros; lia|intros; lia]; intros c i Hc Hi.
  all: cbn [dist_setup set_on map_enable map_prio map_route map_edge g_enable g_edge g_prio g_route]; unfold updr, banked;
    rewrite (proj2 (Z.leb_le 32 i)), (proj2 (Z.ltb_lt i nl)), (proj2 (Z.ltb_lt i lines)) by lia; cbn [andb orb].
  1: done.
  rewrite (proj2 (Z.leb_le 0 c)) by lia. cbn [andb]. destruct (Z.eqb_spec c 0) as [->|]; [by rewrite (proj2 (Z.ltb_lt 0 ncpu)) by lia|by rewrite andb_false_r].
Qed.

Lemma setup_bits i : 0 <= i < 32 ->
  Z.testbit 0x0000ffff i = (i <? 16) /\ Z.testbit 0xffff0000 i = negb (i <? 16).
Proof.
  intros Hi. assert (forallb (fun i => Bool.eqb (Z.testbit 0x0000ffff i) (i <? 16) && Bool.eqb (Z.testbit 0xffff0000 i) (negb (i <? 16))) (seqZ 0 32) = true) as E by (vm_compute; done).
  rewrite forallb_forall in E. specialize (E i ltac:(apply list_elem_of_In, elem_of_seqZ; lia)).
  apply andb_true_iff in E as [E1%Bool.eqb_prop E2%Bool.eqb_prop]. done.
Qed.

Lemma cpu_setup_ready k g : 32 <= lines -> 0 <= k < ncpu -> ready k g -> ready (k + 1) (cpu_setup k g).
Proof.
  intros Hl Hk [R1 R2 Rr R3 R4]. split; [done| |exact Rr| |].
  - intros c i Hc Hi. destruct (R2 c i Hc Hi) as (S1 & S2 & S3).
    cbn [cpu_setup map_enable map_prio map_cif g_enable g_edge g_prio g_route]. unfold upd, updr.
    rewrite (proj2 (Z.eqb_neq (i / 32) 0)), (proj2 (Z.ltb_ge i 32)), (proj2 (Z.ltb_ge i 16)) by dlia. by rewrite !andb_false_r.
  - intros c i Hc Hi. cbn [cpu_setup map_enable map_prio map_cif g_enable g_prio]. unfold upd, updr, banked.
    rewrite (proj2 (Z.eqb_eq (i / 32) 0)), (proj2 (Z.ltb_lt i lines)), (proj2 (Z.leb_gt 32 i)), (Z.mod_small i 32) by dlia.
    rewrite (proj2 (Z.leb_le 0 i)), (proj2 (Z.ltb_lt i 32)) by lia. destruct (setup_bits i Hi) as [B1 B2]. cbn [andb orb].
    destruct (Z.eqb_spec c k) as [->|Hne].
    + rewrite B1, B2, !andb_true_r. destruct (Z.ltb_spec i 16), (Z.leb_spec 16 i); try lia; by cbn; rewrite ?andb_false_r.
    + rewrite !andb_false_r. apply R3; lia.
  - intros c Hc. cbn [cpu_setup map_cif g_cif]. unfold cif_set. destruct (Z.eqb_spec c k) as [->|Hne]; [done|]. cbn [andb]. apply R4. lia.
Qed.

(** The other cpus start in their order. *)
Lemma secondary_ready n k s :
  Z.of_nat n + k = ncpu -> 0 <= k -> gicv2_dbase s.1 = dva -> gicv2_cbase s.1 = cva -> length (gic_cpu_mask s.1) = 8%nat ->
  (forall c, 0 <= c < k -> gic_cpu_mask s.1 !! Z.to_nat c = Some (2 ^ c)) -> ready k (hw_view s.2) ->
  exists s', secondary_inits (seqZ k (Z.of_nat n)) s = Some s' /\ gicv2_ok s' /\ gicv2_nr_lines s'.1 = gicv2_nr_lines s.1 /\ ready ncpu (hw_view s'.2).
Proof.
  destruct hw_cpus as [Hn _].
  revert k s. induction n as [|n IH]; intros k s Hnk Hk Hd Hcb Hlen Hm Hr.
  { exists s. split; [done|]. assert (k = ncpu) as -> by lia. done. }
  rewrite seqZ_cons by lia. cbn [secondary_inits]. unfold gicv2_secondary_init.
  destruct (cpu_init_view k s Hd Hcb Hlen ltac:(lia)) as (s1 & -> & E1 & V1). cbn [mbind option_bind].
  destruct (IH (k + 1) s1) as (s' & E' & Hok & Hnl & Hr'); [lia|lia|by rewrite E1..|by rewrite E1; cbn; rewrite length_insert| | |].
  - intros c Hc. rewrite E1. cbn [gic_cpu_mask]. destruct (decide (c = k)) as [->|Hne].
    + rewrite list_lookup_insert_eq by lia. done.
    + rewrite list_lookup_insert_ne by lia. apply Hm. lia.
  - rewrite V1. apply cpu_setup_ready; [by apply (lines_max 0 s.2); lia|lia|done].
  - exists s'. replace (Z.pred (Z.of_nat (S n))) with (Z.of_nat n) by lia. replace (Z.succ k) with (k + 1) by lia. rewrite E', Hnl, E1. done.
Qed.

(** The first cpu starts the controller, the others follow. *)
Definition gicv2_boot (translate : Z -> Z * Z) (io_remap : Z -> Z -> Z) (d : D) : option (gicv2 * D) :=
  '(_, s) ← gicv2_init 0 translate io_remap (gicv2_initial, d); secondary_inits (seqZ 1 (ncpu - 1)) s.

Section boot.
Context (translate : Z -> Z * Z) (io_remap : Z -> Z -> Z) (d : D).
Hypothesis Hranges : forall i, 0 <= i < 3 -> (translate i).1 <> 0 /\ (translate i).2 <> 0.
Hypothesis Hdva : io_remap (translate 0).1 (translate 0).2 = dva.
(** Where the interface of the cpu is: 60 KB into a range of 128 KB in which it is
    repeated, so that the register at 4 KB is reached, else at the start. *)
Hypothesis Hcva :
  let base := io_remap (translate 1).1 (translate 1).2 in
  cva = if ((translate 1).2 =? 128 * 1024) && (Z.land (fst (readl 0 (base + GICC_IIDR) d)) 0xfff0fff =? 0x0202043B)
            && (fst (readl 0 (base + GICC_IIDR) d) =? fst (readl 0 (base + (GICC_IIDR + 0xf000)) d))
        then base + 0xf000 else base.

Lemma is_aliased_spec g :
  gicv2_cbase g = io_remap (translate 1).1 (translate 1).2 ->
  gicv2_is_aliased 0 (translate 1).1 (translate 1).2 (g, d) = (negb (cva =? gicv2_cbase g), (g, d)).
Proof.
  intros Hg. destruct hw_cpus as [Hn _]. unfold gicv2_is_aliased, SIZE_1K, readl_gicc. cbn [fst snd]. rewrite Hg. pose proof Hcva as Hv. cbn zeta in Hv.
  set (base := io_remap (translate 1).1 (translate 1).2) in *. clearbody base. change (1024 * 128) with (128 * 1024).
  destruct (Z.eqb_spec (translate 1).2 (128 * 1024)) as [E|E]; cbn [negb andb] in Hv |- *; [|by rewrite Hv, Z.eqb_refl].
  assert (cva = base \/ cva = base + 0xf000) as Hb by (destruct (_ && _) in Hv; auto).
  assert (snd (readl 0 (base + GICC_IIDR) d) = d) as R1.
  { destruct Hb as [<-|Hb]; [apply hw_read_iidr; [lia|by left]|]. replace (base + GICC_IIDR) with (cva + (GICC_IIDR - 0xf000)) by lia. apply hw_read_iidr; [lia|by right; right]. }
  assert (snd (readl 0 (base + (GICC_IIDR + 0xf000)) d) = d) as R2.
  { destruct Hb as [<-|Hb]; [apply hw_read_iidr; [lia|by right; left]|]. replace (base + (GICC_IIDR + 0xf000)) with (cva + GICC_IIDR) by lia. apply hw_read_iidr; [lia|by left]. }
  destruct (readl 0 (base + GICC_IIDR) d) as [v1 d1]. cbn [fst snd] in Hv, R1 |- *. subst d1. rewrite Hg.
  destruct (readl 0 (base + (GICC_IIDR + 0xf000)) d) as [v2 d2]. cbn [fst snd] in Hv, R2 |- *. subst d2.
  f_equal. destruct (_ && _); rewrite Hv; [by rewrite (proj2 (Z.eqb_neq _ _)) by lia|by rewrite Z.eqb_refl].
Qed.

Lemma boot_ready : exists s, gicv2_boot translate io_remap d = Some s /\ gicv2_ok s /\ gicv2_nr_lines s.1 = lines /\ ready ncpu (hw_view s.2).
Proof.
  destruct hw_cpus as [Hn _]. unfold gicv2_boot, gicv2_init.
  pose proof (Hranges 0 ltac:(lia)) as [P0 P1]. pose proof (Hranges 1 ltac:(lia)) as [P2 P3]. pose proof (Hranges 2 ltac:(lia)) as [P4 P5].
  pose proof is_aliased_spec as Hal. pose proof Hcva as Hv. cbn zeta in Hv. pose proof Hdva as Hdv.
  destruct (translate 0) as [a0 a1], (translate 1) as [a2 a3], (translate 2) as [a4 a5]. cbn [fst snd] in P0, P1, P2, P3, P4, P5, Hal, Hv, Hdv.
  rewrite (proj2 (Z.eqb_neq a0 0) P0), (proj2 (Z.eqb_neq a1 0) P1), (proj2 (Z.eqb_neq a2 0) P2), (proj2 (Z.eqb_neq a3 0) P3),
    (proj2 (Z.eqb_neq a4 0) P4), (proj2 (Z.eqb_neq a5 0) P5). cbn [orb gicv2_dbase gicv2_cbase gicv2_hbase gicv2_nr_lines gic_cpu_mask gicv2_initial].
  rewrite Hal by done. cbn [fst snd gicv2_dbase gicv2_cbase gicv2_hbase gicv2_nr_lines gic_cpu_mask]. rewrite Hdv.
  set (g := if negb _ then _ else _).
  assert (g = mk_gicv2 dva cva (io_remap a4 a5) 0 (gic_cpu_mask gicv2_initial)) as ->.
  { unfold g. destruct (Z.eqb_spec cva (io_remap a2 a3)) as [E|E]; cbn [negb]; [by rewrite <- E|].
    destruct (_ && _) in Hv; [by rewrite Hv|done]. }
  destruct (dist_init_view 0 (mk_gicv2 dva cva (io_remap a4 a5) 0 (gic_cpu_mask gicv2_initial), d)) as (nl & s1 & Hl & Hnl & -> & E1 & V1); [done|lia|].
  destruct (cpu_init_view 0 s1) as (s2 & -> & E2 & V2); [by rewrite E1..|lia|]. cbn [mbind option_bind].
  destruct (secondary_ready (Z.to_nat (ncpu - 1)) 1 s2) as (s' & E' & Hok & Hnr & Hr).
  - lia.
  - lia.
  - by rewrite E2.
  - by rewrite E2.
  - by rewrite E2, E1.
  - intros c Hc. assert (c = 0) as -> by lia. by rewrite E2, E1.
  - rewrite V2. apply (cpu_setup_ready 0); [by apply (lines_max 0 d); lia|lia|]. rewrite V1. by apply dist_setup_ready.
  - exists s'. rewrite Z2Nat.id in E' by lia. rewrite E'. split; [done|]. split; [done|]. rewrite Hnr, E2, E1. done.
Qed.

(** C13: A system on a GICv2 starts and stays in agreement with its controller, where
    the interface of each cpu has the number of the cpu (the driver assumes it, see
    [affinity_by_interface]), the controller has at least as many lines as the
    descriptors, and the callers set the affinity of shared interrupts only.  After
    the first cpu has run [gicv2_init] and each of the others [gicv2_secondary_init],
    every shared line is off, level sensitive, of normal priority and routed to the
    first cpu, and every cpu takes software interrupts; from there any sequence of
    operations of the interrupt core, on any cpus, those that handlers perform
    included, returns, a line whose descriptor
    says masked is disabled, a shared line with a handler that is not masked is
    enabled, and every shared line goes to the cpu of its descriptor alone. *)
Theorem gicv2_system_correct CONFIG_NR_SPI_IRQS run_handler raised ops :
  0 <= CONFIG_NR_SPI_IRQS -> MAX_IRQ_COUNT CONFIG_NR_SPI_IRQS <= lines -> Forall (fun i => 0 <= i) raised ->
  (forall h hno pdata i, 0 <= hno -> Forall (irq_op_valid (D := gicv2 * D)) (run_handler h hno pdata i).2) -> Forall (op_valid (D := gicv2 * D) ncpu) ops ->
  exists s i s', gicv2_boot translate io_remap d = Some s /\ ready ncpu (hw_view s.2) /\
    run_ops (D := gicv2 * D) ncpu CONFIG_NR_SPI_IRQS run_handler ops (init_irqs ncpu CONFIG_NR_SPI_IRQS raised, s) = Some (i, s') /\
    coupled (D := gicv2 * D) ncpu CONFIG_NR_SPI_IRQS i s'.
Proof.
  intros Hs Hm Hp Hhd Hops. destruct hw_cpus as [Hn _]. pose proof (lines_max 0 d ltac:(lia)) as Hl.
  destruct boot_ready as (s & Hb & Hok & _ & Hr). exists s.
  destruct (irq_core_drives_chip (D := gicv2 * D) (H := gicv2_chip) ncpu CONFIG_NR_SPI_IRQS run_handler ltac:(lia) Hm Hhd ops (init_irqs ncpu CONFIG_NR_SPI_IRQS raised) s) as (i & s' & E & Hc); [done|by apply init_irqs_inv; try done; [lia|unfold BAD_IRQ; cbn in Hm; lia]| |done|by exists i, s'].
  destruct (init_irqs_inv ncpu CONFIG_NR_SPI_IRQS raised) as [Ho Hpe _]; [lia|done|unfold BAD_IRQ; cbn in Hm; lia|done|].
  split; [done|done|done|]. intros cpu irq x Hc Hi Hx. pose proof (get_desc_max _ _ _ _ _ Hx) as Hmax.
  assert (x = mk_desc DEFAULT_IRQ_HANDLER 0 0 0 0) as ->.
  { unfold get_irq_desc_cpu, init_irqs in Hx; cbn [percpu_irq_descs spi_irq_descs] in Hx. destruct (_ <=? irq); [done|].
    destruct (_ <? _); (destruct (_ !! _) as [y|] eqn:E in Hx; [|done]); apply lookup_replicate_1 in E as [-> _]; by injection Hx as <-. }
  split; [done|done|]. intros H32 c Hc0. apply (rd_route _ _ Hr); [done|]. cbn in Hm. lia.
Qed.
End boot.
End chip.

(** ** What the driver does not do *)
Section deviations.
Context {D : Type} `{Gicv2Hw D} {dva cva lines ncpu pmask : Z} {iface : Z -> Z} {ppi_cfg sgi_off : bool}
  `{HL : !Gicv2Laws D dva cva lines ncpu pmask iface ppi_cfg sgi_off}.

(** The mask that a cpu read for its interface is not used for the affinity: the
    interrupt goes to the cpu whose interface has the number of the cpu asked for. *)
Lemma affinity_by_interface c irq pcpu (s : gicv2 * D) c' :
  gicv2_dbase s.1 = dva -> 0 <= c < ncpu -> 32 <= irq < lines -> 0 <= pcpu < 8 -> 0 <= c' < ncpu ->
  g_route (hw_view (gicv2_set_irq_affinity c irq pcpu s).2.2) c' irq = (iface c' =? pcpu).
Proof.
  intros Hd Hc Hi Hp Hc'. destruct (hw_cpus (D := D)) as [Hn Hif]. pose proof (hw_read_typer c s.2 Hc) as Hl. unfold gicv2_set_irq_affinity, NR_GIC_CPU_IF.
  rewrite (proj2 (Z.ltb_ge 8 pcpu)), (proj2 (Z.ltb_ge irq 32)) by lia. unfold writeb_gicd. cbn [orb fst snd]. rewrite Hd.
  unfold u32. rewrite (Z.mod_small (GICD_ITARGETSR + irq)) by (unfold GICD_ITARGETSR; lia).
  destruct (hw_itargetsr_byte c (u8 (Z.shiftl 1 pcpu)) irq s.2 Hc Hi) as (_ & _ & _ & _ & _ & E & _). rewrite (E c' irq). cbn.
  rewrite Z.eqb_refl, (proj2 (Z.leb_le 0 c')), (proj2 (Z.ltb_lt c' ncpu)) by lia. cbn [andb].
  unfold u8. rewrite Z.shiftl_1_l, Z.mod_small by (split; [lia|apply Z.pow_lt_mono_r; lia]).
  destruct (Z.eqb_spec (iface c') pcpu) as [->|]; [by rewrite Z.pow2_bits_true by lia|by rewrite Z.pow2_bits_false by lia].
Qed.

(** The cpu 8 is accepted, and the interrupt is delivered to no cpu any more. *)
Lemma affinity_of_cpu_8 c irq (s : gicv2 * D) c' :
  gicv2_dbase s.1 = dva -> 0 <= c < ncpu -> 32 <= irq < lines ->
  (gicv2_set_irq_affinity c irq 8 s).1 = 0 /\ g_route (hw_view (gicv2_set_irq_affinity c irq 8 s).2.2) c' irq = false.
Proof.
  intros Hd Hc Hi. pose proof (hw_read_typer c s.2 Hc) as Hl. unfold gicv2_set_irq_affinity, NR_GIC_CPU_IF.
  rewrite (proj2 (Z.ltb_ge irq 32)) by lia. unfold writeb_gicd. cbn [Z.ltb orb fst snd]. rewrite Hd. split; [done|].
  change (8 <? 8) with false. cbn [orb fst snd]. rewrite Hd || idtac.
  unfold u32. rewrite (Z.mod_small (GICD_ITARGETSR + irq)) by (unfold GICD_ITARGETSR; lia).
  destruct (hw_itargetsr_byte c (u8 (Z.shiftl 1 8)) irq s.2 Hc Hi) as (_ & _ & _ & _ & _ & E & _). rewrite (E c' irq). cbn.
  rewrite Z.eqb_refl. change (u8 (Z.shiftl 1 8)) with 0. rewrite Z.bits_0. by rewrite andb_false_r.
Qed.

(** A private interrupt that is requested for all cpus stays as it was: the function
    that should enable it on a cpu does nothing. *)
Lemma percpu_request_not_enabled c irq cpu (s : gicv2 * D) c' i :
  g_enable (hw_view (gicv2_unmask_irq_cpu c irq cpu s).2) c' i = g_enable (hw_view s.2) c' i.
Proof. done. Qed.

(** The priority of one line, and software interrupts in the two other modes. *)
Lemma gicv2_priority_correct c irq pr (s : gicv2 * D) :
  gicv2_dbase s.1 = dva -> 0 <= c < ncpu -> 0 <= irq < lines -> 0 <= pr < 256 ->
  (gicv2_set_irq_priority c irq pr s).1 = 0 /\
  hw_view (gicv2_set_irq_priority c irq pr s).2.2 ≡ map_prio (set1 c irq (Z.land pr pmask)) (hw_view s.2).
Proof.
  intros Hd Hc Hi Hp. split; [done|]. pose proof (hw_read_typer c s.2 Hc) as Hl. unfold gicv2_set_irq_priority, writeb_gicd. cbn [fst snd]. rewrite Hd.
  unfold u32, u8. rewrite (Z.mod_small (GICD_IPRIORITYR + irq)) by (unfold GICD_IPRIORITYR; lia). rewrite (Z.mod_small pr) by lia.
  rewrite hw_ipriorityr_byte by done. apply lf_ext. intros m. apply upd_one. lia.
Qed.

Lemma mode_word k sgi : k ∈ [1; 2] -> 0 <= sgi < 16 ->
  Z.land (u32 (Z.lor (Z.shiftl k 24) sgi)) 15 = sgi /\ Z.land (Z.shiftr (u32 (Z.lor (Z.shiftl k 24) sgi)) 24) 3 = k.
Proof.
  intros Hk Hs.
  assert (forallb (fun k => forallb (fun sgi => (Z.land (u32 (Z.lor (Z.shiftl k 24) sgi)) 15 =? sgi) && (Z.land (Z.shiftr (u32 (Z.lor (Z.shiftl k 24) sgi)) 24) 3 =? k)) (seqZ 0 16)) [1; 2] = true) as E by (vm_compute; done).
  rewrite forallb_forall in E. specialize (E k ltac:(by apply list_elem_of_In)). rewrite forallb_forall in E.
  specialize (E sgi ltac:(apply list_elem_of_In, elem_of_seqZ; lia)). apply andb_true_iff in E as [E1%Z.eqb_eq E2%Z.eqb_eq]. done.
Qed.

Theorem gicv2_sgi_modes n c sgi mask (s : gicv2 * D) :
  gicv2_dbase s.1 = dva -> 0 <= c < ncpu -> 0 <= sgi < 16 ->
  (exists s', gicv2_send_sgi n c sgi SGI_TO_SELF mask s = Some s' /\ hw_view s'.2 ≡ map_pend (set1 c sgi true) (hw_view s.2)) /\
  (exists s', gicv2_send_sgi n c sgi SGI_TO_OTHERS mask s = Some s' /\
    hw_view s'.2 ≡ map_pend (fun m c' i => if (i =? sgi) && ((0 <=? c') && (c' <? ncpu) && negb (c' =? c)) then true else m c' i) (hw_view s.2)).
Proof.
  intros Hd Hc Hs. split; eexists; (split; [reflexivity|]); unfold writel_gicd; cbn [fst snd]; rewrite Hd, hw_sgir by done; apply lf_ext; intros m c' i; unfold sgi_hits.
  - destruct (mode_word 2 sgi ltac:(set_solver) Hs) as [E1 E2]. unfold GICD_SGI_TARGET_SELF, GICD_SGI_TARGET_LIST_SHIFT. rewrite E1, E2. unfold set1.
    destruct (Z.eqb_spec i sgi) as [->|]; [|done]. cbn [andb]. unfold banked. rewrite (proj2 (Z.leb_gt 32 sgi)) by lia. cbn [orb].
    destruct (Z.eqb_spec c' c) as [->|]; [by rewrite (proj2 (Z.leb_le 0 c)), (proj2 (Z.ltb_lt c ncpu)) by lia|by rewrite andb_false_r].
  - destruct (mode_word 1 sgi ltac:(set_solver) Hs) as [E1 E2]. unfold GICD_SGI_TARGET_OTHERS, GICD_SGI_TARGET_LIST_SHIFT. by rewrite E1, E2.
Qed.
End deviations.

(** ** A controller of two cpus and 64 lines *)
Module SimGicv2.
Definition dva : Z := 0x10000000.
Definition cva : Z := 0x20000000.
Definition lines : Z := 64.
Definition ncpu : Z := 2.

(** Shared lines are kept once. *)
Definition view (g : gic) : gic := map_edge (fun m c i => m (if 32 <=? i then 0 else c) i) g.

Definition cfg_bit (g : gic) (c n b : Z) : Z := if g_edge (view g) c (16 * n + b) then 2 ^ (2 * b + 1) else 0.

Definition read (c a : Z) (g : gic) : Z * gic :=
  let off := a - dva in
  if off =? GICD_TYPER then (1, g)
  else if off =? GICD_ITARGETSR then (2 ^ c, g)
  else if (GICD_ICFGR <=? off) && (off <? GICD_ICFGR + 256)
    then (foldr (fun b v => Z.lor (cfg_bit g c ((off - GICD_ICFGR) / 4) b) v) 0 (seqZ 0 16), g)
  else (0, g).

Definition write (c v a : Z) (g : gic) : gic :=
  let off := a - dva in
  if off =? GICD_CTLR then set_on (Z.testbit v 0) g
  else if (GICD_ISENABLER <=? off) && (off <? GICD_ISENABLER + 128)
    then map_enable (upd lines 32 c ((off - GICD_ISENABLER) / 4) (fun _ b x => Z.testbit v b || x)) g
  else if (GICD_ICENABLER <=? off) && (off <? GICD_ICENABLER + 128)
    then map_enable (upd lines 32 c ((off - GICD_ICENABLER) / 4)
      (fun _ b x => if ((off - GICD_ICENABLER) / 4 =? 0) && (b <? 16) && negb false then x else negb (Z.testbit v b) && x)) g
  else if (GICD_ICPENDR <=? off) && (off <? GICD_ICPENDR + 128)
    then map_pend (upd lines 32 c ((off - GICD_ICPENDR) / 4) (fun _ b x => negb (Z.testbit v b) && x)) g
  else if (GICD_IPRIORITYR <=? off) && (off <? GICD_IPRIORITYR + 1024)
    then map_prio (upd lines 4 c ((off - GICD_IPRIORITYR) / 4) (fun _ b _ => Z.land (Z.land (Z.shiftr v (8 * b)) 0xff) 0xf8)) g
  else if (GICD_ITARGETSR <=? off) && (off <? GICD_ITARGETSR + 1024)
    then map_route (upd lines 4 c ((off - GICD_ITARGETSR) / 4) (fun c' b _ => (0 <=? c') && (c' <? ncpu) && Z.testbit (Z.shiftr v (8 * b)) c')) g
  else if (GICD_ICFGR <=? off) && (off <? GICD_ICFGR + 256)
    then map_edge (fun m => if ((off - GICD_ICFGR) / 4 =? 1) && negb false then m else upd lines 16 c ((off - GICD_ICFGR) / 4) (fun _ b _ => Z.testbit v (2 * b + 1)) m) g
  else if off =? GICD_SGIR then map_pend (fun m c' i => if (i =? Z.land v 15) && sgi_hits ncpu (fun c => c) c v c' then true else m c' i) g
  else if a =? cva + GICC_EOIR then log_event (ev_eoi c v) g
  else if a =? cva + GICC_DIR then log_event (ev_dir c v) g
  else if (cva <=? a) && (a <? cva + 0x1000) then map_cif (cif_set c (a - cva) v) g
  else g.

Definition write8 (c v a : Z) (g : gic) : gic :=
  let off := a - dva in
  if (GICD_IPRIORITYR <=? off) && (off <? GICD_IPRIORITYR + 1024)
    then map_prio (upd lines 1 c (off - GICD_IPRIORITYR) (fun _ _ _ => Z.land v 0xf8)) g
  else if (GICD_ITARGETSR <=? off) && (off <? GICD_ITARGETSR + 1024)
    then map_route (fun m c' j => if j =? off - GICD_ITARGETSR then (0 <=? c') && (c' <? ncpu) && Z.testbit v c' else m c' j) g
  else g.

#[global] Instance sim_hw : Gicv2Hw gic := {| readl := read; writel := write; writeb := write8; hw_view := view |}.

Ltac decode := cbn [hw_view sim_hw readl writel writeb]; unfold read, write, write8, dva, cva, GICD_CTLR, GICD_TYPER, GICD_IIDR, GICD_ISENABLER, GICD_ICENABLER,
  GICD_ICPENDR, GICD_IPRIORITYR, GICD_ITARGETSR, GICD_ICFGR, GICD_SGIR, GICC_CTLR, GICC_PMR, GICC_BPR, GICC_EOIR, GICC_DIR, GICC_IIDR in *; cbn zeta;
  repeat (match goal with
    | |- context [(?a <=? ?b) && (?c <? ?d)] => first [rewrite (proj2 (Z.leb_le a b)), (proj2 (Z.ltb_lt c d)) by lia|rewrite (proj2 (Z.leb_gt a b)) by lia|rewrite (proj2 (Z.ltb_ge c d)), (andb_false_r (a <=? b)) by lia]
    | |- context [if ?a =? ?b then _ else _] => first [rewrite (proj2 (Z.eqb_neq a b)) by lia|rewrite (proj2 (Z.eqb_eq a b)) by lia]
    end; cbn [andb]).

Lemma view_map_edge f g : (forall m, peq (fun c i => f m (if 32 <=? i then 0 else c) i) (f (fun c i => m (if 32 <=? i then 0 else c) i))) ->
  view (map_edge f g) ≡ map_edge f (view g).
Proof. intros Hf. repeat split; try done. intros c i. cbn. apply Hf. Qed.

Lemma cfg_bits g c n b : 0 <= b < 16 ->
  Z.testbit (foldr (fun b v => Z.lor (cfg_bit g c n b) v) 0 (seqZ 0 16)) (2 * b + 1) = g_edge (view g) c (16 * n + b).
Proof.
  intros Hb. assert (forall k, 0 <= k -> Z.testbit (cfg_bit g c n k) (2 * b + 1) = (k =? b) && g_edge (view g) c (16 * n + k)) as Hk.
  { intros k Hk. unfold cfg_bit. destruct (g_edge _ _ _); [|by rewrite Z.bits_0, andb_false_r]. rewrite andb_true_r.
    destruct (Z.eqb_spec k b) as [->|]; [by rewrite Z.pow2_bits_true by lia|by rewrite Z.pow2_bits_false by lia]. }
  assert (forall l, Forall (fun k => 0 <= k) l -> Z.testbit (foldr (fun b v => Z.lor (cfg_bit g c n b) v) 0 l) (2 * b + 1) = bool_decide (b ∈ l) && g_edge (view g) c (16 * n + b)) as Hl.
  { intros l. induction l as [|k l IH]; intros Hl; cbn [foldr]; [by rewrite Z.bits_0|]. apply list.Forall_cons in Hl as [Hk0 Hl].
    rewrite Z.lor_spec, IH, Hk by done. destruct (Z.eqb_spec k b) as [->|Hne]; cbn [andb orb].
    - rewrite (bool_decide_eq_true_2 (b ∈ b :: l)) by set_solver. destruct (g_edge _ _ _), (bool_decide _); done.
    - assert (bool_decide (b ∈ k :: l) = bool_decide (b ∈ l)) as ->; [|done]. apply bool_decide_ext. rewrite elem_of_cons. naive_solver. }
  rewrite Hl by (apply list.Forall_forall; intros x Hx%elem_of_seqZ; lia). by rewrite bool_decide_eq_true_2 by (apply elem_of_seqZ; lia).
Qed.

#[global] Instance sim_laws : Gicv2Laws gic dva cva lines ncpu 0xf8 (fun c => c) false false.
Proof.
  split; unfold ncpu.
  - split; [lia|intros; lia].
  - done.
  - intros c off d Hc Ho. cbn. unfold read. by repeat case_match.
  - intros c off d Hc Ho. cbn. unfold read. by repeat case_match.
  - intros c d Hc. by decode.
  - intros c d Hc. decode. assert (c = 0 \/ c = 1) as [-> | ->] by lia; done.
  - intros c n b d Hc Hn Hb Hl. decode. replace ((268435456 + (3072 + n * 4) - 268435456 - 3072) / 4) with n by dlia. by apply cfg_bits.
  - intros c c' i d Hi. cbn. by rewrite (proj2 (Z.leb_le 32 i)).
  - intros c v d Hc. by decode.
  - intros c v n d Hc Hn. decode. replace ((268435456 + (256 + n * 4) - 268435456 - 256) / 4) with n by dlia. done.
  - intros c v n d Hc Hn. decode. replace ((268435456 + (384 + n * 4) - 268435456 - 384) / 4) with n by dlia. done.
  - intros c v n d Hc Hn. decode. replace ((268435456 + (640 + n * 4) - 268435456 - 640) / 4) with n by dlia. done.
  - intros c v n d Hc Hn. decode. replace ((268435456 + (1024 + n * 4) - 268435456 - 1024) / 4) with n by dlia. done.
  - intros c v i d Hc Hi. unfold lines in *. decode. replace (268435456 + (1024 + i) - 268435456 - 1024) with i by lia. done.
  - intros c v n d Hc Hn. decode. replace ((268435456 + (2048 + n * 4) - 268435456 - 2048) / 4) with n by dlia. done.
  - intros c v i d Hc Hi. unfold lines in *. decode. replace (268435456 + (2048 + i) - 268435456 - 2048) with i by lia. done.
  - intros c v n d Hc Hn. decode. replace ((268435456 + (3072 + n * 4) - 268435456 - 3072) / 4) with n by dlia.
    apply view_map_edge. intros m c' i. destruct (_ && _); [done|]. unfold upd, banked. destruct (Z.leb_spec 32 i); [done|]. cbn [orb]. done.
  - intros c v d Hc. by decode.
  - intros c v off d Hc Ho. destruct Ho as [->|[->| ->]]; decode; done.
  - intros c v d Hc. by decode.
  - intros c v d Hc. by decode.
Qed.
End SimGicv2.

Definition sim_translate (i : Z) : Z * Z := ([(SimGicv2.dva, 0x1000); (SimGicv2.cva, 0x2000); (0x30000000, 0x1000)] : list (Z * Z)) !!! Z.to_nat i.
Definition sim_reset : gic := mk_gic false (fun _ _ => true) (fun _ _ => false) (fun _ _ => true) (fun _ _ => 0) (fun _ _ => false) (fun _ _ => true) (fun _ _ => 0) [].
Definition sim_ops : list (Z * sys_op) :=
  [(0, op_core (op_request 40 (Some 7) 4 99)); (0, op_core (op_request 42 (Some 3) 4 99)); (1, op_core (op_affinity 40 1)); (1, op_core (op_enable 41 false)); (0, op_raise 40); (1, op_handle); (0, op_core (op_sgi 3 1))].

(** What is read off the controller after the start and the operations. *)
Definition sim_outcome : list bool :=
  match (s ← gicv2_boot (ncpu := 2) sim_translate (fun a _ => a) sim_reset;
         run_ops (D := gicv2 * gic) (H := gicv2_chip (dva := SimGicv2.dva) (cva := SimGicv2.cva) (lines := 64) (ncpu := 2)) 2 32 demo_handler sim_ops
           (init_irqs 2 32 [], s)) with
  | Some (_, s') => [g_route (hw_view s'.2) 1 40; g_route (hw_view s'.2) 0 40; g_enable (hw_view s'.2) 0 40; g_enable (hw_view s'.2) 0 41; g_enable (hw_view s'.2) 0 42;
                      g_pend (hw_view s'.2) 1 1; g_pend (hw_view s'.2) 1 3]
  | None => []
  end.

(** A board with two cpus registers the interrupts 40 and 42, moves 40 to the second
    cpu, masks 41, and handles the interrupt 40: its handler masks it and sends an
    interrupt to the second cpu. *)
Lemma gicv2_system_correct_witness :
  sim_outcome = [true; false; false; false; true; true; true] /\
  exists s i s', gicv2_boot (ncpu := 2) sim_translate (fun a _ => a) sim_reset = Some s /\
    run_ops (D := gicv2 * gic) (H := gicv2_chip (dva := SimGicv2.dva) (cva := SimGicv2.cva) (lines := 64) (ncpu := 2)) 2 32 demo_handler sim_ops
      (init_irqs 2 32 [], s) = Some (i, s').
Proof.
  split; [vm_compute; reflexivity|].
  destruct (gicv2_system_correct (D := gic) (HL := SimGicv2.sim_laws) sim_translate (fun a _ => a) sim_reset) with (CONFIG_NR_SPI_IRQS := 32) (run_handler := demo_handler) (raised := @nil Z) (ops := sim_ops)
    as (s & i & s' & Hb & _ & Hr & _).
  - intros i Hi. assert (i = 0 \/ i = 1 \/ i = 2) as [-> | [-> | ->]] by lia; done.
  - done.
  - done.
  - done.
  - done.
  - constructor.
  - intros h hno pdata i Hno. unfold demo_handler. destruct (h =? 7); repeat constructor; cbn; lia.
  - repeat (constructor; [vm_compute; repeat split; congruence|]). constructor.
  - by exists s, i, s'.
Defined.
