(* ===== verification/Gicv3Drv.v ===== *)
(** * Driver of the physical GICv3 (drivers/irq-chips/gicv3.c)

    As for the GICv2, the controller is a class of register accesses, [Gicv3Hw], with the
    rules of its registers in [Gicv3Laws]: the distributor and the redistributors of the
    cpus at addresses, the interface of a cpu in system registers.  Loops that poll a
    register get [polls] reads; the rules say that a write is finished within them.  The
    driver is an instance of [IrqChip]; an index out of an array and a panic are
    [None]. *)
From S2P Require Import Prelude Irq GicChip Gicv2Drv.

(** ** Registers (include/device/gicv3.h) *)
Definition GICD_IGROUPR : Z := 0x0080.
Definition GICD_IROUTER : Z := 0x6000.
Definition GICR_CTLR : Z := 0x0000.
Definition GICR_WAKER : Z := 0x0014.
Definition GICR_IGROUPR0 : Z := 0x0080.
Definition GICR_ISENABLER : Z := 0x0100.
Definition GICR_ICENABLER : Z := 0x0180.
Definition GICR_ICPENDR0 : Z := 0x0280.
Definition GICR_IPRIORITYR0 : Z := 0x0400.
Definition GICR_ICFGR1 : Z := 0x0c04.
Definition GICR_WAKER_PROCESSOR_SLEEP : Z := 2.
Definition GICR_WAKER_CHILDREN_ASLEEP : Z := 4.
Definition GICD_CTLR_ENABLE_GRP1 : Z := 0.
Definition GICD_CTLR_ENABLE_GRP1A : Z := 2.
Definition GICD_CTLR_ARE_NS : Z := 16.
Definition ICH_SGI_IRQMODE_SHIFT : Z := 40.
Definition ICH_SGI_TARGET_OTHERS : Z := 1.
Definition ICH_SGI_IRQ_SHIFT : Z := 24.
Definition GICV3_NR_LOCAL_IRQS : Z := 32.
Definition GICV3_NR_SGI : Z := 16.
Definition GICH_VMCR_VENG1 : Z := 2.
Definition GICH_HCR_EN : Z := 1.

(** The system registers the driver uses. *)
Inductive sysreg :=
| ICC_EOIR1_EL1 | ICC_DIR_EL1 | ICC_IAR1_EL1 | ICC_SGI1R_EL1 | ICC_BPR1_EL1 | ICC_PMR_EL1 | ICC_CTLR_EL1 | ICC_IGRPEN1_EL1
| ICC_SRE_EL1 | ICC_SRE_EL2 | ICH_VMCR_EL2 | ICH_HCR_EL2 | ICH_VTR_EL2 | MPIDR_EL1.

(** Those that hold settings of the interface of a cpu, with a number each. *)
Definition cif_reg (r : sysreg) : option Z :=
  match r with
  | ICC_BPR1_EL1 => Some 1 | ICC_PMR_EL1 => Some 2 | ICC_CTLR_EL1 => Some 3 | ICC_IGRPEN1_EL1 => Some 4
  | ICC_SRE_EL1 => Some 5 | ICC_SRE_EL2 => Some 6 | ICH_VMCR_EL2 => Some 7 | ICH_HCR_EL2 => Some 8
  | _ => None
  end.

Class Gicv3Hw (D : Type) := mk_Gicv3Hw {
  ioread32 : Z -> Z -> D -> Z * D;
  iowrite32 : Z -> Z -> Z -> D -> D;
  iowrite8 : Z -> Z -> Z -> D -> D;
  iowrite64 : Z -> Z -> Z -> D -> D;
  read_sysreg : Z -> sysreg -> D -> Z * D;
  write_sysreg : Z -> Z -> sysreg -> D -> D;
  hw3_view : D -> gic;
}.

Record gicv3 := mk_gicv3 {
  gicd_base : Z;
  gicr_rd_bases : list Z;
  gicr_sgi_bases : list Z;
  cpus_affinity : list Z;
}.

Section driver.
Context {D : Type} `{Gicv3Hw D} (polls : nat) (NR_CPUS CONFIG_NR_CPUS_CLUSTER0 : Z) (cf : Z).

(** The first argument is the cpu that runs the code. *)
Definition with_hw (s : gicv3 * D) (d : D) : gicv3 * D := (s.1, d).
Definition gicr_rd_base (c : Z) (s : gicv3 * D) : option Z := gicr_rd_bases s.1 !! Z.to_nat c.
Definition gicr_sgi_base (c : Z) (s : gicv3 * D) : option Z := gicr_sgi_bases s.1 !! Z.to_nat c.

(** [while (ioread32(a) & (1 << bit));] *)
Fixpoint poll (n : nat) (c a bit : Z) (d : D) : option D :=
  match n with
  | O => None
  | S n => let '(v, d) := ioread32 c a d in if Z.testbit v bit then poll n c a bit d else Some d
  end.

Definition gicv3_gicd_wait_for_rwp (c : Z) (s : gicv3 * D) : option (gicv3 * D) :=
  d ← poll polls c (gicd_base s.1 + GICD_CTLR) 31 s.2; Some (with_hw s d).

Definition gicv3_gicr_wait_for_rwp (c : Z) (s : gicv3 * D) : option (gicv3 * D) :=
  rd ← gicr_rd_base c s; d ← poll polls c (rd + GICR_CTLR) 31 s.2; Some (with_hw s d).

Definition gicv3_eoi_irq (c irq : Z) (s : gicv3 * D) : gicv3 * D := with_hw s (write_sysreg c (u32 irq) ICC_EOIR1_EL1 s.2).
Definition gicv3_dir_irq (c irq : Z) (s : gicv3 * D) : gicv3 * D := with_hw s (write_sysreg c (u32 irq) ICC_DIR_EL1 s.2).
Definition gicv3_read_irq (c : Z) (s : gicv3 * D) : Z * (gicv3 * D) := let '(v, d) := read_sysreg c ICC_IAR1_EL1 s.2 in (u32 v, with_hw s d).

Definition gicv3_set_irq_type (c irq type : Z) (s : gicv3 * D) : option (Z * (gicv3 * D)) :=
  if irq <? GICV3_NR_SGI then Some (0, s)
  else
    base ← (if GICV3_NR_LOCAL_IRQS <=? irq then Some (gicd_base s.1 + (GICD_ICFGR + irq / 16 * 4))
            else sgi ← gicr_sgi_base c s; Some (sgi + GICR_ICFGR1));
    let '(cfg, d) := ioread32 c base s.2 in
    let edgebit := u32 (Z.shiftl 2 (2 * (irq mod 16))) in
    let cfg :=
      if negb (Z.land type IRQ_FLAGS_LEVEL_BOTH =? 0) then Z.ldiff cfg edgebit
      else if negb (Z.land type IRQ_FLAGS_EDGE_BOTH =? 0) then Z.lor cfg edgebit
      else cfg in
    Some (0, with_hw s (iowrite32 c (u32 cfg) base d)).

Definition gicv3_clear_pending (c irq : Z) (s : gicv3 * D) : option (gicv3 * D) :=
  if irq <? GICV3_NR_LOCAL_IRQS then
    sgi ← gicr_sgi_base c s; Some (with_hw s (iowrite32 c (u32 (Z.shiftl 1 irq)) (sgi + GICR_ICPENDR0) s.2))
  else
    let irq := irq - 32 in
    let offset := irq / 32 in
    let bit := offset mod 32 in
    Some (with_hw s (iowrite32 c (u32 (Z.shiftl 1 bit)) (gicd_base s.1 + (GICD_ICPENDR + offset * 4)) s.2)).

Definition gicv3_set_irq_priority (c irq pr : Z) (s : gicv3 * D) : option (Z * (gicv3 * D)) :=
  if irq <? GICV3_NR_LOCAL_IRQS then
    sgi ← gicr_sgi_base c s; Some (0, with_hw s (iowrite8 c (u8 pr) (sgi + (GICR_IPRIORITYR0 + irq)) s.2))
  else Some (0, with_hw s (iowrite8 c (u8 pr) (gicd_base s.1 + (GICD_IPRIORITYR + irq)) s.2)).

(** [~(1 << 31)] is the [int] 0x7fffffff. *)
Definition gicv3_set_irq_affinity (c irq pcpu : Z) (s : gicv3 * D) : Z * (gicv3 * D) :=
  let affinity := cpuid_to_affinity CONFIG_NR_CPUS_CLUSTER0 cf pcpu in
  let affinity := Z.land affinity 0x7fffffff in
  (0, with_hw s (iowrite64 c affinity (gicd_base s.1 + (GICD_IROUTER + irq * 8)) s.2)).

Fixpoint cluster_values (affs : list Z) (l : list Z) (val0 val1 : Z) : option (Z * Z) :=
  match l with
  | [] => Some (val0, val1)
  | cpu :: l =>
      a ← affs !! Z.to_nat cpu;
      if CONFIG_NR_CPUS_CLUSTER0 <=? cpu then cluster_values affs l val0 (Z.lor val1 a) else cluster_values affs l (Z.lor val0 a) val1
  end.

Definition __gicv3_send_sgi_list (c sgi mask : Z) (s : gicv3 * D) : option (gicv3 * D) :=
  '(val_cluster0, val_cluster1) ← cluster_values (cpus_affinity s.1) (cpus_in NR_CPUS mask) 0 0;
  let d := s.2 in
  let d := if negb (val_cluster0 =? 0) then write_sysreg c (Z.lor val_cluster0 (u32 (Z.shiftl sgi 24))) ICC_SGI1R_EL1 d else d in
  let d := if negb (val_cluster1 =? 0) then write_sysreg c (Z.lor val_cluster1 (u32 (Z.shiftl sgi 24))) ICC_SGI1R_EL1 d else d in
  Some (with_hw s d).

Fixpoint send_each (c sgi : Z) (affs : list Z) (l : list Z) (d : D) : option D :=
  match l with
  | [] => Some d
  | cpu :: l =>
      a ← affs !! Z.to_nat cpu;
      send_each c sgi affs l (write_sysreg c (Z.lor a (u32 (Z.shiftl sgi 24))) ICC_SGI1R_EL1 d)
  end.

Definition __gicv3_send_sgi_list_shif_mpidr (c sgi mask : Z) (s : gicv3 * D) : option (gicv3 * D) :=
  d ← send_each c sgi (cpus_affinity s.1) (cpus_in NR_CPUS mask) s.2; Some (with_hw s d).

Definition gicv3_send_sgi_list (c sgi mask : Z) (s : gicv3 * D) : option (gicv3 * D) :=
  if cpu_has_feature cf ARM_FEATURE_MPIDR_SHIFT then __gicv3_send_sgi_list_shif_mpidr c sgi mask s else __gicv3_send_sgi_list c sgi mask s.

Definition gicv3_send_sgi (c sgi : Z) (mode : sgi_mode) (cpu : Z) (s : gicv3 * D) : option (gicv3 * D) :=
  if 15 <? sgi then Some s
  else
    match mode with
    | SGI_TO_OTHERS =>
        Some (with_hw s (write_sysreg c (Z.lor (Z.shiftl ICH_SGI_TARGET_OTHERS ICH_SGI_IRQMODE_SHIFT) (Z.shiftl sgi ICH_SGI_IRQ_SHIFT)) ICC_SGI1R_EL1 s.2))
    | SGI_TO_SELF => gicv3_send_sgi_list c sgi (2 ^ c) s
    | SGI_TO_LIST => gicv3_send_sgi_list c sgi cpu s
    end.

Definition gicv3_mask_irq (c irq : Z) (s : gicv3 * D) : option (gicv3 * D) :=
  let mask := u32 (Z.shiftl 1 (irq mod 32)) in
  if irq <? GICV3_NR_LOCAL_IRQS then
    sgi ← gicr_sgi_base c s; gicv3_gicr_wait_for_rwp c (with_hw s (iowrite32 c mask (sgi + (GICR_ICENABLER + irq / 32 * 4)) s.2))
  else gicv3_gicd_wait_for_rwp c (with_hw s (iowrite32 c mask (gicd_base s.1 + (GICD_ICENABLER + irq / 32 * 4)) s.2)).

Definition gicv3_unmask_irq (c irq : Z) (s : gicv3 * D) : option (gicv3 * D) :=
  let mask := u32 (Z.shiftl 1 (irq mod 32)) in
  if irq <? GICV3_NR_LOCAL_IRQS then
    sgi ← gicr_sgi_base c s; gicv3_gicr_wait_for_rwp c (with_hw s (iowrite32 c mask (sgi + (GICR_ISENABLER + irq / 32 * 4)) s.2))
  else gicv3_gicd_wait_for_rwp c (with_hw s (iowrite32 c mask (gicd_base s.1 + (GICD_ISENABLER + irq / 32 * 4)) s.2)).

Definition gicv3_mask_irq_cpu (c irq cpu : Z) (s : gicv3 * D) : option (gicv3 * D) :=
  let mask := u32 (Z.shiftl 1 (irq mod 32)) in
  if GICV3_NR_LOCAL_IRQS <=? irq then Some s
  else if NR_CPUS <=? cpu then Some s
  else sgi ← gicr_sgi_base cpu s; gicv3_gicr_wait_for_rwp c (with_hw s (iowrite32 c mask (sgi + (GICR_ICENABLER + irq / 32 * 4)) s.2)).

Definition gicv3_unmask_irq_cpu (c irq cpu : Z) (s : gicv3 * D) : option (gicv3 * D) :=
  let mask := u32 (Z.shiftl 1 (irq mod 32)) in
  if GICV3_NR_LOCAL_IRQS <=? irq then Some s
  else if NR_CPUS <=? cpu then Some s
  else sgi ← gicr_sgi_base cpu s; gicv3_gicr_wait_for_rwp c (with_hw s (iowrite32 c mask (sgi + (GICR_ISENABLER + irq / 32 * 4)) s.2)).

Definition gicv3_wakeup_gicr (c : Z) (s : gicv3 * D) : option (gicv3 * D) :=
  rd ← gicr_rd_base c s;
  let '(v, d) := ioread32 c (rd + GICR_WAKER) s.2 in
  let d := iowrite32 c (Z.ldiff v GICR_WAKER_PROCESSOR_SLEEP) (rd + GICR_WAKER) d in
  d ← poll polls c (rd + GICR_WAKER) 2 d;
  Some (with_hw s d).

(** [panic] when the affinity within the cluster does not fit; the index of
    [cpus_affinity] is checked. *)
Definition gicv3_gicc_init (c : Z) (s : gicv3 * D) : option (gicv3 * D) :=
  let '(mpidr, d) := read_sysreg c MPIDR_EL1 s.2 in
  let aff0 := Z.land mpidr 0xff in
  let aff1 := Z.shiftr (Z.land mpidr 0xff00) 8 in
  let aff2 := Z.shiftr (Z.land mpidr 0xff0000) 16 in
  let aff3 := Z.shiftr (Z.land mpidr 0xff00000000) 32 in
  if 16 <? aff0 then None
  else if negb ((0 <=? c) && (c <? Z.of_nat (length (cpus_affinity s.1)))) then None
  else
    let a := Z.lor (Z.lor (Z.lor (Z.shiftl 1 aff0) (Z.shiftl aff1 16)) (Z.shiftl aff2 32)) (Z.shiftl aff3 48) in
    let g := mk_gicv3 (gicd_base s.1) (gicr_rd_bases s.1) (gicr_sgi_bases s.1) (<[Z.to_nat c := a]> (cpus_affinity s.1)) in
    let '(reg_value, d) := read_sysreg c ICC_SRE_EL2 d in
    let d := write_sysreg c (Z.lor reg_value 1) ICC_SRE_EL2 d in
    let d := write_sysreg c 0 ICC_BPR1_EL1 d in
    let d := write_sysreg c 0xff ICC_PMR_EL1 d in
    let d := write_sysreg c (Z.shiftl 1 1) ICC_CTLR_EL1 d in
    let d := write_sysreg c 1 ICC_IGRPEN1_EL1 d in
    Some (g, d).

Definition gicv3_hyp_init (c : Z) (s : gicv3 * D) : gicv3 * D :=
  let d := write_sysreg c (u32 (Z.lor GICH_VMCR_VENG1 (Z.shiftl 0xff 24))) ICH_VMCR_EL2 s.2 in
  with_hw s (write_sysreg c GICH_HCR_EN ICH_HCR_EL2 d).

Definition gicv3_gicr_init (c : Z) (s : gicv3 * D) : option (gicv3 * D) :=
  s ← gicv3_wakeup_gicr c s;
  sgi ← gicr_sgi_base c s;
  let d := for_steps 0 GICV3_NR_SGI 4 (fun i => iowrite32 c (u32 (word4 0x90)) (sgi + (GICR_IPRIORITYR0 + i / 4 * 4))) s.2 in
  let d := for_steps GICV3_NR_SGI GICV3_NR_LOCAL_IRQS 4 (fun i => iowrite32 c (u32 (word4 0xa0)) (sgi + (GICR_IPRIORITYR0 + i / 4 * 4))) d in
  let d := iowrite32 c 0xffff0000 (sgi + GICR_ICENABLER) d in
  let d := iowrite32 c 0x0000ffff (sgi + GICR_ISENABLER) d in
  let d := iowrite32 c 0xffffffff (sgi + GICR_IGROUPR0) d in
  gicv3_gicr_wait_for_rwp c (with_hw s d).

Definition gicv3_icc_sre_init (c : Z) (s : gicv3 * D) : gicv3 * D :=
  with_hw s (write_sysreg c 0xf ICC_SRE_EL1 (write_sysreg c 0xf ICC_SRE_EL2 s.2)).

(** The part of every cpu. *)
Definition gicv3_cpu_init (c : Z) (s : gicv3 * D) : option (gicv3 * D) :=
  let s := gicv3_icc_sre_init c s in
  s ← gicv3_gicr_init c s;
  s ← gicv3_gicc_init c s;
  Some (gicv3_hyp_init c s).

Definition gicv3_secondary_init (c : Z) (s : gicv3 * D) : option (Z * (gicv3 * D)) := s ← gicv3_cpu_init c s; Some (0, s).

(** The loops of [gicv3_init] over the shared lines. *)
Definition gicv3_dist_init (c : Z) (s : gicv3 * D) : option (gicv3 * D) :=
  let base := gicd_base s.1 in
  let d := iowrite32 c 0 (base + GICD_CTLR) s.2 in
  let '(type, d) := ioread32 c (base + GICD_TYPER) d in
  let nr_lines := 32 * Z.land type 0x1f in
  let d := for_steps GICV3_NR_LOCAL_IRQS nr_lines 16 (fun i => iowrite32 c 0 (base + (GICD_ICFGR + i / 16 * 4))) d in
  let d := for_steps GICV3_NR_LOCAL_IRQS nr_lines 4 (fun i d =>
             let d := iowrite32 c (u32 (word4 0xa0)) (base + (GICD_IPRIORITYR + i / 4 * 4)) d in
             snd (ioread32 c (base + (GICD_IPRIORITYR + i / 4 * 4)) d)) d in
  let d := for_steps GICV3_NR_LOCAL_IRQS nr_lines 32 (fun i => iowrite32 c 0xffffffff (base + (GICD_ICENABLER + i / 32 * 4))) d in
  let d := for_steps GICV3_NR_LOCAL_IRQS nr_lines 32 (fun i => iowrite32 c 0xffffffff (base + (GICD_IGROUPR + i / 32 * 4))) d in
  s ← gicv3_gicd_wait_for_rwp c (with_hw s d);
  Some (with_hw s (iowrite32 c (Z.lor (Z.lor (Z.lor 1 GICD_CTLR_ENABLE_GRP1) GICD_CTLR_ENABLE_GRP1A) GICD_CTLR_ARE_NS) (base + GICD_CTLR) s.2)).

(** [translate] gives address and size of a range of the node.  The priority bits that
    the controller has are checked. *)
Definition gicv3_init (c : Z) (translate : Z -> Z * Z) (io_remap : Z -> Z -> Z) (s : gicv3 * D) : option (Z * (gicv3 * D)) :=
  let '(a0, a1) := translate 0 in
  let '(a2, a3) := translate 1 in
  let dist := io_remap a0 a1 in
  let rd := io_remap a2 a3 in
  let '(value, d) := read_sysreg c ICH_VTR_EL2 s.2 in
  let nr_pr := Z.land (Z.shiftr (u32 value) 29) 7 + 1 in
  if negb ((4 <? nr_pr) && (nr_pr <? 8)) then None
  else
    let g := mk_gicv3 dist ((fun i => rd + 128 * 1024 * i) <$> seqZ 0 NR_CPUS) ((fun i => rd + 128 * 1024 * i + 64 * 1024) <$> seqZ 0 NR_CPUS) (cpus_affinity s.1) in
    s ← gicv3_dist_init c (g, d);
    s ← gicv3_cpu_init c s;
    Some (0, s).

Fixpoint gicv3_secondary_inits (l : list Z) (s : gicv3 * D) : option (gicv3 * D) :=
  match l with
  | [] => Some s
  | c :: l => '(_, s) ← gicv3_secondary_init c s; gicv3_secondary_inits l s
  end.

Definition gicv3_boot (translate : Z -> Z * Z) (io_remap : Z -> Z -> Z) (d : D) : option (gicv3 * D) :=
  '(_, s) ← gicv3_init 0 translate io_remap (mk_gicv3 0 [] [] (replicate (Z.to_nat NR_CPUS) 0), d);
  gicv3_secondary_inits (seqZ 1 (NR_CPUS - 1)) s.
End driver.

(** ** The rules of the registers (ARM Generic Interrupt Controller, version 3)

    [dva] is where the distributor is mapped and [rva] the redistributors, 128 KB for
    each cpu; [mpidr] are the identification registers of the cpus.  [busy] bounds how
    many reads of a control register find a write in progress. *)
Definition aff_of (mpidr : Z -> Z) (c : Z) : Z := Z.land (mpidr c) 0xff00ffffff.
Definition aff_byte (mpidr : Z -> Z) (c k : Z) : Z := Z.land (Z.shiftr (mpidr c) k) 0xff.

Definition sgi3_hits (ncpu : Z) (mpidr : Z -> Z) (c v c' : Z) : bool :=
  (0 <=? c') && (c' <? ncpu) &&
  (if Z.testbit v 40 then negb (c' =? c)
   else (aff_byte mpidr c' 32 =? Z.land (Z.shiftr v 48) 0xff) && (aff_byte mpidr c' 16 =? Z.land (Z.shiftr v 32) 0xff)
        && (aff_byte mpidr c' 8 =? Z.land (Z.shiftr v 16) 0xff) && (aff_byte mpidr c' 0 <? 16) && Z.testbit v (aff_byte mpidr c' 0)).

(** The two frames of the redistributor of a cpu. *)
Definition rd_frame (rva k : Z) : Z := rva + 131072 * k.
Definition sgi_frame (rva k : Z) : Z := rva + 131072 * k + 65536.

Class Gicv3Laws (D : Type) `{Gicv3Hw D} (dva rva lines ncpu pmask : Z) (mpidr : Z -> Z) (busy : D -> nat) (polls : nat) (awake : D -> Z -> Prop) (ppi_cfg sgi_off : bool) := {
  hw3_cpus : 0 < ncpu <= 256;
  hw3_pmask : Z.land pmask 0xf0 = 0xf0;
  hw3_busy : forall d : D, (busy d < polls)%nat;
  hw3_poll : forall c a (d : D), 0 <= c < ncpu -> a = dva + GICD_CTLR \/ (exists k, 0 <= k < ncpu /\ a = rd_frame rva k + GICR_CTLR) ->
    hw3_view (snd (ioread32 c a d)) ≡ hw3_view d /\
    (Z.testbit (fst (ioread32 c a d)) 31 = true -> (busy (snd (ioread32 c a d)) < busy d)%nat);
  hw3_read_waker : forall c (d : D), 0 <= c < ncpu ->
    hw3_view (snd (ioread32 c (rd_frame rva c + GICR_WAKER) d)) ≡ hw3_view d /\
    (awake d c -> awake (snd (ioread32 c (rd_frame rva c + GICR_WAKER) d)) c /\
      (Z.testbit (fst (ioread32 c (rd_frame rva c + GICR_WAKER) d)) 2 = true -> (busy (snd (ioread32 c (rd_frame rva c + GICR_WAKER) d)) < busy d)%nat));
  hw3_wake : forall c v (d : D), 0 <= c < ncpu -> Z.testbit v 1 = false ->
    hw3_view (iowrite32 c v (rd_frame rva c + GICR_WAKER) d) ≡ hw3_view d /\ awake (iowrite32 c v (rd_frame rva c + GICR_WAKER) d) c;
  hw3_read_dist : forall c off (d : D), 0 <= c < ncpu -> 0 < off < 0x10000 -> snd (ioread32 c (dva + off) d) = d;
  hw3_read_local : forall c k (d : D), 0 <= c < ncpu -> 0 <= k < ncpu -> snd (ioread32 c (sgi_frame rva k + GICR_ICFGR1) d) = d;
  hw3_read_sys : forall c r (d : D), 0 <= c < ncpu -> r ∈ [MPIDR_EL1; ICC_SRE_EL2; ICH_VTR_EL2] -> snd (read_sysreg c r d) = d;
  hw3_mpidr : forall c (d : D), 0 <= c < ncpu -> fst (read_sysreg c MPIDR_EL1 d) = mpidr c;
  hw3_read_typer : forall c (d : D), 0 <= c < ncpu -> lines = Z.min 1020 (32 * (Z.land (fst (ioread32 c (dva + GICD_TYPER) d)) 0x1f + 1));
  hw3_read_cfg : forall c n b (d : D), 0 <= c < ncpu -> 2 <= n < 64 -> 0 <= b < 16 -> 16 * n + b < lines ->
    Z.testbit (fst (ioread32 c (dva + (GICD_ICFGR + n * 4)) d)) (2 * b + 1) = g_edge (hw3_view d) c (16 * n + b);
  hw3_shared_cfg : forall c c' i (d : D), 32 <= i -> g_edge (hw3_view d) c i = g_edge (hw3_view d) c' i;
  hw3_ctlr : forall c v (d : D), 0 <= c < ncpu -> hw3_view (iowrite32 c v (dva + GICD_CTLR) d) ≡ set_on (Z.testbit v 1) (hw3_view d);
  hw3_isenabler : forall c v n (d : D), 0 <= c < ncpu -> 1 <= n < 32 ->
    hw3_view (iowrite32 c v (dva + (GICD_ISENABLER + n * 4)) d) ≡ map_enable (upd lines 32 c n (fun _ b x => Z.testbit v b || x)) (hw3_view d);
  hw3_icenabler : forall c v n (d : D), 0 <= c < ncpu -> 1 <= n < 32 ->
    hw3_view (iowrite32 c v (dva + (GICD_ICENABLER + n * 4)) d) ≡ map_enable (upd lines 32 c n (fun _ b x => negb (Z.testbit v b) && x)) (hw3_view d);
  hw3_icpendr : forall c v n (d : D), 0 <= c < ncpu -> 0 <= n < 32 ->
    hw3_view (iowrite32 c v (dva + (GICD_ICPENDR + n * 4)) d) ≡
      map_pend (fun m => if n =? 0 then m else upd lines 32 c n (fun _ b x => negb (Z.testbit v b) && x) m) (hw3_view d);
  hw3_ipriorityr : forall c v n (d : D), 0 <= c < ncpu -> 8 <= n < 256 ->
    hw3_view (iowrite32 c v (dva + (GICD_IPRIORITYR + n * 4)) d) ≡
      map_prio (upd lines 4 c n (fun _ b _ => Z.land (Z.land (Z.shiftr v (8 * b)) 0xff) pmask)) (hw3_view d);
  hw3_ipriorityr_byte : forall c v i (d : D), 0 <= c < ncpu -> 32 <= i < lines ->
    hw3_view (iowrite8 c v (dva + (GICD_IPRIORITYR + i)) d) ≡ map_prio (upd lines 1 c i (fun _ _ _ => Z.land v pmask)) (hw3_view d);
  hw3_icfgr : forall c v n (d : D), 0 <= c < ncpu -> 2 <= n < 64 ->
    hw3_view (iowrite32 c v (dva + (GICD_ICFGR + n * 4)) d) ≡ map_edge (upd lines 16 c n (fun _ b _ => Z.testbit v (2 * b + 1))) (hw3_view d);
  hw3_igroupr : forall c v n (d : D), 0 <= c < ncpu -> 1 <= n < 32 ->
    hw3_view (iowrite32 c v (dva + (GICD_IGROUPR + n * 4)) d) ≡ map_group (upd lines 32 c n (fun _ b _ => Z.testbit v b)) (hw3_view d);
  hw3_irouter : forall c v i (d : D), 0 <= c < ncpu -> 32 <= i < lines -> Z.testbit v 31 = false ->
    hw3_view (iowrite64 c v (dva + (GICD_IROUTER + i * 8)) d) ≡
      map_route (fun m c' j => if j =? i then (0 <=? c') && (c' <? ncpu) && (v =? aff_of mpidr c') else m c' j) (hw3_view d);
  hw3_local_isenabler : forall c k v (d : D), 0 <= c < ncpu -> 0 <= k < ncpu ->
    hw3_view (iowrite32 c v (sgi_frame rva k + GICR_ISENABLER) d) ≡ map_enable (upd lines 32 k 0 (fun _ b x => Z.testbit v b || x)) (hw3_view d);
  hw3_local_icenabler : forall c k v (d : D), 0 <= c < ncpu -> 0 <= k < ncpu ->
    hw3_view (iowrite32 c v (sgi_frame rva k + GICR_ICENABLER) d) ≡
      map_enable (upd lines 32 k 0 (fun _ b x => if (b <? 16) && negb sgi_off then x else negb (Z.testbit v b) && x)) (hw3_view d);
  hw3_local_icpendr : forall c k v (d : D), 0 <= c < ncpu -> 0 <= k < ncpu ->
    hw3_view (iowrite32 c v (sgi_frame rva k + GICR_ICPENDR0) d) ≡ map_pend (upd lines 32 k 0 (fun _ b x => negb (Z.testbit v b) && x)) (hw3_view d);
  hw3_local_ipriorityr : forall c k v n (d : D), 0 <= c < ncpu -> 0 <= k < ncpu -> 0 <= n < 8 ->
    hw3_view (iowrite32 c v (sgi_frame rva k + (GICR_IPRIORITYR0 + n * 4)) d) ≡
      map_prio (upd lines 4 k n (fun _ b _ => Z.land (Z.land (Z.shiftr v (8 * b)) 0xff) pmask)) (hw3_view d);
  hw3_local_ipriorityr_byte : forall c k v i (d : D), 0 <= c < ncpu -> 0 <= k < ncpu -> 0 <= i < 32 ->
    hw3_view (iowrite8 c v (sgi_frame rva k + (GICR_IPRIORITYR0 + i)) d) ≡ map_prio (upd lines 1 k i (fun _ _ _ => Z.land v pmask)) (hw3_view d);
  hw3_local_icfgr : forall c k v (d : D), 0 <= c < ncpu -> 0 <= k < ncpu ->
    hw3_view (iowrite32 c v (sgi_frame rva k + GICR_ICFGR1) d) ≡
      map_edge (fun m => if ppi_cfg then upd lines 16 k 1 (fun _ b _ => Z.testbit v (2 * b + 1)) m else m) (hw3_view d);
  hw3_local_igroupr : forall c k v (d : D), 0 <= c < ncpu -> 0 <= k < ncpu ->
    hw3_view (iowrite32 c v (sgi_frame rva k + GICR_IGROUPR0) d) ≡ map_group (upd lines 32 k 0 (fun _ b _ => Z.testbit v b)) (hw3_view d);
  hw3_sgi : forall c v (d : D), 0 <= c < ncpu ->
    hw3_view (write_sysreg c v ICC_SGI1R_EL1 d) ≡
      map_pend (fun m c' i => if (i =? Z.land (Z.shiftr v 24) 15) && sgi3_hits ncpu mpidr c v c' then true else m c' i) (hw3_view d);
  hw3_eoir : forall c v (d : D), 0 <= c < ncpu -> hw3_view (write_sysreg c v ICC_EOIR1_EL1 d) ≡ log_event (ev_eoi c v) (hw3_view d);
  hw3_dir : forall c v (d : D), 0 <= c < ncpu -> hw3_view (write_sysreg c v ICC_DIR_EL1 d) ≡ log_event (ev_dir c v) (hw3_view d);
  hw3_cif : forall c v r n (d : D), 0 <= c < ncpu -> cif_reg r = Some n ->
    hw3_view (write_sysreg c v r d) ≡ map_cif (cif_set c n v) (hw3_view d);
}.

Section chip.
Context {D : Type} `{Gicv3Hw D} {dva rva lines ncpu pmask : Z} {mpidr : Z -> Z} {busy : D -> nat} {polls : nat} {awake : D -> Z -> Prop} {ppi_cfg sgi_off : bool}
  `{HL : !Gicv3Laws D dva rva lines ncpu pmask mpidr busy polls awake ppi_cfg sgi_off}.
Context (CONFIG_NR_CPUS_CLUSTER0 cf : Z).

(** What the value of [cpus_affinity] is for the identification of a cpu. *)
Definition sgi_value (c : Z) : Z :=
  Z.lor (Z.lor (Z.lor (Z.shiftl 1 (aff_byte mpidr c 0)) (Z.shiftl (aff_byte mpidr c 8) 16)) (Z.shiftl (aff_byte mpidr c 16) 32)) (Z.shiftl (aff_byte mpidr c 32) 48).

Definition gicv3_mapped (s : gicv3 * D) : Prop :=
  gicd_base s.1 = dva /\ forall c, 0 <= c < ncpu -> gicr_rd_bases s.1 !! Z.to_nat c = Some (rd_frame rva c) /\ gicr_sgi_bases s.1 !! Z.to_nat c = Some (sgi_frame rva c).

(** The bases are where the controller is mapped, and every cpu has entered its
    affinity. *)
Definition gicv3_ok (s : gicv3 * D) : Prop :=
  gicv3_mapped s /\ forall c, 0 <= c < ncpu -> cpus_affinity s.1 !! Z.to_nat c = Some (sgi_value c).

(** The numbers of the cpus are those of the hardware, and a target list can name
    every cpu. *)
Hypothesis Hcluster : 0 <= CONFIG_NR_CPUS_CLUSTER0 <= 256.
Hypothesis Haff : forall c, 0 <= c < ncpu -> cpuid_to_affinity CONFIG_NR_CPUS_CLUSTER0 cf c = aff_of mpidr c.
Hypothesis Haff0 : forall c, 0 <= c < ncpu -> aff_byte mpidr c 0 < 16.

#[local] Instance gicv3_chip : IrqChip (gicv3 * D) := {|
  ch_view s := hw3_view s.2;
  ch_ok := gicv3_ok;
  ch_lines := lines;
  ch_percpu := true;
  ch_funs := mk_chip true true true;
  ch_mask c irq s := gicv3_mask_irq polls c irq s;
  ch_unmask c irq s := gicv3_unmask_irq polls c irq s;
  ch_unmask_cpu c irq cpu s := gicv3_unmask_irq_cpu polls ncpu c irq cpu s;
  ch_eoi c irq s := Some (gicv3_eoi_irq c irq s);
  ch_dir c irq s := Some (gicv3_dir_irq c irq s);
  ch_set_affinity c irq cpu s := Some (gicv3_set_irq_affinity CONFIG_NR_CPUS_CLUSTER0 cf c irq cpu s);
  ch_set_type c irq type s := gicv3_set_irq_type c irq type s;
  ch_clear_pending c irq s := gicv3_clear_pending c irq s;
  ch_send_sgi c sgi cpu s := gicv3_send_sgi ncpu CONFIG_NR_CPUS_CLUSTER0 cf c sgi SGI_TO_LIST (2 ^ cpu) s;
|}.

Lemma lines3_max c (d : D) : 0 <= c < ncpu -> 32 <= lines <= 1020.
Proof using HL.
  intros Hc. pose proof (hw3_read_typer c d Hc) as E. change 0x1f with (Z.ones 5) in E. rewrite Z.land_ones in E by lia.
  pose proof (Z.mod_pos_bound (ioread32 c (dva + GICD_TYPER) d).1 (2 ^ 5) ltac:(lia)). lia.
Qed.

(** A poll of a control register returns and changes nothing. *)
Lemma poll_settles n c a (d : D) :
  (busy d < n)%nat -> 0 <= c < ncpu -> a = dva + GICD_CTLR \/ (exists k, 0 <= k < ncpu /\ a = rd_frame rva k + GICR_CTLR) ->
  exists d', poll n c a 31 d = Some d' /\ hw3_view d' ≡ hw3_view d.
Proof using HL.
  intros Hn Hc Ha. revert d Hn. induction n as [|n IH]; intros d Hn; [lia|]. cbn [poll].
  destruct (hw3_poll c a d Hc Ha) as [Hv Hb]. destruct (ioread32 c a d) as [v d1]. cbn [fst snd] in *.
  destruct (Z.testbit v 31); [|by exists d1]. destruct (IH d1) as (d' & E & V); [specialize (Hb eq_refl); lia|].
  exists d'. split; [done|]. by rewrite V.
Qed.

Lemma gicd_wait c s : gicv3_mapped s -> 0 <= c < ncpu ->
  exists s', gicv3_gicd_wait_for_rwp polls c s = Some s' /\ s'.1 = s.1 /\ hw3_view s'.2 ≡ hw3_view s.2.
Proof using HL.
  intros [Hd _] Hc. unfold gicv3_gicd_wait_for_rwp. rewrite Hd.
  destruct (poll_settles polls c (dva + GICD_CTLR) s.2) as (d' & -> & V); [apply hw3_busy|done|by left|]. by exists (with_hw s d').
Qed.

Lemma gicr_wait c s : gicv3_mapped s -> 0 <= c < ncpu ->
  exists s', gicv3_gicr_wait_for_rwp polls c s = Some s' /\ s'.1 = s.1 /\ hw3_view s'.2 ≡ hw3_view s.2.
Proof.
  intros [_ Hr] Hc. unfold gicv3_gicr_wait_for_rwp, gicr_rd_base. destruct (Hr c Hc) as [-> _]. cbn [mbind option_bind].
  destruct (poll_settles polls c (rd_frame rva c + GICR_CTLR) s.2) as (d' & -> & V); [apply hw3_busy|done|right; by exists c|]. by exists (with_hw s d').
Qed.

(** A write followed by one of the waits. *)
Lemma does3_intro (op : gicv3 * D -> option (gicv3 * D)) f s s' : op s = Some s' -> gicv3_ok s' -> hw3_view s'.2 ≡ f (hw3_view s.2) -> does op f s.
Proof. intros H1 H2 H3. by exists s'. Qed.

Lemma ok_same (s s' : gicv3 * D) : s'.1 = s.1 -> gicv3_ok s -> gicv3_ok s'.
Proof. unfold gicv3_ok, gicv3_mapped. by intros ->. Qed.

Lemma gicr_then c s d (op : gicv3 * D -> option (gicv3 * D)) f :
  gicv3_ok s -> 0 <= c < ncpu -> op s = gicv3_gicr_wait_for_rwp polls c (with_hw s d) -> hw3_view d ≡ f (hw3_view s.2) -> does op f s.
Proof.
  intros Hok Hc Hop Hv. destruct (gicr_wait c (with_hw s d)) as (s' & E & E1 & V); [apply Hok|done|].
  apply (does3_intro op f s s'); [by rewrite Hop|by apply (ok_same s)|by rewrite V].
Qed.

Lemma gicd_then c s d (op : gicv3 * D -> option (gicv3 * D)) f :
  gicv3_ok s -> 0 <= c < ncpu -> op s = gicv3_gicd_wait_for_rwp polls c (with_hw s d) -> hw3_view d ≡ f (hw3_view s.2) -> does op f s.
Proof.
  intros Hok Hc Hop Hv. destruct (gicd_wait c (with_hw s d)) as (s' & E & E1 & V); [apply Hok|done|].
  apply (does3_intro op f s s'); [by rewrite Hop|by apply (ok_same s)|by rewrite V].
Qed.

Lemma local_reg irq : 0 <= irq < 32 -> irq / 32 * 4 = 0.
Proof. intros Hi. dlia. Qed.

(** Enabling and disabling a private line of the cpu [k]. *)
Lemma local_enable_view c k irq (d : D) :
  0 <= c < ncpu -> 0 <= k < ncpu -> 0 <= irq < 32 -> 32 <= lines ->
  hw3_view (iowrite32 c (u32 (Z.shiftl 1 (irq mod 32))) (sgi_frame rva k + (GICR_ISENABLER + irq / 32 * 4)) d) ≡ map_enable (set1 k irq true) (hw3_view d).
Proof.
  intros Hc Hk Hi Hl. rewrite local_reg, Z.add_0_r by done. rewrite hw3_local_isenabler by done. apply lf_ext. intros m.
  rewrite u32_bit by (apply Z.mod_pos_bound; lia). replace 0 with (irq / 32) by dlia. apply (upd_bit orb); [lia|done|done].
Qed.

Lemma local_disable_view c k irq (d : D) :
  0 <= c < ncpu -> 0 <= k < ncpu -> 0 <= irq < 32 -> 32 <= lines ->
  hw3_view (iowrite32 c (u32 (Z.shiftl 1 (irq mod 32))) (sgi_frame rva k + (GICR_ICENABLER + irq / 32 * 4)) d) ≡
    map_enable (fun m => if (irq <? 16) && negb sgi_off then m else set1 k irq false m) (hw3_view d).
Proof.
  intros Hc Hk Hi Hl. rewrite local_reg, Z.add_0_r by done. rewrite hw3_local_icenabler by done. apply lf_ext. intros m.
  rewrite u32_bit by (apply Z.mod_pos_bound; lia). rewrite (Z.mod_small irq 32) by lia. intros c' i.
  unfold upd. destruct (_ && _ && banked k c' i) eqn:E.
  - rewrite !andb_true_iff, Z.eqb_eq in E. destruct E as [[E1 E2] E3]. rewrite (Z.mod_small i 32) by dlia.
    unfold set1. destruct (decide (i = irq)) as [Hq|Hne].
    + subst i. rewrite Z.pow2_bits_true by lia. destruct (_ && negb sgi_off); [done|]. by rewrite Z.eqb_refl, E3.
    + rewrite Z.pow2_bits_false by lia. destruct ((i <? 16) && _), ((irq <? 16) && _); try done; by rewrite (proj2 (Z.eqb_neq i irq) Hne).
  - destruct (_ && negb sgi_off); [done|]. unfold set1. destruct (Z.eqb_spec i irq) as [->|]; [|done].
    rewrite (proj2 (Z.eqb_eq (irq / 32) 0)), (proj2 (Z.ltb_lt irq lines)) in E by dlia. cbn [andb] in E |- *. by rewrite E.
Qed.

Lemma gicv3_unmask_does c irq s :
  gicv3_ok s -> 0 <= c < ncpu -> 0 <= irq < lines -> does (ch_unmask c irq) (map_enable (set1 c irq true)) s.
Proof.
  intros Hk Hc Hi. pose proof (lines3_max c s.2 Hc) as Hl. pose proof Hk as [[Hd Hr] _].
  destruct (decide (irq < 32)) as [H32|H32].
  - eapply (gicr_then c); [done|done| |by apply (local_enable_view c c irq s.2); try lia].
    cbn [ch_unmask gicv3_chip]. unfold gicv3_unmask_irq, GICV3_NR_LOCAL_IRQS, gicr_sgi_base. rewrite (proj2 (Z.ltb_lt irq 32)) by lia.
    destruct (Hr c Hc) as [_ ->]. done.
  - eapply (gicd_then c); [done|done| |].
    { cbn [ch_unmask gicv3_chip]. unfold gicv3_unmask_irq, GICV3_NR_LOCAL_IRQS. rewrite (proj2 (Z.ltb_ge irq 32)) by lia. rewrite Hd. done. }
    rewrite hw3_isenabler by first [done|dlia]. apply lf_ext. intros m. rewrite u32_bit by (apply Z.mod_pos_bound; lia). apply (upd_bit orb); [lia|done|done].
Qed.

Lemma gicv3_mask_does c irq s :
  gicv3_ok s -> 0 <= c < ncpu -> 16 <= irq < lines -> does (ch_mask c irq) (map_enable (set1 c irq false)) s.
Proof.
  intros Hk Hc Hi. pose proof (lines3_max c s.2 Hc) as Hl. pose proof Hk as [[Hd Hr] _].
  destruct (decide (irq < 32)) as [H32|H32].
  - eapply (gicr_then c); [done|done| |].
    { cbn [ch_mask gicv3_chip]. unfold gicv3_mask_irq, GICV3_NR_LOCAL_IRQS, gicr_sgi_base. rewrite (proj2 (Z.ltb_lt irq 32)) by lia.
      destruct (Hr c Hc) as [_ ->]. done. }
    rewrite local_disable_view by lia. by rewrite (proj2 (Z.ltb_ge irq 16)) by lia.
  - eapply (gicd_then c); [done|done| |].
    { cbn [ch_mask gicv3_chip]. unfold gicv3_mask_irq, GICV3_NR_LOCAL_IRQS. rewrite (proj2 (Z.ltb_ge irq 32)) by lia. rewrite Hd. done. }
    rewrite hw3_icenabler by first [done|dlia]. apply lf_ext. intros m. rewrite u32_bit by (apply Z.mod_pos_bound; lia).
    apply (upd_bit (fun b x => negb b && x) false); [lia|done|done].
Qed.

Lemma gicv3_mask_sgi_does c irq s :
  gicv3_ok s -> 0 <= c < ncpu -> 0 <= irq < 16 ->
  exists b : bool, does (ch_mask c irq) (map_enable (fun m => if b then set1 c irq false m else m)) s.
Proof.
  intros Hk Hc Hi. pose proof (lines3_max c s.2 Hc) as Hl. pose proof Hk as [[Hd Hr] _]. exists sgi_off.
  eapply (gicr_then c); [done|done| |].
  { cbn [ch_mask gicv3_chip]. unfold gicv3_mask_irq, GICV3_NR_LOCAL_IRQS, gicr_sgi_base. rewrite (proj2 (Z.ltb_lt irq 32)) by lia.
    destruct (Hr c Hc) as [_ ->]. done. }
  rewrite local_disable_view by lia. rewrite (proj2 (Z.ltb_lt irq 16)) by lia. by destruct sgi_off.
Qed.

Lemma gicv3_unmask_cpu_does c irq cpu s :
  gicv3_ok s -> 0 <= c < ncpu -> 0 <= irq < 32 -> 0 <= cpu < ncpu -> does (ch_unmask_cpu c irq cpu) (map_enable (set1 cpu irq true)) s.
Proof.
  intros Hk Hc Hi Hcpu. pose proof (lines3_max c s.2 Hc) as Hl. pose proof Hk as [[Hd Hr] _].
  eapply (gicr_then c); [done|done| |by apply (local_enable_view c cpu irq s.2); try lia].
  cbn [ch_unmask_cpu gicv3_chip]. unfold gicv3_unmask_irq_cpu, GICV3_NR_LOCAL_IRQS, gicr_sgi_base.
  rewrite (proj2 (Z.leb_gt 32 irq)), (proj2 (Z.leb_gt ncpu cpu)) by lia. destruct (Hr cpu Hcpu) as [_ ->]. done.
Qed.

(** ** Affinities *)
Lemma affinity_bound c : 0 <= c < ncpu -> 0 <= aff_of mpidr c < 2 ^ 31.
Proof.
  intros Hc. pose proof hw3_cpus as Hn. rewrite <- Haff by done. unfold cpuid_to_affinity, MPIDR_EL1_AFF1_LSB, MPIDR_EL1_AFF2_LSB.
  destruct (cpu_has_feature _ _), (Z.ltb_spec c CONFIG_NR_CPUS_CLUSTER0); cbn zeta; rewrite ?lor_shifted by lia; rewrite ?Z.shiftl_mul_pow2 by lia; lia.
Qed.

Lemma affinity_injective c c' : 0 <= c < ncpu -> 0 <= c' < ncpu -> aff_of mpidr c = aff_of mpidr c' -> c = c'.
Proof.
  intros Hc Hc' E. pose proof hw3_cpus as Hn. rewrite <- !Haff in E by done.
  rewrite <- (affinity_roundtrip CONFIG_NR_CPUS_CLUSTER0 cf c), <- (affinity_roundtrip CONFIG_NR_CPUS_CLUSTER0 cf c') by lia. by rewrite E.
Qed.

Lemma gicv3_affinity_does c irq cpu s :
  gicv3_ok s -> 0 <= c < ncpu -> 32 <= irq < lines -> 0 <= cpu < ncpu ->
  does (fun s => success (ch_set_affinity c irq cpu s)) (map_route (route_to irq cpu)) s.
Proof.
  intros Hk Hc Hi Hcpu. pose proof Hk as [[Hd _] _]. pose proof (affinity_bound cpu Hcpu) as Hb.
  eapply does3_intro; [done|by apply (ok_same s)|]. unfold gicv3_set_irq_affinity, with_hw. cbn [fst snd]. rewrite Hd, Haff by done.
  change 0x7fffffff with (Z.ones 31). rewrite Z.land_ones, Z.mod_small by lia.
  rewrite hw3_irouter; [|done|done|by apply (testbit_small _ 31)]. apply lf_ext. intros m c' i. unfold route_to. destruct (i =? irq); [|done].
  destruct (Z.eqb_spec c' cpu) as [->|Hne].
  - by rewrite (proj2 (Z.leb_le 0 cpu)), (proj2 (Z.ltb_lt cpu ncpu)), Z.eqb_refl by lia.
  - destruct (Z.leb_spec 0 c'), (Z.ltb_spec c' ncpu); try done. cbn [andb]. apply Z.eqb_neq. intros E. apply Hne. symmetry. by apply affinity_injective.
Qed.

Lemma gicv3_type_does c irq type s :
  gicv3_ok s -> 0 <= c < ncpu -> 32 <= irq < lines ->
  does (fun s => success (ch_set_type c irq type s)) (map_edge (sense_at c irq type)) s.
Proof.
  intros Hk Hc Hi. pose proof (lines3_max c s.2 Hc) as Hl. pose proof Hk as [[Hd _] _].
  eapply does3_intro.
  { cbn [ch_set_type gicv3_chip]. unfold gicv3_set_irq_type, GICV3_NR_SGI, GICV3_NR_LOCAL_IRQS.
    rewrite (proj2 (Z.ltb_ge irq 16)), (proj2 (Z.leb_le 32 irq)) by lia. cbn [mbind option_bind]. rewrite Hd.
    pose proof (hw3_read_dist c (GICD_ICFGR + irq / 16 * 4) s.2 Hc ltac:(unfold GICD_ICFGR; dlia)) as Hr.
    pose proof (fun n b => hw3_read_cfg c n b s.2 Hc) as Hcfg.
    rewrite (surjective_pairing (ioread32 c (dva + (GICD_ICFGR + irq / 16 * 4)) s.2)), Hr.
    rewrite edge_bit by (pose proof (Z.mod_pos_bound irq 16); lia).
    fold (cfg_set type (irq mod 16) (ioread32 c (dva + (GICD_ICFGR + irq / 16 * 4)) s.2).1). reflexivity. }
  { by apply (ok_same s). }
  cbn [with_hw fst snd]. rewrite hw3_icfgr by first [done|dlia].
  repeat split; try done. intros c' i. cbn [map_edge g_edge]. unfold upd, sense_at.
  destruct (Z.eqb_spec (i / 16) (irq / 16)) as [E|E]; cbn [andb].
  2:{ rewrite (proj2 (Z.eqb_neq i irq)) by congruence. done. }
  assert (banked c c' i = true) as -> by (unfold banked; rewrite (proj2 (Z.leb_le 32 i)) by dlia; done). rewrite !andb_true_r.
  rewrite cfg_set_bit by (pose proof (Z.mod_pos_bound irq 16); pose proof (Z.mod_pos_bound i 16); lia).
  destruct (Z.ltb_spec i lines) as [Hil|Hil].
  2:{ rewrite (proj2 (Z.eqb_neq i irq)) by lia. done. }
  rewrite !hw3_read_cfg by (try done; dlia). rewrite <- Z.div_mod by lia.
  assert (16 * (irq / 16) + i mod 16 = i) as -> by dlia.
  destruct (Z.eqb_spec i irq) as [->|Hne].
  - rewrite Z.eqb_refl, (hw3_shared_cfg c c') by lia. done.
  - rewrite (proj2 (Z.eqb_neq (i mod 16) (irq mod 16))) by dlia. apply hw3_shared_cfg. dlia.
Qed.

Lemma gicv3_type_local_does c irq type s :
  gicv3_ok s -> 0 <= c < ncpu -> 0 <= irq < 32 ->
  exists f, does (fun s => success (ch_set_type c irq type s)) (map_edge f) s.
Proof.
  intros Hk Hc Hi. pose proof Hk as [[_ Hr] _]. destruct (decide (irq < 16)) as [Hs|Hs].
  - exists (fun m => m). eapply does3_intro; [|done|by rewrite lf_id].
    cbn [ch_set_type gicv3_chip]. unfold gicv3_set_irq_type, GICV3_NR_SGI. by rewrite (proj2 (Z.ltb_lt irq 16)).
  - eexists. eapply does3_intro.
    { cbn [ch_set_type gicv3_chip]. unfold gicv3_set_irq_type, GICV3_NR_SGI, GICV3_NR_LOCAL_IRQS, gicr_sgi_base.
      rewrite (proj2 (Z.ltb_ge irq 16)), (proj2 (Z.leb_gt 32 irq)) by lia. destruct (Hr c Hc) as [_ ->]. cbn [mbind option_bind].
      pose proof (hw3_read_local c c s.2 Hc Hc) as Hd. rewrite (surjective_pairing (ioread32 c (sgi_frame rva c + GICR_ICFGR1) s.2)), Hd. reflexivity. }
    { by apply (ok_same s). }
    cbn [with_hw fst snd]. by rewrite hw3_local_icfgr.
Qed.

(** The pending bit of a private interrupt is cleared; for a shared one it is a bit of
    the register before, or none. *)
Lemma gicv3_clear_does c irq s :
  gicv3_ok s -> 0 <= c < ncpu -> 0 <= irq < lines ->
  does (ch_clear_pending c irq)
    (map_pend (fun m => if irq <? 32 then set1 c irq false m
                        else if irq <? 64 then m else set1 c (32 * (irq / 32 - 1) + (irq / 32 - 1) mod 32) false m)) s.
Proof.
  intros Hk Hc Hi. pose proof (lines3_max c s.2 Hc) as Hl. pose proof Hk as [[Hd Hr] _].
  destruct (Z.ltb_spec irq 32) as [H32|H32].
  - eapply does3_intro.
    { cbn [ch_clear_pending gicv3_chip]. unfold gicv3_clear_pending, GICV3_NR_LOCAL_IRQS, gicr_sgi_base. rewrite (proj2 (Z.ltb_lt irq 32)) by lia.
      destruct (Hr c Hc) as [_ ->]. reflexivity. }
    { by apply (ok_same s). }
    cbn [with_hw fst snd]. rewrite hw3_local_icpendr by done. apply lf_ext. intros m. rewrite u32_bit by lia.
    pose proof (upd_bit (fun b x => negb b && x) false lines c irq m Hi ltac:(done) ltac:(done)) as Hu.
    rewrite (Z.mod_small irq 32) in Hu by lia. replace (irq / 32) with 0 in Hu by dlia. exact Hu.
  - eapply does3_intro.
    { cbn [ch_clear_pending gicv3_chip]. unfold gicv3_clear_pending, GICV3_NR_LOCAL_IRQS. rewrite (proj2 (Z.ltb_ge irq 32)) by lia. rewrite Hd. reflexivity. }
    { by apply (ok_same s). }
    cbn [with_hw fst snd]. rewrite hw3_icpendr by first [done|dlia]. apply lf_ext. intros m.
    assert ((irq - 32) / 32 = irq / 32 - 1) as -> by dlia. destruct (Z.ltb_spec irq 64) as [H64|H64].
    + by rewrite (proj2 (Z.eqb_eq (irq / 32 - 1) 0)) by dlia.
    + rewrite (proj2 (Z.eqb_neq (irq / 32 - 1) 0)) by dlia. set (k := irq / 32 - 1). assert (0 < k < 32 /\ 32 * k + 31 < lines \/ 0 < k < 32 /\ 32 * k + k < lines) as Hk' by (unfold k; dlia).
      rewrite u32_bit by (apply Z.mod_pos_bound; lia). rewrite (Z.mod_small k 32) by lia.
      pose proof (upd_bit (fun b x => negb b && x) false lines c (32 * k + k) m ltac:(lia) ltac:(done) ltac:(done)) as Hu.
      replace ((32 * k + k) / 32) with k in Hu by dlia. replace ((32 * k + k) mod 32) with k in Hu by dlia. exact Hu.
Qed.

(** ** Software interrupts *)
Lemma lor_add x y n : 0 <= n -> 0 <= x < 2 ^ n -> Z.lor x (Z.shiftl y n) = x + y * 2 ^ n.
Proof.
  intros Hn Hx. rewrite <- Z.shiftl_mul_pow2 by lia. symmetry. rewrite Z.add_nocarry_lxor, Z.lxor_lor; [done|..].
  all: apply Z.bits_inj'; intros k Hk; rewrite Z.land_spec, Z.bits_0, Z.shiftl_spec by lia.
  all: destruct (decide (k < n)); [by rewrite (Z.testbit_neg_r y), andb_false_r by lia|by rewrite (testbit_small x n) by lia].
Qed.

Lemma sgi3_word a0 a1 a2 a3 sgi :
  0 <= a0 < 16 -> 0 <= a1 < 256 -> 0 <= a2 < 256 -> 0 <= a3 < 256 -> 0 <= sgi < 16 ->
  Z.lor (Z.lor (Z.lor (Z.lor (Z.shiftl 1 a0) (Z.shiftl a1 16)) (Z.shiftl a2 32)) (Z.shiftl a3 48)) (u32 (Z.shiftl sgi 24))
    = 2 ^ a0 + a1 * 2 ^ 16 + sgi * 2 ^ 24 + a2 * 2 ^ 32 + a3 * 2 ^ 48.
Proof.
  intros H0 H1 H2 H3 Hs. assert (0 < 2 ^ a0 < 2 ^ 16) by (split; [lia|apply Z.pow_lt_mono_r; lia]).
  assert (u32 (Z.shiftl sgi 24) = Z.shiftl sgi 24) as -> by (unfold u32; rewrite Z.shiftl_mul_pow2 by lia; apply Z.mod_small; lia).
  assert (forall x y z w, Z.lor (Z.lor (Z.lor x y) z) w = Z.lor (Z.lor (Z.lor x w) y) z) as Hcomm.
  { intros x y z w. apply Z.bits_inj'. intros k Hk. rewrite !Z.lor_spec. destruct (Z.testbit x k), (Z.testbit y k), (Z.testbit z k), (Z.testbit w k); done. }
  rewrite Hcomm, Z.shiftl_1_l, (lor_add (2 ^ a0)), (lor_add (2 ^ a0 + _)), (lor_add (2 ^ a0 + _ + _)), (lor_add (2 ^ a0 + _ + _ + _)) by lia. lia.
Qed.

Lemma sgi3_fields a0 a1 a2 a3 sgi w :
  0 <= a0 < 16 -> 0 <= a1 < 256 -> 0 <= a2 < 256 -> 0 <= a3 < 256 -> 0 <= sgi < 16 ->
  w = 2 ^ a0 + a1 * 2 ^ 16 + sgi * 2 ^ 24 + a2 * 2 ^ 32 + a3 * 2 ^ 48 ->
  Z.land (Z.shiftr w 24) 15 = sgi /\ Z.testbit w 40 = false /\ Z.land (Z.shiftr w 48) 0xff = a3 /\ Z.land (Z.shiftr w 32) 0xff = a2 /\
  Z.land (Z.shiftr w 16) 0xff = a1 /\ forall b, 0 <= b < 16 -> Z.testbit w b = (b =? a0).
Proof.
  intros H0 H1 H2 H3 Hs ->. assert (0 < 2 ^ a0 < 2 ^ 16) by (split; [lia|apply Z.pow_lt_mono_r; lia]).
  set (w := 2 ^ a0 + _ + _ + _ + _). change 15 with (Z.ones 4). change 0xff with (Z.ones 8). rewrite !Z.land_ones, !Z.shiftr_div_pow2 by lia.
  assert (w mod 2 ^ 16 = 2 ^ a0) as Hlow by (unfold w; dlia).
  split; [unfold w; dlia|]. split; [|split; [unfold w; dlia|split; [unfold w; dlia|split; [unfold w; dlia|]]]].
  - assert (w / 2 ^ 40 = 256 * a3) as Hq by (unfold w; dlia).
    rewrite <- (Z.add_0_l 40), <- Z.shiftr_spec, Z.shiftr_div_pow2, Hq by lia. by rewrite Z.bit0_odd, Z.odd_mul.
  - intros b Hb. rewrite <- (Z.mod_pow2_bits_low w 16) by lia. rewrite Hlow.
    destruct (Z.eqb_spec b a0) as [->|]; [by rewrite Z.pow2_bits_true by lia|by rewrite Z.pow2_bits_false by lia].
Qed.

Lemma aff_byte_range c k : 0 <= aff_byte mpidr c k < 256.
Proof. unfold aff_byte. change 0xff with (Z.ones 8). rewrite Z.land_ones by lia. apply Z.mod_pos_bound. lia. Qed.

Lemma same_bytes c c' :
  0 <= c < ncpu -> 0 <= c' < ncpu -> aff_byte mpidr c 0 = aff_byte mpidr c' 0 -> aff_byte mpidr c 8 = aff_byte mpidr c' 8 ->
  aff_byte mpidr c 16 = aff_byte mpidr c' 16 -> aff_byte mpidr c 32 = aff_byte mpidr c' 32 -> c = c'.
Proof.
  intros Hc Hc' E0 E1 E2 E3. apply affinity_injective; [done|done|]. unfold aff_of. apply Z.bits_inj'. intros k Hk. rewrite !Z.land_spec.
  assert (forall o, 0 <= o -> aff_byte mpidr c o = aff_byte mpidr c' o -> o <= k < o + 8 -> Z.testbit (mpidr c) k = Z.testbit (mpidr c') k) as Hb.
  { intros o Ho E Hok. assert (forall x, Z.testbit (aff_byte mpidr x o) (k - o) = Z.testbit (mpidr x) k) as Hx.
    { intros x. unfold aff_byte. change 0xff with (Z.ones 8). rewrite Z.land_spec, Z.ones_spec_low, andb_true_r, Z.shiftr_spec by lia. f_equal. lia. }
    rewrite <- !Hx, E. done. }
  destruct (decide (k < 24)) as [H24|H24].
  - assert (0 <= k < 8 \/ 8 <= k < 16 \/ 16 <= k < 24) as [?|[?|?]] by lia; [rewrite (Hb 0)|rewrite (Hb 8)|rewrite (Hb 16)]; try done; lia.
  - destruct (decide (32 <= k < 40)) as [H40|H40]; [by rewrite (Hb 32) by lia|].
    assert (Z.testbit 0xff00ffffff k = false) as ->; [|by rewrite !andb_false_r].
    destruct (decide (k < 40)); [|apply (testbit_small _ 40); lia].
    assert (k = 24 \/ k = 25 \/ k = 26 \/ k = 27 \/ k = 28 \/ k = 29 \/ k = 30 \/ k = 31) as Hc8 by lia.
    repeat (destruct Hc8 as [->|Hc8]; [done|]). by subst k.
Qed.

(** The value for a cpu, with the number of the interrupt, names that cpu alone. *)
Lemma sgi_value_hits c cpu sgi c' :
  0 <= cpu < ncpu -> 0 <= sgi < 16 ->
  let v := Z.lor (sgi_value cpu) (u32 (Z.shiftl sgi 24)) in
  Z.land (Z.shiftr v 24) 15 = sgi /\ sgi3_hits ncpu mpidr c v c' = (c' =? cpu).
Proof.
  intros Hcpu Hs v. pose proof (Haff0 cpu Hcpu) as H0.
  pose proof (aff_byte_range cpu 0). pose proof (aff_byte_range cpu 8). pose proof (aff_byte_range cpu 16). pose proof (aff_byte_range cpu 32).
  destruct (sgi3_fields (aff_byte mpidr cpu 0) (aff_byte mpidr cpu 8) (aff_byte mpidr cpu 16) (aff_byte mpidr cpu 32) sgi v) as (F1 & F2 & F3 & F4 & F5 & F6);
    [lia|done|done|done|done|by apply sgi3_word; [lia|..]|].
  split; [done|]. unfold sgi3_hits. rewrite F2, F3, F4, F5. destruct (decide (0 <= c' < ncpu)) as [Hc'|Hc'].
  - rewrite (proj2 (Z.leb_le 0 c')), (proj2 (Z.ltb_lt c' ncpu)) by lia. cbn [andb]. pose proof (Haff0 c' Hc'). pose proof (aff_byte_range c' 0).
    rewrite (proj2 (Z.ltb_lt _ 16)) by done. rewrite andb_true_r, F6 by lia. apply Bool.eq_iff_eq_true. rewrite !andb_true_iff, !Z.eqb_eq. split.
    + intros (((E3 & E2) & E1) & E0). by apply same_bytes.
    + intros ->. done.
  - destruct (Z.eqb_spec c' cpu) as [->|]; [lia|]. destruct (Z.leb_spec 0 c'), (Z.ltb_spec c' ncpu); try done; lia.
Qed.

Lemma sgi_write_view c cpu sgi (d : D) :
  0 <= c < ncpu -> 0 <= cpu < ncpu -> 0 <= sgi < 16 ->
  hw3_view (write_sysreg c (Z.lor (sgi_value cpu) (u32 (Z.shiftl sgi 24))) ICC_SGI1R_EL1 d) ≡ map_pend (set1 cpu sgi true) (hw3_view d).
Proof.
  intros Hc Hcpu Hs. rewrite hw3_sgi by done. apply lf_ext. intros m c' i. destruct (sgi_value_hits c cpu sgi c' Hcpu Hs) as [-> ->].
  unfold set1. destruct (Z.eqb_spec i sgi) as [->|]; [|done]. unfold banked. by rewrite (proj2 (Z.leb_gt 32 sgi)) by lia.
Qed.

Lemma sgi_value_pos cpu : sgi_value cpu <> 0.
Proof.
  intros E. assert (Z.testbit (sgi_value cpu) (aff_byte mpidr cpu 0) = true) as Hb; [|by rewrite E, Z.bits_0 in Hb].
  unfold sgi_value. rewrite !Z.lor_spec. pose proof (aff_byte_range cpu 0). by rewrite Z.shiftl_1_l, Z.pow2_bits_true by lia.
Qed.

Lemma gicv3_sgi_does c sgi cpu s :
  gicv3_ok s -> 0 <= c < ncpu -> 0 <= sgi < 16 -> 0 <= cpu < ncpu ->
  does (ch_send_sgi c sgi cpu) (map_pend (set1 cpu sgi true)) s.
Proof.
  intros Hk Hc Hs Hcpu. pose proof Hk as [_ Ha]. exists (with_hw s (write_sysreg c (Z.lor (sgi_value cpu) (u32 (Z.shiftl sgi 24))) ICC_SGI1R_EL1 s.2)).
  split; [|split; [by apply (ok_same s)|by apply sgi_write_view]].
  cbn [ch_send_sgi gicv3_chip]. unfold gicv3_send_sgi, gicv3_send_sgi_list, __gicv3_send_sgi_list_shif_mpidr, __gicv3_send_sgi_list.
  rewrite (proj2 (Z.ltb_ge 15 sgi)) by lia. rewrite cpus_in_one by lia. cbn [send_each cluster_values]. rewrite (Ha cpu Hcpu). cbn [mbind option_bind].
  destruct (cpu_has_feature _ _); [done|]. destruct (_ <=? cpu); cbn [mbind option_bind]; rewrite (Z.lor_0_l (sgi_value cpu)); rewrite (proj2 (Z.eqb_neq _ 0) (sgi_value_pos cpu)); done.
Qed.

#[local] Instance gicv3_chip_laws : IrqChipLaws (gicv3 * D) ncpu.
Proof.
  split.
  - exact gicv3_mask_does.
  - exact gicv3_mask_sgi_does.
  - exact gicv3_unmask_does.
  - exact gicv3_unmask_cpu_does.
  - intros c irq s Hk Hc. eapply does3_intro; [done|by apply (ok_same s)|]. by apply hw3_eoir.
  - intros c irq s Hk Hc. eapply does3_intro; [done|by apply (ok_same s)|]. by apply hw3_dir.
  - exact gicv3_affinity_does.
  - exact gicv3_type_does.
  - exact gicv3_type_local_does.
  - intros c irq s Hk Hc Hi _. eexists. by apply gicv3_clear_does.
  - exact gicv3_sgi_does.
Qed.

(** ** Start of the controller *)
Lemma prio3_byte x b : x ∈ [0xa0; 0x90] -> 0 <= b < 4 -> Z.land (Z.land (Z.shiftr (u32 (word4 x)) (8 * b)) 0xff) pmask = x.
Proof using HL.
  intros Hx Hb. assert (Z.land (Z.shiftr (u32 (word4 x)) (8 * b)) 0xff = x /\ Z.land x 0xf0 = x) as [-> E].
  { assert (b = 0 \/ b = 1 \/ b = 2 \/ b = 3) as Hb4 by lia.
    rewrite !elem_of_cons in Hx. destruct Hx as [->|[->|Hx]]; [| |by apply not_elem_of_nil in Hx];
    destruct Hb4 as [->|[->|[->| ->]]]; split; vm_compute; done. }
  rewrite <- E at 1. rewrite <- Z.land_assoc, (Z.land_comm 0xf0), hw3_pmask. done.
Qed.

Lemma local_prio_loop x a b c (d : D) :
  x ∈ [0xa0; 0x90] -> 0 <= c < ncpu -> a mod 4 = 0 -> b mod 4 = 0 -> 0 <= a <= b -> b <= 32 ->
  hw3_view (for_steps a b 4 (fun i => iowrite32 c (u32 (word4 x)) (sgi_frame rva c + (GICR_IPRIORITYR0 + i / 4 * 4))) d) ≡
    map_prio (updr lines a b 4 c (fun _ _ _ => x)) (hw3_view d).
Proof.
  intros Hx Hc Ha Hb Hab Hb1.
  refine (proj2 (for_steps_view map_prio hw3_view (fun _ => True) _ lines 4 c (fun _ _ _ => x) a b d _ Ha Hb _ I _)); [lia|lia|].
  intros i d1 Hi Hm _. split; [done|]. rewrite hw3_local_ipriorityr by first [done|dlia].
  apply lf_ext. intros m c' j. unfold upd. destruct (_ && _ && _); [|done]. apply prio3_byte; [done|]. apply Z.mod_pos_bound. lia.
Qed.

Lemma poll_waker n c (d : D) :
  (busy d < n)%nat -> 0 <= c < ncpu -> awake d c ->
  exists d', poll n c (rd_frame rva c + GICR_WAKER) 2 d = Some d' /\ hw3_view d' ≡ hw3_view d.
Proof.
  intros Hn Hc Hw. revert d Hn Hw. induction n as [|n IH]; intros d Hn Hw; [lia|]. cbn [poll].
  destruct (hw3_read_waker c d Hc) as [Hv Hb]. destruct (Hb Hw) as [Hw1 Hb1]. destruct (ioread32 c _ d) as [v d1]. cbn [fst snd] in *.
  destruct (Z.testbit v 2); [|by exists d1]. destruct (IH d1) as (d' & E & V); [specialize (Hb1 eq_refl); lia|done|].
  exists d'. split; [done|]. by rewrite V.
Qed.

Lemma wakeup_view c s : gicv3_mapped s -> 0 <= c < ncpu ->
  exists s', gicv3_wakeup_gicr polls c s = Some s' /\ s'.1 = s.1 /\ hw3_view s'.2 ≡ hw3_view s.2.
Proof.
  intros [_ Hr] Hc. unfold gicv3_wakeup_gicr, gicr_rd_base. destruct (Hr c Hc) as [-> _]. cbn [mbind option_bind].
  destruct (hw3_read_waker c s.2 Hc) as [Hv _]. destruct (ioread32 c _ s.2) as [v d1]. cbn [fst snd] in *.
  destruct (hw3_wake c (Z.ldiff v GICR_WAKER_PROCESSOR_SLEEP) d1 Hc) as [Hw Ha]; [rewrite Z.ldiff_spec; by rewrite andb_false_r|].
  destruct (poll_waker polls c _ (hw3_busy _) Hc Ha) as (d' & -> & V). eexists. split; [reflexivity|]. split; [done|]. cbn [snd with_hw]. by rewrite V, Hw.
Qed.

(** The private lines of a cpu, and its interface; [r] is what its enable register for
    the system registers held. *)
Definition local_setup (c : Z) (g : gic) : gic :=
  map_group (upd lines 32 c 0 (fun _ b _ => Z.testbit 0xffffffff b))
    (map_enable (upd lines 32 c 0 (fun _ b x => Z.testbit 0x0000ffff b || x))
      (map_enable (upd lines 32 c 0 (fun _ b x => if (b <? 16) && negb sgi_off then x else negb (Z.testbit 0xffff0000 b) && x))
        (map_prio (updr lines 16 32 4 c (fun _ _ _ => 0xa0)) (map_prio (updr lines 0 16 4 c (fun _ _ _ => 0x90)) g)))).

Definition cif_setup (c r : Z) (g : gic) : gic :=
  map_cif (cif_set c 8 1) (map_cif (cif_set c 7 0xff000002) (map_cif (cif_set c 4 1) (map_cif (cif_set c 3 2) (map_cif (cif_set c 2 0xff)
    (map_cif (cif_set c 1 0) (map_cif (cif_set c 6 r) g)))))).

Lemma gicr_init_view c s : gicv3_mapped s -> 0 <= c < ncpu ->
  exists s', gicv3_gicr_init polls c s = Some s' /\ s'.1 = s.1 /\ hw3_view s'.2 ≡ local_setup c (hw3_view s.2).
Proof.
  intros Hm Hc. unfold gicv3_gicr_init. destruct (wakeup_view c s Hm Hc) as (s1 & -> & E1 & V1). cbn [mbind option_bind].
  unfold gicr_sgi_base. rewrite E1. destruct Hm as [Hd Hr]. destruct (Hr c Hc) as [_ ->]. cbn [mbind option_bind].
  set (d1 := iowrite32 c _ (_ + GICR_IGROUPR0) _).
  destruct (gicr_wait c (with_hw s1 d1)) as (s' & E' & E2 & V2); [by split; cbn [with_hw fst]; rewrite E1|done|].
  exists s'. split; [done|]. split; [by rewrite E2|]. rewrite V2. cbn [with_hw snd]. unfold d1, local_setup.
  rewrite hw3_local_igroupr, hw3_local_isenabler, hw3_local_icenabler by done. unfold GICV3_NR_SGI, GICV3_NR_LOCAL_IRQS.
  rewrite !local_prio_loop by first [done|lia|set_solver]. by rewrite V1.
Qed.

Lemma aff_fields m :
  Z.land m 0xff = Z.land (Z.shiftr m 0) 0xff /\ Z.shiftr (Z.land m 0xff00) 8 = Z.land (Z.shiftr m 8) 0xff /\
  Z.shiftr (Z.land m 0xff0000) 16 = Z.land (Z.shiftr m 16) 0xff /\ Z.shiftr (Z.land m 0xff00000000) 32 = Z.land (Z.shiftr m 32) 0xff.
Proof. rewrite !Z.shiftr_land, Z.shiftr_0_r. done. Qed.

Definition enter_affinity (c : Z) (g : gicv3) : gicv3 :=
  mk_gicv3 (gicd_base g) (gicr_rd_bases g) (gicr_sgi_bases g) (<[Z.to_nat c := sgi_value c]> (cpus_affinity g)).

Lemma gicc_init_view c s : length (cpus_affinity s.1) = Z.to_nat ncpu -> 0 <= c < ncpu ->
  exists s' r, gicv3_gicc_init c s = Some s' /\ s'.1 = enter_affinity c s.1 /\ hw3_view (gicv3_hyp_init c s').2 ≡ cif_setup c r (hw3_view s.2).
Proof.
  intros Hlen Hc. unfold gicv3_gicc_init.
  pose proof (hw3_read_sys c MPIDR_EL1 s.2 Hc ltac:(set_solver)) as R1. pose proof (hw3_mpidr c s.2 Hc) as R2.
  destruct (read_sysreg c MPIDR_EL1 s.2) as [m d1]. cbn [fst snd] in R1, R2. subst m d1.
  destruct (aff_fields (mpidr c)) as (F0 & F1 & F2 & F3). rewrite F0, F1, F2, F3. fold (aff_byte mpidr c 0) (aff_byte mpidr c 8) (aff_byte mpidr c 16) (aff_byte mpidr c 32).
  pose proof (Haff0 c Hc) as H0. rewrite (proj2 (Z.ltb_ge 16 _)) by lia. rewrite Hlen, (proj2 (Z.leb_le 0 c)), (proj2 (Z.ltb_lt c _)) by lia. cbn [andb negb].
  pose proof (hw3_read_sys c ICC_SRE_EL2 s.2 Hc ltac:(set_solver)) as R3. destruct (read_sysreg c ICC_SRE_EL2 s.2) as [r d1]. cbn [snd] in R3. subst d1.
  eexists _, (Z.lor r 1). split; [reflexivity|]. split; [done|]. unfold gicv3_hyp_init, with_hw. cbn [fst snd].
  rewrite (hw3_cif c _ ICH_HCR_EL2 8), (hw3_cif c _ ICH_VMCR_EL2 7), (hw3_cif c _ ICC_IGRPEN1_EL1 4), (hw3_cif c _ ICC_CTLR_EL1 3),
    (hw3_cif c _ ICC_PMR_EL1 2), (hw3_cif c _ ICC_BPR1_EL1 1), (hw3_cif c _ ICC_SRE_EL2 6) by done. done.
Qed.

Definition cpu_setup3 (c r : Z) (g : gic) : gic := cif_setup c r (local_setup c (map_cif (cif_set c 5 0xf) (map_cif (cif_set c 6 0xf) g))).

Lemma cpu_init3_view c s : gicv3_mapped s -> length (cpus_affinity s.1) = Z.to_nat ncpu -> 0 <= c < ncpu ->
  exists s' r, gicv3_cpu_init polls c s = Some s' /\ s'.1 = enter_affinity c s.1 /\ hw3_view s'.2 ≡ cpu_setup3 c r (hw3_view s.2).
Proof.
  intros Hm Hlen Hc. unfold gicv3_cpu_init.
  destruct (gicr_init_view c (gicv3_icc_sre_init c s) Hm Hc) as (s1 & -> & E1 & V1). cbn [mbind option_bind].
  destruct (gicc_init_view c s1) as (s2 & r & -> & E2 & V2); [by rewrite E1|done|]. cbn [mbind option_bind].
  exists (gicv3_hyp_init c s2), r. split; [done|]. split; [cbn; by rewrite E2, E1|]. rewrite V2. unfold cpu_setup3, cif_setup. rewrite V1. unfold local_setup.
  unfold gicv3_icc_sre_init, with_hw. cbn [snd]. rewrite (hw3_cif c _ ICC_SRE_EL1 5), (hw3_cif c _ ICC_SRE_EL2 6) by done. done.
Qed.

(** The loops over the shared lines; [nl] is where they stop, which is the number of
    lines less the last 32 of them. *)
Definition dist_setup3 (c nl : Z) (g : gic) : gic :=
  set_on true (map_group (updr lines 32 nl 32 c (fun _ _ _ => true)) (map_enable (updr lines 32 nl 32 c (fun _ _ _ => false))
    (map_prio (updr lines 32 nl 4 c (fun _ _ _ => 0xa0)) (map_edge (updr lines 32 nl 16 c (fun _ _ _ => false)) (set_on false g))))).

Lemma edge3_loop b c (d : D) :
  0 <= c < ncpu -> b mod 16 = 0 -> 32 <= b <= 1024 ->
  hw3_view (for_steps 32 b 16 (fun i => iowrite32 c 0 (dva + (GICD_ICFGR + i / 16 * 4))) d) ≡ map_edge (updr lines 32 b 16 c (fun _ _ _ => false)) (hw3_view d).
Proof using HL.
  intros Hc Hb Hab.
  refine (proj2 (for_steps_view map_edge hw3_view (fun _ => True) _ lines 16 c (fun _ _ _ => false) 32 b d _ _ Hb _ I _)); [lia|done|lia|].
  intros i d1 Hi Hm _. split; [done|]. rewrite hw3_icfgr by first [done|dlia]. apply lf_ext. intros m c' j. unfold upd. destruct (_ && _ && _); [|done]. apply Z.bits_0.
Qed.

Lemma prio3_loop b c (d : D) :
  0 <= c < ncpu -> b mod 4 = 0 -> 32 <= b <= 1024 ->
  hw3_view (for_steps 32 b 4 (fun i d =>
             let d := iowrite32 c (u32 (word4 0xa0)) (dva + (GICD_IPRIORITYR + i / 4 * 4)) d in
             snd (ioread32 c (dva + (GICD_IPRIORITYR + i / 4 * 4)) d)) d) ≡ map_prio (updr lines 32 b 4 c (fun _ _ _ => 0xa0)) (hw3_view d).
Proof using HL.
  intros Hc Hb Hab.
  refine (proj2 (for_steps_view map_prio hw3_view (fun _ => True) _ lines 4 c (fun _ _ _ => 0xa0) 32 b d _ _ Hb _ I _)); [lia|done|lia|].
  intros i d1 Hi Hm _. split; [done|]. cbn zeta. rewrite hw3_read_dist by first [done|unfold GICD_IPRIORITYR; dlia]. rewrite hw3_ipriorityr by first [done|dlia].
  apply lf_ext. intros m c' j. unfold upd. destruct (_ && _ && _); [|done]. apply prio3_byte; [apply list_elem_of_here|]. apply Z.mod_pos_bound. lia.
Qed.

Lemma ones_bit (j : Z) : Z.testbit 0xffffffff (j mod 32) = true.
Proof. change 0xffffffff with (Z.ones 32). pose proof (Z.mod_pos_bound j 32 ltac:(lia)). by rewrite Z.ones_spec_low by lia. Qed.

Lemma disable3_loop b c (d : D) :
  0 <= c < ncpu -> b mod 32 = 0 -> 32 <= b <= 1024 ->
  hw3_view (for_steps 32 b 32 (fun i => iowrite32 c 0xffffffff (dva + (GICD_ICENABLER + i / 32 * 4))) d) ≡ map_enable (updr lines 32 b 32 c (fun _ _ _ => false)) (hw3_view d).
Proof using HL.
  intros Hc Hb Hab.
  refine (proj2 (for_steps_view map_enable hw3_view (fun _ => True) _ lines 32 c (fun _ _ _ => false) 32 b d _ _ Hb _ I _)); [lia|done|lia|].
  intros i d1 Hi Hm _. split; [done|]. rewrite hw3_icenabler by first [done|dlia]. apply lf_ext. intros m c' j. unfold upd. destruct (_ && _ && _); [|done]. by rewrite ones_bit.
Qed.

Lemma group3_loop b c (d : D) :
  0 <= c < ncpu -> b mod 32 = 0 -> 32 <= b <= 1024 ->
  hw3_view (for_steps 32 b 32 (fun i => iowrite32 c 0xffffffff (dva + (GICD_IGROUPR + i / 32 * 4))) d) ≡ map_group (updr lines 32 b 32 c (fun _ _ _ => true)) (hw3_view d).
Proof using HL.
  intros Hc Hb Hab.
  refine (proj2 (for_steps_view map_group hw3_view (fun _ => True) _ lines 32 c (fun _ _ _ => true) 32 b d _ _ Hb _ I _)); [lia|done|lia|].
  intros i d1 Hi Hm _. split; [done|]. rewrite hw3_igroupr by first [done|dlia]. apply lf_ext. intros m c' j. unfold upd. destruct (_ && _ && _); [|done]. by rewrite ones_bit.
Qed.

Lemma dist_init3_view c s : gicv3_mapped s -> 0 <= c < ncpu -> 64 <= lines ->
  exists nl s', lines = Z.min 1020 (nl + 32) /\ 32 <= nl <= 992 /\ gicv3_dist_init polls c s = Some s' /\ s'.1 = s.1 /\
    hw3_view s'.2 ≡ dist_setup3 c nl (hw3_view s.2).
Proof using HL.
  intros Hm Hc H64. unfold gicv3_dist_init. pose proof Hm as [Hd Hr]. rewrite Hd. set (d0 := iowrite32 c 0 (dva + GICD_CTLR) s.2).
  pose proof (hw3_read_dist c GICD_TYPER d0 Hc ltac:(unfold GICD_TYPER; lia)) as Hr1. pose proof (hw3_read_typer c d0 Hc) as Hlines.
  destruct (ioread32 c (dva + GICD_TYPER) d0) as [type d1]. cbn [fst snd] in Hr1, Hlines. subst d1.
  set (nl := 32 * Z.land type 0x1f) in *. exists nl.
  assert (0 <= nl <= 992 /\ nl mod 32 = 0 /\ lines = Z.min 1020 (nl + 32)) as (Hnl & Hmod & Hl).
  { unfold nl. rewrite Hlines. change 0x1f with (Z.ones 5). rewrite Z.land_ones by lia. dlia. }
  assert (32 <= nl) as Hnl32 by dlia. unfold GICV3_NR_LOCAL_IRQS.
  set (d1 := for_steps 32 nl 32 (fun i => iowrite32 c 0xffffffff (dva + (GICD_IGROUPR + i / 32 * 4))) _).
  destruct (gicd_wait c (with_hw s d1) Hm Hc) as (s' & -> & E & V). cbn [mbind option_bind].
  eexists. split; [done|]. split; [lia|]. split; [reflexivity|]. split; [done|]. cbn [with_hw snd]. rewrite hw3_ctlr, V by done. cbn [with_hw snd].
  unfold d1. rewrite group3_loop, disable3_loop, prio3_loop, edge3_loop by first [done|dlia]. unfold d0. rewrite hw3_ctlr by done. done.
Qed.

(** The shared lines below [nl] are off, level sensitive, of normal priority and in the
    group of the hypervisor; the first [k] cpus take software interrupts with a higher
    priority than the others, their private lines are off, and their interfaces
    deliver. *)
Record ready3 (nl k : Z) (g : gic) : Prop := mk_ready3 {
  rd3_on : g_on g = true;
  rd3_shared : forall c i, 0 <= c < ncpu -> 32 <= i < nl ->
    g_enable g c i = false /\ g_edge g c i = false /\ g_prio g c i = 0xa0 /\ g_group g c i = true;
  rd3_local : forall c i, 0 <= c < k -> 0 <= i < 32 ->
    g_enable g c i = (i <? 16) /\ g_prio g c i = (if i <? 16 then 0x90 else 0xa0) /\ g_group g c i = true;
  rd3_cif : forall c, 0 <= c < k -> g_cif g c 1 = 0 /\ g_cif g c 2 = 0xff /\ g_cif g c 3 = 2 /\ g_cif g c 4 = 1 /\ g_cif g c 8 = 1;
}.

#[global] Instance ready3_proper nl k : Proper ((≡) ==> iff) (ready3 nl k).
Proof.
  assert (forall a b : gic, a ≡ b -> ready3 nl k a -> ready3 nl k b) as Hgo.
  { intros a b (E1 & E2 & E3 & E4 & E5 & E6 & E7 & E8 & E9) [R1 R2 R3 R4]. split.
    - by rewrite <- E1.
    - intros c i Hc Hi. rewrite <- (E2 c i), <- (E4 c i), <- (E5 c i), <- (E7 c i). by apply R2.
    - intros c i Hc Hi. rewrite <- (E2 c i), <- (E5 c i), <- (E7 c i). by apply R3.
    - intros c Hc. rewrite <- !(E8 c _). by apply R4. }
  intros a b E. split; [by apply Hgo|apply Hgo; by symmetry].
Qed.

Lemma dist_setup3_ready nl g : lines = Z.min 1020 (nl + 32) -> 32 <= nl <= 992 -> ready3 nl 0 (dist_setup3 0 nl g).
Proof.
  intros Hl Hnl. split; [done| |intros; lia|intros; lia]. intros c i Hc Hi.
  cbn [dist_setup3 set_on map_enable map_prio map_group map_edge g_enable g_edge g_prio g_group]. unfold updr, banked.
  by rewrite (proj2 (Z.leb_le 32 i)), (proj2 (Z.ltb_lt i nl)), (proj2 (Z.ltb_lt i lines)) by lia.
Qed.

Lemma cpu_setup3_ready nl k r g : 32 <= lines -> 0 <= k < ncpu -> ready3 nl k g -> ready3 nl (k + 1) (cpu_setup3 k r g).
Proof.
  intros Hl Hk [R1 R2 R3 R4]. split; [done| | |].
  - intros c i Hc Hi. destruct (R2 c i Hc Hi) as (S1 & S2 & S3 & S4).
    cbn [cpu_setup3 cif_setup local_setup map_enable map_prio map_cif map_group g_enable g_edge g_prio g_group]. unfold upd, updr.
    rewrite (proj2 (Z.eqb_neq (i / 32) 0)), (proj2 (Z.ltb_ge i 32)), (proj2 (Z.ltb_ge i 16)) by dlia. by rewrite !andb_false_r.
  - intros c i Hc Hi. cbn [cpu_setup3 cif_setup local_setup map_enable map_prio map_cif map_group g_enable g_prio g_group]. unfold upd, updr, banked.
    rewrite (proj2 (Z.eqb_eq (i / 32) 0)), (proj2 (Z.ltb_lt i lines)), (proj2 (Z.leb_gt 32 i)), ones_bit, (Z.mod_small i 32) by dlia.
    rewrite (proj2 (Z.leb_le 0 i)), (proj2 (Z.ltb_lt i 32)) by lia. destruct (setup_bits i Hi) as [B1 B2]. cbn [andb orb].
    destruct (Z.eqb_spec c k) as [->|Hne].
    + rewrite B1, B2, !andb_true_r. destruct (Z.ltb_spec i 16), (Z.leb_spec 16 i); try lia; by cbn; rewrite ?andb_false_r.
    + rewrite !andb_false_r. apply R3; lia.
  - intros c Hc. cbn [cpu_setup3 cif_setup local_setup map_cif map_enable map_prio map_group g_cif]. unfold cif_set. destruct (Z.eqb_spec c k) as [->|Hne]; [done|]. cbn [andb]. apply R4. lia.
Qed.

Lemma secondary3_ready nl n k s :
  Z.of_nat n + k = ncpu -> 0 <= k -> gicv3_mapped s -> length (cpus_affinity s.1) = Z.to_nat ncpu ->
  (forall c, 0 <= c < k -> cpus_affinity s.1 !! Z.to_nat c = Some (sgi_value c)) -> ready3 nl k (hw3_view s.2) ->
  exists s', gicv3_secondary_inits polls (seqZ k (Z.of_nat n)) s = Some s' /\ gicv3_ok s' /\ ready3 nl ncpu (hw3_view s'.2) /\
    peq (g_route (hw3_view s'.2)) (g_route (hw3_view s.2)).
Proof.
  revert k s. induction n as [|n IH]; intros k s Hnk Hk Hm Hlen Ha Hr.
  { exists s. split; [done|]. assert (k = ncpu) as -> by lia. done. }
  rewrite seqZ_cons by lia. cbn [gicv3_secondary_inits]. unfold gicv3_secondary_init.
  destruct (cpu_init3_view k s Hm Hlen ltac:(lia)) as (s1 & r & -> & E1 & V1). cbn [mbind option_bind].
  destruct (IH (k + 1) s1) as (s' & E' & Hok & Hr' & Hro).
  - lia.
  - lia.
  - unfold gicv3_mapped. by rewrite E1.
  - rewrite E1. cbn. by rewrite length_insert.
  - intros c Hc. rewrite E1. cbn [enter_affinity cpus_affinity]. destruct (decide (c = k)) as [->|Hne].
    + rewrite list_lookup_insert_eq by lia. done.
    + rewrite list_lookup_insert_ne by lia. apply Ha. lia.
  - rewrite V1. apply cpu_setup3_ready; [by apply (lines3_max 0 s.2); lia|lia|done].
  - exists s'. replace (Z.pred (Z.of_nat (S n))) with (Z.of_nat n) by lia. replace (Z.succ k) with (k + 1) by lia. rewrite E'. split; [done|]. split; [done|]. split; [done|].
    rewrite Hro. destruct V1 as (_ & _ & _ & _ & _ & Hr6 & _). exact Hr6.
Qed.

Section boot.
Context (translate : Z -> Z * Z) (io_remap : Z -> Z -> Z) (d : D).
Hypothesis Hdva : io_remap (translate 0).1 (translate 0).2 = dva.
Hypothesis Hrva : io_remap (translate 1).1 (translate 1).2 = rva.
(** The controller has five to seven bits of priority. *)
Hypothesis Hvtr : 4 <= Z.land (Z.shiftr (u32 (fst (read_sysreg 0 ICH_VTR_EL2 d))) 29) 7 <= 6.
Hypothesis H64 : 64 <= lines.

Lemma boot3_ready :
  exists s nl, gicv3_boot polls ncpu translate io_remap d = Some s /\ gicv3_ok s /\ lines = Z.min 1020 (nl + 32) /\ ready3 nl ncpu (hw3_view s.2) /\
    peq (g_route (hw3_view s.2)) (g_route (hw3_view d)).
Proof.
  pose proof hw3_cpus as Hn. unfold gicv3_boot, gicv3_init. pose proof Hdva as Hd. pose proof Hrva as Hrv. pose proof Hvtr as Hv.
  destruct (translate 0) as [a0 a1], (translate 1) as [a2 a3]. cbn [fst snd] in Hd, Hrv. rewrite Hd, Hrv.
  assert (0 <= 0 < ncpu) as Hc0 by lia. pose proof (hw3_read_sys 0 ICH_VTR_EL2 d Hc0 ltac:(set_solver)) as R1. cbn [fst snd]. destruct (read_sysreg 0 ICH_VTR_EL2 d) as [v d1]. cbn [fst snd] in R1, Hv |- *. subst d1.
  rewrite (proj2 (Z.ltb_lt 4 _)), (proj2 (Z.ltb_lt _ 8)) by lia. cbn [andb negb]. set (g := mk_gicv3 dva _ _ _).
  assert (gicv3_mapped (g, d)) as Hm.
  { split; [done|]. intros c Hc. cbn [fst g gicr_rd_bases gicr_sgi_bases]. rewrite !list_lookup_fmap, lookup_seqZ_lt by lia. cbn. rewrite Z2Nat.id, Z.add_0_l by lia. done. }
  destruct (dist_init3_view 0 (g, d) Hm ltac:(lia) H64) as (nl & s1 & Hl & Hnl & -> & E1 & V1). cbn [mbind option_bind].
  destruct (cpu_init3_view 0 s1) as (s2 & r & -> & E2 & V2); [by unfold gicv3_mapped; rewrite E1|by rewrite E1; cbn; rewrite length_replicate|lia|]. cbn [mbind option_bind].
  destruct (secondary3_ready nl (Z.to_nat (ncpu - 1)) 1 s2) as (s' & E' & Hok & Hr & Hro).
  - lia.
  - lia.
  - unfold gicv3_mapped. by rewrite E2, E1.
  - rewrite E2, E1. cbn. by rewrite length_insert, length_replicate.
  - intros c Hc. assert (c = 0) as -> by lia. rewrite E2, E1. cbn [enter_affinity cpus_affinity fst g]. rewrite list_lookup_insert_eq by (rewrite length_replicate; lia). done.
  - rewrite V2. apply (cpu_setup3_ready nl 0); [lia|lia|]. rewrite V1. by apply dist_setup3_ready.
  - exists s', nl. rewrite Z2Nat.id in E' by lia. rewrite E'. split; [done|]. split; [done|]. split; [done|]. split; [done|].
    rewrite Hro. destruct V2 as (_ & _ & _ & _ & _ & H6 & _). destruct V1 as (_ & _ & _ & _ & _ & K6 & _). rewrite H6. exact K6.
Qed.

(** C14: A system on a GICv3 starts and stays in agreement with its controller, where
    the identification of each cpu is the one that [cpuid_to_affinity] computes from its
    number and its last byte is below 16, the controller has five to seven bits of
    priority, at least 64 lines and at least as many as the descriptors, its registers
    are ready within the polls, and the callers set the affinity of shared interrupts
    only.  After
    the first cpu has run [gicv3_init] and each of the others [gicv3_secondary_init],
    every shared line but the last 32 is off, level sensitive, of normal priority and in
    the group of the hypervisor, and every cpu takes software interrupts.  Where the
    firmware left the lines routed to the first cpu, any sequence of operations of the
    interrupt core, on any cpus, those that handlers perform included, returns from there; a line whose descriptor says masked
    is disabled, a line with a handler that is not masked is enabled, private ones that
    were requested for all cpus included, and every shared line goes to the cpu of its
    descriptor alone. *)
Theorem gicv3_system_correct CONFIG_NR_SPI_IRQS run_handler raised ops :
  0 <= CONFIG_NR_SPI_IRQS -> MAX_IRQ_COUNT CONFIG_NR_SPI_IRQS <= lines -> Forall (fun i => 0 <= i) raised ->
  (forall h hno pdata i, 0 <= hno -> Forall (irq_op_valid (D := gicv3 * D)) (run_handler h hno pdata i).2) -> Forall (op_valid (D := gicv3 * D) ncpu) ops ->
  (forall c i, 0 <= c -> 32 <= i < lines -> g_route (hw3_view d) c i = (c =? 0)) ->
  exists s nl i s', gicv3_boot polls ncpu translate io_remap d = Some s /\ lines = Z.min 1020 (nl + 32) /\ ready3 nl ncpu (hw3_view s.2) /\
    run_ops (D := gicv3 * D) ncpu CONFIG_NR_SPI_IRQS run_handler ops (init_irqs ncpu CONFIG_NR_SPI_IRQS raised, s) = Some (i, s') /\
    coupled (D := gicv3 * D) ncpu CONFIG_NR_SPI_IRQS i s'.
Proof.
  intros Hs Hm Hp Hhd Hops Hfw. pose proof hw3_cpus as Hn. pose proof (lines3_max 0 d ltac:(lia)) as Hl.
  destruct boot3_ready as (s & nl & Hb & Hok & Hnl & Hr & Hro). exists s, nl.
  destruct (irq_core_drives_chip (D := gicv3 * D) (H := gicv3_chip) ncpu CONFIG_NR_SPI_IRQS run_handler ltac:(lia) Hm Hhd ops (init_irqs ncpu CONFIG_NR_SPI_IRQS raised) s) as (i & s' & E & Hc); [done|by apply init_irqs_inv; try done; [lia|unfold BAD_IRQ; cbn in Hm; lia]| |done|by exists i, s'].
  destruct (init_irqs_inv ncpu CONFIG_NR_SPI_IRQS raised) as [Ho Hpe _]; [lia|done|unfold BAD_IRQ; cbn in Hm; lia|done|].
  split; [done|done|done|]. intros cpu irq x Hc Hi Hx. pose proof (get_desc_max _ _ _ _ _ Hx) as Hmax.
  assert (x = mk_desc DEFAULT_IRQ_HANDLER 0 0 0 0) as ->.
  { unfold get_irq_desc_cpu, init_irqs in Hx; cbn [percpu_irq_descs spi_irq_descs] in Hx. destruct (_ <=? irq); [done|].
    destruct (_ <? _); (destruct (_ !! _) as [y|] eqn:E in Hx; [|done]); apply lookup_replicate_1 in E as [-> _]; by injection Hx as <-. }
  split; [done|done|]. intros H32 c Hc0. cbn [ch_view gicv3_chip]. rewrite (Hro c irq). apply Hfw; [done|]. cbn in Hm. lia.
Qed.
End boot.
End chip.

(** ** What the driver does not do *)
Section deviations.
Context {D : Type} `{Gicv3Hw D} {dva rva lines ncpu pmask : Z} {mpidr : Z -> Z} {busy : D -> nat} {polls : nat} {awake : D -> Z -> Prop} {ppi_cfg sgi_off : bool}
  `{HL : !Gicv3Laws D dva rva lines ncpu pmask mpidr busy polls awake ppi_cfg sgi_off}.

(** The pending state of a shared interrupt is never cleared: the register is the one
    before its own and the bit that of the number of the register. *)
Lemma shared_pending_stays c irq s s' cpu :
  gicv3_ok (D := D) (dva := dva) (rva := rva) (ncpu := ncpu) (mpidr := mpidr) s -> 0 <= c < ncpu -> 32 <= irq < lines ->
  gicv3_clear_pending c irq s = Some s' -> g_pend (hw3_view s'.2) cpu irq = g_pend (hw3_view s.2) cpu irq.
Proof.
  intros Hk Hc Hi E. pose proof (lines3_max c s.2 Hc) as Hl.
  assert (0 <= irq < lines) as Hi0 by lia. destruct (gicv3_clear_does 0 0 c irq s Hk Hc Hi0) as (s1 & E1 & _ & _ & _ & Hp & _). cbn [ch_clear_pending gicv3_chip] in E1. rewrite E in E1. injection E1 as <-.
  cbn [ch_view gicv3_chip] in Hp. rewrite (Hp cpu irq). cbn [map_pend g_pend]. rewrite (proj2 (Z.ltb_ge irq 32)) by lia. destruct (Z.ltb_spec irq 64); [done|].
  unfold set1. rewrite (proj2 (Z.eqb_neq _ _)); [done|]. rewrite (Z.mod_small (irq / 32 - 1)) by dlia. dlia.
Qed.

(** The last 32 lines of the controller are left as they were found, enabled ones
    included. *)
Lemma last_lines_not_set_up c s :
  gicv3_mapped (D := D) (dva := dva) (rva := rva) (ncpu := ncpu) s -> 0 <= c < ncpu -> 64 <= lines ->
  exists nl s', lines = Z.min 1020 (nl + 32) /\ gicv3_dist_init polls c s = Some s' /\
    forall cpu i, nl <= i -> g_enable (hw3_view s'.2) cpu i = g_enable (hw3_view s.2) cpu i.
Proof.
  intros Hm Hc Hl. destruct (dist_init3_view c s Hm Hc Hl) as (nl & s' & E & Hnl & E1 & _ & _ & He & _). exists nl, s'. split; [done|]. split; [done|].
  intros cpu i Hi. rewrite (He cpu i). cbn [dist_setup3 map_enable set_on map_group g_enable]. unfold updr. by rewrite (proj2 (Z.ltb_ge i nl)), andb_false_r by lia.
Qed.

(** A cpu whose affinity within the cluster is 16 is accepted; no interrupt can be
    sent to it, its value names the first cpu affinity of another cluster instead. *)
Lemma affinity_16_accepted c s :
  0 <= c < ncpu -> length (cpus_affinity s.1) = Z.to_nat ncpu -> mpidr c = 16 ->
  exists s', gicv3_gicc_init (D := D) c s = Some s' /\ cpus_affinity s'.1 !! Z.to_nat c = Some (2 ^ 16) /\ Z.land (2 ^ 16) 0xffff = 0.
Proof.
  intros Hc Hlen Hm. unfold gicv3_gicc_init. pose proof (hw3_mpidr c s.2 Hc) as R2. destruct (read_sysreg c MPIDR_EL1 s.2) as [m d1]. cbn [fst] in R2. subst m.
  rewrite Hm. rewrite Hlen, (proj2 (Z.leb_le 0 c)), (proj2 (Z.ltb_lt c _)) by lia. cbn [andb negb Z.land Z.ltb Z.compare Pos.compare]. change (16 <? Z.land 16 255) with false. cbn iota.
  destruct (read_sysreg c ICC_SRE_EL2 d1) as [r d2]. eexists. split; [reflexivity|]. split; [|done]. cbn [fst cpus_affinity]. rewrite list_lookup_insert_eq by lia. done.
Qed.

(** The wait for a redistributor looks at bit 31; that a write is in progress is
    bit 3, and a register that says so ends the wait. *)
Lemma gicr_wait_ignores_rwp n c rd (s : gicv3 * D) d1 :
  gicr_rd_base c s = Some rd -> ioread32 c (rd + GICR_CTLR) s.2 = (2 ^ 3, d1) -> gicv3_gicr_wait_for_rwp (S n) c s = Some (with_hw s d1).
Proof. intros Hr Hi. unfold gicv3_gicr_wait_for_rwp. rewrite Hr. cbn [mbind option_bind poll]. rewrite Hi. done. Qed.
End deviations.

(** ** A controller of two cpus and 96 lines

    A write leaves it busy until a control register is read. *)
Module SimGicv3.
Definition dva : Z := 0x10000000.
Definition rva : Z := 0x20000000.
Definition lines : Z := 96.
Definition ncpu : Z := 2.
Definition mpidr (c : Z) : Z := c.
Definition sim : Type := gic * bool.

Definition view (d : sim) : gic := SimGicv2.view d.1.
Definition busy (d : sim) : nat := if d.2 then 1 else 0.

(** The offset in the distributor, or the cpu and the offset in its redistributor. *)
Definition locate (a : Z) : option (Z + Z * Z) :=
  if (dva <=? a) && (a <? dva + 0x10000) then Some (inl (a - dva))
  else if (rva <=? a) && (a <? rva + 131072 * ncpu) then Some (inr ((a - rva) / 131072, (a - rva) mod 131072))
  else None.

Definition read (c a : Z) (d : sim) : Z * sim :=
  match locate a with
  | Some (inl off) =>
      if off =? GICD_CTLR then (if d.2 then 2 ^ 31 else 0, (d.1, false))
      else if off =? GICD_TYPER then (2, d)
      else if (GICD_ICFGR <=? off) && (off <? GICD_ICFGR + 256)
        then (foldr (fun b v => Z.lor (SimGicv2.cfg_bit d.1 c ((off - GICD_ICFGR) / 4) b) v) 0 (seqZ 0 16), d)
      else (0, d)
  | Some (inr (k, off)) =>
      if off =? GICR_CTLR then (if d.2 then 2 ^ 31 else 0, (d.1, false))
      else if off =? GICR_WAKER then (if d.2 then 4 else 0, (d.1, false))
      else (0, d)
  | None => (0, d)
  end.

Definition write_dist (c v off : Z) (g : gic) : gic :=
  if off =? GICD_CTLR then set_on (Z.testbit v 1) g
  else if (GICD_IGROUPR <=? off) && (off <? GICD_IGROUPR + 128)
    then map_group (upd lines 32 c ((off - GICD_IGROUPR) / 4) (fun _ b _ => Z.testbit v b)) g
  else if (GICD_ISENABLER <=? off) && (off <? GICD_ISENABLER + 128)
    then map_enable (upd lines 32 c ((off - GICD_ISENABLER) / 4) (fun _ b x => Z.testbit v b || x)) g
  else if (GICD_ICENABLER <=? off) && (off <? GICD_ICENABLER + 128)
    then map_enable (upd lines 32 c ((off - GICD_ICENABLER) / 4) (fun _ b x => negb (Z.testbit v b) && x)) g
  else if (GICD_ICPENDR <=? off) && (off <? GICD_ICPENDR + 128)
    then map_pend (fun m => if (off - GICD_ICPENDR) / 4 =? 0 then m else upd lines 32 c ((off - GICD_ICPENDR) / 4) (fun _ b x => negb (Z.testbit v b) && x) m) g
  else if (GICD_IPRIORITYR <=? off) && (off <? GICD_IPRIORITYR + 1024)
    then map_prio (upd lines 4 c ((off - GICD_IPRIORITYR) / 4) (fun _ b _ => Z.land (Z.land (Z.shiftr v (8 * b)) 0xff) 0xf8)) g
  else if (GICD_ICFGR <=? off) && (off <? GICD_ICFGR + 256)
    then map_edge (upd lines 16 c ((off - GICD_ICFGR) / 4) (fun _ b _ => Z.testbit v (2 * b + 1))) g
  else g.

Definition write_local (k v off : Z) (g : gic) : gic :=
  if off =? 65536 + GICR_ISENABLER then map_enable (upd lines 32 k 0 (fun _ b x => Z.testbit v b || x)) g
  else if off =? 65536 + GICR_ICENABLER
    then map_enable (upd lines 32 k 0 (fun _ b x => if (b <? 16) && negb false then x else negb (Z.testbit v b) && x)) g
  else if off =? 65536 + GICR_ICPENDR0 then map_pend (upd lines 32 k 0 (fun _ b x => negb (Z.testbit v b) && x)) g
  else if off =? 65536 + GICR_IGROUPR0 then map_group (upd lines 32 k 0 (fun _ b _ => Z.testbit v b)) g
  else if (65536 + GICR_IPRIORITYR0 <=? off) && (off <? 65536 + GICR_IPRIORITYR0 + 32)
    then map_prio (upd lines 4 k ((off - 65536 - GICR_IPRIORITYR0) / 4) (fun _ b _ => Z.land (Z.land (Z.shiftr v (8 * b)) 0xff) 0xf8)) g
  else g.

Definition write (c v a : Z) (d : sim) : sim :=
  match locate a with
  | Some (inl off) => (write_dist c v off d.1, true)
  | Some (inr (k, off)) => (write_local k v off d.1, true)
  | None => d
  end.

Definition write8 (c v a : Z) (d : sim) : sim :=
  match locate a with
  | Some (inl off) => (map_prio (upd lines 1 c (off - GICD_IPRIORITYR) (fun _ _ _ => Z.land v 0xf8)) d.1, d.2)
  | Some (inr (k, off)) => (map_prio (upd lines 1 k (off - 65536 - GICR_IPRIORITYR0) (fun _ _ _ => Z.land v 0xf8)) d.1, d.2)
  | None => d
  end.

Definition write64 (c v a : Z) (d : sim) : sim :=
  let i := (a - dva - GICD_IROUTER) / 8 in
  (map_route (fun m c' j => if j =? i then (0 <=? c') && (c' <? ncpu) && (v =? aff_of mpidr c') else m c' j) d.1, d.2).

Definition read_sys (c : Z) (r : sysreg) (d : sim) : Z * sim :=
  match r with MPIDR_EL1 => (mpidr c, d) | ICH_VTR_EL2 => (Z.shiftl 4 29, d) | _ => (0, d) end.

Definition write_sys (c v : Z) (r : sysreg) (d : sim) : sim :=
  match r with
  | ICC_SGI1R_EL1 => (map_pend (fun m c' i => if (i =? Z.land (Z.shiftr v 24) 15) && sgi3_hits ncpu mpidr c v c' then true else m c' i) d.1, d.2)
  | ICC_EOIR1_EL1 => (log_event (ev_eoi c v) d.1, d.2)
  | ICC_DIR_EL1 => (log_event (ev_dir c v) d.1, d.2)
  | _ => match cif_reg r with Some n => (map_cif (cif_set c n v) d.1, d.2) | None => d end
  end.

#[global] Instance sim3_hw : Gicv3Hw sim :=
  {| ioread32 := read; iowrite32 := write; iowrite8 := write8; iowrite64 := write64; read_sysreg := read_sys; write_sysreg := write_sys; hw3_view := view |}.

Lemma locate_dist off : 0 <= off < 0x10000 -> locate (dva + off) = Some (inl off).
Proof. intros Ho. unfold locate, dva. rewrite (proj2 (Z.leb_le _ _)), (proj2 (Z.ltb_lt _ _)) by lia. cbn [andb]. do 2 f_equal. lia. Qed.

Lemma locate_local k off : 0 <= k < ncpu -> 0 <= off < 131072 -> locate (rva + 131072 * k + off) = Some (inr (k, off)).
Proof.
  unfold ncpu. intros Hk Ho. unfold locate, dva, rva, ncpu. rewrite (proj2 (Z.ltb_ge _ (268435456 + 65536))) by lia. rewrite andb_false_r.
  rewrite (proj2 (Z.leb_le _ _)), (proj2 (Z.ltb_lt _ _)) by lia. cbn [andb]. do 3 f_equal; dlia.
Qed.

Ltac ranges := cbn zeta;
  repeat (match goal with
    | |- context [(?a <=? ?b) && (?c <? ?d)] => first [rewrite (proj2 (Z.leb_le a b)), (proj2 (Z.ltb_lt c d)) by lia|rewrite (proj2 (Z.leb_gt a b)) by lia|rewrite (proj2 (Z.ltb_ge c d)), (andb_false_r (a <=? b)) by lia]
    | |- context [if ?a =? ?b then _ else _] => first [rewrite (proj2 (Z.eqb_neq a b)) by lia|rewrite (proj2 (Z.eqb_eq a b)) by lia]
    end; cbn [andb]).

Ltac dist off := cbn [hw3_view sim3_hw iowrite32]; unfold write; rewrite (locate_dist off) by (unfold GICD_CTLR, GICD_ISENABLER, GICD_ICENABLER, GICD_ICPENDR, GICD_IPRIORITYR, GICD_ICFGR, GICD_IGROUPR; lia);
  unfold view, write_dist; cbn [fst]; unfold GICD_CTLR, GICD_ISENABLER, GICD_ICENABLER, GICD_ICPENDR, GICD_IPRIORITYR, GICD_ICFGR, GICD_IGROUPR; ranges.

Ltac local k off := cbn [hw3_view sim3_hw iowrite32]; unfold write, sgi_frame; rewrite <- (Z.add_assoc _ 65536 off), (locate_local k (65536 + off)) by (unfold ncpu, GICR_ISENABLER, GICR_ICENABLER, GICR_ICPENDR0, GICR_IPRIORITYR0, GICR_ICFGR1, GICR_IGROUPR0 in *; lia);
  unfold view, write_local; cbn [fst]; unfold GICR_ISENABLER, GICR_ICENABLER, GICR_ICPENDR0, GICR_IPRIORITYR0, GICR_ICFGR1, GICR_IGROUPR0; ranges.

#[global] Instance sim3_laws : Gicv3Laws sim dva rva lines ncpu 0xf8 mpidr busy 2 (fun _ _ => True) false false.
Proof.
  split.
  - done.
  - done.
  - intros [g b]. unfold busy. destruct b; cbn; lia.
  - intros c a [g b] Hc Ha. cbn [ioread32 sim3_hw]. unfold read.
    destruct Ha as [->|(k & Hk & ->)]; [rewrite locate_dist by (unfold GICD_CTLR; lia)|unfold rd_frame; rewrite (locate_local k) by (unfold GICR_CTLR; done || lia)];
      cbn; split; [done| |done|]; destruct b; cbn; unfold busy; cbn; [lia|done|lia|done].
  - intros c [g b] Hc. cbn [ioread32 sim3_hw]. unfold read, rd_frame. rewrite (locate_local c) by (unfold GICR_WAKER; done || lia). cbn.
    split; [done|]. intros _. split; [done|]. destruct b; cbn; unfold busy; cbn; [lia|done].
  - intros c v [g b] Hc Hv. cbn [iowrite32 sim3_hw]. unfold write, rd_frame. rewrite (locate_local c) by (unfold GICR_WAKER; done || lia). done.
  - intros c off d Hc Ho. cbn [ioread32 sim3_hw]. unfold read. rewrite locate_dist by lia. unfold GICD_CTLR. rewrite (proj2 (Z.eqb_neq off 0)) by lia. by repeat case_match.
  - intros c k d Hc Hk. cbn [ioread32 sim3_hw]. unfold read, sgi_frame. rewrite <- Z.add_assoc, (locate_local k) by (unfold GICR_ICFGR1; done || lia). done.
  - intros c r d Hc Hr. by destruct r.
  - done.
  - intros c d Hc. cbn [ioread32 sim3_hw]. unfold read. rewrite locate_dist by (unfold GICD_TYPER; lia). done.
  - intros c n b d Hc Hn Hb Hl. cbn [ioread32 sim3_hw hw3_view]. unfold read. rewrite locate_dist by (unfold GICD_ICFGR; lia). unfold GICD_CTLR, GICD_TYPER, GICD_ICFGR. ranges.
    cbn [fst]. replace ((3072 + n * 4 - 3072) / 4) with n by dlia. by apply SimGicv2.cfg_bits.
  - intros c c' i d Hi. cbn. by rewrite (proj2 (Z.leb_le 32 i)).
  - intros c v d Hc. by dist GICD_CTLR.
  - intros c v n d Hc Hn. dist (GICD_ISENABLER + n * 4). replace ((256 + n * 4 - 256) / 4) with n by dlia. done.
  - intros c v n d Hc Hn. dist (GICD_ICENABLER + n * 4). replace ((384 + n * 4 - 384) / 4) with n by dlia. done.
  - intros c v n d Hc Hn. dist (GICD_ICPENDR + n * 4). replace ((640 + n * 4 - 640) / 4) with n by dlia. done.
  - intros c v n d Hc Hn. dist (GICD_IPRIORITYR + n * 4). replace ((1024 + n * 4 - 1024) / 4) with n by dlia. done.
  - intros c v i d Hc Hi. cbn [hw3_view sim3_hw iowrite8]. unfold write8, lines in *. rewrite locate_dist by (unfold GICD_IPRIORITYR; lia).
    replace (GICD_IPRIORITYR + i - GICD_IPRIORITYR) with i by lia. done.
  - intros c v n d Hc Hn. dist (GICD_ICFGR + n * 4). replace ((3072 + n * 4 - 3072) / 4) with n by dlia.
    apply SimGicv2.view_map_edge. intros m c' i. unfold upd, banked. destruct (Z.leb_spec 32 i); [done|]. cbn [orb]. done.
  - intros c v n d Hc Hn. dist (GICD_IGROUPR + n * 4). replace ((128 + n * 4 - 128) / 4) with n by dlia. done.
  - intros c v i d Hc Hi Hv. cbn [hw3_view sim3_hw iowrite64]. unfold write64. replace ((dva + (GICD_IROUTER + i * 8) - dva - GICD_IROUTER) / 8) with i by dlia. done.
  - intros c k v d Hc Hk. by local k GICR_ISENABLER.
  - intros c k v d Hc Hk. by local k GICR_ICENABLER.
  - intros c k v d Hc Hk. by local k GICR_ICPENDR0.
  - intros c k v n d Hc Hk Hn. local k (GICR_IPRIORITYR0 + n * 4). replace ((65536 + (1024 + n * 4) - 65536 - 1024) / 4) with n by dlia. done.
  - intros c k v i d Hc Hk Hi. cbn [hw3_view sim3_hw iowrite8]. unfold write8, sgi_frame. rewrite <- (Z.add_assoc _ 65536), (locate_local k) by (unfold GICR_IPRIORITYR0; done || lia).
    replace (65536 + (GICR_IPRIORITYR0 + i) - 65536 - GICR_IPRIORITYR0) with i by lia. done.
  - intros c k v d Hc Hk. by local k GICR_ICFGR1.
  - intros c k v d Hc Hk. by local k GICR_IGROUPR0.
  - done.
  - done.
  - done.
  - intros c v r n d Hc Hr. destruct r; try done; injection Hr as <-; done.
Qed.
End SimGicv3.

Definition sim3_translate (i : Z) : Z * Z := ([(SimGicv3.dva, 0x10000); (SimGicv3.rva, 0x40000)] : list (Z * Z)) !!! Z.to_nat i.
Definition sim3_reset : SimGicv3.sim :=
  (mk_gic false (fun _ _ => true) (fun _ _ => false) (fun _ _ => true) (fun _ _ => 0) (fun c _ => c =? 0) (fun _ _ => false) (fun _ _ => 0) [], false).
Definition sim3_ops : list (Z * sys_op) :=
  [(0, op_core (op_request_percpu 27 (Some 5) 0 0)); (0, op_core (op_request 40 (Some 6) 1 99)); (1, op_core (op_affinity 40 1)); (1, op_core (op_enable 41 false));
   (0, op_core (op_request 42 (Some 7) 1 99)); (0, op_raise 42); (0, op_handle); (0, op_raise 40); (1, op_handle); (0, op_core (op_sgi 3 1))].

Definition sim3_run : option (irqs * (gicv3 * SimGicv3.sim)) :=
  s ← gicv3_boot 2 2 sim3_translate (fun a _ => a) sim3_reset;
  run_ops (D := gicv3 * SimGicv3.sim)
    (H := gicv3_chip (dva := SimGicv3.dva) (rva := SimGicv3.rva) (lines := 96) (ncpu := 2) (mpidr := SimGicv3.mpidr) (polls := 2) 2 0)
    2 64 demo_handler sim3_ops (init_irqs 2 64 [], s).

Definition sim3_outcome : list bool :=
  match sim3_run with
  | Some (_, s') => let g := hw3_view s'.2 in
      [g_enable g 1 27; g_route g 1 40; g_route g 0 40; g_enable g 0 40; g_edge g 0 40; g_enable g 0 41; g_enable g 0 42; g_pend g 1 3; g_enable g 0 50; g_enable g 0 70]
  | None => []
  end.

(** A board with two cpus: a private interrupt for both, a shared one that moves to the
    second cpu, and one whose handler masks it; the interrupt 70 is among those that the start does not switch off. *)
Lemma gicv3_system_correct_witness :
  sim3_outcome = [true; true; false; true; true; false; false; true; false; true] /\ exists i s', sim3_run = Some (i, s').
Proof.
  split; [vm_compute; reflexivity|].
  destruct (gicv3_system_correct (D := SimGicv3.sim) (HL := SimGicv3.sim3_laws) 2 0) with (translate := sim3_translate) (io_remap := fun a _ : Z => a) (d := sim3_reset)
    (CONFIG_NR_SPI_IRQS := 64) (run_handler := demo_handler) (raised := @nil Z) (ops := sim3_ops) as (s & nl & i & s' & Hb & _ & _ & Hr & _).
  - lia.
  - unfold SimGicv3.ncpu. intros c Hc. assert (c = 0 \/ c = 1) as [-> | ->] by lia; done.
  - unfold SimGicv3.ncpu. intros c Hc. assert (c = 0 \/ c = 1) as [-> | ->] by lia; done.
  - done.
  - done.
  - vm_compute. split; congruence.
  - done.
  - done.
  - done.
  - constructor.
  - intros h hno pdata i Hno. unfold demo_handler. destruct (h =? 7); repeat constructor; cbn; lia.
  - repeat (constructor; [vm_compute; repeat split; congruence|]). constructor.
  - done.
  - exists i, s'. unfold sim3_run. unfold SimGicv3.ncpu in Hb. rewrite Hb. exact Hr.
Defined.
