(* ===== verification/BlockProc.v ===== *)
(** * Requests of the block devices of the monitor (tools/mvm/devices/block_if.c)

    The data path: a request names a range of the backing file and the buffers of the
    guest, and [blockif_proc] moves the bytes, in one vectored call or through a
    buffer of [MAXPHYS] bytes.  The file is the class [Disk] of the system calls the
    code makes; a call returns its result or an error number.  The memory of the
    guest is a function from addresses to bytes.  [blockif_open] and the geometry of
    a disk are here too; the queues and threads are in Blockif. *)
From stdpp Require Import functions.
From S2P Require Import Prelude.

Definition EROFS : Z := 30.
Definition EFBIG : Z := 27.
Definition EOPNOTSUPP : Z := 95.
Definition DEV_BSIZE : Z := 512.
Definition MAXPHYS : Z := 512 * 1024.
Definition BLOCKIF_SIG : Z := 0xb109b109.
Definition BLOCKIF_IOV_MAX : nat := 33.

(** A value stored into an [off_t]. *)
Definition off_t (z : Z) : Z := (z + 2 ^ 63) mod 2 ^ 64 - 2 ^ 63.

Inductive blockop := BOP_READ | BOP_WRITE | BOP_FLUSH | BOP_DELETE.

(** [iov] holds base and length of the [iovcnt] buffers in use. *)
Record blockif_req := mk_breq {
  br_iov : list (Z * Z);
  br_offset : Z;
  br_resid : Z;
}.
Definition br_iovcnt (br : blockif_req) : nat := length (br_iov br).
Definition set_resid (z : Z) (br : blockif_req) : blockif_req := mk_breq (br_iov br) (br_offset br) z.

(** The fields of [blockif_ctxt] that do not change while requests are served,
    [wce] apart. *)
Record blockif_conf := mk_conf {
  bc_isblk : bool;
  bc_isgeom : bool;
  bc_candelete : bool;
  bc_rdonly : bool;
  bc_size : Z;
  bc_sub_file_assign : bool;
  bc_sub_file_start_lba : Z;
  bc_sectsz : Z;
  bc_psectsz : Z;
  bc_psectoff : Z;
  bc_wce : bool;
}.

Definition blockif_set_wce (wce : bool) (bc : blockif_conf) : blockif_conf :=
  mk_conf (bc_isblk bc) (bc_isgeom bc) (bc_candelete bc) (bc_rdonly bc) (bc_size bc) (bc_sub_file_assign bc) (bc_sub_file_start_lba bc)
    (bc_sectsz bc) (bc_psectsz bc) (bc_psectoff bc) wce.

(** The system calls on the backing file: a number of bytes or [errno]. *)
Class Disk (D : Type) := mk_disk {
  pread : D -> Z -> Z -> D * (list Z + Z);
  pwrite : D -> Z -> list Z -> D * (Z + Z);
  fsync : D -> D * Z;
  blkdiscard : D -> Z -> Z -> D * Z;
}.

Definition bytes := Z -> Z.

(** Bytes stored one after the other; [memcpy] to an address; the addresses of the
    buffers of a request, in the order of the transfer. *)
Definition store (m : bytes) (l : list (Z * Z)) : bytes := foldl (fun m kv => <[kv.1 := kv.2]> m) m l.
Definition memcpy_to (m : bytes) (a : Z) (l : list Z) : bytes := store m (zip (seqZ a (Z.of_nat (length l))) l).
Definition memcpy_from (m : bytes) (a n : Z) : list Z := m <$> seqZ a n.
Definition addrs (iov : list (Z * Z)) : list Z := iov ≫= (fun x => seqZ x.1 x.2).
Definition total (iov : list (Z * Z)) : Z := zsum snd iov.

(** [l[off], ..., l[off + n - 1]] *)
Definition slice (l : list Z) (off n : Z) : list Z := take (Z.to_nat n) (drop (Z.to_nat off) l).
(** The buffer [buf] with [l] copied to [buf + off]. *)
Definition splice (buf : list Z) (off : Z) (l : list Z) : list Z :=
  take (Z.to_nat off) buf ++ l ++ drop (Z.to_nat off + length l) buf.

Section proc.
Context {D : Type} `{!Disk D} (bc : blockif_conf).

Definition blockif_flush_cache (d : D) : D * Z := if bc_wce bc then (d, 0) else fsync d.

(** [preadv] and [pwritev]: one transfer of the file from or to the buffers in
    order. *)
Definition preadv (iov : list (Z * Z)) (off : Z) (d : D) (m : bytes) : D * (Z + Z) * bytes :=
  match pread d off (total iov) with
  | (d', inl l) => (d', inl (Z.of_nat (length l)), store m (zip (addrs iov) l))
  | (d', inr e) => (d', inr e, m)
  end.
Definition pwritev (iov : list (Z * Z)) (off : Z) (d : D) (m : bytes) : D * (Z + Z) :=
  pwrite d off (m <$> addrs iov).

(** The inner loop of the read path, from the buffer to the guest: [i] is the buffer of
    the guest, [voff] the position in it. *)
Fixpoint copy_out (fuel : nat) (iov : list (Z * Z)) (buf : list Z) (len boff : Z) (i : nat) (voff : Z) (m : bytes) :
    option (nat * Z * bytes) :=
  match fuel with
  | O => None
  | S fuel =>
      v ← iov !! i;
      let clen := Z.min (len - boff) (v.2 - voff) in
      let m := memcpy_to m (v.1 + voff) (slice buf boff clen) in
      let '(i, voff) := if clen <? v.2 - voff then (i, voff + clen) else (S i, 0) in
      let boff := boff + clen in
      if boff <? len then copy_out fuel iov buf len boff i voff m else Some (i, voff, m)
  end.

(** The inner loop of the write path, from the guest to the buffer. *)
Fixpoint copy_in (fuel : nat) (iov : list (Z * Z)) (m : bytes) (len boff : Z) (i : nat) (voff : Z) (buf : list Z) :
    option (nat * Z * list Z) :=
  match fuel with
  | O => None
  | S fuel =>
      v ← iov !! i;
      let clen := Z.min (len - boff) (v.2 - voff) in
      let buf := splice buf boff (memcpy_from m (v.1 + voff) clen) in
      let '(i, voff) := if clen <? v.2 - voff then (i, voff + clen) else (S i, 0) in
      let boff := boff + clen in
      if boff <? len then copy_in fuel iov m len boff i voff buf else Some (i, voff, buf)
  end.

(** The outer loops. *)
Fixpoint read_loop (fuel : nat) (br : blockif_req) (off : Z) (i : nat) (voff : Z) (buf : list Z) (d : D) (m : bytes) :
    option (D * bytes * blockif_req * Z) :=
  if br_resid br <=? 0 then Some (d, m, br, 0) else
  match fuel with
  | O => None
  | S fuel =>
      let len := Z.min (br_resid br) MAXPHYS in
      match pread d (br_offset br + off + bc_sub_file_start_lba bc) len with
      | (d', inr e) => Some (d', m, br, e)
      | (d', inl l) =>
          let buf := splice buf 0 l in
          '(i, voff, m) ← copy_out (S (br_iovcnt br)) (br_iov br) buf len 0 i voff m;
          read_loop fuel (set_resid (br_resid br - len) br) (off + len) i voff buf d' m
      end
  end.

Fixpoint write_loop (fuel : nat) (br : blockif_req) (off : Z) (i : nat) (voff : Z) (buf : list Z) (d : D) (m : bytes) :
    option (D * blockif_req * Z) :=
  if br_resid br <=? 0 then Some (d, br, 0) else
  match fuel with
  | O => None
  | S fuel =>
      let len := Z.min (br_resid br) MAXPHYS in
      '(i, voff, buf) ← copy_in (S (br_iovcnt br)) (br_iov br) m len 0 i voff buf;
      match pwrite d (br_offset br + off + bc_sub_file_start_lba bc) (slice buf 0 len) with
      | (d', inr e) => Some (d', br, e)
      | (d', inl _) => write_loop fuel (set_resid (br_resid br - len) br) (off + len) i voff buf d' m
      end
  end.

Definition blockif_flush_all (d : D) : D * Z := fsync d.

Definition proc_fuel (br : blockif_req) : nat := S (Z.to_nat (br_resid br / MAXPHYS)).

(** [blockif_proc] up to the callback: the file, the memory of the guest, the request
    and the error passed to the callback.  The error of the loop that writes is
    replaced by that of [blockif_flush_cache], as in the code. *)
Definition blockif_proc (op : blockop) (buf : option (list Z)) (br : blockif_req) (d : D) (m : bytes) :
    option (D * bytes * blockif_req * Z) :=
  let buf := if (br_iovcnt br <=? 1)%nat then None else buf in
  match op with
  | BOP_READ =>
      match buf with
      | None =>
          let '(d, len, m) := preadv (br_iov br) (br_offset br + bc_sub_file_start_lba bc) d m in
          Some match len with
               | inr e => (d, m, br, e)
               | inl len => (d, m, set_resid (br_resid br - len) br, 0)
               end
      | Some buf => read_loop (proc_fuel br) br 0 0 0 buf d m
      end
  | BOP_WRITE =>
      if bc_rdonly bc then Some (d, m, br, EROFS) else
      match buf with
      | None =>
          let '(d, len) := pwritev (br_iov br) (br_offset br + bc_sub_file_start_lba bc) d m in
          Some match len with
               | inr e => (d, m, br, e)
               | inl len => let '(d, err) := blockif_flush_cache d in (d, m, set_resid (br_resid br - len) br, err)
               end
      | Some buf =>
          '(d, br, _) ← write_loop (proc_fuel br) br 0 0 0 buf d m;
          let '(d, err) := blockif_flush_cache d in Some (d, m, br, err)
      end
  | BOP_FLUSH => let '(d, err) := fsync d in Some (d, m, br, err)
  | BOP_DELETE =>
      if negb (bc_candelete bc) then Some (d, m, br, EOPNOTSUPP)
      else if bc_rdonly bc then Some (d, m, br, EROFS)
      else if bc_isblk bc then
        let '(d, err) := blkdiscard d (br_offset br) (br_resid br) in
        Some (d, m, if err =? 0 then set_resid 0 br else br, err)
      else Some (d, m, br, EOPNOTSUPP)
  end.
End proc.

(** ** The buffered path and the vectored calls agree

    The state of the inner loops is the list of addresses still to be transferred. *)
Definition rest (iov : list (Z * Z)) (i : nat) (voff : Z) : list Z := drop (Z.to_nat voff) (addrs (drop i iov)).

Definition iov_ok (iov : list (Z * Z)) : Prop := Forall (fun v => 0 <= v.2) iov.

Definition pos_ok (iov : list (Z * Z)) (i : nat) (voff : Z) : Prop :=
  0 <= voff /\ forall v, iov !! i = Some v -> voff <= v.2.

Lemma store_app m l k : store m (l ++ k) = store (store m l) k.
Proof. apply foldl_app. Qed.

Lemma length_addrs iov : iov_ok iov -> Z.of_nat (length (addrs iov)) = total iov.
Proof.
  unfold iov_ok, addrs, total. induction 1 as [|v l Hv _ IH]; [done|].
  rewrite bind_cons, zsum_cons, length_app, length_seqZ. lia.
Qed.

Lemma seqZ_take_drop n a k : 0 <= n <= k -> take (Z.to_nat n) (seqZ a k) = seqZ a n /\ drop (Z.to_nat n) (seqZ a k) = seqZ (a + n) (k - n).
Proof.
  intros. replace k with (n + (k - n)) at 1 2 by lia. rewrite seqZ_app by lia.
  split; [apply take_app_length' | apply drop_app_length']; by rewrite length_seqZ.
Qed.

Lemma rest_step iov i voff v : iov_ok iov -> pos_ok iov i voff -> iov !! i = Some v ->
  rest iov i voff = seqZ (v.1 + voff) (v.2 - voff) ++ rest iov (S i) 0.
Proof.
  intros _ [Hv Hp] Hi. specialize (Hp v Hi). unfold rest, addrs.
  rewrite (drop_S _ _ _ Hi), bind_cons, drop_0, drop_app_le by (rewrite length_seqZ; lia).
  f_equal. apply seqZ_take_drop. lia.
Qed.

(** One iteration consumes [clen] addresses. *)
Lemma rest_consume iov i voff v c : iov_ok iov -> pos_ok iov i voff -> iov !! i = Some v -> 0 <= c <= v.2 - voff ->
  let '(i', voff') := if c <? v.2 - voff then (i, voff + c) else (S i, 0) in
  take (Z.to_nat c) (rest iov i voff) = seqZ (v.1 + voff) c /\
  rest iov i' voff' = drop (Z.to_nat c) (rest iov i voff) /\ pos_ok iov i' voff'.
Proof.
  intros Hok Hp Hi Hc. pose proof Hp as [Hv Hp']. specialize (Hp' v Hi).
  assert (Ht : take (Z.to_nat c) (rest iov i voff) = seqZ (v.1 + voff) c).
  { rewrite (rest_step iov i voff v Hok Hp Hi), take_app_le by (rewrite length_seqZ; lia). apply seqZ_take_drop. lia. }
  case_match eqn:E; simplify_eq; (split; [done|]).
  destruct (Z.ltb_spec c (v.2 - voff)); simplify_eq; split.
  - unfold rest. rewrite drop_drop. f_equal. lia.
  - split; [lia|]. intros v' Hv'. rewrite Hi in Hv'. simplify_eq. lia.
  - rewrite (rest_step iov i voff v Hok Hp Hi).
    rewrite drop_app_length' by (rewrite length_seqZ; lia). done.
  - split; [lia|]. intros v' Hv'. apply list_elem_of_lookup_2 in Hv'. by apply (proj1 (list.Forall_forall _ _) Hok) in Hv'.
Qed.

Lemma rest_nonempty iov i voff : rest iov i voff <> [] -> exists v, iov !! i = Some v.
Proof.
  intros H. destruct (iov !! i) eqn:E; [eauto|]. apply lookup_ge_None in E. exfalso. apply H. unfold rest.
  rewrite (drop_ge iov) by done. cbn. by rewrite drop_nil.
Qed.

Lemma length_slice l a n : 0 <= a -> 0 <= n -> a + n <= Z.of_nat (length l) -> Z.of_nat (length (slice l a n)) = n.
Proof. intros. unfold slice. rewrite length_take, length_drop. lia. Qed.

Lemma zip_split (l : list Z) (k : list Z) n : zip (take n l) (take n k) ++ zip (drop n l) (drop n k) = zip l k.
Proof.
  revert k n. induction l as [|x l IH]; intros [|y k] [|n]; cbn; try done.
  - by rewrite zip_with_nil_r.
  - f_equal. apply IH.
Qed.

Lemma slice_split l a b n : 0 <= a -> 0 <= b <= n -> slice l a n = slice l a b ++ slice l (a + b) (n - b).
Proof.
  intros. unfold slice. rewrite Z2Nat.inj_add, <- drop_drop by lia.
  rewrite <- (take_drop (Z.to_nat b) (take (Z.to_nat n) _)). f_equal.
  - rewrite take_take. f_equal. lia.
  - rewrite skipn_firstn_comm. f_equal. lia.
Qed.

Lemma copy_out_spec fuel iov buf len : iov_ok iov -> len <= Z.of_nat (length buf) -> forall boff i voff m,
  pos_ok iov i voff -> 0 <= boff < len -> len - boff <= Z.of_nat (length (rest iov i voff)) -> (length iov < fuel + i)%nat ->
  exists i' voff', copy_out fuel iov buf len boff i voff m =
      Some (i', voff', store m (zip (take (Z.to_nat (len - boff)) (rest iov i voff)) (slice buf boff (len - boff)))) /\
    rest iov i' voff' = drop (Z.to_nat (len - boff)) (rest iov i voff) /\ pos_ok iov i' voff'.
Proof.
  intros Hok Hbuf. induction fuel as [|fuel IH]; intros boff i voff m Hp Hb Hr Hf.
  { destruct (rest_nonempty iov i voff) as [v Hv]; [intros E; rewrite E in Hr; cbn in Hr; lia|].
    apply lookup_lt_Some in Hv. lia. }
  destruct (rest_nonempty iov i voff) as [v Hv]; [intros E; rewrite E in Hr; cbn in Hr; lia|].
  pose proof (proj2 Hp v Hv). pose proof (lookup_lt_Some _ _ _ Hv).
  cbn [copy_out]. rewrite Hv. cbn [mbind option_bind]. set (c := Z.min (len - boff) (v.2 - voff)).
  assert (Hc : 0 <= c <= v.2 - voff) by lia.
  pose proof (rest_consume iov i voff v c Hok Hp Hv Hc) as Hs.
  pose proof (length_slice buf boff c ltac:(lia) ltac:(lia) ltac:(lia)) as Hl.
  destruct (Z.ltb_spec c (v.2 - voff)) as [Hlt|Hge]; destruct Hs as (Ht & Hrest & Hp').
  - replace c with (len - boff) in * by lia.
    rewrite (proj2 (Z.ltb_ge _ _)) by lia. eexists _, _. split; [|done].
    unfold memcpy_to. by rewrite Ht, Hl.
  - destruct (Z.ltb_spec (boff + c) len).
    + destruct (IH (boff + c) (S i) 0 (memcpy_to m (v.1 + voff) (slice buf boff c))) as (i' & voff' & Hg & Hr' & Hp''); [done|lia| |lia|].
      { rewrite Hrest, length_drop. lia. }
      exists i', voff'. rewrite Hg. split; [|split; [|done]].
      * do 2 f_equal. unfold memcpy_to. rewrite <- store_app. f_equal. rewrite Hl, <- Ht, Hrest.
        rewrite (slice_split buf boff c (len - boff)) by lia.
        rewrite <- (zip_split (take (Z.to_nat (len - boff)) (rest iov i voff)) _ (Z.to_nat c)).
        rewrite take_app_length', drop_app_length', take_take, take_drop_commute by lia.
        f_equal; f_equal; [f_equal; lia|do 2 f_equal; lia|f_equal; lia].
      * rewrite Hr', Hrest, drop_drop. f_equal. lia.
    + replace c with (len - boff) in * by lia. eexists _, _. split; [|done].
      unfold memcpy_to. by rewrite Ht, Hl.
Qed.

Lemma slice_all l : slice l 0 (Z.of_nat (length l)) = l.
Proof. unfold slice. change (Z.to_nat 0) with 0%nat. rewrite drop_0. apply take_ge. lia. Qed.

Lemma length_splice buf off l : 0 <= off -> off + Z.of_nat (length l) <= Z.of_nat (length buf) -> length (splice buf off l) = length buf.
Proof. intros. unfold splice. rewrite !length_app, length_take, length_drop. lia. Qed.

Lemma slice_splice buf a l : 0 <= a -> a + Z.of_nat (length l) <= Z.of_nat (length buf) -> slice (splice buf a l) 0 (a + Z.of_nat (length l)) = slice buf 0 a ++ l.
Proof.
  intros. unfold slice, splice. change (Z.to_nat 0) with 0%nat. rewrite !drop_0, app_assoc. apply take_app_length'.
  rewrite length_app, length_take. lia.
Qed.

Lemma slice_splice_0 buf l : Z.of_nat (length l) <= Z.of_nat (length buf) -> slice (splice buf 0 l) 0 (Z.of_nat (length l)) = l.
Proof. intros. by apply (slice_splice buf 0 l). Qed.

Lemma copy_in_spec fuel iov m len : iov_ok iov -> forall boff i voff buf, len <= Z.of_nat (length buf) ->
  pos_ok iov i voff -> 0 <= boff < len -> len - boff <= Z.of_nat (length (rest iov i voff)) -> (length iov < fuel + i)%nat ->
  exists i' voff' buf', copy_in fuel iov m len boff i voff buf = Some (i', voff', buf') /\ length buf' = length buf /\
    slice buf' 0 len = slice buf 0 boff ++ (m <$> take (Z.to_nat (len - boff)) (rest iov i voff)) /\
    rest iov i' voff' = drop (Z.to_nat (len - boff)) (rest iov i voff) /\ pos_ok iov i' voff'.
Proof.
  intros Hok. induction fuel as [|fuel IH]; intros boff i voff buf Hbuf Hp Hb Hr Hf.
  { destruct (rest_nonempty iov i voff) as [v Hv]; [intros E; rewrite E in Hr; cbn in Hr; lia|].
    apply lookup_lt_Some in Hv. lia. }
  destruct (rest_nonempty iov i voff) as [v Hv]; [intros E; rewrite E in Hr; cbn in Hr; lia|].
  pose proof (proj2 Hp v Hv). pose proof (lookup_lt_Some _ _ _ Hv).
  cbn [copy_in]. rewrite Hv. cbn [mbind option_bind]. set (c := Z.min (len - boff) (v.2 - voff)).
  assert (Hc : 0 <= c <= v.2 - voff) by lia.
  pose proof (rest_consume iov i voff v c Hok Hp Hv Hc) as Hs.
  assert (Hl : Z.of_nat (length (memcpy_from m (v.1 + voff) c)) = c) by (unfold memcpy_from; rewrite length_fmap, length_seqZ; lia).
  pose proof (length_splice buf boff (memcpy_from m (v.1 + voff) c) ltac:(lia) ltac:(lia)) as Hb'.
  pose proof (slice_splice buf boff (memcpy_from m (v.1 + voff) c) ltac:(lia) ltac:(lia)) as Hsl. rewrite Hl in Hsl.
  destruct (Z.ltb_spec c (v.2 - voff)) as [Hlt|Hge]; destruct Hs as (Ht & Hrest & Hp').
  - replace c with (len - boff) in * by lia.
    rewrite (proj2 (Z.ltb_ge _ _)) by lia. eexists _, _, _. split_and!; [done..| |done|done].
    rewrite Ht. unfold memcpy_from in *. rewrite <- Hsl. f_equal. lia.
  - destruct (Z.ltb_spec (boff + c) len).
    + destruct (IH (boff + c) (S i) 0 (splice buf boff (memcpy_from m (v.1 + voff) c))) as (i' & voff' & buf' & Hg & Hlb & Hsb & Hr' & Hp''); [lia|done|lia| |lia|].
      { rewrite Hrest, length_drop. lia. }
      exists i', voff', buf'. rewrite Hg. split_and!; [done|lia| | |done].
      * rewrite Hsb, Hsl, <- app_assoc. f_equal. unfold memcpy_from. rewrite <- Ht, Hrest, <- fmap_app, take_take_drop. do 2 f_equal. lia.
      * rewrite Hr', Hrest, drop_drop. f_equal. lia.
    + replace c with (len - boff) in * by lia. eexists _, _, _. split_and!; [done..| |done|done].
      rewrite Ht. unfold memcpy_from in *. rewrite <- Hsl. f_equal. lia.
Qed.

(** What POSIX says of a regular file of [size] bytes inside of its bounds: reads and
    writes are complete and a write in two parts is a write. *)
Class FullDisk (D : Type) `{!Disk D} (size : Z) (byte : D -> Z -> Z) (put : D -> Z -> list Z -> D) : Prop := {
  pread_full d off len : 0 <= off -> 0 <= len -> off + len <= size -> pread d off len = (d, inl (byte d <$> seqZ off len));
  pwrite_full d off l : 0 <= off -> off + Z.of_nat (length l) <= size -> pwrite d off l = (put d off l, inl (Z.of_nat (length l)));
  put_nil d off : put d off [] = d;
  put_app d off l k : put d off (l ++ k) = put (put d off l) (off + Z.of_nat (length l)) k;
}.

Section full.
Context {D : Type} `{!Disk D} (bc : blockif_conf) (size : Z) (byte : D -> Z -> Z) (put : D -> Z -> list Z -> D) `{!FullDisk D size byte put}.

Lemma fuel_step r f : 0 < r -> r / MAXPHYS < Z.of_nat (S f) -> (r - Z.min r MAXPHYS) / MAXPHYS < Z.of_nat f \/ r <= MAXPHYS.
Proof using. unfold MAXPHYS. intros. destruct (Z.le_gt_cases r (512 * 1024)); [by right|]. left. dlia. Qed.

Lemma set_resid_twice a b br : set_resid a (set_resid b br) = set_resid a br.
Proof using. done. Qed.

Lemma pread_loop_spec fuel : forall br off i voff buf d m, let r := Z.of_nat (length (rest (br_iov br) i voff)) in
  let at_ := br_offset br + off + bc_sub_file_start_lba bc in
  iov_ok (br_iov br) -> pos_ok (br_iov br) i voff -> Z.of_nat (length buf) = MAXPHYS -> br_resid br = r -> 0 <= at_ -> at_ + r <= size ->
  (r = 0 \/ r / MAXPHYS < Z.of_nat fuel) ->
  read_loop bc fuel br off i voff buf d m = Some (d, store m (zip (rest (br_iov br) i voff) (byte d <$> seqZ at_ r)), set_resid 0 br, 0).
Proof using FullDisk0.
  induction fuel as [|fuel IH]; intros br off i voff buf d m r at_ Hok Hp Hb Hr Ha Hsz Hf; cbn [read_loop]; rewrite Hr;
    assert (Hrl : Z.of_nat (length (rest (br_iov br) i voff)) = r) by done; assert (Hat : br_offset br + off + bc_sub_file_start_lba bc = at_) by done; clearbody r at_.
  1: assert (r = 0) as Hz by (destruct Hf as [|Hf]; [done|assert (0 <= r / MAXPHYS) by (unfold MAXPHYS; dlia); lia]).
  2: destruct (decide (r = 0)) as [Hz|Hz].
  1,2: rewrite Hz, (seqZ_nil at_ 0), fmap_nil, zip_with_nil_r by lia; destruct br; cbn in *; by rewrite Hr, Hz.
  rewrite (proj2 (Z.leb_gt _ _)) by lia. cbn beta iota zeta. set (len := Z.min r MAXPHYS). rewrite Hat.
  assert (Hlen : 0 < len <= r /\ len <= MAXPHYS) by (unfold len, MAXPHYS; lia).
  rewrite pread_full by lia. set (l := byte d <$> seqZ at_ len).
  assert (Hl : Z.of_nat (length l) = len) by (unfold l; rewrite length_fmap, length_seqZ; lia).
  pose proof (length_splice buf 0 l ltac:(lia) ltac:(lia)) as Hb'.
  destruct (copy_out_spec (S (br_iovcnt br)) (br_iov br) (splice buf 0 l) len Hok ltac:(lia) 0 i voff m Hp) as (i' & voff' & Hg & Hrest & Hp');
    [lia|lia|unfold br_iovcnt; lia|].
  rewrite Hg. cbn [mbind option_bind]. rewrite Z.sub_0_r in *.
  assert (Hr' : Z.of_nat (length (rest (br_iov br) i' voff')) = r - len) by (rewrite Hrest, length_drop; lia).
  rewrite IH; cbn [br_iov br_offset br_resid set_resid]; [|done|done|lia|lia|lia|lia|].
  2: { rewrite Hr'. destruct (fuel_step r fuel) as [|]; [lia|destruct Hf; [done|lia]|right; done|left; lia]. }
  rewrite set_resid_twice. do 2 f_equal. f_equal. f_equal. rewrite <- store_app. f_equal. rewrite Hr', Hrest.
  assert (Hsl : slice (splice buf 0 l) 0 len = l) by (rewrite <- Hl at 1; apply slice_splice_0; lia). rewrite Hsl.
  rewrite <- (zip_split (rest (br_iov br) i voff) (byte d <$> seqZ at_ r) (Z.to_nat len)).
  assert (Hsq : byte d <$> seqZ at_ r = l ++ (byte d <$> seqZ (at_ + len) (r - len))) by (unfold l; rewrite <- fmap_app, <- seqZ_app by lia; do 2 f_equal; lia).
  rewrite Hsq, take_app_length', drop_app_length' by lia. do 4 f_equal. lia.
Qed.

Lemma pwrite_loop_spec fuel : forall br off i voff buf d m, let r := Z.of_nat (length (rest (br_iov br) i voff)) in
  let at_ := br_offset br + off + bc_sub_file_start_lba bc in
  iov_ok (br_iov br) -> pos_ok (br_iov br) i voff -> Z.of_nat (length buf) = MAXPHYS -> br_resid br = r -> 0 <= at_ -> at_ + r <= size ->
  (r = 0 \/ r / MAXPHYS < Z.of_nat fuel) ->
  write_loop bc fuel br off i voff buf d m = Some (put d at_ (m <$> rest (br_iov br) i voff), set_resid 0 br, 0).
Proof using FullDisk0.
  induction fuel as [|fuel IH]; intros br off i voff buf d m r at_ Hok Hp Hb Hr Ha Hsz Hf; cbn [write_loop]; rewrite Hr;
    assert (Hrl : Z.of_nat (length (rest (br_iov br) i voff)) = r) by done; assert (Hat : br_offset br + off + bc_sub_file_start_lba bc = at_) by done; clearbody r at_.
  1: assert (r = 0) as Hz by (destruct Hf as [|Hf]; [done|assert (0 <= r / MAXPHYS) by (unfold MAXPHYS; dlia); lia]).
  2: destruct (decide (r = 0)) as [Hz|Hz].
  1,2: assert (rest (br_iov br) i voff = []) as -> by (apply nil_length_inv; lia); rewrite Hz, fmap_nil, put_nil; destruct br; cbn in *; by rewrite Hr, Hz.
  rewrite (proj2 (Z.leb_gt _ _)) by lia. cbn beta iota zeta. set (len := Z.min r MAXPHYS). rewrite Hat.
  assert (Hlen : 0 < len <= r /\ len <= MAXPHYS) by (unfold len, MAXPHYS; lia).
  destruct (copy_in_spec (S (br_iovcnt br)) (br_iov br) m len Hok 0 i voff buf ltac:(lia) Hp) as (i' & voff' & buf' & Hg & Hlb & Hsb & Hrest & Hp');
    [lia|lia|unfold br_iovcnt; lia|].
  rewrite Hg. cbn [mbind option_bind]. rewrite Z.sub_0_r in *. rewrite Hsb. unfold slice at 1. change (Z.to_nat 0) with 0%nat. rewrite take_0. cbn [app].
  set (l := m <$> take (Z.to_nat len) (rest (br_iov br) i voff)).
  assert (Hl : Z.of_nat (length l) = len) by (unfold l; rewrite length_fmap, length_take; lia).
  rewrite pwrite_full by lia.
  assert (Hr' : Z.of_nat (length (rest (br_iov br) i' voff')) = r - len) by (rewrite Hrest, length_drop; lia).
  rewrite IH; cbn [br_iov br_offset br_resid set_resid]; [|done|done|lia|lia|lia|lia|].
  2: { rewrite Hr'. destruct (fuel_step r fuel) as [|]; [lia|destruct Hf; [done|lia]|right; done|left; lia]. }
  rewrite set_resid_twice. do 3 f_equal.
  assert (Hm : m <$> rest (br_iov br) i voff = l ++ (m <$> rest (br_iov br) i' voff')) by (unfold l; by rewrite Hrest, <- fmap_app, take_drop).
  rewrite Hm, put_app, Hl. f_equal. lia.
Qed.

(** A request whose buffers hold [br_resid] bytes and whose range lies in the file: the
    loops through the buffer end, stay inside of the buffers of the guest and of the
    request, and do what the one vectored call does. *)
Theorem blockif_proc_buffered op buf br d m : op = BOP_READ \/ op = BOP_WRITE -> iov_ok (br_iov br) -> br_resid br = total (br_iov br) ->
  0 <= br_offset br + bc_sub_file_start_lba bc -> br_offset br + bc_sub_file_start_lba bc + br_resid br <= size ->
  Z.of_nat (length buf) = MAXPHYS ->
  blockif_proc bc op (Some buf) br d m = blockif_proc bc op None br d m /\
  (op = BOP_READ -> blockif_proc bc op (Some buf) br d m =
    Some (d, store m (zip (addrs (br_iov br)) (byte d <$> seqZ (br_offset br + bc_sub_file_start_lba bc) (br_resid br))), set_resid 0 br, 0)).
Proof using FullDisk0.
  intros Hop Hok Hr H0 Hsz Hbuf. pose proof (length_addrs _ Hok) as Hl.
  assert (Hrest : rest (br_iov br) 0 0 = addrs (br_iov br)) by done.
  assert (Hp : pos_ok (br_iov br) 0 0).
  { split; [done|]. intros v Hv. apply list_elem_of_lookup_2 in Hv. by apply (proj1 (list.Forall_forall _ _) Hok) in Hv. }
  assert (Hf : forall P : Prop, P \/ br_resid br / MAXPHYS < Z.of_nat (proc_fuel br)).
  { intros P. right. unfold proc_fuel. assert (0 <= br_resid br / MAXPHYS) by (unfold MAXPHYS; dlia). lia. }
  destruct Hop as [-> | ->]; unfold blockif_proc; (split; [|intros; try done]).
  1,2: set (x := preadv _ _ _ _); assert (Hx : x = (d, inl (br_resid br), store m (zip (addrs (br_iov br)) (byte d <$> seqZ (br_offset br + bc_sub_file_start_lba bc) (br_resid br)))))
    by (unfold x, preadv; rewrite pread_full, <- Hr by lia; rewrite length_fmap, length_seqZ, Z2Nat.id by lia; done);
    rewrite Hx, Z.sub_diag; destruct (_ <=? _)%nat; [done|];
    rewrite pread_loop_spec; rewrite ?Hrest, ?Hl, <- ?Hr, ?Z.add_0_r; auto.
  destruct (bc_rdonly bc); [done|]. destruct (_ <=? _)%nat; [done|].
  rewrite pwrite_loop_spec; rewrite ?Hrest, ?Hl, <- ?Hr, ?Z.add_0_r; auto. cbn [mbind option_bind].
  unfold pwritev. rewrite pwrite_full by (rewrite ?length_fmap; lia). rewrite length_fmap, Hl, Hr, Z.sub_diag. by destruct (blockif_flush_cache _ _).
Qed.
End full.

(** ** A disk of [size] bytes: reads and writes stop at its end *)
Definition disk_len (size off n : Z) : Z := Z.max 0 (Z.min n (size - off)).
#[export] Instance ram_disk (size : Z) : Disk bytes := {
  pread d off len := (d, if off <? 0 then inr EINVAL else inl (memcpy_from d off (disk_len size off len)));
  pwrite d off l := if off <? 0 then (d, inr EINVAL)
    else let n := disk_len size off (Z.of_nat (length l)) in (memcpy_to d off (take (Z.to_nat n) l), inl n);
  fsync d := (d, 0);
  blkdiscard d off len := (d, 0);
}.

Lemma memcpy_to_app m a l k : memcpy_to m a (l ++ k) = memcpy_to (memcpy_to m a l) (a + Z.of_nat (length l)) k.
Proof.
  unfold memcpy_to. rewrite <- store_app, length_app, Nat2Z.inj_add, seqZ_app by lia.
  f_equal. rewrite zip_with_app; [done|]. rewrite length_seqZ. lia.
Qed.

#[export] Instance ram_disk_full (size : Z) : FullDisk (Disk0 := ram_disk size) bytes size id memcpy_to.
Proof.
  split; [| |done|intros; apply memcpy_to_app]; intros; cbn; rewrite (proj2 (Z.ltb_ge _ _)) by lia; unfold disk_len.
  - do 2 f_equal. unfold memcpy_from. do 2 f_equal. lia.
  - rewrite Z.min_l, Z.max_r by lia. by rewrite Nat2Z.id, firstn_all.
Qed.

Definition conf0 : blockif_conf := mk_conf false false false false (2 ^ 30) false 0 512 4096 0 false.
Definition req0 : blockif_req := mk_breq [(0x1000, 300000); (0x100000, 0); (0x200000, 400000)] 1024 700000.

Lemma blockif_proc_buffered_witness : br_resid req0 > MAXPHYS /\
  forall buf d m, Z.of_nat (length buf) = MAXPHYS ->
    blockif_proc (Disk0 := ram_disk (2 ^ 30)) conf0 BOP_WRITE (Some buf) req0 d m = blockif_proc (Disk0 := ram_disk (2 ^ 30)) conf0 BOP_WRITE None req0 d m.
Proof.
  split; [done|]. intros buf d m Hb.
  refine (proj1 (blockif_proc_buffered (Disk0 := ram_disk (2 ^ 30)) conf0 (2 ^ 30) id memcpy_to BOP_WRITE buf req0 d m _ _ _ _ _ Hb)); [by right|by repeat constructor|done..].
Defined.

(** A read past the end of the disk moves nothing and is reported as done: only
    [br_resid] shows it. *)
Lemma short_read_no_error d m : blockif_proc (Disk0 := ram_disk 512) conf0 BOP_READ None (mk_breq [(0, 512)] 512 512) d m =
  Some (d, m, mk_breq [(0, 512)] 512 512, 0).
Proof. reflexivity. Qed.

(** A disk that fails every write: the loop through the buffer loses the error. *)
Definition EIO : Z := 5.
Definition failing_disk : Disk unit := {|
  pread d off len := (d, inr EIO); pwrite d off l := (d, inr EIO); fsync d := (d, 0); blkdiscard d off len := (d, EIO) |}.
Lemma buffered_write_error_lost : let br := mk_breq [(0, 1); (1, 1)] 0 2 in
  blockif_proc (Disk0 := failing_disk) conf0 BOP_WRITE None br () (fun _ => 0) = Some ((), fun _ => 0, br, EIO) /\
  blockif_proc (Disk0 := failing_disk) conf0 BOP_WRITE (Some [0; 0]) br () (fun _ => 0) = Some ((), fun _ => 0, br, 0).
Proof. split; reflexivity. Qed.

(** ** Opening a backing file

    The options after the path, as [strcmp] and [sscanf] classify them. *)
Inductive bopt :=
  | OWriteback
  | OWritethru
  | ORo
  | OSector (ssopt pssopt : Z)
  | OSector1 (ssopt : Z)
  | ORange (start size : Z)
  | OInvalid.

Record bopts := mk_bopts {
  o_writeback : bool;
  o_ro : bool;
  o_ssopt : Z;
  o_pssopt : Z;
  o_range : option (Z * Z);
}.

Definition parse_opt (a : bopts) (o : bopt) : option bopts :=
  match o with
  | OWriteback => Some (mk_bopts true (o_ro a) (o_ssopt a) (o_pssopt a) (o_range a))
  | OWritethru => Some (mk_bopts false (o_ro a) (o_ssopt a) (o_pssopt a) (o_range a))
  | ORo => Some (mk_bopts (o_writeback a) true (o_ssopt a) (o_pssopt a) (o_range a))
  | OSector s p => Some (mk_bopts (o_writeback a) (o_ro a) s p (o_range a))
  | OSector1 s => Some (mk_bopts (o_writeback a) (o_ro a) s s (o_range a))
  | ORange s n => Some (mk_bopts (o_writeback a) (o_ro a) (o_ssopt a) (o_pssopt a) (Some (s, n)))
  | OInvalid => None
  end.
Fixpoint parse_opts (l : list bopt) (a : bopts) : option bopts :=
  match l with
  | [] => Some a
  | o :: l => a ← parse_opt a o; parse_opts l a
  end.

(** What the system says of the file: which modes it opens in, [fstat], the [ioctl]s
    with their results, [calloc] and the lock of a range.  An [ioctl] that fails
    stores nothing. *)
Record os_file := mk_os {
  os_open : bool -> bool;
  os_fstat : option (bool * bool * Z * Z);
  os_blkgetsize : Z * Z;
  os_blkgetsize64 : Z * Z;
  os_blkpbszget : Z * Z;
  os_calloc : bool;
  os_setlk : bool -> Z -> Z -> bool;
}.

Definition powerof2 (x : Z) : bool := Z.land (x - 1) x =? 0.

(** The size of a block device: [sz] and [b] are what the variables hold before. *)
Definition blk_size (os : os_file) (st_size sz0 b0 : Z) : Z :=
  let '(err, v) := os_blkgetsize os in
  let sz := if err =? 0 then v else sz0 in
  let size := if err =? 0 then off_t (sz * DEV_BSIZE) else st_size in
  if (err =? 0) || (err =? EFBIG) then
    let '(err, v) := os_blkgetsize64 os in
    let b := if err =? 0 then v else b0 in
    if negb (err =? 0) || (b =? 0) || (b =? sz) then off_t (b * DEV_BSIZE) else b
  else size.

(** Return of NULL, [exit(1)], or the context. *)
Inductive open_res := OpenNull | OpenExit | OpenOk (bc : blockif_conf).

Definition sub_file_validate (os : os_file) (read_only : bool) (sub_start sub_size : Z) : Z :=
  if os_setlk os read_only sub_start sub_size then 0 else -1.

Definition blockif_open (os : os_file) (sz0 b0 pss0 : Z) (optstr : list bopt) : open_res :=
  match parse_opts optstr (mk_bopts false false 0 pss0 None) with
  | None => OpenNull
  | Some o =>
      let ro := o_ro o || negb (os_open os (o_ro o)) in
      if negb (os_open os (o_ro o)) && (o_ro o || negb (os_open os true)) then OpenNull else
      match os_fstat os with
      | None => OpenNull
      | Some (isblk, ischr, st_size, st_blksize) =>
          let size := if isblk then blk_size os st_size sz0 b0 else st_size in
          let psectsz := if isblk then (let '(err, v) := os_blkpbszget os in if err =? 0 then v else DEV_BSIZE) else st_blksize in
          let ssopt := o_ssopt o in
          let pssopt := o_pssopt o in
          if negb (ssopt =? 0) && (negb (powerof2 ssopt) || negb (powerof2 pssopt) || (ssopt <? 512) || (pssopt <? ssopt)) then OpenNull else
          if negb (ssopt =? 0) && ischr && ((ssopt <? DEV_BSIZE) || negb (Z.rem ssopt DEV_BSIZE =? 0)) then OpenNull else
          let sectsz := if ssopt =? 0 then DEV_BSIZE else ssopt in
          let psectsz := if ssopt =? 0 then psectsz else pssopt in
          if negb (os_calloc os) then OpenNull else
          match o_range o with
          | Some (start, n) =>
              let start := off_t (start * sectsz) in
              let size := off_t (n * sectsz) in
              if sub_file_validate os ro start size <? 0 then OpenExit
              else OpenOk (mk_conf isblk false false ro size true start sectsz psectsz 0 (o_writeback o))
          | None => OpenOk (mk_conf isblk false false ro size false 0 sectsz psectsz 0 (o_writeback o))
          end
      end
  end.

Lemma powerof2_spec x : 0 < x -> powerof2 x = true -> x = 2 ^ Z.log2 x.
Proof.
  intros Hx Hp. apply Z.eqb_eq in Hp. destruct (Z.log2_spec x Hx) as [H1 H2]. apply Z.le_antisymm; [|done].
  destruct (Z.le_gt_cases x (2 ^ Z.log2 x)) as [|Hgt]; [done|]. exfalso.
  assert (Hk : 0 < 2 ^ Z.log2 x) by (apply Z.pow_pos_nonneg; [lia|apply Z.log2_nonneg]).
  assert (Hl : Z.log2 (x - 1) = Z.log2 x) by (apply Z.log2_unique; [apply Z.log2_nonneg|lia]).
  assert (Hb : Z.testbit (Z.land (x - 1) x) (Z.log2 x) = true) by (rewrite Z.land_spec, (Z.bit_log2 x) by done; rewrite <- Hl, Z.bit_log2 by lia; done).
  by rewrite Hp, Z.bits_0 in Hb.
Qed.

(** What an opened file looks like: the sector size is a power of two of at least 512
    bytes, a file that could not be opened for writing is read only, requests go
    through the vectored calls, nothing is ever discarded, and a range is locked
    before it is used. *)
Theorem blockif_open_correct os sz0 b0 pss0 optstr bc : blockif_open os sz0 b0 pss0 optstr = OpenOk bc ->
  bc_isgeom bc = false /\ bc_candelete bc = false /\
  (exists k, 9 <= k /\ bc_sectsz bc = 2 ^ k) /\
  (bc_rdonly bc = false -> os_open os false = true) /\ (bc_rdonly bc = true -> os_open os true = true) /\
  (bc_sub_file_assign bc = true -> os_setlk os (bc_rdonly bc) (bc_sub_file_start_lba bc) (bc_size bc) = true) /\
  (bc_sub_file_assign bc = false -> bc_sub_file_start_lba bc = 0).
Proof.
  unfold blockif_open, sub_file_validate. intros H.
  destruct (parse_opts _ _) as [o|]; [|done].
  destruct (negb (os_open os (o_ro o)) && _) eqn:Ho; [done|]. destruct (os_fstat os) as [[[[isblk ischr] st] bs]|]; [|done].
  destruct (negb (o_ssopt o =? 0) && (_ || _)) eqn:Hs; [done|]. destruct (negb (o_ssopt o =? 0) && ischr && _); [done|]. destruct (os_calloc os); [|done]. cbn [negb] in H.
  assert (Hk : exists k, 9 <= k /\ (if o_ssopt o =? 0 then DEV_BSIZE else o_ssopt o) = 2 ^ k).
  { destruct (o_ssopt o =? 0); [by exists 9|]. cbn in Hs. apply orb_false_elim in Hs as [Hs _]. apply orb_false_elim in Hs as [Hs Hlt].
    apply orb_false_elim in Hs as [Hp _]. apply negb_false_iff in Hp. apply Z.ltb_ge in Hlt.
    exists (Z.log2 (o_ssopt o)). split; [|by apply powerof2_spec; [lia|]]. change 9 with (Z.log2 512). by apply Z.log2_le_mono. }
  set (ro := o_ro o || negb (os_open os (o_ro o))) in *.
  assert (Hro : (ro = false -> os_open os false = true) /\ (ro = true -> os_open os true = true)).
  { unfold ro. revert Ho. destruct (o_ro o), (os_open os true), (os_open os false); cbn; intros; split; congruence. }
  clearbody ro. destruct Hro. destruct (o_range o) as [[a n]|]; [destruct (os_setlk _ _ _ _) eqn:Hl; [|done]|]; cbn in H; by simplify_eq.
Qed.

(** ** Cylinders, heads and sectors *)
Definition blockif_chs (bc : blockif_conf) : Z * Z * Z :=
  let sectors := Z.quot (bc_size bc) (bc_sectsz bc) in
  let sectors := if 65535 * 16 * 255 <? sectors then 65535 * 16 * 255 else sectors in
  let '(secpt, heads, hcyl) :=
    if 65536 * 16 * 63 <=? sectors then (255, 16, Z.quot sectors 255)
    else
      let hcyl := Z.quot sectors 17 in
      let heads := u8 (Z.quot (hcyl + 1023) 1024) in
      let heads := if heads <? 4 then 4 else heads in
      let '(secpt, heads, hcyl) := if (heads * 1024 <=? hcyl) || (16 <? heads) then (31, 16, Z.quot sectors 31) else (17, heads, hcyl) in
      if heads * 1024 <=? hcyl then (63, 16, Z.quot sectors 63) else (secpt, heads, hcyl) in
  (u16 (Z.quot hcyl heads), heads, secpt).

(** The geometry describes the disk up to less than one cylinder, and no field is cut
    off, although the number of heads is computed in eight bits. *)
Theorem blockif_chs_correct bc : 0 < bc_sectsz bc -> 0 <= bc_size bc ->
  let '(c, h, s) := blockif_chs bc in let sectors := Z.min (bc_size bc / bc_sectsz bc) (65535 * 16 * 255) in
  0 <= c < 65536 /\ 4 <= h <= 16 /\ (s = 17 \/ s = 31 \/ s = 63 \/ s = 255) /\ c * h * s <= sectors < (c + 1) * h * s.
Proof.
  intros Hs Hz. unfold blockif_chs. rewrite (Z.quot_div_nonneg (bc_size bc)) by lia. set (n := bc_size bc / bc_sectsz bc).
  assert (0 <= n) by (apply Z.div_pos; lia). replace (if _ <? n then _ else n) with (Z.min n (65535 * 16 * 255)) by (destruct (Z.ltb_spec (65535 * 16 * 255) n); lia).
  set (k := Z.min n (65535 * 16 * 255)). assert (0 <= k <= 65535 * 16 * 255) by lia. clearbody k.
  destruct (Z.leb_spec (65536 * 16 * 63) k).
  { rewrite !Z.quot_div_nonneg by (try apply Z.quot_pos; lia). unfold u16. rewrite Z.mod_small; dlia. }
  rewrite !(Z.quot_div_nonneg k) by lia. rewrite (Z.quot_div_nonneg _ 1024) by dlia. unfold u8.
  set (hd := if _ <? 4 then 4 else _).
  assert (Hh : 4 <= hd) by (unfold hd; case_match; dlia). clearbody hd.
  destruct (Z.leb_spec (hd * 1024) (k / 17)), (Z.ltb_spec 16 hd); cbn [orb].
  4: assert (hd = 4 \/ hd = 5 \/ hd = 6 \/ hd = 7 \/ hd = 8 \/ hd = 9 \/ hd = 10 \/ hd = 11 \/ hd = 12 \/ hd = 13 \/ hd = 14 \/ hd = 15 \/ hd = 16) by lia;
    destruct_or!; subst hd.
  all: repeat match goal with |- context [if ?a <=? ?b then _ else _] => destruct (Z.leb_spec a b) end.
  all: rewrite ?(Z.quot_div_nonneg (_ / _)) by dlia; unfold u16; rewrite Z.mod_small by dlia; dlia.
Qed.

Definition os0 : os_file := mk_os (fun ro => ro) (Some (true, false, 0, 4096)) (0, 2048) (0, 2 ^ 20) (0, 4096) true (fun _ _ _ => true).

Lemma blockif_open_correct_witness : exists bc, blockif_open os0 7 7 7 [OSector 1024 4096; ORange 2 100] = OpenOk bc /\
  bc_rdonly bc = true /\ bc_sub_file_start_lba bc = 2048 /\ os_setlk os0 (bc_rdonly bc) (bc_sub_file_start_lba bc) (bc_size bc) = true.
Proof.
  eexists. split; [reflexivity|]. split; [done|]. split; [done|].
  apply (blockif_open_correct os0 7 7 7 [OSector 1024 4096; ORange 2 100]); reflexivity.
Defined.

Lemma blockif_chs_correct_witness : blockif_chs conf0 = (2080, 16, 63) /\ 2080 * 16 * 63 <= Z.min (2 ^ 30 / 512) (65535 * 16 * 255) < (2080 + 1) * 16 * 63.
Proof.
  assert (E : blockif_chs conf0 = (2080, 16, 63)) by reflexivity. split; [exact E|].
  pose proof (blockif_chs_correct conf0) as H. rewrite E in H. apply H; done.
Defined.

(** A block device that does not answer [BLKGETSIZE64] gets its size from a variable
    nobody has set, although [BLKGETSIZE] gave the size. *)
Lemma blk_size_uninitialised b0 : 0 <= b0 < 2 ^ 50 ->
  blk_size (mk_os (fun _ => true) None (0, 2048) (-1, 0) (0, 512) true (fun _ _ _ => true)) 0 0 b0 = b0 * 512.
Proof. intros. unfold blk_size, off_t, DEV_BSIZE. cbn. dlia. Qed.
