(* ===== verification/Blockif.v ===== *)
(** * Queues and threads of the block devices of the monitor
      (tools/mvm/devices/block_if.c, tools/mvm/devices/virtio/virtio_block.c)

    A context has 72 elements on three lists: free, pending and busy.  A request takes
    a free element and is pending, or blocked when it starts where an unfinished one
    ends; eight threads take the pending elements, process them without the lock and
    complete them.  The lists and elements are [blockif_q]; a request is named by a
    number, its fields are in a store the caller writes to, as the elements only point
    to them.

    A critical section under [mtx] is one step; processing, the callback and the
    critical sections of the threads interleave with those of the callers.
    [pthread_cond_signal] wakes one of the waiting threads, if there is any, and a
    thread may wake up without a signal.  The position of a thread in [blockif_thr] is
    [tpos]. *)
From stdpp Require Import functions.
From S2P Require Import Prelude BlockProc.

Definition E2BIG : Z := 7.
Definition BLOCKIF_NUMTHR : nat := 8.
Definition BLOCKIF_MAXREQ : nat := 64 + BLOCKIF_NUMTHR.
Definition blockif_queuesz : nat := BLOCKIF_MAXREQ - 1.

Inductive blockstat := BST_FREE | BST_BLOCK | BST_PEND | BST_BUSY | BST_DONE.
#[export] Instance blockstat_eq_dec : EqDecision blockstat.
Proof. solve_decision. Defined.

Record blockif_elem := mk_belem {
  be_req : option nat;
  be_op : blockop;
  be_status : blockstat;
  be_tid : option nat;
  be_block : Z;
}.
Definition set_status (st : blockstat) (e : blockif_elem) : blockif_elem := mk_belem (be_req e) (be_op e) st (be_tid e) (be_block e).

Record blockif_q := mk_q {
  freeq : list nat;
  pendq : list nat;
  busyq : list nat;
  reqs : nat -> blockif_elem;
  closing : bool;
}.
Definition set_reqs (f : nat -> blockif_elem) (q : blockif_q) : blockif_q := mk_q (freeq q) (pendq q) (busyq q) f (closing q).

(** [TAILQ_REMOVE]: of an element that is on the list. *)
Definition tailq_remove (be : nat) (l : list nat) : option (list nat) :=
  if decide (be ∈ l) then Some (filter (fun x => x <> be) l) else None.
Definition tailq_find (p : nat -> bool) (l : list nat) : option nat := head (List.filter p l).

(** The lists made by [blockif_open]. *)
Definition elem0 : blockif_elem := mk_belem None BOP_READ BST_FREE None 0.
Definition blockif_q0 : blockif_q := mk_q (rev (seq 0 BLOCKIF_MAXREQ)) [] [] (fun _ => elem0) false.

Section queue.
Context (rm : nat -> blockif_req).

(** Where a request ends; a flush gets [1 << (sizeof(off_t) - 1)]. *)
Definition end_of (op : blockop) (br : blockif_req) : Z :=
  match op with
  | BOP_FLUSH => Z.shiftl 1 (8 - 1)
  | _ => foldl (fun off v => off_t (off + v.2)) (br_offset br) (br_iov br)
  end.

Definition blockif_enqueue (r : nat) (op : blockop) (q : blockif_q) : option (bool * blockif_q) :=
  match freeq q with
  | [] => None
  | be :: fq =>
      ASSERT bool_decide (be_status (reqs q be) = BST_FREE) ;;
      let hit tbe := be_block (reqs q tbe) =? br_offset (rm r) in
      let tbe := match tailq_find hit (pendq q) with None => tailq_find hit (busyq q) | t => t end in
      let st := match tbe with None => BST_PEND | Some _ => BST_BLOCK end in
      Some (bool_decide (st = BST_PEND),
            mk_q fq (pendq q ++ [be]) (busyq q)
              (<[be := mk_belem (Some r) op st (be_tid (reqs q be)) (end_of op (rm r))]> (reqs q)) (closing q))
  end%minos.

(** The first element that is not blocked. *)
Fixpoint first_pend (f : nat -> blockif_elem) (l : list nat) : option (option nat) :=
  match l with
  | [] => Some None
  | be :: l =>
      match be_status (f be) with
      | BST_PEND => Some (Some be)
      | BST_BLOCK => first_pend f l
      | _ => None
      end
  end.

Definition blockif_dequeue (t : nat) (q : blockif_q) : option (option nat * blockif_q) :=
  o ← first_pend (reqs q) (pendq q);
  match o with
  | None => Some (None, q)
  | Some be =>
      pq ← tailq_remove be (pendq q);
      let e := reqs q be in
      Some (Some be, mk_q (freeq q) pq (busyq q ++ [be]) (<[be := mk_belem (be_req e) (be_op e) BST_BUSY (Some t) (be_block e)]> (reqs q)) (closing q))
  end.

(** The loop of [blockif_complete] over the pending elements. *)
Fixpoint unblock (block : Z) (l : list nat) (f : nat -> blockif_elem) : option (nat -> blockif_elem) :=
  match l with
  | [] => Some f
  | tbe :: l =>
      r ← be_req (f tbe);
      unblock block l (if br_offset (rm r) =? block then <[tbe := set_status BST_PEND (f tbe)]> f else f)
  end.

Definition blockif_complete (be : nat) (q : blockif_q) : option blockif_q :=
  let busy := match be_status (reqs q be) with BST_DONE | BST_BUSY => true | _ => false end in
  bq ← (if busy then tailq_remove be (busyq q) else Some (busyq q));
  pq ← (if busy then Some (pendq q) else tailq_remove be (pendq q));
  f ← unblock (be_block (reqs q be)) pq (reqs q);
  let e := f be in
  Some (mk_q (freeq q ++ [be]) pq bq (<[be := mk_belem None (be_op e) BST_FREE None (be_block e)]> f) (closing q)).

(** 0 or E2BIG, and whether the condition is signalled. *)
Definition blockif_request (r : nat) (op : blockop) (q : blockif_q) : option (Z * bool * blockif_q) :=
  match freeq q with
  | [] => Some (E2BIG, false, q)
  | _ => '(p, q) ← blockif_enqueue r op q; Some (0, p, q)
  end.

(** [blockif_cancel]: its return value, or the element whose thread is interrupted
    until it is no longer busy; the lock is held meanwhile. *)
Inductive cancel_res := CancelRet (ret : Z) (q : blockif_q) | CancelWait (be : nat).
Definition blockif_cancel (r : nat) (q : blockif_q) : option cancel_res :=
  let is_r be := bool_decide (be_req (reqs q be) = Some r) in
  match tailq_find is_r (pendq q) with
  | Some be => q ← blockif_complete be q; Some (CancelRet 0 q)
  | None =>
      match tailq_find is_r (busyq q) with
      | None => Some (CancelRet (-1) q)
      | Some be => Some (if bool_decide (be_status (reqs q be) = BST_BUSY) then CancelWait be else CancelRet (- EBUSY) q)
      end
  end.
End queue.

(** ** Threads *)
Inductive tpos :=
  | TLock                        (* about to take the lock and to look for work *)
  | TProc (be : nat)             (* in [blockif_proc] *)
  | TDone (be : nat) (err : Z)   (* the element is done, the callback is not called *)
  | TCalled (be : nat)           (* after the callback, about to take the lock *)
  | TWait                        (* in [pthread_cond_wait] *)
  | TExit.
#[export] Instance tpos_eq_dec : EqDecision tpos.
Proof. solve_decision. Defined.

(** What the callers see: requests accepted and refused, callbacks, cancellations. *)
Inductive event := Accepted (r : nat) | Refused (r : nat) | Answered (r : nat) (err : Z) | Cancelled (r : nat).

Record bstate (D : Type) := mk_bst {
  s_q : blockif_q;
  s_rm : nat -> blockif_req;
  s_thr : nat -> tpos;
  s_disk : D;
  s_mem : bytes;
  s_log : list event;
  s_bcast : bool;
}.
Arguments mk_bst {D}.
Arguments s_q {D}. Arguments s_rm {D}. Arguments s_thr {D}. Arguments s_disk {D}. Arguments s_mem {D}. Arguments s_log {D}. Arguments s_bcast {D}.

Section machine.
Context {D : Type} `{!Disk D} (bc : blockif_conf) (malloc : option (list Z)).

(** [buf] of [blockif_thr]. *)
Definition thr_buf : option (list Z) := if bc_isgeom bc then malloc else None.

(** The part of the loop of [blockif_thr] under the lock. *)
Definition look_for_work (t : nat) (q : blockif_q) : option (tpos * blockif_q) :=
  '(o, q) ← blockif_dequeue t q;
  Some (match o with Some be => TProc be | None => if closing q then TExit else TWait end, q).

Definition blockif_thr (t : nat) (s : bstate D) : option (bstate D) :=
  match s_thr s t with
  | TLock =>
      '(p, q) ← look_for_work t (s_q s);
      Some (mk_bst q (s_rm s) (<[t := p]> (s_thr s)) (s_disk s) (s_mem s) (s_log s) (s_bcast s))
  | TProc be =>
      r ← be_req (reqs (s_q s) be);
      '(d, m, br, err) ← blockif_proc bc (be_op (reqs (s_q s) be)) thr_buf (s_rm s r) (s_disk s) (s_mem s);
      Some (mk_bst (set_reqs (<[be := set_status BST_DONE (reqs (s_q s) be)]> (reqs (s_q s))) (s_q s)) (<[r := br]> (s_rm s))
              (<[t := TDone be err]> (s_thr s)) d m (s_log s) (s_bcast s))
  | TDone be err =>
      r ← be_req (reqs (s_q s) be);
      Some (mk_bst (s_q s) (s_rm s) (<[t := TCalled be]> (s_thr s)) (s_disk s) (s_mem s) (s_log s ++ [Answered r err]) (s_bcast s))
  | TCalled be =>
      q ← blockif_complete (s_rm s) be (s_q s);
      '(p, q) ← look_for_work t q;
      Some (mk_bst q (s_rm s) (<[t := p]> (s_thr s)) (s_disk s) (s_mem s) (s_log s) (s_bcast s))
  | TWait | TExit => None
  end.

(** The elements whose request has been accepted and not answered. *)
Definition working (p : tpos) : option nat := match p with TProc be | TDone be _ | TCalled be => Some be | _ => None end.
Definition uncalled (p : tpos) : option nat := match p with TProc be | TDone be _ => Some be | _ => None end.
Definition open_elems (s : bstate D) : list nat := pendq (s_q s) ++ omap (fun t => uncalled (s_thr s t)) (seq 0 BLOCKIF_NUMTHR).
Definition in_flight (r : nat) (s : bstate D) : nat := length (filter (fun be => be_req (reqs (s_q s) be) = Some r) (open_elems s)).

Definition pthread_cond_signal (w : option nat) (thr : nat -> tpos) : option (nat -> tpos) :=
  match w with
  | Some t => if decide ((t < BLOCKIF_NUMTHR)%nat /\ thr t = TWait) then Some (<[t := TLock]> thr) else None
  | None => if decide (Forall (fun t => thr t <> TWait) (seq 0 BLOCKIF_NUMTHR)) then Some thr else None
  end.
Definition pthread_cond_broadcast (thr : nat -> tpos) : nat -> tpos := fun t => if decide (thr t = TWait) then TLock else thr t.

(** What can happen: a step of a thread, calls of the interface, the caller writing to
    a request of its own, a wake-up without a signal, the two halves of
    [blockif_close].  A caller keeps off a request until it is answered, and makes no
    request after the close. *)
Inductive cmd :=
  | CThr (t : nat)
  | CReq (r : nat) (br : blockif_req) (op : blockop) (woken : option nat)
  | CWrite (r : nat) (br : blockif_req)
  | CCancel (r : nat)
  | CWake (t : nat)
  | CClose
  | CBroadcast.

Definition exec (c : cmd) (s : bstate D) : option (bstate D) :=
  let 'mk_bst q rm thr d m log bcast := s in
  match c with
  | CThr t => if (t <? BLOCKIF_NUMTHR)%nat then blockif_thr t s else None
  | CReq r br op w =>
      if closing q || negb (in_flight r s =? 0)%nat then None else
      let rm := <[r := br]> rm in
      '(err, sig, q) ← blockif_request rm r op q;
      thr ← (if sig : bool then pthread_cond_signal w thr else Some thr);
      Some (mk_bst q rm thr d m (log ++ [if err =? 0 then Accepted r else Refused r]) bcast)
  | CWrite r br => if (in_flight r s =? 0)%nat then Some (mk_bst q (<[r := br]> rm) thr d m log bcast) else None
  | CCancel r =>
      res ← blockif_cancel rm r q;
      match res with
      | CancelRet ret q => Some (mk_bst q rm thr d m (if ret =? 0 then log ++ [Cancelled r] else log) bcast)
      | CancelWait _ => None
      end
  | CWake t => if decide (thr t = TWait) then Some (mk_bst q rm (<[t := TLock]> thr) d m log bcast) else None
  | CClose => Some (mk_bst (mk_q (freeq q) (pendq q) (busyq q) (reqs q) true) rm thr d m log bcast)
  | CBroadcast => if closing q then Some (mk_bst q rm (pthread_cond_broadcast thr) d m log true) else None
  end.

Fixpoint exec_all (l : list cmd) (s : bstate D) : option (bstate D) :=
  match l with
  | [] => Some s
  | c :: l => s ← exec c s; exec_all l s
  end.

Definition opened (d : D) (m : bytes) (rm : nat -> blockif_req) : bstate D := mk_bst blockif_q0 rm (fun _ => TLock) d m [] false.

Definition reachable (s : bstate D) : Prop := exists d m rm l, exec_all l (opened d m rm) = Some s.
End machine.

(** ** The invariant of the queues *)
Definition elem_off (rm : nat -> blockif_req) (e : blockif_elem) : option Z := (fun r => br_offset (rm r)) <$> be_req e.

(** A blocked element starts where an earlier pending or a busy one ends. *)
Fixpoint blocked_ok (rm : nat -> blockif_req) (f : nat -> blockif_elem) (before l : list nat) : Prop :=
  match l with
  | [] => True
  | be :: l =>
      (be_status (f be) = BST_BLOCK -> exists x, x ∈ before /\ Some (be_block (f x)) = elem_off rm (f be)) /\
      blocked_ok rm f (be :: before) l
  end.

Definition waiting (e : blockif_elem) : Prop := (be_status e = BST_PEND \/ be_status e = BST_BLOCK) /\ is_Some (be_req e).
Definition taken (e : blockif_elem) : Prop := (be_status e = BST_BUSY \/ be_status e = BST_DONE) /\ is_Some (be_req e).

Record q_ok (rm : nat -> blockif_req) (q : blockif_q) : Prop := mk_qok {
  q_perm : freeq q ++ pendq q ++ busyq q ≡ₚ seq 0 BLOCKIF_MAXREQ;
  q_free : Forall (fun be => be_status (reqs q be) = BST_FREE) (freeq q);
  q_pend : Forall (fun be => waiting (reqs q be)) (pendq q);
  q_busy : Forall (fun be => taken (reqs q be)) (busyq q);
  q_blk : blocked_ok rm (reqs q) (busyq q) (pendq q);
}.

Lemma blocked_ok_app rm f l : forall before k, blocked_ok rm f before (l ++ k) <-> blocked_ok rm f before l /\ blocked_ok rm f (rev l ++ before) k.
Proof.
  induction l as [|x l IH]; intros before k; cbn; [tauto|]. rewrite IH, <- app_assoc. cbn. tauto.
Qed.

(** The elements change and [b] leaves the list: those still blocked were blocked
    before, and not by [b], unless [b] is still there. *)
Lemma blocked_ok_change rm rm' f f' b l : forall before before',
  blocked_ok rm f before l ->
  (forall x, be_block (f' x) = be_block (f x)) ->
  (forall x, x ∈ before -> x <> b -> x ∈ before') ->
  (forall x, x ∈ l -> x <> b -> be_status (f' x) = BST_BLOCK -> be_status (f x) = BST_BLOCK /\ elem_off rm' (f' x) = elem_off rm (f x) /\
    (b ∈ before' \/ elem_off rm (f x) <> Some (be_block (f b)))) ->
  blocked_ok rm' f' before' (filter (fun x => x <> b) l).
Proof.
  induction l as [|x l IH]; intros before before' H Hblk Hin Hst; [done|]. destruct H as [Hx H].
  assert (Hrest : forall bf, (forall y, y ∈ x :: before -> y <> b -> y ∈ bf) -> (b ∈ before' -> b ∈ bf) -> blocked_ok rm' f' bf (filter (fun x => x <> b) l)).
  { intros bf Hbf Hb. apply (IH (x :: before)); [done..|]. intros y Hy Hyb Hy'. destruct (Hst y) as (? & ? & ?); [set_solver|done..|]. split_and!; [done..|]. tauto. }
  destruct (decide (x <> b)) as [Hxb|Hxb].
  - rewrite filter_cons_True by done. split; [|apply Hrest; set_solver].
    intros Hs. destruct (Hst x) as (Hs1 & Ho & Hb); [set_solver|done..|]. destruct (Hx Hs1) as (y & Hy & Hyo). rewrite Ho, <- Hyo. exists y. rewrite Hblk.
    split; [|done]. destruct (decide (y = b)) as [->|]; [|auto]. destruct Hb as [|Hb]; [done|]. by rewrite <- Hyo in Hb.
  - rewrite filter_cons_False by done. apply Hrest; [|done]. intros y Hy Hyb. apply elem_of_cons in Hy as [->|Hy]; [done|auto].
Qed.

Lemma list_filter_ne (b : nat) (l : list nat) : b ∉ l -> filter (fun x => x <> b) l = l.
Proof.
  induction l as [|x l IH]; [done|]. intros [Hx Hl]%not_elem_of_cons. rewrite filter_cons_True by done. by rewrite IH.
Qed.

Lemma remove_perm (b : nat) (l : list nat) : NoDup l -> b ∈ l -> l ≡ₚ b :: filter (fun x => x <> b) l.
Proof.
  intros Hn. induction Hn as [|x l Hx Hn IH]; [set_solver|]. intros Hb. destruct (decide (x <> b)) as [H|H].
  - rewrite filter_cons_True by done. rewrite IH at 1 by set_solver. apply Permutation_swap.
  - rewrite filter_cons_False by done. assert (x = b) as -> by (by apply dec_stable). by rewrite list_filter_ne.
Qed.

Lemma q_nodup rm q : q_ok rm q -> NoDup (freeq q ++ pendq q ++ busyq q).
Proof. intros H. rewrite (q_perm _ _ H). apply NoDup_seq. Qed.

Lemma first_pend_spec f l : Forall (fun be => waiting (f be)) l ->
  (first_pend f l = Some None /\ Forall (fun be => be_status (f be) = BST_BLOCK) l) \/
  (exists be, first_pend f l = Some (Some be) /\ be ∈ l /\ be_status (f be) = BST_PEND).
Proof.
  induction 1 as [|x l [[Hx|Hx] _] _ IH]; [left; by split| |]; cbn [first_pend]; rewrite Hx.
  - right. exists x. set_solver.
  - destruct IH as [[-> IH]|(be & -> & ? & ?)]; [left; split; [done|by constructor]|right; exists be; set_solver].
Qed.

Lemma unblock_spec rm block l : forall f, Forall (fun be => is_Some (be_req (f be))) l ->
  exists f', unblock rm block l f = Some f' /\ forall x,
    f' x = if decide (x ∈ l /\ elem_off rm (f x) = Some block) then set_status BST_PEND (f x) else f x.
Proof.
  induction l as [|y l IH]; intros f Hl; cbn [unblock]; [exists f; split; [done|]; intros x; by rewrite decide_False by set_solver|].
  apply list.Forall_cons in Hl as [[r Hr] Hl]. rewrite Hr. cbn [mbind option_bind].
  set (g := if _ =? block then _ else f).
  assert (Hg : forall x, be_req (g x) = be_req (f x)) by (intros x; unfold g; case_match; [|done]; destruct (decide (x = y)) as [->|]; [by rewrite fn_lookup_insert|by rewrite fn_lookup_insert_ne]).
  destruct (IH g) as (f' & -> & Hf'); [apply list.Forall_forall; intros x Hx; rewrite Hg; revert x Hx; by apply list.Forall_forall|].
  exists f'. split; [done|]. intros x. rewrite Hf'. unfold elem_off in *. rewrite Hg. unfold g. destruct (decide (x = y)) as [->|Hxy].
  - rewrite Hr. cbn. destruct (Z.eqb_spec (br_offset (rm r)) block) as [->|Hne].
    + rewrite fn_lookup_insert. rewrite (decide_True (P := y ∈ y :: l /\ _)) by set_solver. by case_match.
    + rewrite !decide_False by naive_solver. done.
  - assert ((if br_offset (rm r) =? block then <[y:=set_status BST_PEND (f y)]> f else f) x = f x) as -> by (case_match; [by rewrite fn_lookup_insert_ne|done]).
    apply decide_ext. set_solver.
Qed.

Ltac fcase x a := destruct (decide (x = a)) as [->|?]; [rewrite ?fn_lookup_insert|rewrite ?fn_lookup_insert_ne by done].

Lemma Forall_insert_ne (P : blockif_elem -> Prop) (f : nat -> blockif_elem) b e l : b ∉ l -> Forall (fun x => P (f x)) l -> Forall (fun x => P (<[b := e]> f x)) l.
Proof.
  intros Hb H. apply list.Forall_forall. intros x Hx. rewrite fn_lookup_insert_ne by (by intros ->). revert x Hx. by apply list.Forall_forall.
Qed.

Lemma Forall_filter_ne (P : nat -> Prop) b l : Forall P l -> Forall P (filter (fun x => x <> b) l).
Proof. intros H. apply list.Forall_forall. intros x [_ Hx]%list_elem_of_filter. revert x Hx. by apply list.Forall_forall. Qed.

Lemma tailq_find_some p l x : tailq_find p l = Some x -> x ∈ l /\ p x = true.
Proof.
  unfold tailq_find. intros H. destruct (List.filter p l) as [|y k] eqn:E; [done|]. cbn in H. simplify_eq.
  rewrite list_elem_of_In. apply List.filter_In. rewrite E. by left.
Qed.

Lemma tailq_find_none p l x : tailq_find p l = None -> x ∈ l -> p x = false.
Proof.
  unfold tailq_find. intros H Hx. destruct (List.filter p l) as [|y k] eqn:E; [|done]. destruct (p x) eqn:Hp; [|done].
  assert (Hi : In x (List.filter p l)) by (apply List.filter_In; by rewrite <- list_elem_of_In). by rewrite E in Hi.
Qed.

Lemma blocked_ok_insert rm f before l b e : b ∉ before -> b ∉ l -> blocked_ok rm f before l -> blocked_ok rm (<[b := e]> f) before l.
Proof.
  revert before. induction l as [|x l IH]; intros before Hb Hl; [done|]. apply not_elem_of_cons in Hl as [Hx Hl]. intros [H1 H2]. split.
  - rewrite fn_lookup_insert_ne by done. intros Hs. destruct (H1 Hs) as (y & Hy & Ho). exists y. by rewrite fn_lookup_insert_ne by (by intros ->).
  - apply IH; [|done..]. by apply not_elem_of_cons.
Qed.

Lemma enqueue_ok rm r op q be fq : q_ok rm q -> freeq q = be :: fq -> exists p e,
  let q' := mk_q fq (pendq q ++ [be]) (busyq q) (<[be := e]> (reqs q)) (closing q) in
  blockif_enqueue rm r op q = Some (p, q') /\ be_req e = Some r /\ q_ok rm q' /\ (p = false -> pendq q ++ busyq q <> []).
Proof.
  intros [Hp Hf Hpe Hb Hk] Hfq. assert (Hnd : NoDup (freeq q ++ pendq q ++ busyq q)) by (rewrite Hp; apply NoDup_seq).
  rewrite Hfq in Hp, Hf, Hnd. cbn in Hnd. apply list.NoDup_cons in Hnd as [Hn _]. rewrite !not_elem_of_app in Hn. destruct Hn as (Hn1 & Hn2 & Hn3).
  apply list.Forall_cons in Hf as [Hbe Hf].
  unfold blockif_enqueue. rewrite Hfq. unfold assert_. rewrite bool_decide_true by done.
  set (hit := fun tbe : nat => _). set (tbe := match tailq_find hit (pendq q) with None => _ | _ => _ end).
  assert (Ht : forall x, tbe = Some x -> x ∈ pendq q ++ busyq q /\ be_block (reqs q x) = br_offset (rm r)).
  { intros x Hx. unfold tbe in Hx. assert (x ∈ pendq q ++ busyq q /\ hit x = true) as [? Hh].
    { rewrite elem_of_app. case_match; simplify_eq.
      - apply tailq_find_some in H. tauto.
      - apply tailq_find_some in Hx. tauto. }
    split; [done|]. by apply Z.eqb_eq. }
  eexists _, _. split; [reflexivity|]. split; [done|]. split; [|intros H; destruct tbe as [x|] eqn:E; [|by rewrite bool_decide_true in H]; destruct (Ht x eq_refl) as [Hx _]; by intros E'; rewrite E' in Hx; apply not_elem_of_nil in Hx].
  split; cbn [freeq pendq busyq reqs].
  - rewrite <- Hp, <- app_assoc. cbn. rewrite Permutation_middle, <- (Permutation_middle (pendq q)). done.
  - by apply (Forall_insert_ne (fun e => be_status e = BST_FREE)).
  - apply list.Forall_app. split; [by apply (Forall_insert_ne waiting)|]. constructor; [|done]. rewrite fn_lookup_insert. split; [|by eexists]. destruct tbe; auto.
  - by apply (Forall_insert_ne taken).
  - apply blocked_ok_app. split; [by apply blocked_ok_insert|]. split; [|done]. rewrite fn_lookup_insert. cbn. intros Hs. destruct tbe as [x|]; [|done].
    destruct (Ht x eq_refl) as [Hx Ho]. exists x. split.
    { rewrite elem_of_app in Hx |- *. destruct Hx as [Hx|Hx]; [|by right]. left. apply list_elem_of_In. apply -> in_rev. by apply list_elem_of_In. }
    rewrite fn_lookup_insert_ne by (intros ->; rewrite elem_of_app in Hx; tauto). by rewrite Ho.
Qed.

Lemma dequeue_ok rm t q : q_ok rm q ->
  (blockif_dequeue t q = Some (None, q) /\ Forall (fun be => be_status (reqs q be) = BST_BLOCK) (pendq q)) \/
  exists be, let e := reqs q be in
    let q' := mk_q (freeq q) (filter (fun x => x <> be) (pendq q)) (busyq q ++ [be]) (<[be := mk_belem (be_req e) (be_op e) BST_BUSY (Some t) (be_block e)]> (reqs q)) (closing q) in
    be ∈ pendq q /\ blockif_dequeue t q = Some (Some be, q') /\ q_ok rm q'.
Proof.
  intros H. pose proof (q_nodup _ _ H) as Hnd. destruct H as [Hp Hf Hpe Hb Hk]. unfold blockif_dequeue.
  destruct (first_pend_spec (reqs q) (pendq q) Hpe) as [[-> Hbl]|(be & -> & Hbe & Hst)]; [left; by split|right]. exists be. cbn [mbind option_bind].
  split; [done|]. unfold tailq_remove. rewrite decide_True by done. cbn [mbind option_bind]. split; [done|].
  apply list.NoDup_app in Hnd as (_ & Hd1 & Hnd). apply list.NoDup_app in Hnd as (Hnp & Hd2 & _).
  assert (Hreq : is_Some (be_req (reqs q be))) by (by apply (proj1 (list.Forall_forall _ _) Hpe) in Hbe as [_ ?]).
  split; cbn [freeq pendq busyq reqs].
  - rewrite <- Hp. apply Permutation_app_head. rewrite (remove_perm be (pendq q) Hnp Hbe) at 2. rewrite (Permutation_app_comm (busyq q) [be]). cbn [app]. symmetry. apply Permutation_middle.
  - apply (Forall_insert_ne (fun e => be_status e = BST_FREE)); [|done]. intros Hx. apply (Hd1 be Hx). rewrite elem_of_app. by left.
  - apply (Forall_insert_ne waiting); [|by apply Forall_filter_ne]. by intros [? _]%list_elem_of_filter.
  - apply list.Forall_app. split; [apply (Forall_insert_ne taken); [by apply Hd2|done]|]. constructor; [|done]. rewrite fn_lookup_insert. split; [by left|done].
  - apply (blocked_ok_change rm rm (reqs q) _ be _ (busyq q)); [done|..].
    + intros x. by fcase x be.
    + intros x Hx _. rewrite elem_of_app. by left.
    + intros x _ Hx. rewrite fn_lookup_insert_ne by done. intros Hs. split_and!; [done..|]. left. rewrite elem_of_app. right. by apply list_elem_of_singleton.
Qed.

Lemma complete_ok rm be q : q_ok rm q -> be ∈ pendq q ++ busyq q -> exists f,
  let q' := mk_q (freeq q ++ [be]) (filter (fun x => x <> be) (pendq q)) (filter (fun x => x <> be) (busyq q)) f (closing q) in
  blockif_complete rm be q = Some q' /\ q_ok rm q' /\
  (forall x, x <> be -> be_req (f x) = be_req (reqs q x)) /\ (forall x, x ∈ busyq q -> x <> be -> f x = reqs q x).
Proof.
  intros H Hin. pose proof (q_nodup _ _ H) as Hnd. destruct H as [Hp Hf Hpe Hb Hk]. unfold blockif_complete.
  apply list.NoDup_app in Hnd as (_ & Hd1 & Hnd). pose proof Hnd as Hnpb. apply list.NoDup_app in Hnd as (Hnp & Hd2 & Hnb).
  set (busy := match be_status _ with BST_DONE | BST_BUSY => true | _ => false end).
  assert (Hq : (if busy then tailq_remove be (busyq q) else Some (busyq q)) = Some (filter (fun x => x <> be) (busyq q)) /\
               (if busy then Some (pendq q) else tailq_remove be (pendq q)) = Some (filter (fun x => x <> be) (pendq q))).
  { unfold busy, tailq_remove. rewrite elem_of_app in Hin. destruct Hin as [Hin|Hin].
    - pose proof (Hd2 be Hin). apply (proj1 (list.Forall_forall _ _) Hpe) in Hin as Hw. destruct Hw as [[-> | ->] _]; rewrite decide_True by done; by rewrite (list_filter_ne be (busyq q)).
    - assert (be ∉ pendq q) by (intros Hx; by apply (Hd2 be Hx)). apply (proj1 (list.Forall_forall _ _) Hb) in Hin as Hw. destruct Hw as [[-> | ->] _]; rewrite decide_True by done; by rewrite (list_filter_ne be (pendq q)). }
  destruct Hq as [-> ->]. cbn [mbind option_bind]. set (pq := filter _ (pendq q)).
  assert (Hpq : forall x, x ∈ pq <-> x <> be /\ x ∈ pendq q) by (intros x; apply (list_elem_of_filter (fun x => x <> be))).
  destruct (unblock_spec rm (be_block (reqs q be)) pq (reqs q)) as (f & -> & Hfx).
  { apply Forall_filter_ne, list.Forall_forall. intros x Hx. by apply (proj1 (list.Forall_forall _ _) Hpe) in Hx as [_ ?]. }
  cbn [mbind option_bind]. eexists. split; [reflexivity|].
  assert (Hreq : forall x, be_req (f x) = be_req (reqs q x) /\ be_block (f x) = be_block (reqs q x)) by (intros x; rewrite Hfx; by case_match).
  assert (Hsame : forall x, x ∉ pq -> f x = reqs q x) by (intros x Hx; rewrite Hfx; apply decide_False; tauto).
  split; [split; cbn [freeq pendq busyq reqs]|split; [intros x Hx; rewrite fn_lookup_insert_ne by done; apply Hreq|]].
  - rewrite <- Hp, <- app_assoc. apply Permutation_app_head. cbn. unfold pq. rewrite <- list.filter_app. by rewrite <- remove_perm.
  - apply list.Forall_app. split; [|constructor; [by rewrite fn_lookup_insert|done]]. apply (Forall_insert_ne (fun e => be_status e = BST_FREE)).
    { intros Hx. by apply (Hd1 be Hx). }
    apply list.Forall_forall. intros x Hx. rewrite Hsame; [by apply (proj1 (list.Forall_forall _ _) Hf)|]. intros [_ Hy]%Hpq. apply (Hd1 x Hx). rewrite elem_of_app. by left.
  - apply (Forall_insert_ne waiting); [by intros [? _]%Hpq|]. apply list.Forall_forall. intros x Hx. destruct (proj1 (Hpq x) Hx) as [_ Hx'].
    apply (proj1 (list.Forall_forall _ _) Hpe) in Hx' as [Hs Hr]. split; [|by rewrite (proj1 (Hreq x))]. rewrite Hfx. case_match; [by left|done].
  - apply (Forall_insert_ne taken); [by intros [? _]%list_elem_of_filter|]. apply Forall_filter_ne, list.Forall_forall. intros x Hx. rewrite Hsame; [by apply (proj1 (list.Forall_forall _ _) Hb)|].
    intros [_ Hy]%Hpq. by apply (Hd2 x Hy).
  - apply (blocked_ok_change rm rm (reqs q) _ be _ (busyq q)); [done|..].
    + intros x. fcase x be; apply Hreq.
    + intros x Hx Hne. by apply (list_elem_of_filter (fun x => x <> be)).
    + intros x Hx Hne. rewrite fn_lookup_insert_ne by done. rewrite Hfx. case_match; [done|]. intros Hs. split_and!; [done..|]. right. intros Ho.
      match goal with Hn : ~ (_ /\ _) |- _ => apply Hn end. by rewrite Hpq.
  - intros x Hx Hne. rewrite fn_lookup_insert_ne by done. apply Hsame. intros [_ Hy]%Hpq. by apply (Hd2 x Hy).
Qed.

(** ** The invariant of the machine *)
#[local] Opaque BLOCKIF_NUMTHR.

Definition active (p : tpos) : bool := match p with TWait | TExit => false | _ => true end.

Definition nacc (r : nat) (l : list event) : nat := length (List.filter (fun e => match e with Accepted r' => (r =? r')%nat | _ => false end) l).
Definition nans (r : nat) (l : list event) : nat := length (List.filter (fun e => match e with Answered r' _ => (r =? r')%nat | _ => false end) l).
Definition ncan (r : nat) (l : list event) : nat := length (List.filter (fun e => match e with Cancelled r' => (r =? r')%nat | _ => false end) l).

Definition cnt (f : nat -> blockif_elem) (r : nat) (l : list nat) : nat := length (filter (fun be => be_req (f be) = Some r) l).
Definition others {A} (g : tpos -> option A) (thr : nat -> tpos) (t : nat) : list A := omap (fun u => g (thr u)) (filter (fun u => u <> t) (seq 0 BLOCKIF_NUMTHR)).

(** The statuses agree with the positions of the threads. *)
Definition st_ok (f : nat -> blockif_elem) (p : tpos) : Prop :=
  match p with
  | TProc be => be_status (f be) = BST_BUSY
  | TDone be _ | TCalled be => be_status (f be) = BST_DONE
  | _ => True
  end.

Record inv {D} (s : bstate D) : Prop := mk_inv {
  i_q : q_ok (s_rm s) (s_q s);
  i_work : busyq (s_q s) ≡ₚ omap (fun t => working (s_thr s t)) (seq 0 BLOCKIF_NUMTHR);
  i_st : forall t, (t < BLOCKIF_NUMTHR)%nat -> st_ok (reqs (s_q s)) (s_thr s t);
  i_act : pendq (s_q s) <> [] -> exists t, (t < BLOCKIF_NUMTHR)%nat /\ active (s_thr s t) = true;
  i_exit : forall t, (t < BLOCKIF_NUMTHR)%nat -> s_thr s t = TExit -> closing (s_q s) = true;
  i_bc : s_bcast s = true -> closing (s_q s) = true /\ forall t, (t < BLOCKIF_NUMTHR)%nat -> s_thr s t <> TWait;
  i_cnt : forall r, nacc r (s_log s) = (nans r (s_log s) + ncan r (s_log s) + in_flight r s)%nat;
  i_one : forall r, (in_flight r s <= 1)%nat;
}.

Lemma cnt_perm f r l k : l ≡ₚ k -> cnt f r l = cnt f r k.
Proof. intros H. unfold cnt. by rewrite H. Qed.
Lemma cnt_app f r l k : cnt f r (l ++ k) = (cnt f r l + cnt f r k)%nat.
Proof. unfold cnt. by rewrite list.filter_app, length_app. Qed.
Lemma cnt_cons f r x l : cnt f r (x :: l) = ((if decide (be_req (f x) = Some r) then 1 else 0) + cnt f r l)%nat.
Proof. unfold cnt. rewrite filter_cons. by case_decide. Qed.
Lemma cnt_ext f f' r l : (forall x, x ∈ l -> be_req (f' x) = be_req (f x)) -> cnt f' r l = cnt f r l.
Proof.
  induction l as [|x l IH]; intros H; [done|]. rewrite !cnt_cons, IH by set_solver. by rewrite H by set_solver.
Qed.
Lemma cnt_zero f r l x : cnt f r l = 0%nat -> x ∈ l -> be_req (f x) <> Some r.
Proof.
  unfold cnt. intros H Hx Hr. apply nil_length_inv in H. apply (not_elem_of_nil x). rewrite <- H. by apply list_elem_of_filter.
Qed.

Lemma thr_split {A} (g : tpos -> option A) thr t : (t < BLOCKIF_NUMTHR)%nat ->
  omap (fun u => g (thr u)) (seq 0 BLOCKIF_NUMTHR) ≡ₚ option_list (g (thr t)) ++ others g thr t.
Proof.
  intros Ht. unfold others. assert (Hin : t ∈ seq 0 BLOCKIF_NUMTHR) by (apply elem_of_seq; lia).
  rewrite (remove_perm t _ (NoDup_seq _ _) Hin) at 1. cbn [omap list_omap]. by destruct (g (thr t)).
Qed.

Lemma others_insert {A} (g : tpos -> option A) thr t p : others g (<[t := p]> thr) t = others g thr t.
Proof.
  unfold others. apply list_omap_ext, list.Forall_Forall2_diag, list.Forall_forall. intros u [Hu _]%list_elem_of_filter. by rewrite fn_lookup_insert_ne.
Qed.

Lemma thr_split_insert {A} (g : tpos -> option A) thr t p : (t < BLOCKIF_NUMTHR)%nat ->
  omap (fun u => g (<[t := p]> thr u)) (seq 0 BLOCKIF_NUMTHR) ≡ₚ option_list (g p) ++ others g thr t.
Proof. intros Ht. rewrite (thr_split g (<[t := p]> thr) t Ht), others_insert. by rewrite fn_lookup_insert. Qed.

Lemma elem_of_omap_thr {A} (g : tpos -> option A) thr x : x ∈ omap (fun u => g (thr u)) (seq 0 BLOCKIF_NUMTHR) ->
  exists u, (u < BLOCKIF_NUMTHR)%nat /\ g (thr u) = Some x.
Proof. intros (u & Hu & Hg)%list_elem_of_omap. exists u. split; [|done]. apply elem_of_seq in Hu. lia. Qed.

Lemma q_ok_rm rm q r br : q_ok rm q -> (forall x, x ∈ pendq q -> be_req (reqs q x) <> Some r) -> q_ok (<[r := br]> rm) q.
Proof.
  intros [Hp Hf Hpe Hb Hk] Hr. split; [done..|]. clear Hpe Hp.
  revert Hr Hk. generalize (busyq q). induction (pendq q) as [|x l IH]; intros bf Hr; [done|]. intros [H1 H2]. split; [|apply IH; [set_solver|done]].
  intros Hs. destruct (H1 Hs) as (y & Hy & Ho). exists y. split; [done|]. rewrite Ho. unfold elem_off.
  destruct (be_req (reqs q x)) as [r'|] eqn:E; [|done]. cbn. rewrite fn_lookup_insert_ne; [done|]. intros ->. apply (Hr x); [set_solver|done].
Qed.

(** When every pending element is blocked, an element is busy, so that a thread works. *)
Lemma all_blocked rm q : q_ok rm q -> Forall (fun be => be_status (reqs q be) = BST_BLOCK) (pendq q) -> pendq q <> [] -> busyq q <> [].
Proof.
  intros H Hb Hne. pose proof (q_blk _ _ H) as Hk. destruct (pendq q) as [|x l]; [done|]. apply list.Forall_cons in Hb as [Hx _].
  destruct Hk as [Hk _]. destruct (Hk Hx) as (y & Hy & _). intros E. rewrite E in Hy. by apply not_elem_of_nil in Hy.
Qed.

Lemma working_active p be : working p = Some be -> active p = true.
Proof. by destruct p. Qed.

(** The state seen by a thread that holds the lock and no element. *)
Record detached {D} (t : nat) (s : bstate D) : Prop := mk_det {
  d_q : q_ok (s_rm s) (s_q s);
  d_work : busyq (s_q s) ≡ₚ others working (s_thr s) t;
  d_st : forall u, (u < BLOCKIF_NUMTHR)%nat -> u <> t -> st_ok (reqs (s_q s)) (s_thr s u);
  d_exit : forall u, (u < BLOCKIF_NUMTHR)%nat -> u <> t -> s_thr s u = TExit -> closing (s_q s) = true;
  d_bc : s_bcast s = true -> closing (s_q s) = true /\ forall u, (u < BLOCKIF_NUMTHR)%nat -> u <> t -> s_thr s u <> TWait;
  d_cnt : forall r, nacc r (s_log s) = (nans r (s_log s) + ncan r (s_log s) + cnt (reqs (s_q s)) r (pendq (s_q s) ++ others uncalled (s_thr s) t))%nat;
  d_one : forall r, (cnt (reqs (s_q s)) r (pendq (s_q s) ++ others uncalled (s_thr s) t) <= 1)%nat;
}.

Lemma st_ok_insert f b e p : working p <> Some b -> st_ok f p -> st_ok (<[b := e]> f) p.
Proof. intros Hb. destruct p; cbn in *; try done; (rewrite fn_lookup_insert_ne; [done|congruence]). Qed.

Lemma st_ok_same f f' p : (forall be, working p = Some be -> f' be = f be) -> st_ok f p -> st_ok f' p.
Proof. intros H. destruct p; cbn in *; try done; by rewrite H. Qed.

Lemma in_flight_open {D} r (s : bstate D) l : open_elems s ≡ₚ l -> in_flight r s = cnt (reqs (s_q s)) r l.
Proof. intros H. by apply (cnt_perm _ _ _ _ H). Qed.

(** The length of the work ahead of a state. *)
Definition weight (p : tpos) : nat := match p with TProc _ => 3 | TDone _ _ => 2 | TCalled _ => 1 | TLock => 1 | TWait | TExit => 0 end.

Lemma look_ok {D} t (s : bstate D) : (t < BLOCKIF_NUMTHR)%nat -> detached t s -> exists p q,
  look_for_work t (s_q s) = Some (p, q) /\
  inv (mk_bst q (s_rm s) (<[t := p]> (s_thr s)) (s_disk s) (s_mem s) (s_log s) (s_bcast s)) /\
  (4 * length (pendq q) + weight p <= 4 * length (pendq (s_q s)))%nat.
Proof.
  intros Ht [Hq Hw Hst Hex Hbc Hcnt Hone]. unfold look_for_work. destruct (dequeue_ok (s_rm s) t (s_q s) Hq) as [[-> Hbl]|(be & Hbe & -> & Hq')]; cbn [mbind option_bind].
  - set (p := if closing (s_q s) then TExit else TWait). assert (Hp : working p = None /\ uncalled p = None /\ weight p = 0%nat) by (unfold p; by destruct (closing _)).
    destruct Hp as (Hp1 & Hp2 & Hp3). exists p, (s_q s). split; [done|]. split; [|lia].
    assert (Ho : forall r, in_flight r (mk_bst (s_q s) (s_rm s) (<[t := p]> (s_thr s)) (s_disk s) (s_mem s) (s_log s) (s_bcast s)) = cnt (reqs (s_q s)) r (pendq (s_q s) ++ others uncalled (s_thr s) t)).
    { intros r. apply (in_flight_open r (mk_bst _ _ _ _ _ _ _)). unfold open_elems. cbn. by rewrite thr_split_insert, Hp2. }
    assert (Hwork : busyq (s_q s) ≡ₚ omap (fun u => working (<[t := p]> (s_thr s) u)) (seq 0 BLOCKIF_NUMTHR)) by (rewrite thr_split_insert, Hp1 by done; done).
    split; cbn [s_q s_rm s_thr s_disk s_mem s_log s_bcast]; [done|done|..].
    + intros u Hu. fcase u t; [unfold p; by destruct (closing _)|auto].
    + intros Hne. pose proof (all_blocked _ _ Hq Hbl Hne) as Hb. destruct (busyq (s_q s)) as [|x l] eqn:E; [done|].
      assert (Hx : x ∈ omap (fun u => working (<[t := p]> (s_thr s) u)) (seq 0 BLOCKIF_NUMTHR)) by (rewrite <- Hwork; set_solver).
      apply (elem_of_omap_thr working (<[t := p]> (s_thr s))) in Hx as (u & Hu & Hx). exists u. split; [done|]. by eapply working_active.
    + intros u Hu. fcase u t; [unfold p; by destruct (closing _)|by apply Hex].
    + intros Hb. destruct (Hbc Hb) as [Hc Hall]. split; [done|]. intros u Hu. fcase u t; [unfold p; by rewrite Hc|by apply Hall].
    + intros r. by rewrite Ho.
    + intros r. by rewrite Ho.
  - eexists _, _. split; [reflexivity|]. cbn [s_q pendq]. pose proof (q_nodup _ _ Hq) as Hnd. apply list.NoDup_app in Hnd as (_ & Hd1 & Hnd). apply list.NoDup_app in Hnd as (Hnp & Hd2 & _).
    pose proof (remove_perm be _ Hnp Hbe) as Hperm.
    set (q' := mk_q _ _ _ _ _) in *. set (s' := mk_bst q' _ _ _ _ _ _).
    assert (Ho : forall r, in_flight r s' = cnt (reqs (s_q s)) r (pendq (s_q s) ++ others uncalled (s_thr s) t)).
    { intros r. rewrite (in_flight_open r s' (pendq (s_q s) ++ others uncalled (s_thr s) t)).
      - apply cnt_ext. intros x _. cbn. by fcase x be.
      - unfold open_elems, s', q'. cbn. rewrite thr_split_insert by done. cbn. rewrite Hperm at 2. cbn. by rewrite Permutation_middle. }
    split.
    + split; [done|..].
      * cbn. rewrite thr_split_insert by done. cbn. rewrite (Permutation_app_comm (busyq (s_q s))). cbn. by rewrite Hw.
      * intros u Hu. cbn. fcase u t; [cbn; by rewrite fn_lookup_insert|]. apply st_ok_insert; [|auto]. intros Hwu. apply (Hd2 be Hbe). rewrite Hw.
        apply list_elem_of_omap. exists u. split; [|done]. apply (list_elem_of_filter (fun u => u <> t)). split; [done|]. apply elem_of_seq. lia.
      * intros _. exists t. split; [done|]. cbn. by rewrite fn_lookup_insert.
      * intros u Hu. cbn. fcase u t; [done|by apply Hex].
      * intros Hb. destruct (Hbc Hb) as [Hc Hall]. split; [done|]. intros u Hu. cbn. fcase u t; [done|by apply Hall].
      * intros r. by rewrite Ho.
      * intros r. by rewrite Ho.
    + apply Permutation_length in Hperm. cbn [length] in Hperm. cbn. lia.
Qed.

Definition work_left {D} (s : bstate D) : nat := (4 * length (pendq (s_q s)) + sum_list_with (fun u => weight (s_thr s u)) (seq 0 BLOCKIF_NUMTHR))%nat.

Lemma weight_insert thr t p : (t < BLOCKIF_NUMTHR)%nat ->
  (sum_list_with (fun u => weight (<[t := p]> thr u)) (seq 0 BLOCKIF_NUMTHR) + weight (thr t) = sum_list_with (fun u => weight (thr u)) (seq 0 BLOCKIF_NUMTHR) + weight p)%nat.
Proof.
  intros Ht. assert (Hin : t ∈ seq 0 BLOCKIF_NUMTHR) by (apply elem_of_seq; lia).
  pose proof (remove_perm t _ (NoDup_seq _ _) Hin) as Hp.
  rewrite (sum_list_with_Permutation_proper (fun u => weight (<[t := p]> thr u)) _ _ Hp), (sum_list_with_Permutation_proper (fun u => weight (thr u)) _ _ Hp).
  cbn. rewrite fn_lookup_insert.
  assert (E : forall l, t ∉ l -> sum_list_with (fun u => weight (<[t := p]> thr u)) l = sum_list_with (fun u => weight (thr u)) l).
  { induction l as [|x l IH]; [done|]. intros [Hx Hl]%not_elem_of_cons. cbn. rewrite fn_lookup_insert_ne by done. by rewrite IH. }
  rewrite E; [lia|]. by intros [? _]%list_elem_of_filter.
Qed.

Lemma thr_detached {D} t (s : bstate D) : (t < BLOCKIF_NUMTHR)%nat -> inv s -> working (s_thr s t) = None -> detached t s.
Proof.
  intros Ht [Hq Hw Hst Hact Hex Hbc Hcnt Hone] Hn.
  assert (Hu : uncalled (s_thr s t) = None) by (by destruct (s_thr s t)).
  assert (Ho : forall r, in_flight r s = cnt (reqs (s_q s)) r (pendq (s_q s) ++ others uncalled (s_thr s) t)).
  { intros r. apply in_flight_open. unfold open_elems. by rewrite (thr_split _ _ t Ht), Hu. }
  split; [done|by rewrite Hw, (thr_split working _ t Ht), Hn|auto|intros u ? _; by apply Hex| |intros r; by rewrite <- Ho|intros r; by rewrite <- Ho].
  intros Hb. destruct (Hbc Hb) as [? Hall]. split; [done|]. intros u ? _. by apply Hall.
Qed.

Lemma called_detached {D} t (s : bstate D) be : (t < BLOCKIF_NUMTHR)%nat -> inv s -> s_thr s t = TCalled be -> exists q,
  blockif_complete (s_rm s) be (s_q s) = Some q /\ pendq q = pendq (s_q s) /\
  detached t (mk_bst q (s_rm s) (s_thr s) (s_disk s) (s_mem s) (s_log s) (s_bcast s)).
Proof.
  intros Ht [Hq Hw Hst Hact Hex Hbc Hcnt Hone] Hn.
  assert (Hw' : busyq (s_q s) ≡ₚ be :: others working (s_thr s) t) by (rewrite Hw, (thr_split working _ t Ht), Hn; done).
  assert (Hbe : be ∈ busyq (s_q s)) by (rewrite Hw'; set_solver).
  pose proof (q_nodup _ _ Hq) as Hnd. apply list.NoDup_app in Hnd as (_ & Hd1 & Hnd). apply list.NoDup_app in Hnd as (Hnp & Hd2 & Hnb).
  assert (Hbp : be ∉ pendq (s_q s)) by (intros Hx; by apply (Hd2 be Hx)).
  assert (Hno : be ∉ others working (s_thr s) t) by (rewrite Hw' in Hnb; by apply list.NoDup_cons in Hnb as [? _]).
  assert (Hou : forall x, x ∈ others uncalled (s_thr s) t -> x <> be).
  { intros x (u & Hu & Hx)%list_elem_of_omap ->. apply Hno. apply list_elem_of_omap. exists u. split; [done|]. by destruct (s_thr s u). }
  destruct (complete_ok (s_rm s) be (s_q s) Hq) as (f & -> & Hq' & Hreq & Hsame); [rewrite elem_of_app; by right|].
  eexists. split; [reflexivity|]. rewrite (list_filter_ne be (pendq (s_q s)) Hbp) in *. split; [done|].
  assert (Ho : forall r, in_flight r s = cnt f r (pendq (s_q s) ++ others uncalled (s_thr s) t)).
  { intros r. rewrite (in_flight_open r s (pendq (s_q s) ++ others uncalled (s_thr s) t)) by (unfold open_elems; by rewrite (thr_split _ _ t Ht), Hn).
    symmetry. apply cnt_ext. intros x Hx. apply Hreq. intros ->. rewrite elem_of_app in Hx. destruct Hx as [|Hx]; [done|by apply Hou in Hx]. }
  split; cbn [s_q s_rm s_thr s_log s_bcast busyq reqs closing pendq]; [done|..].
  - rewrite Hw'. rewrite filter_cons_False by (intros []; done). by rewrite list_filter_ne.
  - intros u Hu Hut. apply (st_ok_same (reqs (s_q s))); [|auto]. intros x Hx.
    assert (Hxo : x ∈ others working (s_thr s) t).
    { apply list_elem_of_omap. exists u. split; [|done]. apply (list_elem_of_filter (fun u => u <> t)). split; [done|]. apply elem_of_seq. lia. }
    apply Hsame; [rewrite Hw'; set_solver|]. by intros ->.
  - intros u ? _. by apply Hex.
  - intros Hb. destruct (Hbc Hb) as [? Hall]. split; [done|]. intros u ? _. by apply Hall.
  - intros r. by rewrite <- Ho.
  - intros r. by rewrite <- Ho.
Qed.

Lemma busy_of {D} (s : bstate D) t be : (t < BLOCKIF_NUMTHR)%nat -> inv s -> working (s_thr s t) = Some be -> be ∈ busyq (s_q s) /\ taken (reqs (s_q s) be).
Proof.
  intros Ht H Hw. assert (Hb : be ∈ busyq (s_q s)).
  { rewrite (i_work _ H), (thr_split working _ t Ht), Hw. set_solver. }
  split; [done|]. revert be Hw Hb. intros be _ Hb. revert be Hb. apply list.Forall_forall. apply (i_q _ H).
Qed.

(** The request of an element that is processed belongs to no pending one. *)
Lemma proc_alone {E} (s : bstate E) t be r x : (t < BLOCKIF_NUMTHR)%nat -> inv s -> uncalled (s_thr s t) = Some be -> be_req (reqs (s_q s) be) = Some r ->
  x ∈ pendq (s_q s) -> be_req (reqs (s_q s) x) <> Some r.
Proof.
  intros Ht H Hu Hr Hx Hxr. pose proof (i_one _ H r) as Ho.
  rewrite (in_flight_open r s (pendq (s_q s) ++ be :: others uncalled (s_thr s) t)) in Ho by (unfold open_elems; by rewrite (thr_split _ _ t Ht), Hu).
  rewrite cnt_app, cnt_cons, decide_True in Ho by done.
  assert (cnt (reqs (s_q s)) r (pendq (s_q s)) <> 0%nat) by (intros Hz; by apply (cnt_zero _ _ _ _ Hz Hx)). lia.
Qed.

Lemma q_ok_done rm q be : q_ok rm q -> be ∈ busyq q -> q_ok rm (set_reqs (<[be := set_status BST_DONE (reqs q be)]> (reqs q)) q).
Proof.
  intros Hq Hb. pose proof (q_nodup _ _ Hq) as Hnd. destruct Hq as [Hp Hf Hpe Hbu Hk]. apply list.NoDup_app in Hnd as (_ & Hd1 & Hnd). apply list.NoDup_app in Hnd as (_ & Hd2 & _).
  assert (Hbp : be ∉ pendq q) by (intros Hx; by apply (Hd2 be Hx)).
  split; cbn [set_reqs freeq pendq busyq reqs]; [done|..].
  - apply (Forall_insert_ne (fun e => be_status e = BST_FREE)); [|done]. intros Hx. apply (Hd1 be Hx). rewrite elem_of_app. by right.
  - by apply (Forall_insert_ne waiting).
  - apply list.Forall_forall. intros x Hx. fcase x be; [split; [by right|]|by apply (proj1 (list.Forall_forall _ _) Hbu)].
    by apply (proj1 (list.Forall_forall _ _) Hbu) in Hb as [_ ?].
  - rewrite <- (list_filter_ne be (pendq q) Hbp). apply (blocked_ok_change rm rm (reqs q) _ be _ (busyq q)); [done|..].
    + intros x. by fcase x be.
    + done.
    + intros x _ Hx. rewrite fn_lookup_insert_ne by done. intros Hs. split_and!; [done..|]. by left.
Qed.

Lemma proc_step_ok {E} t (s : bstate E) be r br (d : E) m err : (t < BLOCKIF_NUMTHR)%nat -> inv s -> s_thr s t = TProc be -> be_req (reqs (s_q s) be) = Some r ->
  inv (mk_bst (set_reqs (<[be := set_status BST_DONE (reqs (s_q s) be)]> (reqs (s_q s))) (s_q s)) (<[r := br]> (s_rm s)) (<[t := TDone be err]> (s_thr s)) d m (s_log s) (s_bcast s)).
Proof.
  intros Ht H Et Hr. assert (Hwk : working (s_thr s t) = Some be) by (by rewrite Et). pose proof (busy_of s t be Ht H Hwk) as [Hb _].
  pose proof (i_work _ H) as Hwork. set (s' := mk_bst _ _ _ _ _ _ _).
  assert (Hop : open_elems s' ≡ₚ open_elems s).
  { unfold open_elems. cbn. rewrite thr_split_insert by done. rewrite (thr_split uncalled (s_thr s) t) by done. by rewrite Et. }
  assert (Hreq : forall x, be_req (<[be := set_status BST_DONE (reqs (s_q s) be)]> (reqs (s_q s)) x) = be_req (reqs (s_q s) x)) by (intros x; by fcase x be).
  assert (Hfl : forall r, in_flight r s' = in_flight r s) by (intros r'; rewrite (in_flight_open r' s' _ Hop); apply cnt_ext; intros x _; apply Hreq).
  split.
  - apply q_ok_rm; [by apply q_ok_done; [apply (i_q _ H)|]|]. intros x Hx. cbn. rewrite Hreq. eapply (proc_alone s t be r x); [done..|by rewrite Et|done|done].
  - cbn. rewrite thr_split_insert by done. rewrite Hwork, (thr_split working _ t Ht), Et. done.
  - intros u Hu. cbn. fcase u t; [cbn; by rewrite fn_lookup_insert|]. apply st_ok_insert; [|by apply (i_st _ H)]. intros Hw.
    pose proof (q_nodup _ _ (i_q _ H)) as Hnd. apply list.NoDup_app in Hnd as (_ & _ & Hnd). apply list.NoDup_app in Hnd as (_ & _ & Hnd).
    rewrite Hwork, (thr_split working _ t Ht), Hwk in Hnd. cbn in Hnd. apply list.NoDup_cons in Hnd as [Hn _]. apply Hn.
    apply list_elem_of_omap. exists u. split; [|done]. apply (list_elem_of_filter (fun u => u <> t)). split; [done|]. apply elem_of_seq. lia.
  - intros _. exists t. cbn. by rewrite fn_lookup_insert.
  - intros u Hu. cbn. fcase u t; [done|by apply (i_exit _ H)].
  - intros Hbc. destruct (i_bc _ H Hbc) as [? Hall]. split; [done|]. intros u Hu. cbn. fcase u t; [done|by apply Hall].
  - intros r'. rewrite Hfl. apply (i_cnt _ H).
  - intros r'. rewrite Hfl. apply (i_one _ H).
Qed.

Lemma nacc_app r l k : nacc r (l ++ k) = (nacc r l + nacc r k)%nat.
Proof. unfold nacc. by rewrite List.filter_app, length_app. Qed.
Lemma nans_app r l k : nans r (l ++ k) = (nans r l + nans r k)%nat.
Proof. unfold nans. by rewrite List.filter_app, length_app. Qed.
Lemma ncan_app r l k : ncan r (l ++ k) = (ncan r l + ncan r k)%nat.
Proof. unfold ncan. by rewrite List.filter_app, length_app. Qed.

Lemma done_step_ok {E} t (s : bstate E) be err r : (t < BLOCKIF_NUMTHR)%nat -> inv s -> s_thr s t = TDone be err -> be_req (reqs (s_q s) be) = Some r ->
  inv (mk_bst (s_q s) (s_rm s) (<[t := TCalled be]> (s_thr s)) (s_disk s) (s_mem s) (s_log s ++ [Answered r err]) (s_bcast s)).
Proof.
  intros Ht H Et Hr. set (s' := mk_bst _ _ _ _ _ _ _).
  assert (Hfl : forall r', in_flight r' s = ((if decide (r' = r) then 1 else 0) + in_flight r' s')%nat).
  { intros r'. rewrite (in_flight_open r' s (be :: open_elems s')).
    - rewrite cnt_cons, Hr. cbn. f_equal. repeat case_decide; congruence.
    - unfold open_elems. cbn. rewrite thr_split_insert by done. rewrite (thr_split uncalled (s_thr s) t) by done. rewrite Et. cbn. by rewrite Permutation_middle. }
  split.
  - apply (i_q _ H).
  - cbn. rewrite thr_split_insert by done. rewrite (i_work _ H), (thr_split working _ t Ht), Et. done.
  - intros u Hu. pose proof (i_st _ H u Hu) as Hs. cbn. fcase u t; [|done]. by rewrite Et in Hs.
  - intros _. exists t. cbn. by rewrite fn_lookup_insert.
  - intros u Hu. cbn. fcase u t; [done|by apply (i_exit _ H)].
  - intros Hbc. destruct (i_bc _ H Hbc) as [? Hall]. split; [done|]. intros u Hu. cbn. fcase u t; [done|by apply Hall].
  - intros r'. pose proof (i_cnt _ H r') as Hc. rewrite Hfl in Hc. cbn [s_log s']. rewrite nacc_app, nans_app, ncan_app.
    assert (Hs : nans r' [Answered r err] = if decide (r' = r) then 1%nat else 0%nat) by (unfold nans; cbn; destruct (Nat.eqb_spec r' r); by case_decide).
    rewrite Hs. change (nacc r' [Answered r err]) with 0%nat. change (ncan r' [Answered r err]) with 0%nat. lia.
  - intros r'. pose proof (i_one _ H r') as Ho. rewrite Hfl in Ho. lia.
Qed.

Definition wakes (thr thr' : nat -> tpos) : Prop := forall t, thr' t = thr t \/ (thr t = TWait /\ thr' t = TLock).

Lemma wakes_omap {A} (g : tpos -> option A) thr thr' : g TWait = g TLock -> wakes thr thr' ->
  omap (fun u => g (thr' u)) (seq 0 BLOCKIF_NUMTHR) = omap (fun u => g (thr u)) (seq 0 BLOCKIF_NUMTHR).
Proof.
  intros Hg Hw. apply list_omap_ext, list.Forall_Forall2_diag, list.Forall_forall. intros u _. destruct (Hw u) as [-> |[-> ->]]; congruence.
Qed.

Lemma wakes_insert thr t : thr t = TWait -> wakes thr (<[t := TLock]> thr).
Proof. intros Ht u. fcase u t; auto. Qed.

Lemma signal_wakes w thr thr' : pthread_cond_signal w thr = Some thr' -> wakes thr thr' /\
  ((exists t, (t < BLOCKIF_NUMTHR)%nat /\ thr' t = TLock) \/ forall t, (t < BLOCKIF_NUMTHR)%nat -> thr' t <> TWait).
Proof.
  unfold pthread_cond_signal. destruct w as [t|]; case_decide as Hd; intros; simplify_eq.
  - split; [apply wakes_insert; tauto|]. left. exists t. rewrite fn_lookup_insert. tauto.
  - split; [by left|]. right. intros t Ht. apply (proj1 (list.Forall_forall _ _) Hd). apply elem_of_seq. lia.
Qed.

Lemma inv_wake {E} (s : bstate E) thr' bcast : inv s -> wakes (s_thr s) thr' ->
  (bcast = true -> closing (s_q s) = true /\ forall t, (t < BLOCKIF_NUMTHR)%nat -> thr' t <> TWait) ->
  inv (mk_bst (s_q s) (s_rm s) thr' (s_disk s) (s_mem s) (s_log s) bcast).
Proof.
  intros H Hw Hb. pose proof (wakes_omap uncalled _ _ eq_refl Hw) as Hu.
  assert (Hfl : forall r, in_flight r (mk_bst (s_q s) (s_rm s) thr' (s_disk s) (s_mem s) (s_log s) bcast) = in_flight r s) by (intros r; unfold in_flight, open_elems; cbn; by rewrite Hu).
  split; cbn [s_q s_rm s_thr s_log s_bcast]; [apply (i_q _ H)| | | | |done|intros r; rewrite Hfl; apply (i_cnt _ H)|intros r; rewrite Hfl; apply (i_one _ H)].
  - by rewrite (wakes_omap working _ _ eq_refl Hw), (i_work _ H).
  - intros t Ht. pose proof (i_st _ H t Ht). destruct (Hw t) as [-> |[_ ->]]; done.
  - intros Hp. destruct (i_act _ H Hp) as (t & Ht & Ha). exists t. split; [done|]. destruct (Hw t) as [-> |[_ ->]]; done.
  - intros t Ht. destruct (Hw t) as [-> |[_ ->]]; [by apply (i_exit _ H)|done].
Qed.

Lemma inv_rm {E} (s : bstate E) r br : inv s -> in_flight r s = 0%nat ->
  inv (mk_bst (s_q s) (<[r := br]> (s_rm s)) (s_thr s) (s_disk s) (s_mem s) (s_log s) (s_bcast s)).
Proof.
  intros H Hr. split; try apply H. apply q_ok_rm; [apply H|]. intros x Hx. unfold in_flight, open_elems in Hr.
  apply (cnt_zero _ _ _ _ Hr). rewrite elem_of_app. by left.
Qed.

Lemma accept_ok {E} (s : bstate E) r op be fq thr' p q : inv s -> in_flight r s = 0%nat -> closing (s_q s) = false -> freeq (s_q s) = be :: fq ->
  blockif_enqueue (s_rm s) r op (s_q s) = Some (p, q) ->
  wakes (s_thr s) thr' -> (p = true -> (exists t, (t < BLOCKIF_NUMTHR)%nat /\ thr' t = TLock) \/ forall t, (t < BLOCKIF_NUMTHR)%nat -> thr' t <> TWait) ->
  inv (mk_bst q (s_rm s) thr' (s_disk s) (s_mem s) (s_log s ++ [Accepted r]) (s_bcast s)).
Proof.
  intros H Hr Hcl Hfq He Hw Hsig. destruct (enqueue_ok (s_rm s) r op (s_q s) be fq (i_q _ H) Hfq) as (p' & e & He' & Hreq & Hq & Hp). rewrite He in He'. simplify_eq.
  pose proof (q_nodup _ _ (i_q _ H)) as Hnd. rewrite Hfq in Hnd. cbn in Hnd. apply list.NoDup_cons in Hnd as [Hn _]. rewrite !not_elem_of_app in Hn. destruct Hn as (_ & Hn2 & Hn3).
  pose proof (wakes_omap uncalled _ _ eq_refl Hw) as Hu. pose proof (wakes_omap working _ _ eq_refl Hw) as Hwk. set (s' := mk_bst _ _ _ _ _ _ _).
  assert (Hbusy : forall t x, (t < BLOCKIF_NUMTHR)%nat -> working (s_thr s t) = Some x -> x <> be).
  { intros t x Ht Hx ->. apply Hn3. by apply (busy_of s t be). }
  assert (Hfl : forall r', in_flight r' s' = ((if decide (r' = r) then 1 else 0) + in_flight r' s)%nat).
  { intros r'. rewrite (in_flight_open r' s' (be :: open_elems s)).
    - rewrite cnt_cons. cbn. rewrite fn_lookup_insert, Hreq. f_equal; [repeat case_decide; congruence|]. apply cnt_ext. intros x Hx.
      rewrite fn_lookup_insert_ne; [done|]. intros <-. unfold open_elems in Hx. rewrite elem_of_app in Hx. destruct Hx as [|Hx]; [done|].
      apply (elem_of_omap_thr uncalled) in Hx as (t & Ht & Hx). apply (Hbusy t be Ht); [|done]. by destruct (s_thr s t).
    - unfold open_elems. cbn. rewrite Hu, <- app_assoc. symmetry. apply Permutation_middle. }
  assert (Hexit : forall t, (t < BLOCKIF_NUMTHR)%nat -> thr' t <> TExit).
  { intros t Ht. destruct (Hw t) as [-> |[_ ->]]; [|done]. intros Hx. apply (i_exit _ H t Ht) in Hx. congruence. }
  split; cbn [s_q s_rm s_thr s_log s_bcast]; [done|cbn; by rewrite Hwk, (i_work _ H)| | | | | |].
  - intros t Ht. pose proof (i_st _ H t Ht) as Hs. cbn. destruct (Hw t) as [-> |[_ ->]]; [|done]. apply st_ok_insert; [|done]. intros Hx. by apply (Hbusy t be Ht).
  - intros _. assert (Hold : (exists t, (t < BLOCKIF_NUMTHR)%nat /\ active (s_thr s t) = true) -> exists t, (t < BLOCKIF_NUMTHR)%nat /\ active (thr' t) = true).
    { intros (t & Ht & Ha). exists t. split; [done|]. destruct (Hw t) as [-> |[_ ->]]; done. }
    destruct p'.
    + destruct (Hsig eq_refl) as [(t & Ht & E')|Hall]; [exists t; cbn; by rewrite E'|].
      assert (H0 : (0 < BLOCKIF_NUMTHR)%nat) by (by apply Nat.ltb_lt). exists 0%nat. split; [done|]. specialize (Hall _ H0). specialize (Hexit _ H0). revert Hall Hexit. cbn. by destruct (thr' 0%nat).
    + apply Hold. destruct (pendq (s_q s)) as [|x l] eqn:Epq; [|apply (i_act _ H); by rewrite Epq].
      destruct (busyq (s_q s)) as [|x l] eqn:Ebq; [by destruct (Hp eq_refl)|].
      assert (Hx : x ∈ omap (fun u => working (s_thr s u)) (seq 0 BLOCKIF_NUMTHR)) by (rewrite <- (i_work _ H), Ebq; set_solver).
      apply (elem_of_omap_thr working) in Hx as (t & Ht & Hx). exists t. split; [done|]. by eapply working_active.
  - intros t Ht Hx. by apply Hexit in Hx.
  - intros Hb. destruct (i_bc _ H Hb). congruence.
  - intros r'. rewrite Hfl. cbn [s_log s']. rewrite nacc_app, nans_app, ncan_app. pose proof (i_cnt _ H r').
    assert (Hs : nacc r' [Accepted r] = if decide (r' = r) then 1%nat else 0%nat) by (unfold nacc; cbn; destruct (Nat.eqb_spec r' r); by case_decide).
    rewrite Hs. change (nans r' [Accepted r]) with 0%nat. change (ncan r' [Accepted r]) with 0%nat. lia.
  - intros r'. rewrite Hfl. pose proof (i_one _ H r'). case_decide; [subst; lia|lia].
Qed.

Lemma cancel_ok {E} (s : bstate E) r ret q : inv s -> blockif_cancel (s_rm s) r (s_q s) = Some (CancelRet ret q) ->
  inv (mk_bst q (s_rm s) (s_thr s) (s_disk s) (s_mem s) (if ret =? 0 then s_log s ++ [Cancelled r] else s_log s) (s_bcast s)).
Proof.
  intros H. unfold blockif_cancel. set (is_r := fun be : nat => _). destruct (tailq_find is_r (pendq (s_q s))) as [be|] eqn:Ep.
  2: { destruct (tailq_find is_r (busyq (s_q s))); [case_bool_decide|]; intros; simplify_eq; by destruct s. }
  apply tailq_find_some in Ep as [Hbe Hr]. apply bool_decide_eq_true in Hr.
  destruct (complete_ok (s_rm s) be (s_q s) (i_q _ H)) as (f & -> & Hq & Hreq & Hsame); [rewrite elem_of_app; by left|]. cbn [mbind option_bind]. intros; simplify_eq. cbn [Z.eqb].
  pose proof (q_nodup _ _ (i_q _ H)) as Hnd. apply list.NoDup_app in Hnd as (_ & Hd1 & Hnd). apply list.NoDup_app in Hnd as (Hnp & Hd2 & _).
  pose proof (Hd2 be Hbe) as Hnb. rewrite (list_filter_ne be (busyq (s_q s)) Hnb) in *. set (s' := mk_bst _ _ _ _ _ _ _).
  assert (Hbusy : forall t x, (t < BLOCKIF_NUMTHR)%nat -> working (s_thr s t) = Some x -> x <> be).
  { intros t x Ht Hx ->. apply Hnb. by apply (busy_of s t be). }
  assert (Hfl : forall r', in_flight r' s = ((if decide (r' = r) then 1 else 0) + in_flight r' s')%nat).
  { intros r'. rewrite (in_flight_open r' s (be :: open_elems s')).
    - rewrite cnt_cons, Hr. f_equal; [repeat case_decide; congruence|]. symmetry. apply cnt_ext. intros x Hx. apply Hreq. intros ->. unfold open_elems in Hx. rewrite elem_of_app in Hx.
      destruct Hx as [[? _]%list_elem_of_filter|Hx]; [done|]. apply (elem_of_omap_thr uncalled) in Hx as (t & Ht & Hx). apply (Hbusy t be Ht); [|done]. cbn in Hx. by destruct (s_thr s t).
    - unfold open_elems. cbn. by rewrite (remove_perm be _ Hnp Hbe) at 1. }
  split; cbn [s_q s_rm s_thr s_log s_bcast s' busyq pendq reqs closing]; [done|apply (i_work _ H)| | |apply (i_exit _ H)|apply (i_bc _ H)| |].
  - intros t Ht. apply (st_ok_same (reqs (s_q s))); [|by apply (i_st _ H)]. intros x Hx. apply Hsame; [by apply (busy_of s t x)|by apply (Hbusy t x)].
  - intros _. apply (i_act _ H). intros E'. rewrite E' in Hbe. by apply not_elem_of_nil in Hbe.
  - intros r'. fold s'. pose proof (i_cnt _ H r') as Hc. rewrite Hfl in Hc. rewrite nacc_app, nans_app, ncan_app.
    assert (Hs : ncan r' [Cancelled r] = if decide (r' = r) then 1%nat else 0%nat) by (unfold ncan; cbn; destruct (Nat.eqb_spec r' r); by case_decide).
    rewrite Hs. change (nacc r' [Cancelled r]) with 0%nat. change (nans r' [Cancelled r]) with 0%nat. lia.
  - intros r'. fold s'. pose proof (i_one _ H r') as Ho. rewrite Hfl in Ho. lia.
Qed.

Lemma inv_opened {D} (d : D) m rm : inv (opened d m rm).
Proof.
  assert (Hn : forall n, omap (fun _ : nat => @None nat) (seq n BLOCKIF_NUMTHR) = []).
  { induction BLOCKIF_NUMTHR as [|k IH]; intros n; [done|]. apply IH. }
  split; cbn [opened s_q s_rm s_thr s_log s_bcast]; [|cbn; by rewrite Hn|done|done|done|done| |].
  - split; cbn; [|by apply list.Forall_forall|done..]. rewrite app_nil_r. symmetry. apply Permutation_rev.
  - intros r. unfold in_flight, open_elems. cbn. by rewrite Hn.
  - intros r. unfold in_flight, open_elems. cbn. rewrite Hn. cbn. lia.
Qed.

Section invariant.
Context {D : Type} `{!Disk D} (bc : blockif_conf) (malloc : option (list Z)) (Hgeom : bc_isgeom bc = false).

Lemma proc_total op br (d : D) m : exists r, blockif_proc bc op (thr_buf bc malloc) br d m = Some r.
Proof using Hgeom.
  unfold thr_buf. rewrite Hgeom. unfold blockif_proc. replace (if (br_iovcnt br <=? 1)%nat then None else None) with (@None (list Z)) by (by case_match).
  destruct op; repeat case_match; eauto.
Qed.


Lemma thr_ok t s : (t < BLOCKIF_NUMTHR)%nat -> inv s -> active (s_thr s t) = true ->
  exists s', blockif_thr bc malloc t s = Some s' /\ inv s' /\ (work_left s' < work_left s)%nat.
Proof using Hgeom.
  intros Ht H Ha. unfold blockif_thr. destruct (s_thr s t) as [|be|be err|be| |] eqn:E; try done; clear Ha.
  - destruct (look_ok t s Ht) as (p & q & -> & Hi & Hl); [apply thr_detached; [done..|by rewrite E]|]. cbn [mbind option_bind].
    eexists. split; [reflexivity|]. split; [done|]. pose proof (weight_insert (s_thr s) t p Ht) as Hw. rewrite E in Hw. unfold work_left. cbn in *. lia.
  - pose proof (busy_of s t be Ht H ltac:(by rewrite E)) as [_ [_ [r Hr]]]. rewrite Hr. cbn [mbind option_bind].
    destruct (proc_total (be_op (reqs (s_q s) be)) (s_rm s r) (s_disk s) (s_mem s)) as [[[[d m] br] err] ->]. cbn [mbind option_bind].
    eexists. split; [reflexivity|]. split; [by apply proc_step_ok|]. pose proof (weight_insert (s_thr s) t (TDone be err) Ht) as Hw. rewrite E in Hw. unfold work_left. cbn in *. lia.
  - pose proof (busy_of s t be Ht H ltac:(by rewrite E)) as [_ [_ [r Hr]]]. rewrite Hr. cbn [mbind option_bind].
    eexists. split; [reflexivity|]. split; [by apply (done_step_ok t s be err)|]. pose proof (weight_insert (s_thr s) t (TCalled be) Ht) as Hw. rewrite E in Hw. unfold work_left. cbn in *. lia.
  - destruct (called_detached t s be Ht H E) as (q & -> & Hpq & Hd). cbn [mbind option_bind].
    destruct (look_ok t _ Ht Hd) as (p & q' & Hl & Hi & Hm). cbn [s_q] in Hl. rewrite Hl. cbn [mbind option_bind].
    eexists. split; [reflexivity|]. split; [done|]. pose proof (weight_insert (s_thr s) t p Ht) as Hw. rewrite E in Hw. unfold work_left. cbn in *. rewrite Hpq in Hm. lia.
Qed.

Lemma exec_ok c s s' : inv s -> exec bc malloc c s = Some s' -> inv s'.
Proof using Hgeom.
  intros H Hx. destruct c as [t|r br op w|r br|r|t| |]; destruct s as [q rm thr d m log bcast]; cbn [exec] in Hx.
  - destruct (Nat.ltb_spec t BLOCKIF_NUMTHR) as [Ht|]; [|done]. destruct (active (thr t)) eqn:Ha.
    + destruct (thr_ok t _ Ht H Ha) as (s2 & Hs & Hi & _). congruence.
    + exfalso. unfold blockif_thr in Hx. cbn [s_thr] in Hx. by destruct (thr t).
  - destruct (closing q) eqn:Hcl; [done|]. destruct (Nat.eqb_spec (in_flight r (mk_bst q rm thr d m log bcast)) 0) as [Hr|]; [|done]. cbn [orb negb] in Hx.
    pose proof (inv_rm _ r br H Hr) as H'. cbn [s_q s_rm s_thr s_disk s_mem s_log s_bcast] in H'. unfold blockif_request in Hx.
    destruct (freeq q) as [|be fq] eqn:Efq.
    + cbn in Hx. simplify_eq. destruct H' as [? ? ? ? ? ? Hc ?]. split; [done..| |done].
      intros r'. cbn [s_log] in *. rewrite nacc_app, nans_app, ncan_app, Hc. unfold in_flight, open_elems. cbn. lia.
    + destruct (blockif_enqueue (<[r:=br]> rm) r op q) as [[p q']|] eqn:Ee; [|done]. cbn [mbind option_bind] in Hx.
      destruct (if p : bool then _ else _) as [thr'|] eqn:Ew; [|done]. cbn [mbind option_bind] in Hx. simplify_eq. cbn [Z.eqb].
      apply (accept_ok _ r op be fq thr' p q' H' Hr Hcl Efq Ee).
      * destruct p; [by apply signal_wakes in Ew as [? _]|simplify_eq; by left].
      * intros ->. by apply signal_wakes in Ew as [_ ?].
  - destruct (Nat.eqb_spec (in_flight r (mk_bst q rm thr d m log bcast)) 0) as [Hr|]; [|done]. simplify_eq. by apply (inv_rm _ r br H Hr).
  - destruct (blockif_cancel rm r q) as [[ret q'|be]|] eqn:Ec; [|done..]. cbn in Hx. simplify_eq. by apply (cancel_ok _ r ret q' H).
  - case_decide as Ht; [|done]. simplify_eq. apply (inv_wake _ (<[t:=TLock]> thr) bcast H); [by apply wakes_insert|]. intros Hb. destruct (i_bc _ H Hb) as [? Hall].
    split; [done|]. intros u Hu. fcase u t; [done|by apply Hall].
  - simplify_eq. destruct H as [[Hp Hf Hpe Hbu Hk] Hw Hst Hact Hex Hbc Hcnt Hone]. split; [by split|done|done|done|done| |done|done]. intros Hb. split; [done|]. by apply Hbc.
  - destruct (closing q) eqn:Hcl; [|done]. simplify_eq. apply (inv_wake _ (pthread_cond_broadcast thr) true H).
    + intros t. cbn. unfold pthread_cond_broadcast. case_decide; auto.
    + intros _. split; [done|]. intros t _. unfold pthread_cond_broadcast. by case_decide.
Qed.

Lemma reachable_inv s : reachable bc malloc s -> inv s.
Proof using Hgeom.
  intros (d & m & rm & l & Hl). assert (H : inv (opened d m rm)) by apply inv_opened. revert Hl H. generalize (opened d m rm). induction l as [|c l IH]; intros s0 Hl H; cbn in Hl.
  - by simplify_eq.
  - destruct (exec bc malloc c s0) as [s1|] eqn:Ec; [|done]. apply (IH s1); [done|]. by apply (exec_ok c s0).
Qed.
End invariant.

(** ** Every request is answered *)
Definition drained {D} (s : bstate D) : Prop :=
  pendq (s_q s) = [] /\ busyq (s_q s) = [] /\ forall r, nacc r (s_log s) = (nans r (s_log s) + ncan r (s_log s))%nat.

Lemma idle_drained {D} (s : bstate D) : inv s -> (forall t, (t < BLOCKIF_NUMTHR)%nat -> active (s_thr s t) = false) -> drained s.
Proof.
  intros H Ha. assert (Hn : forall g : tpos -> option nat, (forall p, active p = false -> g p = None) -> omap (fun u => g (s_thr s u)) (seq 0 BLOCKIF_NUMTHR) = []).
  { intros g Hg. destruct (omap _ _) as [|x l] eqn:E; [done|]. assert (Hx : x ∈ omap (fun u => g (s_thr s u)) (seq 0 BLOCKIF_NUMTHR)) by (rewrite E; set_solver).
    apply (elem_of_omap_thr g) in Hx as (t & Ht & Hx). by rewrite (Hg _ (Ha t Ht)) in Hx. }
  assert (Hp : pendq (s_q s) = []).
  { destruct (pendq (s_q s)) as [|x l] eqn:E; [done|]. destruct (i_act _ H) as (t & Ht & Hat); [by rewrite E|]. by rewrite Ha in Hat. }
  split; [done|]. split.
  - pose proof (i_work _ H) as Hw. rewrite Hn in Hw by (by intros []). by apply Permutation_nil_r in Hw.
  - intros r. rewrite (i_cnt _ H r). unfold in_flight, open_elems. rewrite Hp, Hn by (by intros []). cbn. lia.
Qed.

Lemma thr_bcast {D} `{!Disk D} bc malloc t (s s' : bstate D) : blockif_thr bc malloc t s = Some s' -> s_bcast s' = s_bcast s.
Proof.
  unfold blockif_thr. intros H. destruct (s_thr s t); [| | | |done..].
  - destruct (look_for_work t (s_q s)) as [[p q]|]; cbn in H; by simplify_eq.
  - destruct (be_req _) as [r|]; [|done]. cbn in H. destruct (blockif_proc _ _ _ _ _ _) as [[[[d m] br] err]|]; cbn in H; by simplify_eq.
  - destruct (be_req _) as [r|]; cbn in H; by simplify_eq.
  - destruct (blockif_complete _ _ _) as [q|]; [|done]. cbn in H. destruct (look_for_work t q) as [[p q']|]; cbn in H; by simplify_eq.
Qed.

Lemma thr_run {D} `{!Disk D} bc malloc (ts : list nat) : bc_isgeom bc = false -> forall s s' : bstate D, inv s -> exec_all bc malloc (CThr <$> ts) s = Some s' ->
  inv s' /\ (length ts + work_left s' <= work_left s)%nat /\ s_bcast s' = s_bcast s.
Proof.
  intros Hg. induction ts as [|t ts IH]; intros s s' H Hs; [cbn in Hs; simplify_eq; split; [done|split; [cbn; lia|done]]|].
  rewrite fmap_cons in Hs. cbn [exec_all] in Hs. destruct (exec bc malloc (CThr t) s) as [s1|] eqn:Ec; [|done]. cbn [mbind option_bind] in Hs.
  unfold exec in Ec. destruct s as [q rm thr d m log bcast]. destruct (Nat.ltb_spec t BLOCKIF_NUMTHR) as [Ht|]; [|done].
  pose proof (thr_bcast _ _ _ _ _ Ec) as Hb. destruct (active (thr t)) eqn:Ha; [|unfold blockif_thr in Ec; cbn [s_thr] in Ec; by destruct (thr t)].
  destruct (thr_ok bc malloc Hg t _ Ht H Ha) as (s2 & Hs2 & Hi & Hl). rewrite Hs2 in Ec. simplify_eq.
  destruct (IH _ _ Hi Hs) as (Hi' & Hl' & Hb'). split; [done|]. split; [cbn [length]; lia|congruence].
Qed.

(** C10: the callers leave a request alone from the time it is accepted until it is
    answered or cancelled and make none once the device is being closed (the virtio
    device does not keep to the former when a guest makes a descriptor available twice,
    see [overwritten_request_stuck]); [bc_isgeom] is 0, as [blockif_open]
    leaves it.  Then, in every interleaving: a request is answered at most
    once for each time it was accepted and one is open at a time; no assertion fails
    and no element is lost; the threads alone come to an end within [work_left] steps,
    and when none of them can go on every accepted request has been answered or
    cancelled.  Once [blockif_close] has called [pthread_cond_broadcast] all threads
    have ended then, so that it returns with nothing left on the queues. *)
Theorem blockif_requests_served {D} `{!Disk D} bc malloc (s : bstate D) : bc_isgeom bc = false -> reachable bc malloc s ->
  (forall r, nans r (s_log s) + ncan r (s_log s) <= nacc r (s_log s) <= S (nans r (s_log s) + ncan r (s_log s)))%nat /\
  freeq (s_q s) ++ pendq (s_q s) ++ busyq (s_q s) ≡ₚ seq 0 BLOCKIF_MAXREQ /\
  forall ts s', exec_all bc malloc (CThr <$> ts) s = Some s' ->
    (length ts <= work_left s)%nat /\
    ((exists t s'', exec bc malloc (CThr t) s' = Some s'') \/
     (drained s' /\ (s_bcast s = true -> forall t, (t < BLOCKIF_NUMTHR)%nat -> s_thr s' t = TExit))).
Proof.
  intros Hg Hr. pose proof (reachable_inv bc malloc Hg s Hr) as H. split; [|split; [apply (i_q _ H)|]].
  { intros r. pose proof (i_cnt _ H r). pose proof (i_one _ H r). lia. }
  intros ts s' Hs. destruct (thr_run bc malloc ts Hg s s' H Hs) as (H' & Hl & Hb). split; [lia|].
  destruct (decide (Exists (fun t => active (s_thr s' t) = true) (seq 0 BLOCKIF_NUMTHR))) as [He|Hn].
  - left. apply list.Exists_exists in He as (t & Ht%elem_of_seq & Ha). assert (Ht' : (t < BLOCKIF_NUMTHR)%nat) by lia.
    destruct (thr_ok bc malloc Hg t s' Ht' H' Ha) as (s2 & Hs2 & _). exists t, s2. unfold exec. destruct s'. by rewrite (proj2 (Nat.ltb_lt _ _) Ht').
  - right. assert (Ha : forall t, (t < BLOCKIF_NUMTHR)%nat -> active (s_thr s' t) = false).
    { intros t Ht. apply not_true_is_false. intros Ha. apply Hn, list.Exists_exists. exists t. split; [apply elem_of_seq; lia|done]. }
    split; [by apply idle_drained|]. rewrite <- Hb. intros Hbc t Ht. destruct (i_bc _ H' Hbc) as [_ Hw]. specialize (Ha t Ht). specialize (Hw t Ht). revert Ha Hw. by destruct (s_thr s' t).
Qed.

(** A request is refused with E2BIG exactly when all 72 elements are in use. *)
Lemma blockif_request_result {D} `{!Disk D} bc malloc (s : bstate D) r br op : bc_isgeom bc = false -> reachable bc malloc s -> in_flight r s = 0%nat ->
  exists err p q, blockif_request (<[r := br]> (s_rm s)) r op (s_q s) = Some (err, p, q) /\
    (err = 0 \/ err = E2BIG) /\ (err = E2BIG <-> (length (pendq (s_q s)) + length (busyq (s_q s)) = BLOCKIF_MAXREQ)%nat) /\ (err = E2BIG -> q = s_q s).
Proof.
  intros Hg Hr Hf. pose proof (reachable_inv bc malloc Hg s Hr) as H. pose proof (inv_rm s r br H Hf) as H'.
  pose proof (Permutation_length (q_perm _ _ (i_q _ H))) as Hl. rewrite !length_app, length_seq in Hl. unfold blockif_request.
  destruct (freeq (s_q s)) as [|be fq] eqn:E.
  - exists E2BIG, false, (s_q s). cbn [length] in Hl. split; [done|]. split; [by right|]. split; [split; [intros; lia|done]|done].
  - destruct (enqueue_ok _ r op (s_q s) be fq (i_q _ H') E) as (p & e & Hq & _). cbn [s_rm] in Hq. rewrite Hq. cbn [mbind option_bind].
    eexists _, _, _. split; [reflexivity|]. cbn [length] in Hl. split; [by left|]. split; [|done]. split; [done|lia].
Qed.

(** [blockif_cancel]: 0 takes the request off the pending list; it waits only for an
    element that a thread is processing, which that thread ends by itself; -1 says
    that no element holds the request. *)
Theorem blockif_cancel_correct {D} `{!Disk D} bc malloc (s : bstate D) r : bc_isgeom bc = false -> reachable bc malloc s ->
  exists res, blockif_cancel (s_rm s) r (s_q s) = Some res /\
    match res with
    | CancelWait be => exists t s', (t < BLOCKIF_NUMTHR)%nat /\ s_thr s t = TProc be /\ exec bc malloc (CThr t) s = Some s' /\ be_status (reqs (s_q s') be) = BST_DONE
    | CancelRet ret q =>
        (ret = 0 /\ in_flight r s = 1%nat /\ (forall x, x ∈ pendq q -> be_req (reqs q x) <> Some r) /\ (length (pendq q) + 1 = length (pendq (s_q s)))%nat) \/
        (ret = -1 /\ q = s_q s /\ forall x, x ∈ pendq q ++ busyq q -> be_req (reqs q x) <> Some r) \/
        (ret = - EBUSY /\ q = s_q s /\ exists t be, (t < BLOCKIF_NUMTHR)%nat /\ working (s_thr s t) = Some be /\ be_req (reqs q be) = Some r)
    end.
Proof.
  intros Hg Hr. pose proof (reachable_inv bc malloc Hg s Hr) as H. unfold blockif_cancel. set (is_r := fun be : nat => _).
  assert (Hwk : forall be, be ∈ busyq (s_q s) -> exists t, (t < BLOCKIF_NUMTHR)%nat /\ working (s_thr s t) = Some be).
  { intros be Hb. rewrite (i_work _ H) in Hb. by apply (elem_of_omap_thr working). }
  destruct (tailq_find is_r (pendq (s_q s))) as [be|] eqn:Ep; [|destruct (tailq_find is_r (busyq (s_q s))) as [be|] eqn:Eb].
  - apply tailq_find_some in Ep as [Hbe Hbr]. apply bool_decide_eq_true in Hbr.
    destruct (complete_ok (s_rm s) be (s_q s) (i_q _ H)) as (f & Hc & Hq & Hreq & _); [rewrite elem_of_app; by left|]. rewrite Hc. cbn [mbind option_bind]. eexists. split; [reflexivity|]. left.
    pose proof (q_nodup _ _ (i_q _ H)) as Hnd. apply list.NoDup_app in Hnd as (_ & _ & Hnd). apply list.NoDup_app in Hnd as (Hnp & _ & _). pose proof (remove_perm be _ Hnp Hbe) as Hperm.
    pose proof (i_one _ H r) as Ho. rewrite (in_flight_open r s (be :: filter (fun x => x <> be) (pendq (s_q s)) ++ omap (fun t => uncalled (s_thr s t)) (seq 0 BLOCKIF_NUMTHR))) in Ho |- * by (unfold open_elems; by rewrite Hperm at 1).
    rewrite cnt_cons, decide_True, cnt_app in Ho |- * by done. split; [done|]. split; [lia|]. cbn [pendq reqs]. split.
    + intros x Hx. pose proof Hx as [Hne _]%list_elem_of_filter. rewrite Hreq by done. apply (cnt_zero _ _ (filter (fun x => x <> be) (pendq (s_q s)))); [lia|done].
    + apply Permutation_length in Hperm. cbn [length] in Hperm. lia.
  - apply tailq_find_some in Eb as [Hbe Hbr]. apply bool_decide_eq_true in Hbr. eexists. split; [reflexivity|]. destruct (Hwk be Hbe) as (t & Ht & Hw). case_bool_decide as Hs.
    + pose proof (i_st _ H t Ht) as Hst. assert (Et : s_thr s t = TProc be) by (destruct (s_thr s t); cbn in Hst, Hw; simplify_eq; congruence).
      exists t. unfold exec. destruct s as [q rm thr d m log bcast]. rewrite (proj2 (Nat.ltb_lt _ _) Ht). cbn [s_thr s_q] in *. unfold blockif_thr. cbn [s_thr s_q s_rm s_disk s_mem]. rewrite Et, Hbr. cbn [mbind option_bind].
      destruct (proc_total bc malloc Hg (be_op (reqs q be)) (rm r) d m) as [[[[d' m'] br] err] Hp]. rewrite Hp. cbn [mbind option_bind]. eexists. split; [done|]. split; [done|]. split; [reflexivity|]. cbn. by rewrite fn_lookup_insert.
    + right. right. split; [done|]. split; [done|]. by exists t, be.
  - eexists. split; [reflexivity|]. right. left. split; [done|]. split; [done|]. intros x Hx. rewrite elem_of_app in Hx. apply (bool_decide_eq_false (be_req (reqs (s_q s) x) = Some r)).
    destruct Hx as [Hx|Hx]; [exact (tailq_find_none _ _ _ Ep Hx)|exact (tailq_find_none _ _ _ Eb Hx)].
Qed.

(** ** Runs *)
#[local] Transparent BLOCKIF_NUMTHR.

Definition rd (off : Z) : blockif_req := mk_breq [(0, 512)] off 512.
Definition start0 : bstate bytes := opened (fun _ => 0) (fun _ => 0) (fun _ => rd 0).
Definition run0 := exec_all (D := bytes) (Disk0 := ram_disk 65536) conf0 None.
(** All threads wait, then two requests in sequence. *)
Definition two_reads : list cmd := (CThr <$> seq 0 8) ++ [CReq 1 (rd 0) BOP_READ (Some 3%nat); CReq 2 (rd 512) BOP_READ None].
Definition after_two : bstate bytes := default start0 (run0 two_reads start0).

Lemma after_two_reachable : reachable (Disk0 := ram_disk 65536) conf0 None after_two.
Proof.
  exists (fun _ => 0), (fun _ => 0), (fun _ => rd 0), two_reads. unfold after_two, run0, start0.
  assert (H : match exec_all (Disk0 := ram_disk 65536) conf0 None two_reads (opened (fun _ => 0) (fun _ => 0) (fun _ => rd 0)) with Some _ => true | None => false end = true)
    by (vm_compute; reflexivity).
  by destruct (exec_all conf0 None two_reads _).
Qed.

Lemma blockif_requests_served_witness : nacc 2 (s_log after_two) = 1%nat /\ length (pendq (s_q after_two)) = 2%nat /\
  forall ts s', run0 (CThr <$> ts) after_two = Some s' -> (length ts <= 9)%nat.
Proof.
  split; [reflexivity|]. split; [reflexivity|]. intros ts s' Hs.
  apply (blockif_requests_served (Disk0 := ram_disk 65536) conf0 None after_two eq_refl after_two_reachable) in Hs as [H _]. exact H.
Defined.

Lemma blockif_cancel_correct_witness : exists res, blockif_cancel (s_rm after_two) 2 (s_q after_two) = Some res /\
  match res with CancelRet ret _ => ret = 0 | _ => False end.
Proof.
  destruct (blockif_cancel_correct (Disk0 := ram_disk 65536) conf0 None after_two 2 eq_refl after_two_reachable) as (res & Hres & _).
  exists res. split; [exact Hres|]. vm_compute in Hres. injection Hres as <-. reflexivity.
Defined.

(** A flush is said to end at OFF_MAX, behind every request; it ends at offset 128, and
    a read of that offset waits for it. *)
Lemma flush_blocks_128 : end_of BOP_FLUSH (rd 0) = 128 /\
  match run0 ((CThr <$> seq 0 8) ++ [CReq 1 (rd 0) BOP_FLUSH (Some 3%nat); CReq 2 (rd 128) BOP_READ None]) start0 with
  | Some s => List.map (fun be => be_status (reqs (s_q s) be)) (pendq (s_q s)) = [BST_PEND; BST_BLOCK]
  | None => False
  end.
Proof. split; [reflexivity|vm_compute; reflexivity]. Qed.

(** Two requests that end at the same place: the one that starts there goes on when
    either of them is complete, and is processed together with the other. *)
Lemma second_predecessor_ignored :
  match run0 ((CThr <$> seq 0 8) ++ [CReq 1 (rd 0) BOP_WRITE (Some 0%nat); CReq 2 (rd 0) BOP_WRITE (Some 1%nat); CReq 3 (rd 512) BOP_READ None] ++
              [CThr 0; CThr 1; CThr 1; CThr 1; CThr 1]) start0 with
  | Some s => List.map (fun be => (be_req (reqs (s_q s) be), be_status (reqs (s_q s) be))) (busyq (s_q s)) = [(Some 1%nat, BST_BUSY); (Some 3%nat, BST_BUSY)]
  | None => False
  end.
Proof. vm_compute. reflexivity. Qed.

(** A request overwritten while it is open, as [virtio_blk_proc] does when a guest makes
    the same descriptor available twice: the blocked element never becomes pending,
    and stays when all threads wait. *)
Definition overwrite (r : nat) (br : blockif_req) (s : bstate bytes) : bstate bytes :=
  mk_bst (s_q s) (<[r := br]> (s_rm s)) (s_thr s) (s_disk s) (s_mem s) (s_log s) (s_bcast s).
Lemma overwritten_request_stuck :
  match run0 (CThr <$> replicate 4 3%nat) (overwrite 2 (rd 4096) after_two) with
  | Some s => List.map (fun be => be_status (reqs (s_q s) be)) (pendq (s_q s)) = [BST_BLOCK] /\ forallb (fun t => negb (active (s_thr s t))) (seq 0 8) = true
  | None => False
  end.
Proof. vm_compute. split; reflexivity. Qed.

(** ** The virtio block device (virtio_block.c) *)
Definition ENOSYS : Z := 38.
Definition VIRTIO_BLK_RINGSZ : Z := 64.
Definition VIRTIO_BLK_S_OK : Z := 0.
Definition VIRTIO_BLK_S_IOERR : Z := 1.
Definition VIRTIO_BLK_S_UNSUPP : Z := 2.
Definition VBH_OP_READ : Z := 0.
Definition VBH_OP_WRITE : Z := 1.
Definition VBH_OP_FLUSH : Z := 4.
Definition VBH_OP_FLUSH_OUT : Z := 5.
Definition VBH_OP_IDENT : Z := 8.
Definition VBH_FLAG_BARRIER : Z := 0x80000000.
Definition VIRTIO_BLK_BLK_ID_BYTES : Z := 20.

(** The status byte [virtio_blk_done] writes before it returns the descriptor. *)
Definition blk_status (err : Z) : Z :=
  if (err =? EOPNOTSUPP) || (err =? ENOSYS) then VIRTIO_BLK_S_UNSUPP
  else if negb (err =? 0) then VIRTIO_BLK_S_IOERR
  else VIRTIO_BLK_S_OK.

(** What [virtio_blk_proc] does with a chain: return without an answer, pass a request
    on, or answer at once after the writes of [VBH_OP_IDENT].  The second component of
    the last two is the address of the status byte.  A failed assertion is [None]. *)
Inductive blk_action :=
  | BlkDrop
  | BlkSubmit (op : blockop) (br : blockif_req) (status : Z)
  | BlkDone (err : Z) (status : Z) (m : bytes).

(** [strncpy] of the identification, of at most [sizeof(ident)] bytes, after [memset]. *)
Definition put_ident (ident : list Z) (v : Z * Z) (m : bytes) : bytes :=
  let n := Z.min v.2 (VIRTIO_BLK_BLK_ID_BYTES + 1) in
  let m := memcpy_to m v.1 (replicate (Z.to_nat v.2) 0) in
  memcpy_to m v.1 (take (Z.to_nat n) (ident ++ replicate (Z.to_nat n) 0)).

(** [sector] and [type] are the fields of the header as the guest has them when they
    are read, [iov] the buffers of the chain and [n] their number. *)
Definition virtio_blk_proc (ident : list Z) (sector type : Z) (iov : list (Z * Z)) (n : nat) (m : bytes) : option blk_action :=
  if (n <? 2)%nat || (BLOCKIF_IOV_MAX + 2 <? n)%nat then Some BlkDrop else
  v0 ← iov !! 0%nat;
  if negb (v0.2 =? 16) then Some BlkDrop else
  let data := take (n - 2) (drop 1 iov) in
  last ← iov !! (n - 1)%nat;
  _ ← assert_ (last.2 =? 1);
  let type := Z.ldiff type VBH_FLAG_BARRIER in
  let br := mk_breq data (off_t (u64 (sector * DEV_BSIZE))) (total data) in
  if type =? VBH_OP_READ then Some (BlkSubmit BOP_READ br last.1)
  else if type =? VBH_OP_WRITE then Some (BlkSubmit BOP_WRITE br last.1)
  else if (type =? VBH_OP_FLUSH) || (type =? VBH_OP_FLUSH_OUT) then Some (BlkSubmit BOP_FLUSH br last.1)
  else if type =? VBH_OP_IDENT then v1 ← iov !! 1%nat; Some (BlkDone 0 last.1 (put_ident ident v1 m))
  else Some (BlkDone EOPNOTSUPP last.1 m).

(** What a well formed chain becomes: the request has the data buffers of the chain, as
    many bytes to transfer as they hold, and fits the array of a request; the status
    is the byte after the data.  Only chains with a header of 16 bytes and a status of
    one byte get as far as an answer. *)
Theorem virtio_blk_proc_correct ident sector type hdr data status rest m : iov_ok data -> 0 <= sector < 2 ^ 54 -> (length data <= BLOCKIF_IOV_MAX)%nat ->
  let iov := (hdr, 16) :: data ++ (status, 1) :: rest in
  exists act, virtio_blk_proc ident sector type iov (length data + 2) m = Some act /\
    match act with
    | BlkDrop => False
    | BlkSubmit op br st => st = status /\ br_iov br = data /\ br_offset br = 512 * sector /\ br_resid br = Z.of_nat (length (addrs data)) /\
        (br_iovcnt br <= BLOCKIF_IOV_MAX)%nat /\ op <> BOP_DELETE
    | BlkDone err st _ => st = status /\ (err = 0 \/ blk_status err = VIRTIO_BLK_S_UNSUPP)
    end.
Proof.
  intros Hok Hs Hl iov. unfold virtio_blk_proc.
  replace ((length data + 2 <? 2)%nat || (BLOCKIF_IOV_MAX + 2 <? length data + 2)%nat) with false
    by (symmetry; apply orb_false_intro; apply Nat.ltb_ge; lia).
  cbn [iov lookup list_lookup mbind option_bind snd Z.eqb Pos.eqb negb]. rewrite Nat.add_sub.
  assert (Hlast : ((hdr, 16) :: data ++ (status, 1) :: rest) !! (length data + 2 - 1)%nat = Some (status, 1)).
  { replace (length data + 2 - 1)%nat with (S (length data)) by lia. apply (list_lookup_middle data rest (status, 1)). done. }
  unfold iov. rewrite Hlast. cbn [mbind option_bind fst snd]. cbn [assert_ Z.eqb Pos.eqb drop]. rewrite drop_0, take_app_length.
  assert (Ho : off_t (u64 (sector * DEV_BSIZE)) = 512 * sector) by (unfold off_t, u64, DEV_BSIZE; dlia). rewrite Ho.
  rewrite <- (length_addrs data Hok). set (ty := Z.ldiff type VBH_FLAG_BARRIER).
  destruct (ty =? VBH_OP_READ); [eexists; split; [reflexivity|]; by split_and!|].
  destruct (ty =? VBH_OP_WRITE); [eexists; split; [reflexivity|]; by split_and!|].
  destruct (_ || _); [eexists; split; [reflexivity|]; by split_and!|].
  destruct (ty =? VBH_OP_IDENT); [|eexists; split; [reflexivity|]; split; [done|by right]].
  destruct data as [|v1 d]; cbn; (eexists; split; [reflexivity|]; split; [done|by left]).
Qed.

Lemma virtio_blk_proc_correct_witness : exists act,
  virtio_blk_proc [77] 7 VBH_OP_WRITE [(0x1000, 16); (0x2000, 512); (0x3000, 1)] 3 (fun _ => 0) = Some act /\
  match act with BlkSubmit op br st => br_offset br = 512 * 7 /\ st = 0x3000 | _ => False end.
Proof.
  destruct (virtio_blk_proc_correct [77] 7 VBH_OP_WRITE 0x1000 [(0x2000, 512)] 0x3000 [] (fun _ => 0)) as (act & Hact & Hp); [by repeat constructor|done|by apply Nat.leb_le|].
  exists act. split; [exact Hact|]. vm_compute in Hact. injection Hact as <-. destruct Hp as (Hst & _ & Ho & _). by split.
Defined.

(** A status buffer of another length than one byte stops the monitor. *)
Lemma status_length_stops_monitor : virtio_blk_proc [] 0 0 [(0x1000, 16); (0x2000, 512); (0x3000, 2)] 3 (fun _ => 0) = None.
Proof. reflexivity. Qed.
(** A chain with a header of another size is dropped: its request is never answered. *)
Lemma short_header_never_answered : virtio_blk_proc [] 0 0 [(0x1000, 8); (0x2000, 512); (0x3000, 1)] 3 (fun _ => 0) = Some BlkDrop.
Proof. reflexivity. Qed.

(** [virtio_blk_deinit]: the disk after the flush and whether the context was closed
    and the device released. *)
Definition virtio_blk_deinit {D} `{!Disk D} (d : D) : D * bool :=
  let '(d, err) := blockif_flush_all d in (d, negb (err =? 0)).

(** Only a failed flush releases anything. *)
Lemma clean_deinit_not_closed d : virtio_blk_deinit (Disk0 := ram_disk 512) d = (d, false).
Proof. reflexivity. Qed.

(** The queue takes one request more than [blockif_queuesz] says. *)
Lemma queuesz_below_capacity : (blockif_queuesz = 71)%nat /\ length (freeq blockif_q0) = 72%nat.
Proof. split; reflexivity. Qed.
